(* ===== verification/_CoqProject ===== *)
-Q . S2P
Prelude.v
Machine.v
Printf.v
Strtoul.v
PrintfFacts.v
NumText.v
Os.v
CString.v
Security.v
Malloc.v
HeapSafety.v
Traps.v
BootExample.v
Arith.v
Fetch.v
SocSim.v
Fpga.v
RvTypes.v
RvAttrs.v
RvTables.v
RvDecode.v
RvTableFacts.v
RvDecodeFacts.v
RvIsa.v
RvHart.v
RvHartFacts.v
RvTrap.v
RvTrapFacts.v
RvIntFacts.v
RvPmp.v
RvPmpFacts.v
RvPmpCache.v
RvPmpWrite.v
RvPmpRuns.v
RvCsr.v
RvCsrTable.v
RvPorts.v
RvSystem.v
RvHartInv.v
RvHartOps.v
RvHartCsr.v
RvHartTable.v
RvHartReset.v
RvConfined.v
RvHartRuns.v
RvExample.v
RvHartProps.v
RvPmpProps.v
RvCsrProps.v
RvVm.v
RvVmRef.v
RvVmWalk.v
RvVmTlb.v
RvVmOps.v
RvVmMap.v
RvVmMiss.v
RvVmAccess.v
RvVmFence.v
RvVmProps.v
RtlAlu.v
RtlAluFacts.v
RtlDecoder.v
RtlDecoderFacts.v
RtlCpu.v
RtlSystem.v
RtlSpec.v
RtlCoreFacts.v
RtlFetch.v
RtlExec.v
RtlMem.v
RtlTrap.v
RtlPriv.v
RtlRuns.v
RtlSoc.v
RtlUart.v
RtlMemory.v
RtlStart.v
RtlHart.v
RtlTop.v
RtlProps.v
