(* ===== verification/Prelude.v ===== *)
(** * Beehive: a verification library for the beehive-riscv sources

    Beehive is a RISC-V SoC with memory tagging.  The sources are its RTL
    (src/rtl), the C library its bare-metal programs are linked with
    (src/bench/tools/libc), C++ models of parts of the core (src/models/insns,
    src/models/c_ext), a processor model for the OVP simulator
    (src/models/ovp), and the host software that drives the simulated SoC and
    the FPGA board (src/bench/rtl/libsim, src/bench/emulation/libskfpga).
    This library models them as functions of Rocq and proves what they
    promise.

    ** The parts and how they interact

    The core executes RV32IM, compressed and CSR instructions.  Its every
    memory access goes over the bus to the RAM, the timer or the UART.  A
    pointer carries a 4-bit tag in its top bits; the RAM keeps a tag per
    16-byte granule and raises an interrupt when the two differ.  At start-up
    [__soc_init] draws the tags of the session ([_ossec_init]), registers the
    panic handler, and lays out the heap ([malloc_init]); malloc gives every
    block a tag of its own; the interrupt dispatcher turns a mismatch into the
    end of the program.  The string routines, printf and strtoul are the
    clients of that memory.  The harness holds the core in reset, writes the
    program through the external port, and clocks the SoC.  The OVP model is
    an instruction-level simulation of a RISC-V hart with privilege modes,
    physical memory protection and virtual memory.

    ** Files: the software

    - Prelude: machine integers as [Z] with explicit wrap-around, bit masks,
      the tactics [zlia] and [case_Z].
    - Machine: the state a program sees ([hart]: RAM, tags, CSRs, timer,
      UART), loads, stores and tag accesses, one bus transaction at a time,
      and the monad [M] in which the C routines are written: a routine
      returns, exits, or is stuck.
    - Printf, PrintfFacts, NumText: src/printf/printf.c of libc in the
      configuration it is built with.  A call yields the same text whatever it
      is written to; snprintf truncates and terminates; the conversion buffer
      is never overrun; strtoul reads back what %u, %x, %o and %d print.
    - Strtoul: ctype.c and strtoul.c; the value and end pointer of every
      input.
    - Os: _exit, the console, the 64-bit timer behind 32-bit registers, the
      alarm.  Reads are not torn, a new deadline raises no early interrupt.
    - CString: string.c; each routine as an equation on the state, tag check
      included.
    - Security: internals/security.c and internals/no_security.c as two
      instances of the class [OsSec], with the laws [OsSecLaws] that the
      allocator is proved against.
    - Malloc, HeapSafety: internals/malloc.c and memmove.  The heap invariant
      [heap_inv] and its preservation, what each branch of malloc returns,
      sequences of requests; writes inside a block are silent and keep the
      heap, writes outside raise the tag interrupt.
    - Traps: handler tables, dispatchers and [__soc_init] of internals/os.c.
    - BootExample: one concrete memory layout, on which the theorems of the
      previous three files are applied.
    - Arith: asm/mulsi3.c and the divider model of src/models/insns.
    - Fetch: the fetch state machine of src/models/c_ext, refined against a
      reading of memory as 16-bit parcels.
    - SocSim, Fpga: src/bench/rtl/libsim/soc.cpp over a verilated model (class
      [Vsoc]), and src/bench/emulation/libskfpga as the requests it makes.

    ** Files: the hardware

    - RtlAlu, RtlDecoder, RtlCpu: src/rtl/cpu.  The registers of each module
      are a record, its combinational signals functions of them, and a rising
      edge of the clock one function ([alu_clock], [csr_clock], [cpu_clock],
      ...).
    - RtlSoc, RtlTop: the tagged memory, timer, UART and multiplexer, and
      soc.v with the port for transactions from outside.  [rtl_model] is the
      SoC as the instance of [Vsoc] on which the harness of SocSim runs.
    - RtlAluFacts, RtlDecoderFacts: every operation of the arithmetic unit
      ends after a known number of clocks with the value of the manual, the
      signed remainder excepted; the control signals of an instruction, 32-bit
      or compressed, mean what the manual says.
    - RtlSystem, RtlSpec: the class [Slave] and the laws [SlaveLaws] the core
      relies on, the state the programmer sees ([arch]), when the core holds
      it ([models]), and the effect of an instruction, an interrupt and a trap
      on it ([executes], [steps]).
    - RtlCoreFacts, RtlFetch, RtlExec, RtlMem, RtlTrap, RtlPriv, RtlRuns: for
      any slave with the laws, the core fetches, executes, loads, stores,
      traps and returns as [executes] says, in finitely many clocks; runs of
      many instructions; an access with a wrong tag enters the handler before
      the next instruction.
    - RtlUart, RtlMemory, RtlStart: the frames of the UART; the SoC obeys
      [SlaveLaws], with memory as words and tags; the reset.
    - RtlHart: the RAM and tags of Machine are those of RtlSoc, access by
      access, so what is proved of the C library holds on the hardware's
      memory.
    - RtlProps: the theorems about the hardware.

    ** Files: the OVP processor model

    - RvTypes, RvAttrs, RvTables, RvDecode: the instruction decoder, with all
      of its attribute macros and both instruction tables (476 encodings of 32
      bits, 48 of 16 bits).
    - RvTableFacts, RvDecodeFacts, RvIsa: the tables are unambiguous, so the
      type of an instruction does not depend on the simulator; decoding never
      fails; instructions a 32-bit hart lacks are marked; every instruction of
      RV32IM and Zicsr decodes to the operation the RISC-V manual gives it.
    - RvHart, RvTrap, RvPmp, RvCsr, RvCsrTable, RvPorts, RvSystem: the hart
      ([riscvS]), exceptions and interrupts (riscvExceptions.c), physical
      memory protection (riscvVM.c), the CSRs (riscvCSR.c), ports and
      construction (riscvMain.c), and the system instructions (riscvMorph.c).
    - RvHartFacts, RvTrapFacts, RvIntFacts, RvHartInv, RvHartOps, RvHartCsr,
      RvHartTable, RvHartReset, RvHartRuns, RvConfined: the invariant of a
      hart and its preservation by every operation; traps and returns; user
      code stays confined to its CSRs and modes.
    - RvPmpFacts, RvPmpCache, RvPmpWrite, RvPmpRuns: the reference for PMP and
      the proof that the privileges kept in the simulator stay within it.
    - RvVm, RvVmRef, RvVmWalk, RvVmTlb, RvVmOps, RvVmMap, RvVmMiss,
      RvVmAccess, RvVmFence: page tables, TLB and fences, a reference for the
      translation of an access, and the proof that a miss gives it.
    - RvExample, RvHartProps, RvPmpProps, RvCsrProps, RvVmProps: a concrete
      hart, and the theorems about the model.

    ** Conventions

    A C function is a definition of its own name; loops are recursive
    functions on their data, or [loop] with fuel.  Where fuel appears the
    theorems state that the routine returns: the fuel that suffices is a bound
    on the length of the data (strings, blocks), on the draws of the random
    number generator, on the reads of the timer, or on the looks at the
    external port (three are enough), and is a hypothesis of the theorem.  The
    clocks of the hardware need no fuel: [leads] is an inductive relation that
    holds only if the state is reached.  Code outside src/ is a parameter: the
    kernel driver of the board, handlers reached through a function pointer,
    and the decode-table, fetch, memory and run-time interfaces of the
    simulator ([Vmid], [VmiCxt], [VmiMem], [VmiRt]); each comes with the laws
    it is documented to obey and with a concrete instance.

    ** Not modelled

    Of the C library: floating point and long long conversions of printf
    (compiled out), and the assembly of start-up and trap entry.  Of the
    hardware: registers that nothing reads, the simulation-only log and
    divider of the UART; the theorems are about a core that is not halted or
    stepped from outside and about instructions whose device answers, and
    memory is a function of the address, without the unknown values of an
    uninitialised cell.  Of the OVP model: the code generator for ordinary
    instructions and its block state, LR and SC, the hook that stops the
    simulation on wfi, the external CSR bus, registers and callbacks of
    derived models, the creation of the memory domains, the free list of the
    TLB, the disassembler, and debug output; these are calls into the
    simulator or text for it.  DPI logging, the VCD trace, the Python bindings
    and test drivers are input and output only; fdlibm and Zephyr are
    third-party code kept in the tree. *)

From stdpp Require Export base numbers list gmap.
From Stdlib Require Export ZArith Lia.
From Stdlib Require Export Ascii String.

#[global] Open Scope Z_scope.
Abbreviation length := Datatypes.length.
Bind Scope string_scope with string.

(** ** Automation

    [zlia] is [lia] with division and modulo turned into their defining
    equations first.  [zbits] proves an equality of integers bit by bit. *)

Ltac zlia := Z.to_euclidean_division_equations; lia.

Create HintDb beehive.
Create HintDb zbits.

(** Splits every [if] on an arithmetic test of the goal and gives the test
    to [lia] as a proposition. *)
Ltac case_Z :=
  match goal with
  | |- context [Z.eqb ?a ?b] => destruct (Z.eqb_spec a b)
  | |- context [Z.ltb ?a ?b] => destruct (Z.ltb_spec a b)
  | |- context [Z.leb ?a ?b] => destruct (Z.leb_spec a b)
  end.

Ltac case_Z_in H :=
  match type of H with
  | context [Z.eqb ?a ?b] => destruct (Z.eqb_spec a b)
  | context [Z.ltb ?a ?b] => destruct (Z.ltb_spec a b)
  | context [Z.leb ?a ?b] => destruct (Z.leb_spec a b)
  end.

(** ** Machine integers

    A C object of a w-bit unsigned type is a [Z] in [[0, 2^w)]; every
    operation that may leave the range is followed by the wrap-around. *)

Definition wrap (w : Z) (x : Z) : Z := x mod 2 ^ w.
Abbreviation w8 := (wrap 8).
Abbreviation w16 := (wrap 16).
Abbreviation w32 := (wrap 32).
Abbreviation w64 := (wrap 64).

(** The signed reading of a w-bit pattern. *)
Definition sgn (w : Z) (x : Z) : Z :=
  let u := wrap w x in if u <? 2 ^ (w - 1) then u else u - 2 ^ w.
Abbreviation s32 := (sgn 32).

Definition u32_range (x : Z) : Prop := 0 <= x < 2 ^ 32.
Definition byte_range (x : Z) : Prop := 0 <= x < 256.

Lemma wrap_range w x : 0 <= w -> 0 <= wrap w x < 2 ^ w.
Proof. intros Hw. apply Z.mod_pos_bound. by apply Z.pow_pos_nonneg. Qed.

Lemma wrap_small w x : 0 <= x < 2 ^ w -> wrap w x = x.
Proof. apply Z.mod_small. Qed.

Lemma wrap_wrap w x : 0 <= w -> wrap w (wrap w x) = wrap w x.
Proof. intros Hw. by apply wrap_small, wrap_range. Qed.

Lemma w32_range x : 0 <= w32 x < 4294967296.
Proof. apply (wrap_range 32); lia. Qed.

Lemma w32_small x : 0 <= x < 4294967296 -> w32 x = x.
Proof. apply (wrap_small 32). Qed.

Lemma w8_range x : 0 <= w8 x < 256.
Proof. apply (wrap_range 8); lia. Qed.

Lemma w8_small x : 0 <= x < 256 -> w8 x = x.
Proof. apply (wrap_small 8). Qed.

#[export] Hint Resolve w32_range w8_range : beehive.

(** *** Masks and shifts as arithmetic *)

Lemma land_mask (x n : Z) : 0 <= n -> Z.land x (Z.ones n) = x mod 2 ^ n.
Proof. intros. by apply Z.land_ones. Qed.

Lemma land_28 x : Z.land x 0x0fffffff = x mod 2 ^ 28.
Proof. apply (land_mask x 28); lia. Qed.

Lemma land_3 x : Z.land x 3 = x mod 4.
Proof. apply (land_mask x 2); lia. Qed.

Lemma land_15 x : Z.land x 0xf = x mod 16.
Proof. apply (land_mask x 4); lia. Qed.

Lemma shiftr_div (x n : Z) : 0 <= n -> Z.shiftr x n = x / 2 ^ n.
Proof. apply Z.shiftr_div_pow2. Qed.

Lemma shiftl_mul (x n : Z) : 0 <= n -> Z.shiftl x n = x * 2 ^ n.
Proof. apply Z.shiftl_mul_pow2. Qed.

Lemma pow2_pos n : 0 <= n -> 0 < 2 ^ n.
Proof. intros. by apply Z.pow_pos_nonneg. Qed.

Lemma div_mod_pow x a b : 0 <= a -> 0 <= b -> x / 2 ^ a mod 2 ^ b = x mod 2 ^ (a + b) / 2 ^ a.
Proof.
  intros Ha Hb. rewrite Z.pow_add_r by done.
  pose proof (pow2_pos a Ha). pose proof (pow2_pos b Hb).
  rewrite Z.rem_mul_r by lia. rewrite (Z.mul_comm (2 ^ a)), Z.div_add by lia.
  rewrite (Z.div_small (x mod 2 ^ a)) by (apply Z.mod_pos_bound; lia). lia.
Qed.

Lemma testbit_above (x n i : Z) :
  0 <= x < 2 ^ n -> 0 <= n <= i -> Z.testbit x i = false.
Proof.
  intros Hx Hi. rewrite <- (Z.mod_small x (2 ^ n)) by lia.
  apply Z.mod_pow2_bits_high. lia.
Qed.

(** Or-ing a value under another one that is a multiple of a power of two is
    an addition. *)
Lemma lor_add (lo hi n : Z) :
  0 <= n -> 0 <= lo < 2 ^ n -> hi mod 2 ^ n = 0 -> Z.lor lo hi = lo + hi.
Proof.
  intros Hn Hlo Hhi.
  assert (Hland : Z.land lo hi = 0).
  { apply Z.bits_inj'. intros i Hi. rewrite Z.land_spec, Z.bits_0.
    destruct (Z.lt_ge_cases i n).
    - replace (Z.testbit hi i) with false; [apply andb_false_r|].
      rewrite <- (Z.mod_pow2_bits_low hi n i), Hhi by lia. symmetry. apply Z.bits_0.
    - by rewrite (testbit_above lo n i) by lia. }
  rewrite Z.add_nocarry_lxor by done. symmetry. by apply Z.lxor_lor.
Qed.

(** ** Strings

    The bytes of a string literal. *)

Fixpoint bytes_of (s : string) : list Z :=
  match s with
  | EmptyString => []
  | String c r => Z.of_nat (nat_of_ascii c) :: bytes_of r
  end.
