(* ===== verification/Machine.v ===== *)
(** * The Beehive SoC as the software sees it

    The hart state a libc routine can observe, the bus (RAM, timer, UART),
    the memory-tagging check of [rtl/ram/wb_ram.v] and [rtl/cpu/cpu.v], and
    the small monad in which the C routines are written.

    A C pointer is a 32-bit address whose bits 31:28 are the expected tag,
    bits 27:26 the peripheral select and bits 25:0 the offset
    ([doc/arch/memtag.md]).  RAM is modelled at its full 26-bit window: the
    aliasing of a smaller RAM is not.  The tags CSR can exempt accesses whose
    base register is sp (bit 3); those address the frame of a routine, which
    the model does not keep in RAM, so the exemption is left out.  RtlHart
    proves that RAM and tags behave as the hardware's do. *)

From S2P Require Import Prelude.

(** ** Hart state *)

Record hart := Hart {
  ram : gmap Z Z;          (* bytes, by offset *)
  tagram : gmap Z Z;       (* 4-bit tags, by granule number *)
  csr_tags : Z;            (* CSR 0x345 *)
  tag_irq : bool;          (* wb_ram's sticky mismatch line *)
  csr_mstatus : Z;
  csr_mie : Z;
  csr_mip : Z;
  rnd : nat -> Z;          (* what successive reads of CSR 0x346 return *)
  mtime : nat -> Z;        (* the 64-bit counter at successive timer reads *)
  mtime_ae : nat -> Z;     (* the always-enabled counter, likewise *)
  mtimecmp : Z;
  tgt_clk : Z;
  uart : list Z            (* bytes transmitted, oldest first *)
}.

Definition set_ram m h := Hart m (tagram h) (csr_tags h) (tag_irq h) (csr_mstatus h)
  (csr_mie h) (csr_mip h) (rnd h) (mtime h) (mtime_ae h) (mtimecmp h) (tgt_clk h) (uart h).
Definition set_tagram t h := Hart (ram h) t (csr_tags h) (tag_irq h) (csr_mstatus h)
  (csr_mie h) (csr_mip h) (rnd h) (mtime h) (mtime_ae h) (mtimecmp h) (tgt_clk h) (uart h).
Definition set_tags_csr c i h := Hart (ram h) (tagram h) c i (csr_mstatus h)
  (csr_mie h) (csr_mip h) (rnd h) (mtime h) (mtime_ae h) (mtimecmp h) (tgt_clk h) (uart h).
Definition set_irq i h := set_tags_csr (csr_tags h) i h.
Definition set_mie e p h := Hart (ram h) (tagram h) (csr_tags h) (tag_irq h) (csr_mstatus h)
  e p (rnd h) (mtime h) (mtime_ae h) (mtimecmp h) (tgt_clk h) (uart h).
Definition set_rnd r h := Hart (ram h) (tagram h) (csr_tags h) (tag_irq h) (csr_mstatus h)
  (csr_mie h) (csr_mip h) r (mtime h) (mtime_ae h) (mtimecmp h) (tgt_clk h) (uart h).
Definition set_timer t ae c f h := Hart (ram h) (tagram h) (csr_tags h) (tag_irq h)
  (csr_mstatus h) (csr_mie h) (csr_mip h) (rnd h) t ae c f (uart h).
Definition set_uart u h := Hart (ram h) (tagram h) (csr_tags h) (tag_irq h)
  (csr_mstatus h) (csr_mie h) (csr_mip h) (rnd h) (mtime h) (mtime_ae h) (mtimecmp h)
  (tgt_clk h) u.

(** ** Computations

    A routine returns, ends the program ([_exit] with a status), or makes no
    further progress: its loop outlives the fuel it is given, or the bus
    never acknowledges. *)

Inductive outcome (A : Type) :=
| Ret (a : A) (h : hart)
| Exit (status : Z) (h : hart)
| Stuck.
Arguments Ret {A}. Arguments Exit {A}. Arguments Stuck {A}.

Definition M (A : Type) : Type := hart -> outcome A.

#[global] Instance M_ret : MRet M := fun A a h => Ret a h.
#[global] Instance M_bind : MBind M := fun A B k c h =>
  match c h with
  | Ret a h' => k a h'
  | Exit s h' => Exit s h'
  | Stuck => Stuck
  end.

Definition stuck {A} : M A := fun _ => Stuck.
Definition halt {A} (status : Z) : M A := fun h => Exit status h.
Definition get : M hart := fun h => Ret h h.
Definition upd (f : hart -> hart) : M unit := fun h => Ret tt (f h).

(** A C loop: [body] gives the next loop state or leaves the loop. *)
Fixpoint loop {St A} (fuel : nat) (body : St -> M (St + A)) (s : St) : M A :=
  match fuel with
  | O => stuck
  | S n =>
      r ← body s;
      match r with
      | inl s' => loop n body s'
      | inr a => mret a
      end
  end.

(** Total correctness: the computation returns, and what it returns and the
    state it leaves satisfy [Q]. *)
Definition returns {A} (c : M A) (h : hart) (Q : A -> hart -> Prop) : Prop :=
  match c h with
  | Ret a h' => Q a h'
  | Exit _ _ | Stuck => False
  end.

(** The computation ends the program with a given status. *)
Definition exits {A} (c : M A) (h : hart) (status : Z) : Prop :=
  exists h', c h = Exit status h'.

Lemma returns_bind {A B} (c : M A) (k : A -> M B) h Q :
  returns c h (fun a h' => returns (k a) h' Q) -> returns (mbind k c) h Q.
Proof. unfold returns, mbind, M_bind. by destruct (c h). Qed.

Section rules.
Context {A : Type}.

Lemma returns_ret (a : A) h (Q : A -> hart -> Prop) : Q a h -> returns (mret a) h Q.
Proof. done. Qed.

Lemma returns_upd f h (Q : unit -> hart -> Prop) : Q tt (f h) -> returns (upd f) h Q.
Proof. done. Qed.

Lemma returns_mono (c : M A) h (P Q : A -> hart -> Prop) :
  returns c h P -> (forall a h', P a h' -> Q a h') -> returns c h Q.
Proof. unfold returns. destruct (c h); naive_solver. Qed.

Lemma returns_and (c : M A) h (P Q : A -> hart -> Prop) :
  returns c h P -> returns c h Q -> returns c h (fun a h' => P a h' /\ Q a h').
Proof. unfold returns. destruct (c h); naive_solver. Qed.

Lemma returns_inv (c : M A) h (Q : A -> hart -> Prop) :
  returns c h Q -> exists a h', c h = Ret a h' /\ Q a h'.
Proof. unfold returns. destruct (c h); naive_solver. Qed.

Lemma returns_eq (c : M A) h a h' (Q : A -> hart -> Prop) :
  c h = Ret a h' -> Q a h' -> returns c h Q.
Proof. unfold returns. by intros ->. Qed.
End rules.

(** A loop whose body keeps [I] and decreases [m] returns within any fuel
    above the initial measure. *)
Lemma returns_loop {St A} (I : St -> hart -> Prop) (m : St -> nat) Q
    (body : St -> M (St + A)) fuel s h :
  (forall s h, I s h -> returns (body s) h (fun r h' =>
     match r with
     | inl s' => I s' h' /\ (m s' < m s)%nat
     | inr a => Q a h'
     end)) ->
  I s h -> (m s < fuel)%nat -> returns (loop fuel body s) h Q.
Proof.
  intros Hbody. revert s h. induction fuel as [|n IH]; intros s h HI Hm; [lia|].
  simpl. apply returns_bind. eapply returns_mono; [by apply Hbody|].
  intros [s'|a] h'; simpl; [intros [HI' Hlt]; apply IH; [done|lia]|done].
Qed.

Arguments returns : simpl never.

(** ** Addresses *)

Definition tag_of (a : Z) : Z := Z.shiftr a 28.
Definition periph_of (a : Z) : Z := Z.land (Z.shiftr a 26) 3.
Definition offset_of (a : Z) : Z := Z.land a 0x3ffffff.
Definition granule_of (a : Z) : Z := Z.shiftr (offset_of a) 4.

Abbreviation WB_ACCESS_RAM := (0)%Z (only parsing).
Abbreviation WB_ACCESS_TIMER := (1)%Z (only parsing).
Abbreviation WB_ACCESS_UART := (2)%Z (only parsing).

Definition byte_at (h : hart) (o : Z) : Z := default 0 (ram h !! o).
Definition tag_at (h : hart) (g : Z) : Z := default 0 (tagram h !! g).

(** Little-endian word at an offset. *)
Definition word_at (h : hart) (o : Z) : Z :=
  byte_at h o + byte_at h (o + 1) * 2 ^ 8 + byte_at h (o + 2) * 2 ^ 16
  + byte_at h (o + 3) * 2 ^ 24.

Definition put_byte (m : gmap Z Z) (o v : Z) : gmap Z Z := <[o := w8 v]> m.
Definition put_word (m : gmap Z Z) (o v : Z) : gmap Z Z :=
  put_byte (put_byte (put_byte (put_byte m o v) (o + 1) (Z.shiftr v 8))
    (o + 2) (Z.shiftr v 16)) (o + 3) (Z.shiftr v 24).

(** ** The tag check of a RAM access

    [tags_en] is bit 0 of the tags CSR.  A mismatch raises the interrupt
    line; the access itself takes place. *)

Definition tags_en (h : hart) : bool := Z.testbit (csr_tags h) 0.
Definition tag_mismatch (h : hart) (a : Z) : bool :=
  tags_en h && negb (tag_of a =? tag_at h (granule_of a)).
Definition check_tag (a : Z) (h : hart) : hart := set_irq (tag_irq h || tag_mismatch h a) h.

(** ** Peripherals *)

Definition half_of (hi : bool) (x : Z) : Z := if hi then Z.shiftr x 32 else w32 x.

Definition timer_read (a : Z) : M Z := fun h =>
  let hi := Z.testbit a 2 in
  match Z.land (Z.shiftr a 3) 3 with
  | 0 => Ret (half_of hi (w64 (mtime h 0%nat)))
             (set_timer (fun n => mtime h (S n)) (mtime_ae h) (mtimecmp h) (tgt_clk h) h)
  | 1 => Ret (half_of hi (mtimecmp h)) h
  | 2 => Ret (half_of hi (tgt_clk h)) h
  | _ => Ret (half_of hi (w64 (mtime_ae h 0%nat)))
             (set_timer (mtime h) (fun n => mtime_ae h (S n)) (mtimecmp h) (tgt_clk h) h)
  end.

Definition put_half (hi : bool) (x v : Z) : Z :=
  if hi then w32 x + Z.shiftl (w32 v) 32 else Z.shiftl (Z.shiftr x 32) 32 + w32 v.

(** Writing [mtime] sets the counter; the values read later are then no
    longer the ones recorded in the state, so the model does not cover it. *)
Definition timer_write (a v : Z) : M unit := fun h =>
  let hi := Z.testbit a 2 in
  match Z.land (Z.shiftr a 3) 3 with
  | 1 => Ret tt (set_timer (mtime h) (mtime_ae h) (put_half hi (mtimecmp h) v) (tgt_clk h) h)
  | 2 => Ret tt (set_timer (mtime h) (mtime_ae h) (mtimecmp h) (put_half hi (tgt_clk h) v) h)
  | 3 => Ret tt h
  | _ => Stuck
  end.

(** The transmitter acknowledges a write of its data register; the sanity
    register and a read of the data register are never acknowledged. *)
Definition uart_read (a : Z) : M Z := fun h =>
  match Z.land (Z.shiftr a 2) 3 with
  | 1 | 2 => Stuck
  | _ => Ret 0 h
  end.

Definition uart_write (a v : Z) : M unit := fun h =>
  match Z.land (Z.shiftr a 2) 3 with
  | 1 => Ret tt (set_uart (uart h ++ [w8 v]) h)
  | 2 => Stuck
  | _ => Ret tt h
  end.

Definition dev_read (a : Z) : M Z :=
  if periph_of a =? WB_ACCESS_TIMER then timer_read a
  else if periph_of a =? WB_ACCESS_UART then uart_read a
  else mret 0xDEADBEAF.

Definition dev_write (a v : Z) : M unit :=
  if periph_of a =? WB_ACCESS_TIMER then timer_write a v
  else if periph_of a =? WB_ACCESS_UART then uart_write a v
  else mret tt.

(** ** Loads and stores *)

Definition load8 (a : Z) : M Z :=
  if periph_of a =? WB_ACCESS_RAM
  then fun h => Ret (byte_at h (offset_of a)) (check_tag a h)
  else v ← dev_read a; mret (w8 v).

Definition store8 (a v : Z) : M unit :=
  if periph_of a =? WB_ACCESS_RAM
  then fun h => Ret tt (set_ram (put_byte (ram h) (offset_of a) v) (check_tag a h))
  else dev_write a v.

(** A word access ignores the two low address bits. *)
Definition word_offset (a : Z) : Z := Z.shiftl (Z.shiftr (offset_of a) 2) 2.

Definition load32 (a : Z) : M Z :=
  if periph_of a =? WB_ACCESS_RAM
  then fun h => Ret (word_at h (word_offset a)) (check_tag a h)
  else dev_read a.

Definition store32 (a v : Z) : M unit :=
  if periph_of a =? WB_ACCESS_RAM
  then fun h => Ret tt (set_ram (put_word (ram h) (word_offset a) v) (check_tag a h))
  else dev_write a v.

(** [lt] and [st]: the tag memory, never checked. *)
Definition load_tag (a : Z) : M Z :=
  if periph_of a =? WB_ACCESS_RAM
  then fun h => Ret (tag_at h (granule_of a)) h
  else v ← dev_read a; mret (Z.land v 0xf).

Definition store_tag (a t : Z) : M unit :=
  if periph_of a =? WB_ACCESS_RAM
  then upd (fun h => set_tagram (<[granule_of a := Z.land t 0xf]> (tagram h)) h)
  else dev_write a t.

(** ** CSRs *)

Definition csrw_tags (v : Z) : M unit :=
  upd (fun h => set_tags_csr v (if Z.testbit v 1 then false else tag_irq h) h).

(** [soc_hwrand] (include/soc/hwrand.h): [csrr result, rnd]. *)
Definition soc_hwrand : M Z := fun h =>
  Ret (rnd h 0%nat) (set_rnd (fun n => rnd h (S n)) h).

(** The machine out of reset, for the examples: memory and tags clear, tag
    checking off, interrupts enabled, a counter that runs for a while. *)
Definition reset_hart : hart :=
  Hart ∅ ∅ 0 false 8 0 0 (fun n => 7 * Z.of_nat n + 3) (fun n => Z.min (Z.of_nat n) 1000)
    (fun n => Z.min (Z.of_nat n) 1000) 0 1 [].

(** ** Lemmas on addresses

    [mkptr t o] is the pointer with tag [t] to RAM offset [o]. *)

Definition mkptr (t o : Z) : Z := t * 2 ^ 28 + o.

(** A pointer tag and a RAM offset. *)
Definition ok_ptr (t o : Z) : Prop := 0 <= t < 16 /\ 0 <= o < 2 ^ 26.

Lemma land_26 x : Z.land x 0x3ffffff = x mod 2 ^ 26.
Proof. apply (land_mask x 26); lia. Qed.

Lemma mkptr_tag t o : ok_ptr t o -> tag_of (mkptr t o) = t.
Proof. intros [??]. unfold tag_of, mkptr. rewrite shiftr_div by lia. zlia. Qed.
Lemma mkptr_offset t o : ok_ptr t o -> offset_of (mkptr t o) = o.
Proof. intros [??]. unfold offset_of, mkptr. rewrite land_26. zlia. Qed.
Lemma mkptr_periph t o : ok_ptr t o -> periph_of (mkptr t o) = 0.
Proof. intros [??]. unfold periph_of, mkptr. rewrite land_3, shiftr_div by lia. zlia. Qed.
Lemma mkptr_granule t o : ok_ptr t o -> granule_of (mkptr t o) = o / 16.
Proof. intros H. unfold granule_of. rewrite mkptr_offset by done. by apply shiftr_div. Qed.
Lemma mkptr_word t o : ok_ptr t o -> o mod 4 = 0 -> word_offset (mkptr t o) = o.
Proof.
  intros H ?. unfold word_offset. rewrite mkptr_offset by done.
  rewrite shiftl_mul, shiftr_div by lia. destruct H. zlia.
Qed.
Lemma mkptr_add t o n : mkptr t o + n = mkptr t (o + n).
Proof. unfold mkptr. lia. Qed.
Lemma mkptr_range t o : ok_ptr t o -> 0 <= mkptr t o < 4294967296.
Proof. intros [??]. unfold mkptr. lia. Qed.
Lemma mkptr_w32 t o : ok_ptr t o -> w32 (mkptr t o) = mkptr t o.
Proof. intros. apply w32_small. by apply mkptr_range. Qed.
Lemma mkptr_untag t o : ok_ptr t o -> Z.land (mkptr t o) 0x0fffffff = o.
Proof. intros [??]. unfold mkptr. rewrite land_28. zlia. Qed.
Lemma mkptr_0 o : mkptr 0 o = o.
Proof. done. Qed.

(** ** Lemmas on the memory *)

Lemma set_irq_id h : set_irq (tag_irq h) h = h.
Proof. by destruct h. Qed.

Lemma set_ram_ram m m' h : set_ram m (set_ram m' h) = set_ram m h.
Proof. done. Qed.

Lemma byte_at_put h m o v o' :
  byte_at (set_ram (put_byte m o v) h) o' =
  if decide (o = o') then w8 v else byte_at (set_ram m h) o'.
Proof.
  unfold byte_at, put_byte. simpl. rewrite lookup_insert. by case_decide.
Qed.

Lemma byte_at_put_word h m o v o' :
  byte_at (set_ram (put_word m o v) h) o' =
  if decide (o <= o' < o + 4) then w8 (Z.shiftr v (8 * (o' - o)))
  else byte_at (set_ram m h) o'.
Proof.
  unfold put_word. rewrite !byte_at_put.
  repeat case_decide; try lia; subst; try done.
  - by replace (8 * (o + 3 - o)) with 24 by lia.
  - by replace (8 * (o + 2 - o)) with 16 by lia.
  - by replace (8 * (o + 1 - o)) with 8 by lia.
  - by replace (8 * (o' - o')) with 0 by lia.
Qed.

Lemma word_at_put h m o v : word_at (set_ram (put_word m o v) h) o = w32 v.
Proof.
  unfold word_at. rewrite !byte_at_put_word.
  rewrite !decide_True by lia. unfold wrap.
  replace (8 * (o - o)) with 0 by lia. replace (8 * (o + 1 - o)) with 8 by lia.
  replace (8 * (o + 2 - o)) with 16 by lia. replace (8 * (o + 3 - o)) with 24 by lia.
  rewrite Z.shiftr_0_r, !shiftr_div by lia. zlia.
Qed.

Lemma word_at_ext h h' o :
  (forall i, o <= i < o + 4 -> byte_at h' i = byte_at h i) -> word_at h' o = word_at h o.
Proof. intros H. unfold word_at. rewrite !H by lia. done. Qed.

Lemma word_at_put_ne h m o v o' :
  o' + 4 <= o \/ o + 4 <= o' ->
  word_at (set_ram (put_word m o v) h) o' = word_at (set_ram m h) o'.
Proof.
  intros Hd. apply word_at_ext. intros i Hi.
  rewrite byte_at_put_word, decide_False by lia. done.
Qed.

(** ** Rules for the accesses

    A pointer of the right tag (or any pointer while checking is off) makes
    no alarm. *)

Definition tag_ok (h : hart) (t o : Z) : Prop :=
  tags_en h = false \/ tag_at h (o / 16) = t.

Lemma tag_mismatch_ptr h t o :
  ok_ptr t o -> tag_mismatch h (mkptr t o) = tags_en h && negb (t =? tag_at h (o / 16)).
Proof. intros H. unfold tag_mismatch. by rewrite mkptr_tag, mkptr_granule. Qed.

Lemma check_tag_ok h t o : ok_ptr t o -> tag_ok h t o -> check_tag (mkptr t o) h = h.
Proof.
  intros Hp Hok. unfold check_tag. rewrite tag_mismatch_ptr by done.
  replace (tags_en h && _) with false; [rewrite orb_false_r; apply set_irq_id|].
  destruct Hok as [->|Ht]; [done|]. by rewrite Ht, Z.eqb_refl, andb_false_r.
Qed.

Section access_rules.
Context (t o : Z) (h : hart) (Hp : ok_ptr t o).

Lemma load8_ptr : load8 (mkptr t o) h = Ret (byte_at h o) (check_tag (mkptr t o) h).
Proof. unfold load8. by rewrite mkptr_periph, mkptr_offset by done. Qed.

Lemma store8_ptr v :
  store8 (mkptr t o) v h = Ret tt (set_ram (put_byte (ram h) o v) (check_tag (mkptr t o) h)).
Proof. unfold store8. by rewrite mkptr_periph, mkptr_offset by done. Qed.

Lemma load32_ptr :
  o mod 4 = 0 -> load32 (mkptr t o) h = Ret (word_at h o) (check_tag (mkptr t o) h).
Proof. intros. unfold load32. by rewrite mkptr_periph, mkptr_word by done. Qed.

Lemma store32_ptr v :
  o mod 4 = 0 ->
  store32 (mkptr t o) v h = Ret tt (set_ram (put_word (ram h) o v) (check_tag (mkptr t o) h)).
Proof. intros. unfold store32. by rewrite mkptr_periph, mkptr_word by done. Qed.

Lemma load_tag_ptr : load_tag (mkptr t o) h = Ret (tag_at h (o / 16)) h.
Proof. unfold load_tag. by rewrite mkptr_periph, mkptr_granule by done. Qed.

Lemma store_tag_ptr v :
  store_tag (mkptr t o) v h =
  Ret tt (set_tagram (<[o / 16 := Z.land v 0xf]> (tagram h)) h).
Proof. unfold store_tag. by rewrite mkptr_periph, mkptr_granule by done. Qed.
End access_rules.

(** Accesses through a pointer of the right tag. *)
Lemma load8_ok t o h :
  ok_ptr t o -> tag_ok h t o -> load8 (mkptr t o) h = Ret (byte_at h o) h.
Proof. intros. by rewrite load8_ptr, check_tag_ok. Qed.

Lemma load32_ok t o h :
  ok_ptr t o -> o mod 4 = 0 -> tag_ok h t o -> load32 (mkptr t o) h = Ret (word_at h o) h.
Proof. intros. by rewrite load32_ptr, check_tag_ok. Qed.

Lemma store32_ok t o v h :
  ok_ptr t o -> o mod 4 = 0 -> tag_ok h t o ->
  store32 (mkptr t o) v h = Ret tt (set_ram (put_word (ram h) o v) h).
Proof. intros. by rewrite store32_ptr, check_tag_ok. Qed.

Lemma put_word_put_word m o v v' : put_word (put_word m o v) o v' = put_word m o v'.
Proof.
  apply map_eq. intros i. unfold put_word, put_byte. rewrite !lookup_insert.
  repeat case_decide; done || lia.
Qed.

(** Turns the bind of an evaluated computation into its continuation. *)
Lemma bind_ret {A B} (c : M A) (k : A -> M B) h a h' :
  c h = Ret a h' -> mbind k c h = k a h'.
Proof. unfold mbind, M_bind. by intros ->. Qed.

Lemma bind_assoc {A B C} (c : M A) (k : A -> M B) (k' : B -> M C) h :
  mbind k' (mbind k c) h = mbind (fun a => mbind k' (k a)) c h.
Proof. unfold mbind, M_bind. by destruct (c h). Qed.
