(* ===== verification/Printf.v ===== *)
(** * The formatted output of libc (src/printf/printf.c)

    The configuration is the one of the libc Makefile:
    PRINTF_DISABLE_SUPPORT_LONG_LONG and PRINTF_DISABLE_SUPPORT_FLOAT, with
    PRINTF_SUPPORT_PTRDIFF_T on.  On this target [char] is unsigned and
    [long] has 32 bits.

    A pointer into the NUL-terminated format is the list of the bytes that
    remain before the terminator; [va_list] is the list of the arguments that
    remain.  A run is [None] where C leaves the behaviour undefined: an
    argument that is missing or of the wrong kind, and a format pointer moved
    past the terminator. *)

From S2P Require Import Prelude.
Module Printf.

Definition PRINTF_NTOA_BUFFER_SIZE : Z := 32.

Abbreviation FLAGS_ZEROPAD := (Z.shiftl 1 0)%Z (only parsing).
Abbreviation FLAGS_LEFT := (Z.shiftl 1 1)%Z (only parsing).
Abbreviation FLAGS_PLUS := (Z.shiftl 1 2)%Z (only parsing).
Abbreviation FLAGS_SPACE := (Z.shiftl 1 3)%Z (only parsing).
Abbreviation FLAGS_HASH := (Z.shiftl 1 4)%Z (only parsing).
Abbreviation FLAGS_UPPERCASE := (Z.shiftl 1 5)%Z (only parsing).
Abbreviation FLAGS_CHAR := (Z.shiftl 1 6)%Z (only parsing).
Abbreviation FLAGS_SHORT := (Z.shiftl 1 7)%Z (only parsing).
Abbreviation FLAGS_LONG := (Z.shiftl 1 8)%Z (only parsing).
Abbreviation FLAGS_LONG_LONG := (Z.shiftl 1 9)%Z (only parsing).
Abbreviation FLAGS_PRECISION := (Z.shiftl 1 10)%Z (only parsing).

(** [flags & F] as a condition, [flags |= F], [flags &= ~F]. *)
Definition has (flags F : Z) : bool := negb (Z.land flags F =? 0).
Definition orf (flags F : Z) : Z := Z.lor flags F.
Definition clr (flags F : Z) : Z := Z.ldiff flags F.

(** Character constants. *)
Definition chr (s : string) : Z := List.hd 0 (bytes_of s).
Definition sp : Z := 32.
Definition zero : Z := 48.

(** *** Arguments *)

Inductive va_item := VInt (z : Z) | VStr (s : list Z).

Definition va_arg_int (va : list va_item) : option (Z * list va_item) :=
  match va with
  | VInt z :: r => Some (w32 z, r)
  | _ => None
  end.

Definition va_arg_str (va : list va_item) : option (list Z * list va_item) :=
  match va with
  | VStr s :: r => Some (s, r)
  | _ => None
  end.

(** [*format] and [format++]. *)
Definition cur (fmt : list Z) : Z := List.hd 0 fmt.
Definition adv (fmt : list Z) : option (list Z) :=
  match fmt with
  | [] => None
  | _ :: r => Some r
  end.

Definition _is_digit (ch : Z) : bool := (48 <=? ch) && (ch <=? 57).

Fixpoint _atoi_loop (i : Z) (str : list Z) : Z * list Z :=
  match str with
  | c :: r => if _is_digit c then _atoi_loop (w32 (w32 (i * 10) + (c - 48))) r else (i, str)
  | [] => (i, str)
  end.
Definition _atoi (str : list Z) : Z * list Z := _atoi_loop 0 str.

Fixpoint _strnlen_s (str : list Z) (maxsize : Z) : Z :=
  match str with
  | [] => 0
  | _ :: r => if maxsize =? 0 then 0 else 1 + _strnlen_s r (maxsize - 1)
  end.

(** *** Output functions *)

Definition _out_buffer (character : Z) (buffer : gmap Z Z) (idx maxlen : Z) : gmap Z Z :=
  if idx <? maxlen then <[idx := character]> buffer else buffer.
Definition _out_null {B} (character : Z) (buffer : B) (idx maxlen : Z) : B := buffer.

(** [_putchar] (os.c) sends every character but NUL to the UART; the buffer
    is the list of the bytes sent. *)
Definition _out_char (character : Z) (sent : list Z) (idx maxlen : Z) : list Z :=
  if character =? 0 then sent else sent ++ [character].

(** [fct] is the caller's function; its effect on the caller's state. *)
Definition _out_fct {S} (fct : Z -> S -> S) (character : Z) (arg : S) (idx maxlen : Z) : S :=
  if character =? 0 then arg else fct character arg.

Section output.
Context {B : Type} (out : Z -> B -> Z -> Z -> B) (maxlen : Z).

(** The output buffer and [idx]. *)
Abbreviation st := (B * Z)%type.

(** [out(c, buffer, idx++, maxlen)] *)
Definition emit (s : st) (c : Z) : st := (out c s.1 s.2 maxlen, w32 (s.2 + 1)).
Definition emits (l : list Z) (s : st) : st := fold_left emit l s.

(** [for (i = len; i < width; i++) out(' ')] *)
Definition emit_pad (len width : Z) (s : st) : st :=
  emits (repeat sp (Z.to_nat (width - len))) s.

(** [while (idx - start_idx < width) out(' ')]; at most [width] turns. *)
Fixpoint pad_right (fuel : nat) (start_idx width : Z) (s : st) : st :=
  match fuel with
  | O => s
  | S n => if w32 (s.2 - start_idx) <? width
           then pad_right n start_idx width (emit s sp) else s
  end.

Definition _out_rev (buf : list Z) (width flags : Z) (s : st) : st :=
  let start_idx := s.2 in
  let s := if negb (has flags FLAGS_LEFT) && negb (has flags FLAGS_ZEROPAD)
           then emit_pad (Z.of_nat (length buf)) width s else s in
  let s := emits (rev buf) s in
  if has flags FLAGS_LEFT then pad_right (Z.to_nat width) start_idx width s else s.

(** [while (len < limit && len < PRINTF_NTOA_BUFFER_SIZE) buf[len++] = '0'] *)
Fixpoint pad_zeros (fuel : nat) (limit : Z) (buf : list Z) : list Z :=
  match fuel with
  | O => buf
  | S n => let len := Z.of_nat (length buf) in
           if (len <? limit) && (len <? PRINTF_NTOA_BUFFER_SIZE)
           then pad_zeros n limit (buf ++ [zero]) else buf
  end.

(** [if (len < PRINTF_NTOA_BUFFER_SIZE) buf[len++] = c] *)
Definition push (buf : list Z) (c : Z) : list Z :=
  if Z.of_nat (length buf) <? PRINTF_NTOA_BUFFER_SIZE then buf ++ [c] else buf.

Definition ntoa_hash (buf : list Z) (base prec width flags : Z) : list Z :=
  let len := Z.of_nat (length buf) in
  let buf :=
    if negb (has flags FLAGS_PRECISION) && negb (len =? 0)
       && ((len =? prec) || (len =? width))
    then let buf := removelast buf in
         if negb (Z.of_nat (length buf) =? 0) && (base =? 16) then removelast buf else buf
    else buf in
  let room := Z.of_nat (length buf) <? PRINTF_NTOA_BUFFER_SIZE in
  let buf :=
    if (base =? 16) && negb (has flags FLAGS_UPPERCASE) && room then buf ++ [chr "x"]
    else if (base =? 16) && has flags FLAGS_UPPERCASE && room then buf ++ [chr "X"]
    else if (base =? 2) && room then buf ++ [chr "b"]
    else buf in
  push buf zero.

Definition ntoa_sign (buf : list Z) (negative : bool) (flags : Z) : list Z :=
  if negative then push buf (chr "-")
  else if has flags FLAGS_PLUS then push buf (chr "+")
  else if has flags FLAGS_SPACE then push buf sp
  else buf.

(** The buffer and the width [_ntoa_format] passes to [_out_rev]. *)
Definition ntoa_layout (buf : list Z) (negative : bool) (base prec width flags : Z) :
    list Z * Z :=
  let '(buf, width) :=
    if negb (has flags FLAGS_LEFT) then
      let width := if negb (width =? 0) && has flags FLAGS_ZEROPAD
                      && (negative || has flags (orf FLAGS_PLUS FLAGS_SPACE))
                   then w32 (width - 1) else width in
      let buf := pad_zeros 32 prec buf in
      let buf := if has flags FLAGS_ZEROPAD then pad_zeros 32 width buf else buf in
      (buf, width)
    else (buf, width) in
  let buf := if has flags FLAGS_HASH then ntoa_hash buf base prec width flags else buf in
  (ntoa_sign buf negative flags, width).

Definition _ntoa_format (buf : list Z) (negative : bool) (base prec width flags : Z)
    (s : st) : st :=
  let '(buf, width) := ntoa_layout buf negative base prec width flags in
  _out_rev buf width flags s.

Definition digit_char (flags digit : Z) : Z :=
  if digit <? 10 then zero + digit
  else (if has flags FLAGS_UPPERCASE then chr "A" else chr "a") + digit - 10.

(** [do { ... } while (value && len < PRINTF_NTOA_BUFFER_SIZE)] *)
Fixpoint ntoa_digits (fuel : nat) (value base flags : Z) (buf : list Z) : list Z :=
  match fuel with
  | O => buf
  | S n =>
      let buf := buf ++ [digit_char flags (value mod base)] in
      let value := value / base in
      if negb (value =? 0) && (Z.of_nat (length buf) <? PRINTF_NTOA_BUFFER_SIZE)
      then ntoa_digits n value base flags buf else buf
  end.

Definition _ntoa_long (value : Z) (negative : bool) (base prec width flags : Z)
    (s : st) : st :=
  let flags := if value =? 0 then clr flags FLAGS_HASH else flags in
  let buf := if negb (has flags FLAGS_PRECISION) || negb (value =? 0)
             then ntoa_digits 32 value base flags [] else [] in
  _ntoa_format buf negative base prec width flags s.

(** *** The format: %[flags][width][.precision][length]specifier *)

Definition flag_of (c : Z) : option Z :=
  if c =? chr "0" then Some FLAGS_ZEROPAD
  else if c =? chr "-" then Some FLAGS_LEFT
  else if c =? chr "+" then Some FLAGS_PLUS
  else if c =? chr " " then Some FLAGS_SPACE
  else if c =? chr "#" then Some FLAGS_HASH
  else None.

Fixpoint eval_flags (fmt : list Z) (flags : Z) : Z * list Z :=
  match fmt with
  | c :: r => match flag_of c with
              | Some F => eval_flags r (orf flags F)
              | None => (flags, fmt)
              end
  | [] => (flags, fmt)
  end.

Definition eval_width (fmt : list Z) (flags : Z) (va : list va_item) :
    option (Z * Z * list Z * list va_item) :=
  if _is_digit (cur fmt) then
    let '(width, fmt) := _atoi fmt in Some (flags, width, fmt, va)
  else if cur fmt =? chr "*" then
    '(w, va) ← va_arg_int va;
    fmt ← adv fmt;
    if s32 w <? 0 then Some (orf flags FLAGS_LEFT, w32 (- s32 w), fmt, va)
    else Some (flags, w, fmt, va)
  else Some (flags, 0, fmt, va).

Definition eval_precision (fmt : list Z) (flags : Z) (va : list va_item) :
    option (Z * Z * list Z * list va_item) :=
  if cur fmt =? chr "." then
    let flags := orf flags FLAGS_PRECISION in
    fmt ← adv fmt;
    if _is_digit (cur fmt) then
      let '(precision, fmt) := _atoi fmt in Some (flags, precision, fmt, va)
    else if cur fmt =? chr "*" then
      '(prec, va) ← va_arg_int va;
      fmt ← adv fmt;
      Some (flags, (if 0 <? s32 prec then prec else 0), fmt, va)
    else Some (flags, 0, fmt, va)
  else Some (flags, 0, fmt, va).

(** ptrdiff_t and size_t have the size of long, intmax_t has not. *)
Definition eval_length (fmt : list Z) (flags : Z) : option (Z * list Z) :=
  if cur fmt =? chr "l" then
    let flags := orf flags FLAGS_LONG in
    fmt ← adv fmt;
    if cur fmt =? chr "l" then
      fmt ← adv fmt; Some (orf flags FLAGS_LONG_LONG, fmt)
    else Some (flags, fmt)
  else if cur fmt =? chr "h" then
    let flags := orf flags FLAGS_SHORT in
    fmt ← adv fmt;
    if cur fmt =? chr "h" then
      fmt ← adv fmt; Some (orf flags FLAGS_CHAR, fmt)
    else Some (flags, fmt)
  else if cur fmt =? chr "t" then fmt ← adv fmt; Some (orf flags FLAGS_LONG, fmt)
  else if cur fmt =? chr "j" then fmt ← adv fmt; Some (orf flags FLAGS_LONG_LONG, fmt)
  else if cur fmt =? chr "z" then fmt ← adv fmt; Some (orf flags FLAGS_LONG, fmt)
  else Some (flags, fmt).

Definition is_int_spec (c : Z) : bool :=
  (c =? chr "d") || (c =? chr "i") || (c =? chr "u") || (c =? chr "x")
  || (c =? chr "X") || (c =? chr "o") || (c =? chr "b").

Definition is_signed_spec (c : Z) : bool := (c =? chr "i") || (c =? chr "d").

(** The base and the flags of an integer conversion. *)
Definition int_base (c : Z) : Z :=
  if (c =? chr "x") || (c =? chr "X") then 16
  else if c =? chr "o" then 8
  else if c =? chr "b" then 2
  else 10.

Definition int_flags (c flags : Z) : Z :=
  let flags := if int_base c =? 10 then clr flags FLAGS_HASH else flags in
  let flags := if c =? chr "X" then orf flags FLAGS_UPPERCASE else flags in
  let flags := if is_signed_spec c then flags
               else clr flags (orf FLAGS_PLUS FLAGS_SPACE) in
  if has flags FLAGS_PRECISION then clr flags FLAGS_ZEROPAD else flags.

(** The argument after the conversion to char, short, int or long. *)
Definition int_value (signed : bool) (flags v : Z) : Z :=
  if has flags FLAGS_LONG then (if signed then s32 v else v)
  else if has flags FLAGS_CHAR then w8 v
  else if has flags FLAGS_SHORT then (if signed then sgn 16 v else w16 v)
  else (if signed then s32 v else v).

Definition spec_int (c width precision flags : Z) (va : list va_item) (s : st) :
    option (st * list va_item) :=
  let base := int_base c in
  let flags := int_flags c flags in
  if has flags FLAGS_LONG_LONG then Some (s, va)
  else
    '(v, va) ← va_arg_int va;
    if is_signed_spec c then
      let value := int_value true flags v in
      let magnitude := w32 (if 0 <? value then value else 0 - value) in
      Some (_ntoa_long magnitude (value <? 0) base precision width flags s, va)
    else
      Some (_ntoa_long (int_value false flags v) false base precision width flags s, va).

Definition spec_char (width flags : Z) (va : list va_item) (s : st) :
    option (st * list va_item) :=
  let s := if negb (has flags FLAGS_LEFT) then emit_pad 1 width s else s in
  '(v, va) ← va_arg_int va;
  let s := emit s (w8 v) in
  let s := if has flags FLAGS_LEFT then emit_pad 1 width s else s in
  Some (s, va).

Definition spec_string (width precision flags : Z) (va : list va_item) (s : st) :
    option (st * list va_item) :=
  '(p, va) ← va_arg_str va;
  let l := _strnlen_s p (if precision =? 0 then 4294967295 else precision) in
  let l := if has flags FLAGS_PRECISION then (if l <? precision then l else precision) else l in
  let s := if negb (has flags FLAGS_LEFT) then emit_pad l width s else s in
  let s := emits (if has flags FLAGS_PRECISION then take (Z.to_nat precision) p else p) s in
  let s := if has flags FLAGS_LEFT then emit_pad l width s else s in
  Some (s, va).

Definition spec_pointer (precision flags : Z) (va : list va_item) (s : st) :
    option (st * list va_item) :=
  let width := 8 in
  let flags := orf flags (orf FLAGS_ZEROPAD FLAGS_UPPERCASE) in
  '(v, va) ← va_arg_int va;
  Some (_ntoa_long v false 16 precision width flags s, va).

(** The conversion of the specifier [c]; [format++] follows it. *)
Definition eval_spec (c width precision flags : Z) (va : list va_item) (s : st) :
    option (st * list va_item) :=
  if is_int_spec c then spec_int c width precision flags va s
  else if c =? chr "c" then spec_char width flags va s
  else if c =? chr "s" then spec_string width precision flags va s
  else if c =? chr "p" then spec_pointer precision flags va s
  else Some (emit s c, va).

(** One turn of the loop at a [%]. *)
Definition eval_conv (fmt : list Z) (va : list va_item) (s : st) :
    option (st * list Z * list va_item) :=
  let '(flags, fmt) := eval_flags fmt 0 in
  '(flags, width, fmt, va) ← eval_width fmt flags va;
  '(flags, precision, fmt, va) ← eval_precision fmt flags va;
  '(flags, fmt) ← eval_length fmt flags;
  '(s, va) ← eval_spec (cur fmt) width precision flags va s;
  fmt ← adv fmt;
  Some (s, fmt, va).

(** [while ( *format ) ...]: a turn consumes a byte of the format at least. *)
Fixpoint vsnprintf_loop (fuel : nat) (fmt : list Z) (va : list va_item) (s : st) :
    option st :=
  match fuel with
  | O => None
  | S n =>
      match fmt with
      | [] => Some s
      | c :: r =>
          if c =? chr "%" then
            '(s, r, va) ← eval_conv r va s;
            vsnprintf_loop n r va s
          else vsnprintf_loop n r va (emit s c)
      end
  end.

Definition vsnprintf_body (buffer : B) (fmt : list Z) (va : list va_item) : option (B * Z) :=
  '(b, idx) ← vsnprintf_loop (S (length fmt)) fmt va (buffer, 0);
  Some (out 0 b (if idx <? maxlen then idx else w32 (maxlen - 1)) maxlen, s32 idx).
End output.

(** A null buffer selects the null output. *)
Definition _vsnprintf {B} (out : Z -> B -> Z -> Z -> B) (buffer : option B) (maxlen : Z)
    (fmt : list Z) (va : list va_item) : option (option B * Z) :=
  match buffer with
  | Some b => '(b, n) ← vsnprintf_body out maxlen b fmt va; Some (Some b, n)
  | None => '(_, n) ← vsnprintf_body _out_null maxlen tt fmt va; Some (None, n)
  end.

(** *** Entry points *)

Definition SIZE_MAX : Z := 4294967295.

(** The bytes sent to the console and the result. *)
Definition vprintf_ (fmt : list Z) (va : list va_item) : option (list Z * Z) :=
  vsnprintf_body _out_char SIZE_MAX [] fmt va.
Definition printf_ := vprintf_.
Definition fprintf_ (stream : Z) := vprintf_.

Definition vsnprintf_ (buffer : option (gmap Z Z)) (count : Z) (fmt : list Z)
    (va : list va_item) : option (option (gmap Z Z) * Z) :=
  _vsnprintf _out_buffer buffer count fmt va.
Definition snprintf_ := vsnprintf_.
Definition sprintf_ (buffer : option (gmap Z Z)) := vsnprintf_ buffer SIZE_MAX.

Definition fctprintf {S} (fct : Z -> S -> S) (arg : S) (fmt : list Z) (va : list va_item) :
    option (S * Z) :=
  vsnprintf_body (_out_fct fct) SIZE_MAX arg fmt va.

(** Samples. *)
Example printf_sample :
  printf_ (bytes_of "heap @[%p, %-6d|%5s]") [VInt 0x1234; VInt (-42); VStr (bytes_of "ab")]
  = Some (bytes_of "heap @[00001234, -42   |   ab]", 30).
Proof. reflexivity. Qed.

Example printf_sample_x :
  printf_ (bytes_of "%#x %08.3d %+i %c%%") [VInt 255; VInt 7; VInt 3; VInt 65]
  = Some (bytes_of "0xff      007 +3 A%", 19).
Proof. reflexivity. Qed.

End Printf.
