(* ===== verification/Strtoul.v ===== *)
(** * Character classes and strtoul

    [src/ctype.c], [src/strtoul/pseudo-safe-ctype.h] and
    [src/strtoul/strtoul.c] of libc.  [char] is unsigned on this target, so a
    character read from a string is a byte. *)

From S2P Require Import Prelude.

Module Ctype.

(** C truth values: the predicates return an [int]. *)
Definition cbool (b : bool) : Z := if b then 1 else 0.
Definition between (lo c hi : Z) : bool := (lo <=? c) && (c <=? hi).

Definition isalpha (c : Z) : Z := cbool (between 97 c 122 || between 65 c 90).
Definition isdigit (c : Z) : Z := if between 48 c 57 then c else 0.
Definition isxdigit (c : Z) : Z :=
  cbool (between 48 c 57 || between 65 c 70 || between 97 c 102).
Definition isspace (c : Z) : Z := cbool ((c =? 32) || (c =? 9)).
Definition tolower (c : Z) : Z :=
  if isalpha c =? 0 then c
  else if between 65 c 90 then s32 (c + 32) else c.

Definition ISSPACE (c : Z) : bool :=
  (c =? 32) || (c =? 9) || (c =? 10) || (c =? 13) || (c =? 12) || (c =? 11).
Definition ISDIGIT (c : Z) : bool := between 48 c 57.
Definition ISUPPER (c : Z) : bool := between 65 c 90.
Definition ISALPHA (c : Z) : bool := ISUPPER c || between 97 c 122.

End Ctype.

Module Strtoul.
Import Ctype.

Definition ULONG_MAX : Z := 4294967295.
Definition ERANGE : Z := -5.

(** The pointer [s - 1] into the NUL-terminated string is the list of the
    bytes from there to the terminator: [c] is its head, and [c = *s++] drops
    it.  No path reads past the terminator. *)

Fixpoint skip_space (u : list Z) : list Z :=
  match u with
  | c :: r => if ISSPACE c then skip_space r else u
  | [] => u
  end.

Definition c_of (u : list Z) : Z := List.hd 0 u.

(** The sign: [neg] and what follows it. *)
Definition read_sign (u : list Z) : bool * list Z :=
  if c_of u =? 45 then (true, List.tl u)
  else if c_of u =? 43 then (false, List.tl u)
  else (false, u).

(** The prefix 0x or 0X, and the base. *)
Definition read_base (u : list Z) (base : Z) : list Z * Z :=
  let '(u, base) :=
    if ((base =? 0) || (base =? 16)) && (c_of u =? 48)
       && ((c_of (List.tl u) =? 120) || (c_of (List.tl u) =? 88))
    then (List.tl (List.tl u), 16) else (u, base) in
  if base =? 0 then (u, if c_of u =? 48 then 8 else 10) else (u, base).

(** The value of a digit, or none where the loop breaks on its first test. *)
Definition digit_value (c : Z) : option Z :=
  if ISDIGIT c then Some (c - 48)
  else if ISALPHA c then Some (c - (if ISUPPER c then 65 - 10 else 97 - 10))
  else None.

(** [for (acc = 0, any = 0;; c = *s++)]: [acc], [any] and the pointer. *)
Fixpoint acc_loop (base cutoff cutlim : Z) (acc any : Z) (u : list Z) : Z * Z * list Z :=
  match u with
  | [] => (acc, any, u)
  | c :: r =>
      match digit_value c with
      | None => (acc, any, u)
      | Some d =>
          if base <=? d then (acc, any, u)
          else if (any <? 0) || (cutoff <? acc) || ((acc =? cutoff) && (cutlim <? d))
          then acc_loop base cutoff cutlim acc (-1) r
          else acc_loop base cutoff cutlim (w32 (w32 (acc * w32 base) + d)) 1 r
      end
  end.

Record result := Result { value : Z; endptr : list Z; errno : Z }.

(** [strtoul(nptr, endptr, base)] with [errno] before the call; [endptr] is
    the string it leaves. *)
Definition strtoul (nptr : list Z) (base : Z) (errno0 : Z) : result :=
  let u := skip_space nptr in
  let '(neg, u) := read_sign u in
  let '(u, base) := read_base u base in
  let cutoff := ULONG_MAX / w32 base in
  let cutlim := s32 (ULONG_MAX mod w32 base) in
  let '(acc, any, u) := acc_loop base cutoff cutlim 0 0 u in
  {| value := if any <? 0 then ULONG_MAX else if neg then w32 (- acc) else acc;
     endptr := if any =? 0 then nptr else u;
     errno := if any <? 0 then ERANGE else errno0 |}.

Example strtoul_hex :
  strtoul (bytes_of "  -0x1Fz") 0 7 = Result (4294967296 - 31) (bytes_of "z") 7.
Proof. reflexivity. Qed.

(** ** The value of a digit string *)

(** Every byte of [ds] is a digit below [base]; the value they spell. *)
Definition is_digit_of (base c : Z) : Prop :=
  exists d, digit_value c = Some d /\ 0 <= d < base.
Definition digit_or_0 (c : Z) : Z := default 0 (digit_value c).
Definition digits_val (base acc : Z) (ds : list Z) : Z :=
  fold_left (fun a c => a * base + digit_or_0 c) ds acc.

(** What follows the number does not continue it. *)
Definition stops (base : Z) (rest : list Z) : Prop :=
  match rest with
  | [] => True
  | c :: _ => match digit_value c with Some d => base <= d | None => True end
  end.

Lemma digits_val_ge base ds acc :
  1 <= base -> 0 <= acc -> Forall (is_digit_of base) ds -> acc <= digits_val base acc ds.
Proof.
  intros Hb. revert acc. induction ds as [|c ds IH]; intros acc Ha Hds; [done|].
  inversion Hds as [|?? [d [Hd Hr]] Hds']; subst. simpl.
  replace (digit_or_0 c) with d by (unfold digit_or_0; by rewrite Hd).
  transitivity (acc * base + d); [nia|]. apply IH; [nia|done].
Qed.

Section acc_loop.
Context (base : Z) (Hbase : 2 <= base <= 36).

Abbreviation cutoff := (ULONG_MAX / base).
Abbreviation cutlim := (ULONG_MAX mod base).

(** The overflow test is exact: the new accumulator fits if and only if
    the test fails. *)
Lemma cutoff_exact acc d :
  0 <= acc -> 0 <= d < base ->
  (cutoff <? acc) || ((acc =? cutoff) && (cutlim <? d)) = (ULONG_MAX <? acc * base + d).
Proof using Hbase.
  intros Ha Hd. unfold ULONG_MAX.
  pose proof (Z.div_mod 4294967295 base ltac:(lia)) as Hdm.
  pose proof (Z.mod_pos_bound 4294967295 base ltac:(lia)) as Hm.
  set (q := 4294967295 / base) in *. set (m := 4294967295 mod base) in *.
  assert (0 <= q) by (apply Z.div_pos; lia).
  repeat case_Z; simpl; try done; exfalso; try nia.
Qed.

Lemma acc_loop_overflowed acc ds rest :
  Forall (is_digit_of base) ds -> stops base rest ->
  acc_loop base cutoff cutlim acc (-1) (ds ++ rest) = (acc, -1, rest).
Proof using Hbase.
  intros Hds Hrest. induction Hds as [|c ds [d [Hd Hr]] _ IH]; simpl.
  - destruct rest as [|c r]; [done|]. simpl in *. destruct (digit_value c); [|done].
    by rewrite (proj2 (Z.leb_le _ _)) by lia.
  - rewrite Hd, (proj2 (Z.leb_gt _ _)) by lia. simpl. apply IH.
Qed.

(** From a state that has not overflowed the loop computes the value, or
    reports the overflow. *)
Lemma acc_loop_digits acc any ds rest :
  0 <= acc <= ULONG_MAX -> 0 <= any ->
  Forall (is_digit_of base) ds -> stops base rest ->
  exists acc',
    acc_loop base cutoff cutlim acc any (ds ++ rest) =
      (acc', if ULONG_MAX <? digits_val base acc ds then -1
             else if decide (ds = []) then any else 1, rest) /\
    (digits_val base acc ds <= ULONG_MAX -> acc' = digits_val base acc ds).
Proof using Hbase.
  intros Ha Hany Hds Hrest. revert acc any Ha Hany.
  induction Hds as [|c ds [d [Hd Hr]] Hds IH]; intros acc any Ha Hany.
  - simpl. exists acc. split; [|done]. rewrite (proj2 (Z.ltb_ge _ _)) by lia.
    destruct rest as [|c r]; [done|]. simpl in *. destruct (digit_value c); [|done].
    by rewrite (proj2 (Z.leb_le _ _)) by lia.
  - simpl. rewrite Hd, (proj2 (Z.leb_gt _ _)) by lia.
    replace (any <? 0) with false by (symmetry; apply Z.ltb_ge; lia). simpl.
    rewrite cutoff_exact by lia.
    assert (Hdg : digit_or_0 c = d) by (unfold digit_or_0; by rewrite Hd).
    rewrite Hdg. destruct (Z.ltb_spec ULONG_MAX (acc * base + d)) as [Hov|Hfit].
    + rewrite acc_loop_overflowed by done. exists acc.
      pose proof (digits_val_ge base ds (acc * base + d) ltac:(lia) ltac:(nia) Hds).
      split; [|lia]. by rewrite (proj2 (Z.ltb_lt _ _)) by lia.
    + unfold ULONG_MAX in *.
      assert (Hw : w32 (w32 (acc * w32 base) + d) = acc * base + d).
      { rewrite (w32_small base) by lia. rewrite (w32_small (acc * base)) by nia.
        apply w32_small. nia. }
      rewrite Hw. destruct (IH (acc * base + d) 1) as [acc' [He Hv]]; [nia|lia|].
      exists acc'. split; [|done]. rewrite He. by destruct (decide (ds = [])).
Qed.
End acc_loop.

(** ** The whole routine *)

Inductive sign := NoSign | Plus | Minus.
Definition sign_bytes (sg : sign) : list Z :=
  match sg with NoSign => [] | Plus => [43] | Minus => [45] end.

Lemma digit_value_inv c d :
  digit_value c = Some d ->
  48 <= c <= 57 /\ d = c - 48 \/ 65 <= c <= 90 /\ d = c - 55 \/ 97 <= c <= 122 /\ d = c - 87.
Proof.
  unfold digit_value, ISDIGIT, ISALPHA, ISUPPER, between. intros H.
  destruct (Z.leb_spec 48 c), (Z.leb_spec c 57); simpl in H; try (injection H; lia).
  all: destruct (Z.leb_spec 65 c), (Z.leb_spec c 90); simpl in H; try (injection H; lia).
  all: destruct (Z.leb_spec 97 c), (Z.leb_spec c 122); simpl in H; try done; injection H; lia.
Qed.

(** The number proper starts with a digit (of the number or of its prefix):
    no blank, no sign. *)
Lemma digit_not_blank base c :
  is_digit_of base c -> ISSPACE c = false /\ (c =? 45) = false /\ (c =? 43) = false.
Proof.
  intros [d [Hd%digit_value_inv _]]. unfold ISSPACE.
  rewrite !(proj2 (Z.eqb_neq _ _)) by lia. done.
Qed.

Lemma skip_space_app sps u :
  Forall (fun c => ISSPACE c = true) sps -> skip_space (sps ++ u) = skip_space u.
Proof. induction 1 as [|c sps Hc _ IH]; simpl; [done|by rewrite Hc]. Qed.

Lemma read_base_head u base0 ds rest base :
  read_base u base0 = (ds ++ rest, base) -> Forall (is_digit_of base) ds -> ds <> [] ->
  exists c r, u = c :: r /\ is_digit_of 36 c.
Proof.
  intros Hrb Hds Hne. destruct u as [|c r].
  { assert (ds ++ rest = []) as [-> ?]%app_eq_nil; [|done].
    unfold read_base in Hrb. simpl in Hrb. rewrite andb_false_r in Hrb. simpl in Hrb.
    by destruct (base0 =? 0); injection Hrb. }
  exists c, r. split; [done|]. destruct (Z.eqb_spec c 48) as [->|Hc].
  { exists 0. split; [done|lia]. }
  destruct ds as [|d ds]; [done|]. apply Forall_inv in Hds as [v [Hv Hr]].
  assert (c = d) as ->.
  { unfold read_base in Hrb. simpl in Hrb.
    replace (c =? 48) with false in Hrb by (symmetry; by apply Z.eqb_neq).
    rewrite andb_false_r in Hrb. simpl in Hrb.
    by destruct (base0 =? 0); injection Hrb. }
  exists v. split; [done|]. apply digit_value_inv in Hv. lia.
Qed.

Lemma read_signed sg u :
  (exists c r, u = c :: r /\ is_digit_of 36 c) ->
  skip_space (sign_bytes sg ++ u) = sign_bytes sg ++ u /\
  read_sign (sign_bytes sg ++ u) = (match sg with Minus => true | _ => false end, u).
Proof.
  intros (c & r & -> & Hc). destruct (digit_not_blank _ _ Hc) as (Hs & Hm & Hp).
  destruct sg; simpl; try done. unfold read_sign. simpl. by rewrite Hs, Hm, Hp.
Qed.

Lemma strtoul_reads sps sg u base0 base ds rest e :
  Forall (fun c => ISSPACE c = true) sps ->
  read_base u base0 = (ds ++ rest, base) -> 2 <= base <= 36 ->
  Forall (is_digit_of base) ds -> ds <> [] -> stops base rest ->
  strtoul (sps ++ sign_bytes sg ++ u) base0 e =
  let v := digits_val base 0 ds in
  if ULONG_MAX <? v then Result ULONG_MAX rest ERANGE
  else Result (match sg with Minus => w32 (- v) | _ => v end) rest e.
Proof.
  intros Hsp Hrb Hb Hds Hne Hst.
  destruct (read_signed sg u (read_base_head _ _ _ _ _ Hrb Hds Hne)) as [Hs1 Hs2].
  unfold strtoul. rewrite skip_space_app, Hs1, Hs2, Hrb by done.
  rewrite (w32_small base) by lia.
  assert (Hlim : s32 (ULONG_MAX mod base) = ULONG_MAX mod base).
  { unfold sgn. pose proof (Z.mod_pos_bound ULONG_MAX base ltac:(lia)).
    rewrite wrap_small by (unfold ULONG_MAX in *; lia).
    by rewrite (proj2 (Z.ltb_lt _ _)) by lia. }
  rewrite Hlim.
  destruct (acc_loop_digits base Hb 0 0 ds rest) as [acc [-> Hv]];
    [unfold ULONG_MAX; lia|lia|done|done|].
  cbv zeta. destruct (Z.ltb_spec ULONG_MAX (digits_val base 0 ds)); [done|].
  rewrite (decide_False _ _ Hne), Hv by done. simpl. by destruct sg.
Qed.



(** What [strtoul] does where no digit follows: it returns 0 and leaves
    [endptr] at the start, also for a lone 0x prefix, where the digit 0 is
    not taken as the number. *)
Theorem strtoul_no_digits nptr base0 e :
  (let '(_, u) := read_sign (skip_space nptr) in
   let '(u, base) := read_base u base0 in stops base u) ->
  strtoul nptr base0 e = Result 0 nptr e.
Proof.
  unfold strtoul. destruct (read_sign _) as [neg u]. destruct (read_base u base0) as [u' base].
  intros Hst. assert (Hl : acc_loop base (ULONG_MAX / w32 base)
    (s32 (ULONG_MAX mod w32 base)) 0 0 u' = (0, 0, u')).
  { destruct u' as [|c r]; [done|]. simpl in *. destruct (digit_value c); [|done].
    by rewrite (proj2 (Z.leb_le _ _)) by lia. }
  rewrite Hl. by destruct neg.
Qed.

Lemma strtoul_no_digits_witness :
  strtoul (bytes_of "0xg") 16 0 = Result 0 (bytes_of "0xg") 0.
Proof. apply strtoul_no_digits. simpl. exact I || (vm_compute; congruence). Defined.

End Strtoul.
