(* ===== verification/PrintfFacts.v ===== *)
(** * Properties of the formatted output

    The characters a call produces do not depend on where they go
    ([vsnprintf_text]); a buffer receives their first [count - 1] and a
    terminator, and nothing else of it changes ([snprintf_correct]); the
    conversion buffer never overflows; the digits of an integer conversion
    are those of its value. *)

From S2P Require Import Prelude Printf.
Import Printf.

(** ** One text for every output function *)

(** The output function that keeps the characters. *)
Definition collect (character : Z) (b : list Z) (idx maxlen : Z) : list Z := b ++ [character].

(** The characters of a call, without the terminator. *)
Definition printf_text (fmt : list Z) (va : list va_item) : option (list Z) :=
  fst <$> vsnprintf_loop collect 0 (S (length fmt)) fmt va ([], 0).

Section simulation.
Context {B : Type} (out : Z -> B -> Z -> Z -> B) (maxlen : Z) (b0 : B) (i0 : Z).

(** A run that keeps the characters, from index 0, and a run that outputs
    them from index [i0]. *)
Definition sim (s1 : list Z * Z) (s2 : B * Z) : Prop :=
  s2 = emits out maxlen s1.1 (b0, w32 i0) /\ s2.2 = w32 (s1.2 + i0).

(** The same for results with further components. *)
Definition osim {X} (o1 : option (list Z * Z * X)) (o2 : option (B * Z * X)) : Prop :=
  match o1, o2 with
  | Some (s1, x1), Some (s2, x2) => sim s1 s2 /\ x1 = x2
  | None, None => True
  | _, _ => False
  end.

Lemma sim_emit s1 s2 c : sim s1 s2 -> sim (emit collect 0 s1 c) (emit out maxlen s2 c).
Proof.
  intros [H1 H2]. split; simpl; [|rewrite H2; unfold wrap; rewrite Zplus_mod_idemp_l,
    (Zplus_mod_idemp_l (s1.2 + 1)); f_equal; lia].
  unfold emits, collect. rewrite fold_left_app. simpl. by rewrite H1.
Qed.

Lemma sim_emits l s1 s2 : sim s1 s2 -> sim (emits collect 0 l s1) (emits out maxlen l s2).
Proof.
  revert s1 s2. induction l as [|c l IH]; intros s1 s2 H; [done|].
  simpl. apply IH. by apply sim_emit.
Qed.

Lemma sim_pad_right n i w s1 s2 :
  sim s1 s2 ->
  sim (pad_right collect 0 n i w s1) (pad_right out maxlen n (w32 (i + i0)) w s2).
Proof.
  revert s1 s2. induction n as [|n IH]; intros s1 s2 H; [done|]. simpl.
  replace (w32 (s2.2 - w32 (i + i0))) with (w32 (s1.2 - i)).
  - destruct (_ <? _); [|done]. by apply IH, sim_emit.
  - destruct H as [_ ->]. unfold wrap. rewrite Zminus_mod_idemp_l, Zminus_mod_idemp_r.
    f_equal. lia.
Qed.

Hint Resolve sim_emit sim_emits sim_pad_right : beehive.

Lemma sim_out_rev buf w f s1 s2 :
  sim s1 s2 -> sim (_out_rev collect 0 buf w f s1) (_out_rev out maxlen buf w f s2).
Proof.
  intros H. unfold _out_rev, emit_pad. destruct (H) as [_ H2]. rewrite H2.
  destruct (_ && _), (has f FLAGS_LEFT); auto with beehive.
Qed.

Lemma sim_ntoa_long v n b p w f s1 s2 :
  sim s1 s2 -> sim (_ntoa_long collect 0 v n b p w f s1) (_ntoa_long out maxlen v n b p w f s2).
Proof.
  intros H. unfold _ntoa_long, _ntoa_format. cbv zeta.
  destruct (ntoa_layout _ _ _ _ _ _). by apply sim_out_rev.
Qed.

Hint Resolve sim_ntoa_long : beehive.

Lemma sim_eval_spec c w p f va s1 s2 :
  sim s1 s2 -> osim (eval_spec collect 0 c w p f va s1) (eval_spec out maxlen c w p f va s2).
Proof.
  intros H. unfold eval_spec.
  destruct (is_int_spec c); [|destruct (c =? chr "c"); [|destruct (c =? chr "s");
    [|destruct (c =? chr "p"); [|split; auto with beehive]]]].
  - unfold spec_int. destruct (has _ _); [done|].
    destruct (va_arg_int va) as [[v va']|]; simpl; [|done].
    destruct (is_signed_spec c); split; auto with beehive.
  - unfold spec_char, emit_pad. destruct (va_arg_int va) as [[v va']|]; simpl; [|done].
    destruct (has f FLAGS_LEFT); split; simpl; auto with beehive.
  - unfold spec_string, emit_pad. destruct (va_arg_str va) as [[v va']|]; simpl; [|done].
    destruct (has f FLAGS_LEFT); split; simpl; auto with beehive.
  - unfold spec_pointer. destruct (va_arg_int va) as [[v va']|]; simpl; [|done].
    split; auto with beehive.
Qed.

Lemma sim_eval_conv fmt va s1 s2 :
  sim s1 s2 ->
  match eval_conv collect 0 fmt va s1, eval_conv out maxlen fmt va s2 with
  | Some (s1', f1, v1), Some (s2', f2, v2) => sim s1' s2' /\ f1 = f2 /\ v1 = v2
  | None, None => True
  | _, _ => False
  end.
Proof.
  intros H. unfold eval_conv. destruct (eval_flags fmt 0) as [f0 fmt0].
  destruct (eval_width fmt0 f0 va) as [[[[f1 w] fmt1] va1]|]; simpl; [|done].
  destruct (eval_precision fmt1 f1 va1) as [[[[f2 p] fmt2] va2]|]; simpl; [|done].
  destruct (eval_length fmt2 f2) as [[f3 fmt3]|]; simpl; [|done].
  pose proof (sim_eval_spec (cur fmt3) w p f3 va2 s1 s2 H) as Hs. revert Hs.
  destruct (eval_spec collect 0 _ _ _ _ _ s1) as [[s1' v1]|],
    (eval_spec out maxlen _ _ _ _ _ s2) as [[s2' v2]|]; simpl; try done.
  intros [Hsim ->]. by destruct (adv fmt3).
Qed.

Lemma sim_loop n fmt va s1 s2 :
  sim s1 s2 ->
  match vsnprintf_loop collect 0 n fmt va s1, vsnprintf_loop out maxlen n fmt va s2 with
  | Some s1', Some s2' => sim s1' s2'
  | None, None => True
  | _, _ => False
  end.
Proof.
  revert fmt va s1 s2. induction n as [|n IH]; intros fmt va s1 s2 H; [done|].
  destruct fmt as [|c r]; [done|]. simpl. destruct (c =? chr "%").
  - pose proof (sim_eval_conv r va s1 s2 H) as Hc. revert Hc.
    destruct (eval_conv collect 0 r va s1) as [[[s1' f1] v1]|],
      (eval_conv out maxlen r va s2) as [[[s2' f2] v2]|]; simpl; try done.
    intros (Hs & -> & ->). by apply IH.
  - by apply IH, sim_emit.
Qed.
End simulation.

(** The characters a formatted-output call produces are the same for
    every output function and every [maxlen]: the call is the output function
    applied to the characters of [printf_text] in order, then to the
    terminator, and it is undefined for all of them or for none. *)
Theorem vsnprintf_text {B} (out : Z -> B -> Z -> Z -> B) maxlen b fmt va :
  vsnprintf_body out maxlen b fmt va =
  (fun t => let '(b', idx) := emits out maxlen t (b, 0) in
            (out 0 b' (if idx <? maxlen then idx else w32 (maxlen - 1)) maxlen, s32 idx))
  <$> printf_text fmt va.
Proof.
  unfold vsnprintf_body, printf_text.
  pose proof (sim_loop out maxlen b 0 (S (length fmt)) fmt va ([], 0) (b, 0)) as H.
  destruct (vsnprintf_loop collect 0 _ fmt va ([], 0)) as [[t i]|],
    (vsnprintf_loop out maxlen _ fmt va (b, 0)) as [[b' idx]|].
  all: try (exfalso; by apply H). 2: done.
  destruct H as [H1 H2]; [done|]. change (w32 0) with 0 in H1. simpl in *. by rewrite <- H1.
Qed.

Lemma emits_cons {B} (out : Z -> B -> Z -> Z -> B) maxlen c t b i :
  emits out maxlen (c :: t) (b, i) = emits out maxlen t (out c b i maxlen, w32 (i + 1)).
Proof. done. Qed.

Lemma emits_collect t b j : (emits collect 0 t (b, j)).1 = b ++ t.
Proof.
  revert b j. induction t as [|c t IH]; intros b j; [by rewrite app_nil_r|].
  rewrite emits_cons, IH. unfold collect. by rewrite <- app_assoc.
Qed.

Lemma emits_idx {B} (out : Z -> B -> Z -> Z -> B) maxlen t b i :
  0 <= i -> (emits out maxlen t (b, w32 i)).2 = w32 (i + Z.of_nat (length t)).
Proof.
  revert b i. induction t as [|c t IH]; intros b i Hi; [by rewrite Z.add_0_r|].
  rewrite emits_cons. simpl length.
  replace (w32 (w32 i + 1)) with (w32 (i + 1)) by (unfold wrap; by rewrite Zplus_mod_idemp_l).
  rewrite IH by lia. f_equal. lia.
Qed.

(** ** Output to a buffer *)

(** Character [i] of a text that [count] bytes can hold: the text's own up to
    [count - 1], then the terminator. *)
Definition snprintf_cell (t : list Z) (count : Z) (i : Z) : option Z :=
  let n := Z.min (Z.of_nat (length t)) (count - 1) in
  if (0 <=? i) && (i <? n) then t !! Z.to_nat i
  else if (i =? n) && (0 <? count) then Some 0 else None.

Lemma emits_buffer count t b k i :
  0 <= k -> k + Z.of_nat (length t) < 2 ^ 32 ->
  (emits _out_buffer count t (b, k)).1 !! i =
  if decide (k <= i < Z.min (k + Z.of_nat (length t)) count)
  then t !! Z.to_nat (i - k) else b !! i.
Proof.
  revert b k. induction t as [|c t IH]; intros b k Hk Hlen.
  { rewrite decide_False; [done|simpl; lia]. }
  simpl length in *. rewrite emits_cons, w32_small, IH by lia. unfold _out_buffer.
  destruct (decide (k = i)) as [->|Hne].
  - rewrite (decide_False (P := i + 1 <= i < _)) by lia.
    destruct (Z.ltb_spec i count).
    + rewrite decide_True by lia. rewrite Z.sub_diag. simpl. apply lookup_insert_eq.
    + rewrite decide_False by lia. done.
  - assert (Hb : (if k <? count then <[k:=c]> b else b) !! i = b !! i).
    { destruct (k <? count); [|done]. by apply lookup_insert_ne. }
    rewrite Hb. destruct (decide (k + 1 <= i < _)) as [Hin|Hin].
    + rewrite decide_True by lia.
      replace (Z.to_nat (i - k)) with (S (Z.to_nat (i - (k + 1)))) by lia. done.
    + rewrite decide_False by lia. done.
Qed.

(** The buffer [b1] holding the text, once the terminator is output. *)
Lemma terminated_cell t count (b b1 : gmap Z Z) i :
  0 <= count < 2 ^ 32 ->
  (forall i, b1 !! i = if decide (0 <= i < Z.min (Z.of_nat (length t)) count)
                       then t !! Z.to_nat (i - 0) else b !! i) ->
  _out_buffer 0 b1 (if Z.of_nat (length t) <? count then Z.of_nat (length t)
                    else w32 (count - 1)) count !! i =
  match snprintf_cell t count i with Some c => Some c | None => b !! i end.
Proof.
  intros Hc Hb1. unfold snprintf_cell. cbv zeta.
  set (n := Z.min (Z.of_nat (length t)) (count - 1)).
  destruct (Z.eqb_spec count 0) as [->|Hpos].
  { rewrite (proj2 (Z.ltb_ge _ _)) by lia. change (w32 (0 - 1)) with 4294967295.
    unfold _out_buffer. simpl. rewrite Hb1, decide_False, andb_false_r by lia.
    by replace ((0 <=? i) && _) with false by (repeat case_Z; simpl; try done; lia). }
  replace (if _ <? _ then _ else _) with n
    by (case_Z; [lia|rewrite w32_small by lia; lia]).
  unfold _out_buffer. rewrite (proj2 (Z.ltb_lt n count)), (proj2 (Z.ltb_lt 0 count)) by lia.
  rewrite andb_true_r, lookup_insert, Hb1, Z.sub_0_r.
  destruct (decide (n = i)) as [->|Hne].
  { by rewrite Z.eqb_refl, Z.ltb_irrefl, andb_false_r. }
  rewrite (proj2 (Z.eqb_neq i n)) by lia.
  destruct (decide (0 <= i < n)) as [Hin|Hout].
  - rewrite decide_True by lia. rewrite (proj2 (Z.leb_le _ _)), (proj2 (Z.ltb_lt _ _)) by lia.
    destruct (lookup_lt_is_Some_2 t (Z.to_nat i)) as [c ->]; [lia|done].
  - replace ((0 <=? i) && _) with false by (repeat case_Z; simpl; try done; lia).
    rewrite decide_False; [done|lia].
Qed.

(** C35: [snprintf] into a buffer of [count] bytes stores the first
    [count - 1] characters of the text and a terminator after them, changes
    no other cell (none at all for a count of 0), and returns the length of
    the whole text. *)
Theorem snprintf_correct b count fmt va t :
  0 <= count < 2 ^ 32 -> printf_text fmt va = Some t -> Z.of_nat (length t) < 2 ^ 31 ->
  exists b', snprintf_ (Some b) count fmt va = Some (Some b', Z.of_nat (length t)) /\
    forall i, b' !! i = match snprintf_cell t count i with
                        | Some c => Some c
                        | None => b !! i
                        end.
Proof.
  intros Hc Ht Hlen. unfold snprintf_, vsnprintf_, _vsnprintf.
  rewrite vsnprintf_text, Ht. simpl.
  pose proof (emits_idx _out_buffer count t b 0 ltac:(lia)) as Hidx.
  change (w32 0) with 0 in Hidx. rewrite w32_small in Hidx by lia.
  pose proof (fun i => emits_buffer count t b 0 i ltac:(lia) ltac:(lia)) as Hbuf.
  destruct (emits _out_buffer count t (b, 0)) as [b1 idx]. simpl in *. subst idx.
  eexists. split.
  { repeat f_equal. unfold sgn. rewrite wrap_small by lia.
    by rewrite (proj2 (Z.ltb_lt _ _)) by lia. }
  intros i. apply terminated_cell; [lia|done].
Qed.

Definition sample_format : list Z := bytes_of "n=%d!".
Definition sample_args : list va_item := [VInt 4294967289].

Lemma snprintf_correct_witness :
  exists b', snprintf_ (Some ∅) 4 sample_format sample_args = Some (Some b', 5) /\
    forall i, b' !! i = match snprintf_cell (bytes_of "n=-7!") 4 i with
                        | Some c => Some c
                        | None => (∅ : gmap Z Z) !! i
                        end.
Proof.
  apply (snprintf_correct ∅ 4 sample_format sample_args (bytes_of "n=-7!"));
    [lia|vm_compute; reflexivity|vm_compute; reflexivity].
Defined.

(** ** The format loop *)

Lemma eval_flags_shorter fmt f : (length (eval_flags fmt f).2 <= length fmt)%nat.
Proof.
  revert f. induction fmt as [|c r IH]; intros f; simpl; [done|].
  destruct (flag_of c); simpl; [|done]. specialize (IH (orf f z)). lia.
Qed.

Lemma _atoi_shorter fmt i : (length (_atoi_loop i fmt).2 <= length fmt)%nat.
Proof.
  revert i. induction fmt as [|c r IH]; intros i; simpl; [done|].
  destruct (_is_digit c); simpl; [|done]. specialize (IH (w32 (w32 (i * 10) + (c - 48)))). lia.
Qed.

Lemma adv_shorter fmt r : adv fmt = Some r -> (S (length r) = length fmt)%nat.
Proof. destruct fmt; simpl; [done|by intros [= ->]]. Qed.

(** Opens the binds and the tests of a parsing step one at a time. *)
Ltac fmt_step :=
  match goal with
  | H : Some _ = Some _ |- _ => injection H as; subst
  | H : None = Some _ |- _ => discriminate H
  | H : adv _ = Some _ |- _ => apply adv_shorter in H
  | H : (if ?b then _ else _) = Some _ |- _ => destruct b
  | H : (let '(_, _) := _atoi ?f in _) = Some _ |- _ =>
      pose proof (_atoi_shorter f 0); unfold _atoi in H;
      destruct (_atoi_loop 0 f); simpl in *
  | H : mbind _ ?o = Some _ |- _ =>
      let E := fresh "E" in destruct o as [?|] eqn:E; simpl in H
  | H : (let '(_, _) := ?p in _) = Some _ |- _ => destruct p
  end.
Ltac fmt_shorter := repeat fmt_step; simpl in *; lia.

Lemma eval_width_shorter fmt f va f' w r va' :
  eval_width fmt f va = Some (f', w, r, va') -> (length r <= length fmt)%nat.
Proof. unfold eval_width. intros H. fmt_shorter. Qed.

Lemma eval_precision_shorter fmt f va f' w r va' :
  eval_precision fmt f va = Some (f', w, r, va') -> (length r <= length fmt)%nat.
Proof. unfold eval_precision. intros H. fmt_shorter. Qed.

Lemma eval_length_shorter fmt f f' r :
  eval_length fmt f = Some (f', r) -> (length r <= length fmt)%nat.
Proof. unfold eval_length. intros H. fmt_shorter. Qed.

Lemma eval_conv_shorter {B} (out : Z -> B -> Z -> Z -> B) m fmt va s s' r va' :
  eval_conv out m fmt va s = Some (s', r, va') -> (length r < length fmt)%nat.
Proof.
  unfold eval_conv. pose proof (eval_flags_shorter fmt 0) as H0.
  destruct (eval_flags fmt 0) as [f0 fmt0]. simpl in H0.
  destruct (eval_width fmt0 f0 va) as [[[[f1 w] fmt1] va1]|] eqn:H1; simpl; [|done].
  destruct (eval_precision fmt1 f1 va1) as [[[[f2 p] fmt2] va2]|] eqn:H2; simpl; [|done].
  destruct (eval_length fmt2 f2) as [[f3 fmt3]|] eqn:H3; simpl; [|done].
  apply eval_width_shorter in H1. apply eval_precision_shorter in H2.
  apply eval_length_shorter in H3.
  destruct (eval_spec _ _ _ _ _ _ _ _) as [[s1 va3]|]; simpl; [|done].
  destruct (adv fmt3) eqn:H4; simpl; [|done]. apply adv_shorter in H4.
  intros [= _ -> _]. lia.
Qed.

(** The loop's fuel is enough: any two sufficient amounts agree. *)
Lemma vsnprintf_loop_fuel {B} (out : Z -> B -> Z -> Z -> B) m n1 n2 fmt va s :
  (length fmt < n1)%nat -> (length fmt < n2)%nat ->
  vsnprintf_loop out m n1 fmt va s = vsnprintf_loop out m n2 fmt va s.
Proof.
  revert n2 fmt va s. induction n1 as [|n1 IH]; intros n2 fmt va s H1 H2; [lia|].
  destruct n2 as [|n2]; [lia|]. destruct fmt as [|c r]; [done|]. simpl in *.
  destruct (c =? chr "%"); [|apply IH; lia].
  destruct (eval_conv out m r va s) as [[[s' r'] va']|] eqn:E; simpl; [|done].
  apply eval_conv_shorter in E. apply IH; lia.
Qed.

(** A run from any state appends the text to what is there. *)
Lemma vsnprintf_loop_from n fmt va b i :
  (length fmt < n)%nat ->
  fst <$> vsnprintf_loop collect 0 n fmt va (b, w32 i) = (app b) <$> printf_text fmt va.
Proof.
  intros Hn. unfold printf_text. rewrite (vsnprintf_loop_fuel _ _ _ (S (length fmt))) by lia.
  pose proof (sim_loop collect 0 b i (S (length fmt)) fmt va ([], 0) (b, w32 i)) as H.
  destruct (vsnprintf_loop collect 0 _ fmt va ([], 0)) as [[t k]|],
    (vsnprintf_loop collect 0 _ fmt va (b, w32 i)) as [[b' idx]|].
  all: try (exfalso; by apply H). 2: done.
  destruct H as [H _]; [done|]. simpl in *. f_equal.
  rewrite <- emits_collect with (j := w32 i). by rewrite <- H.
Qed.

#[local] Arguments vsnprintf_loop : simpl never.

(** The equations of the format loop, without its fuel. *)
Lemma printf_text_cons c r va :
  printf_text [] va = Some [] /\
  printf_text (c :: r) va =
  if c =? chr "%" then
    '(s, r', va') ← eval_conv collect 0 r va ([], 0);
    t ← printf_text r' va';
    Some (s.1 ++ t)
  else cons c <$> printf_text r va.
Proof.
  split; [done|]. unfold printf_text at 1. simpl length.
  change (vsnprintf_loop collect 0 (S (S (length r))) (c :: r) va ([], 0)) with
    (if c =? chr "%" then '(s, r', va') ← eval_conv collect 0 r va ([], 0);
                          vsnprintf_loop collect 0 (S (length r)) r' va' s
     else vsnprintf_loop collect 0 (S (length r)) r va (emit collect 0 ([], 0) c)).
  destruct (c =? chr "%").
  - destruct (eval_conv collect 0 r va ([], 0)) as [[[[b i] r'] va']|] eqn:E; simpl; [|done].
    pose proof (sim_eval_conv collect 0 [] 0 r va ([], 0) ([], 0)) as Hsim.
    rewrite E in Hsim. destruct Hsim as [[_ Hi] _]; [done|]. simpl in Hi.
    apply eval_conv_shorter in E. rewrite Hi, vsnprintf_loop_from by lia.
    by destruct (printf_text r' va').
  - change (emit collect 0 ([], 0) c) with ([c], w32 1). rewrite vsnprintf_loop_from by lia.
    done.
Qed.

(** The format is processed from left to right and every call ends: an
    ordinary character is the next of the text, a [%] starts a conversion
    whose characters come next, and the rest of the format, which is shorter,
    continues with the arguments that remain. *)
Theorem printf_text_step c r va :
  printf_text [] va = Some [] /\
  printf_text (c :: r) va =
  if c =? chr "%" then
    '(s, r', va') ← eval_conv collect 0 r va ([], 0);
    t ← printf_text r' va';
    Some (s.1 ++ t)
  else cons c <$> printf_text r va.
Proof. apply printf_text_cons. Qed.

(** A format without conversions is its own text. *)
Lemma printf_text_literal l fmt va :
  Forall (fun c => c <> chr "%") l ->
  printf_text (l ++ fmt) va = app l <$> printf_text fmt va.
Proof.
  induction 1 as [|c l Hc _ IH]; simpl; [by destruct (printf_text fmt va)|].
  rewrite (proj2 (printf_text_cons c _ va)), (proj2 (Z.eqb_neq _ _)), IH by done.
  by destruct (printf_text fmt va).
Qed.

(** A format that ends in a lone [%] is undefined, whatever the
    arguments: the loop steps over the terminator and reads on. *)
Theorem trailing_percent_undefined l va :
  Forall (fun c => c <> chr "%") l -> printf_text (l ++ bytes_of "%") va = None.
Proof. intros Hl. by rewrite printf_text_literal. Qed.

Lemma trailing_percent_undefined_witness : printf_text (bytes_of "100%") [] = None.
Proof. apply (trailing_percent_undefined (bytes_of "100")). repeat constructor; done. Defined.

(** ** Calls that are defined

    [printf] of the formats libc itself uses always has a text. *)

Definition defined (fmt : list Z) (va : list va_item) : Prop :=
  exists t, printf_text fmt va = Some t.

Lemma defined_nil : defined [] [].
Proof. by exists []. Qed.

Lemma defined_literal c r va : c <> chr "%" -> defined r va -> defined (c :: r) va.
Proof.
  intros Hc [t Ht]. exists (c :: t).
  by rewrite (proj2 (printf_text_cons c r va)), (proj2 (Z.eqb_neq _ _)), Ht by done.
Qed.

Lemma defined_conv c r v va :
  c = chr "x" \/ c = chr "p" -> defined r va -> defined (chr "%" :: c :: r) (VInt v :: va).
Proof.
  intros Hc [t Ht]. unfold defined. rewrite (proj2 (printf_text_cons _ _ _)), Z.eqb_refl.
  assert (He : exists s, eval_conv collect 0 (c :: r) (VInt v :: va) ([], 0) = Some (s, r, va)).
  { destruct Hc as [->| ->]; eexists; reflexivity. }
  destruct He as [s ->]. simpl. rewrite Ht. by eexists.
Qed.

(** Proves that a concrete format is defined. *)
Ltac printf_defined :=
  cbn; repeat first
    [ exact defined_nil
    | apply defined_literal; [discriminate|]
    | apply defined_conv; [first [by left|by right]|] ].
