(* ===== verification/NumText.v ===== *)
(** * Numbers as text: printf against strtoul

    The digits of an integer conversion of [printf.c] and what [strtoul.c]
    reads back; the bound on the conversion buffer. *)

From S2P Require Import Prelude Printf Strtoul PrintfFacts.
Import Printf Strtoul.

(** ** The conversion buffer *)

Lemma pad_zeros_bound n limit buf :
  (length buf <= 32)%nat -> (length (pad_zeros n limit buf) <= 32)%nat.
Proof.
  revert buf. induction n as [|n IH]; intros buf Hb; simpl; [done|].
  destruct (Z.ltb_spec (Z.of_nat (length buf)) limit), (Z.ltb_spec (Z.of_nat (length buf))
    PRINTF_NTOA_BUFFER_SIZE) as [Hlt|]; simpl; try done.
  apply IH. rewrite length_app. unfold PRINTF_NTOA_BUFFER_SIZE in Hlt. simpl. lia.
Qed.

#[local] Arguments pad_zeros : simpl never.

Lemma push_bound buf c : (length buf <= 32)%nat -> (length (push buf c) <= 32)%nat.
Proof.
  intros Hb. unfold push. destruct (Z.ltb_spec (Z.of_nat (length buf)) PRINTF_NTOA_BUFFER_SIZE)
    as [Hlt|]; [|done]. rewrite length_app. unfold PRINTF_NTOA_BUFFER_SIZE in Hlt. simpl. lia.
Qed.

Lemma removelast_bound {A} (l : list A) : (length (removelast l) <= length l)%nat.
Proof. induction l as [|x [|y l] IH]; simpl in *; lia. Qed.

Lemma snoc_bound (b : bool) (buf : list Z) c :
  (length buf <= 32)%nat -> (b = true -> (length buf < 32)%nat) ->
  (length (if b then buf ++ [c] else buf) <= 32)%nat.
Proof. intros ? Hb. destruct b; [|done]. rewrite length_app. specialize (Hb eq_refl). simpl. lia. Qed.

Lemma ntoa_hash_bound buf base prec width flags :
  (length buf <= 32)%nat -> (length (ntoa_hash buf base prec width flags) <= 32)%nat.
Proof.
  intros Hb. unfold ntoa_hash. cbv zeta. apply push_bound.
  set (buf' := if (_ && _ && _) then _ else buf).
  assert (Hb' : (length buf' <= 32)%nat).
  { unfold buf'. destruct (_ && _ && _); [|done].
    pose proof (removelast_bound buf). pose proof (removelast_bound (removelast buf)).
    destruct (_ && _); lia. }
  clearbody buf'. clear Hb buf.
  destruct (Z.ltb_spec (Z.of_nat (length buf')) PRINTF_NTOA_BUFFER_SIZE) as [Hlt|Hge].
  - unfold PRINTF_NTOA_BUFFER_SIZE in Hlt. repeat case_match; rewrite ?length_app; simpl; lia.
  - by rewrite !andb_false_r.
Qed.

Lemma ntoa_layout_bound buf neg base prec width flags :
  (length buf <= 32)%nat -> (length (ntoa_layout buf neg base prec width flags).1 <= 32)%nat.
Proof.
  intros Hb. unfold ntoa_layout.
  set (p := if negb (has flags FLAGS_LEFT) then _ else _).
  assert (Hp : (length p.1 <= 32)%nat).
  { unfold p. destruct (negb (has flags FLAGS_LEFT)); simpl; [|done].
    destruct (has flags FLAGS_ZEROPAD); auto using pad_zeros_bound. }
  destruct p as [buf' w]. simpl in *. unfold ntoa_sign.
  destruct (has flags FLAGS_HASH); repeat case_match; auto using push_bound, ntoa_hash_bound.
Qed.

Lemma ntoa_digits_bound n value base flags buf :
  (length buf + n <= 32)%nat -> (length (ntoa_digits n value base flags buf) <= 32)%nat.
Proof.
  revert value buf. induction n as [|n IH]; intros value buf Hn; simpl; [lia|].
  assert (length (buf ++ [digit_char flags (value mod base)]) = S (length buf)) as Hl
    by (rewrite length_app; simpl; lia).
  destruct (_ && _); [apply IH|]; lia.
Qed.

(** The 32-byte conversion buffer of [_ntoa_long] holds every number with
    its padding, prefix and sign: no combination of value, base, precision,
    width and flags writes past it. *)
Theorem ntoa_buffer_bound (value : Z) neg base prec width flags :
  let buf := if negb (has flags FLAGS_PRECISION) || negb (value =? 0)
             then ntoa_digits 32 value base flags [] else [] in
  Z.of_nat (length buf) <= PRINTF_NTOA_BUFFER_SIZE /\
  Z.of_nat (length (ntoa_layout buf neg base prec width flags).1) <= PRINTF_NTOA_BUFFER_SIZE.
Proof.
  intros buf. unfold PRINTF_NTOA_BUFFER_SIZE.
  assert (Hb : (length buf <= 32)%nat).
  { unfold buf. destruct (_ || _); [apply ntoa_digits_bound|]; simpl; lia. }
  pose proof (ntoa_layout_bound buf neg base prec width flags Hb). lia.
Qed.

(** ** Digits *)

Lemma digit_char_value flags d base :
  0 <= d < base -> base <= 16 -> digit_value (digit_char flags d) = Some d.
Proof.
  intros Hd Hb.
  assert (d = 0 \/ d = 1 \/ d = 2 \/ d = 3 \/ d = 4 \/ d = 5 \/ d = 6 \/ d = 7 \/ d = 8 \/
    d = 9 \/ d = 10 \/ d = 11 \/ d = 12 \/ d = 13 \/ d = 14 \/ d = 15) as Hc by lia.
  unfold digit_char. destruct (has flags FLAGS_UPPERCASE);
    repeat (destruct Hc as [->|Hc]; [reflexivity|]); subst d; reflexivity.
Qed.

(** The digits written, least significant first. *)
Lemma ntoa_digits_spec base flags n k value buf :
  2 <= base <= 16 -> 0 <= value < base ^ Z.of_nat n -> (length buf + n = 32)%nat ->
  value < base ^ Z.of_nat k -> (1 <= k)%nat -> (1 <= n)%nat ->
  exists ds, ntoa_digits n value base flags buf = buf ++ ds /\ ds <> [] /\
    (length ds <= k)%nat /\ Forall (is_digit_of base) ds /\ digits_val base 0 (rev ds) = value.
Proof.
  intros Hb. revert k value buf. induction n as [|n IH]; intros k value buf Hv Hl Hk Hk1 Hn; [lia|].
  simpl. set (d := digit_char flags (value mod base)).
  pose proof (Z.mod_pos_bound value base ltac:(lia)) as Hm.
  assert (Hd : digit_value d = Some (value mod base)) by (apply (digit_char_value _ _ base); lia).
  assert (Hdo : digit_or_0 d = value mod base) by (unfold digit_or_0; by rewrite Hd).
  assert (Hdig : is_digit_of base d) by (by exists (value mod base)).
  pose proof (Z.div_mod value base ltac:(lia)) as Hdm.
  rewrite length_app. simpl length.
  destruct (Z.eqb_spec (value / base) 0) as [Hz|Hz]; simpl.
  - exists [d]. split; [done|]. split; [done|]. split; [simpl; lia|]. split; [by constructor|].
    simpl. rewrite Hdo. lia.
  - assert (0 <= value / base) by (apply Z.div_pos; lia).
    rewrite Nat2Z.inj_succ, Z.pow_succ_r in Hv by lia.
    assert (Hlt : value / base < base ^ Z.of_nat n) by (apply Z.div_lt_upper_bound; lia).
    destruct n as [|n]; [simpl in Hlt; lia|].
    rewrite (proj2 (Z.ltb_lt _ _)) by (unfold PRINTF_NTOA_BUFFER_SIZE; lia).
    destruct k as [|[|k]]; [lia|exfalso; rewrite Z.pow_1_r in Hk;
      rewrite Z.div_small in Hz by lia; lia|].
    rewrite (Nat2Z.inj_succ (S k)), Z.pow_succ_r in Hk by lia.
    assert (Hlk : value / base < base ^ Z.of_nat (S k)) by (apply Z.div_lt_upper_bound; lia).
    destruct (IH (S k) (value / base) (buf ++ [d])) as (ds & -> & Hne & Hlen & Hall & Hval);
      [lia|rewrite length_app; simpl; lia|lia|lia|lia|].
    exists (d :: ds). split; [by rewrite <- app_assoc|]. split; [done|].
    split; [simpl; lia|]. split; [by constructor|].
    simpl. unfold digits_val in *. rewrite fold_left_app, Hval. simpl. rewrite Hdo. lia.
Qed.

(** ** Round trips *)

Lemma read_base_digits base t :
  base = 8 \/ base = 10 \/ base = 16 -> Forall (is_digit_of base) t -> t <> [] ->
  read_base t base = (t, base).
Proof.
  intros Hb Ht Hne. destruct t as [|c [|d t]]; [done| |].
  - unfold read_base. simpl. rewrite andb_false_r. by destruct Hb as [->|[->| ->]].
  - inversion Ht as [|?? _ Ht']; subst. apply Forall_inv in Ht' as [v [Hv%digit_value_inv Hr]].
    unfold read_base. simpl.
    replace ((d =? 120) || (d =? 88)) with false
      by (rewrite !(proj2 (Z.eqb_neq _ _)) by lia; done).
    rewrite andb_false_r. by destruct Hb as [->|[->| ->]].
Qed.

Lemma stoul_digits base t sg v e :
  base = 8 \/ base = 10 \/ base = 16 -> Forall (is_digit_of base) t -> t <> [] ->
  digits_val base 0 t = v -> v <= ULONG_MAX ->
  strtoul (sign_bytes sg ++ t) base e =
  Result (match sg with Minus => w32 (- v) | _ => v end) [] e.
Proof.
  intros Hb Ht Hne Hv Hle.
  pose proof (strtoul_reads [] sg t base base t [] e) as H. rewrite app_nil_r in H.
  simpl app in H. rewrite H; try done; [|by apply read_base_digits|lia].
  cbv zeta. by rewrite Hv, (proj2 (Z.ltb_ge _ _)) by lia.
Qed.

Lemma rev_not_nil {A} (l : list A) : l <> [] -> rev l <> [].
Proof. destruct l; [done|]. intros _ H. by apply app_eq_nil in H as [_ ?]. Qed.

Lemma out_rev_plain buf up :
  has up FLAGS_LEFT = false ->
  (_out_rev collect 0 buf 0 up ([], 0)).1 = rev buf.
Proof.
  intros Hl. unfold _out_rev, emit_pad. rewrite Hl.
  replace (Z.to_nat (0 - Z.of_nat (length buf))) with 0%nat by lia. simpl repeat.
  destruct (_ && _); apply emits_collect.
Qed.

(** The conversion of a number without flags, width and precision. *)
Lemma ntoa_plain v neg base up :
  2 <= base <= 16 -> 0 <= v < 2 ^ 32 -> (neg = true -> v < base ^ 31) ->
  up = 0 \/ up = FLAGS_UPPERCASE ->
  exists ds, (_ntoa_long collect 0 v neg base 0 0 up ([], 0)).1 =
      (if neg then [45] else []) ++ rev ds /\
    ds <> [] /\ Forall (is_digit_of base) ds /\ digits_val base 0 (rev ds) = v.
Proof.
  intros Hb Hv Hneg Hup.
  assert (Hpow : 2 ^ 32 <= base ^ Z.of_nat 32) by (apply Z.pow_le_mono_l; lia).
  set (k := if neg then 31%nat else 32%nat).
  destruct (ntoa_digits_spec base up 32 k v []) as (ds & He & Hne & Hlen & Hall & Hval);
    [done|lia|done|unfold k; destruct neg; [by apply Hneg|lia]|unfold k; destruct neg; lia|lia|].
  exists ds. split; [|done].
  assert (Hc : clr up FLAGS_HASH = up) by (destruct Hup as [->| ->]; reflexivity).
  unfold _ntoa_long. rewrite Hc. replace (if v =? 0 then up else up) with up by (by destruct (v =? 0)).
  replace (negb (has up FLAGS_PRECISION)) with true by (destruct Hup as [->| ->]; reflexivity).
  cbn [orb]. rewrite He. cbn [app].
  unfold _ntoa_format, ntoa_layout.
  replace (negb (has up FLAGS_LEFT)) with true by (destruct Hup as [->| ->]; reflexivity).
  replace (has up FLAGS_ZEROPAD) with false by (destruct Hup as [->| ->]; reflexivity).
  replace (has up FLAGS_HASH) with false by (destruct Hup as [->| ->]; reflexivity).
  replace (pad_zeros 32 0 ds) with ds
    by (unfold pad_zeros; by rewrite (proj2 (Z.ltb_ge _ _)) by lia).
  replace (w32 (0 - 1)) with 4294967295 by reflexivity. rewrite Z.eqb_refl. cbn [negb andb].
  assert (Hsign : ntoa_sign ds neg up = if neg then ds ++ [45] else ds).
  { unfold ntoa_sign. destruct neg.
    - unfold push. by rewrite (proj2 (Z.ltb_lt _ _))
        by (unfold PRINTF_NTOA_BUFFER_SIZE; unfold k in Hlen; lia).
    - by destruct Hup as [->| ->]. }
  rewrite Hsign, out_rev_plain by (by destruct Hup as [->| ->]).
  destruct neg; [by rewrite rev_app_distr|done].
Qed.

(** The unsigned conversions and the base [strtoul] reads them in. *)
Definition unsigned_specs : list (Z * Z) :=
  [(chr "u", 10); (chr "x", 16); (chr "X", 16); (chr "o", 8)].

Lemma conv_unsigned c base v :
  (c, base) ∈ unsigned_specs ->
  eval_conv collect 0 [c] [VInt v] ([], 0) =
  Some (_ntoa_long collect 0 (w32 v) false base 0 0 (int_flags c 0) ([], 0), [], []) /\
  (int_flags c 0 = 0 \/ int_flags c 0 = FLAGS_UPPERCASE) /\
  (base = 8 \/ base = 10 \/ base = 16).
Proof.
  unfold unsigned_specs. rewrite !elem_of_cons, elem_of_nil.
  intros [[= -> ->]|[[= -> ->]|[[= -> ->]|[[= -> ->]|[]]]]];
    (split; [reflexivity|split; [|lia]]); (by left) || (by right).
Qed.

(** [strtoul] reads back what an unsigned conversion (%u, %x, %X, %o)
    printed, for every 32-bit value, and consumes all of it. *)
Theorem unsigned_roundtrip c base v e :
  (c, base) ∈ unsigned_specs -> 0 <= v < 2 ^ 32 ->
  exists t, printf_text [chr "%"; c] [VInt v] = Some t /\ strtoul t base e = Result v [] e.
Proof.
  intros Hc Hv. destruct (conv_unsigned c base v Hc) as (He & Hf & Hb).
  rewrite (proj2 (printf_text_cons _ _ _)), Z.eqb_refl, He. rewrite w32_small by lia. simpl mbind.
  destruct (ntoa_plain v false base (int_flags c 0)) as (ds & -> & Hne & Hall & Hval);
    [lia|done|done|done|].
  exists (rev ds). split; [by rewrite app_nil_r|].
  apply (stoul_digits base (rev ds) NoSign v e); try done.
  - by apply Forall_rev.
  - by apply rev_not_nil.
  - unfold ULONG_MAX. lia.
Qed.

Lemma unsigned_roundtrip_witness :
  exists t, printf_text (bytes_of "%x") [VInt 48879] = Some t /\
    strtoul t 16 0 = Result 48879 [] 0.
Proof.
  apply (unsigned_roundtrip (chr "x") 16 48879 0); [|lia].
  unfold unsigned_specs. apply elem_of_cons. right. apply elem_of_cons. by left.
Defined.

(** [strtoul] in base 10 reads back what %d printed, for every int: a
    negative number comes back as its 32-bit two's complement. *)
Theorem signed_roundtrip v e :
  - 2 ^ 31 <= v < 2 ^ 31 ->
  exists t, printf_text (bytes_of "%d") [VInt v] = Some t /\ strtoul t 10 e = Result (w32 v) [] e.
Proof.
  intros Hv. change (bytes_of "%d") with [chr "%"; chr "d"].
  rewrite (proj2 (printf_text_cons _ _ _)), Z.eqb_refl.
  assert (Hs : s32 (w32 v) = v).
  { unfold sgn. rewrite wrap_wrap by lia. unfold wrap.
    case_Z; Z.to_euclidean_division_equations; lia. }
  assert (He : eval_conv collect 0 [chr "d"] [VInt v] ([], 0) =
    Some (_ntoa_long collect 0 (w32 (Z.abs v)) (v <? 0) 10 0 0 0 ([], 0), [], [])).
  { transitivity (Some (_ntoa_long collect 0
      (w32 (if 0 <? s32 (w32 v) then s32 (w32 v) else 0 - s32 (w32 v)))
      (s32 (w32 v) <? 0) 10 0 0 0 ([], 0), @nil Z, @nil va_item)); [reflexivity|].
    rewrite Hs. repeat f_equal. case_Z; lia. }
  rewrite He, w32_small by lia. simpl mbind.
  destruct (ntoa_plain (Z.abs v) (v <? 0) 10 0) as (ds & -> & Hne & Hall & Hval);
    [lia|lia|intros; lia|by left|].
  rewrite app_nil_r. eexists. split; [done|].
  assert (Hr : rev ds <> []) by (by apply rev_not_nil).
  destruct (Z.ltb_spec v 0).
  - change [45] with (sign_bytes Minus).
    rewrite (stoul_digits 10 (rev ds) Minus (Z.abs v) e); try done; [|tauto|by apply Forall_rev
      |unfold ULONG_MAX; lia]. repeat f_equal. lia.
  - change (@nil Z ++ rev ds) with (sign_bytes NoSign ++ rev ds).
    rewrite (stoul_digits 10 (rev ds) NoSign (Z.abs v) e); try done; [|tauto|by apply Forall_rev
      |unfold ULONG_MAX; lia]. rewrite w32_small by lia. f_equal. lia.
Qed.

Lemma signed_roundtrip_witness :
  exists t, printf_text (bytes_of "%d") [VInt (-2147483648)] = Some t /\
    strtoul t 10 0 = Result 2147483648 [] 0.
Proof. apply (signed_roundtrip (-2147483648) 0). lia. Defined.
