(* ===== verification/Os.v ===== *)
(** * Console, program exit and timer (os.c, unistd.c, stdlib.c, time.c)

    The routines of libc that talk to the SoC's devices and CSRs. *)

From S2P Require Import Prelude Machine Printf PrintfFacts.

Module Os.

(** ** Exit

    [_exit] leaves through [ecall] with the status in [ra]; the value clamped
    to 256 is computed and not used.  Status 0 is reported by a magic word. *)

Definition EXIT_MAGIC : Z := 0x0A11C001.
Definition _exit {A} (status : Z) : M A :=
  if status =? 0 then halt EXIT_MAGIC else halt (w32 status).
Definition exit {A} (status : Z) : M A := _exit status.
Definition EXIT_FAILURE : Z := 1.
Definition abort {A} : M A := exit EXIT_FAILURE.

Definition __libc_start_main {A} (main : Z -> Z -> M Z) (argc argv : Z) : M A :=
  result ← main argc argv; exit result.

(** ** Console *)

Definition UART_TX : Z := 0x8000004.

Definition _putchar (character : Z) : M unit :=
  if character =? 0 then mret tt else store8 UART_TX character.

Fixpoint put_all (l : list Z) : M unit :=
  match l with
  | [] => mret tt
  | c :: r => _ ← _putchar c; put_all r
  end.

(** [printf] over the console: [_out_char] hands the characters to
    [_putchar]. *)
Definition printf (fmt : string) (va : list Printf.va_item) : M Z :=
  match Printf.printf_ (bytes_of fmt) va with
  | Some (sent, n) => _ ← put_all sent; mret n
  | None => stuck
  end.

(** A literal that ends in a newline. *)
Definition line (s : string) : string := String.append s (String (ascii_of_nat 10) "").

(** ** Interrupt state *)

(** [mstatus & 8] is the global interrupt enable. *)
Definition _os_is_serving_isr : M bool := h ← get; mret (Z.land (csr_mstatus h) 8 =? 0).

(** ** Timer *)

Abbreviation MTIME_BASE := (0x4000000)%Z (only parsing).
Abbreviation MTIMECMP_BASE := (0x4000008)%Z (only parsing).
Abbreviation MTIMEFREQ_BASE := (0x4000010)%Z (only parsing).
Abbreviation MTIME_AE_BASE := (0x4000018)%Z (only parsing).

(** [do { hi = r[1]; lo = r[0]; } while (r[1] != hi)] on the register pair at
    [r]. *)
Definition read_counter (fuel : nat) (r : Z) : M Z :=
  loop fuel (fun _ : unit =>
    hi ← load32 (r + 4);
    lo ← load32 r;
    again ← load32 (r + 4);
    mret (if again =? hi then inr (Z.lor (Z.shiftl hi 32) lo) else inl tt)) tt.

Definition __mtime (fuel : nat) : M Z := read_counter fuel MTIME_BASE.
Definition __mtime_alw_en (fuel : nat) : M Z := read_counter fuel MTIME_AE_BASE.

(** [time_t] is [long]: the low 32 bits, signed. *)
Definition time (fuel : nat) : M Z := t ← __mtime_alw_en fuel; mret (s32 t).

Definition __set_mtimecmp (time : Z) : M unit :=
  _ ← store32 (MTIMECMP_BASE + 4) 0xffffffff;
  _ ← store32 MTIMECMP_BASE (w32 time);
  store32 (MTIMECMP_BASE + 4) (w32 (Z.shiftr time 32)).

Definition __set_mtimefreq (freq : Z) : M unit :=
  _ ← store32 (MTIMEFREQ_BASE + 4) (w32 (Z.shiftr freq 32));
  store32 MTIMEFREQ_BASE (w32 freq).

Definition MIE_TIMER : Z := 0x80.

Definition alarm_soc_timer (fuel : nat) (interval : Z) : M bool :=
  if interval <? 0 then mret false
  else
    time ← __mtime fuel;
    _ ← __set_mtimecmp (w64 (time + interval));
    _ ← __set_mtimefreq 1;
    _ ← upd (fun h => set_mie (Z.lor (csr_mie h) MIE_TIMER) (csr_mip h) h);
    mret true.

Definition alarm_soc_timer_stop : M unit :=
  _ ← upd (fun h => set_mie (Z.land (csr_mie h) (Z.lxor 0xffffffff MIE_TIMER)) 0 h);
  __set_mtimecmp 0.

(** ** The console *)

Lemma put_all_uart l h :
  Forall (fun c => 0 < c < 256) l -> put_all l h = Ret tt (set_uart (uart h ++ l) h).
Proof.
  intros Hl. revert h. induction Hl as [|c l Hc _ IH]; intros h; simpl.
  - rewrite app_nil_r. by destruct h.
  - unfold _putchar. rewrite (proj2 (Z.eqb_neq _ _)) by lia.
    change (store8 UART_TX c) with (uart_write UART_TX c).
    unfold mbind, M_bind, uart_write. simpl. rewrite IH, w8_small by lia. simpl.
    by rewrite <- app_assoc.
Qed.

(** The characters of a conversion-free literal reach the UART in order. *)
Lemma emits_out_char m l u i :
  Forall (fun c => 0 < c < 256) l -> (Printf.emits Printf._out_char m l (u, i)).1 = u ++ l.
Proof.
  intros Hl. revert u i. induction Hl as [|c l Hc _ IH]; intros u i; [by rewrite app_nil_r|].
  rewrite emits_cons, IH. unfold Printf._out_char. rewrite (proj2 (Z.eqb_neq _ _)) by lia.
  by rewrite <- app_assoc.
Qed.

(** [printf] returns and its only effect is on the console. *)
Lemma printf_console fmt va h :
  defined (bytes_of fmt) va ->
  exists n u, printf fmt va h = Ret n (set_uart (uart h ++ u) h).
Proof.
  intros [t Ht]. unfold printf, Printf.printf_, Printf.vprintf_. rewrite vsnprintf_text, Ht. simpl.
  destruct (Printf.emits _ _ t ([], 0)) as [sent i]. simpl.
  exists (s32 i). unfold Printf._out_char at 1. simpl. generalize (s32 i) as n. intros n. revert h.
  induction sent as [|c sent IH]; intros h.
  - exists []. rewrite app_nil_r. by destruct h.
  - simpl. rewrite bind_assoc. unfold _putchar. destruct (c =? 0).
    { destruct (IH h) as [u Hu]. by exists u. }
    change (store8 UART_TX c) with (uart_write UART_TX c).
    destruct (IH (set_uart (uart h ++ [w8 c]) h)) as [u Hu]. exists (w8 c :: u).
    etransitivity; [exact Hu|]. simpl. by rewrite <- app_assoc.
Qed.

(** A [printf] whose text is [t] appends [t] to the UART and changes nothing
    else. *)
Lemma printf_uart fmt va t h :
  printf_text (bytes_of fmt) va = Some t -> Forall (fun c => 0 < c < 256) t ->
  exists n, printf fmt va h = Ret n (set_uart (uart h ++ t) h).
Proof.
  intros Ht Hr. unfold printf, Printf.printf_, Printf.vprintf_.
  rewrite vsnprintf_text, Ht. simpl.
  pose proof (emits_out_char Printf.SIZE_MAX t [] 0 Hr) as He.
  destruct (Printf.emits _ _ t ([], 0)) as [u i]. simpl in *. subst u.
  eexists. unfold Printf._out_char at 1. simpl.
  unfold mbind, M_bind. by rewrite put_all_uart.
Qed.

(** ** The timer *)

(** A 64-bit counter as successive reads see it. *)
Definition counter (c : nat -> Z) : Prop :=
  (forall i, 0 <= c i < 2 ^ 64) /\ (forall i, c i <= c (S i)).

Definition high (x : Z) : Z := x / 2 ^ 32.

(** What the reads of turn [k] of the loop see: it leaves the loop there. *)
Definition stable (c : nat -> Z) (k : nat) : Prop :=
  high (c (3 * k)%nat) = high (c (3 * k + 2)%nat).

Lemma high_between a b c : a <= b <= c -> high a = high c -> high b = high a.
Proof. unfold high. intros. zlia. Qed.

(** Two halves read around an unchanged high half are one value. *)
Lemma halves x y z :
  0 <= x -> x <= y <= z -> z < 2 ^ 64 -> high x = high z ->
  Z.lor (Z.shiftl (half_of true (w64 x)) 32) (half_of false (w64 y)) = y.
Proof.
  intros Hx Hy Hz Hh. unfold half_of. rewrite !(wrap_small 64) by lia.
  rewrite Z.lor_comm, (lor_add _ _ 32); [|lia|apply w32_range|].
  - rewrite shiftl_mul, shiftr_div by lia. pose proof (high_between x y z Hy Hh) as Hb.
    unfold high, wrap in *. zlia.
  - rewrite shiftl_mul by lia. apply Z_mod_mult.
Qed.

(** The state after some reads of [mtime]. *)
Definition with_mtime (c : nat -> Z) (h : hart) : hart :=
  set_timer c (mtime_ae h) (mtimecmp h) (tgt_clk h) h.

Lemma counter_mono c a b : counter c -> (a <= b)%nat -> c a <= c b.
Proof. intros [_ Hc] Hab. induction Hab as [|b Hab IH]; [lia|]. specialize (Hc b). lia. Qed.

(** One turn of the loop. *)
Lemma turn_mtime h :
  counter (mtime h) ->
  (hi ← load32 (MTIME_BASE + 4); lo ← load32 MTIME_BASE; again ← load32 (MTIME_BASE + 4);
   mret (if again =? hi then inr (Z.lor (Z.shiftl hi 32) lo) else inl tt)) h =
  Ret (if high (mtime h 2%nat) =? high (mtime h 0%nat) then inr (mtime h 1%nat) else inl tt)
      (with_mtime (fun i => mtime h (3 + i)%nat) h).
Proof.
  intros Hc. pose proof (proj1 Hc) as Hr.
  transitivity (Ret (if half_of true (w64 (mtime h 2%nat)) =? half_of true (w64 (mtime h 0%nat))
       then inr (Z.lor (Z.shiftl (half_of true (w64 (mtime h 0%nat))) 32)
                       (half_of false (w64 (mtime h 1%nat))))
       else inl tt) (with_mtime (fun i => mtime h (3 + i)%nat) h)); [reflexivity|].
  assert (Hh : forall i, half_of true (w64 (mtime h i)) = high (mtime h i)).
  { intros i. unfold half_of, high. rewrite (wrap_small 64) by apply Hr. by apply shiftr_div. }
  destruct (Z.eqb_spec (half_of true (w64 (mtime h 2%nat)))
    (half_of true (w64 (mtime h 0%nat)))) as [He|He]; rewrite !Hh in He.
  2: by rewrite (proj2 (Z.eqb_neq _ _)) by done.
  rewrite (proj2 (Z.eqb_eq (high _) _)) by done.
  rewrite halves with (z := mtime h 2%nat); [done|apply Hr| |apply Hr|done].
  split; apply counter_mono; (done || lia).
Qed.

(** [__mtime] returns the value of the counter at its middle read: the two
    halves are never torn. *)
Lemma mtime_reads fuel h k :
  counter (mtime h) -> stable (mtime h) k -> (k < fuel)%nat ->
  exists j c, (j <= k)%nat /\ __mtime fuel h = Ret (mtime h (3 * j + 1)%nat) (with_mtime c h).
Proof.
  revert h k. induction fuel as [|n IH]; intros h k Hc Hst Hk; [lia|].
  unfold __mtime, read_counter. cbn [loop]. unfold mbind at 1, M_bind at 1.
  rewrite turn_mtime by done.
  destruct (Z.eqb_spec (high (mtime h 2%nat)) (high (mtime h 0%nat))) as [He|He].
  { exists 0%nat. eexists. split; [lia|done]. }
  destruct k as [|k]; [by unfold stable in Hst; simpl in Hst|].
  destruct (IH (with_mtime (fun i => mtime h (3 + i)%nat) h) k) as (j & c & Hj & Hres).
  - split; intros i; [apply (proj1 Hc)|apply (proj2 Hc (3 + i)%nat)].
  - unfold stable in *. by replace (3 * S k)%nat with (3 + 3 * k)%nat in Hst by lia.
  - lia.
  - exists (S j), c. split; [lia|]. unfold __mtime, read_counter in Hres. rewrite Hres.
    by replace (3 * S j + 1)%nat with (3 + (3 * j + 1))%nat by lia.
Qed.

(** The guarded read of the 64-bit timer through two 32-bit registers
    terminates as soon as one turn sees an unchanged high half, and returns
    exactly the value the counter had at one of its reads. *)
Theorem mtime_not_torn fuel h k :
  counter (mtime h) -> stable (mtime h) k -> (k < fuel)%nat ->
  exists j c, (j <= k)%nat /\ __mtime fuel h = Ret (mtime h (3 * j + 1)%nat) (with_mtime c h).
Proof. apply mtime_reads. Qed.

Lemma reset_counter : counter (mtime reset_hart).
Proof. split; intros i; simpl; lia. Defined.

Lemma mtime_not_torn_witness :
  exists j c, (j <= 0)%nat /\
    __mtime 1 reset_hart = Ret (mtime reset_hart (3 * j + 1)%nat) (with_mtime c reset_hart).
Proof. apply (mtime_not_torn 1 reset_hart 0); [apply reset_counter|reflexivity|lia]. Defined.

(** Writing the compare register: the value after each of the three bus
    writes. *)
Lemma set_mtimecmp_trace t h :
  0 <= t < 2 ^ 64 ->
  exists h1 h2 h3,
    store32 (MTIMECMP_BASE + 4) 0xffffffff h = Ret tt h1 /\
    store32 MTIMECMP_BASE (w32 t) h1 = Ret tt h2 /\
    store32 (MTIMECMP_BASE + 4) (w32 (Z.shiftr t 32)) h2 = Ret tt h3 /\
    2 ^ 64 - 2 ^ 32 <= mtimecmp h1 /\ mtimecmp h2 = 2 ^ 64 - 2 ^ 32 + w32 t /\
    h3 = set_timer (mtime h) (mtime_ae h) t (tgt_clk h) h.
Proof.
  intros Ht. do 3 eexists. split; [reflexivity|]. split; [reflexivity|]. split; [reflexivity|].
  simpl. unfold put_half. rewrite !shiftl_mul, !shiftr_div by lia. split; [|split].
  - pose proof (w32_range (mtimecmp h)). change (w32 4294967295) with 4294967295. lia.
  - unfold wrap. zlia.
  - unfold set_timer. simpl. f_equal. unfold wrap. zlia.
Qed.

Lemma set_mtimecmp_eq t h :
  0 <= t < 2 ^ 64 ->
  __set_mtimecmp t h = Ret tt (set_timer (mtime h) (mtime_ae h) t (tgt_clk h) h).
Proof.
  intros Ht. destruct (set_mtimecmp_trace t h Ht) as (h1 & h2 & h3 & E1 & E2 & E3 & _ & _ & ->).
  unfold __set_mtimecmp, mbind, M_bind. by rewrite E1, E2, E3.
Qed.

Lemma set_mtimefreq_eq f h :
  0 <= f < 2 ^ 64 ->
  __set_mtimefreq f h = Ret tt (set_timer (mtime h) (mtime_ae h) (mtimecmp h) f h).
Proof.
  intros Hf. transitivity (Ret tt (set_timer (mtime h) (mtime_ae h) (mtimecmp h)
    (put_half false (put_half true (tgt_clk h) (w32 (Z.shiftr f 32))) (w32 f)) h));
    [reflexivity|].
  do 2 f_equal. unfold put_half. rewrite !shiftl_mul, !shiftr_div by lia. unfold wrap. zlia.
Qed.

(** While the compare register is rewritten in three 32-bit stores it
    never holds a value below the new deadline (for deadlines under
    0xffffffff00000000), so the update raises no early timer interrupt; the
    last store leaves exactly the deadline. *)
Theorem set_mtimecmp_no_early_irq t h :
  0 <= t <= 2 ^ 64 - 2 ^ 32 ->
  exists h1 h2,
    store32 (MTIMECMP_BASE + 4) 0xffffffff h = Ret tt h1 /\
    store32 MTIMECMP_BASE (w32 t) h1 = Ret tt h2 /\
    t <= mtimecmp h1 /\ t <= mtimecmp h2 /\
    __set_mtimecmp t h = Ret tt (set_timer (mtime h) (mtime_ae h) t (tgt_clk h) h).
Proof.
  intros Ht. destruct (set_mtimecmp_trace t h ltac:(lia)) as (h1 & h2 & h3 & E1 & E2 & _ & B1 & B2 & _).
  exists h1, h2. pose proof (w32_range t). rewrite set_mtimecmp_eq by lia.
  repeat split; try done; lia.
Qed.

Lemma set_mtimecmp_no_early_irq_witness :
  exists h1 h2,
    store32 (MTIMECMP_BASE + 4) 0xffffffff reset_hart = Ret tt h1 /\
    store32 MTIMECMP_BASE (w32 5000) h1 = Ret tt h2 /\
    5000 <= mtimecmp h1 /\ 5000 <= mtimecmp h2 /\
    __set_mtimecmp 5000 reset_hart =
      Ret tt (set_timer (mtime reset_hart) (mtime_ae reset_hart) 5000 (tgt_clk reset_hart)
        reset_hart).
Proof. apply (set_mtimecmp_no_early_irq 5000 reset_hart). lia. Defined.

(** A valid [alarm_soc_timer] call sets the deadline [interval] ticks
    after a value the counter had during the call, lets the counter run at
    full rate, and enables the timer interrupt without touching the other
    enables; a negative interval is refused with no effect. *)
Theorem alarm_soc_timer_correct fuel h interval k :
  counter (mtime h) -> stable (mtime h) k -> (k < fuel)%nat -> interval < 2 ^ 31 ->
  returns (alarm_soc_timer fuel interval) h (fun ok h' =>
    if interval <? 0 then ok = false /\ h' = h
    else ok = true /\
      (exists j, (j <= k)%nat /\ mtimecmp h' = w64 (mtime h (3 * j + 1)%nat + interval)) /\
      tgt_clk h' = 1 /\
      (forall i, 0 <= i -> Z.testbit (csr_mie h') i = (i =? 7) || Z.testbit (csr_mie h) i) /\
      ram h' = ram h /\ tagram h' = tagram h).
Proof.
  intros Hc Hst Hk Hi. unfold alarm_soc_timer. destruct (Z.ltb_spec interval 0); [done|].
  destruct (mtime_reads fuel h k Hc Hst Hk) as (j & c & Hj & He).
  apply returns_bind. eapply returns_eq; [apply He|].
  apply returns_bind. eapply returns_eq; [apply set_mtimecmp_eq, (wrap_range 64); lia|].
  apply returns_bind. eapply returns_eq; [apply set_mtimefreq_eq; lia|].
  apply returns_bind, returns_upd, returns_ret. simpl.
  split; [done|]. split; [by exists j|]. split; [reflexivity|].
  split; [|done]. intros i Hi0. rewrite Z.lor_spec, orb_comm. f_equal.
  change MIE_TIMER with (2 ^ 7). by rewrite Z.pow2_bits_eqb, Z.eqb_sym by lia.
Qed.
Lemma alarm_soc_timer_correct_witness :
  returns (alarm_soc_timer 1 100) reset_hart (fun ok h' =>
    if 100 <? 0 then ok = false /\ h' = reset_hart
    else ok = true /\
      (exists j, (j <= 0)%nat /\ mtimecmp h' = w64 (mtime reset_hart (3 * j + 1)%nat + 100)) /\
      tgt_clk h' = 1 /\
      (forall i, 0 <= i -> Z.testbit (csr_mie h') i = (i =? 7) || Z.testbit (csr_mie reset_hart) i) /\
      ram h' = ram reset_hart /\ tagram h' = tagram reset_hart).
Proof.
  apply (alarm_soc_timer_correct 1 reset_hart 100 0); [apply reset_counter|reflexivity|lia|lia].
Defined.

End Os.
