(* ===== verification/CString.v ===== *)
(** * string.c

    The C string and memory routines (src/bench/tools/libc/src/string.c) over
    the tagged memory of the machine: every access is a byte access of the bus
    and takes part in the tag check.  [memmove], which allocates, is in the
    file of the allocator.

    The theorems are equations: a routine returns its value, changes the
    listed bytes, and raises the tag interrupt exactly when some byte it
    touches carries another tag than the pointer it is reached through. *)

From S2P Require Import Prelude Machine.
From Stdlib Require Import Btauto.

Module CString.

(** ** The routines

    Bounded loops run on the fuel their count gives; the loops over a string
    take it as an argument, which the theorems bound by the length. *)

Definition strlen (fuel : nat) (str : Z) : M Z :=
  if str =? 0 then mret 0
  else loop fuel (fun '(str, result) =>
    c ← load8 str;
    mret (if c =? 0 then inr result else inl (w32 (str + 1), w32 (result + 1)))) (str, 0).

(** The copying loop of [strcpy] and [strcat]: the pointers it ends with. *)
Definition copy_string (fuel : nat) (ptr_d src : Z) : M (Z * Z) :=
  loop fuel (fun '(ptr_d, src) =>
    c ← load8 src;
    if c =? 0 then mret (inr (ptr_d, src))
    else
      v ← load8 src;
      _ ← store8 ptr_d v;
      mret (inl (w32 (ptr_d + 1), w32 (src + 1)))) (ptr_d, src).

(** The search for the terminator in [strcat] and [strncat]. *)
Definition skip_string (fuel : nat) (ptr : Z) : M Z :=
  loop fuel (fun ptr =>
    c ← load8 ptr;
    mret (if c =? 0 then inr ptr else inl (w32 (ptr + 1)))) ptr.

Definition strcpy (fuel : nat) (dest src : Z) : M Z :=
  '(ptr_d, _) ← copy_string fuel dest src;
  _ ← store8 ptr_d 0;
  mret dest.

Definition strcat (fuel : nat) (dest src : Z) : M Z :=
  ptr_d ← skip_string fuel dest;
  '(ptr_d, src) ← copy_string fuel ptr_d src;
  v ← load8 src;
  _ ← store8 ptr_d v;
  mret dest.

Definition strncat (fuel : nat) (dest src count : Z) : M Z :=
  d_ptr ← skip_string fuel dest;
  loop (S (Z.to_nat count)) (fun '(d_ptr, src, count) =>
    if 0 <? count then
      v ← load8 src;
      _ ← store8 d_ptr v;
      c ← load8 src;
      mret (if c =? 0 then inr dest else inl (w32 (d_ptr + 1), w32 (src + 1), w32 (count - 1)))
    else
      _ ← store8 d_ptr 0;
      mret (inr dest)) (d_ptr, src, count).

(** The two loops of [strncpy]. *)
Definition strncpy_copy (fuel : nat) (d_ptr src count : Z) : M (Z * Z) :=
  loop fuel (fun '(d_ptr, src, count) =>
    if 0 <? count then
      let count := w32 (count - 1) in
      v ← load8 src;
      _ ← store8 d_ptr v;
      c ← load8 src;
      let d_ptr := w32 (d_ptr + 1) in
      mret (if c =? 0 then inr (d_ptr, count) else inl (d_ptr, w32 (src + 1), count))
    else mret (inr (d_ptr, count))) (d_ptr, src, count).

Definition strncpy_fill (fuel : nat) (d_ptr count : Z) : M unit :=
  loop fuel (fun '(d_ptr, count) =>
    if 0 <? count then
      _ ← store8 d_ptr 0;
      mret (inl (w32 (d_ptr + 1), w32 (count - 1)))
    else mret (inr tt)) (d_ptr, count).

Definition strncpy (dest src count : Z) : M Z :=
  '(d_ptr, count) ← strncpy_copy (S (Z.to_nat count)) dest src count;
  _ ← strncpy_fill (S (Z.to_nat count)) d_ptr count;
  mret dest.

Definition memcpy (dest src count : Z) : M Z :=
  loop (S (Z.to_nat count)) (fun '(d_ptr, s_ptr, i) =>
    if i <? count then
      v ← load8 s_ptr;
      _ ← store8 d_ptr v;
      mret (inl (w32 (d_ptr + 1), w32 (s_ptr + 1), w32 (i + 1)))
    else mret (inr dest)) (dest, src, 0).

Definition memset (dest ch count : Z) : M Z :=
  let filler := w8 ch in
  loop (S (Z.to_nat count)) (fun '(d_ptr, i) =>
    if i <? count then
      _ ← store8 d_ptr filler;
      mret (inl (w32 (d_ptr + 1), w32 (i + 1)))
    else mret (inr dest)) (dest, 0).

Definition diff_sign (diff : Z) : Z := if 0 <? diff then 1 else -1.

Definition memcmp (lhs rhs count : Z) : M Z :=
  loop (S (Z.to_nat count)) (fun i =>
    if i <? count then
      l ← load8 (w32 (lhs + i));
      r ← load8 (w32 (rhs + i));
      let diff := l - r in
      mret (if negb (diff =? 0) then inr (diff_sign diff) else inl (w32 (i + 1)))
    else mret (inr 0)) 0.

(** One turn of the loop of [strcmp]: it goes on at the next offset, stops at
    this one, or gives the result of the call. *)
Definition strcmp_body (l r offset : Z) : M (Z + (Z + Z)) :=
  a ← load8 (w32 (l + offset));
  if a =? 0 then mret (inr (inl offset))
  else
    b ← load8 (w32 (r + offset));
    if b =? 0 then mret (inr (inl offset))
    else
      x ← load8 (w32 (l + offset));
      y ← load8 (w32 (r + offset));
      let diff := x - y in
      mret (if negb (diff =? 0) then inr (inr (diff_sign diff)) else inl (offset + 1)).

(** What follows the loop. *)
Definition strcmp_end (l r : Z) (res : Z + Z) : M Z :=
  match res with
  | inr v => mret v
  | inl offset =>
      x ← load8 (w32 (l + offset));
      y ← load8 (w32 (r + offset));
      let diff := x - y in
      mret (if diff =? 0 then 0 else diff_sign diff)
  end.

Definition strcmp (fuel : nat) (l r : Z) : M Z :=
  res ← loop fuel (strcmp_body l r) 0;
  strcmp_end l r res.

(** The loads give an unsigned [char]; [c] is the [int] passed. *)
Definition strchr (fuel : nat) (s c : Z) : M Z :=
  loop fuel (fun cur =>
    v ← load8 cur;
    if v =? 0 then mret (inr 0)
    else
      x ← load8 cur;
      mret (if x =? c then inr cur else inl (w32 (cur + 1)))) s.

(** ** Specification vocabulary *)

(** A state with another interrupt line and another memory. *)
Definition after (h : hart) (irq : bool) (m : gmap Z Z) : hart := set_irq irq (set_ram m h).

Definition byte_in (m : gmap Z Z) (o : Z) : Z := default 0 (m !! o).

(** Some byte of the [n] from offset [o] carries another tag than [t]. *)
Fixpoint alarm (h : hart) (t o : Z) (n : nat) : bool :=
  match n with
  | O => false
  | S k => tag_mismatch h (mkptr t o) || alarm h t (o + 1) k
  end.

Definition in_ram (t o n : Z) : Prop := 0 <= t < 16 /\ 0 <= o /\ 0 <= n /\ o + n <= 2 ^ 26.

Fixpoint put_bytes (m : gmap Z Z) (o : Z) (l : list Z) : gmap Z Z :=
  match l with
  | [] => m
  | c :: r => put_bytes (put_byte m o c) (o + 1) r
  end.

(** The memory holds the bytes [l] from offset [o]. *)
Fixpoint holds (m : gmap Z Z) (o : Z) (l : list Z) : Prop :=
  match l with
  | [] => True
  | c :: r => byte_in m o = c /\ holds m (o + 1) r
  end.

(** A string of non-zero bytes and its terminator. *)
Definition cstr (m : gmap Z Z) (o : Z) (l : list Z) : Prop :=
  Forall (fun c => 0 < c < 256) l /\ holds m o (l ++ [0]).

(** The string at offset [o], cut after [n] bytes. *)
Fixpoint str_prefix (m : gmap Z Z) (o : Z) (n : nat) : list Z :=
  match n with
  | O => []
  | S k => if byte_in m o =? 0 then [] else byte_in m o :: str_prefix m (o + 1) k
  end.

(** The [n] bytes at offset [o]. *)
Fixpoint slice (m : gmap Z Z) (o : Z) (n : nat) : list Z :=
  match n with
  | O => []
  | S k => byte_in m o :: slice m (o + 1) k
  end.

(** The order of the first bytes that differ. *)
Fixpoint lex_cmp (l r : list Z) : Z :=
  match l, r with
  | x :: l, y :: r => if x =? y then lex_cmp l r else if y <? x then 1 else -1
  | _, _ => 0
  end.

(** The length of the common prefix. *)
Fixpoint common (l r : list Z) : nat :=
  match l, r with
  | x :: l, y :: r => if x =? y then S (common l r) else O
  | _, _ => O
  end.

(** The first position of a character. *)
Fixpoint chr_pos (c : Z) (l : list Z) : option nat :=
  match l with
  | [] => None
  | x :: r => if x =? c then Some O else S <$> chr_pos c r
  end.

Definition apart (o1 n1 o2 n2 : Z) : Prop := o1 + n1 <= o2 \/ o2 + n2 <= o1.

Definition zlen {A} (l : list A) : Z := Z.of_nat (length l).

(** ** Lemmas on the vocabulary *)

Lemma after_id h : after h (tag_irq h) (ram h) = h.
Proof. by destruct h. Qed.

Lemma load8_after h b m t o :
  ok_ptr t o ->
  load8 (mkptr t o) (after h b m) =
  Ret (byte_in m o) (after h (b || tag_mismatch h (mkptr t o)) m).
Proof. intros H. by rewrite load8_ptr. Qed.

Lemma store8_after h b m t o v :
  ok_ptr t o ->
  store8 (mkptr t o) v (after h b m) =
  Ret tt (after h (b || tag_mismatch h (mkptr t o)) (put_byte m o v)).
Proof. intros H. by rewrite store8_ptr. Qed.

Lemma in_ram_ptr t o n : in_ram t o n -> 0 < n -> ok_ptr t o.
Proof. unfold in_ram, ok_ptr. lia. Qed.

Lemma in_ram_next t o n : in_ram t o n -> 0 < n -> in_ram t (o + 1) (n - 1).
Proof. unfold in_ram. lia. Qed.

Lemma in_ram_sub t o n o' n' :
  in_ram t o n -> o <= o' -> 0 <= n' -> o' + n' <= o + n -> in_ram t o' n'.
Proof. unfold in_ram. lia. Qed.

(** A pointer may step one past the end of the memory. *)
Lemma mkptr_step t o k : 0 <= t < 16 -> 0 <= o + k <= 2 ^ 26 -> w32 (mkptr t o + k) = mkptr t (o + k).
Proof. intros. rewrite mkptr_add. apply w32_small. unfold mkptr. lia. Qed.

Lemma byte_in_put m o v o' :
  byte_in (put_byte m o v) o' = if decide (o = o') then w8 v else byte_in m o'.
Proof. unfold byte_in, put_byte. rewrite lookup_insert. by case_decide. Qed.

(** The memory outside a written range. *)
Lemma byte_in_puts_ne m o l o' :
  o' < o \/ o + zlen l <= o' -> byte_in (put_bytes m o l) o' = byte_in m o'.
Proof.
  unfold zlen. revert m o. induction l as [|c r IH]; intros m o Ho; simpl in *; [done|].
  rewrite IH by lia. rewrite byte_in_put, decide_False; [done|lia].
Qed.

Lemma holds_puts_ne m o l o' l' :
  apart o (zlen l) o' (zlen l') -> holds m o' l' -> holds (put_bytes m o l) o' l'.
Proof.
  unfold apart, zlen. revert o'. induction l' as [|c r IH]; intros o' Ha; simpl in *; [done|].
  intros [Hc Hr]. split; [|apply IH; [lia|done]].
  rewrite byte_in_puts_ne; [done|unfold zlen; lia].
Qed.

Lemma holds_put_ne m o v o' l' :
  apart o 1 o' (zlen l') -> holds m o' l' -> holds (put_byte m o v) o' l'.
Proof. intros. by apply (holds_puts_ne m o [v]). Qed.

(** What was written is what is held. *)
Lemma holds_puts m o l : Forall byte_range l -> holds (put_bytes m o l) o l.
Proof.
  intros Hl. revert m o. induction Hl as [|c r Hc _ IH]; intros m o; simpl; [done|].
  split; [|apply IH]. rewrite byte_in_puts_ne by lia.
  rewrite byte_in_put, decide_True by done. by apply w8_small.
Qed.

Lemma holds_app m o l1 l2 : holds m o (l1 ++ l2) <-> holds m o l1 /\ holds m (o + zlen l1) l2.
Proof.
  unfold zlen. revert o. induction l1 as [|c r IH]; intros o; simpl.
  - rewrite Z.add_0_r. tauto.
  - rewrite IH. replace (o + 1 + Z.of_nat (length r)) with (o + Z.of_nat (S (length r))) by lia.
    tauto.
Qed.

Lemma put_bytes_app m o l1 l2 :
  put_bytes m o (l1 ++ l2) = put_bytes (put_bytes m o l1) (o + zlen l1) l2.
Proof.
  unfold zlen. revert m o. induction l1 as [|c r IH]; intros m o; simpl; [by rewrite Z.add_0_r|].
  rewrite IH. f_equal. lia.
Qed.

Lemma alarm_app h t o n1 n2 :
  alarm h t o (n1 + n2) = alarm h t o n1 || alarm h t (o + Z.of_nat n1) n2.
Proof.
  revert o. induction n1 as [|n IH]; intros o; simpl; [by rewrite Z.add_0_r|].
  rewrite IH, <- orb_assoc. do 2 f_equal. f_equal. lia.
Qed.

(** Every byte of the range may be reached with the tag: no alarm. *)
Lemma alarm_none h t o n :
  in_ram t o (Z.of_nat n) -> (forall i, o <= i < o + Z.of_nat n -> tag_ok h t i) ->
  alarm h t o n = false.
Proof.
  revert o. induction n as [|n IH]; intros o Hr Ht; simpl; [done|].
  rewrite tag_mismatch_ptr by (apply (in_ram_ptr _ _ _ Hr); lia).
  rewrite IH; [|apply (in_ram_sub _ _ _ _ _ Hr); lia|intros; apply Ht; lia].
  destruct (Ht o) as [->| ->]; [lia|done|]. by rewrite Z.eqb_refl, andb_false_r.
Qed.

(** One byte of the range with another tag, checking on: an alarm. *)
Lemma alarm_some h t o n i :
  in_ram t o (Z.of_nat n) -> o <= i < o + Z.of_nat n ->
  tags_en h = true -> tag_at h (i / 16) <> t -> alarm h t o n = true.
Proof.
  intros Hr Hi He Ht. revert o Hr Hi. induction n as [|n IH]; intros o Hr Hi; simpl; [lia|].
  destruct (decide (o = i)) as [->|].
  - rewrite tag_mismatch_ptr by (apply (in_ram_ptr _ _ _ Hr); lia).
    rewrite He, (proj2 (Z.eqb_neq _ _)) by done. done.
  - rewrite IH; [apply orb_true_r| |lia]. apply (in_ram_sub _ _ _ _ _ Hr); lia.
Qed.

(** Runs the next access of the goal. *)
Ltac access :=
  first
  [ erewrite (bind_ret (load8 _)) by (apply load8_after; unfold ok_ptr, zlen in *; lia)
  | erewrite (bind_ret (store8 _ _)) by (apply store8_after; unfold ok_ptr, zlen in *; lia) ].

Lemma cstr_nil m o : cstr m o [] <-> byte_in m o = 0.
Proof. unfold cstr. simpl. split; [by intros (_ & ? & _)|]. intros. by repeat constructor. Qed.

Lemma cstr_cons m o c l :
  cstr m o (c :: l) <-> byte_in m o = c /\ 0 < c < 256 /\ cstr m (o + 1) l.
Proof. unfold cstr. rewrite Forall_cons. simpl. tauto. Qed.

(** ** The string loops *)

Lemma strlen_loop_eq fuel h t o l m b (n : Z) :
  in_ram t o (zlen l + 1) -> cstr m o l -> (length l < fuel)%nat ->
  0 <= n -> n + zlen l < 2 ^ 32 ->
  loop fuel (fun '(str, result) =>
    c ← load8 str;
    mret (if c =? 0 then inr result else inl (w32 (str + 1), w32 (result + 1))))
    (mkptr t o, n) (after h b m) =
  Ret (n + zlen l) (after h (b || alarm h t o (S (length l))) m).
Proof.
  unfold in_ram, zlen. revert o l b n. induction fuel as [|f IH]; intros o l b n Hr Hl Hf Hn0 Hn; [lia|].
  cbn [loop]. erewrite bind_ret by (access; reflexivity).
  destruct l as [|c l]; simpl in Hr, Hf, Hn.
  - rewrite cstr_nil in Hl. rewrite Hl. simpl. unfold mret, M_ret. f_equal; [lia|].
    by rewrite orb_false_r.
  - apply cstr_cons in Hl as (-> & Hc & Hl).
    rewrite (proj2 (Z.eqb_neq c 0)) by lia. rewrite mkptr_step, w32_small by lia.
    rewrite (IH _ l); [|lia|done|lia|lia|lia]. simpl. f_equal; [lia|]. f_equal. btauto.
Qed.

Lemma skip_string_eq fuel h t o l m b :
  in_ram t o (zlen l + 1) -> cstr m o l -> (length l < fuel)%nat ->
  skip_string fuel (mkptr t o) (after h b m) =
  Ret (mkptr t (o + zlen l)) (after h (b || alarm h t o (S (length l))) m).
Proof.
  unfold in_ram, zlen, skip_string. revert o l b.
  induction fuel as [|f IH]; intros o l b Hr Hl Hf; [lia|].
  cbn [loop]. erewrite bind_ret by (access; reflexivity).
  destruct l as [|c l]; simpl in Hr, Hf.
  - rewrite cstr_nil in Hl. rewrite Hl. simpl. unfold mret, M_ret.
    by rewrite orb_false_r, Z.add_0_r.
  - apply cstr_cons in Hl as (-> & Hc & Hl).
    rewrite (proj2 (Z.eqb_neq c 0)) by lia. rewrite mkptr_step by lia.
    rewrite (IH _ l); [|lia|done|lia]. simpl. f_equal; [f_equal; lia|]. f_equal. btauto.
Qed.

Lemma cstr_put_ne m o v o' l :
  apart o 1 o' (zlen l + 1) -> cstr m o' l -> cstr (put_byte m o v) o' l.
Proof.
  intros Ha [Hl Hh]. split; [done|]. apply holds_put_ne; [|done].
  unfold apart, zlen in *. rewrite length_app. simpl. lia.
Qed.

Lemma copy_string_eq fuel h td od ts os l m b :
  in_ram td od (zlen l + 1) -> in_ram ts os (zlen l + 1) ->
  apart od (zlen l + 1) os (zlen l + 1) -> cstr m os l -> (length l < fuel)%nat ->
  copy_string fuel (mkptr td od) (mkptr ts os) (after h b m) =
  Ret (mkptr td (od + zlen l), mkptr ts (os + zlen l))
    (after h (b || alarm h ts os (S (length l)) || alarm h td od (length l)) (put_bytes m od l)).
Proof.
  unfold in_ram, apart, zlen, copy_string. revert od os l m b.
  induction fuel as [|f IH]; intros od os l m b Hd Hs Ha Hl Hf; [lia|].
  cbn [loop]. destruct l as [|c l]; simpl in Hd, Hs, Ha, Hf.
  - rewrite cstr_nil in Hl. erewrite bind_ret.
    2: { access. rewrite Hl. reflexivity. }
    simpl. unfold mret, M_ret. by rewrite !orb_false_r, !Z.add_0_r.
  - pose proof Hl as Hl'. apply cstr_cons in Hl' as (Hc & Hr & Hl').
    erewrite bind_ret.
    2: { access. rewrite Hc, (proj2 (Z.eqb_neq c 0)) by lia. do 2 access. rewrite Hc. reflexivity. }
    cbv beta iota. rewrite !mkptr_step by lia.
    rewrite (IH _ _ l); [|lia|lia|lia| |lia].
    2: { apply cstr_put_ne; [unfold apart, zlen; lia|done]. }
    simpl. f_equal; [f_equal; f_equal; lia|]. f_equal. btauto.
Qed.

(** ** The bounded loops *)

Lemma memset_loop_eq fuel h t v count n o i m b (dest : Z) :
  in_ram t o (Z.of_nat n) -> (n < fuel)%nat -> 0 <= i -> count = i + Z.of_nat n -> count < 2 ^ 32 ->
  loop fuel (fun '(d_ptr, i) =>
    if i <? count then
      _ ← store8 d_ptr v;
      mret (inl (w32 (d_ptr + 1), w32 (i + 1)))
    else mret (inr dest)) (mkptr t o, i) (after h b m) =
  Ret dest (after h (b || alarm h t o n) (put_bytes m o (repeat v n))).
Proof.
  unfold in_ram. intros Hr Hf Hi Hn Hc. revert n o i m b Hr Hf Hi Hn.
  induction fuel as [|f IH]; intros n o i m b Hr Hf Hi Hn; [lia|].
  cbn [loop]. destruct n as [|n]; simpl in Hr.
  - rewrite (proj2 (Z.ltb_ge i count)) by lia. erewrite bind_ret by reflexivity.
    cbn [alarm repeat put_bytes]. by rewrite orb_false_r.
  - rewrite (proj2 (Z.ltb_lt i count)) by lia. erewrite bind_ret by (access; reflexivity).
    cbv beta iota. rewrite mkptr_step, w32_small by lia.
    rewrite (IH n); [|lia..]. cbn [alarm repeat put_bytes]. by rewrite orb_assoc.
Qed.

Lemma memcpy_loop_eq fuel h td ts count (dest : Z) l od os i m b :
  in_ram td od (zlen l) -> in_ram ts os (zlen l) -> apart od (zlen l) os (zlen l) ->
  holds m os l -> (length l < fuel)%nat -> 0 <= i -> count = i + zlen l -> count < 2 ^ 32 ->
  loop fuel (fun '(d_ptr, s_ptr, i) =>
    if i <? count then
      v ← load8 s_ptr;
      _ ← store8 d_ptr v;
      mret (inl (w32 (d_ptr + 1), w32 (s_ptr + 1), w32 (i + 1)))
    else mret (inr dest)) (mkptr td od, mkptr ts os, i) (after h b m) =
  Ret dest (after h (b || alarm h ts os (length l) || alarm h td od (length l)) (put_bytes m od l)).
Proof.
  unfold in_ram, apart, zlen. intros Hd Hs Ha Hl Hf Hi Hn Hc.
  revert fuel od os i m b Hd Hs Ha Hl Hf Hi Hn.
  induction l as [|c l IH]; intros [|f] od os i m b Hd Hs Ha Hl Hf Hi Hn; cbn [length holds loop] in *; try lia.
  - rewrite (proj2 (Z.ltb_ge i count)) by lia. erewrite bind_ret by reflexivity.
    cbn [alarm put_bytes]. by rewrite !orb_false_r.
  - rewrite (proj2 (Z.ltb_lt i count)) by lia. destruct Hl as [Hb Hl].
    erewrite bind_ret by (do 2 access; rewrite Hb; reflexivity).
    cbv beta iota. rewrite !mkptr_step, w32_small by lia.
    rewrite (IH f); [|lia|lia|lia| |lia|lia|lia].
    2: { apply holds_put_ne; [unfold apart, zlen; lia|done]. }
    cbn [alarm put_bytes]. do 2 f_equal. btauto.
Qed.

Lemma str_prefix_put_ne m o v o' n :
  apart o 1 o' (Z.of_nat n) -> str_prefix (put_byte m o v) o' n = str_prefix m o' n.
Proof.
  unfold apart. revert o'. induction n as [|n IH]; intros o' Ha; cbn [str_prefix]; [done|].
  rewrite byte_in_put, decide_False by lia. by rewrite IH by lia.
Qed.

(** How much of the source the bounded copies read. *)
Definition src_read (m : gmap Z Z) (o : Z) (n : nat) : nat :=
  Nat.min n (S (length (str_prefix m o n))).

Lemma strncpy_copy_eq fuel h td ts n od os m b :
  in_ram td od (Z.of_nat n) -> in_ram ts os (Z.of_nat n) ->
  apart od (Z.of_nat n) os (Z.of_nat n) -> (n < fuel)%nat ->
  strncpy_copy fuel (mkptr td od) (mkptr ts os) (Z.of_nat n) (after h b m) =
  let k := src_read m os n in
  Ret (mkptr td (od + Z.of_nat k), Z.of_nat (n - k))
    (after h (b || alarm h ts os k || alarm h td od k)
      (put_bytes m od (take n (str_prefix m os n ++ [0])))).
Proof.
  unfold in_ram, apart, strncpy_copy, src_read. intros Hd Hs Ha Hf.
  revert fuel od os m b Hd Hs Ha Hf.
  induction n as [|n IH]; intros [|f] od os m b Hd Hs Ha Hf; try lia; cbn [loop].
  - erewrite bind_ret by reflexivity. cbn. by rewrite !orb_false_r, Z.add_0_r.
  - rewrite (proj2 (Z.ltb_lt 0 _)) by lia. cbn zeta.
    erewrite bind_ret by (do 3 access; reflexivity).
    rewrite byte_in_put, decide_False by lia. rewrite mkptr_step by lia. cbn [str_prefix].
    replace (w32 (Z.of_nat (S n) - 1)) with (Z.of_nat n) by (rewrite w32_small; lia).
    destruct (Z.eqb_spec (byte_in m os) 0) as [Hz|Hz].
    + unfold mret, M_ret. cbn. rewrite Hz. f_equal; [f_equal; [f_equal; lia|f_equal; lia]|].
      destruct n; cbn; f_equal; btauto.
    + rewrite mkptr_step by lia. rewrite IH by lia. cbn zeta.
      rewrite str_prefix_put_ne by (unfold apart; lia). cbn [length take app].
      rewrite <- Nat.succ_min_distr. cbn [alarm put_bytes].
      replace (od + 1 + Z.of_nat _) with (od + Z.of_nat (S (Nat.min n (S (length (str_prefix m (os + 1) n)))))) by lia.
      rewrite Nat.sub_succ. do 2 f_equal. btauto.
Qed.

Lemma strncpy_fill_eq fuel h t n o m b :
  in_ram t o (Z.of_nat n) -> (n < fuel)%nat ->
  strncpy_fill fuel (mkptr t o) (Z.of_nat n) (after h b m) =
  Ret tt (after h (b || alarm h t o n) (put_bytes m o (repeat 0 n))).
Proof.
  unfold in_ram, strncpy_fill. intros Hr Hf. revert fuel o m b Hr Hf.
  induction n as [|n IH]; intros [|f] o m b Hr Hf; try lia; cbn [loop].
  - erewrite bind_ret by reflexivity. cbn. by rewrite orb_false_r.
  - rewrite (proj2 (Z.ltb_lt 0 _)) by lia. erewrite bind_ret by (access; reflexivity).
    cbv beta iota. rewrite mkptr_step by lia.
    replace (w32 (Z.of_nat (S n) - 1)) with (Z.of_nat n) by (rewrite w32_small; lia).
    rewrite IH by lia. cbn [alarm repeat put_bytes]. by rewrite orb_assoc.
Qed.

Lemma str_prefix_length m o n : (length (str_prefix m o n) <= n)%nat.
Proof.
  revert o. induction n as [|n IH]; intros o; cbn [str_prefix]; [done|].
  destruct (_ =? 0); simpl; [lia|]. specialize (IH (o + 1)). lia.
Qed.

Lemma strncat_loop_eq fuel h (dest : Z) td ts n od os m b :
  in_ram td od (Z.of_nat n + 1) -> in_ram ts os (Z.of_nat n) ->
  apart od (Z.of_nat n + 1) os (Z.of_nat n) -> (n < fuel)%nat ->
  loop fuel (fun '(d_ptr, src, count) =>
    if 0 <? count then
      v ← load8 src;
      _ ← store8 d_ptr v;
      c ← load8 src;
      mret (if c =? 0 then inr dest else inl (w32 (d_ptr + 1), w32 (src + 1), w32 (count - 1)))
    else
      _ ← store8 d_ptr 0;
      mret (inr dest)) (mkptr td od, mkptr ts os, Z.of_nat n) (after h b m) =
  let l := str_prefix m os n in
  Ret dest (after h (b || alarm h ts os (src_read m os n) || alarm h td od (S (length l)))
             (put_bytes m od (l ++ [0]))).
Proof.
  unfold in_ram, apart, src_read. intros Hd Hs Ha Hf. revert fuel od os m b Hd Hs Ha Hf.
  induction n as [|n IH]; intros [|f] od os m b Hd Hs Ha Hf; try lia; cbn [loop].
  - change (0 <? Z.of_nat 0) with false.
    erewrite bind_ret by (access; reflexivity). cbn. by rewrite !orb_false_r.
  - rewrite (proj2 (Z.ltb_lt 0 _)) by lia. erewrite bind_ret by (do 3 access; reflexivity).
    rewrite byte_in_put, decide_False by lia. cbn [str_prefix].
    destruct (Z.eqb_spec (byte_in m os) 0) as [Hz|Hz].
    + unfold mret, M_ret. cbn. rewrite Hz. destruct n; cbn; do 2 f_equal; btauto.
    + rewrite !mkptr_step by lia.
      replace (w32 (Z.of_nat (S n) - 1)) with (Z.of_nat n) by (rewrite w32_small; lia).
      rewrite IH by lia. cbn zeta. rewrite str_prefix_put_ne by (unfold apart; lia).
      cbn [length app]. rewrite <- Nat.succ_min_distr. cbn [alarm put_bytes].
      do 2 f_equal. btauto.
Qed.

(** ** The comparisons *)

Lemma diff_sign_lex x y : x <> y -> diff_sign (x - y) = if y <? x then 1 else -1.
Proof. intros. unfold diff_sign. repeat case_Z; lia. Qed.

Lemma memcmp_loop_eq fuel h tl tr ol or count n i m b :
  in_ram tl ol (i + Z.of_nat n) -> in_ram tr or (i + Z.of_nat n) -> (n < fuel)%nat ->
  0 <= i -> count = i + Z.of_nat n ->
  loop fuel (fun i =>
    if i <? count then
      l ← load8 (w32 (mkptr tl ol + i));
      r ← load8 (w32 (mkptr tr or + i));
      let diff := l - r in
      mret (if negb (diff =? 0) then inr (diff_sign diff) else inl (w32 (i + 1)))
    else mret (inr 0)) i (after h b m) =
  let l := slice m (ol + i) n in
  let r := slice m (or + i) n in
  let k := Nat.min n (S (common l r)) in
  Ret (lex_cmp l r) (after h (b || alarm h tl (ol + i) k || alarm h tr (or + i) k) m).
Proof.
  unfold in_ram. intros Hl Hr Hf Hi Hc. revert fuel i b Hl Hr Hf Hi Hc.
  induction n as [|n IH]; intros [|f] i b Hl Hr Hf Hi Hc; try lia; cbn [loop].
  - rewrite (proj2 (Z.ltb_ge i count)) by lia. erewrite bind_ret by reflexivity.
    cbn. by rewrite !orb_false_r.
  - rewrite (proj2 (Z.ltb_lt i count)) by lia. rewrite !mkptr_step by lia.
    erewrite bind_ret by (do 2 access; reflexivity). cbv beta. cbn [slice lex_cmp common].
    destruct (Z.eqb_spec (byte_in m (ol + i)) (byte_in m (or + i))) as [He|He].
    + rewrite (proj2 (Z.eqb_eq _ 0)) by lia. cbn [negb]. rewrite w32_small by lia.
      rewrite IH by lia. cbn zeta. rewrite <- Nat.succ_min_distr. cbn [alarm].
      rewrite !Z.add_assoc. do 2 f_equal. btauto.
    + rewrite (proj2 (Z.eqb_neq _ 0)) by lia. cbn [negb]. unfold mret, M_ret.
      rewrite diff_sign_lex by done. destruct n; cbn; do 2 f_equal; btauto.
Qed.

Section strcmp.
Context (h : hart) (tl tr ol or : Z) (m : gmap Z Z).

Definition miss_l (i : Z) : bool := tag_mismatch h (mkptr tl (ol + i)).
Definition miss_r (i : Z) : bool := tag_mismatch h (mkptr tr (or + i)).

Lemma strcmp_body_eq i b x y :
  ok_ptr tl (ol + i) -> ok_ptr tr (or + i) ->
  byte_in m (ol + i) = x -> byte_in m (or + i) = y ->
  strcmp_body (mkptr tl ol) (mkptr tr or) i (after h b m) =
  if x =? 0 then Ret (inr (inl i)) (after h (b || miss_l i) m)
  else Ret (if y =? 0 then inr (inl i)
            else if x =? y then inl (i + 1) else inr (inr (if y <? x then 1 else -1)))
           (after h (b || miss_l i || miss_r i) m).
Proof.
  intros Hl Hr Hx Hy. unfold strcmp_body. rewrite !mkptr_step by (unfold ok_ptr in *; lia).
  access. rewrite Hx. destruct (Z.eqb_spec x 0); [done|]. access. rewrite Hy.
  destruct (Z.eqb_spec y 0); [done|]. do 2 access. rewrite Hx, Hy. cbv beta zeta.
  replace (b || _ || _ || _ || _) with (b || miss_l i || miss_r i) by (unfold miss_l, miss_r; btauto).
  destruct (Z.eqb_spec x y) as [->|He]; [by rewrite Z.sub_diag|].
  by rewrite (proj2 (Z.eqb_neq _ 0)), diff_sign_lex by lia.
Qed.

Lemma strcmp_end_eq i b x y :
  ok_ptr tl (ol + i) -> ok_ptr tr (or + i) ->
  byte_in m (ol + i) = x -> byte_in m (or + i) = y ->
  strcmp_end (mkptr tl ol) (mkptr tr or) (inl i) (after h b m) =
  Ret (if x =? y then 0 else if y <? x then 1 else -1) (after h (b || miss_l i || miss_r i) m).
Proof.
  intros Hl Hr Hx Hy. unfold strcmp_end. rewrite !mkptr_step by (unfold ok_ptr in *; lia).
  do 2 access. rewrite Hx, Hy. cbv beta zeta.
  destruct (Z.eqb_spec x y) as [->|He]; [by rewrite Z.sub_diag|].
  by rewrite (proj2 (Z.eqb_neq _ 0)), diff_sign_lex by lia.
Qed.

Lemma strcmp_loop_eq fuel l r i b :
  in_ram tl ol (i + zlen l + 1) -> in_ram tr or (i + zlen r + 1) -> 0 <= i ->
  cstr m (ol + i) l -> cstr m (or + i) r -> (length l < fuel)%nat ->
  (res ← loop fuel (strcmp_body (mkptr tl ol) (mkptr tr or)) i;
   strcmp_end (mkptr tl ol) (mkptr tr or) res) (after h b m) =
  let k := S (common l r) in
  Ret (lex_cmp (l ++ [0]) (r ++ [0]))
      (after h (b || alarm h tl (ol + i) k || alarm h tr (or + i) k) m).
Proof.
  unfold in_ram, zlen. intros Hl Hr Hi Hsl Hsr Hf. revert fuel i r b Hl Hr Hi Hsl Hsr Hf.
  induction l as [|x l IH]; intros [|f] i r b Hl Hr Hi Hsl Hsr Hf; cbn [length] in *; try lia.
  all: assert (Hpl : ok_ptr tl (ol + i)) by (unfold ok_ptr; lia).
  all: assert (Hpr : ok_ptr tr (or + i)) by (unfold ok_ptr; lia).
  all: unfold mbind, M_bind; cbn [loop]; unfold mbind at 1, M_bind at 1.
  - rewrite cstr_nil in Hsl. rewrite (strcmp_body_eq i b 0 _ Hpl Hpr Hsl eq_refl).
    cbn [Z.eqb mret M_ret]. rewrite (strcmp_end_eq i _ 0 _ Hpl Hpr Hsl eq_refl).
    unfold miss_l, miss_r. destruct r as [|y r]; [rewrite cstr_nil in Hsr; rewrite Hsr|
      apply cstr_cons in Hsr as (-> & Hy & _)]; cbn [app lex_cmp common alarm].
    all: f_equal; f_equal; btauto.
  - apply cstr_cons in Hsl as (Hx & Hxr & Hsl). destruct r as [|y r].
    + rewrite cstr_nil in Hsr. rewrite (strcmp_body_eq i b x 0 Hpl Hpr Hx Hsr).
      rewrite (proj2 (Z.eqb_neq x 0)) by lia. cbn [Z.eqb mret M_ret].
      rewrite (strcmp_end_eq i _ x 0 Hpl Hpr Hx Hsr). unfold miss_l, miss_r.
      cbn [app lex_cmp common alarm]. rewrite (proj2 (Z.eqb_neq x 0)) by lia. f_equal; f_equal; btauto.
    + apply cstr_cons in Hsr as (Hy & Hyr & Hsr). rewrite (strcmp_body_eq i b x y Hpl Hpr Hx Hy).
      rewrite (proj2 (Z.eqb_neq x 0)), (proj2 (Z.eqb_neq y 0)) by lia.
      cbn [app lex_cmp common]. unfold miss_l, miss_r. destruct (Z.eqb_spec x y) as [->|He].
      2: { cbn [strcmp_end mret M_ret alarm]. do 2 f_equal. btauto. }
      unfold mbind, M_bind in IH. cbn [length] in Hr. rewrite <- Z.add_assoc in Hsl, Hsr.
      rewrite (IH f (i + 1) r); [|lia|lia|lia|done|done|lia].
      cbn [alarm]. rewrite !Z.add_assoc. f_equal. f_equal. btauto.
Qed.
End strcmp.

(** ** The search *)

Lemma strchr_loop_eq fuel h t c l o m b :
  in_ram t o (zlen l + 1) -> cstr m o l -> (length l < fuel)%nat ->
  strchr fuel (mkptr t o) c (after h b m) =
  match chr_pos c l with
  | Some i => Ret (mkptr t (o + Z.of_nat i)) (after h (b || alarm h t o (S i)) m)
  | None => Ret 0 (after h (b || alarm h t o (S (length l))) m)
  end.
Proof.
  unfold in_ram, zlen, strchr. intros Hr Hl Hf. revert fuel o b Hr Hl Hf.
  induction l as [|x l IH]; intros [|f] o b Hr Hl Hf; cbn [length] in *; try lia; cbn [loop].
  - rewrite cstr_nil in Hl. erewrite bind_ret by (access; rewrite Hl; reflexivity).
    cbn. by rewrite orb_false_r.
  - apply cstr_cons in Hl as (Hx & Hxr & Hl). erewrite bind_ret.
    2: { access. rewrite Hx, (proj2 (Z.eqb_neq x 0)) by lia. access. rewrite Hx. reflexivity. }
    cbn [chr_pos]. destruct (Z.eqb_spec x c).
    + cbn. rewrite Z.add_0_r. do 2 f_equal. btauto.
    + rewrite mkptr_step by lia. rewrite IH; [|lia|done|lia].
      destruct (chr_pos c l) as [i|]; cbn [fmap option_fmap option_map alarm].
      * replace (o + 1 + Z.of_nat i) with (o + Z.of_nat (S i)) by lia. do 2 f_equal. btauto.
      * do 2 f_equal. btauto.
Qed.

(** ** The routines *)

(** The effect of a routine on a state: the bytes it writes and the alarms it
    raises. *)
Definition wrote (h : hart) (irq : bool) (o : Z) (l : list Z) : hart :=
  after h (tag_irq h || irq) (put_bytes (ram h) o l).
Definition looked (h : hart) (irq : bool) : hart := after h (tag_irq h || irq) (ram h).

Lemma wrote_silent h o l : wrote h false o l = set_ram (put_bytes (ram h) o l) h.
Proof. unfold wrote. rewrite orb_false_r. by destruct h. Qed.

Lemma wrote_byte h irq o l i :
  Forall byte_range l -> holds (ram (wrote h irq o l)) o l /\
  (i < o \/ o + zlen l <= i -> byte_at (wrote h irq o l) i = byte_at h i).
Proof. intros Hl. split; [by apply holds_puts|]. apply byte_in_puts_ne. Qed.

Lemma strlen_eq fuel h t o l :
  in_ram t o (zlen l + 1) -> mkptr t o <> 0 -> cstr (ram h) o l -> (length l < fuel)%nat ->
  strlen fuel (mkptr t o) h = Ret (zlen l) (looked h (alarm h t o (S (length l)))).
Proof.
  intros Hr H0 Hl Hf. unfold strlen, looked. rewrite (proj2 (Z.eqb_neq _ 0)) by done.
  rewrite <- (after_id h) at 1. rewrite (strlen_loop_eq fuel h t o l) by (unfold in_ram, zlen in *; done || lia).
  done.
Qed.

Lemma strcpy_eq fuel h td od ts os l :
  in_ram td od (zlen l + 1) -> in_ram ts os (zlen l + 1) ->
  apart od (zlen l + 1) os (zlen l + 1) -> cstr (ram h) os l -> (length l < fuel)%nat ->
  let n := S (length l) in
  strcpy fuel (mkptr td od) (mkptr ts os) h =
  Ret (mkptr td od) (wrote h (alarm h ts os n || alarm h td od n) od (l ++ [0])).
Proof.
  intros Hd Hs Ha Hl Hf n. unfold strcpy, wrote. rewrite <- (after_id h) at 1.
  erewrite bind_ret by (by apply (copy_string_eq _ _ _ _ _ _ l)). cbv beta iota.
  unfold in_ram, zlen in *. access. rewrite put_bytes_app. unfold mret, M_ret. do 2 f_equal.
  unfold n. replace (S (length l)) with (length l + 1)%nat by lia. rewrite !alarm_app.
  cbn [alarm]. btauto.
Qed.

Lemma strcat_eq fuel h td od ld ts os l :
  in_ram td od (zlen ld + zlen l + 1) -> in_ram ts os (zlen l + 1) ->
  apart od (zlen ld + zlen l + 1) os (zlen l + 1) ->
  cstr (ram h) od ld -> cstr (ram h) os l -> (length ld < fuel)%nat -> (length l < fuel)%nat ->
  strcat fuel (mkptr td od) (mkptr ts os) h =
  Ret (mkptr td od)
    (wrote h (alarm h ts os (S (length l)) || alarm h td od (length ld + S (length l)))
      (od + zlen ld) (l ++ [0])).
Proof.
  intros Hd Hs Ha Hld Hl Hfd Hf. unfold strcat, wrote. rewrite <- (after_id h) at 1.
  pose proof Hl as [_ Hz]. apply holds_app in Hz as [_ [Hz _]].
  unfold in_ram, apart, zlen in *.
  erewrite bind_ret by (apply (skip_string_eq _ _ _ _ ld); [unfold in_ram, zlen; lia|done..]). cbv beta.
  erewrite bind_ret by (apply (copy_string_eq _ _ _ _ _ _ l); [unfold in_ram, apart, zlen; lia..|done|done]).
  cbv beta iota. access. rewrite byte_in_puts_ne by (unfold zlen; lia).
  unfold zlen. rewrite Hz. access. rewrite put_bytes_app. unfold mret, M_ret. do 2 f_equal.
  rewrite alarm_app. replace (S (length l)) with (length l + 1)%nat by lia.
  replace (S (length ld)) with (length ld + 1)%nat by lia. rewrite !alarm_app.
  cbn [alarm]. destruct (length l) eqn:E; cbn [alarm]; rewrite ?Z.add_0_r; btauto.
Qed.

Lemma strncat_eq fuel h td od ld ts os n :
  in_ram td od (zlen ld + Z.of_nat n + 1) -> in_ram ts os (Z.of_nat n) ->
  apart od (zlen ld + Z.of_nat n + 1) os (Z.of_nat n) ->
  cstr (ram h) od ld -> (length ld < fuel)%nat ->
  let l := str_prefix (ram h) os n in
  strncat fuel (mkptr td od) (mkptr ts os) (Z.of_nat n) h =
  Ret (mkptr td od)
    (wrote h (alarm h ts os (src_read (ram h) os n) || alarm h td od (length ld + S (length l)))
      (od + zlen ld) (l ++ [0])).
Proof.
  intros Hd Hs Ha Hld Hfd l. unfold strncat, wrote. rewrite <- (after_id h) at 1.
  unfold in_ram, apart, zlen in *.
  erewrite bind_ret by (apply (skip_string_eq _ _ _ _ ld); [unfold in_ram, zlen; lia|done..]). cbv beta.
  rewrite strncat_loop_eq by (unfold in_ram, apart, zlen; lia). cbn zeta. fold l.
  do 2 f_equal. rewrite alarm_app. replace (S (length ld)) with (length ld + 1)%nat by lia.
  rewrite alarm_app. unfold zlen. cbn [alarm]. btauto.
Qed.

Lemma strncpy_eq h td od ts os n :
  in_ram td od (Z.of_nat n) -> in_ram ts os (Z.of_nat n) ->
  apart od (Z.of_nat n) os (Z.of_nat n) ->
  let l := str_prefix (ram h) os n in
  strncpy (mkptr td od) (mkptr ts os) (Z.of_nat n) h =
  Ret (mkptr td od)
    (wrote h (alarm h ts os (src_read (ram h) os n) || alarm h td od n)
      od (l ++ repeat 0 (n - length l))).
Proof.
  intros Hd Hs Ha l. unfold strncpy, wrote. rewrite <- (after_id h) at 1.
  erewrite bind_ret by (apply strncpy_copy_eq; [done..|lia]). cbv beta iota zeta.
  pose proof (str_prefix_length (ram h) os n) as Hlen. fold l in Hlen |- *.
  set (k := src_read (ram h) os n). assert (Hk : k = Nat.min n (S (length l))) by done.
  unfold in_ram in *. erewrite bind_ret.
  2: { apply strncpy_fill_eq; [unfold in_ram; lia|lia]. }
  unfold mret, M_ret. f_equal. replace n with (k + (n - k))%nat at 4 by lia. rewrite alarm_app.
  assert (Hl : take n (l ++ [0]) ++ repeat 0 (n - k) = l ++ repeat 0 (n - length l)).
  { destruct (Nat.le_gt_cases n (length l)).
    - rewrite take_app_le by lia. rewrite take_ge by lia. f_equal. f_equal. lia.
    - rewrite take_ge by (rewrite length_app; simpl; lia). rewrite <- app_assoc. f_equal.
      replace (n - length l)%nat with (S (n - k)) by lia. done. }
  rewrite <- Hl, put_bytes_app. replace (zlen (take n (l ++ [0]))) with (Z.of_nat k).
  - f_equal. btauto.
  - unfold zlen. rewrite length_take, length_app. simpl. lia.
Qed.

Lemma memcpy_eq h td od ts os l :
  in_ram td od (zlen l) -> in_ram ts os (zlen l) -> apart od (zlen l) os (zlen l) ->
  holds (ram h) os l ->
  memcpy (mkptr td od) (mkptr ts os) (zlen l) h =
  Ret (mkptr td od) (wrote h (alarm h ts os (length l) || alarm h td od (length l)) od l).
Proof.
  intros Hd Hs Ha Hl. unfold memcpy, wrote. rewrite <- (after_id h) at 1.
  rewrite (memcpy_loop_eq _ h td ts _ _ l) by (done || (unfold in_ram, zlen in *; lia)).
  by rewrite orb_assoc.
Qed.

Lemma memset_eq h t o ch n :
  in_ram t o (Z.of_nat n) ->
  memset (mkptr t o) ch (Z.of_nat n) h =
  Ret (mkptr t o) (wrote h (alarm h t o n) o (repeat (w8 ch) n)).
Proof.
  intros Hr. unfold memset, wrote. rewrite <- (after_id h) at 1.
  rewrite (memset_loop_eq _ h t _ _ n) by (done || (unfold in_ram in *; lia)). done.
Qed.

Lemma memcmp_eq h tl ol tr or n :
  in_ram tl ol (Z.of_nat n) -> in_ram tr or (Z.of_nat n) ->
  let l := slice (ram h) ol n in
  let r := slice (ram h) or n in
  let k := Nat.min n (S (common l r)) in
  memcmp (mkptr tl ol) (mkptr tr or) (Z.of_nat n) h =
  Ret (lex_cmp l r) (looked h (alarm h tl ol k || alarm h tr or k)).
Proof.
  intros Hl Hr. unfold memcmp, looked. rewrite <- (after_id h) at 1.
  rewrite (memcmp_loop_eq _ h tl tr ol or _ n) by (rewrite ?Z.add_0_l; done || lia).
  cbn zeta. rewrite !Z.add_0_r. by rewrite orb_assoc.
Qed.

Lemma strcmp_eq fuel h tl ol l tr or r :
  in_ram tl ol (zlen l + 1) -> in_ram tr or (zlen r + 1) ->
  cstr (ram h) ol l -> cstr (ram h) or r -> (length l < fuel)%nat ->
  let k := S (common l r) in
  strcmp fuel (mkptr tl ol) (mkptr tr or) h =
  Ret (lex_cmp (l ++ [0]) (r ++ [0])) (looked h (alarm h tl ol k || alarm h tr or k)).
Proof.
  intros Hl Hr Hsl Hsr Hf. unfold strcmp, looked. rewrite <- (after_id h) at 1.
  rewrite (strcmp_loop_eq h tl tr ol or (ram h) fuel l r) by (rewrite ?Z.add_0_r; done || lia).
  cbn zeta. rewrite !Z.add_0_r. by rewrite orb_assoc.
Qed.

Lemma strchr_eq fuel h t c l o :
  in_ram t o (zlen l + 1) -> cstr (ram h) o l -> (length l < fuel)%nat ->
  strchr fuel (mkptr t o) c h =
  match chr_pos c l with
  | Some i => Ret (mkptr t (o + Z.of_nat i)) (looked h (alarm h t o (S i)))
  | None => Ret 0 (looked h (alarm h t o (S (length l))))
  end.
Proof.
  intros Hr Hl Hf. unfold looked. rewrite <- (after_id h) at 1. by apply strchr_loop_eq.
Qed.

(** The comparison orders byte strings: it is 0 exactly on equal ones and
    changes sign when its arguments are swapped. *)
Lemma lex_cmp_eq l r : length l = length r -> lex_cmp l r = 0 <-> l = r.
Proof.
  revert r. induction l as [|x l IH]; intros [|y r] He; simpl in *; try done.
  destruct (Z.eqb_spec x y) as [->|Hne].
  - rewrite IH by lia. split; [by intros ->|by intros [=]].
  - split; [destruct (y <? x); intros; exfalso; lia|by intros [= ->]].
Qed.

Lemma lex_cmp_swap l r : lex_cmp r l = - lex_cmp l r.
Proof.
  revert r. induction l as [|x l IH]; intros [|y r]; simpl; try done.
  rewrite (Z.eqb_sym y x). destruct (Z.eqb_spec x y); [apply IH|].
  repeat case_Z; lia.
Qed.

(** On strings, where the terminator is the smallest byte. *)
Lemma lex_cmp_str l r :
  Forall (fun c => 0 < c < 256) l -> Forall (fun c => 0 < c < 256) r ->
  lex_cmp (l ++ [0]) (r ++ [0]) = 0 <-> l = r.
Proof.
  intros Hl. revert r. induction Hl as [|x l Hx _ IH]; intros r Hr.
  - destruct Hr as [|y r Hy _]; cbn [app lex_cmp]; [done|]. cbn in Hy. split; [|done]. repeat case_Z; intros; exfalso; lia.
  - destruct Hr as [|y r Hy Hr]; cbn [app lex_cmp]; cbn in Hx.
    + split; [|done]. repeat case_Z; intros; exfalso; lia.
    + destruct (Z.eqb_spec x y) as [->|Hne].
      * rewrite IH by done. split; [by intros ->|by intros [=]].
      * split; [destruct (y <? x); intros; exfalso; lia|by intros [= ->]].
Qed.

Lemma chr_pos_zero l : Forall (fun c => 0 < c < 256) l -> chr_pos 0 l = None.
Proof.
  induction 1 as [|x l Hx _ IH]; simpl; [done|].
  rewrite (proj2 (Z.eqb_neq x 0)), IH by lia. done.
Qed.

(** A state for the examples: checking on, the string "bee" in a granule of
    tag 5 and "bees" in one of tag 0. *)
Definition text_hart : hart :=
  set_tagram {[0x100 := 5]} (set_tags_csr 1 false
    (set_ram (put_bytes (put_bytes ∅ 0x1000 (bytes_of "bee" ++ [0])) 0x2000
      (bytes_of "bees" ++ [0])) reset_hart)).

Lemma text_bee : cstr (ram text_hart) 0x1000 (bytes_of "bee").
Proof. split; [repeat constructor|vm_compute; repeat split]. Defined.
Lemma text_bees : cstr (ram text_hart) 0x2000 (bytes_of "bees").
Proof. split; [repeat constructor|vm_compute; repeat split]. Defined.

(** ** Properties *)

(** [memset] stores the byte in exactly the [n] cells it is given, returns
    its argument, and raises the tag interrupt exactly when one of the cells
    carries another tag than the pointer. *)
Theorem memset_correct h t o ch n :
  in_ram t o (Z.of_nat n) ->
  memset (mkptr t o) ch (Z.of_nat n) h =
    Ret (mkptr t o) (wrote h (alarm h t o n) o (repeat (w8 ch) n)) /\
  forall i, i < o \/ o + Z.of_nat n <= i ->
    byte_at (wrote h (alarm h t o n) o (repeat (w8 ch) n)) i = byte_at h i.
Proof.
  intros Hr. split; [by apply memset_eq|]. intros i Hi.
  apply byte_in_puts_ne. unfold zlen. by rewrite repeat_length.
Qed.

Lemma memset_correct_witness :
  memset (mkptr 5 0x1000) 0x141 (Z.of_nat 17) text_hart =
    Ret (mkptr 5 0x1000) (wrote text_hart true 0x1000 (repeat 0x41 17)) /\
  alarm text_hart 5 0x1000 16 = false.
Proof.
  split; [|reflexivity].
  apply (memset_correct text_hart 5 0x1000 0x141 17). unfold in_ram. lia.
Defined.

(** [memcpy] between ranges that do not overlap copies the bytes, changes
    no other, and raises the interrupt exactly when a byte it reads or writes
    carries another tag than the pointer used. *)
Theorem memcpy_correct h td od ts os l :
  in_ram td od (zlen l) -> in_ram ts os (zlen l) -> apart od (zlen l) os (zlen l) ->
  holds (ram h) os l ->
  memcpy (mkptr td od) (mkptr ts os) (zlen l) h =
  Ret (mkptr td od) (wrote h (alarm h ts os (length l) || alarm h td od (length l)) od l).
Proof. apply memcpy_eq. Qed.

Lemma memcpy_correct_witness :
  memcpy (mkptr 0 0x3000) (mkptr 5 0x1000) 4 text_hart =
  Ret (mkptr 0 0x3000) (wrote text_hart false 0x3000 (bytes_of "bee" ++ [0])).
Proof.
  apply (memcpy_correct text_hart 0 0x3000 5 0x1000 (bytes_of "bee" ++ [0])).
  - unfold in_ram, zlen. simpl. lia.
  - unfold in_ram, zlen. simpl. lia.
  - right. unfold zlen. simpl. lia.
  - apply text_bee.
Defined.

(** [strcat] appends the source string and its terminator at the end of
    the destination string, whatever their lengths, and touches nothing
    else. *)
Theorem strcat_correct fuel h td od ld ts os l :
  in_ram td od (zlen ld + zlen l + 1) -> in_ram ts os (zlen l + 1) ->
  apart od (zlen ld + zlen l + 1) os (zlen l + 1) ->
  cstr (ram h) od ld -> cstr (ram h) os l -> (length ld < fuel)%nat -> (length l < fuel)%nat ->
  strcat fuel (mkptr td od) (mkptr ts os) h =
  Ret (mkptr td od)
    (wrote h (alarm h ts os (S (length l)) || alarm h td od (length ld + S (length l)))
      (od + zlen ld) (l ++ [0])).
Proof. apply strcat_eq. Qed.

Lemma strcat_correct_witness :
  strcat 8 (mkptr 5 0x1000) (mkptr 0 0x2000) text_hart =
  Ret (mkptr 5 0x1000) (wrote text_hart false 0x1003 (bytes_of "bees" ++ [0])).
Proof.
  apply (strcat_correct 8 text_hart 5 0x1000 (bytes_of "bee") 0 0x2000 (bytes_of "bees")).
  1, 2: unfold in_ram, zlen; simpl; lia.
  1: left; unfold zlen; simpl; lia.
  - apply text_bee.
  - apply text_bees.
  - simpl. lia.
  - simpl. lia.
Defined.

(** [strncpy] writes exactly [n] bytes: the source string cut at [n], then
    zeros; it reads the source no further than its terminator or [n] bytes. *)
Theorem strncpy_correct h td od ts os n :
  in_ram td od (Z.of_nat n) -> in_ram ts os (Z.of_nat n) ->
  apart od (Z.of_nat n) os (Z.of_nat n) ->
  let l := str_prefix (ram h) os n in
  strncpy (mkptr td od) (mkptr ts os) (Z.of_nat n) h =
  Ret (mkptr td od)
    (wrote h (alarm h ts os (src_read (ram h) os n) || alarm h td od n)
      od (l ++ repeat 0 (n - length l))).
Proof. apply strncpy_eq. Qed.

Lemma strncpy_correct_witness :
  strncpy (mkptr 0 0x3000) (mkptr 5 0x1000) 6 text_hart =
  Ret (mkptr 0 0x3000) (wrote text_hart false 0x3000 (bytes_of "bee" ++ [0; 0; 0])).
Proof.
  apply (strncpy_correct text_hart 0 0x3000 5 0x1000 6).
  1, 2: unfold in_ram; lia.
  right. lia.
Defined.

(** [strncat] appends at most [n] characters of the source and always a
    terminator. *)
Theorem strncat_correct fuel h td od ld ts os n :
  in_ram td od (zlen ld + Z.of_nat n + 1) -> in_ram ts os (Z.of_nat n) ->
  apart od (zlen ld + Z.of_nat n + 1) os (Z.of_nat n) ->
  cstr (ram h) od ld -> (length ld < fuel)%nat ->
  let l := str_prefix (ram h) os n in
  strncat fuel (mkptr td od) (mkptr ts os) (Z.of_nat n) h =
  Ret (mkptr td od)
    (wrote h (alarm h ts os (src_read (ram h) os n) || alarm h td od (length ld + S (length l)))
      (od + zlen ld) (l ++ [0])).
Proof. apply strncat_eq. Qed.

Lemma strncat_correct_witness :
  strncat 8 (mkptr 5 0x1000) (mkptr 0 0x2000) 2 text_hart =
  Ret (mkptr 5 0x1000) (wrote text_hart false 0x1003 (bytes_of "be" ++ [0])).
Proof.
  apply (strncat_correct 8 text_hart 5 0x1000 (bytes_of "bee") 0 0x2000 2).
  1, 2: unfold in_ram, zlen; simpl; lia.
  - left. unfold zlen. simpl. lia.
  - apply text_bee.
  - simpl. lia.
Defined.

(** [strcmp] gives the order of two strings: 0 exactly when they are
    equal, otherwise the sign of the first difference, with the arguments
    swapped the opposite sign; it reads both strings up to that difference
    only. *)
Theorem strcmp_correct fuel h tl ol l tr or r :
  in_ram tl ol (zlen l + 1) -> in_ram tr or (zlen r + 1) ->
  cstr (ram h) ol l -> cstr (ram h) or r -> (length l < fuel)%nat ->
  let k := S (common l r) in
  let v := lex_cmp (l ++ [0]) (r ++ [0]) in
  strcmp fuel (mkptr tl ol) (mkptr tr or) h =
    Ret v (looked h (alarm h tl ol k || alarm h tr or k)) /\
  (v = 0 <-> l = r) /\ lex_cmp (r ++ [0]) (l ++ [0]) = - v.
Proof.
  intros Hl Hr Hsl Hsr Hf k v. split; [by apply strcmp_eq|].
  split; [apply lex_cmp_str; [apply Hsl|apply Hsr]|apply lex_cmp_swap].
Qed.

Lemma strcmp_correct_witness :
  strcmp 8 (mkptr 5 0x1000) (mkptr 0 0x2000) text_hart = Ret (-1) (looked text_hart false).
Proof.
  apply (strcmp_correct 8 text_hart 5 0x1000 (bytes_of "bee") 0 0x2000 (bytes_of "bees")).
  1, 2: unfold in_ram, zlen; simpl; lia.
  - apply text_bee.
  - apply text_bees.
  - simpl. lia.
Defined.

(** [strchr] finds the first occurrence of a character of the string; the
    terminator, which the C standard counts as part of the string, is not
    found: searching for 0 gives the null pointer. *)
Theorem strchr_correct fuel h t c l o :
  in_ram t o (zlen l + 1) -> cstr (ram h) o l -> (length l < fuel)%nat ->
  strchr fuel (mkptr t o) c h =
    match chr_pos c l with
    | Some i => Ret (mkptr t (o + Z.of_nat i)) (looked h (alarm h t o (S i)))
    | None => Ret 0 (looked h (alarm h t o (S (length l))))
    end /\
  (c = 0 -> chr_pos c l = None).
Proof.
  intros Hr Hl Hf. split; [by apply strchr_eq|]. intros ->. apply chr_pos_zero, Hl.
Qed.

Lemma strchr_correct_witness :
  strchr 8 (mkptr 5 0x1000) 0x65 text_hart = Ret (mkptr 5 0x1001) (looked text_hart false) /\
  strchr 8 (mkptr 5 0x1000) 0 text_hart = Ret 0 (looked text_hart false).
Proof.
  split; [apply (strchr_correct 8 text_hart 5 0x65 (bytes_of "bee") 0x1000)
         |apply (strchr_correct 8 text_hart 5 0 (bytes_of "bee") 0x1000)].
  1, 4: unfold in_ram, zlen; simpl; lia.
  1, 3: apply text_bee.
  all: simpl; lia.
Defined.

End CString.
