(* ===== verification/Security.v ===== *)
(** * Pointer protection (internals/security.c, internals/no_security.c)

    The allocator calls one of two implementations of the same interface,
    chosen when libc is built: [security.c], which gives every protected
    range a fresh memory tag, and [no_security.c], which does nothing.  The
    interface is the class [OsSec], what its clients rely on the class
    [OsSecLaws]; both implementations are instances. *)

From S2P Require Import Prelude Machine Printf PrintfFacts Os CString.
Import CString.

#[local] Obligation Tactic := idtac.

(** ** The interface *)

Class OsSec := {
  _ossec_init : nat -> M Z;
  _ossec_protect_ptr : Z -> Z -> M Z;
  _ossec_get_secure_ptr : Z -> M Z;
  _ossec_get_essence : Z -> Z
}.

(** [h'] differs from [h] in the memory and its tags at most. *)
Definition same_dev (h h' : hart) : Prop := h' = set_tagram (tagram h') (set_ram (ram h') h).

(** A range the allocator may ask protection for. *)
Definition range_ok (o size : Z) : Prop :=
  o mod 16 = 0 /\ 0 <= o < 2 ^ 26 /\ 0 <= size /\ o + size <= 2 ^ 26.

(** What protecting a range does to the rest of the state: bytes outside the
    layer's own data keep their values, the range is reachable through the
    new tag and granules outside it keep theirs. *)
Definition protected (own : Z -> Prop) (h h' : hart) (o size t : Z) : Prop :=
  same_dev h h' /\
  (forall i, ~ own i -> byte_at h' i = byte_at h i) /\
  (forall i, o <= i < o + size -> tag_ok h' t i) /\
  (forall g, 16 * g + 16 <= o \/ o + size <= 16 * g -> tag_at h' g = tag_at h g).

(** What the allocator relies on.  [sec_next] is the tag the next protected
    range gets, [sec_own] the bytes the layer keeps its own data in,
    [tags_apart] what the layer promises of the tags of two ranges it
    protects one after the other. *)
Class OsSecLaws (O : OsSec) := {
  sec_inv : hart -> Prop;
  sec_next : hart -> Z;
  sec_own : Z -> Prop;
  valid_tag : Z -> Prop;
  tags_apart : Z -> Z -> Prop;
  valid_range t : valid_tag t -> 0 <= t < 16;
  valid_zero : valid_tag 0;
  sec_frame h h' :
    sec_inv h -> csr_tags h' = csr_tags h ->
    (forall i, sec_own i -> byte_at h' i = byte_at h i /\ tag_at h' (i / 16) = tag_at h (i / 16)) ->
    sec_inv h' /\ sec_next h' = sec_next h;
  sec_protect h o size :
    sec_inv h -> range_ok o size ->
    (forall i, o <= i < o + 16 * ((size + 15) / 16) -> ~ sec_own i) ->
    exists h', _ossec_protect_ptr o size h = Ret (mkptr (sec_next h) o) h' /\
      sec_inv h' /\ valid_tag (sec_next h) /\ tags_apart (sec_next h) (sec_next h') /\
      tags_apart (sec_next h) 0 /\ protected sec_own h h' o size (sec_next h);
  sec_get h o t t0 :
    sec_inv h -> ok_ptr 0 o -> valid_tag t0 -> valid_tag t -> tag_ok h t o ->
    _ossec_get_secure_ptr (mkptr t0 o) h = Ret (mkptr t o) h;
  sec_essence t o : valid_tag t -> ok_ptr 0 o -> _ossec_get_essence (mkptr t o) = o
}.

(** The panic routine, the same in both. *)
Definition _ossec_panic : M Z :=
  _ ← Os.printf (Os.line "LIBC: <PANIC> SECURITY VIOLATION DETECTED!") [];
  Os.exit 42.

Lemma panic_exits h : exits _ossec_panic h 42.
Proof.
  unfold _ossec_panic.
  edestruct (Os.printf_console (Os.line "LIBC: <PANIC> SECURITY VIOLATION DETECTED!") [] h)
    as (n & u & He); [printf_defined|].
  eexists. by erewrite bind_ret by exact He.
Qed.

Module Security.

(** The address of [sec_cntx], which the linker gives. *)
Section secure.
Context (sec_cntx : Z).

(** [struct secure_context_t]: [tag_gen] at 0, [sec_tag] at 4. *)
Definition tag_gen (h : hart) : Z := word_at h sec_cntx.
Definition sec_tag (h : hart) : Z := word_at h (sec_cntx + 4).

(** [do sec_tag = soc_hwrand() & 0xf; while (sec_tag == 0);] *)
Definition draw_sec_tag (fuel : nat) : M Z :=
  loop fuel (fun _ : unit =>
    r ← soc_hwrand;
    let sec_tag := Z.land r 0xf in
    mret (if sec_tag =? 0 then inl tt else inr sec_tag)) tt.

(** The loop on [sec_cntx.tag_gen], which is volatile memory. *)
Definition draw_tag_gen (fuel : nat) (sec_tag : Z) : M unit :=
  loop fuel (fun _ : unit =>
    r ← soc_hwrand;
    _ ← store32 sec_cntx (Z.land r 0xf);
    g ← load32 sec_cntx;
    if g =? 0 then mret (inl tt)
    else
      g ← load32 sec_cntx;
      mret (if g =? sec_tag then inl tt else inr tt)) tt.

Definition init (fuel : nat) : M Z :=
  _ ← CString.memset sec_cntx 0 16;
  sec_tag ← draw_sec_tag fuel;
  _ ← store32 (sec_cntx + 4) sec_tag;
  _ ← draw_tag_gen fuel sec_tag;
  _ ← csrw_tags 1;
  _ ← store_tag (Z.land sec_cntx 0x0fffffff) sec_tag;
  mret 1.

Definition _ossec_get_protected_ptr (ptr : Z) : M Z :=
  let t0 := Z.land ptr 0x0fffffff in
  t1 ← load_tag t0;
  mret (Z.lor t0 (w32 (Z.shiftl t1 28))).

(** The loop moves over at most the tags 0 and [sec_tag]: three turns. *)
Definition _ossec_generate_tag : M Z :=
  ptr ← _ossec_get_protected_ptr sec_cntx;
  new_tag ← load32 ptr;
  _ ← loop 3 (fun _ : unit =>
    g ← load32 ptr;
    _ ← store32 ptr (Z.land (w32 (g + 1)) 0xf);
    g ← load32 ptr;
    if g =? 0 then mret (inl tt)
    else
      g ← load32 ptr;
      s ← load32 (ptr + 4);
      mret (if g =? s then inl tt else inr tt)) tt;
  mret new_tag.

Definition _ossec_alignment_assert (ptr : Z) : M Z :=
  _ ← Os.printf (Os.line "PANIC: ALIGNMENT VIOLATION @[0x%x]") [Printf.VInt ptr];
  Os.exit 43.

Definition GRANULE_SIZE : Z := 16.

(** The [st] loop of [_ossec_protect_ptr]. *)
Definition tag_granules (tag granules address : Z) : M unit :=
  loop (S (Z.to_nat granules)) (fun '(i, address) =>
    if i <? granules then
      _ ← store_tag address tag;
      mret (inl (w32 (i + 1), w32 (address + 16)))
    else mret (inr tt)) (0, address).

Definition protect_ptr (raw_ptr size : Z) : M Z :=
  tag ← _ossec_generate_tag;
  _ ← (if raw_ptr mod 16 =? 0 then mret 0 else _ossec_alignment_assert raw_ptr);
  let untagged_ptr := Z.land raw_ptr 0x0fffffff in
  let granules_to_tag := w32 (size / GRANULE_SIZE + (if size mod GRANULE_SIZE =? 0 then 0 else 1)) in
  _ ← tag_granules tag granules_to_tag untagged_ptr;
  mret (Z.lor untagged_ptr (w32 (Z.shiftl tag 28))).

Definition get_essence (ptr : Z) : Z := Z.land ptr (Z.shiftl 1 28 - 1).

Definition get_secure_ptr (ptr : Z) : M Z := _ossec_get_protected_ptr ptr.

Definition secure_ossec : OsSec := {|
  _ossec_init := init;
  _ossec_protect_ptr := protect_ptr;
  _ossec_get_secure_ptr := get_secure_ptr;
  _ossec_get_essence := get_essence
|}.

(** ** The tag generator *)

(** The tag after [g]: the next one that is neither 0 nor the secure tag. *)
Definition next_tag (s g : Z) : Z :=
  let skip a := (a =? 0) || (a =? s) in
  let a := (g + 1) mod 16 in
  let b := (a + 1) mod 16 in
  if skip a then if skip b then (b + 1) mod 16 else b else a.

Definition user_tag (s g : Z) : Prop := 1 <= g < 16 /\ g <> s.

Lemma next_tag_user s g : 1 <= s < 16 -> user_tag s g -> user_tag s (next_tag s g) /\ next_tag s g <> g.
Proof.
  unfold user_tag, next_tag. intros Hs Hg. repeat case_Z; simpl; zlia.
Qed.

(** The invariant of the layer: checking is on, the two tags in the context
    differ and are not 0, and the context is in a granule of the secure
    tag. *)
Definition sec_ok (h : hart) : Prop :=
  tags_en h = true /\ 1 <= sec_tag h < 16 /\ user_tag (sec_tag h) (tag_gen h) /\
  tag_at h (sec_cntx / 16) = sec_tag h.

Context (Hctx : range_ok sec_cntx 16).

Lemma ctx_ok t : 0 <= t < 16 -> ok_ptr t sec_cntx /\ ok_ptr t (sec_cntx + 4).
Proof. destruct Hctx as (_ & ? & _ & ?). unfold ok_ptr. lia. Qed.

Lemma ctx_align : sec_cntx mod 4 = 0 /\ (sec_cntx + 4) mod 4 = 0 /\ (sec_cntx + 4) / 16 = sec_cntx / 16.
Proof. destruct Hctx as (? & _). zlia. Qed.

Lemma tag_pointer t o : ok_ptr t o -> Z.lor o (w32 (Z.shiftl t 28)) = mkptr t o.
Proof.
  intros [Ht Ho]. rewrite shiftl_mul by lia. rewrite w32_small by lia.
  rewrite (lor_add o _ 28); [unfold mkptr; lia|lia|lia|apply Z_mod_mult].
Qed.

Lemma get_protected_eq h t0 t o :
  ok_ptr t0 o -> 0 <= t < 16 -> tag_at h (o / 16) = t ->
  _ossec_get_protected_ptr (mkptr t0 o) h = Ret (mkptr t o) h.
Proof.
  intros H0 Ht Hg. unfold _ossec_get_protected_ptr. cbv zeta. rewrite mkptr_untag by done.
  destruct H0 as [_ Ho]. erewrite bind_ret.
  2: { apply (load_tag_ptr 0 o). by split. }
  unfold mret, M_ret. f_equal. rewrite Hg. by apply tag_pointer.
Qed.

(** One turn of the generator's loop. *)
Lemma generate_turn h s g :
  1 <= s < 16 -> 0 <= g < 16 -> sec_tag h = s -> tag_gen h = g -> tag_at h (sec_cntx / 16) = s ->
  let a := (g + 1) mod 16 in
  let ptr := mkptr s sec_cntx in
  (g ← load32 ptr;
   _ ← store32 ptr (Z.land (w32 (g + 1)) 0xf);
   g ← load32 ptr;
   if g =? 0 then mret (inl tt)
   else
     g ← load32 ptr;
     s ← load32 (ptr + 4);
     mret (if g =? s then inl tt else inr tt)) h =
  Ret (if (a =? 0) || (a =? s) then inl tt else inr tt)
    (set_ram (put_word (ram h) sec_cntx a) h).
Proof.
  intros Hs Hg Es Eg Et a ptr. destruct (ctx_ok s ltac:(lia)) as [Hp Hp4].
  destruct ctx_align as (A0 & A4 & G4).
  assert (Ha : Z.land (w32 (g + 1)) 0xf = a).
  { rewrite w32_small by lia. apply land_15. }
  assert (Hok : forall h' o, tagram h' = tagram h -> o / 16 = sec_cntx / 16 -> tag_ok h' s o).
  { intros h' o E1 E2. right. unfold tag_at in *. by rewrite E1, E2. }
  erewrite bind_ret by (apply load32_ok; [done..|by apply Hok]).
  fold (tag_gen h). rewrite Eg, Ha.
  erewrite bind_ret by (apply store32_ok; [done..|by apply Hok]).
  erewrite bind_ret by (apply load32_ok; [done..|by apply Hok]).
  rewrite word_at_put, w32_small by (unfold a; zlia).
  destruct (Z.eqb_spec a 0) as [->|Hn]; [done|].
  erewrite bind_ret by (apply load32_ok; [done..|by apply Hok]).
  unfold ptr. rewrite mkptr_add. erewrite bind_ret by (apply load32_ok; [done..|by apply Hok]).
  rewrite word_at_put, w32_small by (unfold a; zlia). rewrite word_at_put_ne by lia.
  change (word_at (set_ram (ram h) h) (sec_cntx + 4)) with (sec_tag h). by rewrite Es.
Qed.

Definition gen_state (h : hart) : hart :=
  set_ram (put_word (ram h) sec_cntx (next_tag (sec_tag h) (tag_gen h))) h.

Lemma tag_gen_put h m a : 0 <= a < 16 -> tag_gen (set_ram (put_word m sec_cntx a) h) = a.
Proof. intros. unfold tag_gen. rewrite word_at_put. apply w32_small. lia. Qed.

Lemma sec_tag_put h a : sec_tag (set_ram (put_word (ram h) sec_cntx a) h) = sec_tag h.
Proof. unfold sec_tag. rewrite word_at_put_ne by lia. by destruct h. Qed.

Lemma generate_tag_eq h : sec_ok h -> _ossec_generate_tag h = Ret (tag_gen h) (gen_state h).
Proof.
  intros (_ & Hs & Hg & Ht). destruct (ctx_ok (sec_tag h) ltac:(lia)) as [Hp Hp4].
  unfold _ossec_generate_tag. erewrite bind_ret.
  2: { apply (get_protected_eq h 0); [apply ctx_ok; lia| |apply Ht]. lia. }
  erewrite bind_ret by (apply load32_ok; [done|apply ctx_align|by right]).
  fold (tag_gen h). set (s := sec_tag h) in *. set (g := tag_gen h) in *.
  unfold user_tag in Hg. unfold gen_state, next_tag. fold s g.
  pose proof (next_tag_user s g Hs Hg) as Hn. unfold next_tag, user_tag in Hn.
  set (a := (g + 1) mod 16) in *. set (b := (a + 1) mod 16) in *.
  assert (Ra : 0 <= a < 16 /\ 0 <= b < 16) by (unfold b, a; zlia).
  erewrite bind_ret; [reflexivity|]. cbn [loop].
  erewrite bind_ret by (apply (generate_turn h s g); done || lia). fold a.
  destruct ((a =? 0) || (a =? s)); [|done]. cbv iota.
  erewrite bind_ret.
  2: { apply (generate_turn _ s a); [lia|lia|by rewrite sec_tag_put|apply tag_gen_put, Ra|done]. }
  fold b. simpl ram. rewrite put_word_put_word, set_ram_ram.
  destruct ((b =? 0) || (b =? s)) eqn:Eb; [|done]. cbv iota.
  erewrite bind_ret.
  2: { apply (generate_turn _ s b); [lia|lia|by rewrite sec_tag_put|apply tag_gen_put, Ra|done]. }
  simpl ram. rewrite put_word_put_word, set_ram_ram.
  rewrite (proj2 (Z.eqb_neq _ 0)), (proj2 (Z.eqb_neq _ s)) by lia. done.
Qed.

Lemma gen_state_ok h : sec_ok h -> sec_ok (gen_state h).
Proof.
  intros (He & Hs & Hg & Ht). pose proof (next_tag_user _ _ Hs Hg) as [Hn _].
  unfold sec_ok, gen_state. rewrite sec_tag_put, tag_gen_put by (unfold user_tag in *; lia).
  done.
Qed.

Lemma gen_state_next h :
  sec_ok h -> tag_gen (gen_state h) = next_tag (sec_tag h) (tag_gen h) /\
              sec_tag (gen_state h) = sec_tag h.
Proof.
  intros (He & Hs & Hg & Ht). pose proof (next_tag_user _ _ Hs Hg) as [Hn _].
  unfold gen_state. rewrite sec_tag_put, tag_gen_put by (unfold user_tag in *; lia). done.
Qed.

(** ** Protection *)

Fixpoint tag_range (m : gmap Z Z) (g : Z) (n : nat) (t : Z) : gmap Z Z :=
  match n with
  | O => m
  | S k => tag_range (<[g := t]> m) (g + 1) k t
  end.

Lemma tag_range_at h m g n t g' :
  tag_at (set_tagram (tag_range m g n t) h) g' =
  if decide (g <= g' < g + Z.of_nat n) then t else tag_at (set_tagram m h) g'.
Proof.
  revert m g. induction n as [|n IH]; intros m g; cbn [tag_range].
  - rewrite decide_False by lia. done.
  - rewrite IH. unfold tag_at. simpl. rewrite lookup_insert. repeat case_decide; done || lia.
Qed.

Lemma tag_granules_eq h t o n :
  0 <= t < 16 -> 0 <= o -> o mod 16 = 0 -> o + 16 * Z.of_nat n <= 2 ^ 26 ->
  tag_granules t (Z.of_nat n) o h = Ret tt (set_tagram (tag_range (tagram h) (o / 16) n t) h).
Proof.
  intros Ht Ho Ha Hn. unfold tag_granules.
  assert (Hloop : forall k fuel i o h, (k < fuel)%nat -> 0 <= i -> i + Z.of_nat k = Z.of_nat n ->
    0 <= o -> o mod 16 = 0 -> o + 16 * Z.of_nat k <= 2 ^ 26 ->
    loop fuel (fun '(i, address) =>
      if i <? Z.of_nat n then
        _ ← store_tag address t;
        mret (inl (w32 (i + 1), w32 (address + 16)))
      else mret (inr tt)) (i, o) h = Ret tt (set_tagram (tag_range (tagram h) (o / 16) k t) h)).
  { assert (Hn32 : Z.of_nat n < 2 ^ 26) by lia. clear Ho Ha Hn h o. induction k as [|k IH]; intros [|f] i o h Hf Hi Hn Ho Ha Hr; try lia;
      cbn [loop].
    - rewrite (proj2 (Z.ltb_ge _ _)) by lia. by destruct h.
    - rewrite (proj2 (Z.ltb_lt _ _)) by lia. erewrite bind_ret.
      2: { erewrite bind_ret by (apply (store_tag_ptr 0 o); unfold ok_ptr; lia). reflexivity. }
      cbv beta iota. rewrite !w32_small by lia. rewrite IH by (zlia || lia). cbn [tag_range].
      replace ((o + 16) / 16) with (o / 16 + 1) by zlia.
      rewrite land_15, Z.mod_small by lia. done. }
  apply Hloop; lia.
Qed.

(** The granules a size asks for. *)
Definition granules (size : Z) : Z := (size + 15) / 16.

Lemma protect_ptr_eq h t0 o size :
  sec_ok h -> range_ok o size -> 0 <= t0 < 16 -> o + 16 * granules size <= 2 ^ 26 ->
  protect_ptr (mkptr t0 o) size h =
  Ret (mkptr (tag_gen h) o)
    (set_tagram (tag_range (tagram h) (o / 16) (Z.to_nat (granules size)) (tag_gen h)) (gen_state h)).
Proof.
  intros Hok (Ha & Ho & Hs & Hr) Ht0 Hg. unfold granules in *. pose proof Hok as (_ & _ & [Hgr _] & _).
  unfold protect_ptr, GRANULE_SIZE. erewrite bind_ret by (by apply generate_tag_eq). cbv zeta.
  rewrite (proj2 (Z.eqb_eq (mkptr t0 o mod 16) 0)) by (unfold mkptr; zlia).
  erewrite bind_ret by reflexivity.
  assert (Hn : w32 (size / 16 + (if size mod 16 =? 0 then 0 else 1)) = Z.of_nat (Z.to_nat ((size + 15) / 16))).
  { rewrite w32_small; case_Z; zlia. }
  rewrite mkptr_untag, Hn by (unfold ok_ptr; zlia).
  erewrite bind_ret by (apply tag_granules_eq; zlia).
  unfold mret, M_ret. by rewrite tag_pointer by (unfold ok_ptr; zlia).
Qed.

(** ** The laws *)

Definition own (i : Z) : Prop := sec_cntx <= i < sec_cntx + 16.

Lemma sec_ok_frame h h' :
  sec_ok h -> csr_tags h' = csr_tags h ->
  (forall i, own i -> byte_at h' i = byte_at h i /\ tag_at h' (i / 16) = tag_at h (i / 16)) ->
  sec_ok h' /\ tag_gen h' = tag_gen h.
Proof.
  intros Hok Hc Hf. assert (Hw : forall k, 0 <= k <= 12 -> word_at h' (sec_cntx + k) = word_at h (sec_cntx + k)).
  { intros k Hk. apply word_at_ext. intros i Hi. apply Hf. unfold own. lia. }
  assert (Hg : tag_gen h' = tag_gen h).
  { unfold tag_gen. specialize (Hw 0). rewrite Z.add_0_r in Hw. apply Hw. lia. }
  unfold sec_ok, sec_tag in *. rewrite Hg, (Hw 4) by lia.
  unfold tags_en in *. rewrite Hc, (proj2 (Hf sec_cntx ltac:(unfold own; lia))). done.
Qed.

(** The state after protecting a range. *)
Lemma protect_state h o size :
  sec_ok h -> range_ok o size -> (forall i, o <= i < o + 16 * ((size + 15) / 16) -> ~ own i) ->
  let h' := set_tagram (tag_range (tagram h) (o / 16) (Z.to_nat (granules size)) (tag_gen h))
              (gen_state h) in
  sec_ok h' /\ tag_gen h' = next_tag (sec_tag h) (tag_gen h) /\
  protected own h h' o size (tag_gen h).
Proof.
  intros Hok (Ha & Ho & Hs & Hr) Hd h'. unfold granules in h'. destruct Hctx as (Hc & Hc0 & _ & Hc1).
  assert (Htag : forall g, tag_at h' g =
    if decide (o / 16 <= g < o / 16 + (size + 15) / 16) then tag_gen h else tag_at h g).
  { intros g. unfold h'. rewrite tag_range_at.
    replace (o / 16 + Z.of_nat _) with (o / 16 + (size + 15) / 16) by zlia. done. }
  destruct (gen_state_next h Hok) as [Hn _].
  destruct (sec_ok_frame (gen_state h) h') as [Hok' Hg']; [by apply gen_state_ok|done| |].
  { intros i Hi. split; [done|]. change (tag_at (gen_state h)) with (tag_at h). rewrite Htag.
    rewrite decide_False; [done|]. intros Hg. unfold own in *.
    specialize (Hd (Z.max o sec_cntx)). zlia. }
  split; [done|]. split; [congruence|]. split; [done|]. split; [|split].
  - intros i Hi. unfold h', gen_state. transitivity (byte_at (gen_state h) i); [done|].
    unfold gen_state. rewrite byte_at_put_word, decide_False; [by destruct h|]. unfold own in Hi. lia.
  - intros i Hi. right. rewrite Htag, decide_True; [done|zlia].
  - intros g Hg. rewrite Htag, decide_False; [done|zlia].
Qed.

#[global] Program Instance secure_laws : OsSecLaws secure_ossec := {|
  sec_inv := sec_ok;
  sec_next := tag_gen;
  sec_own := own;
  valid_tag t := 0 <= t < 16;
  tags_apart t1 t2 := t1 <> t2
|}.
Next Obligation. done. Qed.
Next Obligation. simpl. lia. Qed.
Next Obligation. intros h h' Hok Hc Hf. by apply sec_ok_frame. Qed.
Next Obligation.
  intros h o size Hok Hr Hd. destruct (protect_state h o size Hok Hr Hd) as (Hok' & Hn & Hp).
  pose proof Hok as (_ & Hs & Hg & _). pose proof (next_tag_user _ _ Hs Hg) as [_ Hne].
  pose proof Hr as (Ha & Ho & H0 & H1). eexists. split.
  { apply (protect_ptr_eq h 0 o size Hok Hr); [lia|]. unfold granules. zlia. }
  rewrite Hn. destruct Hg as [Hg _]. split; [done|]. split; [lia|]. split; [congruence|].
  split; [lia|done].
Qed.
Next Obligation.
  intros h o t t0 (He & _) Ho H0 Ht Hok. destruct Ho as [_ Ho].
  apply get_protected_eq; [done|done|]. destruct Hok as [Hok|]; [congruence|done].
Qed.
Next Obligation. intros t o Ht [_ Ho]. by apply mkptr_untag. Qed.

(** ** Initialisation *)

(** The tag a reading of the random number register proposes. *)
Definition nibble (h : hart) (n : nat) : Z := Z.land (rnd h n) 0xf.

(** The state after [n] readings. *)
Definition drawn (n : nat) (h : hart) : hart := set_rnd (fun k => rnd h (n + k)%nat) h.

Lemma draw_sec_tag_eq fuel h i :
  (i < fuel)%nat -> nibble h i <> 0 -> (forall k, (k < i)%nat -> nibble h k = 0) ->
  draw_sec_tag fuel h = Ret (nibble h i) (drawn (S i) h).
Proof.
  unfold draw_sec_tag. revert fuel h.
  induction i as [|i IH]; intros [|f] h Hf Hi Hk; try lia; cbn [loop].
  - erewrite bind_ret by reflexivity. fold (nibble h 0).
    by rewrite (proj2 (Z.eqb_neq _ 0)) by done.
  - erewrite bind_ret by reflexivity. fold (nibble h 0).
    rewrite (Hk 0%nat) by lia. cbn [Z.eqb]. rewrite IH; [done|lia|done|].
    intros k Hlt. apply (Hk (S k)). lia.
Qed.

Definition usable (s g : Z) : bool := negb (g =? 0) && negb (g =? s).

(** One turn of the second loop. *)
Lemma draw_turn h s :
  tag_ok h 0 sec_cntx ->
  (r ← soc_hwrand;
   _ ← store32 sec_cntx (Z.land r 0xf);
   g ← load32 sec_cntx;
   if g =? 0 then mret (inl tt)
   else
     g ← load32 sec_cntx;
     mret (if g =? s then inl tt else inr tt)) h =
  Ret (if usable s (nibble h 0) then inr tt else inl tt)
    (set_ram (put_word (ram h) sec_cntx (nibble h 0)) (drawn 1 h)).
Proof.
  intros Hok. destruct (ctx_ok 0 ltac:(lia)) as [Hp _]. destruct ctx_align as (A0 & _).
  assert (Hr : 0 <= nibble h 0 < 16) by (unfold nibble; rewrite land_15; apply Z.mod_pos_bound; lia).
  erewrite bind_ret by reflexivity. fold (nibble h 0).
  erewrite bind_ret by (by apply (store32_ok 0)). erewrite bind_ret by (by apply (load32_ok 0)).
  rewrite word_at_put, w32_small by lia. unfold usable.
  destruct (nibble h 0 =? 0); [done|]. erewrite bind_ret by (by apply (load32_ok 0)).
  rewrite word_at_put, w32_small by lia. by destruct (nibble h 0 =? s).
Qed.

Lemma draw_tag_gen_eq fuel h s j :
  tag_ok h 0 sec_cntx -> (j < fuel)%nat -> usable s (nibble h j) = true ->
  (forall k, (k < j)%nat -> usable s (nibble h k) = false) ->
  draw_tag_gen fuel s h =
  Ret tt (set_ram (put_word (ram h) sec_cntx (nibble h j)) (drawn (S j) h)).
Proof.
  unfold draw_tag_gen. revert fuel h.
  induction j as [|j IH]; intros [|f] h Hok Hf Hj Hk; try lia; cbn [loop];
    erewrite bind_ret by (by apply draw_turn).
  - by rewrite Hj.
  - rewrite (Hk 0%nat) by lia. rewrite IH; [|done|lia|done|].
    + simpl ram. by rewrite put_word_put_word.
    + intros k Hlt. apply (Hk (S k)). lia.
Qed.

Section init.
Context (fuel : nat) (h : hart) (i j : nat).
Context (Hok : tag_ok h 0 sec_cntx).
Context (Hi : (i < fuel)%nat) (Hni : nibble h i <> 0)
  (Hki : forall k, (k < i)%nat -> nibble h k = 0).
Context (Hj : (j < fuel)%nat) (Hnj : usable (nibble h i) (nibble h (S i + j)) = true)
  (Hkj : forall k, (k < j)%nat -> usable (nibble h i) (nibble h (S i + k)) = false).

Definition init_ram : gmap Z Z :=
  put_word (put_word (put_bytes (ram h) sec_cntx (repeat 0 16)) (sec_cntx + 4) (nibble h i))
    sec_cntx (nibble h (S i + j)).

Definition init_state : hart :=
  set_tagram (<[sec_cntx / 16 := Z.land (nibble h i) 0xf]> (tagram h))
    (set_tags_csr 1 (tag_irq h) (set_ram init_ram (drawn (S j) (drawn (S i) h)))).

Lemma init_eq : init fuel h = Ret 1 init_state.
Proof.
  destruct Hctx as (Ha & H0 & _ & H1).
  destruct (ctx_ok 0 ltac:(lia)) as [Hp Hp4]. destruct ctx_align as (A0 & A4 & G4).
  unfold init. erewrite bind_ret.
  2: { apply (CString.memset_eq h 0 sec_cntx 0 16). unfold in_ram. lia. }
  rewrite alarm_none; [|unfold in_ram; lia|].
  2: { intros k Hk. destruct Hok as [Ho|Ho]; [by left|right].
       rewrite <- Ho. f_equal. zlia. }
  rewrite wrote_silent.
  erewrite bind_ret by (by apply (draw_sec_tag_eq fuel _ i)).
  erewrite bind_ret.
  2: { apply (store32_ok 0 (sec_cntx + 4)); [done|done|]. unfold tag_ok. by rewrite G4. }
  erewrite bind_ret by (by apply (draw_tag_gen_eq fuel _ (nibble h i) j)).
  erewrite bind_ret by reflexivity.
  replace (Z.land sec_cntx 268435455) with (mkptr 0 sec_cntx)
    by (rewrite land_28, Z.mod_small by lia; done).
  by erewrite bind_ret by (by apply store_tag_ptr).
Qed.

Lemma nibble_range n : 0 <= nibble h n < 16.
Proof. clear. unfold nibble. rewrite land_15. apply Z.mod_pos_bound. lia. Qed.

Lemma init_words : sec_tag init_state = nibble h i /\ tag_gen init_state = nibble h (S i + j).
Proof.
  clear Hok Hi Hni Hki Hj Hnj Hkj.
  pose proof (nibble_range i). pose proof (nibble_range (S i + j)).
  change (tag_gen init_state) with (tag_gen (set_ram init_ram h)).
  change (sec_tag init_state) with (sec_tag (set_ram init_ram h)). unfold init_ram. split.
  - unfold sec_tag. rewrite word_at_put_ne, word_at_put by lia. apply w32_small. lia.
  - by apply tag_gen_put.
Qed.

Lemma init_frame o : ~ own o -> byte_at init_state o = byte_at h o.
Proof.
  clear Hok Hi Hni Hki Hj Hnj Hkj. intros Ho. unfold own in Ho. change (byte_at init_state o) with (byte_at (set_ram init_ram h) o).
  unfold init_ram. rewrite !byte_at_put_word, !decide_False by lia. apply byte_in_puts_ne.
  unfold zlen. rewrite repeat_length. lia.
Qed.

Lemma init_sec_ok : sec_ok init_state.
Proof.
  clear Hi Hj.
  destruct init_words as [Es Eg]. pose proof (nibble_range i). pose proof (nibble_range (S i + j)).
  apply andb_prop in Hnj as [Hg0 Hgs]. apply negb_true_iff, Z.eqb_neq in Hg0, Hgs.
  unfold sec_ok. rewrite Es, Eg. split; [done|]. split; [lia|]. split; [unfold user_tag; lia|].
  unfold tag_at, init_state. simpl. rewrite lookup_insert, decide_True by done. simpl.
  rewrite land_15. apply Z.mod_small. lia.
Qed.

(** C37: [_ossec_init] succeeds as soon as the random number register offers
    usable values.  The secure tag is the first non-zero nibble read, the
    generator starts at the next nibble that is neither 0 nor the secure tag;
    checking is on, the layer's invariant holds, and nothing outside the
    context and its granule changes. *)
Theorem ossec_init_correct :
  returns (init fuel) h (fun r h' =>
    r = 1 /\ sec_ok h' /\ sec_tag h' = nibble h i /\ tag_gen h' = nibble h (S i + j) /\
    (forall o, ~ own o -> byte_at h' o = byte_at h o) /\
    (forall g, g <> sec_cntx / 16 -> tag_at h' g = tag_at h g) /\ tag_irq h' = tag_irq h).
Proof.
  eapply returns_eq; [apply init_eq|]. destruct init_words as [Es Eg].
  split; [done|]. split; [apply init_sec_ok|]. do 2 (split; [done|]).
  split; [apply init_frame|]. split; [|done].
  intros g Hg. unfold tag_at, init_state. simpl. by rewrite lookup_insert, decide_False.
Qed.
End init.

(** ** The sequence of tags *)

(** [n] calls of the generator. *)
Fixpoint draw_tags (n : nat) : M (list Z) :=
  match n with
  | O => mret []
  | S k => t ← _ossec_generate_tag; r ← draw_tags k; mret (t :: r)
  end.

Fixpoint tags_from (s g : Z) (n : nat) : list Z :=
  match n with
  | O => []
  | S k => g :: tags_from s (next_tag s g) k
  end.

Lemma draw_tags_eq n h :
  sec_ok h -> exists h', draw_tags n h = Ret (tags_from (sec_tag h) (tag_gen h) n) h' /\ sec_ok h'.
Proof.
  revert h. induction n as [|n IH]; intros h Hok; cbn [draw_tags tags_from]; [by eexists|].
  destruct (gen_state_next h Hok) as [Hg Hs].
  destruct (IH (gen_state h)) as (h' & He & Hok'); [by apply gen_state_ok|].
  exists h'. split; [|done]. rewrite Hg, Hs in He.
  erewrite bind_ret by (by apply generate_tag_eq). by erewrite bind_ret by exact He.
Qed.

Lemma tags_from_lookup s g n i : (i < n)%nat -> tags_from s g n !! i = Some (Nat.iter i (next_tag s) g).
Proof.
  revert g i. induction n as [|n IH]; intros g [|i] Hi; simpl; try lia; [done|].
  rewrite IH by lia. f_equal. apply Nat.iter_swap.
Qed.

Lemma tags_from_length s g n : length (tags_from s g n) = n.
Proof. revert g. induction n as [|n IH]; intros g; simpl; [done|]. by rewrite IH. Qed.

(** The fourteen user tags are visited in turn: checked for every secure tag
    and every starting point. *)
Definition cycle_check (s g : Z) : bool :=
  (g =? s) || ((Nat.iter 14 (next_tag s) g =? g) && bool_decide (NoDup (tags_from s g 14))).

Lemma cycle_all : forallb (fun s => forallb (cycle_check s) (seqZ 1 15)) (seqZ 1 15) = true.
Proof. vm_compute. reflexivity. Qed.

Lemma cycle_check_true s g : 1 <= s < 16 -> 1 <= g < 16 -> cycle_check s g = true.
Proof.
  assert (Hin : forall x, 1 <= x < 16 -> In x (seqZ 1 15)).
  { intros x Hx. apply list_elem_of_In, elem_of_seqZ. lia. }
  intros Hs Hg. pose proof cycle_all as Hall. rewrite forallb_forall in Hall.
  specialize (Hall s (Hin s Hs)). rewrite forallb_forall in Hall. apply (Hall g (Hin g Hg)).
Qed.

Lemma cycle s g :
  1 <= s < 16 -> user_tag s g -> Nat.iter 14 (next_tag s) g = g /\ NoDup (tags_from s g 14).
Proof.
  intros Hs [Hg Hne]. pose proof (cycle_check_true s g Hs Hg) as Hc. unfold cycle_check in Hc.
  apply orb_prop in Hc as [Hc|Hc]; [by apply Z.eqb_eq in Hc|].
  apply andb_prop in Hc as [H1 H2].
  split; [by apply Z.eqb_eq|by apply bool_decide_eq_true in H2].
Qed.

Lemma iter_mod s g i :
  1 <= s < 16 -> user_tag s g ->
  Nat.iter i (next_tag s) g = Nat.iter (i mod 14) (next_tag s) g.
Proof.
  intros Hs Hg. transitivity (Nat.iter (i mod 14 + 14 * (i / 14)) (next_tag s) g).
  { f_equal. pose proof (Nat.div_mod_eq i 14). lia. }
  rewrite Nat.iter_add. f_equal.
  induction (i / 14)%nat as [|q IH]; [done|].
  replace (14 * S q)%nat with (14 * q + 14)%nat by lia.
  rewrite Nat.iter_add, (proj1 (cycle s g Hs Hg)). done.
Qed.

Lemma iter_user s g i : 1 <= s < 16 -> user_tag s g -> user_tag s (Nat.iter i (next_tag s) g).
Proof.
  intros Hs Hg. induction i as [|i IH]; [done|]. cbn [Nat.iter]. by apply next_tag_user.
Qed.

(** The generator hands out the fourteen tags other than 0 and the secure
    tag in rotation: whatever its state, every tag it gives is one of them,
    and two calls give the same tag exactly when their distance is a multiple
    of fourteen. *)
Theorem generated_tags h n :
  sec_ok h ->
  returns (draw_tags n) h (fun ts h' =>
    sec_ok h' /\ length ts = n /\
    (forall i t, ts !! i = Some t -> user_tag (sec_tag h) t) /\
    (forall i j ti tj, ts !! i = Some ti -> ts !! j = Some tj ->
      (ti = tj <-> (i mod 14 = j mod 14)%nat))).
Proof.
  intros Hok. destruct (draw_tags_eq n h Hok) as (h' & He & Hok').
  eapply returns_eq; [apply He|]. split; [done|]. pose proof Hok as (_ & Hs & Hg & _).
  rewrite tags_from_length. split; [done|].
  assert (Hat : forall i t, tags_from (sec_tag h) (tag_gen h) n !! i = Some t ->
    t = Nat.iter i (next_tag (sec_tag h)) (tag_gen h)).
  { intros i t Hi. pose proof (lookup_lt_Some _ _ _ Hi) as Hl.
    rewrite tags_from_length in Hl. rewrite tags_from_lookup in Hi by done. congruence. }
  split.
  - intros i t Hi. rewrite (Hat i t Hi). by apply iter_user.
  - intros i j ti tj Hi Hj. rewrite (Hat _ _ Hi), (Hat _ _ Hj), (iter_mod _ _ i), (iter_mod _ _ j) by done.
    pose proof (proj2 (cycle _ _ Hs Hg)) as Hnd. split; [|by intros ->]. intros Heq.
    eapply NoDup_lookup; [apply Hnd| |].
    + apply tags_from_lookup. apply Nat.mod_upper_bound. lia.
    + rewrite Heq. apply tags_from_lookup. apply Nat.mod_upper_bound. lia.
Qed.

(** C28: protecting a range gives it the generator's tag.  The pointer
    returned reaches every byte of the range without an alarm, a pointer with
    any other tag raises one on each of them, granules outside the range keep
    their tags, and no byte outside the layer's context changes. *)
Theorem protect_ptr_correct h t0 o size :
  sec_ok h -> range_ok o size -> 0 <= t0 < 16 ->
  (forall i, o <= i < o + 16 * ((size + 15) / 16) -> ~ own i) ->
  returns (protect_ptr (mkptr t0 o) size) h (fun p h' =>
    p = mkptr (tag_gen h) o /\ sec_ok h' /\ protected own h h' o size (tag_gen h) /\
    forall i t, o <= i < o + size -> 0 <= t < 16 ->
      tag_mismatch h' (mkptr t i) = negb (t =? tag_gen h)).
Proof.
  intros Hok Hr Ht0 Hd. destruct (protect_state h o size Hok Hr Hd) as (Hok' & Hn & Hp).
  pose proof Hr as (Ha & Ho & H0 & H1). eapply returns_eq.
  { apply protect_ptr_eq; [done..|]. unfold granules. zlia. }
  do 3 (split; [done|]). intros i t Hi Ht. destruct Hp as (_ & _ & Hp & _).
  rewrite tag_mismatch_ptr by (unfold ok_ptr; lia).
  destruct Hok' as (He & _). rewrite He. simpl.
  destruct (Hp i Hi) as [|Hi']; [congruence|]. unfold tag_at in *. by rewrite Hi'.
Qed.

(** A pointer that is not aligned to a granule ends the program with
    status 43, after one tag is taken from the generator. *)
Theorem protect_ptr_misaligned h raw size :
  sec_ok h -> raw mod 16 <> 0 -> exits (protect_ptr raw size) h 43.
Proof.
  intros Hok Hr. unfold protect_ptr, exits. erewrite bind_ret by (by apply generate_tag_eq).
  rewrite (proj2 (Z.eqb_neq (raw mod 16) 0) Hr). unfold _ossec_alignment_assert.
  edestruct (Os.printf_console (Os.line "PANIC: ALIGNMENT VIOLATION @[0x%x]") [Printf.VInt raw]
    (gen_state h)) as (n & u & He); [printf_defined|].
  eexists. unfold mbind, M_bind. rewrite He. reflexivity.
Qed.
End secure.

(** ** Examples: the context at 0x200 *)

Definition init_hart : hart := init_state 0x200 reset_hart 0 0.

Lemma ctx_0x200 : range_ok 0x200 16.
Proof. unfold range_ok. zlia. Defined.

Lemma init_hart_ok : sec_ok 0x200 init_hart.
Proof. repeat split; vm_compute; congruence. Defined.

Lemma ossec_init_correct_witness :
  returns (init 0x200 1) reset_hart (fun r h' =>
    r = 1 /\ sec_ok 0x200 h' /\ sec_tag 0x200 h' = 3 /\ tag_gen 0x200 h' = 10 /\
    (forall o, ~ own 0x200 o -> byte_at h' o = byte_at reset_hart o) /\
    (forall g, g <> 0x20 -> tag_at h' g = tag_at reset_hart g) /\
    tag_irq h' = tag_irq reset_hart).
Proof.
  apply (ossec_init_correct 0x200 ctx_0x200 1 reset_hart 0 0);
    [by left|lia|done|lia|lia|done|lia].
Defined.

Lemma generated_tags_witness :
  returns (draw_tags 0x200 20) init_hart (fun ts h' =>
    sec_ok 0x200 h' /\ length ts = 20%nat /\
    (forall i t, ts !! i = Some t -> user_tag (sec_tag 0x200 init_hart) t) /\
    (forall i j ti tj, ts !! i = Some ti -> ts !! j = Some tj ->
      (ti = tj <-> (i mod 14 = j mod 14)%nat))).
Proof. apply (generated_tags 0x200 ctx_0x200 init_hart 20 init_hart_ok). Defined.

Lemma protect_ptr_correct_witness :
  returns (protect_ptr 0x200 (mkptr 0 0x1000) 40) init_hart (fun p h' =>
    p = mkptr 10 0x1000 /\ sec_ok 0x200 h' /\
    protected (own 0x200) init_hart h' 0x1000 40 10 /\
    forall i t, 0x1000 <= i < 0x1000 + 40 -> 0 <= t < 16 ->
      tag_mismatch h' (mkptr t i) = negb (t =? 10)).
Proof.
  apply (protect_ptr_correct 0x200 ctx_0x200 init_hart 0 0x1000 40 init_hart_ok).
  - unfold range_ok. zlia.
  - lia.
  - unfold own. zlia.
Defined.

Lemma protect_ptr_misaligned_witness : exits (protect_ptr 0x200 0x1004 16) init_hart 43.
Proof.
  apply (protect_ptr_misaligned 0x200 ctx_0x200 init_hart 0x1004 16 init_hart_ok). done.
Defined.

End Security.

Module NoSecurity.

Definition plain_init (fuel : nat) : M Z :=
  _ ← Os.printf (Os.line "LIBC: <WARNING> your are using NON-secure libc") [];
  mret 1.

Definition plain_generate_tag : M Z := mret 0.
Definition plain_alignment_assert (ptr : Z) : M Z := mret 0.
Definition plain_protect_ptr (ptr size : Z) : M Z := mret ptr.
Definition plain_get_essence (ptr : Z) : Z := ptr.
Definition plain_get_secure_ptr (ptr : Z) : M Z := mret ptr.

Definition plain_ossec : OsSec := {|
  _ossec_init := plain_init;
  _ossec_protect_ptr := plain_protect_ptr;
  _ossec_get_secure_ptr := plain_get_secure_ptr;
  _ossec_get_essence := plain_get_essence
|}.

(** The laws hold while tag checking is off, which this build leaves as it is
    out of reset: every pointer has tag 0 and every access is allowed. *)
#[global] Program Instance plain_laws : OsSecLaws plain_ossec := {|
  sec_inv h := tags_en h = false;
  sec_next _ := 0;
  sec_own _ := False;
  valid_tag t := t = 0;
  tags_apart _ _ := True
|}.
Next Obligation. intros t ->. lia. Qed.
Next Obligation. done. Qed.
Next Obligation. intros h h' He Hc _. unfold tags_en in *. by rewrite Hc. Qed.
Next Obligation.
  intros h o size He Hr _. exists h. repeat split; try done; [by destruct h|]. intros. by left.
Qed.
Next Obligation. intros h o t t0 He Ho -> -> Hok. done. Qed.
Next Obligation. intros t o -> Ho. done. Qed.

End NoSecurity.
