(* ===== verification/Malloc.v ===== *)
(** * The allocator (internals/malloc.c)

    A bump allocator whose blocks carry a 16-byte header.  [free] does
    nothing, so the block list only grows.  The allocator is written against
    the protection interface [OsSec] and proved against its laws: the
    theorems hold for the build with memory tagging and for the one without.
    What tagging adds, the detection of accesses outside a block, is in the
    last section. *)

From S2P Require Import Prelude Machine Printf PrintfFacts Os CString Security.
Import CString.

(** [struct init_ctx]: what the boot code passes. *)
Record init_ctx := InitCtx { memtag_en : Z; heap_start : Z; heap_end : Z }.

Module Malloc.

Definition MAGIC : Z := 0xff1133aa.

(** The address of a field. *)
Definition field (p k : Z) : Z := w32 (p + k).

(** [alloc_header_t] *)
Abbreviation ALLOC_SIZE := (0)%Z (only parsing).
Abbreviation NEXT_PTR := (4)%Z (only parsing).
Abbreviation IS_FREE := (8)%Z (only parsing).
Abbreviation INFO := (12)%Z (only parsing).
Abbreviation sizeof_header := (16)%Z (only parsing).

(** [struct memory_subsystem] *)
Abbreviation ARENA_START := (0)%Z (only parsing).
Abbreviation ARENA_END := (4)%Z (only parsing).
Abbreviation HEAD := (8)%Z (only parsing).
Abbreviation TAIL := (12)%Z (only parsing).
Abbreviation sizeof_mem_info := (16)%Z (only parsing).

Definition aligntonext (p bits : Z) : Z :=
  Z.shiftl (Z.shiftr (w32 (p + Z.shiftl 1 bits - 1)) bits) bits.

Section malloc.
Context `{O : OsSec} (mem_info : Z).

Definition malloc_init (ctx : init_ctx) : M bool :=
  _ ← (if negb (memtag_en ctx =? 0)
       then Os.printf (Os.line "LIBC: MEMORY TAGGING is enabled") []
       else Os.printf (Os.line "LIBC: MEMORY TAGGING is disabled") []);
  _ ← Os.printf (Os.line "LIBC: heap @[%p, %p]")
        [Printf.VInt (heap_start ctx); Printf.VInt (heap_end ctx)];
  s_info_ptr ← _ossec_protect_ptr mem_info sizeof_mem_info;
  _ ← memset s_info_ptr 0 sizeof_mem_info;
  _ ← store32 (field s_info_ptr ARENA_START) (heap_start ctx);
  _ ← store32 (field s_info_ptr ARENA_END) (heap_end ctx);
  ptr ← _ossec_protect_ptr (heap_start ctx) sizeof_header;
  _ ← store32 (field ptr ALLOC_SIZE) 0;
  _ ← store32 (field ptr NEXT_PTR) 0;
  _ ← store32 (field ptr IS_FREE) 0;
  _ ← store32 (field ptr INFO) MAGIC;
  _ ← store32 (field s_info_ptr HEAD) ptr;
  _ ← store32 (field s_info_ptr TAIL) ptr;
  mret true.

Definition find_free_block (size : Z) : M Z :=
  s_info_ptr ← _ossec_get_secure_ptr mem_info;
  header ← load32 (field s_info_ptr TAIL);
  is_free ← load32 (field header IS_FREE);
  if is_free =? 0 then mret 0
  else
    alloc_size ← load32 (field header ALLOC_SIZE);
    mret (if size <=? alloc_size then header else 0).

(** The end of [malloc], for a new block at [next_location]: the header is
    filled in and linked, then the data range protected. *)
Definition link_block (s_info_ptr free_header size : Z) : M unit :=
  _ ← store32 (field free_header ALLOC_SIZE) size;
  _ ← store32 (field free_header IS_FREE) 0;
  _ ← store32 (field free_header NEXT_PTR) 0;
  _ ← store32 (field free_header INFO) MAGIC;
  tail ← load32 (field s_info_ptr TAIL);
  _ ← store32 (field tail NEXT_PTR) free_header;
  store32 (field s_info_ptr TAIL) free_header.

Definition append_block (s_info_ptr next_location size : Z) : M Z :=
  free_header ← _ossec_protect_ptr next_location sizeof_header;
  _ ← link_block s_info_ptr free_header size;
  _ossec_protect_ptr (w32 (next_location + sizeof_header)) size.

Definition malloc (size : Z) : M Z :=
  if size =? 0 then mret 0
  else
    isr ← Os._os_is_serving_isr;
    if (isr : bool) then
      _ ← Os.printf (Os.line "LIBC: <WARNING> malloc should not be called from a signal!") [];
      mret 0
    else
      let size := aligntonext size 4 in
      free_header ← find_free_block size;
      if negb (free_header =? 0) then
        _ ← store32 (field free_header IS_FREE) 0;
        _ossec_get_secure_ptr (field free_header sizeof_header)
      else
        s_info_ptr ← _ossec_get_secure_ptr mem_info;
        tail ← load32 (field s_info_ptr TAIL);
        let raw_ptr := _ossec_get_essence tail in
        tail ← load32 (field s_info_ptr TAIL);
        alloc_size ← load32 (field tail ALLOC_SIZE);
        let next_location := w32 (raw_ptr + alloc_size + sizeof_header) in
        let sz_allocation := w32 (next_location + size + sizeof_header) in
        arena_end ← load32 (field s_info_ptr ARENA_END);
        if arena_end <? sz_allocation then
          _ ← Os.printf (Os.line "LIBC: WARNING: OOM is detected") [];
          mret 0
        else append_block s_info_ptr next_location size.

Definition free (ptr : Z) : M unit := mret tt.

(** string.c: [memmove] copies through a buffer it allocates. *)
Definition copy_loop (dst src n : Z) : M unit :=
  loop (S (Z.to_nat n)) (fun i =>
    if i <? n then
      v ← load8 (field src i);
      _ ← store8 (field dst i) v;
      mret (inl (w32 (i + 1)))
    else mret (inr tt)) 0.

Definition memmove (dest src n : Z) : M Z :=
  temp ← malloc n;
  _ ← copy_loop temp src n;
  _ ← copy_loop dest temp n;
  _ ← free temp;
  mret dest.


(** ** Field accesses *)

Definition poke (o v : Z) (h : hart) : hart := set_ram (put_word (ram h) o v) h.

(** A 16-byte structure of the allocator that may be reached with tag [t]. *)
Definition reach (h : hart) (t o : Z) : Prop := 0 <= t < 16 /\ range_ok o 16 /\ tag_ok h t o.

Lemma field_ptr t o k :
  0 <= t < 16 -> range_ok o 16 -> 0 <= k <= 16 -> field (mkptr t o) k = mkptr t (o + k).
Proof. intros Ht (Ha & H0 & _ & H1) Hk. unfold field. rewrite mkptr_step; [done|done|lia]. Qed.

Lemma load_field h t o k :
  reach h t o -> 0 <= k <= 12 -> k mod 4 = 0 ->
  load32 (field (mkptr t o) k) h = Ret (word_at h (o + k)) h.
Proof.
  intros (Ht & Hr & Hok) Hk Hm. rewrite field_ptr by (done || lia). destruct Hr as (Ha & H0 & _ & H1).
  apply load32_ok; [unfold ok_ptr; lia|zlia|]. unfold tag_ok in *.
  by replace ((o + k) / 16) with (o / 16) by zlia.
Qed.

Lemma store_field h t o k v :
  reach h t o -> 0 <= k <= 12 -> k mod 4 = 0 ->
  store32 (field (mkptr t o) k) v h = Ret tt (poke (o + k) v h).
Proof.
  intros (Ht & Hr & Hok) Hk Hm. rewrite field_ptr by (done || lia). destruct Hr as (Ha & H0 & _ & H1).
  apply store32_ok; [unfold ok_ptr; lia|zlia|]. unfold tag_ok in *.
  by replace ((o + k) / 16) with (o / 16) by zlia.
Qed.

Lemma reach_poke h t o o' v : reach h t o -> reach (poke o' v h) t o.
Proof. done. Qed.

Lemma word_poke o v h : word_at (poke o v h) o = w32 v.
Proof. apply word_at_put. Qed.

Lemma word_poke_ne o v h o' :
  o' + 4 <= o \/ o + 4 <= o' -> word_at (poke o v h) o' = word_at h o'.
Proof. intros. unfold poke. rewrite word_at_put_ne by done. by destruct h. Qed.

Lemma byte_poke_ne o v h i : i < o \/ o + 4 <= i -> byte_at (poke o v h) i = byte_at h i.
Proof. intros. unfold poke. rewrite byte_at_put_word, decide_False by lia. by destruct h. Qed.

(** Runs the next field access of the goal. *)
Ltac field_access :=
  first
  [ erewrite bind_ret by (apply load_field; [done|lia|done])
  | erewrite bind_ret by (apply store_field; [done|lia|done]) ].

Lemma same_dev_refl h : same_dev h h.
Proof. unfold same_dev. by destruct h. Qed.
Lemma same_dev_trans h1 h2 h3 : same_dev h1 h2 -> same_dev h2 h3 -> same_dev h1 h3.
Proof. unfold same_dev. intros -> ->. done. Qed.
Lemma same_dev_poke h o v : same_dev h (poke o v h).
Proof. unfold same_dev, poke. by destruct h. Qed.
Lemma same_dev_csr h h' : same_dev h h' -> csr_tags h' = csr_tags h.
Proof. unfold same_dev. by intros ->. Qed.

Lemma tag_ok_frame h h' t o :
  csr_tags h' = csr_tags h -> tag_at h' (o / 16) = tag_at h (o / 16) -> tag_ok h t o -> tag_ok h' t o.
Proof. unfold tag_ok, tags_en. by intros -> ->. Qed.

(** ** Appending a block *)

Context (L : OsSecLaws O) (hs he : Z).

(** The layout the linker script gives: the heap, [mem_info] and the data of
    the protection layer do not overlap. *)
Definition layout : Prop :=
  range_ok mem_info 16 /\ hs mod 16 = 0 /\ 0 < hs /\ hs + 16 <= he /\ he < 2 ^ 26 /\
  (mem_info + 16 <= hs \/ he <= mem_info) /\
  (forall i, sec_own i -> ~ (mem_info <= i < mem_info + 16) /\ ~ (hs <= i < he)).

(** What [append_block] leaves: a header of [sz] bytes at [n], linked from
    the header at [last] and from [mem_info], and everything else as it
    was. *)
Record appended (h h' : hart) (last n sz t : Z) : Prop := {
  ap_dev : same_dev h h';
  ap_inv : sec_inv h';
  ap_valid : valid_tag (sec_next h) /\ valid_tag t;
  ap_apart : tags_apart (sec_next h) t /\ tags_apart t (sec_next h') /\
             tags_apart (sec_next h) 0 /\ tags_apart t 0;
  ap_header : word_at h' n = sz /\ word_at h' (n + 4) = 0 /\ word_at h' (n + 8) = 0 /\
              word_at h' (n + 12) = MAGIC;
  ap_link : word_at h' (last + 4) = mkptr (sec_next h) n;
  ap_tail : word_at h' (mem_info + 12) = mkptr (sec_next h) n;
  ap_bytes i : ~ sec_own i -> ~ (n <= i < n + 16) -> ~ (last + 4 <= i < last + 8) ->
               ~ (mem_info + 12 <= i < mem_info + 16) -> byte_at h' i = byte_at h i;
  ap_header_tag i : n <= i < n + 16 -> tag_ok h' (sec_next h) i;
  ap_data_tag i : n + 16 <= i < n + 16 + sz -> tag_ok h' t i;
  ap_other_tag g : 16 * g + 16 <= n \/ n + 16 + sz <= 16 * g -> tag_at h' g = tag_at h g
}.

(** The six stores between the two protections. *)
Definition linked (h : hart) (last n sz p : Z) : hart :=
  poke (mem_info + 12) p (poke (last + 4) p (poke (n + 12) MAGIC (poke (n + 4) 0
    (poke (n + 8) 0 (poke (n + 0) sz h))))).

Section append.
Context (HL : layout) (h : hart) (ti tl last n sz : Z).
Context (Hinv : sec_inv h) (Hmi : reach h ti mem_info) (Hlast : reach h tl last).
Context (Htail : word_at h (mem_info + 12) = mkptr tl last).
Context (Hn : n mod 16 = 0) (Hsz : sz mod 16 = 0 /\ 0 <= sz).
Context (Hlo : hs <= last) (Hln : last + 16 <= n) (Hhi : n + 16 + sz <= he).

Lemma append_links h1 t :
  0 <= t < 16 -> protected sec_own h h1 n 16 t ->
  let p := mkptr t n in
  let h2 := linked h1 last n sz p in
  link_block (mkptr ti mem_info) p sz h1 = Ret tt h2 /\
  (forall i, ~ sec_own i -> ~ (n <= i < n + 16) -> ~ (last + 4 <= i < last + 8) ->
     ~ (mem_info + 12 <= i < mem_info + 16) -> byte_at h2 i = byte_at h i) /\
  (forall i, sec_own i -> byte_at h2 i = byte_at h1 i).
Proof.
  intros Ht (Hdev & Hb & Htag & Hother) p h2. destruct HL as (Rmi & Ahs & Hhs & _ & Hhe & Hdis & Hown).
  pose proof (same_dev_csr _ _ Hdev) as Hcsr.
  assert (Hn1 : reach h1 t n).
  { split; [done|]. split; [unfold range_ok; lia|]. apply Htag. lia. }
  assert (Hfr : forall t' o, reach h t' o -> o + 16 <= n \/ n + 16 <= o -> reach h1 t' o).
  { intros t' o (Ht' & Ho & Hok) Hd. split; [done|]. split; [done|].
    apply (tag_ok_frame h); [done| |done]. apply Hother. destruct Ho. zlia. }
  assert (Hmi1 : reach h1 ti mem_info) by (apply Hfr; [done|lia]).
  assert (Hla1 : reach h1 tl last) by (apply Hfr; [done|lia]).
  assert (Htail1 : word_at h1 (mem_info + 12) = mkptr tl last).
  { rewrite <- Htail. apply word_at_ext. intros i Hi. apply Hb. intros Ho.
    apply Hown in Ho. lia. }
  split; [|split].
  - unfold link_block. do 5 field_access.
    rewrite !word_poke_ne, Htail1 by lia. field_access. apply store_field; [done|lia|done].
  - intros i Ho H1 H2 H3. unfold h2, linked. rewrite !byte_poke_ne by lia. by apply Hb.
  - intros i Ho. apply Hown in Ho. unfold h2, linked. by rewrite !byte_poke_ne by lia.
Qed.

(** The words the stores leave. *)
Lemma linked_words h1 p :
  0 <= p < 2 ^ 32 -> sz < 2 ^ 32 ->
  let h2 := linked h1 last n sz p in
  word_at h2 n = sz /\ word_at h2 (n + 4) = 0 /\ word_at h2 (n + 8) = 0 /\
  word_at h2 (n + 12) = MAGIC /\ word_at h2 (last + 4) = p /\ word_at h2 (mem_info + 12) = p.
Proof.
  intros Hp Hs h2. destruct HL as (Rmi & _ & _ & _ & _ & Hdis & _). unfold h2, linked.
  rewrite !Z.add_0_r. repeat split; rewrite ?word_poke_ne by lia;
    rewrite ?word_poke, ?(w32_small p), ?(w32_small sz) by lia; try done.
  all: rewrite ?word_poke_ne by lia; rewrite ?word_poke, ?(w32_small p), ?(w32_small sz) by lia; done.
Qed.

Lemma append_block_eq :
  exists t h', append_block (mkptr ti mem_info) n sz h = Ret (mkptr t (n + 16)) h' /\
    appended h h' last n sz t.
Proof.
  pose proof HL as (Rmi & Ahs & Hhs & _ & Hhe & Hdis & Hown).
  destruct (sec_protect h n 16) as (h1 & E1 & I1 & V1 & A1 & Z1 & P1);
    [done|unfold range_ok; lia| |].
  { intros i Hi Ho. apply Hown in Ho. zlia. }
  set (t1 := sec_next h) in *. pose proof (valid_range t1 V1) as Rt1.
  destruct (append_links h1 t1 Rt1 P1) as (E2 & B2 & O2).
  set (h2 := linked h1 last n sz (mkptr t1 n)) in *.
  assert (Htag2 : tagram h2 = tagram h1 /\ csr_tags h2 = csr_tags h1) by done.
  destruct (sec_frame h1 h2) as [I2 N2]; [done|done|intros i Ho; split; [by apply O2|done]|].
  destruct (sec_protect h2 (n + 16) sz) as (h3 & E3 & I3 & V3 & A3 & Z3 & P3);
    [done|unfold range_ok; zlia| |].
  { intros i Hi Ho. apply Hown in Ho. zlia. }
  set (t2 := sec_next h2) in *. exists t2, h3. split.
  - unfold append_block. erewrite bind_ret by exact E1.
    erewrite bind_ret by exact E2. rewrite w32_small by lia. exact E3.
  - destruct P1 as (D1 & B1 & T1 & G1), P3 as (D3 & B3 & T3 & G3).
    assert (Hfar : forall o, n <= o <= n + 12 \/ o = last + 4 \/ o = mem_info + 12 ->
      word_at h3 o = word_at h2 o).
    { intros o Ho. apply word_at_ext. intros i Hi. apply B3. intros Hx. apply Hown in Hx. lia. }
    destruct (linked_words h1 (mkptr t1 n)) as (W0 & W4 & W8 & W12 & WL & WT);
      [apply mkptr_range; unfold ok_ptr; lia|lia|].
    fold h2 in W0, W4, W8, W12, WL, WT. split; rewrite ?Hfar by lia; try done.
    + apply (same_dev_trans h h1); [done|]. apply (same_dev_trans h1 h2); [|done].
      unfold h2, linked, same_dev. by destruct h1.
    + split; [by rewrite N2|done].
    + intros i Ho H1 H2 H3. rewrite B3 by done. by apply B2.
    + intros i Hi. apply (tag_ok_frame h2); [by apply same_dev_csr| |by apply T1].
      apply G3. zlia.
    + intros g Hg. rewrite G3 by lia. change (tag_at h2 g) with (tag_at h1 g). apply G1. lia.
Qed.
End append.

(** ** The heap

    The blocks, newest first: where the header is, the size of the data that
    follows it, and the tags of the two.  The oldest is the empty block
    [malloc_init] makes. *)

Record block := Block { b_at : Z; b_size : Z; b_htag : Z; b_dtag : Z }.

Definition b_end (b : block) : Z := b_at b + 16 + b_size b.
(** The pointer the caller got. *)
Definition b_ptr (b : block) : Z := mkptr (b_dtag b) (b_at b + 16).
(** The pointer to its header. *)
Definition b_link (b : block) : Z := mkptr (b_htag b) (b_at b).

Record block_ok (h : hart) (b : block) (next : Z) : Prop := {
  bo_align : b_at b mod 16 = 0 /\ b_size b mod 16 = 0 /\ 0 <= b_size b;
  bo_valid : valid_tag (b_htag b) /\ valid_tag (b_dtag b);
  bo_header : word_at h (b_at b) = b_size b /\ word_at h (b_at b + 4) = next /\
              word_at h (b_at b + 8) = 0 /\ word_at h (b_at b + 12) = MAGIC;
  bo_header_tag i : b_at b <= i < b_at b + 16 -> tag_ok h (b_htag b) i;
  bo_data_tag i : b_at b + 16 <= i < b_end b -> tag_ok h (b_dtag b) i;
  bo_apart : (0 < b_size b -> tags_apart (b_htag b) (b_dtag b)) /\
             tags_apart (b_htag b) 0 /\ tags_apart (b_dtag b) 0
}.

(** The blocks are adjacent, each header points to the next newer one, and
    neighbours have tags that are apart. *)
Fixpoint chain (h : hart) (bs : list block) (next : Z) : Prop :=
  match bs with
  | [] => False
  | b :: older =>
      block_ok h b next /\
      match older with
      | [] => b_at b = hs /\ b_size b = 0
      | b' :: _ => b_at b = b_end b' /\ tags_apart (b_dtag b') (b_htag b) /\ chain h older (b_link b)
      end
  end.

(** Granules not handed out yet have tag 0. *)
Definition fresh (h : hart) (e : Z) : Prop := forall g, e <= 16 * g -> 16 * g < he -> tag_at h g = 0.

Record heap_inv (h : hart) (b : block) (older : list block) : Prop := {
  hi_sec : sec_inv h;
  hi_info : exists ti, valid_tag ti /\ reach h ti mem_info;
  hi_arena : word_at h mem_info = hs /\ word_at h (mem_info + 4) = he;
  hi_head : exists s, list.last (b :: older) = Some s /\ word_at h (mem_info + 8) = b_link s;
  hi_tail : word_at h (mem_info + 12) = b_link b;
  hi_chain : chain h (b :: older) 0;
  hi_next : tags_apart (b_dtag b) (sec_next h);
  hi_end : b_end b <= he;
  hi_fresh : fresh h (b_end b)
}.

Lemma chain_block h b older next : chain h (b :: older) next -> block_ok h b next.
Proof. by intros [Hb _]. Qed.

Lemma chain_above h b older next : chain h (b :: older) next -> hs <= b_at b.
Proof.
  revert b next. induction older as [|b' older IH]; intros b next [Hb Hc]; [lia|].
  destruct Hc as (He & _ & Hc). pose proof (chain_block _ _ _ _ Hc) as Hb'.
  apply IH in Hc. destruct Hb' as [(_ & _ & ?) _ _ _ _ _]. unfold b_end in He. lia.
Qed.

(** The words and tags of a block decide whether it is well formed. *)
Lemma block_ok_frame h h' b next :
  block_ok h b next -> csr_tags h' = csr_tags h ->
  (forall i, b_at b <= i < b_at b + 16 -> byte_at h' i = byte_at h i) ->
  (forall g, b_at b <= 16 * g < b_end b -> tag_at h' g = tag_at h g) ->
  block_ok h' b next.
Proof.
  intros [(A0 & A1 & A2) V W T D P] Hc Hb Hg. unfold b_end in *.
  assert (Hw : forall k, 0 <= k <= 12 -> word_at h' (b_at b + k) = word_at h (b_at b + k)).
  { intros k Hk. apply word_at_ext. intros i Hi. apply Hb. lia. }
  pose proof (Hw 0) as Hw0. rewrite Z.add_0_r in Hw0.
  split; [done|done| | | |done].
  - by rewrite Hw0, !Hw by lia.
  - intros i Hi. apply (tag_ok_frame h); [done|apply Hg; zlia|by apply T].
  - intros i Hi. unfold b_end in Hi. apply (tag_ok_frame h); [done|apply Hg; zlia|apply D; lia].
Qed.

Lemma chain_frame h h' b older next :
  chain h (b :: older) next -> csr_tags h' = csr_tags h ->
  (forall i, hs <= i < b_at b + 16 -> byte_at h' i = byte_at h i) ->
  (forall g, hs <= 16 * g < b_end b -> tag_at h' g = tag_at h g) ->
  chain h' (b :: older) next.
Proof.
  intros Hch Hc. revert b next Hch. induction older as [|b' older IH]; intros b next Hch Hb Hg;
    pose proof (chain_above _ _ _ _ Hch) as Hlo; destruct Hch as [Hok Hrest].
  - split; [|done]. apply (block_ok_frame h); [done|done|intros; apply Hb; lia|intros; apply Hg; lia].
  - destruct Hrest as (He & Ha & Hch). pose proof (chain_block _ _ _ _ Hch) as [(_ & _ & Hs') _ _ _ _ _].
    pose proof Hok as [(_ & _ & Hs) _ _ _ _ _]. unfold b_end in *.
    split; [apply (block_ok_frame h); [done|done|intros; apply Hb; lia|intros; apply Hg; unfold b_end in *; lia]|].
    split; [done|]. split; [done|]. apply IH; [done|intros; apply Hb; lia|intros; apply Hg; lia].
Qed.

(** The newest block with another successor. *)
Lemma chain_relink h b older next next' :
  chain h (b :: older) next -> block_ok h b next' -> chain h (b :: older) next'.
Proof. by intros [_ Hc] Hb. Qed.

(** ** Requests *)

(** The size a request is rounded to. *)
Lemma aligntonext_eq size :
  0 <= size < 2 ^ 32 ->
  aligntonext size 4 = if size <=? 2 ^ 32 - 16 then 16 * ((size + 15) / 16) else 0.
Proof.
  intros Hs. unfold aligntonext. rewrite !shiftl_mul, shiftr_div by lia.
  change (1 * 2 ^ 4) with 16. change (2 ^ 4) with 16. unfold wrap. destruct (Z.leb_spec size (2 ^ 32 - 16)).
  - rewrite (Z.mod_small _ (2 ^ 32)) by lia. replace (size + 16 - 1) with (size + 15) by lia. lia.
  - replace (size + 16 - 1) with (size + 15 - 2 ^ 32 + 1 * 2 ^ 32) by lia.
    rewrite Z.mod_add, Z.mod_small by lia. rewrite Z.div_small by lia. done.
Qed.

Lemma aligntonext_range size :
  0 <= size < 2 ^ 32 -> 0 <= aligntonext size 4 < 2 ^ 32 /\ aligntonext size 4 mod 16 = 0.
Proof. intros Hs. rewrite aligntonext_eq by done. case_Z; zlia. Qed.

Section request.
Context (HL : layout) (h : hart) (b : block) (older : list block).
Context (HI : heap_inv h b older).

Lemma tail_reach : reach h (b_htag b) (b_at b) /\ 0 <= b_htag b < 16.
Proof.
  destruct HI as [_ _ _ _ _ Hc _ He _]. pose proof (chain_above _ _ _ _ Hc).
  destruct (chain_block _ _ _ _ Hc) as [(? & ? & ?) [Hv _] _ Ht _ _].
  pose proof (valid_range _ Hv). destruct HL as (_ & _ & ? & _ & ? & _). unfold b_end in He.
  split; [|done]. split; [done|]. split; [unfold range_ok; lia|]. apply Ht. lia.
Qed.

Lemma info_ptr ti :
  valid_tag ti -> reach h ti mem_info -> _ossec_get_secure_ptr mem_info h = Ret (mkptr ti mem_info) h.
Proof.
  intros Hv (Ht & Hr & Hok). rewrite <- (mkptr_0 mem_info) at 1. destruct Hr as (_ & ? & _).
  apply sec_get; [apply HI|unfold ok_ptr; lia|apply valid_zero|done|done].
Qed.

(** No block is ever free: the search finds nothing. *)
Lemma find_free_block_eq size : find_free_block size h = Ret 0 h.
Proof.
  destruct tail_reach as [Hr _]. destruct (hi_info _ _ _ HI) as (ti & Hv & Hi).
  destruct (chain_block _ _ _ _ (hi_chain _ _ _ HI)) as [_ _ (_ & _ & W8 & _) _ _ _].
  unfold find_free_block. erewrite bind_ret by (by apply (info_ptr ti)).
  field_access. rewrite (hi_tail _ _ _ HI). unfold b_link. field_access. by rewrite W8.
Qed.

(** A request reaches the bounds test with the end of the last block. *)
Lemma malloc_eq size :
  0 < size < 2 ^ 32 -> Z.land (csr_mstatus h) 8 <> 0 ->
  let sz := aligntonext size 4 in
  exists ti, valid_tag ti /\ reach h ti mem_info /\
  malloc size h =
  (if he <? w32 (b_end b + sz + 16) then
     _ ← Os.printf (Os.line "LIBC: WARNING: OOM is detected") [];
     mret 0
   else append_block (mkptr ti mem_info) (b_end b) sz) h.
Proof.
  intros Hs Hm sz. destruct tail_reach as [Hr Ht]. destruct (hi_info _ _ _ HI) as (ti & Hv & Hi).
  destruct (chain_block _ _ _ _ (hi_chain _ _ _ HI)) as [Hal [Vb _] (W0 & _) _ _ _].
  pose proof (hi_end _ _ _ HI) as He. pose proof (chain_above _ _ _ _ (hi_chain _ _ _ HI)) as Hlo.
  destruct HL as (_ & _ & Hhs & _ & Hhe & _). exists ti. split; [done|]. split; [done|].
  unfold malloc. rewrite (proj2 (Z.eqb_neq size 0)) by lia.
  erewrite bind_ret by reflexivity.
  rewrite (proj2 (Z.eqb_neq _ 0)) by done. cbv zeta. fold sz.
  erewrite bind_ret by apply find_free_block_eq. cbn [Z.eqb negb].
  erewrite bind_ret by (by apply (info_ptr ti)). do 2 field_access.
  rewrite (hi_tail _ _ _ HI). unfold b_link. do 2 field_access. rewrite (proj2 (hi_arena _ _ _ HI)).
  rewrite sec_essence by (done || (unfold b_end, ok_ptr in *; lia)).
  rewrite Z.add_0_r, W0. unfold b_end in *.
  rewrite (w32_small (_ + b_size b + 16)) by lia.
  by replace (b_at b + b_size b + 16) with (b_at b + 16 + b_size b) by lia.
Qed.

(** *** What a new block leaves of the old ones *)

Section appended.
Context (h' : hart) (sz t : Z) (HA : appended h h' (b_at b) (b_end b) sz t).
Context (Hsz : sz mod 16 = 0 /\ 0 <= sz) (Hend : b_end b + 16 + sz <= he).

Definition new_block : block := Block (b_end b) sz (sec_next h) t.

(** Bytes of the heap that are not in the two headers, and of [mem_info]
    before its last word. *)
Lemma appended_bytes i :
  hs <= i < he -> ~ (b_end b <= i < b_end b + 16) -> ~ (b_at b + 4 <= i < b_at b + 8) ->
  byte_at h' i = byte_at h i.
Proof.
  intros Hi H1 H2. destruct HL as (_ & _ & _ & _ & _ & Hdis & Hown).
  apply (ap_bytes _ _ _ _ _ _ HA); [|done|done|lia]. intros Ho. apply Hown in Ho. lia.
Qed.

Lemma appended_info i : mem_info <= i < mem_info + 12 -> byte_at h' i = byte_at h i.
Proof.
  intros Hi. destruct HL as (_ & _ & _ & _ & _ & Hdis & Hown).
  pose proof (chain_above _ _ _ _ (hi_chain _ _ _ HI)). pose proof (hi_end _ _ _ HI).
  destruct (chain_block _ _ _ _ (hi_chain _ _ _ HI)) as [(? & ? & ?) _ _ _ _ _]. unfold b_end in *.
  apply (ap_bytes _ _ _ _ _ _ HA); [|unfold b_end; lia|lia|lia]. intros Ho. apply Hown in Ho. lia.
Qed.

Lemma appended_csr : csr_tags h' = csr_tags h.
Proof. apply same_dev_csr, HA. Qed.

Lemma appended_old : block_ok h' b (b_link new_block).
Proof.
  pose proof (chain_above _ _ _ _ (hi_chain _ _ _ HI)) as Hlo. pose proof (hi_end _ _ _ HI) as He.
  destruct (chain_block _ _ _ _ (hi_chain _ _ _ HI)) as [Hal V (W0 & _ & W8 & W12) T D P].
  assert (Hw : forall k, k = 0 \/ k = 8 \/ k = 12 -> word_at h' (b_at b + k) = word_at h (b_at b + k)).
  { intros k Hk. apply word_at_ext. intros i Hi. apply appended_bytes; unfold b_end in *; lia. }
  assert (Ht : forall i, b_at b <= i < b_end b -> tag_at h' (i / 16) = tag_at h (i / 16)).
  { intros i Hi. apply (ap_other_tag _ _ _ _ _ _ HA). unfold b_end in *. zlia. }
  split; [done|done| | | |done].
  - pose proof (Hw 0) as Hw0. rewrite Z.add_0_r in Hw0. rewrite Hw0, (Hw 8), (Hw 12) by lia.
    rewrite (ap_link _ _ _ _ _ _ HA). done.
  - intros i Hi. apply (tag_ok_frame h); [apply appended_csr|apply Ht; unfold b_end; lia|by apply T].
  - intros i Hi. apply (tag_ok_frame h); [apply appended_csr|apply Ht; lia|by apply D].
Qed.

Lemma appended_chain : chain h' (new_block :: b :: older) 0.
Proof.
  pose proof (hi_chain _ _ _ HI) as Hch. pose proof (chain_above _ _ _ _ Hch) as Hlo.
  pose proof (hi_end _ _ _ HI) as He. destruct Hch as [Hb Hold].
  pose proof Hb as [(Al & As & Hs0) _ _ _ _ _].
  destruct HA as [_ _ V (A1 & A2 & A3 & A4) W _ _ _ T D _].
  split; [|split; [done|split; [apply (hi_next _ _ _ HI)|]]].
  - split; try done. unfold new_block, b_end in *. simpl. split; [zlia|]. split; [apply Hsz|apply Hsz].
  - split; [apply appended_old|]. destruct older as [|b' rest]; [done|].
    destruct Hold as (E & Ha & Hc). split; [done|]. split; [done|].
    pose proof (chain_block _ _ _ _ Hc) as [(_ & _ & Hs') _ _ _ _ _].
    unfold b_end in *. apply (chain_frame h); [done|apply appended_csr| |].
    + intros i Hi. apply appended_bytes; unfold b_end; lia.
    + intros g Hg. apply (ap_other_tag _ _ _ _ _ _ HA). unfold b_end in *. zlia.
Qed.

Lemma appended_heap : heap_inv h' new_block (b :: older).
Proof.
  pose proof HL as (Rmi & Ahs & Hhs & _ & Hhe & Hdis & Hown).
  pose proof (chain_above _ _ _ _ (hi_chain _ _ _ HI)) as Hlo.
  destruct (chain_block _ _ _ _ (hi_chain _ _ _ HI)) as [(Al & As & Hs0) _ _ _ _ _].
  assert (Hw : forall k, 0 <= k <= 8 -> word_at h' (mem_info + k) = word_at h (mem_info + k)).
  { intros k Hk. apply word_at_ext. intros i Hi. apply appended_info. lia. }
  pose proof (Hw 0) as Hw0. rewrite Z.add_0_r in Hw0. split.
  - apply HA.
  - destruct (hi_info _ _ _ HI) as (ti & Hv & Ht & Hr & Hok). exists ti. split; [done|].
    split; [done|]. split; [done|]. apply (tag_ok_frame h); [apply appended_csr| |done].
    apply (ap_other_tag _ _ _ _ _ _ HA). destruct Hr. unfold b_end in *. zlia.
  - rewrite Hw0, Hw by lia. apply HI.
  - rewrite Hw by lia. destruct (hi_head _ _ _ HI) as (s & Hs & Hl). by exists s.
  - apply (ap_tail _ _ _ _ _ _ HA).
  - apply appended_chain.
  - apply (ap_apart _ _ _ _ _ _ HA).
  - unfold new_block, b_end in *. simpl. lia.
  - intros g Hg Hg'. unfold new_block, b_end in *. simpl in Hg.
    rewrite (ap_other_tag _ _ _ _ _ _ HA) by (unfold b_end; lia). apply (hi_fresh _ _ _ HI); [|done].
    unfold b_end. lia.
Qed.
End appended.

(** A request that fits gives a new block after the last one. *)
Lemma malloc_fits size :
  0 < size < 2 ^ 32 -> Z.land (csr_mstatus h) 8 <> 0 ->
  b_end b + 16 + aligntonext size 4 <= he ->
  exists b' h', malloc size h = Ret (b_ptr b') h' /\ heap_inv h' b' (b :: older) /\
    b_at b' = b_end b /\ b_size b' = aligntonext size 4 /\ same_dev h h' /\
    (forall i, hs <= i < he -> ~ (b_end b <= i < b_end b + 16) -> ~ (b_at b + 4 <= i < b_at b + 8) ->
       byte_at h' i = byte_at h i) /\
    appended h h' (b_at b) (b_end b) (aligntonext size 4) (b_dtag b').
Proof.
  intros Hs Hm Hf. destruct (malloc_eq size Hs Hm) as (ti & Hv & Hi & ->).
  set (sz := aligntonext size 4) in *. destruct (aligntonext_range size) as [Rs As]; [lia|]. fold sz in Rs, As.
  pose proof HL as (_ & _ & _ & _ & Hhe & _). destruct tail_reach as [Hr _].
  pose proof (chain_above _ _ _ _ (hi_chain _ _ _ HI)) as Hlo. pose proof (hi_end _ _ _ HI) as He.
  destruct (chain_block _ _ _ _ (hi_chain _ _ _ HI)) as [(Al & As' & Hs0) _ _ _ _ _].
  assert (Hpos : 0 < hs) by apply HL.
  rewrite (proj2 (Z.ltb_ge _ _)) by (rewrite w32_small; unfold b_end in *; lia).
  destruct (append_block_eq HL h ti (b_htag b) (b_at b) (b_end b) sz) as (t & h' & E & HA);
    try done; [apply HI|apply HI|unfold b_end; zlia|lia|unfold b_end; lia|].
  exists (new_block sz t), h'. split; [done|]. split; [apply appended_heap; done || lia|].
  split; [done|]. split; [done|]. split; [apply HA|]. split; [|done].
  apply (appended_bytes h' sz t HA); done || lia.
Qed.

(** The bounds test fails: only the console changes. *)
Lemma malloc_full size :
  0 < size < 2 ^ 32 -> Z.land (csr_mstatus h) 8 <> 0 ->
  he < w32 (b_end b + aligntonext size 4 + 16) ->
  exists u, malloc size h = Ret 0 (set_uart (uart h ++ u) h).
Proof.
  intros Hs Hm Hf. destruct (malloc_eq size Hs Hm) as (ti & _ & _ & ->).
  rewrite (proj2 (Z.ltb_lt _ _)) by done.
  destruct (Os.printf_console (Os.line "LIBC: WARNING: OOM is detected") [] h) as (n & u & He);
    [printf_defined|].
  exists u. by erewrite bind_ret by exact He.
Qed.

Lemma chain_order h0 x b0 rest next :
  chain h0 (b0 :: rest) next -> x ∈ rest -> b_end x <= b_at b0.
Proof.
  revert b0 next. induction rest as [|b' rest IH]; intros b0 next [_ Hc] Hx.
  - by apply not_elem_of_nil in Hx.
  - destruct Hc as (E & _ & Hc). apply elem_of_cons in Hx as [->|Hx]; [lia|].
    pose proof (chain_block _ _ _ _ Hc) as [(_ & _ & ?) _ _ _ _ _].
    apply (IH b' _ Hc) in Hx. unfold b_end in *. lia.
Qed.

Lemma chain_low h0 x bs next : chain h0 bs next -> x ∈ bs -> hs <= b_at x /\ 0 <= b_size x.
Proof.
  revert next. induction bs as [|b0 rest IH]; intros next Hc Hx; [done|].
  apply elem_of_cons in Hx as [->|Hx].
  - split; [by eapply chain_above|]. apply chain_block in Hc as [(_ & _ & ?) _ _ _ _ _]. lia.
  - destruct Hc as [_ Hc]. destruct rest as [|b' rest]; [by apply not_elem_of_nil in Hx|].
    destruct Hc as (_ & _ & Hc). by apply (IH _ Hc).
Qed.

(** The data of the blocks in use. *)
Lemma live_data h' x i :
  (forall i, hs <= i < he -> ~ (b_end b <= i < b_end b + 16) -> ~ (b_at b + 4 <= i < b_at b + 8) ->
     byte_at h' i = byte_at h i) ->
  x ∈ b :: older -> b_at x + 16 <= i < b_end x -> byte_at h' i = byte_at h i.
Proof.
  intros Hb Hx Hi. pose proof (hi_chain _ _ _ HI) as Hc. pose proof (hi_end _ _ _ HI) as He.
  destruct (chain_low _ _ _ _ Hc Hx) as [Hl Hs]. pose proof (chain_low _ b _ _ Hc ltac:(left)) as [_ Hs'].
  apply elem_of_cons in Hx as [->|Hx].
  - apply Hb; unfold b_end in *; lia.
  - pose proof (chain_order _ _ _ _ _ Hc Hx). apply Hb; unfold b_end in *; lia.
Qed.


(** A request that does not fit is answered with the null pointer and a
    message; memory, tags and heap are untouched. *)
Theorem malloc_oom size :
  0 < size < 2 ^ 31 -> Z.land (csr_mstatus h) 8 <> 0 ->
  he < b_end b + 16 + 16 * ((size + 15) / 16) ->
  returns (malloc size) h (fun p h' => p = 0 /\ exists u, h' = set_uart (uart h ++ u) h).
Proof.
  intros Hs Hm Hf. pose proof (hi_chain _ _ _ HI) as Hc. pose proof (hi_end _ _ _ HI) as He.
  destruct (chain_low _ b _ _ Hc ltac:(left)) as [Hl Hsb]. pose proof HL as (_ & _ & ? & _ & ? & _).
  destruct (malloc_full size) as (u & E); [lia|done| |].
  - rewrite aligntonext_eq by lia. rewrite (proj2 (Z.leb_le _ _)) by lia.
    rewrite w32_small; unfold b_end in *; zlia.
  - eapply returns_eq; [apply E|]. split; [done|]. by exists u.
Qed.

(** The fifteen largest requests wrap to size 0 when they are rounded up:
    [malloc] answers a request for almost 4 GiB with a block that has no data
    at all (while one more header fits). *)
Theorem malloc_huge_request size :
  2 ^ 32 - 16 < size < 2 ^ 32 -> Z.land (csr_mstatus h) 8 <> 0 -> b_end b + 16 <= he ->
  returns (malloc size) h (fun p h' => exists b',
    p = b_ptr b' /\ p <> 0 /\ b_size b' = 0 /\ heap_inv h' b' (b :: older)).
Proof.
  intros Hs Hm Hf. pose proof (hi_chain _ _ _ HI) as Hc.
  destruct (chain_low _ b _ _ Hc ltac:(left)) as [Hl Hsb]. pose proof HL as (_ & _ & ? & _ & ? & _).
  assert (Hsz : aligntonext size 4 = 0).
  { rewrite aligntonext_eq by lia. by rewrite (proj2 (Z.leb_gt _ _)) by lia. }
  destruct (malloc_fits size) as (b' & h' & E & Hh & Ha & Hs' & _ & _); [lia|done|rewrite Hsz; lia|].
  eapply returns_eq; [apply E|]. exists b'. split; [done|]. split; [|split; [congruence|done]].
  destruct (chain_block _ _ _ _ (hi_chain _ _ _ Hh)) as [_ [_ V] _ _ _ _].
  pose proof (valid_range _ V). unfold b_ptr, mkptr, b_end in *. lia.
Qed.

(** For large requests the sum in the bounds test wraps past 2^32 and the
    test passes: [malloc] goes on to append a block that is larger than the
    memory. *)
Theorem malloc_bounds_wrap size :
  2 ^ 32 - 16 - b_end b <= size <= 2 ^ 32 - 16 -> Z.land (csr_mstatus h) 8 <> 0 ->
  exists ti, malloc size h = append_block (mkptr ti mem_info) (b_end b) (16 * ((size + 15) / 16)) h /\
    2 ^ 26 < 16 * ((size + 15) / 16).
Proof.
  intros Hs Hm. pose proof (hi_chain _ _ _ HI) as Hc. pose proof (hi_end _ _ _ HI) as He.
  destruct (chain_low _ b _ _ Hc ltac:(left)) as [Hl Hsb]. pose proof HL as (_ & _ & ? & _ & ? & _).
  assert (Hsz : aligntonext size 4 = 16 * ((size + 15) / 16)).
  { rewrite aligntonext_eq by lia. by rewrite (proj2 (Z.leb_le _ _)) by lia. }
  destruct (malloc_eq size) as (ti & _ & _ & E); [lia|done|]. exists ti. rewrite E, Hsz. clear E.
  split; [|zlia]. rewrite (proj2 (Z.ltb_ge _ _)); [done|]. unfold wrap, b_end in *. zlia.
Qed.
End request.

(** A request of size 0 is answered with the null pointer, and so is any
    request made while interrupts are disabled, that is from a handler; the
    second prints a warning, and nothing else changes in either case. *)
Theorem malloc_refuses size h :
  malloc 0 h = Ret 0 h /\
  (size <> 0 -> Z.land (csr_mstatus h) 8 = 0 ->
   returns (malloc size) h (fun p h' => p = 0 /\ exists u, h' = set_uart (uart h ++ u) h)).
Proof.
  split; [done|]. intros Hs Hm. unfold malloc. rewrite (proj2 (Z.eqb_neq size 0)) by done.
  destruct (Os.printf_console
    (Os.line "LIBC: <WARNING> malloc should not be called from a signal!") [] h) as (n & u & E);
    [printf_defined|].
  eapply returns_eq.
  - erewrite bind_ret by reflexivity. rewrite Hm. cbn [Z.eqb].
    erewrite bind_ret by exact E. reflexivity.
  - split; [done|]. by exists u.
Qed.

(** ** Initialisation *)

Section initialise.
Context (HL : layout) (h : hart) (ctx : init_ctx).
Context (Hinv : sec_inv h) (Hctx : heap_start ctx = hs /\ heap_end ctx = he).
Context (Hfresh : fresh h hs).

(** The messages. *)
Lemma malloc_init_messages :
  exists u, forall k : M bool,
    (_ ← (if negb (memtag_en ctx =? 0)
          then Os.printf (Os.line "LIBC: MEMORY TAGGING is enabled") []
          else Os.printf (Os.line "LIBC: MEMORY TAGGING is disabled") []);
     _ ← Os.printf (Os.line "LIBC: heap @[%p, %p]")
           [Printf.VInt (heap_start ctx); Printf.VInt (heap_end ctx)];
     k) h = k (set_uart u h).
Proof.
  assert (Ha : exists n u, (if negb (memtag_en ctx =? 0)
    then Os.printf (Os.line "LIBC: MEMORY TAGGING is enabled") []
    else Os.printf (Os.line "LIBC: MEMORY TAGGING is disabled") []) h =
    Ret n (set_uart (uart h ++ u) h)).
  { destruct (negb _); apply Os.printf_console; printf_defined. }
  destruct Ha as (n & u & Ha).
  destruct (Os.printf_console (Os.line "LIBC: heap @[%p, %p]")
    [Printf.VInt (heap_start ctx); Printf.VInt (heap_end ctx)] (set_uart (uart h ++ u) h))
    as (n' & u' & Hb); [printf_defined|].
  eexists. intros k. erewrite bind_ret by exact Ha. erewrite bind_ret by exact Hb. reflexivity.
Qed.

(** The first half: [mem_info] is protected, cleared and given the arena. *)
Lemma malloc_init_info h0 :
  sec_inv h0 ->
  exists t h2,
    (forall k : Z -> M bool,
      (s_info_ptr ← _ossec_protect_ptr mem_info sizeof_mem_info;
       _ ← memset s_info_ptr 0 sizeof_mem_info;
       _ ← store32 (field s_info_ptr ARENA_START) hs;
       _ ← store32 (field s_info_ptr ARENA_END) he;
       k s_info_ptr) h0 = k (mkptr t mem_info) h2) /\
    sec_inv h2 /\ valid_tag t /\ reach h2 t mem_info /\ same_dev h0 h2 /\
    word_at h2 mem_info = hs /\ word_at h2 (mem_info + 4) = he /\
    (forall i, ~ sec_own i -> ~ (mem_info <= i < mem_info + 16) -> byte_at h2 i = byte_at h0 i) /\
    (forall g, g <> mem_info / 16 -> tag_at h2 g = tag_at h0 g).
Proof.
  intros Hi0. destruct HL as (Rmi & Ahs & Hhs & Hroom & Hhe & Hdis & Hown).
  pose proof Rmi as (Ami & Hmi & _ & Hmi').
  destruct (sec_protect h0 mem_info 16) as (h1 & E1 & I1 & V1 & _ & _ & D1 & B1 & T1 & G1);
    [done|done| |].
  { intros i Hi Ho. apply Hown in Ho. zlia. }
  set (t := sec_next h0) in *. pose proof (valid_range t V1) as Rt.
  set (h1' := set_ram (put_bytes (ram h1) mem_info (repeat 0 16)) h1).
  set (h2 := poke (mem_info + 4) he (poke (mem_info + 0) hs h1')).
  assert (Hr : reach h1' t mem_info).
  { split; [done|]. split; [done|]. apply T1. lia. }
  assert (Hb : forall i, ~ (mem_info <= i < mem_info + 16) -> byte_at h2 i = byte_at h1 i).
  { intros i Hi. unfold h2. rewrite !byte_poke_ne by lia. apply byte_in_puts_ne.
    unfold zlen. rewrite repeat_length. lia. }
  exists t, h2. split; [|split; [|split; [done|split; [done|split; [|split; [|split; [|split]]]]]]].
  - intros k. erewrite bind_ret by exact E1. erewrite bind_ret.
    2: { apply (memset_eq h1 t mem_info 0 16). unfold in_ram. lia. }
    rewrite alarm_none; [|unfold in_ram; lia|intros; apply T1; lia].
    rewrite wrote_silent. change (w8 0) with 0. fold h1'.
    do 2 field_access. done.
  - destruct (sec_frame h1 h2) as [I2 _]; [done|done| |done]. intros i Ho.
    split; [|done]. apply Hb. apply Hown in Ho. lia.
  - apply (same_dev_trans h0 h1); [done|]. unfold same_dev, h2, h1', poke. by destruct h1.
  - unfold h2. rewrite Z.add_0_r, word_poke_ne, word_poke by lia. apply w32_small. lia.
  - unfold h2. rewrite word_poke. apply w32_small. lia.
  - intros i Ho Hi. rewrite Hb by done. by apply B1.
  - intros g Hg. change (tag_at h2 g) with (tag_at h1 g). apply G1. zlia.
Qed.

(** The second half: the empty first block, protected with tag [t]. *)
Definition first_block (h3 : hart) (p : Z) : hart :=
  poke (mem_info + 12) p (poke (mem_info + 8) p (poke (hs + 12) MAGIC
    (poke (hs + 8) 0 (poke (hs + 4) 0 (poke (hs + 0) 0 h3))))).

Section first_block.
Context (h2 h3 : hart) (ti t : Z).
Context (Hi : reach h2 ti mem_info) (Vi : valid_tag ti) (Vt : valid_tag t).
Context (HP : protected sec_own h2 h3 hs 16 t).

Lemma first_block_reach : reach h3 t hs /\ reach h3 ti mem_info.
Proof.
  destruct HP as (D3 & B3 & T3 & G3). pose proof HL as (Rmi & Ahs & Hhs & Hroom & Hhe & Hdis & Hown).
  split; [split; [by apply valid_range|split; [unfold range_ok; lia|apply T3; lia]]|].
  destruct Hi as (Hti & Hr & Hok). split; [done|]. split; [done|].
  apply (tag_ok_frame h2); [by apply same_dev_csr| |done]. apply G3. destruct Rmi. zlia.
Qed.

Lemma first_block_run (p := mkptr t hs) :
  (_ ← store32 (field p ALLOC_SIZE) 0;
   _ ← store32 (field p NEXT_PTR) 0;
   _ ← store32 (field p IS_FREE) 0;
   _ ← store32 (field p INFO) MAGIC;
   _ ← store32 (field (mkptr ti mem_info) HEAD) p;
   _ ← store32 (field (mkptr ti mem_info) TAIL) p;
   mret true) h3 = Ret true (first_block h3 p).
Proof.
  destruct first_block_reach as [Hr3 Hi3]. unfold p.
  do 6 field_access. done.
Qed.

Lemma first_block_bytes p i :
  ~ (mem_info + 8 <= i < mem_info + 16) -> ~ (hs <= i < hs + 16) ->
  byte_at (first_block h3 p) i = byte_at h3 i.
Proof. intros H1 H2. unfold first_block. by rewrite !byte_poke_ne by lia. Qed.

Lemma first_block_heap (h4 := first_block h3 (mkptr t hs)) :
  sec_inv h3 -> word_at h2 mem_info = hs -> word_at h2 (mem_info + 4) = he -> fresh h2 hs ->
  tags_apart t 0 -> tags_apart t (sec_next h3) -> heap_inv h4 (Block hs 0 t t) [].
Proof.
  intros I3 W0 W4 Hfr Z3 A3. destruct first_block_reach as [Hr3 Hi3].
  destruct HP as (D3 & B3 & T3 & G3). pose proof HL as (Rmi & Ahs & Hhs & Hroom & Hhe & Hdis & Hown).
  assert (Hw : forall o, o = mem_info \/ o = mem_info + 4 -> word_at h4 o = word_at h2 o).
  { intros o Ho. apply word_at_ext. intros i Hi'. unfold h4. rewrite first_block_bytes by lia.
    apply B3. intros Hx. apply Hown in Hx. lia. }
  assert (Hp : w32 (mkptr t hs) = mkptr t hs).
  { apply mkptr_w32. pose proof (valid_range t Vt). unfold ok_ptr. lia. }
  destruct (sec_frame h3 h4) as [I4 N4]; [done|done| |].
  { intros i Ho. split; [|done]. apply Hown in Ho. apply first_block_bytes; lia. }
  split; [done|by exists ti|by rewrite !Hw by lia| | | |by rewrite N4|unfold b_end; simpl; lia|].
  - eexists. split; [done|]. unfold h4, first_block. by rewrite word_poke_ne, word_poke by lia.
  - unfold h4, first_block. by rewrite word_poke.
  - split; [|done]. split; simpl; try done.
    + unfold h4, first_block. rewrite !Z.add_0_r. repeat split;
        repeat first [rewrite word_poke; reflexivity | rewrite word_poke_ne by lia].
    + unfold b_end. simpl. intros i Hi'. lia.
  - intros g Hg Hg'. unfold b_end in Hg. simpl in Hg. change (tag_at h4 g) with (tag_at h3 g).
    rewrite G3 by lia. apply Hfr; lia.
Qed.
End first_block.

Lemma malloc_init_spec :
  returns (malloc_init ctx) h (fun ok h' => ok = true /\
    (exists t, heap_inv h' (Block hs 0 t t) []) /\
    (forall i, ~ sec_own i -> ~ (mem_info <= i < mem_info + 16) -> ~ (hs <= i < hs + 16) ->
       byte_at h' i = byte_at h i) /\
    tag_irq h' = tag_irq h /\ csr_mstatus h' = csr_mstatus h).
Proof.
  destruct malloc_init_messages as (u & Hmsg). destruct Hctx as [Es Ee].
  pose proof HL as (Rmi & Ahs & Hhs & Hroom & Hhe & Hdis & Hown).
  destruct (sec_frame h (set_uart u h)) as [I0 _]; [done|done|done|].
  destruct (malloc_init_info (set_uart u h) I0) as
    (ti & h2 & E2 & I2 & Vi & Hi2 & D2 & W0 & W4 & B2 & G2).
  destruct (sec_protect h2 hs 16) as (h3 & E3 & I3 & V3 & A3 & Z3 & P3);
    [done|unfold range_ok; lia| |].
  { intros i Hi' Ho. apply Hown in Ho. zlia. }
  assert (Hfr2 : fresh h2 hs).
  { intros g H1 H2. rewrite G2; [by apply Hfresh|]. destruct Rmi. zlia. }
  eapply returns_eq.
  { unfold malloc_init. rewrite Es, Ee in Hmsg |- *. rewrite Hmsg, E2.
    erewrite bind_ret by exact E3. by apply (first_block_run h2). }
  split; [done|]. split; [|split].
  - eexists. by apply first_block_heap with (h2 := h2) (ti := ti).
  - intros i Ho H1 H2. rewrite first_block_bytes by lia. destruct P3 as (_ & B3 & _).
    rewrite B3, B2 by done. done.
  - destruct P3 as (D3 & _). unfold same_dev in D2, D3. rewrite D3, D2. done.
Qed.

(** After [malloc_init] on a heap whose granules still have tag 0, the
    allocator's data structures are well formed and hold the one empty block;
    only the console, [mem_info] and the first header (and the protection
    layer's own data) have changed. *)
Theorem malloc_init_correct :
  returns (malloc_init ctx) h (fun ok h' => ok = true /\
    (exists t, heap_inv h' (Block hs 0 t t) []) /\
    (forall i, ~ sec_own i -> ~ (mem_info <= i < mem_info + 16) -> ~ (hs <= i < hs + 16) ->
       byte_at h' i = byte_at h i) /\
    tag_irq h' = tag_irq h /\ csr_mstatus h' = csr_mstatus h).
Proof. apply malloc_init_spec. Qed.
End initialise.

(** ** Sequences of requests *)

Fixpoint mallocs (sizes : list Z) : M (list Z) :=
  match sizes with
  | [] => mret []
  | size :: r => p ← malloc size; ps ← mallocs r; mret (p :: ps)
  end.

(** The headers and the tags decide whether the chain is well formed. *)
Lemma chain_headers h h' bs next :
  chain h bs next -> csr_tags h' = csr_tags h -> tagram h' = tagram h ->
  (forall x i, x ∈ bs -> b_at x <= i < b_at x + 16 -> byte_at h' i = byte_at h i) ->
  chain h' bs next.
Proof.
  intros Hch Hc Ht. revert next Hch. induction bs as [|b rest IH]; intros next Hch Hby; [done|].
  destruct Hch as [Hb Hr]. split.
  - apply (block_ok_frame h); [done|done|intros; apply (Hby b); [left|done]|].
    intros g _. unfold tag_at. by rewrite Ht.
  - destruct rest as [|b' rest]; [done|]. destruct Hr as (? & ? & Hr). split; [done|].
    split; [done|]. apply IH; [done|]. intros x i Hx. apply Hby. by right.
Qed.

Lemma heap_inv_uart u h b older : heap_inv h b older -> heap_inv (set_uart u h) b older.
Proof.
  intros [S I A H T C N E F].
  destruct (sec_frame h (set_uart u h)) as [S' N']; [done|done|done|].
  split; try done; [|by rewrite N'].
  by apply (chain_headers h).
Qed.

(** One request of less than 2 GiB: a new block or nothing. *)
Lemma malloc_step h b older size :
  layout -> heap_inv h b older -> 0 < size < 2 ^ 31 -> Z.land (csr_mstatus h) 8 <> 0 ->
  exists p h', malloc size h = Ret p h' /\ csr_mstatus h' = csr_mstatus h /\
    tag_irq h' = tag_irq h /\
    ((p = 0 /\ heap_inv h' b older) \/
     exists x, p = b_ptr x /\ b_at x = b_end b /\ size <= b_size x /\ heap_inv h' x (b :: older)).
Proof.
  intros HL HI Hs Hm. destruct (aligntonext_range size) as [Rs _]; [lia|].
  assert (Hsz : aligntonext size 4 = 16 * ((size + 15) / 16)).
  { rewrite aligntonext_eq by lia. by rewrite (proj2 (Z.leb_le _ _)) by lia. }
  pose proof (hi_end _ _ _ HI) as He. pose proof HL as (_ & _ & Hhs & _ & Hhe & _).
  destruct (chain_low _ b _ _ (hi_chain _ _ _ HI) ltac:(left)) as [Hl Hsb].
  assert (Hw : w32 (b_end b + aligntonext size 4 + 16) = b_end b + 16 + aligntonext size 4).
  { rewrite w32_small; unfold b_end in *; zlia. }
  destruct (Z.le_gt_cases (b_end b + 16 + aligntonext size 4) he) as [Hf|Hf].
  - destruct (malloc_fits HL h b older HI size) as (x & h' & E & Hh & Ha & Hx & Hd & _ & _);
      [lia|done|done|].
    exists (b_ptr x), h'. split; [done|]. unfold same_dev in Hd. rewrite Hd. split; [done|].
    split; [done|]. rewrite <- Hd. right. exists x. split; [done|]. split; [done|].
    split; [rewrite Hx, Hsz; zlia|done].
  - destruct (malloc_full HL h b older HI size) as (u & E); [lia|done|lia|].
    exists 0, (set_uart (uart h ++ u) h). do 3 (split; [done|]). left. split; [done|].
    by apply heap_inv_uart.
Qed.

(** The blocks a run of requests gave, in order; [None] for a refusal. *)
Record served (b : block) (sizes : list Z) (ps : list Z) (final : list block)
    (blks : list (option block)) : Prop := {
  sv_ps : ps = from_option b_ptr 0 <$> blks;
  sv_length : length blks = length sizes;
  sv_size i size x : sizes !! i = Some size -> blks !! i = Some (Some x) ->
                     size <= b_size x /\ x ∈ final /\ b_end b <= b_at x;
  sv_order i j x y : (i < j)%nat -> blks !! i = Some (Some x) -> blks !! j = Some (Some y) ->
                     b_end x <= b_at y
}.

Lemma mallocs_served h b older sizes :
  layout -> heap_inv h b older -> Forall (fun size => 0 < size < 2 ^ 31) sizes ->
  Z.land (csr_mstatus h) 8 <> 0 ->
  exists ps h' b' older' news blks, mallocs sizes h = Ret ps h' /\ heap_inv h' b' older' /\
    b' :: older' = news ++ b :: older /\ tag_irq h' = tag_irq h /\
    served b sizes ps (b' :: older') blks.
Proof.
  intros HL HI Hs. revert h b older HI. induction Hs as [|size sizes Hs _ IH]; intros h b older HI Hm.
  { exists [], h, b, older, [], []. split; [done|]. split; [done|]. split; [done|]. split; [done|].
    split; [done|done| |]; intros; done. }
  destruct (malloc_step h b older size HL HI Hs Hm) as (p & h1 & E1 & M1 & Q1 & Hcase).
  rewrite <- M1 in Hm. destruct Hcase as [[-> HI1]|(x & -> & Hat & Hsize & HI1)].
  - destruct (IH h1 b older HI1 Hm) as (ps & h' & b' & older' & news & blks & E & HI' & Hn & Q & [S1 S2 S3 S4]).
    exists (0 :: ps), h', b', older', news, (None :: blks).
    split; [cbn [mallocs]; erewrite bind_ret by exact E1; by erewrite bind_ret by exact E|].
    split; [done|]. split; [done|]. split; [congruence|]. split.
    + simpl. by rewrite S1.
    + simpl. by rewrite S2.
    + intros [|i] sz y; simpl; [done|]. apply S3.
    + intros [|i] [|j] y z Hij; simpl; try lia; try done. apply S4. lia.
  - destruct (IH h1 x (b :: older) HI1 Hm) as (ps & h' & b' & older' & news & blks & E & HI' & Hn & Q & [S1 S2 S3 S4]).
    destruct (chain_low _ x _ _ (hi_chain _ _ _ HI1) ltac:(left)) as [_ Hx0].
    exists (b_ptr x :: ps), h', b', older', (news ++ [x]), (Some x :: blks).
    split; [cbn [mallocs]; erewrite bind_ret by exact E1; by erewrite bind_ret by exact E|].
    split; [done|]. split; [by rewrite <- app_assoc|]. split; [congruence|]. split.
    + simpl. by rewrite S1.
    + simpl. by rewrite S2.
    + intros [|i] sz y; simpl.
      * intros [= <-] [= <-]. split; [done|]. split; [|lia]. rewrite Hn.
        apply elem_of_app. right. left.
      * intros H1 H2. destruct (S3 i sz y H1 H2) as (? & ? & ?). split; [done|]. split; [done|].
        unfold b_end in *. lia.
    + intros [|i] [|j] y z Hij; simpl; try lia.
      * intros [= <-] Hj. destruct (lookup_lt_is_Some_2 sizes j) as [sz Hz].
        { rewrite <- S2. by apply lookup_lt_Some in Hj. }
        by apply (S3 j sz z).
      * apply S4. lia.
Qed.

(** C7: any sequence of requests (of less than 2 GiB each) is served in order
    from a well-formed heap.  Each request gets the null pointer or a block of
    at least its size; a later block lies entirely above every earlier one, so
    no two live blocks overlap; the heap stays well formed and no request
    raises the tag interrupt. *)
Theorem malloc_sequence h b older sizes :
  layout -> heap_inv h b older -> Forall (fun size => 0 < size < 2 ^ 31) sizes ->
  Z.land (csr_mstatus h) 8 <> 0 ->
  returns (mallocs sizes) h (fun ps h' => exists b' older' blks,
    heap_inv h' b' older' /\ tag_irq h' = tag_irq h /\ served b sizes ps (b' :: older') blks).
Proof.
  intros HL HI Hs Hm.
  destruct (mallocs_served h b older sizes HL HI Hs Hm) as (ps & h' & b' & older' & news & blks & E & HI' & _ & Q & Hv).
  eapply returns_eq; [apply E|]. by exists b', older', blks.
Qed.

(** ** Access to the blocks *)

Lemma chain_member h bs next x : chain h bs next -> x ∈ bs -> exists next', block_ok h x next'.
Proof.
  revert next. induction bs as [|b rest IH]; intros next Hc Hx; [by apply not_elem_of_nil in Hx|].
  apply elem_of_cons in Hx as [->|Hx]; [exists next; by apply chain_block in Hc|].
  destruct Hc as [_ Hc]. destruct rest as [|b' rest]; [by apply not_elem_of_nil in Hx|].
  destruct Hc as (_ & _ & Hc). by apply (IH _ Hc).
Qed.

(** What follows a block: the header of the next newer one, or fresh
    memory. *)
Lemma chain_next h b older next x :
  chain h (b :: older) next -> x ∈ b :: older ->
  x = b \/ exists y, y ∈ b :: older /\ b_at y = b_end x /\ tags_apart (b_dtag x) (b_htag y).
Proof.
  revert b next. induction older as [|b' rest IH]; intros b next Hc Hx.
  - apply elem_of_cons in Hx as [->|Hx]; [by left|by apply not_elem_of_nil in Hx].
  - apply elem_of_cons in Hx as [->|Hx]; [by left|]. destruct Hc as (_ & Ea & Ht & Hc). right.
    destruct (IH b' _ Hc Hx) as [->|(y & Hy & ? & ?)].
    + exists b. split; [left|done].
    + exists y. split; [by right|done].
Qed.

(** Two blocks of a chain do not overlap. *)
Lemma chain_disjoint h bs next x y :
  chain h bs next -> x ∈ bs -> y ∈ bs -> x = y \/ b_end x <= b_at y \/ b_end y <= b_at x.
Proof.
  revert next. induction bs as [|b rest IH]; intros next Hc Hx Hy; [done|].
  pose proof Hc as [_ Hr]. apply elem_of_cons in Hx as [->|Hx], Hy as [->|Hy].
  - by left.
  - pose proof (chain_order _ _ _ _ _ Hc Hy). lia.
  - pose proof (chain_order _ _ _ _ _ Hc Hx). lia.
  - destruct rest as [|b' rest]; [by apply not_elem_of_nil in Hx|].
    destruct Hr as (_ & _ & Hr). by apply (IH _ Hr).
Qed.

(** Writing inside the data of a block leaves the heap well formed. *)
Lemma heap_inv_write h b older x o l :
  layout -> heap_inv h b older -> x ∈ b :: older ->
  b_at x + 16 <= o -> o + zlen l <= b_end x ->
  heap_inv (set_ram (put_bytes (ram h) o l) h) b older.
Proof.
  intros HL HI Hx H1 H2. pose proof HL as (_ & _ & _ & _ & _ & Hdis & Hown).
  destruct (chain_low _ x _ _ (hi_chain _ _ _ HI) Hx) as [Hlx Hsx].
  assert (Hex : b_end x <= b_end b).
  { pose proof (chain_low _ b _ _ (hi_chain _ _ _ HI) ltac:(left)) as [_ ?].
    apply elem_of_cons in Hx as [->|Hx]; [lia|].
    pose proof (chain_order _ _ _ _ _ (hi_chain _ _ _ HI) Hx). unfold b_end in *. lia. }
  set (h' := set_ram (put_bytes (ram h) o l) h).
  assert (Hb : forall i, i < o \/ o + zlen l <= i -> byte_at h' i = byte_at h i)
    by (intros; by apply byte_in_puts_ne).
  assert (Hout : forall k, 0 <= k <= 12 -> word_at h' (mem_info + k) = word_at h (mem_info + k)).
  { intros k Hk. apply word_at_ext. intros i Hi. apply Hb. pose proof (hi_end _ _ _ HI). lia. }
  pose proof (Hout 0) as Hout0. rewrite Z.add_0_r in Hout0.
  destruct HI as [S I A H T C N E F].
  destruct (sec_frame h h') as [S' N']; [done|done| |].
  { intros i Ho. split; [|done]. apply Hown in Ho. apply Hb. lia. }
  split; [done|done|by rewrite Hout0, Hout by lia|by rewrite Hout by lia|by rewrite Hout by lia|
          |by rewrite N'|done|done].
  apply (chain_headers h); [done|done|done|]. intros y i Hy Hi. apply Hb.
  destruct (chain_low _ y _ _ C Hy) as [_ ?]. unfold b_end in *.
  destruct (chain_disjoint _ _ _ _ _ C Hx Hy) as [->|[]]; unfold b_end in *; lia.
Qed.

End malloc.
End Malloc.
