(* ===== verification/HeapSafety.v ===== *)
(** * What the allocator and memory tagging give together

    Accesses through the pointer of a block: inside its data they are silent
    and leave the heap well formed; outside they raise the tag interrupt in
    the build with tagging.  [memmove] (string.c), which copies through a
    block it allocates. *)

From S2P Require Import Prelude Machine Os CString Security Malloc.
Import CString Malloc.
From Stdlib Require Import Btauto.

Section access.
Context `{O : OsSec} (mem_info : Z) (L : OsSecLaws O) (hs he : Z).
Context (HL : layout mem_info L hs he).

#[local] Abbreviation heap := (heap_inv mem_info L hs he).

(** The range is inside the data of a block. *)
Definition inside (x : block) (o n : Z) : Prop := b_at x + 16 <= o /\ 0 <= n /\ o + n <= b_end x.

Lemma block_below h b older x : heap h b older -> x ∈ b :: older -> b_end x <= b_end b.
Proof.
  intros HI Hx. pose proof (hi_chain _ _ _ _ _ _ _ HI) as Hc.
  destruct (chain_low _ _ _ b _ _ Hc ltac:(left)) as [_ Hs'].
  apply elem_of_cons in Hx as [->|Hx]; [lia|].
  pose proof (chain_order _ _ _ _ _ _ _ Hc Hx). unfold b_end in *. lia.
Qed.

Lemma block_range h b older x o n :
  heap h b older -> x ∈ b :: older -> inside x o n ->
  in_ram (b_dtag x) o n /\ (forall i, o <= i < o + n -> tag_ok h (b_dtag x) i).
Proof.
  intros HI Hx (H1 & H2 & H3). pose proof (hi_chain _ _ _ _ _ _ _ HI) as Hc.
  destruct (chain_member _ _ _ _ _ _ Hc Hx) as [nx [_ [_ V] _ _ D _]].
  destruct (chain_low _ _ _ _ _ _ Hc Hx) as [Hl Hs]. pose proof (hi_end _ _ _ _ _ _ _ HI) as He.
  pose proof (valid_range _ V). pose proof HL as (_ & _ & ? & _ & ? & _).
  pose proof (block_below _ _ _ _ HI Hx).
  split; [unfold in_ram; lia|]. intros i Hi. apply D. lia.
Qed.


(** ** memmove *)

(** A copy through two base pointers and an index, as [memmove] does it. *)
Lemma copy_loop_from fuel h td od ts os count l i m b :
  in_ram td (od + i) (zlen l) -> in_ram ts (os + i) (zlen l) ->
  apart (od + i) (zlen l) (os + i) (zlen l) ->
  holds m (os + i) l -> (length l < fuel)%nat -> 0 <= i < 2 ^ 26 -> 0 <= od -> 0 <= os ->
  count = i + zlen l ->
  loop fuel (fun i =>
    if i <? count then
      v ← load8 (field (mkptr ts os) i);
      _ ← store8 (field (mkptr td od) i) v;
      mret (inl (w32 (i + 1)))
    else mret (inr tt)) i (after h b m) =
  Ret tt (after h (b || alarm h ts (os + i) (length l) || alarm h td (od + i) (length l))
    (put_bytes m (od + i) l)).
Proof.
  unfold in_ram, apart, zlen, field. revert fuel i m b.
  induction l as [|c l IH]; intros [|f] i m b Hd Hs Ha Hl Hf Hi H0 H1 Hc; cbn [length holds loop] in *; try lia.
  - rewrite (proj2 (Z.ltb_ge _ _)) by lia. erewrite bind_ret by reflexivity.
    cbn [alarm put_bytes]. by rewrite !orb_false_r.
  - rewrite (proj2 (Z.ltb_lt _ _)) by lia. destruct Hl as [Hb Hl]. rewrite !mkptr_step by lia.
    erewrite bind_ret by (do 2 access; rewrite Hb; reflexivity). cbv beta iota.
    rewrite w32_small by lia. rewrite (IH f); [|lia|lia|lia| |lia|lia|lia|lia|lia].
    2: { rewrite Z.add_assoc. apply holds_put_ne; [unfold apart, zlen; lia|done]. }
    cbn [alarm put_bytes]. rewrite !Z.add_assoc. do 2 f_equal. btauto.
Qed.

Lemma copy_loop_eq h td od ts os l m b :
  in_ram td od (zlen l) -> in_ram ts os (zlen l) -> apart od (zlen l) os (zlen l) -> holds m os l ->
  copy_loop (mkptr td od) (mkptr ts os) (zlen l) (after h b m) =
  Ret tt (after h (b || alarm h ts os (length l) || alarm h td od (length l)) (put_bytes m od l)).
Proof.
  intros Hd Hs Ha Hl. unfold copy_loop.
  rewrite (copy_loop_from _ h td od ts os _ l 0) by
    (rewrite ?Z.add_0_r; done || (unfold in_ram, zlen in *; lia)).
  by rewrite !Z.add_0_r.
Qed.

Lemma alarm_frame h h' t o n :
  in_ram t o (Z.of_nat n) -> csr_tags h' = csr_tags h ->
  (forall i, o <= i < o + Z.of_nat n -> tag_at h' (i / 16) = tag_at h (i / 16)) ->
  alarm h' t o n = alarm h t o n.
Proof.
  intros Hr Hc Ht. revert o Hr Ht. induction n as [|n IH]; intros o Hr Ht; [done|]. cbn [alarm].
  unfold in_ram in Hr. rewrite IH by (unfold in_ram; lia || (intros; apply Ht; lia)).
  rewrite !tag_mismatch_ptr by (unfold ok_ptr; lia). unfold tags_en. by rewrite Hc, Ht by lia.
Qed.

(** A range that is not part of the allocator's or the protection layer's
    data, and not in the unused part of the heap. *)
Definition user_range (b : block) (o n : Z) : Prop :=
  forall i, o <= i < o + n ->
    ~ sec_own i /\ ~ (mem_info <= i < mem_info + 16) /\ ~ (b_end b <= i < he) /\
    ~ (b_at b + 4 <= i < b_at b + 8).

Section memmove.
Context (h : hart) (b : block) (older : list block) (td od ts os : Z) (l : list Z).
Context (HI : heap h b older) (Hm : Z.land (csr_mstatus h) 8 <> 0).
Context (Hl0 : 0 < zlen l) (Hfit : b_end b + 16 + 16 * ((zlen l + 15) / 16) <= he).
Context (Hd : in_ram td od (zlen l)) (Hs : in_ram ts os (zlen l)).
Context (Hud : user_range b od (zlen l)) (Hus : user_range b os (zlen l)).
Context (Hby : Forall byte_range l) (Hsrc : holds (ram h) os l).

(** The state after the allocation, as far as the copies see it. *)
Lemma memmove_buffer :
  exists x h1, malloc mem_info (zlen l) h = Ret (b_ptr x) h1 /\ tag_irq h1 = tag_irq h /\
    b_at x = b_end b /\ in_ram (b_dtag x) (b_at x + 16) (zlen l) /\ b_at x + 16 + zlen l <= he /\
    alarm h1 (b_dtag x) (b_at x + 16) (length l) = false /\
    alarm h1 ts os (length l) = alarm h ts os (length l) /\
    alarm h1 td od (length l) = alarm h td od (length l) /\
    (forall o, user_range b o 1 -> byte_at h1 o = byte_at h o).
Proof.
  destruct (chain_low _ _ _ b _ _ (hi_chain _ _ _ _ _ _ _ HI) ltac:(left)) as [Hlo Hsb].
  destruct (chain_block _ _ _ _ _ _ (hi_chain _ _ _ _ _ _ _ HI)) as [(Ab & Ab' & _) _ _ _ _ _].
  pose proof HL as (_ & _ & Hhs & _ & Hhe & _).
  assert (Hsz : aligntonext (zlen l) 4 = 16 * ((zlen l + 15) / 16)).
  { rewrite aligntonext_eq by (unfold b_end in *; zlia).
    rewrite (proj2 (Z.leb_le _ _)); [done|]. unfold b_end in *. zlia. }
  destruct (malloc_fits _ _ _ _ HL h b older HI (zlen l)) as (x & h1 & E & Hh & Ha & Hx & Hdev & _ & HA);
    [unfold b_end in *; zlia|done|by rewrite Hsz|].
  assert (Hin : inside x (b_at x + 16) (zlen l)).
  { unfold inside, b_end. rewrite Hx, Hsz. zlia. }
  destruct (block_range _ _ _ _ _ _ Hh ltac:(left) Hin) as [Rx Tx]. rewrite Hsz in HA.
  assert (Htag : forall t o, in_ram t o (zlen l) -> user_range b o (zlen l) ->
    alarm h1 t o (length l) = alarm h t o (length l)).
  { intros t o Hr Hu. apply alarm_frame; [done|by apply same_dev_csr|]. intros i Hi.
    apply (ap_other_tag _ _ _ _ _ _ _ _ HA). destruct (Hu i Hi) as (_ & _ & Hi' & _).
    unfold b_end in *. zlia. }
  exists x, h1. split; [done|]. split; [unfold same_dev in Hdev; by rewrite Hdev|].
  split; [done|]. split; [done|]. split; [rewrite Ha; unfold b_end in *; zlia|].
  split; [by apply alarm_none|]. split; [by apply Htag|]. split; [by apply Htag|].
  intros o Ho. destruct (Ho o) as (H1 & H2 & H3 & H4); [lia|].
  apply (ap_bytes _ _ _ _ _ _ _ _ HA); [done| |done|lia]. unfold b_end in *. zlia.
Qed.

Lemma user_one o n i : user_range b o n -> o <= i < o + n -> user_range b i 1.
Proof. intros Hu Hi j Hj. apply Hu. lia. Qed.

End memmove.
End access.

(** ** Detection *)

Section detection.
Context (sec_cntx : Z) (Hctx : range_ok sec_cntx 16) (mem_info hs he : Z).

#[local] Abbreviation laws := (Security.secure_laws sec_cntx Hctx).

(** A byte of the header of the block, or of the granule after its data. *)
Definition beside (x : block) (i : Z) : Prop :=
  b_at x <= i < b_at x + 16 \/ (b_end x <= i < b_end x + 16 /\ b_end x < he).

Lemma beside_tag h b older x i :
  layout mem_info laws hs he -> heap_inv mem_info laws hs he h b older ->
  x ∈ b :: older -> 0 < b_size x -> beside x i ->
  tags_en h = true /\ tag_at h (i / 16) <> b_dtag x.
Proof.
  intros HL HI Hx Hs Hi. pose proof (hi_sec _ _ _ _ _ _ _ HI) as (He & _). split; [done|].
  pose proof (hi_chain _ _ _ _ _ _ _ HI) as Hc.
  assert (Hok : forall t o, tag_ok h t o -> tag_at h (o / 16) = t) by (intros t o [|]; congruence).
  destruct (chain_member _ _ _ _ _ _ Hc Hx) as [nx [(Al & As & _) _ _ T _ (P1 & P2 & P3)]].
  destruct Hi as [Hi|[Hi Hlt]].
  - rewrite (Hok _ _ (T i Hi)). apply P1. lia.
  - assert (Hg : i / 16 = b_end x / 16) by (unfold b_end in *; zlia). rewrite Hg.
    destruct (chain_next _ _ _ _ _ _ _ Hc Hx) as [->|(y & Hy & Ey & Ay)].
    + rewrite (hi_fresh _ _ _ _ _ _ _ HI); [|unfold b_end in *; zlia..].
      intros E. by apply P3.
    + destruct (chain_member _ _ _ _ _ _ Hc Hy) as [ny [_ _ _ Ty _ _]].
      rewrite <- Ey, (Hok _ _ (Ty (b_at y) ltac:(lia))). intros E. by apply Ay.
Qed.

End detection.
