(* ===== verification/Traps.v ===== *)
(** * Trap handlers and start-up (internals/os.c)

    The tables of exception and interrupt handlers, the two dispatchers the
    assembly trap entry calls, and [__soc_init].

    A handler is the address of code this development does not see: [call]
    says what running the code at an address does, and is an argument of the
    dispatchers. *)

From S2P Require Import Prelude Machine PrintfFacts Os CString Security Malloc.

Module Traps.

Abbreviation RISCV_EXC_TOTAL := (16)%Z (only parsing).
Abbreviation RISCV_INT_TOTAL := (17)%Z (only parsing).
Abbreviation RISCV_INT_SM_PANIC := (16)%Z (only parsing).

Section traps.
(** The addresses of the two tables. *)
Context (__EXC_service __INT_service : Z).

(** The pointer -1. *)
Definition BAD_HANDLER : Z := 0xffffffff.

Definition register_exc_handler (exc h : Z) : M Z :=
  let exc := if exc <? 0 then RISCV_EXC_TOTAL else exc in
  if exc <? RISCV_EXC_TOTAL then
    result ← load32 (w32 (__EXC_service + 4 * exc));
    _ ← store32 (w32 (__EXC_service + 4 * exc)) h;
    mret result
  else mret BAD_HANDLER.

Definition register_int_handler (n h : Z) : M Z :=
  let n := if n <? 0 then RISCV_INT_TOTAL else n in
  if n <? RISCV_INT_TOTAL then
    result ← load32 (w32 (__INT_service + 4 * n));
    _ ← store32 (w32 (__INT_service + 4 * n)) h;
    mret result
  else mret BAD_HANDLER.

Section dispatch.
Context (call : Z -> Z -> Z -> M unit).

Definition __exc_serve (frame exc : Z) : M Z :=
  if (exc <? 0) || (RISCV_EXC_TOTAL <=? exc) then mret (-1)
  else
    h ← load32 (w32 (__EXC_service + 4 * exc));
    _ ← (if negb (h =? 0) then call h exc frame else mret tt);
    mret 0.

Definition __int_serve (frame n : Z) : M Z :=
  if (n <? 0) || (RISCV_INT_TOTAL <=? n) then mret (-1)
  else
    h ← load32 (w32 (__INT_service + 4 * n));
    _ ← (if negb (h =? 0) then call h n frame else mret tt);
    _ ← (if n =? RISCV_INT_SM_PANIC then _ossec_panic else mret 0);
    mret 0.
End dispatch.

Definition __soc_init `{O : OsSec} (mem_info : Z) (fuel : nat) (ctx : init_ctx) : M unit :=
  ok ← _ossec_init fuel;
  _ ← (if ok =? 0 then
         _ ← Os.printf "LIBC: <PANIC> could not initialize security subsystem" [];
         Os.exit 253
       else mret tt);
  ok ← Malloc.malloc_init mem_info ctx;
  if negb (ok : bool) then
    _ ← Os.printf "LIBC: <PANIC> could not initialize memory subsystem" [];
    Os.exit 254
  else mret tt.

(** ** Tables *)

(** A table of [n] words at [base] that plain pointers reach. *)
Definition table_ok (h : hart) (base n : Z) : Prop :=
  base mod 4 = 0 /\ 0 <= base /\ base + 4 * n <= 2 ^ 26 /\
  forall i, base <= i < base + 4 * n -> tag_ok h 0 i.

Definition entry (h : hart) (base i : Z) : Z := word_at h (base + 4 * i).

Lemma entry_address h base n i :
  table_ok h base n -> 0 <= i < n ->
  w32 (base + 4 * i) = mkptr 0 (base + 4 * i) /\ ok_ptr 0 (base + 4 * i) /\
  (base + 4 * i) mod 4 = 0 /\ tag_ok h 0 (base + 4 * i).
Proof.
  intros (Ha & H0 & H1 & Ht) Hi. rewrite mkptr_0, w32_small by lia.
  split; [done|]. split; [unfold ok_ptr; lia|]. split; [zlia|]. apply Ht. lia.
Qed.

Lemma load_entry h base n i :
  table_ok h base n -> 0 <= i < n -> load32 (w32 (base + 4 * i)) h = Ret (entry h base i) h.
Proof.
  intros Ht Hi. destruct (entry_address h base n i Ht Hi) as (-> & Hp & Ha & Hok).
  by apply load32_ok.
Qed.

Lemma store_entry h base n i v :
  table_ok h base n -> 0 <= i < n ->
  store32 (w32 (base + 4 * i)) v h = Ret tt (set_ram (put_word (ram h) (base + 4 * i) v) h).
Proof.
  intros Ht Hi. destruct (entry_address h base n i Ht Hi) as (-> & Hp & Ha & Hok).
  by apply store32_ok.
Qed.

Lemma entry_put h base i v j :
  entry (set_ram (put_word (ram h) (base + 4 * i) v) h) base j =
  if decide (j = i) then w32 v else entry h base j.
Proof.
  unfold entry. case_decide as He; [subst; apply word_at_put|].
  rewrite word_at_put_ne by lia. by destruct h.
Qed.

(** What registering does: the old entry is returned and only this one is
    replaced. *)
Definition registered (h h' : hart) (base i v : Z) : Prop :=
  h' = set_ram (put_word (ram h) (base + 4 * i) v) h /\
  entry h' base i = v /\ forall j, j <> i -> entry h' base j = entry h base j.

Lemma registered_put h base i v :
  0 <= v < 2 ^ 32 -> registered h (set_ram (put_word (ram h) (base + 4 * i) v) h) base i v.
Proof.
  intros Hv. split; [done|]. split.
  - rewrite entry_put, decide_True by done. by apply w32_small.
  - intros j Hj. by rewrite entry_put, decide_False.
Qed.

(** A handler registered for an exception is the one the dispatcher runs
    for it, with the exception number and the frame; the previous handler is
    returned and the other entries stay.  A number outside the table is
    refused by both with no effect. *)
Theorem exc_handler_roundtrip call h exc a frame :
  table_ok h __EXC_service RISCV_EXC_TOTAL -> 0 < a < 2 ^ 32 ->
  if (0 <=? exc) && (exc <? RISCV_EXC_TOTAL) then
    returns (register_exc_handler exc a) h (fun old h' =>
      old = entry h __EXC_service exc /\ registered h h' __EXC_service exc a /\
      __exc_serve call frame exc h' = (_ ← call a exc frame; mret 0) h')
  else register_exc_handler exc a h = Ret BAD_HANDLER h /\
       __exc_serve call frame exc h = Ret (-1) h.
Proof.
  intros Ht Ha. unfold register_exc_handler, __exc_serve.
  destruct (Z.leb_spec 0 exc); cbn [andb].
  2: { by rewrite (proj2 (Z.ltb_lt exc 0)) by lia. }
  rewrite (proj2 (Z.ltb_ge exc 0)) by lia. destruct (Z.ltb_spec exc 16).
  2: { by rewrite (proj2 (Z.leb_le 16 exc)) by lia. }
  eapply returns_eq.
  { erewrite bind_ret by (by eapply load_entry). erewrite bind_ret by (by eapply store_entry).
    reflexivity. }
  split; [done|]. split; [apply registered_put; lia|].
  rewrite (proj2 (Z.leb_gt 16 exc)) by lia. cbn [orb].
  erewrite bind_ret by (by eapply (load_entry _ _ 16)).
  rewrite entry_put, decide_True, w32_small by (done || lia).
  by rewrite (proj2 (Z.eqb_neq a 0)) by lia.
Qed.

(** Interrupts: the same, except that the dispatcher ends the program with
    status 42 after the handler of the secure monitor interrupt has run. *)
Theorem int_handler_roundtrip call h n a frame :
  table_ok h __INT_service RISCV_INT_TOTAL -> 0 < a < 2 ^ 32 ->
  if (0 <=? n) && (n <? RISCV_INT_TOTAL) then
    returns (register_int_handler n a) h (fun old h' =>
      old = entry h __INT_service n /\ registered h h' __INT_service n a /\
      __int_serve call frame n h' =
        (_ ← call a n frame;
         _ ← (if n =? RISCV_INT_SM_PANIC then _ossec_panic else mret 0);
         mret 0) h')
  else register_int_handler n a h = Ret BAD_HANDLER h /\
       __int_serve call frame n h = Ret (-1) h.
Proof.
  intros Ht Ha. unfold register_int_handler, __int_serve.
  destruct (Z.leb_spec 0 n); cbn [andb].
  2: { by rewrite (proj2 (Z.ltb_lt n 0)) by lia. }
  rewrite (proj2 (Z.ltb_ge n 0)) by lia. destruct (Z.ltb_spec n 17).
  2: { by rewrite (proj2 (Z.leb_le 17 n)) by lia. }
  eapply returns_eq.
  { erewrite bind_ret by (by eapply load_entry). erewrite bind_ret by (by eapply store_entry).
    reflexivity. }
  split; [done|]. split; [apply registered_put; lia|].
  rewrite (proj2 (Z.leb_gt 17 n)) by lia. cbn [orb].
  erewrite bind_ret by (by eapply (load_entry _ _ 17)).
  rewrite entry_put, decide_True, w32_small by (done || lia).
  by rewrite (proj2 (Z.eqb_neq a 0)) by lia.
Qed.

(** C34: a secure monitor interrupt, the one a tag mismatch raises, never
    returns to the program: whatever handler is registered, as long as it
    returns, the dispatcher ends the program with status 42. *)
Theorem secure_monitor_panics call h frame :
  table_ok h __INT_service RISCV_INT_TOTAL ->
  (forall a h1, exists h2, call a RISCV_INT_SM_PANIC frame h1 = Ret tt h2) ->
  exits (__int_serve call frame RISCV_INT_SM_PANIC) h 42.
Proof.
  intros Ht Hcall. unfold __int_serve, exits.
  change ((RISCV_INT_SM_PANIC <? 0) || (RISCV_INT_TOTAL <=? RISCV_INT_SM_PANIC)) with false.
  cbv iota.
  erewrite bind_ret by (eapply load_entry; [done|lia]).
  assert (Hh : exists h2, (if negb (entry h __INT_service RISCV_INT_SM_PANIC =? 0)
    then call (entry h __INT_service RISCV_INT_SM_PANIC) RISCV_INT_SM_PANIC frame
    else (mret tt : M unit)) h = Ret tt h2).
  { destruct (negb _); [apply Hcall|by exists h]. }
  destruct Hh as [h2 Hh]. erewrite bind_ret by exact Hh. rewrite Z.eqb_refl.
  destruct (panic_exits h2) as [h3 E]. exists h3. unfold mbind, M_bind. by rewrite E.
Qed.
End traps.

(** ** Start-up *)

(** C26: start-up in the build with tagging.  Out of reset, with a random number
    register that offers usable values, [__soc_init] returns with tag checking
    on, the protection layer initialised, and a well-formed heap that spans the
    arena the boot code passed; no alarm is raised. *)
Theorem soc_init_correct sec_cntx (Hctx : range_ok sec_cntx 16) mem_info hs he fuel h i j memtag_en :
  let laws := Security.secure_laws sec_cntx Hctx in
  Malloc.layout mem_info laws hs he -> tag_ok h 0 sec_cntx -> Malloc.fresh he h hs ->
  (i < fuel)%nat -> Security.nibble h i <> 0 ->
  (forall k, (k < i)%nat -> Security.nibble h k = 0) ->
  (j < fuel)%nat -> Security.usable (Security.nibble h i) (Security.nibble h (S i + j)) = true ->
  (forall k, (k < j)%nat -> Security.usable (Security.nibble h i) (Security.nibble h (S i + k)) = false) ->
  returns (@__soc_init (Security.secure_ossec sec_cntx) mem_info fuel (InitCtx memtag_en hs he)) h
    (fun _ h' => (exists t, Malloc.heap_inv mem_info laws hs he h' (Malloc.Block hs 0 t t) []) /\
                 tags_en h' = true /\ tag_irq h' = tag_irq h).
Proof.
  intros laws HL Hok Hfr Hi Hni Hki Hj Hnj Hkj. unfold __soc_init. apply returns_bind.
  eapply returns_eq; [by apply (Security.init_eq sec_cntx Hctx fuel h i j)|]. cbn [Z.eqb].
  apply returns_bind, returns_ret, returns_bind.
  pose proof (Security.init_sec_ok sec_cntx h i j Hni Hnj) as Hsec.
  eapply returns_mono.
  { apply (Malloc.malloc_init_spec mem_info laws hs he HL); [done|done|].
    intros g H1 H2. unfold tag_at. simpl. rewrite lookup_insert, decide_False; [by apply Hfr|].
    intros <-. destruct HL as (_ & Ahs & _ & _ & _ & _ & Hown).
    destruct (Hown sec_cntx) as [_ Hn]; [simpl; unfold Security.own; lia|]. apply Hn.
    pose proof Hctx as (Hc & Hc0 & _). clear - H1 H2 Hc Hc0. zlia. }
  intros ok h' (-> & [t Ht] & _ & Hq & _). split; [by exists t|]. split; [|done].
  pose proof (Malloc.hi_sec _ _ _ _ _ _ _ Ht) as (He & _). done.
Qed.

End Traps.
