(* ===== verification/BootExample.v ===== *)
(** * A concrete machine

    One memory layout (the protection context at 0x200, [mem_info] at 0x210,
    the heap from 0x1000 to 0x4000) on which the theorems about start-up, the
    allocator and the trap tables are instantiated. *)

From S2P Require Import Prelude Machine Os CString Security Malloc HeapSafety Traps.
Import CString Malloc.

#[local] Abbreviation laws := (Security.secure_laws 0x200 Security.ctx_0x200).
#[local] Abbreviation heap := (heap_inv 0x210 laws 0x1000 0x4000).
#[local] Abbreviation start := (Security.init_state 0x200 reset_hart 0 0).

Lemma layout_ok : layout 0x210 laws 0x1000 0x4000.
Proof.
  unfold layout, range_ok. repeat split; try lia.
  - simpl in H. unfold Security.own in H. lia.
  - simpl in H. unfold Security.own in H. lia.
Defined.

Lemma fresh_reset : fresh 0x4000 reset_hart 0x1000.
Proof. intros g H1 H2. reflexivity. Defined.

Lemma fresh_start : fresh 0x4000 start 0x1000.
Proof.
  intros g H1 H2. unfold tag_at. simpl. rewrite lookup_insert, decide_False; [done|].
  change (512 / 16) with 32. lia.
Defined.

(** A heap as [malloc_init] leaves it, and the same with one block of 40
    bytes; the memory above the heap is clear in both. *)
Definition clear_above (h : hart) : Prop := forall i, 0x5000 <= i -> byte_at h i = 0.

Lemma empty_heap :
  exists h t, heap h (Block 0x1000 0 t t) [] /\ csr_mstatus h = 8 /\ clear_above h.
Proof.
  destruct (returns_inv _ _ _ (malloc_init_spec 0x210 laws 0x1000 0x4000 layout_ok start
    (InitCtx 1 0x1000 0x4000) Security.init_hart_ok (conj eq_refl eq_refl) fresh_start))
    as (ok & h & _ & _ & [t Ht] & Hb & _ & Hm).
  exists h, t. split; [done|]. split; [by rewrite Hm|]. intros i Hi.
  rewrite Hb by (simpl; unfold Security.own; lia).
  rewrite Security.init_frame by (unfold Security.own; lia). reflexivity.
Defined.

Lemma one_block :
  exists h b t, heap h b [Block 0x1000 0 t t] /\ csr_mstatus h = 8 /\
    b_at b = 0x1010 /\ b_size b = 48 /\ clear_above h.
Proof.
  destruct empty_heap as (h & t & HI & Hm & Hc).
  destruct (malloc_fits _ _ _ _ layout_ok h _ _ HI 40) as (b & h' & _ & HI' & Ha & Hs & Hd & _ & HA).
  - lia.
  - by rewrite Hm.
  - unfold b_end. simpl. change (aligntonext 40 4) with 48. lia.
  - exists h', b, t. unfold same_dev in Hd. split; [done|]. split; [by rewrite Hd|].
    split; [by rewrite Ha|]. split; [by rewrite Hs|]. intros i Hi.
    rewrite (ap_bytes _ _ _ _ _ _ _ _ HA); [by apply Hc|..];
      unfold b_end; simpl; unfold Security.own; lia.
Defined.

Lemma malloc_init_correct_witness :
  returns (@malloc_init (Security.secure_ossec 0x200) 0x210 (InitCtx 1 0x1000 0x4000)) start
    (fun ok h' => ok = true /\
    (exists t, heap h' (Block 0x1000 0 t t) []) /\
    (forall i, ~ Security.own 0x200 i -> ~ (0x210 <= i < 0x210 + 16) ->
       ~ (0x1000 <= i < 0x1000 + 16) -> byte_at h' i = byte_at start i) /\
    tag_irq h' = tag_irq start /\ csr_mstatus h' = csr_mstatus start).
Proof.
  apply (malloc_init_correct 0x210 laws 0x1000 0x4000 layout_ok start (InitCtx 1 0x1000 0x4000)
    Security.init_hart_ok (conj eq_refl eq_refl) fresh_start).
Defined.


Lemma malloc_oom_witness :
  exists h t, heap h (Block 0x1000 0 t t) [] /\
    returns (@malloc (Security.secure_ossec 0x200) 0x210 0x4000) h
      (fun p h' => p = 0 /\ exists u, h' = set_uart (uart h ++ u) h).
Proof.
  destruct empty_heap as (h & t & HI & Hm & _). exists h, t. split; [done|].
  apply (malloc_oom 0x210 laws 0x1000 0x4000 layout_ok h (Block 0x1000 0 t t) [] HI 0x4000).
  - lia.
  - by rewrite Hm.
  - unfold b_end. simpl. change ((16384 + 15) / 16) with 1024. lia.
Defined.

Lemma malloc_huge_request_witness :
  exists h t, heap h (Block 0x1000 0 t t) [] /\
    returns (@malloc (Security.secure_ossec 0x200) 0x210 0xfffffff8) h (fun p h' => exists b',
      p = b_ptr b' /\ p <> 0 /\ b_size b' = 0 /\ heap h' b' [Block 0x1000 0 t t]).
Proof.
  destruct empty_heap as (h & t & HI & Hm & _). exists h, t. split; [done|].
  apply (malloc_huge_request 0x210 laws 0x1000 0x4000 layout_ok h (Block 0x1000 0 t t) [] HI 0xfffffff8).
  - lia.
  - by rewrite Hm.
  - unfold b_end. simpl. lia.
Defined.

Lemma malloc_bounds_wrap_witness :
  exists h t, heap h (Block 0x1000 0 t t) [] /\
    exists ti, @malloc (Security.secure_ossec 0x200) 0x210 0xfffff000 h =
      @append_block (Security.secure_ossec 0x200) (mkptr ti 0x210) 0x1010 0xfffff000 h /\ 2 ^ 26 < 0xfffff000.
Proof.
  destruct empty_heap as (h & t & HI & Hm & _). exists h, t. split; [done|].
  apply (malloc_bounds_wrap 0x210 laws 0x1000 0x4000 layout_ok h (Block 0x1000 0 t t) [] HI 0xfffff000).
  - unfold b_end. simpl. lia.
  - by rewrite Hm.
Defined.

Lemma malloc_refuses_witness :
  returns (@malloc (Security.secure_ossec 0x200) 0x210 40) (Hart ∅ ∅ 0 false 0 0 0 (fun _ => 0)
      (fun _ => 0) (fun _ => 0) 0 1 [])
    (fun p h' => p = 0 /\ exists u, h' = set_uart u (Hart ∅ ∅ 0 false 0 0 0 (fun _ => 0)
      (fun _ => 0) (fun _ => 0) 0 1 [])).
Proof.
  apply (proj2 (@malloc_refuses (Security.secure_ossec 0x200) 0x210 40 (Hart ∅ ∅ 0 false 0 0 0
    (fun _ => 0) (fun _ => 0) (fun _ => 0) 0 1 []))); [lia|reflexivity].
Defined.

Lemma malloc_sequence_witness :
  exists h t, heap h (Block 0x1000 0 t t) [] /\
    returns (@mallocs (Security.secure_ossec 0x200) 0x210 [40; 0x8000; 1]) h
      (fun ps h' => exists b' older' blks,
        heap h' b' older' /\ tag_irq h' = tag_irq h /\
        served (Block 0x1000 0 t t) [40; 0x8000; 1] ps (b' :: older') blks).
Proof.
  destruct empty_heap as (h & t & HI & Hm & _). exists h, t. split; [done|].
  apply (malloc_sequence 0x210 laws 0x1000 0x4000 h (Block 0x1000 0 t t) [] [40; 0x8000; 1] layout_ok HI).
  - repeat constructor; lia.
  - by rewrite Hm.
Defined.




(** *** Traps: the tables at 0x300 and 0x380 *)

Lemma tables_ok : Traps.table_ok start 0x300 16 /\ Traps.table_ok start 0x380 17.
Proof.
  assert (Ht : forall o, 0x300 <= o -> tag_ok start 0 o).
  { intros o Ho. right. unfold tag_at. simpl. rewrite lookup_insert, decide_False; [done|].
    change (512 / 16) with 32. zlia. }
  split; (split; [done|]; split; [lia|]; split; [lia|]; intros i Hi; apply Ht; lia).
Defined.

Lemma exc_handler_roundtrip_witness :
  returns (Traps.register_exc_handler 0x300 2 0x8000) start (fun old h' =>
    old = Traps.entry start 0x300 2 /\ Traps.registered start h' 0x300 2 0x8000 /\
    Traps.__exc_serve 0x300 (fun _ _ _ => mret tt) 0 2 h' = (_ ← (mret tt : M unit); mret 0) h').
Proof.
  exact (Traps.exc_handler_roundtrip 0x300 (fun _ _ _ => mret tt) start 2 0x8000 0
    (proj1 tables_ok) (conj eq_refl eq_refl)).
Defined.

Lemma int_handler_roundtrip_witness :
  returns (Traps.register_int_handler 0x380 7 0x8000) start (fun old h' =>
    old = Traps.entry start 0x380 7 /\ Traps.registered start h' 0x380 7 0x8000 /\
    Traps.__int_serve 0x380 (fun _ _ _ => mret tt) 0 7 h' =
      (_ ← (mret tt : M unit);
       _ ← (if 7 =? Traps.RISCV_INT_SM_PANIC then _ossec_panic else mret 0);
       mret 0) h').
Proof.
  exact (Traps.int_handler_roundtrip 0x380 (fun _ _ _ => mret tt) start 7 0x8000 0
    (proj2 tables_ok) (conj eq_refl eq_refl)).
Defined.

Lemma secure_monitor_panics_witness :
  exits (Traps.__int_serve 0x380 (fun _ _ _ => mret tt) 0 Traps.RISCV_INT_SM_PANIC) start 42.
Proof.
  apply (Traps.secure_monitor_panics 0x380 (fun _ _ _ => mret tt) start 0 (proj2 tables_ok)).
  intros a h1. by exists h1.
Defined.

Lemma soc_init_correct_witness :
  returns (@Traps.__soc_init (Security.secure_ossec 0x200) 0x210 1 (InitCtx 1 0x1000 0x4000)) reset_hart
    (fun _ h' => (exists t, heap h' (Block 0x1000 0 t t) []) /\ tags_en h' = true /\
                 tag_irq h' = tag_irq reset_hart).
Proof.
  apply (Traps.soc_init_correct 0x200 Security.ctx_0x200 0x210 0x1000 0x4000 1 reset_hart 0 0 1
    layout_ok (or_introl eq_refl) fresh_reset); (lia || done).
Defined.
