(* ===== verification/Arith.v ===== *)
(** * Multiplication and division

    [__mulsi3] (libc/src/asm/mulsi3.c), which the compiler calls on this core
    without a multiplier, and [DivModel] (models/insns/div.h), the C++ model
    of the sequential divider with its self-check. *)

From S2P Require Import Prelude.

Module Mul.

(** The loop ends when [a] is 0; each turn halves it. *)
Fixpoint mul_loop (fuel : nat) (a b r : Z) : option Z :=
  match fuel with
  | O => None
  | S n =>
      if a =? 0 then Some r
      else
        let r := if Z.land a 1 =? 0 then r else w32 (r + b) in
        mul_loop n (Z.shiftr a 1) (w32 (Z.shiftl b 1)) r
  end.

Definition __mulsi3 (a b : Z) : option Z := mul_loop 33 a b 0.

Lemma mul_loop_correct n fuel a b r :
  (n < fuel)%nat -> 0 <= a < 2 ^ Z.of_nat n -> 0 <= r < 2 ^ 32 ->
  mul_loop fuel a b r = Some (w32 (r + a * b)).
Proof.
  revert fuel a b r. induction n as [|n IH]; intros [|f] a b r Hf Ha Hr; try lia; cbn [mul_loop].
  - replace a with 0 by lia. cbn [Z.eqb]. by rewrite Z.mul_0_l, Z.add_0_r, w32_small.
  - destruct (Z.eqb_spec a 0) as [->|Hn]; [by rewrite Z.mul_0_l, Z.add_0_r, w32_small|].
    rewrite Nat2Z.inj_succ, Z.pow_succ_r in Ha by lia.
    assert (E1 : Z.land a 1 = a mod 2) by apply (land_mask a 1 ltac:(lia)).
    assert (E2 : Z.shiftr a 1 = a / 2) by (apply shiftr_div; lia).
    assert (E3 : Z.shiftl b 1 = b * 2) by (apply shiftl_mul; lia). rewrite E1, E2, E3.
    rewrite IH; [|lia|zlia|destruct (a mod 2 =? 0); [done|apply w32_range]]. f_equal.
    rewrite (Z.div_mod a 2) at 3 by lia. pose proof (Z.mod_pos_bound a 2 ltac:(lia)) as Hm.
    unfold wrap. destruct (Z.eqb_spec (a mod 2) 0) as [->|Hm1].
    + rewrite Z.add_mod, Z.mul_mod_idemp_r, <- Z.add_mod by lia. f_equal. ring.
    + replace (a mod 2) with 1 by lia.
      rewrite Z.add_mod, Z.mul_mod_idemp_r, Z.mod_mod, <- Z.add_mod by lia. f_equal. ring.
Qed.

(** The shift-and-add loop ends for every pair of 32-bit operands and
    computes their product modulo 2^32. *)
Theorem mulsi3_correct a b :
  0 <= a < 2 ^ 32 -> 0 <= b < 2 ^ 32 -> __mulsi3 a b = Some (w32 (a * b)).
Proof. intros Ha Hb. unfold __mulsi3. by rewrite (mul_loop_correct 32) by lia. Qed.

Lemma mulsi3_correct_witness : __mulsi3 0xffffffff 0xffffffff = Some 1.
Proof. apply (mulsi3_correct 0xffffffff 0xffffffff); lia. Defined.

End Mul.

Module Div.
Section div.
(** The template parameter. *)
Context (isSigned : bool).

Definition kSignBit : Z := 2 ^ 31.

Definition getMagnitude (x : Z) : Z :=
  if isSigned then if negb (Z.land x kSignBit =? 0) then w32 (- s32 x) else x else x.

Definition belowZero (x : Z) : bool := isSigned && (s32 x <? 0).

(** The normalisation loop: the shifted divisor, its order, and the cycles it
    took.  The divisor is at least 1, so 31 turns reach the sign bit. *)
Fixpoint normalize (fuel : nat) (dividend divisor order cycles : Z) : option (Z * Z * Z) :=
  match fuel with
  | O => None
  | S n =>
      if (divisor <? dividend) && (Z.land divisor kSignBit =? 0) then
        normalize n dividend (w32 (Z.shiftl divisor 1)) (w32 (Z.shiftl order 1)) (cycles + 1)
      else Some (divisor, order, cycles)
  end.

(** The main loop, a do-while on [order]. *)
Fixpoint divide (fuel : nat) (dividend divisor order result cycles : Z) : option (Z * Z * Z) :=
  match fuel with
  | O => None
  | S n =>
      let '(dividend, result) :=
        if divisor <=? dividend then (dividend - divisor, Z.lor result order)
        else (dividend, result) in
      let divisor := Z.shiftr divisor 1 in
      let order := Z.shiftr order 1 in
      let cycles := cycles + 1 in
      if order =? 0 then Some (result, dividend, cycles)
      else divide n dividend divisor order result cycles
  end.

(** Quotient, remainder and cycle count. *)
Definition stepdiv (a b : Z) : option (Z * Z * Z) :=
  if b =? 0 then Some (0xffffffff, a, 1)
  else if isSigned && (b =? 0xffffffff) && (a =? kSignBit) then Some (kSignBit, 0, 1)
  else
    let sign := negb (Bool.eqb (belowZero a) (belowZero b)) in
    let dividend := getMagnitude a in
    let divisor := getMagnitude b in
    '(divisor, order, cycles) ← normalize 32 dividend divisor 1 3;
    '(result, dividend, cycles) ← divide 32 dividend divisor order 0 cycles;
    Some (if (sign : bool) then w32 (- result) else result, dividend, cycles + 1).

(** The reference of the self-check: C++ division, which truncates. *)
Definition reference (a b : Z) : Z :=
  if isSigned then
    if (a =? kSignBit) && (b =? 0xffffffff) then 0x80000000
    else if b =? 0 then 0xffffffff else w32 (Z.quot (s32 a) (s32 b))
  else if b =? 0 then 0xffffffff else a / b.

Definition check (op1 op2 : Z) : option bool :=
  '(checkDiv, checkRem, _) ← stepdiv op1 op2;
  Some (reference op1 op2 =? checkDiv).

(** The loop of [Testbench::runTestbench] over the operands it draws: the
    number of errors. *)
Fixpoint runTestbench (ops : list (Z * Z)) (m_statErrors : Z) : option Z :=
  match ops with
  | [] => Some m_statErrors
  | (a, b) :: r =>
      ok ← check a b;
      runTestbench r (if (ok : bool) then m_statErrors else m_statErrors + 1)
  end.

(** ** The loops *)

Lemma sign_bit_free x : 0 <= x < 2 ^ 32 -> (Z.land x kSignBit =? 0) = (x <? 2 ^ 31).
Proof.
  intros Hx. assert (Hb : Z.land x kSignBit = if Z.testbit x 31 then 2 ^ 31 else 0).
  { apply Z.bits_inj'. intros i Hi. unfold kSignBit.
    rewrite Z.land_spec, Z.pow2_bits_eqb by lia. destruct (Z.eqb_spec 31 i) as [<-|Hn].
    - destruct (Z.testbit x 31); [|by rewrite Z.bits_0]. by rewrite Z.pow2_bits_true by lia.
    - rewrite andb_false_r. destruct (Z.testbit x 31); [|by rewrite Z.bits_0].
      symmetry. apply Z.pow2_bits_false. lia. }
  rewrite Hb. rewrite Z.testbit_eqb by lia.
  destruct (Z.eqb_spec (x / 2 ^ 31 mod 2) 1) as [H1|H1]; destruct (Z.ltb_spec x (2 ^ 31)); try done; zlia.
Qed.

(** After normalisation the divisor is [d * 2^k] with [order = 2^k], and the
    dividend is below twice that. *)
Lemma normalize_correct fuel dividend d k c :
  0 <= dividend < 2 ^ 32 -> 0 < d -> 0 <= k -> d * 2 ^ k < 2 ^ 32 -> 2 ^ 32 <= 2 ^ (k + Z.of_nat fuel) ->
  exists k', normalize fuel dividend (d * 2 ^ k) (2 ^ k) c = Some (d * 2 ^ k', 2 ^ k', c + (k' - k)) /\
    k <= k' < 32 /\ d * 2 ^ k' < 2 ^ 32 /\ dividend < d * 2 ^ (k' + 1).
Proof.
  intros Hdv Hd. revert k c. induction fuel as [|n IH]; intros k c Hk Hb Hf.
  { assert (2 ^ k < 2 ^ 32) by nia. rewrite Z.add_0_r in Hf. lia. }
  assert (Hk32 : k < 32) by (apply (Z.pow_lt_mono_r_iff 2); [lia|lia|nia]).
  assert (Hp : 0 < 2 ^ k) by (by apply Z.pow_pos_nonneg). cbn [normalize].
  rewrite sign_bit_free by nia.
  assert (Hs : 2 ^ (k + 1) = 2 * 2 ^ k) by (rewrite Z.pow_add_r by lia; lia).
  destruct (Z.ltb_spec (d * 2 ^ k) dividend) as [H1|H1]; cbn [andb].
  2: { exists k. rewrite Hs. split; [f_equal; f_equal; lia|]. nia. }
  destruct (Z.ltb_spec (d * 2 ^ k) (2 ^ 31)) as [H2|H2].
  2: { exists k. rewrite Hs. split; [f_equal; f_equal; lia|]. nia. }
  rewrite !shiftl_mul by lia. change (2 ^ 1) with 2.
  rewrite !w32_small by nia. replace (d * 2 ^ k * 2) with (d * 2 ^ (k + 1)) by (rewrite Hs; lia).
  replace (2 ^ k * 2) with (2 ^ (k + 1)) by lia.
  destruct (IH (k + 1) (c + 1)) as (k' & E & Hk' & Hb' & Hlt); [lia|rewrite Hs; nia| |].
  { replace (k + 1 + Z.of_nat n) with (k + Z.of_nat (S n)) by lia. done. }
  exists k'. rewrite E. split; [f_equal; f_equal; lia|]. split; [lia|done].
Qed.

(** Long division from order [2^k] downwards. *)
Lemma divide_correct k fuel dividend d q c :
  0 <= dividend < d * 2 ^ (Z.of_nat k + 1) -> 0 < d -> 0 <= q -> q mod 2 ^ (Z.of_nat k + 1) = 0 ->
  (k < fuel)%nat ->
  divide fuel dividend (d * 2 ^ Z.of_nat k) (2 ^ Z.of_nat k) q c =
  Some (q + dividend / d, dividend mod d, c + Z.of_nat k + 1).
Proof.
  intros Hdv Hd. revert fuel dividend q c Hdv. induction k as [|k IH]; intros [|f] dividend q c Hdv Hq Hm Hf;
    try lia; cbn [divide].
  - change (2 ^ Z.of_nat 0) with 1 in *. change (2 ^ (Z.of_nat 0 + 1)) with 2 in *. rewrite Z.mul_1_r.
    change (Z.shiftr 1 1) with 0. cbn [Z.eqb].
    destruct (Z.leb_spec d dividend) as [H1|H1]; cbv iota beta.
    + rewrite Z.lor_comm, (lor_add 1 q 1) by (lia || done).
      assert (E : dividend = d * 1 + (dividend - d)) by lia.
      rewrite <- (Zdiv_unique dividend d 1 (dividend - d)) by lia.
      rewrite <- (Zmod_unique dividend d 1 (dividend - d)) by lia.
      do 2 f_equal; [f_equal|]; lia.
    + rewrite Z.div_small, Z.mod_small by lia. do 2 f_equal; [f_equal|]; lia.
  - set (p := 2 ^ Z.of_nat k) in *. assert (Hp : 0 < p) by (apply Z.pow_pos_nonneg; lia).
    assert (E1 : 2 ^ Z.of_nat (S k) = 2 * p)
      by (unfold p; rewrite Nat2Z.inj_succ, Z.pow_succ_r by lia; done).
    assert (E2 : 2 ^ (Z.of_nat (S k) + 1) = 4 * p)
      by (rewrite Z.pow_add_r, E1 by lia; lia).
    assert (E3 : 2 ^ (Z.of_nat k + 1) = 2 * p) by (rewrite Z.pow_add_r by lia; fold p; lia).
    rewrite E1, E2 in *. rewrite !shiftr_div by lia. change (2 ^ 1) with 2.
    replace (d * (2 * p) / 2) with (d * p) by (replace (d * (2 * p)) with (d * p * 2) by lia; by rewrite Z.div_mul).
    replace (2 * p / 2) with p by (rewrite Z.mul_comm; by rewrite Z.div_mul).
    rewrite (proj2 (Z.eqb_neq p 0)) by lia. rewrite E3 in IH.
    assert (Hm2 : q mod (2 * p) = 0).
    { apply Z.mod_divide; [lia|]. apply Z.mod_divide in Hm; [|lia]. destruct Hm as [z ->]. exists (z * 2). lia. }
    destruct (Z.leb_spec (d * (2 * p)) dividend) as [H1|H1]; cbv iota beta.
    + assert (Hl : Z.lor q (2 * p) = q + 2 * p).
      { rewrite Z.lor_comm, (lor_add (2 * p) q (Z.of_nat k + 2)); [lia|lia| |].
        - rewrite Z.pow_add_r by lia. fold p. lia.
        - replace (2 ^ (Z.of_nat k + 2)) with (4 * p) by (rewrite Z.pow_add_r by lia; fold p; lia). done. }
      rewrite Hl, IH; [|nia|lia| |lia].
      2: { rewrite Z.add_mod, Hm2, Z.mod_same by lia. done. }
      replace dividend with (dividend - d * (2 * p) + 2 * p * d) at 3 4 by lia.
      rewrite Z.div_add, Z.mod_add by lia. f_equal. f_equal; [f_equal|]; lia.
    + rewrite IH; [|nia|lia|done|lia]. f_equal. f_equal. lia.
Qed.

(** Both loops together on the magnitudes. *)
Lemma magnitudes_divide n d :
  0 <= n < 2 ^ 32 -> 0 < d < 2 ^ 32 ->
  exists c, ('(divisor, order, cycles) ← normalize 32 n d 1 3;
             '(result, dividend, cycles) ← divide 32 n divisor order 0 cycles;
             Some (result, dividend, cycles)) = Some (n / d, n mod d, c) /\ c <= 66.
Proof.
  intros Hn Hd. destruct (normalize_correct 32 n d 0 3) as (k & E & Hk & Hb & Hlt); [lia..|].
  change (2 ^ 0) with 1 in E. rewrite Z.mul_1_r in E. rewrite E. cbn [mbind option_bind].
  rewrite <- (Z2Nat.id k) in Hlt |- * by lia.
  rewrite divide_correct; [|split; [lia|done]|lia|lia|done|lia]. eexists. split; [done|]. lia.
Qed.
End div.

(** The absolute value of a 32-bit pattern. *)
Lemma signed_magnitude x :
  0 <= x < 2 ^ 32 -> getMagnitude true x = Z.abs (s32 x) /\ belowZero true x = (s32 x <? 0).
Proof.
  intros Hx. unfold getMagnitude. rewrite sign_bit_free by done. split; [|done].
  unfold sgn. rewrite (wrap_small 32 x) by done. change (32 - 1) with 31.
  destruct (Z.ltb_spec x (2 ^ 31)); cbn [negb]; [lia|]. rewrite w32_small; lia.
Qed.

Lemma s32_nonzero x : 0 < x < 2 ^ 32 -> s32 x <> 0 /\ Z.abs (s32 x) < 2 ^ 32.
Proof.
  intros Hx. unfold sgn. rewrite (wrap_small 32) by lia. change (32 - 1) with 31. case_Z; lia.
Qed.

(** Truncated division from the magnitudes. *)
Lemma quot_magnitudes a b :
  b <> 0 ->
  Z.quot a b = if Bool.eqb (a <? 0) (b <? 0) then Z.abs a / Z.abs b else - (Z.abs a / Z.abs b).
Proof.
  intros Hb. rewrite <- (Z.quot_div_nonneg (Z.abs a) (Z.abs b)) by lia.
  destruct (Z.ltb_spec a 0), (Z.ltb_spec b 0); cbn [Bool.eqb].
  - rewrite !Z.abs_neq by lia. by rewrite Z.quot_opp_opp.
  - rewrite (Z.abs_neq a), (Z.abs_eq b) by lia. rewrite Z.quot_opp_l by done. lia.
  - rewrite (Z.abs_eq a), (Z.abs_neq b) by lia. rewrite Z.quot_opp_r by done. lia.
  - by rewrite !Z.abs_eq by lia.
Qed.

Lemma stepdiv_unsigned a b :
  0 <= a < 2 ^ 32 -> 0 < b < 2 ^ 32 ->
  exists c, stepdiv false a b = Some (a / b, a mod b, c) /\ c <= 67.
Proof.
  intros Ha Hb. unfold stepdiv. rewrite (proj2 (Z.eqb_neq b 0)) by lia. cbn [andb belowZero Bool.eqb negb].
  unfold getMagnitude. destruct (magnitudes_divide a b) as (c & E & Hc); [done|lia|].
  exists (c + 1). split; [|lia].
  destruct (normalize 32 a b 1 3) as [[[dv od] cy]|]; [|done]. cbn [mbind option_bind] in *.
  destruct (divide 32 a dv od 0 cy) as [[[r m] cy']|]; [|done]. cbn [mbind option_bind] in *. congruence.
Qed.

Lemma stepdiv_signed a b :
  0 <= a < 2 ^ 32 -> 0 < b < 2 ^ 32 -> ~ (a = 2 ^ 31 /\ b = 0xffffffff) ->
  exists c, stepdiv true a b =
    Some (w32 (Z.quot (s32 a) (s32 b)), Z.abs (s32 a) mod Z.abs (s32 b), c) /\ c <= 67.
Proof.
  intros Ha Hb Hov. unfold stepdiv. rewrite (proj2 (Z.eqb_neq b 0)) by lia. cbn [andb].
  assert (Hov' : (b =? 0xffffffff) && (a =? kSignBit) = false).
  { unfold kSignBit. destruct (Z.eqb_spec b 0xffffffff), (Z.eqb_spec a (2 ^ 31)); try done. exfalso. by apply Hov. }
  rewrite Hov'. destruct (signed_magnitude a Ha) as [-> ->], (signed_magnitude b) as [-> ->]; [lia|].
  destruct (s32_nonzero b Hb) as [Hb0 Hb1].
  assert (Ha1 : Z.abs (s32 a) < 2 ^ 32).
  { destruct (Z.eq_dec a 0) as [->|]; [done|]. apply s32_nonzero. lia. }
  destruct (magnitudes_divide (Z.abs (s32 a)) (Z.abs (s32 b))) as (c & E & Hc); [lia|lia|].
  exists (c + 1). split; [|lia].
  destruct (normalize 32 _ _ 1 3) as [[[dv od] cy]|]; [|done]. cbn [mbind option_bind] in *.
  destruct (divide 32 _ dv od 0 cy) as [[[r m] cy']|]; [|done]. cbn [mbind option_bind] in *.
  injection E as -> -> ->. rewrite quot_magnitudes by done.
  destruct (Bool.eqb _ _); cbn [negb]; [|done]. rewrite w32_small; [done|].
  assert (Z.abs (s32 a) / Z.abs (s32 b) <= Z.abs (s32 a)) by (apply Z.div_le_upper_bound; nia).
  pose proof (Z.div_pos (Z.abs (s32 a)) (Z.abs (s32 b))). lia.
Qed.

(** The divider model is total and its quotient is right: for every pair
    of 32-bit operands, signed and unsigned, the self-check against C++
    division succeeds, division by zero and the signed overflow included; so a
    test run counts no error, whatever operands it draws. *)
Theorem testbench_no_errors isSigned ops :
  Forall (fun '(a, b) => 0 <= a < 2 ^ 32 /\ 0 <= b < 2 ^ 32) ops ->
  runTestbench isSigned ops 0 = Some 0.
Proof.
  assert (Hc : forall a b, 0 <= a < 2 ^ 32 -> 0 <= b < 2 ^ 32 -> check isSigned a b = Some true).
  { intros a b Ha Hb. unfold check, reference. destruct (Z.eq_dec b 0) as [->|Hb0].
    { unfold stepdiv. cbn [Z.eqb mbind option_bind]. rewrite andb_false_r.
      destruct isSigned; done. }
    destruct isSigned.
    - destruct (decide (a = 2 ^ 31 /\ b = 0xffffffff)) as [[-> ->]|Hov]; [reflexivity|].
      destruct (stepdiv_signed a b) as (c & -> & _); [done|lia|done|]. cbn [mbind option_bind].
      rewrite (proj2 (Z.eqb_neq b 0)) by done. unfold kSignBit.
      destruct (Z.eqb_spec a (2 ^ 31)), (Z.eqb_spec b 0xffffffff); cbn [andb]; try (by rewrite Z.eqb_refl).
      exfalso. by apply Hov.
    - destruct (stepdiv_unsigned a b) as (c & -> & _); [done|lia|]. cbn [mbind option_bind].
      rewrite (proj2 (Z.eqb_neq b 0)) by done. by rewrite Z.eqb_refl. }
  intros Hall. induction Hall as [|[a b] r [Ha Hb] _ IH]; cbn [runTestbench]; [done|].
  rewrite (Hc a b Ha Hb). cbn [mbind option_bind]. done.
Qed.

Lemma testbench_no_errors_witness :
  runTestbench true [(0x80000000, 0xffffffff); (7, 0); (0xfffffff9, 2)] 0 = Some 0.
Proof.
  apply (testbench_no_errors true [(0x80000000, 0xffffffff); (7, 0); (0xfffffff9, 2)]).
  repeat constructor; lia.
Defined.

(** C40: the quotient, remainder and latency of the model: the quotient
    truncates, the remainder is the one of the magnitudes, and no division
    takes more than 67 cycles.  For a negative dividend that does not divide
    evenly the remainder therefore has the wrong sign for the RISC-V [rem]
    instruction; the self-check does not look at it. *)
Theorem stepdiv_correct a b :
  0 <= a < 2 ^ 32 -> 0 < b < 2 ^ 32 -> ~ (a = 2 ^ 31 /\ b = 0xffffffff) ->
  (exists c, stepdiv false a b = Some (a / b, a mod b, c) /\ c <= 67) /\
  (exists c, stepdiv true a b =
     Some (w32 (Z.quot (s32 a) (s32 b)), Z.abs (s32 a) mod Z.abs (s32 b), c) /\ c <= 67) /\
  (s32 a < 0 -> Z.rem (s32 a) (s32 b) = - (Z.abs (s32 a) mod Z.abs (s32 b))).
Proof.
  intros Ha Hb Hov. split; [by apply stepdiv_unsigned|]. split; [by apply stepdiv_signed|].
  intros Hneg. destruct (s32_nonzero b Hb) as [Hb0 _].
  rewrite <- (Z.rem_mod_nonneg (Z.abs (s32 a)) (Z.abs (s32 b))) by lia.
  rewrite (Z.abs_neq (s32 a)) by lia. rewrite Z.rem_opp_l by lia.
  destruct (Z.abs_spec (s32 b)) as [[_ ->]|[_ ->]]; [lia|]. rewrite Z.rem_opp_r by done. lia.
Qed.

Lemma stepdiv_correct_witness :
  (exists c, stepdiv false 0xfffffff9 2 = Some (0x7ffffffc, 1, c) /\ c <= 67) /\
  (exists c, stepdiv true 0xfffffff9 2 = Some (0xfffffffd, 1, c) /\ c <= 67) /\
  (s32 0xfffffff9 < 0 -> Z.rem (s32 0xfffffff9) (s32 2) = - 1).
Proof. apply (stepdiv_correct 0xfffffff9 2); [lia|lia|lia]. Defined.

End Div.
