(* ===== verification/Fetch.v ===== *)
(** * The fetch state machine (models/c_ext/main.cpp)

    The C++ model of instruction fetch with 16- and 32-bit instructions: a
    state machine that reads whole words and reuses the upper half.  It is
    compared with the obvious reading of the memory as a sequence of 16-bit
    parcels. *)

From S2P Require Import Prelude.

Module Fetch.

Inductive en_state := prefetch | fetch_word | fetch_more | decode32 | decode16 | exec.

Record CpuContext := Cpu {
  pc_ : Z;
  next_pc_ : Z;
  decode_slot_ : Z;
  parcel_low_ : Z;
  parcel_high_ : Z;
  fetched_data_ : Z;
  reuse_high_ : bool;
  state_ : en_state
}.

Definition t_mem := list Z.

(** [mem.at], which throws outside the vector. *)
Definition at_ (mem : t_mem) (i : Z) : option Z := if i <? 0 then None else mem !! Z.to_nat i.

Definition mem_size (mem : t_mem) : Z := Z.of_nat (length mem).

Definition _do_decode32 (c : CpuContext) : CpuContext :=
  Cpu (pc_ c) (w32 (pc_ c + 1)) (decode_slot_ c) (parcel_low_ c) (parcel_high_ c)
    (fetched_data_ c) (reuse_high_ c) exec.

Definition _do_decode16 (c : CpuContext) : CpuContext :=
  Cpu (pc_ c) (next_pc_ c) (decode_slot_ c) (parcel_low_ c) (parcel_high_ c)
    (fetched_data_ c) (reuse_high_ c) exec.

Definition _do_fetch (mem : t_mem) (c : CpuContext) : option CpuContext :=
  data ← at_ mem (pc_ c);
  let low := Z.land data 0xffff in
  let high := w16 (Z.shiftr data 16) in
  Some (if low =? 0x3
        then Cpu (pc_ c) (next_pc_ c) data low high data false decode32
        else Cpu (pc_ c) (next_pc_ c) low low high data true decode16).

Definition _do_more (mem : t_mem) (c : CpuContext) : option CpuContext :=
  data ← at_ mem (next_pc_ c);
  let slot := Z.lor (parcel_high_ c) (w32 (Z.shiftl (Z.land data 0xffff) 16)) in
  Some (Cpu (pc_ c) (next_pc_ c) slot (parcel_low_ c) (w16 (Z.shiftr data 16)) data true decode32).

Definition _do_exec (c : CpuContext) : CpuContext :=
  Cpu (pc_ c) (next_pc_ c) (decode_slot_ c) (parcel_low_ c) (parcel_high_ c)
    (fetched_data_ c) (reuse_high_ c) prefetch.

Definition _do_prefetch (c : CpuContext) : CpuContext :=
  let pc := next_pc_ c in
  if reuse_high_ c && (parcel_high_ c =? 0x3) then
    Cpu pc (w32 (pc + 1)) (decode_slot_ c) (parcel_low_ c) (parcel_high_ c) (fetched_data_ c)
      false fetch_more
  else if reuse_high_ c then
    Cpu pc (w32 (pc + 1)) (parcel_high_ c) (parcel_low_ c) (parcel_high_ c) (fetched_data_ c)
      false decode16
  else
    Cpu pc (next_pc_ c) (decode_slot_ c) (parcel_low_ c) (parcel_high_ c) (fetched_data_ c)
      (reuse_high_ c) fetch_word.

(** A tick goes on, stops the machine at the end of the memory, or throws. *)
Inductive tick_result := Running (c : CpuContext) | Stopped | Thrown.

Definition of_option (r : option CpuContext) : tick_result :=
  match r with Some c => Running c | None => Thrown end.

Definition exec_tick (mem : t_mem) (c : CpuContext) : tick_result :=
  match state_ c with
  | fetch_word => if mem_size mem <=? pc_ c then Stopped else of_option (_do_fetch mem c)
  | fetch_more => of_option (_do_more mem c)
  | exec => Running (_do_exec c)
  | prefetch => Running (_do_prefetch c)
  | decode16 => Running (_do_decode16 c)
  | decode32 => Running (_do_decode32 c)
  end.

(** The machine as [main] starts it; the fields without initialiser are
    arbitrary. *)
Definition start (slot low high data : Z) : CpuContext :=
  Cpu 0 0 slot low high data false fetch_word.

(** The loop of [main], with the instructions that reach [exec] in order and
    the way it ends. *)
Inductive ending := Finished | Threw | Aborted.

Fixpoint run (fuel : nat) (mem : t_mem) (c : CpuContext) : list Z * ending :=
  match fuel with
  | O => ([], Aborted)
  | S n =>
      match exec_tick mem c with
      | Stopped => ([], Finished)
      | Thrown => ([], Threw)
      | Running c' =>
          let r := run n mem c' in
          (if state_ c is exec then decode_slot_ c :: r.1 else r.1, r.2)
      end
  end.

(** ** The reference: memory as parcels *)

Fixpoint parcels (mem : t_mem) : list Z :=
  match mem with
  | [] => []
  | w :: r => w mod 2 ^ 16 :: w / 2 ^ 16 :: parcels r
  end.

(** A parcel 3 starts a 32-bit instruction, which a truncated memory cuts
    short. *)
Fixpoint instructions (ps : list Z) : list Z * ending :=
  match ps with
  | [] => ([], Finished)
  | p :: r =>
      if p =? 3 then
        match r with
        | [] => ([], Threw)
        | q :: r' => let '(l, e) := instructions r' in (p + q * 2 ^ 16 :: l, e)
        end
      else let '(l, e) := instructions r in (p :: l, e)
  end.

Definition word_ok (w : Z) : Prop := 0 <= w < 2 ^ 32.

(** ** Simulation *)

(** The machine is about to read the word [k]. *)
Definition at_word (c : CpuContext) (k : Z) : Prop :=
  state_ c = fetch_word /\ pc_ c = k /\ next_pc_ c = k.

(** The lower half of word [k] has been dealt with; its upper half waits. *)
Definition at_half (c : CpuContext) (k h : Z) : Prop :=
  state_ c = prefetch /\ next_pc_ c = k /\ reuse_high_ c = true /\ parcel_high_ c = h.

Lemma low_half w : word_ok w -> Z.land w 0xffff = w mod 2 ^ 16.
Proof. intros. apply (land_mask w 16). lia. Qed.

Lemma high_half w : word_ok w -> w16 (Z.shiftr w 16) = w / 2 ^ 16.
Proof. intros Hw. unfold word_ok in Hw. rewrite shiftr_div by lia. apply wrap_small. zlia. Qed.

Lemma at_mem (mem : t_mem) k w : mem !! k = Some w -> at_ mem (Z.of_nat k) = Some w.
Proof. intros H. unfold at_. rewrite (proj2 (Z.ltb_ge _ _)) by lia. by rewrite Nat2Z.id. Qed.

Lemma run_tick n mem c c' :
  exec_tick mem c = Running c' ->
  run (S n) mem c = (if state_ c is exec then decode_slot_ c :: (run n mem c').1 else (run n mem c').1,
                     (run n mem c').2).
Proof. intros H. cbn [run]. by rewrite H. Qed.

(** A tick in another state than [exec] adds nothing. *)
Lemma run_silent n mem c c' :
  exec_tick mem c = Running c' -> state_ c <> exec -> run (S n) mem c = run n mem c'.
Proof.
  intros H Hs. rewrite (run_tick _ _ _ _ H). destruct (run n mem c'). by destruct (state_ c).
Qed.

Lemma run_exec n mem c c' :
  exec_tick mem c = Running c' -> state_ c = exec ->
  run (S n) mem c = (decode_slot_ c :: (run n mem c').1, (run n mem c').2).
Proof. intros H Hs. rewrite (run_tick _ _ _ _ H). by rewrite Hs. Qed.

Ltac silent := erewrite run_silent; [|reflexivity|discriminate].
Ltac executed := erewrite run_exec; [|reflexivity|reflexivity].

(** Reading word [k]. *)
Lemma fetch_tick mem c (k : nat) w :
  at_word c (Z.of_nat k) -> mem !! k = Some w -> word_ok w ->
  exec_tick mem c = Running
    (if w mod 2 ^ 16 =? 3
     then Cpu (Z.of_nat k) (Z.of_nat k) w (w mod 2 ^ 16) (w / 2 ^ 16) w false decode32
     else Cpu (Z.of_nat k) (Z.of_nat k) (w mod 2 ^ 16) (w mod 2 ^ 16) (w / 2 ^ 16) w true decode16).
Proof.
  intros (Hst & Hpc & Hnx) Hm Hw. pose proof (lookup_lt_Some _ _ _ Hm) as Hk.
  unfold exec_tick, mem_size, _do_fetch. rewrite Hst, Hpc, Hnx, (proj2 (Z.leb_gt _ _)) by lia.
  rewrite (at_mem _ _ _ Hm). cbn [mbind option_bind]. by rewrite low_half, high_half.
Qed.

Section simulation.
Context (mem : t_mem) (Hmem : Forall word_ok mem) (Hsize : mem_size mem < 2 ^ 32 - 1).

Lemma next_pc (k : nat) w : mem !! k = Some w -> w32 (Z.of_nat k + 1) = Z.of_nat (S k).
Proof.
  intros Hm. pose proof (lookup_lt_Some _ _ _ Hm). unfold mem_size in Hsize.
  rewrite w32_small; lia.
Qed.

(** From the start of a word: a 32-bit instruction leads to the next word, a
    16-bit one to the other half. *)
Lemma word_step n c (k : nat) w :
  at_word c (Z.of_nat k) -> mem !! k = Some w ->
  if w mod 2 ^ 16 =? 3 then
    exists c', at_word c' (Z.of_nat (S k)) /\
      run (4 + n) mem c = (w :: (run n mem c').1, (run n mem c').2)
  else
    exists c', at_half c' (Z.of_nat k) (w / 2 ^ 16) /\
      run (3 + n) mem c = (w mod 2 ^ 16 :: (run n mem c').1, (run n mem c').2).
Proof.
  intros Hc Hm. pose proof (Forall_lookup_1 _ _ _ _ Hmem Hm) as Hw.
  pose proof (fetch_tick mem c k w Hc Hm Hw) as Ht. destruct Hc as (Hst & _).
  assert (Hne : state_ c <> exec) by (by rewrite Hst). destruct (w mod 2 ^ 16 =? 3).
  - eexists. split; [|simpl plus; rewrite (run_silent _ _ _ _ Ht Hne); silent; executed; silent; reflexivity].
    split; [done|]. cbn. by rewrite (next_pc k w Hm).
  - eexists. split; [|simpl plus; rewrite (run_silent _ _ _ _ Ht Hne); silent; executed; reflexivity].
    done.
Qed.

(** From the upper half of word [k]: a 16-bit instruction leads to the next
    word; a 32-bit one takes the lower half of the next word. *)
Lemma half_step16 n c (k : nat) h :
  at_half c (Z.of_nat k) h -> (exists w, mem !! k = Some w) -> h <> 3 ->
  exists c', at_word c' (Z.of_nat (S k)) /\
    run (4 + n) mem c = (h :: (run n mem c').1, (run n mem c').2).
Proof.
  destruct c as [pc nx sl lo hi fd re st]. intros (Hst & Hnx & Hre & Hhi) [w Hm] H3.
  cbn in Hst, Hnx, Hre, Hhi. subst st nx re hi.
  assert (Ht : exec_tick mem (Cpu pc (Z.of_nat k) sl lo h fd true prefetch) = Running
    (Cpu (Z.of_nat k) (w32 (Z.of_nat k + 1)) h lo h fd false decode16)).
  { unfold exec_tick, _do_prefetch. cbn. by rewrite (proj2 (Z.eqb_neq h 3)). }
  eexists. split; [|simpl plus; erewrite run_silent; [|exact Ht|done]; silent; executed; silent; reflexivity].
  split; [done|]. cbn. by rewrite (next_pc k w Hm).
Qed.

Lemma half_step32 n c (k : nat) w' :
  at_half c (Z.of_nat k) 3 -> mem !! S k = Some w' ->
  exists c', at_half c' (Z.of_nat (S k)) (w' / 2 ^ 16) /\
    run (4 + n) mem c = (3 + w' mod 2 ^ 16 * 2 ^ 16 :: (run n mem c').1, (run n mem c').2).
Proof.
  destruct c as [pc nx sl lo hi fd re st]. intros (Hst & Hnx & Hre & Hhi) Hm.
  cbn in Hst, Hnx, Hre, Hhi. subst st nx re hi. pose proof (Forall_lookup_1 _ _ _ _ Hmem Hm) as Hw.
  pose proof (lookup_lt_Some _ _ _ Hm). unfold mem_size in Hsize.
  assert (Hk : w32 (Z.of_nat k + 1) = Z.of_nat (S k)) by (rewrite w32_small; lia).
  assert (Ht : exec_tick mem (Cpu (Z.of_nat k) (Z.of_nat (S k)) sl lo 3 fd false fetch_more) = Running
    (Cpu (Z.of_nat k) (Z.of_nat (S k)) (3 + w' mod 2 ^ 16 * 2 ^ 16) lo (w' / 2 ^ 16) w' true decode32)).
  { unfold exec_tick, _do_more. cbn [state_ next_pc_]. rewrite (at_mem _ _ _ Hm).
    cbn [mbind option_bind of_option pc_ parcel_high_]. rewrite low_half, high_half by done.
    rewrite shiftl_mul, w32_small by (unfold word_ok in Hw; zlia).
    rewrite (lor_add 3 _ 16) by (lia || apply Z_mod_mult). done. }
  assert (Ht0 : exec_tick mem (Cpu pc (Z.of_nat k) sl lo 3 fd true prefetch) = Running
    (Cpu (Z.of_nat k) (Z.of_nat (S k)) sl lo 3 fd false fetch_more)).
  { unfold exec_tick, _do_prefetch. cbn. by rewrite Hk. }
  eexists. split; [|simpl plus; erewrite run_silent; [|exact Ht0|done]; erewrite run_silent; [|exact Ht|done];
    silent; executed; reflexivity].
  split; [done|]. cbn. by rewrite Hk.
Qed.

Lemma word_split w : word_ok w -> w mod 2 ^ 16 + w / 2 ^ 16 * 2 ^ 16 = w.
Proof. intros _. zlia. Qed.

(** What the machine does from a word and from a half word, when [rest] is
    the memory after it. *)
Definition from_word (m : nat) : Prop := forall c k fuel rest,
  drop k mem = rest -> length rest = m -> at_word c (Z.of_nat k) -> (8 * m < fuel)%nat ->
  run fuel mem c = instructions (parcels rest).

Definition from_half (m : nat) : Prop := forall c k h fuel rest,
  (k < length mem)%nat -> drop (S k) mem = rest -> length rest = m -> at_half c (Z.of_nat k) h ->
  (8 * m + 4 < fuel)%nat -> run fuel mem c = instructions (h :: parcels rest).

Lemma drop_head {A} (l : list A) k x r : drop k l = x :: r -> l !! k = Some x /\ drop (S k) l = r.
Proof.
  intros H. split.
  - by rewrite <- (Nat.add_0_r k), <- lookup_drop, H.
  - change (S k) with (1 + k)%nat. by rewrite Nat.add_comm, <- drop_drop, H.
Qed.

Lemma word_case m : (forall m', m = S m' -> from_word m' /\ from_half m') -> from_word m.
Proof.
  intros IH c k fuel rest Hd Hl Hc Hf. destruct rest as [|w r]; cbn [length] in Hl; subst m.
  - destruct fuel as [|f]; [lia|]. cbn [run parcels instructions]. destruct Hc as (Hst & Hpc & _).
    unfold exec_tick. rewrite Hst, Hpc, (proj2 (Z.leb_le _ _)); [done|].
    apply (f_equal (@Datatypes.length Z)) in Hd. rewrite length_drop in Hd. cbn in Hd. unfold mem_size. lia.
  - destruct (IH _ eq_refl) as [IHw IHh]. destruct (drop_head _ _ _ _ Hd) as [Hm Hr].
    cbn [parcels instructions]. pose proof (Forall_lookup_1 _ _ _ _ Hmem Hm) as Hw.
    pose proof (fun n => word_step n c k w Hc Hm) as Hstep. destruct (Z.eqb_spec (w mod 2 ^ 16) 3) as [E|E].
    + destruct (Hstep (fuel - 4)%nat) as (c' & Hc' & Hrun).
      replace (4 + (fuel - 4))%nat with fuel in Hrun by lia.
      rewrite Hrun, (IHw c' (S k) _ r) by (done || lia). rewrite word_split by done.
      by destruct (instructions (parcels r)).
    + destruct (Hstep (fuel - 3)%nat) as (c' & Hc' & Hrun).
      replace (3 + (fuel - 3))%nat with fuel in Hrun by lia.
      pose proof (lookup_lt_Some _ _ _ Hm). rewrite Hrun, (IHh c' k (w / 2 ^ 16) _ r) by (done || lia).
      cbn [instructions]. by destruct (if w / 2 ^ 16 =? 3 then _ else _).
Qed.

Lemma half_case m : from_word m -> (forall m', m = S m' -> from_half m') -> from_half m.
Proof.
  intros Hw IH c k h fuel rest Hk Hd Hl Hc Hf. cbn [instructions].
  destruct (lookup_lt_is_Some_2 mem k Hk) as [wk Hmk]. destruct (Z.eqb_spec h 3) as [->|Hne].
  - destruct rest as [|w r]; cbn [length] in Hl; subst m; cbn [parcels].
    + assert (Hnone : mem !! S k = None).
      { apply lookup_ge_None_2. apply (f_equal (@Datatypes.length Z)) in Hd.
        rewrite length_drop in Hd. cbn in Hd. lia. }
      destruct fuel as [|[|f]]; [lia|lia|]. destruct c as [pc nx sl lo hi fd re st].
      destruct Hc as (Hst & Hnx & Hre & Hhi). cbn in Hst, Hnx, Hre, Hhi. subst st nx re hi. silent.
      cbn [run]. unfold exec_tick, _do_more, at_. cbn [state_ next_pc_ _do_prefetch reuse_high_ parcel_high_ andb Z.eqb Pos.eqb].
      rewrite (next_pc k wk Hmk), (proj2 (Z.ltb_ge _ _)), Nat2Z.id by lia.
      by rewrite Hnone.
    + destruct (drop_head _ _ _ _ Hd) as [Hm Hr].
      destruct (half_step32 (fuel - 4) c k w Hc Hm) as (c' & Hc' & Hrun).
      replace (4 + (fuel - 4))%nat with fuel in Hrun by lia. pose proof (lookup_lt_Some _ _ _ Hm).
      rewrite Hrun, (IH _ eq_refl c' (S k) (w / 2 ^ 16) _ r) by (done || lia).
      cbn [instructions]. by destruct (if w / 2 ^ 16 =? 3 then _ else _).
  - destruct (half_step16 (fuel - 4) c k h Hc ltac:(by exists wk) Hne) as (c' & Hc' & Hrun).
    replace (4 + (fuel - 4))%nat with fuel in Hrun by lia.
    rewrite Hrun, (Hw c' (S k) _ rest) by (done || lia). by destruct (instructions (parcels rest)).
Qed.

Lemma fetch_simulation m : from_word m /\ from_half m.
Proof.
  induction m as [|m [IHw IHh]].
  - assert (H : from_word 0) by (apply word_case; lia). split; [done|]. apply half_case; [done|lia].
  - assert (H : from_word (S m)) by (apply word_case; intros m' [= <-]; done).
    split; [done|]. apply half_case; [done|]. by intros m' [= <-].
Qed.
End simulation.

(** C39: whatever words are in memory, the fetch machine executes exactly the
    instructions the sequence of 16-bit parcels spells, in order, across word
    boundaries and with no parcel read twice; it stops at the end of the
    memory, or throws when the memory ends in the middle of a 32-bit
    instruction; it never needs more than eight ticks per word. *)
Theorem fetch_correct mem fuel slot low high data :
  Forall word_ok mem -> mem_size mem < 2 ^ 32 - 1 -> (8 * length mem < fuel)%nat ->
  run fuel mem (start slot low high data) = instructions (parcels mem).
Proof.
  intros Hm Hs Hf. destruct (fetch_simulation mem Hm Hs (length mem)) as [H _].
  apply (H _ 0%nat fuel mem); done.
Qed.

(** The memory of [main]. *)
Definition main_memory : t_mem :=
  [0x00000003; 0x00020011; 0x00030001; 0x00000001; 0x00000002; 0x00000000; 0x00000001; 0x00000000;
   0x00000003; 0x00000001; 0x00000003; 0x00000001; 0x00000003; 0x00030001; 0x00000001].

Lemma fetch_correct_witness :
  run 121 main_memory (start 0 0 0 0) =
  ([3; 0x11; 2; 1; 0x10003; 0; 2; 0; 0; 0; 1; 0; 0; 0; 3; 1; 0; 3; 1; 0; 3; 1; 0x10003; 0], Finished).
Proof.
  apply (fetch_correct main_memory 121 0 0 0 0).
  - repeat constructor; unfold word_ok; lia.
  - reflexivity.
  - simpl. lia.
Defined.

End Fetch.
