(* ===== verification/SocSim.v ===== *)
(** * The simulation wrapper (bench/rtl/libsim/soc.cpp, soc.h)

    [RV_SOC] drives the Verilated model of the SoC.  The model itself is
    generated code: it is the parameter [V] with the operations of the class
    [Vsoc] (its pins, [eval], and the DPI functions the wrapper calls); what
    the wrapper relies on is the class [VsocLaws].  RtlTop is the instance
    built from the Verilog sources.  The VCD trace is output only and left
    out. *)

From S2P Require Import Prelude.

Module SocSim.

(** The pins the wrapper drives. *)
Record inputs := Inputs {
  clk_i : Z; rst_i : Z; cpu_rst_i : Z; bus_master_selector_i : Z;
  ext_tran_addr_i : Z; ext_tran_data_i : Z; ext_tran_size_i : Z;
  ext_tran_write_i : Z; ext_tran_start_i : Z; ext_tran_clear_i : Z
}.

Class Vsoc (V : Type) := {
  eval : inputs -> V -> V;
  cpu_get_state : V -> Z;
  FETCH : Z;
  ext_tran_ready_o : V -> bool;
  ext_tran_data_o : V -> Z;
  ram_get_size : V -> Z;
  ram_write_word : Z -> Z -> V -> V;
  ram_read_word : Z -> V -> Z;
  regfile_get_size : V -> Z;
  regfile_write_word : Z -> Z -> V -> V;
  regfile_read_word : Z -> V -> Z;
  vpc : V -> Z;
  set_vpc : Z -> V -> V;
  cpu_valid_pc : V -> Z;
  get_test_finished : V -> Z;
  cpu_get_instruction_exec_count : V -> Z
}.

(** The DPI memories hold the words that are written to them, and keep their
    size. *)
Class VsocLaws (V : Type) `{Vsoc V} := {
  ram_read_write i j v s : 0 <= 4 * j < ram_get_size s -> u32_range v ->
    ram_read_word i (ram_write_word j v s) = if i =? j then v else ram_read_word i s;
  ram_size_write j v s : ram_get_size (ram_write_word j v s) = ram_get_size s;
  regfile_read_write i j v s : 0 <= j < regfile_get_size s -> u32_range v ->
    regfile_read_word i (regfile_write_word j v s) = if i =? j then v else regfile_read_word i s
}.

Section soc.
Context {V : Type} `{Vsoc V}.

Definition wordSize : Z := 4.
Definition MASTER_CPU : Z := 0.
Definition MASTER_EXT : Z := 1.
Definition EXT_ACCESS_WORD : Z := 2.

Record RV_SOC := Soc {
  m_soc : V;
  pins : inputs;
  m_tickCnt : Z;
  m_fetchCnt : Z;
  m_ramSize : Z;
  m_regFileSize : Z
}.

(** A call returns, throws [std::out_of_range], fails an assertion, or has
    not ended within the fuel. *)
Inductive result (A : Type) := Val (a : A) (s : RV_SOC) | OutOfRange | AssertFailed | Running.
Arguments Val {A}. Arguments OutOfRange {A}. Arguments AssertFailed {A}. Arguments Running {A}.

Definition on_model (f : V -> V) (s : RV_SOC) : RV_SOC :=
  Soc (f (m_soc s)) (pins s) (m_tickCnt s) (m_fetchCnt s) (m_ramSize s) (m_regFileSize s).
Definition set_pins (p : inputs) (s : RV_SOC) : RV_SOC :=
  Soc (m_soc s) p (m_tickCnt s) (m_fetchCnt s) (m_ramSize s) (m_regFileSize s).

Definition with_clk (c : Z) (p : inputs) : inputs :=
  Inputs c (rst_i p) (cpu_rst_i p) (bus_master_selector_i p) (ext_tran_addr_i p) (ext_tran_data_i p)
    (ext_tran_size_i p) (ext_tran_write_i p) (ext_tran_start_i p) (ext_tran_clear_i p).
Definition with_rst (r c : Z) (p : inputs) : inputs :=
  Inputs (clk_i p) r c (bus_master_selector_i p) (ext_tran_addr_i p) (ext_tran_data_i p)
    (ext_tran_size_i p) (ext_tran_write_i p) (ext_tran_start_i p) (ext_tran_clear_i p).
Definition with_master (m : Z) (p : inputs) : inputs :=
  Inputs (clk_i p) (rst_i p) (cpu_rst_i p) m (ext_tran_addr_i p) (ext_tran_data_i p)
    (ext_tran_size_i p) (ext_tran_write_i p) (ext_tran_start_i p) (ext_tran_clear_i p).
Definition with_tran (addr data size write start : Z) (p : inputs) : inputs :=
  Inputs (clk_i p) (rst_i p) (cpu_rst_i p) (bus_master_selector_i p) addr data size write start
    (ext_tran_clear_i p).
Definition with_idle (p : inputs) : inputs :=
  with_tran (ext_tran_addr_i p) (ext_tran_data_i p) (ext_tran_size_i p) 0 0 p.
Definition with_clear (c : Z) (p : inputs) : inputs :=
  Inputs (clk_i p) (rst_i p) (cpu_rst_i p) (bus_master_selector_i p) (ext_tran_addr_i p)
    (ext_tran_data_i p) (ext_tran_size_i p) (ext_tran_write_i p) (ext_tran_start_i p) c.

(** [m_soc->clk_i = c; m_soc->eval(); m_tickCnt++] *)
Definition edge (c : Z) (s : RV_SOC) : RV_SOC :=
  let p := with_clk c (pins s) in
  Soc (eval p (m_soc s)) p (w64 (m_tickCnt s + 1)) (m_fetchCnt s) (m_ramSize s) (m_regFileSize s).

Definition cpu_state (s : RV_SOC) : Z := cpu_get_state (m_soc s).

Definition full_cycle (s : RV_SOC) : RV_SOC :=
  let state_before := cpu_state s in
  let s := edge 0 (edge 1 s) in
  let state_after := cpu_state s in
  if negb (state_before =? state_after) && (state_after =? FETCH)
  then Soc (m_soc s) (pins s) (m_tickCnt s) (w64 (m_fetchCnt s + 1)) (m_ramSize s) (m_regFileSize s)
  else s.

(** The very first step is the low half of the clock only, and leaves the
    loop. *)
Fixpoint tick (num : nat) (s : RV_SOC) : RV_SOC :=
  match num with
  | O => s
  | S n => if m_tickCnt s =? 0 then edge 0 s else tick n (full_cycle s)
  end.

Definition switchBusMasterToExternal (b : bool) (s : RV_SOC) : RV_SOC :=
  set_pins (with_master (if b then MASTER_EXT else MASTER_CPU) (pins s)) s.

Definition toggleCpuReset (enReset : bool) (s : RV_SOC) : RV_SOC :=
  set_pins (with_rst (rst_i (pins s)) (if enReset then 1 else 0) (pins s)) s.

(** The guards of the four accessors. *)
Definition guarded {A} (address : Z) (s : RV_SOC) (k : result A) : result A :=
  if m_ramSize s <=? address then OutOfRange
  else if negb (Z.land address 3 =? 0) then AssertFailed
  else k.

(** [for (unsigned i = wait; i >= 0; i--)]: the counter is unsigned, so the
    loop is left only when the transaction is ready. *)
Fixpoint wait_ready (fuel : nat) (i : Z) (s : RV_SOC) : option RV_SOC :=
  match fuel with
  | O => None
  | S n =>
      if 0 <=? i then
        if ext_tran_ready_o (m_soc s) then Some s else wait_ready n (w32 (i - 1)) (tick 1 s)
      else Some s
  end.

Definition start_ext (addr data write : Z) (s : RV_SOC) : RV_SOC :=
  let s := set_pins (with_tran addr data EXT_ACCESS_WORD write 1 (pins s)) s in
  let s := tick 1 s in
  set_pins (with_idle (pins s)) s.

Definition finish_ext (s : RV_SOC) : RV_SOC :=
  let s := set_pins (with_clear 1 (pins s)) s in
  let s := tick 1 s in
  set_pins (with_clear 0 (pins s)) s.

(** [success] is whether the wait ended with the transaction ready. *)
Definition writeWordExt (fuel : nat) (address val : Z) (s : RV_SOC) : result unit :=
  guarded address s
    match wait_ready fuel 20 (start_ext address val 1 s) with
    | None => Running
    | Some s => Val tt (if ext_tran_ready_o (m_soc s) then finish_ext s else s)
    end.

Definition readWordExt (fuel : nat) (address : Z) (s : RV_SOC) : result Z :=
  guarded address s
    match wait_ready fuel 20 (start_ext address 0 0 s) with
    | None => Running
    | Some s =>
        if ext_tran_ready_o (m_soc s) then Val (ext_tran_data_o (m_soc s)) (finish_ext s) else Val 0 s
    end.

Definition writeWord (address val : Z) (s : RV_SOC) : result unit :=
  guarded address s (Val tt (on_model (ram_write_word (address / wordSize) val) s)).

Definition readWord (address : Z) (s : RV_SOC) : result Z :=
  guarded address s (Val (ram_read_word (address / wordSize) (m_soc s)) s).

Definition reset (s : RV_SOC) : RV_SOC :=
  let s := set_pins (with_rst 1 1 (pins s)) s in
  let s := tick 1 (tick 1 s) in
  let s := set_pins (with_rst 0 0 (pins s)) s in
  tick 1 s.

Definition writeReg (num val : Z) (s : RV_SOC) : result unit :=
  if num <? m_regFileSize s then Val tt (on_model (regfile_write_word num val) s) else AssertFailed.

Definition readReg (num : Z) (s : RV_SOC) : result Z :=
  if num <? m_regFileSize s then Val (regfile_read_word num (m_soc s)) s else AssertFailed.

Definition setPC (pc : Z) (s : RV_SOC) : RV_SOC := on_model (set_vpc pc) s.
Definition getPC (s : RV_SOC) : Z := vpc (m_soc s).
Definition validPc (s : RV_SOC) : bool := negb (cpu_valid_pc (m_soc s) =? 0).
Definition getTestFinished (s : RV_SOC) : bool := negb (get_test_finished (m_soc s) =? 0).
Definition getInstExecCount (s : RV_SOC) : Z := cpu_get_instruction_exec_count (m_soc s).

(** [for (unsigned i = 0; i < m_ramSize; i += wordSize) writeWord(i, 0)] *)
Fixpoint clear_from (fuel : nat) (i : Z) (s : RV_SOC) : result unit :=
  match fuel with
  | O => Running
  | S n =>
      if i <? m_ramSize s then
        match writeWord i 0 s with
        | Val _ s' => clear_from n (w32 (i + wordSize)) s'
        | r => r
        end
      else Val tt s
  end.

Definition clearRam (s : RV_SOC) : result unit := clear_from (S (Z.to_nat (m_ramSize s))) 0 s.

(** The constructor, for a freshly created model and its initial pins. *)
Definition new_RV_SOC (v : V) (p : inputs) : result unit :=
  let s := Soc v p 0 0 (ram_get_size v) (regfile_get_size v) in
  match clearRam s with
  | Val _ s => Val tt (reset s)
  | r => r
  end.

(** ** The clock *)

Lemma full_cycle_count s :
  0 < m_tickCnt s < 2 ^ 64 - 2 -> 0 <= m_fetchCnt s < 2 ^ 64 - 1 ->
  m_tickCnt (full_cycle s) = m_tickCnt s + 2 /\
  m_fetchCnt s <= m_fetchCnt (full_cycle s) <= m_fetchCnt s + 1.
Proof.
  intros Ht Hf. unfold full_cycle. set (b := negb _ && _). unfold edge. cbn.
  assert (E : w64 (w64 (m_tickCnt s + 1) + 1) = m_tickCnt s + 2).
  { rewrite (wrap_small 64 (m_tickCnt s + 1)), wrap_small by lia. lia. }
  destruct b; cbn; rewrite E; [|lia]. split; [done|]. rewrite (wrap_small 64) by lia. lia.
Qed.

Lemma tick_running n s :
  0 < m_tickCnt s -> m_tickCnt s + 2 * Z.of_nat n < 2 ^ 64 ->
  0 <= m_fetchCnt s -> m_fetchCnt s + Z.of_nat n < 2 ^ 64 ->
  m_tickCnt (tick n s) = m_tickCnt s + 2 * Z.of_nat n /\
  m_fetchCnt s <= m_fetchCnt (tick n s) <= m_fetchCnt s + Z.of_nat n.
Proof.
  revert s. induction n as [|n IH]; intros s H1 H2 H3 H4; cbn [tick]; [lia|].
  rewrite (proj2 (Z.eqb_neq _ 0)) by lia.
  destruct (full_cycle_count s) as [E1 E2]; [lia|lia|].
  destruct (IH (full_cycle s)) as [E3 E4]; [lia..|]. rewrite E3. lia.
Qed.

(** A call of [tick] with [n] cycles advances the tick counter by two per
    cycle and the step counter by at most one per cycle; but the first call
    after construction makes the initial low half-cycle only, whatever [n]
    is. *)
Theorem tick_counts n s :
  0 <= m_tickCnt s -> m_tickCnt s + 2 * Z.of_nat n < 2 ^ 64 ->
  0 <= m_fetchCnt s -> m_fetchCnt s + Z.of_nat n < 2 ^ 64 ->
  (0 < m_tickCnt s ->
     m_tickCnt (tick n s) = m_tickCnt s + 2 * Z.of_nat n /\
     m_fetchCnt s <= m_fetchCnt (tick n s) <= m_fetchCnt s + Z.of_nat n) /\
  (m_tickCnt s = 0 -> (0 < n)%nat -> m_tickCnt (tick n s) = 1 /\ m_fetchCnt (tick n s) = m_fetchCnt s).
Proof.
  intros H0 H1 H2 H3. split; [by intros; apply tick_running|].
  intros Hz Hn. destruct n; [lia|]. cbn [tick]. rewrite Hz. cbn. by rewrite Hz.
Qed.

(** ** Memory *)

Section memory.
Context `{!VsocLaws V}.

(** A word written through the back door is read back; other words keep
    their values; an address at or above the RAM size throws, a misaligned one
    fails the assertion. *)
Theorem write_read_word a b val s :
  0 <= a -> 0 <= b -> u32_range val -> m_ramSize s <= ram_get_size (m_soc s) ->
  if m_ramSize s <=? a then writeWord a val s = OutOfRange
  else if negb (a mod 4 =? 0) then writeWord a val s = AssertFailed
  else exists s', writeWord a val s = Val tt s' /\ m_ramSize s' = m_ramSize s /\
    (b < m_ramSize s -> b mod 4 = 0 ->
     exists v s'', readWord b s' = Val v s'' /\ s'' = s' /\
       v = if a =? b then val else ram_read_word (b / 4) (m_soc s)).
Proof.
  intros Ha Hb Hv Hsz. unfold writeWord, readWord, guarded.
  rewrite !land_3. destruct (Z.leb_spec (m_ramSize s) a); [done|].
  destruct (Z.eqb_spec (a mod 4) 0) as [E|]; cbn [negb]; [|done].
  eexists. split; [done|]. split; [done|]. intros Hlt Hal.
  cbn [m_ramSize on_model]. rewrite (proj2 (Z.leb_gt _ _)) by lia. rewrite Hal. cbn [negb Z.eqb].
  do 2 eexists. split; [done|]. split; [done|]. cbn [m_soc on_model].
  unfold wordSize. rewrite ram_read_write by (done || zlia).
  destruct (Z.eqb_spec (b / 4) (a / 4)), (Z.eqb_spec a b); try done; zlia.
Qed.

Lemma clear_from_correct k fuel i s :
  (k < fuel)%nat -> 0 <= i -> i mod 4 = 0 -> m_ramSize s <= i + 4 * Z.of_nat k -> m_ramSize s < 2 ^ 32 - 4 ->
  m_ramSize s <= ram_get_size (m_soc s) ->
  exists s', clear_from fuel i s = Val tt s' /\ m_ramSize s' = m_ramSize s /\
    forall w, ram_read_word w (m_soc s') =
      if (i <=? 4 * w) && (4 * w <? m_ramSize s) then 0 else ram_read_word w (m_soc s).
Proof.
  revert fuel i s. induction k as [|k IH]; intros [|f] i s Hf Hi Ha Hr Hs Hz; try lia; cbn [clear_from].
  - rewrite (proj2 (Z.ltb_ge _ _)) by lia. exists s. split; [done|]. split; [done|].
    intros w. destruct (Z.leb_spec i (4 * w)), (Z.ltb_spec (4 * w) (m_ramSize s)); cbn [andb]; done || lia.
  - destruct (Z.ltb_spec i (m_ramSize s)) as [Hlt|Hge].
    + unfold writeWord, guarded. rewrite (proj2 (Z.leb_gt _ _)) by lia.
      rewrite land_3, Ha.
      cbn [Z.eqb negb]. unfold wordSize. rewrite w32_small by lia.
      destruct (IH f (i + 4) (on_model (ram_write_word (i / 4) 0) s)) as (s' & E' & Hr' & Hw);
        [lia|lia|zlia|cbn; lia|cbn; lia|cbn; rewrite ram_size_write; lia|].
      exists s'. split; [done|]. split; [done|]. intros w. rewrite Hw. cbn [m_ramSize on_model m_soc].
      rewrite ram_read_write by (done || zlia). repeat case_Z; cbn [andb]; done || zlia.
    + exists s. split; [done|]. split; [done|].
      intros w. destruct (Z.leb_spec i (4 * w)), (Z.ltb_spec (4 * w) (m_ramSize s)); cbn [andb]; done || lia.
Qed.

(** [clearRam] ends and leaves every word of the RAM zero and the rest of
    the model's memory as it was. *)
Theorem clearRam_correct s :
  0 <= m_ramSize s < 2 ^ 32 - 4 -> m_ramSize s <= ram_get_size (m_soc s) ->
  exists s', clearRam s = Val tt s' /\ m_ramSize s' = m_ramSize s /\
    forall w, ram_read_word w (m_soc s') =
      if (0 <=? 4 * w) && (4 * w <? m_ramSize s) then 0 else ram_read_word w (m_soc s).
Proof.
  intros Hs Hz. unfold clearRam. apply (clear_from_correct (Z.to_nat (m_ramSize s))); lia || done.
Qed.
End memory.

(** ** External transactions *)

Lemma wait_ready_some k fuel i s :
  (k < fuel)%nat -> 0 <= i < 2 ^ 32 ->
  ext_tran_ready_o (m_soc (Nat.iter k (tick 1) s)) = true ->
  (forall j, (j < k)%nat -> ext_tran_ready_o (m_soc (Nat.iter j (tick 1) s)) = false) ->
  wait_ready fuel i s = Some (Nat.iter k (tick 1) s).
Proof.
  revert fuel i s. induction k as [|k IH]; intros [|f] i s Hf Hi Hk Hj; try lia; cbn [wait_ready];
    rewrite (proj2 (Z.leb_le 0 i)) by lia.
  - cbn [Nat.iter nat_rect] in Hk. by rewrite Hk.
  - pose proof (Hj 0%nat ltac:(lia)) as H0. cbn [Nat.iter nat_rect] in H0. rewrite H0.
    assert (Hi' : forall j, Nat.iter (S j) (tick 1) s = Nat.iter j (tick 1) (tick 1 s))
      by (intros; symmetry; apply Nat.iter_swap).
    rewrite Hi'. apply IH; [lia|apply (wrap_range 32); lia|by rewrite <- Hi'|].
    intros j Hlt. rewrite <- Hi'. apply Hj. lia.
Qed.

Lemma wait_ready_none fuel i s :
  0 <= i -> (forall k, ext_tran_ready_o (m_soc (Nat.iter k (tick 1) s)) = false) ->
  wait_ready fuel i s = None.
Proof.
  revert i s. induction fuel as [|f IH]; intros i s Hi Hn; [done|]. cbn [wait_ready].
  rewrite (proj2 (Z.leb_le 0 i)) by lia. pose proof (Hn 0%nat) as H0. cbn [Nat.iter nat_rect] in H0.
  rewrite H0. apply IH; [apply (wrap_range 32); lia|]. intros k.
  rewrite <- (Hn (S k)). do 2 f_equal. apply Nat.iter_swap.
Qed.

(** An external read returns the data of the first cycle in which the
    transaction is ready, however many cycles that takes; the bound of 20 has
    no effect, and if the transaction never becomes ready the call never
    returns, whatever the fuel. *)
Theorem readWordExt_waits a s k fuel :
  0 <= a < m_ramSize s -> a mod 4 = 0 ->
  let s0 := start_ext a 0 0 s in
  let at_ j := Nat.iter j (tick 1) s0 in
  ((k < fuel)%nat -> ext_tran_ready_o (m_soc (at_ k)) = true ->
   (forall j, (j < k)%nat -> ext_tran_ready_o (m_soc (at_ j)) = false) ->
   readWordExt fuel a s = Val (ext_tran_data_o (m_soc (at_ k))) (finish_ext (at_ k))) /\
  ((forall j, ext_tran_ready_o (m_soc (at_ j)) = false) -> readWordExt fuel a s = Running).
Proof.
  intros Ha Hal s0 at_. unfold readWordExt, guarded. rewrite (proj2 (Z.leb_gt _ _)) by lia.
  rewrite land_3, Hal. cbn [Z.eqb negb].
  fold s0. split.
  - intros Hf Hk Hj. rewrite (wait_ready_some k) by (done || lia). fold (at_ k). by rewrite Hk.
  - intros Hn. by rewrite wait_ready_none.
Qed.
End soc.
Arguments Val {V A}. Arguments OutOfRange {V A}. Arguments AssertFailed {V A}. Arguments Running {V A}.
Arguments RV_SOC : clear implicits.

(** ** A model for the examples: memories that answer at once *)

Record toy := Toy { toy_ram : gmap Z Z; toy_regs : gmap Z Z; toy_ready : bool }.

#[local] Instance toy_vsoc : Vsoc toy := {|
  eval p t := Toy (toy_ram t) (toy_regs t) true;
  cpu_get_state _ := 0;
  FETCH := 1;
  ext_tran_ready_o := toy_ready;
  ext_tran_data_o _ := 7;
  ram_get_size _ := 64;
  ram_write_word i v t := Toy (<[i := v]> (toy_ram t)) (toy_regs t) (toy_ready t);
  ram_read_word i t := default 0 (toy_ram t !! i);
  regfile_get_size _ := 32;
  regfile_write_word i v t := Toy (toy_ram t) (<[i := v]> (toy_regs t)) (toy_ready t);
  regfile_read_word i t := default 0 (toy_regs t !! i);
  vpc _ := 0;
  set_vpc _ t := t;
  cpu_valid_pc _ := 1;
  get_test_finished _ := 0;
  cpu_get_instruction_exec_count _ := 0
|}.

#[local] Instance toy_laws : VsocLaws toy.
Proof.
  split; [intros i j v s _ _|done|intros i j v s _ _]; simpl; rewrite lookup_insert; case_decide as E;
    destruct (Z.eqb_spec i j); subst; done.
Defined.

Definition toy_soc : RV_SOC toy :=
  Soc (Toy {[3 := 9]} ∅ false) (Inputs 0 0 0 0 0 0 0 0 0 0) 1 0 64 32.

Lemma tick_counts_witness :
  m_tickCnt (tick 5 toy_soc) = 11 /\ 0 <= m_fetchCnt (tick 5 toy_soc) <= 5.
Proof. apply (tick_counts 5 toy_soc); reflexivity || (simpl; lia). Defined.

Lemma write_read_word_witness :
  exists s', writeWord 8 5 toy_soc = Val tt s' /\ m_ramSize s' = 64 /\
    (12 < 64 -> 12 mod 4 = 0 ->
     exists v s'', readWord 12 s' = Val v s'' /\ s'' = s' /\ v = 9).
Proof. exact (write_read_word 8 12 5 toy_soc ltac:(lia) ltac:(lia) ltac:(done) ltac:(done)). Defined.

Lemma clearRam_correct_witness :
  exists s', clearRam toy_soc = Val tt s' /\ m_ramSize s' = 64 /\
    forall w, ram_read_word w (m_soc s') =
      if (0 <=? 4 * w) && (4 * w <? 64) then 0 else ram_read_word w (m_soc toy_soc).
Proof. apply (clearRam_correct toy_soc); simpl; lia. Defined.

Lemma readWordExt_waits_witness :
  readWordExt 1 8 toy_soc = Val 7 (finish_ext (start_ext 8 0 0 toy_soc)).
Proof.
  apply (proj1 (readWordExt_waits 8 toy_soc 0 1 ltac:(simpl; lia) ltac:(reflexivity)));
    [lia|reflexivity|lia].
Defined.

End SocSim.
