(* ===== verification/Fpga.v ===== *)
(** * The FPGA access library (bench/emulation/libskfpga/src/fpga.cpp, fpga.h)

    [skFpga] talks to a kernel driver through [ioctl].  The driver is not part
    of the sources: the model records the requests in order, and what the
    driver answers is an argument. *)

From S2P Require Import Prelude.

Module Fpga.

Inductive fpga_addr_selector :=
| FPGA_ADDR_UNDEFINED | FPGA_ADDR_CS0 | FPGA_ADDR_CS1 | FPGA_ADDR_DMA | FPGA_ADDR_LAST.

#[global] Instance selector_eq_dec : EqDecision fpga_addr_selector.
Proof. solve_decision. Defined.

Definition selector_value (s : fpga_addr_selector) : Z :=
  match s with
  | FPGA_ADDR_UNDEFINED => 0 | FPGA_ADDR_CS0 => 1 | FPGA_ADDR_CS1 => 2 | FPGA_ADDR_DMA => 3
  | FPGA_ADDR_LAST => 4
  end.

(** The requests, and the data written to the device file. *)
Inductive request :=
| SKFPGA_SHORT_WRITE (address data : Z)
| SKFPGA_SHORT_READ (address : Z)
| SKFPGA_ADDR_SEL_WRITE (val : Z)
| SKFPGA_RESET_WRITE (val : Z)
| SKFPGA_RESET_READ
| SKFPGA_FPGA_IRQ_WRITE (val : Z)
| SKFPGA_FPGA_IRQ_READ
| SKFPGA_PROG_START
| SKFPGA_PROG_FINISH
| FILE_WRITE (n : Z).

Record skFpga := Fpga { m_curAddrSel : fpga_addr_selector; log : list request }.

Definition ioctl (r : request) (f : skFpga) : skFpga := Fpga (m_curAddrSel f) (log f ++ [r]).

Definition m_address_window_size : Z := 32 * 1024 * 1024.

Definition proper_sel (addr : Z) : fpga_addr_selector :=
  if m_address_window_size <? addr then FPGA_ADDR_CS1 else FPGA_ADDR_CS0.

Definition SetAddrSel (addr : Z) (f : skFpga) : skFpga :=
  let properSel := proper_sel addr in
  if decide (properSel = m_curAddrSel f) then f
  else ioctl (SKFPGA_ADDR_SEL_WRITE (selector_value properSel)) (Fpga properSel (log f)).

Definition WriteShort (addr data : Z) (f : skFpga) : skFpga :=
  ioctl (SKFPGA_SHORT_WRITE addr data) (SetAddrSel addr f).

Section driver.
(** What the driver answers to a request after a history. *)
Context (answer : list request -> request -> Z).

Definition ReadShort (addr : Z) (f : skFpga) : Z * skFpga :=
  let f := SetAddrSel addr f in
  (w16 (answer (log f) (SKFPGA_SHORT_READ addr)), ioctl (SKFPGA_SHORT_READ addr) f).

Definition bit (b : bool) : Z := if b then 1 else 0.

Definition SetResetPin (state : bool) (f : skFpga) : skFpga := ioctl (SKFPGA_RESET_WRITE (bit state)) f.
Definition GetResetPin (f : skFpga) : bool * skFpga :=
  (negb (w8 (answer (log f) SKFPGA_RESET_READ) =? 0), ioctl SKFPGA_RESET_READ f).
Definition SetIRQPin (state : bool) (f : skFpga) : skFpga := ioctl (SKFPGA_FPGA_IRQ_WRITE (bit state)) f.
Definition GetIRQPin (f : skFpga) : bool * skFpga :=
  (negb (w8 (answer (log f) SKFPGA_FPGA_IRQ_READ) =? 0), ioctl SKFPGA_FPGA_IRQ_READ f).

(** The loop of [UploadBitstream] over what [read] returns: a byte count, 0 at
    the end of the file, -1 on an error.  Any non-zero result is written. *)
Fixpoint upload_loop (fuel : nat) (nrd : nat -> Z) (f : skFpga) : option skFpga :=
  match fuel with
  | O => None
  | S n =>
      if nrd 0%nat =? 0 then Some f
      else upload_loop n (fun k => nrd (S k)) (ioctl (FILE_WRITE (nrd 0%nat)) f)
  end.

(** The result is true on failure; [None] in the first place is a file that
    cannot be opened. *)
Definition UploadBitstream (fuel : nat) (bs : option (nat -> Z)) (f : skFpga) : option (bool * skFpga) :=
  match bs with
  | None => Some (true, f)
  | Some nrd =>
      f ← upload_loop fuel nrd (ioctl SKFPGA_PROG_START f);
      let res := negb (w8 (answer (log f) SKFPGA_PROG_FINISH) =? 0) in
      Some (res, ioctl SKFPGA_PROG_FINISH f)
  end.
End driver.

(** As the constructor leaves it. *)
Definition opened : skFpga := Fpga FPGA_ADDR_UNDEFINED [].

(** ** The address window *)

(** A call of the library that moves data. *)
Inductive access := AWrite (addr data : Z) | ARead (addr : Z).

Definition do_access (answer : list request -> request -> Z) (f : skFpga) (a : access) : skFpga :=
  match a with
  | AWrite addr data => WriteShort addr data f
  | ARead addr => (ReadShort answer addr f).2
  end.

(** The window the driver has selected after a history. *)
Fixpoint selected (cur : Z) (l : list request) : Z :=
  match l with
  | [] => cur
  | SKFPGA_ADDR_SEL_WRITE v :: r => selected v r
  | _ :: r => selected cur r
  end.

(** Every data request goes to the window of its address. *)
Fixpoint windows_ok (cur : Z) (l : list request) : Prop :=
  match l with
  | [] => True
  | SKFPGA_ADDR_SEL_WRITE v :: r => windows_ok v r
  | SKFPGA_SHORT_WRITE a _ :: r => cur = selector_value (proper_sel a) /\ windows_ok cur r
  | SKFPGA_SHORT_READ a :: r => cur = selector_value (proper_sel a) /\ windows_ok cur r
  | _ :: r => windows_ok cur r
  end.

Lemma selected_app cur l1 l2 : selected cur (l1 ++ l2) = selected (selected cur l1) l2.
Proof. revert cur. induction l1 as [|[] r IH]; intros cur; simpl; auto. Qed.

Lemma windows_ok_app cur l1 l2 :
  windows_ok cur (l1 ++ l2) <-> windows_ok cur l1 /\ windows_ok (selected cur l1) l2.
Proof.
  revert cur. induction l1 as [|[] r IH]; intros cur; simpl; try apply IH; try tauto;
    rewrite IH; tauto.
Qed.

Definition fpga_inv (f : skFpga) : Prop :=
  windows_ok 0 (log f) /\ selected 0 (log f) = selector_value (m_curAddrSel f).

Lemma ioctl_inv r f :
  fpga_inv f -> (selected (selector_value (m_curAddrSel f)) [r] = selector_value (m_curAddrSel f)) ->
  windows_ok (selector_value (m_curAddrSel f)) [r] -> fpga_inv (ioctl r f).
Proof.
  intros [H1 H2] Hs Hw. unfold fpga_inv, ioctl. cbn [log m_curAddrSel].
  rewrite windows_ok_app, selected_app, H2. done.
Qed.

Lemma SetAddrSel_inv addr f :
  fpga_inv f -> fpga_inv (SetAddrSel addr f) /\ m_curAddrSel (SetAddrSel addr f) = proper_sel addr.
Proof.
  intros [H1 H2]. unfold SetAddrSel. case_decide as E; [done|]. split; [|done].
  unfold fpga_inv, ioctl. cbn [log m_curAddrSel]. by rewrite windows_ok_app, selected_app.
Qed.

(** From construction on, whatever sequence of reads and writes is made,
    every access the driver sees is made with the window of its address
    selected.  The window of an address is the second one from one byte above
    32 MiB on: the address 32 MiB itself, the first outside the first window,
    goes to the first. *)
Theorem accesses_use_window answer l :
  windows_ok 0 (log (fold_left (do_access answer) l opened)) /\
  proper_sel m_address_window_size = FPGA_ADDR_CS0.
Proof.
  split; [|reflexivity]. assert (H : fpga_inv opened) by done. revert H. generalize opened as f.
  induction l as [|a l IH]; intros f Hf; [apply Hf|]. cbn [fold_left]. apply IH.
  destruct a as [addr data|addr]; cbn [do_access].
  - destruct (SetAddrSel_inv addr f Hf) as [H1 H2]. apply ioctl_inv; [done|done|]. by rewrite H2.
  - destruct (SetAddrSel_inv addr f Hf) as [H1 H2]. apply ioctl_inv; [done|done|]. by rewrite H2.
Qed.

(** Uploading ends when the file does; the driver sees the start request,
    the chunks in order and the finish request.  A read error is not the end:
    if [read] keeps failing the loop never ends. *)
Theorem upload_loop_ends answer nrd f k fuel :
  ((k < fuel)%nat -> nrd k = 0 -> (forall j, (j < k)%nat -> nrd j <> 0) ->
   exists res, UploadBitstream answer fuel (Some nrd) f =
     Some (res, Fpga (m_curAddrSel f)
       (log f ++ [SKFPGA_PROG_START] ++ (FILE_WRITE ∘ nrd <$> seq 0 k) ++ [SKFPGA_PROG_FINISH]))) /\
  ((forall j, nrd j = -1) -> UploadBitstream answer fuel (Some nrd) f = None).
Proof.
  split.
  - intros Hf Hk Hj.
    assert (Hloop : forall k fuel nrd f, (k < fuel)%nat -> nrd k = 0 ->
      (forall j, (j < k)%nat -> nrd j <> 0) ->
      upload_loop fuel nrd f = Some (Fpga (m_curAddrSel f) (log f ++ (FILE_WRITE ∘ nrd <$> seq 0 k)))).
    { clear. induction k as [|k IH]; intros [|n] nrd f Hf Hk Hj; try lia; cbn [upload_loop].
      - rewrite Hk. cbn. rewrite app_nil_r. by destruct f.
      - rewrite (proj2 (Z.eqb_neq _ 0)) by (apply Hj; lia).
        rewrite IH; [|lia|done|intros; apply Hj; lia]. cbn [ioctl m_curAddrSel log seq fmap list_fmap].
        rewrite <- app_assoc. cbn [app]. do 3 f_equal. rewrite <- seq_shift, <- list_fmap_compose. done. }
    unfold UploadBitstream. rewrite (Hloop k) by done. cbn [mbind option_bind].
    eexists. unfold ioctl. cbn [log m_curAddrSel]. rewrite <- !app_assoc. reflexivity.
  - intros Hn. unfold UploadBitstream.
    assert (Hloop : forall fuel nrd f, (forall j, nrd j = -1) -> upload_loop fuel nrd f = None).
    { clear. induction fuel as [|n IH]; intros nrd f Hn; [done|]. cbn [upload_loop]. rewrite Hn.
      cbn [Z.eqb]. apply IH. intros j. apply Hn. }
    by rewrite Hloop.
Qed.

End Fpga.
