(* ===== verification/RvTypes.v ===== *)
(** * The data types of the RISC-V instruction decoder

    The enumerations, bit-mask constants and structures that the decoder of
    the OVP processor model fills in: riscvTypes.h, riscvRegisterTypes.h,
    riscvVariant.h, riscvDecodeTypes.h, riscvDisassembleFormats.h and the
    specification enumerations of riscvDecode.c, all under
    src/models/ovp/source/yggdrasill.ga/processor/riscv/1.0/model.
    An enumeration whose values are only compared and copied is an inductive
    type with the constructors of the source; one that is used as a bit mask
    (riscvRegDesc, riscvArchitecture, riscvFenceDesc) is a family of integer
    constants. *)

From S2P Require Import Prelude.

(** ** riscvTypes.h *)

(** Rounding mode of a floating point instruction. *)
Inductive riscvRMDesc : Type :=
  | RV_RM_NA | RV_RM_CURRENT | RV_RM_RTE | RV_RM_RTZ | RV_RM_RDN
  | RV_RM_RUP | RV_RM_RMM | RV_RM_BAD5 | RV_RM_BAD6.

(** ** riscvRegisterTypes.h

    A register descriptor is a word of fields: index, size, kind and
    disassembly flags. *)

Abbreviation RV_RD_NA := (0x0).
Abbreviation RV_RD_INDEX_MASK := (0x1f).
Abbreviation RV_RD_8 := (RV_RD_INDEX_MASK + 1).
Abbreviation RV_RD_16 := (RV_RD_8 * 2).
Abbreviation RV_RD_32 := (RV_RD_16 * 2).
Abbreviation RV_RD_64 := (RV_RD_32 * 2).
Abbreviation RV_RD_BITS_MASK := (Z.lor (Z.lor (Z.lor RV_RD_8 RV_RD_16) RV_RD_32) RV_RD_64).
Abbreviation RV_RD_X := (RV_RD_64 * 2).
Abbreviation RV_RD_F := (RV_RD_X * 2).
Abbreviation RV_RD_V := (RV_RD_F * 2).
Abbreviation RV_RD_TYPE_MASK := (Z.lor (Z.lor (Z.lor RV_RD_X RV_RD_F) RV_RD_V) RV_RD_BITS_MASK).
Abbreviation RV_RD_Q := (RV_RD_V * 2).
Abbreviation RV_RD_WL := (RV_RD_Q * 2).
Abbreviation RV_RD_FX := (RV_RD_WL * 2).
Abbreviation RV_RD_U := (RV_RD_FX * 2).

Definition isXReg (r : Z) : bool := negb (Z.land r RV_RD_X =? 0).
Definition isWLReg (r : Z) : bool := negb (Z.land r RV_RD_WL =? 0).
Definition isFXReg (r : Z) : bool := negb (Z.land r RV_RD_FX =? 0).
Definition isXWLReg (r : Z) : bool := isFXReg r || isWLReg r.
Definition getRBits (r : Z) : Z := Z.shiftr (Z.land r RV_RD_BITS_MASK) 2.

(** ** riscvVariant.h

    The feature mask of a processor or of an instruction: one bit per MISA
    letter, and two more for the register width.  The combinations are those
    the instruction tables use. *)

Definition RISCV_FEATURE_BIT (c : ascii) (k : Z) : Z :=
  Z.shiftl 1 (Z.of_N (N_of_ascii c) + k - Z.of_N (N_of_ascii "A")).
Abbreviation ISA_XLEN_32 := (RISCV_FEATURE_BIT "Z" 1).
Abbreviation ISA_XLEN_64 := (RISCV_FEATURE_BIT "Z" 2).
Abbreviation ISA_XLEN_ANY := (Z.lor ISA_XLEN_32 ISA_XLEN_64).
Abbreviation ISA_and := (RISCV_FEATURE_BIT "Z" 3).
Abbreviation ISA_A := (RISCV_FEATURE_BIT "A" 0).
Abbreviation ISA_C := (RISCV_FEATURE_BIT "C" 0).
Abbreviation ISA_E := (RISCV_FEATURE_BIT "E" 0).
Abbreviation ISA_D := (RISCV_FEATURE_BIT "D" 0).
Abbreviation ISA_F := (RISCV_FEATURE_BIT "F" 0).
Abbreviation ISA_I := (RISCV_FEATURE_BIT "I" 0).
Abbreviation ISA_M := (RISCV_FEATURE_BIT "M" 0).
Abbreviation ISA_N := (RISCV_FEATURE_BIT "N" 0).
Abbreviation ISA_S := (RISCV_FEATURE_BIT "S" 0).
Abbreviation ISA_U := (RISCV_FEATURE_BIT "U" 0).
Abbreviation ISA_V := (RISCV_FEATURE_BIT "V" 0).
Abbreviation ISA_X := (RISCV_FEATURE_BIT "X" 0).
Abbreviation ISA_DF := (Z.lor ISA_D ISA_F).
Abbreviation ISA_DFV := (Z.lor (Z.lor ISA_D ISA_F) ISA_V).
Abbreviation ISA_SorU := (Z.lor ISA_S ISA_U).
Abbreviation ISA_SorN := (Z.lor ISA_S ISA_N).
Abbreviation ISA_SandN := (Z.lor (Z.lor ISA_S ISA_N) ISA_and).
Abbreviation RV32C := (Z.lor ISA_XLEN_32 ISA_C).
Abbreviation RV32F := (Z.lor ISA_XLEN_32 ISA_F).
Abbreviation RV32IMC := (Z.lor (Z.lor (Z.lor ISA_XLEN_32 ISA_I) ISA_M) ISA_C).
Abbreviation RV32GCN := (Z.lor (Z.lor (Z.lor (Z.lor (Z.lor (Z.lor (Z.lor ISA_XLEN_32 ISA_I) ISA_M) ISA_A) ISA_C) ISA_F) ISA_D) ISA_N).
Abbreviation RV32CF := (Z.lor RV32F RV32C).
Abbreviation RV64 := (ISA_XLEN_64).
Abbreviation RV64C := (Z.lor ISA_XLEN_64 ISA_C).
Abbreviation RV64GCN := (Z.lor (Z.lor (Z.lor (Z.lor (Z.lor (Z.lor (Z.lor ISA_XLEN_64 ISA_I) ISA_M) ISA_A) ISA_C) ISA_F) ISA_D) ISA_N).
Abbreviation RVANY := (ISA_XLEN_ANY).
Abbreviation RVANYM := (Z.lor ISA_XLEN_ANY ISA_M).
Abbreviation RVANYA := (Z.lor ISA_XLEN_ANY ISA_A).
Abbreviation RVANYC := (Z.lor ISA_XLEN_ANY ISA_C).
Abbreviation RVANYD := (Z.lor ISA_XLEN_ANY ISA_D).
Abbreviation RVANYN := (Z.lor ISA_XLEN_ANY ISA_N).
Abbreviation RVANYV := (Z.lor ISA_XLEN_ANY ISA_V).
Abbreviation RVANYCD := (Z.lor RVANYC RVANYD).
Abbreviation RVANYVA := (Z.lor RVANYV RVANYA).

(** ** riscvDecodeTypes.h *)

(** Generic instructions: what an instruction does, whatever its encoding. *)
Inductive riscvIType : Type :=
  | RV_IT_MV_R | RV_IT_MV_C | RV_IT_ADD_R | RV_IT_AND_R | RV_IT_OR_R
  | RV_IT_SLL_R | RV_IT_SLT_R | RV_IT_SLTU_R | RV_IT_SRA_R | RV_IT_SRL_R
  | RV_IT_SUB_R | RV_IT_XOR_R | RV_IT_DIV_R | RV_IT_DIVU_R | RV_IT_MUL_R
  | RV_IT_MULH_R | RV_IT_MULHSU_R | RV_IT_MULHU_R | RV_IT_REM_R
  | RV_IT_REMU_R | RV_IT_ADDI_I | RV_IT_ANDI_I | RV_IT_JALR_I | RV_IT_ORI_I
  | RV_IT_SLTI_I | RV_IT_SLTIU_I | RV_IT_SLLI_I | RV_IT_SRAI_I
  | RV_IT_SRLI_I | RV_IT_XORI_I | RV_IT_L_I | RV_IT_S_I | RV_IT_CSRR_I
  | RV_IT_CSRRI_I | RV_IT_EBREAK_I | RV_IT_ECALL_I | RV_IT_FENCEI_I
  | RV_IT_MRET_I | RV_IT_SRET_I | RV_IT_URET_I | RV_IT_WFI_I
  | RV_IT_FENCE_I | RV_IT_FENCE_VMA_R | RV_IT_AUIPC_U | RV_IT_LUI_U
  | RV_IT_BEQ_B | RV_IT_BGE_B | RV_IT_BGEU_B | RV_IT_BLT_B | RV_IT_BLTU_B
  | RV_IT_BNE_B | RV_IT_JAL_J | RV_IT_AMOADD_R | RV_IT_AMOAND_R
  | RV_IT_AMOMAX_R | RV_IT_AMOMAXU_R | RV_IT_AMOMIN_R | RV_IT_AMOMINU_R
  | RV_IT_AMOOR_R | RV_IT_AMOSWAP_R | RV_IT_AMOXOR_R | RV_IT_LR_R
  | RV_IT_SC_R | RV_IT_FMV_R | RV_IT_FABS_R | RV_IT_FADD_R | RV_IT_FCLASS_R
  | RV_IT_FCVT_R | RV_IT_FDIV_R | RV_IT_FEQ_R | RV_IT_FLE_R | RV_IT_FLT_R
  | RV_IT_FMAX_R | RV_IT_FMIN_R | RV_IT_FMUL_R | RV_IT_FNEG_R
  | RV_IT_FSGNJ_R | RV_IT_FSGNJN_R | RV_IT_FSGNJX_R | RV_IT_FSQRT_R
  | RV_IT_FSUB_R | RV_IT_FMADD_R4 | RV_IT_FMSUB_R4 | RV_IT_FNMADD_R4
  | RV_IT_FNMSUB_R4 | RV_IT_CUSTOM | RV_IT_VSETVL_R | RV_IT_VSETVL_I
  | RV_IT_VL_I | RV_IT_VLS_I | RV_IT_VLX_I | RV_IT_VS_I | RV_IT_VSS_I
  | RV_IT_VSX_I | RV_IT_VAMOADD_R | RV_IT_VAMOAND_R | RV_IT_VAMOMAX_R
  | RV_IT_VAMOMAXU_R | RV_IT_VAMOMIN_R | RV_IT_VAMOMINU_R | RV_IT_VAMOOR_R
  | RV_IT_VAMOSWAP_R | RV_IT_VAMOXOR_R | RV_IT_VMERGE_VR | RV_IT_VADD_VR
  | RV_IT_VSUB_VR | RV_IT_VRSUB_VR | RV_IT_VMINU_VR | RV_IT_VMIN_VR
  | RV_IT_VMAXU_VR | RV_IT_VMAX_VR | RV_IT_VAND_VR | RV_IT_VOR_VR
  | RV_IT_VXOR_VR | RV_IT_VADC_VR | RV_IT_VMADC_VR | RV_IT_VSBC_VR
  | RV_IT_VMSBC_VR | RV_IT_VSLL_VR | RV_IT_VSRL_VR | RV_IT_VSRA_VR
  | RV_IT_VNSRL_VR | RV_IT_VNSRA_VR | RV_IT_VSEQ_VR | RV_IT_VSNE_VR
  | RV_IT_VSLTU_VR | RV_IT_VSLT_VR | RV_IT_VSLEU_VR | RV_IT_VSLE_VR
  | RV_IT_VSGTU_VR | RV_IT_VSGT_VR | RV_IT_VRGATHER_VR | RV_IT_VSLIDEUP_VR
  | RV_IT_VSLIDEDOWN_VR | RV_IT_VSADDU_VR | RV_IT_VSADD_VR
  | RV_IT_VSSUBU_VR | RV_IT_VSSUB_VR | RV_IT_VAADD_VR | RV_IT_VASUB_VR
  | RV_IT_VSMUL_VR | RV_IT_VWSMACCU_VR | RV_IT_VWSMACC_VR
  | RV_IT_VWSMACCSU_VR | RV_IT_VWSMACCUS_VR | RV_IT_VSSRL_VR
  | RV_IT_VSSRA_VR | RV_IT_VNCLIPU_VR | RV_IT_VNCLIP_VR | RV_IT_VDIVU_VR
  | RV_IT_VDIV_VR | RV_IT_VREMU_VR | RV_IT_VREM_VR | RV_IT_VMUL_VR
  | RV_IT_VMULHU_VR | RV_IT_VMULHSU_VR | RV_IT_VMULH_VR | RV_IT_VWMULU_VR
  | RV_IT_VWMULSU_VR | RV_IT_VWMUL_VR | RV_IT_VWADDU_VR | RV_IT_VWADD_VR
  | RV_IT_VWSUBU_VR | RV_IT_VWSUB_VR | RV_IT_VWADDU_WR | RV_IT_VWADD_WR
  | RV_IT_VWSUBU_WR | RV_IT_VWSUB_WR | RV_IT_VMADD_VR | RV_IT_VNMSUB_VR
  | RV_IT_VMACC_VR | RV_IT_VNMSAC_VR | RV_IT_VWMACCU_VR | RV_IT_VWMACC_VR
  | RV_IT_VWMACCSU_VR | RV_IT_VWMACCUS_VR | RV_IT_VWREDSUMU_VS
  | RV_IT_VWREDSUM_VS | RV_IT_VDOTU_VV | RV_IT_VDOT_VV | RV_IT_VFADD_VR
  | RV_IT_VFSUB_VR | RV_IT_VFRSUB_VR | RV_IT_VFMUL_VR | RV_IT_VFDIV_VR
  | RV_IT_VFRDIV_VR | RV_IT_VFWADD_VR | RV_IT_VFWSUB_VR | RV_IT_VFWADD_WR
  | RV_IT_VFWSUB_WR | RV_IT_VFWMUL_VR | RV_IT_VFMADD_VR | RV_IT_VFNMADD_VR
  | RV_IT_VFMSUB_VR | RV_IT_VFNMSUB_VR | RV_IT_VFMACC_VR | RV_IT_VFNMACC_VR
  | RV_IT_VFMSAC_VR | RV_IT_VFNMSAC_VR | RV_IT_VFWMACC_VR
  | RV_IT_VFWNMACC_VR | RV_IT_VFWMSAC_VR | RV_IT_VFWNMSAC_VR
  | RV_IT_VFMIN_VR | RV_IT_VFMAX_VR | RV_IT_VFSGNJ_VR | RV_IT_VFSGNJN_VR
  | RV_IT_VFSGNJX_VR | RV_IT_VFORD_VR | RV_IT_VFEQ_VR | RV_IT_VFNE_VR
  | RV_IT_VFLE_VR | RV_IT_VFLT_VR | RV_IT_VFGE_VR | RV_IT_VFGT_VR
  | RV_IT_VFREDSUM_VS | RV_IT_VFREDOSUM_VS | RV_IT_VFREDMIN_VS
  | RV_IT_VFREDMAX_VS | RV_IT_VFMV_F_S | RV_IT_VFCVT_XUF_V
  | RV_IT_VFCVT_XF_V | RV_IT_VFCVT_FXU_V | RV_IT_VFCVT_FX_V
  | RV_IT_VFWCVT_XUF_V | RV_IT_VFWCVT_XF_V | RV_IT_VFWCVT_FXU_V
  | RV_IT_VFWCVT_FX_V | RV_IT_VFWCVT_FF_V | RV_IT_VFNCVT_XUF_V
  | RV_IT_VFNCVT_XF_V | RV_IT_VFNCVT_FXU_V | RV_IT_VFNCVT_FX_V
  | RV_IT_VFNCVT_FF_V | RV_IT_VFSQRT_V | RV_IT_VFCLASS_V
  | RV_IT_VFWREDSUM_VS | RV_IT_VFWREDOSUM_VS | RV_IT_VFDOT_VV
  | RV_IT_VREDSUM_VS | RV_IT_VREDAND_VS | RV_IT_VREDOR_VS
  | RV_IT_VREDXOR_VS | RV_IT_VREDMINU_VS | RV_IT_VREDMIN_VS
  | RV_IT_VREDMAXU_VS | RV_IT_VREDMAX_VS | RV_IT_VEXT_X_V | RV_IT_VMPOPC_M
  | RV_IT_VMFIRST_M | RV_IT_VMSBF_M | RV_IT_VMSOF_M | RV_IT_VMSIF_M
  | RV_IT_VIOTA_M | RV_IT_VID_V | RV_IT_VCOMPRESS_VM | RV_IT_VMANDNOT_MM
  | RV_IT_VMAND_MM | RV_IT_VMOR_MM | RV_IT_VMXOR_MM | RV_IT_VMORNOT_MM
  | RV_IT_VMNAND_MM | RV_IT_VMNOR_MM | RV_IT_VMXNOR_MM | RV_IT_VADD_VI
  | RV_IT_VRSUB_VI | RV_IT_VAND_VI | RV_IT_VOR_VI | RV_IT_VXOR_VI
  | RV_IT_VRGATHER_VI | RV_IT_VSLIDEUP_VI | RV_IT_VSLIDEDOWN_VI
  | RV_IT_VADC_VI | RV_IT_VMADC_VI | RV_IT_VMERGE_VI | RV_IT_VSEQ_VI
  | RV_IT_VSNE_VI | RV_IT_VSLEU_VI | RV_IT_VSLE_VI | RV_IT_VSGTU_VI
  | RV_IT_VSGT_VI | RV_IT_VSADDU_VI | RV_IT_VSADD_VI | RV_IT_VAADD_VI
  | RV_IT_VSLL_VI | RV_IT_VSRL_VI | RV_IT_VSRA_VI | RV_IT_VSSRL_VI
  | RV_IT_VSSRA_VI | RV_IT_VNSRL_VI | RV_IT_VNSRA_VI | RV_IT_VNCLIPU_VI
  | RV_IT_VNCLIP_VI | RV_IT_VFMV_S_F | RV_IT_VMV_S_X | RV_IT_VSLIDE1UP_VX
  | RV_IT_VSLIDE1DOWN_VX | RV_IT_VWADDU_VX | RV_IT_VWADD_VX
  | RV_IT_VWSUBU_VX | RV_IT_VWSUB_VX | RV_IT_VWADDU_WX | RV_IT_VWADD_WX
  | RV_IT_VWSUBU_WX | RV_IT_VWSUB_WX | RV_IT_LAST.

(** Categories of vector instruction. *)
Inductive riscvVIType : Type :=
  | RV_VIT_NA | RV_VIT_V | RV_VIT_VV | RV_VIT_VI | RV_VIT_VX | RV_VIT_WV
  | RV_VIT_WX | RV_VIT_VF | RV_VIT_WF | RV_VIT_VS | RV_VIT_M | RV_VIT_MM
  | RV_VIT_VM | RV_VIT_VVM | RV_VIT_VXM | RV_VIT_VIM | RV_VIT_VFM.

(** riscvAQRLDesc: read as a number out of the instruction. *)
Abbreviation RV_AQRL_NA := (0).
Abbreviation RV_AQRL_RL := (1).
Abbreviation RV_AQRL_AQ := (2).
Abbreviation RV_AQRL_AQRL := (3).

(** riscvCSRUDesc: read as a number out of the instruction. *)
Abbreviation RV_CSR_NA := (0).
Abbreviation RV_CSR_RW := (1).
Abbreviation RV_CSR_RS := (2).
Abbreviation RV_CSR_RC := (3).

(** riscvFenceDesc: read as a number out of the instruction. *)
Abbreviation RV_FENCE_NA := (0x0).
Abbreviation RV_FENCE_W := (0x1).
Abbreviation RV_FENCE_R := (0x2).
Abbreviation RV_FENCE_O := (0x4).
Abbreviation RV_FENCE_I := (0x8).
Abbreviation RV_FENCE_IOWR := (Z.lor (Z.lor (Z.lor RV_FENCE_I RV_FENCE_O) RV_FENCE_R) RV_FENCE_W).

(** What the decoder extracts from an instruction (the array r[4] is four fields). *)
Record riscvInstrInfo := Mk_riscvInstrInfo {
  i_opcode : option string;  (* NULL or the mnemonic *)
  i_format : option string;  (* disassembly format *)
  i_thisPC : Z;  (* address, Uns64 *)
  i_instruction : Z;  (* word, Uns32 *)
  i_bytes : Z;  (* 2 or 4 *)
  i_type : riscvIType;  (* generic instruction *)
  i_arch : Z;  (* features it needs *)
  i_explicitType : bool;
  i_explicitW : bool;
  i_unsExt : bool;
  i_csrInOp : bool;
  i_memBits : Z;  (* Uns32 *)
  i_c : Z;  (* constant, Uns64 *)
  i_r0 : Z;  (* r[0] *)
  i_r1 : Z;  (* r[1] *)
  i_r2 : Z;  (* r[2] *)
  i_r3 : Z;  (* r[3] *)
  i_mask : Z;
  i_aqrl : Z;
  i_pred : Z;
  i_succ : Z;
  i_rm : riscvRMDesc;
  i_csrUpdate : Z;
  i_VIType : riscvVIType;
  i_csr : Z;
  i_vsew : Z;  (* Uns8 *)
  i_vlmul : Z;  (* Uns8 *)
  i_nf : Z;  (* Uns8 *)
  i_isFF : bool
}.

(** One assignment [info->field = v] each. *)
Definition put_opcode (v : option string) (i : riscvInstrInfo) : riscvInstrInfo :=
  Mk_riscvInstrInfo v (i_format i) (i_thisPC i) (i_instruction i)
    (i_bytes i) (i_type i) (i_arch i) (i_explicitType i) (i_explicitW i)
    (i_unsExt i) (i_csrInOp i) (i_memBits i) (i_c i) (i_r0 i) (i_r1 i)
    (i_r2 i) (i_r3 i) (i_mask i) (i_aqrl i) (i_pred i) (i_succ i) (i_rm i)
    (i_csrUpdate i) (i_VIType i) (i_csr i) (i_vsew i) (i_vlmul i) (i_nf i)
    (i_isFF i).
Definition put_format (v : option string) (i : riscvInstrInfo) : riscvInstrInfo :=
  Mk_riscvInstrInfo (i_opcode i) v (i_thisPC i) (i_instruction i)
    (i_bytes i) (i_type i) (i_arch i) (i_explicitType i) (i_explicitW i)
    (i_unsExt i) (i_csrInOp i) (i_memBits i) (i_c i) (i_r0 i) (i_r1 i)
    (i_r2 i) (i_r3 i) (i_mask i) (i_aqrl i) (i_pred i) (i_succ i) (i_rm i)
    (i_csrUpdate i) (i_VIType i) (i_csr i) (i_vsew i) (i_vlmul i) (i_nf i)
    (i_isFF i).
Definition put_thisPC (v : Z) (i : riscvInstrInfo) : riscvInstrInfo :=
  Mk_riscvInstrInfo (i_opcode i) (i_format i) v (i_instruction i)
    (i_bytes i) (i_type i) (i_arch i) (i_explicitType i) (i_explicitW i)
    (i_unsExt i) (i_csrInOp i) (i_memBits i) (i_c i) (i_r0 i) (i_r1 i)
    (i_r2 i) (i_r3 i) (i_mask i) (i_aqrl i) (i_pred i) (i_succ i) (i_rm i)
    (i_csrUpdate i) (i_VIType i) (i_csr i) (i_vsew i) (i_vlmul i) (i_nf i)
    (i_isFF i).
Definition put_instruction (v : Z) (i : riscvInstrInfo) : riscvInstrInfo :=
  Mk_riscvInstrInfo (i_opcode i) (i_format i) (i_thisPC i) v (i_bytes i)
    (i_type i) (i_arch i) (i_explicitType i) (i_explicitW i) (i_unsExt i)
    (i_csrInOp i) (i_memBits i) (i_c i) (i_r0 i) (i_r1 i) (i_r2 i) (i_r3 i)
    (i_mask i) (i_aqrl i) (i_pred i) (i_succ i) (i_rm i) (i_csrUpdate i)
    (i_VIType i) (i_csr i) (i_vsew i) (i_vlmul i) (i_nf i) (i_isFF i).
Definition put_bytes (v : Z) (i : riscvInstrInfo) : riscvInstrInfo :=
  Mk_riscvInstrInfo (i_opcode i) (i_format i) (i_thisPC i) (i_instruction i)
    v (i_type i) (i_arch i) (i_explicitType i) (i_explicitW i) (i_unsExt i)
    (i_csrInOp i) (i_memBits i) (i_c i) (i_r0 i) (i_r1 i) (i_r2 i) (i_r3 i)
    (i_mask i) (i_aqrl i) (i_pred i) (i_succ i) (i_rm i) (i_csrUpdate i)
    (i_VIType i) (i_csr i) (i_vsew i) (i_vlmul i) (i_nf i) (i_isFF i).
Definition put_type (v : riscvIType) (i : riscvInstrInfo) : riscvInstrInfo :=
  Mk_riscvInstrInfo (i_opcode i) (i_format i) (i_thisPC i) (i_instruction i)
    (i_bytes i) v (i_arch i) (i_explicitType i) (i_explicitW i) (i_unsExt i)
    (i_csrInOp i) (i_memBits i) (i_c i) (i_r0 i) (i_r1 i) (i_r2 i) (i_r3 i)
    (i_mask i) (i_aqrl i) (i_pred i) (i_succ i) (i_rm i) (i_csrUpdate i)
    (i_VIType i) (i_csr i) (i_vsew i) (i_vlmul i) (i_nf i) (i_isFF i).
Definition put_arch (v : Z) (i : riscvInstrInfo) : riscvInstrInfo :=
  Mk_riscvInstrInfo (i_opcode i) (i_format i) (i_thisPC i) (i_instruction i)
    (i_bytes i) (i_type i) v (i_explicitType i) (i_explicitW i) (i_unsExt i)
    (i_csrInOp i) (i_memBits i) (i_c i) (i_r0 i) (i_r1 i) (i_r2 i) (i_r3 i)
    (i_mask i) (i_aqrl i) (i_pred i) (i_succ i) (i_rm i) (i_csrUpdate i)
    (i_VIType i) (i_csr i) (i_vsew i) (i_vlmul i) (i_nf i) (i_isFF i).
Definition put_explicitType (v : bool) (i : riscvInstrInfo) : riscvInstrInfo :=
  Mk_riscvInstrInfo (i_opcode i) (i_format i) (i_thisPC i) (i_instruction i)
    (i_bytes i) (i_type i) (i_arch i) v (i_explicitW i) (i_unsExt i)
    (i_csrInOp i) (i_memBits i) (i_c i) (i_r0 i) (i_r1 i) (i_r2 i) (i_r3 i)
    (i_mask i) (i_aqrl i) (i_pred i) (i_succ i) (i_rm i) (i_csrUpdate i)
    (i_VIType i) (i_csr i) (i_vsew i) (i_vlmul i) (i_nf i) (i_isFF i).
Definition put_explicitW (v : bool) (i : riscvInstrInfo) : riscvInstrInfo :=
  Mk_riscvInstrInfo (i_opcode i) (i_format i) (i_thisPC i) (i_instruction i)
    (i_bytes i) (i_type i) (i_arch i) (i_explicitType i) v (i_unsExt i)
    (i_csrInOp i) (i_memBits i) (i_c i) (i_r0 i) (i_r1 i) (i_r2 i) (i_r3 i)
    (i_mask i) (i_aqrl i) (i_pred i) (i_succ i) (i_rm i) (i_csrUpdate i)
    (i_VIType i) (i_csr i) (i_vsew i) (i_vlmul i) (i_nf i) (i_isFF i).
Definition put_unsExt (v : bool) (i : riscvInstrInfo) : riscvInstrInfo :=
  Mk_riscvInstrInfo (i_opcode i) (i_format i) (i_thisPC i) (i_instruction i)
    (i_bytes i) (i_type i) (i_arch i) (i_explicitType i) (i_explicitW i) v
    (i_csrInOp i) (i_memBits i) (i_c i) (i_r0 i) (i_r1 i) (i_r2 i) (i_r3 i)
    (i_mask i) (i_aqrl i) (i_pred i) (i_succ i) (i_rm i) (i_csrUpdate i)
    (i_VIType i) (i_csr i) (i_vsew i) (i_vlmul i) (i_nf i) (i_isFF i).
Definition put_csrInOp (v : bool) (i : riscvInstrInfo) : riscvInstrInfo :=
  Mk_riscvInstrInfo (i_opcode i) (i_format i) (i_thisPC i) (i_instruction i)
    (i_bytes i) (i_type i) (i_arch i) (i_explicitType i) (i_explicitW i)
    (i_unsExt i) v (i_memBits i) (i_c i) (i_r0 i) (i_r1 i) (i_r2 i) (i_r3 i)
    (i_mask i) (i_aqrl i) (i_pred i) (i_succ i) (i_rm i) (i_csrUpdate i)
    (i_VIType i) (i_csr i) (i_vsew i) (i_vlmul i) (i_nf i) (i_isFF i).
Definition put_memBits (v : Z) (i : riscvInstrInfo) : riscvInstrInfo :=
  Mk_riscvInstrInfo (i_opcode i) (i_format i) (i_thisPC i) (i_instruction i)
    (i_bytes i) (i_type i) (i_arch i) (i_explicitType i) (i_explicitW i)
    (i_unsExt i) (i_csrInOp i) v (i_c i) (i_r0 i) (i_r1 i) (i_r2 i) (i_r3 i)
    (i_mask i) (i_aqrl i) (i_pred i) (i_succ i) (i_rm i) (i_csrUpdate i)
    (i_VIType i) (i_csr i) (i_vsew i) (i_vlmul i) (i_nf i) (i_isFF i).
Definition put_c (v : Z) (i : riscvInstrInfo) : riscvInstrInfo :=
  Mk_riscvInstrInfo (i_opcode i) (i_format i) (i_thisPC i) (i_instruction i)
    (i_bytes i) (i_type i) (i_arch i) (i_explicitType i) (i_explicitW i)
    (i_unsExt i) (i_csrInOp i) (i_memBits i) v (i_r0 i) (i_r1 i) (i_r2 i)
    (i_r3 i) (i_mask i) (i_aqrl i) (i_pred i) (i_succ i) (i_rm i)
    (i_csrUpdate i) (i_VIType i) (i_csr i) (i_vsew i) (i_vlmul i) (i_nf i)
    (i_isFF i).
Definition put_r0 (v : Z) (i : riscvInstrInfo) : riscvInstrInfo :=
  Mk_riscvInstrInfo (i_opcode i) (i_format i) (i_thisPC i) (i_instruction i)
    (i_bytes i) (i_type i) (i_arch i) (i_explicitType i) (i_explicitW i)
    (i_unsExt i) (i_csrInOp i) (i_memBits i) (i_c i) v (i_r1 i) (i_r2 i)
    (i_r3 i) (i_mask i) (i_aqrl i) (i_pred i) (i_succ i) (i_rm i)
    (i_csrUpdate i) (i_VIType i) (i_csr i) (i_vsew i) (i_vlmul i) (i_nf i)
    (i_isFF i).
Definition put_r1 (v : Z) (i : riscvInstrInfo) : riscvInstrInfo :=
  Mk_riscvInstrInfo (i_opcode i) (i_format i) (i_thisPC i) (i_instruction i)
    (i_bytes i) (i_type i) (i_arch i) (i_explicitType i) (i_explicitW i)
    (i_unsExt i) (i_csrInOp i) (i_memBits i) (i_c i) (i_r0 i) v (i_r2 i)
    (i_r3 i) (i_mask i) (i_aqrl i) (i_pred i) (i_succ i) (i_rm i)
    (i_csrUpdate i) (i_VIType i) (i_csr i) (i_vsew i) (i_vlmul i) (i_nf i)
    (i_isFF i).
Definition put_r2 (v : Z) (i : riscvInstrInfo) : riscvInstrInfo :=
  Mk_riscvInstrInfo (i_opcode i) (i_format i) (i_thisPC i) (i_instruction i)
    (i_bytes i) (i_type i) (i_arch i) (i_explicitType i) (i_explicitW i)
    (i_unsExt i) (i_csrInOp i) (i_memBits i) (i_c i) (i_r0 i) (i_r1 i) v
    (i_r3 i) (i_mask i) (i_aqrl i) (i_pred i) (i_succ i) (i_rm i)
    (i_csrUpdate i) (i_VIType i) (i_csr i) (i_vsew i) (i_vlmul i) (i_nf i)
    (i_isFF i).
Definition put_r3 (v : Z) (i : riscvInstrInfo) : riscvInstrInfo :=
  Mk_riscvInstrInfo (i_opcode i) (i_format i) (i_thisPC i) (i_instruction i)
    (i_bytes i) (i_type i) (i_arch i) (i_explicitType i) (i_explicitW i)
    (i_unsExt i) (i_csrInOp i) (i_memBits i) (i_c i) (i_r0 i) (i_r1 i)
    (i_r2 i) v (i_mask i) (i_aqrl i) (i_pred i) (i_succ i) (i_rm i)
    (i_csrUpdate i) (i_VIType i) (i_csr i) (i_vsew i) (i_vlmul i) (i_nf i)
    (i_isFF i).
Definition put_mask (v : Z) (i : riscvInstrInfo) : riscvInstrInfo :=
  Mk_riscvInstrInfo (i_opcode i) (i_format i) (i_thisPC i) (i_instruction i)
    (i_bytes i) (i_type i) (i_arch i) (i_explicitType i) (i_explicitW i)
    (i_unsExt i) (i_csrInOp i) (i_memBits i) (i_c i) (i_r0 i) (i_r1 i)
    (i_r2 i) (i_r3 i) v (i_aqrl i) (i_pred i) (i_succ i) (i_rm i)
    (i_csrUpdate i) (i_VIType i) (i_csr i) (i_vsew i) (i_vlmul i) (i_nf i)
    (i_isFF i).
Definition put_aqrl (v : Z) (i : riscvInstrInfo) : riscvInstrInfo :=
  Mk_riscvInstrInfo (i_opcode i) (i_format i) (i_thisPC i) (i_instruction i)
    (i_bytes i) (i_type i) (i_arch i) (i_explicitType i) (i_explicitW i)
    (i_unsExt i) (i_csrInOp i) (i_memBits i) (i_c i) (i_r0 i) (i_r1 i)
    (i_r2 i) (i_r3 i) (i_mask i) v (i_pred i) (i_succ i) (i_rm i)
    (i_csrUpdate i) (i_VIType i) (i_csr i) (i_vsew i) (i_vlmul i) (i_nf i)
    (i_isFF i).
Definition put_pred (v : Z) (i : riscvInstrInfo) : riscvInstrInfo :=
  Mk_riscvInstrInfo (i_opcode i) (i_format i) (i_thisPC i) (i_instruction i)
    (i_bytes i) (i_type i) (i_arch i) (i_explicitType i) (i_explicitW i)
    (i_unsExt i) (i_csrInOp i) (i_memBits i) (i_c i) (i_r0 i) (i_r1 i)
    (i_r2 i) (i_r3 i) (i_mask i) (i_aqrl i) v (i_succ i) (i_rm i)
    (i_csrUpdate i) (i_VIType i) (i_csr i) (i_vsew i) (i_vlmul i) (i_nf i)
    (i_isFF i).
Definition put_succ (v : Z) (i : riscvInstrInfo) : riscvInstrInfo :=
  Mk_riscvInstrInfo (i_opcode i) (i_format i) (i_thisPC i) (i_instruction i)
    (i_bytes i) (i_type i) (i_arch i) (i_explicitType i) (i_explicitW i)
    (i_unsExt i) (i_csrInOp i) (i_memBits i) (i_c i) (i_r0 i) (i_r1 i)
    (i_r2 i) (i_r3 i) (i_mask i) (i_aqrl i) (i_pred i) v (i_rm i)
    (i_csrUpdate i) (i_VIType i) (i_csr i) (i_vsew i) (i_vlmul i) (i_nf i)
    (i_isFF i).
Definition put_rm (v : riscvRMDesc) (i : riscvInstrInfo) : riscvInstrInfo :=
  Mk_riscvInstrInfo (i_opcode i) (i_format i) (i_thisPC i) (i_instruction i)
    (i_bytes i) (i_type i) (i_arch i) (i_explicitType i) (i_explicitW i)
    (i_unsExt i) (i_csrInOp i) (i_memBits i) (i_c i) (i_r0 i) (i_r1 i)
    (i_r2 i) (i_r3 i) (i_mask i) (i_aqrl i) (i_pred i) (i_succ i) v
    (i_csrUpdate i) (i_VIType i) (i_csr i) (i_vsew i) (i_vlmul i) (i_nf i)
    (i_isFF i).
Definition put_csrUpdate (v : Z) (i : riscvInstrInfo) : riscvInstrInfo :=
  Mk_riscvInstrInfo (i_opcode i) (i_format i) (i_thisPC i) (i_instruction i)
    (i_bytes i) (i_type i) (i_arch i) (i_explicitType i) (i_explicitW i)
    (i_unsExt i) (i_csrInOp i) (i_memBits i) (i_c i) (i_r0 i) (i_r1 i)
    (i_r2 i) (i_r3 i) (i_mask i) (i_aqrl i) (i_pred i) (i_succ i) (i_rm i) v
    (i_VIType i) (i_csr i) (i_vsew i) (i_vlmul i) (i_nf i) (i_isFF i).
Definition put_VIType (v : riscvVIType) (i : riscvInstrInfo) : riscvInstrInfo :=
  Mk_riscvInstrInfo (i_opcode i) (i_format i) (i_thisPC i) (i_instruction i)
    (i_bytes i) (i_type i) (i_arch i) (i_explicitType i) (i_explicitW i)
    (i_unsExt i) (i_csrInOp i) (i_memBits i) (i_c i) (i_r0 i) (i_r1 i)
    (i_r2 i) (i_r3 i) (i_mask i) (i_aqrl i) (i_pred i) (i_succ i) (i_rm i)
    (i_csrUpdate i) v (i_csr i) (i_vsew i) (i_vlmul i) (i_nf i) (i_isFF i).
Definition put_csr (v : Z) (i : riscvInstrInfo) : riscvInstrInfo :=
  Mk_riscvInstrInfo (i_opcode i) (i_format i) (i_thisPC i) (i_instruction i)
    (i_bytes i) (i_type i) (i_arch i) (i_explicitType i) (i_explicitW i)
    (i_unsExt i) (i_csrInOp i) (i_memBits i) (i_c i) (i_r0 i) (i_r1 i)
    (i_r2 i) (i_r3 i) (i_mask i) (i_aqrl i) (i_pred i) (i_succ i) (i_rm i)
    (i_csrUpdate i) (i_VIType i) v (i_vsew i) (i_vlmul i) (i_nf i)
    (i_isFF i).
Definition put_vsew (v : Z) (i : riscvInstrInfo) : riscvInstrInfo :=
  Mk_riscvInstrInfo (i_opcode i) (i_format i) (i_thisPC i) (i_instruction i)
    (i_bytes i) (i_type i) (i_arch i) (i_explicitType i) (i_explicitW i)
    (i_unsExt i) (i_csrInOp i) (i_memBits i) (i_c i) (i_r0 i) (i_r1 i)
    (i_r2 i) (i_r3 i) (i_mask i) (i_aqrl i) (i_pred i) (i_succ i) (i_rm i)
    (i_csrUpdate i) (i_VIType i) (i_csr i) v (i_vlmul i) (i_nf i) (i_isFF i).
Definition put_vlmul (v : Z) (i : riscvInstrInfo) : riscvInstrInfo :=
  Mk_riscvInstrInfo (i_opcode i) (i_format i) (i_thisPC i) (i_instruction i)
    (i_bytes i) (i_type i) (i_arch i) (i_explicitType i) (i_explicitW i)
    (i_unsExt i) (i_csrInOp i) (i_memBits i) (i_c i) (i_r0 i) (i_r1 i)
    (i_r2 i) (i_r3 i) (i_mask i) (i_aqrl i) (i_pred i) (i_succ i) (i_rm i)
    (i_csrUpdate i) (i_VIType i) (i_csr i) (i_vsew i) v (i_nf i) (i_isFF i).
Definition put_nf (v : Z) (i : riscvInstrInfo) : riscvInstrInfo :=
  Mk_riscvInstrInfo (i_opcode i) (i_format i) (i_thisPC i) (i_instruction i)
    (i_bytes i) (i_type i) (i_arch i) (i_explicitType i) (i_explicitW i)
    (i_unsExt i) (i_csrInOp i) (i_memBits i) (i_c i) (i_r0 i) (i_r1 i)
    (i_r2 i) (i_r3 i) (i_mask i) (i_aqrl i) (i_pred i) (i_succ i) (i_rm i)
    (i_csrUpdate i) (i_VIType i) (i_csr i) (i_vsew i) (i_vlmul i) v
    (i_isFF i).
Definition put_isFF (v : bool) (i : riscvInstrInfo) : riscvInstrInfo :=
  Mk_riscvInstrInfo (i_opcode i) (i_format i) (i_thisPC i) (i_instruction i)
    (i_bytes i) (i_type i) (i_arch i) (i_explicitType i) (i_explicitW i)
    (i_unsExt i) (i_csrInOp i) (i_memBits i) (i_c i) (i_r0 i) (i_r1 i)
    (i_r2 i) (i_r3 i) (i_mask i) (i_aqrl i) (i_pred i) (i_succ i) (i_rm i)
    (i_csrUpdate i) (i_VIType i) (i_csr i) (i_vsew i) (i_vlmul i) (i_nf i) v.

(** ** riscvDecode.c: where an instruction keeps each of its fields *)

Inductive csrUpdateSpec : Type :=
  | CSRUS_NA | CSRUS_13_12.

Inductive csrSpec : Type :=
  | CSRS_NA | CSRS_31_20.

Inductive fenceSpec : Type :=
  | FENCES_NA | FENCES_23_20 | FENCES_27_24.

Inductive memBitsSpec : Type :=
  | MBS_NA | MBS_12 | MBS_13_12 | MBS_14_12_V | MBS_W | MBS_D.

Inductive unsExtSpec : Type :=
  | USX_NA | USX_14 | USX_28.

Inductive constSpec : Type :=
  | CS_NA | CS_U_19_15 | CS_S_19_15 | CS_S_31_20 | CS_S_31_25_11_7
  | CS_SHAMT_25_20 | CS_AUIPC | CS_J | CS_B | CS_C_ADDI | CS_C_SLLI
  | CS_C_ADDI16SP | CS_C_ADDI4SPN | CS_C_LUI | CS_C_LW | CS_C_LD
  | CS_C_LWSP | CS_C_LDSP | CS_C_SWSP | CS_C_SDSP | CS_C_B | CS_C_J.

Inductive rSpec : Type :=
  | R_NA | RS_X_ZERO | RS_X_LR | RS_X_SP | RS_X_4_2_P8 | RS_X_6_2
  | RS_X_11_7 | RS_X_19_15 | RS_X_24_20 | RS_X_9_7_P8 | RS_XWL_11_7
  | RS_XWL_19_15 | RS_XX_11_7 | RS_XX_19_15 | RS_F_4_2_P8 | RS_F_6_2
  | RS_F_11_7 | RS_F_19_15 | RS_F_24_20 | RS_F_31_27 | RS_S_19_15
  | RS_D_19_15 | RS_V0 | RS_V_11_7 | RS_V_19_15 | RS_V_24_20 | RS_V_M_25
  | RS_V_11_7_Z26.

Inductive wxSpec : Type :=
  | WX_NA | WX_3 | WX_12 | WX_25 | WX_21_U_20 | WX_W1.

Inductive wfSpec : Type :=
  | WF_NA | WF_25 | WF_MEM | WF_ARCH.

Inductive aqrlSpec : Type :=
  | AQRL_NA | AQRL_26_25.

Inductive rmSpec : Type :=
  | RM_NA | RM_14_12.

Inductive vsewSpec : Type :=
  | VSEW_NA | VSEW_24_22.

Inductive vlmulSpec : Type :=
  | VLMUL_NA | VLMUL_21_20.

Inductive firstFaultSpec : Type :=
  | FF_NA | FF_24.

Inductive numFieldsSpec : Type :=
  | NF_NA | NF_31_29.

(** Attributes of an opcode; a null pointer is [None]. *)
Record opAttrs := Mk_opAttrs {
  a_opcode : option string;
  a_pattern : option string;
  a_format : option string;
  a_arch : Z;
  a_type : riscvIType;
  a_VIType : riscvVIType;
  a_r1 : rSpec;
  a_r2 : rSpec;
  a_r3 : rSpec;
  a_r4 : rSpec;
  a_mask : rSpec;
  a_cs : constSpec;
  a_csr : csrSpec;
  a_csrUpdate : csrUpdateSpec;
  a_wX : wxSpec;
  a_wF : wfSpec;
  a_pred : fenceSpec;
  a_succ : fenceSpec;
  a_memBits : memBitsSpec;
  a_unsExt : unsExtSpec;
  a_priDelta : Z;
  a_aqrl : aqrlSpec;
  a_rm : rmSpec;
  a_vsew : vsewSpec;
  a_vlmul : vlmulSpec;
  a_ff : firstFaultSpec;
  a_nf : numFieldsSpec;
  a_csrInOp : bool;
  a_xQuiet : bool
}.

(** The zero-initialised structure: what a designated initialiser starts
    from. *)
Definition no_attrs : opAttrs :=
  Mk_opAttrs None None None 0 RV_IT_MV_R RV_VIT_NA R_NA R_NA R_NA R_NA R_NA CS_NA CSRS_NA CSRUS_NA WX_NA WF_NA FENCES_NA FENCES_NA MBS_NA USX_NA 0 AQRL_NA RM_NA VSEW_NA VLMUL_NA FF_NA NF_NA false false.

(** One designator [field : value] of an initialiser each; strings are
    given as literals, hence never null. *)
Module Init.

Definition set_opcode (v : option string) (i : opAttrs) : opAttrs :=
  Mk_opAttrs v (a_pattern i) (a_format i) (a_arch i) (a_type i) (a_VIType i)
    (a_r1 i) (a_r2 i) (a_r3 i) (a_r4 i) (a_mask i) (a_cs i) (a_csr i)
    (a_csrUpdate i) (a_wX i) (a_wF i) (a_pred i) (a_succ i) (a_memBits i)
    (a_unsExt i) (a_priDelta i) (a_aqrl i) (a_rm i) (a_vsew i) (a_vlmul i)
    (a_ff i) (a_nf i) (a_csrInOp i) (a_xQuiet i).
Definition set_pattern (v : option string) (i : opAttrs) : opAttrs :=
  Mk_opAttrs (a_opcode i) v (a_format i) (a_arch i) (a_type i) (a_VIType i)
    (a_r1 i) (a_r2 i) (a_r3 i) (a_r4 i) (a_mask i) (a_cs i) (a_csr i)
    (a_csrUpdate i) (a_wX i) (a_wF i) (a_pred i) (a_succ i) (a_memBits i)
    (a_unsExt i) (a_priDelta i) (a_aqrl i) (a_rm i) (a_vsew i) (a_vlmul i)
    (a_ff i) (a_nf i) (a_csrInOp i) (a_xQuiet i).
Definition set_format (v : option string) (i : opAttrs) : opAttrs :=
  Mk_opAttrs (a_opcode i) (a_pattern i) v (a_arch i) (a_type i) (a_VIType i)
    (a_r1 i) (a_r2 i) (a_r3 i) (a_r4 i) (a_mask i) (a_cs i) (a_csr i)
    (a_csrUpdate i) (a_wX i) (a_wF i) (a_pred i) (a_succ i) (a_memBits i)
    (a_unsExt i) (a_priDelta i) (a_aqrl i) (a_rm i) (a_vsew i) (a_vlmul i)
    (a_ff i) (a_nf i) (a_csrInOp i) (a_xQuiet i).
Definition set_arch (v : Z) (i : opAttrs) : opAttrs :=
  Mk_opAttrs (a_opcode i) (a_pattern i) (a_format i) v (a_type i)
    (a_VIType i) (a_r1 i) (a_r2 i) (a_r3 i) (a_r4 i) (a_mask i) (a_cs i)
    (a_csr i) (a_csrUpdate i) (a_wX i) (a_wF i) (a_pred i) (a_succ i)
    (a_memBits i) (a_unsExt i) (a_priDelta i) (a_aqrl i) (a_rm i) (a_vsew i)
    (a_vlmul i) (a_ff i) (a_nf i) (a_csrInOp i) (a_xQuiet i).
Definition set_type (v : riscvIType) (i : opAttrs) : opAttrs :=
  Mk_opAttrs (a_opcode i) (a_pattern i) (a_format i) (a_arch i) v
    (a_VIType i) (a_r1 i) (a_r2 i) (a_r3 i) (a_r4 i) (a_mask i) (a_cs i)
    (a_csr i) (a_csrUpdate i) (a_wX i) (a_wF i) (a_pred i) (a_succ i)
    (a_memBits i) (a_unsExt i) (a_priDelta i) (a_aqrl i) (a_rm i) (a_vsew i)
    (a_vlmul i) (a_ff i) (a_nf i) (a_csrInOp i) (a_xQuiet i).
Definition set_VIType (v : riscvVIType) (i : opAttrs) : opAttrs :=
  Mk_opAttrs (a_opcode i) (a_pattern i) (a_format i) (a_arch i) (a_type i) v
    (a_r1 i) (a_r2 i) (a_r3 i) (a_r4 i) (a_mask i) (a_cs i) (a_csr i)
    (a_csrUpdate i) (a_wX i) (a_wF i) (a_pred i) (a_succ i) (a_memBits i)
    (a_unsExt i) (a_priDelta i) (a_aqrl i) (a_rm i) (a_vsew i) (a_vlmul i)
    (a_ff i) (a_nf i) (a_csrInOp i) (a_xQuiet i).
Definition set_r1 (v : rSpec) (i : opAttrs) : opAttrs :=
  Mk_opAttrs (a_opcode i) (a_pattern i) (a_format i) (a_arch i) (a_type i)
    (a_VIType i) v (a_r2 i) (a_r3 i) (a_r4 i) (a_mask i) (a_cs i) (a_csr i)
    (a_csrUpdate i) (a_wX i) (a_wF i) (a_pred i) (a_succ i) (a_memBits i)
    (a_unsExt i) (a_priDelta i) (a_aqrl i) (a_rm i) (a_vsew i) (a_vlmul i)
    (a_ff i) (a_nf i) (a_csrInOp i) (a_xQuiet i).
Definition set_r2 (v : rSpec) (i : opAttrs) : opAttrs :=
  Mk_opAttrs (a_opcode i) (a_pattern i) (a_format i) (a_arch i) (a_type i)
    (a_VIType i) (a_r1 i) v (a_r3 i) (a_r4 i) (a_mask i) (a_cs i) (a_csr i)
    (a_csrUpdate i) (a_wX i) (a_wF i) (a_pred i) (a_succ i) (a_memBits i)
    (a_unsExt i) (a_priDelta i) (a_aqrl i) (a_rm i) (a_vsew i) (a_vlmul i)
    (a_ff i) (a_nf i) (a_csrInOp i) (a_xQuiet i).
Definition set_r3 (v : rSpec) (i : opAttrs) : opAttrs :=
  Mk_opAttrs (a_opcode i) (a_pattern i) (a_format i) (a_arch i) (a_type i)
    (a_VIType i) (a_r1 i) (a_r2 i) v (a_r4 i) (a_mask i) (a_cs i) (a_csr i)
    (a_csrUpdate i) (a_wX i) (a_wF i) (a_pred i) (a_succ i) (a_memBits i)
    (a_unsExt i) (a_priDelta i) (a_aqrl i) (a_rm i) (a_vsew i) (a_vlmul i)
    (a_ff i) (a_nf i) (a_csrInOp i) (a_xQuiet i).
Definition set_r4 (v : rSpec) (i : opAttrs) : opAttrs :=
  Mk_opAttrs (a_opcode i) (a_pattern i) (a_format i) (a_arch i) (a_type i)
    (a_VIType i) (a_r1 i) (a_r2 i) (a_r3 i) v (a_mask i) (a_cs i) (a_csr i)
    (a_csrUpdate i) (a_wX i) (a_wF i) (a_pred i) (a_succ i) (a_memBits i)
    (a_unsExt i) (a_priDelta i) (a_aqrl i) (a_rm i) (a_vsew i) (a_vlmul i)
    (a_ff i) (a_nf i) (a_csrInOp i) (a_xQuiet i).
Definition set_mask (v : rSpec) (i : opAttrs) : opAttrs :=
  Mk_opAttrs (a_opcode i) (a_pattern i) (a_format i) (a_arch i) (a_type i)
    (a_VIType i) (a_r1 i) (a_r2 i) (a_r3 i) (a_r4 i) v (a_cs i) (a_csr i)
    (a_csrUpdate i) (a_wX i) (a_wF i) (a_pred i) (a_succ i) (a_memBits i)
    (a_unsExt i) (a_priDelta i) (a_aqrl i) (a_rm i) (a_vsew i) (a_vlmul i)
    (a_ff i) (a_nf i) (a_csrInOp i) (a_xQuiet i).
Definition set_cs (v : constSpec) (i : opAttrs) : opAttrs :=
  Mk_opAttrs (a_opcode i) (a_pattern i) (a_format i) (a_arch i) (a_type i)
    (a_VIType i) (a_r1 i) (a_r2 i) (a_r3 i) (a_r4 i) (a_mask i) v (a_csr i)
    (a_csrUpdate i) (a_wX i) (a_wF i) (a_pred i) (a_succ i) (a_memBits i)
    (a_unsExt i) (a_priDelta i) (a_aqrl i) (a_rm i) (a_vsew i) (a_vlmul i)
    (a_ff i) (a_nf i) (a_csrInOp i) (a_xQuiet i).
Definition set_csr (v : csrSpec) (i : opAttrs) : opAttrs :=
  Mk_opAttrs (a_opcode i) (a_pattern i) (a_format i) (a_arch i) (a_type i)
    (a_VIType i) (a_r1 i) (a_r2 i) (a_r3 i) (a_r4 i) (a_mask i) (a_cs i) v
    (a_csrUpdate i) (a_wX i) (a_wF i) (a_pred i) (a_succ i) (a_memBits i)
    (a_unsExt i) (a_priDelta i) (a_aqrl i) (a_rm i) (a_vsew i) (a_vlmul i)
    (a_ff i) (a_nf i) (a_csrInOp i) (a_xQuiet i).
Definition set_csrUpdate (v : csrUpdateSpec) (i : opAttrs) : opAttrs :=
  Mk_opAttrs (a_opcode i) (a_pattern i) (a_format i) (a_arch i) (a_type i)
    (a_VIType i) (a_r1 i) (a_r2 i) (a_r3 i) (a_r4 i) (a_mask i) (a_cs i)
    (a_csr i) v (a_wX i) (a_wF i) (a_pred i) (a_succ i) (a_memBits i)
    (a_unsExt i) (a_priDelta i) (a_aqrl i) (a_rm i) (a_vsew i) (a_vlmul i)
    (a_ff i) (a_nf i) (a_csrInOp i) (a_xQuiet i).
Definition set_wX (v : wxSpec) (i : opAttrs) : opAttrs :=
  Mk_opAttrs (a_opcode i) (a_pattern i) (a_format i) (a_arch i) (a_type i)
    (a_VIType i) (a_r1 i) (a_r2 i) (a_r3 i) (a_r4 i) (a_mask i) (a_cs i)
    (a_csr i) (a_csrUpdate i) v (a_wF i) (a_pred i) (a_succ i) (a_memBits i)
    (a_unsExt i) (a_priDelta i) (a_aqrl i) (a_rm i) (a_vsew i) (a_vlmul i)
    (a_ff i) (a_nf i) (a_csrInOp i) (a_xQuiet i).
Definition set_wF (v : wfSpec) (i : opAttrs) : opAttrs :=
  Mk_opAttrs (a_opcode i) (a_pattern i) (a_format i) (a_arch i) (a_type i)
    (a_VIType i) (a_r1 i) (a_r2 i) (a_r3 i) (a_r4 i) (a_mask i) (a_cs i)
    (a_csr i) (a_csrUpdate i) (a_wX i) v (a_pred i) (a_succ i) (a_memBits i)
    (a_unsExt i) (a_priDelta i) (a_aqrl i) (a_rm i) (a_vsew i) (a_vlmul i)
    (a_ff i) (a_nf i) (a_csrInOp i) (a_xQuiet i).
Definition set_pred (v : fenceSpec) (i : opAttrs) : opAttrs :=
  Mk_opAttrs (a_opcode i) (a_pattern i) (a_format i) (a_arch i) (a_type i)
    (a_VIType i) (a_r1 i) (a_r2 i) (a_r3 i) (a_r4 i) (a_mask i) (a_cs i)
    (a_csr i) (a_csrUpdate i) (a_wX i) (a_wF i) v (a_succ i) (a_memBits i)
    (a_unsExt i) (a_priDelta i) (a_aqrl i) (a_rm i) (a_vsew i) (a_vlmul i)
    (a_ff i) (a_nf i) (a_csrInOp i) (a_xQuiet i).
Definition set_succ (v : fenceSpec) (i : opAttrs) : opAttrs :=
  Mk_opAttrs (a_opcode i) (a_pattern i) (a_format i) (a_arch i) (a_type i)
    (a_VIType i) (a_r1 i) (a_r2 i) (a_r3 i) (a_r4 i) (a_mask i) (a_cs i)
    (a_csr i) (a_csrUpdate i) (a_wX i) (a_wF i) (a_pred i) v (a_memBits i)
    (a_unsExt i) (a_priDelta i) (a_aqrl i) (a_rm i) (a_vsew i) (a_vlmul i)
    (a_ff i) (a_nf i) (a_csrInOp i) (a_xQuiet i).
Definition set_memBits (v : memBitsSpec) (i : opAttrs) : opAttrs :=
  Mk_opAttrs (a_opcode i) (a_pattern i) (a_format i) (a_arch i) (a_type i)
    (a_VIType i) (a_r1 i) (a_r2 i) (a_r3 i) (a_r4 i) (a_mask i) (a_cs i)
    (a_csr i) (a_csrUpdate i) (a_wX i) (a_wF i) (a_pred i) (a_succ i) v
    (a_unsExt i) (a_priDelta i) (a_aqrl i) (a_rm i) (a_vsew i) (a_vlmul i)
    (a_ff i) (a_nf i) (a_csrInOp i) (a_xQuiet i).
Definition set_unsExt (v : unsExtSpec) (i : opAttrs) : opAttrs :=
  Mk_opAttrs (a_opcode i) (a_pattern i) (a_format i) (a_arch i) (a_type i)
    (a_VIType i) (a_r1 i) (a_r2 i) (a_r3 i) (a_r4 i) (a_mask i) (a_cs i)
    (a_csr i) (a_csrUpdate i) (a_wX i) (a_wF i) (a_pred i) (a_succ i)
    (a_memBits i) v (a_priDelta i) (a_aqrl i) (a_rm i) (a_vsew i)
    (a_vlmul i) (a_ff i) (a_nf i) (a_csrInOp i) (a_xQuiet i).
Definition set_priDelta (v : Z) (i : opAttrs) : opAttrs :=
  Mk_opAttrs (a_opcode i) (a_pattern i) (a_format i) (a_arch i) (a_type i)
    (a_VIType i) (a_r1 i) (a_r2 i) (a_r3 i) (a_r4 i) (a_mask i) (a_cs i)
    (a_csr i) (a_csrUpdate i) (a_wX i) (a_wF i) (a_pred i) (a_succ i)
    (a_memBits i) (a_unsExt i) v (a_aqrl i) (a_rm i) (a_vsew i) (a_vlmul i)
    (a_ff i) (a_nf i) (a_csrInOp i) (a_xQuiet i).
Definition set_aqrl (v : aqrlSpec) (i : opAttrs) : opAttrs :=
  Mk_opAttrs (a_opcode i) (a_pattern i) (a_format i) (a_arch i) (a_type i)
    (a_VIType i) (a_r1 i) (a_r2 i) (a_r3 i) (a_r4 i) (a_mask i) (a_cs i)
    (a_csr i) (a_csrUpdate i) (a_wX i) (a_wF i) (a_pred i) (a_succ i)
    (a_memBits i) (a_unsExt i) (a_priDelta i) v (a_rm i) (a_vsew i)
    (a_vlmul i) (a_ff i) (a_nf i) (a_csrInOp i) (a_xQuiet i).
Definition set_rm (v : rmSpec) (i : opAttrs) : opAttrs :=
  Mk_opAttrs (a_opcode i) (a_pattern i) (a_format i) (a_arch i) (a_type i)
    (a_VIType i) (a_r1 i) (a_r2 i) (a_r3 i) (a_r4 i) (a_mask i) (a_cs i)
    (a_csr i) (a_csrUpdate i) (a_wX i) (a_wF i) (a_pred i) (a_succ i)
    (a_memBits i) (a_unsExt i) (a_priDelta i) (a_aqrl i) v (a_vsew i)
    (a_vlmul i) (a_ff i) (a_nf i) (a_csrInOp i) (a_xQuiet i).
Definition set_vsew (v : vsewSpec) (i : opAttrs) : opAttrs :=
  Mk_opAttrs (a_opcode i) (a_pattern i) (a_format i) (a_arch i) (a_type i)
    (a_VIType i) (a_r1 i) (a_r2 i) (a_r3 i) (a_r4 i) (a_mask i) (a_cs i)
    (a_csr i) (a_csrUpdate i) (a_wX i) (a_wF i) (a_pred i) (a_succ i)
    (a_memBits i) (a_unsExt i) (a_priDelta i) (a_aqrl i) (a_rm i) v
    (a_vlmul i) (a_ff i) (a_nf i) (a_csrInOp i) (a_xQuiet i).
Definition set_vlmul (v : vlmulSpec) (i : opAttrs) : opAttrs :=
  Mk_opAttrs (a_opcode i) (a_pattern i) (a_format i) (a_arch i) (a_type i)
    (a_VIType i) (a_r1 i) (a_r2 i) (a_r3 i) (a_r4 i) (a_mask i) (a_cs i)
    (a_csr i) (a_csrUpdate i) (a_wX i) (a_wF i) (a_pred i) (a_succ i)
    (a_memBits i) (a_unsExt i) (a_priDelta i) (a_aqrl i) (a_rm i) (a_vsew i)
    v (a_ff i) (a_nf i) (a_csrInOp i) (a_xQuiet i).
Definition set_ff (v : firstFaultSpec) (i : opAttrs) : opAttrs :=
  Mk_opAttrs (a_opcode i) (a_pattern i) (a_format i) (a_arch i) (a_type i)
    (a_VIType i) (a_r1 i) (a_r2 i) (a_r3 i) (a_r4 i) (a_mask i) (a_cs i)
    (a_csr i) (a_csrUpdate i) (a_wX i) (a_wF i) (a_pred i) (a_succ i)
    (a_memBits i) (a_unsExt i) (a_priDelta i) (a_aqrl i) (a_rm i) (a_vsew i)
    (a_vlmul i) v (a_nf i) (a_csrInOp i) (a_xQuiet i).
Definition set_nf (v : numFieldsSpec) (i : opAttrs) : opAttrs :=
  Mk_opAttrs (a_opcode i) (a_pattern i) (a_format i) (a_arch i) (a_type i)
    (a_VIType i) (a_r1 i) (a_r2 i) (a_r3 i) (a_r4 i) (a_mask i) (a_cs i)
    (a_csr i) (a_csrUpdate i) (a_wX i) (a_wF i) (a_pred i) (a_succ i)
    (a_memBits i) (a_unsExt i) (a_priDelta i) (a_aqrl i) (a_rm i) (a_vsew i)
    (a_vlmul i) (a_ff i) v (a_csrInOp i) (a_xQuiet i).
Definition set_csrInOp (v : bool) (i : opAttrs) : opAttrs :=
  Mk_opAttrs (a_opcode i) (a_pattern i) (a_format i) (a_arch i) (a_type i)
    (a_VIType i) (a_r1 i) (a_r2 i) (a_r3 i) (a_r4 i) (a_mask i) (a_cs i)
    (a_csr i) (a_csrUpdate i) (a_wX i) (a_wF i) (a_pred i) (a_succ i)
    (a_memBits i) (a_unsExt i) (a_priDelta i) (a_aqrl i) (a_rm i) (a_vsew i)
    (a_vlmul i) (a_ff i) (a_nf i) v (a_xQuiet i).
Definition set_xQuiet (v : bool) (i : opAttrs) : opAttrs :=
  Mk_opAttrs (a_opcode i) (a_pattern i) (a_format i) (a_arch i) (a_type i)
    (a_VIType i) (a_r1 i) (a_r2 i) (a_r3 i) (a_r4 i) (a_mask i) (a_cs i)
    (a_csr i) (a_csrUpdate i) (a_wX i) (a_wF i) (a_pred i) (a_succ i)
    (a_memBits i) (a_unsExt i) (a_priDelta i) (a_aqrl i) (a_rm i) (a_vsew i)
    (a_vlmul i) (a_ff i) (a_nf i) (a_csrInOp i) v.

Definition opcode (s : string) := set_opcode (Some s).
Definition pattern (s : string) := set_pattern (Some s).
Definition format (s : string) := set_format (Some s).
Definition arch := set_arch.
Definition type := set_type.
Definition VIType := set_VIType.
Definition r1 := set_r1.
Definition r2 := set_r2.
Definition r3 := set_r3.
Definition r4 := set_r4.
Definition mask := set_mask.
Definition cs := set_cs.
Definition csr := set_csr.
Definition csrUpdate := set_csrUpdate.
Definition wX := set_wX.
Definition wF := set_wF.
Definition pred := set_pred.
Definition succ := set_succ.
Definition memBits := set_memBits.
Definition unsExt := set_unsExt.
Definition priDelta := set_priDelta.
Definition aqrl := set_aqrl.
Definition rm := set_rm.
Definition vsew := set_vsew.
Definition vlmul := set_vlmul.
Definition ff := set_ff.
Definition nf := set_nf.
Definition csrInOp := set_csrInOp.
Definition xQuiet := set_xQuiet.

End Init.

(** An initialiser: its designators applied in order. *)
Definition attrs (l : list (opAttrs -> opAttrs)) : opAttrs :=
  fold_left (fun a f => f a) l no_attrs.

(** ** riscvDisassembleFormats.h: format strings with operand placeholders *)

Abbreviation EMIT_R1_S := (String "001" EmptyString).
Abbreviation EMIT_R2_S := (String "002" EmptyString).
Abbreviation EMIT_R3_S := (String "003" EmptyString).
Abbreviation EMIT_R4_S := (String "004" EmptyString).
Abbreviation EMIT_CS_S := (String "005" EmptyString).
Abbreviation EMIT_CX_S := (String "006" EmptyString).
Abbreviation EMIT_UI_S := (String "007" EmptyString).
Abbreviation EMIT_TGT_S := (String "008" EmptyString).
Abbreviation EMIT_CSR_S := (String "009" EmptyString).
Abbreviation EMIT_PRED_S := (String "010" EmptyString).
Abbreviation EMIT_SUCC_S := (String "011" EmptyString).
Abbreviation EMIT_VTYPE_S := (String "012" EmptyString).
Abbreviation EMIT_RM_S := (String "013" EmptyString).
Abbreviation EMIT_RMR_S := (String "014" EmptyString).
Abbreviation FMT_NONE := (EmptyString)%string.
Abbreviation FMT_R1 := (EMIT_R1_S)%string.
Abbreviation FMT_R1_R2 := (EMIT_R1_S ++ "," ++ EMIT_R2_S)%string.
Abbreviation FMT_R1NZ_R2 := ("*" ++ EMIT_R1_S ++ "," ++ EMIT_R2_S)%string.
Abbreviation FMT_R1_SIMM := (EMIT_R1_S ++ "," ++ EMIT_CS_S)%string.
Abbreviation FMT_R1_R3 := (EMIT_R1_S ++ "," ++ EMIT_R3_S)%string.
Abbreviation FMT_R1_R2_R3 := (EMIT_R1_S ++ "," ++ EMIT_R2_S ++ "," ++ EMIT_R3_S)%string.
Abbreviation FMT_R1_R2_RMR := (EMIT_R1_S ++ "," ++ EMIT_R2_S ++ "," ++ EMIT_RMR_S)%string.
Abbreviation FMT_R1_R2_R3_R4 := (EMIT_R1_S ++ "," ++ EMIT_R2_S ++ "," ++ EMIT_R3_S ++ "," ++ EMIT_R4_S)%string.
Abbreviation FMT_R1_R2_R3_RMR := (EMIT_R1_S ++ "," ++ EMIT_R2_S ++ "," ++ EMIT_R3_S ++ "," ++ EMIT_RMR_S)%string.
Abbreviation FMT_R1_R2_SIMM := (EMIT_R1_S ++ "," ++ EMIT_R2_S ++ "," ++ EMIT_CS_S)%string.
Abbreviation FMT_R1_R2_XIMM := (EMIT_R1_S ++ "," ++ EMIT_R2_S ++ "," ++ EMIT_CX_S)%string.
Abbreviation FMT_R1_R2_TGT := (EMIT_R1_S ++ "," ++ EMIT_R2_S ++ "," ++ EMIT_TGT_S)%string.
Abbreviation FMT_R1_R2_VTYPE := (EMIT_R1_S ++ "," ++ EMIT_R2_S ++ "," ++ EMIT_VTYPE_S)%string.
Abbreviation FMT_R1_MEM2 := (EMIT_R1_S ++ ",(" ++ EMIT_R2_S ++ ")")%string.
Abbreviation FMT_R1_MEM2_RM := (EMIT_R1_S ++ ",(" ++ EMIT_R2_S ++ ")," ++ EMIT_RM_S)%string.
Abbreviation FMT_R1_MEM2_R3_RM := (EMIT_R1_S ++ ",(" ++ EMIT_R2_S ++ ")," ++ EMIT_R3_S ++ "," ++ EMIT_RM_S)%string.
Abbreviation FMT_R1_R3_MEM2_R4_RM := (EMIT_R1_S ++ "," ++ EMIT_R3_S ++ ",(" ++ EMIT_R2_S ++ ")," ++ EMIT_R4_S ++ "," ++ EMIT_RM_S)%string.
Abbreviation FMT_R1_RM := (EMIT_R1_S ++ "," ++ EMIT_RM_S)%string.
Abbreviation FMT_R1_R2_RM := (EMIT_R1_S ++ "," ++ EMIT_R2_S ++ "," ++ EMIT_RM_S)%string.
Abbreviation FMT_R1_R2_R3_RM := (EMIT_R1_S ++ "," ++ EMIT_R2_S ++ "," ++ EMIT_R3_S ++ "," ++ EMIT_RM_S)%string.
Abbreviation FMT_R1_R2_SIMM_RM := (EMIT_R1_S ++ "," ++ EMIT_R2_S ++ "," ++ EMIT_CS_S ++ "," ++ EMIT_RM_S)%string.
Abbreviation FMT_R1_R2_SIMM_RMR := (EMIT_R1_S ++ "," ++ EMIT_R2_S ++ "," ++ EMIT_CS_S ++ "," ++ EMIT_RMR_S)%string.
Abbreviation FMT_R1_R2_XIMM_RM := (EMIT_R1_S ++ "," ++ EMIT_R2_S ++ "," ++ EMIT_CX_S ++ "," ++ EMIT_RM_S)%string.
Abbreviation FMT_R1_R2_MEM3 := (EMIT_R1_S ++ "," ++ EMIT_R2_S ++ ",(" ++ EMIT_R3_S ++ ")")%string.
Abbreviation FMT_R1_OFF_R2 := (EMIT_R1_S ++ "," ++ EMIT_CS_S ++ "(" ++ EMIT_R2_S ++ ")")%string.
Abbreviation FMT_OFF_R2 := (EMIT_CS_S ++ "(" ++ EMIT_R2_S ++ ")")%string.
Abbreviation FMT_R2 := (EMIT_R2_S)%string.
Abbreviation FMT_R1_UI := (EMIT_R1_S ++ "," ++ EMIT_UI_S)%string.
Abbreviation FMT_R1_CSR := (EMIT_R1_S ++ "," ++ EMIT_CSR_S)%string.
Abbreviation FMT_R1_CSR_R2 := (EMIT_R1_S ++ "," ++ EMIT_CSR_S ++ "," ++ EMIT_R2_S)%string.
Abbreviation FMT_R1_CSR_SIMM := (EMIT_R1_S ++ "," ++ EMIT_CSR_S ++ "," ++ EMIT_CS_S)%string.
Abbreviation FMT_CSR_R2 := (EMIT_CSR_S ++ "," ++ EMIT_R2_S)%string.
Abbreviation FMT_CSR_SIMM := (EMIT_CSR_S ++ "," ++ EMIT_CS_S)%string.
Abbreviation FMT_R1_TGT := (EMIT_R1_S ++ "," ++ EMIT_TGT_S)%string.
Abbreviation FMT_R2_TGT := (EMIT_R2_S ++ "," ++ EMIT_TGT_S)%string.
Abbreviation FMT_TGT := (EMIT_TGT_S)%string.
Abbreviation FMT_PRED_SUCC := (EMIT_PRED_S ++ "," ++ EMIT_SUCC_S)%string.
