(* ===== verification/RvAttrs.v ===== *)
(** * The attribute macros of the instruction decoder

    The ATTR32_ / ATTR16_ macros of riscvInstructionInfo.h, each the attributes
    shared by the instructions of one shape.  The macros with the usual
    arguments are gathered in consecutive groups: a type with one constructor
    per macro, whose coercion to a function is the macro's expansion, so that
    the tables apply the macros as the source does.  The macro's argument
    [_NAME] (the array index) is given where the macro is used, in the tables;
    [_GENERIC] is the whole constructor the macro pastes together, and the
    macro of FCVT takes its two pasted register specifications. *)

From S2P Require Import Prelude RvTypes.
Import Init.

(** Macros for integer and memory operations. *)
Inductive operate32_macro :=
  | ATTR32_ADD | ATTR32_ADDI | ATTR32_NOPI | ATTR32_NEG | ATTR32_SLTZ
  | ATTR32_NOP | ATTR32_NOT | ATTR32_LB | ATTR32_SB.

Definition operate32 (m : operate32_macro) (_GENERIC : riscvIType) (_ARCH : Z)
    (_OPCODE _PATTERN : string) : opAttrs :=
  match m with
  | ATTR32_ADD =>
    attrs
      [opcode _OPCODE; pattern _PATTERN; format FMT_R1_R2_R3; type _GENERIC;
       arch _ARCH; r1 RS_X_11_7; r2 RS_X_19_15; r3 RS_X_24_20; wX WX_3]
  | ATTR32_ADDI =>
    attrs
      [opcode _OPCODE; pattern _PATTERN; format FMT_R1_R2_SIMM;
       type _GENERIC; arch _ARCH; r1 RS_X_11_7; r2 RS_X_19_15; cs CS_S_31_20;
       wX WX_3]
  | ATTR32_NOPI =>
    attrs
      [opcode _OPCODE; pattern _PATTERN; format FMT_NONE; type _GENERIC;
       r1 RS_X_11_7; r2 RS_X_19_15; cs CS_S_31_20; arch _ARCH]
  | ATTR32_NEG =>
    attrs
      [opcode _OPCODE; pattern _PATTERN; format FMT_R1_R3; type _GENERIC;
       arch _ARCH; r1 RS_X_11_7; r2 RS_X_19_15; r3 RS_X_24_20; wX WX_3]
  | ATTR32_SLTZ =>
    attrs
      [opcode _OPCODE; pattern _PATTERN; format FMT_R1_R2; type _GENERIC;
       arch _ARCH; r1 RS_X_11_7; r2 RS_X_19_15; r3 RS_X_24_20; wX WX_3;
       priDelta 1]
  | ATTR32_NOP =>
    attrs
      [opcode _OPCODE; pattern _PATTERN; format FMT_NONE; type _GENERIC;
       arch _ARCH]
  | ATTR32_NOT =>
    attrs
      [opcode _OPCODE; pattern _PATTERN; format FMT_R1_R2; type _GENERIC;
       arch _ARCH; r1 RS_X_11_7; r2 RS_X_19_15; cs CS_S_31_20; wX WX_3]
  | ATTR32_LB =>
    attrs
      [opcode _OPCODE; pattern _PATTERN; format FMT_R1_OFF_R2; type _GENERIC;
       arch _ARCH; r1 RS_X_11_7; r2 RS_X_19_15; cs CS_S_31_20;
       memBits MBS_13_12; unsExt USX_14]
  | ATTR32_SB =>
    attrs
      [opcode _OPCODE; pattern _PATTERN; format FMT_R1_OFF_R2; type _GENERIC;
       arch _ARCH; r1 RS_X_24_20; r2 RS_X_19_15; cs CS_S_31_25_11_7;
       memBits MBS_13_12]
  end.

Coercion operate32 : operate32_macro >-> Funclass.

(** Macros for jumps, immediate shifts and CSR accesses. *)
Inductive jump32_macro :=
  | ATTR32_JR | ATTR32_JR0 | ATTR32_JALR | ATTR32_SLLI | ATTR32_CSRRC
  | ATTR32_CSRR | ATTR32_CSRC | ATTR32_CSRRCI | ATTR32_CSRCI | ATTR32_RDX1.

Definition jump32 (m : jump32_macro) (_GENERIC : riscvIType) (_ARCH : Z)
    (_OPCODE _PATTERN : string) : opAttrs :=
  match m with
  | ATTR32_JR =>
    attrs
      [opcode _OPCODE; pattern _PATTERN; format FMT_OFF_R2; type _GENERIC;
       arch _ARCH; r1 RS_X_11_7; r2 RS_X_19_15; cs CS_S_31_20]
  | ATTR32_JR0 =>
    attrs
      [opcode _OPCODE; pattern _PATTERN; format FMT_R2; type _GENERIC;
       arch _ARCH; r1 RS_X_11_7; r2 RS_X_19_15; cs CS_S_31_20]
  | ATTR32_JALR =>
    attrs
      [opcode _OPCODE; pattern _PATTERN; format FMT_R1_OFF_R2; type _GENERIC;
       arch _ARCH; r1 RS_X_11_7; r2 RS_X_19_15; cs CS_S_31_20]
  | ATTR32_SLLI =>
    attrs
      [opcode _OPCODE; pattern _PATTERN; format FMT_R1_R2_XIMM;
       type _GENERIC; arch _ARCH; r1 RS_X_11_7; r2 RS_X_19_15;
       cs CS_SHAMT_25_20; wX WX_3]
  | ATTR32_CSRRC =>
    attrs
      [opcode _OPCODE; pattern _PATTERN; format FMT_R1_CSR_R2; type _GENERIC;
       arch _ARCH; r1 RS_X_11_7; csr CSRS_31_20; csrUpdate CSRUS_13_12;
       r2 RS_X_19_15]
  | ATTR32_CSRR =>
    attrs
      [opcode _OPCODE; pattern _PATTERN; format FMT_R1_CSR; type _GENERIC;
       arch _ARCH; r1 RS_X_11_7; csr CSRS_31_20; csrUpdate CSRUS_13_12;
       r2 RS_X_19_15; priDelta 1]
  | ATTR32_CSRC =>
    attrs
      [opcode _OPCODE; pattern _PATTERN; format FMT_CSR_R2; type _GENERIC;
       arch _ARCH; r1 RS_X_11_7; csr CSRS_31_20; csrUpdate CSRUS_13_12;
       r2 RS_X_19_15]
  | ATTR32_CSRRCI =>
    attrs
      [opcode _OPCODE; pattern _PATTERN; format FMT_R1_CSR_SIMM;
       type _GENERIC; arch _ARCH; r1 RS_X_11_7; csr CSRS_31_20;
       csrUpdate CSRUS_13_12; cs CS_U_19_15]
  | ATTR32_CSRCI =>
    attrs
      [opcode _OPCODE; pattern _PATTERN; format FMT_CSR_SIMM; type _GENERIC;
       arch _ARCH; r1 RS_X_11_7; csr CSRS_31_20; csrUpdate CSRUS_13_12;
       cs CS_U_19_15]
  | ATTR32_RDX1 =>
    attrs
      [opcode _OPCODE; pattern _PATTERN; format FMT_R1; type _GENERIC;
       arch _ARCH; r1 RS_X_11_7; csr CSRS_31_20; csrUpdate CSRUS_13_12;
       r2 RS_X_19_15; csrInOp true]
  end.

Coercion jump32 : jump32_macro >-> Funclass.

(** Macros for fences, branches and atomic operations. *)
Inductive branch32_macro :=
  | ATTR32_FENCE | ATTR32_AUIPC | ATTR32_BEQ | ATTR32_BEQZ | ATTR32_BGTZ
  | ATTR32_J | ATTR32_JAL | ATTR32_AMOADD | ATTR32_LR | ATTR32_FENCE_VMA.

Definition branch32 (m : branch32_macro) (_GENERIC : riscvIType) (_ARCH : Z)
    (_OPCODE _PATTERN : string) : opAttrs :=
  match m with
  | ATTR32_FENCE =>
    attrs
      [opcode _OPCODE; pattern _PATTERN; format FMT_PRED_SUCC; type _GENERIC;
       arch _ARCH; pred FENCES_27_24; succ FENCES_23_20]
  | ATTR32_AUIPC =>
    attrs
      [opcode _OPCODE; pattern _PATTERN; format FMT_R1_UI; type _GENERIC;
       arch _ARCH; r1 RS_X_11_7; cs CS_AUIPC]
  | ATTR32_BEQ =>
    attrs
      [opcode _OPCODE; pattern _PATTERN; format FMT_R1_R2_TGT; type _GENERIC;
       arch _ARCH; r1 RS_X_19_15; r2 RS_X_24_20; cs CS_B]
  | ATTR32_BEQZ =>
    attrs
      [opcode _OPCODE; pattern _PATTERN; format FMT_R1_TGT; type _GENERIC;
       arch _ARCH; r1 RS_X_19_15; r2 RS_X_24_20; cs CS_B]
  | ATTR32_BGTZ =>
    attrs
      [opcode _OPCODE; pattern _PATTERN; format FMT_R2_TGT; type _GENERIC;
       arch _ARCH; r1 RS_X_19_15; r2 RS_X_24_20; cs CS_B; priDelta 1]
  | ATTR32_J =>
    attrs
      [opcode _OPCODE; pattern _PATTERN; format FMT_TGT; type _GENERIC;
       arch _ARCH; r1 RS_X_11_7; cs CS_J]
  | ATTR32_JAL =>
    attrs
      [opcode _OPCODE; pattern _PATTERN; format FMT_R1_TGT; type _GENERIC;
       arch _ARCH; r1 RS_X_11_7; cs CS_J]
  | ATTR32_AMOADD =>
    attrs
      [opcode _OPCODE; pattern _PATTERN; format FMT_R1_R2_MEM3;
       type _GENERIC; arch _ARCH; r1 RS_X_11_7; r2 RS_X_24_20; r3 RS_X_19_15;
       wX WX_12; aqrl AQRL_26_25]
  | ATTR32_LR =>
    attrs
      [opcode _OPCODE; pattern _PATTERN; format FMT_R1_MEM2; type _GENERIC;
       arch _ARCH; r1 RS_X_11_7; r2 RS_X_19_15; wX WX_12; aqrl AQRL_26_25]
  | ATTR32_FENCE_VMA =>
    attrs
      [opcode _OPCODE; pattern _PATTERN; format FMT_R1_R2; type _GENERIC;
       arch _ARCH; r1 RS_X_19_15; r2 RS_X_24_20]
  end.

Coercion branch32 : branch32_macro >-> Funclass.

(** Macros for floating point operations. *)
Inductive float32_macro :=
  | ATTR32_FSQRT | ATTR32_FADD | ATTR32_FMADD | ATTR32_FCLASS | ATTR32_FMAX
  | ATTR32_FEQ | ATTR32_FL | ATTR32_FS.

Definition float32 (m : float32_macro) (_GENERIC : riscvIType) (_ARCH : Z)
    (_OPCODE _PATTERN : string) : opAttrs :=
  match m with
  | ATTR32_FSQRT =>
    attrs
      [opcode _OPCODE; pattern _PATTERN; format FMT_R1_R2; type _GENERIC;
       arch _ARCH; r1 RS_F_11_7; r2 RS_F_19_15; wF WF_25; rm RM_14_12]
  | ATTR32_FADD =>
    attrs
      [opcode _OPCODE; pattern _PATTERN; format FMT_R1_R2_R3; type _GENERIC;
       arch _ARCH; r1 RS_F_11_7; r2 RS_F_19_15; r3 RS_F_24_20; wF WF_25;
       rm RM_14_12]
  | ATTR32_FMADD =>
    attrs
      [opcode _OPCODE; pattern _PATTERN; format FMT_R1_R2_R3_R4;
       type _GENERIC; arch _ARCH; r1 RS_F_11_7; r2 RS_F_19_15; r3 RS_F_24_20;
       r4 RS_F_31_27; wF WF_25; rm RM_14_12]
  | ATTR32_FCLASS =>
    attrs
      [opcode _OPCODE; pattern _PATTERN; format FMT_R1_R2; type _GENERIC;
       arch _ARCH; r1 RS_X_11_7; r2 RS_F_19_15; wF WF_25; xQuiet true]
  | ATTR32_FMAX =>
    attrs
      [opcode _OPCODE; pattern _PATTERN; format FMT_R1_R2_R3; type _GENERIC;
       arch _ARCH; r1 RS_F_11_7; r2 RS_F_19_15; r3 RS_F_24_20; wF WF_25]
  | ATTR32_FEQ =>
    attrs
      [opcode _OPCODE; pattern _PATTERN; format FMT_R1_R2_R3; type _GENERIC;
       arch _ARCH; r1 RS_X_11_7; r2 RS_F_19_15; r3 RS_F_24_20; wF WF_25;
       xQuiet true]
  | ATTR32_FL =>
    attrs
      [opcode _OPCODE; pattern _PATTERN; format FMT_R1_OFF_R2; type _GENERIC;
       arch _ARCH; r1 RS_F_11_7; r2 RS_X_19_15; cs CS_S_31_20;
       memBits MBS_12; wF WF_MEM; xQuiet true]
  | ATTR32_FS =>
    attrs
      [opcode _OPCODE; pattern _PATTERN; format FMT_R1_OFF_R2; type _GENERIC;
       arch _ARCH; r1 RS_F_24_20; r2 RS_X_19_15; cs CS_S_31_25_11_7;
       memBits MBS_12; wF WF_MEM; xQuiet true]
  end.

Coercion float32 : float32_macro >-> Funclass.

Definition ATTR32_FCVT (_GENERIC : riscvIType) (_ARCH : Z) (_OPCODE _PATTERN : string) (_DST _SRC : rSpec) : opAttrs :=
  attrs
    [opcode _OPCODE; pattern _PATTERN; format FMT_R1_R2; type _GENERIC;
     arch _ARCH; r1 _DST; r2 _SRC; wX WX_21_U_20; wF WF_25; rm RM_14_12].

(** Macros for moves between register files. *)
Inductive move32_macro :=
  | ATTR32_FMVFX | ATTR32_FMVXF | ATTR32_FRSR | ATTR32_FSSR | ATTR32_CUSTOM
  | ATTR32_VSETVLI.

Definition move32 (m : move32_macro) (_GENERIC : riscvIType) (_ARCH : Z)
    (_OPCODE _PATTERN : string) : opAttrs :=
  match m with
  | ATTR32_FMVFX =>
    attrs
      [opcode _OPCODE; pattern _PATTERN; format FMT_R1_R2; type _GENERIC;
       arch _ARCH; r1 RS_F_11_7; r2 RS_XX_19_15; wF WF_25; wX WX_25]
  | ATTR32_FMVXF =>
    attrs
      [opcode _OPCODE; pattern _PATTERN; format FMT_R1_R2; type _GENERIC;
       arch _ARCH; r1 RS_XX_11_7; r2 RS_F_19_15; wF WF_25; wX WX_25]
  | ATTR32_FRSR =>
    attrs
      [opcode _OPCODE; pattern _PATTERN; format FMT_R1; type _GENERIC;
       arch _ARCH; r1 RS_X_11_7; csr CSRS_31_20; csrUpdate CSRUS_13_12;
       r2 RS_X_19_15]
  | ATTR32_FSSR =>
    attrs
      [opcode _OPCODE; pattern _PATTERN; format FMT_R1NZ_R2; type _GENERIC;
       arch _ARCH; r1 RS_X_11_7; csr CSRS_31_20; csrUpdate CSRUS_13_12;
       r2 RS_X_19_15]
  | ATTR32_CUSTOM =>
    attrs
      [opcode _OPCODE; pattern _PATTERN; format FMT_NONE; type _GENERIC;
       arch _ARCH]
  | ATTR32_VSETVLI =>
    attrs
      [opcode _OPCODE; pattern _PATTERN; format FMT_R1_R2_VTYPE;
       type _GENERIC; arch _ARCH; r1 RS_X_11_7; r2 RS_X_19_15;
       vsew VSEW_24_22; vlmul VLMUL_21_20; wX WX_3]
  end.

Coercion move32 : move32_macro >-> Funclass.

Definition ATTR32_VL (_GENERIC : riscvIType) (_ARCH : Z) (_OPCODE _PATTERN : string) (_UNS : Z) : opAttrs :=
  attrs
    [opcode _OPCODE; pattern _PATTERN; format FMT_R1_MEM2_RM;
     type _GENERIC; arch _ARCH; r1 RS_V_11_7; r2 RS_X_19_15;
     mask RS_V_M_25; memBits MBS_14_12_V;
     unsExt (if _UNS =? 0 then USX_NA else USX_28); ff FF_24; nf NF_31_29;
     VIType RV_VIT_V].

Definition ATTR32_VLS (_GENERIC : riscvIType) (_ARCH : Z) (_OPCODE _PATTERN : string) (_UNS : Z) : opAttrs :=
  attrs
    [opcode _OPCODE; pattern _PATTERN; format FMT_R1_MEM2_R3_RM;
     type _GENERIC; arch _ARCH; r1 RS_V_11_7; r2 RS_X_19_15; r3 RS_X_24_20;
     mask RS_V_M_25; memBits MBS_14_12_V;
     unsExt (if _UNS =? 0 then USX_NA else USX_28); nf NF_31_29;
     VIType RV_VIT_V].

Definition ATTR32_VLX (_GENERIC : riscvIType) (_ARCH : Z) (_OPCODE _PATTERN : string) (_UNS : Z) : opAttrs :=
  attrs
    [opcode _OPCODE; pattern _PATTERN; format FMT_R1_MEM2_R3_RM;
     type _GENERIC; arch _ARCH; r1 RS_V_11_7; r2 RS_X_19_15; r3 RS_V_24_20;
     mask RS_V_M_25; memBits MBS_14_12_V;
     unsExt (if _UNS =? 0 then USX_NA else USX_28); nf NF_31_29;
     VIType RV_VIT_V].

(** Macros for vector operations on vectors. *)
Inductive vector32_macro :=
  | ATTR32_VAMOADD | ATTR32_V | ATTR32_VV | ATTR32_VVM_CIN | ATTR32_VVM
  | ATTR32_VV3 | ATTR32_VM | ATTR32_VS | ATTR32_MM.

Definition vector32 (m : vector32_macro) (_GENERIC : riscvIType) (_ARCH : Z)
    (_OPCODE _PATTERN : string) : opAttrs :=
  match m with
  | ATTR32_VAMOADD =>
    attrs
      [opcode _OPCODE; pattern _PATTERN; format FMT_R1_R3_MEM2_R4_RM;
       type _GENERIC; arch _ARCH; r1 RS_V_11_7_Z26; r2 RS_X_19_15;
       r3 RS_V_24_20; r4 RS_V_11_7; mask RS_V_M_25; memBits MBS_12;
       VIType RV_VIT_V]
  | ATTR32_V =>
    attrs
      [opcode _OPCODE; pattern _PATTERN; format FMT_R1_R2_RM; type _GENERIC;
       arch _ARCH; r1 RS_V_11_7; r2 RS_V_24_20; mask RS_V_M_25;
       VIType RV_VIT_V]
  | ATTR32_VV =>
    attrs
      [opcode _OPCODE; pattern _PATTERN; format FMT_R1_R2_R3_RM;
       type _GENERIC; arch _ARCH; r1 RS_V_11_7; r2 RS_V_24_20; r3 RS_V_19_15;
       mask RS_V_M_25; VIType RV_VIT_VV]
  | ATTR32_VVM_CIN =>
    attrs
      [opcode _OPCODE; pattern _PATTERN; format FMT_R1_R2_R3_RMR;
       type _GENERIC; arch _ARCH; r1 RS_V_11_7; r2 RS_V_24_20; r3 RS_V_19_15;
       mask RS_V0; VIType RV_VIT_VVM]
  | ATTR32_VVM =>
    attrs
      [opcode _OPCODE; pattern _PATTERN; format FMT_R1_R2_R3_RMR;
       type _GENERIC; arch _ARCH; r1 RS_V_11_7; r2 RS_V_24_20; r3 RS_V_19_15;
       mask RS_V_M_25; VIType RV_VIT_VVM]
  | ATTR32_VV3 =>
    attrs
      [opcode _OPCODE; pattern _PATTERN; format FMT_R1_R2_R3_RM;
       type _GENERIC; arch _ARCH; r1 RS_V_11_7; r2 RS_V_19_15; r3 RS_V_24_20;
       mask RS_V_M_25; VIType RV_VIT_VV]
  | ATTR32_VM =>
    attrs
      [opcode _OPCODE; pattern _PATTERN; format FMT_R1_R2_RMR; type _GENERIC;
       arch _ARCH; r1 RS_V_11_7; r2 RS_V_24_20; mask RS_V_19_15;
       VIType RV_VIT_VM]
  | ATTR32_VS =>
    attrs
      [opcode _OPCODE; pattern _PATTERN; format FMT_R1_R2_R3_RM;
       type _GENERIC; arch _ARCH; r1 RS_V_11_7; r2 RS_V_24_20; r3 RS_V_19_15;
       mask RS_V_M_25; VIType RV_VIT_VS]
  | ATTR32_MM =>
    attrs
      [opcode _OPCODE; pattern _PATTERN; format FMT_R1_R2_R3; type _GENERIC;
       arch _ARCH; r1 RS_V_11_7; r2 RS_V_24_20; r3 RS_V_19_15;
       VIType RV_VIT_MM]
  end.

Coercion vector32 : vector32_macro >-> Funclass.

(** Macros for vector operations with a scalar. *)
Inductive scalar32_macro :=
  | ATTR32_MX | ATTR32_MV | ATTR32_WV | ATTR32_VX | ATTR32_VXM_CIN
  | ATTR32_VXM | ATTR32_VX3 | ATTR32_VF.

Definition scalar32 (m : scalar32_macro) (_GENERIC : riscvIType) (_ARCH : Z)
    (_OPCODE _PATTERN : string) : opAttrs :=
  match m with
  | ATTR32_MX =>
    attrs
      [opcode _OPCODE; pattern _PATTERN; format FMT_R1_R2_RM; type _GENERIC;
       arch _ARCH; r1 RS_X_11_7; r2 RS_V_24_20; mask RS_V_M_25;
       VIType RV_VIT_M]
  | ATTR32_MV =>
    attrs
      [opcode _OPCODE; pattern _PATTERN; format FMT_R1_R2_RM; type _GENERIC;
       arch _ARCH; r1 RS_V_11_7; r2 RS_V_24_20; mask RS_V_M_25;
       VIType RV_VIT_M]
  | ATTR32_WV =>
    attrs
      [opcode _OPCODE; pattern _PATTERN; format FMT_R1_R2_R3_RM;
       type _GENERIC; arch _ARCH; r1 RS_V_11_7; r2 RS_V_24_20; r3 RS_V_19_15;
       mask RS_V_M_25; VIType RV_VIT_WV]
  | ATTR32_VX =>
    attrs
      [opcode _OPCODE; pattern _PATTERN; format FMT_R1_R2_R3_RM;
       type _GENERIC; arch _ARCH; r1 RS_V_11_7; r2 RS_V_24_20; r3 RS_X_19_15;
       mask RS_V_M_25; VIType RV_VIT_VX]
  | ATTR32_VXM_CIN =>
    attrs
      [opcode _OPCODE; pattern _PATTERN; format FMT_R1_R2_R3_RMR;
       type _GENERIC; arch _ARCH; r1 RS_V_11_7; r2 RS_V_24_20; r3 RS_X_19_15;
       mask RS_V0; VIType RV_VIT_VXM]
  | ATTR32_VXM =>
    attrs
      [opcode _OPCODE; pattern _PATTERN; format FMT_R1_R2_R3_RMR;
       type _GENERIC; arch _ARCH; r1 RS_V_11_7; r2 RS_V_24_20; r3 RS_X_19_15;
       mask RS_V_M_25; VIType RV_VIT_VXM]
  | ATTR32_VX3 =>
    attrs
      [opcode _OPCODE; pattern _PATTERN; format FMT_R1_R2_R3_RM;
       type _GENERIC; arch _ARCH; r1 RS_V_11_7; r2 RS_X_19_15; r3 RS_V_24_20;
       mask RS_V_M_25; VIType RV_VIT_VX]
  | ATTR32_VF =>
    attrs
      [opcode _OPCODE; pattern _PATTERN; format FMT_R1_R2_R3_RM;
       type _GENERIC; arch _ARCH; r1 RS_V_11_7; r2 RS_V_24_20; r3 RS_F_19_15;
       mask RS_V_M_25; VIType RV_VIT_VF]
  end.

Coercion scalar32 : scalar32_macro >-> Funclass.

(** Macros for vector operations with an immediate. *)
Inductive mask32_macro :=
  | ATTR32_VFM | ATTR32_VF3 | ATTR32_WF | ATTR32_VI | ATTR32_VIM_CIN
  | ATTR32_VIM | ATTR32_VU | ATTR32_WX.

Definition mask32 (m : mask32_macro) (_GENERIC : riscvIType) (_ARCH : Z)
    (_OPCODE _PATTERN : string) : opAttrs :=
  match m with
  | ATTR32_VFM =>
    attrs
      [opcode _OPCODE; pattern _PATTERN; format FMT_R1_R2_R3_RMR;
       type _GENERIC; arch _ARCH; r1 RS_V_11_7; r2 RS_V_24_20; r3 RS_F_19_15;
       mask RS_V_M_25; VIType RV_VIT_VFM]
  | ATTR32_VF3 =>
    attrs
      [opcode _OPCODE; pattern _PATTERN; format FMT_R1_R2_R3_RM;
       type _GENERIC; arch _ARCH; r1 RS_V_11_7; r2 RS_F_19_15; r3 RS_V_24_20;
       mask RS_V_M_25; VIType RV_VIT_VF]
  | ATTR32_WF =>
    attrs
      [opcode _OPCODE; pattern _PATTERN; format FMT_R1_R2_R3_RM;
       type _GENERIC; arch _ARCH; r1 RS_V_11_7; r2 RS_V_24_20; r3 RS_F_19_15;
       mask RS_V_M_25; VIType RV_VIT_WF]
  | ATTR32_VI =>
    attrs
      [opcode _OPCODE; pattern _PATTERN; format FMT_R1_R2_SIMM_RM;
       type _GENERIC; arch _ARCH; r1 RS_V_11_7; r2 RS_V_24_20; cs CS_S_19_15;
       mask RS_V_M_25; VIType RV_VIT_VI]
  | ATTR32_VIM_CIN =>
    attrs
      [opcode _OPCODE; pattern _PATTERN; format FMT_R1_R2_SIMM_RMR;
       type _GENERIC; arch _ARCH; r1 RS_V_11_7; r2 RS_V_24_20; cs CS_S_19_15;
       mask RS_V0; VIType RV_VIT_VIM]
  | ATTR32_VIM =>
    attrs
      [opcode _OPCODE; pattern _PATTERN; format FMT_R1_R2_SIMM_RMR;
       type _GENERIC; arch _ARCH; r1 RS_V_11_7; r2 RS_V_24_20; cs CS_S_19_15;
       mask RS_V_M_25; VIType RV_VIT_VIM]
  | ATTR32_VU =>
    attrs
      [opcode _OPCODE; pattern _PATTERN; format FMT_R1_R2_SIMM_RM;
       type _GENERIC; arch _ARCH; r1 RS_V_11_7; r2 RS_V_24_20; cs CS_U_19_15;
       mask RS_V_M_25; VIType RV_VIT_VI]
  | ATTR32_WX =>
    attrs
      [opcode _OPCODE; pattern _PATTERN; format FMT_R1_R2_R3_RM;
       type _GENERIC; arch _ARCH; r1 RS_V_11_7; r2 RS_V_24_20; r3 RS_X_19_15;
       mask RS_V_M_25; VIType RV_VIT_WX]
  end.

Coercion mask32 : mask32_macro >-> Funclass.

(** Macros for vector element moves. *)
Inductive element32_macro :=
  | ATTR32_VID | ATTR32_VEXT | ATTR32_VMV_S_X | ATTR32_VFMV_F_S
  | ATTR32_VFMV_S_F.

Definition element32 (m : element32_macro) (_GENERIC : riscvIType) (_ARCH : Z)
    (_OPCODE _PATTERN : string) : opAttrs :=
  match m with
  | ATTR32_VID =>
    attrs
      [opcode _OPCODE; pattern _PATTERN; format FMT_R1_RM; type _GENERIC;
       arch _ARCH; r1 RS_V_11_7; mask RS_V_M_25; VIType RV_VIT_V]
  | ATTR32_VEXT =>
    attrs
      [opcode _OPCODE; pattern _PATTERN; format FMT_R1_R2_R3; type _GENERIC;
       arch _ARCH; r1 RS_X_11_7; r2 RS_V_24_20; r3 RS_X_19_15; VIType RV_VIT_V]
  | ATTR32_VMV_S_X =>
    attrs
      [opcode _OPCODE; pattern _PATTERN; format FMT_R1_R2; type _GENERIC;
       arch _ARCH; r1 RS_V_11_7; r2 RS_X_19_15; VIType RV_VIT_NA]
  | ATTR32_VFMV_F_S =>
    attrs
      [opcode _OPCODE; pattern _PATTERN; format FMT_R1_R2; type _GENERIC;
       arch _ARCH; r1 RS_F_11_7; r2 RS_V_24_20; VIType RV_VIT_NA; wF WF_ARCH]
  | ATTR32_VFMV_S_F =>
    attrs
      [opcode _OPCODE; pattern _PATTERN; format FMT_R1_R2; type _GENERIC;
       arch _ARCH; r1 RS_V_11_7; r2 RS_F_19_15; VIType RV_VIT_NA; wF WF_ARCH]
  end.

Coercion element32 : element32_macro >-> Funclass.

Definition ATTR32_LAST (_GENERIC : riscvIType) (_OPCODE : string) : opAttrs :=
  attrs
    [opcode _OPCODE; format FMT_NONE; type _GENERIC].

(** Macros for compressed arithmetic. *)
Inductive operate16_macro :=
  | ATTR16_NOP | ATTR16_ADD | ATTR16_AND | ATTR16_ADDW | ATTR16_MV
  | ATTR16_ADDI | ATTR16_ADDI16SP | ATTR16_ADDI4SPN | ATTR16_ADDIW
  | ATTR16_ANDI | ATTR16_SLLI.

Definition operate16 (m : operate16_macro) (_GENERIC : riscvIType) (_ARCH : Z)
    (_OPCODE _PATTERN : string) : opAttrs :=
  match m with
  | ATTR16_NOP =>
    attrs
      [opcode _OPCODE; pattern _PATTERN; format FMT_NONE; type _GENERIC;
       arch _ARCH]
  | ATTR16_ADD =>
    attrs
      [opcode _OPCODE; pattern _PATTERN; format FMT_R1_R2_R3; type _GENERIC;
       arch _ARCH; r1 RS_X_11_7; r2 RS_X_11_7; r3 RS_X_6_2]
  | ATTR16_AND =>
    attrs
      [opcode _OPCODE; pattern _PATTERN; format FMT_R1_R2_R3; type _GENERIC;
       arch _ARCH; r1 RS_X_9_7_P8; r2 RS_X_9_7_P8; r3 RS_X_4_2_P8]
  | ATTR16_ADDW =>
    attrs
      [opcode _OPCODE; pattern _PATTERN; format FMT_R1_R2_R3; type _GENERIC;
       arch _ARCH; r1 RS_X_9_7_P8; r2 RS_X_9_7_P8; r3 RS_X_4_2_P8; wX WX_W1]
  | ATTR16_MV =>
    attrs
      [opcode _OPCODE; pattern _PATTERN; format FMT_R1_R2; type _GENERIC;
       arch _ARCH; r1 RS_X_11_7; r2 RS_X_6_2]
  | ATTR16_ADDI =>
    attrs
      [opcode _OPCODE; pattern _PATTERN; format FMT_R1_R2_SIMM;
       type _GENERIC; arch _ARCH; r1 RS_X_11_7; r2 RS_X_11_7; cs CS_C_ADDI]
  | ATTR16_ADDI16SP =>
    attrs
      [opcode _OPCODE; pattern _PATTERN; format FMT_R1_R2_SIMM;
       type _GENERIC; arch _ARCH; r1 RS_X_SP; r2 RS_X_SP; cs CS_C_ADDI16SP]
  | ATTR16_ADDI4SPN =>
    attrs
      [opcode _OPCODE; pattern _PATTERN; format FMT_R1_R2_SIMM;
       type _GENERIC; arch _ARCH; r1 RS_X_4_2_P8; r2 RS_X_SP; cs CS_C_ADDI4SPN]
  | ATTR16_ADDIW =>
    attrs
      [opcode _OPCODE; pattern _PATTERN; format FMT_R1_R2_SIMM;
       type _GENERIC; arch _ARCH; r1 RS_X_11_7; r2 RS_X_11_7; cs CS_C_ADDI;
       wX WX_W1]
  | ATTR16_ANDI =>
    attrs
      [opcode _OPCODE; pattern _PATTERN; format FMT_R1_R2_SIMM;
       type _GENERIC; arch _ARCH; r1 RS_X_9_7_P8; r2 RS_X_9_7_P8; cs CS_C_ADDI]
  | ATTR16_SLLI =>
    attrs
      [opcode _OPCODE; pattern _PATTERN; format FMT_R1_R2_XIMM;
       type _GENERIC; arch _ARCH; r1 RS_X_11_7; r2 RS_X_11_7; cs CS_C_SLLI]
  end.

Coercion operate16 : operate16_macro >-> Funclass.

(** Macros for compressed branches, jumps and constants. *)
Inductive control16_macro :=
  | ATTR16_SRAI | ATTR16_BEQZ | ATTR16_J | ATTR16_JAL | ATTR16_JR
  | ATTR16_JALR | ATTR16_LI | ATTR16_LUI.

Definition control16 (m : control16_macro) (_GENERIC : riscvIType) (_ARCH : Z)
    (_OPCODE _PATTERN : string) : opAttrs :=
  match m with
  | ATTR16_SRAI =>
    attrs
      [opcode _OPCODE; pattern _PATTERN; format FMT_R1_R2_XIMM;
       type _GENERIC; arch _ARCH; r1 RS_X_9_7_P8; r2 RS_X_9_7_P8; cs CS_C_SLLI]
  | ATTR16_BEQZ =>
    attrs
      [opcode _OPCODE; pattern _PATTERN; format FMT_R1_TGT; type _GENERIC;
       arch _ARCH; r1 RS_X_9_7_P8; r2 RS_X_ZERO; cs CS_C_B]
  | ATTR16_J =>
    attrs
      [opcode _OPCODE; pattern _PATTERN; format FMT_TGT; type _GENERIC;
       arch _ARCH; r1 RS_X_ZERO; cs CS_C_J]
  | ATTR16_JAL =>
    attrs
      [opcode _OPCODE; pattern _PATTERN; format FMT_R1_TGT; type _GENERIC;
       arch _ARCH; r1 RS_X_LR; cs CS_C_J]
  | ATTR16_JR =>
    attrs
      [opcode _OPCODE; pattern _PATTERN; format FMT_R2; type _GENERIC;
       arch _ARCH; r1 RS_X_ZERO; r2 RS_X_11_7]
  | ATTR16_JALR =>
    attrs
      [opcode _OPCODE; pattern _PATTERN; format FMT_R2; type _GENERIC;
       arch _ARCH; r1 RS_X_LR; r2 RS_X_11_7]
  | ATTR16_LI =>
    attrs
      [opcode _OPCODE; pattern _PATTERN; format FMT_R1_SIMM; type _GENERIC;
       arch _ARCH; r1 RS_X_11_7; r2 RS_X_ZERO; cs CS_C_ADDI]
  | ATTR16_LUI =>
    attrs
      [opcode _OPCODE; pattern _PATTERN; format FMT_R1_UI; type _GENERIC;
       arch _ARCH; r1 RS_X_11_7; r2 RS_X_ZERO; cs CS_C_LUI]
  end.

Coercion control16 : control16_macro >-> Funclass.

(** Macros for compressed loads and stores. *)
Inductive memory16_macro :=
  | ATTR16_LD | ATTR16_LDSP | ATTR16_SDSP | ATTR16_LW | ATTR16_LWSP
  | ATTR16_SWSP | ATTR16_FLD | ATTR16_FLDSP.

Definition memory16 (m : memory16_macro) (_GENERIC : riscvIType) (_ARCH : Z)
    (_OPCODE _PATTERN : string) : opAttrs :=
  match m with
  | ATTR16_LD =>
    attrs
      [opcode _OPCODE; pattern _PATTERN; format FMT_R1_OFF_R2; type _GENERIC;
       arch _ARCH; r1 RS_X_4_2_P8; r2 RS_X_9_7_P8; cs CS_C_LD; memBits MBS_D]
  | ATTR16_LDSP =>
    attrs
      [opcode _OPCODE; pattern _PATTERN; format FMT_R1_OFF_R2; type _GENERIC;
       arch _ARCH; r1 RS_X_11_7; r2 RS_X_SP; cs CS_C_LDSP; memBits MBS_D]
  | ATTR16_SDSP =>
    attrs
      [opcode _OPCODE; pattern _PATTERN; format FMT_R1_OFF_R2; type _GENERIC;
       arch _ARCH; r1 RS_X_6_2; r2 RS_X_SP; cs CS_C_SDSP; memBits MBS_D]
  | ATTR16_LW =>
    attrs
      [opcode _OPCODE; pattern _PATTERN; format FMT_R1_OFF_R2; type _GENERIC;
       arch _ARCH; r1 RS_X_4_2_P8; r2 RS_X_9_7_P8; cs CS_C_LW; memBits MBS_W;
       wF WF_MEM; xQuiet true]
  | ATTR16_LWSP =>
    attrs
      [opcode _OPCODE; pattern _PATTERN; format FMT_R1_OFF_R2; type _GENERIC;
       arch _ARCH; r1 RS_X_11_7; r2 RS_X_SP; cs CS_C_LWSP; memBits MBS_W;
       wF WF_MEM; xQuiet true]
  | ATTR16_SWSP =>
    attrs
      [opcode _OPCODE; pattern _PATTERN; format FMT_R1_OFF_R2; type _GENERIC;
       arch _ARCH; r1 RS_X_6_2; r2 RS_X_SP; cs CS_C_SWSP; memBits MBS_W]
  | ATTR16_FLD =>
    attrs
      [opcode _OPCODE; pattern _PATTERN; format FMT_R1_OFF_R2; type _GENERIC;
       arch _ARCH; r1 RS_F_4_2_P8; r2 RS_X_9_7_P8; cs CS_C_LD; memBits MBS_D;
       wF WF_MEM; xQuiet true]
  | ATTR16_FLDSP =>
    attrs
      [opcode _OPCODE; pattern _PATTERN; format FMT_R1_OFF_R2; type _GENERIC;
       arch _ARCH; r1 RS_F_11_7; r2 RS_X_SP; cs CS_C_LDSP; memBits MBS_D;
       wF WF_MEM; xQuiet true]
  end.

Coercion memory16 : memory16_macro >-> Funclass.

(** Macros for compressed floating point loads and stores. *)
Inductive store16_macro :=
  | ATTR16_FSDSP | ATTR16_FLW | ATTR16_FLWSP | ATTR16_FSWSP.

Definition store16 (m : store16_macro) (_GENERIC : riscvIType) (_ARCH : Z)
    (_OPCODE _PATTERN : string) : opAttrs :=
  match m with
  | ATTR16_FSDSP =>
    attrs
      [opcode _OPCODE; pattern _PATTERN; format FMT_R1_OFF_R2; type _GENERIC;
       arch _ARCH; r1 RS_F_6_2; r2 RS_X_SP; cs CS_C_SDSP; memBits MBS_D;
       wF WF_MEM; xQuiet true]
  | ATTR16_FLW =>
    attrs
      [opcode _OPCODE; pattern _PATTERN; format FMT_R1_OFF_R2; type _GENERIC;
       arch _ARCH; r1 RS_F_4_2_P8; r2 RS_X_9_7_P8; cs CS_C_LW; memBits MBS_W;
       wF WF_MEM; xQuiet true]
  | ATTR16_FLWSP =>
    attrs
      [opcode _OPCODE; pattern _PATTERN; format FMT_R1_OFF_R2; type _GENERIC;
       arch _ARCH; r1 RS_F_11_7; r2 RS_X_SP; cs CS_C_LWSP; memBits MBS_W;
       wF WF_MEM; xQuiet true]
  | ATTR16_FSWSP =>
    attrs
      [opcode _OPCODE; pattern _PATTERN; format FMT_R1_OFF_R2; type _GENERIC;
       arch _ARCH; r1 RS_F_6_2; r2 RS_X_SP; cs CS_C_SWSP; memBits MBS_W;
       wF WF_MEM; xQuiet true]
  end.

Coercion store16 : store16_macro >-> Funclass.

Definition ATTR16_LAST (_GENERIC : riscvIType) (_OPCODE : string) : opAttrs :=
  attrs
    [opcode _OPCODE; format FMT_NONE; type _GENERIC].
