(* ===== verification/RvTables.v ===== *)
(** * The instruction tables of the decoder

    The encodings the decoder distinguishes (riscvIType32, riscvIType16) and
    the attribute arrays indexed by them (attrsArray32, attrsArray16), as
    riscvDecode.c lists them; each array is cut in parts, in the order of the
    source.  A decode pattern reads from bit 31 (or 15) down to bit 0. *)

From S2P Require Import Prelude RvTypes RvAttrs.
Local Open Scope string_scope.
Local Open Scope list_scope.
Local Open Scope Z_scope.


(** 32-bit encodings, pseudo-instructions included. *)
Inductive riscvIType32 : Type :=
  | IT32_ADD_R | IT32_AND_R | IT32_OR_R | IT32_NEG_R | IT32_SGTZ_R
  | IT32_SLL_R | IT32_SLT_R | IT32_SLTU_R | IT32_SLTZ_R | IT32_SNEZ_R
  | IT32_SRA_R | IT32_SRL_R | IT32_SUB_R | IT32_XOR_R | IT32_DIV_R
  | IT32_DIVU_R | IT32_MUL_R | IT32_MULH_R | IT32_MULHSU_R | IT32_MULHU_R
  | IT32_REM_R | IT32_REMU_R | IT32_ADDI_I | IT32_ANDI_I | IT32_JR_I
  | IT32_JR0_I | IT32_JALR_I | IT32_JALR0_I | IT32_MV_I | IT32_NOP_I
  | IT32_NOT_I | IT32_ORI_I | IT32_RET_I | IT32_SEQZ_I | IT32_SEXTW_I
  | IT32_SLLI_I | IT32_SLTI_I | IT32_SLTIU_I | IT32_SRAI_I | IT32_SRLI_I
  | IT32_XORI_I | IT32_LB_I | IT32_LBU_I | IT32_LH_I | IT32_LHU_I
  | IT32_LW_I | IT32_LWU_I | IT32_LD_I | IT32_SB_I | IT32_SH_I | IT32_SW_I
  | IT32_SD_I | IT32_CSRRC_I | IT32_CSRRS_I | IT32_CSRRW_I | IT32_CSRR_I
  | IT32_CSRC_I | IT32_CSRS_I | IT32_CSRW_I | IT32_RDX1_I | IT32_RDX2_I
  | IT32_CSRRCI_I | IT32_CSRRSI_I | IT32_CSRRWI_I | IT32_CSRCI_I
  | IT32_CSRSI_I | IT32_CSRWI_I | IT32_EBREAK_I | IT32_ECALL_I
  | IT32_FENCEI_I | IT32_MRET_I | IT32_SRET_I | IT32_URET_I | IT32_WFI_I
  | IT32_FENCE_I | IT32_FENCE_VMA_R | IT32_AUIPC_U | IT32_LUI_U
  | IT32_BEQ_B | IT32_BEQZ_B | IT32_BGE_B | IT32_BGEZ_B | IT32_BLEZ_B
  | IT32_BGEU_B | IT32_BLT_B | IT32_BLTZ_B | IT32_BGTZ_B | IT32_BLTU_B
  | IT32_BNE_B | IT32_BNEZ_B | IT32_J_J | IT32_JAL_J | IT32_AMOADD_R
  | IT32_AMOAND_R | IT32_AMOMAX_R | IT32_AMOMAXU_R | IT32_AMOMIN_R
  | IT32_AMOMINU_R | IT32_AMOOR_R | IT32_AMOSWAP_R | IT32_AMOXOR_R
  | IT32_LR_R | IT32_SC_R | IT32_FADD_R | IT32_FCLASS_R | IT32_FCVT_F_X_R
  | IT32_FCVT_X_F_R | IT32_FCVT_D_S_R | IT32_FCVT_S_D_R | IT32_FDIV_R
  | IT32_FEQ_R | IT32_FLE_R | IT32_FLT_R | IT32_FMAX_R | IT32_FMIN_R
  | IT32_FMUL_R | IT32_FMVFX_R | IT32_FMVXF_R | IT32_FSGNJ_R
  | IT32_FSGNJN_R | IT32_FSGNJX_R | IT32_FSQRT_R | IT32_FSUB_R
  | IT32_FMADD_R4 | IT32_FMSUB_R4 | IT32_FNMADD_R4 | IT32_FNMSUB_R4
  | IT32_FL_I | IT32_FS_I | IT32_FRSR_I | IT32_FRFLAGS_I | IT32_FRRM_I
  | IT32_FSSR_I | IT32_FSFLAGS_I | IT32_FSRM_I | IT32_CUSTOM1
  | IT32_CUSTOM2 | IT32_CUSTOM3 | IT32_CUSTOM4 | IT32_VSETVL_R
  | IT32_VSETVL_I | IT32_VLB_I | IT32_VLSB_I | IT32_VLXB_I | IT32_VSB_I
  | IT32_VSSB_I | IT32_VSXB_I | IT32_VSUXB_I | IT32_VLH_I | IT32_VLSH_I
  | IT32_VLXH_I | IT32_VSH_I | IT32_VSSH_I | IT32_VSXH_I | IT32_VSUXH_I
  | IT32_VLW_I | IT32_VLSW_I | IT32_VLXW_I | IT32_VSW_I | IT32_VSSW_I
  | IT32_VSXW_I | IT32_VSUXW_I | IT32_VLE_I | IT32_VLSE_I | IT32_VLXE_I
  | IT32_VSE_I | IT32_VSSE_I | IT32_VSXE_I | IT32_VSUXE_I | IT32_VAMOADD_R
  | IT32_VAMOAND_R | IT32_VAMOMAX_R | IT32_VAMOMAXU_R | IT32_VAMOMIN_R
  | IT32_VAMOMINU_R | IT32_VAMOOR_R | IT32_VAMOSWAP_R | IT32_VAMOXOR_R
  | IT32_VADD_VV | IT32_VSUB_VV | IT32_VMINU_VV | IT32_VMIN_VV
  | IT32_VMAXU_VV | IT32_VMAX_VV | IT32_VAND_VV | IT32_VOR_VV
  | IT32_VXOR_VV | IT32_VRGATHER_VV | IT32_VADC_VV | IT32_VMADC_VV
  | IT32_VSBC_VV | IT32_VMSBC_VV | IT32_VMERGEM_VV | IT32_VMERGE0_VV
  | IT32_VSEQ_VV | IT32_VSNE_VV | IT32_VSLTU_VV | IT32_VSLT_VV
  | IT32_VSLEU_VV | IT32_VSLE_VV | IT32_VSGTU_VV | IT32_VSGT_VV
  | IT32_VSADDU_VV | IT32_VSADD_VV | IT32_VSSUBU_VV | IT32_VSSUB_VV
  | IT32_VAADD_VV | IT32_VSLL_VV | IT32_VASUB_VV | IT32_VSMUL_VV
  | IT32_VSRL_VV | IT32_VSRA_VV | IT32_VSSRL_VV | IT32_VSSRA_VV
  | IT32_VNSRL_VV | IT32_VNSRA_VV | IT32_VNCLIPU_VV | IT32_VNCLIP_VV
  | IT32_VWREDSUMU_VS | IT32_VWREDSUM_VS | IT32_VDOTU_VV | IT32_VDOT_VV
  | IT32_VWSMACCU_VV | IT32_VWSMACC_VV | IT32_VWSMACCSU_VV | IT32_VFADD_VV
  | IT32_VFREDSUM_VS | IT32_VFSUB_VV | IT32_VFREDOSUM_VS | IT32_VFMIN_VV
  | IT32_VFREDMIN_VS | IT32_VFMAX_VV | IT32_VFREDMAX_VS | IT32_VFSGNJ_VV
  | IT32_VFSGNJN_VV | IT32_VFSGNJX_VV | IT32_VFMV_F_S | IT32_VFEQ_VV
  | IT32_VFLTE_VV | IT32_VFORD_VV | IT32_VFLT_VV | IT32_VFNE_VV
  | IT32_VFDIV_VV | IT32_VFCVT_XUF_V | IT32_VFCVT_XF_V | IT32_VFCVT_FXU_V
  | IT32_VFCVT_FX_V | IT32_VFWCVT_XUF_V | IT32_VFWCVT_XF_V
  | IT32_VFWCVT_FXU_V | IT32_VFWCVT_FX_V | IT32_VFWCVT_FF_V
  | IT32_VFNCVT_XUF_V | IT32_VFNCVT_XF_V | IT32_VFNCVT_FXU_V
  | IT32_VFNCVT_FX_V | IT32_VFNCVT_FF_V | IT32_VFSQRT_V | IT32_VFCLASS_V
  | IT32_VFMUL_VV | IT32_VFMADD_VV | IT32_VFNMADD_VV | IT32_VFMSUB_VV
  | IT32_VFNMSUB_VV | IT32_VFMACC_VV | IT32_VFNMACC_VV | IT32_VFMSAC_VV
  | IT32_VFNMSAC_VV | IT32_VFWADD_VV | IT32_VFWREDSUM_VS | IT32_VFWSUB_VV
  | IT32_VFWREDOSUM_VS | IT32_VFWADD_WV | IT32_VFWSUB_WV | IT32_VFWMUL_VV
  | IT32_VFDOT_VV | IT32_VFWMACC_VV | IT32_VFWNMACC_VV | IT32_VFWMSAC_VV
  | IT32_VFWNMSAC_VV | IT32_VREDSUM_VS | IT32_VREDAND_VS | IT32_VREDOR_VS
  | IT32_VREDXOR_VS | IT32_VREDMINU_VS | IT32_VREDMIN_VS | IT32_VREDMAXU_VS
  | IT32_VREDMAX_VS | IT32_VEXT_X_V | IT32_VMPOPC_M | IT32_VMFIRST_M
  | IT32_VMSBF_M | IT32_VMSOF_M | IT32_VMSIF_M | IT32_VIOTA_M | IT32_VID_V
  | IT32_VCOMPRESS_VM | IT32_VMANDNOT_MM | IT32_VMAND_MM | IT32_VMOR_MM
  | IT32_VMXOR_MM | IT32_VMORNOT_MM | IT32_VMNAND_MM | IT32_VMNOR_MM
  | IT32_VMXNOR_MM | IT32_VDIVU_VV | IT32_VDIV_VV | IT32_VREMU_VV
  | IT32_VREM_VV | IT32_VMULHU_VV | IT32_VMUL_VV | IT32_VMULHSU_VV
  | IT32_VMULH_VV | IT32_VMADD_VV | IT32_VNMSUB_VV | IT32_VMACC_VV
  | IT32_VNMSAC_VV | IT32_VWADDU_VV | IT32_VWADD_VV | IT32_VWSUBU_VV
  | IT32_VWSUB_VV | IT32_VWADDU_WV | IT32_VWADD_WV | IT32_VWSUBU_WV
  | IT32_VWSUB_WV | IT32_VWMULU_VV | IT32_VWMULSU_VV | IT32_VWMUL_VV
  | IT32_VWMACCU_VV | IT32_VWMACC_VV | IT32_VWMACCSU_VV | IT32_VADD_VI
  | IT32_VRSUB_VI | IT32_VAND_VI | IT32_VOR_VI | IT32_VXOR_VI
  | IT32_VRGATHER_VI | IT32_VSLIDEUP_VI | IT32_VSLIDEDOWN_VI | IT32_VADC_VI
  | IT32_VMADC_VI | IT32_VMERGEM_VI | IT32_VMERGE0_VI | IT32_VSEQ_VI
  | IT32_VSNE_VI | IT32_VSLEU_VI | IT32_VSLE_VI | IT32_VSGTU_VI
  | IT32_VSGT_VI | IT32_VSADDU_VI | IT32_VSADD_VI | IT32_VAADD_VI
  | IT32_VSLL_VI | IT32_VSRL_VI | IT32_VSRA_VI | IT32_VSSRL_VI
  | IT32_VSSRA_VI | IT32_VNSRL_VI | IT32_VNSRA_VI | IT32_VNCLIPU_VI
  | IT32_VNCLIP_VI | IT32_VADD_VX | IT32_VSUB_VX | IT32_VRSUB_VX
  | IT32_VMINU_VX | IT32_VMIN_VX | IT32_VMAXU_VX | IT32_VMAX_VX
  | IT32_VAND_VX | IT32_VOR_VX | IT32_VXOR_VX | IT32_VRGATHER_VX
  | IT32_VSLIDEUP_VX | IT32_VSLIDEDOWN_VX | IT32_VADC_VX | IT32_VMADC_VX
  | IT32_VSBC_VX | IT32_VMSBC_VX | IT32_VMERGEM_VX | IT32_VMERGE0_VX
  | IT32_VSEQ_VX | IT32_VSNE_VX | IT32_VSLTU_VX | IT32_VSLT_VX
  | IT32_VSLEU_VX | IT32_VSLE_VX | IT32_VSGTU_VX | IT32_VSGT_VX
  | IT32_VSADDU_VX | IT32_VSADD_VX | IT32_VSSUBU_VX | IT32_VSSUB_VX
  | IT32_VAADD_VX | IT32_VSLL_VX | IT32_VASUB_VX | IT32_VSMUL_VX
  | IT32_VSRL_VX | IT32_VSRA_VX | IT32_VSSRL_VX | IT32_VSSRA_VX
  | IT32_VNSRL_VX | IT32_VNSRA_VX | IT32_VNCLIPU_VX | IT32_VNCLIP_VX
  | IT32_VWSMACCU_VX | IT32_VWSMACC_VX | IT32_VWSMACCSU_VX
  | IT32_VWSMACCUS_VX | IT32_VFADD_VF | IT32_VFSUB_VF | IT32_VFMIN_VF
  | IT32_VFMAX_VF | IT32_VFSGNJ_VF | IT32_VFSGNJN_VF | IT32_VFSGNJX_VF
  | IT32_VFMV_S_F | IT32_VFMERGEM_VF | IT32_VFMERGE0_VF | IT32_VFEQ_VF
  | IT32_VFLTE_VF | IT32_VFORD_VF | IT32_VFLT_VF | IT32_VFNE_VF
  | IT32_VFGT_VF | IT32_VFGTE_VF | IT32_VFDIV_VF | IT32_VFRDIV_VF
  | IT32_VFMUL_VF | IT32_VFRSUB_VF | IT32_VFMADD_VF | IT32_VFNMADD_VF
  | IT32_VFMSUB_VF | IT32_VFNMSUB_VF | IT32_VFMACC_VF | IT32_VFNMACC_VF
  | IT32_VFMSAC_VF | IT32_VFNMSAC_VF | IT32_VFWADD_VF | IT32_VFWSUB_VF
  | IT32_VFWADD_WF | IT32_VFWSUB_WF | IT32_VFWMUL_VF | IT32_VFWMACC_VF
  | IT32_VFWNMACC_VF | IT32_VFWMSAC_VF | IT32_VFWNMSAC_VF | IT32_VMV_S_X
  | IT32_VSLIDE1UP_VX | IT32_VSLIDE1DOWN_VX | IT32_VDIVU_VX | IT32_VDIV_VX
  | IT32_VREMU_VX | IT32_VREM_VX | IT32_VMULHU_VX | IT32_VMUL_VX
  | IT32_VMULHSU_VX | IT32_VMULH_VX | IT32_VMADD_VX | IT32_VNMSUB_VX
  | IT32_VMACC_VX | IT32_VNMSAC_VX | IT32_VWADDU_VX | IT32_VWADD_VX
  | IT32_VWSUBU_VX | IT32_VWSUB_VX | IT32_VWADDU_WX | IT32_VWADD_WX
  | IT32_VWSUBU_WX | IT32_VWSUB_WX | IT32_VWMULU_VX | IT32_VWMULSU_VX
  | IT32_VWMUL_VX | IT32_VWMACCU_VX | IT32_VWMACC_VX | IT32_VWMACCSU_VX
  | IT32_VWMACCUS_VX | IT32_LAST.

(** 16-bit encodings. *)
Inductive riscvIType16 : Type :=
  | IT16_ADD_R | IT16_ADDW_R | IT16_AND_R | IT16_MV_R | IT16_OR_R
  | IT16_SUB_R | IT16_SUBW_R | IT16_XOR_R | IT16_ADDI_I | IT16_ADDI16SP_I
  | IT16_ADDI4SPN_I | IT16_ADDIW_I | IT16_ANDI_I | IT16_SLLI_I
  | IT16_SRAI_I | IT16_SRLI_I | IT16_LI_I | IT16_LUI_I | IT16_JR_I
  | IT16_JALR_I | IT16_LD_I | IT16_LDSP_I | IT16_LW_I | IT16_LWSP_I
  | IT16_SD_I | IT16_SDSP_I | IT16_SW_I | IT16_SWSP_I | IT16_EBREAK_I
  | IT16_BEQZ_B | IT16_BNEZ_B | IT16_J_J | IT16_JAL_J | IT16_FLD_I
  | IT16_FLDSP_I | IT16_FLW_I | IT16_FLWSP_I | IT16_FSD_I | IT16_FSDSP_I
  | IT16_FSW_I | IT16_FSWSP_I | IT16_UD1 | IT16_RES1 | IT16_RES2
  | IT16_RES3 | IT16_RES4 | IT16_RES5 | IT16_RES6 | IT16_LAST.

(** The enumerators before the last one, in order: the values the loop that
    creates the table goes through. *)
Definition all32 : list riscvIType32 :=
  [IT32_ADD_R; IT32_AND_R; IT32_OR_R; IT32_NEG_R; IT32_SGTZ_R; IT32_SLL_R;
   IT32_SLT_R; IT32_SLTU_R; IT32_SLTZ_R; IT32_SNEZ_R; IT32_SRA_R;
   IT32_SRL_R; IT32_SUB_R; IT32_XOR_R; IT32_DIV_R; IT32_DIVU_R; IT32_MUL_R;
   IT32_MULH_R; IT32_MULHSU_R; IT32_MULHU_R; IT32_REM_R; IT32_REMU_R;
   IT32_ADDI_I; IT32_ANDI_I; IT32_JR_I; IT32_JR0_I; IT32_JALR_I;
   IT32_JALR0_I; IT32_MV_I; IT32_NOP_I; IT32_NOT_I; IT32_ORI_I; IT32_RET_I;
   IT32_SEQZ_I; IT32_SEXTW_I; IT32_SLLI_I; IT32_SLTI_I; IT32_SLTIU_I;
   IT32_SRAI_I; IT32_SRLI_I; IT32_XORI_I; IT32_LB_I; IT32_LBU_I; IT32_LH_I;
   IT32_LHU_I; IT32_LW_I; IT32_LWU_I; IT32_LD_I; IT32_SB_I; IT32_SH_I;
   IT32_SW_I; IT32_SD_I; IT32_CSRRC_I; IT32_CSRRS_I; IT32_CSRRW_I;
   IT32_CSRR_I; IT32_CSRC_I; IT32_CSRS_I; IT32_CSRW_I; IT32_RDX1_I;
   IT32_RDX2_I; IT32_CSRRCI_I; IT32_CSRRSI_I; IT32_CSRRWI_I; IT32_CSRCI_I;
   IT32_CSRSI_I; IT32_CSRWI_I; IT32_EBREAK_I; IT32_ECALL_I; IT32_FENCEI_I;
   IT32_MRET_I; IT32_SRET_I; IT32_URET_I; IT32_WFI_I; IT32_FENCE_I;
   IT32_FENCE_VMA_R; IT32_AUIPC_U; IT32_LUI_U; IT32_BEQ_B; IT32_BEQZ_B;
   IT32_BGE_B; IT32_BGEZ_B; IT32_BLEZ_B; IT32_BGEU_B; IT32_BLT_B;
   IT32_BLTZ_B; IT32_BGTZ_B; IT32_BLTU_B; IT32_BNE_B; IT32_BNEZ_B;
   IT32_J_J; IT32_JAL_J; IT32_AMOADD_R; IT32_AMOAND_R; IT32_AMOMAX_R;
   IT32_AMOMAXU_R; IT32_AMOMIN_R; IT32_AMOMINU_R; IT32_AMOOR_R;
   IT32_AMOSWAP_R; IT32_AMOXOR_R; IT32_LR_R; IT32_SC_R; IT32_FADD_R;
   IT32_FCLASS_R; IT32_FCVT_F_X_R; IT32_FCVT_X_F_R; IT32_FCVT_D_S_R;
   IT32_FCVT_S_D_R; IT32_FDIV_R; IT32_FEQ_R; IT32_FLE_R; IT32_FLT_R;
   IT32_FMAX_R; IT32_FMIN_R; IT32_FMUL_R; IT32_FMVFX_R; IT32_FMVXF_R;
   IT32_FSGNJ_R; IT32_FSGNJN_R; IT32_FSGNJX_R; IT32_FSQRT_R; IT32_FSUB_R;
   IT32_FMADD_R4; IT32_FMSUB_R4; IT32_FNMADD_R4; IT32_FNMSUB_R4; IT32_FL_I;
   IT32_FS_I; IT32_FRSR_I; IT32_FRFLAGS_I; IT32_FRRM_I; IT32_FSSR_I;
   IT32_FSFLAGS_I; IT32_FSRM_I; IT32_CUSTOM1; IT32_CUSTOM2; IT32_CUSTOM3;
   IT32_CUSTOM4; IT32_VSETVL_R; IT32_VSETVL_I; IT32_VLB_I; IT32_VLSB_I;
   IT32_VLXB_I; IT32_VSB_I; IT32_VSSB_I; IT32_VSXB_I; IT32_VSUXB_I;
   IT32_VLH_I; IT32_VLSH_I; IT32_VLXH_I; IT32_VSH_I; IT32_VSSH_I;
   IT32_VSXH_I; IT32_VSUXH_I; IT32_VLW_I; IT32_VLSW_I; IT32_VLXW_I;
   IT32_VSW_I; IT32_VSSW_I; IT32_VSXW_I; IT32_VSUXW_I; IT32_VLE_I;
   IT32_VLSE_I; IT32_VLXE_I; IT32_VSE_I; IT32_VSSE_I; IT32_VSXE_I;
   IT32_VSUXE_I; IT32_VAMOADD_R; IT32_VAMOAND_R; IT32_VAMOMAX_R;
   IT32_VAMOMAXU_R; IT32_VAMOMIN_R; IT32_VAMOMINU_R; IT32_VAMOOR_R;
   IT32_VAMOSWAP_R; IT32_VAMOXOR_R; IT32_VADD_VV; IT32_VSUB_VV;
   IT32_VMINU_VV; IT32_VMIN_VV; IT32_VMAXU_VV; IT32_VMAX_VV; IT32_VAND_VV;
   IT32_VOR_VV; IT32_VXOR_VV; IT32_VRGATHER_VV; IT32_VADC_VV;
   IT32_VMADC_VV; IT32_VSBC_VV; IT32_VMSBC_VV; IT32_VMERGEM_VV;
   IT32_VMERGE0_VV; IT32_VSEQ_VV; IT32_VSNE_VV; IT32_VSLTU_VV;
   IT32_VSLT_VV; IT32_VSLEU_VV; IT32_VSLE_VV; IT32_VSGTU_VV; IT32_VSGT_VV;
   IT32_VSADDU_VV; IT32_VSADD_VV; IT32_VSSUBU_VV; IT32_VSSUB_VV;
   IT32_VAADD_VV; IT32_VSLL_VV; IT32_VASUB_VV; IT32_VSMUL_VV; IT32_VSRL_VV;
   IT32_VSRA_VV; IT32_VSSRL_VV; IT32_VSSRA_VV; IT32_VNSRL_VV;
   IT32_VNSRA_VV; IT32_VNCLIPU_VV; IT32_VNCLIP_VV; IT32_VWREDSUMU_VS;
   IT32_VWREDSUM_VS; IT32_VDOTU_VV; IT32_VDOT_VV; IT32_VWSMACCU_VV;
   IT32_VWSMACC_VV; IT32_VWSMACCSU_VV; IT32_VFADD_VV; IT32_VFREDSUM_VS;
   IT32_VFSUB_VV; IT32_VFREDOSUM_VS; IT32_VFMIN_VV; IT32_VFREDMIN_VS;
   IT32_VFMAX_VV; IT32_VFREDMAX_VS; IT32_VFSGNJ_VV; IT32_VFSGNJN_VV;
   IT32_VFSGNJX_VV; IT32_VFMV_F_S; IT32_VFEQ_VV; IT32_VFLTE_VV;
   IT32_VFORD_VV; IT32_VFLT_VV; IT32_VFNE_VV; IT32_VFDIV_VV;
   IT32_VFCVT_XUF_V; IT32_VFCVT_XF_V; IT32_VFCVT_FXU_V; IT32_VFCVT_FX_V;
   IT32_VFWCVT_XUF_V; IT32_VFWCVT_XF_V; IT32_VFWCVT_FXU_V;
   IT32_VFWCVT_FX_V; IT32_VFWCVT_FF_V; IT32_VFNCVT_XUF_V; IT32_VFNCVT_XF_V;
   IT32_VFNCVT_FXU_V; IT32_VFNCVT_FX_V; IT32_VFNCVT_FF_V; IT32_VFSQRT_V;
   IT32_VFCLASS_V; IT32_VFMUL_VV; IT32_VFMADD_VV; IT32_VFNMADD_VV;
   IT32_VFMSUB_VV; IT32_VFNMSUB_VV; IT32_VFMACC_VV; IT32_VFNMACC_VV;
   IT32_VFMSAC_VV; IT32_VFNMSAC_VV; IT32_VFWADD_VV; IT32_VFWREDSUM_VS;
   IT32_VFWSUB_VV; IT32_VFWREDOSUM_VS; IT32_VFWADD_WV; IT32_VFWSUB_WV;
   IT32_VFWMUL_VV; IT32_VFDOT_VV; IT32_VFWMACC_VV; IT32_VFWNMACC_VV;
   IT32_VFWMSAC_VV; IT32_VFWNMSAC_VV; IT32_VREDSUM_VS; IT32_VREDAND_VS;
   IT32_VREDOR_VS; IT32_VREDXOR_VS; IT32_VREDMINU_VS; IT32_VREDMIN_VS;
   IT32_VREDMAXU_VS; IT32_VREDMAX_VS; IT32_VEXT_X_V; IT32_VMPOPC_M;
   IT32_VMFIRST_M; IT32_VMSBF_M; IT32_VMSOF_M; IT32_VMSIF_M; IT32_VIOTA_M;
   IT32_VID_V; IT32_VCOMPRESS_VM; IT32_VMANDNOT_MM; IT32_VMAND_MM;
   IT32_VMOR_MM; IT32_VMXOR_MM; IT32_VMORNOT_MM; IT32_VMNAND_MM;
   IT32_VMNOR_MM; IT32_VMXNOR_MM; IT32_VDIVU_VV; IT32_VDIV_VV;
   IT32_VREMU_VV; IT32_VREM_VV; IT32_VMULHU_VV; IT32_VMUL_VV;
   IT32_VMULHSU_VV; IT32_VMULH_VV; IT32_VMADD_VV; IT32_VNMSUB_VV;
   IT32_VMACC_VV; IT32_VNMSAC_VV; IT32_VWADDU_VV; IT32_VWADD_VV;
   IT32_VWSUBU_VV; IT32_VWSUB_VV; IT32_VWADDU_WV; IT32_VWADD_WV;
   IT32_VWSUBU_WV; IT32_VWSUB_WV; IT32_VWMULU_VV; IT32_VWMULSU_VV;
   IT32_VWMUL_VV; IT32_VWMACCU_VV; IT32_VWMACC_VV; IT32_VWMACCSU_VV;
   IT32_VADD_VI; IT32_VRSUB_VI; IT32_VAND_VI; IT32_VOR_VI; IT32_VXOR_VI;
   IT32_VRGATHER_VI; IT32_VSLIDEUP_VI; IT32_VSLIDEDOWN_VI; IT32_VADC_VI;
   IT32_VMADC_VI; IT32_VMERGEM_VI; IT32_VMERGE0_VI; IT32_VSEQ_VI;
   IT32_VSNE_VI; IT32_VSLEU_VI; IT32_VSLE_VI; IT32_VSGTU_VI; IT32_VSGT_VI;
   IT32_VSADDU_VI; IT32_VSADD_VI; IT32_VAADD_VI; IT32_VSLL_VI;
   IT32_VSRL_VI; IT32_VSRA_VI; IT32_VSSRL_VI; IT32_VSSRA_VI; IT32_VNSRL_VI;
   IT32_VNSRA_VI; IT32_VNCLIPU_VI; IT32_VNCLIP_VI; IT32_VADD_VX;
   IT32_VSUB_VX; IT32_VRSUB_VX; IT32_VMINU_VX; IT32_VMIN_VX; IT32_VMAXU_VX;
   IT32_VMAX_VX; IT32_VAND_VX; IT32_VOR_VX; IT32_VXOR_VX; IT32_VRGATHER_VX;
   IT32_VSLIDEUP_VX; IT32_VSLIDEDOWN_VX; IT32_VADC_VX; IT32_VMADC_VX;
   IT32_VSBC_VX; IT32_VMSBC_VX; IT32_VMERGEM_VX; IT32_VMERGE0_VX;
   IT32_VSEQ_VX; IT32_VSNE_VX; IT32_VSLTU_VX; IT32_VSLT_VX; IT32_VSLEU_VX;
   IT32_VSLE_VX; IT32_VSGTU_VX; IT32_VSGT_VX; IT32_VSADDU_VX;
   IT32_VSADD_VX; IT32_VSSUBU_VX; IT32_VSSUB_VX; IT32_VAADD_VX;
   IT32_VSLL_VX; IT32_VASUB_VX; IT32_VSMUL_VX; IT32_VSRL_VX; IT32_VSRA_VX;
   IT32_VSSRL_VX; IT32_VSSRA_VX; IT32_VNSRL_VX; IT32_VNSRA_VX;
   IT32_VNCLIPU_VX; IT32_VNCLIP_VX; IT32_VWSMACCU_VX; IT32_VWSMACC_VX;
   IT32_VWSMACCSU_VX; IT32_VWSMACCUS_VX; IT32_VFADD_VF; IT32_VFSUB_VF;
   IT32_VFMIN_VF; IT32_VFMAX_VF; IT32_VFSGNJ_VF; IT32_VFSGNJN_VF;
   IT32_VFSGNJX_VF; IT32_VFMV_S_F; IT32_VFMERGEM_VF; IT32_VFMERGE0_VF;
   IT32_VFEQ_VF; IT32_VFLTE_VF; IT32_VFORD_VF; IT32_VFLT_VF; IT32_VFNE_VF;
   IT32_VFGT_VF; IT32_VFGTE_VF; IT32_VFDIV_VF; IT32_VFRDIV_VF;
   IT32_VFMUL_VF; IT32_VFRSUB_VF; IT32_VFMADD_VF; IT32_VFNMADD_VF;
   IT32_VFMSUB_VF; IT32_VFNMSUB_VF; IT32_VFMACC_VF; IT32_VFNMACC_VF;
   IT32_VFMSAC_VF; IT32_VFNMSAC_VF; IT32_VFWADD_VF; IT32_VFWSUB_VF;
   IT32_VFWADD_WF; IT32_VFWSUB_WF; IT32_VFWMUL_VF; IT32_VFWMACC_VF;
   IT32_VFWNMACC_VF; IT32_VFWMSAC_VF; IT32_VFWNMSAC_VF; IT32_VMV_S_X;
   IT32_VSLIDE1UP_VX; IT32_VSLIDE1DOWN_VX; IT32_VDIVU_VX; IT32_VDIV_VX;
   IT32_VREMU_VX; IT32_VREM_VX; IT32_VMULHU_VX; IT32_VMUL_VX;
   IT32_VMULHSU_VX; IT32_VMULH_VX; IT32_VMADD_VX; IT32_VNMSUB_VX;
   IT32_VMACC_VX; IT32_VNMSAC_VX; IT32_VWADDU_VX; IT32_VWADD_VX;
   IT32_VWSUBU_VX; IT32_VWSUB_VX; IT32_VWADDU_WX; IT32_VWADD_WX;
   IT32_VWSUBU_WX; IT32_VWSUB_WX; IT32_VWMULU_VX; IT32_VWMULSU_VX;
   IT32_VWMUL_VX; IT32_VWMACCU_VX; IT32_VWMACC_VX; IT32_VWMACCSU_VX;
   IT32_VWMACCUS_VX].

(** The integer value of an enumerator. *)
Definition index32 (t : riscvIType32) : Z :=
  match t with
  | IT32_ADD_R => 0 | IT32_AND_R => 1 | IT32_OR_R => 2 | IT32_NEG_R => 3
  | IT32_SGTZ_R => 4 | IT32_SLL_R => 5 | IT32_SLT_R => 6 | IT32_SLTU_R => 7
  | IT32_SLTZ_R => 8 | IT32_SNEZ_R => 9 | IT32_SRA_R => 10
  | IT32_SRL_R => 11 | IT32_SUB_R => 12 | IT32_XOR_R => 13
  | IT32_DIV_R => 14 | IT32_DIVU_R => 15 | IT32_MUL_R => 16
  | IT32_MULH_R => 17 | IT32_MULHSU_R => 18 | IT32_MULHU_R => 19
  | IT32_REM_R => 20 | IT32_REMU_R => 21 | IT32_ADDI_I => 22
  | IT32_ANDI_I => 23 | IT32_JR_I => 24 | IT32_JR0_I => 25
  | IT32_JALR_I => 26 | IT32_JALR0_I => 27 | IT32_MV_I => 28
  | IT32_NOP_I => 29 | IT32_NOT_I => 30 | IT32_ORI_I => 31
  | IT32_RET_I => 32 | IT32_SEQZ_I => 33 | IT32_SEXTW_I => 34
  | IT32_SLLI_I => 35 | IT32_SLTI_I => 36 | IT32_SLTIU_I => 37
  | IT32_SRAI_I => 38 | IT32_SRLI_I => 39 | IT32_XORI_I => 40
  | IT32_LB_I => 41 | IT32_LBU_I => 42 | IT32_LH_I => 43 | IT32_LHU_I => 44
  | IT32_LW_I => 45 | IT32_LWU_I => 46 | IT32_LD_I => 47 | IT32_SB_I => 48
  | IT32_SH_I => 49 | IT32_SW_I => 50 | IT32_SD_I => 51
  | IT32_CSRRC_I => 52 | IT32_CSRRS_I => 53 | IT32_CSRRW_I => 54
  | IT32_CSRR_I => 55 | IT32_CSRC_I => 56 | IT32_CSRS_I => 57
  | IT32_CSRW_I => 58 | IT32_RDX1_I => 59 | IT32_RDX2_I => 60
  | IT32_CSRRCI_I => 61 | IT32_CSRRSI_I => 62 | IT32_CSRRWI_I => 63
  | IT32_CSRCI_I => 64 | IT32_CSRSI_I => 65 | IT32_CSRWI_I => 66
  | IT32_EBREAK_I => 67 | IT32_ECALL_I => 68 | IT32_FENCEI_I => 69
  | IT32_MRET_I => 70 | IT32_SRET_I => 71 | IT32_URET_I => 72
  | IT32_WFI_I => 73 | IT32_FENCE_I => 74 | IT32_FENCE_VMA_R => 75
  | IT32_AUIPC_U => 76 | IT32_LUI_U => 77 | IT32_BEQ_B => 78
  | IT32_BEQZ_B => 79 | IT32_BGE_B => 80 | IT32_BGEZ_B => 81
  | IT32_BLEZ_B => 82 | IT32_BGEU_B => 83 | IT32_BLT_B => 84
  | IT32_BLTZ_B => 85 | IT32_BGTZ_B => 86 | IT32_BLTU_B => 87
  | IT32_BNE_B => 88 | IT32_BNEZ_B => 89 | IT32_J_J => 90
  | IT32_JAL_J => 91 | IT32_AMOADD_R => 92 | IT32_AMOAND_R => 93
  | IT32_AMOMAX_R => 94 | IT32_AMOMAXU_R => 95 | IT32_AMOMIN_R => 96
  | IT32_AMOMINU_R => 97 | IT32_AMOOR_R => 98 | IT32_AMOSWAP_R => 99
  | IT32_AMOXOR_R => 100 | IT32_LR_R => 101 | IT32_SC_R => 102
  | IT32_FADD_R => 103 | IT32_FCLASS_R => 104 | IT32_FCVT_F_X_R => 105
  | IT32_FCVT_X_F_R => 106 | IT32_FCVT_D_S_R => 107
  | IT32_FCVT_S_D_R => 108 | IT32_FDIV_R => 109 | IT32_FEQ_R => 110
  | IT32_FLE_R => 111 | IT32_FLT_R => 112 | IT32_FMAX_R => 113
  | IT32_FMIN_R => 114 | IT32_FMUL_R => 115 | IT32_FMVFX_R => 116
  | IT32_FMVXF_R => 117 | IT32_FSGNJ_R => 118 | IT32_FSGNJN_R => 119
  | IT32_FSGNJX_R => 120 | IT32_FSQRT_R => 121 | IT32_FSUB_R => 122
  | IT32_FMADD_R4 => 123 | IT32_FMSUB_R4 => 124 | IT32_FNMADD_R4 => 125
  | IT32_FNMSUB_R4 => 126 | IT32_FL_I => 127 | IT32_FS_I => 128
  | IT32_FRSR_I => 129 | IT32_FRFLAGS_I => 130 | IT32_FRRM_I => 131
  | IT32_FSSR_I => 132 | IT32_FSFLAGS_I => 133 | IT32_FSRM_I => 134
  | IT32_CUSTOM1 => 135 | IT32_CUSTOM2 => 136 | IT32_CUSTOM3 => 137
  | IT32_CUSTOM4 => 138 | IT32_VSETVL_R => 139 | IT32_VSETVL_I => 140
  | IT32_VLB_I => 141 | IT32_VLSB_I => 142 | IT32_VLXB_I => 143
  | IT32_VSB_I => 144 | IT32_VSSB_I => 145 | IT32_VSXB_I => 146
  | IT32_VSUXB_I => 147 | IT32_VLH_I => 148 | IT32_VLSH_I => 149
  | IT32_VLXH_I => 150 | IT32_VSH_I => 151 | IT32_VSSH_I => 152
  | IT32_VSXH_I => 153 | IT32_VSUXH_I => 154 | IT32_VLW_I => 155
  | IT32_VLSW_I => 156 | IT32_VLXW_I => 157 | IT32_VSW_I => 158
  | IT32_VSSW_I => 159 | IT32_VSXW_I => 160 | IT32_VSUXW_I => 161
  | IT32_VLE_I => 162 | IT32_VLSE_I => 163 | IT32_VLXE_I => 164
  | IT32_VSE_I => 165 | IT32_VSSE_I => 166 | IT32_VSXE_I => 167
  | IT32_VSUXE_I => 168 | IT32_VAMOADD_R => 169 | IT32_VAMOAND_R => 170
  | IT32_VAMOMAX_R => 171 | IT32_VAMOMAXU_R => 172 | IT32_VAMOMIN_R => 173
  | IT32_VAMOMINU_R => 174 | IT32_VAMOOR_R => 175 | IT32_VAMOSWAP_R => 176
  | IT32_VAMOXOR_R => 177 | IT32_VADD_VV => 178 | IT32_VSUB_VV => 179
  | IT32_VMINU_VV => 180 | IT32_VMIN_VV => 181 | IT32_VMAXU_VV => 182
  | IT32_VMAX_VV => 183 | IT32_VAND_VV => 184 | IT32_VOR_VV => 185
  | IT32_VXOR_VV => 186 | IT32_VRGATHER_VV => 187 | IT32_VADC_VV => 188
  | IT32_VMADC_VV => 189 | IT32_VSBC_VV => 190 | IT32_VMSBC_VV => 191
  | IT32_VMERGEM_VV => 192 | IT32_VMERGE0_VV => 193 | IT32_VSEQ_VV => 194
  | IT32_VSNE_VV => 195 | IT32_VSLTU_VV => 196 | IT32_VSLT_VV => 197
  | IT32_VSLEU_VV => 198 | IT32_VSLE_VV => 199 | IT32_VSGTU_VV => 200
  | IT32_VSGT_VV => 201 | IT32_VSADDU_VV => 202 | IT32_VSADD_VV => 203
  | IT32_VSSUBU_VV => 204 | IT32_VSSUB_VV => 205 | IT32_VAADD_VV => 206
  | IT32_VSLL_VV => 207 | IT32_VASUB_VV => 208 | IT32_VSMUL_VV => 209
  | IT32_VSRL_VV => 210 | IT32_VSRA_VV => 211 | IT32_VSSRL_VV => 212
  | IT32_VSSRA_VV => 213 | IT32_VNSRL_VV => 214 | IT32_VNSRA_VV => 215
  | IT32_VNCLIPU_VV => 216 | IT32_VNCLIP_VV => 217
  | IT32_VWREDSUMU_VS => 218 | IT32_VWREDSUM_VS => 219
  | IT32_VDOTU_VV => 220 | IT32_VDOT_VV => 221 | IT32_VWSMACCU_VV => 222
  | IT32_VWSMACC_VV => 223 | IT32_VWSMACCSU_VV => 224
  | IT32_VFADD_VV => 225 | IT32_VFREDSUM_VS => 226 | IT32_VFSUB_VV => 227
  | IT32_VFREDOSUM_VS => 228 | IT32_VFMIN_VV => 229
  | IT32_VFREDMIN_VS => 230 | IT32_VFMAX_VV => 231
  | IT32_VFREDMAX_VS => 232 | IT32_VFSGNJ_VV => 233
  | IT32_VFSGNJN_VV => 234 | IT32_VFSGNJX_VV => 235 | IT32_VFMV_F_S => 236
  | IT32_VFEQ_VV => 237 | IT32_VFLTE_VV => 238 | IT32_VFORD_VV => 239
  | IT32_VFLT_VV => 240 | IT32_VFNE_VV => 241 | IT32_VFDIV_VV => 242
  | IT32_VFCVT_XUF_V => 243 | IT32_VFCVT_XF_V => 244
  | IT32_VFCVT_FXU_V => 245 | IT32_VFCVT_FX_V => 246
  | IT32_VFWCVT_XUF_V => 247 | IT32_VFWCVT_XF_V => 248
  | IT32_VFWCVT_FXU_V => 249 | IT32_VFWCVT_FX_V => 250
  | IT32_VFWCVT_FF_V => 251 | IT32_VFNCVT_XUF_V => 252
  | IT32_VFNCVT_XF_V => 253 | IT32_VFNCVT_FXU_V => 254
  | IT32_VFNCVT_FX_V => 255 | IT32_VFNCVT_FF_V => 256
  | IT32_VFSQRT_V => 257 | IT32_VFCLASS_V => 258 | IT32_VFMUL_VV => 259
  | IT32_VFMADD_VV => 260 | IT32_VFNMADD_VV => 261 | IT32_VFMSUB_VV => 262
  | IT32_VFNMSUB_VV => 263 | IT32_VFMACC_VV => 264 | IT32_VFNMACC_VV => 265
  | IT32_VFMSAC_VV => 266 | IT32_VFNMSAC_VV => 267 | IT32_VFWADD_VV => 268
  | IT32_VFWREDSUM_VS => 269 | IT32_VFWSUB_VV => 270
  | IT32_VFWREDOSUM_VS => 271 | IT32_VFWADD_WV => 272
  | IT32_VFWSUB_WV => 273 | IT32_VFWMUL_VV => 274 | IT32_VFDOT_VV => 275
  | IT32_VFWMACC_VV => 276 | IT32_VFWNMACC_VV => 277
  | IT32_VFWMSAC_VV => 278 | IT32_VFWNMSAC_VV => 279
  | IT32_VREDSUM_VS => 280 | IT32_VREDAND_VS => 281 | IT32_VREDOR_VS => 282
  | IT32_VREDXOR_VS => 283 | IT32_VREDMINU_VS => 284
  | IT32_VREDMIN_VS => 285 | IT32_VREDMAXU_VS => 286
  | IT32_VREDMAX_VS => 287 | IT32_VEXT_X_V => 288 | IT32_VMPOPC_M => 289
  | IT32_VMFIRST_M => 290 | IT32_VMSBF_M => 291 | IT32_VMSOF_M => 292
  | IT32_VMSIF_M => 293 | IT32_VIOTA_M => 294 | IT32_VID_V => 295
  | IT32_VCOMPRESS_VM => 296 | IT32_VMANDNOT_MM => 297
  | IT32_VMAND_MM => 298 | IT32_VMOR_MM => 299 | IT32_VMXOR_MM => 300
  | IT32_VMORNOT_MM => 301 | IT32_VMNAND_MM => 302 | IT32_VMNOR_MM => 303
  | IT32_VMXNOR_MM => 304 | IT32_VDIVU_VV => 305 | IT32_VDIV_VV => 306
  | IT32_VREMU_VV => 307 | IT32_VREM_VV => 308 | IT32_VMULHU_VV => 309
  | IT32_VMUL_VV => 310 | IT32_VMULHSU_VV => 311 | IT32_VMULH_VV => 312
  | IT32_VMADD_VV => 313 | IT32_VNMSUB_VV => 314 | IT32_VMACC_VV => 315
  | IT32_VNMSAC_VV => 316 | IT32_VWADDU_VV => 317 | IT32_VWADD_VV => 318
  | IT32_VWSUBU_VV => 319 | IT32_VWSUB_VV => 320 | IT32_VWADDU_WV => 321
  | IT32_VWADD_WV => 322 | IT32_VWSUBU_WV => 323 | IT32_VWSUB_WV => 324
  | IT32_VWMULU_VV => 325 | IT32_VWMULSU_VV => 326 | IT32_VWMUL_VV => 327
  | IT32_VWMACCU_VV => 328 | IT32_VWMACC_VV => 329
  | IT32_VWMACCSU_VV => 330 | IT32_VADD_VI => 331 | IT32_VRSUB_VI => 332
  | IT32_VAND_VI => 333 | IT32_VOR_VI => 334 | IT32_VXOR_VI => 335
  | IT32_VRGATHER_VI => 336 | IT32_VSLIDEUP_VI => 337
  | IT32_VSLIDEDOWN_VI => 338 | IT32_VADC_VI => 339 | IT32_VMADC_VI => 340
  | IT32_VMERGEM_VI => 341 | IT32_VMERGE0_VI => 342 | IT32_VSEQ_VI => 343
  | IT32_VSNE_VI => 344 | IT32_VSLEU_VI => 345 | IT32_VSLE_VI => 346
  | IT32_VSGTU_VI => 347 | IT32_VSGT_VI => 348 | IT32_VSADDU_VI => 349
  | IT32_VSADD_VI => 350 | IT32_VAADD_VI => 351 | IT32_VSLL_VI => 352
  | IT32_VSRL_VI => 353 | IT32_VSRA_VI => 354 | IT32_VSSRL_VI => 355
  | IT32_VSSRA_VI => 356 | IT32_VNSRL_VI => 357 | IT32_VNSRA_VI => 358
  | IT32_VNCLIPU_VI => 359 | IT32_VNCLIP_VI => 360 | IT32_VADD_VX => 361
  | IT32_VSUB_VX => 362 | IT32_VRSUB_VX => 363 | IT32_VMINU_VX => 364
  | IT32_VMIN_VX => 365 | IT32_VMAXU_VX => 366 | IT32_VMAX_VX => 367
  | IT32_VAND_VX => 368 | IT32_VOR_VX => 369 | IT32_VXOR_VX => 370
  | IT32_VRGATHER_VX => 371 | IT32_VSLIDEUP_VX => 372
  | IT32_VSLIDEDOWN_VX => 373 | IT32_VADC_VX => 374 | IT32_VMADC_VX => 375
  | IT32_VSBC_VX => 376 | IT32_VMSBC_VX => 377 | IT32_VMERGEM_VX => 378
  | IT32_VMERGE0_VX => 379 | IT32_VSEQ_VX => 380 | IT32_VSNE_VX => 381
  | IT32_VSLTU_VX => 382 | IT32_VSLT_VX => 383 | IT32_VSLEU_VX => 384
  | IT32_VSLE_VX => 385 | IT32_VSGTU_VX => 386 | IT32_VSGT_VX => 387
  | IT32_VSADDU_VX => 388 | IT32_VSADD_VX => 389 | IT32_VSSUBU_VX => 390
  | IT32_VSSUB_VX => 391 | IT32_VAADD_VX => 392 | IT32_VSLL_VX => 393
  | IT32_VASUB_VX => 394 | IT32_VSMUL_VX => 395 | IT32_VSRL_VX => 396
  | IT32_VSRA_VX => 397 | IT32_VSSRL_VX => 398 | IT32_VSSRA_VX => 399
  | IT32_VNSRL_VX => 400 | IT32_VNSRA_VX => 401 | IT32_VNCLIPU_VX => 402
  | IT32_VNCLIP_VX => 403 | IT32_VWSMACCU_VX => 404
  | IT32_VWSMACC_VX => 405 | IT32_VWSMACCSU_VX => 406
  | IT32_VWSMACCUS_VX => 407 | IT32_VFADD_VF => 408 | IT32_VFSUB_VF => 409
  | IT32_VFMIN_VF => 410 | IT32_VFMAX_VF => 411 | IT32_VFSGNJ_VF => 412
  | IT32_VFSGNJN_VF => 413 | IT32_VFSGNJX_VF => 414 | IT32_VFMV_S_F => 415
  | IT32_VFMERGEM_VF => 416 | IT32_VFMERGE0_VF => 417 | IT32_VFEQ_VF => 418
  | IT32_VFLTE_VF => 419 | IT32_VFORD_VF => 420 | IT32_VFLT_VF => 421
  | IT32_VFNE_VF => 422 | IT32_VFGT_VF => 423 | IT32_VFGTE_VF => 424
  | IT32_VFDIV_VF => 425 | IT32_VFRDIV_VF => 426 | IT32_VFMUL_VF => 427
  | IT32_VFRSUB_VF => 428 | IT32_VFMADD_VF => 429 | IT32_VFNMADD_VF => 430
  | IT32_VFMSUB_VF => 431 | IT32_VFNMSUB_VF => 432 | IT32_VFMACC_VF => 433
  | IT32_VFNMACC_VF => 434 | IT32_VFMSAC_VF => 435 | IT32_VFNMSAC_VF => 436
  | IT32_VFWADD_VF => 437 | IT32_VFWSUB_VF => 438 | IT32_VFWADD_WF => 439
  | IT32_VFWSUB_WF => 440 | IT32_VFWMUL_VF => 441 | IT32_VFWMACC_VF => 442
  | IT32_VFWNMACC_VF => 443 | IT32_VFWMSAC_VF => 444
  | IT32_VFWNMSAC_VF => 445 | IT32_VMV_S_X => 446
  | IT32_VSLIDE1UP_VX => 447 | IT32_VSLIDE1DOWN_VX => 448
  | IT32_VDIVU_VX => 449 | IT32_VDIV_VX => 450 | IT32_VREMU_VX => 451
  | IT32_VREM_VX => 452 | IT32_VMULHU_VX => 453 | IT32_VMUL_VX => 454
  | IT32_VMULHSU_VX => 455 | IT32_VMULH_VX => 456 | IT32_VMADD_VX => 457
  | IT32_VNMSUB_VX => 458 | IT32_VMACC_VX => 459 | IT32_VNMSAC_VX => 460
  | IT32_VWADDU_VX => 461 | IT32_VWADD_VX => 462 | IT32_VWSUBU_VX => 463
  | IT32_VWSUB_VX => 464 | IT32_VWADDU_WX => 465 | IT32_VWADD_WX => 466
  | IT32_VWSUBU_WX => 467 | IT32_VWSUB_WX => 468 | IT32_VWMULU_VX => 469
  | IT32_VWMULSU_VX => 470 | IT32_VWMUL_VX => 471 | IT32_VWMACCU_VX => 472
  | IT32_VWMACC_VX => 473 | IT32_VWMACCSU_VX => 474
  | IT32_VWMACCUS_VX => 475 | IT32_LAST => 476
  end.

(** The enumerators before the last one, in order: the values the loop that
    creates the table goes through. *)
Definition all16 : list riscvIType16 :=
  [IT16_ADD_R; IT16_ADDW_R; IT16_AND_R; IT16_MV_R; IT16_OR_R; IT16_SUB_R;
   IT16_SUBW_R; IT16_XOR_R; IT16_ADDI_I; IT16_ADDI16SP_I; IT16_ADDI4SPN_I;
   IT16_ADDIW_I; IT16_ANDI_I; IT16_SLLI_I; IT16_SRAI_I; IT16_SRLI_I;
   IT16_LI_I; IT16_LUI_I; IT16_JR_I; IT16_JALR_I; IT16_LD_I; IT16_LDSP_I;
   IT16_LW_I; IT16_LWSP_I; IT16_SD_I; IT16_SDSP_I; IT16_SW_I; IT16_SWSP_I;
   IT16_EBREAK_I; IT16_BEQZ_B; IT16_BNEZ_B; IT16_J_J; IT16_JAL_J;
   IT16_FLD_I; IT16_FLDSP_I; IT16_FLW_I; IT16_FLWSP_I; IT16_FSD_I;
   IT16_FSDSP_I; IT16_FSW_I; IT16_FSWSP_I; IT16_UD1; IT16_RES1; IT16_RES2;
   IT16_RES3; IT16_RES4; IT16_RES5; IT16_RES6].

(** The integer value of an enumerator. *)
Definition index16 (t : riscvIType16) : Z :=
  match t with
  | IT16_ADD_R => 0 | IT16_ADDW_R => 1 | IT16_AND_R => 2 | IT16_MV_R => 3
  | IT16_OR_R => 4 | IT16_SUB_R => 5 | IT16_SUBW_R => 6 | IT16_XOR_R => 7
  | IT16_ADDI_I => 8 | IT16_ADDI16SP_I => 9 | IT16_ADDI4SPN_I => 10
  | IT16_ADDIW_I => 11 | IT16_ANDI_I => 12 | IT16_SLLI_I => 13
  | IT16_SRAI_I => 14 | IT16_SRLI_I => 15 | IT16_LI_I => 16
  | IT16_LUI_I => 17 | IT16_JR_I => 18 | IT16_JALR_I => 19
  | IT16_LD_I => 20 | IT16_LDSP_I => 21 | IT16_LW_I => 22
  | IT16_LWSP_I => 23 | IT16_SD_I => 24 | IT16_SDSP_I => 25
  | IT16_SW_I => 26 | IT16_SWSP_I => 27 | IT16_EBREAK_I => 28
  | IT16_BEQZ_B => 29 | IT16_BNEZ_B => 30 | IT16_J_J => 31
  | IT16_JAL_J => 32 | IT16_FLD_I => 33 | IT16_FLDSP_I => 34
  | IT16_FLW_I => 35 | IT16_FLWSP_I => 36 | IT16_FSD_I => 37
  | IT16_FSDSP_I => 38 | IT16_FSW_I => 39 | IT16_FSWSP_I => 40
  | IT16_UD1 => 41 | IT16_RES1 => 42 | IT16_RES2 => 43 | IT16_RES3 => 44
  | IT16_RES4 => 45 | IT16_RES5 => 46 | IT16_RES6 => 47 | IT16_LAST => 48
  end.

Definition attrs32_part1 : list (riscvIType32 * opAttrs) := [
   (* base R-type *)
   (IT32_ADD_R, ATTR32_ADD RV_IT_ADD_R RVANY "add" "|0000000|.....|.....|000|.....|011.011|");
   (IT32_AND_R, ATTR32_ADD RV_IT_AND_R RVANY "and" "|0000000|.....|.....|111|.....|0110011|");
   (IT32_NEG_R, ATTR32_NEG RV_IT_SUB_R RVANY "neg" "|0100000|.....|00000|000|.....|011.011|");
   (IT32_OR_R, ATTR32_ADD RV_IT_OR_R RVANY "or" "|0000000|.....|.....|110|.....|0110011|");
   (IT32_SGTZ_R, ATTR32_NEG RV_IT_SLT_R RVANY "sgtz" "|0000000|.....|00000|010|.....|0110011|");
   (IT32_SLL_R, ATTR32_ADD RV_IT_SLL_R RVANY "sll" "|0000000|.....|.....|001|.....|011.011|");
   (IT32_SLT_R, ATTR32_ADD RV_IT_SLT_R RVANY "slt" "|0000000|.....|.....|010|.....|0110011|");
   (IT32_SLTU_R, ATTR32_ADD RV_IT_SLTU_R RVANY "sltu" "|0000000|.....|.....|011|.....|0110011|");
   (IT32_SLTZ_R, ATTR32_SLTZ RV_IT_SLT_R RVANY "sltz" "|0000000|00000|.....|010|.....|0110011|");
   (IT32_SNEZ_R, ATTR32_NEG RV_IT_SLTU_R RVANY "snez" "|0000000|.....|00000|011|.....|0110011|");
   (IT32_SRA_R, ATTR32_ADD RV_IT_SRA_R RVANY "sra" "|0100000|.....|.....|101|.....|011.011|");
   (IT32_SRL_R, ATTR32_ADD RV_IT_SRL_R RVANY "srl" "|0000000|.....|.....|101|.....|011.011|");
   (IT32_SUB_R, ATTR32_ADD RV_IT_SUB_R RVANY "sub" "|0100000|.....|.....|000|.....|011.011|");
   (IT32_XOR_R, ATTR32_ADD RV_IT_XOR_R RVANY "xor" "|0000000|.....|.....|100|.....|0110011|");
   (* M-extension R-type *)
   (IT32_DIV_R, ATTR32_ADD RV_IT_DIV_R RVANYM "div" "|0000001|.....|.....|100|.....|011.011|");
   (IT32_DIVU_R, ATTR32_ADD RV_IT_DIVU_R RVANYM "divu" "|0000001|.....|.....|101|.....|011.011|");
   (IT32_MUL_R, ATTR32_ADD RV_IT_MUL_R RVANYM "mul" "|0000001|.....|.....|000|.....|011.011|");
   (IT32_MULH_R, ATTR32_ADD RV_IT_MULH_R RVANYM "mulh" "|0000001|.....|.....|001|.....|0110011|");
   (IT32_MULHSU_R, ATTR32_ADD RV_IT_MULHSU_R RVANYM "mulhsu"
      "|0000001|.....|.....|010|.....|0110011|");
   (IT32_MULHU_R, ATTR32_ADD RV_IT_MULHU_R RVANYM "mulhu"
      "|0000001|.....|.....|011|.....|0110011|");
   (IT32_REM_R, ATTR32_ADD RV_IT_REM_R RVANYM "rem" "|0000001|.....|.....|110|.....|011.011|");
   (IT32_REMU_R, ATTR32_ADD RV_IT_REMU_R RVANYM "remu" "|0000001|.....|.....|111|.....|011.011|");
   (* base I-type *)
   (IT32_ADDI_I, ATTR32_ADDI RV_IT_ADDI_I RVANY "addi" "|............|.....|000|.....|001.011|");
   (IT32_ANDI_I, ATTR32_ADDI RV_IT_ANDI_I RVANY "andi" "|............|.....|111|.....|0010011|");
   (IT32_JR_I, ATTR32_JR RV_IT_JALR_I RVANY "jr" "|............|.....|000|00000|1100111|");
   (IT32_JR0_I, ATTR32_JR0 RV_IT_JALR_I RVANY "jr" "|000000000000|.....|000|00000|1100111|");
   (IT32_JALR_I, ATTR32_JALR RV_IT_JALR_I RVANY "jalr" "|............|.....|000|.....|1100111|");
   (IT32_JALR0_I, ATTR32_NOT RV_IT_JALR_I RVANY "jalr" "|000000000000|.....|000|.....|1100111|");
   (IT32_MV_I, ATTR32_NOT RV_IT_MV_R RVANY "mv" "|000000000000|.....|000|.....|0010011|");
   (IT32_NOP_I, ATTR32_NOPI RV_IT_ADDI_I RVANY "nop" "|000000000000|00000|000|00000|0010011|");
   (IT32_NOT_I, ATTR32_NOT RV_IT_XORI_I RVANY "not" "|111111111111|.....|100|.....|0010011|");
   (IT32_ORI_I, ATTR32_ADDI RV_IT_ORI_I RVANY "ori" "|............|.....|110|.....|0010011|");
   (IT32_RET_I, ATTR32_NOPI RV_IT_JALR_I RVANY "ret" "|000000000000|00001|000|00000|1100111|");
   (IT32_SEQZ_I, ATTR32_NOT RV_IT_SLTIU_I RVANY "seqz" "|000000000001|.....|011|.....|0010011|");
   (IT32_SEXTW_I, ATTR32_NOT RV_IT_ADDI_I RVANY "sext." "|000000000000|.....|000|.....|0011011|");
   (IT32_SLLI_I, ATTR32_SLLI RV_IT_SLLI_I RVANY "slli" "|000000......|.....|001|.....|001.011|");
   (IT32_SLTI_I, ATTR32_ADDI RV_IT_SLTI_I RVANY "slti" "|............|.....|010|.....|0010011|");
   (IT32_SLTIU_I, ATTR32_ADDI RV_IT_SLTIU_I RVANY "sltiu" "|............|.....|011|.....|0010011|");
   (IT32_SRAI_I, ATTR32_SLLI RV_IT_SRAI_I RVANY "srai" "|010000......|.....|101|.....|001.011|");
   (IT32_SRLI_I, ATTR32_SLLI RV_IT_SRLI_I RVANY "srli" "|000000......|.....|101|.....|001.011|");
   (IT32_XORI_I, ATTR32_ADDI RV_IT_XORI_I RVANY "xori" "|............|.....|100|.....|0010011|");
   (* base I-type instructions for load *)
   (IT32_LB_I, ATTR32_LB RV_IT_L_I RVANY "l" "|............|.....|000|.....|0000011|");
   (IT32_LBU_I, ATTR32_LB RV_IT_L_I RVANY "l" "|............|.....|100|.....|0000011|");
   (IT32_LH_I, ATTR32_LB RV_IT_L_I RVANY "l" "|............|.....|001|.....|0000011|");
   (IT32_LHU_I, ATTR32_LB RV_IT_L_I RVANY "l" "|............|.....|101|.....|0000011|");
   (IT32_LW_I, ATTR32_LB RV_IT_L_I RVANY "l" "|............|.....|010|.....|0000011|");
   (IT32_LWU_I, ATTR32_LB RV_IT_L_I RV64 "l" "|............|.....|110|.....|0000011|");
   (IT32_LD_I, ATTR32_LB RV_IT_L_I RV64 "l" "|............|.....|011|.....|0000011|");
   (* base S-type instructions for store *)
   (IT32_SB_I, ATTR32_SB RV_IT_S_I RVANY "s" "|.......|.....|.....|000|.....|0100011|");
   (IT32_SH_I, ATTR32_SB RV_IT_S_I RVANY "s" "|.......|.....|.....|001|.....|0100011|");
   (IT32_SW_I, ATTR32_SB RV_IT_S_I RVANY "s" "|.......|.....|.....|010|.....|0100011|");
   (IT32_SD_I, ATTR32_SB RV_IT_S_I RV64 "s" "|.......|.....|.....|011|.....|0100011|");
   (* base I-type instructions for CSR access (register) *)
   (IT32_CSRRC_I, ATTR32_CSRRC RV_IT_CSRR_I RVANY "csrrc" "|............|.....|011|.....|1110011|");
   (IT32_CSRRS_I, ATTR32_CSRRC RV_IT_CSRR_I RVANY "csrrs" "|............|.....|010|.....|1110011|");
   (IT32_CSRRW_I, ATTR32_CSRRC RV_IT_CSRR_I RVANY "csrrw" "|............|.....|001|.....|1110011|");
   (IT32_CSRR_I, ATTR32_CSRR RV_IT_CSRR_I RVANY "csrr" "|............|00000|010|.....|1110011|");
   (IT32_CSRC_I, ATTR32_CSRC RV_IT_CSRR_I RVANY "csrc" "|............|.....|011|00000|1110011|");
   (IT32_CSRS_I, ATTR32_CSRC RV_IT_CSRR_I RVANY "csrs" "|............|.....|010|00000|1110011|");
   (IT32_CSRW_I, ATTR32_CSRC RV_IT_CSRR_I RVANY "csrw" "|............|.....|001|00000|1110011|");
   (IT32_RDX1_I, ATTR32_RDX1 RV_IT_CSRR_I RVANY "rd" "|1100.000000.|00000|010|.....|1110011|");
   (IT32_RDX2_I, ATTR32_RDX1 RV_IT_CSRR_I RVANY "rd" "|1100.0000010|00000|010|.....|1110011|");
   (* base I-type instructions for CSR access (constant) *)
   (IT32_CSRRCI_I, ATTR32_CSRRCI RV_IT_CSRRI_I RVANY "csrrci"
      "|............|.....|111|.....|1110011|");
   (IT32_CSRRSI_I, ATTR32_CSRRCI RV_IT_CSRRI_I RVANY "csrrsi"
      "|............|.....|110|.....|1110011|");
   (IT32_CSRRWI_I, ATTR32_CSRRCI RV_IT_CSRRI_I RVANY "csrrwi"
      "|............|.....|101|.....|1110011|");
   (IT32_CSRCI_I, ATTR32_CSRCI RV_IT_CSRRI_I RVANY "csrci"
      "|............|.....|111|00000|1110011|");
   (IT32_CSRSI_I, ATTR32_CSRCI RV_IT_CSRRI_I RVANY "csrsi"
      "|............|.....|110|00000|1110011|");
   (IT32_CSRWI_I, ATTR32_CSRCI RV_IT_CSRRI_I RVANY "csrwi"
      "|............|.....|101|00000|1110011|");
   (* miscellaneous system I-type instructions *)
   (IT32_EBREAK_I, ATTR32_NOP RV_IT_EBREAK_I RVANY "ebreak"
      "|000000000001|00000|000|00000|1110011|");
   (IT32_ECALL_I, ATTR32_NOP RV_IT_ECALL_I RVANY "ecall" "|000000000000|00000|000|00000|1110011|");
   (IT32_FENCEI_I, ATTR32_NOP RV_IT_FENCEI_I RVANY "fence.i"
      "|............|.....|001|.....|0001111|");
   (IT32_MRET_I, ATTR32_NOP RV_IT_MRET_I RVANY "mret" "|001100000010|00000|000|00000|1110011|");
   (IT32_SRET_I, ATTR32_NOP RV_IT_SRET_I RVANY "sret" "|000100000010|00000|000|00000|1110011|");
   (IT32_URET_I, ATTR32_NOP RV_IT_URET_I RVANYN "uret" "|000000000010|00000|000|00000|1110011|");
   (IT32_WFI_I, ATTR32_NOP RV_IT_WFI_I RVANY "wfi" "|000100000101|00000|000|00000|1110011|");
   (* system fence I-type instruction *)
   (IT32_FENCE_I, ATTR32_FENCE RV_IT_FENCE_I RVANY "fence"
      "|....|....|....|.....|000|.....|0001111|");
   (* system fence R-type instruction *)
   (IT32_FENCE_VMA_R, ATTR32_FENCE_VMA RV_IT_FENCE_VMA_R RVANY "sfence.vma"
      "|0001001|.....|.....|000|00000|1110011|");
   (* base U-type *)
   (IT32_AUIPC_U, ATTR32_AUIPC RV_IT_AUIPC_U RVANY "auipc" "|....................|.....|0010111|");
   (IT32_LUI_U, ATTR32_AUIPC RV_IT_MV_C RVANY "lui" "|....................|.....|0110111|");
   (* base B-type *)
   (IT32_BEQ_B, ATTR32_BEQ RV_IT_BEQ_B RVANY "beq" "|.|......|.....|.....|000|....|.|1100011|");
   (IT32_BEQZ_B, ATTR32_BEQZ RV_IT_BEQ_B RVANY "beqz" "|.|......|00000|.....|000|....|.|1100011|");
   (IT32_BGE_B, ATTR32_BEQ RV_IT_BGE_B RVANY "bge" "|.|......|.....|.....|101|....|.|1100011|");
   (IT32_BGEZ_B, ATTR32_BEQZ RV_IT_BGE_B RVANY "bgez" "|.|......|00000|.....|101|....|.|1100011|");
   (IT32_BLEZ_B, ATTR32_BGTZ RV_IT_BGE_B RVANY "blez" "|.|......|.....|00000|101|....|.|1100011|");
   (IT32_BGEU_B, ATTR32_BEQ RV_IT_BGEU_B RVANY "bgeu" "|.|......|.....|.....|111|....|.|1100011|");
   (IT32_BLT_B, ATTR32_BEQ RV_IT_BLT_B RVANY "blt" "|.|......|.....|.....|100|....|.|1100011|");
   (IT32_BLTZ_B, ATTR32_BEQZ RV_IT_BLT_B RVANY "bltz" "|.|......|00000|.....|100|....|.|1100011|");
   (IT32_BGTZ_B, ATTR32_BGTZ RV_IT_BLT_B RVANY "bgtz" "|.|......|.....|00000|100|....|.|1100011|");
   (IT32_BLTU_B, ATTR32_BEQ RV_IT_BLTU_B RVANY "bltu" "|.|......|.....|.....|110|....|.|1100011|");
   (IT32_BNE_B, ATTR32_BEQ RV_IT_BNE_B RVANY "bne" "|.|......|.....|.....|001|....|.|1100011|");
   (IT32_BNEZ_B, ATTR32_BEQZ RV_IT_BNE_B RVANY "bnez" "|.|......|00000|.....|001|....|.|1100011|");
   (* base J-type *)
   (IT32_J_J, ATTR32_J RV_IT_JAL_J RVANY "j" "|.|..........|.|........|00000|1101111|");
   (IT32_JAL_J, ATTR32_JAL RV_IT_JAL_J RVANY "jal" "|.|..........|.|........|.....|1101111|");
   (* A-extension R-type *)
   (IT32_AMOADD_R, ATTR32_AMOADD RV_IT_AMOADD_R RVANYA "amoadd"
      "|00000..|.....|.....|01.|.....|0101111|");
   (IT32_AMOAND_R, ATTR32_AMOADD RV_IT_AMOAND_R RVANYA "amoand"
      "|01100..|.....|.....|01.|.....|0101111|");
   (IT32_AMOMAX_R, ATTR32_AMOADD RV_IT_AMOMAX_R RVANYA "amomax"
      "|10100..|.....|.....|01.|.....|0101111|");
   (IT32_AMOMAXU_R, ATTR32_AMOADD RV_IT_AMOMAXU_R RVANYA "amomaxu"
      "|11100..|.....|.....|01.|.....|0101111|");
   (IT32_AMOMIN_R, ATTR32_AMOADD RV_IT_AMOMIN_R RVANYA "amomin"
      "|10000..|.....|.....|01.|.....|0101111|");
   (IT32_AMOMINU_R, ATTR32_AMOADD RV_IT_AMOMINU_R RVANYA "amominu"
      "|11000..|.....|.....|01.|.....|0101111|");
   (IT32_AMOOR_R, ATTR32_AMOADD RV_IT_AMOOR_R RVANYA "amoor"
      "|01000..|.....|.....|01.|.....|0101111|");
   (IT32_AMOSWAP_R, ATTR32_AMOADD RV_IT_AMOSWAP_R RVANYA "amoswap"
      "|00001..|.....|.....|01.|.....|0101111|");
   (IT32_AMOXOR_R, ATTR32_AMOADD RV_IT_AMOXOR_R RVANYA "amoxor"
      "|00100..|.....|.....|01.|.....|0101111|");
   (IT32_LR_R, ATTR32_LR RV_IT_LR_R RVANYA "lr" "|00010..|00000|.....|01.|.....|0101111|");
   (IT32_SC_R, ATTR32_AMOADD RV_IT_SC_R RVANYA "sc" "|00011..|.....|.....|01.|.....|0101111|")
  ].

Definition attrs32_part2 : list (riscvIType32 * opAttrs) := [
   (* F-extension and D-extension R-type instructions *)
   (IT32_FADD_R, ATTR32_FADD RV_IT_FADD_R RVANY "fadd" "|000000.|.....|.....|...|.....|1010011|");
   (IT32_FCLASS_R, ATTR32_FCLASS RV_IT_FCLASS_R RVANY "fclass"
      "|111000.|00000|.....|001|.....|1010011|");
   (IT32_FCVT_F_X_R, ATTR32_FCVT RV_IT_FCVT_R RVANY "fcvt"
      "|110100.|000..|.....|...|.....|1010011|" RS_F_11_7 RS_XWL_19_15);
   (IT32_FCVT_X_F_R, ATTR32_FCVT RV_IT_FCVT_R RVANY "fcvt"
      "|110000.|000..|.....|...|.....|1010011|" RS_XWL_11_7 RS_F_19_15);
   (IT32_FCVT_D_S_R, ATTR32_FCVT RV_IT_FCVT_R RVANY "fcvt"
      "|0100001|00000|.....|...|.....|1010011|" RS_F_11_7 RS_S_19_15);
   (IT32_FCVT_S_D_R, ATTR32_FCVT RV_IT_FCVT_R RVANY "fcvt"
      "|0100000|00001|.....|...|.....|1010011|" RS_F_11_7 RS_D_19_15);
   (IT32_FDIV_R, ATTR32_FADD RV_IT_FDIV_R RVANY "fdiv" "|000110.|.....|.....|...|.....|1010011|");
   (IT32_FEQ_R, ATTR32_FEQ RV_IT_FEQ_R RVANY "feq" "|101000.|.....|.....|010|.....|1010011|");
   (IT32_FLE_R, ATTR32_FEQ RV_IT_FLE_R RVANY "fle" "|101000.|.....|.....|000|.....|1010011|");
   (IT32_FLT_R, ATTR32_FEQ RV_IT_FLT_R RVANY "flt" "|101000.|.....|.....|001|.....|1010011|");
   (IT32_FMAX_R, ATTR32_FMAX RV_IT_FMAX_R RVANY "fmax" "|001010.|.....|.....|001|.....|1010011|");
   (IT32_FMIN_R, ATTR32_FMAX RV_IT_FMIN_R RVANY "fmin" "|001010.|.....|.....|000|.....|1010011|");
   (IT32_FMUL_R, ATTR32_FADD RV_IT_FMUL_R RVANY "fmul" "|000100.|.....|.....|...|.....|1010011|");
   (IT32_FSGNJ_R, ATTR32_FMAX RV_IT_FSGNJ_R RVANY "fsgnj"
      "|001000.|.....|.....|000|.....|1010011|");
   (IT32_FSGNJN_R, ATTR32_FMAX RV_IT_FSGNJN_R RVANY "fsgnjn"
      "|001000.|.....|.....|001|.....|1010011|");
   (IT32_FSGNJX_R, ATTR32_FMAX RV_IT_FSGNJX_R RVANY "fsgnjx"
      "|001000.|.....|.....|010|.....|1010011|");
   (IT32_FMVFX_R, ATTR32_FMVFX RV_IT_MV_R RVANY "fmv" "|111100.|00000|.....|000|.....|1010011|");
   (IT32_FMVXF_R, ATTR32_FMVXF RV_IT_MV_R RVANY "fmv" "|111000.|00000|.....|000|.....|1010011|");
   (IT32_FSQRT_R, ATTR32_FSQRT RV_IT_FSQRT_R RVANY "fsqrt"
      "|010110.|00000|.....|...|.....|1010011|");
   (IT32_FSUB_R, ATTR32_FADD RV_IT_FSUB_R RVANY "fsub" "|000010.|.....|.....|...|.....|1010011|");
   (* F-extension and D-extension R4-type instructions *)
   (IT32_FMADD_R4, ATTR32_FMADD RV_IT_FMADD_R4 RVANY "fmadd"
      "|.....|0.|.....|.....|...|.....|1000011|");
   (IT32_FMSUB_R4, ATTR32_FMADD RV_IT_FMSUB_R4 RVANY "fmsub"
      "|.....|0.|.....|.....|...|.....|1000111|");
   (IT32_FNMADD_R4, ATTR32_FMADD RV_IT_FNMADD_R4 RVANY "fnmadd"
      "|.....|0.|.....|.....|...|.....|1001111|");
   (IT32_FNMSUB_R4, ATTR32_FMADD RV_IT_FNMSUB_R4 RVANY "fnmsub"
      "|.....|0.|.....|.....|...|.....|1001011|");
   (* F-extension and D-extension I-type instructions *)
   (IT32_FL_I, ATTR32_FL RV_IT_L_I RVANY "fl" "|............|.....|01.|.....|0000111|");
   (IT32_FS_I, ATTR32_FS RV_IT_S_I RVANY "fs" "|............|.....|01.|.....|0100111|");
   (* F-extension and D-extension I-type instructions for CSR access *)
   (IT32_FRSR_I, ATTR32_FRSR RV_IT_CSRR_I RVANY "frsr" "|000000000011|00000|010|.....|1110011|");
   (IT32_FRFLAGS_I, ATTR32_FRSR RV_IT_CSRR_I RVANY "frflags"
      "|000000000001|00000|010|.....|1110011|");
   (IT32_FRRM_I, ATTR32_FRSR RV_IT_CSRR_I RVANY "frrm" "|000000000010|00000|010|.....|1110011|");
   (IT32_FSSR_I, ATTR32_FSSR RV_IT_CSRR_I RVANY "fssr" "|000000000011|.....|001|.....|1110011|");
   (IT32_FSFLAGS_I, ATTR32_FSSR RV_IT_CSRR_I RVANY "fsflags"
      "|000000000001|.....|001|.....|1110011|");
   (IT32_FSRM_I, ATTR32_FSSR RV_IT_CSRR_I RVANY "fsrm" "|000000000010|.....|001|.....|1110011|");
   (* X-extension Type, custom instructions *)
   (IT32_CUSTOM1, ATTR32_CUSTOM RV_IT_CUSTOM RVANY "custom1"
      "|............|.....|...|.....|0001011|");
   (IT32_CUSTOM2, ATTR32_CUSTOM RV_IT_CUSTOM RVANY "custom2"
      "|............|.....|...|.....|0101011|");
   (IT32_CUSTOM3, ATTR32_CUSTOM RV_IT_CUSTOM RVANY "custom3"
      "|............|.....|...|.....|1011011|");
   (IT32_CUSTOM4, ATTR32_CUSTOM RV_IT_CUSTOM RVANY "custom4"
      "|............|.....|...|.....|1111011|");
   (* V-extension R-type *)
   (IT32_VSETVL_R, ATTR32_ADD RV_IT_VSETVL_R RVANYV "vsetvl"
      "|1000000|.....|.....|111|.....|1010111|");
   (* V-extension I-type *)
   (IT32_VSETVL_I, ATTR32_VSETVLI RV_IT_VSETVL_I RVANYV "vsetvli"
      "|0000000.....|.....|111|.....|1010111|");
   (* V-extension load/store instructions (byte elements) *)
   (IT32_VLB_I, ATTR32_VL RV_IT_VL_I RVANYV "vl" "|...|.00|.|.0000|.....|000|.....|0000111|" 1);
   (IT32_VLSB_I, ATTR32_VLS RV_IT_VLS_I RVANYV "vls" "|...|.10|.|.....|.....|000|.....|0000111|" 1);
   (IT32_VLXB_I, ATTR32_VLX RV_IT_VLX_I RVANYV "vlx" "|...|.11|.|.....|.....|000|.....|0000111|" 1);
   (IT32_VSB_I, ATTR32_VL RV_IT_VS_I RVANYV "vs" "|...|000|.|00000|.....|000|.....|0100111|" 0);
   (IT32_VSSB_I, ATTR32_VLS RV_IT_VSS_I RVANYV "vss" "|...|010|.|.....|.....|000|.....|0100111|" 0);
   (IT32_VSXB_I, ATTR32_VLX RV_IT_VSX_I RVANYV "vsx" "|...|011|.|.....|.....|000|.....|0100111|" 0);
   (IT32_VSUXB_I, ATTR32_VLX RV_IT_VSX_I RVANYV "vsux"
      "|...|111|.|.....|.....|000|.....|0100111|" 0);
   (* V-extension load/store instructions (halfword elements) *)
   (IT32_VLH_I, ATTR32_VL RV_IT_VL_I RVANYV "vl" "|...|.00|.|.0000|.....|101|.....|0000111|" 1);
   (IT32_VLSH_I, ATTR32_VLS RV_IT_VLS_I RVANYV "vls" "|...|.10|.|.....|.....|101|.....|0000111|" 1);
   (IT32_VLXH_I, ATTR32_VLX RV_IT_VLX_I RVANYV "vlx" "|...|.11|.|.....|.....|101|.....|0000111|" 1);
   (IT32_VSH_I, ATTR32_VL RV_IT_VS_I RVANYV "vs" "|...|000|.|00000|.....|101|.....|0100111|" 0);
   (IT32_VSSH_I, ATTR32_VLS RV_IT_VSS_I RVANYV "vss" "|...|010|.|.....|.....|101|.....|0100111|" 0);
   (IT32_VSXH_I, ATTR32_VLX RV_IT_VSX_I RVANYV "vsx" "|...|011|.|.....|.....|101|.....|0100111|" 0);
   (IT32_VSUXH_I, ATTR32_VLX RV_IT_VSX_I RVANYV "vsux"
      "|...|111|.|.....|.....|101|.....|0100111|" 0);
   (* V-extension load/store instructions (word elements) *)
   (IT32_VLW_I, ATTR32_VL RV_IT_VL_I RVANYV "vl" "|...|.00|.|.0000|.....|110|.....|0000111|" 1);
   (IT32_VLSW_I, ATTR32_VLS RV_IT_VLS_I RVANYV "vls" "|...|.10|.|.....|.....|110|.....|0000111|" 1);
   (IT32_VLXW_I, ATTR32_VLX RV_IT_VLX_I RVANYV "vlx" "|...|.11|.|.....|.....|110|.....|0000111|" 1);
   (IT32_VSW_I, ATTR32_VL RV_IT_VS_I RVANYV "vs" "|...|000|.|00000|.....|110|.....|0100111|" 0);
   (IT32_VSSW_I, ATTR32_VLS RV_IT_VSS_I RVANYV "vss" "|...|010|.|.....|.....|110|.....|0100111|" 0);
   (IT32_VSXW_I, ATTR32_VLX RV_IT_VSX_I RVANYV "vsx" "|...|011|.|.....|.....|110|.....|0100111|" 0);
   (IT32_VSUXW_I, ATTR32_VLX RV_IT_VSX_I RVANYV "vsux"
      "|...|111|.|.....|.....|110|.....|0100111|" 0);
   (* V-extension load/store instructions (SEW elements) *)
   (IT32_VLE_I, ATTR32_VL RV_IT_VL_I RVANYV "vl" "|...|000|.|.0000|.....|111|.....|0000111|" 0);
   (IT32_VLSE_I, ATTR32_VLS RV_IT_VLS_I RVANYV "vls" "|...|010|.|.....|.....|111|.....|0000111|" 0);
   (IT32_VLXE_I, ATTR32_VLX RV_IT_VLX_I RVANYV "vlx" "|...|011|.|.....|.....|111|.....|0000111|" 0);
   (IT32_VSE_I, ATTR32_VL RV_IT_VS_I RVANYV "vs" "|...|000|.|00000|.....|111|.....|0100111|" 0);
   (IT32_VSSE_I, ATTR32_VLS RV_IT_VSS_I RVANYV "vss" "|...|010|.|.....|.....|111|.....|0100111|" 0);
   (IT32_VSXE_I, ATTR32_VLX RV_IT_VSX_I RVANYV "vsx" "|...|011|.|.....|.....|111|.....|0100111|" 0);
   (IT32_VSUXE_I, ATTR32_VLX RV_IT_VSX_I RVANYV "vsux"
      "|...|111|.|.....|.....|111|.....|0100111|" 0);
   (* V-extension AMO operations (Zvamo) *)
   (IT32_VAMOADD_R, ATTR32_VAMOADD RV_IT_VAMOADD_R RVANYVA "vamoadd"
      "|00000..|.....|.....|11.|.....|0101111|");
   (IT32_VAMOAND_R, ATTR32_VAMOADD RV_IT_VAMOAND_R RVANYVA "vamoand"
      "|01100..|.....|.....|11.|.....|0101111|");
   (IT32_VAMOMAX_R, ATTR32_VAMOADD RV_IT_VAMOMAX_R RVANYVA "vamomax"
      "|10100..|.....|.....|11.|.....|0101111|");
   (IT32_VAMOMAXU_R, ATTR32_VAMOADD RV_IT_VAMOMAXU_R RVANYVA "vamomaxu"
      "|11100..|.....|.....|11.|.....|0101111|");
   (IT32_VAMOMIN_R, ATTR32_VAMOADD RV_IT_VAMOMIN_R RVANYVA "vamomin"
      "|10000..|.....|.....|11.|.....|0101111|");
   (IT32_VAMOMINU_R, ATTR32_VAMOADD RV_IT_VAMOMINU_R RVANYVA "vamominu"
      "|11000..|.....|.....|11.|.....|0101111|");
   (IT32_VAMOOR_R, ATTR32_VAMOADD RV_IT_VAMOOR_R RVANYVA "vamoor"
      "|01000..|.....|.....|11.|.....|0101111|");
   (IT32_VAMOSWAP_R, ATTR32_VAMOADD RV_IT_VAMOSWAP_R RVANYVA "vamoswap"
      "|00001..|.....|.....|11.|.....|0101111|");
   (IT32_VAMOXOR_R, ATTR32_VAMOADD RV_IT_VAMOXOR_R RVANYVA "vamoxor"
      "|00100..|.....|.....|11.|.....|0101111|")
  ].

Definition attrs32_part3 : list (riscvIType32 * opAttrs) := [
   (* V-extension IVV-type instructions *)
   (IT32_VADD_VV, ATTR32_VV RV_IT_VADD_VR RVANYV "vadd" "|000000|.|.....|.....|000|.....|1010111|");
   (IT32_VSUB_VV, ATTR32_VV RV_IT_VSUB_VR RVANYV "vsub" "|000010|.|.....|.....|000|.....|1010111|");
   (IT32_VMINU_VV, ATTR32_VV RV_IT_VMINU_VR RVANYV "vminu"
      "|000100|.|.....|.....|000|.....|1010111|");
   (IT32_VMIN_VV, ATTR32_VV RV_IT_VMIN_VR RVANYV "vmin" "|000101|.|.....|.....|000|.....|1010111|");
   (IT32_VMAXU_VV, ATTR32_VV RV_IT_VMAXU_VR RVANYV "vmaxu"
      "|000110|.|.....|.....|000|.....|1010111|");
   (IT32_VMAX_VV, ATTR32_VV RV_IT_VMAX_VR RVANYV "vmax" "|000111|.|.....|.....|000|.....|1010111|");
   (IT32_VAND_VV, ATTR32_VV RV_IT_VAND_VR RVANYV "vand" "|001001|.|.....|.....|000|.....|1010111|");
   (IT32_VOR_VV, ATTR32_VV RV_IT_VOR_VR RVANYV "vor" "|001010|.|.....|.....|000|.....|1010111|");
   (IT32_VXOR_VV, ATTR32_VV RV_IT_VXOR_VR RVANYV "vxor" "|001011|.|.....|.....|000|.....|1010111|");
   (IT32_VRGATHER_VV, ATTR32_VV RV_IT_VRGATHER_VR RVANYV "vrgather"
      "|001100|.|.....|.....|000|.....|1010111|");
   (IT32_VADC_VV, ATTR32_VVM_CIN RV_IT_VADC_VR RVANYV "vadc"
      "|010000|1|.....|.....|000|.....|1010111|");
   (IT32_VMADC_VV, ATTR32_VVM_CIN RV_IT_VMADC_VR RVANYV "vmadc"
      "|010001|1|.....|.....|000|.....|1010111|");
   (IT32_VSBC_VV, ATTR32_VVM_CIN RV_IT_VSBC_VR RVANYV "vsbc"
      "|010010|1|.....|.....|000|.....|1010111|");
   (IT32_VMSBC_VV, ATTR32_VVM_CIN RV_IT_VMSBC_VR RVANYV "vmsbc"
      "|010011|1|.....|.....|000|.....|1010111|");
   (IT32_VMERGEM_VV, ATTR32_VVM RV_IT_VMERGE_VR RVANYV "vmerge"
      "|010111|0|.....|.....|000|.....|1010111|");
   (IT32_VMERGE0_VV, ATTR32_VVM RV_IT_VMERGE_VR RVANYV "vmerge"
      "|010111|1|00000|.....|000|.....|1010111|");
   (IT32_VSEQ_VV, ATTR32_VV RV_IT_VSEQ_VR RVANYV "vmseq"
      "|011000|.|.....|.....|000|.....|1010111|");
   (IT32_VSNE_VV, ATTR32_VV RV_IT_VSNE_VR RVANYV "vmsne"
      "|011001|.|.....|.....|000|.....|1010111|");
   (IT32_VSLTU_VV, ATTR32_VV RV_IT_VSLTU_VR RVANYV "vmsltu"
      "|011010|.|.....|.....|000|.....|1010111|");
   (IT32_VSLT_VV, ATTR32_VV RV_IT_VSLT_VR RVANYV "vmslt"
      "|011011|.|.....|.....|000|.....|1010111|");
   (IT32_VSLEU_VV, ATTR32_VV RV_IT_VSLEU_VR RVANYV "vmsleu"
      "|011100|.|.....|.....|000|.....|1010111|");
   (IT32_VSLE_VV, ATTR32_VV RV_IT_VSLE_VR RVANYV "vmsle"
      "|011101|.|.....|.....|000|.....|1010111|");
   (IT32_VSGTU_VV, ATTR32_VV RV_IT_VSGTU_VR RVANYV "vmsgtu"
      "|011110|.|.....|.....|000|.....|1010111|");
   (IT32_VSGT_VV, ATTR32_VV RV_IT_VSGT_VR RVANYV "vmsgt"
      "|011111|.|.....|.....|000|.....|1010111|");
   (IT32_VSADDU_VV, ATTR32_VV RV_IT_VSADDU_VR RVANYV "vsaddu"
      "|100000|.|.....|.....|000|.....|1010111|");
   (IT32_VSADD_VV, ATTR32_VV RV_IT_VSADD_VR RVANYV "vsadd"
      "|100001|.|.....|.....|000|.....|1010111|");
   (IT32_VSSUBU_VV, ATTR32_VV RV_IT_VSSUBU_VR RVANYV "vssubu"
      "|100010|.|.....|.....|000|.....|1010111|");
   (IT32_VSSUB_VV, ATTR32_VV RV_IT_VSSUB_VR RVANYV "vssub"
      "|100011|.|.....|.....|000|.....|1010111|");
   (IT32_VAADD_VV, ATTR32_VV RV_IT_VAADD_VR RVANYV "vaadd"
      "|100100|.|.....|.....|000|.....|1010111|");
   (IT32_VSLL_VV, ATTR32_VV RV_IT_VSLL_VR RVANYV "vsll" "|100101|.|.....|.....|000|.....|1010111|");
   (IT32_VASUB_VV, ATTR32_VV RV_IT_VASUB_VR RVANYV "vasub"
      "|100110|.|.....|.....|000|.....|1010111|");
   (IT32_VSMUL_VV, ATTR32_VV RV_IT_VSMUL_VR RVANYV "vsmul"
      "|100111|.|.....|.....|000|.....|1010111|");
   (IT32_VSRL_VV, ATTR32_VV RV_IT_VSRL_VR RVANYV "vsrl" "|101000|.|.....|.....|000|.....|1010111|");
   (IT32_VSRA_VV, ATTR32_VV RV_IT_VSRA_VR RVANYV "vsra" "|101001|.|.....|.....|000|.....|1010111|");
   (IT32_VSSRL_VV, ATTR32_VV RV_IT_VSSRL_VR RVANYV "vssrl"
      "|101010|.|.....|.....|000|.....|1010111|");
   (IT32_VSSRA_VV, ATTR32_VV RV_IT_VSSRA_VR RVANYV "vssra"
      "|101011|.|.....|.....|000|.....|1010111|");
   (IT32_VNSRL_VV, ATTR32_VV RV_IT_VNSRL_VR RVANYV "vnsrl"
      "|101100|.|.....|.....|000|.....|1010111|");
   (IT32_VNSRA_VV, ATTR32_VV RV_IT_VNSRA_VR RVANYV "vnsra"
      "|101101|.|.....|.....|000|.....|1010111|");
   (IT32_VNCLIPU_VV, ATTR32_VV RV_IT_VNCLIPU_VR RVANYV "vnclipu"
      "|101110|.|.....|.....|000|.....|1010111|");
   (IT32_VNCLIP_VV, ATTR32_VV RV_IT_VNCLIP_VR RVANYV "vnclip"
      "|101111|.|.....|.....|000|.....|1010111|");
   (IT32_VWREDSUMU_VS, ATTR32_VS RV_IT_VWREDSUMU_VS RVANYV "vwredsumu"
      "|110000|.|.....|.....|000|.....|1010111|");
   (IT32_VWREDSUM_VS, ATTR32_VS RV_IT_VWREDSUM_VS RVANYV "vwredsum"
      "|110001|.|.....|.....|000|.....|1010111|");
   (IT32_VDOTU_VV, ATTR32_VV RV_IT_VDOTU_VV RVANYV "vdotu"
      "|111000|.|.....|.....|000|.....|1010111|");
   (IT32_VDOT_VV, ATTR32_VV RV_IT_VDOT_VV RVANYV "vdot" "|111001|.|.....|.....|000|.....|1010111|");
   (IT32_VWSMACCU_VV, ATTR32_VV3 RV_IT_VWSMACCU_VR RVANYV "vwsmaccu"
      "|111100|.|.....|.....|000|.....|1010111|");
   (IT32_VWSMACC_VV, ATTR32_VV3 RV_IT_VWSMACC_VR RVANYV "vwsmacc"
      "|111101|.|.....|.....|000|.....|1010111|");
   (IT32_VWSMACCSU_VV, ATTR32_VV3 RV_IT_VWSMACCSU_VR RVANYV "vwsmaccsu"
      "|111110|.|.....|.....|000|.....|1010111|");
   (* V-extension FVV-type instructions *)
   (IT32_VFADD_VV, ATTR32_VV RV_IT_VFADD_VR RVANYV "vfadd"
      "|000000|.|.....|.....|001|.....|1010111|");
   (IT32_VFREDSUM_VS, ATTR32_VS RV_IT_VFREDSUM_VS RVANYV "vfredsum"
      "|000001|.|.....|.....|001|.....|1010111|");
   (IT32_VFSUB_VV, ATTR32_VV RV_IT_VFSUB_VR RVANYV "vfsub"
      "|000010|.|.....|.....|001|.....|1010111|");
   (IT32_VFREDOSUM_VS, ATTR32_VS RV_IT_VFREDOSUM_VS RVANYV "vfredosum"
      "|000011|.|.....|.....|001|.....|1010111|");
   (IT32_VFMIN_VV, ATTR32_VV RV_IT_VFMIN_VR RVANYV "vfmin"
      "|000100|.|.....|.....|001|.....|1010111|");
   (IT32_VFREDMIN_VS, ATTR32_VS RV_IT_VFREDMIN_VS RVANYV "vfredmin"
      "|000101|.|.....|.....|001|.....|1010111|");
   (IT32_VFMAX_VV, ATTR32_VV RV_IT_VFMAX_VR RVANYV "vfmax"
      "|000110|.|.....|.....|001|.....|1010111|");
   (IT32_VFREDMAX_VS, ATTR32_VS RV_IT_VFREDMAX_VS RVANYV "vfredmax"
      "|000111|.|.....|.....|001|.....|1010111|");
   (IT32_VFSGNJ_VV, ATTR32_VV RV_IT_VFSGNJ_VR RVANYV "vfsgnj"
      "|001000|.|.....|.....|001|.....|1010111|");
   (IT32_VFSGNJN_VV, ATTR32_VV RV_IT_VFSGNJN_VR RVANYV "vfsgnjn"
      "|001001|.|.....|.....|001|.....|1010111|");
   (IT32_VFSGNJX_VV, ATTR32_VV RV_IT_VFSGNJX_VR RVANYV "vfsgnjx"
      "|001010|.|.....|.....|001|.....|1010111|");
   (IT32_VFMV_F_S, ATTR32_VFMV_F_S RV_IT_VFMV_F_S RVANYV "vfmv.f.s"
      "|001100|.|.....|00000|001|.....|1010111|");
   (IT32_VFEQ_VV, ATTR32_VV RV_IT_VFEQ_VR RVANYV "vmfeq"
      "|011000|.|.....|.....|001|.....|1010111|");
   (IT32_VFLTE_VV, ATTR32_VV RV_IT_VFLE_VR RVANYV "vmfle"
      "|011001|.|.....|.....|001|.....|1010111|");
   (IT32_VFORD_VV, ATTR32_VV RV_IT_VFORD_VR RVANYV "vmford"
      "|011010|.|.....|.....|001|.....|1010111|");
   (IT32_VFLT_VV, ATTR32_VV RV_IT_VFLT_VR RVANYV "vmflt"
      "|011011|.|.....|.....|001|.....|1010111|");
   (IT32_VFNE_VV, ATTR32_VV RV_IT_VFNE_VR RVANYV "vmfne"
      "|011100|.|.....|.....|001|.....|1010111|");
   (IT32_VFDIV_VV, ATTR32_VV RV_IT_VFDIV_VR RVANYV "vfdiv"
      "|100000|.|.....|.....|001|.....|1010111|");
   (IT32_VFCVT_XUF_V, ATTR32_V RV_IT_VFCVT_XUF_V RVANYV "vfcvt.xu.f"
      "|100010|.|.....|00000|001|.....|1010111|");
   (IT32_VFCVT_XF_V, ATTR32_V RV_IT_VFCVT_XF_V RVANYV "vfcvt.x.f"
      "|100010|.|.....|00001|001|.....|1010111|");
   (IT32_VFCVT_FXU_V, ATTR32_V RV_IT_VFCVT_FXU_V RVANYV "vfcvt.f.xu"
      "|100010|.|.....|00010|001|.....|1010111|");
   (IT32_VFCVT_FX_V, ATTR32_V RV_IT_VFCVT_FX_V RVANYV "vfcvt.f.x"
      "|100010|.|.....|00011|001|.....|1010111|");
   (IT32_VFWCVT_XUF_V, ATTR32_V RV_IT_VFWCVT_XUF_V RVANYV "vfwcvt.xu.f"
      "|100010|.|.....|01000|001|.....|1010111|");
   (IT32_VFWCVT_XF_V, ATTR32_V RV_IT_VFWCVT_XF_V RVANYV "vfwcvt.x.f"
      "|100010|.|.....|01001|001|.....|1010111|");
   (IT32_VFWCVT_FXU_V, ATTR32_V RV_IT_VFWCVT_FXU_V RVANYV "vfwcvt.f.xu"
      "|100010|.|.....|01010|001|.....|1010111|");
   (IT32_VFWCVT_FX_V, ATTR32_V RV_IT_VFWCVT_FX_V RVANYV "vfwcvt.f.x"
      "|100010|.|.....|01011|001|.....|1010111|");
   (IT32_VFWCVT_FF_V, ATTR32_V RV_IT_VFWCVT_FF_V RVANYV "vfwcvt.f.f"
      "|100010|.|.....|01100|001|.....|1010111|");
   (IT32_VFNCVT_XUF_V, ATTR32_V RV_IT_VFNCVT_XUF_V RVANYV "vfncvt.xu.f"
      "|100010|.|.....|10000|001|.....|1010111|");
   (IT32_VFNCVT_XF_V, ATTR32_V RV_IT_VFNCVT_XF_V RVANYV "vfncvt.x.f"
      "|100010|.|.....|10001|001|.....|1010111|");
   (IT32_VFNCVT_FXU_V, ATTR32_V RV_IT_VFNCVT_FXU_V RVANYV "vfncvt.f.xu"
      "|100010|.|.....|10010|001|.....|1010111|");
   (IT32_VFNCVT_FX_V, ATTR32_V RV_IT_VFNCVT_FX_V RVANYV "vfncvt.f.x"
      "|100010|.|.....|10011|001|.....|1010111|");
   (IT32_VFNCVT_FF_V, ATTR32_V RV_IT_VFNCVT_FF_V RVANYV "vfncvt.f.f"
      "|100010|.|.....|10100|001|.....|1010111|");
   (IT32_VFSQRT_V, ATTR32_V RV_IT_VFSQRT_V RVANYV "vfsqrt"
      "|100011|.|.....|00000|001|.....|1010111|");
   (IT32_VFCLASS_V, ATTR32_V RV_IT_VFCLASS_V RVANYV "vfclass"
      "|100011|.|.....|10000|001|.....|1010111|");
   (IT32_VFMUL_VV, ATTR32_VV RV_IT_VFMUL_VR RVANYV "vfmul"
      "|100100|.|.....|.....|001|.....|1010111|");
   (IT32_VFMADD_VV, ATTR32_VV3 RV_IT_VFMADD_VR RVANYV "vfmadd"
      "|101000|.|.....|.....|001|.....|1010111|");
   (IT32_VFNMADD_VV, ATTR32_VV3 RV_IT_VFNMADD_VR RVANYV "vfnmadd"
      "|101001|.|.....|.....|001|.....|1010111|");
   (IT32_VFMSUB_VV, ATTR32_VV3 RV_IT_VFMSUB_VR RVANYV "vfmsub"
      "|101010|.|.....|.....|001|.....|1010111|");
   (IT32_VFNMSUB_VV, ATTR32_VV3 RV_IT_VFNMSUB_VR RVANYV "vfnmsub"
      "|101011|.|.....|.....|001|.....|1010111|");
   (IT32_VFMACC_VV, ATTR32_VV3 RV_IT_VFMACC_VR RVANYV "vfmacc"
      "|101100|.|.....|.....|001|.....|1010111|");
   (IT32_VFNMACC_VV, ATTR32_VV3 RV_IT_VFNMACC_VR RVANYV "vfnmacc"
      "|101101|.|.....|.....|001|.....|1010111|");
   (IT32_VFMSAC_VV, ATTR32_VV3 RV_IT_VFMSAC_VR RVANYV "vfmsac"
      "|101110|.|.....|.....|001|.....|1010111|");
   (IT32_VFNMSAC_VV, ATTR32_VV3 RV_IT_VFNMSAC_VR RVANYV "vfnmsac"
      "|101111|.|.....|.....|001|.....|1010111|");
   (IT32_VFWADD_VV, ATTR32_VV RV_IT_VFWADD_VR RVANYV "vfwadd"
      "|110000|.|.....|.....|001|.....|1010111|");
   (IT32_VFWREDSUM_VS, ATTR32_VS RV_IT_VFWREDSUM_VS RVANYV "vfwredsum"
      "|110001|.|.....|.....|001|.....|1010111|");
   (IT32_VFWSUB_VV, ATTR32_VV RV_IT_VFWSUB_VR RVANYV "vfwsub"
      "|110010|.|.....|.....|001|.....|1010111|");
   (IT32_VFWREDOSUM_VS, ATTR32_VS RV_IT_VFWREDOSUM_VS RVANYV "vfwredosum"
      "|110011|.|.....|.....|001|.....|1010111|");
   (IT32_VFWADD_WV, ATTR32_WV RV_IT_VFWADD_WR RVANYV "vfwadd"
      "|110100|.|.....|.....|001|.....|1010111|");
   (IT32_VFWSUB_WV, ATTR32_WV RV_IT_VFWSUB_WR RVANYV "vfwsub"
      "|110110|.|.....|.....|001|.....|1010111|");
   (IT32_VFWMUL_VV, ATTR32_VV RV_IT_VFWMUL_VR RVANYV "vfwmul"
      "|111000|.|.....|.....|001|.....|1010111|");
   (IT32_VFDOT_VV, ATTR32_VV RV_IT_VFDOT_VV RVANYV "vfdot"
      "|111001|.|.....|.....|001|.....|1010111|");
   (IT32_VFWMACC_VV, ATTR32_VV3 RV_IT_VFWMACC_VR RVANYV "vfwmacc"
      "|111100|.|.....|.....|001|.....|1010111|");
   (IT32_VFWNMACC_VV, ATTR32_VV3 RV_IT_VFWNMACC_VR RVANYV "vfwnmacc"
      "|111101|.|.....|.....|001|.....|1010111|");
   (IT32_VFWMSAC_VV, ATTR32_VV3 RV_IT_VFWMSAC_VR RVANYV "vfwmsac"
      "|111110|.|.....|.....|001|.....|1010111|");
   (IT32_VFWNMSAC_VV, ATTR32_VV3 RV_IT_VFWNMSAC_VR RVANYV "vfwnmsac"
      "|111111|.|.....|.....|001|.....|1010111|")
  ].

Definition attrs32_part4 : list (riscvIType32 * opAttrs) := [
   (* V-extension MVV-type instructions *)
   (IT32_VWADD_VV, ATTR32_VV RV_IT_VWADD_VR RVANYV "vwadd"
      "|110001|.|.....|.....|010|.....|1010111|");
   (IT32_VWADDU_VV, ATTR32_VV RV_IT_VWADDU_VR RVANYV "vwaddu"
      "|110000|.|.....|.....|010|.....|1010111|");
   (IT32_VWSUB_VV, ATTR32_VV RV_IT_VWSUB_VR RVANYV "vwsub"
      "|110011|.|.....|.....|010|.....|1010111|");
   (IT32_VWSUBU_VV, ATTR32_VV RV_IT_VWSUBU_VR RVANYV "vwsubu"
      "|110010|.|.....|.....|010|.....|1010111|");
   (IT32_VWADD_WV, ATTR32_WV RV_IT_VWADD_WR RVANYV "vwadd"
      "|110101|.|.....|.....|010|.....|1010111|");
   (IT32_VWADDU_WV, ATTR32_WV RV_IT_VWADDU_WR RVANYV "vwaddu"
      "|110100|.|.....|.....|010|.....|1010111|");
   (IT32_VWSUB_WV, ATTR32_WV RV_IT_VWSUB_WR RVANYV "vwsub"
      "|110111|.|.....|.....|010|.....|1010111|");
   (IT32_VWSUBU_WV, ATTR32_WV RV_IT_VWSUBU_WR RVANYV "vwsubu"
      "|110110|.|.....|.....|010|.....|1010111|");
   (IT32_VMUL_VV, ATTR32_VV RV_IT_VMUL_VR RVANYV "vmul" "|100101|.|.....|.....|010|.....|1010111|");
   (IT32_VMULH_VV, ATTR32_VV RV_IT_VMULH_VR RVANYV "vmulh"
      "|100111|.|.....|.....|010|.....|1010111|");
   (IT32_VMULHU_VV, ATTR32_VV RV_IT_VMULHU_VR RVANYV "vmulhu"
      "|100100|.|.....|.....|010|.....|1010111|");
   (IT32_VMULHSU_VV, ATTR32_VV RV_IT_VMULHSU_VR RVANYV "vmulhsu"
      "|100110|.|.....|.....|010|.....|1010111|");
   (IT32_VWMUL_VV, ATTR32_VV RV_IT_VWMUL_VR RVANYV "vwmul"
      "|111011|.|.....|.....|010|.....|1010111|");
   (IT32_VWMULU_VV, ATTR32_VV RV_IT_VWMULU_VR RVANYV "vwmulu"
      "|111000|.|.....|.....|010|.....|1010111|");
   (IT32_VWMULSU_VV, ATTR32_VV RV_IT_VWMULSU_VR RVANYV "vwmulsu"
      "|111010|.|.....|.....|010|.....|1010111|");
   (IT32_VMACC_VV, ATTR32_VV3 RV_IT_VMACC_VR RVANYV "vmacc"
      "|101101|.|.....|.....|010|.....|1010111|");
   (IT32_VNMSAC_VV, ATTR32_VV3 RV_IT_VNMSAC_VR RVANYV "vnmsac"
      "|101111|.|.....|.....|010|.....|1010111|");
   (IT32_VMADD_VV, ATTR32_VV3 RV_IT_VMADD_VR RVANYV "vmadd"
      "|101001|.|.....|.....|010|.....|1010111|");
   (IT32_VNMSUB_VV, ATTR32_VV3 RV_IT_VNMSUB_VR RVANYV "vnmsub"
      "|101011|.|.....|.....|010|.....|1010111|");
   (IT32_VWMACCU_VV, ATTR32_VV3 RV_IT_VWMACCU_VR RVANYV "vwmaccu"
      "|111100|.|.....|.....|010|.....|1010111|");
   (IT32_VWMACC_VV, ATTR32_VV3 RV_IT_VWMACC_VR RVANYV "vwmacc"
      "|111101|.|.....|.....|010|.....|1010111|");
   (IT32_VWMACCSU_VV, ATTR32_VV3 RV_IT_VWMACCSU_VR RVANYV "vwmaccsu"
      "|111110|.|.....|.....|010|.....|1010111|");
   (IT32_VDIVU_VV, ATTR32_VV RV_IT_VDIVU_VR RVANYV "vdivu"
      "|100000|.|.....|.....|010|.....|1010111|");
   (IT32_VDIV_VV, ATTR32_VV RV_IT_VDIV_VR RVANYV "vdiv" "|100001|.|.....|.....|010|.....|1010111|");
   (IT32_VREMU_VV, ATTR32_VV RV_IT_VREMU_VR RVANYV "vremu"
      "|100010|.|.....|.....|010|.....|1010111|");
   (IT32_VREM_VV, ATTR32_VV RV_IT_VREM_VR RVANYV "vrem" "|100011|.|.....|.....|010|.....|1010111|");
   (IT32_VREDSUM_VS, ATTR32_VS RV_IT_VREDSUM_VS RVANYV "vredsum"
      "|000000|.|.....|.....|010|.....|1010111|");
   (IT32_VREDAND_VS, ATTR32_VS RV_IT_VREDAND_VS RVANYV "vredand"
      "|000001|.|.....|.....|010|.....|1010111|");
   (IT32_VREDOR_VS, ATTR32_VS RV_IT_VREDOR_VS RVANYV "vredor"
      "|000010|.|.....|.....|010|.....|1010111|");
   (IT32_VREDXOR_VS, ATTR32_VS RV_IT_VREDXOR_VS RVANYV "vredxor"
      "|000011|.|.....|.....|010|.....|1010111|");
   (IT32_VREDMINU_VS, ATTR32_VS RV_IT_VREDMINU_VS RVANYV "vredminu"
      "|000100|.|.....|.....|010|.....|1010111|");
   (IT32_VREDMIN_VS, ATTR32_VS RV_IT_VREDMIN_VS RVANYV "vredmin"
      "|000101|.|.....|.....|010|.....|1010111|");
   (IT32_VREDMAXU_VS, ATTR32_VS RV_IT_VREDMAXU_VS RVANYV "vredmaxu"
      "|000110|.|.....|.....|010|.....|1010111|");
   (IT32_VREDMAX_VS, ATTR32_VS RV_IT_VREDMAX_VS RVANYV "vredmax"
      "|000111|.|.....|.....|010|.....|1010111|");
   (IT32_VMAND_MM, ATTR32_MM RV_IT_VMAND_MM RVANYV "vmand"
      "|011001|.|.....|.....|010|.....|1010111|");
   (IT32_VMNAND_MM, ATTR32_MM RV_IT_VMNAND_MM RVANYV "vmnand"
      "|011101|.|.....|.....|010|.....|1010111|");
   (IT32_VMANDNOT_MM, ATTR32_MM RV_IT_VMANDNOT_MM RVANYV "vmandnot"
      "|011000|.|.....|.....|010|.....|1010111|");
   (IT32_VMXOR_MM, ATTR32_MM RV_IT_VMXOR_MM RVANYV "vmxor"
      "|011011|.|.....|.....|010|.....|1010111|");
   (IT32_VMOR_MM, ATTR32_MM RV_IT_VMOR_MM RVANYV "vmor" "|011010|.|.....|.....|010|.....|1010111|");
   (IT32_VMNOR_MM, ATTR32_MM RV_IT_VMNOR_MM RVANYV "vmnor"
      "|011110|.|.....|.....|010|.....|1010111|");
   (IT32_VMORNOT_MM, ATTR32_MM RV_IT_VMORNOT_MM RVANYV "vmornot"
      "|011100|.|.....|.....|010|.....|1010111|");
   (IT32_VMXNOR_MM, ATTR32_MM RV_IT_VMXNOR_MM RVANYV "vmxnor"
      "|011111|.|.....|.....|010|.....|1010111|");
   (IT32_VMPOPC_M, ATTR32_MX RV_IT_VMPOPC_M RVANYV "vmpopc"
      "|010100|.|.....|00000|010|.....|1010111|");
   (IT32_VMFIRST_M, ATTR32_MX RV_IT_VMFIRST_M RVANYV "vmfirst"
      "|010101|.|.....|00000|010|.....|1010111|");
   (IT32_VMSBF_M, ATTR32_MV RV_IT_VMSBF_M RVANYV "vmsbf"
      "|010110|.|.....|00001|010|.....|1010111|");
   (IT32_VMSIF_M, ATTR32_MV RV_IT_VMSIF_M RVANYV "vmsif"
      "|010110|.|.....|00011|010|.....|1010111|");
   (IT32_VMSOF_M, ATTR32_MV RV_IT_VMSOF_M RVANYV "vmsof"
      "|010110|.|.....|00010|010|.....|1010111|");
   (IT32_VIOTA_M, ATTR32_MV RV_IT_VIOTA_M RVANYV "viota"
      "|010110|.|.....|10000|010|.....|1010111|");
   (IT32_VID_V, ATTR32_VID RV_IT_VID_V RVANYV "vid" "|010110|.|00000|10001|010|.....|1010111|");
   (IT32_VEXT_X_V, ATTR32_VEXT RV_IT_VEXT_X_V RVANYV "vext.x"
      "|001100|.|.....|.....|010|.....|1010111|");
   (IT32_VCOMPRESS_VM, ATTR32_VM RV_IT_VCOMPRESS_VM RVANYV "vcompress"
      "|010111|.|.....|.....|010|.....|1010111|");
   (* V-extension IVI-type instructions *)
   (IT32_VADD_VI, ATTR32_VI RV_IT_VADD_VI RVANYV "vadd" "|000000|.|.....|.....|011|.....|1010111|");
   (IT32_VRSUB_VI, ATTR32_VI RV_IT_VRSUB_VI RVANYV "vrsub"
      "|000011|.|.....|.....|011|.....|1010111|");
   (IT32_VAND_VI, ATTR32_VI RV_IT_VAND_VI RVANYV "vand" "|001001|.|.....|.....|011|.....|1010111|");
   (IT32_VOR_VI, ATTR32_VI RV_IT_VOR_VI RVANYV "vor" "|001010|.|.....|.....|011|.....|1010111|");
   (IT32_VXOR_VI, ATTR32_VI RV_IT_VXOR_VI RVANYV "vxor" "|001011|.|.....|.....|011|.....|1010111|");
   (IT32_VRGATHER_VI, ATTR32_VU RV_IT_VRGATHER_VI RVANYV "vrgather"
      "|001100|.|.....|.....|011|.....|1010111|");
   (IT32_VSLIDEUP_VI, ATTR32_VU RV_IT_VSLIDEUP_VI RVANYV "vslideup"
      "|001110|.|.....|.....|011|.....|1010111|");
   (IT32_VSLIDEDOWN_VI, ATTR32_VU RV_IT_VSLIDEDOWN_VI RVANYV "vslidedown"
      "|001111|.|.....|.....|011|.....|1010111|");
   (IT32_VADC_VI, ATTR32_VIM_CIN RV_IT_VADC_VI RVANYV "vadc"
      "|010000|1|.....|.....|011|.....|1010111|");
   (IT32_VMADC_VI, ATTR32_VIM_CIN RV_IT_VMADC_VI RVANYV "vmadc"
      "|010001|1|.....|.....|011|.....|1010111|");
   (IT32_VMERGEM_VI, ATTR32_VIM RV_IT_VMERGE_VI RVANYV "vmerge"
      "|010111|0|.....|.....|011|.....|1010111|");
   (IT32_VMERGE0_VI, ATTR32_VIM RV_IT_VMERGE_VI RVANYV "vmerge"
      "|010111|1|00000|.....|011|.....|1010111|");
   (IT32_VSEQ_VI, ATTR32_VI RV_IT_VSEQ_VI RVANYV "vmseq"
      "|011000|.|.....|.....|011|.....|1010111|");
   (IT32_VSNE_VI, ATTR32_VI RV_IT_VSNE_VI RVANYV "vmsne"
      "|011001|.|.....|.....|011|.....|1010111|");
   (IT32_VSLEU_VI, ATTR32_VI RV_IT_VSLEU_VI RVANYV "vmsleu"
      "|011100|.|.....|.....|011|.....|1010111|");
   (IT32_VSLE_VI, ATTR32_VI RV_IT_VSLE_VI RVANYV "vmsle"
      "|011101|.|.....|.....|011|.....|1010111|");
   (IT32_VSGTU_VI, ATTR32_VI RV_IT_VSGTU_VI RVANYV "vmsgtu"
      "|011110|.|.....|.....|011|.....|1010111|");
   (IT32_VSGT_VI, ATTR32_VI RV_IT_VSGT_VI RVANYV "vmsgt"
      "|011111|.|.....|.....|011|.....|1010111|");
   (IT32_VSADDU_VI, ATTR32_VI RV_IT_VSADDU_VI RVANYV "vsaddu"
      "|100000|.|.....|.....|011|.....|1010111|");
   (IT32_VSADD_VI, ATTR32_VI RV_IT_VSADD_VI RVANYV "vsadd"
      "|100001|.|.....|.....|011|.....|1010111|");
   (IT32_VAADD_VI, ATTR32_VI RV_IT_VAADD_VI RVANYV "vaadd"
      "|100100|.|.....|.....|011|.....|1010111|");
   (IT32_VSLL_VI, ATTR32_VU RV_IT_VSLL_VI RVANYV "vsll" "|100101|.|.....|.....|011|.....|1010111|");
   (IT32_VSRL_VI, ATTR32_VU RV_IT_VSRL_VI RVANYV "vsrl" "|101000|.|.....|.....|011|.....|1010111|");
   (IT32_VSRA_VI, ATTR32_VU RV_IT_VSRA_VI RVANYV "vsra" "|101001|.|.....|.....|011|.....|1010111|");
   (IT32_VSSRL_VI, ATTR32_VU RV_IT_VSSRL_VI RVANYV "vssrl"
      "|101010|.|.....|.....|011|.....|1010111|");
   (IT32_VSSRA_VI, ATTR32_VU RV_IT_VSSRA_VI RVANYV "vssra"
      "|101011|.|.....|.....|011|.....|1010111|");
   (IT32_VNSRL_VI, ATTR32_VU RV_IT_VNSRL_VI RVANYV "vnsrl"
      "|101100|.|.....|.....|011|.....|1010111|");
   (IT32_VNSRA_VI, ATTR32_VU RV_IT_VNSRA_VI RVANYV "vnsra"
      "|101101|.|.....|.....|011|.....|1010111|");
   (IT32_VNCLIPU_VI, ATTR32_VU RV_IT_VNCLIPU_VI RVANYV "vnclipu"
      "|101110|.|.....|.....|011|.....|1010111|");
   (IT32_VNCLIP_VI, ATTR32_VU RV_IT_VNCLIP_VI RVANYV "vnclip"
      "|101111|.|.....|.....|011|.....|1010111|");
   (* V-extension IVX-type instructions *)
   (IT32_VADD_VX, ATTR32_VX RV_IT_VADD_VR RVANYV "vadd" "|000000|.|.....|.....|100|.....|1010111|");
   (IT32_VSUB_VX, ATTR32_VX RV_IT_VSUB_VR RVANYV "vsub" "|000010|.|.....|.....|100|.....|1010111|");
   (IT32_VRSUB_VX, ATTR32_VX RV_IT_VRSUB_VR RVANYV "vrsub"
      "|000011|.|.....|.....|100|.....|1010111|");
   (IT32_VMINU_VX, ATTR32_VX RV_IT_VMINU_VR RVANYV "vminu"
      "|000100|.|.....|.....|100|.....|1010111|");
   (IT32_VMIN_VX, ATTR32_VX RV_IT_VMIN_VR RVANYV "vmin" "|000101|.|.....|.....|100|.....|1010111|");
   (IT32_VMAXU_VX, ATTR32_VX RV_IT_VMAXU_VR RVANYV "vmaxu"
      "|000110|.|.....|.....|100|.....|1010111|");
   (IT32_VMAX_VX, ATTR32_VX RV_IT_VMAX_VR RVANYV "vmax" "|000111|.|.....|.....|100|.....|1010111|");
   (IT32_VAND_VX, ATTR32_VX RV_IT_VAND_VR RVANYV "vand" "|001001|.|.....|.....|100|.....|1010111|");
   (IT32_VOR_VX, ATTR32_VX RV_IT_VOR_VR RVANYV "vor" "|001010|.|.....|.....|100|.....|1010111|");
   (IT32_VXOR_VX, ATTR32_VX RV_IT_VXOR_VR RVANYV "vxor" "|001011|.|.....|.....|100|.....|1010111|");
   (IT32_VRGATHER_VX, ATTR32_VX RV_IT_VRGATHER_VR RVANYV "vrgather"
      "|001100|.|.....|.....|100|.....|1010111|");
   (IT32_VSLIDEUP_VX, ATTR32_VX RV_IT_VSLIDEUP_VR RVANYV "vslideup"
      "|001110|.|.....|.....|100|.....|1010111|");
   (IT32_VSLIDEDOWN_VX, ATTR32_VX RV_IT_VSLIDEDOWN_VR RVANYV "vslidedown"
      "|001111|.|.....|.....|100|.....|1010111|");
   (IT32_VADC_VX, ATTR32_VXM_CIN RV_IT_VADC_VR RVANYV "vadc"
      "|010000|1|.....|.....|100|.....|1010111|");
   (IT32_VMADC_VX, ATTR32_VXM_CIN RV_IT_VMADC_VR RVANYV "vmadc"
      "|010001|1|.....|.....|100|.....|1010111|");
   (IT32_VSBC_VX, ATTR32_VXM_CIN RV_IT_VSBC_VR RVANYV "vsbc"
      "|010010|1|.....|.....|100|.....|1010111|");
   (IT32_VMSBC_VX, ATTR32_VXM_CIN RV_IT_VMSBC_VR RVANYV "vmsbc"
      "|010011|1|.....|.....|100|.....|1010111|");
   (IT32_VMERGEM_VX, ATTR32_VXM RV_IT_VMERGE_VR RVANYV "vmerge"
      "|010111|0|.....|.....|100|.....|1010111|");
   (IT32_VMERGE0_VX, ATTR32_VXM RV_IT_VMERGE_VR RVANYV "vmerge"
      "|010111|1|00000|.....|100|.....|1010111|");
   (IT32_VSEQ_VX, ATTR32_VX RV_IT_VSEQ_VR RVANYV "vmseq"
      "|011000|.|.....|.....|100|.....|1010111|");
   (IT32_VSNE_VX, ATTR32_VX RV_IT_VSNE_VR RVANYV "vmsne"
      "|011001|.|.....|.....|100|.....|1010111|");
   (IT32_VSLTU_VX, ATTR32_VX RV_IT_VSLTU_VR RVANYV "vmsltu"
      "|011010|.|.....|.....|100|.....|1010111|");
   (IT32_VSLT_VX, ATTR32_VX RV_IT_VSLT_VR RVANYV "vmslt"
      "|011011|.|.....|.....|100|.....|1010111|");
   (IT32_VSLEU_VX, ATTR32_VX RV_IT_VSLEU_VR RVANYV "vmsleu"
      "|011100|.|.....|.....|100|.....|1010111|");
   (IT32_VSLE_VX, ATTR32_VX RV_IT_VSLE_VR RVANYV "vmsle"
      "|011101|.|.....|.....|100|.....|1010111|");
   (IT32_VSGTU_VX, ATTR32_VX RV_IT_VSGTU_VR RVANYV "vmsgtu"
      "|011110|.|.....|.....|100|.....|1010111|");
   (IT32_VSGT_VX, ATTR32_VX RV_IT_VSGT_VR RVANYV "vmsgt"
      "|011111|.|.....|.....|100|.....|1010111|");
   (IT32_VSADDU_VX, ATTR32_VX RV_IT_VSADDU_VR RVANYV "vsaddu"
      "|100000|.|.....|.....|100|.....|1010111|");
   (IT32_VSADD_VX, ATTR32_VX RV_IT_VSADD_VR RVANYV "vsadd"
      "|100001|.|.....|.....|100|.....|1010111|");
   (IT32_VSSUBU_VX, ATTR32_VX RV_IT_VSSUBU_VR RVANYV "vssubu"
      "|100010|.|.....|.....|100|.....|1010111|");
   (IT32_VSSUB_VX, ATTR32_VX RV_IT_VSSUB_VR RVANYV "vssub"
      "|100011|.|.....|.....|100|.....|1010111|");
   (IT32_VAADD_VX, ATTR32_VX RV_IT_VAADD_VR RVANYV "vaadd"
      "|100100|.|.....|.....|100|.....|1010111|");
   (IT32_VSLL_VX, ATTR32_VX RV_IT_VSLL_VR RVANYV "vsll" "|100101|.|.....|.....|100|.....|1010111|");
   (IT32_VASUB_VX, ATTR32_VX RV_IT_VASUB_VR RVANYV "vasub"
      "|100110|.|.....|.....|100|.....|1010111|");
   (IT32_VSMUL_VX, ATTR32_VX RV_IT_VSMUL_VR RVANYV "vsmul"
      "|100111|.|.....|.....|100|.....|1010111|");
   (IT32_VSRL_VX, ATTR32_VX RV_IT_VSRL_VR RVANYV "vsrl" "|101000|.|.....|.....|100|.....|1010111|");
   (IT32_VSRA_VX, ATTR32_VX RV_IT_VSRA_VR RVANYV "vsra" "|101001|.|.....|.....|100|.....|1010111|");
   (IT32_VSSRL_VX, ATTR32_VX RV_IT_VSSRL_VR RVANYV "vssrl"
      "|101010|.|.....|.....|100|.....|1010111|");
   (IT32_VSSRA_VX, ATTR32_VX RV_IT_VSSRA_VR RVANYV "vssra"
      "|101011|.|.....|.....|100|.....|1010111|");
   (IT32_VNSRL_VX, ATTR32_VX RV_IT_VNSRL_VR RVANYV "vnsrl"
      "|101100|.|.....|.....|100|.....|1010111|");
   (IT32_VNSRA_VX, ATTR32_VX RV_IT_VNSRA_VR RVANYV "vnsra"
      "|101101|.|.....|.....|100|.....|1010111|");
   (IT32_VNCLIPU_VX, ATTR32_VX RV_IT_VNCLIPU_VR RVANYV "vnclipu"
      "|101110|.|.....|.....|100|.....|1010111|");
   (IT32_VNCLIP_VX, ATTR32_VX RV_IT_VNCLIP_VR RVANYV "vnclip"
      "|101111|.|.....|.....|100|.....|1010111|");
   (IT32_VWSMACCU_VX, ATTR32_VX3 RV_IT_VWSMACCU_VR RVANYV "vwsmaccu"
      "|111100|.|.....|.....|100|.....|1010111|");
   (IT32_VWSMACC_VX, ATTR32_VX3 RV_IT_VWSMACC_VR RVANYV "vwsmacc"
      "|111101|.|.....|.....|100|.....|1010111|");
   (IT32_VWSMACCSU_VX, ATTR32_VX3 RV_IT_VWSMACCSU_VR RVANYV "vwsmaccsu"
      "|111110|.|.....|.....|100|.....|1010111|");
   (IT32_VWSMACCUS_VX, ATTR32_VX3 RV_IT_VWSMACCUS_VR RVANYV "vwsmaccus"
      "|111111|.|.....|.....|100|.....|1010111|")
  ].

Definition attrs32_part5 : list (riscvIType32 * opAttrs) := [
   (* V-extension FVF-type instructions *)
   (IT32_VFADD_VF, ATTR32_VF RV_IT_VFADD_VR RVANYV "vfadd"
      "|000000|.|.....|.....|101|.....|1010111|");
   (IT32_VFSUB_VF, ATTR32_VF RV_IT_VFSUB_VR RVANYV "vfsub"
      "|000010|.|.....|.....|101|.....|1010111|");
   (IT32_VFMIN_VF, ATTR32_VF RV_IT_VFMIN_VR RVANYV "vfmin"
      "|000100|.|.....|.....|101|.....|1010111|");
   (IT32_VFMAX_VF, ATTR32_VF RV_IT_VFMAX_VR RVANYV "vfmax"
      "|000110|.|.....|.....|101|.....|1010111|");
   (IT32_VFSGNJ_VF, ATTR32_VF RV_IT_VFSGNJ_VR RVANYV "vfsgnj"
      "|001000|.|.....|.....|101|.....|1010111|");
   (IT32_VFSGNJN_VF, ATTR32_VF RV_IT_VFSGNJN_VR RVANYV "vfsgnjn"
      "|001001|.|.....|.....|101|.....|1010111|");
   (IT32_VFSGNJX_VF, ATTR32_VF RV_IT_VFSGNJX_VR RVANYV "vfsgnjx"
      "|001010|.|.....|.....|101|.....|1010111|");
   (IT32_VFMV_S_F, ATTR32_VFMV_S_F RV_IT_VFMV_S_F RVANYV "vfmv.s.f"
      "|001101|.|00000|.....|101|.....|1010111|");
   (IT32_VFMERGEM_VF, ATTR32_VFM RV_IT_VMERGE_VR RVANYV "vfmerge"
      "|010111|0|.....|.....|101|.....|1010111|");
   (IT32_VFMERGE0_VF, ATTR32_VFM RV_IT_VMERGE_VR RVANYV "vfmerge"
      "|010111|1|00000|.....|101|.....|1010111|");
   (IT32_VFEQ_VF, ATTR32_VF RV_IT_VFEQ_VR RVANYV "vmfeq"
      "|011000|.|.....|.....|101|.....|1010111|");
   (IT32_VFLTE_VF, ATTR32_VF RV_IT_VFLE_VR RVANYV "vmfle"
      "|011001|.|.....|.....|101|.....|1010111|");
   (IT32_VFORD_VF, ATTR32_VF RV_IT_VFORD_VR RVANYV "vmford"
      "|011010|.|.....|.....|101|.....|1010111|");
   (IT32_VFLT_VF, ATTR32_VF RV_IT_VFLT_VR RVANYV "vmflt"
      "|011011|.|.....|.....|101|.....|1010111|");
   (IT32_VFNE_VF, ATTR32_VF RV_IT_VFNE_VR RVANYV "vmfne"
      "|011100|.|.....|.....|101|.....|1010111|");
   (IT32_VFGT_VF, ATTR32_VF RV_IT_VFGT_VR RVANYV "vmfgt"
      "|011101|.|.....|.....|101|.....|1010111|");
   (IT32_VFGTE_VF, ATTR32_VF RV_IT_VFGE_VR RVANYV "vmfge"
      "|011111|.|.....|.....|101|.....|1010111|");
   (IT32_VFDIV_VF, ATTR32_VF RV_IT_VFDIV_VR RVANYV "vfdiv"
      "|100000|.|.....|.....|101|.....|1010111|");
   (IT32_VFRDIV_VF, ATTR32_VF RV_IT_VFRDIV_VR RVANYV "vfrdiv"
      "|100001|.|.....|.....|101|.....|1010111|");
   (IT32_VFMUL_VF, ATTR32_VF RV_IT_VFMUL_VR RVANYV "vfmul"
      "|100100|.|.....|.....|101|.....|1010111|");
   (IT32_VFRSUB_VF, ATTR32_VF RV_IT_VFRSUB_VR RVANYV "vfrsub"
      "|100111|.|.....|.....|101|.....|1010111|");
   (IT32_VFMADD_VF, ATTR32_VF3 RV_IT_VFMADD_VR RVANYV "vfmadd"
      "|101000|.|.....|.....|101|.....|1010111|");
   (IT32_VFNMADD_VF, ATTR32_VF3 RV_IT_VFNMADD_VR RVANYV "vfnmadd"
      "|101001|.|.....|.....|101|.....|1010111|");
   (IT32_VFMSUB_VF, ATTR32_VF3 RV_IT_VFMSUB_VR RVANYV "vfmsub"
      "|101010|.|.....|.....|101|.....|1010111|");
   (IT32_VFNMSUB_VF, ATTR32_VF3 RV_IT_VFNMSUB_VR RVANYV "vfnmsub"
      "|101011|.|.....|.....|101|.....|1010111|");
   (IT32_VFMACC_VF, ATTR32_VF3 RV_IT_VFMACC_VR RVANYV "vfmacc"
      "|101100|.|.....|.....|101|.....|1010111|");
   (IT32_VFNMACC_VF, ATTR32_VF3 RV_IT_VFNMACC_VR RVANYV "vfnmacc"
      "|101101|.|.....|.....|101|.....|1010111|");
   (IT32_VFMSAC_VF, ATTR32_VF3 RV_IT_VFMSAC_VR RVANYV "vfmsac"
      "|101110|.|.....|.....|101|.....|1010111|");
   (IT32_VFNMSAC_VF, ATTR32_VF3 RV_IT_VFNMSAC_VR RVANYV "vfnmsac"
      "|101111|.|.....|.....|101|.....|1010111|");
   (IT32_VFWADD_VF, ATTR32_VF RV_IT_VFWADD_VR RVANYV "vfwadd"
      "|110000|.|.....|.....|101|.....|1010111|");
   (IT32_VFWSUB_VF, ATTR32_VF RV_IT_VFWSUB_VR RVANYV "vfwsub"
      "|110010|.|.....|.....|101|.....|1010111|");
   (IT32_VFWADD_WF, ATTR32_WF RV_IT_VFWADD_WR RVANYV "vfwadd"
      "|110100|.|.....|.....|101|.....|1010111|");
   (IT32_VFWSUB_WF, ATTR32_WF RV_IT_VFWSUB_WR RVANYV "vfwsub"
      "|110110|.|.....|.....|101|.....|1010111|");
   (IT32_VFWMUL_VF, ATTR32_VF RV_IT_VFWMUL_VR RVANYV "vfwmul"
      "|111000|.|.....|.....|101|.....|1010111|");
   (IT32_VFWMACC_VF, ATTR32_VF3 RV_IT_VFWMACC_VR RVANYV "vfwmacc"
      "|111100|.|.....|.....|101|.....|1010111|");
   (IT32_VFWNMACC_VF, ATTR32_VF3 RV_IT_VFWNMACC_VR RVANYV "vfwnmacc"
      "|111101|.|.....|.....|101|.....|1010111|");
   (IT32_VFWMSAC_VF, ATTR32_VF3 RV_IT_VFWMSAC_VR RVANYV "vfwmsac"
      "|111110|.|.....|.....|101|.....|1010111|");
   (IT32_VFWNMSAC_VF, ATTR32_VF3 RV_IT_VFWNMSAC_VR RVANYV "vfwnmsac"
      "|111111|.|.....|.....|101|.....|1010111|");
   (* V-extension MVX-type instructions *)
   (IT32_VMV_S_X, ATTR32_VMV_S_X RV_IT_VMV_S_X RVANYV "vmv.s.x"
      "|001101|.|00000|.....|110|.....|1010111|");
   (IT32_VSLIDE1UP_VX, ATTR32_VX RV_IT_VSLIDE1UP_VX RVANYV "vslide1up"
      "|001110|.|.....|.....|110|.....|1010111|");
   (IT32_VSLIDE1DOWN_VX, ATTR32_VX RV_IT_VSLIDE1DOWN_VX RVANYV "vslide1down"
      "|001111|.|.....|.....|110|.....|1010111|");
   (IT32_VDIVU_VX, ATTR32_VX RV_IT_VDIVU_VR RVANYV "vdivu"
      "|100000|.|.....|.....|110|.....|1010111|");
   (IT32_VDIV_VX, ATTR32_VX RV_IT_VDIV_VR RVANYV "vdiv" "|100001|.|.....|.....|110|.....|1010111|");
   (IT32_VREMU_VX, ATTR32_VX RV_IT_VREMU_VR RVANYV "vremu"
      "|100010|.|.....|.....|110|.....|1010111|");
   (IT32_VREM_VX, ATTR32_VX RV_IT_VREM_VR RVANYV "vrem" "|100011|.|.....|.....|110|.....|1010111|");
   (IT32_VMULHU_VX, ATTR32_VX RV_IT_VMULHU_VR RVANYV "vmulhu"
      "|100100|.|.....|.....|110|.....|1010111|");
   (IT32_VMUL_VX, ATTR32_VX RV_IT_VMUL_VR RVANYV "vmul" "|100101|.|.....|.....|110|.....|1010111|");
   (IT32_VMULHSU_VX, ATTR32_VX RV_IT_VMULHSU_VR RVANYV "vmulhsu"
      "|100110|.|.....|.....|110|.....|1010111|");
   (IT32_VMULH_VX, ATTR32_VX RV_IT_VMULH_VR RVANYV "vmulh"
      "|100111|.|.....|.....|110|.....|1010111|");
   (IT32_VMADD_VX, ATTR32_VX3 RV_IT_VMADD_VR RVANYV "vmadd"
      "|101001|.|.....|.....|110|.....|1010111|");
   (IT32_VNMSUB_VX, ATTR32_VX3 RV_IT_VNMSUB_VR RVANYV "vnmsub"
      "|101011|.|.....|.....|110|.....|1010111|");
   (IT32_VMACC_VX, ATTR32_VX3 RV_IT_VMACC_VR RVANYV "vmacc"
      "|101101|.|.....|.....|110|.....|1010111|");
   (IT32_VNMSAC_VX, ATTR32_VX3 RV_IT_VNMSAC_VR RVANYV "vnmsac"
      "|101111|.|.....|.....|110|.....|1010111|");
   (IT32_VWADDU_VX, ATTR32_VX RV_IT_VWADDU_VR RVANYV "vwaddu"
      "|110000|.|.....|.....|110|.....|1010111|");
   (IT32_VWADD_VX, ATTR32_VX RV_IT_VWADD_VR RVANYV "vwadd"
      "|110001|.|.....|.....|110|.....|1010111|");
   (IT32_VWSUBU_VX, ATTR32_VX RV_IT_VWSUBU_VR RVANYV "vwsubu"
      "|110010|.|.....|.....|110|.....|1010111|");
   (IT32_VWSUB_VX, ATTR32_VX RV_IT_VWSUB_VR RVANYV "vwsub"
      "|110011|.|.....|.....|110|.....|1010111|");
   (IT32_VWADDU_WX, ATTR32_WX RV_IT_VWADDU_WR RVANYV "vwaddu"
      "|110100|.|.....|.....|110|.....|1010111|");
   (IT32_VWADD_WX, ATTR32_WX RV_IT_VWADD_WR RVANYV "vwadd"
      "|110101|.|.....|.....|110|.....|1010111|");
   (IT32_VWSUBU_WX, ATTR32_WX RV_IT_VWSUBU_WR RVANYV "vwsubu"
      "|110110|.|.....|.....|110|.....|1010111|");
   (IT32_VWSUB_WX, ATTR32_WX RV_IT_VWSUB_WR RVANYV "vwsub"
      "|110111|.|.....|.....|110|.....|1010111|");
   (IT32_VWMULU_VX, ATTR32_VX RV_IT_VWMULU_VR RVANYV "vwmulu"
      "|111000|.|.....|.....|110|.....|1010111|");
   (IT32_VWMULSU_VX, ATTR32_VX RV_IT_VWMULSU_VR RVANYV "vwmulsu"
      "|111010|.|.....|.....|110|.....|1010111|");
   (IT32_VWMUL_VX, ATTR32_VX RV_IT_VWMUL_VR RVANYV "vwmul"
      "|111011|.|.....|.....|110|.....|1010111|");
   (IT32_VWMACCU_VX, ATTR32_VX3 RV_IT_VWMACCU_VR RVANYV "vwmaccu"
      "|111100|.|.....|.....|110|.....|1010111|");
   (IT32_VWMACC_VX, ATTR32_VX3 RV_IT_VWMACC_VR RVANYV "vwmacc"
      "|111101|.|.....|.....|110|.....|1010111|");
   (IT32_VWMACCSU_VX, ATTR32_VX3 RV_IT_VWMACCSU_VR RVANYV "vwmaccsu"
      "|111110|.|.....|.....|110|.....|1010111|");
   (IT32_VWMACCUS_VX, ATTR32_VX3 RV_IT_VWMACCUS_VR RVANYV "vwmaccus"
      "|111111|.|.....|.....|110|.....|1010111|");
   (* dummy entry for undecoded instruction *)
   (IT32_LAST, ATTR32_LAST RV_IT_LAST "undef")
  ].

Definition attrsArray32_init : list (riscvIType32 * opAttrs) :=
  attrs32_part1 ++ attrs32_part2 ++ attrs32_part3 ++ attrs32_part4 ++ attrs32_part5.

(** The array element at an index: the last initialiser that designates it,
    or zero. *)
Definition attrsArray32 (t : riscvIType32) : opAttrs :=
  fold_left (fun a p => if index32 (fst p) =? index32 t then snd p else a)
            attrsArray32_init no_attrs.

Definition attrs16_part1 : list (riscvIType16 * opAttrs) := [
   (* base R-type instructions *)
   (IT16_ADD_R, ATTR16_ADD RV_IT_ADD_R RVANYC "add" "|100|1|.....|.....|10|");
   (IT16_ADDW_R, ATTR16_ADDW RV_IT_ADD_R RV64C "add" "|100111|...|01|...|01|");
   (IT16_AND_R, ATTR16_AND RV_IT_AND_R RVANYC "and" "|100011|...|11|...|01|");
   (IT16_MV_R, ATTR16_MV RV_IT_MV_R RVANYC "mv" "|100|0|.....|.....|10|");
   (IT16_OR_R, ATTR16_AND RV_IT_OR_R RVANYC "or" "|100011|...|10|...|01|");
   (IT16_SUB_R, ATTR16_AND RV_IT_SUB_R RVANYC "sub" "|100011|...|00|...|01|");
   (IT16_SUBW_R, ATTR16_ADDW RV_IT_SUB_R RV64C "sub" "|100111|...|00|...|01|");
   (IT16_XOR_R, ATTR16_AND RV_IT_XOR_R RVANYC "xor" "|100011|...|01|...|01|");
   (* base I-type instructions *)
   (IT16_ADDI_I, ATTR16_ADDI RV_IT_ADDI_I RVANYC "addi" "|000|.|.....|.....|01|");
   (IT16_ADDI16SP_I, ATTR16_ADDI16SP RV_IT_ADDI_I RVANYC "addi" "|011|.|00010|.....|01|");
   (IT16_ADDI4SPN_I, ATTR16_ADDI4SPN RV_IT_ADDI_I RVANYC "addi" "|000|........|...|00|");
   (IT16_ADDIW_I, ATTR16_ADDIW RV_IT_ADDI_I RV64C "addi" "|001|.|.....|.....|01|");
   (IT16_ANDI_I, ATTR16_ANDI RV_IT_ANDI_I RVANYC "andi" "|100|.|10...|.....|01|");
   (IT16_SLLI_I, ATTR16_SLLI RV_IT_SLLI_I RVANYC "slli" "|000|.|.....|.....|10|");
   (IT16_SRAI_I, ATTR16_SRAI RV_IT_SRAI_I RVANYC "srai" "|100|.|01...|.....|01|");
   (IT16_SRLI_I, ATTR16_SRAI RV_IT_SRLI_I RVANYC "srli" "|100|.|00...|.....|01|");
   (IT16_LI_I, ATTR16_LI RV_IT_ADDI_I RVANYC "li" "|010|.|.....|.....|01|");
   (IT16_LUI_I, ATTR16_LUI RV_IT_ADDI_I RVANYC "lui" "|011|.|.....|.....|01|");
   (IT16_JR_I, ATTR16_JR RV_IT_JALR_I RVANYC "jr" "|100|0|.....|00000|10|");
   (IT16_JALR_I, ATTR16_JALR RV_IT_JALR_I RVANYC "jalr" "|100|1|.....|00000|10|");
   (IT16_LD_I, ATTR16_LD RV_IT_L_I RV64C "l" "|011|...|...|..|...|00|");
   (IT16_LDSP_I, ATTR16_LDSP RV_IT_L_I RV64C "l" "|011|.|.....|.....|10|");
   (IT16_LW_I, ATTR16_LW RV_IT_L_I RVANYC "l" "|010|...|...|..|...|00|");
   (IT16_LWSP_I, ATTR16_LWSP RV_IT_L_I RVANYC "l" "|010|.|.....|.....|10|");
   (IT16_SD_I, ATTR16_LD RV_IT_S_I RV64C "s" "|111|...|...|..|...|00|");
   (IT16_SDSP_I, ATTR16_SDSP RV_IT_S_I RV64C "s" "|111|.|.....|.....|10|");
   (IT16_SW_I, ATTR16_LW RV_IT_S_I RVANYC "s" "|110|...|...|..|...|00|");
   (IT16_SWSP_I, ATTR16_SWSP RV_IT_S_I RVANYC "s" "|110|.|.....|.....|10|");
   (* miscellaneous system instructions *)
   (IT16_EBREAK_I, ATTR16_NOP RV_IT_EBREAK_I RVANYC "ebreak" "|100|1|00000|00000|10|");
   (* base B-type instructions *)
   (IT16_BEQZ_B, ATTR16_BEQZ RV_IT_BEQ_B RVANYC "beqz" "|110|...|...|.....|01|");
   (IT16_BNEZ_B, ATTR16_BEQZ RV_IT_BNE_B RVANYC "bnez" "|111|...|...|.....|01|");
   (* base J-type instructions *)
   (IT16_J_J, ATTR16_J RV_IT_JAL_J RVANYC "j" "|101|...........|01|");
   (IT16_JAL_J, ATTR16_JAL RV_IT_JAL_J RV32C "jal" "|001|...........|01|");
   (* F-extension and D-extension I-type instructions *)
   (IT16_FLD_I, ATTR16_FLD RV_IT_L_I RVANYCD "fl" "|001|...|...|..|...|00|");
   (IT16_FLDSP_I, ATTR16_FLDSP RV_IT_L_I RVANYCD "fl" "|001|.|.....|.....|10|");
   (IT16_FLW_I, ATTR16_FLW RV_IT_L_I RV32CF "fl" "|011|...|...|..|...|00|");
   (IT16_FLWSP_I, ATTR16_FLWSP RV_IT_L_I RV32CF "fl" "|011|.|.....|.....|10|");
   (IT16_FSD_I, ATTR16_FLD RV_IT_S_I RVANYCD "fs" "|101|...|...|..|...|00|");
   (IT16_FSDSP_I, ATTR16_FSDSP RV_IT_S_I RVANYCD "fs" "|101|......|.....|10|");
   (IT16_FSW_I, ATTR16_FLW RV_IT_S_I RV32CF "fs" "|111|...|...|..|...|00|");
   (IT16_FSWSP_I, ATTR16_FSWSP RV_IT_S_I RV32CF "fs" "|111|......|.....|10|");
   (* explicitly undefined and reserved instructions *)
   (IT16_UD1, ATTR16_NOP RV_IT_LAST RVANYC "illegal" "|000|0|00000|00000|00|");
   (IT16_RES1, ATTR16_NOP RV_IT_LAST RVANYC "res" "|000|00000000|...|00|");
   (IT16_RES2, ATTR16_NOP RV_IT_LAST RVANYC "res" "|011|0|.....|00000|01|");
   (IT16_RES3, ATTR16_NOP RV_IT_LAST RVANYC "res" "|100|0|00000|00000|10|");
   (IT16_RES4, ATTR16_NOP RV_IT_LAST RV64C "res" "|001|.|00000|.....|01|");
   (IT16_RES5, ATTR16_NOP RV_IT_LAST RVANYC "res" "|010|.|00000|.....|10|");
   (IT16_RES6, ATTR16_NOP RV_IT_LAST RV64C "res" "|011|.|00000|.....|10|");
   (* dummy entry for undecoded instruction *)
   (IT16_LAST, ATTR16_LAST RV_IT_LAST "undef")
  ].

Definition attrsArray16_init : list (riscvIType16 * opAttrs) :=
  attrs16_part1.

(** The array element at an index: the last initialiser that designates it,
    or zero. *)
Definition attrsArray16 (t : riscvIType16) : opAttrs :=
  fold_left (fun a p => if index16 (fst p) =? index16 t then snd p else a)
            attrsArray16_init no_attrs.
