(* ===== verification/RvDecode.v ===== *)
(** * The instruction decoder of the OVP processor model

    riscvDecode.c of src/models/ovp/source/yggdrasill.ga/processor/riscv/1.0/
    model: field extraction, construction of the two decode tables,
    classification of an instruction word and interpretation of its fields.
    The processor is the two feature words the decoder reads; instruction
    fetch and the decode tables belong to the simulator's programming
    interface (vmicxtFetch2Byte, vmicxtFetch4Byte, vmidNewDecodeTable,
    vmidNewEntryFmtBin, vmidDecode) and are the operations of the classes
    [VmiCxt] and [Vmid]; [VmidLaws] states what that interface documents
    about a table.  VMI_ABORT and a failed VMI_ASSERT are [None].

    A table is created at its first use and kept in a static variable; as its
    contents depend on nothing else the model creates it at every use. *)

From S2P Require Import Prelude RvTypes RvTables.

(** ** The simulator's interface *)

Class VmiCxt := {
  vmicxtFetch2Byte : Z -> Z;
  vmicxtFetch4Byte : Z -> Z;
}.

(** Fetches return values of the size of the access. *)
Class VmiCxtLaws (X : VmiCxt) := {
  fetch2_range pc : 0 <= vmicxtFetch2Byte pc < 2 ^ 16;
  fetch4_range pc : 0 <= vmicxtFetch4Byte pc < 2 ^ 32;
}.

(** A table holds entries added to it (name, identifier, binary pattern,
    priority) and a default; decoding a word gives an identifier. *)
Class Vmid := {
  vmidDecodeTable : Type;
  VMID_DERIVE_PRIORITY : Z;
  vmidNewDecodeTable : Z -> Z -> vmidDecodeTable;
  vmidNewEntryFmtBin : vmidDecodeTable -> string -> Z -> string -> Z -> vmidDecodeTable;
  vmidDecode : vmidDecodeTable -> Z -> Z;
}.

(** A binary pattern is a list of bits, bit 0 first: [Some b] is a bit that
    must be [b] and [None] one that may be anything. *)
Abbreviation pat := (list (option bool)).

(** The text of a pattern: '0' and '1' are fixed bits, '.' a free one, and
    '|' only separates fields. *)
Fixpoint pattern_bits (s : string) (acc : pat) : pat :=
  match s with
  | EmptyString => acc
  | String c s' =>
      pattern_bits s'
        (if Ascii.eqb c "0" then Some false :: acc
         else if Ascii.eqb c "1" then Some true :: acc
         else if Ascii.eqb c "." then None :: acc
         else acc)
  end.

Definition bit_ok (b : option bool) (x : bool) : bool :=
  match b with None => true | Some b => Bool.eqb b x end.

Fixpoint matches (p : pat) (w : Z) : bool :=
  match p with
  | [] => true
  | b :: p' => bit_ok b (Z.odd w) && matches p' (Z.div2 w)
  end.

Definition fixed_bits (p : pat) : Z :=
  Z.of_nat (length (List.filter (fun b => match b with Some _ => true | None => false end) p)).

(** An entry as the interface sees it: identifier, bits and priority, which
    is derived from the number of fixed bits and adjusted by a delta. *)
Record entry := Entry { e_id : Z; e_pat : pat; e_prio : Z }.

Definition entry_of (id : Z) (s : string) (delta : Z) : entry :=
  let p := pattern_bits s [] in Entry id p (fixed_bits p + delta).

(** [e] is a matching entry of highest priority. *)
Definition is_best (es : list entry) (w : Z) (e : entry) : Prop :=
  In e es /\ matches (e_pat e) w = true /\
  forall e', In e' es -> matches (e_pat e') w = true -> e_prio e' <= e_prio e.

Section Building.

Context `{V : Vmid}.

(** The table that results from adding entries, given as (name, identifier,
    pattern, priority delta). *)
Definition add_all (t : vmidDecodeTable) (l : list (string * Z * string * Z)) : vmidDecodeTable :=
  fold_left (fun t '(o, id, p, d) =>
               vmidNewEntryFmtBin t o id p (VMID_DERIVE_PRIORITY + d)) l t.

Definition entries_of (l : list (string * Z * string * Z)) : list entry :=
  map (fun '(o, id, p, d) => entry_of id p d) l.

End Building.

(** Decoding a word of the table's width gives the identifier of a matching
    entry of highest priority, and the default when no entry matches. *)
Class VmidLaws (V : Vmid) := {
  vmidDecode_best bits dflt l w :
    0 <= w < 2 ^ bits ->
    (exists e, is_best (entries_of l) w e /\
       vmidDecode (add_all (vmidNewDecodeTable bits dflt) l) w = e_id e) \/
    ((forall e, In e (entries_of l) -> matches (e_pat e) w = false) /\
     vmidDecode (add_all (vmidNewDecodeTable bits dflt) l) w = dflt)
}.

(** ** The processor *)

Record riscv := { configInfo_arch : Z; currentArch : Z }.

Definition riscvGetXlenMode (r : riscv) : option Z :=
  if negb (Z.land (currentArch r) ISA_XLEN_64 =? 0) then Some 64
  else if negb (Z.land (currentArch r) ISA_XLEN_32 =? 0) then Some 32
  else None.

Definition riscvGetFlenArch (r : riscv) : Z :=
  if negb (Z.land (configInfo_arch r) ISA_D =? 0) then 64
  else if negb (Z.land (configInfo_arch r) ISA_F =? 0) then 32
  else 0.

Definition is4ByteInstruction (instruction : Z) : bool := Z.land instruction 3 =? 3.

Definition compressedPresent (r : riscv) : bool :=
  negb (Z.land (configInfo_arch r) ISA_C =? 0).

Definition getXLenBits (r : riscv) : option Z := riscvGetXlenMode r.

Definition getXLenArch (r : riscv) : option Z :=
  bits ← getXLenBits r; Some (if bits =? 32 then ISA_XLEN_32 else ISA_XLEN_64).

(** ** Field extraction *)

Definition UBITS (b x : Z) : Z := Z.land x (Z.shiftl 1 b - 1).

(** A shift to the left at 32 bits, read as signed, and an arithmetic shift
    back. *)
Definition SBITS (b x : Z) : Z := Z.shiftr (s32 (Z.shiftl x (32 - b))) (32 - b).

Abbreviation U_2 i := (UBITS 1 (Z.shiftr i 2)).
Abbreviation U_3 i := (UBITS 1 (Z.shiftr i 3)).
Abbreviation U_3_2 i := (UBITS 2 (Z.shiftr i 2)).
Abbreviation U_4_2 i := (UBITS 3 (Z.shiftr i 2)).
Abbreviation U_4_3 i := (UBITS 2 (Z.shiftr i 3)).
Abbreviation U_5 i := (UBITS 1 (Z.shiftr i 5)).
Abbreviation U_5_3 i := (UBITS 3 (Z.shiftr i 3)).
Abbreviation U_6 i := (UBITS 1 (Z.shiftr i 6)).
Abbreviation U_6_2 i := (UBITS 5 (Z.shiftr i 2)).
Abbreviation U_6_4 i := (UBITS 3 (Z.shiftr i 4)).
Abbreviation U_6_5 i := (UBITS 2 (Z.shiftr i 5)).
Abbreviation U_7 i := (UBITS 1 (Z.shiftr i 7)).
Abbreviation U_8 i := (UBITS 1 (Z.shiftr i 8)).
Abbreviation U_8_7 i := (UBITS 2 (Z.shiftr i 7)).
Abbreviation U_9_7 i := (UBITS 3 (Z.shiftr i 7)).
Abbreviation U_10_7 i := (UBITS 4 (Z.shiftr i 7)).
Abbreviation U_10_9 i := (UBITS 2 (Z.shiftr i 9)).
Abbreviation U_11 i := (UBITS 1 (Z.shiftr i 11)).
Abbreviation U_11_7 i := (UBITS 5 (Z.shiftr i 7)).
Abbreviation U_11_8 i := (UBITS 4 (Z.shiftr i 8)).
Abbreviation U_11_10 i := (UBITS 2 (Z.shiftr i 10)).
Abbreviation U_12 i := (UBITS 1 (Z.shiftr i 12)).
Abbreviation U_12_9 i := (UBITS 4 (Z.shiftr i 9)).
Abbreviation U_12_10 i := (UBITS 3 (Z.shiftr i 10)).
Abbreviation U_12_11 i := (UBITS 2 (Z.shiftr i 11)).
Abbreviation U_13_12 i := (UBITS 2 (Z.shiftr i 12)).
Abbreviation U_14 i := (UBITS 1 (Z.shiftr i 14)).
Abbreviation U_14_12 i := (UBITS 3 (Z.shiftr i 12)).
Abbreviation U_19_12 i := (UBITS 8 (Z.shiftr i 12)).
Abbreviation U_19_15 i := (UBITS 5 (Z.shiftr i 15)).
Abbreviation U_20 i := (UBITS 1 (Z.shiftr i 20)).
Abbreviation U_21 i := (UBITS 1 (Z.shiftr i 21)).
Abbreviation U_21_20 i := (UBITS 2 (Z.shiftr i 20)).
Abbreviation U_23_20 i := (UBITS 4 (Z.shiftr i 20)).
Abbreviation U_24 i := (UBITS 1 (Z.shiftr i 24)).
Abbreviation U_24_20 i := (UBITS 5 (Z.shiftr i 20)).
Abbreviation U_24_22 i := (UBITS 3 (Z.shiftr i 22)).
Abbreviation U_25 i := (UBITS 1 (Z.shiftr i 25)).
Abbreviation U_25_20 i := (UBITS 6 (Z.shiftr i 20)).
Abbreviation U_26 i := (UBITS 1 (Z.shiftr i 26)).
Abbreviation U_26_25 i := (UBITS 2 (Z.shiftr i 25)).
Abbreviation U_27_24 i := (UBITS 4 (Z.shiftr i 24)).
Abbreviation U_28 i := (UBITS 1 (Z.shiftr i 28)).
Abbreviation U_30_21 i := (UBITS 10 (Z.shiftr i 21)).
Abbreviation U_30_25 i := (UBITS 6 (Z.shiftr i 25)).
Abbreviation U_31_20 i := (UBITS 12 (Z.shiftr i 20)).
Abbreviation U_31_27 i := (UBITS 5 (Z.shiftr i 27)).
Abbreviation U_31_29 i := (UBITS 3 (Z.shiftr i 29)).
Abbreviation S_12 i := (SBITS 1 (Z.shiftr i 12)).
Abbreviation S_19_15 i := (SBITS 5 (Z.shiftr i 15)).
Abbreviation S_31_12 i := (SBITS 20 (Z.shiftr i 12)).
Abbreviation S_31_20 i := (SBITS 12 (Z.shiftr i 20)).
Abbreviation S_31_25 i := (SBITS 7 (Z.shiftr i 25)).
Abbreviation S_31 i := (SBITS 1 (Z.shiftr i 31)).

(** ** The decoder's state: the structure being filled *)

Definition D (A : Type) : Type := riscvInstrInfo -> option (A * riscvInstrInfo).

#[global] Instance D_ret : MRet D := fun A x i => Some (x, i).
#[global] Instance D_bind : MBind D := fun A B k c i =>
  match c i with Some (x, i') => k x i' | None => None end.

Definition gets {A} (f : riscvInstrInfo -> A) : D A := fun i => Some (f i, i).
Definition modify (f : riscvInstrInfo -> riscvInstrInfo) : D unit := fun i => Some (tt, f i).
Definition lift {A} (o : option A) : D A := fun i => x ← o; Some (x, i).

(** ** Instruction tables and fetch *)

(** The indices and elements a loop that creates a table goes through. *)
Definition list32 : list (Z * opAttrs) :=
  map (fun i => (index32 i, attrsArray32 i)) all32.

(** Only the entries that apply to the current XLEN (patterns are reused). *)
Definition list16 (is64BitMode : bool) : list (Z * opAttrs) :=
  let XLENarch := if is64BitMode then ISA_XLEN_64 else ISA_XLEN_32 in
  List.filter (fun '(i, e) => negb (Z.land (a_arch e) XLENarch =? 0))
    (map (fun i => (index16 i, attrsArray16 i)) all16).

Section Decode.

Context `{V : Vmid} `{X : VmiCxt}.

(** The body of the loop that creates a table: assert that the entry is
    there and add its pattern. *)
Definition new_entry (table : vmidDecodeTable) (i : Z) (e : opAttrs) : option vmidDecodeTable :=
  match a_opcode e, a_pattern e with
  | Some o, Some p =>
      Some (vmidNewEntryFmtBin table o i p (VMID_DERIVE_PRIORITY + a_priDelta e))
  | _, _ => None
  end.

Fixpoint add_entries (table : vmidDecodeTable) (l : list (Z * opAttrs)) : option vmidDecodeTable :=
  match l with
  | [] => Some table
  | (i, e) :: l' => table' ← new_entry table i e; add_entries table' l'
  end.

Definition createDecodeTable32 : option vmidDecodeTable :=
  add_entries (vmidNewDecodeTable 32 (index32 IT32_LAST)) list32.

Definition getInstructionType32 (instr : Z) : option Z :=
  decodeTable ← createDecodeTable32; Some (vmidDecode decodeTable instr).

Definition createDecodeTable16 (is64BitMode : bool) : option vmidDecodeTable :=
  add_entries (vmidNewDecodeTable 16 (index16 IT16_LAST)) (list16 is64BitMode).

Definition getInstructionType16 (r : riscv) (instr : Z) : option Z :=
  bits ← getXLenBits r;
  decodeTable ← createDecodeTable16 (bits =? 64);
  Some (vmidDecode decodeTable instr).

Definition fetch2 (thisPC : Z) : Z := vmicxtFetch2Byte thisPC.
Definition fetch4 (thisPC : Z) : Z := vmicxtFetch4Byte thisPC.

Definition getInstructionSize (r : riscv) (thisPC : Z) : Z :=
  if negb (compressedPresent r) then 4
  else if is4ByteInstruction (fetch2 thisPC) then 4
  else 2.

Definition riscvGetInstructionSize (r : riscv) (thisPC : Z) : Z := getInstructionSize r thisPC.

Definition riscvGetInstruction (r : riscv) (thisPC : Z) : option Z :=
  if negb (compressedPresent r) then Some (fetch4 thisPC)
  else
    let result := fetch2 thisPC in
    if is4ByteInstruction result then
      bits ← getXLenBits r;
      let highPC := w64 (thisPC + 2) in
      let highPC := if bits =? 32 then Z.land highPC 0xffffffff else highPC in
      Some (Z.lor result (w32 (Z.shiftl (fetch2 highPC) 16)))
    else Some result.

(** ** Interpretation of the fields *)

Definition forceWidth32 : D Z :=
  modify (fun i => put_arch (Z.ldiff (i_arch i) ISA_XLEN_32) i) ;;
  modify (put_explicitW true) ;;
  mret RV_RD_32.

Definition getXWidth (r : riscv) (w : wxSpec) : D Z :=
  instr ← gets i_instruction;
  bits ← lift (getXLenBits r);
  let current := if bits =? 32 then RV_RD_32 else RV_RD_64 in
  match w with
  | WX_NA => mret current
  | WX_3 => if U_3 instr =? 0 then mret current else forceWidth32
  | WX_12 =>
      modify (put_explicitType true) ;;
      mret (if U_12 instr =? 0 then RV_RD_32 else RV_RD_64)
  | WX_25 => mret (if U_25 instr =? 0 then RV_RD_32 else RV_RD_64)
  | WX_21_U_20 =>
      modify (put_explicitType true) ;;
      mret ((if U_21 instr =? 0 then RV_RD_32 else RV_RD_64) +
            (if U_20 instr =? 0 then 0 else RV_RD_U))
  | WX_W1 => forceWidth32
  end.

Definition getFWidthBits (bits : Z) : Z :=
  if bits =? 32 then RV_RD_32 else if bits =? 64 then RV_RD_64 else RV_RD_NA.

Definition getFWidth (r : riscv) (w : wfSpec) : D Z :=
  instr ← gets i_instruction;
  match w with
  | WF_NA => mret RV_RD_NA
  | WF_25 =>
      modify (put_explicitType true) ;;
      mret (if U_25 instr =? 0 then RV_RD_32 else RV_RD_64)
  | WF_MEM => bits ← gets i_memBits; mret (getFWidthBits bits)
  | WF_ARCH => mret (getFWidthBits (riscvGetFlenArch r))
  end.

Definition getCSR (instr : Z) (csr : csrSpec) : Z :=
  match csr with CSRS_NA => 0 | CSRS_31_20 => U_31_20 instr end.

Definition getCSRUpdate (instr : Z) (csrUpdate : csrUpdateSpec) : Z :=
  match csrUpdate with CSRUS_NA => RV_CSR_NA | CSRUS_13_12 => U_13_12 instr end.

Definition validateShift (r : riscv) (shift wX : Z) : D unit :=
  bits ← lift (getXLenBits r);
  if shift >=? bits then
    arch ← lift (getXLenArch r);
    modify (fun i => put_arch (Z.ldiff (i_arch i) arch) i)
  else if shift >=? getRBits wX then modify (put_type RV_IT_LAST)
  else mret tt.

(** The value of the constant: sums of shifted fields at 64 bits, a signed
    field being sign-extended and an unsigned one shifted at 32 bits. *)
Definition shl (x n : Z) : Z := w64 (Z.shiftl x n).
Definition ushl (x n : Z) : Z := w32 (Z.shiftl x n).
Infix "+u" := (fun a b => w64 (a + b)) (at level 50, left associativity).

Definition constant (c : constSpec) (instr thisPC : Z) : Z :=
  match c with
  | CS_NA => 0
  | CS_U_19_15 => U_19_15 instr
  | CS_S_19_15 => w64 (S_19_15 instr)
  | CS_S_31_20 => w64 (S_31_20 instr)
  | CS_S_31_25_11_7 => shl (S_31_25 instr) 5 +u U_11_7 instr
  | CS_SHAMT_25_20 => U_25_20 instr
  | CS_AUIPC => shl (S_31_12 instr) 12
  | CS_J =>
      shl (S_31 instr) 20 +u ushl (U_19_12 instr) 12 +u ushl (U_20 instr) 11
        +u ushl (U_30_21 instr) 1 +u thisPC
  | CS_B =>
      shl (S_31 instr) 12 +u ushl (U_7 instr) 11 +u ushl (U_30_25 instr) 5
        +u ushl (U_11_8 instr) 1 +u thisPC
  | CS_C_ADDI => shl (S_12 instr) 5 +u U_6_2 instr
  | CS_C_SLLI => ushl (U_12 instr) 5 +u U_6_2 instr
  | CS_C_ADDI16SP =>
      shl (S_12 instr) 9 +u ushl (U_4_3 instr) 7 +u ushl (U_5 instr) 6
        +u ushl (U_2 instr) 5 +u ushl (U_6 instr) 4
  | CS_C_ADDI4SPN =>
      ushl (U_10_7 instr) 6 +u ushl (U_12_11 instr) 4 +u ushl (U_5 instr) 3
        +u ushl (U_6 instr) 2
  | CS_C_LUI => shl (S_12 instr) 17 +u ushl (U_6_2 instr) 12
  | CS_C_LW => ushl (U_5 instr) 6 +u ushl (U_12_10 instr) 3 +u ushl (U_6 instr) 2
  | CS_C_LD => ushl (U_6_5 instr) 6 +u ushl (U_12_10 instr) 3
  | CS_C_LWSP => ushl (U_3_2 instr) 6 +u ushl (U_12 instr) 5 +u ushl (U_6_4 instr) 2
  | CS_C_LDSP => ushl (U_4_2 instr) 6 +u ushl (U_12 instr) 5 +u ushl (U_6_5 instr) 3
  | CS_C_SWSP => ushl (U_8_7 instr) 6 +u ushl (U_12_9 instr) 2
  | CS_C_SDSP => ushl (U_9_7 instr) 6 +u ushl (U_12_10 instr) 3
  | CS_C_B =>
      shl (S_12 instr) 8 +u ushl (U_6_5 instr) 6 +u ushl (U_2 instr) 5
        +u ushl (U_11_10 instr) 3 +u ushl (U_4_3 instr) 1 +u thisPC
  | CS_C_J =>
      shl (S_12 instr) 11 +u ushl (U_8 instr) 10 +u ushl (U_10_9 instr) 8
        +u ushl (U_6 instr) 7 +u ushl (U_7 instr) 6 +u ushl (U_2 instr) 5
        +u ushl (U_11 instr) 4 +u ushl (U_5_3 instr) 1 +u thisPC
  end.

Definition getConstant (r : riscv) (c : constSpec) (wX : Z) : D Z :=
  instr ← gets i_instruction;
  thisPC ← gets i_thisPC;
  let result := constant c instr thisPC in
  match c with
  | CS_SHAMT_25_20 | CS_C_SLLI => validateShift r result wX ;; mret result
  | _ => mret result
  end.

(** The register the specification names, before its width is filled in. *)
Definition register (r : rSpec) (instr : Z) : Z :=
  match r with
  | R_NA => RV_RD_NA
  | RS_X_ZERO => Z.lor RV_RD_X 0
  | RS_X_LR => Z.lor RV_RD_X 1
  | RS_X_SP => Z.lor RV_RD_X 2
  | RS_X_4_2_P8 => Z.lor RV_RD_X (U_4_2 instr + 8)
  | RS_X_6_2 => Z.lor RV_RD_X (U_6_2 instr)
  | RS_X_11_7 => Z.lor RV_RD_X (U_11_7 instr)
  | RS_X_19_15 => Z.lor RV_RD_X (U_19_15 instr)
  | RS_X_24_20 => Z.lor RV_RD_X (U_24_20 instr)
  | RS_X_9_7_P8 => Z.lor RV_RD_X (U_9_7 instr + 8)
  | RS_XWL_11_7 => Z.lor (Z.lor RV_RD_X (U_11_7 instr)) RV_RD_WL
  | RS_XWL_19_15 => Z.lor (Z.lor RV_RD_X (U_19_15 instr)) RV_RD_WL
  | RS_XX_11_7 => Z.lor (Z.lor RV_RD_X (U_11_7 instr)) RV_RD_FX
  | RS_XX_19_15 => Z.lor (Z.lor RV_RD_X (U_19_15 instr)) RV_RD_FX
  | RS_F_4_2_P8 => Z.lor RV_RD_F (U_4_2 instr + 8)
  | RS_F_6_2 => Z.lor RV_RD_F (U_6_2 instr)
  | RS_F_11_7 => Z.lor RV_RD_F (U_11_7 instr)
  | RS_F_19_15 => Z.lor RV_RD_F (U_19_15 instr)
  | RS_F_24_20 => Z.lor RV_RD_F (U_24_20 instr)
  | RS_F_31_27 => Z.lor RV_RD_F (U_31_27 instr)
  | RS_S_19_15 => Z.lor (Z.lor RV_RD_F (U_19_15 instr)) RV_RD_32
  | RS_D_19_15 => Z.lor (Z.lor RV_RD_F (U_19_15 instr)) RV_RD_64
  | RS_V0 => Z.lor RV_RD_V 0
  | RS_V_11_7 => Z.lor RV_RD_V (U_11_7 instr)
  | RS_V_19_15 => Z.lor RV_RD_V (U_19_15 instr)
  | RS_V_24_20 => Z.lor RV_RD_V (U_24_20 instr)
  | RS_V_M_25 => if U_25 instr =? 0 then Z.lor RV_RD_V 0 else 0
  | RS_V_11_7_Z26 =>
      if U_26 instr =? 0 then Z.lor RV_RD_X 0 else Z.lor RV_RD_V (U_11_7 instr)
  end.

Definition with_width (result wX wF : Z) (xQuiet : bool) : Z :=
  if negb (result =? 0) && (getRBits result =? 0) then
    let result :=
      if xQuiet && isXReg result && negb (isXWLReg result)
      then Z.lor result RV_RD_Q else result in
    Z.lor result (if isXReg result then wX else wF)
  else result.

Definition getRegister (r : riscv) (spec : rSpec) (wX wF : Z) (xQuiet : bool) : D Z :=
  instr ← gets i_instruction;
  let result := with_width (register spec instr) wX wF xQuiet in
  bits ← lift (getXLenBits r);
  (if isXReg result && (getRBits result >? bits) then
     arch ← lift (getXLenArch r);
     modify (fun i => put_arch (Z.ldiff (i_arch i) arch) i)
   else mret tt) ;;
  mret result.

Definition getAQRL (instr : Z) (aqrl : aqrlSpec) : Z :=
  match aqrl with AQRL_NA => RV_AQRL_NA | AQRL_26_25 => U_26_25 instr end.

Definition getFence (instr : Z) (fence : fenceSpec) : Z :=
  match fence with
  | FENCES_NA => RV_FENCE_NA
  | FENCES_23_20 => U_23_20 instr
  | FENCES_27_24 => U_27_24 instr
  end.

(** The vector element sizes are an array of Int8 in which -1 stands for
    SEW; the result is an Uns32. *)
Definition getMemBits (instr : Z) (memBits : memBitsSpec) : Z :=
  match memBits with
  | MBS_NA => 0
  | MBS_12 => ushl 32 (U_12 instr)
  | MBS_13_12 => ushl 8 (U_13_12 instr)
  | MBS_14_12_V =>
      w32 (nth (Z.to_nat (U_14_12 instr)) [8; 0; 0; 0; 0; 16; 32; -1] 0)
  | MBS_W => 32
  | MBS_D => 64
  end.

Definition getUnsExt (instr : Z) (unsExt : unsExtSpec) : bool :=
  match unsExt with
  | USX_NA => false
  | USX_14 => negb (U_14 instr =? 0)
  | USX_28 => U_28 instr =? 0
  end.

Definition getRM (instr : Z) (rm : rmSpec) : riscvRMDesc :=
  match rm with
  | RM_NA => RV_RM_NA
  | RM_14_12 =>
      nth (Z.to_nat (U_14_12 instr))
        [RV_RM_RTE; RV_RM_RTZ; RV_RM_RDN; RV_RM_RUP;
         RV_RM_RMM; RV_RM_BAD5; RV_RM_BAD6; RV_RM_CURRENT] RV_RM_NA
  end.

Definition getVSEW (instr : Z) (vsew : vsewSpec) : Z :=
  match vsew with VSEW_NA => 0 | VSEW_24_22 => U_24_22 instr end.

Definition getVLMUL (instr : Z) (vlmul : vlmulSpec) : Z :=
  match vlmul with VLMUL_NA => 0 | VLMUL_21_20 => U_21_20 instr end.

Definition getFirstFault (instr : Z) (ff : firstFaultSpec) : bool :=
  match ff with FF_NA => false | FF_24 => negb (U_24 instr =? 0) end.

Definition getNumFields (instr : Z) (nf : numFieldsSpec) : Z :=
  match nf with NF_NA => 0 | NF_31_29 => U_31_29 instr end.

Definition fixFPPseudoInstructions (i : riscvInstrInfo) : riscvInstrInfo :=
  let fix_to t o :=
    if i_r1 i =? i_r2 i
    then put_format (Some FMT_R1_R2) (put_opcode (Some o) (put_type t i)) else i in
  match i_type i with
  | RV_IT_FSGNJX_R => fix_to RV_IT_FABS_R "fabs"%string
  | RV_IT_FSGNJ_R => fix_to RV_IT_FMV_R "fmv"%string
  | RV_IT_FSGNJN_R => fix_to RV_IT_FNEG_R "fneg"%string
  | _ => i
  end.

(** The fields, given the instruction word and its X register width. *)
Definition fill_fields (r : riscv) (attrs : opAttrs) (instr wX : Z) : D unit :=
  wF ← getFWidth r (a_wF attrs);
  modify (put_unsExt (getUnsExt instr (a_unsExt attrs))) ;;
  modify (put_csr (getCSR instr (a_csr attrs))) ;;
  modify (put_csrUpdate (getCSRUpdate instr (a_csrUpdate attrs))) ;;
  c ← getConstant r (a_cs attrs) wX; modify (put_c c) ;;
  r0 ← getRegister r (a_r1 attrs) wX wF (a_xQuiet attrs); modify (put_r0 r0) ;;
  r1 ← getRegister r (a_r2 attrs) wX wF (a_xQuiet attrs); modify (put_r1 r1) ;;
  r2 ← getRegister r (a_r3 attrs) wX wF (a_xQuiet attrs); modify (put_r2 r2) ;;
  r3 ← getRegister r (a_r4 attrs) wX wF (a_xQuiet attrs); modify (put_r3 r3) ;;
  m ← getRegister r (a_mask attrs) wX wF (a_xQuiet attrs); modify (put_mask m) ;;
  modify (put_aqrl (getAQRL instr (a_aqrl attrs))) ;;
  modify (put_pred (getFence instr (a_pred attrs))) ;;
  modify (put_succ (getFence instr (a_succ attrs))) ;;
  modify (put_rm (getRM instr (a_rm attrs))) ;;
  modify (put_vsew (getVSEW instr (a_vsew attrs))) ;;
  modify (put_vlmul (getVLMUL instr (a_vlmul attrs))) ;;
  modify (put_VIType (a_VIType attrs)) ;;
  modify (put_isFF (getFirstFault instr (a_ff attrs))) ;;
  modify (put_nf (getNumFields instr (a_nf attrs))) ;;
  modify fixFPPseudoInstructions.

Definition interpretInstruction (r : riscv) (attrs : opAttrs) : D unit :=
  modify (put_type (a_type attrs)) ;;
  modify (put_opcode (a_opcode attrs)) ;;
  modify (put_format (a_format attrs)) ;;
  modify (put_arch (a_arch attrs)) ;;
  modify (put_explicitType false) ;;
  modify (put_explicitW false) ;;
  modify (put_csrInOp (a_csrInOp attrs)) ;;
  instr ← gets i_instruction;
  modify (put_memBits (getMemBits instr (a_memBits attrs))) ;;
  wX ← getXWidth r (a_wX attrs);
  fill_fields r attrs instr wX.

(** [attrsArray32[type]] with the identifier the table gives; outside the
    enumeration there is no element. *)
Definition attrs_at32 (id : Z) : option opAttrs :=
  attrsArray32 <$> List.find (fun t => index32 t =? id) (all32 ++ [IT32_LAST]).

Definition attrs_at16 (id : Z) : option opAttrs :=
  attrsArray16 <$> List.find (fun t => index16 t =? id) (all16 ++ [IT16_LAST]).

Definition decode32 (r : riscv) : D unit :=
  instr ← gets i_instruction;
  type ← lift (getInstructionType32 instr);
  attrs ← lift (attrs_at32 type);
  interpretInstruction r attrs.

Definition decode16 (r : riscv) : D unit :=
  instr ← gets i_instruction;
  type ← lift (getInstructionType16 r instr);
  attrs ← lift (attrs_at16 type);
  interpretInstruction r attrs.

Definition riscvDecode (r : riscv) (thisPC : Z) : D unit :=
  modify (put_type RV_IT_LAST) ;;
  modify (put_thisPC thisPC) ;;
  instr ← lift (riscvGetInstruction r thisPC);
  modify (put_instruction instr) ;;
  modify (put_bytes (if is4ByteInstruction instr then 4 else 2)) ;;
  bytes ← gets i_bytes;
  if bytes =? 4 then decode32 r else decode16 r.

End Decode.
