(* ===== verification/RvTableFacts.v ===== *)
(** * The decode tables leave no choice to the simulator

    The simulator picks a matching entry of highest priority; riscvDecode.c
    relies on that entry being unique.  This file computes the contents of
    the two tables, shows that two entries that can match the same word
    always differ in priority, and gives the lemma by which the encoding of
    an instruction is traced to the entries it can be classified as. *)

From S2P Require Import Prelude RvTypes RvTables RvDecode.

(** ** Patterns *)

(** Two patterns that some word may match at once. *)
Fixpoint compat (p q : pat) : bool :=
  match p, q with
  | Some x :: p', Some y :: q' => if Bool.eqb x y then compat p' q' else false
  | _ :: p', _ :: q' => compat p' q'
  | _, _ => true
  end.

(** Every word that matches [p] matches [c]. *)
Fixpoint covers (c p : pat) : bool :=
  match c, p with
  | [], _ => true
  | None :: c', [] => covers c' []
  | None :: c', _ :: p' => covers c' p'
  | Some x :: c', Some y :: p' => if Bool.eqb x y then covers c' p' else false
  | Some _ :: _, _ => false
  end.

Lemma matches_compat p q w :
  matches p w = true -> matches q w = true -> compat p q = true.
Proof.
  revert q w. induction p as [|b p IH]; intros [|c q] w; cbn; auto.
  { by destruct b. }
  intros [Hb Hp]%andb_prop [Hc Hq]%andb_prop.
  pose proof (IH _ _ Hp Hq) as ->. destruct b as [x|], c as [y|]; auto.
  cbn in Hb, Hc. apply Bool.eqb_prop in Hb, Hc. subst. by rewrite Bool.eqb_reflx.
Qed.

Lemma covers_matches c p w :
  covers c p = true -> matches p w = true -> matches c w = true.
Proof.
  revert p w. induction c as [|b c IH]; intros p w; [done|].
  destruct b as [x|], p as [|[y|] p]; cbn; try done.
  - destruct (Bool.eqb_spec x y) as [->|]; [|done].
    intros Hc [Hb Hp]%andb_prop. rewrite Hb. by apply (IH p).
  - intros Hc _. by apply (IH []).
  - intros Hc [Hb Hp]%andb_prop. by apply (IH p).
  - intros Hc Hp. by apply (IH p).
Qed.

(** A word built of a low and a high part is matched part by part. *)
Lemma matches_app p q lo hi :
  0 <= lo < 2 ^ Z.of_nat (length p) ->
  matches (p ++ q) (lo + 2 ^ Z.of_nat (length p) * hi) = matches p lo && matches q hi.
Proof.
  revert lo. induction p as [|b p IH]; intros lo Hlo.
  { cbn in *. f_equal. lia. }
  cbn [length app matches] in *. rewrite Nat2Z.inj_succ, Z.pow_succ_r in * by lia.
  set (m := 2 ^ Z.of_nat (length p)) in *.
  rewrite (Z.div2_odd lo) in *. set (l := Z.div2 lo) in *. set (o := Z.b2z (Z.odd lo)) in *.
  assert (Ho : o = 0 \/ o = 1) by (unfold o; destruct (Z.odd lo); auto).
  replace (2 * l + o + 2 * m * hi) with (2 * (l + m * hi) + o) by lia.
  assert (Hodd : forall k, Z.odd (2 * k + o) = Z.odd lo).
  { intros k. rewrite Z.odd_add, Z.odd_mul. cbn. unfold o. by destruct (Z.odd lo). }
  assert (Hdiv : forall k, Z.div2 (2 * k + o) = k) by (intros k; rewrite Z.div2_div; zlia).
  rewrite !Hodd, !Hdiv, IH by lia. by rewrite andb_assoc.
Qed.

Lemma matches_free n w : matches (repeat None n) w = true.
Proof. revert w. induction n; intros w; cbn; auto. Qed.

(** ** Uniqueness *)

(** Entries that can match the same word have different priorities. *)
Fixpoint unambiguous (es : list entry) : bool :=
  match es with
  | [] => true
  | e :: es' =>
      forallb (fun e' => if compat (e_pat e) (e_pat e')
                         then negb (e_prio e =? e_prio e') else true) es'
      && unambiguous es'
  end.

Lemma unambiguous_pair es e e' w :
  unambiguous es = true -> In e es -> In e' es ->
  matches (e_pat e) w = true -> matches (e_pat e') w = true ->
  e_prio e = e_prio e' -> e = e'.
Proof.
  intros Hu He He' Hm Hm' Hp.
  induction es as [|x es IH]; [done|]. cbn in Hu. apply andb_prop in Hu as [Hx Hu].
  rewrite forallb_forall in Hx.
  assert (Hno : forall a b, In b es -> x = a -> matches (e_pat a) w = true ->
                 matches (e_pat b) w = true -> e_prio a = e_prio b -> False).
  { intros a b Hb -> Ha Hmb Hab. specialize (Hx b Hb).
    rewrite (matches_compat _ _ _ Ha Hmb), Hab, Z.eqb_refl in Hx. done. }
  destruct He as [He|He], He' as [He'|He']; subst; auto; exfalso; eauto.
Qed.

Lemma best_unique es e e' w :
  unambiguous es = true -> is_best es w e -> is_best es w e' -> e = e'.
Proof.
  intros Hu (Hin & Hm & Hmax) (Hin' & Hm' & Hmax').
  apply (unambiguous_pair es e e' w); auto.
  pose proof (Hmax e' Hin' Hm'). pose proof (Hmax' e Hin Hm). lia.
Qed.

(** ** Entries an encoding can be classified as *)

(** The entries some word of pattern [p] may match, except those that an
    entry matched by every such word beats. *)
Definition cands (es : list entry) (p : pat) : list entry :=
  let cs := List.filter (fun c => covers (e_pat c) p) es in
  List.filter (fun e => compat (e_pat e) p
                        && negb (existsb (fun c => e_prio e <? e_prio c) cs)) es.

Lemma best_in_cands es p w e :
  matches p w = true -> is_best es w e -> In e (cands es p).
Proof.
  intros Hp (Hin & Hm & Hmax). unfold cands. apply List.filter_In. split; [done|].
  rewrite (matches_compat _ _ _ Hm Hp). cbn. apply negb_true_iff, not_true_iff_false.
  intros [c [Hc Hlt]]%existsb_exists. apply List.filter_In in Hc as [Hc Hcov].
  pose proof (Hmax c Hc (covers_matches _ _ _ Hcov Hp)). lia.
Qed.

(** ** The tables of riscvDecode.c *)

(** What the loop adds for each element of the array. *)
Fixpoint raw (l : list (Z * opAttrs)) : option (list (string * Z * string * Z)) :=
  match l with
  | [] => Some []
  | (i, e) :: l' =>
      match a_opcode e, a_pattern e, raw l' with
      | Some o, Some p, Some r => Some ((o, i, p, a_priDelta e) :: r)
      | _, _, _ => None
      end
  end.

Lemma add_entries_raw `{Vmid} t l r :
  raw l = Some r -> add_entries t l = Some (add_all t r).
Proof.
  revert t r. induction l as [|[i e] l IH]; intros t r; cbn; [by intros [= <-]|].
  unfold new_entry. destruct (a_opcode e), (a_pattern e), (raw l); try done.
  intros [= <-]. cbn. by apply IH.
Qed.

Definition raw32 : list (string * Z * string * Z) :=
  Eval vm_compute in default [] (raw list32).
Definition raw16 (m : bool) : list (string * Z * string * Z) :=
  Eval vm_compute in if m then default [] (raw (list16 true)) else default [] (raw (list16 false)).

Definition entries32 : list entry := Eval vm_compute in entries_of raw32.
Definition entries16 (m : bool) : list entry :=
  Eval vm_compute in if m then entries_of (raw16 true) else entries_of (raw16 false).

Lemma raw32_eq : raw list32 = Some raw32.
Proof. vm_compute. reflexivity. Qed.
Lemma raw16_eq m : raw (list16 m) = Some (raw16 m).
Proof. destruct m; vm_compute; reflexivity. Qed.
Lemma entries32_eq : entries_of raw32 = entries32.
Proof. vm_compute. reflexivity. Qed.
Lemma entries16_eq m : entries_of (raw16 m) = entries16 m.
Proof. destruct m; vm_compute; reflexivity. Qed.

Lemma unambiguous32 : unambiguous entries32 = true.
Proof. vm_compute. reflexivity. Qed.
Lemma unambiguous16 m : unambiguous (entries16 m) = true.
Proof. destruct m; vm_compute; reflexivity. Qed.
