(* ===== verification/RvDecodeFacts.v ===== *)
(** * Correctness of the instruction decoder

    Three groups of facts about riscvDecode.c.  The type of an instruction
    does not depend on how the simulator implements its decode tables
    ([types_determined]).  Fetch and size agree ([fetched_size]).  The
    interpretation of a plain 32-bit integer instruction is a function of its
    attributes and fields ([interpret_plain]), from which RvIsa.v derives what
    every instruction of RV32IM decodes to. *)

From S2P Require Import Prelude RvTypes RvTables RvDecode RvTableFacts.

(** ** A simulator: tables as lists *)

(** The first entry of highest priority among those that match. *)
Fixpoint best (es : list entry) (w : Z) : option entry :=
  match es with
  | [] => None
  | e :: es' =>
      match best es' w with
      | Some e' => if matches (e_pat e) w && (e_prio e' <=? e_prio e) then Some e else Some e'
      | None => if matches (e_pat e) w then Some e else None
      end
  end.

Lemma best_spec es w :
  match best es w with
  | Some e => is_best es w e
  | None => forall e, In e es -> matches (e_pat e) w = false
  end.
Proof.
  induction es as [|e es IH]; cbn; [done|].
  destruct (best es w) as [e'|].
  - destruct IH as (Hin & Hm & Hmax).
    destruct (matches (e_pat e) w) eqn:He; cbn.
    + destruct (Z.leb_spec (e_prio e') (e_prio e)).
      * split; [by left|]. split; [done|]. intros x [<-|Hx] Hmx; [lia|].
        pose proof (Hmax x Hx Hmx). lia.
      * split; [by right|]. split; [done|]. intros x [<-|Hx] Hmx; [lia|]. by apply Hmax.
    + split; [by right|]. split; [done|]. intros x [<-|Hx] Hmx; [congruence|]. by apply Hmax.
  - destruct (matches (e_pat e) w) eqn:He.
    + split; [by left|]. split; [done|]. intros x [<-|Hx] Hmx; [lia|].
      rewrite IH in Hmx by done. done.
    + intros x [<-|Hx]; auto.
Qed.

(** Entries are appended ([front = false]) or put in front. *)
Definition list_vmid (front : bool) : Vmid := {|
  vmidDecodeTable := Z * list entry;
  VMID_DERIVE_PRIORITY := 0;
  vmidNewDecodeTable bits dflt := (dflt, []);
  vmidNewEntryFmtBin t o id p prio :=
    (fst t, if front then entry_of id p prio :: snd t else snd t ++ [entry_of id p prio]);
  vmidDecode t w := match best (snd t) w with Some e => e_id e | None => fst t end;
|}.

Lemma list_vmid_table front t l :
  exists es, add_all (V := list_vmid front) t l = (fst t, es) /\
    forall e, In e es <-> In e (snd t) \/ In e (entries_of l).
Proof.
  revert t. induction l as [|[[[o id] p] d] l IH]; intros t.
  { exists (snd t). destruct t. cbn. split; [done|]. tauto. }
  destruct (IH (vmidNewEntryFmtBin (Vmid := list_vmid front) t o id p d)) as (es & Heq & Hin).
  exists es. split; [exact Heq|]. intros e. rewrite Hin. cbn.
  destruct front; cbn; [|rewrite in_app_iff; cbn]; tauto.
Qed.

#[global] Instance list_vmid_laws front : VmidLaws (list_vmid front).
Proof.
  constructor. intros bits dflt l w _.
  destruct (list_vmid_table front (dflt, []) l) as (es & Heq & Hin).
  unfold vmidNewDecodeTable at 1 2. cbn -[add_all entries_of is_best best].
  rewrite Heq. cbn [fst snd] in *.
  pose proof (best_spec es w) as Hb. destruct (best es w) as [e|].
  - left. exists e. destruct Hb as (Hi & Hm & Hmax). split; [|done].
    split; [by apply Hin in Hi as [[]|Hi]|]. split; [done|]. intros e' He'. apply Hmax, Hin. by right.
  - right. split; [|done]. intros e He. apply Hb, Hin. by right.
Qed.

(** ** Classification *)

Section Classify.

Context `{VL : VmidLaws}.

Lemma createDecodeTable32_eq :
  createDecodeTable32 = Some (add_all (vmidNewDecodeTable 32 (index32 IT32_LAST)) raw32).
Proof. exact (add_entries_raw _ list32 raw32 raw32_eq). Qed.

Lemma createDecodeTable16_eq m :
  createDecodeTable16 m = Some (add_all (vmidNewDecodeTable 16 (index16 IT16_LAST)) (raw16 m)).
Proof. exact (add_entries_raw _ (list16 m) (raw16 m) (raw16_eq m)). Qed.

Definition id_of (es : list entry) (dflt w : Z) : Z :=
  match best es w with Some e => e_id e | None => dflt end.

Lemma vmidDecode_id bits dflt l w :
  unambiguous (entries_of l) = true -> 0 <= w < 2 ^ bits ->
  vmidDecode (add_all (vmidNewDecodeTable bits dflt) l) w = id_of (entries_of l) dflt w.
Proof.
  intros Hu Hw. unfold id_of. pose proof (best_spec (entries_of l) w) as Hb.
  destruct (vmidDecode_best bits dflt l w Hw) as [(e & He & ->)|[Hno ->]];
    destruct (best (entries_of l) w) as [e'|]; auto.
  - by rewrite (best_unique _ _ _ _ Hu He Hb).
  - destruct He as (Hi & Hm & _). rewrite Hb in Hm by done. done.
  - destruct Hb as (Hi & Hm & _). rewrite Hno in Hm by done. done.
Qed.

Lemma bind_some {A B} (f : A -> option B) (o : option A) x :
  o = Some x -> (o ≫= f) = f x.
Proof. by intros ->. Qed.

Lemma getInstructionType32_eq w :
  0 <= w < 2 ^ 32 ->
  getInstructionType32 w = Some (id_of entries32 (index32 IT32_LAST) w).
Proof.
  intros Hw. unfold getInstructionType32.
  rewrite (bind_some _ _ _ createDecodeTable32_eq), <- entries32_eq.
  rewrite vmidDecode_id; [done| |done]. rewrite entries32_eq. apply unambiguous32.
Qed.

Lemma getInstructionType16_eq r bits w :
  getXLenBits r = Some bits -> 0 <= w < 2 ^ 16 ->
  getInstructionType16 r w = Some (id_of (entries16 (bits =? 64)) (index16 IT16_LAST) w).
Proof.
  intros Hr Hw. unfold getInstructionType16.
  rewrite (bind_some _ _ _ Hr), (bind_some _ _ _ (createDecodeTable16_eq _)), <- entries16_eq.
  rewrite vmidDecode_id; [done| |done]. rewrite entries16_eq. apply unambiguous16.
Qed.

(** A word of pattern [p], for which the table has an entry that covers the
    pattern, is classified as one of the candidates of the pattern, whose own
    pattern it matches. *)
Lemma id_of_cands es dflt p w :
  matches p w = true -> existsb (fun c => covers (e_pat c) p) es = true ->
  exists e, In e (cands es p) /\ matches (e_pat e) w = true /\ id_of es dflt w = e_id e.
Proof.
  intros Hp [c [Hc Hcov]]%existsb_exists. unfold id_of. pose proof (best_spec es w) as Hb.
  destruct (best es w) as [e|].
  - exists e. split; [by apply (best_in_cands es p w)|]. destruct Hb as (_ & Hm & _). done.
  - pose proof (Hb c Hc) as Hf. rewrite (covers_matches _ _ _ Hcov Hp) in Hf. done.
Qed.

End Classify.

(** The type the decoder gives an instruction word does not depend on
    the simulator: with any two implementations of the decode tables that do
    what their interface documents, every 32-bit word and, at either register
    width, every 16-bit word is classified alike.  No two entries of a table
    that match the same word have the same priority. *)
Theorem types_determined (V1 V2 : Vmid) (L1 : VmidLaws V1) (L2 : VmidLaws V2) r bits :
  getXLenBits r = Some bits ->
  (forall w, 0 <= w < 2 ^ 32 ->
     exists t, getInstructionType32 (V := V1) w = Some t /\
               getInstructionType32 (V := V2) w = Some t) /\
  (forall w, 0 <= w < 2 ^ 16 ->
     exists t, getInstructionType16 (V := V1) r w = Some t /\
               getInstructionType16 (V := V2) r w = Some t).
Proof.
  intros Hr. split; intros w Hw; eexists; split.
  - by apply (getInstructionType32_eq (VL := L1)).
  - by apply (getInstructionType32_eq (VL := L2)).
  - by apply (getInstructionType16_eq (VL := L1) r bits).
  - by apply (getInstructionType16_eq (VL := L2) r bits).
Qed.

Definition rv32imc : riscv := {| configInfo_arch := RV32IMC; currentArch := RV32IMC |}.

Lemma types_determined_witness :
  (forall w, 0 <= w < 2 ^ 32 ->
     exists t, getInstructionType32 (V := list_vmid true) w = Some t /\
               getInstructionType32 (V := list_vmid false) w = Some t) /\
  (forall w, 0 <= w < 2 ^ 16 ->
     exists t, getInstructionType16 (V := list_vmid true) rv32imc w = Some t /\
               getInstructionType16 (V := list_vmid false) rv32imc w = Some t).
Proof. exact (types_determined _ _ (list_vmid_laws true) (list_vmid_laws false) rv32imc 32 eq_refl). Defined.

(** ** Fetch *)

Lemma four_bytes w hi : 0 <= w < 2 ^ 16 -> is4ByteInstruction (w + 2 ^ 16 * hi) = is4ByteInstruction w.
Proof. intros Hw. unfold is4ByteInstruction. rewrite !land_3. f_equal. zlia. Qed.

Lemma word_of_halves lo hi :
  0 <= lo < 2 ^ 16 -> 0 <= hi < 2 ^ 16 ->
  Z.lor lo (w32 (Z.shiftl hi 16)) = lo + 2 ^ 16 * hi.
Proof.
  intros Hlo Hhi. rewrite Z.shiftl_mul_pow2, w32_small by lia.
  rewrite (lor_add lo (hi * 2 ^ 16) 16); [lia..|zlia].
Qed.

Section Fetch.

Context `{XL : VmiCxtLaws}.

Lemma fetch_spec r bits pc :
  getXLenBits r = Some bits ->
  let next := if bits =? 32 then w32 (pc + 2) else w64 (pc + 2) in
  exists w, riscvGetInstruction r pc = Some w /\ 0 <= w < 2 ^ 32 /\
    if compressedPresent r then
      if is4ByteInstruction w
      then riscvGetInstructionSize r pc = 4 /\ w = fetch2 pc + 2 ^ 16 * fetch2 next
      else riscvGetInstructionSize r pc = 2 /\ w = fetch2 pc
    else riscvGetInstructionSize r pc = 4 /\ w = fetch4 pc.
Proof.
  intros Hr next. unfold riscvGetInstruction, riscvGetInstructionSize, getInstructionSize.
  pose proof (fetch2_range pc) as H2. pose proof (fetch4_range pc) as H4.
  destruct (compressedPresent r); cbn [negb]; [|by exists (fetch4 pc)].
  unfold fetch2 at 1. unfold fetch2 at 4. unfold fetch2 at 4.
  destruct (is4ByteInstruction (vmicxtFetch2Byte pc)) eqn:E4.
  - rewrite (bind_some _ _ _ Hr).
    replace (if bits =? 32 then Z.land (w64 (pc + 2)) 0xffffffff else w64 (pc + 2)) with next.
    2:{ unfold next. destruct (bits =? 32); [|done].
        change 0xffffffff with (Z.ones 32). rewrite land_mask by lia. unfold wrap. zlia. }
    pose proof (fetch2_range next) as Hn. unfold fetch2.
    rewrite word_of_halves by done.
    eexists. split; [done|]. split; [lia|]. by rewrite four_bytes, E4 by done.
  - eexists. split; [done|]. split; [unfold fetch2; lia|]. by unfold fetch2; rewrite E4.
Qed.

(** Fetching an instruction always gives a word, and the word agrees with
    the reported size.  Where compressed instructions are implemented the low
    two bits decide: a 16-bit parcel, or two of them in little-endian order,
    the second from the following address reduced to 32 bits on a 32-bit
    hart.  Without them every instruction is one 4-byte access. *)
Theorem fetched_size r bits pc :
  getXLenBits r = Some bits ->
  let next := if bits =? 32 then w32 (pc + 2) else w64 (pc + 2) in
  exists w, riscvGetInstruction r pc = Some w /\ 0 <= w < 2 ^ 32 /\
    if compressedPresent r then
      if is4ByteInstruction w
      then riscvGetInstructionSize r pc = 4 /\ w = fetch2 pc + 2 ^ 16 * fetch2 next
      else riscvGetInstructionSize r pc = 2 /\ w = fetch2 pc
    else riscvGetInstructionSize r pc = 4 /\ w = fetch4 pc.
Proof. apply fetch_spec. Qed.

End Fetch.

(** A memory holding addi sp,sp,-16 at address 0 and a c.nop after it. *)
#[export] Instance small_code : VmiCxt := {|
  vmicxtFetch2Byte a := if a =? 0 then 0x0113 else if a =? 2 then 0xff01 else 1;
  vmicxtFetch4Byte a := if a =? 0 then 0xff010113 else 1;
|}.

#[export] Instance small_code_laws : VmiCxtLaws small_code.
Proof. constructor; intros pc; cbn; repeat case_match; lia. Qed.

Lemma fetched_size_witness :
  exists w, riscvGetInstruction rv32imc 0 = Some w /\ 0 <= w < 2 ^ 32 /\
    if compressedPresent rv32imc then
      if is4ByteInstruction w
      then riscvGetInstructionSize rv32imc 0 = 4 /\ w = fetch2 0 + 2 ^ 16 * fetch2 (w32 (0 + 2))
      else riscvGetInstructionSize rv32imc 0 = 2 /\ w = fetch2 0
    else riscvGetInstructionSize rv32imc 0 = 4 /\ w = fetch4 0.
Proof. exact (fetched_size rv32imc 32 0 eq_refl). Defined.

(** ** Interpretation never fails *)

(** From a structure that satisfies [P], [c] succeeds and leaves one that
    satisfies [Q]. *)
Definition yields {A} (P : riscvInstrInfo -> Prop) (c : D A) (Q : riscvInstrInfo -> Prop) : Prop :=
  forall i, P i -> exists x i', c i = Some (x, i') /\ Q i'.

Abbreviation keeps P c := (yields P c P).

Lemma yields_bind {A B} P Q R (c : D A) (k : A -> D B) :
  yields P c Q -> (forall x, yields Q (k x) R) -> yields P (c ≫= k) R.
Proof.
  intros Hc Hk i Hi. destruct (Hc i Hi) as (x & i' & Hx & Hi').
  destruct (Hk x i' Hi') as (y & i'' & Hy & Hi''). exists y, i''. split; [|done].
  unfold mbind, D_bind. by rewrite Hx.
Qed.

Lemma keeps_bind {A B} P (c : D A) (k : A -> D B) :
  keeps P c -> (forall x, keeps P (k x)) -> keeps P (c ≫= k).
Proof. apply yields_bind. Qed.

Lemma keeps_ret {A} P (x : A) : keeps P (mret x).
Proof. intros i Hi. by exists x, i. Qed.

Lemma keeps_gets {A} P (f : riscvInstrInfo -> A) : keeps P (gets f).
Proof. intros i Hi. by exists (f i), i. Qed.

Lemma keeps_lift {A} P (o : option A) x : o = Some x -> keeps P (lift o).
Proof. intros -> i Hi. by exists x, i. Qed.

Lemma yields_modify (P Q : riscvInstrInfo -> Prop) f :
  (forall i, P i -> Q (f i)) -> yields P (modify f) Q.
Proof. intros Hf i Hi. exists tt, (f i). auto. Qed.

(** The instruction, its address and size stay, and so do the features
    already found missing. *)
Definition inv (w pc b m : Z) (i : riscvInstrInfo) : Prop :=
  i_instruction i = w /\ i_thisPC i = pc /\ i_bytes i = b /\ Z.land (i_arch i) m = 0.

Lemma land_ldiff_0 a b m : Z.land a m = 0 -> Z.land (Z.ldiff a b) m = 0.
Proof.
  intros H. apply Z.bits_inj'. intros n Hn. rewrite Z.land_spec, Z.ldiff_spec, Z.bits_0.
  assert (Hb : Z.testbit (Z.land a m) n = false) by (by rewrite H, Z.bits_0).
  rewrite Z.land_spec in Hb. by destruct (Z.testbit a n), (Z.testbit m n), (Z.testbit b n).
Qed.

Lemma land_ldiff_same a m : Z.land (Z.ldiff a m) m = 0.
Proof.
  apply Z.bits_inj'. intros n Hn. rewrite Z.land_spec, Z.ldiff_spec, Z.bits_0.
  by destruct (Z.testbit a n), (Z.testbit m n).
Qed.

Lemma bind_modify {A} f (k : unit -> D A) i : (modify f ≫= k) i = k tt (f i).
Proof. reflexivity. Qed.

Lemma bind_gets {A B} (f : riscvInstrInfo -> A) (k : A -> D B) i : (gets f ≫= k) i = k (f i) i.
Proof. reflexivity. Qed.

Section Interpret.

Variables (r : riscv) (bits : Z).
Hypothesis Hr : getXLenBits r = Some bits.

Lemma getXLenArch_eq : getXLenArch r = Some (if bits =? 32 then ISA_XLEN_32 else ISA_XLEN_64).
Proof. unfold getXLenArch. by rewrite (bind_some _ _ _ Hr). Qed.

Ltac keeps_step :=
  first
    [ apply keeps_bind; [|intros ?]
    | apply keeps_ret | apply keeps_gets
    | eapply keeps_lift; [first [exact Hr | exact getXLenArch_eq]]
    | apply yields_modify; intros ? (? & ? & ? & ?);
      repeat split; cbn; auto using land_ldiff_0, land_ldiff_same ].
Ltac keeps := repeat (keeps_step || case_match).

Lemma getXWidth_keeps w pc b m s : keeps (inv w pc b m) (getXWidth r s).
Proof. unfold getXWidth, forceWidth32. keeps. Qed.

Lemma getFWidth_keeps w pc b m s : keeps (inv w pc b m) (getFWidth r s).
Proof. unfold getFWidth. keeps. Qed.

Lemma getConstant_keeps w pc b m s wX : keeps (inv w pc b m) (getConstant r s wX).
Proof. unfold getConstant, validateShift. keeps. Qed.

Lemma getRegister_keeps w pc b m s wX wF q : keeps (inv w pc b m) (getRegister r s wX wF q).
Proof. unfold getRegister. keeps. Qed.

Lemma fixFP_keeps w pc b m : keeps (inv w pc b m) (modify fixFPPseudoInstructions).
Proof.
  apply yields_modify. intros i Hi. unfold fixFPPseudoInstructions.
  destruct (i_type i); try done; by case_match.
Qed.


(** The part of the interpretation after the register widths. *)
Lemma fill_fields_keeps w pc b m a instr wX : keeps (inv w pc b m) (fill_fields r a instr wX).
Proof.
  apply keeps_bind; [apply getFWidth_keeps|intros wF].
  repeat first [apply fixFP_keeps | apply getConstant_keeps | apply getRegister_keeps | keeps_step].
Qed.

(** The structure when the register widths are determined. *)
Definition begun (a : opAttrs) (i : riscvInstrInfo) : riscvInstrInfo :=
  put_memBits (getMemBits (i_instruction i) (a_memBits a))
    (put_csrInOp (a_csrInOp a) (put_explicitW false (put_explicitType false
      (put_arch (a_arch a) (put_format (a_format a) (put_opcode (a_opcode a)
        (put_type (a_type a) i))))))).

Lemma interpret_begun a i :
  interpretInstruction r a i =
  match getXWidth r (a_wX a) (begun a i) with
  | Some (wX, i') => fill_fields r a (i_instruction i) wX i'
  | None => None
  end.
Proof.
  unfold interpretInstruction. rewrite !bind_modify, bind_gets, bind_modify.
  set (j := put_csrInOp _ _). assert (Hj : i_instruction j = i_instruction i) by done.
  rewrite Hj. reflexivity.
Qed.

Lemma interpret_keeps w pc b m a i :
  i_instruction i = w -> i_thisPC i = pc -> i_bytes i = b ->
  (forall wX i', getXWidth r (a_wX a) (begun a i) = Some (wX, i') -> Z.land (i_arch i') m = 0) ->
  exists i', interpretInstruction r a i = Some (tt, i') /\ inv w pc b m i'.
Proof.
  intros Hi Hpc Hb Ha.
  assert (Hs : inv w pc b 0 (begun a i)) by (repeat split; auto; apply Z.land_0_r).
  destruct (getXWidth_keeps w pc b 0 (a_wX a) _ Hs) as (wX & i1 & Hx & Hi1 & Hpc1 & Hb1 & _).
  destruct (fill_fields_keeps w pc b m a (i_instruction i) wX i1) as (u & i' & Hu & Hi').
  { repeat split; auto. by apply (Ha wX). }
  exists i'. split; [|done]. destruct u. by rewrite interpret_begun, Hx.
Qed.

Lemma bind_lift {A B} (o : option A) x (k : A -> D B) i :
  o = Some x -> (lift o ≫= k) i = k x i.
Proof. by intros ->. Qed.

(** The architecture bit of the current register width. *)
Definition xlen_arch : Z := if bits =? 32 then ISA_XLEN_32 else ISA_XLEN_64.

Definition is_shift (c : constSpec) : bool :=
  match c with CS_SHAMT_25_20 | CS_C_SLLI => true | _ => false end.

(** A shift amount not below the register width takes the width's
    architecture bit away. *)
Lemma getConstant_clears w pc b c wX :
  is_shift c = true -> bits <= constant c w pc ->
  yields (inv w pc b 0) (getConstant r c wX) (inv w pc b xlen_arch).
Proof.
  intros Hc Hbits i (Hi & Hpc & Hb & _). unfold getConstant. rewrite !bind_gets, Hi, Hpc.
  set (i' := put_arch (Z.ldiff (i_arch i) xlen_arch) i).
  assert (Hv : validateShift r (constant c w pc) wX i = Some (tt, i')).
  { unfold validateShift. rewrite (bind_lift _ _ _ _ Hr).
    destruct (Z.geb_spec (constant c w pc) bits); [|lia].
    rewrite (bind_lift _ _ _ _ getXLenArch_eq). reflexivity. }
  exists (constant c w pc), i'. split.
  - destruct c; try done; unfold mbind at 1, D_bind; by rewrite Hv.
  - repeat split; auto. apply land_ldiff_same.
Qed.

Lemma fill_fields_shift w pc b a wX :
  is_shift (a_cs a) = true -> bits <= constant (a_cs a) w pc ->
  yields (inv w pc b 0) (fill_fields r a w wX) (inv w pc b xlen_arch).
Proof.
  intros Hc Hbits. unfold fill_fields.
  eapply yields_bind; [apply getFWidth_keeps|intros wF].
  do 3 (apply (yields_bind _ (inv w pc b 0)); [apply yields_modify; intros ? H; exact H|intros _]).
  eapply yields_bind; [by apply getConstant_clears|intros c].
  repeat first [apply fixFP_keeps | apply getRegister_keeps | keeps_step].
Qed.

Lemma getXWidth_clears a i :
  (a_wX a = WX_3 /\ U_3 (i_instruction i) <> 0) \/ a_wX a = WX_W1 ->
  forall wX i', getXWidth r (a_wX a) (begun a i) = Some (wX, i') ->
  Z.land (i_arch i') ISA_XLEN_32 = 0.
Proof.
  intros Ha wX i'. unfold getXWidth. rewrite bind_gets, (bind_lift _ _ _ _ Hr).
  change (i_instruction (begun a i)) with (i_instruction i).
  generalize (begun a i). intros j. destruct Ha as [[-> Hu]| ->].
  - destruct (Z.eqb_spec (U_3 (i_instruction i)) 0); [done|].
    intros [= <- <-]. apply land_ldiff_same.
  - intros [= <- <-]. apply land_ldiff_same.
Qed.

End Interpret.

(** An instruction that a 32-bit hart does not have is marked so.  The
    forms on 32-bit operands of a 64-bit hart (the W instructions: bit 3 of
    the opcode set, or a compressed one that says so) and the shifts by 32 or
    more lose the RV32 bit of the architectures they belong to, whatever the
    other attributes are; the interpretation succeeds. *)
Theorem rv64_forms_marked r a i :
  getXLenBits r = Some 32 ->
  let w := i_instruction i in
  (a_wX a = WX_3 /\ U_3 w <> 0) \/ a_wX a = WX_W1 \/
  (is_shift (a_cs a) = true /\ 32 <= constant (a_cs a) w (i_thisPC i)) ->
  exists i', interpretInstruction r a i = Some (tt, i') /\
    i_instruction i' = w /\ Z.land (i_arch i') ISA_XLEN_32 = 0.
Proof.
  intros Hr w Ha.
  assert (Hi : exists i', interpretInstruction r a i = Some (tt, i') /\
                 inv w (i_thisPC i) (i_bytes i) ISA_XLEN_32 i').
  { destruct Ha as [Ha|[Ha|[Hc Hs]]].
    1,2: apply (interpret_keeps r 32 Hr); try done; apply (getXWidth_clears r 32 Hr); auto.
    rewrite interpret_begun.
    destruct (getXWidth_keeps r 32 Hr w (i_thisPC i) (i_bytes i) 0 (a_wX a) (begun a i))
      as (wX & i1 & -> & Hi1).
    { repeat split; auto. apply Z.land_0_r. }
    destruct (fill_fields_shift r 32 Hr w _ _ a wX Hc Hs i1 Hi1) as ([] & i' & Hf & Hi').
    by exists i'. }
  destruct Hi as (i' & Hi & Hw & _ & _ & Hm). eauto.
Qed.

(** slliw a0,a0,1 on a 32-bit hart. *)
Definition slliw_info : riscvInstrInfo :=
  put_instruction 0x0015151b
    (Mk_riscvInstrInfo None None 0 0 4 RV_IT_LAST 0 false false false false 0 0 0 0 0 0 0 0 0 0
       RV_RM_NA 0 RV_VIT_NA 0 0 0 0 false).

Lemma rv64_forms_marked_witness :
  exists i', interpretInstruction rv32imc (attrsArray32 IT32_SLLI_I) slliw_info = Some (tt, i') /\
    i_instruction i' = 0x0015151b /\ Z.land (i_arch i') ISA_XLEN_32 = 0.
Proof.
  exact (rv64_forms_marked rv32imc (attrsArray32 IT32_SLLI_I) slliw_info eq_refl
           (or_introl (conj eq_refl (fun H : U_3 0x0015151b = 0 => ltac:(vm_compute in H; discriminate H))))).
Defined.

(** ** Decoding never fails *)

Section Total.

Context `{VL : VmidLaws} `{XL : VmiCxtLaws}.

Definition known32 (id : Z) : bool :=
  match attrs_at32 id with Some _ => true | None => false end.
Definition known16 (id : Z) : bool :=
  match attrs_at16 id with Some _ => true | None => false end.

Lemma id_of_known (known : Z -> bool) es dflt w :
  forallb known (dflt :: map e_id es) = true -> known (id_of es dflt w) = true.
Proof.
  intros Hall. rewrite forallb_forall in Hall. unfold id_of.
  pose proof (best_spec es w) as Hb. destruct (best es w) as [e|].
  - destruct Hb as (Hin & _). apply Hall. right. by apply in_map.
  - apply Hall. by left.
Qed.

Lemma ids_known32 w : exists a, attrs_at32 (id_of entries32 (index32 IT32_LAST) w) = Some a.
Proof.
  assert (Hk : known32 (id_of entries32 (index32 IT32_LAST) w) = true).
  { apply id_of_known. vm_compute. reflexivity. }
  unfold known32 in Hk. destruct (attrs_at32 _); [eauto|done].
Qed.

Lemma ids_known16 m w : exists a, attrs_at16 (id_of (entries16 m) (index16 IT16_LAST) w) = Some a.
Proof.
  assert (Hk : known16 (id_of (entries16 m) (index16 IT16_LAST) w) = true).
  { apply id_of_known. destruct m; vm_compute; reflexivity. }
  unfold known16 in Hk. destruct (attrs_at16 _); [eauto|done].
Qed.

Lemma interpret_total r bits a i :
  getXLenBits r = Some bits ->
  exists i', interpretInstruction r a i = Some (tt, i') /\
    inv (i_instruction i) (i_thisPC i) (i_bytes i) 0 i'.
Proof. intros Hr. apply (interpret_keeps r bits Hr); auto. intros. apply Z.land_0_r. Qed.

Lemma decode32_total r bits i :
  getXLenBits r = Some bits -> 0 <= i_instruction i < 2 ^ 32 ->
  exists i', decode32 r i = Some (tt, i') /\
    inv (i_instruction i) (i_thisPC i) (i_bytes i) 0 i'.
Proof.
  intros Hr Hw. unfold decode32. rewrite bind_gets.
  rewrite (bind_lift _ _ _ _ (getInstructionType32_eq _ Hw)).
  destruct (ids_known32 (i_instruction i)) as (a & Ha). rewrite (bind_lift _ _ _ _ Ha).
  by apply (interpret_total r bits).
Qed.

Lemma decode16_total r bits i :
  getXLenBits r = Some bits -> 0 <= i_instruction i < 2 ^ 16 ->
  exists i', decode16 r i = Some (tt, i') /\
    inv (i_instruction i) (i_thisPC i) (i_bytes i) 0 i'.
Proof.
  intros Hr Hw. unfold decode16. rewrite bind_gets.
  rewrite (bind_lift _ _ _ _ (getInstructionType16_eq _ _ _ Hr Hw)).
  destruct (ids_known16 (bits =? 64) (i_instruction i)) as (a & Ha).
  rewrite (bind_lift _ _ _ _ Ha). by apply (interpret_total r bits).
Qed.

(** The structure when the word has been fetched. *)
Definition fetched (pc w : Z) (i : riscvInstrInfo) : riscvInstrInfo :=
  put_bytes (if is4ByteInstruction w then 4 else 2)
    (put_instruction w (put_thisPC pc (put_type RV_IT_LAST i))).

Lemma riscvDecode_eq r pc w i :
  riscvGetInstruction r pc = Some w ->
  riscvDecode r pc i =
  if is4ByteInstruction w then decode32 r (fetched pc w i) else decode16 r (fetched pc w i).
Proof.
  intros Hw. unfold riscvDecode. rewrite !bind_modify, (bind_lift _ _ _ _ Hw).
  rewrite !bind_modify, bind_gets. fold (fetched pc w i).
  change (i_bytes (fetched pc w i)) with (if is4ByteInstruction w then 4 else 2).
  by destruct (is4ByteInstruction w).
Qed.

(** C31: on a hart with compressed instructions, decoding succeeds at every
    address and whatever the memory and the structure passed in hold: no
    assertion or abort of the decoder is reached.  The structure then holds
    the address, the word fetched there and the size of the instruction as
    the fetch unit reports it. *)
Theorem decode_total r bits pc i :
  getXLenBits r = Some bits -> compressedPresent r = true ->
  exists i', riscvDecode r pc i = Some (tt, i') /\ i_thisPC i' = pc /\
    riscvGetInstruction r pc = Some (i_instruction i') /\
    i_bytes i' = riscvGetInstructionSize r pc.
Proof.
  intros Hr Hc. destruct (fetch_spec r bits pc Hr) as (w & Hw & Hrange & Hsize).
  rewrite Hc in Hsize. rewrite (riscvDecode_eq r pc w i Hw).
  destruct (is4ByteInstruction w) eqn:E4; destruct Hsize as [-> Hval].
  - destruct (decode32_total r bits (fetched pc w i) Hr Hrange)
      as (i' & -> & Hi & Hpc & Hb & _).
    exists i'. rewrite Hi, Hpc, Hb, Hw. cbn. by rewrite E4.
  - assert (H16 : 0 <= w < 2 ^ 16) by (subst w; apply fetch2_range).
    destruct (decode16_total r bits (fetched pc w i) Hr H16)
      as (i' & -> & Hi & Hpc & Hb & _).
    exists i'. rewrite Hi, Hpc, Hb, Hw. cbn. by rewrite E4.
Qed.

End Total.

Lemma decode_total_witness :
  exists i', riscvDecode (V := list_vmid false) (X := small_code) rv32imc 4 slliw_info = Some (tt, i') /\
    i_thisPC i' = 4 /\ riscvGetInstruction rv32imc 4 = Some (i_instruction i') /\
    i_bytes i' = riscvGetInstructionSize rv32imc 4.
Proof.
  exact (decode_total (VL := list_vmid_laws false) (XL := small_code_laws) rv32imc 32 4 slliw_info
           eq_refl eq_refl).
Defined.

(** ** Plain integer instructions *)

(** What an instruction asks for: everything the model of an integer
    instruction uses of the structure. *)
Record operation := Operation {
  o_type : riscvIType;
  o_r0 : Z; o_r1 : Z; o_r2 : Z;
  o_c : Z;
  o_memBits : Z; o_unsExt : bool;
  o_csr : Z; o_csrUpdate : Z;
}.

Definition op_of (i : riscvInstrInfo) : operation :=
  Operation (i_type i) (i_r0 i) (i_r1 i) (i_r2 i) (i_c i) (i_memBits i) (i_unsExt i)
    (i_csr i) (i_csrUpdate i).

(** The descriptor of X register [n] on a 32-bit hart. *)
Definition xreg (n : Z) : Z := Z.lor (Z.lor RV_RD_X n) RV_RD_32.

(** The X register a specification names, if it names one. *)
Definition xindex (s : rSpec) (w : Z) : option Z :=
  match s with
  | RS_X_ZERO => Some 0
  | RS_X_LR => Some 1
  | RS_X_SP => Some 2
  | RS_X_4_2_P8 => Some (U_4_2 w + 8)
  | RS_X_6_2 => Some (U_6_2 w)
  | RS_X_11_7 => Some (U_11_7 w)
  | RS_X_19_15 => Some (U_19_15 w)
  | RS_X_24_20 => Some (U_24_20 w)
  | RS_X_9_7_P8 => Some (U_9_7 w + 8)
  | _ => None
  end.

Definition plain_reg (s : rSpec) : bool :=
  match s with
  | R_NA | RS_X_ZERO | RS_X_LR | RS_X_SP | RS_X_4_2_P8 | RS_X_6_2 | RS_X_11_7
  | RS_X_19_15 | RS_X_24_20 | RS_X_9_7_P8 => true
  | _ => false
  end.

Definition reg (s : rSpec) (w : Z) : Z :=
  match xindex s w with Some n => xreg n | None => RV_RD_NA end.

Definition is_sgnj (t : riscvIType) : bool :=
  match t with RV_IT_FSGNJX_R | RV_IT_FSGNJ_R | RV_IT_FSGNJN_R => true | _ => false end.

(** Attributes whose interpretation only copies fields. *)
Definition regular (a : opAttrs) : bool :=
  match a_wX a, a_wF a with (WX_NA | WX_3), WF_NA => true | _, _ => false end &&
  negb (a_xQuiet a) && plain_reg (a_r1 a) && plain_reg (a_r2 a) && plain_reg (a_r3 a) &&
  plain_reg (a_r4 a) && plain_reg (a_mask a) && negb (is_sgnj (a_type a)).

Definition op_of_attrs (a : opAttrs) (w pc : Z) : operation :=
  Operation (a_type a) (reg (a_r1 a) w) (reg (a_r2 a) w) (reg (a_r3 a) w)
    (constant (a_cs a) w pc) (getMemBits w (a_memBits a)) (getUnsExt w (a_unsExt a))
    (getCSR w (a_csr a)) (getCSRUpdate w (a_csrUpdate a)).

Lemma UBITS_mod b x : 0 <= b -> UBITS b x = x mod 2 ^ b.
Proof.
  intros Hb. unfold UBITS. rewrite Z.shiftl_mul_pow2, Z.mul_1_l, Z.sub_1_r by lia.
  rewrite <- Z.ones_equiv. by apply Z.land_ones.
Qed.

Lemma UBITS_range b x : 0 <= b -> 0 <= UBITS b x < 2 ^ b.
Proof. intros Hb. rewrite UBITS_mod by done. apply Z.mod_pos_bound. by apply Z.pow_pos_nonneg. Qed.

Lemma xindex_range s w n : xindex s w = Some n -> 0 <= n < 32.
Proof.
  assert (H3 : forall x, 0 <= UBITS 3 x < 8) by (intros; by apply UBITS_range).
  assert (H5 : forall x, 0 <= UBITS 5 x < 32) by (intros; by apply UBITS_range).
  destruct s; intros Hn; try discriminate Hn; injection Hn as <-; try lia; try apply H5.
  - specialize (H3 (Z.shiftr w 2)). lia.
  - specialize (H3 (Z.shiftr w 7)). lia.
Qed.

(** The 32 descriptors, checked one by one. *)
Lemma xreg_facts n :
  0 <= n < 32 ->
  Z.lor RV_RD_X n <> 0 /\ getRBits (Z.lor RV_RD_X n) = 0 /\ isXReg (Z.lor RV_RD_X n) = true /\
  getRBits (xreg n) = 32.
Proof.
  intros Hn.
  assert (Hall : forallb (fun n => negb (Z.lor RV_RD_X n =? 0) && (getRBits (Z.lor RV_RD_X n) =? 0)
                            && isXReg (Z.lor RV_RD_X n) && (getRBits (xreg n) =? 32))
                   (map Z.of_nat (seq 0 32)) = true) by (vm_compute; reflexivity).
  rewrite forallb_forall in Hall. specialize (Hall n).
  assert (Hin : In n (map Z.of_nat (seq 0 32))).
  { apply in_map_iff. exists (Z.to_nat n). split; [lia|]. apply in_seq. lia. }
  apply Hall, andb_prop in Hin as [[[H1 H2]%andb_prop H3]%andb_prop H4].
  apply negb_true_iff, Z.eqb_neq in H1. apply Z.eqb_eq in H2, H4. done.
Qed.

Section Plain.

Variable r : riscv.
Hypothesis Hr : getXLenBits r = Some 32.

Lemma bind_eq {A B} (c : D A) (k : A -> D B) i x i' :
  c i = Some (x, i') -> (c ≫= k) i = k x i'.
Proof. intros Hc. unfold mbind, D_bind. by rewrite Hc. Qed.

Lemma register_xindex s w n : xindex s w = Some n -> register s w = Z.lor RV_RD_X n.
Proof. destruct s; try done; by intros [= <-]. Qed.

Lemma getRegister_plain s wF i :
  plain_reg s = true ->
  getRegister r s RV_RD_32 wF false i = Some (reg s (i_instruction i), i).
Proof.
  intros Hs. unfold getRegister. rewrite bind_gets, (bind_lift _ _ _ _ Hr).
  destruct (xindex s (i_instruction i)) as [n|] eqn:Hx.
  - destruct (xreg_facts n (xindex_range _ _ _ Hx)) as (H1 & H2 & H3 & H4).
    assert (Hw : with_width (register s (i_instruction i)) RV_RD_32 wF false = xreg n).
    { unfold with_width. rewrite (register_xindex _ _ _ Hx), H2. cbn [andb].
      apply Z.eqb_neq in H1. by rewrite H1, H3. }
    rewrite Hw, H4. change (32 >? 32) with false. rewrite andb_false_r.
    unfold reg. by rewrite Hx.
  - by destruct s.
Qed.

Lemma getConstant_plain c i :
  (is_shift c = true -> constant c (i_instruction i) (i_thisPC i) < 32) ->
  getConstant r c RV_RD_32 i = Some (constant c (i_instruction i) (i_thisPC i), i).
Proof.
  intros Hc. unfold getConstant. rewrite !bind_gets.
  set (v := constant c (i_instruction i) (i_thisPC i)) in *.
  assert (Hv : v < 32 -> validateShift r v RV_RD_32 i = Some (tt, i)).
  { intros Hlt. unfold validateShift. rewrite (bind_lift _ _ _ _ Hr).
    change (getRBits RV_RD_32) with 32. destruct (Z.geb_spec v 32); [lia|done]. }
  destruct c; try done; by rewrite (bind_eq _ _ _ _ _ (Hv (Hc eq_refl))).
Qed.

Lemma fill_fields_plain a w j :
  regular a = true -> i_instruction j = w ->
  (is_shift (a_cs a) = true -> constant (a_cs a) w (i_thisPC j) < 32) ->
  exists i', fill_fields r a w RV_RD_32 j = Some (tt, fixFPPseudoInstructions i') /\
    op_of i' = Operation (i_type j) (reg (a_r1 a) w) (reg (a_r2 a) w) (reg (a_r3 a) w)
                 (constant (a_cs a) w (i_thisPC j)) (i_memBits j) (getUnsExt w (a_unsExt a))
                 (getCSR w (a_csr a)) (getCSRUpdate w (a_csrUpdate a)) /\
    i_arch i' = i_arch j.
Proof.
  intros Hreg Hj Hc. unfold regular in Hreg. repeat apply andb_prop in Hreg as [Hreg ?].
  destruct (a_wX a), (a_wF a) eqn:HwF; try done. all: clear Hreg.
  all: destruct (a_xQuiet a) eqn:Hq; [done|].
  all: unfold fill_fields; rewrite HwF, Hq.
  all: rewrite (bind_eq (getFWidth r WF_NA) _ _ 0 j) by done.
  all: rewrite !bind_modify.
  all: erewrite bind_eq by (apply getConstant_plain; cbn; by rewrite Hj).
  all: rewrite bind_modify.
  all: do 5 (erewrite bind_eq by (by apply getRegister_plain); rewrite bind_modify).
  all: rewrite !bind_modify.
  all: eexists; split; [reflexivity|]; split; [|reflexivity].
  all: cbn; by rewrite Hj.
Qed.

Lemma getXWidth_plain a i :
  regular a = true -> (a_wX a = WX_3 -> U_3 (i_instruction i) = 0) ->
  getXWidth r (a_wX a) i = Some (RV_RD_32, i).
Proof.
  intros Hreg H3. unfold getXWidth. rewrite bind_gets, (bind_lift _ _ _ _ Hr).
  unfold regular in Hreg. destruct (a_wX a); try done. by rewrite H3.
Qed.

(** A regular instruction on a 32-bit hart: the operation is read off the
    attributes and the word, and it belongs to the architectures listed. *)
Lemma interpret_plain a i :
  let w := i_instruction i in
  regular a = true -> (a_wX a = WX_3 -> U_3 w = 0) ->
  (is_shift (a_cs a) = true -> constant (a_cs a) w (i_thisPC i) < 32) ->
  exists i', interpretInstruction r a i = Some (tt, i') /\
    op_of i' = op_of_attrs a w (i_thisPC i) /\ i_arch i' = a_arch a.
Proof.
  intros w Hreg H3 Hc. rewrite interpret_begun.
  rewrite (getXWidth_plain a (begun a i) Hreg) by exact H3.
  destruct (fill_fields_plain a w (begun a i) Hreg eq_refl Hc) as (i' & Hf & Hop & Har).
  exists i'. split.
  - change (fill_fields r a w RV_RD_32 (begun a i) = Some (tt, i')). rewrite Hf.
    assert (Ht : i_type i' = a_type a) by (exact (f_equal o_type Hop)).
    unfold fixFPPseudoInstructions. rewrite Ht.
    apply andb_prop in Hreg as [_ Hs]. by destruct (a_type a).
  - split; [exact Hop|exact Har].
Qed.

End Plain.
