(* ===== verification/RvIsa.v ===== *)
(** * The decoder against the instruction set: RV32IM and Zicsr

    Encodings of the integer, multiply/divide and CSR instructions as the
    RISC-V manual lays them out, and the theorem that riscvDecode.c decodes
    each of them, on a 32-bit hart, to the operation it encodes: the generic
    type, the registers, the sign-extended immediate or branch target, the
    access size.  The many pseudo-instructions of the decode table (neg, not,
    seqz, beqz, ret, csrr, ...) only change the spelling. *)

From S2P Require Import Prelude RvTypes RvTables RvDecode RvTableFacts RvDecodeFacts.

(** ** Instruction words *)

(** The six fields every 32-bit format is made of: bits 6:0, 11:7, 14:12,
    19:15, 24:20 and 31:25. *)
Record fields := Fields {
  f_op : Z; f_rd : Z; f_f3 : Z; f_rs1 : Z; f_rs2 : Z; f_f7 : Z
}.

Definition word (f : fields) : Z :=
  f_op f + 2 ^ 7 * (f_rd f + 2 ^ 5 * (f_f3 f + 2 ^ 3 * (f_rs1 f + 2 ^ 5 * (f_rs2 f + 2 ^ 5 * f_f7 f)))).

Definition fields_ok (f : fields) : Prop :=
  0 <= f_op f < 2 ^ 7 /\ 0 <= f_rd f < 2 ^ 5 /\ 0 <= f_f3 f < 2 ^ 3 /\
  0 <= f_rs1 f < 2 ^ 5 /\ 0 <= f_rs2 f < 2 ^ 5 /\ 0 <= f_f7 f < 2 ^ 7.

Inductive rop :=
  | ADD | SUB | SLL | SLT | SLTU | XOR | SRL | SRA | OR | AND
  | MUL | MULH | MULHSU | MULHU | DIV | DIVU | REM | REMU.
Inductive iop := ADDI | SLTI | SLTIU | XORI | ORI | ANDI.
Inductive shop := SLLI | SRLI | SRAI.
Inductive lop := LB | LH | LW | LBU | LHU.
Inductive sop := SB | SH | SW.
Inductive bop := BEQ | BNE | BLT | BGE | BLTU | BGEU.
Inductive cop := CSRRW | CSRRS | CSRRC.
Inductive sysop := ECALL | EBREAK | MRET | WFI.

Inductive insn :=
  | OpR (op : rop) (rd rs1 rs2 : Z)
  | OpI (op : iop) (rd rs1 imm : Z)
  | Shift (op : shop) (rd rs1 shamt : Z)
  | Load (op : lop) (rd rs1 imm : Z)
  | Store (op : sop) (rs1 rs2 imm : Z)
  | Branch (op : bop) (rs1 rs2 off : Z)
  | Lui (rd imm : Z)
  | Auipc (rd imm : Z)
  | Jal (rd off : Z)
  | Jalr (rd rs1 imm : Z)
  | Csr (op : cop) (rd rs1 csr : Z)
  | Csri (op : cop) (rd uimm csr : Z)
  | System (op : sysop).

Definition is_reg (n : Z) : Prop := 0 <= n < 32.

(** Operands in range: 12-bit immediates signed, branch offsets even, upper
    immediates given as their 20 bits. *)
Definition insn_ok (i : insn) : Prop :=
  match i with
  | OpR _ rd rs1 rs2 => is_reg rd /\ is_reg rs1 /\ is_reg rs2
  | OpI _ rd rs1 imm | Load _ rd rs1 imm | Jalr rd rs1 imm =>
      is_reg rd /\ is_reg rs1 /\ -2048 <= imm < 2048
  | Shift _ rd rs1 shamt => is_reg rd /\ is_reg rs1 /\ 0 <= shamt < 32
  | Store _ rs1 rs2 imm => is_reg rs1 /\ is_reg rs2 /\ -2048 <= imm < 2048
  | Branch _ rs1 rs2 off => is_reg rs1 /\ is_reg rs2 /\ -4096 <= off < 4096 /\ off mod 2 = 0
  | Lui rd imm | Auipc rd imm => is_reg rd /\ 0 <= imm < 2 ^ 20
  | Jal rd off => is_reg rd /\ -2 ^ 20 <= off < 2 ^ 20 /\ off mod 2 = 0
  | Csr _ rd rs1 csr => is_reg rd /\ is_reg rs1 /\ 0 <= csr < 2 ^ 12
  | Csri _ rd uimm csr => is_reg rd /\ is_reg uimm /\ 0 <= csr < 2 ^ 12
  | System _ => True
  end.

(** Opcode, funct3 and funct7, as the tables of the manual list them. *)
Definition rop_f3 (op : rop) : Z :=
  match op with
  | ADD | SUB | MUL => 0 | SLL | MULH => 1 | SLT | MULHSU => 2 | SLTU | MULHU => 3
  | XOR | DIV => 4 | SRL | SRA | DIVU => 5 | OR | REM => 6 | AND | REMU => 7
  end.
Definition rop_f7 (op : rop) : Z :=
  match op with
  | SUB | SRA => 32
  | MUL | MULH | MULHSU | MULHU | DIV | DIVU | REM | REMU => 1
  | _ => 0
  end.
Definition iop_f3 (op : iop) : Z :=
  match op with ADDI => 0 | SLTI => 2 | SLTIU => 3 | XORI => 4 | ORI => 6 | ANDI => 7 end.
Definition shop_f3 (op : shop) : Z := match op with SLLI => 1 | _ => 5 end.
Definition shop_f7 (op : shop) : Z := match op with SRAI => 32 | _ => 0 end.
Definition lop_f3 (op : lop) : Z :=
  match op with LB => 0 | LH => 1 | LW => 2 | LBU => 4 | LHU => 5 end.
Definition sop_f3 (op : sop) : Z := match op with SB => 0 | SH => 1 | SW => 2 end.
Definition bop_f3 (op : bop) : Z :=
  match op with BEQ => 0 | BNE => 1 | BLT => 4 | BGE => 5 | BLTU => 6 | BGEU => 7 end.
Definition cop_f3 (op : cop) : Z := match op with CSRRW => 1 | CSRRS => 2 | CSRRC => 3 end.
Definition sys_imm (op : sysop) : Z :=
  match op with ECALL => 0 | EBREAK => 1 | MRET => 0x302 | WFI => 0x105 end.

Definition encode (i : insn) : fields :=
  match i with
  | OpR op rd rs1 rs2 => Fields 0x33 rd (rop_f3 op) rs1 rs2 (rop_f7 op)
  | OpI op rd rs1 imm =>
      let u := imm mod 2 ^ 12 in Fields 0x13 rd (iop_f3 op) rs1 (u mod 32) (u / 32)
  | Shift op rd rs1 shamt => Fields 0x13 rd (shop_f3 op) rs1 shamt (shop_f7 op)
  | Load op rd rs1 imm =>
      let u := imm mod 2 ^ 12 in Fields 0x03 rd (lop_f3 op) rs1 (u mod 32) (u / 32)
  | Store op rs1 rs2 imm =>
      let u := imm mod 2 ^ 12 in Fields 0x23 (u mod 32) (sop_f3 op) rs1 rs2 (u / 32)
  | Branch op rs1 rs2 off =>
      let u := off mod 2 ^ 13 in
      Fields 0x63 (2 * ((u / 2) mod 16) + (u / 2 ^ 11) mod 2) (bop_f3 op) rs1 rs2
        (64 * (u / 2 ^ 12) + (u / 32) mod 64)
  | Lui rd imm => Fields 0x37 rd (imm mod 8) ((imm / 2 ^ 3) mod 32) ((imm / 2 ^ 8) mod 32) (imm / 2 ^ 13)
  | Auipc rd imm => Fields 0x17 rd (imm mod 8) ((imm / 2 ^ 3) mod 32) ((imm / 2 ^ 8) mod 32) (imm / 2 ^ 13)
  | Jal rd off =>
      let u := off mod 2 ^ 21 in
      Fields 0x6f rd ((u / 2 ^ 12) mod 8) ((u / 2 ^ 15) mod 32)
        (2 * ((u / 2) mod 16) + (u / 2 ^ 11) mod 2) (64 * (u / 2 ^ 20) + (u / 32) mod 64)
  | Jalr rd rs1 imm => let u := imm mod 2 ^ 12 in Fields 0x67 rd 0 rs1 (u mod 32) (u / 32)
  | Csr op rd rs1 csr => Fields 0x73 rd (cop_f3 op) rs1 (csr mod 32) (csr / 32)
  | Csri op rd uimm csr => Fields 0x73 rd (cop_f3 op + 4) uimm (csr mod 32) (csr / 32)
  | System op => Fields 0x73 0 0 0 (sys_imm op mod 32) (sys_imm op / 32)
  end.

(** ** What the instructions mean *)

Definition rop_type (op : rop) : riscvIType :=
  match op with
  | ADD => RV_IT_ADD_R | SUB => RV_IT_SUB_R | SLL => RV_IT_SLL_R | SLT => RV_IT_SLT_R
  | SLTU => RV_IT_SLTU_R | XOR => RV_IT_XOR_R | SRL => RV_IT_SRL_R | SRA => RV_IT_SRA_R
  | OR => RV_IT_OR_R | AND => RV_IT_AND_R | MUL => RV_IT_MUL_R | MULH => RV_IT_MULH_R
  | MULHSU => RV_IT_MULHSU_R | MULHU => RV_IT_MULHU_R | DIV => RV_IT_DIV_R
  | DIVU => RV_IT_DIVU_R | REM => RV_IT_REM_R | REMU => RV_IT_REMU_R
  end.
Definition iop_type (op : iop) : riscvIType :=
  match op with
  | ADDI => RV_IT_ADDI_I | SLTI => RV_IT_SLTI_I | SLTIU => RV_IT_SLTIU_I
  | XORI => RV_IT_XORI_I | ORI => RV_IT_ORI_I | ANDI => RV_IT_ANDI_I
  end.
Definition shop_type (op : shop) : riscvIType :=
  match op with SLLI => RV_IT_SLLI_I | SRLI => RV_IT_SRLI_I | SRAI => RV_IT_SRAI_I end.
Definition bop_type (op : bop) : riscvIType :=
  match op with
  | BEQ => RV_IT_BEQ_B | BNE => RV_IT_BNE_B | BLT => RV_IT_BLT_B
  | BGE => RV_IT_BGE_B | BLTU => RV_IT_BLTU_B | BGEU => RV_IT_BGEU_B
  end.
Definition sys_type (op : sysop) : riscvIType :=
  match op with
  | ECALL => RV_IT_ECALL_I | EBREAK => RV_IT_EBREAK_I | MRET => RV_IT_MRET_I | WFI => RV_IT_WFI_I
  end.
Definition lop_bits (op : lop) : Z := match op with LB | LBU => 8 | LH | LHU => 16 | LW => 32 end.
Definition lop_uns (op : lop) : bool := match op with LBU | LHU => true | _ => false end.
Definition sop_bits (op : sop) : Z := match op with SB => 8 | SH => 16 | SW => 32 end.
Definition cop_update (op : cop) : Z :=
  match op with CSRRW => RV_CSR_RW | CSRRS => RV_CSR_RS | CSRRC => RV_CSR_RC end.

(** Destination first; a store has its data register there, and a branch its
    two operands.  Immediates are 64-bit values; a jump or branch has its
    target there. *)
Definition meaning (i : insn) (pc : Z) : operation :=
  match i with
  | OpR op rd rs1 rs2 => Operation (rop_type op) (xreg rd) (xreg rs1) (xreg rs2) 0 0 false 0 0
  | OpI op rd rs1 imm => Operation (iop_type op) (xreg rd) (xreg rs1) 0 (w64 imm) 0 false 0 0
  | Shift op rd rs1 shamt => Operation (shop_type op) (xreg rd) (xreg rs1) 0 shamt 0 false 0 0
  | Load op rd rs1 imm =>
      Operation RV_IT_L_I (xreg rd) (xreg rs1) 0 (w64 imm) (lop_bits op) (lop_uns op) 0 0
  | Store op rs1 rs2 imm =>
      Operation RV_IT_S_I (xreg rs2) (xreg rs1) 0 (w64 imm) (sop_bits op) false 0 0
  | Branch op rs1 rs2 off =>
      Operation (bop_type op) (xreg rs1) (xreg rs2) 0 (w64 (pc + off)) 0 false 0 0
  | Lui rd imm => Operation RV_IT_MV_C (xreg rd) 0 0 (w64 (sgn 32 (imm * 2 ^ 12))) 0 false 0 0
  | Auipc rd imm => Operation RV_IT_AUIPC_U (xreg rd) 0 0 (w64 (sgn 32 (imm * 2 ^ 12))) 0 false 0 0
  | Jal rd off => Operation RV_IT_JAL_J (xreg rd) 0 0 (w64 (pc + off)) 0 false 0 0
  | Jalr rd rs1 imm => Operation RV_IT_JALR_I (xreg rd) (xreg rs1) 0 (w64 imm) 0 false 0 0
  | Csr op rd rs1 csr => Operation RV_IT_CSRR_I (xreg rd) (xreg rs1) 0 0 0 false csr (cop_update op)
  | Csri op rd uimm csr => Operation RV_IT_CSRRI_I (xreg rd) 0 0 uimm 0 false csr (cop_update op)
  | System op => Operation (sys_type op) 0 0 0 0 0 false 0 0
  end.

(** The decoder may turn an addition of zero into a move. *)
Definition means (o : operation) (i : insn) (pc : Z) : Prop :=
  o = meaning i pc \/
  exists rd rs1, i = OpI ADDI rd rs1 0 /\
    o = Operation RV_IT_MV_R (xreg rd) (xreg rs1) 0 0 0 false 0 0.

(** ** Fields of a word *)

Lemma SBITS_sgn b x : 0 < b <= 32 -> SBITS b x = sgn b x.
Proof.
  intros Hb. unfold SBITS, sgn, wrap. rewrite Z.shiftl_mul_pow2, Z.shiftr_div_pow2 by lia.
  replace (2 ^ 32) with (2 ^ b * 2 ^ (32 - b)) by (rewrite <- Z.pow_add_r by lia; f_equal; lia).
  replace (2 ^ (32 - 1)) with (2 ^ (b - 1) * 2 ^ (32 - b))
    by (rewrite <- Z.pow_add_r by lia; f_equal; lia).
  assert (0 < 2 ^ (32 - b)) by (apply Z.pow_pos_nonneg; lia).
  assert (0 < 2 ^ b) by (apply Z.pow_pos_nonneg; lia).
  rewrite Zmult_mod_distr_r.
  destruct (Z.ltb_spec (x mod 2 ^ b * 2 ^ (32 - b)) (2 ^ (b - 1) * 2 ^ (32 - b))) as [Hl|Hl];
    destruct (Z.ltb_spec (x mod 2 ^ b) (2 ^ (b - 1))) as [Hs|Hs]; try nia.
  - by rewrite Z.div_mul by lia.
  - rewrite <- Z.mul_sub_distr_r. by rewrite Z.div_mul by lia.
Qed.

Lemma sgn_mod b x : 0 <= b -> sgn b x = sgn b (x mod 2 ^ b).
Proof. intros Hb. unfold sgn. by rewrite (wrap_wrap b x Hb : wrap b (x mod 2 ^ b) = _). Qed.

Section Fields.

Variable f : fields.
Hypothesis Hf : fields_ok f.

Ltac field :=
  destruct f as [op rd f3 rs1 rs2 f7]; destruct Hf as (? & ? & ? & ? & ? & ?);
  unfold word; cbn [f_op f_rd f_f3 f_rs1 f_rs2 f_f7] in *;
  rewrite UBITS_mod by lia; rewrite shiftr_div by lia; zlia.

Lemma word_range : 0 <= word f < 2 ^ 32.
Proof.
  destruct f as [op rd f3 rs1 rs2 f7]; destruct Hf as (? & ? & ? & ? & ? & ?).
  unfold word; cbn [f_op f_rd f_f3 f_rs1 f_rs2 f_f7] in *. lia.
Qed.

Lemma word_U_3 : U_3 (word f) = (f_op f / 8) mod 2.
Proof. field. Qed.
Lemma word_U_11_7 : U_11_7 (word f) = f_rd f.
Proof. field. Qed.
Lemma word_U_19_15 : U_19_15 (word f) = f_rs1 f.
Proof. field. Qed.
Lemma word_U_24_20 : U_24_20 (word f) = f_rs2 f.
Proof. field. Qed.
Lemma word_U_25_20 : U_25_20 (word f) = f_rs2 f + 32 * (f_f7 f mod 2).
Proof. field. Qed.
Lemma word_U_31_20 : U_31_20 (word f) = f_rs2 f + 32 * f_f7 f.
Proof. field. Qed.
Lemma word_U_13_12 : U_13_12 (word f) = f_f3 f mod 4.
Proof. field. Qed.
Lemma word_U_14 : U_14 (word f) = f_f3 f / 4.
Proof. field. Qed.
Lemma word_U_19_12 : U_19_12 (word f) = f_f3 f + 8 * f_rs1 f.
Proof. field. Qed.
Lemma word_U_20 : U_20 (word f) = f_rs2 f mod 2.
Proof. field. Qed.
Lemma word_U_30_21 : U_30_21 (word f) = f_rs2 f / 2 + 16 * (f_f7 f mod 64).
Proof. field. Qed.
Lemma word_U_7 : U_7 (word f) = f_rd f mod 2.
Proof. field. Qed.
Lemma word_U_11_8 : U_11_8 (word f) = f_rd f / 2.
Proof. field. Qed.
Lemma word_U_30_25 : U_30_25 (word f) = f_f7 f mod 64.
Proof. field. Qed.

Ltac sfield :=
  rewrite SBITS_sgn by lia; rewrite sgn_mod, shiftr_div by lia; f_equal;
  destruct f as [op rd f3 rs1 rs2 f7]; destruct Hf as (? & ? & ? & ? & ? & ?);
  unfold word; cbn [f_op f_rd f_f3 f_rs1 f_rs2 f_f7] in *; zlia.

Lemma word_S_31_20 : S_31_20 (word f) = sgn 12 (f_rs2 f + 32 * f_f7 f).
Proof. sfield. Qed.
Lemma word_S_31_25 : S_31_25 (word f) = sgn 7 (f_f7 f).
Proof. sfield. Qed.
Lemma word_S_31 : S_31 (word f) = sgn 1 (f_f7 f / 64).
Proof. sfield. Qed.
Lemma word_S_31_12 :
  S_31_12 (word f) = sgn 20 (f_f3 f + 2 ^ 3 * f_rs1 f + 2 ^ 8 * f_rs2 f + 2 ^ 13 * f_f7 f).
Proof. sfield. Qed.

End Fields.

(** ** Patterns of encodings *)

Definition bits (n : nat) (v : Z) : pat := map (fun k => Some (Z.testbit v (Z.of_nat k))) (seq 0 n).
Definition obits (n : nat) (o : option Z) : pat :=
  match o with Some v => bits n v | None => repeat None n end.

Definition fpat (op : Z) (rd f3 rs1 rs2 f7 : option Z) : pat :=
  bits 7 op ++ obits 5 rd ++ obits 3 f3 ++ obits 5 rs1 ++ obits 5 rs2 ++ obits 7 f7.

Lemma matches_bits n v : matches (bits n v) v = true.
Proof.
  unfold bits. change v with (Z.shiftr v (Z.of_nat 0)) at 2. generalize 0%nat.
  induction n as [|n IH]; intros k; [done|]. cbn [seq map matches bit_ok].
  apply andb_true_intro. split.
  - rewrite <- Z.bit0_odd, Z.shiftr_spec by lia. cbn. apply Bool.eqb_reflx.
  - rewrite <- (IH (S k)). f_equal. rewrite Z.div2_spec, Z.shiftr_shiftr by lia. f_equal. lia.
Qed.

Definition agrees (o : option Z) (v : Z) : Prop := o = None \/ o = Some v.

Lemma matches_obits n o v : agrees o v -> matches (obits n o) v = true.
Proof. intros [-> | ->]; [apply matches_free|apply matches_bits]. Qed.

Lemma obits_length n o : length (obits n o) = n.
Proof. destruct o; cbn; [unfold bits; by rewrite length_map, length_seq|apply repeat_length]. Qed.

Lemma matches_word f rd f3 rs1 rs2 f7 :
  fields_ok f -> agrees rd (f_rd f) -> agrees f3 (f_f3 f) -> agrees rs1 (f_rs1 f) ->
  agrees rs2 (f_rs2 f) -> agrees f7 (f_f7 f) ->
  matches (fpat (f_op f) rd f3 rs1 rs2 f7) (word f) = true.
Proof.
  intros (H1 & H2 & H3 & H4 & H5 & H6) A2 A3 A4 A5 A6.
  assert (Happ : forall n o q lo hi, 0 <= lo < 2 ^ Z.of_nat n -> agrees o lo ->
            matches q hi = true -> matches (obits n o ++ q) (lo + 2 ^ Z.of_nat n * hi) = true).
  { intros n o q lo hi Hlo Ho Hq. pose proof (matches_app (obits n o) q lo hi) as Hm.
    rewrite obits_length in Hm. by rewrite Hm, matches_obits. }
  apply (Happ 7%nat (Some (f_op f))); [done|by right|].
  apply (Happ 5%nat); [done|done|]. apply (Happ 3%nat); [done|done|].
  apply (Happ 5%nat); [done|done|]. apply (Happ 5%nat); [done|done|].
  by apply matches_obits.
Qed.

Lemma matches_zeros n x : matches (repeat (Some false) n) x = true -> 0 <= x < 2 ^ Z.of_nat n -> x = 0.
Proof.
  revert x. induction n as [|n IH]; intros x; [cbn; lia|].
  rewrite Nat2Z.inj_succ, Z.pow_succ_r by lia. cbn [repeat matches bit_ok].
  intros [Ho Hm]%andb_prop Hx. apply IH in Hm; [|rewrite Z.div2_div; zlia].
  rewrite (Z.div2_odd x), Hm. by destruct (Z.odd x).
Qed.

Lemma matches_high_zero f :
  fields_ok f -> matches (repeat None 20 ++ bits 12 0) (word f) = true ->
  f_rs2 f + 32 * f_f7 f = 0.
Proof.
  intros (H1 & H2 & H3 & H4 & H5 & H6).
  replace (word f) with
    (f_op f + 2 ^ 7 * f_rd f + 2 ^ 12 * f_f3 f + 2 ^ 15 * f_rs1 f
     + 2 ^ Z.of_nat (length (repeat (@None bool) 20)) * (f_rs2 f + 32 * f_f7 f)).
  2:{ rewrite repeat_length. unfold word. lia. }
  rewrite matches_app by (rewrite repeat_length; lia).
  intros [_ Hm]%andb_prop. apply (matches_zeros 12); [exact Hm|lia].
Qed.

(** ** The shape of an instruction's attributes *)

(** The attributes that determine the operation. *)
Record shape := Shape {
  s_arch : Z; s_type : riscvIType; s_r1 : rSpec; s_r2 : rSpec; s_r3 : rSpec; s_cs : constSpec;
  s_memBits : memBitsSpec; s_unsExt : unsExtSpec; s_csr : csrSpec; s_csrUpdate : csrUpdateSpec
}.

Definition shape_of (a : opAttrs) : shape :=
  Shape (a_arch a) (a_type a) (a_r1 a) (a_r2 a) (a_r3 a) (a_cs a) (a_memBits a) (a_unsExt a)
    (a_csr a) (a_csrUpdate a).

Definition op_of_shape (s : shape) (w pc : Z) : operation :=
  Operation (s_type s) (reg (s_r1 s) w) (reg (s_r2 s) w) (reg (s_r3 s) w)
    (constant (s_cs s) w pc) (getMemBits w (s_memBits s)) (getUnsExt w (s_unsExt s))
    (getCSR w (s_csr s)) (getCSRUpdate w (s_csrUpdate s)).

(** Regular attributes, in an instruction whose opcode does not select the W
    form if they allow for one. *)
Definition fits (op : Z) (a : opAttrs) : bool :=
  regular a && match a_wX a with WX_3 => (op / 8) mod 2 =? 0 | _ => true end.

(** What the entries an encoding may be classified as have in common. *)
Definition shapes (op : Z) (p : pat) : list (option (shape * bool)) :=
  map (fun e => (fun a => (shape_of a, fits op a)) <$> attrs_at32 (e_id e)) (cands entries32 p).

Definition covered (p : pat) : bool := existsb (fun c => covers (e_pat c) p) entries32.

Definition all_shaped (op : Z) (p : pat) (s : shape) : Prop :=
  covered p = true /\ Forall (fun o => o = Some (s, true)) (shapes op p).

Ltac table := split; [vm_compute; reflexivity|vm_compute; repeat constructor].

Definition R_shape (arch : Z) (t : riscvIType) : shape :=
  Shape arch t RS_X_11_7 RS_X_19_15 RS_X_24_20 CS_NA MBS_NA USX_NA CSRS_NA CSRUS_NA.
Definition I_shape (t : riscvIType) (c : constSpec) (m : memBitsSpec) (u : unsExtSpec) : shape :=
  Shape RVANY t RS_X_11_7 RS_X_19_15 R_NA c m u CSRS_NA CSRUS_NA.
Definition U_shape (t : riscvIType) (c : constSpec) : shape :=
  Shape RVANY t RS_X_11_7 R_NA R_NA c MBS_NA USX_NA CSRS_NA CSRUS_NA.

(** M instructions need the M extension, the others only an XLEN. *)
Definition rop_arch (op : rop) : Z := if rop_f7 op =? 1 then RVANYM else RVANY.

Lemma table_R op :
  all_shaped 0x33 (fpat 0x33 None (Some (rop_f3 op)) None None (Some (rop_f7 op)))
    (R_shape (rop_arch op) (rop_type op)).
Proof. destruct op; table. Qed.

Lemma table_I op :
  op <> ADDI ->
  all_shaped 0x13 (fpat 0x13 None (Some (iop_f3 op)) None None None)
    (I_shape (iop_type op) CS_S_31_20 MBS_NA USX_NA).
Proof. destruct op; [done|intros _; table..]. Qed.

Lemma table_Shift op :
  all_shaped 0x13 (fpat 0x13 None (Some (shop_f3 op)) None None (Some (shop_f7 op)))
    (I_shape (shop_type op) CS_SHAMT_25_20 MBS_NA USX_NA).
Proof. destruct op; table. Qed.

Lemma table_Load op :
  all_shaped 0x03 (fpat 0x03 None (Some (lop_f3 op)) None None None)
    (I_shape RV_IT_L_I CS_S_31_20 MBS_13_12 USX_14).
Proof. destruct op; table. Qed.

Lemma table_Store op :
  all_shaped 0x23 (fpat 0x23 None (Some (sop_f3 op)) None None None)
    (Shape RVANY RV_IT_S_I RS_X_24_20 RS_X_19_15 R_NA CS_S_31_25_11_7 MBS_13_12 USX_NA CSRS_NA CSRUS_NA).
Proof. destruct op; table. Qed.

Lemma table_Branch op :
  all_shaped 0x63 (fpat 0x63 None (Some (bop_f3 op)) None None None)
    (Shape RVANY (bop_type op) RS_X_19_15 RS_X_24_20 R_NA CS_B MBS_NA USX_NA CSRS_NA CSRUS_NA).
Proof. destruct op; table. Qed.

Lemma table_Lui : all_shaped 0x37 (fpat 0x37 None None None None None) (U_shape RV_IT_MV_C CS_AUIPC).
Proof. table. Qed.

Lemma table_Auipc : all_shaped 0x17 (fpat 0x17 None None None None None) (U_shape RV_IT_AUIPC_U CS_AUIPC).
Proof. table. Qed.

Lemma table_Jal : all_shaped 0x6f (fpat 0x6f None None None None None) (U_shape RV_IT_JAL_J CS_J).
Proof. table. Qed.

Lemma table_Jalr :
  all_shaped 0x67 (fpat 0x67 None (Some 0) None None None) (I_shape RV_IT_JALR_I CS_S_31_20 MBS_NA USX_NA).
Proof. table. Qed.

Lemma table_Csr op :
  all_shaped 0x73 (fpat 0x73 None (Some (cop_f3 op)) None None None)
    (Shape RVANY RV_IT_CSRR_I RS_X_11_7 RS_X_19_15 R_NA CS_NA MBS_NA USX_NA CSRS_31_20 CSRUS_13_12).
Proof. destruct op; table. Qed.

Lemma table_Csri op :
  all_shaped 0x73 (fpat 0x73 None (Some (cop_f3 op + 4)) None None None)
    (Shape RVANY RV_IT_CSRRI_I RS_X_11_7 R_NA R_NA CS_U_19_15 MBS_NA USX_NA CSRS_31_20 CSRUS_13_12).
Proof. destruct op; table. Qed.

Lemma table_System op :
  all_shaped 0x73 (fpat 0x73 (Some 0) (Some 0) (Some 0) (Some (sys_imm op mod 32)) (Some (sys_imm op / 32)))
    (Shape RVANY (sys_type op) R_NA R_NA R_NA CS_NA MBS_NA USX_NA CSRS_NA CSRUS_NA).
Proof. destruct op; table. Qed.

(** An addition: as above, or a move, and then the immediate is zero. *)
Lemma table_Addi :
  let p := fpat 0x13 None (Some 0) None None None in
  covered p = true /\
  Forall (fun e =>
    exists a, attrs_at32 (e_id e) = Some a /\ fits 0x13 a = true /\
      (shape_of a = I_shape RV_IT_ADDI_I CS_S_31_20 MBS_NA USX_NA \/
       shape_of a = I_shape RV_IT_MV_R CS_S_31_20 MBS_NA USX_NA /\
       covers (repeat None 20 ++ bits 12 0) (e_pat e) = true)) (cands entries32 p).
Proof.
  intros p. split; [vm_compute; reflexivity|].
  let c := eval vm_compute in (cands entries32 p) in
  replace (cands entries32 p) with c by (vm_compute; reflexivity).
  repeat constructor.
  all: eexists; split; [vm_compute; reflexivity|]; split; [vm_compute; reflexivity|].
  all: first [left; vm_compute; reflexivity|right; split; vm_compute; reflexivity].
Qed.

(** ** Immediates *)

Lemma sgn_of_mod b x : 0 < b -> -2 ^ (b - 1) <= x < 2 ^ (b - 1) -> sgn b (x mod 2 ^ b) = x.
Proof.
  intros Hb Hx. rewrite <- sgn_mod by lia. unfold sgn, wrap.
  assert (E : 2 ^ b = 2 * 2 ^ (b - 1)) by (rewrite <- Z.pow_succ_r by lia; f_equal; lia).
  rewrite E in *. set (m := 2 ^ (b - 1)) in *.
  destruct (Z.lt_ge_cases x 0).
  - rewrite <- (Z.mod_add x 1 (2 * m)), Z.mod_small by lia.
    destruct (Z.ltb_spec (x + 1 * (2 * m)) m); lia.
  - rewrite Z.mod_small by lia. destruct (Z.ltb_spec x m); lia.
Qed.

Lemma w64_add_l a b : w64 (w64 a + b) = w64 (a + b).
Proof. unfold wrap. apply Zplus_mod_idemp_l. Qed.

Lemma ushl_small x n : 0 <= n -> 0 <= x * 2 ^ n < 2 ^ 32 -> ushl x n = x * 2 ^ n.
Proof. intros Hn Hx. unfold ushl. rewrite Z.shiftl_mul_pow2 by lia. by apply wrap_small. Qed.

Lemma shl_eq x n : 0 <= n -> shl x n = w64 (x * 2 ^ n).
Proof. intros Hn. unfold shl. by rewrite Z.shiftl_mul_pow2. Qed.

(** The immediate of an I-format word. *)
Lemma imm_I f imm :
  fields_ok f -> -2048 <= imm < 2048 ->
  f_rs2 f = (imm mod 2 ^ 12) mod 32 -> f_f7 f = imm mod 2 ^ 12 / 32 ->
  S_31_20 (word f) = imm.
Proof.
  intros Hf Himm H2 H7. rewrite word_S_31_20, H2, H7 by done.
  rewrite <- (sgn_of_mod 12 imm) at 3 by lia. f_equal. zlia.
Qed.

Lemma constant_S f imm pc :
  fields_ok f -> -2048 <= imm < 2048 ->
  f_rd f = (imm mod 2 ^ 12) mod 32 -> f_f7 f = imm mod 2 ^ 12 / 32 ->
  constant CS_S_31_25_11_7 (word f) pc = w64 imm.
Proof.
  intros Hf Himm H2 H7. cbn [constant].
  rewrite word_S_31_25, word_U_11_7, shl_eq, w64_add_l, H2, H7 by (done || lia).
  f_equal. unfold sgn, wrap. case_Z; zlia.
Qed.

Lemma constant_U f imm pc :
  fields_ok f -> 0 <= imm < 2 ^ 20 ->
  f_f3 f = imm mod 8 -> f_rs1 f = (imm / 2 ^ 3) mod 32 -> f_rs2 f = (imm / 2 ^ 8) mod 32 ->
  f_f7 f = imm / 2 ^ 13 ->
  constant CS_AUIPC (word f) pc = w64 (sgn 32 (imm * 2 ^ 12)).
Proof.
  intros Hf Himm H3 H1 H2 H7. cbn [constant]. rewrite word_S_31_12, shl_eq by (done || lia).
  replace (f_f3 f + 2 ^ 3 * f_rs1 f + 2 ^ 8 * f_rs2 f + 2 ^ 13 * f_f7 f) with imm.
  - f_equal. unfold sgn, wrap. repeat case_Z; zlia.
  - rewrite H3, H1, H2, H7. zlia.
Qed.

Lemma constant_B f off pc :
  fields_ok f -> -4096 <= off < 4096 -> off mod 2 = 0 ->
  let u := off mod 2 ^ 13 in
  f_rd f = 2 * ((u / 2) mod 16) + (u / 2 ^ 11) mod 2 ->
  f_f7 f = 64 * (u / 2 ^ 12) + (u / 32) mod 64 ->
  constant CS_B (word f) pc = w64 (pc + off).
Proof.
  intros Hf Hoff Heven u Hrd H7. cbn [constant].
  rewrite word_S_31, word_U_7, word_U_30_25, word_U_11_8 by done.
  assert (Hu : 0 <= u < 2 ^ 13 /\ u mod 2 = 0) by (subst u; zlia).
  assert (E1 : f_rd f mod 2 = (u / 2 ^ 11) mod 2) by (rewrite Hrd; zlia).
  assert (E2 : f_rd f / 2 = (u / 2) mod 16) by (rewrite Hrd; zlia).
  assert (E3 : f_f7 f mod 64 = (u / 32) mod 64) by (rewrite H7; zlia).
  assert (E4 : f_f7 f / 64 = u / 2 ^ 12) by (rewrite H7; zlia).
  assert (E5 : off = u - 2 ^ 13 * (u / 2 ^ 12)) by (subst u; zlia).
  rewrite E1, E2, E3, E4, E5. clearbody u. clear - Hu.
  rewrite shl_eq, !ushl_small by (zlia || lia). repeat (rewrite w64_add_l || rewrite <- Z.add_assoc).
  f_equal. unfold sgn, wrap. case_Z; zlia.
Qed.

Lemma constant_J f off pc :
  fields_ok f -> -2 ^ 20 <= off < 2 ^ 20 -> off mod 2 = 0 ->
  let u := off mod 2 ^ 21 in
  f_f3 f = (u / 2 ^ 12) mod 8 -> f_rs1 f = (u / 2 ^ 15) mod 32 ->
  f_rs2 f = 2 * ((u / 2) mod 16) + (u / 2 ^ 11) mod 2 ->
  f_f7 f = 64 * (u / 2 ^ 20) + (u / 32) mod 64 ->
  constant CS_J (word f) pc = w64 (pc + off).
Proof.
  intros Hf Hoff Heven u H3 H1 H2 H7. cbn [constant].
  rewrite word_S_31, word_U_19_12, word_U_20, word_U_30_21 by done.
  assert (Hu : 0 <= u < 2 ^ 21 /\ u mod 2 = 0) by (subst u; zlia).
  assert (E0 : f_f3 f + 8 * f_rs1 f = (u / 2 ^ 12) mod 256) by (rewrite H3, H1; zlia).
  assert (E1 : f_rs2 f mod 2 = (u / 2 ^ 11) mod 2) by (rewrite H2; zlia).
  assert (E2 : f_rs2 f / 2 = (u / 2) mod 16) by (rewrite H2; zlia).
  assert (E3 : f_f7 f mod 64 = (u / 32) mod 64) by (rewrite H7; zlia).
  assert (E4 : f_f7 f / 64 = u / 2 ^ 20) by (rewrite H7; zlia).
  assert (E5 : off = u - 2 ^ 21 * (u / 2 ^ 20)) by (subst u; zlia).
  rewrite E0, E1, E2, E3, E4, E5. clearbody u. clear - Hu.
  rewrite shl_eq, !ushl_small by (zlia || lia). repeat (rewrite w64_add_l || rewrite <- Z.add_assoc).
  f_equal. unfold sgn, wrap. case_Z; zlia.
Qed.

(** ** Decoding *)

Definition insn_arch (i : insn) : Z :=
  match i with OpR op _ _ _ => rop_arch op | _ => RVANY end.

Lemma encode_ok i : insn_ok i -> fields_ok (encode i).
Proof.
  unfold fields_ok, is_reg. destruct i; cbn [insn_ok encode f_op f_rd f_f3 f_rs1 f_rs2 f_f7];
    unfold is_reg; intros; try destruct op;
    cbn [rop_f3 rop_f7 iop_f3 shop_f3 shop_f7 lop_f3 sop_f3 bop_f3 cop_f3 sys_imm]; zlia.
Qed.

Section Decoding.

Context `{VL : VmidLaws} `{X : VmiCxt}.
Variable r : riscv.
Hypothesis Hr : getXLenBits r = Some 32.

(** Decoding the word of some fields, given what holds of the entries its
    pattern can be classified as. *)
Lemma decode_cands (Q : entry -> opAttrs -> Prop) f p pc i :
  fields_ok f -> f_op f mod 4 = 3 -> matches p (word f) = true -> covered p = true ->
  Forall (fun e => exists a, attrs_at32 (e_id e) = Some a /\ fits (f_op f) a = true /\ Q e a)
    (cands entries32 p) ->
  (forall e a, Q e a -> is_shift (a_cs a) = true -> constant (a_cs a) (word f) pc < 32) ->
  riscvGetInstruction r pc = Some (word f) ->
  exists e a i', Q e a /\ matches (e_pat e) (word f) = true /\
    riscvDecode r pc i = Some (tt, i') /\
    op_of i' = op_of_attrs a (word f) pc /\ i_arch i' = a_arch a /\ i_bytes i' = 4.
Proof.
  intros Hf H3 Hp Hcov Hall Hs Hw. pose proof (word_range f Hf) as Hrange.
  assert (H4 : is4ByteInstruction (word f) = true).
  { unfold is4ByteInstruction. rewrite land_3. apply Z.eqb_eq. rewrite <- H3. unfold word. zlia. }
  rewrite (riscvDecode_eq r pc _ i Hw), H4. set (i0 := fetched pc (word f) i).
  destruct (id_of_cands entries32 (index32 IT32_LAST) p (word f) Hp Hcov) as (e & He & Hm & Hid).
  rewrite List.Forall_forall in Hall. destruct (Hall e He) as (a & Ha & Hfit & HQ).
  apply andb_prop in Hfit as [Hreg Hx].
  destruct (interpret_plain r Hr a i0) as (i' & Hi' & Hop & Har); [done|..].
  { intros Hwx. rewrite Hwx in Hx. apply Z.eqb_eq in Hx. rewrite <- Hx. by apply word_U_3. }
  { by apply (Hs e a). }
  destruct (interpret_total r 32 a i0 Hr) as (i'' & Hi'' & _ & _ & Hb & _).
  exists e, a, i'. split; [done|]. split; [done|]. split.
  - unfold decode32. rewrite bind_gets. change (i_instruction i0) with (word f).
    rewrite (bind_lift _ _ _ _ (getInstructionType32_eq _ Hrange)), Hid.
    by rewrite (bind_lift _ _ _ _ Ha).
  - rewrite Hi' in Hi''. injection Hi'' as <-. repeat split; auto. rewrite Hb.
    unfold i0. cbn. by rewrite H4.
Qed.

Lemma shaped_cands op p s :
  Forall (fun o => o = Some (s, true)) (shapes op p) ->
  Forall (fun e => exists a, attrs_at32 (e_id e) = Some a /\ fits op a = true /\ shape_of a = s)
    (cands entries32 p).
Proof.
  unfold shapes. rewrite Forall_map. intros Hall. eapply Forall_impl; [exact Hall|].
  intros e He. cbv beta in He. destruct (attrs_at32 (e_id e)) as [a|]; [|done].
  injection He as Hsh Hfit. eauto.
Qed.

Lemma decode_shaped s f rd f3 rs1 rs2 f7 pc i :
  all_shaped (f_op f) (fpat (f_op f) rd f3 rs1 rs2 f7) s ->
  fields_ok f -> f_op f mod 4 = 3 ->
  agrees rd (f_rd f) -> agrees f3 (f_f3 f) -> agrees rs1 (f_rs1 f) ->
  agrees rs2 (f_rs2 f) -> agrees f7 (f_f7 f) ->
  (is_shift (s_cs s) = true -> constant (s_cs s) (word f) pc < 32) ->
  riscvGetInstruction r pc = Some (word f) ->
  exists i', riscvDecode r pc i = Some (tt, i') /\
    op_of i' = op_of_shape s (word f) pc /\ i_arch i' = s_arch s /\ i_bytes i' = 4.
Proof.
  intros [Hcov Hall] Hf H3 A1 A2 A3 A4 A5 Hs Hw.
  assert (Hs' : forall (e : entry) a, shape_of a = s -> is_shift (a_cs a) = true ->
                  constant (a_cs a) (word f) pc < 32) by (intros e a <-; exact Hs).
  destruct (decode_cands (fun _ a => shape_of a = s) f _ pc i Hf H3
              (matches_word f rd f3 rs1 rs2 f7 Hf A1 A2 A3 A4 A5) Hcov (shaped_cands _ _ _ Hall) Hs' Hw)
    as (e & a & i' & Hsh & _ & Hd & Hop & Har & Hb).
  exists i'. split; [exact Hd|]. subst s. split; [exact Hop|]. split; [exact Har|exact Hb].
Qed.

(** What it means for an instruction at [pc] to be decoded correctly. *)
Definition decoded (n : insn) (pc : Z) (i : riscvInstrInfo) : Prop :=
  exists i', riscvDecode r pc i = Some (tt, i') /\
    means (op_of i') n pc /\ i_arch i' = insn_arch n /\ i_bytes i' = 4.

Lemma decoded_as n s rd f3 rs1 rs2 f7 pc i :
  let f := encode n in
  all_shaped (f_op f) (fpat (f_op f) rd f3 rs1 rs2 f7) s -> insn_ok n ->
  riscvGetInstruction r pc = Some (word f) ->
  agrees rd (f_rd f) -> agrees f3 (f_f3 f) -> agrees rs1 (f_rs1 f) ->
  agrees rs2 (f_rs2 f) -> agrees f7 (f_f7 f) ->
  op_of_shape s (word f) pc = meaning n pc -> s_arch s = insn_arch n ->
  (is_shift (s_cs s) = true -> constant (s_cs s) (word f) pc < 32) ->
  decoded n pc i.
Proof.
  intros f Hs Hok Hw A1 A2 A3 A4 A5 Hop Har Hsh.
  assert (H3 : f_op f mod 4 = 3) by (subst f; by destruct n).
  destruct (decode_shaped s f rd f3 rs1 rs2 f7 pc i) as (i' & Hd & Hi & Ha & Hb); auto.
  { by apply encode_ok. }
  exists i'. rewrite Hi, Hop, Ha, Har. repeat split; auto. by left.
Qed.

Ltac shape_op :=
  unfold op_of_shape, reg;
  cbn [I_shape R_shape U_shape s_arch s_type s_r1 s_r2 s_r3 s_cs s_memBits s_unsExt s_csr
       s_csrUpdate xindex getMemBits getUnsExt getCSR getCSRUpdate].

Lemma decoded_addi rd rs1 imm pc i :
  let n := OpI ADDI rd rs1 imm in
  insn_ok n -> riscvGetInstruction r pc = Some (word (encode n)) -> decoded n pc i.
Proof.
  intros n Hok Hw. pose proof (encode_ok n Hok) as Hf.
  destruct table_Addi as [Hcov Hall].
  destruct (decode_cands _ (encode n) _ pc i Hf eq_refl
              (matches_word _ None (Some 0) None None None Hf (or_introl eq_refl)
                 (or_intror eq_refl) (or_introl eq_refl) (or_introl eq_refl) (or_introl eq_refl))
              Hcov Hall) as (e & a & i' & HQ & Hm & Hd & Hop & Har & Hb); [|done|].
  { intros e a [Hsh|[Hsh _]]; apply (f_equal s_cs) in Hsh; cbn in Hsh; by rewrite Hsh. }
  exists i'. split; [done|]. rewrite Hop, Har, Hb.
  assert (Himm : S_31_20 (word (encode n)) = imm) by (destruct Hok as (? & ? & ?); by apply imm_I).
  assert (Hregs : U_11_7 (word (encode n)) = rd /\ U_19_15 (word (encode n)) = rs1)
    by (rewrite word_U_11_7, word_U_19_15 by done; done).
  destruct Hregs as [Hrd Hrs1].
  change (op_of_attrs a) with (op_of_shape (shape_of a)).
  change (a_arch a) with (s_arch (shape_of a)).
  destruct HQ as [->|[-> Hz]]; (split; [|done]).
  - left. shape_op. cbn [constant]. by rewrite Himm, Hrd, Hrs1.
  - right. exists rd, rs1.
    assert (H0 : imm = 0).
    { rewrite <- Himm, word_S_31_20 by done.
      by rewrite (matches_high_zero (encode n) Hf (covers_matches _ _ _ Hz Hm)). }
    split; [unfold n; by rewrite H0|]. shape_op. cbn [constant].
    by rewrite Himm, Hrd, Hrs1, H0.
Qed.

(** The other instructions: the table gives the shape, the fields of the word
    the operands. *)
Ltac decode_by tbl :=
  let Hok := fresh "Hok" in let Hw := fresh "Hw" in
  intros Hok Hw; pose proof (encode_ok _ Hok) as Hf;
  eapply decoded_as;
    [apply tbl|exact Hok|exact Hw|first [by left|by right]..| |done|];
  [shape_op; rewrite ?word_U_11_7, ?word_U_19_15, ?word_U_24_20 by done; cbn [insn_ok] in Hok|try done].

Definition decodes (n : insn) : Prop :=
  forall pc i, insn_ok n -> riscvGetInstruction r pc = Some (word (encode n)) -> decoded n pc i.

Lemma decodes_R op rd rs1 rs2 : decodes (OpR op rd rs1 rs2).
Proof. intros pc i. decode_by (table_R op). done. Qed.

Lemma decodes_I op rd rs1 imm : decodes (OpI op rd rs1 imm).
Proof.
  intros pc i. assert (Hop : op = ADDI \/ op <> ADDI) by (destruct op; auto; by right).
  destruct Hop as [->|Hop]; [apply decoded_addi|].
  decode_by (table_I op Hop). destruct Hok as (? & ? & ?). cbn [constant]. by rewrite (imm_I _ imm).
Qed.

Lemma decodes_Shift op rd rs1 shamt : decodes (Shift op rd rs1 shamt).
Proof.
  intros pc i.
  assert (Hc : insn_ok (Shift op rd rs1 shamt) ->
               constant CS_SHAMT_25_20 (word (encode (Shift op rd rs1 shamt))) pc = shamt).
  { intros Hok. cbn [constant]. rewrite word_U_25_20 by (by apply encode_ok). destruct op; cbn [encode f_rs2 f_f7 shop_f7]; zlia. }
  decode_by (table_Shift op).
  - by rewrite Hc.
  - intros _. cbn [I_shape s_cs]. rewrite Hc by done. destruct Hok as (_ & _ & ?). lia.
Qed.

Lemma decodes_Load op rd rs1 imm : decodes (Load op rd rs1 imm).
Proof.
  intros pc i. decode_by (table_Load op). destruct Hok as (? & ? & ?). cbn [constant].
  rewrite (imm_I _ imm), word_U_13_12, word_U_14 by done. by destruct op.
Qed.

Lemma decodes_Store op rs1 rs2 imm : decodes (Store op rs1 rs2 imm).
Proof.
  intros pc i. decode_by (table_Store op). destruct Hok as (? & ? & ?).
  rewrite (constant_S _ imm), word_U_13_12 by done. by destruct op.
Qed.

Lemma decodes_Branch op rs1 rs2 off : decodes (Branch op rs1 rs2 off).
Proof.
  intros pc i. decode_by (table_Branch op). destruct Hok as (? & ? & ? & ?).
  by rewrite (constant_B _ off).
Qed.

Lemma decodes_Lui rd imm : decodes (Lui rd imm).
Proof.
  intros pc i. decode_by table_Lui. destruct Hok as (? & ?). by rewrite (constant_U _ imm).
Qed.

Lemma decodes_Auipc rd imm : decodes (Auipc rd imm).
Proof.
  intros pc i. decode_by table_Auipc. destruct Hok as (? & ?). by rewrite (constant_U _ imm).
Qed.

Lemma decodes_Jal rd off : decodes (Jal rd off).
Proof.
  intros pc i. decode_by table_Jal. destruct Hok as (? & ? & ?). by rewrite (constant_J _ off).
Qed.

Lemma decodes_Jalr rd rs1 imm : decodes (Jalr rd rs1 imm).
Proof.
  intros pc i. decode_by table_Jalr. destruct Hok as (? & ? & ?). cbn [constant].
  by rewrite (imm_I _ imm).
Qed.

Lemma decodes_Csr op rd rs1 csr : decodes (Csr op rd rs1 csr).
Proof.
  intros pc i. decode_by (table_Csr op). destruct Hok as (? & ? & ?).
  rewrite word_U_31_20, word_U_13_12 by done. cbn.
  replace (csr mod 32 + 32 * (csr / 32)) with csr by zlia. by destruct op.
Qed.

Lemma decodes_Csri op rd uimm csr : decodes (Csri op rd uimm csr).
Proof.
  intros pc i. decode_by (table_Csri op). destruct Hok as (? & ? & ?). cbn [constant].
  rewrite word_U_31_20, word_U_13_12, word_U_19_15 by done. cbn.
  replace (csr mod 32 + 32 * (csr / 32)) with csr by zlia. by destruct op.
Qed.

Lemma decodes_System op : decodes (System op).
Proof. intros pc i. decode_by (table_System op). by destruct op. Qed.

Lemma decodes_all n : decodes n.
Proof.
  destruct n; eauto using decodes_R, decodes_I, decodes_Shift, decodes_Load, decodes_Store,
    decodes_Branch, decodes_Lui, decodes_Auipc, decodes_Jal, decodes_Jalr, decodes_Csr,
    decodes_Csri, decodes_System.
Qed.

(** C14: on a 32-bit hart, when the word at an address encodes an instruction
    of RV32IM or Zicsr as the RISC-V manual defines it, the decoder fills in
    the operation that instruction stands for: its generic type, its
    registers, its immediate sign-extended to 64 bits or the target of its
    jump or branch, its access size and extension, its CSR and update; it is
    reported four bytes long and as needing the M extension exactly for
    multiplications and divisions.  This holds for every operand, so the
    pseudo-instruction entries of the table never change the meaning of an
    instruction; an addition of zero may be decoded to a move. *)
Theorem rv32im_decoded n pc i :
  insn_ok n -> riscvGetInstruction r pc = Some (word (encode n)) ->
  exists i', riscvDecode r pc i = Some (tt, i') /\
    means (op_of i') n pc /\ i_arch i' = insn_arch n /\ i_bytes i' = 4.
Proof. apply decodes_all. Qed.

End Decoding.

(** addi sp,sp,-16 at address 0. *)
Lemma rv32im_decoded_witness :
  exists i', riscvDecode (V := list_vmid false) (X := small_code) rv32imc 0 slliw_info = Some (tt, i') /\
    means (op_of i') (OpI ADDI 2 2 (-16)) 0 /\ i_arch i' = RVANY /\ i_bytes i' = 4.
Proof.
  refine (rv32im_decoded (VL := list_vmid_laws false) (X := small_code) rv32imc eq_refl
            (OpI ADDI 2 2 (-16)) 0 slliw_info _ eq_refl).
  unfold insn_ok, is_reg. lia.
Defined.
