(* ===== verification/RvHart.v ===== *)
(** * The hart of the OVP processor model

    The processor structure of riscvStructure.h with the fields that the CSR,
    exception and memory-protection code of the model reads and writes, the
    CSR layout and access macros of riscvCSR.h, and the mode and architecture
    utilities of riscvUtils.c and riscvVM.c (all under src/models/ovp/source/
    yggdrasill.ga/processor/riscv/1.0/model).

    The simulator the model is linked with keeps the program counter, the
    data domain in use and the access privileges of every memory domain; its
    programming interface (the functions vmirt...) is the class [VmiRt], and
    [VmiRtLaws] states what its documentation says of the calls the theorems
    rely on.  An unsigned C object is an integer of its range, a C array a
    function of its index; messages and debug output are left out. *)

From stdpp Require Import functions gmap.
From S2P Require Import Prelude RvTypes.

(** ** CSR registers and their fields *)

(** The CSRs held in the processor structure. *)
Inductive csrName :=
  | fcsr | utvec | vstart | vxsat | vxrm | uscratch | uepc | ucause | utval
  | vl | vtype
  | sedeleg | sideleg | stvec | scounteren | sscratch | sepc | scause | stval
  | satp
  | mvendorid | marchid | mimpid | mhartid | mstatus | misa | medeleg | mideleg
  | mie | mtvec | mcounteren | mcountinhibit | mscratch | mepc | mcause | mtval
  | mip.

#[global] Instance csrName_eq_dec : EqDecision csrName.
Proof. solve_decision. Defined.

(** The bit fields of the register types, [type_FIELD]. *)
Inductive csrField :=
  | status_UIE | status_SIE | status_MIE | status_UPIE | status_SPIE
  | status_MPIE | status_SPP | status_MPP | status_FS | status_XS | status_MPRV
  | status_SUM | status_MXR | status_TVM | status_TW | status_TSR | status_UXL
  | status_SXL | status_SD
  | fcsr_NX | fcsr_UF | fcsr_OF | fcsr_DZ | fcsr_NV | fcsr_frm | fcsr_vxsat
  | fcsr_vxrm
  | isa_Extensions | isa_MXL
  | tvec_MODE | tvec_BASE
  | counteren_CY | counteren_TM | counteren_IR | counteren_HPM
  | cause_ExceptionCode | cause_Interrupt
  | atp_PPN | atp_ASID | atp_MODE
  | genericXLEN_value
  | vxrm_rm
  | vtype_vlmul | vtype_vsew | vtype_vill.

(** Lowest bit and width of a field in the 32-bit view of its register; UXL
    and SXL exist in the 64-bit view only. *)
Definition fields32 (f : csrField) : Z * Z :=
  match f with
  | status_UIE => (0, 1) | status_SIE => (1, 1) | status_MIE => (3, 1)
  | status_UPIE => (4, 1) | status_SPIE => (5, 1) | status_MPIE => (7, 1)
  | status_SPP => (8, 1) | status_MPP => (11, 2) | status_FS => (13, 2)
  | status_XS => (15, 2) | status_MPRV => (17, 1) | status_SUM => (18, 1)
  | status_MXR => (19, 1) | status_TVM => (20, 1) | status_TW => (21, 1)
  | status_TSR => (22, 1) | status_UXL => (32, 0) | status_SXL => (32, 0)
  | status_SD => (31, 1)
  | fcsr_NX => (0, 1) | fcsr_UF => (1, 1) | fcsr_OF => (2, 1)
  | fcsr_DZ => (3, 1) | fcsr_NV => (4, 1) | fcsr_frm => (5, 3)
  | fcsr_vxsat => (8, 1) | fcsr_vxrm => (9, 2)
  | isa_Extensions => (0, 26) | isa_MXL => (30, 2)
  | tvec_MODE => (0, 2) | tvec_BASE => (2, 30)
  | counteren_CY => (0, 1) | counteren_TM => (1, 1) | counteren_IR => (2, 1)
  | counteren_HPM => (3, 29)
  | cause_ExceptionCode => (0, 31) | cause_Interrupt => (31, 1)
  | atp_PPN => (0, 22) | atp_ASID => (22, 9) | atp_MODE => (31, 1)
  | genericXLEN_value => (0, 64)
  | vxrm_rm => (0, 2)
  | vtype_vlmul => (0, 2) | vtype_vsew => (2, 3) | vtype_vill => (31, 1)
  end.

(** The same in the 64-bit view, where it differs. *)
Definition fields64 (f : csrField) : Z * Z :=
  match f with
  | status_UXL => (32, 2) | status_SXL => (34, 2) | status_SD => (63, 1)
  | isa_MXL => (62, 2)
  | tvec_BASE => (2, 62)
  | cause_ExceptionCode => (0, 63) | cause_Interrupt => (63, 1)
  | atp_PPN => (0, 44) | atp_ASID => (44, 16) | atp_MODE => (60, 4)
  | vtype_vill => (63, 1)
  | _ => fields32 f
  end.

(** A register's storage.  CSR_REG_STRUCT_DECL_32_64 gives the two views
    storage of their own; every other declaration makes them a union, of
    which [u64] is the whole. *)
Record csrReg := CsrReg { u32 : Z; u64 : Z }.

Definition distinct_views (n : csrName) : bool :=
  match n with
  | misa | ucause | scause | mcause | satp | vtype => true
  | _ => false
  end.

(** [_N.u32.bits]. *)
Definition u32_bits (n : csrName) (r : csrReg) : Z :=
  if distinct_views n then u32 r else w32 (u64 r).
Definition set_u32_bits (n : csrName) (v : Z) (r : csrReg) : csrReg :=
  if distinct_views n then CsrReg (w32 v) (u64 r)
  else CsrReg (u32 r) (u64 r - w32 (u64 r) + w32 v).

(** [_N.u64.bits]. *)
Definition set_u64_bits (v : Z) (r : csrReg) : csrReg := CsrReg (u32 r) (w64 v).

(** The word the bit fields of [_N.u32] are part of. *)
Definition u32_word (n : csrName) (r : csrReg) : Z :=
  if distinct_views n then u32 r else u64 r.
Definition set_u32_word (n : csrName) (v : Z) (r : csrReg) : csrReg :=
  if distinct_views n then CsrReg v (u64 r) else CsrReg (u32 r) v.

(** A bit field of a word. *)
Definition field_get (p : Z * Z) (x : Z) : Z := Z.land (Z.shiftr x p.1) (Z.ones p.2).
Definition field_set (p : Z * Z) (v x : Z) : Z :=
  Z.lor (Z.ldiff x (Z.shiftl (Z.ones p.2) p.1)) (Z.shiftl (Z.land v (Z.ones p.2)) p.1).

(** ** Modes, exception codes and other enumerations *)

Abbreviation RISCV_MODE_USER := 0.
Abbreviation RISCV_MODE_SUPERVISOR := 1.
Abbreviation RISCV_MODE_HYPERVISOR := 2.
Abbreviation RISCV_MODE_MACHINE := 3.
Abbreviation RISCV_DMODE_VM := 4.

Abbreviation RVD_WFI := 1.
Abbreviation RVD_NMI := 2.
Abbreviation RVD_RESET := 4.
Abbreviation RVD_RESTART_WFI := RVD_WFI.
Abbreviation RVD_RESTART_NMI := (Z.lor RVD_WFI RVD_NMI).
Abbreviation RVD_RESTART_RESET := (Z.lor RVD_WFI RVD_RESET).

Abbreviation riscv_AFault_None := 0.
Abbreviation riscv_AFault_PMP := 1.
Abbreviation riscv_AFault_Bus := 2.

Abbreviation RVPV_1_10 := 0.
Abbreviation RVPV_1_11 := 1.
Abbreviation RVPV_20190405 := 2.

Abbreviation RISCV_NO_TAG := (w64 (-1)).
Abbreviation XLEN_SHIFT := 26.
Abbreviation RISCV_PAGE_SHIFT := 12.
Abbreviation NUM_PMPS := 16.

(** [x & m] as a C condition. *)
Definition any (x m : Z) : bool := negb (Z.land x m =? 0).

(** ** The simulator's interface *)

Class VmiRt := {
  (** what the simulator keeps for this processor *)
  vmiState : Type;
  vmirtGetPC : vmiState -> Z;
  vmirtGetPCDS : vmiState -> Z * Z;
  vmirtSetPC : Z -> vmiState -> vmiState;
  vmirtSetPCException : Z -> vmiState -> vmiState;
  vmirtSetMode : Z -> vmiState -> vmiState;
  vmirtSetBlockMask : Z -> vmiState -> vmiState;
  vmirtHalt : vmiState -> vmiState;
  vmirtRestartNext : vmiState -> vmiState;
  vmirtDoSynchronousInterrupt : vmiState -> vmiState;
  vmirtSetProcessorASID : Z -> vmiState -> vmiState;
  vmirtGetProcessorDataDomain : vmiState -> Z;
  vmirtSetProcessorDataDomain : Z -> vmiState -> vmiState;
  vmirtGetICount : vmiState -> Z;
  vmirtGetExecutedICount : vmiState -> Z;
  (** [(Uns64)(1000000*vmirtGetMonotonicTime(...))] *)
  monotonic_us : vmiState -> Z;
  (** the rounding control of the control word; every exception is masked *)
  vmirtSetFPControlWord : Z -> vmiState -> vmiState;
  (** MEM_PRIV_SET *)
  mem_priv_set : Z;
  vmirtProtectMemory : Z -> Z -> Z -> Z -> Z -> vmiState -> vmiState;
  vmirtGetDomainPrivileges : Z -> Z -> vmiState -> Z;
}.

(** A jump moves the program counter; a data domain that has been selected is
    the one in use until the next selection, whatever mode, block mask or
    ASID is set; setting privileges changes those of the given range of the
    given domain only, and no other call changes privileges. *)
Class VmiRtLaws (V : VmiRt) := {
  pc_set a v : vmirtGetPC (vmirtSetPC a v) = a;
  pc_exception a v : vmirtGetPC (vmirtSetPCException a v) = a;
  pc_restart v : vmirtGetPC (vmirtRestartNext v) = vmirtGetPC v;
  pc_interrupt v : vmirtGetPC (vmirtDoSynchronousInterrupt v) = vmirtGetPC v;
  domain_set d v :
    vmirtGetProcessorDataDomain (vmirtSetProcessorDataDomain d v) = d;
  domain_pc a v :
    vmirtGetProcessorDataDomain (vmirtSetPC a v) = vmirtGetProcessorDataDomain v;
  domain_exception a v :
    vmirtGetProcessorDataDomain (vmirtSetPCException a v) = vmirtGetProcessorDataDomain v;
  domain_restart v :
    vmirtGetProcessorDataDomain (vmirtRestartNext v) = vmirtGetProcessorDataDomain v;
  domain_interrupt v :
    vmirtGetProcessorDataDomain (vmirtDoSynchronousInterrupt v) = vmirtGetProcessorDataDomain v;
  priv_set d low high p v d' a :
    vmirtGetDomainPrivileges d' a (vmirtProtectMemory d low high p mem_priv_set v) =
    if (d' =? d) && (low <=? a) && (a <=? high) then p
    else vmirtGetDomainPrivileges d' a v;
}.

(** ** The processor structure *)

(** riscvConfig: the options read at run time. *)
Record riscvConfig := {
  c_arch : Z;
  c_archMask : Z;
  c_priv_version : Z;
  c_reset_address : Z;
  c_nmi_address : Z;
  c_local_int_num : Z;
  c_ASID_bits : Z;
  c_PMP_grain : Z;
  c_PMP_registers : Z;
  c_Sv_modes : Z;
  c_tvec_align : Z;
  c_VLEN : Z;
  c_mtvec_is_ro : bool;
  c_cycle_undefined : bool;
  c_time_undefined : bool;
  c_instret_undefined : bool;
  c_d_requires_f : bool;
  c_fs_always_dirty : bool;
  c_xret_preserves_lr : bool;
  c_wfi_is_nop : bool;
  c_updatePTEA : bool;
  c_updatePTED : bool;
  c_tval_ii_code : bool;
  c_csr_mvendorid : Z;
  c_csr_marchid : Z;
  c_csr_mimpid : Z;
  c_csr_mhartid : Z;
  c_csr_mtvec : Z;
  c_csr_mstatus : Z;
  c_mask_mtvec : Z;
  c_mask_stvec : Z;
  c_mask_utvec : Z;
  c_mask_cause32 : Z;
  c_mask_cause64 : Z
}.

(** riscvNetValue: the levels of the input ports. *)
Record riscvNetValue := { n_ip : Z; n_reset : bool; n_nmi : bool }.

(** vmiFPFlags: the flags that fflags shows. *)
Record vmiFPFlags := FPFlags { fp_P : bool; fp_U : bool; fp_O : bool; fp_Z : bool; fp_I : bool }.

(** tlbEntry, less the links of the free list and the lookup table. *)
Record tlbEntry := {
  t_lowVA : Z;
  t_highVA : Z;
  t_PA : Z;
  t_simASID : Z;  (* riscvSimASID *)
  t_isMapped : Z;  (* 4 bits, one per mode *)
  t_priv : Z;  (* 3 bits *)
  t_U : bool;
  t_G : bool;
  t_A : bool;
  t_D : bool;
  t_artifact : bool
}.

(** struct riscvS. *)
Record riscvS `{V : VmiRt} := Mk_riscvS {
  r_csr : csrName -> csrReg;  (* register values *)
  r_csrMask : csrName -> csrReg;  (* write masks *)
  r_currentArch : Z;
  r_mode : Z;  (* riscvDMode *)
  r_disable : Z;  (* reasons to be halted *)
  r_artifactAccess : bool;
  r_inSaveRestore : bool;
  r_pmKey : Z;
  r_configInfo : riscvConfig;
  r_jumpBase : Z;
  r_swip : Z;  (* software interrupt pending bits *)
  r_exceptionMask : Z;
  r_interruptMask : Z;
  r_exception : Z;  (* 16 bits *)
  r_MIMode : Z;
  r_SIMode : Z;
  r_UIMode : Z;
  r_AFErrorIn : Z;
  r_AFErrorOut : Z;
  r_exclusiveTag : Z;
  r_fpFlags : vmiFPFlags;
  r_baseCycles : Z;
  r_baseInstructions : Z;
  r_netValue : riscvNetValue;
  r_vmDomains : Z -> bool -> Z;  (* by mode; true for code *)
  r_pmpDomains : Z -> bool -> Z;
  r_physDomains : Z -> bool -> Z;
  r_pmpcfg : Z -> Z;  (* viewed as bytes *)
  r_pmpaddr : Z -> Z;
  r_extBits : Z;
  r_tlb : option (gmap Z tlbEntry);  (* entries by address; None for NULL *)
  r_dendian : bool;  (* data endianness *)
  r_PTWActive : bool;
  r_PTWBadAddr : bool;
  r_vFirstFault : bool;
  r_vlMax : Z;
  r_vmi : vmiState  (* the simulator's part *)
}.

(** One assignment [riscv->field = v] each. *)
Section Updates.

Context `{V : VmiRt}.

Definition upd_csr (v : csrName -> csrReg) (s : riscvS) : riscvS :=
  Mk_riscvS _ v (r_csrMask s) (r_currentArch s) (r_mode s) (r_disable s)
    (r_artifactAccess s) (r_inSaveRestore s) (r_pmKey s) (r_configInfo s)
    (r_jumpBase s) (r_swip s) (r_exceptionMask s) (r_interruptMask s)
    (r_exception s) (r_MIMode s) (r_SIMode s) (r_UIMode s) (r_AFErrorIn s)
    (r_AFErrorOut s) (r_exclusiveTag s) (r_fpFlags s) (r_baseCycles s)
    (r_baseInstructions s) (r_netValue s) (r_vmDomains s) (r_pmpDomains s)
    (r_physDomains s) (r_pmpcfg s) (r_pmpaddr s) (r_extBits s) (r_tlb s)
    (r_dendian s) (r_PTWActive s) (r_PTWBadAddr s) (r_vFirstFault s)
    (r_vlMax s) (r_vmi s).

Definition upd_csrMask (v : csrName -> csrReg) (s : riscvS) : riscvS :=
  Mk_riscvS _ (r_csr s) v (r_currentArch s) (r_mode s) (r_disable s)
    (r_artifactAccess s) (r_inSaveRestore s) (r_pmKey s) (r_configInfo s)
    (r_jumpBase s) (r_swip s) (r_exceptionMask s) (r_interruptMask s)
    (r_exception s) (r_MIMode s) (r_SIMode s) (r_UIMode s) (r_AFErrorIn s)
    (r_AFErrorOut s) (r_exclusiveTag s) (r_fpFlags s) (r_baseCycles s)
    (r_baseInstructions s) (r_netValue s) (r_vmDomains s) (r_pmpDomains s)
    (r_physDomains s) (r_pmpcfg s) (r_pmpaddr s) (r_extBits s) (r_tlb s)
    (r_dendian s) (r_PTWActive s) (r_PTWBadAddr s) (r_vFirstFault s)
    (r_vlMax s) (r_vmi s).

Definition upd_currentArch (v : Z) (s : riscvS) : riscvS :=
  Mk_riscvS _ (r_csr s) (r_csrMask s) v (r_mode s) (r_disable s)
    (r_artifactAccess s) (r_inSaveRestore s) (r_pmKey s) (r_configInfo s)
    (r_jumpBase s) (r_swip s) (r_exceptionMask s) (r_interruptMask s)
    (r_exception s) (r_MIMode s) (r_SIMode s) (r_UIMode s) (r_AFErrorIn s)
    (r_AFErrorOut s) (r_exclusiveTag s) (r_fpFlags s) (r_baseCycles s)
    (r_baseInstructions s) (r_netValue s) (r_vmDomains s) (r_pmpDomains s)
    (r_physDomains s) (r_pmpcfg s) (r_pmpaddr s) (r_extBits s) (r_tlb s)
    (r_dendian s) (r_PTWActive s) (r_PTWBadAddr s) (r_vFirstFault s)
    (r_vlMax s) (r_vmi s).

Definition upd_mode (v : Z) (s : riscvS) : riscvS :=
  Mk_riscvS _ (r_csr s) (r_csrMask s) (r_currentArch s) v (r_disable s)
    (r_artifactAccess s) (r_inSaveRestore s) (r_pmKey s) (r_configInfo s)
    (r_jumpBase s) (r_swip s) (r_exceptionMask s) (r_interruptMask s)
    (r_exception s) (r_MIMode s) (r_SIMode s) (r_UIMode s) (r_AFErrorIn s)
    (r_AFErrorOut s) (r_exclusiveTag s) (r_fpFlags s) (r_baseCycles s)
    (r_baseInstructions s) (r_netValue s) (r_vmDomains s) (r_pmpDomains s)
    (r_physDomains s) (r_pmpcfg s) (r_pmpaddr s) (r_extBits s) (r_tlb s)
    (r_dendian s) (r_PTWActive s) (r_PTWBadAddr s) (r_vFirstFault s)
    (r_vlMax s) (r_vmi s).

Definition upd_disable (v : Z) (s : riscvS) : riscvS :=
  Mk_riscvS _ (r_csr s) (r_csrMask s) (r_currentArch s) (r_mode s) v
    (r_artifactAccess s) (r_inSaveRestore s) (r_pmKey s) (r_configInfo s)
    (r_jumpBase s) (r_swip s) (r_exceptionMask s) (r_interruptMask s)
    (r_exception s) (r_MIMode s) (r_SIMode s) (r_UIMode s) (r_AFErrorIn s)
    (r_AFErrorOut s) (r_exclusiveTag s) (r_fpFlags s) (r_baseCycles s)
    (r_baseInstructions s) (r_netValue s) (r_vmDomains s) (r_pmpDomains s)
    (r_physDomains s) (r_pmpcfg s) (r_pmpaddr s) (r_extBits s) (r_tlb s)
    (r_dendian s) (r_PTWActive s) (r_PTWBadAddr s) (r_vFirstFault s)
    (r_vlMax s) (r_vmi s).

Definition upd_artifactAccess (v : bool) (s : riscvS) : riscvS :=
  Mk_riscvS _ (r_csr s) (r_csrMask s) (r_currentArch s) (r_mode s)
    (r_disable s) v (r_inSaveRestore s) (r_pmKey s) (r_configInfo s)
    (r_jumpBase s) (r_swip s) (r_exceptionMask s) (r_interruptMask s)
    (r_exception s) (r_MIMode s) (r_SIMode s) (r_UIMode s) (r_AFErrorIn s)
    (r_AFErrorOut s) (r_exclusiveTag s) (r_fpFlags s) (r_baseCycles s)
    (r_baseInstructions s) (r_netValue s) (r_vmDomains s) (r_pmpDomains s)
    (r_physDomains s) (r_pmpcfg s) (r_pmpaddr s) (r_extBits s) (r_tlb s)
    (r_dendian s) (r_PTWActive s) (r_PTWBadAddr s) (r_vFirstFault s)
    (r_vlMax s) (r_vmi s).

Definition upd_inSaveRestore (v : bool) (s : riscvS) : riscvS :=
  Mk_riscvS _ (r_csr s) (r_csrMask s) (r_currentArch s) (r_mode s)
    (r_disable s) (r_artifactAccess s) v (r_pmKey s) (r_configInfo s)
    (r_jumpBase s) (r_swip s) (r_exceptionMask s) (r_interruptMask s)
    (r_exception s) (r_MIMode s) (r_SIMode s) (r_UIMode s) (r_AFErrorIn s)
    (r_AFErrorOut s) (r_exclusiveTag s) (r_fpFlags s) (r_baseCycles s)
    (r_baseInstructions s) (r_netValue s) (r_vmDomains s) (r_pmpDomains s)
    (r_physDomains s) (r_pmpcfg s) (r_pmpaddr s) (r_extBits s) (r_tlb s)
    (r_dendian s) (r_PTWActive s) (r_PTWBadAddr s) (r_vFirstFault s)
    (r_vlMax s) (r_vmi s).

Definition upd_pmKey (v : Z) (s : riscvS) : riscvS :=
  Mk_riscvS _ (r_csr s) (r_csrMask s) (r_currentArch s) (r_mode s)
    (r_disable s) (r_artifactAccess s) (r_inSaveRestore s) v (r_configInfo
    s) (r_jumpBase s) (r_swip s) (r_exceptionMask s) (r_interruptMask s)
    (r_exception s) (r_MIMode s) (r_SIMode s) (r_UIMode s) (r_AFErrorIn s)
    (r_AFErrorOut s) (r_exclusiveTag s) (r_fpFlags s) (r_baseCycles s)
    (r_baseInstructions s) (r_netValue s) (r_vmDomains s) (r_pmpDomains s)
    (r_physDomains s) (r_pmpcfg s) (r_pmpaddr s) (r_extBits s) (r_tlb s)
    (r_dendian s) (r_PTWActive s) (r_PTWBadAddr s) (r_vFirstFault s)
    (r_vlMax s) (r_vmi s).

Definition upd_configInfo (v : riscvConfig) (s : riscvS) : riscvS :=
  Mk_riscvS _ (r_csr s) (r_csrMask s) (r_currentArch s) (r_mode s)
    (r_disable s) (r_artifactAccess s) (r_inSaveRestore s) (r_pmKey s) v
    (r_jumpBase s) (r_swip s) (r_exceptionMask s) (r_interruptMask s)
    (r_exception s) (r_MIMode s) (r_SIMode s) (r_UIMode s) (r_AFErrorIn s)
    (r_AFErrorOut s) (r_exclusiveTag s) (r_fpFlags s) (r_baseCycles s)
    (r_baseInstructions s) (r_netValue s) (r_vmDomains s) (r_pmpDomains s)
    (r_physDomains s) (r_pmpcfg s) (r_pmpaddr s) (r_extBits s) (r_tlb s)
    (r_dendian s) (r_PTWActive s) (r_PTWBadAddr s) (r_vFirstFault s)
    (r_vlMax s) (r_vmi s).

Definition upd_jumpBase (v : Z) (s : riscvS) : riscvS :=
  Mk_riscvS _ (r_csr s) (r_csrMask s) (r_currentArch s) (r_mode s)
    (r_disable s) (r_artifactAccess s) (r_inSaveRestore s) (r_pmKey s)
    (r_configInfo s) v (r_swip s) (r_exceptionMask s) (r_interruptMask s)
    (r_exception s) (r_MIMode s) (r_SIMode s) (r_UIMode s) (r_AFErrorIn s)
    (r_AFErrorOut s) (r_exclusiveTag s) (r_fpFlags s) (r_baseCycles s)
    (r_baseInstructions s) (r_netValue s) (r_vmDomains s) (r_pmpDomains s)
    (r_physDomains s) (r_pmpcfg s) (r_pmpaddr s) (r_extBits s) (r_tlb s)
    (r_dendian s) (r_PTWActive s) (r_PTWBadAddr s) (r_vFirstFault s)
    (r_vlMax s) (r_vmi s).

Definition upd_swip (v : Z) (s : riscvS) : riscvS :=
  Mk_riscvS _ (r_csr s) (r_csrMask s) (r_currentArch s) (r_mode s)
    (r_disable s) (r_artifactAccess s) (r_inSaveRestore s) (r_pmKey s)
    (r_configInfo s) (r_jumpBase s) v (r_exceptionMask s) (r_interruptMask
    s) (r_exception s) (r_MIMode s) (r_SIMode s) (r_UIMode s) (r_AFErrorIn
    s) (r_AFErrorOut s) (r_exclusiveTag s) (r_fpFlags s) (r_baseCycles s)
    (r_baseInstructions s) (r_netValue s) (r_vmDomains s) (r_pmpDomains s)
    (r_physDomains s) (r_pmpcfg s) (r_pmpaddr s) (r_extBits s) (r_tlb s)
    (r_dendian s) (r_PTWActive s) (r_PTWBadAddr s) (r_vFirstFault s)
    (r_vlMax s) (r_vmi s).

Definition upd_exceptionMask (v : Z) (s : riscvS) : riscvS :=
  Mk_riscvS _ (r_csr s) (r_csrMask s) (r_currentArch s) (r_mode s)
    (r_disable s) (r_artifactAccess s) (r_inSaveRestore s) (r_pmKey s)
    (r_configInfo s) (r_jumpBase s) (r_swip s) v (r_interruptMask s)
    (r_exception s) (r_MIMode s) (r_SIMode s) (r_UIMode s) (r_AFErrorIn s)
    (r_AFErrorOut s) (r_exclusiveTag s) (r_fpFlags s) (r_baseCycles s)
    (r_baseInstructions s) (r_netValue s) (r_vmDomains s) (r_pmpDomains s)
    (r_physDomains s) (r_pmpcfg s) (r_pmpaddr s) (r_extBits s) (r_tlb s)
    (r_dendian s) (r_PTWActive s) (r_PTWBadAddr s) (r_vFirstFault s)
    (r_vlMax s) (r_vmi s).

Definition upd_interruptMask (v : Z) (s : riscvS) : riscvS :=
  Mk_riscvS _ (r_csr s) (r_csrMask s) (r_currentArch s) (r_mode s)
    (r_disable s) (r_artifactAccess s) (r_inSaveRestore s) (r_pmKey s)
    (r_configInfo s) (r_jumpBase s) (r_swip s) (r_exceptionMask s) v
    (r_exception s) (r_MIMode s) (r_SIMode s) (r_UIMode s) (r_AFErrorIn s)
    (r_AFErrorOut s) (r_exclusiveTag s) (r_fpFlags s) (r_baseCycles s)
    (r_baseInstructions s) (r_netValue s) (r_vmDomains s) (r_pmpDomains s)
    (r_physDomains s) (r_pmpcfg s) (r_pmpaddr s) (r_extBits s) (r_tlb s)
    (r_dendian s) (r_PTWActive s) (r_PTWBadAddr s) (r_vFirstFault s)
    (r_vlMax s) (r_vmi s).

Definition upd_exception (v : Z) (s : riscvS) : riscvS :=
  Mk_riscvS _ (r_csr s) (r_csrMask s) (r_currentArch s) (r_mode s)
    (r_disable s) (r_artifactAccess s) (r_inSaveRestore s) (r_pmKey s)
    (r_configInfo s) (r_jumpBase s) (r_swip s) (r_exceptionMask s)
    (r_interruptMask s) v (r_MIMode s) (r_SIMode s) (r_UIMode s)
    (r_AFErrorIn s) (r_AFErrorOut s) (r_exclusiveTag s) (r_fpFlags s)
    (r_baseCycles s) (r_baseInstructions s) (r_netValue s) (r_vmDomains s)
    (r_pmpDomains s) (r_physDomains s) (r_pmpcfg s) (r_pmpaddr s) (r_extBits
    s) (r_tlb s) (r_dendian s) (r_PTWActive s) (r_PTWBadAddr s)
    (r_vFirstFault s) (r_vlMax s) (r_vmi s).

Definition upd_MIMode (v : Z) (s : riscvS) : riscvS :=
  Mk_riscvS _ (r_csr s) (r_csrMask s) (r_currentArch s) (r_mode s)
    (r_disable s) (r_artifactAccess s) (r_inSaveRestore s) (r_pmKey s)
    (r_configInfo s) (r_jumpBase s) (r_swip s) (r_exceptionMask s)
    (r_interruptMask s) (r_exception s) v (r_SIMode s) (r_UIMode s)
    (r_AFErrorIn s) (r_AFErrorOut s) (r_exclusiveTag s) (r_fpFlags s)
    (r_baseCycles s) (r_baseInstructions s) (r_netValue s) (r_vmDomains s)
    (r_pmpDomains s) (r_physDomains s) (r_pmpcfg s) (r_pmpaddr s) (r_extBits
    s) (r_tlb s) (r_dendian s) (r_PTWActive s) (r_PTWBadAddr s)
    (r_vFirstFault s) (r_vlMax s) (r_vmi s).

Definition upd_SIMode (v : Z) (s : riscvS) : riscvS :=
  Mk_riscvS _ (r_csr s) (r_csrMask s) (r_currentArch s) (r_mode s)
    (r_disable s) (r_artifactAccess s) (r_inSaveRestore s) (r_pmKey s)
    (r_configInfo s) (r_jumpBase s) (r_swip s) (r_exceptionMask s)
    (r_interruptMask s) (r_exception s) (r_MIMode s) v (r_UIMode s)
    (r_AFErrorIn s) (r_AFErrorOut s) (r_exclusiveTag s) (r_fpFlags s)
    (r_baseCycles s) (r_baseInstructions s) (r_netValue s) (r_vmDomains s)
    (r_pmpDomains s) (r_physDomains s) (r_pmpcfg s) (r_pmpaddr s) (r_extBits
    s) (r_tlb s) (r_dendian s) (r_PTWActive s) (r_PTWBadAddr s)
    (r_vFirstFault s) (r_vlMax s) (r_vmi s).

Definition upd_UIMode (v : Z) (s : riscvS) : riscvS :=
  Mk_riscvS _ (r_csr s) (r_csrMask s) (r_currentArch s) (r_mode s)
    (r_disable s) (r_artifactAccess s) (r_inSaveRestore s) (r_pmKey s)
    (r_configInfo s) (r_jumpBase s) (r_swip s) (r_exceptionMask s)
    (r_interruptMask s) (r_exception s) (r_MIMode s) (r_SIMode s) v
    (r_AFErrorIn s) (r_AFErrorOut s) (r_exclusiveTag s) (r_fpFlags s)
    (r_baseCycles s) (r_baseInstructions s) (r_netValue s) (r_vmDomains s)
    (r_pmpDomains s) (r_physDomains s) (r_pmpcfg s) (r_pmpaddr s) (r_extBits
    s) (r_tlb s) (r_dendian s) (r_PTWActive s) (r_PTWBadAddr s)
    (r_vFirstFault s) (r_vlMax s) (r_vmi s).

Definition upd_AFErrorIn (v : Z) (s : riscvS) : riscvS :=
  Mk_riscvS _ (r_csr s) (r_csrMask s) (r_currentArch s) (r_mode s)
    (r_disable s) (r_artifactAccess s) (r_inSaveRestore s) (r_pmKey s)
    (r_configInfo s) (r_jumpBase s) (r_swip s) (r_exceptionMask s)
    (r_interruptMask s) (r_exception s) (r_MIMode s) (r_SIMode s) (r_UIMode
    s) v (r_AFErrorOut s) (r_exclusiveTag s) (r_fpFlags s) (r_baseCycles s)
    (r_baseInstructions s) (r_netValue s) (r_vmDomains s) (r_pmpDomains s)
    (r_physDomains s) (r_pmpcfg s) (r_pmpaddr s) (r_extBits s) (r_tlb s)
    (r_dendian s) (r_PTWActive s) (r_PTWBadAddr s) (r_vFirstFault s)
    (r_vlMax s) (r_vmi s).

Definition upd_AFErrorOut (v : Z) (s : riscvS) : riscvS :=
  Mk_riscvS _ (r_csr s) (r_csrMask s) (r_currentArch s) (r_mode s)
    (r_disable s) (r_artifactAccess s) (r_inSaveRestore s) (r_pmKey s)
    (r_configInfo s) (r_jumpBase s) (r_swip s) (r_exceptionMask s)
    (r_interruptMask s) (r_exception s) (r_MIMode s) (r_SIMode s) (r_UIMode
    s) (r_AFErrorIn s) v (r_exclusiveTag s) (r_fpFlags s) (r_baseCycles s)
    (r_baseInstructions s) (r_netValue s) (r_vmDomains s) (r_pmpDomains s)
    (r_physDomains s) (r_pmpcfg s) (r_pmpaddr s) (r_extBits s) (r_tlb s)
    (r_dendian s) (r_PTWActive s) (r_PTWBadAddr s) (r_vFirstFault s)
    (r_vlMax s) (r_vmi s).

Definition upd_exclusiveTag (v : Z) (s : riscvS) : riscvS :=
  Mk_riscvS _ (r_csr s) (r_csrMask s) (r_currentArch s) (r_mode s)
    (r_disable s) (r_artifactAccess s) (r_inSaveRestore s) (r_pmKey s)
    (r_configInfo s) (r_jumpBase s) (r_swip s) (r_exceptionMask s)
    (r_interruptMask s) (r_exception s) (r_MIMode s) (r_SIMode s) (r_UIMode
    s) (r_AFErrorIn s) (r_AFErrorOut s) v (r_fpFlags s) (r_baseCycles s)
    (r_baseInstructions s) (r_netValue s) (r_vmDomains s) (r_pmpDomains s)
    (r_physDomains s) (r_pmpcfg s) (r_pmpaddr s) (r_extBits s) (r_tlb s)
    (r_dendian s) (r_PTWActive s) (r_PTWBadAddr s) (r_vFirstFault s)
    (r_vlMax s) (r_vmi s).

Definition upd_fpFlags (v : vmiFPFlags) (s : riscvS) : riscvS :=
  Mk_riscvS _ (r_csr s) (r_csrMask s) (r_currentArch s) (r_mode s)
    (r_disable s) (r_artifactAccess s) (r_inSaveRestore s) (r_pmKey s)
    (r_configInfo s) (r_jumpBase s) (r_swip s) (r_exceptionMask s)
    (r_interruptMask s) (r_exception s) (r_MIMode s) (r_SIMode s) (r_UIMode
    s) (r_AFErrorIn s) (r_AFErrorOut s) (r_exclusiveTag s) v (r_baseCycles
    s) (r_baseInstructions s) (r_netValue s) (r_vmDomains s) (r_pmpDomains
    s) (r_physDomains s) (r_pmpcfg s) (r_pmpaddr s) (r_extBits s) (r_tlb s)
    (r_dendian s) (r_PTWActive s) (r_PTWBadAddr s) (r_vFirstFault s)
    (r_vlMax s) (r_vmi s).

Definition upd_baseCycles (v : Z) (s : riscvS) : riscvS :=
  Mk_riscvS _ (r_csr s) (r_csrMask s) (r_currentArch s) (r_mode s)
    (r_disable s) (r_artifactAccess s) (r_inSaveRestore s) (r_pmKey s)
    (r_configInfo s) (r_jumpBase s) (r_swip s) (r_exceptionMask s)
    (r_interruptMask s) (r_exception s) (r_MIMode s) (r_SIMode s) (r_UIMode
    s) (r_AFErrorIn s) (r_AFErrorOut s) (r_exclusiveTag s) (r_fpFlags s) v
    (r_baseInstructions s) (r_netValue s) (r_vmDomains s) (r_pmpDomains s)
    (r_physDomains s) (r_pmpcfg s) (r_pmpaddr s) (r_extBits s) (r_tlb s)
    (r_dendian s) (r_PTWActive s) (r_PTWBadAddr s) (r_vFirstFault s)
    (r_vlMax s) (r_vmi s).

Definition upd_baseInstructions (v : Z) (s : riscvS) : riscvS :=
  Mk_riscvS _ (r_csr s) (r_csrMask s) (r_currentArch s) (r_mode s)
    (r_disable s) (r_artifactAccess s) (r_inSaveRestore s) (r_pmKey s)
    (r_configInfo s) (r_jumpBase s) (r_swip s) (r_exceptionMask s)
    (r_interruptMask s) (r_exception s) (r_MIMode s) (r_SIMode s) (r_UIMode
    s) (r_AFErrorIn s) (r_AFErrorOut s) (r_exclusiveTag s) (r_fpFlags s)
    (r_baseCycles s) v (r_netValue s) (r_vmDomains s) (r_pmpDomains s)
    (r_physDomains s) (r_pmpcfg s) (r_pmpaddr s) (r_extBits s) (r_tlb s)
    (r_dendian s) (r_PTWActive s) (r_PTWBadAddr s) (r_vFirstFault s)
    (r_vlMax s) (r_vmi s).

Definition upd_netValue (v : riscvNetValue) (s : riscvS) : riscvS :=
  Mk_riscvS _ (r_csr s) (r_csrMask s) (r_currentArch s) (r_mode s)
    (r_disable s) (r_artifactAccess s) (r_inSaveRestore s) (r_pmKey s)
    (r_configInfo s) (r_jumpBase s) (r_swip s) (r_exceptionMask s)
    (r_interruptMask s) (r_exception s) (r_MIMode s) (r_SIMode s) (r_UIMode
    s) (r_AFErrorIn s) (r_AFErrorOut s) (r_exclusiveTag s) (r_fpFlags s)
    (r_baseCycles s) (r_baseInstructions s) v (r_vmDomains s) (r_pmpDomains
    s) (r_physDomains s) (r_pmpcfg s) (r_pmpaddr s) (r_extBits s) (r_tlb s)
    (r_dendian s) (r_PTWActive s) (r_PTWBadAddr s) (r_vFirstFault s)
    (r_vlMax s) (r_vmi s).

Definition upd_vmDomains (v : Z -> bool -> Z) (s : riscvS) : riscvS :=
  Mk_riscvS _ (r_csr s) (r_csrMask s) (r_currentArch s) (r_mode s)
    (r_disable s) (r_artifactAccess s) (r_inSaveRestore s) (r_pmKey s)
    (r_configInfo s) (r_jumpBase s) (r_swip s) (r_exceptionMask s)
    (r_interruptMask s) (r_exception s) (r_MIMode s) (r_SIMode s) (r_UIMode
    s) (r_AFErrorIn s) (r_AFErrorOut s) (r_exclusiveTag s) (r_fpFlags s)
    (r_baseCycles s) (r_baseInstructions s) (r_netValue s) v (r_pmpDomains
    s) (r_physDomains s) (r_pmpcfg s) (r_pmpaddr s) (r_extBits s) (r_tlb s)
    (r_dendian s) (r_PTWActive s) (r_PTWBadAddr s) (r_vFirstFault s)
    (r_vlMax s) (r_vmi s).

Definition upd_pmpDomains (v : Z -> bool -> Z) (s : riscvS) : riscvS :=
  Mk_riscvS _ (r_csr s) (r_csrMask s) (r_currentArch s) (r_mode s)
    (r_disable s) (r_artifactAccess s) (r_inSaveRestore s) (r_pmKey s)
    (r_configInfo s) (r_jumpBase s) (r_swip s) (r_exceptionMask s)
    (r_interruptMask s) (r_exception s) (r_MIMode s) (r_SIMode s) (r_UIMode
    s) (r_AFErrorIn s) (r_AFErrorOut s) (r_exclusiveTag s) (r_fpFlags s)
    (r_baseCycles s) (r_baseInstructions s) (r_netValue s) (r_vmDomains s) v
    (r_physDomains s) (r_pmpcfg s) (r_pmpaddr s) (r_extBits s) (r_tlb s)
    (r_dendian s) (r_PTWActive s) (r_PTWBadAddr s) (r_vFirstFault s)
    (r_vlMax s) (r_vmi s).

Definition upd_physDomains (v : Z -> bool -> Z) (s : riscvS) : riscvS :=
  Mk_riscvS _ (r_csr s) (r_csrMask s) (r_currentArch s) (r_mode s)
    (r_disable s) (r_artifactAccess s) (r_inSaveRestore s) (r_pmKey s)
    (r_configInfo s) (r_jumpBase s) (r_swip s) (r_exceptionMask s)
    (r_interruptMask s) (r_exception s) (r_MIMode s) (r_SIMode s) (r_UIMode
    s) (r_AFErrorIn s) (r_AFErrorOut s) (r_exclusiveTag s) (r_fpFlags s)
    (r_baseCycles s) (r_baseInstructions s) (r_netValue s) (r_vmDomains s)
    (r_pmpDomains s) v (r_pmpcfg s) (r_pmpaddr s) (r_extBits s) (r_tlb s)
    (r_dendian s) (r_PTWActive s) (r_PTWBadAddr s) (r_vFirstFault s)
    (r_vlMax s) (r_vmi s).

Definition upd_pmpcfg (v : Z -> Z) (s : riscvS) : riscvS :=
  Mk_riscvS _ (r_csr s) (r_csrMask s) (r_currentArch s) (r_mode s)
    (r_disable s) (r_artifactAccess s) (r_inSaveRestore s) (r_pmKey s)
    (r_configInfo s) (r_jumpBase s) (r_swip s) (r_exceptionMask s)
    (r_interruptMask s) (r_exception s) (r_MIMode s) (r_SIMode s) (r_UIMode
    s) (r_AFErrorIn s) (r_AFErrorOut s) (r_exclusiveTag s) (r_fpFlags s)
    (r_baseCycles s) (r_baseInstructions s) (r_netValue s) (r_vmDomains s)
    (r_pmpDomains s) (r_physDomains s) v (r_pmpaddr s) (r_extBits s) (r_tlb
    s) (r_dendian s) (r_PTWActive s) (r_PTWBadAddr s) (r_vFirstFault s)
    (r_vlMax s) (r_vmi s).

Definition upd_pmpaddr (v : Z -> Z) (s : riscvS) : riscvS :=
  Mk_riscvS _ (r_csr s) (r_csrMask s) (r_currentArch s) (r_mode s)
    (r_disable s) (r_artifactAccess s) (r_inSaveRestore s) (r_pmKey s)
    (r_configInfo s) (r_jumpBase s) (r_swip s) (r_exceptionMask s)
    (r_interruptMask s) (r_exception s) (r_MIMode s) (r_SIMode s) (r_UIMode
    s) (r_AFErrorIn s) (r_AFErrorOut s) (r_exclusiveTag s) (r_fpFlags s)
    (r_baseCycles s) (r_baseInstructions s) (r_netValue s) (r_vmDomains s)
    (r_pmpDomains s) (r_physDomains s) (r_pmpcfg s) v (r_extBits s) (r_tlb
    s) (r_dendian s) (r_PTWActive s) (r_PTWBadAddr s) (r_vFirstFault s)
    (r_vlMax s) (r_vmi s).

Definition upd_extBits (v : Z) (s : riscvS) : riscvS :=
  Mk_riscvS _ (r_csr s) (r_csrMask s) (r_currentArch s) (r_mode s)
    (r_disable s) (r_artifactAccess s) (r_inSaveRestore s) (r_pmKey s)
    (r_configInfo s) (r_jumpBase s) (r_swip s) (r_exceptionMask s)
    (r_interruptMask s) (r_exception s) (r_MIMode s) (r_SIMode s) (r_UIMode
    s) (r_AFErrorIn s) (r_AFErrorOut s) (r_exclusiveTag s) (r_fpFlags s)
    (r_baseCycles s) (r_baseInstructions s) (r_netValue s) (r_vmDomains s)
    (r_pmpDomains s) (r_physDomains s) (r_pmpcfg s) (r_pmpaddr s) v (r_tlb
    s) (r_dendian s) (r_PTWActive s) (r_PTWBadAddr s) (r_vFirstFault s)
    (r_vlMax s) (r_vmi s).

Definition upd_tlb (v : option (gmap Z tlbEntry)) (s : riscvS) : riscvS :=
  Mk_riscvS _ (r_csr s) (r_csrMask s) (r_currentArch s) (r_mode s)
    (r_disable s) (r_artifactAccess s) (r_inSaveRestore s) (r_pmKey s)
    (r_configInfo s) (r_jumpBase s) (r_swip s) (r_exceptionMask s)
    (r_interruptMask s) (r_exception s) (r_MIMode s) (r_SIMode s) (r_UIMode
    s) (r_AFErrorIn s) (r_AFErrorOut s) (r_exclusiveTag s) (r_fpFlags s)
    (r_baseCycles s) (r_baseInstructions s) (r_netValue s) (r_vmDomains s)
    (r_pmpDomains s) (r_physDomains s) (r_pmpcfg s) (r_pmpaddr s) (r_extBits
    s) v (r_dendian s) (r_PTWActive s) (r_PTWBadAddr s) (r_vFirstFault s)
    (r_vlMax s) (r_vmi s).

Definition upd_dendian (v : bool) (s : riscvS) : riscvS :=
  Mk_riscvS _ (r_csr s) (r_csrMask s) (r_currentArch s) (r_mode s)
    (r_disable s) (r_artifactAccess s) (r_inSaveRestore s) (r_pmKey s)
    (r_configInfo s) (r_jumpBase s) (r_swip s) (r_exceptionMask s)
    (r_interruptMask s) (r_exception s) (r_MIMode s) (r_SIMode s) (r_UIMode
    s) (r_AFErrorIn s) (r_AFErrorOut s) (r_exclusiveTag s) (r_fpFlags s)
    (r_baseCycles s) (r_baseInstructions s) (r_netValue s) (r_vmDomains s)
    (r_pmpDomains s) (r_physDomains s) (r_pmpcfg s) (r_pmpaddr s) (r_extBits
    s) (r_tlb s) v (r_PTWActive s) (r_PTWBadAddr s) (r_vFirstFault s)
    (r_vlMax s) (r_vmi s).

Definition upd_PTWActive (v : bool) (s : riscvS) : riscvS :=
  Mk_riscvS _ (r_csr s) (r_csrMask s) (r_currentArch s) (r_mode s)
    (r_disable s) (r_artifactAccess s) (r_inSaveRestore s) (r_pmKey s)
    (r_configInfo s) (r_jumpBase s) (r_swip s) (r_exceptionMask s)
    (r_interruptMask s) (r_exception s) (r_MIMode s) (r_SIMode s) (r_UIMode
    s) (r_AFErrorIn s) (r_AFErrorOut s) (r_exclusiveTag s) (r_fpFlags s)
    (r_baseCycles s) (r_baseInstructions s) (r_netValue s) (r_vmDomains s)
    (r_pmpDomains s) (r_physDomains s) (r_pmpcfg s) (r_pmpaddr s) (r_extBits
    s) (r_tlb s) (r_dendian s) v (r_PTWBadAddr s) (r_vFirstFault s) (r_vlMax
    s) (r_vmi s).

Definition upd_PTWBadAddr (v : bool) (s : riscvS) : riscvS :=
  Mk_riscvS _ (r_csr s) (r_csrMask s) (r_currentArch s) (r_mode s)
    (r_disable s) (r_artifactAccess s) (r_inSaveRestore s) (r_pmKey s)
    (r_configInfo s) (r_jumpBase s) (r_swip s) (r_exceptionMask s)
    (r_interruptMask s) (r_exception s) (r_MIMode s) (r_SIMode s) (r_UIMode
    s) (r_AFErrorIn s) (r_AFErrorOut s) (r_exclusiveTag s) (r_fpFlags s)
    (r_baseCycles s) (r_baseInstructions s) (r_netValue s) (r_vmDomains s)
    (r_pmpDomains s) (r_physDomains s) (r_pmpcfg s) (r_pmpaddr s) (r_extBits
    s) (r_tlb s) (r_dendian s) (r_PTWActive s) v (r_vFirstFault s) (r_vlMax
    s) (r_vmi s).

Definition upd_vFirstFault (v : bool) (s : riscvS) : riscvS :=
  Mk_riscvS _ (r_csr s) (r_csrMask s) (r_currentArch s) (r_mode s)
    (r_disable s) (r_artifactAccess s) (r_inSaveRestore s) (r_pmKey s)
    (r_configInfo s) (r_jumpBase s) (r_swip s) (r_exceptionMask s)
    (r_interruptMask s) (r_exception s) (r_MIMode s) (r_SIMode s) (r_UIMode
    s) (r_AFErrorIn s) (r_AFErrorOut s) (r_exclusiveTag s) (r_fpFlags s)
    (r_baseCycles s) (r_baseInstructions s) (r_netValue s) (r_vmDomains s)
    (r_pmpDomains s) (r_physDomains s) (r_pmpcfg s) (r_pmpaddr s) (r_extBits
    s) (r_tlb s) (r_dendian s) (r_PTWActive s) (r_PTWBadAddr s) v (r_vlMax
    s) (r_vmi s).

Definition upd_vlMax (v : Z) (s : riscvS) : riscvS :=
  Mk_riscvS _ (r_csr s) (r_csrMask s) (r_currentArch s) (r_mode s)
    (r_disable s) (r_artifactAccess s) (r_inSaveRestore s) (r_pmKey s)
    (r_configInfo s) (r_jumpBase s) (r_swip s) (r_exceptionMask s)
    (r_interruptMask s) (r_exception s) (r_MIMode s) (r_SIMode s) (r_UIMode
    s) (r_AFErrorIn s) (r_AFErrorOut s) (r_exclusiveTag s) (r_fpFlags s)
    (r_baseCycles s) (r_baseInstructions s) (r_netValue s) (r_vmDomains s)
    (r_pmpDomains s) (r_physDomains s) (r_pmpcfg s) (r_pmpaddr s) (r_extBits
    s) (r_tlb s) (r_dendian s) (r_PTWActive s) (r_PTWBadAddr s)
    (r_vFirstFault s) v (r_vmi s).

Definition upd_vmi (v : vmiState) (s : riscvS) : riscvS :=
  Mk_riscvS _ (r_csr s) (r_csrMask s) (r_currentArch s) (r_mode s)
    (r_disable s) (r_artifactAccess s) (r_inSaveRestore s) (r_pmKey s)
    (r_configInfo s) (r_jumpBase s) (r_swip s) (r_exceptionMask s)
    (r_interruptMask s) (r_exception s) (r_MIMode s) (r_SIMode s) (r_UIMode
    s) (r_AFErrorIn s) (r_AFErrorOut s) (r_exclusiveTag s) (r_fpFlags s)
    (r_baseCycles s) (r_baseInstructions s) (r_netValue s) (r_vmDomains s)
    (r_pmpDomains s) (r_physDomains s) (r_pmpcfg s) (r_pmpaddr s) (r_extBits
    s) (r_tlb s) (r_dendian s) (r_PTWActive s) (r_PTWBadAddr s)
    (r_vFirstFault s) (r_vlMax s) v.

End Updates.

(** ** Access to CSRs

    The macros of riscvCSR.h as functions of the register bank and of the
    choice of view, and then of the processor. *)

Abbreviation csrBank := (csrName -> csrReg).

Definition rd_csr (is32 : bool) (c : csrBank) (n : csrName) : Z :=
  if is32 then u32_bits n (c n) else u64 (c n).

Definition wr_csr (is32 : bool) (n : csrName) (v : Z) (c : csrBank) : csrBank :=
  <[n := if is32 then set_u32_bits n v (c n) else set_u64_bits v (c n)]> c.

Definition rd_field (is32 : bool) (c : csrBank) (n : csrName) (f : csrField) : Z :=
  if is32 then field_get (fields32 f) (u32_word n (c n))
  else field_get (fields64 f) (u64 (c n)).

Definition wr_field (is32 : bool) (n : csrName) (f : csrField) (v : Z) (c : csrBank) : csrBank :=
  <[n := if is32 then set_u32_word n (field_set (fields32 f) v (u32_word n (c n))) (c n)
         else CsrReg (u32 (c n)) (field_set (fields64 f) v (u64 (c n)))]> c.

Section Access.

Context `{V : VmiRt}.
Implicit Types s : riscvS.

Definition RISCV_XLEN_IS_32 (s : riscvS) : bool := any (r_currentArch s) ISA_XLEN_32.

Definition RD_CSR (s : riscvS) (n : csrName) : Z :=
  rd_csr (RISCV_XLEN_IS_32 s) (r_csr s) n.

Definition WR_CSR (n : csrName) (v : Z) (s : riscvS) : riscvS :=
  upd_csr (wr_csr (RISCV_XLEN_IS_32 s) n v (r_csr s)) s.

Definition RD_CSR_FIELD (s : riscvS) (n : csrName) (f : csrField) : Z :=
  rd_field (RISCV_XLEN_IS_32 s) (r_csr s) n f.

Definition WR_CSR_FIELD (n : csrName) (f : csrField) (v : Z) (s : riscvS) : riscvS :=
  upd_csr (wr_field (RISCV_XLEN_IS_32 s) n f v (r_csr s)) s.

Definition RD_CSR_MASK (s : riscvS) (n : csrName) : Z :=
  rd_csr (RISCV_XLEN_IS_32 s) (r_csrMask s) n.

(** ** Modes *)

Definition getCurrentMode (s : riscvS) : Z := Z.land (r_mode s) RISCV_MODE_MACHINE.

Definition getASIDMask (s : riscvS) : Z :=
  w32 (Z.shiftl 1 (c_ASID_bits (r_configInfo s)) - 1).

Definition riscvGetMinMode (s : riscvS) : Z :=
  if any (c_arch (r_configInfo s)) ISA_U then RISCV_MODE_USER
  else if any (c_arch (r_configInfo s)) ISA_S then RISCV_MODE_SUPERVISOR
  else RISCV_MODE_MACHINE.

Definition riscvHasMode (s : riscvS) (mode : Z) : bool :=
  if mode =? RISCV_MODE_USER then any (c_arch (r_configInfo s)) ISA_U
  else if mode =? RISCV_MODE_SUPERVISOR then any (c_arch (r_configInfo s)) ISA_S
  else mode =? RISCV_MODE_MACHINE.

(** The architecture enabled by misa, less floating point if mstatus.FS is
    off. *)
Definition riscvSetCurrentArch (s : riscvS) : riscvS :=
  let arch := Z.lor (RD_CSR_FIELD s misa isa_Extensions)
                    (w32 (Z.shiftl (RD_CSR_FIELD s misa isa_MXL) XLEN_SHIFT)) in
  let arch := if RD_CSR_FIELD s mstatus status_FS =? 0 then Z.ldiff arch ISA_DF else arch in
  if r_currentArch s =? arch then s
  else upd_currentArch arch (upd_vmi (vmirtSetBlockMask arch (r_vmi s)) s).

Definition getMXR (s : riscvS) : bool := negb (RD_CSR_FIELD s mstatus status_MXR =? 0).
Definition getSUM (s : riscvS) : bool := negb (RD_CSR_FIELD s mstatus status_SUM =? 0).
Definition getMPRV (s : riscvS) : bool := negb (RD_CSR_FIELD s mstatus status_MPRV =? 0).
Definition getMPP (s : riscvS) : Z := RD_CSR_FIELD s mstatus status_MPP.
Definition getActiveASID (s : riscvS) : Z := RD_CSR_FIELD s satp atp_ASID.

(** The word of riscvSimASID: ASID, then MXR, then SUM. *)
Definition getSimASID (s : riscvS) : Z :=
  Z.lor (w16 (getActiveASID s))
        (Z.lor (Z.shiftl (Z.b2z (getMXR s)) 16) (Z.shiftl (Z.b2z (getSUM s)) 17)).

Definition riscvVMSetASID (s : riscvS) : riscvS :=
  upd_vmi (vmirtSetProcessorASID (getSimASID s) (r_vmi s)) s.

(** The mode whose data domain loads and stores go through. *)
Definition data_mode (s : riscvS) : Z :=
  if getMPRV s then
    let modeMPP := getMPP s in
    if riscvHasMode s modeMPP then modeMPP else riscvGetMinMode s
  else getCurrentMode s.

Definition riscvVMRefreshMPRVDomain (s : riscvS) : riscvS :=
  let VM := negb (RD_CSR_FIELD s satp atp_MODE =? 0) in
  let mode := data_mode s in
  let domain := if VM then r_vmDomains s mode false else 0 in
  let domain := if domain =? 0 then r_physDomains s mode false else domain in
  if negb (domain =? 0) && negb (domain =? vmirtGetProcessorDataDomain (r_vmi s))
  then upd_vmi (vmirtSetProcessorDataDomain domain (r_vmi s)) s
  else s.

Definition riscvSetMode (mode : Z) (s : riscvS) : riscvS :=
  let dMode :=
    if (mode <=? RISCV_MODE_SUPERVISOR) && negb (RD_CSR_FIELD s satp atp_MODE =? 0)
    then Z.lor mode RISCV_DMODE_VM else Z.ldiff mode RISCV_DMODE_VM in
  let s := if r_mode s =? dMode then s
           else upd_vmi (vmirtSetMode dMode (r_vmi s)) (upd_mode dMode s) in
  riscvVMRefreshMPRVDomain s.

End Access.
