(* ===== verification/RvHartFacts.v ===== *)
(** * Lemmas on CSR fields and on the hart

    What is read from a CSR or a field of it after a write, for both register
    widths; the ranges of stored values; and the shape of the state after the
    utilities that touch only a few of its parts.  [csr_simpl] simplifies
    reads after writes. *)

From stdpp Require Import functions.
From S2P Require Import Prelude RvTypes RvHart.

(** ** Bit fields *)

Lemma field_get_bits p x i :
  0 <= p.1 -> 0 <= p.2 -> 0 <= i ->
  Z.testbit (field_get p x) i = Z.testbit x (i + p.1) && (i <? p.2).
Proof.
  intros. unfold field_get. rewrite Z.land_spec, Z.shiftr_spec by lia.
  f_equal. destruct (Z.ltb_spec i p.2).
  - by apply Z.ones_spec_low.
  - by apply Z.ones_spec_high.
Qed.

Lemma field_set_bits p v x i :
  0 <= p.1 -> 0 <= p.2 -> 0 <= i ->
  Z.testbit (field_set p v x) i =
  if (p.1 <=? i) && (i <? p.1 + p.2) then Z.testbit v (i - p.1) else Z.testbit x i.
Proof.
  intros. unfold field_set.
  rewrite Z.lor_spec, Z.ldiff_spec, !Z.shiftl_spec by lia.
  destruct (Z.leb_spec p.1 i); simpl.
  - rewrite Z.land_spec. destruct (Z.ltb_spec i (p.1 + p.2)).
    + rewrite Z.ones_spec_low by lia. simpl. by rewrite andb_false_r, andb_true_r.
    + rewrite Z.ones_spec_high by lia. simpl. by rewrite andb_false_r, andb_true_r, orb_false_r.
  - rewrite !(Z.testbit_neg_r _ (i - p.1)) by lia. simpl. by rewrite andb_true_r, orb_false_r.
Qed.

Definition apart (p q : Z * Z) : bool :=
  (p.1 + p.2 <=? q.1) || (q.1 + q.2 <=? p.1).

Lemma field_get_set p v x :
  0 <= p.1 -> 0 <= p.2 -> field_get p (field_set p v x) = Z.land v (Z.ones p.2).
Proof.
  intros. apply Z.bits_inj'. intros i Hi.
  rewrite field_get_bits, field_set_bits, Z.land_spec by lia.
  destruct (Z.ltb_spec i p.2).
  - rewrite Z.ones_spec_low by lia. replace (i + p.1 - p.1) with i by lia.
    destruct (Z.leb_spec p.1 (i + p.1)), (Z.ltb_spec (i + p.1) (p.1 + p.2)); try lia. done.
  - rewrite Z.ones_spec_high by lia. by rewrite !andb_false_r.
Qed.

Lemma field_get_set_apart p q v x :
  0 <= p.1 -> 0 <= p.2 -> 0 <= q.1 -> 0 <= q.2 -> apart p q = true ->
  field_get p (field_set q v x) = field_get p x.
Proof.
  intros ???? Ha. apply Z.bits_inj'. intros i Hi.
  rewrite !field_get_bits, field_set_bits by lia.
  destruct (Z.ltb_spec i p.2); [|by rewrite !andb_false_r].
  apply orb_true_iff in Ha. rewrite !Z.leb_le in Ha.
  destruct (Z.leb_spec q.1 (i + p.1)), (Z.ltb_spec (i + p.1) (q.1 + q.2)); simpl; (done || lia).
Qed.

Lemma field_get_range p x : 0 <= p.2 -> 0 <= field_get p x < 2 ^ p.2.
Proof. intros. unfold field_get. rewrite Z.land_ones by done. apply Z.mod_pos_bound. lia. Qed.

(** A value is a [w]-bit one exactly when it has no bit from [w] on. *)
Lemma range_bits x w :
  0 <= w -> 0 <= x < 2 ^ w <-> (forall i, w <= i -> Z.testbit x i = false).
Proof.
  intros Hw. split.
  - intros Hx i Hi. by apply (testbit_above x w i).
  - intros Hb. replace x with (x mod 2 ^ w); [apply Z.mod_pos_bound; lia|].
    apply Z.bits_inj'. intros i Hi. destruct (Z.lt_ge_cases i w).
    + by apply Z.mod_pow2_bits_low.
    + rewrite Z.mod_pow2_bits_high by lia. by rewrite Hb.
Qed.

Lemma field_set_range p v x w :
  0 <= p.1 -> 0 <= p.2 -> p.1 + p.2 <= w -> 0 <= x < 2 ^ w ->
  0 <= field_set p v x < 2 ^ w.
Proof.
  intros ??? Hx. apply range_bits; [lia|]. intros i Hi.
  rewrite field_set_bits by lia.
  destruct (Z.leb_spec p.1 i), (Z.ltb_spec i (p.1 + p.2)); simpl; try lia;
    by apply (testbit_above x w i); lia.
Qed.

Lemma fields32_ok f : 0 <= (fields32 f).1 /\ 0 <= (fields32 f).2.
Proof. by destruct f. Qed.
Lemma fields64_ok f : 0 <= (fields64 f).1 /\ 0 <= (fields64 f).2.
Proof. by destruct f. Qed.

(** ** Reads after writes *)

Definition width (is32 : bool) (f : csrField) : Z :=
  if is32 then (fields32 f).2 else (fields64 f).2.

Definition fields_apart (f g : csrField) : bool :=
  apart (fields32 f) (fields32 g) && apart (fields64 f) (fields64 g).

Lemma u32_word_set n v r : u32_word n (set_u32_word n v r) = v.
Proof. unfold u32_word, set_u32_word. by destruct (distinct_views n). Qed.

Lemma rd_wr_field_same is32 n f v c :
  rd_field is32 (wr_field is32 n f v c) n f = Z.land v (Z.ones (width is32 f)).
Proof.
  unfold rd_field, wr_field, width. rewrite fn_lookup_insert.
  destruct (fields32_ok f), (fields64_ok f). destruct is32.
  - rewrite u32_word_set. by apply field_get_set.
  - by apply field_get_set.
Qed.

Lemma rd_wr_field_field is32 n f g v c :
  fields_apart f g = true ->
  rd_field is32 (wr_field is32 n g v c) n f = rd_field is32 c n f.
Proof.
  intros [H32 H64]%andb_true_iff. unfold rd_field, wr_field. rewrite fn_lookup_insert.
  destruct (fields32_ok f), (fields64_ok f), (fields32_ok g), (fields64_ok g).
  destruct is32.
  - rewrite u32_word_set. by apply field_get_set_apart.
  - by apply field_get_set_apart.
Qed.

Lemma wr_field_other is32 n m f v c : n <> m -> wr_field is32 n f v c m = c m.
Proof. intros. by apply fn_lookup_insert_ne. Qed.

Lemma wr_csr_other is32 n m v c : n <> m -> wr_csr is32 n v c m = c m.
Proof. intros. by apply fn_lookup_insert_ne. Qed.

Lemma rd_field_wr_field is32 b n m f g v c :
  n <> m -> rd_field is32 (wr_field b n g v c) m f = rd_field is32 c m f.
Proof. intros. unfold rd_field. by rewrite wr_field_other. Qed.

Lemma rd_field_wr_csr is32 b n m f v c :
  n <> m -> rd_field is32 (wr_csr b n v c) m f = rd_field is32 c m f.
Proof. intros. unfold rd_field. by rewrite wr_csr_other. Qed.

Lemma rd_csr_wr_field is32 b n m g v c :
  n <> m -> rd_csr is32 (wr_field b n g v c) m = rd_csr is32 c m.
Proof. intros. unfold rd_csr. by rewrite wr_field_other. Qed.

Lemma rd_csr_wr_csr is32 b n m v c :
  n <> m -> rd_csr is32 (wr_csr b n v c) m = rd_csr is32 c m.
Proof. intros. unfold rd_csr. by rewrite wr_csr_other. Qed.

Lemma rd_wr_csr_same is32 n v c :
  rd_csr is32 (wr_csr is32 n v c) n = if is32 then w32 v else w64 v.
Proof.
  unfold rd_csr, wr_csr. rewrite fn_lookup_insert. destruct is32; [|done].
  unfold u32_bits, set_u32_bits. destruct (distinct_views n); [done|]. simpl.
  unfold wrap. rewrite Zplus_mod_idemp_r.
  replace (u64 (c n) - u64 (c n) mod 2 ^ 32 + v) with (v + (u64 (c n) / 2 ^ 32) * 2 ^ 32) by zlia.
  by rewrite Z.mod_add.
Qed.

(** Rewrites reads after writes; [discriminate] tells registers apart and
    computation tells fields apart. *)
Ltac csr_simpl :=
  repeat first
    [ rewrite rd_wr_field_same
    | rewrite rd_wr_csr_same
    | rewrite rd_wr_field_field by reflexivity
    | rewrite rd_field_wr_field by discriminate
    | rewrite rd_field_wr_csr by discriminate
    | rewrite rd_csr_wr_field by discriminate
    | rewrite rd_csr_wr_csr by discriminate ].

(** ** Ranges *)

Definition csr_in_range (r : csrReg) : Prop := 0 <= u32 r < 2 ^ 32 /\ 0 <= u64 r < 2 ^ 64.

Lemma rd_csr_range is32 c n : csr_in_range (c n) -> 0 <= rd_csr is32 c n < 2 ^ 64.
Proof.
  intros [H32 H64]. unfold rd_csr, u32_bits. repeat case_match; try lia.
  pose proof (w32_range (u64 (c n))). lia.
Qed.

Lemma rd_csr_range32 c n : csr_in_range (c n) -> 0 <= rd_csr true c n < 2 ^ 32.
Proof.
  intros [H32 H64]. unfold rd_csr, u32_bits. case_match; [done|apply w32_range].
Qed.

Lemma rd_field_range is32 c n f : 0 <= rd_field is32 c n f < 2 ^ width is32 f.
Proof.
  unfold rd_field, width. destruct (fields32_ok f), (fields64_ok f).
  destruct is32; by apply field_get_range.
Qed.

Lemma land_ones_small v w : 0 <= v < 2 ^ w -> 0 <= w -> Z.land v (Z.ones w) = v.
Proof. intros. rewrite Z.land_ones by done. by apply Z.mod_small. Qed.

(** A field of one bit is 0 or 1. *)
Lemma bit_field is32 c n f :
  width is32 f = 1 -> rd_field is32 c n f = Z.b2z (negb (rd_field is32 c n f =? 0)).
Proof.
  intros Hw. pose proof (rd_field_range is32 c n f) as Hr. rewrite Hw in Hr.
  destruct (Z.eqb_spec (rd_field is32 c n f) 0); simpl; lia.
Qed.

(** The storage a field is written to holds it. *)
Definition fits_storage (n : csrName) (f : csrField) : bool :=
  let '(l32, w32) := fields32 f in let '(l64, w64) := fields64 f in
  (if distinct_views n then l32 + w32 <=? 32 else l32 + w32 <=? 64) && (l64 + w64 <=? 64).

Lemma wr_field_in_range is32 n f v c m :
  fits_storage n f = true -> (forall k, csr_in_range (c k)) ->
  csr_in_range (wr_field is32 n f v c m).
Proof.
  intros Hf Hc. destruct (decide (n = m)) as [->|]; [|rewrite wr_field_other; done].
  unfold wr_field. rewrite fn_lookup_insert. destruct (Hc m) as [H32 H64].
  unfold fits_storage in Hf. destruct (fields32_ok f), (fields64_ok f).
  destruct (fields32 f) as [l32 k32] eqn:E32, (fields64 f) as [l64 k64] eqn:E64.
  apply andb_true_iff in Hf as [Hf1 Hf2]. rewrite Z.leb_le in Hf2. simpl in *.
  unfold set_u32_word, u32_word. destruct is32, (distinct_views m);
    try rewrite Z.leb_le in Hf1; split; simpl; try done; apply field_set_range; done.
Qed.

Lemma wr_csr_in_range is32 n v c m :
  (forall k, csr_in_range (c k)) -> csr_in_range (wr_csr is32 n v c m).
Proof.
  intros Hc. destruct (decide (n = m)) as [->|]; [|rewrite wr_csr_other; done].
  unfold wr_csr. rewrite fn_lookup_insert. destruct (Hc m) as [H32 H64].
  pose proof (wrap_range 64 v). pose proof (w32_range v). pose proof (w32_range (u64 (c m))).
  unfold set_u32_bits, set_u64_bits, csr_in_range.
  destruct is32, (distinct_views m); simpl; try lia. split; [done|].
  unfold wrap in *. zlia.
Qed.
