(* ===== verification/RvTrap.v ===== *)
(** * Exceptions, interrupts and returns of the OVP processor model

    riscvExceptions.c of src/models/ovp/source/yggdrasill.ga/processor/riscv/
    1.0/model: the target mode of a trap, trap entry, the three returns, the
    selection of the interrupt to take, halting in WFI and the effect of a
    change of the pending interrupts; and the vector-length helpers of
    riscvCSR.c that a fault-only-first load uses.

    C's Bool is _Bool: a mask tested as a Bool is 0 or 1.  A shift by the
    width of int or more and a failed VMI_ASSERT are [None].  The two
    notifications a derived model may install are the fields of
    [riscvModelCB]; the model of the sources installs none ([base_model]). *)

From stdpp Require Import functions.
From S2P Require Import Prelude RvTypes RvTables RvDecode RvHart.

(** ** Exception codes *)

Abbreviation riscv_E_InstructionAddressMisaligned := 0.
Abbreviation riscv_E_InstructionAccessFault := 1.
Abbreviation riscv_E_IllegalInstruction := 2.
Abbreviation riscv_E_Breakpoint := 3.
Abbreviation riscv_E_LoadAddressMisaligned := 4.
Abbreviation riscv_E_LoadAccessFault := 5.
Abbreviation riscv_E_StoreAMOAddressMisaligned := 6.
Abbreviation riscv_E_StoreAMOAccessFault := 7.
Abbreviation riscv_E_EnvironmentCallFromUMode := 8.
Abbreviation riscv_E_EnvironmentCallFromSMode := 9.
Abbreviation riscv_E_EnvironmentCallFromHMode := 10.
Abbreviation riscv_E_EnvironmentCallFromMMode := 11.
Abbreviation riscv_E_InstructionPageFault := 12.
Abbreviation riscv_E_LoadPageFault := 13.
Abbreviation riscv_E_StoreAMOPageFault := 15.
Abbreviation riscv_E_Interrupt := 0x40.
Abbreviation riscv_E_Local := 0x10.

(** INT_INDEX of the interrupts the architecture defines: the group (0, 4 or
    8) or-ed with the mode. *)
Abbreviation USWInterrupt := 0.
Abbreviation SSWInterrupt := 1.
Abbreviation MSWInterrupt := 3.
Abbreviation UTimerInterrupt := 4.
Abbreviation STimerInterrupt := 5.
Abbreviation MTimerInterrupt := 7.
Abbreviation UExternalInterrupt := 8.
Abbreviation SExternalInterrupt := 9.
Abbreviation MExternalInterrupt := 11.

(** [_X] and [_x] of TARGET_MODE_X: the registers and fields of a mode. *)
Inductive xlevel := LU | LS | LM.

Definition x_IE (x : xlevel) : csrField :=
  match x with LU => status_UIE | LS => status_SIE | LM => status_MIE end.
Definition x_PIE (x : xlevel) : csrField :=
  match x with LU => status_UPIE | LS => status_SPIE | LM => status_MPIE end.
Definition x_cause (x : xlevel) : csrName :=
  match x with LU => ucause | LS => scause | LM => mcause end.
Definition x_epc (x : xlevel) : csrName :=
  match x with LU => uepc | LS => sepc | LM => mepc end.
Definition x_tval (x : xlevel) : csrName :=
  match x with LU => utval | LS => stval | LM => mtval end.
Definition x_tvec (x : xlevel) : csrName :=
  match x with LU => utvec | LS => stvec | LM => mtvec end.

(** ** Vector state touched by memory faults (riscvCSR.c) *)

Abbreviation RM_VALID_MASK := (Z.shiftl 1 6).
Abbreviation VLCLASSMT_UNKNOWN := 0.
Abbreviation VLCLASSMT_ZERO := 1.
Abbreviation VLCLASSMT_NONZERO := 2.
Abbreviation VLCLASSMT_MAX := 3.
Abbreviation LMUL_MAX := 8.
Abbreviation SEW_MIN := 8.

Section Vector.

Context `{V : VmiRt}.
Implicit Types s : riscvS.

(** mapFRMToRC: whether a rounding mode is one of the five defined. *)
Definition mapFRMToRC (frm : Z) : option Z := if frm <? 5 then Some frm else None.

Definition updateCurrentRMValid (s : riscvS) : riscvS :=
  match mapFRMToRC (RD_CSR_FIELD s fcsr fcsr_frm) with
  | None => upd_pmKey (Z.ldiff (r_pmKey s) RM_VALID_MASK) s
  | Some _ => upd_pmKey (Z.lor (r_pmKey s) RM_VALID_MASK) s
  end.

Definition riscvRefreshPMKey (s : riscvS) : riscvS :=
  let vl := w32 (RD_CSR s vl) in
  let SEW := Z.shiftl 8 (RD_CSR_FIELD s vtype vtype_vsew) in
  let VLMUL := Z.shiftl 1 (RD_CSR_FIELD s vtype vtype_vlmul) in
  let vlMax := w32 (c_VLEN (r_configInfo s) * VLMUL) / SEW in
  let vtypeKey := w32 (Z.shiftl (RD_CSR s vtype) 2) in
  let villKey := Z.shiftl (RD_CSR_FIELD s vtype vtype_vill) 2 in
  let s := upd_vlMax (if vl >? vlMax then vlMax else vl) s in
  let pmKey :=
    if negb (villKey =? 0) then Z.lor VLCLASSMT_UNKNOWN villKey
    else if vl =? 0 then VLCLASSMT_ZERO
    else if r_vlMax s =? vlMax then Z.lor VLCLASSMT_MAX vtypeKey
    else Z.lor VLCLASSMT_NONZERO vtypeKey in
  updateCurrentRMValid (upd_pmKey (w8 pmKey) s).

Definition riscvSetVL (v : Z) (s : riscvS) : riscvS :=
  let maxVL := w32 (c_VLEN (r_configInfo s) * (LMUL_MAX / SEW_MIN)) in
  WR_CSR vl (if v >? maxVL then maxVL else v) s.

(** Whether an active fault-only-first access absorbs the exception. *)
Definition handleFF (s : riscvS) : bool * riscvS :=
  if r_vFirstFault s then
    let s := upd_vFirstFault false s in
    if negb (RD_CSR s vstart =? 0) then
      (true, riscvRefreshPMKey (riscvSetVL (w32 (RD_CSR s vstart)) s))
    else (false, s)
  else (false, s).

End Vector.

(** ** Taking exceptions *)

Class riscvModelCB `{V : VmiRt} := {
  trapNotifier : option (riscvS -> Z -> riscvS);
  ERETNotifier : option (riscvS -> Z -> riscvS);
}.

#[global] Instance base_model `{V : VmiRt} : riscvModelCB :=
  {| trapNotifier := None; ERETNotifier := None |}.

(** [1 << n] in int. *)
Definition shl1 (n : Z) : option Z :=
  if (0 <=? n) && (n <? 32) then Some (Z.shiftl 1 n) else None.

Definition IS_INTERRUPT (exception : Z) : bool := any exception riscv_E_Interrupt.
Definition GET_ECODE (exception : Z) : Z := Z.ldiff exception riscv_E_Interrupt.

Definition getIMode (customMode tvecMode : Z) : Z :=
  if tvecMode =? 0 then customMode else tvecMode.

Definition retiredCode (exception : Z) : bool :=
  (exception =? riscv_E_Breakpoint) || (exception =? riscv_E_EnvironmentCallFromUMode) ||
  (exception =? riscv_E_EnvironmentCallFromSMode) ||
  (exception =? riscv_E_EnvironmentCallFromHMode) ||
  (exception =? riscv_E_EnvironmentCallFromMMode).

Definition accessFaultCode (exception : Z) : bool :=
  (exception =? riscv_E_InstructionAccessFault) ||
  (exception =? riscv_E_LoadAccessFault) || (exception =? riscv_E_StoreAMOAccessFault).

Section Traps.

Context `{V : VmiRt}.
Implicit Types s : riscvS.

Definition getPC (s : riscvS) : Z := vmirtGetPC (r_vmi s).

Definition setPCxRET (newPC : Z) (s : riscvS) : riscvS :=
  let newPC := if any (r_currentArch s) ISA_C then newPC else Z.land newPC (w64 (-4)) in
  upd_vmi (vmirtSetPC newPC (r_vmi s)) s.

Definition clearEA (s : riscvS) : riscvS := upd_exclusiveTag RISCV_NO_TAG s.

Definition clearEAxRET (s : riscvS) : riscvS :=
  if c_xret_preserves_lr (r_configInfo s) then s else clearEA s.

Definition getEPC (s : riscvS) : Z :=
  let '(eretPC, dsOffset) := vmirtGetPCDS (r_vmi s) in
  if negb (dsOffset =? 0) then r_jumpBase s else eretPC.

Definition getModeX (s : riscvS) (mMask sMask ecode : Z) : option Z :=
  let modeY := getCurrentMode s in
  bit ← shl1 ecode;
  let modeX :=
    if negb (any mMask bit) then RISCV_MODE_MACHINE
    else if negb (any sMask bit) then RISCV_MODE_SUPERVISOR
    else RISCV_MODE_USER in
  Some (if modeX >? modeY then modeX else modeY).

Definition getInterruptModeX (s : riscvS) (ecode : Z) : option Z :=
  getModeX s (w32 (RD_CSR s mideleg)) (w32 (RD_CSR s sideleg)) ecode.

Definition getExceptionModeX (s : riscvS) (ecode : Z) : option Z :=
  getModeX s (w32 (RD_CSR s medeleg)) (w32 (RD_CSR s sedeleg)) ecode.

Definition x_IMode (x : xlevel) (s : riscvS) : Z :=
  match x with LU => r_UIMode s | LS => r_SIMode s | LM => r_MIMode s end.

(** The macro's updates, and the values it leaves in _BASE and _MODE. *)
Definition TARGET_MODE_X (x : xlevel) (isInt : bool) (ecode epc tval : Z) (s : riscvS)
  : riscvS * Z * Z :=
  let _IE := RD_CSR_FIELD s mstatus (x_IE x) in
  let s := WR_CSR_FIELD mstatus (x_PIE x) _IE s in
  let s := WR_CSR_FIELD mstatus (x_IE x) 0 s in
  let s := WR_CSR_FIELD (x_cause x) cause_ExceptionCode ecode s in
  let s := WR_CSR_FIELD (x_cause x) cause_Interrupt (Z.b2z isInt) s in
  let epcMask := RD_CSR_MASK s (x_epc x) in
  let s := WR_CSR_FIELD (x_epc x) genericXLEN_value (Z.land epc epcMask) s in
  let s := WR_CSR_FIELD (x_tval x) genericXLEN_value tval s in
  (s, w64 (Z.shiftl (RD_CSR_FIELD s (x_tvec x) tvec_BASE) 2),
   getIMode (x_IMode x s) (RD_CSR_FIELD s (x_tvec x) tvec_MODE)).

Definition notifyTrapDerived (notifier : option (riscvS -> Z -> riscvS)) (mode : Z) (s : riscvS)
  : riscvS :=
  match notifier with Some f => f s mode | None => s end.

Context `{CB : !riscvModelCB}.

Definition notifyERETDerived (mode : Z) (s : riscvS) : riscvS :=
  notifyTrapDerived ERETNotifier mode s.

Definition riscvTakeException (exception tval : Z) (s : riscvS) : option riscvS :=
  let isInterrupt := IS_INTERRUPT exception in
  let ecode := GET_ECODE exception in
  let EPC := getEPC s in
  let modeY := getCurrentMode s in
  let s :=
    if negb (retiredCode exception) && (RD_CSR_FIELD s mcountinhibit counteren_IR =? 0)
    then upd_baseInstructions (w64 (r_baseInstructions s + 1)) s else s in
  let s :=
    if accessFaultCode exception then upd_AFErrorOut (r_AFErrorIn s) s
    else upd_AFErrorOut riscv_AFault_None s in
  let s := clearEA s in
  modeX ← (if isInterrupt then getInterruptModeX s ecode else getExceptionModeX s ecode);
  let '(s, base, mode) :=
    if modeX =? RISCV_MODE_USER then TARGET_MODE_X LU isInterrupt ecode EPC tval s
    else if modeX =? RISCV_MODE_SUPERVISOR then
      let '(s, base, mode) := TARGET_MODE_X LS isInterrupt ecode EPC tval s in
      (WR_CSR_FIELD mstatus status_SPP modeY s, base, mode)
    else
      let '(s, base, mode) := TARGET_MODE_X LM isInterrupt ecode EPC tval s in
      (WR_CSR_FIELD mstatus status_MPP modeY s, base, mode) in
  let handlerPC :=
    if (mode =? 0) || negb isInterrupt then base else w64 (base + w32 (4 * ecode)) in
  let s := riscvSetMode modeX s in
  let s := upd_exception (w16 exception) s in
  let s := upd_vmi (vmirtSetPCException handlerPC (r_vmi s)) s in
  Some (notifyTrapDerived trapNotifier modeX s).

Definition riscvTakeMemoryException (exception tval : Z) (s : riscvS) : option riscvS :=
  let '(suppress, s) := handleFF s in
  if suppress then Some s else riscvTakeException exception tval s.

(** The processor as the instruction fetch sees it. *)
Definition decoder_view (s : riscvS) : riscv :=
  {| configInfo_arch := c_arch (r_configInfo s); currentArch := r_currentArch s |}.

Definition riscvIllegalInstruction `{X : VmiCxt} (s : riscvS) : option riscvS :=
  tval ← (if c_tval_ii_code (r_configInfo s)
          then riscvGetInstruction (decoder_view s) (getPC s) else Some 0);
  riscvTakeException riscv_E_IllegalInstruction tval s.

Definition riscvInstructionAddressMisaligned (tval : Z) (s : riscvS) : option riscvS :=
  riscvTakeException riscv_E_InstructionAddressMisaligned (Z.land tval (w64 (-2))) s.

Definition riscvECALL (s : riscvS) : option riscvS :=
  riscvTakeException (riscv_E_EnvironmentCallFromUMode + getCurrentMode s) 0 s.

Definition riscvEBREAK (s : riscvS) : option riscvS :=
  riscvTakeException riscv_E_Breakpoint (getPC s) s.

(** The alignment and abort handlers the simulator calls on a bad load or
    store. *)
Definition riscvRdAlignExcept (address : Z) (s : riscvS) : option riscvS :=
  riscvTakeMemoryException riscv_E_LoadAddressMisaligned address s.
Definition riscvWrAlignExcept (address : Z) (s : riscvS) : option riscvS :=
  riscvTakeMemoryException riscv_E_StoreAMOAddressMisaligned address s.

Definition riscvRdAbortExcept (address : Z) (s : riscvS) : option riscvS :=
  if r_PTWActive s then Some (upd_PTWBadAddr true s)
  else riscvTakeMemoryException riscv_E_LoadAccessFault address s.
Definition riscvWrAbortExcept (address : Z) (s : riscvS) : option riscvS :=
  if r_PTWActive s then Some (upd_PTWBadAddr true s)
  else riscvTakeMemoryException riscv_E_StoreAMOAccessFault address s.

(** ** Interrupts *)

Definition getIE (s : riscvS) (IE : bool) (modeIE : Z) : bool :=
  let mode := getCurrentMode s in
  if mode <? modeIE then true else if mode >? modeIE then false else IE.

Definition getPendingInterrupts (s : riscvS) : Z := Z.land (RD_CSR s mie) (RD_CSR s mip).

Definition getPendingAndEnabledInterrupts (s : riscvS) : Z :=
  let result := getPendingInterrupts s in
  if negb (result =? 0) then
    let MIE := getIE s (negb (RD_CSR_FIELD s mstatus status_MIE =? 0)) RISCV_MODE_MACHINE in
    let SIE := getIE s (negb (RD_CSR_FIELD s mstatus status_SIE =? 0)) RISCV_MODE_SUPERVISOR in
    let UIE := getIE s (negb (RD_CSR_FIELD s mstatus status_UIE =? 0)) RISCV_MODE_USER in
    let mideleg := RD_CSR s mideleg in
    let sideleg := Z.land (RD_CSR s sideleg) mideleg in
    let mMask := w64 (Z.lnot mideleg) in
    let sMask := Z.land mideleg (w64 (Z.lnot sideleg)) in
    let uMask := sideleg in
    let result := if MIE then result else Z.ldiff result mMask in
    let result := if SIE then result else Z.ldiff result sMask in
    if UIE then result else Z.ldiff result uMask
  else result.

(** intDesc. *)
Record intDesc := { d_ecode : Z; d_emode : Z }.

(** The table of fixed priorities; interrupts it does not name have 0. *)
Definition intPri (i : Z) : Z :=
  if i =? UTimerInterrupt then 1 else if i =? USWInterrupt then 2
  else if i =? UExternalInterrupt then 3 else if i =? STimerInterrupt then 4
  else if i =? SSWInterrupt then 5 else if i =? SExternalInterrupt then 6
  else if i =? MTimerInterrupt then 7 else if i =? MSWInterrupt then 8
  else if i =? MExternalInterrupt then 9 else 0.

(** The body of the loop: the descriptor kept of the one selected so far and
    the one of this bit. *)
Definition better (selected try_ : intDesc) : intDesc :=
  if d_ecode selected =? w32 (-1) then try_
  else if d_emode selected <? d_emode try_ then try_
  else if d_emode selected >? d_emode try_ then selected
  else if intPri (d_emode selected) <=? intPri (d_emode try_) then try_
  else selected.

Fixpoint select_interrupt (fuel : nat) (s : riscvS) (intMask ecode : Z) (selected : intDesc)
  : option intDesc :=
  match fuel with
  | O => None
  | S fuel =>
      selected ← (if Z.odd intMask then
                    emode ← getInterruptModeX s ecode;
                    Some (better selected {| d_ecode := ecode; d_emode := emode |})
                  else Some selected);
      let intMask := Z.shiftr intMask 1 in
      let ecode := w32 (ecode + 1) in
      if intMask =? 0 then Some selected else select_interrupt fuel s intMask ecode selected
  end.

Definition doInterrupt (intMask : Z) (s : riscvS) : option riscvS :=
  if intMask =? 0 then None
  else
    selected ← select_interrupt 64 s intMask 0 {| d_ecode := w32 (-1); d_emode := 0 |};
    riscvTakeException (riscv_E_Interrupt + d_ecode selected) 0 s.

(** ** Halting and restarting *)

Definition haltProcessor (reason : Z) (s : riscvS) : riscvS :=
  let s := if r_disable s =? 0 then upd_vmi (vmirtHalt (r_vmi s)) s else s in
  upd_disable (Z.lor (r_disable s) reason) s.

Definition restartProcessor (reason : Z) (s : riscvS) : riscvS :=
  let s := upd_disable (Z.ldiff (r_disable s) reason) s in
  if r_disable s =? 0 then upd_vmi (vmirtRestartNext (r_vmi s)) s else s.

Definition riscvWFI (s : riscvS) : riscvS :=
  if getPendingInterrupts s =? 0 then haltProcessor RVD_WFI s else s.

Definition riscvTestInterrupt (s : riscvS) : riscvS :=
  let pendingEnabled := getPendingAndEnabledInterrupts s in
  let s := if negb (getPendingInterrupts s =? 0) then restartProcessor RVD_RESTART_WFI s else s in
  if negb (pendingEnabled =? 0)
  then upd_vmi (vmirtDoSynchronousInterrupt (r_vmi s)) s else s.

Definition riscvUpdatePending (s : riscvS) : riscvS :=
  let oldValue := RD_CSR s mip in
  let newValue := Z.lor (n_ip (r_netValue s)) (r_swip s) in
  if oldValue =? newValue then s else riscvTestInterrupt (WR_CSR mip newValue s).

(** ** Exception returns *)

Definition getERETMode (s : riscvS) (newMode minMode : Z) : Z :=
  if riscvHasMode s newMode then newMode else minMode.

Definition riscvMRET (s : riscvS) : riscvS :=
  let MPP := RD_CSR_FIELD s mstatus status_MPP in
  let minMode := riscvGetMinMode s in
  let newMode := getERETMode s MPP minMode in
  let s := clearEAxRET s in
  let s := WR_CSR_FIELD mstatus status_MIE (RD_CSR_FIELD s mstatus status_MPIE) s in
  let s := WR_CSR_FIELD mstatus status_MPIE 1 s in
  let s := WR_CSR_FIELD mstatus status_MPP minMode s in
  let s := riscvSetMode newMode s in
  let s := setPCxRET (RD_CSR_FIELD s mepc genericXLEN_value) s in
  let s := notifyERETDerived RISCV_MODE_MACHINE s in
  riscvTestInterrupt s.

Definition riscvSRET (s : riscvS) : riscvS :=
  let SPP := RD_CSR_FIELD s mstatus status_SPP in
  let minMode := riscvGetMinMode s in
  let newMode := getERETMode s SPP minMode in
  let s := clearEAxRET s in
  let s := WR_CSR_FIELD mstatus status_SIE (RD_CSR_FIELD s mstatus status_SPIE) s in
  let s := WR_CSR_FIELD mstatus status_SPIE 1 s in
  let s := WR_CSR_FIELD mstatus status_SPP minMode s in
  let s := riscvSetMode newMode s in
  let s := setPCxRET (RD_CSR_FIELD s sepc genericXLEN_value) s in
  let s := notifyERETDerived RISCV_MODE_SUPERVISOR s in
  riscvTestInterrupt s.

Definition riscvURET (s : riscvS) : riscvS :=
  let newMode := RISCV_MODE_USER in
  let s := clearEAxRET s in
  let s := WR_CSR_FIELD mstatus status_UIE (RD_CSR_FIELD s mstatus status_UPIE) s in
  let s := WR_CSR_FIELD mstatus status_UPIE 1 s in
  let s := riscvSetMode newMode s in
  let s := setPCxRET (RD_CSR_FIELD s uepc genericXLEN_value) s in
  let s := notifyERETDerived RISCV_MODE_USER s in
  riscvTestInterrupt s.

End Traps.
