(* ===== verification/RvTrapFacts.v ===== *)
(** * Trap entry and return

    What taking an exception and returning from one do to the hart, for every
    mode and both register widths: the delegation rules, the interrupt-enable
    stack of mstatus, the cause, epc and tval registers, the handler address,
    the data domain in use afterwards, and what is left alone; and that a
    return undoes the entry. *)

From stdpp Require Import functions.
From S2P Require Import Prelude RvTypes RvTables RvDecode RvHart RvHartFacts RvTrap.

Section TrapFacts.

Context `{V : VmiRt}.
Implicit Types (s : riscvS) (c : csrBank).

(** ** Shapes of the state after the utilities *)

Definition dmode (s : riscvS) (mode : Z) : Z :=
  if (mode <=? RISCV_MODE_SUPERVISOR) && negb (RD_CSR_FIELD s satp atp_MODE =? 0)
  then Z.lor mode RISCV_DMODE_VM else Z.ldiff mode RISCV_DMODE_VM.

Lemma refresh_shape s :
  riscvVMRefreshMPRVDomain s = upd_vmi (r_vmi (riscvVMRefreshMPRVDomain s)) s.
Proof. unfold riscvVMRefreshMPRVDomain. case_match; by destruct s. Qed.

Lemma set_mode_shape mode s :
  riscvSetMode mode s =
  upd_vmi (r_vmi (riscvSetMode mode s)) (upd_mode (dmode s mode) s).
Proof.
  unfold riscvSetMode. fold (dmode s mode).
  destruct (Z.eqb_spec (r_mode s) (dmode s mode)) as [He|].
  - rewrite refresh_shape at 1. rewrite <- He. by destruct s.
  - rewrite refresh_shape at 1. done.
Qed.

Lemma restart_shape reason s :
  restartProcessor reason s =
  upd_vmi (r_vmi (restartProcessor reason s)) (upd_disable (Z.ldiff (r_disable s) reason) s).
Proof. unfold restartProcessor. case_match; by destruct s. Qed.

Lemma test_interrupt_shape s :
  riscvTestInterrupt s =
  upd_vmi (r_vmi (riscvTestInterrupt s))
    (upd_disable (if getPendingInterrupts s =? 0 then r_disable s
                  else Z.ldiff (r_disable s) RVD_RESTART_WFI) s).
Proof.
  unfold riscvTestInterrupt. destruct (getPendingInterrupts s =? 0); simpl negb; cbn match.
  - case_match; by destruct s.
  - rewrite restart_shape. case_match; by destruct s.
Qed.

Lemma dmode_mode s mode : 0 <= mode <= 3 -> Z.land (dmode s mode) RISCV_MODE_MACHINE = mode.
Proof.
  intros Hm. unfold dmode.
  assert (mode = 0 \/ mode = 1 \/ mode = 2 \/ mode = 3) as [->|[->|[->| ->]]] by lia;
    case_match; reflexivity.
Qed.

Lemma current_mode_range s : 0 <= getCurrentMode s <= 3.
Proof. unfold getCurrentMode. rewrite land_3. zlia. Qed.

Lemma set_mode_mode mode s :
  0 <= mode <= 3 -> getCurrentMode (riscvSetMode mode s) = mode.
Proof. intros. rewrite set_mode_shape. by apply dmode_mode. Qed.

(** ** The data domain *)

(** The domain that loads and stores of the current state go through: the
    virtual one of the effective mode if translation is on and there is one,
    and else the physical one. *)
Definition data_domain (s : riscvS) : Z :=
  let virt := r_vmDomains s (data_mode s) false in
  if negb (RD_CSR_FIELD s satp atp_MODE =? 0) && negb (virt =? 0) then virt
  else r_physDomains s (data_mode s) false.

Definition domain_selected (s : riscvS) : Prop :=
  vmirtGetProcessorDataDomain (r_vmi s) = data_domain s.

Context `{L : !VmiRtLaws V}.

Lemma refresh_domain s :
  r_physDomains s (data_mode s) false <> 0 -> domain_selected (riscvVMRefreshMPRVDomain s).
Proof.
  intros Hp. unfold domain_selected. rewrite refresh_shape at 2.
  change (data_domain (upd_vmi ?v s)) with (data_domain s).
  unfold riscvVMRefreshMPRVDomain, data_domain.
  set (vm := RD_CSR_FIELD s satp atp_MODE =? 0). set (virt := r_vmDomains s (data_mode s) false).
  set (d := if negb vm && negb (virt =? 0) then virt else r_physDomains s (data_mode s) false).
  replace (if (if negb vm then virt else 0) =? 0 then r_physDomains s (data_mode s) false
           else if negb vm then virt else 0) with d
    by (unfold d; destruct vm; simpl; [done|]; by destruct (virt =? 0)).
  assert (d <> 0) by (unfold d; destruct vm, (Z.eqb_spec virt 0); done).
  destruct (Z.eqb_spec d 0); [done|]. simpl.
  destruct (Z.eqb_spec d (vmirtGetProcessorDataDomain (r_vmi s))); simpl; [done|].
  apply domain_set.
Qed.

(** ** Delegation *)

Lemma any_bit x n : 0 <= n -> any x (Z.shiftl 1 n) = Z.testbit x n.
Proof.
  intros Hn. unfold any. destruct (Z.eqb_spec (Z.land x (Z.shiftl 1 n)) 0) as [H0|H1].
  - apply (f_equal (fun z => Z.testbit z n)) in H0.
    rewrite Z.land_spec, Z.shiftl_spec, Z.sub_diag, Z.bits_0, andb_true_r in H0 by lia. done.
  - destruct (Z.testbit x n) eqn:Hb; [done|]. exfalso. apply H1, Z.bits_inj'. intros i Hi.
    rewrite Z.land_spec, Z.shiftl_spec, Z.bits_0 by lia.
    destruct (decide (i = n)) as [->|]; [by rewrite Hb|].
    destruct (Z.lt_ge_cases i n); [by rewrite (Z.testbit_neg_r _ (i - n)), andb_false_r by lia|].
    rewrite (testbit_above 1 1 (i - n)) by lia. apply andb_false_r.
Qed.

(** The mode the delegation registers name for a cause. *)
Definition delegated (s : riscvS) (int : bool) (code : Z) : Z :=
  let m := w32 (RD_CSR s (if int then mideleg else medeleg)) in
  let d := w32 (RD_CSR s (if int then sideleg else sedeleg)) in
  if negb (Z.testbit m code) then RISCV_MODE_MACHINE
  else if negb (Z.testbit d code) then RISCV_MODE_SUPERVISOR else RISCV_MODE_USER.

(** A trap never goes to a mode below the current one. *)
Definition trap_mode (s : riscvS) (int : bool) (code : Z) : Z :=
  Z.max (delegated s int code) (getCurrentMode s).

Lemma getModeX_eq s m d code :
  0 <= code < 32 ->
  getModeX s m d code =
  Some (Z.max (if negb (Z.testbit m code) then RISCV_MODE_MACHINE
               else if negb (Z.testbit d code) then RISCV_MODE_SUPERVISOR
               else RISCV_MODE_USER) (getCurrentMode s)).
Proof.
  intros Hc. unfold getModeX, shl1.
  replace ((0 <=? code) && (code <? 32)) with true by lia. cbn [mbind option_bind].
  rewrite !any_bit by lia. f_equal. case_match; lia.
Qed.

Lemma mode_for_trap s (int : bool) code :
  0 <= code < 32 ->
  (if int then getInterruptModeX s code else getExceptionModeX s code) =
  Some (trap_mode s int code).
Proof.
  intros. unfold getInterruptModeX, getExceptionModeX.
  destruct int; rewrite getModeX_eq by done; reflexivity.
Qed.

Lemma trap_mode_range s int code : 0 <= trap_mode s int code <= 3.
Proof.
  unfold trap_mode, delegated. pose proof (current_mode_range s). repeat case_match; lia.
Qed.

Definition level (mode : Z) : xlevel :=
  if mode =? RISCV_MODE_USER then LU else if mode =? RISCV_MODE_SUPERVISOR then LS else LM.

(** ** Trap entry *)

(** The address of the handler: the base of the vector register, plus four
    times the cause if the cause is an interrupt and vectoring is on. *)
Definition handler (s : riscvS) (x : xlevel) (int : bool) (code : Z) : Z :=
  let base := w64 (Z.shiftl (RD_CSR_FIELD s (x_tvec x) tvec_BASE) 2) in
  if (getIMode (x_IMode x s) (RD_CSR_FIELD s (x_tvec x) tvec_MODE) =? 0) || negb int
  then base else w64 (base + w32 (4 * code)).

(** The previous-mode field of a level; user level has none. *)
Definition x_PP (x : xlevel) : option csrField :=
  match x with LU => None | LS => Some status_SPP | LM => Some status_MPP end.

(** [s'] is [s] after a trap to level [x]. *)
Record trap_entry (s : riscvS) (x : xlevel) (int : bool) (code tval : Z) (s' : riscvS) : Prop := {
  te_mode : level (getCurrentMode s') = x;
  te_pie : RD_CSR_FIELD s' mstatus (x_PIE x) = RD_CSR_FIELD s mstatus (x_IE x);
  te_ie : RD_CSR_FIELD s' mstatus (x_IE x) = 0;
  te_pp f : x_PP x = Some f -> RD_CSR_FIELD s' mstatus f = getCurrentMode s;
  te_code : RD_CSR_FIELD s' (x_cause x) cause_ExceptionCode = code;
  te_int : RD_CSR_FIELD s' (x_cause x) cause_Interrupt = Z.b2z int;
  te_epc : RD_CSR_FIELD s' (x_epc x) genericXLEN_value =
           Z.land (getEPC s) (RD_CSR_MASK s (x_epc x));
  te_tval : RD_CSR_FIELD s' (x_tval x) genericXLEN_value = tval;
  te_pc : vmirtGetPC (r_vmi s') = handler s x int code;
  te_status f :
    fields_apart f (x_IE x) = true -> fields_apart f (x_PIE x) = true ->
    (forall g, x_PP x = Some g -> fields_apart f g = true) ->
    RD_CSR_FIELD s' mstatus f = RD_CSR_FIELD s mstatus f;
  te_csrs n :
    n <> mstatus -> n <> x_cause x -> n <> x_epc x -> n <> x_tval x ->
    r_csr s' n = r_csr s n;
  te_arch : r_currentArch s' = r_currentArch s;
  te_config : r_configInfo s' = r_configInfo s;
  te_tag : r_exclusiveTag s' = RISCV_NO_TAG;
  te_disable : r_disable s' = r_disable s;
  te_masks : r_csrMask s' = r_csrMask s;
  te_domain : r_physDomains s (data_mode s') false <> 0 -> domain_selected s';
}.

(** The register bank after TARGET_MODE_X and the write of the previous-mode
    field. *)
Definition entry_csrs (is32 : bool) (x : xlevel) (int : bool) (code epc tval : Z) (c : csrBank)
  : csrBank :=
  wr_field is32 (x_tval x) genericXLEN_value tval
    (wr_field is32 (x_epc x) genericXLEN_value epc
      (wr_field is32 (x_cause x) cause_Interrupt (Z.b2z int)
        (wr_field is32 (x_cause x) cause_ExceptionCode code
          (wr_field is32 mstatus (x_IE x) 0
            (wr_field is32 mstatus (x_PIE x) (rd_field is32 c mstatus (x_IE x)) c))))).

Definition pp_csrs (is32 : bool) (x : xlevel) (modeY : Z) (c : csrBank) : csrBank :=
  match x_PP x with Some f => wr_field is32 mstatus f modeY c | None => c end.

Lemma target_mode_eq x int code epc tval s :
  TARGET_MODE_X x int code epc tval s =
  (upd_csr (entry_csrs (RISCV_XLEN_IS_32 s) x int code
              (Z.land epc (RD_CSR_MASK s (x_epc x))) tval (r_csr s)) s,
   w64 (Z.shiftl (RD_CSR_FIELD s (x_tvec x) tvec_BASE) 2),
   getIMode (x_IMode x s) (RD_CSR_FIELD s (x_tvec x) tvec_MODE)).
Proof.
  unfold TARGET_MODE_X.
  set (s' := WR_CSR_FIELD (x_tval x) genericXLEN_value tval _).
  assert (Hc : forall f, RD_CSR_FIELD s' (x_tvec x) f = RD_CSR_FIELD s (x_tvec x) f).
  { intros f. change (RD_CSR_FIELD s' (x_tvec x) f) with
      (rd_field (RISCV_XLEN_IS_32 s)
         (entry_csrs (RISCV_XLEN_IS_32 s) x int code (Z.land epc (RD_CSR_MASK s (x_epc x))) tval
            (r_csr s)) (x_tvec x) f).
    unfold entry_csrs. destruct x; cbn [x_tval x_epc x_cause x_tvec]; by csr_simpl. }
  rewrite !Hc. reflexivity.
Qed.

(** The parts of the state that count and classify traps. *)
Definition accounted (exception : Z) (s : riscvS) : riscvS :=
  clearEA
    (upd_AFErrorOut (if accessFaultCode exception then r_AFErrorIn s else riscv_AFault_None)
      (upd_baseInstructions
         (if negb (retiredCode exception) && (RD_CSR_FIELD s mcountinhibit counteren_IR =? 0)
          then w64 (r_baseInstructions s + 1) else r_baseInstructions s) s)).

(** The state in which the handler starts, but for its address. *)
Definition entered (exception tval : Z) (s : riscvS) : riscvS :=
  let int := IS_INTERRUPT exception in
  let code := GET_ECODE exception in
  let x := level (trap_mode s int code) in
  let is32 := RISCV_XLEN_IS_32 s in
  riscvSetMode (trap_mode s int code)
    (upd_csr (pp_csrs is32 x (getCurrentMode s)
                (entry_csrs is32 x int code (Z.land (getEPC s) (RD_CSR_MASK s (x_epc x))) tval
                   (r_csr s)))
       (accounted exception s)).

Lemma take_exception_eq exception tval s :
  0 <= GET_ECODE exception < 32 ->
  riscvTakeException exception tval s =
  let int := IS_INTERRUPT exception in
  let code := GET_ECODE exception in
  let s1 := upd_exception (w16 exception) (entered exception tval s) in
  Some (upd_vmi (vmirtSetPCException (handler s (level (trap_mode s int code)) int code)
                   (r_vmi s1)) s1).
Proof.
  intros Hc. unfold riscvTakeException.
  replace (clearEA _) with (accounted exception s)
    by (unfold accounted; repeat case_match; by destruct s).
  rewrite mode_for_trap by done. cbn [mbind option_bind].
  change (trap_mode (accounted exception s)) with (trap_mode s).
  set (m := trap_mode s _ _). unfold entered. fold m. unfold level.
  destruct (m =? RISCV_MODE_USER); [by rewrite target_mode_eq|].
  destruct (m =? RISCV_MODE_SUPERVISOR); by rewrite target_mode_eq.
Qed.

Lemma level_range x mode :
  0 <= mode <= 3 -> level mode = x -> forall y, 0 <= y <= mode ->
  forall f is32, x_PP x = Some f -> 0 <= y < 2 ^ width is32 f.
Proof.
  intros Hm Hx y Hy f is32 Hf. unfold level in Hx.
  destruct (Z.eqb_spec mode 0), (Z.eqb_spec mode 1); subst x; simplify_eq/=;
    destruct is32; simpl; lia.
Qed.

Lemma set_mode_domain mode s :
  0 <= mode <= 3 ->
  let s' := upd_mode (dmode s mode) s in
  r_physDomains s (data_mode s') false <> 0 ->
  vmirtGetProcessorDataDomain (r_vmi (riscvSetMode mode s)) = data_domain s'.
Proof.
  intros Hm s' Hp. unfold riscvSetMode. fold (dmode s mode).
  destruct (Z.eqb_spec (r_mode s) (dmode s mode)) as [He|].
  - assert (Hs : s' = s) by (unfold s'; rewrite <- He; by destruct s). rewrite Hs in Hp |- *.
    pose proof (refresh_domain s Hp) as Hd. unfold domain_selected in Hd.
    rewrite Hd, refresh_shape. reflexivity.
  - set (s2 := upd_vmi _ _). pose proof (refresh_domain s2 Hp) as Hd.
    unfold domain_selected in Hd. rewrite Hd, refresh_shape. reflexivity.
Qed.

(** What the register bank holds after the entry. *)
Section EntryCsrs.

Context (is32 : bool) (x : xlevel) (int : bool) (code epc tval modeY : Z) (c : csrBank).
Let c' := pp_csrs is32 x modeY (entry_csrs is32 x int code epc tval c).

Ltac entry_csrs :=
  unfold c', pp_csrs, entry_csrs; destruct x;
  cbn [x_PP x_tval x_epc x_cause x_IE x_PIE]; csr_simpl.

Lemma entry_pie : rd_field is32 c' mstatus (x_PIE x) = rd_field is32 c mstatus (x_IE x).
Proof.
  assert (H : rd_field is32 c' mstatus (x_PIE x) =
              Z.land (rd_field is32 c mstatus (x_IE x)) (Z.ones 1)).
  { entry_csrs; by destruct is32. }
  rewrite H. apply land_ones_small; [|done].
  pose proof (rd_field_range is32 c mstatus (x_IE x)) as Hr.
  replace (width is32 (x_IE x)) with 1 in Hr by (by destruct x, is32). done.
Qed.

Lemma entry_ie : rd_field is32 c' mstatus (x_IE x) = 0.
Proof. by entry_csrs. Qed.

Lemma entry_pp f : x_PP x = Some f -> 0 <= modeY < 2 ^ width is32 f -> rd_field is32 c' mstatus f = modeY.
Proof.
  intros Hf Hy. unfold c', pp_csrs. rewrite Hf, rd_wr_field_same.
  apply land_ones_small; [done|]. by destruct is32, f.
Qed.

Lemma entry_code : 0 <= code < 32 -> rd_field is32 c' (x_cause x) cause_ExceptionCode = code.
Proof.
  intros Hc. assert (H : rd_field is32 c' (x_cause x) cause_ExceptionCode =
                         Z.land code (Z.ones (width is32 cause_ExceptionCode))) by (entry_csrs; done).
  rewrite H. apply land_ones_small; destruct is32; simpl; lia.
Qed.

Lemma entry_int : rd_field is32 c' (x_cause x) cause_Interrupt = Z.b2z int.
Proof. entry_csrs; by destruct int, is32. Qed.

Lemma entry_epc : 0 <= epc < 2 ^ 64 -> rd_field is32 c' (x_epc x) genericXLEN_value = epc.
Proof.
  intros Hc. assert (H : rd_field is32 c' (x_epc x) genericXLEN_value =
                         Z.land epc (Z.ones 64)) by (entry_csrs; by destruct is32).
  rewrite H. by apply land_ones_small.
Qed.

Lemma entry_tval : 0 <= tval < 2 ^ 64 -> rd_field is32 c' (x_tval x) genericXLEN_value = tval.
Proof.
  intros Hc. assert (H : rd_field is32 c' (x_tval x) genericXLEN_value =
                         Z.land tval (Z.ones 64)) by (entry_csrs; by destruct is32).
  rewrite H. by apply land_ones_small.
Qed.

Lemma entry_status f :
  fields_apart f (x_IE x) = true -> fields_apart f (x_PIE x) = true ->
  (forall g, x_PP x = Some g -> fields_apart f g = true) ->
  rd_field is32 c' mstatus f = rd_field is32 c mstatus f.
Proof.
  intros Hi Hp Hg. unfold c', pp_csrs, entry_csrs. destruct (x_PP x) as [g|].
  - rewrite rd_wr_field_field by auto. rewrite !rd_field_wr_field by (by destruct x).
    by rewrite !rd_wr_field_field.
  - rewrite !rd_field_wr_field by (by destruct x). by rewrite !rd_wr_field_field.
Qed.

Lemma entry_other n :
  n <> mstatus -> n <> x_cause x -> n <> x_epc x -> n <> x_tval x -> c' n = c n.
Proof.
  intros. unfold c', pp_csrs, entry_csrs. destruct (x_PP x); by rewrite !wr_field_other.
Qed.

End EntryCsrs.

Lemma land_range x m w : 0 <= w -> 0 <= m < 2 ^ w -> 0 <= Z.land x m < 2 ^ w.
Proof.
  intros Hw Hm. apply range_bits; [done|]. intros i Hi.
  rewrite Z.land_spec, (testbit_above m w i) by lia. apply andb_false_r.
Qed.

Lemma take_exception_entry exception tval s :
  let int := IS_INTERRUPT exception in
  let code := GET_ECODE exception in
  let x := level (trap_mode s int code) in
  0 <= code < 32 -> 0 <= tval < 2 ^ 64 -> csr_in_range (r_csrMask s (x_epc x)) ->
  exists s', riscvTakeException exception tval s = Some s' /\
    trap_entry s x int code tval s' /\ getCurrentMode s' = trap_mode s int code.
Proof.
  intros int code x Hc Ht Hmask. rewrite take_exception_eq by done. cbv zeta.
  fold int code. fold x. eexists. split; [reflexivity|].
  unfold entered. fold int code. fold x. set (m := trap_mode s int code) in *.
  assert (Hm : 0 <= m <= 3) by apply trap_mode_range.
  set (s0 := upd_csr _ (accounted exception s)).
  pose proof (set_mode_domain m s0 Hm) as Hd. rewrite set_mode_shape.
  generalize dependent (r_vmi (riscvSetMode m s0)). intros v Hd.
  assert (Hmode : Z.land (dmode s0 m) RISCV_MODE_MACHINE = m) by by apply dmode_mode.
  split; [|exact Hmode]. split; try reflexivity.
  - change (level (Z.land (dmode s0 m) RISCV_MODE_MACHINE) = x). by rewrite Hmode.
  - apply entry_pie.
  - apply entry_ie.
  - intros f Hf. apply entry_pp; [done|]. eapply (level_range x m); [done..| |done].
    pose proof (current_mode_range s). unfold m, trap_mode. lia.
  - by apply entry_code.
  - apply entry_int.
  - apply entry_epc. apply land_range; [lia|]. by apply rd_csr_range.
  - by apply entry_tval.
  - apply pc_exception.
  - intros f ???. by apply entry_status.
  - intros n ????. by apply entry_other.
  - intros Hp. unfold domain_selected. cbn [r_vmi upd_vmi upd_exception].
    rewrite domain_exception. apply Hd. exact Hp.
Qed.

(** ** Returns *)

Definition xRET (x : xlevel) (s : riscvS) : riscvS :=
  match x with LU => riscvURET s | LS => riscvSRET s | LM => riscvMRET s end.

(** The mode a return goes to: the one stacked, if it is implemented. *)
Definition ret_mode (s : riscvS) (x : xlevel) : Z :=
  match x_PP x with
  | None => RISCV_MODE_USER
  | Some f => getERETMode s (RD_CSR_FIELD s mstatus f) (riscvGetMinMode s)
  end.

(** The address a return goes to. *)
Definition ret_pc (s : riscvS) (x : xlevel) : Z :=
  let epc := RD_CSR_FIELD s (x_epc x) genericXLEN_value in
  if any (r_currentArch s) ISA_C then epc else Z.land epc (w64 (-4)).

(** [s'] is [s] after a return from level [x]. *)
Record trap_return (s : riscvS) (x : xlevel) (s' : riscvS) : Prop := {
  tr_mode : getCurrentMode s' = ret_mode s x;
  tr_ie : RD_CSR_FIELD s' mstatus (x_IE x) = RD_CSR_FIELD s mstatus (x_PIE x);
  tr_pie : RD_CSR_FIELD s' mstatus (x_PIE x) = 1;
  tr_pc : vmirtGetPC (r_vmi s') = ret_pc s x;
  tr_status f :
    fields_apart f (x_IE x) = true -> fields_apart f (x_PIE x) = true ->
    (forall g, x_PP x = Some g -> fields_apart f g = true) ->
    RD_CSR_FIELD s' mstatus f = RD_CSR_FIELD s mstatus f;
  tr_csrs n : n <> mstatus -> r_csr s' n = r_csr s n;
  tr_arch : r_currentArch s' = r_currentArch s;
  tr_config : r_configInfo s' = r_configInfo s;
  tr_tag : r_exclusiveTag s' =
           if c_xret_preserves_lr (r_configInfo s) then r_exclusiveTag s else RISCV_NO_TAG;
  tr_domain : r_physDomains s (data_mode s') false <> 0 -> domain_selected s';
}.

(** The register bank after a return. *)
Definition return_csrs (is32 : bool) (x : xlevel) (minMode : Z) (c : csrBank) : csrBank :=
  pp_csrs is32 x minMode
    (wr_field is32 mstatus (x_PIE x) 1
      (wr_field is32 mstatus (x_IE x) (rd_field is32 c mstatus (x_PIE x)) c)).

Definition returned (x : xlevel) (s : riscvS) : riscvS :=
  riscvSetMode (ret_mode s x)
    (upd_csr (return_csrs (RISCV_XLEN_IS_32 s) x (riscvGetMinMode s) (r_csr s))
       (upd_exclusiveTag
          (if c_xret_preserves_lr (r_configInfo s) then r_exclusiveTag s else RISCV_NO_TAG) s)).

Lemma clear_ea_xret s :
  clearEAxRET s =
  upd_exclusiveTag
    (if c_xret_preserves_lr (r_configInfo s) then r_exclusiveTag s else RISCV_NO_TAG) s.
Proof. unfold clearEAxRET. case_match; by destruct s. Qed.

Lemma xret_eq x s :
  xRET x s =
  riscvTestInterrupt
    (setPCxRET (RD_CSR_FIELD (returned x s) (x_epc x) genericXLEN_value) (returned x s)).
Proof.
  unfold xRET, riscvURET, riscvSRET, riscvMRET, returned.
  destruct x; rewrite clear_ea_xret; reflexivity.
Qed.

Section ReturnCsrs.

Context (is32 : bool) (x : xlevel) (minMode : Z) (c : csrBank).
Let c' := return_csrs is32 x minMode c.

Lemma return_ie : rd_field is32 c' mstatus (x_IE x) = rd_field is32 c mstatus (x_PIE x).
Proof.
  assert (H : rd_field is32 c' mstatus (x_IE x) =
              Z.land (rd_field is32 c mstatus (x_PIE x)) (Z.ones 1)).
  { unfold c', return_csrs, pp_csrs. destruct x; cbn [x_PP x_IE x_PIE]; csr_simpl; by destruct is32. }
  rewrite H. apply land_ones_small; [|done].
  pose proof (rd_field_range is32 c mstatus (x_PIE x)) as Hr.
  replace (width is32 (x_PIE x)) with 1 in Hr by (by destruct x, is32). done.
Qed.

Lemma return_pie : rd_field is32 c' mstatus (x_PIE x) = 1.
Proof.
  unfold c', return_csrs, pp_csrs. destruct x; cbn [x_PP x_IE x_PIE]; csr_simpl; by destruct is32.
Qed.

Lemma return_status f :
  fields_apart f (x_IE x) = true -> fields_apart f (x_PIE x) = true ->
  (forall g, x_PP x = Some g -> fields_apart f g = true) ->
  rd_field is32 c' mstatus f = rd_field is32 c mstatus f.
Proof.
  intros Hi Hp Hg. unfold c', return_csrs, pp_csrs. destruct (x_PP x) as [g|];
    [rewrite rd_wr_field_field by auto|]; by rewrite !rd_wr_field_field.
Qed.

Lemma return_other n : n <> mstatus -> c' n = c n.
Proof.
  intros. unfold c', return_csrs, pp_csrs. destruct (x_PP x); by rewrite !wr_field_other.
Qed.

End ReturnCsrs.

Lemma test_interrupt_pc s : vmirtGetPC (r_vmi (riscvTestInterrupt s)) = vmirtGetPC (r_vmi s).
Proof.
  unfold riscvTestInterrupt, restartProcessor.
  repeat case_match; simpl; by rewrite ?pc_interrupt, ?pc_restart.
Qed.

Lemma test_interrupt_domain s :
  vmirtGetProcessorDataDomain (r_vmi (riscvTestInterrupt s)) =
  vmirtGetProcessorDataDomain (r_vmi s).
Proof.
  unfold riscvTestInterrupt, restartProcessor.
  repeat case_match; simpl; by rewrite ?domain_interrupt, ?domain_restart.
Qed.

Lemma ret_mode_range s x : 0 <= ret_mode s x <= 3.
Proof.
  unfold ret_mode, getERETMode, riscvHasMode, riscvGetMinMode.
  destruct (x_PP x); [|lia]. repeat case_Z; repeat case_match; lia.
Qed.

Lemma xret_return x s : trap_return s x (xRET x s).
Proof.
  rewrite xret_eq, test_interrupt_shape.
  set (s1 := setPCxRET _ _).
  pose proof (test_interrupt_pc s1) as Hpc. pose proof (test_interrupt_domain s1) as Hdom.
  generalize dependent (r_vmi (riscvTestInterrupt s1)). intros v Hpc Hdom.
  unfold returned in s1. set (m := ret_mode s x) in *.
  assert (Hm : 0 <= m <= 3) by apply ret_mode_range.
  revert s1 Hpc Hdom. set (s0 := upd_csr _ _).
  pose proof (set_mode_domain m s0 Hm) as Hd. rewrite set_mode_shape.
  generalize dependent (r_vmi (riscvSetMode m s0)). intros v0 Hd s1 Hpc Hdom.
  split; try reflexivity.
  - by apply dmode_mode.
  - apply return_ie.
  - apply return_pie.
  - cbn [r_vmi upd_vmi]. rewrite Hpc. unfold s1, setPCxRET. cbn [r_vmi upd_vmi].
    rewrite pc_set. unfold ret_pc.
    replace (RD_CSR_FIELD (upd_vmi v0 (upd_mode (dmode s0 m) s0)) (x_epc x) genericXLEN_value)
      with (RD_CSR_FIELD s (x_epc x) genericXLEN_value); [done|].
    unfold RD_CSR_FIELD, rd_field. cbn [r_csr upd_vmi upd_mode s0 upd_csr].
    by rewrite return_other by (by destruct x).
  - intros f ???. by apply return_status.
  - intros n Hn. by apply return_other.
  - intros Hp. unfold domain_selected. cbn [r_vmi upd_vmi]. rewrite Hdom.
    unfold s1, setPCxRET. cbn [r_vmi upd_vmi]. rewrite domain_pc. by apply Hd.
Qed.

(** ** Entry and return together *)

(** A return undoes the entry: the hart is back in its mode with the same
    interrupt enables, and runs on at the address recorded on entry. *)
Lemma entry_return exception tval s :
  let int := IS_INTERRUPT exception in
  let code := GET_ECODE exception in
  let x := level (trap_mode s int code) in
  0 <= code < 32 -> 0 <= tval < 2 ^ 64 -> csr_in_range (r_csrMask s (x_epc x)) ->
  riscvHasMode s (getCurrentMode s) = true ->
  exists s1, riscvTakeException exception tval s = Some s1 /\
    let s2 := xRET x s1 in
    getCurrentMode s2 = getCurrentMode s /\
    RD_CSR_FIELD s2 mstatus (x_IE x) = RD_CSR_FIELD s mstatus (x_IE x) /\
    vmirtGetPC (r_vmi s2) =
      (let epc := Z.land (getEPC s) (RD_CSR_MASK s (x_epc x)) in
       if any (r_currentArch s) ISA_C then epc else Z.land epc (w64 (-4))) /\
    (forall f, fields_apart f (x_IE x) = true -> fields_apart f (x_PIE x) = true ->
       (forall g, x_PP x = Some g -> fields_apart f g = true) ->
       RD_CSR_FIELD s2 mstatus f = RD_CSR_FIELD s mstatus f).
Proof.
  intros int code x Hc Ht Hmask Hmode.
  destruct (take_exception_entry exception tval s Hc Ht Hmask) as (s1 & Hs1 & He & Hm).
  fold int code in He, Hm. fold x in He. exists s1. split; [done|].
  destruct (xret_return x s1) as [R1 R2 R3 R4 R5 R6 R7 R8 R9 R10]. cbv zeta.
  split_and!.
  - rewrite R1. unfold ret_mode. destruct (x_PP x) as [f|] eqn:Hf.
    + rewrite (te_pp _ _ _ _ _ _ He f Hf). unfold getERETMode.
      replace (riscvHasMode s1 (getCurrentMode s)) with true; [done|].
      rewrite <- Hmode. unfold riscvHasMode. by rewrite (te_config _ _ _ _ _ _ He).
    + assert (Hx : x = LU) by (by destruct x). pose proof (current_mode_range s).
      unfold x, level in Hx. destruct (Z.eqb_spec (trap_mode s int code) 0) as [H0|]; [|by case_match].
      unfold trap_mode in H0. lia.
  - rewrite R2. apply (te_pie _ _ _ _ _ _ He).
  - rewrite R4. unfold ret_pc. rewrite (te_epc _ _ _ _ _ _ He), (te_arch _ _ _ _ _ _ He). done.
  - intros f H1 H2 H3. rewrite R5 by done. by apply (te_status _ _ _ _ _ _ He).
Qed.

End TrapFacts.
