(* ===== verification/RvIntFacts.v ===== *)
(** * Which interrupt is taken

    The mask of pending-and-enabled interrupts bit by bit, as the privileged
    architecture states it; the interrupt that [doInterrupt] chooses among
    them; and the point where the choice differs from the table of fixed
    priorities beside it. *)

From stdpp Require Import functions.
From S2P Require Import Prelude RvTypes RvTables RvDecode RvHart RvHartFacts RvTrap RvTrapFacts.

Section Interrupts.

Context `{V : VmiRt} `{L : !VmiRtLaws V}.
Implicit Types s : riscvS.

(** ** Pending and enabled *)

(** The mode an interrupt is delegated to. *)
Definition int_mode (s : riscvS) (i : Z) : Z :=
  if negb (Z.testbit (RD_CSR s mideleg) i) then RISCV_MODE_MACHINE
  else if negb (Z.testbit (RD_CSR s sideleg) i) then RISCV_MODE_SUPERVISOR
  else RISCV_MODE_USER.

(** An interrupt for a mode above the current one is enabled, one for a mode
    below is not, and one for the current mode is if mstatus.xIE is set. *)
Definition int_enabled (s : riscvS) (i : Z) : bool :=
  let m := int_mode s i in
  (getCurrentMode s <? m) ||
  ((getCurrentMode s =? m) && negb (RD_CSR_FIELD s mstatus (x_IE (level m)) =? 0)).

Lemma int_enabled_ie s i :
  int_enabled s i =
  getIE s (negb (RD_CSR_FIELD s mstatus (x_IE (level (int_mode s i))) =? 0)) (int_mode s i).
Proof.
  unfold int_enabled, getIE. destruct (Z.gtb_spec (getCurrentMode s) (int_mode s i));
    repeat case_Z; simpl; (done || lia).
Qed.

Lemma lnot_bits64 x i : 0 <= i < 64 -> Z.testbit (w64 (Z.lnot x)) i = negb (Z.testbit x i).
Proof.
  intros. unfold wrap. rewrite Z.mod_pow2_bits_low by lia. apply Z.lnot_spec. lia.
Qed.

Lemma pending_enabled_bits s i :
  0 <= i < 64 ->
  Z.testbit (getPendingAndEnabledInterrupts s) i =
  Z.testbit (getPendingInterrupts s) i && int_enabled s i.
Proof.
  intros Hi. rewrite int_enabled_ie. unfold getPendingAndEnabledInterrupts.
  destruct (Z.eqb_spec (getPendingInterrupts s) 0) as [->|_];
    simpl negb; cbv iota zeta; [by rewrite Z.bits_0|].
  set (M := getIE s (negb (RD_CSR_FIELD s mstatus status_MIE =? 0)) _).
  set (S := getIE s (negb (RD_CSR_FIELD s mstatus status_SIE =? 0)) _).
  set (U := getIE s (negb (RD_CSR_FIELD s mstatus status_UIE =? 0)) _).
  unfold int_mode. set (p := getPendingInterrupts s).
  set (d := RD_CSR s mideleg). set (e := RD_CSR s sideleg).
  assert (Hm : Z.testbit (w64 (Z.lnot d)) i = negb (Z.testbit d i)) by by apply lnot_bits64.
  assert (Hs : Z.testbit (Z.land d (w64 (Z.lnot (Z.land e d)))) i =
               Z.testbit d i && negb (Z.testbit e i)).
  { rewrite Z.land_spec, lnot_bits64, Z.land_spec by done. by destruct (Z.testbit d i), (Z.testbit e i). }
  assert (Hu : Z.testbit (Z.land e d) i = Z.testbit d i && Z.testbit e i)
    by (rewrite Z.land_spec; apply andb_comm).
  destruct (Z.testbit d i), (Z.testbit e i); simpl negb; cbv iota;
    change (x_IE (level 3)) with status_MIE; change (x_IE (level 1)) with status_SIE;
    change (x_IE (level 0)) with status_UIE; fold M S U;
    destruct M, S, U; rewrite ?Z.ldiff_spec, ?Hm, ?Hs, ?Hu; simpl;
    by rewrite ?andb_true_r, ?andb_false_r.
Qed.

(** An interrupt that is taken goes to the mode it is delegated to. *)
Lemma enabled_mode s i :
  0 <= i < 32 -> int_enabled s i = true -> trap_mode s true i = int_mode s i.
Proof.
  intros Hi He. unfold trap_mode. change (delegated s true i) with
    (if negb (Z.testbit (w32 (RD_CSR s mideleg)) i) then RISCV_MODE_MACHINE
     else if negb (Z.testbit (w32 (RD_CSR s sideleg)) i) then RISCV_MODE_SUPERVISOR
     else RISCV_MODE_USER).
  unfold wrap. rewrite !Z.mod_pow2_bits_low by lia. fold (int_mode s i).
  unfold int_enabled in He. apply orb_true_iff in He as [He|He]; [lia|].
  apply andb_true_iff in He as [He _]. lia.
Qed.

(** ** The choice *)

(** [d] is the best interrupt of a set: highest target mode first, then
    highest number. *)
Definition best_of (s : riscvS) (P : Z -> bool) (d : intDesc) : Prop :=
  P (d_ecode d) = true /\ 0 <= d_ecode d < 32 /\ d_emode d = trap_mode s true (d_ecode d) /\
  forall j, P j = true ->
    trap_mode s true j < d_emode d \/ (trap_mode s true j = d_emode d /\ j <= d_ecode d).

(** The set seen so far: the bits of [M] below [e]. *)
Definition seen (M e : Z) (j : Z) : bool := Z.testbit M j && (j <? e).

Definition sel_inv (s : riscvS) (M e : Z) (d : intDesc) : Prop :=
  (d_ecode d = w32 (-1) /\ forall j, seen M e j = false) \/ best_of s (seen M e) d.

Lemma interrupt_mode s i :
  0 <= i < 32 -> getInterruptModeX s i = Some (trap_mode s true i).
Proof. intros. exact (mode_for_trap s true i ltac:(done)). Qed.

Lemma seen_step M e j :
  seen M (e + 1) j = true <-> seen M e j = true \/ (j = e /\ Z.testbit M e = true).
Proof.
  unfold seen. rewrite !andb_true_iff, !Z.ltb_lt. split.
  - intros [Hb Hj]. destruct (decide (j = e)) as [->|]; [by right|]. left. split; [done|lia].
  - intros [[Hb Hj]|[-> Hb]]; split; (done || lia).
Qed.

Lemma better_inv s M e d :
  0 <= e < 32 -> Z.testbit M e = true -> sel_inv s M e d ->
  sel_inv s M (e + 1) (better d {| d_ecode := e; d_emode := trap_mode s true e |}).
Proof.
  intros He Hb Hd. right.
  assert (Hnew : seen M (e + 1) e = true) by (apply seen_step; by right).
  destruct Hd as [[Hn Hempty]|(Hp & Hr & Hm & Hbest)].
  - unfold better. rewrite Hn, Z.eqb_refl. split_and!; cbn [d_ecode d_emode]; try (done || lia).
    intros j [Hj|[-> _]]%seen_step; [by rewrite Hempty in Hj|]. right. lia.
  - assert (Hold : d_ecode d < e).
    { unfold seen in Hp. apply andb_true_iff in Hp as [_ Hp%Z.ltb_lt]. done. }
    unfold better. destruct (Z.eqb_spec (d_ecode d) (w32 (-1))) as [Hx|_];
      [rewrite Hx in Hr; change (w32 (-1)) with 4294967295 in Hr; lia|]. cbn [d_ecode d_emode].
    destruct (Z.ltb_spec (d_emode d) (trap_mode s true e)) as [Hlt|Hge].
    { split_and!; cbn [d_ecode d_emode]; try (done || lia).
      intros j [Hj|[-> _]]%seen_step; [|lia]. destruct (Hbest j Hj); lia. }
    destruct (Z.gtb_spec (d_emode d) (trap_mode s true e)) as [Hgt|Hle].
    { split_and!; try (done || lia). { apply seen_step. by left. }
      intros j [Hj|[-> _]]%seen_step; [by apply Hbest|lia]. }
    replace (d_emode d) with (trap_mode s true e) by lia. rewrite Z.leb_refl.
    split_and!; cbn [d_ecode d_emode]; try (done || lia).
    intros j [Hj|[-> _]]%seen_step; [|lia]. destruct (Hbest j Hj); lia.
Qed.

Lemma skip_inv s M e d :
  Z.testbit M e = false -> sel_inv s M e d -> sel_inv s M (e + 1) d.
Proof.
  intros Hb Hd. assert (Heq : forall j, seen M (e + 1) j = seen M e j).
  { intros j. apply eq_true_iff_eq. rewrite seen_step, Hb. intuition congruence. }
  destruct Hd as [[Hn Hempty]|(Hp & Hr & Hm & Hbest)]; [left|right].
  - split; [done|]. intros j. by rewrite Heq.
  - split_and!; try (done || lia); [by rewrite Heq|]. intros j Hj. rewrite Heq in Hj. by apply Hbest.
Qed.

Lemma select_spec s M fuel e d :
  0 <= M < 2 ^ 32 -> 0 <= e -> Z.shiftr M e <> 0 -> 32 <= e + Z.of_nat fuel ->
  sel_inv s M e d ->
  exists d', select_interrupt fuel s (Z.shiftr M e) e d = Some d' /\ best_of s (Z.testbit M) d'.
Proof.
  intros HM. revert e d. induction fuel as [|fuel IH]; intros e d He Hne Hfuel Hd.
  all: assert (He32 : e < 32)
    by (destruct (Z.lt_ge_cases e 32); [done|]; exfalso; apply Hne;
        rewrite shiftr_div by lia; apply Z.div_small;
        pose proof (Z.pow_le_mono_r 2 32 e); lia).
  { lia. }
  assert (Hodd : Z.odd (Z.shiftr M e) = Z.testbit M e)
    by (rewrite <- Z.bit0_odd, Z.shiftr_spec by lia; by rewrite Z.add_0_l).
  assert (Hstep : exists d1, sel_inv s M (e + 1) d1 /\
            (if Z.odd (Z.shiftr M e) then
               emode ← getInterruptModeX s e;
               Some (better d {| d_ecode := e; d_emode := emode |})
             else Some d) = Some d1).
  { rewrite Hodd. destruct (Z.testbit M e) eqn:Hb.
    - rewrite interrupt_mode by done. eexists. split; [|done]. by apply better_inv.
    - exists d. split; [by apply skip_inv|done]. }
  destruct Hstep as (d1 & Hd1 & Heq). cbn [select_interrupt]. rewrite Heq. cbn [mbind option_bind].
  rewrite Z.shiftr_shiftr by lia. rewrite (w32_small (e + 1)) by lia.
  destruct (Z.eqb_spec (Z.shiftr M (e + 1)) 0) as [H0|]; [|apply IH; (done || lia)].
  exists d1. split; [done|].
  assert (Hall : forall j, Z.testbit M j = seen M (e + 1) j).
  { intros j. unfold seen. destruct (Z.ltb_spec j (e + 1)); [by rewrite andb_true_r|].
    rewrite andb_false_r. replace j with (j - (e + 1) + (e + 1)) by lia.
    rewrite <- Z.shiftr_spec, H0 by lia. apply Z.bits_0. }
  destruct Hd1 as [[_ Hempty]|(Hp & Hr & Hm & Hbest)].
  - exfalso. apply Hne. apply Z.bits_inj'. intros i Hi. rewrite Z.shiftr_spec, Z.bits_0 by lia.
    by rewrite Hall.
  - split_and!; try (done || lia); [by rewrite Hall|]. intros j Hj. rewrite Hall in Hj. by apply Hbest.
Qed.

Lemma do_interrupt_eq s M :
  0 < M < 2 ^ 32 ->
  exists d, best_of s (Z.testbit M) d /\
    doInterrupt M s = riscvTakeException (riscv_E_Interrupt + d_ecode d) 0 s.
Proof.
  intros HM. unfold doInterrupt. destruct (Z.eqb_spec M 0); [lia|].
  assert (Hs : Z.shiftr M 0 = M) by apply Z.shiftr_0_r.
  destruct (select_spec s M 64 0 {| d_ecode := w32 (-1); d_emode := 0 |}) as (d & Hd & Hb);
    [lia|lia|by rewrite Hs|lia| |].
  { left. split; [done|]. intros j. unfold seen. destruct (Z.ltb_spec j 0); [|by rewrite andb_false_r].
    by rewrite Z.testbit_neg_r. }
  rewrite Hs in Hd. rewrite Hd. by exists d.
Qed.

End Interrupts.
