(* ===== verification/RvPmp.v ===== *)
(** * Physical memory protection in the OVP processor model

    The PMP unit of riscvVM.c (src/models/ovp/source/yggdrasill.ga/processor/
    riscv/1.0/model): the configuration and address registers with their
    write rules, the bounds of a region, and the lazy update of the access
    privileges the simulator keeps for the PMP domains - privileges are taken
    away when a register changes and worked out again when an access misses.

    The union of the configuration registers is a function from byte index to
    byte; its word views are [cfg_u32] and [cfg_u64].  The loop of [mapPMP]
    has fuel. *)

From stdpp Require Import functions.
From S2P Require Import Prelude RvTypes RvHart.

(** ** Privileges and configuration entries *)

Abbreviation MEM_PRIV_NONE := 0.
Abbreviation MEM_PRIV_R := 1.
Abbreviation MEM_PRIV_W := 2.
Abbreviation MEM_PRIV_RW := 3.
Abbreviation MEM_PRIV_X := 4.
Abbreviation MEM_PRIV_RWX := 7.

Abbreviation PMPM_OFF := 0.
Abbreviation PMPM_TOR := 1.
Abbreviation PMPM_NA4 := 2.
Abbreviation PMPM_NAPOT := 3.

(** pmpcfgElem: the fields of a configuration byte. *)
Definition e_priv (e : Z) : Z := Z.land e 7.
Definition e_mode (e : Z) : Z := Z.land (Z.shiftr e 3) 3.
Definition e_L (e : Z) : bool := Z.testbit e 7.
Definition set_e_mode (m e : Z) : Z := field_set (3, 2) m e.

(** riscvPMPCFG: bytes, and the two word views of them. *)
Definition byte_of (v k : Z) : Z := w8 (Z.shiftr v (8 * k)).

Fixpoint le_word (bytes : Z -> Z) (first : Z) (n : nat) : Z :=
  match n with
  | O => 0
  | S n => bytes first + 256 * le_word bytes (first + 1) n
  end.

Definition cfg_u32 (c : Z -> Z) (i : Z) : Z := le_word c (4 * i) 4.
Definition cfg_u64 (c : Z -> Z) (i : Z) : Z := le_word c (8 * i) 8.
Definition set_cfg_word (bytes i v : Z) (c : Z -> Z) : Z -> Z := fun j =>
  if (bytes * i <=? j) && (j <? bytes * i + bytes) then byte_of v (j - bytes * i) else c j.

(** [-1ULL << n] and [-4ULL << n]. *)
Definition ones_above (n : Z) : Z := w64 (Z.shiftl (-1) n).

Section Pmp.

Context `{V : VmiRt}.
Implicit Types s : riscvS.

Definition getAddressMask (bits : Z) : Z :=
  if bits =? 64 then w64 (-1) else w64 (Z.shiftl 1 bits - 1).

Definition is64 (s : riscvS) : bool := any (r_currentArch s) ISA_XLEN_64.

Definition readPMPCFGInt (s : riscvS) (index : Z) : Z :=
  if is64 s then cfg_u64 (r_pmpcfg s) (index / 2) else cfg_u32 (r_pmpcfg s) index.

Definition getPMPCFGElem (s : riscvS) (index : Z) : Z := r_pmpcfg s index.

Definition pmpLocked (s : riscvS) (index : Z) : bool :=
  negb (r_artifactAccess s) && e_L (getPMPCFGElem s index).

Definition getEffectivePMPAddr (s : riscvS) (index : Z) : Z :=
  let e := getPMPCFGElem s index in
  let G := c_PMP_grain (r_configInfo s) in
  let result := r_pmpaddr s index in
  if (G >=? 2) && (e_mode e =? PMPM_NAPOT) then Z.lor result (Z.shiftl 1 (G - 1) - 1)
  else if (G >=? 1) && negb (e_mode e =? PMPM_NAPOT) then Z.land result (ones_above G)
  else result.

Definition getPMPRegionActive (s : riscvS) (e index : Z) : bool :=
  if e_mode e =? PMPM_OFF then false
  else if negb (e_mode e =? PMPM_TOR) then true
  else negb (getEffectivePMPAddr s index =? 0).

Definition pmpLockedTOR (s : riscvS) (index : Z) : bool :=
  if index <? NUM_PMPS then
    (e_mode (getPMPCFGElem s index) =? PMPM_TOR) && pmpLocked s index
  else false.

Definition setPMPPriv (mode low high priv : Z) (s : riscvS) : riscvS :=
  let dataDomain := r_pmpDomains s mode false in
  let codeDomain := r_pmpDomains s mode true in
  if dataDomain =? codeDomain then
    upd_vmi (vmirtProtectMemory dataDomain low high priv mem_priv_set (r_vmi s)) s
  else
    let s :=
      if (priv =? MEM_PRIV_NONE) || any priv MEM_PRIV_RW then
        upd_vmi (vmirtProtectMemory dataDomain low high priv (Z.land priv MEM_PRIV_RW) (r_vmi s)) s
      else s in
    if (priv =? MEM_PRIV_NONE) || any priv MEM_PRIV_X then
      upd_vmi (vmirtProtectMemory codeDomain low high priv (Z.land priv MEM_PRIV_X) (r_vmi s)) s
    else s.

(** The results are [*lowP] and [*highP]. *)
Definition getPMPEntryBounds (s : riscvS) (index : Z) : Z * Z :=
  let e := getPMPCFGElem s index in
  let low := w64 (Z.shiftl (getEffectivePMPAddr s index) 2) in
  if e_mode e =? PMPM_NA4 then (low, w64 (low + 3))
  else if e_mode e =? PMPM_NAPOT then
    let notLow := w64 (Z.lnot (low + 3)) in
    let mask := w64 (w64 (Z.shiftl (Z.land notLow (w64 (- notLow))) 1) - 1) in
    let low := Z.ldiff low mask in
    (low, Z.lor low mask)
  else
    let high := w64 (low - 1) in
    let low := if index =? 0 then 0 else w64 (Z.shiftl (r_pmpaddr s (index - 1)) 2) in
    (Z.land low (w64 (Z.shiftl (-4) (c_PMP_grain (r_configInfo s)))), high).

(** The indices of a loop from [i] up, [n] of them. *)
Fixpoint indices (i : Z) (n : nat) : list Z :=
  match n with O => [] | S n => i :: indices (i + 1) n end.

Definition lowerPriorityPMPEntryLocked (s : riscvS) (index : Z) : bool :=
  existsb (fun i => let e := getPMPCFGElem s i in e_L e && negb (e_mode e =? PMPM_OFF))
    (indices (index + 1) (Z.to_nat (NUM_PMPS - (index + 1)))).

Definition invalidatePMPEntry (index : Z) (s : riscvS) : riscvS :=
  let e := getPMPCFGElem s index in
  if getPMPRegionActive s e index then
    let '(low, high) := getPMPEntryBounds s index in
    if low <=? high then
      let locked := e_L e || lowerPriorityPMPEntryLocked s index in
      let s := setPMPPriv RISCV_MODE_SUPERVISOR low high MEM_PRIV_NONE s in
      if locked then setPMPPriv RISCV_MODE_MACHINE low high MEM_PRIV_NONE s else s
    else s
  else s.

Definition riscvVMReadPMPCFG (s : riscvS) (index : Z) : Z := readPMPCFGInt s index.

(** ** Register writes *)

Definition set_cfg (i e : Z) (s : riscvS) : riscvS := upd_pmpcfg (<[i := e]> (r_pmpcfg s)) s.

(** The body of the loop over entry [i]; [old] is the register before the
    write. *)
Definition write_cfg_entry (old : Z -> Z) (G i : Z) (s : riscvS) : riscvS :=
  let oldCFG := old i in
  let newCFG := r_pmpcfg s i in
  let fix_ := negb (G =? 0) && (e_mode newCFG =? PMPM_NA4) in
  let newCFG := if fix_ then set_e_mode (e_mode oldCFG) newCFG else newCFG in
  let s := if fix_ then set_cfg i newCFG s else s in
  if negb (oldCFG =? newCFG) then
    let s := set_cfg i oldCFG s in
    if negb (pmpLocked s i) then
      invalidatePMPEntry i (set_cfg i newCFG (invalidatePMPEntry i s))
    else s
  else s.

(** [for(i=NUM_PMPS-1; i>=0; i--)]: entries [n-1] down to 0. *)
Fixpoint write_cfg_entries (n : nat) (old : Z -> Z) (G : Z) (s : riscvS) : riscvS :=
  match n with
  | O => s
  | S n => write_cfg_entries n old G (write_cfg_entry old G (Z.of_nat n) s)
  end.

Definition WM64_pmpcfg : Z := 0x9f9f9f9f9f9f9f9f.

Definition riscvVMWritePMPCFG (index newValue : Z) (s : riscvS) : riscvS * Z :=
  let entriesPerCFG := if is64 s then 8 else 4 in
  let numPMP := c_PMP_registers (r_configInfo s) in
  let G := c_PMP_grain (r_configInfo s) in
  let numCFG := (numPMP + entriesPerCFG - 1) / entriesPerCFG in
  let offset := if is64 s then index / 2 else index in
  let s :=
    if offset <? numCFG then
      let numBytes := numPMP - offset * entriesPerCFG in
      let mask := if numBytes >=? 8 then w64 (-1) else w64 (Z.shiftl 1 (numBytes * 8) - 1) in
      let oldValue := r_pmpcfg s in
      let newValue := Z.land newValue (Z.land WM64_pmpcfg mask) in
      let s := upd_pmpcfg (set_cfg_word entriesPerCFG offset newValue (r_pmpcfg s)) s in
      write_cfg_entries (Z.to_nat NUM_PMPS) oldValue G s
    else s in
  (s, readPMPCFGInt s index).

Definition riscvVMReadPMPAddr (s : riscvS) (index : Z) : Z := getEffectivePMPAddr s index.

Definition set_addr (i a : Z) (s : riscvS) : riscvS := upd_pmpaddr (<[i := a]> (r_pmpaddr s)) s.

Definition riscvVMWritePMPAddr (index newValue : Z) (s : riscvS) : riscvS * Z :=
  let numRegs := c_PMP_registers (r_configInfo s) in
  let G := c_PMP_grain (r_configInfo s) in
  let newValue := Z.land newValue (Z.shiftr (getAddressMask (r_extBits s)) 2) in
  let newValue := if negb (G =? 0) then Z.land newValue (ones_above (G - 1)) else newValue in
  let s :=
    if (index <? numRegs) && negb (r_pmpaddr s index =? newValue) then
      if pmpLocked s index then s
      else if pmpLockedTOR s (index + 1) then s
      else invalidatePMPEntry index (set_addr index newValue (invalidatePMPEntry index s))
    else s in
  (s, getEffectivePMPAddr s index).

Definition reset_entry (i : Z) (s : riscvS) : riscvS :=
  if negb (r_pmpaddr s i =? 0) || negb (r_pmpcfg s i =? 0) then
    set_cfg i 0 (set_addr i 0 (invalidatePMPEntry i s))
  else s.

Definition riscvVMResetPMP (s : riscvS) : riscvS :=
  fold_left (fun s i => reset_entry i s)
    (indices 0 (Z.to_nat (c_PMP_registers (r_configInfo s)))) s.

(** ** Mapping *)

(** [*lowPAP], [*highPAP] and [*privP]. *)
Definition refinePMPRegionRange (s : riscvS) (mode PA index : Z) (r : Z * Z * Z) : Z * Z * Z :=
  let '(lowPA, highPA, priv) := r in
  let e := getPMPCFGElem s index in
  if getPMPRegionActive s e index then
    let '(lowPAEntry, highPAEntry) := getPMPEntryBounds s index in
    if lowPAEntry >? highPAEntry then r
    else if (lowPAEntry <=? PA) && (PA <=? highPAEntry) then
      (lowPAEntry, highPAEntry,
       if negb (mode =? RISCV_MODE_MACHINE) || e_L e then e_priv e else MEM_PRIV_RWX)
    else if (lowPAEntry >? PA) && (lowPAEntry <? highPA) then (lowPA, lowPAEntry - 1, priv)
    else if (highPAEntry <? PA) && (highPAEntry >? lowPA) then (highPAEntry + 1, highPA, priv)
    else r
  else r.

(** [for(i=PMP_registers-1; i>=0; i--)]. *)
Fixpoint refine_all (n : nat) (s : riscvS) (mode PA : Z) (r : Z * Z * Z) : Z * Z * Z :=
  match n with
  | O => r
  | S n => refine_all n s mode PA (refinePMPRegionRange s mode PA (Z.of_nat n) r)
  end.

(** The results are the new state, [*lowPAP] and [*highPAP]. *)
Definition mapPMPInt (mode requiredPriv lowPA highPA : Z) (s : riscvS) : riscvS * Z * Z :=
  let PA := lowPA in
  let priv := if mode =? RISCV_MODE_MACHINE then MEM_PRIV_RWX else MEM_PRIV_NONE in
  let '(lowPA, highPA, priv) :=
    refine_all (Z.to_nat (c_PMP_registers (r_configInfo s))) s mode PA (0, highPA, priv) in
  let s := if negb (Z.land priv requiredPriv =? requiredPriv)
           then upd_AFErrorIn riscv_AFault_PMP s else s in
  (setPMPPriv mode lowPA highPA priv s, lowPA, highPA).

(** The do loop of mapPMP, entered with the bound of the last region done. *)
Fixpoint map_regions (fuel : nat) (mode requiredPriv mask lastPA highPA : Z) (s : riscvS)
  : option riscvS :=
  match fuel with
  | O => None
  | S fuel =>
      let lowPA := w64 (highPA + 1) in
      let highPA := mask in
      let '(s, highPA) :=
        if lowPA <=? highPA then
          let '(s, lowPA, highPA) := mapPMPInt mode requiredPriv lowPA highPA s in (s, highPA)
        else (s, lastPA) in
      if highPA <? lastPA then map_regions fuel mode requiredPriv mask lastPA highPA s else Some s
  end.

Definition mapPMP (fuel : nat) (mode requiredPriv lowPA highPA : Z) (s : riscvS) : option riscvS :=
  if negb (c_PMP_registers (r_configInfo s) =? 0) then
    map_regions fuel mode requiredPriv (getAddressMask (r_extBits s)) highPA (w64 (lowPA - 1)) s
  else Some s.

End Pmp.
