(* ===== verification/RvPmpFacts.v ===== *)
(** * Correctness of physical memory protection

    A reference for the unit - which addresses an entry covers, and what the
    highest-priority entry that covers an address allows - and the proofs
    that the bounds computed for an entry are those of the reference.
    RvPmpCache, RvPmpWrite and RvPmpRuns compare what the simulator keeps with
    it. *)

From stdpp Require Import functions.
From S2P Require Import Prelude RvTypes RvHart RvHartFacts RvPmp.

(** ** The lowest set bit *)

Fixpoint pos_ctz (p : positive) : nat :=
  match p with xO q => S (pos_ctz q) | _ => O end.

(** Trailing zeros of a positive number. *)
Definition ctz (x : Z) : Z :=
  match x with Zpos p => Z.of_nat (pos_ctz p) | _ => 0 end.

Lemma ctz_nonneg x : 0 <= ctz x.
Proof. destruct x; simpl; lia. Qed.

Lemma ctz_spec x : 0 < x -> exists q, x = 2 ^ ctz x * q /\ Z.odd q = true /\ 0 < q.
Proof.
  intros Hx. destruct x as [|p|p]; try lia. clear Hx. unfold ctz.
  induction p as [p _|p IH|].
  - exists (Z.pos (xI p)). simpl pos_ctz. split; [|done]. lia.
  - destruct IH as (q & Hq & Ho & Hp). exists q. split; [|done]. simpl pos_ctz.
    rewrite Nat2Z.inj_succ, Z.pow_succ_r by lia. rewrite Pos2Z.inj_xO, Hq at 1. lia.
  - by exists 1.
Qed.

Lemma ctz_mul t q : 0 <= t -> 0 < q -> Z.odd q = true -> ctz (2 ^ t * q) = t.
Proof.
  intros Ht Hq Ho. pattern t. apply natlike_ind; [|intros n Hn IH|done]; clear Ht t.
  - rewrite Z.pow_0_r, Z.mul_1_l. destruct q as [|[q|q|]|q]; try done; lia.
  - rewrite Z.pow_succ_r, <- Z.mul_assoc by lia.
    destruct (2 ^ n * q) as [|p|p] eqn:E.
    + exfalso. assert (0 < 2 ^ n) by lia. nia.
    + change (2 * Z.pos p) with (Z.pos (xO p)). simpl. rewrite Nat2Z.inj_succ.
      simpl in IH. lia.
    + exfalso. assert (0 < 2 ^ n) by lia. nia.
Qed.

Lemma odd_land_opp q : Z.odd q = true -> Z.land q (- q) = 1.
Proof.
  intros Ho. apply Z.odd_spec in Ho as [m ->].
  replace (- (2 * m + 1)) with (Z.lnot (2 * m)) by (unfold Z.lnot; lia).
  rewrite <- Z.ldiff_land. apply Z.bits_inj'. intros i Hi. rewrite Z.ldiff_spec.
  destruct (decide (i = 0)) as [->|].
  - rewrite Z.testbit_odd_0, Z.testbit_even_0. done.
  - replace i with (Z.succ (i - 1)) by lia.
    rewrite Z.testbit_odd_succ, Z.testbit_even_succ by lia.
    rewrite andb_negb_r. symmetry. apply (testbit_above 1 1); lia.
Qed.

Lemma land_opp x : 0 < x -> Z.land x (- x) = 2 ^ ctz x.
Proof.
  intros Hx. destruct (ctz_spec x Hx) as (q & Hq & Ho & _). pose proof (ctz_nonneg x).
  set (t := ctz x) in *. rewrite Hq.
  replace (2 ^ t * q) with (Z.shiftl q t) by (rewrite shiftl_mul by lia; lia).
  replace (- Z.shiftl q t) with (Z.shiftl (- q) t) by (rewrite !shiftl_mul by lia; lia).
  rewrite <- Z.shiftl_land, odd_land_opp, shiftl_mul by done. lia.
Qed.

(** [2^w - x] has the lowest set bit of [x]. *)
Lemma ctz_complement w x : 0 < x < 2 ^ w -> 0 <= w -> ctz (2 ^ w - x) = ctz x.
Proof.
  intros Hx Hw. destruct (ctz_spec x ltac:(lia)) as (q & Hq & Ho & Hp).
  pose proof (ctz_nonneg x). set (t := ctz x) in *.
  assert (Htw : t < w).
  { destruct (Z.lt_ge_cases t w) as [|Hge]; [done|]. exfalso.
    pose proof (Z.pow_le_mono_r 2 w t). nia. }
  assert (Hsplit : 2 ^ w = 2 ^ t * (2 * 2 ^ (w - t - 1))).
  { rewrite <- Z.pow_succ_r, <- Z.pow_add_r by lia. f_equal. lia. }
  assert (0 < 2 ^ t) by lia.
  replace (2 ^ w - x) with (2 ^ t * (2 * 2 ^ (w - t - 1) - q)) by (rewrite Hsplit, Hq; lia).
  apply ctz_mul; [lia| |].
  - assert (2 ^ t * q < 2 ^ t * (2 * 2 ^ (w - t - 1))) by lia. nia.
  - rewrite Z.odd_sub, Z.odd_mul, Ho. reflexivity.
Qed.

(** The lowest set bit as the code finds it in 64 bits. *)
Lemma lowest_bit64 n : 0 < n < 2 ^ 64 -> Z.land n (w64 (- n)) = 2 ^ ctz n.
Proof.
  intros Hn. rewrite <- land_opp by lia. apply Z.bits_inj'. intros i Hi. rewrite !Z.land_spec.
  destruct (Z.lt_ge_cases i 64).
  - unfold wrap. by rewrite Z.mod_pow2_bits_low.
  - rewrite (testbit_above n 64 i) by lia. done.
Qed.

(** ** The reference *)

Abbreviation grain s := (c_PMP_grain (r_configInfo s)).
Abbreviation num_pmp s := (c_PMP_registers (r_configInfo s)).

Section Reference.

Context `{V : VmiRt}.
Implicit Types s : riscvS.

(** An address register rounded down to the grain. *)
Definition grain_floor (s : riscvS) (a : Z) : Z := a / 2 ^ grain s * 2 ^ grain s.

(** An address register of a NAPOT entry: its low bits below the grain read
    as ones. *)
Definition napot_addr (s : riscvS) (i : Z) : Z :=
  if grain s >=? 2 then Z.lor (r_pmpaddr s i) (Z.ones (grain s - 1)) else r_pmpaddr s i.

(** Whether entry [i] covers the byte at [a]: a naturally aligned block of
    2^(k+3) bytes for an address register ending in [k] ones, four bytes, or
    the bytes from the previous address register up to this one. *)
Definition covers (s : riscvS) (i a : Z) : bool :=
  let m := e_mode (r_pmpcfg s i) in
  if m =? PMPM_OFF then false
  else if m =? PMPM_TOR then
    (4 * (if i =? 0 then 0 else grain_floor s (r_pmpaddr s (i - 1))) <=? a) &&
    (a <? 4 * grain_floor s (r_pmpaddr s i))
  else if m =? PMPM_NA4 then a / 4 =? grain_floor s (r_pmpaddr s i)
  else
    let p := napot_addr s i in
    let size := 2 ^ (ctz (p + 1) + 3) in
    a / size =? 4 * p / size.

(** What an entry grants: its permission bits, but everything to machine
    mode unless the entry is locked. *)
Definition entry_priv (s : riscvS) (mode i : Z) : Z :=
  if negb (mode =? RISCV_MODE_MACHINE) || e_L (r_pmpcfg s i) then e_priv (r_pmpcfg s i)
  else MEM_PRIV_RWX.

Definition default_priv (mode : Z) : Z :=
  if mode =? RISCV_MODE_MACHINE then MEM_PRIV_RWX else MEM_PRIV_NONE.

(** The access a mode has to an address: what the first entry that covers it
    grants. *)
Definition pmp_priv (s : riscvS) (mode a : Z) : Z :=
  match find (fun i => covers s i a) (indices 0 (Z.to_nat (num_pmp s))) with
  | Some i => entry_priv s mode i
  | None => default_priv mode
  end.

(** ** Well-formed registers *)

Record pmp_ok (s : riscvS) : Prop := {
  ok_regs : 0 <= num_pmp s <= NUM_PMPS;
  ok_grain : 0 <= grain s <= 60;
  ok_ext : 2 <= r_extBits s <= 64;
  ok_addr i : 0 <= r_pmpaddr s i < 2 ^ 62;
}.

(** ** Bounds *)

Lemma e_mode_range e : 0 <= e_mode e <= 3.
Proof. unfold e_mode. rewrite land_3. zlia. Qed.

Lemma land_ones_above x n : 0 <= n <= 64 -> 0 <= x < 2 ^ 64 ->
  Z.land x (ones_above n) = x / 2 ^ n * 2 ^ n.
Proof.
  intros Hn Hx. rewrite <- shiftr_div, <- shiftl_mul by lia. apply Z.bits_inj'. intros i Hi.
  unfold ones_above, wrap. rewrite Z.land_spec, Z.shiftl_spec by lia.
  destruct (Z.lt_ge_cases i 64) as [Hlo|Hhi].
  - rewrite Z.mod_pow2_bits_low, Z.shiftl_spec by lia. destruct (Z.lt_ge_cases i n).
    + rewrite !(Z.testbit_neg_r _ (i - n)) by lia. by rewrite andb_false_r.
    + rewrite Z.bits_m1, andb_true_r, Z.shiftr_spec by lia. f_equal. lia.
  - rewrite (testbit_above x 64 i) by lia. rewrite Z.shiftr_spec by lia.
    symmetry. apply (testbit_above x 64); lia.
Qed.

Lemma grain_floor_le s a : 0 <= grain s -> 0 <= a -> 0 <= grain_floor s a <= a.
Proof. intros Hg Ha. unfold grain_floor. assert (0 < 2 ^ grain s) by lia.
  pose proof (Z.mul_div_le a (2 ^ grain s)). pose proof (Z.div_pos a (2 ^ grain s)). nia.
Qed.

Lemma lor_range x y w : 0 <= w -> 0 <= x < 2 ^ w -> 0 <= y < 2 ^ w -> 0 <= Z.lor x y < 2 ^ w.
Proof.
  intros Hw Hx Hy. apply range_bits; [done|]. intros i Hi. rewrite Z.lor_spec.
  by rewrite (testbit_above x w i), (testbit_above y w i).
Qed.

Lemma napot_range s i : pmp_ok s -> 0 <= napot_addr s i < 2 ^ 62.
Proof.
  intros H. pose proof (ok_addr s H i). pose proof (ok_grain s H). unfold napot_addr.
  case_match; [|done]. apply lor_range; [lia|done|]. rewrite Z.ones_equiv.
  pose proof (Z.pow_le_mono_r 2 (grain s - 1) 61). lia.
Qed.

Lemma effective_addr s i :
  pmp_ok s ->
  getEffectivePMPAddr s i =
  if e_mode (r_pmpcfg s i) =? PMPM_NAPOT then napot_addr s i else grain_floor s (r_pmpaddr s i).
Proof.
  intros H. pose proof (ok_addr s H i). pose proof (ok_grain s H).
  unfold getEffectivePMPAddr, getPMPCFGElem, napot_addr, grain_floor.
  destruct (e_mode (r_pmpcfg s i) =? PMPM_NAPOT); simpl negb.
  - rewrite andb_true_r, andb_false_r. destruct (Z.geb_spec (grain s) 2); [|done].
    by rewrite Z.ones_equiv, shiftl_mul, Z.mul_1_l by lia.
  - rewrite andb_false_r, andb_true_r. destruct (Z.geb_spec (grain s) 1).
    + apply land_ones_above; lia.
    + replace (grain s) with 0 by lia. rewrite Z.pow_0_r, Z.div_1_r. lia.
Qed.

(** What the code takes the bytes of entry [i] to be. *)
Definition in_bounds (s : riscvS) (i a : Z) : bool :=
  getPMPRegionActive s (getPMPCFGElem s i) i &&
  let '(low, high) := getPMPEntryBounds s i in (low <=? a) && (a <=? high).

(** The mask of a NAPOT entry: ones up to the lowest clear bit of
    [4 p + 3]. *)
Lemma napot_mask p :
  0 <= p < 2 ^ 62 ->
  let notLow := w64 (Z.lnot (4 * p + 3)) in
  w64 (w64 (Z.shiftl (Z.land notLow (w64 (- notLow))) 1) - 1) =
  Z.min (2 ^ (ctz (p + 1) + 3)) (2 ^ 64) - 1.
Proof.
  intros Hp notLow. assert (Hn : notLow = 2 ^ 64 - 4 * (p + 1)).
  { unfold notLow, wrap, Z.lnot. zlia. }
  assert (H4 : ctz (4 * (p + 1)) = ctz (p + 1) + 2).
  { destruct (ctz_spec (p + 1)) as (q & Hq & Ho & Hpos); [lia|]. pose proof (ctz_nonneg (p + 1)).
    set (t := ctz (p + 1)) in *. rewrite Hq. replace 4 with (2 ^ 2) by done.
    rewrite Z.mul_assoc, <- Z.pow_add_r by lia. rewrite ctz_mul by (done || lia). lia. }
  pose proof (ctz_nonneg (p + 1)) as Hc.
  destruct (decide (p = 2 ^ 62 - 1)) as [->|Hne].
  { subst notLow. vm_compute. done. }
  assert (Hlow : Z.land notLow (w64 (- notLow)) = 2 ^ (ctz (p + 1) + 2)).
  { rewrite lowest_bit64 by lia. rewrite Hn, ctz_complement, H4 by lia. done. }
  rewrite Hlow, shiftl_mul, <- Z.pow_add_r by lia.
  replace (ctz (p + 1) + 2 + 1) with (ctz (p + 1) + 3) by lia.
  assert (Hsmall : ctz (p + 1) + 3 <= 64).
  { destruct (ctz_spec (p + 1)) as (q & Hq & Ho & Hpos); [lia|].
    set (t := ctz (p + 1)) in *. destruct (Z.lt_ge_cases 61 t) as [Ht|]; [|lia]. exfalso.
    pose proof (Z.pow_le_mono_r 2 62 t). nia. }
  set (t := ctz (p + 1) + 3) in *. rewrite Z.min_l by (apply Z.pow_le_mono_r; lia).
  destruct (decide (t = 64)) as [->|]; [done|].
  assert (2 ^ t < 2 ^ 64) by (apply Z.pow_lt_mono_r; lia). assert (0 < 2 ^ t) by lia.
  rewrite (wrap_small 64 (2 ^ t)) by lia. apply wrap_small. lia.
Qed.

Lemma ldiff_ones x n : 0 <= n -> Z.ldiff x (Z.ones n) = x / 2 ^ n * 2 ^ n.
Proof.
  intros. rewrite Z.ldiff_ones_r by done. by rewrite shiftr_div, shiftl_mul.
Qed.

Lemma napot_bounds p :
  0 <= p < 2 ^ 62 ->
  let n := Z.min (ctz (p + 1) + 3) 64 in
  let mask := 2 ^ n - 1 in
  let low := Z.ldiff (4 * p) mask in
  low = 4 * p / 2 ^ n * 2 ^ n /\ Z.lor low mask = low + (2 ^ n - 1) /\ 3 <= n <= 64.
Proof.
  intros Hp n mask low. pose proof (ctz_nonneg (p + 1)).
  assert (Hn : 3 <= n <= 64) by (unfold n; lia).
  assert (Hm : mask = Z.ones n) by (unfold mask; by rewrite Z.ones_equiv, Z.sub_1_r).
  assert (Hlow : low = 4 * p / 2 ^ n * 2 ^ n) by (unfold low; rewrite Hm; apply ldiff_ones; lia).
  split_and!; [done| |lia|lia].
  rewrite Z.lor_comm, Z.add_comm. apply (lor_add _ _ n); [lia|unfold mask; lia|].
  rewrite Hlow. apply Z_mod_mult.
Qed.

Lemma tor_low s a :
  pmp_ok s -> 0 <= a < 2 ^ 62 ->
  Z.land (w64 (Z.shiftl a 2)) (w64 (Z.shiftl (-4) (grain s))) = 4 * grain_floor s a.
Proof.
  intros H Ha. pose proof (ok_grain s H).
  replace (w64 (Z.shiftl (-4) (grain s))) with (ones_above (2 + grain s)).
  2: { unfold ones_above. rewrite !shiftl_mul, Z.pow_add_r by lia. f_equal. lia. }
  rewrite shiftl_mul by lia. rewrite (wrap_small 64) by lia.
  rewrite land_ones_above by lia. unfold grain_floor.
  rewrite Z.pow_add_r, (Z.mul_comm a) by lia. change (2 ^ 2) with 4.
  rewrite Z.div_mul_cancel_l by lia. lia.
Qed.

Lemma bounds_eq s i :
  pmp_ok s -> getPMPRegionActive s (getPMPCFGElem s i) i = true ->
  let g := grain_floor s (r_pmpaddr s i) in
  let p := napot_addr s i in
  let n := Z.min (ctz (p + 1) + 3) 64 in
  getPMPEntryBounds s i =
  if e_mode (r_pmpcfg s i) =? PMPM_NA4 then (4 * g, 4 * g + 3)
  else if e_mode (r_pmpcfg s i) =? PMPM_NAPOT then
    (4 * p / 2 ^ n * 2 ^ n, 4 * p / 2 ^ n * 2 ^ n + (2 ^ n - 1))
  else (4 * (if i =? 0 then 0 else grain_floor s (r_pmpaddr s (i - 1))), 4 * g - 1).
Proof.
  intros H Hact g p n. unfold getPMPEntryBounds. rewrite effective_addr by done.
  unfold getPMPRegionActive, getPMPCFGElem in *. rewrite effective_addr in Hact by done.
  pose proof (ok_addr s H i) as Ha. pose proof (ok_grain s H).
  pose proof (grain_floor_le s (r_pmpaddr s i) ltac:(lia) ltac:(lia)) as Hg. fold g in Hg |- *.
  pose proof (napot_range s i H) as Hp. fold p in Hp |- *.
  destruct (Z.eqb_spec (e_mode (r_pmpcfg s i)) PMPM_NA4) as [->|].
  { simpl. rewrite shiftl_mul by lia. rewrite !(wrap_small 64) by lia. f_equal; lia. }
  destruct (Z.eqb_spec (e_mode (r_pmpcfg s i)) PMPM_NAPOT) as [->|].
  { rewrite shiftl_mul by lia. rewrite (wrap_small 64 (p * 2 ^ 2)) by lia.
    replace (p * 2 ^ 2) with (4 * p) by lia. rewrite napot_mask by done.
    replace (Z.min _ _ - 1) with (2 ^ n - 1).
    2: { f_equal. unfold n. destruct (Z.min_spec (ctz (p + 1) + 3) 64) as [[? ->]|[? ->]].
         - rewrite Z.min_l; [done|]. apply Z.pow_le_mono_r; lia.
         - rewrite Z.min_r; [done|]. apply Z.pow_le_mono_r; lia. }
    destruct (napot_bounds p Hp) as (Hlow & Hhigh & _). fold n in Hlow, Hhigh.
    by rewrite Hhigh, Hlow. }
  assert (Hpos : g <> 0).
  { pose proof (e_mode_range (r_pmpcfg s i)). intros Hg0. fold g in Hact. rewrite Hg0 in Hact.
    destruct (Z.eqb_spec (e_mode (r_pmpcfg s i)) 0); [done|].
    replace (e_mode (r_pmpcfg s i)) with 1 in Hact by lia. done. }
  cbv iota. rewrite (shiftl_mul g 2) by lia. rewrite (wrap_small 64 (g * 2 ^ 2)) by lia.
  rewrite (wrap_small 64 (g * 2 ^ 2 - 1)) by lia. f_equal; [|lia].
  destruct (i =? 0); [done|]. apply tor_low; [done|]. apply ok_addr, H.
Qed.

Lemma active_mode s i :
  getPMPRegionActive s (getPMPCFGElem s i) i = true -> e_mode (r_pmpcfg s i) <> PMPM_OFF.
Proof.
  unfold getPMPRegionActive, getPMPCFGElem. intros H Hm. by rewrite Hm in H.
Qed.

(** The bounds lie on words. *)
Lemma bounds_aligned s i low high :
  pmp_ok s -> getPMPRegionActive s (getPMPCFGElem s i) i = true ->
  getPMPEntryBounds s i = (low, high) -> low mod 4 = 0 /\ high mod 4 = 3.
Proof.
  intros H Hact Hb. rewrite bounds_eq in Hb by done.
  destruct (e_mode (r_pmpcfg s i) =? PMPM_NA4).
  { simplify_eq. zlia. }
  destruct (e_mode (r_pmpcfg s i) =? PMPM_NAPOT); [|simplify_eq; zlia].
  pose proof (ctz_nonneg (napot_addr s i + 1)).
  set (n := Z.min (ctz (napot_addr s i + 1) + 3) 64) in *.
  assert (Hn : 2 ^ n = 4 * 2 ^ (n - 2)).
  { replace 4 with (2 ^ 2) by done. rewrite <- Z.pow_add_r by lia. f_equal. lia. }
  simplify_eq. set (k := _ / _). rewrite Hn. set (j := 2 ^ (n - 2)).
  replace (k * (4 * j)) with (4 * (k * j)) by lia. zlia.
Qed.

Lemma div_block a b n : 0 < n -> (a / n =? b / n) = (b / n * n <=? a) && (a <=? b / n * n + (n - 1)).
Proof.
  intros Hn. apply eq_true_iff_eq. rewrite andb_true_iff, Z.eqb_eq, !Z.leb_le.
  pose proof (Z.div_mod a n ltac:(lia)). pose proof (Z.mod_pos_bound a n Hn). nia.
Qed.

Lemma in_bounds_covers s i a :
  pmp_ok s -> 0 <= a < 2 ^ 64 -> in_bounds s i a = covers s i a.
Proof.
  intros H Ha. unfold in_bounds.
  destruct (getPMPRegionActive s (getPMPCFGElem s i) i) eqn:Hact.
  - rewrite bounds_eq by done. pose proof (active_mode s i Hact) as Hoff. simpl andb.
    unfold covers. pose proof (e_mode_range (r_pmpcfg s i)).
    destruct (Z.eqb_spec (e_mode (r_pmpcfg s i)) PMPM_OFF) as [|_]; [done|].
    destruct (Z.eqb_spec (e_mode (r_pmpcfg s i)) PMPM_NA4) as [->|].
    { simpl. set (g := grain_floor _ _). apply eq_true_iff_eq.
      rewrite andb_true_iff, Z.eqb_eq, !Z.leb_le. zlia. }
    destruct (Z.eqb_spec (e_mode (r_pmpcfg s i)) PMPM_NAPOT) as [->|].
    { simpl. set (p := napot_addr s i). pose proof (ctz_nonneg (p + 1)).
      rewrite <- div_block by (apply Z.pow_pos_nonneg; lia).
      destruct (Z.min_spec (ctz (p + 1) + 3) 64) as [[? ->]|[? ->]]; [done|].
      pose proof (napot_range s i H) as Hp. fold p in Hp.
      pose proof (Z.pow_le_mono_r 2 64 (ctz (p + 1) + 3)).
      by rewrite !(Z.div_small a), !(Z.div_small (4 * p)) by lia. }
    destruct (Z.eqb_spec (e_mode (r_pmpcfg s i)) PMPM_TOR) as [_|]; [|lia].
    f_equal. apply eq_true_iff_eq. rewrite Z.leb_le, Z.ltb_lt. lia.
  - simpl. unfold getPMPRegionActive, getPMPCFGElem in Hact. rewrite effective_addr in Hact by done.
    unfold covers. destruct (e_mode (r_pmpcfg s i) =? PMPM_OFF); [done|].
    destruct (Z.eqb_spec (e_mode (r_pmpcfg s i)) PMPM_TOR) as [Ht|]; [|done].
    rewrite Ht in Hact. simpl in Hact. apply negb_false_iff, Z.eqb_eq in Hact.
    rewrite Hact. symmetry. apply andb_false_iff. right. lia.
Qed.

End Reference.
