(* ===== verification/RvPmpCache.v ===== *)
(** * The privileges kept for PMP domains

    The privileges of a PMP domain are a cache of the reference: [mapPMP]
    fills it in for the addresses of an access, register writes take
    privileges away.  Proved here: what [mapPMP] installs is what the
    reference grants, for every byte of the access.  Writes are in
    RvPmpWrite. *)

From stdpp Require Import functions.
From S2P Require Import Prelude RvTypes RvHart RvHartFacts RvPmp RvPmpFacts.

Section Mapping.

Context `{V : VmiRt}.
Implicit Types s : riscvS.

(** ** Loops over the entries *)

Lemma indices_snoc i n : indices i (S n) = indices i n ++ [i + Z.of_nat n].
Proof.
  revert i. induction n as [|n IH]; intros i; [simpl; f_equal; lia|].
  cbn [indices] in *. rewrite IH. simpl. do 3 f_equal. lia.
Qed.

Lemma elem_of_indices i n j : j ∈ indices i n <-> i <= j < i + Z.of_nat n.
Proof.
  revert i. induction n as [|n IH]; intros i; simpl; [rewrite elem_of_nil; lia|].
  rewrite elem_of_cons, IH. lia.
Qed.

Lemma refine_all_fold n s mode PA r :
  refine_all n s mode PA r = fold_right (refinePMPRegionRange s mode PA) r (indices 0 n).
Proof.
  revert r. induction n as [|n IH]; intros r; [done|].
  rewrite indices_snoc, foldr_app. simpl. by rewrite IH.
Qed.

(** The reference over a list of entries, highest priority first. *)
Definition priv_of (s : riscvS) (mode : Z) (l : list Z) (a : Z) : Z :=
  fold_right (fun i p => if covers s i a then entry_priv s mode i else p) (default_priv mode) l.

Lemma pmp_priv_fold s mode a :
  pmp_priv s mode a = priv_of s mode (indices 0 (Z.to_nat (num_pmp s))) a.
Proof.
  unfold pmp_priv, priv_of. induction (indices 0 (Z.to_nat (num_pmp s))) as [|i l IH]; [done|].
  simpl. by destruct (covers s i a).
Qed.

(** ** The range around an address *)

(** [r] is a range of whole words around [PA] on which the entries of [l]
    grant the same. *)
Definition uniform (s : riscvS) (mode PA : Z) (l : list Z) (r : Z * Z * Z) : Prop :=
  let '(low, high, priv) := r in
  0 <= low <= PA /\ PA <= high < 2 ^ 64 /\ low mod 4 = 0 /\ high mod 4 = 3 /\
  forall a, low <= a <= high -> priv_of s mode l a = priv.

Lemma bounds_range s i low high :
  pmp_ok s -> getPMPRegionActive s (getPMPCFGElem s i) i = true ->
  getPMPEntryBounds s i = (low, high) -> 0 <= low /\ high < 2 ^ 64.
Proof.
  intros H Hact Hb. rewrite bounds_eq in Hb by done.
  pose proof (ok_addr s H i). pose proof (ok_addr s H (i - 1)). pose proof (ok_grain s H).
  pose proof (grain_floor_le s (r_pmpaddr s i) ltac:(lia) ltac:(lia)).
  pose proof (grain_floor_le s (r_pmpaddr s (i - 1)) ltac:(lia) ltac:(lia)).
  destruct (e_mode (r_pmpcfg s i) =? PMPM_NA4); [simplify_eq; lia|].
  destruct (e_mode (r_pmpcfg s i) =? PMPM_NAPOT); [|simplify_eq; case_match; lia].
  pose proof (napot_range s i H). pose proof (ctz_nonneg (napot_addr s i + 1)).
  set (p := napot_addr s i) in *. set (n := Z.min (ctz (p + 1) + 3) 64) in *.
  assert (Hn : 0 < 2 ^ n) by (apply Z.pow_pos_nonneg; lia).
  assert (H64 : 2 ^ 64 = 2 ^ (64 - n) * 2 ^ n) by (rewrite <- Z.pow_add_r by lia; f_equal; lia).
  assert (Hq : 4 * p / 2 ^ n < 2 ^ (64 - n)) by (apply Z.div_lt_upper_bound; lia).
  pose proof (Z.div_pos (4 * p) (2 ^ n)). simplify_eq. nia.
Qed.

Lemma refine_uniform s mode PA i l r :
  pmp_ok s -> 0 <= PA -> uniform s mode PA l r ->
  uniform s mode PA (i :: l) (refinePMPRegionRange s mode PA i r).
Proof.
  intros H HPA. destruct r as [[low high] priv]. intros (Hlo & Hhi & Hla & Hha & Hu).
  assert (Hcov : forall a, low <= a <= high -> covers s i a = in_bounds s i a)
    by (intros; symmetry; apply in_bounds_covers; [done|lia]).
  unfold refinePMPRegionRange, in_bounds in *.
  destruct (getPMPRegionActive s (getPMPCFGElem s i) i) eqn:Hact.
  2: { split_and!; try lia. intros a Ha. simpl. rewrite Hcov by done. simpl. by apply Hu. }
  destruct (getPMPEntryBounds s i) as [el eh] eqn:Hb.
  destruct (bounds_aligned s i el eh H Hact Hb) as [Hal Hah].
  destruct (bounds_range s i el eh H Hact Hb) as [Hel Heh].
  simpl in Hcov.
  assert (Hout : forall lo hi, low <= lo -> hi <= high -> (forall a, lo <= a <= hi -> a < el \/ eh < a) ->
            forall a, lo <= a <= hi -> priv_of s mode (i :: l) a = priv).
  { intros lo hi ? ? Ho a Ha. simpl. rewrite Hcov by lia.
    replace ((el <=? a) && (a <=? eh)) with false; [apply Hu; lia|].
    symmetry. apply andb_false_iff. destruct (Ho a Ha); [left|right]; lia. }
  destruct (Z.gtb_spec el eh).
  { split_and!; try lia. apply (Hout low high); lia. }
  destruct ((el <=? PA) && (PA <=? eh)) eqn:Hin.
  { apply andb_true_iff in Hin as [Hin1 Hin2]. split_and!; try lia.
    intros a Ha. simpl. rewrite <- in_bounds_covers by (done || lia).
    unfold in_bounds. rewrite Hact, Hb. replace ((el <=? a) && (a <=? eh)) with true by lia. done. }
  destruct ((el >? PA) && (el <? high)) eqn:Hab.
  { apply andb_true_iff in Hab as [Ha1 Ha2]. split_and!; try lia; [zlia|].
    apply (Hout low (el - 1)); lia. }
  destruct ((eh <? PA) && (eh >? low)) eqn:Hbe.
  { apply andb_true_iff in Hbe as [Hb1 Hb2]. split_and!; try lia; [zlia|].
    apply (Hout (eh + 1) high); lia. }
  assert (el <> high) by (intros ->; lia). assert (eh <> low) by (intros ->; lia).
  split_and!; try lia. apply (Hout low high); [lia..|]. intros a Ha. lia.
Qed.

Lemma refine_all_uniform n s mode PA high :
  pmp_ok s -> 0 <= PA <= high -> high < 2 ^ 64 -> high mod 4 = 3 ->
  uniform s mode PA (indices 0 n) (refine_all n s mode PA (0, high, default_priv mode)).
Proof.
  intros H HPA Hh Ha. rewrite refine_all_fold. induction (indices 0 n) as [|i l IH].
  - split_and!; try (done || lia).
  - simpl. apply refine_uniform; (done || lia).
Qed.

(** ** Privileges in the simulator *)

(** The modes with PMP domains of their own; user mode shares supervisor
    mode's. *)
Definition pmp_mode (mode : Z) : Prop := mode = RISCV_MODE_SUPERVISOR \/ mode = RISCV_MODE_MACHINE.

(** riscvVMInit with unified code and data buses. *)
Record domains_ok (s : riscvS) : Prop := {
  dom_unified mode : pmp_mode mode -> r_pmpDomains s mode false = r_pmpDomains s mode true;
  dom_apart :
    r_pmpDomains s RISCV_MODE_SUPERVISOR false <> r_pmpDomains s RISCV_MODE_MACHINE false;
}.

Definition cached (s : riscvS) (mode a : Z) : Z :=
  vmirtGetDomainPrivileges (r_pmpDomains s mode false) a (r_vmi s).

(** Two states that differ in the simulator's part and the kind of the last
    access fault only. *)
Definition same_regs (s s' : riscvS) : Prop := exists v e, s' = upd_vmi v (upd_AFErrorIn e s).

Lemma same_regs_refl s : same_regs s s.
Proof. exists (r_vmi s), (r_AFErrorIn s). by destruct s. Qed.

Lemma same_regs_trans s1 s2 s3 : same_regs s1 s2 -> same_regs s2 s3 -> same_regs s1 s3.
Proof. intros (v & e & ->) (v' & e' & ->). exists v', e'. reflexivity. Qed.

Lemma same_regs_priv s s' mode a : same_regs s s' -> pmp_priv s' mode a = pmp_priv s mode a.
Proof. intros (v & e & ->). reflexivity. Qed.

Lemma same_regs_ok s s' : same_regs s s' -> pmp_ok s -> pmp_ok s'.
Proof. intros (v & e & ->) []. by split. Qed.

Lemma same_regs_domains s s' : same_regs s s' -> domains_ok s -> domains_ok s'.
Proof. intros (v & e & ->) []. by split. Qed.

Lemma set_priv_same mode low high priv s : same_regs s (setPMPPriv mode low high priv s).
Proof.
  exists (r_vmi (setPMPPriv mode low high priv s)), (r_AFErrorIn s).
  unfold setPMPPriv. repeat case_match; by destruct s.
Qed.

Context `{L : !VmiRtLaws V}.

Lemma set_priv_cached mode low high priv s m a :
  domains_ok s -> pmp_mode mode -> pmp_mode m ->
  cached (setPMPPriv mode low high priv s) m a =
  if (m =? mode) && (low <=? a) && (a <=? high) then priv else cached s m a.
Proof.
  intros [Hu Ha] Hmode Hm. unfold setPMPPriv. rewrite <- (Hu mode Hmode), Z.eqb_refl.
  unfold cached. cbn [r_pmpDomains r_vmi upd_vmi]. rewrite priv_set.
  replace (r_pmpDomains s m false =? r_pmpDomains s mode false) with (m =? mode); [done|].
  destruct Hmode as [-> | ->], Hm as [-> | ->]; rewrite ?Z.eqb_refl; try done;
    symmetry; apply Z.eqb_neq; congruence.
Qed.

Lemma map_int_spec mode req PA high s :
  pmp_ok s -> domains_ok s -> pmp_mode mode ->
  0 <= PA <= high -> high < 2 ^ 64 -> high mod 4 = 3 ->
  exists s' lo hi, mapPMPInt mode req PA high s = (s', lo, hi) /\
    lo <= PA <= hi /\ hi < 2 ^ 64 /\ same_regs s s' /\
    forall m a, pmp_mode m ->
      cached s' m a = if (m =? mode) && (lo <=? a) && (a <=? hi) then pmp_priv s mode a
                      else cached s m a.
Proof.
  intros H Hd Hmode HPA Hh Ha. unfold mapPMPInt. fold (default_priv mode).
  pose proof (refine_all_uniform (Z.to_nat (num_pmp s)) s mode PA high H HPA Hh Ha) as Hu.
  destruct (refine_all _ _ _ _ _) as [[lo hi] priv]. destruct Hu as (Hlo & Hhi & _ & _ & Hu).
  set (s1 := if negb _ then _ else s).
  assert (Hs1 : same_regs s s1)
    by (unfold s1; case_match; [|apply same_regs_refl]; exists (r_vmi s), riscv_AFault_PMP; by destruct s).
  eexists _, lo, hi. split; [reflexivity|]. split_and!; try lia.
  - eapply same_regs_trans; [exact Hs1|]. apply set_priv_same.
  - intros m a Hm. rewrite set_priv_cached by eauto using same_regs_domains.
    destruct ((m =? mode) && (lo <=? a) && (a <=? hi)) eqn:Hin.
    + rewrite pmp_priv_fold, Hu; [done|]. rewrite !andb_true_iff in Hin. lia.
    + destruct Hs1 as (v & e & Hs1). unfold s1 in *. by case_match.
Qed.

Lemma map_regions_spec fuel mode req mask last high s :
  pmp_ok s -> domains_ok s -> pmp_mode mode ->
  0 <= mask < 2 ^ 64 -> mask mod 4 = 3 -> 0 <= last < 2 ^ 64 ->
  let first := w64 (high + 1) in
  first <= last < first + Z.of_nat fuel ->
  exists s', map_regions fuel mode req mask last high s = Some s' /\ same_regs s s' /\
    (forall a, first <= a <= last -> a <= mask -> cached s' mode a = pmp_priv s mode a) /\
    (forall m a, pmp_mode m ->
       cached s' m a = cached s m a \/ (m = mode /\ cached s' m a = pmp_priv s mode a)).
Proof.
  intros H Hd Hmode Hmask Hma Hlast. revert high s H Hd.
  induction fuel as [|fuel IH]; intros high s H Hd first Hf; [lia|].
  assert (Hfirst : 0 <= first) by (apply (wrap_range 64); lia).
  cbn [map_regions]. fold first. destruct (Z.leb_spec first mask) as [Hle|Hgt].
  2: { rewrite Z.ltb_irrefl. exists s. split_and!; auto using same_regs_refl. intros; lia. }
  destruct (map_int_spec mode req first mask s H Hd Hmode) as (s1 & lo & hi & -> & Hlo & Hhi & Hs1 & Hc);
    try lia.
  destruct (Z.ltb_spec hi last) as [Hmore|Hdone].
  - assert (Hw : w64 (hi + 1) = hi + 1) by (apply wrap_small; lia).
    destruct (IH hi s1) as (s' & He & Hs' & Hall & Hother);
      eauto using same_regs_ok, same_regs_domains; [rewrite Hw; lia|].
    exists s'. rewrite Hw in Hall. split_and!; eauto using same_regs_trans.
    + intros a Ha Ham. rewrite <- (same_regs_priv s s1) by done.
      destruct (Z.lt_ge_cases hi a) as [|Hle']; [apply Hall; lia|].
      destruct (Hother mode a Hmode) as [->|[_ ->]]; [|done].
      rewrite Hc by done. rewrite Z.eqb_refl, (same_regs_priv s s1) by done.
      cbn [andb]. by replace ((lo <=? a) && (a <=? hi)) with true by lia.
    + intros m a Hm. destruct (Hother m a Hm) as [->|[-> ->]].
      * rewrite Hc by done. destruct (Z.eqb_spec m mode); simpl; [|by left].
        case_match; [right|left]; done.
      * right. split; [done|]. by apply same_regs_priv.
  - exists s1. split_and!; try done.
    + intros a Ha Ham. rewrite Hc, Z.eqb_refl by done.
      cbn [andb]. by replace ((lo <=? a) && (a <=? hi)) with true by lia.
    + intros m a Hm. rewrite Hc by done. destruct (Z.eqb_spec m mode); simpl; [|by left].
      case_match; [right|left]; done.
Qed.

Lemma address_mask bits :
  2 <= bits <= 64 ->
  getAddressMask bits = 2 ^ bits - 1 /\ 0 <= getAddressMask bits < 2 ^ 64 /\
  getAddressMask bits mod 4 = 3.
Proof.
  intros Hb. assert (Hm : getAddressMask bits = 2 ^ bits - 1).
  { unfold getAddressMask. destruct (Z.eqb_spec bits 64) as [->|]; [done|].
    rewrite shiftl_mul, Z.mul_1_l by lia. apply wrap_small.
    pose proof (Z.pow_lt_mono_r 2 bits 64). lia. }
  assert (Hp : 2 ^ bits = 4 * 2 ^ (bits - 2)).
  { replace 4 with (2 ^ 2) by done. rewrite <- Z.pow_add_r by lia. f_equal. lia. }
  pose proof (Z.pow_le_mono_r 2 bits 64). assert (0 < 2 ^ (bits - 2)) by lia.
  rewrite Hm. split_and!; try lia. rewrite Hp. zlia.
Qed.

Lemma map_pmp_spec fuel mode req low high s :
  pmp_ok s -> domains_ok s -> pmp_mode mode -> num_pmp s <> 0 ->
  0 <= low <= high -> high < 2 ^ 64 -> high - low < Z.of_nat fuel ->
  exists s', mapPMP fuel mode req low high s = Some s' /\ same_regs s s' /\
    (forall a, low <= a <= high -> a < 2 ^ r_extBits s -> cached s' mode a = pmp_priv s mode a) /\
    (forall m a, pmp_mode m ->
       cached s' m a = cached s m a \/ (m = mode /\ cached s' m a = pmp_priv s mode a)).
Proof.
  intros H Hd Hm Hn Hlow Hhigh Hf. unfold mapPMP.
  destruct (Z.eqb_spec (num_pmp s) 0) as [|_]; [done|]. simpl negb. cbv iota.
  destruct (address_mask (r_extBits s) (ok_ext s H)) as (Hmask & Hr & Hm4).
  assert (Hfirst : w64 (w64 (low - 1) + 1) = low).
  { unfold wrap. rewrite Zplus_mod_idemp_l. replace (low - 1 + 1) with low by lia.
    apply Z.mod_small. lia. }
  destruct (map_regions_spec fuel mode req (getAddressMask (r_extBits s)) high (w64 (low - 1)) s)
    as (s' & He & Hs & Hall & Ho); try done; [lia|rewrite Hfirst; lia|].
  rewrite Hfirst in Hall. exists s'. split_and!; try done. intros a Ha Hx. apply Hall; lia.
Qed.

(** ** Coherence *)

(** No address has a privilege other than none or what the reference
    grants. *)
Definition coherent (s : riscvS) : Prop := forall mode a,
  pmp_mode mode -> 0 <= a < 2 ^ 64 ->
  cached s mode a = MEM_PRIV_NONE \/ cached s mode a = pmp_priv s mode a.

(** Entry [i] treats [a] in [s'] as it does in [s]. *)
Definition unaffected (s s' : riscvS) (i a : Z) : Prop :=
  covers s' i a = covers s i a /\ (covers s i a = true -> r_pmpcfg s' i = r_pmpcfg s i).

Definition locked_entry (s : riscvS) (i : Z) : bool :=
  e_L (r_pmpcfg s i) && negb (e_mode (r_pmpcfg s i) =? PMPM_OFF).

(** Entry [i] does not restrict machine mode at [a] in either state, and in
    [s'] nor does any entry after it. *)
Definition soft (s s' : riscvS) (i a : Z) : Prop :=
  (covers s i a = true -> e_L (r_pmpcfg s i) = false) /\
  (covers s' i a = true -> e_L (r_pmpcfg s' i) = false) /\
  forall j, i < j < NUM_PMPS -> locked_entry s' j = false.

Lemma covers_on s i a : covers s i a = true -> e_mode (r_pmpcfg s i) <> PMPM_OFF.
Proof. unfold covers. intros H Hm. by rewrite Hm in H. Qed.

Lemma entry_priv_unlocked s i : e_L (r_pmpcfg s i) = false -> entry_priv s RISCV_MODE_MACHINE i = MEM_PRIV_RWX.
Proof. intros H. unfold entry_priv. by rewrite H. Qed.

Lemma priv_of_unlocked s l a :
  (forall j, j ∈ l -> locked_entry s j = false) ->
  priv_of s RISCV_MODE_MACHINE l a = MEM_PRIV_RWX.
Proof.
  induction l as [|j l IH]; intros Hl; [done|]. simpl.
  destruct (covers s j a) eqn:Hc; [|by apply IH; intros; apply Hl; right].
  apply entry_priv_unlocked. pose proof (Hl j ltac:(left)) as Hj. unfold locked_entry in Hj.
  apply covers_on in Hc. apply andb_false_iff in Hj as [Hj|Hj]; [done|].
  apply negb_false_iff, Z.eqb_eq in Hj. done.
Qed.

Lemma priv_of_unaffected s s' mode l a :
  (forall i, i ∈ l -> unaffected s s' i a) -> priv_of s' mode l a = priv_of s mode l a.
Proof.
  induction l as [|i l IH]; intros Hl; [done|]. simpl.
  destruct (Hl i ltac:(left)) as [-> Hcfg].
  rewrite IH by (intros; apply Hl; by right).
  destruct (covers s i a); [|done]. unfold entry_priv. by rewrite Hcfg.
Qed.

Lemma priv_of_machine s s' n i a :
  i + Z.of_nat n <= NUM_PMPS ->
  (forall j, i <= j < i + Z.of_nat n -> unaffected s s' j a \/ soft s s' j a) ->
  priv_of s' RISCV_MODE_MACHINE (indices i n) a = priv_of s RISCV_MODE_MACHINE (indices i n) a.
Proof.
  revert i. induction n as [|n IH]; intros i Hb Hl; [done|]. simpl.
  assert (Htl := IH (i + 1) ltac:(lia) (fun j Hj => Hl j ltac:(lia))).
  destruct (Hl i ltac:(lia)) as [[-> Hcfg]|(Hs & Hs' & Hlow)].
  { rewrite Htl. destruct (covers s i a); [|done]. unfold entry_priv. by rewrite Hcfg. }
  assert (Hrest : priv_of s' RISCV_MODE_MACHINE (indices (i + 1) n) a = MEM_PRIV_RWX).
  { apply priv_of_unlocked. intros j Hj%elem_of_indices. apply Hlow. lia. }
  fold (priv_of s' RISCV_MODE_MACHINE (indices (i + 1) n) a).
  fold (priv_of s RISCV_MODE_MACHINE (indices (i + 1) n) a).
  rewrite <- Htl, Hrest.
  destruct (covers s i a) eqn:E, (covers s' i a) eqn:E';
    rewrite ?(entry_priv_unlocked s), ?(entry_priv_unlocked s') by auto; done.
Qed.

(** A change of registers keeps coherence if every address at which it
    matters loses its privileges. *)
Lemma coherent_update s s' :
  pmp_ok s -> r_configInfo s' = r_configInfo s ->
  (forall mode a, pmp_mode mode -> 0 <= a < 2 ^ 64 ->
     cached s' mode a = MEM_PRIV_NONE \/
     (cached s' mode a = cached s mode a /\
      forall i, 0 <= i < num_pmp s ->
        unaffected s s' i a \/ (mode = RISCV_MODE_MACHINE /\ soft s s' i a))) ->
  coherent s -> coherent s'.
Proof.
  intros H Hcfg Hupd Hc mode a Hm Ha. pose proof (ok_regs s H).
  destruct (Hupd mode a Hm Ha) as [->|[-> Hl]]; [by left|].
  destruct (Hc mode a Hm Ha) as [-> | ->]; [by left|]. right.
  rewrite !pmp_priv_fold, Hcfg. symmetry. destruct Hm as [-> | ->].
  - apply priv_of_unaffected. intros i Hi%elem_of_indices.
    destruct (Hl i ltac:(lia)) as [|[]]; done.
  - apply priv_of_machine; [lia|]. intros i Hi. destruct (Hl i ltac:(lia)) as [|[]]; auto.
Qed.

End Mapping.
