(* ===== verification/RvPmpWrite.v ===== *)
(** * Writes of the PMP registers

    What a write of a PMP configuration or address register does: the final
    contents of each entry, the privileges it takes away, and so that
    privileges stay within the reference of RvPmpFacts; that locked entries
    keep their region and their permissions; reset; and the one write that
    leaves stale privileges behind. *)

From stdpp Require Import functions.
From S2P Require Import Prelude RvTypes RvHart RvHartFacts RvPmp RvPmpFacts RvPmpCache.

Section Writes.

Context `{V : VmiRt}.
Implicit Types s : riscvS.

(** ** Invalidation *)

Lemma invalidate_shape i s : exists v, invalidatePMPEntry i s = upd_vmi v s.
Proof.
  exists (r_vmi (invalidatePMPEntry i s)). unfold invalidatePMPEntry, setPMPPriv.
  repeat case_match; by destruct s.
Qed.

(** An entry in whose region machine mode can be restricted. *)
Definition strict (s : riscvS) (i : Z) : bool :=
  e_L (r_pmpcfg s i) || lowerPriorityPMPEntryLocked s i.

Definition invalidated (s : riscvS) (i mode a : Z) : bool :=
  covers s i a && ((mode =? RISCV_MODE_SUPERVISOR) || strict s i).

Lemma lower_locked s i :
  0 <= i ->
  lowerPriorityPMPEntryLocked s i = false <->
  forall j, i < j < NUM_PMPS -> locked_entry s j = false.
Proof.
  intros Hi. unfold lowerPriorityPMPEntryLocked. rewrite <- not_true_iff_false, existsb_exists.
  setoid_rewrite <- list_elem_of_In. setoid_rewrite elem_of_indices. split.
  - intros H j Hj. apply not_true_iff_false. intros Hl. apply H. exists j. split; [lia|done].
  - intros H (j & Hj & Hl). assert (locked_entry s j = true) by exact Hl. rewrite H in *; (lia || done).
Qed.

Context `{L : !VmiRtLaws V}.

Lemma invalidate_cached i s m a :
  pmp_ok s -> domains_ok s -> pmp_mode m -> 0 <= a < 2 ^ 64 ->
  cached (invalidatePMPEntry i s) m a =
  if invalidated s i m a then MEM_PRIV_NONE else cached s m a.
Proof.
  intros H Hd Hm Ha. unfold invalidated. rewrite <- in_bounds_covers by (done || lia).
  unfold invalidatePMPEntry, in_bounds, strict, getPMPCFGElem.
  destruct (getPMPRegionActive s (r_pmpcfg s i) i); [|done].
  destruct (getPMPEntryBounds s i) as [low high].
  destruct (Z.leb_spec low high); simpl.
  2: { replace ((low <=? a) && (a <=? high)) with false by lia. done. }
  assert (Hd' := same_regs_domains _ _
    (set_priv_same RISCV_MODE_SUPERVISOR low high MEM_PRIV_NONE s) Hd).
  destruct (e_L (r_pmpcfg s i) || lowerPriorityPMPEntryLocked s i);
    rewrite !set_priv_cached by (done || by (left + right));
    destruct Hm as [-> | ->]; simpl; destruct (low <=? a), (a <=? high); done.
Qed.

(** ** Configuration registers *)

(** What an entry holds after [new] has been written to it. *)
Definition final_cfg (s : riscvS) (new i : Z) : Z :=
  let old := r_pmpcfg s i in
  let new := if negb (grain s =? 0) && (e_mode new =? PMPM_NA4)
             then set_e_mode (e_mode old) new else new in
  if pmpLocked s i then old else new.

Definition with_cfg (s : riscvS) (c : Z -> Z) (v : vmiState) : riscvS := upd_vmi v (upd_pmpcfg c s).

Lemma covers_with s c v i a : covers (with_cfg s c v) i a = covers (set_cfg i (c i) s) i a.
Proof. unfold covers, napot_addr, grain_floor, with_cfg, set_cfg. simpl. by rewrite fn_lookup_insert. Qed.

Lemma ok_with s c v : pmp_ok s -> pmp_ok (with_cfg s c v).
Proof. intros []. by split. Qed.

Lemma domains_with s c v : domains_ok s -> domains_ok (with_cfg s c v).
Proof. intros []. by split. Qed.

Lemma locked_with s c v i : r_pmpcfg s i = c i -> pmpLocked (with_cfg s c v) i = pmpLocked s i.
Proof. unfold pmpLocked, getPMPCFGElem. by intros ->. Qed.

Lemma set_cfg_with s c v i e : set_cfg i e (with_cfg s c v) = with_cfg s (<[i := e]> c) v.
Proof. reflexivity. Qed.

Lemma invalidate_with s c v i :
  exists v', invalidatePMPEntry i (with_cfg s c v) = with_cfg s c v'.
Proof. destruct (invalidate_shape i (with_cfg s c v)) as [v' ->]. by exists v'. Qed.

(** At [a] neither the old nor the new contents of a changed entry cost
    [mode] its privileges. *)
Definition spared (s : riscvS) (c : Z -> Z) (i mode a : Z) : Prop :=
  c i = r_pmpcfg s i \/
  forall e, e = r_pmpcfg s i \/ e = c i ->
    invalidated (with_cfg s (<[i := e]> c) (r_vmi s)) i mode a = false.

Lemma invalidated_ext s c c' v v' i mode a :
  0 <= i -> (forall j, i <= j -> c j = c' j) ->
  invalidated (with_cfg s c v) i mode a = invalidated (with_cfg s c' v') i mode a.
Proof.
  intros Hi Hc. unfold invalidated, strict. rewrite !covers_with, (Hc i) by lia. cbn [with_cfg r_pmpcfg upd_vmi upd_pmpcfg].
  rewrite (Hc i) by lia. do 3 f_equal. apply eq_iff_eq_true. rewrite <- !not_false_iff_true.
  rewrite !lower_locked by done. unfold locked_entry. cbn [with_cfg r_pmpcfg upd_vmi upd_pmpcfg].
  split; intros Hn Hl; apply Hn; intros j Hj; [rewrite (Hc j)|rewrite <- (Hc j)]; auto; lia.
Qed.

(** New contents for an entry, with the privileges of the old and of the new
    region taken away. *)
Lemma replace_entry i s c v new :
  pmp_ok s -> domains_ok s ->
  exists v', invalidatePMPEntry i (set_cfg i new (invalidatePMPEntry i (with_cfg s c v))) =
             with_cfg s (<[i := new]> c) v' /\
    forall mode a, pmp_mode mode -> 0 <= a < 2 ^ 64 ->
      cached (with_cfg s (<[i := new]> c) v') mode a = MEM_PRIV_NONE \/
      (cached (with_cfg s (<[i := new]> c) v') mode a = cached (with_cfg s c v) mode a /\
       invalidated (with_cfg s c v) i mode a = false /\
       invalidated (with_cfg s (<[i := new]> c) v) i mode a = false).
Proof.
  intros H Hd.
  pose proof (fun m a => invalidate_cached i (with_cfg s c v) m a
                           (ok_with _ _ _ H) (domains_with _ _ _ Hd)) as H1.
  destruct (invalidate_with s c v i) as [v2 E2]. rewrite E2 in *. rewrite set_cfg_with.
  set (c3 := <[i := new]> c) in *.
  pose proof (fun m a => invalidate_cached i (with_cfg s c3 v2) m a
                           (ok_with _ _ _ H) (domains_with _ _ _ Hd)) as H3.
  destruct (invalidate_with s c3 v2 i) as [v3 E3]. rewrite E3 in *.
  exists v3. split; [done|]. intros mode a Hm Ha. rewrite (H3 mode a Hm Ha).
  destruct (invalidated (with_cfg s c3 v2) i mode a) eqn:Ei3; [by left|].
  change (cached (with_cfg s c3 v2) mode a) with (cached (with_cfg s c v2) mode a).
  rewrite (H1 mode a Hm Ha).
  destruct (invalidated (with_cfg s c v) i mode a) eqn:Ei1; [by left|]. by right.
Qed.

Lemma insert_ext (c c' : Z -> Z) i x :
  (forall j, j <> i -> c j = c' j) -> forall j, (<[i := x]> c) j = (<[i := x]> c') j.
Proof.
  intros Hc j. destruct (decide (i = j)) as [->|]; [by rewrite !fn_lookup_insert|].
  rewrite !fn_lookup_insert_ne by done. auto.
Qed.

Lemma insert_id (c : Z -> Z) i x : c i = x -> forall j, (<[i := x]> c) j = c j.
Proof.
  intros <- j. destruct (decide (i = j)) as [->|]; [by rewrite fn_lookup_insert|].
  by rewrite fn_lookup_insert_ne.
Qed.

Lemma insert_other (c : Z -> Z) i x j : j <> i -> (<[i := x]> c) j = c j.
Proof. intros. by rewrite fn_lookup_insert_ne. Qed.

(** One round of the loop over the entries. *)
Lemma write_entry_spec i s c v :
  pmp_ok s -> domains_ok s -> 0 <= i ->
  exists c' v', write_cfg_entry (r_pmpcfg s) (grain s) i (with_cfg s c v) = with_cfg s c' v' /\
    c' i = final_cfg s (c i) i /\ (forall j, j <> i -> c' j = c j) /\
    forall mode a, pmp_mode mode -> 0 <= a < 2 ^ 64 ->
      cached (with_cfg s c' v') mode a = MEM_PRIV_NONE \/
      (cached (with_cfg s c' v') mode a = cached (with_cfg s c v) mode a /\ spared s c' i mode a).
Proof.
  intros H Hd Hi. unfold write_cfg_entry, final_cfg.
  change (r_pmpcfg (with_cfg s c v) i) with (c i).
  set (fix_ := negb (grain s =? 0) && (e_mode (c i) =? PMPM_NA4)).
  set (new := if fix_ then _ else c i). set (s1 := if fix_ then _ else with_cfg s c v).
  assert (exists c1, s1 = with_cfg s c1 v /\ c1 i = new /\ forall j, j <> i -> c1 j = c j)
    as (c1 & -> & Hc1 & Ho1).
  { subst s1 new. destruct fix_; [|by exists c]. rewrite set_cfg_with. eexists. split; [done|].
    rewrite fn_lookup_insert. auto using insert_other. }
  destruct (Z.eqb_spec (r_pmpcfg s i) new) as [Heq|Hne]; simpl negb; cbv iota.
  { exists c1, v. rewrite Hc1, Heq. split_and!; try done; [by case_match|].
    intros. right. split; [done|]. left. congruence. }
  rewrite set_cfg_with. rewrite locked_with by (by rewrite fn_lookup_insert).
  set (c2 := <[i := r_pmpcfg s i]> c1).
  assert (Ho2 : forall x j, (<[i := x]> c2) j = (<[i := x]> c1) j)
    by (intros x; apply insert_ext; intros; by apply insert_other).
  destruct (pmpLocked s i) eqn:Hl; simpl negb; cbv iota.
  { exists c2, v. unfold c2. rewrite fn_lookup_insert. split_and!; try done.
    - intros j Hj. rewrite insert_other by done. auto.
    - intros. right. split; [done|]. left. by rewrite fn_lookup_insert. }
  destruct (replace_entry i s c2 v new H Hd) as (v' & -> & Hcache).
  exists (<[i := new]> c2), v'. rewrite fn_lookup_insert. split_and!; [done..| |].
  { intros j Hj. rewrite Ho2, insert_other by done. auto. }
  intros mode a Hm Ha. destruct (Hcache mode a Hm Ha) as [|(-> & Hold & Hnew)]; [by left|].
  right. split; [done|]. right. rewrite fn_lookup_insert. intros e [-> | ->].
  - rewrite <- Hold. apply invalidated_ext; [done|]. intros j _.
    rewrite (insert_ext _ c2) by (intros; by apply insert_other).
    apply insert_id. apply fn_lookup_insert.
  - rewrite <- Hnew. apply invalidated_ext; [done|]. intros j _.
    apply insert_id. apply fn_lookup_insert.
Qed.

(** The loop: entries from [n] up are final, the others as written. *)
Lemma write_entries_spec n s c v :
  pmp_ok s -> domains_ok s ->
  exists c' v', write_cfg_entries n (r_pmpcfg s) (grain s) (with_cfg s c v) = with_cfg s c' v' /\
    (forall i, c' i = if (0 <=? i) && (i <? Z.of_nat n) then final_cfg s (c i) i else c i) /\
    forall mode a, pmp_mode mode -> 0 <= a < 2 ^ 64 ->
      cached (with_cfg s c' v') mode a = MEM_PRIV_NONE \/
      (cached (with_cfg s c' v') mode a = cached (with_cfg s c v) mode a /\
       forall i, 0 <= i < Z.of_nat n -> spared s c' i mode a).
Proof.
  intros H Hd. revert c v. induction n as [|n IH]; intros c v.
  { exists c, v. split_and!; try done.
    - intros i. change (Z.of_nat 0) with 0. by replace ((0 <=? i) && (i <? 0)) with false by lia.
    - intros. right. split; [done|lia]. }
  simpl write_cfg_entries.
  destruct (write_entry_spec (Z.of_nat n) s c v H Hd) as (c1 & v1 & -> & Hn & Ho & Hc1); [lia|].
  destruct (IH c1 v1) as (c2 & v2 & -> & Hall & Hc2). exists c2, v2.
  assert (Hlast : c2 (Z.of_nat n) = c1 (Z.of_nat n)).
  { rewrite Hall. by replace ((0 <=? Z.of_nat n) && (Z.of_nat n <? Z.of_nat n)) with false by lia. }
  assert (Habove : forall j, Z.of_nat n <= j -> c2 j = c1 j).
  { intros j Hj. rewrite Hall. by replace ((0 <=? j) && (j <? Z.of_nat n)) with false by lia. }
  split_and!; [done| |].
  { intros i. destruct (decide (i = Z.of_nat n)) as [->|Hi].
    - rewrite Hlast, Hn. rewrite (proj2 (Z.leb_le 0 (Z.of_nat n))), (proj2 (Z.ltb_lt (Z.of_nat n) _)) by lia. done.
    - rewrite Hall, !Ho by done. replace (i <? Z.of_nat (S n)) with (i <? Z.of_nat n); [done|].
      destruct (Z.ltb_spec i (Z.of_nat n)), (Z.ltb_spec i (Z.of_nat (S n))); done || lia. }
  intros mode a Hm Ha. destruct (Hc2 mode a Hm Ha) as [|[-> Hsp]]; [by left|].
  destruct (Hc1 mode a Hm Ha) as [|[-> Hsp1]]; [by left|]. right. split; [done|].
  intros i Hi. destruct (decide (i = Z.of_nat n)) as [->|]; [|apply Hsp; lia].
  destruct Hsp1 as [Heq|Hinv]; [left; congruence|right]. intros e He.
  rewrite <- (Hinv e) by (destruct He as [-> | ->]; [by left|right; congruence]).
  apply invalidated_ext; [lia|]. intros j Hj.
  destruct (decide (j = Z.of_nat n)) as [->|]; [by rewrite !fn_lookup_insert|].
  rewrite !insert_other by done. by apply Habove.
Qed.

Lemma covers_set s i a : covers (set_cfg i (r_pmpcfg s i) s) i a = covers s i a.
Proof. unfold covers, napot_addr, grain_floor, set_cfg. simpl. by rewrite fn_lookup_insert. Qed.

Lemma spared_update s c v i mode a :
  0 <= i -> pmp_mode mode -> spared s c i mode a ->
  unaffected s (with_cfg s c v) i a \/ (mode = RISCV_MODE_MACHINE /\ soft s (with_cfg s c v) i a).
Proof.
  intros Hi Hm. unfold unaffected, soft. rewrite covers_with. intros [Heq|Hsp].
  { left. rewrite Heq, covers_set. done. }
  assert (Hold := Hsp _ (or_introl eq_refl)). assert (Hnew := Hsp _ (or_intror eq_refl)). clear Hsp.
  unfold invalidated, strict in Hold, Hnew. rewrite covers_with, fn_lookup_insert in Hold, Hnew.
  rewrite covers_set in Hold. simpl r_pmpcfg in Hold, Hnew. rewrite fn_lookup_insert in Hold, Hnew.
  destruct (covers s i a) eqn:Eo, (covers (set_cfg i (c i) s) i a) eqn:En; [..|by left];
    right; destruct Hm as [-> | ->]; try done; (split; [done|]); simpl in Hold, Hnew.
  all: apply orb_false_iff in Hold as [Hlo Hll] || apply orb_false_iff in Hnew as [Hln Hll].
  all: try apply orb_false_iff in Hnew as [Hln Hll'].
  all: split_and!; try done; intros j Hj.
  all: rewrite lower_locked in Hll by done; specialize (Hll j Hj); unfold locked_entry in *.
  all: simpl r_pmpcfg in *; by rewrite insert_other in Hll by lia.
Qed.

(** The entries of a configuration register as written, before locks. *)
Definition written_cfg (s : riscvS) (index newValue : Z) : Z -> Z :=
  let n := if is64 s then 8 else 4 in
  let offset := if is64 s then index / 2 else index in
  let left := num_pmp s - offset * n in
  let mask := if left >=? 8 then w64 (-1) else w64 (Z.shiftl 1 (left * 8) - 1) in
  set_cfg_word n offset (Z.land newValue (Z.land WM64_pmpcfg mask)) (r_pmpcfg s).

Lemma write_cfg_spec index x s :
  pmp_ok s -> domains_ok s ->
  exists c v, fst (riscvVMWritePMPCFG index x s) = with_cfg s c v /\
    (forall i, 0 <= i < NUM_PMPS ->
       c i = r_pmpcfg s i \/ c i = final_cfg s (written_cfg s index x i) i) /\
    forall mode a, pmp_mode mode -> 0 <= a < 2 ^ 64 ->
      cached (with_cfg s c v) mode a = MEM_PRIV_NONE \/
      (cached (with_cfg s c v) mode a = cached s mode a /\
       forall i, 0 <= i < NUM_PMPS -> spared s c i mode a).
Proof.
  intros H Hd. unfold riscvVMWritePMPCFG. cbn [fst].
  destruct ((if is64 s then index / 2 else index) <? _).
  2: { exists (r_pmpcfg s), (r_vmi s). split; [by destruct s|]. split; [by left|].
       intros. right. split; [done|]. intros. by left. }
  fold (written_cfg s index x).
  destruct (write_entries_spec (Z.to_nat NUM_PMPS) s (written_cfg s index x) (r_vmi s) H Hd)
    as (c & v & Heq & Hall & Hc).
  assert (Hs : upd_pmpcfg (written_cfg s index x) s = with_cfg s (written_cfg s index x) (r_vmi s))
    by (by destruct s).
  rewrite Hs, Heq. exists c, v. split_and!; [done| |].
  - intros i Hi. right. rewrite Hall. change (Z.of_nat (Z.to_nat NUM_PMPS)) with 16.
    by rewrite (proj2 (Z.leb_le 0 i)), (proj2 (Z.ltb_lt i 16)) by lia.
  - intros mode a Hm Ha. exact (Hc mode a Hm Ha).
Qed.

Lemma write_cfg_coherent index x s :
  pmp_ok s -> domains_ok s -> coherent s -> coherent (fst (riscvVMWritePMPCFG index x s)).
Proof.
  intros H Hd. destruct (write_cfg_spec index x s H Hd) as (c & v & -> & _ & Hc).
  apply coherent_update; [done..|]. intros mode a Hm Ha.
  destruct (Hc mode a Hm Ha) as [|[-> Hsp]]; [by left|]. right. split; [done|].
  intros i Hi. pose proof (ok_regs s H). apply spared_update; [lia|done|]. apply Hsp. lia.
Qed.

(** A locked entry keeps its configuration. *)
Lemma write_cfg_locked index x s i :
  pmp_ok s -> domains_ok s -> 0 <= i < NUM_PMPS -> pmpLocked s i = true ->
  r_pmpcfg (fst (riscvVMWritePMPCFG index x s)) i = r_pmpcfg s i.
Proof.
  intros H Hd Hi Hl. destruct (write_cfg_spec index x s H Hd) as (c & v & -> & Hall & _).
  simpl. destruct (Hall i Hi) as [|Hf]; [done|]. rewrite Hf. unfold final_cfg. by rewrite Hl.
Qed.

End Writes.
