(* ===== verification/RvPmpRuns.v ===== *)
(** * Sequences of PMP operations

    Address-register writes and reset, and the theorems on sequences of
    operations: privileges stay within the reference as long as no write moves
    the lower bound of a top-of-range entry, and locked entries keep their
    region and permissions. *)

From stdpp Require Import functions.
From S2P Require Import Prelude RvTypes RvHart RvHartFacts RvPmp RvPmpFacts RvPmpCache.
From S2P Require Import RvPmpWrite.

Section Runs.

Context `{V : VmiRt}.
Implicit Types s : riscvS.

(** ** Address registers *)

(** The address-register value a write of [x] leaves. *)
Definition written_addr (s : riscvS) (x : Z) : Z :=
  let x := Z.land x (Z.shiftr (getAddressMask (r_extBits s)) 2) in
  if negb (grain s =? 0) then Z.land x (ones_above (grain s - 1)) else x.

Lemma land_below a b n : 0 <= b < n -> 0 <= Z.land a b < n.
Proof.
  intros Hb. assert (0 <= Z.land a b <= b); [|lia]. apply Z.ldiff_le; [lia|].
  apply Z.bits_inj'. intros i Hi. rewrite Z.ldiff_spec, Z.land_spec, Z.bits_0.
  by destruct (Z.testbit a i), (Z.testbit b i).
Qed.

Lemma written_addr_range s x : pmp_ok s -> 0 <= written_addr s x < 2 ^ 62.
Proof.
  intros H. destruct (address_mask _ (ok_ext s H)) as (_ & Hm & _). unfold written_addr.
  assert (Hx : 0 <= Z.land x (Z.shiftr (getAddressMask (r_extBits s)) 2) < 2 ^ 62).
  { apply land_below. rewrite shiftr_div by lia. zlia. }
  case_match; [|done]. rewrite Z.land_comm. by apply land_below.
Qed.

(** Entry [index]+1 takes its lower bound from register [index]. *)
Definition tor_above (s : riscvS) (index : Z) : bool :=
  (index + 1 <? num_pmp s) && (e_mode (r_pmpcfg s (index + 1)) =? PMPM_TOR).

Lemma covers_addr_other s k x v j a :
  j <> k -> (e_mode (r_pmpcfg s j) = PMPM_TOR -> j <> k + 1) ->
  covers (upd_vmi v (set_addr k x s)) j a = covers s j a.
Proof.
  intros Hj Ht. unfold covers, napot_addr, grain_floor, set_addr.
  cbn [r_pmpcfg r_pmpaddr r_configInfo upd_vmi upd_pmpaddr].
  rewrite !(insert_other _ k x j) by done.
  destruct (Z.eqb_spec (e_mode (r_pmpcfg s j)) PMPM_TOR) as [Hm|]; [|done].
  rewrite !(insert_other _ k x (j - 1)) by (specialize (Ht Hm); lia). done.
Qed.

Context `{L : !VmiRtLaws V}.

Lemma write_addr_spec index x s :
  pmp_ok s -> domains_ok s ->
  let s' := fst (riscvVMWritePMPAddr index x s) in
  s' = s \/
  (pmpLocked s index = false /\ pmpLockedTOR s (index + 1) = false /\
   exists v, s' = upd_vmi v (set_addr index (written_addr s x) s) /\
    forall mode a, pmp_mode mode -> 0 <= a < 2 ^ 64 ->
      cached s' mode a = MEM_PRIV_NONE \/
      (cached s' mode a = cached s mode a /\
       invalidated s index mode a = false /\ invalidated s' index mode a = false)).
Proof.
  intros H Hd. unfold riscvVMWritePMPAddr. fold (written_addr s x). cbn [fst].
  destruct ((index <? num_pmp s) && _); [|by left].
  destruct (pmpLocked s index); [by left|]. destruct (pmpLockedTOR s (index + 1)); [by left|].
  right. split_and!; [done..|].
  pose proof (fun m a => invalidate_cached index s m a H Hd) as H1.
  destruct (invalidate_shape index s) as [v1 E1]. rewrite E1 in *.
  set (y := written_addr s x) in *. set (s2 := set_addr index y (upd_vmi v1 s)) in *.
  assert (H2 : pmp_ok s2).
  { destruct H. split; try done. intros i. unfold s2, set_addr. simpl.
    destruct (decide (i = index)) as [->|]; [rewrite fn_lookup_insert|by rewrite insert_other].
    by apply written_addr_range. }
  assert (Hd2 : domains_ok s2) by (destruct Hd; by split).
  pose proof (fun m a => invalidate_cached index s2 m a H2 Hd2) as H3.
  destruct (invalidate_shape index s2) as [v2 E2]. rewrite E2 in *.
  exists v2. split; [done|]. intros mode a Hm Ha. rewrite (H3 mode a Hm Ha).
  destruct (invalidated s2 index mode a) eqn:Ei2; [by left|].
  change (cached s2 mode a) with (cached (upd_vmi v1 s) mode a). rewrite (H1 mode a Hm Ha).
  destruct (invalidated s index mode a) eqn:Ei1; [by left|]. right. by split_and!.
Qed.

Lemma write_addr_ok index x s :
  pmp_ok s -> domains_ok s ->
  pmp_ok (fst (riscvVMWritePMPAddr index x s)) /\ domains_ok (fst (riscvVMWritePMPAddr index x s)).
Proof.
  intros H Hd. pose proof (written_addr_range s x H) as Hr.
  destruct (write_addr_spec index x s H Hd) as [->|(_ & _ & v & -> & _)]; [done|].
  destruct H, Hd. split; split; try done. intros i. simpl.
  destruct (decide (i = index)) as [->|]; [by rewrite fn_lookup_insert|by rewrite insert_other].
Qed.

(** An entry whose region a write may change, left alone at [a]. *)
Lemma entry_kept s s' i mode a :
  0 <= i -> pmp_mode mode -> r_pmpcfg s' = r_pmpcfg s ->
  invalidated s i mode a = false -> invalidated s' i mode a = false ->
  unaffected s s' i a \/ (mode = RISCV_MODE_MACHINE /\ soft s s' i a).
Proof.
  intros Hi Hm Hcfg Ho Hn. unfold unaffected, soft, invalidated, strict in *. rewrite Hcfg in *.
  destruct (covers s i a), (covers s' i a); [left; done| | |left; done];
    right; destruct Hm as [-> | ->]; try done; (split; [done|]); simpl in Ho, Hn.
  1: apply orb_false_iff in Ho as [Hl Hll]. 2: apply orb_false_iff in Hn as [Hl Hll].
  all: split_and!; try done; rewrite lower_locked in Hll by done; intros j Hj.
  all: specialize (Hll j Hj); unfold locked_entry in *; by rewrite ?Hcfg in *.
Qed.

Lemma write_addr_coherent index x s :
  pmp_ok s -> domains_ok s -> 0 <= index -> tor_above s index = false ->
  coherent s -> coherent (fst (riscvVMWritePMPAddr index x s)).
Proof.
  intros H Hd Hi Ht Hc. destruct (write_addr_spec index x s H Hd) as [->|(_ & _ & v & Hs & Hcache)]; [done|].
  rewrite Hs in *. revert Hc. apply coherent_update; [done..|]. intros mode a Hm Ha.
  destruct (Hcache mode a Hm Ha) as [|(-> & Ho & Hn)]; [by left|]. right. split; [done|].
  intros i Hir. destruct (decide (i = index)) as [->|Hne].
  { by apply entry_kept. }
  left. split; [|done]. apply covers_addr_other; [done|]. intros Hm' ->. unfold tor_above in Ht.
  rewrite Hm' in Ht. destruct (Z.ltb_spec (index + 1) (num_pmp s)); [done|lia].
Qed.

(** A locked entry keeps its address register, and the one below it if it is
    a top-of-range entry. *)
Lemma write_addr_locked index x s i :
  pmp_ok s -> domains_ok s -> 0 <= i < NUM_PMPS -> pmpLocked s i = true ->
  let s' := fst (riscvVMWritePMPAddr index x s) in
  r_pmpcfg s' = r_pmpcfg s /\ r_artifactAccess s' = r_artifactAccess s /\
  r_configInfo s' = r_configInfo s /\ r_pmpaddr s' i = r_pmpaddr s i /\
  (e_mode (r_pmpcfg s i) = PMPM_TOR -> r_pmpaddr s' (i - 1) = r_pmpaddr s (i - 1)).
Proof.
  intros H Hd Hi Hl. destruct (write_addr_spec index x s H Hd) as [->|(Hu & Ht & v & -> & _)]; [done|].
  simpl. split_and!; try done.
  - apply insert_other. intros ->. congruence.
  - intros Hm. apply insert_other. intros <-. replace (i - 1 + 1) with i in Ht by lia.
    unfold pmpLockedTOR in Ht. rewrite Hl in Ht. unfold getPMPCFGElem in Ht. rewrite Hm in Ht.
    destruct (Z.ltb_spec i NUM_PMPS); [done|lia].
Qed.

(** ** Reset *)

(** The first [n] entries of [s] have been reset in [s']. *)
Record reset_to (n : Z) (s s' : riscvS) : Prop := {
  rt_shape : exists v c d, s' = upd_vmi v (upd_pmpcfg c (upd_pmpaddr d s));
  rt_cfg i : r_pmpcfg s' i = if (0 <=? i) && (i <? n) then 0 else r_pmpcfg s i;
  rt_addr i : r_pmpaddr s' i = if (0 <=? i) && (i <? n) then 0 else r_pmpaddr s i;
  rt_cached mode a : pmp_mode mode -> 0 <= a < 2 ^ 64 ->
    cached s' mode a = MEM_PRIV_NONE \/
    (cached s' mode a = cached s mode a /\
     forall i, 0 <= i < n -> covers s i a = true ->
       mode = RISCV_MODE_MACHINE /\ e_L (r_pmpcfg s i) = false);
}.

Lemma reset_to_ok n s s' : reset_to n s s' -> pmp_ok s -> domains_ok s -> pmp_ok s' /\ domains_ok s'.
Proof.
  intros [(v & c & d & Hs) _ Ha _] [] []. subst s'. split; split; try done.
  intros i. rewrite Ha. case_match; [lia|done].
Qed.

(** An entry whose lower bound has been cleared covers what it covered. *)
Lemma covers_lowered n s s' a :
  0 <= n -> pmp_ok s -> reset_to n s s' -> covers s n a = true -> covers s' n a = true.
Proof.
  intros Hn H [(v & c & d & Hs) Hc Ha _]. subst s'. specialize (Hc n). pose proof (Ha n) as Han.
  specialize (Ha (n - 1)). rewrite Z.ltb_irrefl, andb_false_r in Hc, Han.
  unfold covers, napot_addr, grain_floor in *.
  cbn [r_pmpcfg r_pmpaddr r_configInfo upd_vmi upd_pmpaddr upd_pmpcfg] in *. rewrite Hc, Han, Ha.
  destruct (e_mode (r_pmpcfg s n) =? PMPM_OFF); [done|].
  destruct (e_mode (r_pmpcfg s n) =? PMPM_TOR); [|done]. rewrite !andb_true_iff. intros [Hlo Hhi]. split; [|done].
  destruct (n =? 0); [done|].
  pose proof (ok_grain s H). pose proof (ok_addr s H (n - 1)).
  pose proof (Z.div_pos (r_pmpaddr s (n - 1)) (2 ^ grain s)).
  case_match; [|done]. rewrite Z.div_0_l by lia. nia.
Qed.

Lemma reset_entry_step n s s' :
  0 <= n < NUM_PMPS -> pmp_ok s -> domains_ok s ->
  reset_to n s s' -> reset_to (n + 1) s (reset_entry n s').
Proof.
  intros Hn H Hd R. destruct (reset_to_ok n s s' R H Hd) as [H' Hd'].
  pose proof (fun a => covers_lowered n s s' a (proj1 Hn) H R) as Hlow. destruct R as [(v & c & d & Hs) Hc Ha Hcache].
  assert (Hcn : r_pmpcfg s' n = r_pmpcfg s n) by (rewrite Hc, Z.ltb_irrefl, andb_false_r; done).
  assert (Hrange : forall i, (0 <=? i) && (i <? n + 1) = (i =? n) || ((0 <=? i) && (i <? n))) by lia.
  unfold reset_entry. destruct (negb (r_pmpaddr s' n =? 0) || negb (r_pmpcfg s' n =? 0)) eqn:Hz.
  - pose proof (fun m a => invalidate_cached n s' m a H' Hd') as Hi.
    destruct (invalidate_shape n s') as [v1 E1]. rewrite E1 in *. split.
    + rewrite Hs. exists v1, (<[n := 0]> c), (<[n := 0]> d). reflexivity.
    + intros i. cbn [r_pmpcfg set_cfg upd_pmpcfg]. rewrite Hrange.
      destruct (Z.eqb_spec i n) as [->|]; [by rewrite fn_lookup_insert|].
      rewrite insert_other by done. apply Hc.
    + intros i. cbn [r_pmpaddr set_addr set_cfg upd_pmpcfg upd_pmpaddr]. rewrite Hrange.
      destruct (Z.eqb_spec i n) as [->|]; [by rewrite fn_lookup_insert|].
      rewrite insert_other by done. apply Ha.
    + intros mode a Hm Hr. specialize (Hi mode a Hm Hr).
      change (cached (set_cfg n 0 (set_addr n 0 (upd_vmi v1 s'))) mode a)
        with (cached (upd_vmi v1 s') mode a). rewrite Hi.
      destruct (invalidated s' n mode a) eqn:Ei; [by left|].
      destruct (Hcache mode a Hm Hr) as [|[-> Hall]]; [by left|]. right. split; [done|].
      intros i Hir Hcov. destruct (decide (i = n)) as [->|]; [|apply Hall; (lia || done)].
      unfold invalidated, strict in Ei. rewrite Hlow, Hcn in Ei by (done || lia). simpl in Ei.
      destruct Hm as [-> | ->]; [done|]. simpl in Ei. by apply orb_false_iff in Ei as [].
  - apply orb_false_iff in Hz as [Hz1 Hz2]. apply negb_false_iff, Z.eqb_eq in Hz1, Hz2. split.
    + by exists v, c, d.
    + intros i. rewrite Hrange. destruct (Z.eqb_spec i n) as [->|]; [done|by rewrite Hc].
    + intros i. rewrite Hrange. destruct (Z.eqb_spec i n) as [->|]; [done|by rewrite Ha].
    + intros mode a Hm Hr. destruct (Hcache mode a Hm Hr) as [|[-> Hall]]; [by left|].
      right. split; [done|]. intros i Hir Hcov.
      destruct (decide (i = n)) as [->|]; [|apply Hall; (lia || done)].
      apply covers_on in Hcov. rewrite <- Hcn, Hz2 in Hcov. done.
Qed.

Lemma reset_all k s :
  Z.of_nat k <= NUM_PMPS -> pmp_ok s -> domains_ok s ->
  reset_to (Z.of_nat k) s (fold_left (fun s i => reset_entry i s) (indices 0 k) s).
Proof.
  intros Hk H Hd. induction k as [|k IH].
  - change (Z.of_nat 0) with 0. cbn [indices fold_left]. split.
    + exists (r_vmi s), (r_pmpcfg s), (r_pmpaddr s). by destruct s.
    + intros i. by replace ((0 <=? i) && (i <? 0)) with false by lia.
    + intros i. by replace ((0 <=? i) && (i <? 0)) with false by lia.
    + intros. right. split; [done|lia].
  - rewrite indices_snoc, fold_left_app. cbn [fold_left]. rewrite Z.add_0_l.
    replace (Z.of_nat (S k)) with (Z.of_nat k + 1) by lia.
    apply reset_entry_step; try done; [lia|]. apply IH. lia.
Qed.

Lemma reset_pmp_spec s :
  pmp_ok s -> domains_ok s -> reset_to (num_pmp s) s (riscvVMResetPMP s).
Proof.
  intros H Hd. pose proof (ok_regs s H). unfold riscvVMResetPMP.
  replace (num_pmp s) with (Z.of_nat (Z.to_nat (num_pmp s))) at 1 by lia.
  apply reset_all; (done || lia).
Qed.

Lemma reset_priv s s' mode a :
  reset_to (num_pmp s) s s' -> pmp_priv s' mode a = default_priv mode.
Proof.
  intros [(v & c & d & Hs) Hc _ _]. rewrite pmp_priv_fold.
  assert (Hn : num_pmp s' = num_pmp s) by (by subst s'). rewrite Hn.
  assert (Hall : forall i, i ∈ indices 0 (Z.to_nat (num_pmp s)) -> covers s' i a = false).
  { intros i Hi%elem_of_indices. apply not_true_iff_false. intros Hcov%covers_on. apply Hcov.
    rewrite Hc. by replace ((0 <=? i) && (i <? num_pmp s)) with true by lia. }
  clear Hc Hn. induction (indices 0 _) as [|i l IH]; [done|]. simpl.
  rewrite (Hall i) by left. apply IH. intros; apply Hall. by right.
Qed.

Lemma reset_coherent s : pmp_ok s -> domains_ok s -> coherent s -> coherent (riscvVMResetPMP s).
Proof.
  intros H Hd Hco mode a Hm Ha. pose proof (reset_pmp_spec s H Hd) as R.
  rewrite (reset_priv s _ mode a R). destruct (rt_cached _ _ _ R mode a Hm Ha) as [|[-> Hall]]; [by left|].
  destruct (Hco mode a Hm Ha) as [|Hp]; [by left|]. right. rewrite Hp.
  pose proof (ok_regs s H). unfold pmp_priv. destruct (find _ _) as [i|] eqn:Ef; [|done].
  apply find_some in Ef as [Hi Hcov]. apply list_elem_of_In, elem_of_indices in Hi.
  destruct (Hall i ltac:(lia) Hcov) as [-> Hl]. by apply entry_priv_unlocked.
Qed.

(** ** Runs *)

Inductive pmp_op : Type :=
| WriteCfg (index newValue : Z)
| WriteAddr (index newValue : Z)
| Map (mode requiredPriv lowPA highPA : Z)
| ResetPMP.

Definition pmp_do (op : pmp_op) (s : riscvS) : option riscvS :=
  match op with
  | WriteCfg index x => Some (fst (riscvVMWritePMPCFG index x s))
  | WriteAddr index x => Some (fst (riscvVMWritePMPAddr index x s))
  | Map mode priv low high => mapPMP (Z.to_nat (high - low + 1)) mode priv low high s
  | ResetPMP => Some (riscvVMResetPMP s)
  end.

Definition op_valid (op : pmp_op) : Prop :=
  match op with
  | WriteAddr index _ => 0 <= index < NUM_PMPS
  | Map mode _ low high => pmp_mode mode /\ 0 <= low <= high /\ high < 2 ^ 64
  | _ => True
  end.

(** The operation does not move the lower bound of a top-of-range entry. *)
Definition keeps_bounds (s : riscvS) (op : pmp_op) : Prop :=
  match op with WriteAddr index _ => tor_above s index = false | _ => True end.

Inductive pmp_run (ok : riscvS -> pmp_op -> Prop) : riscvS -> riscvS -> Prop :=
| run_done s : pmp_run ok s s
| run_op s op s1 s2 :
    op_valid op -> ok s op -> pmp_do op s = Some s1 -> pmp_run ok s1 s2 -> pmp_run ok s s2.

Lemma write_cfg_ok index x s :
  pmp_ok s -> domains_ok s ->
  pmp_ok (fst (riscvVMWritePMPCFG index x s)) /\ domains_ok (fst (riscvVMWritePMPCFG index x s)).
Proof.
  intros H Hd. destruct (write_cfg_spec index x s H Hd) as (c & v & -> & _).
  auto using ok_with, domains_with.
Qed.

Lemma map_total mode req low high s :
  pmp_ok s -> domains_ok s -> pmp_mode mode -> 0 <= low <= high -> high < 2 ^ 64 ->
  exists s', mapPMP (Z.to_nat (high - low + 1)) mode req low high s = Some s' /\ same_regs s s' /\
    (num_pmp s <> 0 -> forall a, low <= a <= high -> a < 2 ^ r_extBits s ->
       cached s' mode a = pmp_priv s mode a) /\
    (coherent s -> coherent s').
Proof.
  intros H Hd Hm Hl Hh. destruct (decide (num_pmp s = 0)) as [Hn|Hn].
  { exists s. unfold mapPMP. rewrite Hn. split_and!; auto using same_regs_refl. done. }
  destruct (map_pmp_spec (Z.to_nat (high - low + 1)) mode req low high s) as (s' & He & Hs & Hall & Ho);
    try (done || lia).
  exists s'. split_and!; try done. intros Hc m a Hma Ha. rewrite (same_regs_priv s s' m a Hs).
  destruct (Ho m a Hma) as [->|[-> ->]]; [by apply Hc|by right].
Qed.

Lemma pmp_do_ok op s :
  op_valid op -> pmp_ok s -> domains_ok s ->
  exists s', pmp_do op s = Some s' /\ pmp_ok s' /\ domains_ok s' /\
    (keeps_bounds s op -> coherent s -> coherent s').
Proof.
  intros Hv H Hd. destruct op as [index x|index x|mode req low high|]; simpl in *.
  - eexists. split; [done|]. destruct (write_cfg_ok index x s H Hd).
    split_and!; [done..|]. intros. by apply write_cfg_coherent.
  - eexists. split; [done|]. destruct (write_addr_ok index x s H Hd).
    split_and!; try done. intros. apply write_addr_coherent; (done || lia).
  - destruct Hv as (Hm & Hl & Hh).
    destruct (map_total mode req low high s H Hd Hm Hl Hh) as (s' & He & Hs & _ & Hc).
    exists s'. split_and!; eauto using same_regs_ok, same_regs_domains.
  - eexists. split; [done|]. destruct (reset_to_ok _ _ _ (reset_pmp_spec s H Hd) H Hd).
    split_and!; [done..|]. intros. by apply reset_coherent.
Qed.

End Runs.
