(* ===== verification/RvCsr.v ===== *)
(** * The control and status registers of the OVP processor model

    riscvCSR.c of src/models/ovp/source/yggdrasill.ga/processor/riscv/1.0/
    model, first part: what reading and writing each register does, the
    read/write callbacks of the register table in the order of the file.

    A callback is a function of the register number (all it uses of its
    attributes), the value written and the hart; it returns the hart and the
    value read back.  It is [None] where a trap it takes has no defined entry
    (see RvTrap.v) or a shift is undefined. *)

From stdpp Require Import functions.
From S2P Require Import Prelude RvTypes RvTables RvDecode RvHart RvTrap RvPmp.

Abbreviation sstatus_AMASK := 0x80000003800de133.
Abbreviation ustatus_AMASK := 0x11.
Abbreviation WM_mstatus_IE := 0xf.
Abbreviation WM32_fflags := 0x1f.
Abbreviation WM32_frm := 0x7.
Abbreviation WM32_mip := 0x333.
Abbreviation WM32_sip := 0x103.
Abbreviation WM32_uip := 0x1.

Section Csr.

Context `{V : VmiRt} `{X : VmiCxt}.
Implicit Types s : riscvS.

(** RISCV_CSR_READFN and RISCV_CSR_WRITEFN. *)
Definition riscvCSRReadFn : Type := Z -> riscvS -> option (riscvS * Z).
Definition riscvCSRWriteFn : Type := Z -> Z -> riscvS -> option (riscvS * Z).

(** [(new & mask) | (old & ~mask)] *)
Definition masked (newValue oldValue mask : Z) : Z :=
  Z.lor (Z.land newValue mask) (Z.ldiff oldValue mask).

(** ** ISA register *)

Definition misaW : riscvCSRWriteFn := fun _ newValue s =>
  let arch := c_arch (r_configInfo s) in
  let archMask := c_archMask (r_configInfo s) in
  let oldValue := RD_CSR s misa in
  let mask := RD_CSR_MASK s misa in
  let newValue := masked newValue oldValue mask in
  let newValue :=
    if any oldValue ISA_C && negb (any newValue ISA_C) && any (getPC s) 3
    then oldValue else newValue in
  let newValue :=
    if any newValue ISA_I then Z.ldiff newValue ISA_E else Z.lor newValue ISA_E in
  let newValue :=
    if negb (Z.land arch ISA_DF =? ISA_DF) then newValue
    else if Z.land archMask ISA_DF =? ISA_DF then
      if negb (c_d_requires_f (r_configInfo s)) then newValue
      else if negb (any newValue ISA_F) then Z.ldiff newValue ISA_D
      else newValue
    else if Z.land archMask ISA_DF =? ISA_D then
      if any newValue ISA_D then Z.lor newValue ISA_F else Z.ldiff newValue ISA_F
    else if Z.land archMask ISA_DF =? ISA_F then
      if any newValue ISA_F then Z.lor newValue ISA_D else Z.ldiff newValue ISA_D
    else newValue in
  let s := WR_CSR misa newValue s in
  let s := riscvSetCurrentArch s in
  Some (s, RD_CSR s misa).

(** ** Floating-point registers *)

(** The bits NX, UF, OF, DZ and NV. *)
Definition flags_value (f : vmiFPFlags) : Z :=
  Z.b2z (fp_P f) + 2 * Z.b2z (fp_U f) + 4 * Z.b2z (fp_O f) + 8 * Z.b2z (fp_Z f) +
  16 * Z.b2z (fp_I f).
Definition value_flags (x : Z) : vmiFPFlags :=
  FPFlags (Z.testbit x 0) (Z.testbit x 1) (Z.testbit x 2) (Z.testbit x 3) (Z.testbit x 4).

Definition fflagsR : riscvCSRReadFn := fun _ s => Some (s, flags_value (r_fpFlags s)).

Definition fflagsW : riscvCSRWriteFn := fun _ newValue s =>
  let fflags := Z.land newValue WM32_fflags in
  Some (upd_fpFlags (value_flags fflags) s, fflags).

Definition frmR : riscvCSRReadFn := fun _ s => Some (s, RD_CSR_FIELD s fcsr fcsr_frm).

Definition refreshFPCR (oldRM : Z) (s : riscvS) : riscvS :=
  let newRM := RD_CSR_FIELD s fcsr fcsr_frm in
  let s :=
    if negb (oldRM =? newRM) then
      let s := updateCurrentRMValid s in
      match mapFRMToRC (RD_CSR_FIELD s fcsr fcsr_frm) with
      | Some rc => upd_vmi (vmirtSetFPControlWord rc (r_vmi s)) s
      | None => s
      end
    else s in
  WR_CSR_FIELD vxrm vxrm_rm (RD_CSR_FIELD s fcsr fcsr_vxrm) s.

Definition frmW : riscvCSRWriteFn := fun _ newValue s =>
  let oldRM := RD_CSR_FIELD s fcsr fcsr_frm in
  let frm := Z.land newValue WM32_frm in
  let s := WR_CSR_FIELD fcsr fcsr_frm frm s in
  Some (refreshFPCR oldRM s, frm).

Definition fcsrR : riscvCSRReadFn := fun _ s =>
  let f := r_fpFlags s in
  let s := WR_CSR_FIELD fcsr fcsr_NX (Z.b2z (fp_P f)) s in
  let s := WR_CSR_FIELD fcsr fcsr_UF (Z.b2z (fp_U f)) s in
  let s := WR_CSR_FIELD fcsr fcsr_OF (Z.b2z (fp_O f)) s in
  let s := WR_CSR_FIELD fcsr fcsr_DZ (Z.b2z (fp_Z f)) s in
  let s := WR_CSR_FIELD fcsr fcsr_NV (Z.b2z (fp_I f)) s in
  let s := WR_CSR_FIELD fcsr fcsr_vxsat (RD_CSR s vxsat) s in
  Some (s, RD_CSR s fcsr).

Definition fcsrW : riscvCSRWriteFn := fun _ newValue s =>
  let mask := RD_CSR_MASK s fcsr in
  let oldRM := RD_CSR_FIELD s fcsr fcsr_frm in
  let s := WR_CSR fcsr (Z.land newValue mask) s in
  let bit f := negb (RD_CSR_FIELD s fcsr f =? 0) in
  let s := upd_fpFlags (FPFlags (bit fcsr_NX) (bit fcsr_UF) (bit fcsr_OF) (bit fcsr_DZ)
                          (bit fcsr_NV)) s in
  let s := WR_CSR vxsat (RD_CSR_FIELD s fcsr fcsr_vxsat) s in
  let s := refreshFPCR oldRM s in
  Some (s, RD_CSR s fcsr).

(** ** Status registers *)

Definition statusR (s : riscvS) : riscvS * Z :=
  let FS := RD_CSR_FIELD s mstatus status_FS in
  let XS := RD_CSR_FIELD s mstatus status_XS in
  let fix_ := negb (FS =? 0) && negb (FS =? 3) && c_fs_always_dirty (r_configInfo s) in
  let FS := if fix_ then 3 else FS in
  let s := if fix_ then WR_CSR_FIELD mstatus status_FS FS s else s in
  let SD := (FS =? 3) || (XS =? 3) in
  let s := upd_csr (wr_field true mstatus status_SD 0 (r_csr s)) s in
  let s := upd_csr (wr_field false mstatus status_SD 0 (r_csr s)) s in
  let s := WR_CSR_FIELD mstatus status_SD (Z.b2z SD) s in
  (s, RD_CSR s mstatus).

Definition statusW (newValue mask : Z) (s : riscvS) : riscvS :=
  let oldValue := RD_CSR s mstatus in
  let oldIE := Z.land oldValue WM_mstatus_IE in
  let newValue := masked newValue oldValue mask in
  let newIE := Z.land newValue WM_mstatus_IE in
  let oldMPP := RD_CSR_FIELD s mstatus status_MPP in
  let s := WR_CSR mstatus newValue s in
  let newMPP := RD_CSR_FIELD s mstatus status_MPP in
  let s := if negb (riscvHasMode s newMPP) then WR_CSR_FIELD mstatus status_MPP oldMPP s else s in
  let s := riscvSetCurrentArch s in
  let s := riscvVMSetASID s in
  let s := riscvVMRefreshMPRVDomain s in
  if negb (Z.ldiff newIE oldIE =? 0) then riscvTestInterrupt s else s.

Definition mstatusR : riscvCSRReadFn := fun _ s => Some (statusR s).

Definition mstatusW : riscvCSRWriteFn := fun _ newValue s =>
  let s := statusW newValue (RD_CSR_MASK s mstatus) s in
  Some (s, RD_CSR s mstatus).

Definition sstatusR : riscvCSRReadFn := fun _ s =>
  let '(s, value) := statusR s in Some (s, Z.land value sstatus_AMASK).

Definition sstatusW : riscvCSRWriteFn := fun _ newValue s =>
  let mask := Z.land (RD_CSR_MASK s mstatus) sstatus_AMASK in
  let s := statusW newValue mask s in
  Some (s, Z.land (RD_CSR s mstatus) sstatus_AMASK).

Definition ustatusR : riscvCSRReadFn := fun _ s =>
  let '(s, value) := statusR s in Some (s, Z.land value ustatus_AMASK).

Definition ustatusW : riscvCSRWriteFn := fun _ newValue s =>
  let mask := Z.land (RD_CSR_MASK s mstatus) ustatus_AMASK in
  let s := statusW newValue mask s in
  Some (s, Z.land (RD_CSR s mstatus) ustatus_AMASK).

(** ** Exception program counters *)

Definition epcR (s : riscvS) (epc : Z) : Z :=
  if r_artifactAccess s then epc
  else if negb (any (r_currentArch s) ISA_C) then Z.land epc (w64 (-4))
  else epc.

(** mepcR, sepcR and uepcR. *)
Definition xepcR (n : csrName) : riscvCSRReadFn := fun _ s => Some (s, epcR s (RD_CSR s n)).

(** ** Interrupt enables, pending bits and delegation *)

Definition getSIRMask (s : riscvS) : Z := w32 (RD_CSR s mideleg).
Definition getUIRMask (s : riscvS) : Z := w32 (Z.land (RD_CSR s mideleg) (RD_CSR s sideleg)).

Definition ipR (s : riscvS) (rMask : Z) (isWrite : bool) : Z :=
  let result := r_swip s in
  if negb (r_inSaveRestore s) then
    Z.land (if isWrite then result else RD_CSR s mip) rMask
  else result.

Definition ipW (newValue rMask : Z) (s : riscvS) : riscvS * Z :=
  let oldValue := r_swip s in
  let newValue :=
    if negb (r_inSaveRestore s) then
      masked newValue oldValue (w32 (Z.land (RD_CSR_MASK s mie) rMask))
    else newValue in
  let s := upd_swip (w32 newValue) s in
  let s := if negb (oldValue =? newValue) then riscvUpdatePending s else s in
  (s, ipR s rMask true).

Definition mipRW : riscvCSRReadFn := fun _ s => Some (s, ipR s WM32_mip true).
Definition mipW : riscvCSRWriteFn := fun _ newValue s => Some (ipW newValue WM32_mip s).
Definition mipR : riscvCSRReadFn := fun _ s => Some (s, ipR s (w64 (-1)) false).
Definition sipR : riscvCSRReadFn := fun _ s => Some (s, ipR s (getSIRMask s) false).
Definition sipRW : riscvCSRReadFn := fun _ s =>
  Some (s, ipR s (Z.land (getSIRMask s) WM32_sip) true).
Definition sipW : riscvCSRWriteFn := fun _ newValue s =>
  Some (ipW newValue (Z.land (getSIRMask s) WM32_sip) s).
Definition uipR : riscvCSRReadFn := fun _ s => Some (s, ipR s (getUIRMask s) false).
Definition uipRW : riscvCSRReadFn := fun _ s =>
  Some (s, ipR s (Z.land (getUIRMask s) WM32_uip) true).
Definition uipW : riscvCSRWriteFn := fun _ newValue s =>
  Some (ipW newValue (Z.land (getUIRMask s) WM32_uip) s).

Definition ieR (s : riscvS) (rMask : Z) : Z := w32 (Z.land (RD_CSR s mie) rMask).

Definition ieW (newValue rMask : Z) (s : riscvS) : riscvS * Z :=
  let oldValue := w32 (RD_CSR s mie) in
  let wMask := w32 (Z.land (RD_CSR_MASK s mie) rMask) in
  let newValue := masked (w32 newValue) oldValue wMask in
  let s := WR_CSR mie newValue s in
  let s := if negb (oldValue =? newValue) then riscvTestInterrupt s else s in
  (s, ieR s rMask).

Definition mieW : riscvCSRWriteFn := fun _ newValue s => Some (ieW newValue (w32 (-1)) s).
Definition sieR : riscvCSRReadFn := fun _ s => Some (s, ieR s (getSIRMask s)).
Definition sieW : riscvCSRWriteFn := fun _ newValue s => Some (ieW newValue (getSIRMask s) s).
Definition uieR : riscvCSRReadFn := fun _ s => Some (s, ieR s (getUIRMask s)).
Definition uieW : riscvCSRWriteFn := fun _ newValue s => Some (ieW newValue (getUIRMask s) s).

(** midelegW and sidelegW. *)
Definition xidelegW (n : csrName) : riscvCSRWriteFn := fun _ newValue s =>
  let oldValue := w32 (RD_CSR s n) in
  let mask := w32 (RD_CSR_MASK s n) in
  let newValue := masked newValue oldValue mask in
  let s := WR_CSR n newValue s in
  let s := if negb (oldValue =? newValue) then riscvTestInterrupt s else s in
  Some (s, newValue).

(** ** Trap vectors *)

Definition tvecW (s : riscvS) (newValue oldValue mask : Z) : Z :=
  let tvec_align := c_tvec_align (r_configInfo s) in
  let newValue := masked newValue oldValue mask in
  if negb (tvec_align =? 0) && any newValue 1
  then Z.lor (Z.land newValue (w64 (- tvec_align))) 1 else newValue.

(** mtvecW, stvecW and utvecW. *)
Definition xtvecW (n : csrName) : riscvCSRWriteFn := fun _ newValue s =>
  let newValue := tvecW s newValue (RD_CSR s n) (RD_CSR_MASK s n) in
  Some (WR_CSR n newValue s, newValue).

(** ** Performance counters *)

Definition getHPMMask (s : riscvS) : Z :=
  let mode := getCurrentMode s in
  let valid := w32 (RD_CSR_MASK s mcounteren) in
  let valid := if mode <? RISCV_MODE_MACHINE
               then Z.land valid (w32 (RD_CSR s mcounteren)) else valid in
  if mode <? RISCV_MODE_SUPERVISOR then Z.land valid (w32 (RD_CSR s scounteren)) else valid.

(** The hart, trapped if the access is not valid, and whether it is. *)
Definition hpmAccessValid (num : Z) (s : riscvS) : option (riscvS * bool) :=
  let mask := Z.shiftl 1 (Z.land num 31) in
  if r_artifactAccess s then Some (s, true)
  else if any mask (getHPMMask s) then Some (s, true)
  else s ← riscvIllegalInstruction s; Some (s, false).

Definition setHalf (newValue oldValue index : Z) : Z :=
  if index =? 0 then Z.lor (Z.land oldValue (Z.shiftl (w32 (-1)) 32)) (w32 newValue)
  else Z.lor (Z.shiftl (w32 newValue) 32) (w32 oldValue).

Definition getXLENValue (s : riscvS) (result : Z) : Z :=
  if RISCV_XLEN_IS_32 s then w32 result else result.

Definition cycleR (s : riscvS) : Z :=
  let result := r_baseCycles s in
  if RD_CSR_FIELD s mcountinhibit counteren_CY =? 0
  then w64 (vmirtGetICount (r_vmi s) - result) else result.

Definition cycleW (newValue : Z) (s : riscvS) : riscvS :=
  let newValue :=
    if RD_CSR_FIELD s mcountinhibit counteren_CY =? 0 then
      let newValue := w64 (vmirtGetICount (r_vmi s) - newValue) in
      if negb (r_artifactAccess s) then w64 (newValue + 1) else newValue
    else newValue in
  upd_baseCycles newValue s.

Definition instretR (s : riscvS) : Z :=
  let result := r_baseInstructions s in
  if RD_CSR_FIELD s mcountinhibit counteren_IR =? 0
  then w64 (vmirtGetExecutedICount (r_vmi s) - result) else result.

Definition instretW (newValue : Z) (s : riscvS) : riscvS :=
  let newValue :=
    if RD_CSR_FIELD s mcountinhibit counteren_IR =? 0
    then w64 (vmirtGetExecutedICount (r_vmi s) - newValue + 1) else newValue in
  upd_baseInstructions newValue s.

(** mcycleR, mtimeR and minstretR: the low part of a counter. *)
Definition counterR (read : riscvS -> Z) : riscvCSRReadFn := fun num s =>
  r ← hpmAccessValid num s;
  let '(s, ok) := r in
  Some (s, if ok : bool then getXLENValue s (read s) else 0).

(** mcyclehR, mtimehR and minstrethR. *)
Definition counterhR (read : riscvS -> Z) : riscvCSRReadFn := fun num s =>
  r ← hpmAccessValid num s;
  let '(s, ok) := r in
  Some (s, if ok : bool then Z.shiftr (read s) 32 else 0).

(** mcycleW and minstretW. *)
Definition counterW (read : riscvS -> Z) (write : Z -> riscvS -> riscvS) : riscvCSRWriteFn :=
  fun num newValue s =>
  r ← hpmAccessValid num s;
  let '(s, ok) := r in
  Some (if negb ok then s
        else if RISCV_XLEN_IS_32 s then write (setHalf newValue (read s) 0) s
        else write newValue s, newValue).

(** mcyclehW and minstrethW. *)
Definition counterhW (read : riscvS -> Z) (write : Z -> riscvS -> riscvS) : riscvCSRWriteFn :=
  fun num newValue s =>
  r ← hpmAccessValid num s;
  let '(s, ok) := r in
  Some (if ok : bool then write (setHalf newValue (read s) 1) s else s, newValue).

Definition timeR (s : riscvS) : Z := monotonic_us (r_vmi s).

Definition mcountinhibitW : riscvCSRWriteFn := fun _ newValue s =>
  let oldCY := RD_CSR_FIELD s mcountinhibit counteren_CY in
  let oldIR := RD_CSR_FIELD s mcountinhibit counteren_IR in
  let cycle := cycleR s in
  let instret := instretR s in
  let s := WR_CSR mcountinhibit newValue s in
  let s := if negb (oldCY =? RD_CSR_FIELD s mcountinhibit counteren_CY)
           then cycleW cycle s else s in
  let s := if negb (oldIR =? RD_CSR_FIELD s mcountinhibit counteren_IR)
           then instretW instret s else s in
  Some (s, newValue).

(** mhpmR, and mhpmW with any value. *)
Definition mhpmR : riscvCSRReadFn := fun num s =>
  r ← hpmAccessValid num s; Some (fst r, 0).
Definition mhpmW : riscvCSRWriteFn := fun num _ s =>
  r ← hpmAccessValid num s; Some (fst r, 0).

(** ** Virtual memory and physical memory protection *)

(** [1ULL<<extBits] is undefined for 64 bits. *)
Definition satpW : riscvCSRWriteFn := fun _ newValue s =>
  if r_extBits s <? 64 then
    let old := RD_CSR s satp in
    let s := WR_CSR satp newValue s in
    let ASID := w32 (Z.land (RD_CSR_FIELD s satp atp_ASID) (getASIDMask s)) in
    let s := WR_CSR_FIELD satp atp_ASID ASID s in
    let PPNMask := Z.shiftr (Z.shiftl 1 (r_extBits s) - 1) RISCV_PAGE_SHIFT in
    let PPN := Z.land (RD_CSR_FIELD s satp atp_PPN) PPNMask in
    let s := WR_CSR_FIELD satp atp_PPN PPN s in
    let targetMode := RD_CSR_FIELD s satp atp_MODE in
    let s :=
      if negb (any (Z.shiftl 1 targetMode) (c_Sv_modes (r_configInfo s)))
      then WR_CSR satp old s
      else riscvVMSetASID (riscvSetMode (getCurrentMode s) s) in
    Some (s, RD_CSR s satp)
  else None.

(** The identifiers of pmpcfg0 to pmpcfg3 and of pmpaddr0 to pmpaddr15 are
    consecutive, as their numbers are. *)
Definition pmpcfgR : riscvCSRReadFn := fun num s => Some (s, riscvVMReadPMPCFG s (num - 0x3A0)).
Definition pmpcfgW : riscvCSRWriteFn := fun num newValue s =>
  Some (riscvVMWritePMPCFG (num - 0x3A0) newValue s).
Definition pmpaddrR : riscvCSRReadFn := fun num s => Some (s, riscvVMReadPMPAddr s (num - 0x3B0)).
Definition pmpaddrW : riscvCSRWriteFn := fun num newValue s =>
  Some (riscvVMWritePMPAddr (num - 0x3B0) newValue s).

(** ** Vector registers *)

Definition vxrmW : riscvCSRWriteFn := fun _ newValue s =>
  let s := WR_CSR_FIELD fcsr fcsr_vxrm newValue s in
  let s := WR_CSR_FIELD vxrm vxrm_rm newValue s in
  Some (s, newValue).

Definition riscvSetVType (vill : bool) (vsew vlmul : Z) (s : riscvS) : riscvS :=
  let s := WR_CSR_FIELD vtype vtype_vsew vsew s in
  let s := WR_CSR_FIELD vtype vtype_vlmul vlmul s in
  WR_CSR_FIELD vtype vtype_vill (Z.b2z vill) s.

End Csr.
