(* ===== verification/RvCsrTable.v ===== *)
(** * The table of control and status registers and accesses to it

    riscvCSR.c of the OVP processor model, second part: the attributes of
    each register, the lookup by number, whether an access is allowed, reads
    and writes through the table by the debug interface and by the code an
    instruction is translated to, the write masks, and reset.

    The artifact CSR bus (enable_CSR_bus) is not connected, so no register is
    implemented externally; a derived model adds no registers. *)

From Stdlib Require Import String.
From stdpp Require Import functions gmap.
From S2P Require Import Prelude RvTypes RvTables RvDecode RvHart RvTrap RvPmp RvCsr.

Open Scope Z_scope.

Section Table.

Context `{V : VmiRt} `{X : VmiCxt}.
Implicit Types s : riscvS.

(** riscvCSRAttrs of riscvCSRTypes.h.  [a_reg] names the storage of reg32 and reg64; a variable
    write mask is the one of the same register.  The description and the hook
    of the code generator are left out. *)
Record riscvCSRAttrs := Attrs {
  a_name : string;
  a_csrNum : Z;
  a_arch : Z;
  a_version : Z;
  a_wEndBlock : bool;
  a_noTraceChange : bool;
  a_TVMT : bool;
  a_readCB : option riscvCSRReadFn;
  a_readWriteCB : option riscvCSRReadFn;
  a_writeCB : option riscvCSRWriteFn;
  a_reg : option csrName;
  a_writeMaskV : bool;
  a_writeMaskC32 : Z;
  a_writeMaskC64 : Z;
}.

(** The CSR_ATTR_ macros. *)
Definition CSR_ATTR_NIP n num a v (e t m : bool) : riscvCSRAttrs :=
  Attrs n num a v e t m None None None None false 0 0.
Definition CSR_ATTR_T__ n num a v (e t m : bool) r rcb rwcb wcb : riscvCSRAttrs :=
  Attrs n num a v e t m rcb rwcb wcb (Some r) false 0 0.
Definition CSR_ATTR_TC_ n num a v (e t m : bool) r m32 m64 rcb rwcb wcb : riscvCSRAttrs :=
  Attrs n num a v e t m rcb rwcb wcb (Some r) false m32 m64.
Definition CSR_ATTR_TV_ n num a v (e t m : bool) r rcb rwcb wcb : riscvCSRAttrs :=
  Attrs n num a v e t m rcb rwcb wcb (Some r) true 0 0.
Definition CSR_ATTR_P__ n num a v (e t m : bool) rcb rwcb wcb : riscvCSRAttrs :=
  Attrs n num a v e t m rcb rwcb wcb None false 0 0.

Definition digit (i : nat) : string := String (Ascii.ascii_of_nat (48 + i)) EmptyString.
Definition num_string (i : nat) : string :=
  if Nat.ltb i 10 then digit i else String.append (digit (Nat.div i 10)) (digit (Nat.modulo i 10)).

(** CSR_ATTR_P__0_15, CSR_ATTR_P__0_9 and CSR_ATTR_P__3_31: registers [i] to
    [i+n-1] of a numbered family. *)
Definition CSR_ATTR_P__NUM (i n : nat) nm num a v (e t m : bool) rcb rwcb wcb
  : list riscvCSRAttrs :=
  map (fun k => CSR_ATTR_P__ (String.append nm (num_string k)) (num + Z.of_nat k) a v e t m
                  rcb rwcb wcb) (seq i n).
Abbreviation CSR_ATTR_P__0_15 := (CSR_ATTR_P__NUM 0 16).
Abbreviation CSR_ATTR_P__3_31 := (CSR_ATTR_P__NUM 3 29).

Open Scope string_scope.

Abbreviation n := false.
Abbreviation Y := true.
Abbreviation no := None.
Abbreviation R f := (Some (f : riscvCSRReadFn)).
Abbreviation W f := (Some (f : riscvCSRWriteFn)).

(** The table, user-level registers. *)
Definition csrs_user : list riscvCSRAttrs :=
  [ CSR_ATTR_P__ "ustatus" 0x000 ISA_N RVPV_1_10 n n n (R ustatusR) no (W ustatusW);
    CSR_ATTR_P__ "fflags" 0x001 ISA_DF RVPV_1_10 n n n (R fflagsR) no (W fflagsW);
    CSR_ATTR_P__ "frm" 0x002 ISA_DF RVPV_1_10 Y n n (R frmR) no (W frmW);
    CSR_ATTR_P__ "fcsr" 0x003 ISA_DFV RVPV_1_10 Y n n (R fcsrR) no (W fcsrW);
    CSR_ATTR_P__ "uie" 0x004 ISA_N RVPV_1_10 Y n n (R uieR) no (W uieW);
    CSR_ATTR_T__ "utvec" 0x005 ISA_N RVPV_1_10 n n n utvec no no (W (xtvecW utvec));
    CSR_ATTR_TV_ "vstart" 0x008 ISA_V RVPV_1_11 n n n vstart no no no;
    CSR_ATTR_TC_ "vxsat" 0x009 ISA_V RVPV_1_11 n n n vxsat 1 1 no no no;
    CSR_ATTR_TC_ "vxrm" 0x00A ISA_V RVPV_1_11 n n n vxrm 3 3 no no (W vxrmW);
    CSR_ATTR_T__ "uscratch" 0x040 ISA_N RVPV_1_10 n n n uscratch no no no;
    CSR_ATTR_TV_ "uepc" 0x041 ISA_N RVPV_1_10 n n n uepc (R (xepcR uepc)) no no;
    CSR_ATTR_TV_ "ucause" 0x042 ISA_N RVPV_1_10 n n n ucause no no no;
    CSR_ATTR_T__ "utval" 0x043 ISA_N RVPV_1_10 n n n utval no no no;
    CSR_ATTR_P__ "uip" 0x044 ISA_N RVPV_1_10 n n n (R uipR) (R uipRW) (W uipW);
    CSR_ATTR_P__ "cycle" 0xC00 0 RVPV_1_10 n Y n (R (counterR cycleR)) no no;
    CSR_ATTR_P__ "time" 0xC01 0 RVPV_1_10 n Y n (R (counterR timeR)) no no;
    CSR_ATTR_P__ "instret" 0xC02 0 RVPV_1_10 n Y n (R (counterR instretR)) no no ] ++
  CSR_ATTR_P__3_31 "hpmcounter" 0xC00 0 RVPV_1_10 n n n (R mhpmR) no (W mhpmW) ++
  [ CSR_ATTR_T__ "vl" 0xC20 ISA_V RVPV_1_11 n n n vl no no no;
    CSR_ATTR_T__ "vtype" 0xC21 ISA_V RVPV_1_11 n n n vtype no no no;
    CSR_ATTR_P__ "cycleh" 0xC80 ISA_XLEN_32 RVPV_1_10 n Y n (R (counterhR cycleR)) no no;
    CSR_ATTR_P__ "timeh" 0xC81 ISA_XLEN_32 RVPV_1_10 n Y n (R (counterhR timeR)) no no;
    CSR_ATTR_P__ "instreth" 0xC82 ISA_XLEN_32 RVPV_1_10 n Y n (R (counterhR instretR)) no no ] ++
  CSR_ATTR_P__3_31 "hpmcounterh" 0xC80 ISA_XLEN_32 RVPV_1_10 n n n (R mhpmR) no (W mhpmW).

(** Supervisor-level registers. *)
Definition csrs_supervisor : list riscvCSRAttrs :=
  [ CSR_ATTR_P__ "sstatus" 0x100 ISA_S RVPV_1_10 n n n (R sstatusR) no (W sstatusW);
    CSR_ATTR_TV_ "sedeleg" 0x102 ISA_SandN RVPV_1_10 n n n sedeleg no no no;
    CSR_ATTR_T__ "sideleg" 0x103 ISA_SandN RVPV_1_10 Y n n sideleg no no (W (xidelegW sideleg));
    CSR_ATTR_P__ "sie" 0x104 ISA_S RVPV_1_10 Y n n (R sieR) no (W sieW);
    CSR_ATTR_T__ "stvec" 0x105 ISA_S RVPV_1_10 n n n stvec no no (W (xtvecW stvec));
    CSR_ATTR_TV_ "scounteren" 0x106 ISA_S RVPV_1_10 n n n scounteren no no no;
    CSR_ATTR_T__ "sscratch" 0x140 ISA_S RVPV_1_10 n n n sscratch no no no;
    CSR_ATTR_TV_ "sepc" 0x141 ISA_S RVPV_1_10 n n n sepc (R (xepcR sepc)) no no;
    CSR_ATTR_TV_ "scause" 0x142 ISA_S RVPV_1_10 n n n scause no no no;
    CSR_ATTR_T__ "stval" 0x143 ISA_S RVPV_1_10 n n n stval no no no;
    CSR_ATTR_P__ "sip" 0x144 ISA_S RVPV_1_10 n n n (R sipR) (R sipRW) (W sipW);
    CSR_ATTR_T__ "satp" 0x180 ISA_S RVPV_1_10 n n Y satp no no (W satpW) ].

(** Machine-level registers. *)
Definition csrs_machine : list riscvCSRAttrs :=
  [ CSR_ATTR_T__ "mvendorid" 0xF11 0 RVPV_1_10 n n n mvendorid no no no;
    CSR_ATTR_T__ "marchid" 0xF12 0 RVPV_1_10 n n n marchid no no no;
    CSR_ATTR_T__ "mimpid" 0xF13 0 RVPV_1_10 n n n mimpid no no no;
    CSR_ATTR_T__ "mhartid" 0xF14 0 RVPV_1_10 n n n mhartid no no no;
    CSR_ATTR_TV_ "mstatus" 0x300 0 RVPV_1_10 n n n mstatus (R mstatusR) no (W mstatusW);
    CSR_ATTR_T__ "misa" 0x301 0 RVPV_1_10 Y n n misa no no (W misaW);
    CSR_ATTR_TV_ "medeleg" 0x302 ISA_SorN RVPV_1_10 n n n medeleg no no no;
    CSR_ATTR_T__ "mideleg" 0x303 ISA_SorN RVPV_1_10 Y n n mideleg no no (W (xidelegW mideleg));
    CSR_ATTR_T__ "mie" 0x304 0 RVPV_1_10 Y n n mie no no (W mieW);
    CSR_ATTR_T__ "mtvec" 0x305 0 RVPV_1_10 n n n mtvec no no (W (xtvecW mtvec));
    CSR_ATTR_TV_ "mcounteren" 0x306 ISA_SorU RVPV_1_10 n n n mcounteren no no no;
    CSR_ATTR_TV_ "mcountinhibit" 0x320 0 RVPV_1_11 n n n mcountinhibit no no (W mcountinhibitW);
    CSR_ATTR_T__ "mscratch" 0x340 0 RVPV_1_10 n n n mscratch no no no;
    CSR_ATTR_TV_ "mepc" 0x341 0 RVPV_1_10 n n n mepc (R (xepcR mepc)) no no;
    CSR_ATTR_TV_ "mcause" 0x342 0 RVPV_1_10 n n n mcause no no no;
    CSR_ATTR_T__ "mtval" 0x343 0 RVPV_1_10 n n n mtval no no no;
    CSR_ATTR_T__ "mip" 0x344 0 RVPV_1_10 n n n mip (R mipR) (R mipRW) (W mipW);
    CSR_ATTR_P__ "pmpcfg0" 0x3A0 0 RVPV_1_10 n n n (R pmpcfgR) no (W pmpcfgW);
    CSR_ATTR_P__ "pmpcfg1" 0x3A1 ISA_XLEN_32 RVPV_1_10 n n n (R pmpcfgR) no (W pmpcfgW);
    CSR_ATTR_P__ "pmpcfg2" 0x3A2 0 RVPV_1_10 n n n (R pmpcfgR) no (W pmpcfgW);
    CSR_ATTR_P__ "pmpcfg3" 0x3A3 ISA_XLEN_32 RVPV_1_10 n n n (R pmpcfgR) no (W pmpcfgW) ] ++
  CSR_ATTR_P__0_15 "pmpaddr" 0x3B0 0 RVPV_1_10 n n n (R pmpaddrR) no (W pmpaddrW).

(** Machine counters and the registers that are not implemented. *)
Definition csrs_counters : list riscvCSRAttrs :=
  [ CSR_ATTR_P__ "mcycle" 0xB00 0 RVPV_1_10 n Y n (R (counterR cycleR)) no
      (W (counterW cycleR cycleW));
    CSR_ATTR_P__ "minstret" 0xB02 0 RVPV_1_10 n Y n (R (counterR instretR)) no
      (W (counterW instretR instretW)) ] ++
  CSR_ATTR_P__3_31 "mhpmcounter" 0xB00 0 RVPV_1_10 n n n (R mhpmR) no (W mhpmW) ++
  [ CSR_ATTR_P__ "mcycleh" 0xB80 ISA_XLEN_32 RVPV_1_10 n Y n (R (counterhR cycleR)) no
      (W (counterhW cycleR cycleW));
    CSR_ATTR_P__ "minstreth" 0xB82 ISA_XLEN_32 RVPV_1_10 n Y n (R (counterhR instretR)) no
      (W (counterhW instretR instretW)) ] ++
  CSR_ATTR_P__3_31 "mhpmcounterh" 0xB80 ISA_XLEN_32 RVPV_1_10 n n n (R mhpmR) no (W mhpmW) ++
  CSR_ATTR_P__3_31 "mhpmevent" 0x320 0 RVPV_1_10 n n n (R mhpmR) no (W mhpmW) ++
  [ CSR_ATTR_NIP "tselect" 0x7A0 0 RVPV_1_10 n n n;
    CSR_ATTR_NIP "tdata1" 0x7A1 0 RVPV_1_10 n n n;
    CSR_ATTR_NIP "tdata2" 0x7A2 0 RVPV_1_10 n n n;
    CSR_ATTR_NIP "tdata3" 0x7A3 0 RVPV_1_10 n n n;
    CSR_ATTR_NIP "dcsr" 0x7B0 0 RVPV_1_10 n n n;
    CSR_ATTR_NIP "dpc" 0x7B1 0 RVPV_1_10 n n n;
    CSR_ATTR_NIP "dscratch" 0x7B2 0 RVPV_1_10 n n n ].

Definition csrs : list riscvCSRAttrs :=
  csrs_user ++ csrs_supervisor ++ csrs_machine ++ csrs_counters.

Close Scope string_scope.

(** ** Lookup and access rights *)

(** CSRFields: the fields of a register number. *)
Definition csr_mode (num : Z) : Z := Z.land (Z.shiftr num 8) 3.
Definition csr_access (num : Z) : Z := Z.land (Z.shiftr num 10) 3.

(** Whether the access constraints include vmi_RA_W. *)
Definition getAccess (a : riscvCSRAttrs) : bool := negb (csr_access (a_csrNum a) =? 3).

Definition getMissingCSRFeatures (a : riscvCSRAttrs) (actual : Z) (normal : bool) : Z :=
  if negb normal then 0
  else
    let required := Z.ldiff (a_arch a) ISA_and in
    if any (a_arch a) ISA_and then Z.ldiff required actual
    else if negb (any actual required) then required else 0.

Definition getCSRMode (a : riscvCSRAttrs) (arch : Z) : Z :=
  let mode := csr_mode (a_csrNum a) in
  let mode := if (mode =? RISCV_MODE_USER) && negb (any arch ISA_U)
              then RISCV_MODE_SUPERVISOR else mode in
  if (mode =? RISCV_MODE_SUPERVISOR) && negb (any arch ISA_S) then RISCV_MODE_MACHINE else mode.

(** A constant mask of 0 stands for no mask; the 32-bit one is
    sign-extended. *)
Definition getCSRWriteMask32 (a : riscvCSRAttrs) (s : riscvS) : Z :=
  match a_reg a with
  | Some r => if a_writeMaskV a then w64 (s32 (u32_bits r (r_csrMask s r)))
              else if a_writeMaskC32 a =? 0 then w64 (-1) else w64 (s32 (a_writeMaskC32 a))
  | None => w64 (-1)
  end.
Definition getCSRWriteMask64 (a : riscvCSRAttrs) (s : riscvS) : Z :=
  match a_reg a with
  | Some r => if a_writeMaskV a then u64 (r_csrMask s r)
              else if a_writeMaskC64 a =? 0 then w64 (-1) else a_writeMaskC64 a
  | None => w64 (-1)
  end.
Definition getCSRWriteMask (a : riscvCSRAttrs) (s : riscvS) : Z :=
  if RISCV_XLEN_IS_32 s then getCSRWriteMask32 a s else getCSRWriteMask64 a s.

(** The range table of the hart, by register number. *)
Abbreviation csrTable := (gmap Z riscvCSRAttrs).

Definition riscvNewCSR (a : riscvCSRAttrs) (t : csrTable) : csrTable := <[a_csrNum a := a]> t.

(** The loop of riscvCSRInit that fills the table. *)
Definition standard_csrs (priv_version : Z) : csrTable :=
  fold_left (fun t a => if priv_version >=? a_version a then riscvNewCSR a t else t) csrs ∅.

Definition getCSRAttrs (s : riscvS) (num : Z) : option riscvCSRAttrs :=
  standard_csrs (c_priv_version (r_configInfo s)) !! num.

Definition riscvValidateCSRAccess (s : riscvS) (num : Z) (read write : bool)
  : option riscvCSRAttrs :=
  match getCSRAttrs s num with
  | None => None
  | Some a =>
      if negb (getMissingCSRFeatures a (r_currentArch s) true =? 0) then None
      else if write && negb (getAccess a) then None
      else if getCurrentMode s <? csr_mode num then None
      else Some a
  end.

(** ** Reads and writes *)

(** getCSRReadCB. *)
Definition getCSRReadCB (a : riscvCSRAttrs) (isWrite : bool) : option riscvCSRReadFn :=
  match isWrite, a_readWriteCB a with
  | true, Some f => Some f
  | _, _ => a_readCB a
  end.

(** The storage of a register in the view of the given architecture. *)
Definition raw_get (is64 : bool) (r : csrName) (s : riscvS) : Z := rd_csr (negb is64) (r_csr s) r.
Definition raw_set (is64 : bool) (r : csrName) (v : Z) (s : riscvS) : riscvS :=
  upd_csr (wr_csr (negb is64) r v (r_csr s)) s.

(** What the code emitted by riscvEmitCSRRead does: the hart and the value
    moved to rd. *)
Definition riscvEmitCSRRead (a : riscvCSRAttrs) (isWrite : bool) (s : riscvS)
  : option (riscvS * Z) :=
  match getCSRReadCB a isWrite with
  | Some f => r ← f (a_csrNum a) s; Some (fst r, getXLENValue s (snd r))
  | None =>
      match a_reg a with
      | None => Some (s, 0)
      | Some r => Some (s, raw_get (any (r_currentArch s) ISA_XLEN_64) r s)
      end
  end.

(** What the code emitted by riscvEmitCSRWrite does with the value of rs; a
    mask of 0 leaves the register alone. *)
Definition riscvEmitCSRWrite (a : riscvCSRAttrs) (rs : Z) (s : riscvS) : option riscvS :=
  let is64 := any (r_currentArch s) ISA_XLEN_64 in
  let mask := getCSRWriteMask a s in
  match a_writeCB a with
  | Some f => r ← f (a_csrNum a) rs s; Some (fst r)
  | None =>
      match a_reg a with
      | None => Some s
      | Some r =>
          Some (if mask =? w64 (-1) then raw_set is64 r rs s
                else if negb (mask =? 0) then raw_set is64 r (masked rs (raw_get is64 r s) mask) s
                else s)
      end
  end.

Definition riscvGetXlenArch (s : riscvS) : option Z :=
  if any (c_arch (r_configInfo s)) ISA_XLEN_64 then Some 64
  else if any (c_arch (r_configInfo s)) ISA_XLEN_32 then Some 32
  else None.

(** The assertion that the current XLEN is the configured one. *)
Definition toConfiguredArch (s : riscvS) : option unit :=
  XLEN1 ← riscvGetXlenMode (decoder_view s);
  XLEN2 ← riscvGetXlenArch s;
  if XLEN1 =? XLEN2 then Some tt else None.

(** The hart, the value for the buffer and the result; [None] for a register
    without a read callback. *)
Definition riscvReadCSR (a : riscvCSRAttrs) (s : riscvS) : option (riscvS * Z * bool) :=
  bits ← riscvGetXlenArch s;
  if getMissingCSRFeatures a (c_arch (r_configInfo s)) true =? 0 then
    _ ← toConfiguredArch s;
    f ← getCSRReadCB a false;
    r ← f (a_csrNum a) (upd_artifactAccess true s);
    let '(s, value) := r in
    Some (upd_artifactAccess false s, if bits =? 64 then value else w32 value, true)
  else Some (s, 0, false).

Definition riscvWriteCSR (a : riscvCSRAttrs) (buffer : Z) (s : riscvS) : option (riscvS * bool) :=
  bits ← riscvGetXlenArch s;
  let is64Bit := bits =? 64 in
  if getMissingCSRFeatures a (c_arch (r_configInfo s)) true =? 0 then
    let newValue := if is64Bit then buffer else w32 buffer in
    _ ← toConfiguredArch s;
    s ← match a_writeCB a with
        | Some f =>
            r ← f (a_csrNum a) newValue (upd_artifactAccess true s);
            Some (upd_artifactAccess false (fst r))
        | None =>
            match a_reg a with
            | None => Some s
            | Some r =>
                Some (raw_set is64Bit r
                        (masked newValue (raw_get is64Bit r s) (getCSRWriteMask a s)) s)
            end
        end;
    Some (s, true)
  else Some (s, false).

(** ** Write masks and reset *)

(** SET_CSR_MASK_V_32 and SET_CSR_MASK_V_64; SET_CSR_MASK_V. *)
Definition SET_CSR_MASK_V_32 (r : csrName) (v : Z) (s : riscvS) : riscvS :=
  upd_csrMask (wr_csr true r v (r_csrMask s)) s.
Definition SET_CSR_MASK_V_64 (r : csrName) (v : Z) (s : riscvS) : riscvS :=
  upd_csrMask (wr_csr false r v (r_csrMask s)) s.
Definition SET_CSR_MASK_V (r : csrName) (v : Z) (s : riscvS) : riscvS :=
  SET_CSR_MASK_V_64 r v (SET_CSR_MASK_V_32 r v s).

(** SET_CSR_FIELD_MASK_V and SET_CSR_FIELD_MASK_1. *)
Definition SET_CSR_FIELD_MASK_V (r : csrName) (f : csrField) (v : Z) (s : riscvS) : riscvS :=
  upd_csrMask (wr_field false r f v (wr_field true r f v (r_csrMask s))) s.
Definition SET_CSR_FIELD_MASK_1 (r : csrName) (f : csrField) (s : riscvS) : riscvS :=
  SET_CSR_FIELD_MASK_V r f (-1) s.

Definition riscvCSRReset (s : riscvS) : option riscvS :=
  let arch := c_arch (r_configInfo s) in
  _ ← toConfiguredArch s;
  let s := WR_CSR_FIELD misa isa_Extensions arch s in
  let s := WR_CSR_FIELD misa isa_MXL (Z.shiftr arch XLEN_SHIFT) s in
  let s := WR_CSR mstatus (c_csr_mstatus (r_configInfo s)) s in
  let s := WR_CSR mcause 0 s in
  let s := riscvSetCurrentArch s in
  let s := riscvVMResetPMP s in
  Some (upd_exclusiveTag RISCV_NO_TAG s).

End Table.
