(* ===== verification/RvPorts.v ===== *)
(** * Reset, initialization and input ports of the OVP processor model

    The exception table and its masks, the initial contents and write masks
    of the CSRs, reset and non-maskable interrupt, the callbacks of the reset,
    NMI and interrupt ports, and the part of the constructor that sets up a
    hart (riscvExceptions.c, riscvCSR.c and riscvMain.c).  No derived model
    installs a reset notifier. *)

From Stdlib Require Import String.
From stdpp Require Import functions.
From S2P Require Import Prelude RvTypes RvTables RvDecode RvHart RvTrap RvPmp RvCsr RvCsrTable.

Open Scope Z_scope.

(** ** The exception table *)

(** riscvExceptionDesc without the description. *)
Record riscvExceptionDesc := Desc { e_name : string; e_code : Z; e_arch : Z }.

Abbreviation riscv_E_USWInterrupt := (riscv_E_Interrupt + USWInterrupt).
Abbreviation riscv_E_SSWInterrupt := (riscv_E_Interrupt + SSWInterrupt).
Abbreviation riscv_E_HSWInterrupt := (riscv_E_Interrupt + 2).
Abbreviation riscv_E_MSWInterrupt := (riscv_E_Interrupt + MSWInterrupt).
Abbreviation riscv_E_UTimerInterrupt := (riscv_E_Interrupt + UTimerInterrupt).
Abbreviation riscv_E_STimerInterrupt := (riscv_E_Interrupt + STimerInterrupt).
Abbreviation riscv_E_HTimerInterrupt := (riscv_E_Interrupt + 6).
Abbreviation riscv_E_MTimerInterrupt := (riscv_E_Interrupt + MTimerInterrupt).
Abbreviation riscv_E_UExternalInterrupt := (riscv_E_Interrupt + UExternalInterrupt).
Abbreviation riscv_E_SExternalInterrupt := (riscv_E_Interrupt + SExternalInterrupt).
Abbreviation riscv_E_HExternalInterrupt := (riscv_E_Interrupt + 10).
Abbreviation riscv_E_MExternalInterrupt := (riscv_E_Interrupt + MExternalInterrupt).
Abbreviation riscv_E_LocalInterrupt := (riscv_E_Interrupt + riscv_E_Local).

Definition exceptions : list riscvExceptionDesc :=
  [ Desc "InstructionAddressMisaligned" riscv_E_InstructionAddressMisaligned 0;
    Desc "InstructionAccessFault" riscv_E_InstructionAccessFault 0;
    Desc "IllegalInstruction" riscv_E_IllegalInstruction 0;
    Desc "Breakpoint" riscv_E_Breakpoint 0;
    Desc "LoadAddressMisaligned" riscv_E_LoadAddressMisaligned 0;
    Desc "LoadAccessFault" riscv_E_LoadAccessFault 0;
    Desc "StoreAMOAddressMisaligned" riscv_E_StoreAMOAddressMisaligned 0;
    Desc "StoreAMOAccessFault" riscv_E_StoreAMOAccessFault 0;
    Desc "EnvironmentCallFromUMode" riscv_E_EnvironmentCallFromUMode ISA_U;
    Desc "EnvironmentCallFromSMode" riscv_E_EnvironmentCallFromSMode ISA_S;
    Desc "EnvironmentCallFromMMode" riscv_E_EnvironmentCallFromMMode 0;
    Desc "InstructionPageFault" riscv_E_InstructionPageFault 0;
    Desc "LoadPageFault" riscv_E_LoadPageFault 0;
    Desc "StoreAMOPageFault" riscv_E_StoreAMOPageFault 0;
    Desc "USWInterrupt" riscv_E_USWInterrupt ISA_N;
    Desc "SSWInterrupt" riscv_E_SSWInterrupt ISA_S;
    Desc "MSWInterrupt" riscv_E_MSWInterrupt 0;
    Desc "UTimerInterrupt" riscv_E_UTimerInterrupt ISA_N;
    Desc "STimerInterrupt" riscv_E_STimerInterrupt ISA_S;
    Desc "MTimerInterrupt" riscv_E_MTimerInterrupt 0;
    Desc "UExternalInterrupt" riscv_E_UExternalInterrupt ISA_N;
    Desc "SExternalInterrupt" riscv_E_SExternalInterrupt ISA_S;
    Desc "MExternalInterrupt" riscv_E_MExternalInterrupt 0 ] ++
  map (fun i => Desc (String.append "LocalInterrupt" (num_string i))
                  (riscv_E_LocalInterrupt + Z.of_nat i) 0) (seq 0 48).

Section Ports.

Context `{V : VmiRt} `{X : VmiCxt}.
Implicit Types s : riscvS.

Definition hasException (s : riscvS) (code : Z) : bool :=
  if code <? riscv_E_Interrupt then any (r_exceptionMask s) (Z.shiftl 1 code)
  else any (r_interruptMask s) (Z.shiftl 1 (code - riscv_E_Interrupt)).

Definition riscvGetLocalIntMask (s : riscvS) : Z :=
  let local_int_mask := w64 (Z.shiftl 1 (c_local_int_num (r_configInfo s)) - 1) in
  w64 (Z.shiftl local_int_mask riscv_E_Local).

(** The loop over the table: exceptionMask and interruptMask. *)
Definition exception_masks (arch : Z) : Z * Z :=
  fold_left (fun m d =>
    let '(exceptionMask, interruptMask) := m in
    let code := e_code d in
    if negb (Z.land arch (e_arch d) =? e_arch d) then m
    else if code <? riscv_E_Interrupt then (Z.lor exceptionMask (Z.shiftl 1 code), interruptMask)
    else if code <? riscv_E_LocalInterrupt then
      (exceptionMask, Z.lor interruptMask (Z.shiftl 1 (code - riscv_E_Interrupt)))
    else m) exceptions (0, 0).

Definition riscvSetExceptionMask (s : riscvS) : riscvS :=
  let '(exceptionMask, interruptMask) := exception_masks (c_arch (r_configInfo s)) in
  let s := upd_exceptionMask exceptionMask s in
  upd_interruptMask (Z.lor interruptMask (riscvGetLocalIntMask s)) s.

(** ** Initial CSR contents *)

(** The reset value of mstatus, in the configuration. *)
Definition upd_cfg_mstatus (v : Z) (s : riscvS) : riscvS :=
  let c := r_configInfo s in
  upd_configInfo
    {| c_arch := c_arch c; c_archMask := c_archMask c; c_priv_version := c_priv_version c;
       c_reset_address := c_reset_address c; c_nmi_address := c_nmi_address c;
       c_local_int_num := c_local_int_num c; c_ASID_bits := c_ASID_bits c;
       c_PMP_grain := c_PMP_grain c; c_PMP_registers := c_PMP_registers c;
       c_Sv_modes := c_Sv_modes c; c_tvec_align := c_tvec_align c; c_VLEN := c_VLEN c;
       c_mtvec_is_ro := c_mtvec_is_ro c; c_cycle_undefined := c_cycle_undefined c;
       c_time_undefined := c_time_undefined c; c_instret_undefined := c_instret_undefined c;
       c_d_requires_f := c_d_requires_f c; c_fs_always_dirty := c_fs_always_dirty c;
       c_xret_preserves_lr := c_xret_preserves_lr c; c_wfi_is_nop := c_wfi_is_nop c;
       c_updatePTEA := c_updatePTEA c; c_updatePTED := c_updatePTED c;
       c_tval_ii_code := c_tval_ii_code c;
       c_csr_mvendorid := c_csr_mvendorid c; c_csr_marchid := c_csr_marchid c;
       c_csr_mimpid := c_csr_mimpid c; c_csr_mhartid := c_csr_mhartid c;
       c_csr_mtvec := c_csr_mtvec c; c_csr_mstatus := v;
       c_mask_mtvec := c_mask_mtvec c; c_mask_stvec := c_mask_stvec c;
       c_mask_utvec := c_mask_utvec c; c_mask_cause32 := c_mask_cause32 c;
       c_mask_cause64 := c_mask_cause64 c |} s.

Definition riscvCSRInitialReset (s : riscvS) : option riscvS :=
  let arch := c_arch (r_configInfo s) in
  let MXL := Z.shiftr arch XLEN_SHIFT in
  let minMode := riscvGetMinMode s in
  let get f x := field_get (fields64 f) x in
  let set f v x := field_set (fields64 f) v x in
  let m := c_csr_mstatus (r_configInfo s) in
  let m := if get status_MPP m <? minMode then set status_MPP minMode m else m in
  let m := if negb (any arch ISA_S) then set status_SPP 0 m
           else if get status_SPP m <? minMode then set status_SPP minMode m else m in
  let m := if any arch ISA_U then set status_UXL MXL m else m in
  let m := if any arch ISA_S then set status_SXL MXL m else m in
  riscvCSRReset (upd_cfg_mstatus m s).

(** getExceptionMask and getInterruptMask, whose assertions hold of the codes
    they are called with. *)
Definition getExceptionMask (code : Z) : Z := Z.shiftl 1 code.
Definition getInterruptMask (code : Z) : Z := Z.shiftl 1 (code - riscv_E_Interrupt).

Definition mask_all (fs : list csrField) (s : riscvS) : riscvS :=
  fold_left (fun s f => SET_CSR_FIELD_MASK_1 mstatus f s) fs s.

(** riscvCSRInit, the mstatus mask. *)
Definition init_mstatus_mask (s : riscvS) : riscvS :=
  let arch := c_arch (r_configInfo s) in
  let s := mask_all [status_MIE; status_MPIE] s in
  let s := if any arch (Z.lor ISA_U ISA_S) then mask_all [status_MPP] s else s in
  let s :=
    if any arch ISA_S then
      let s := mask_all [status_SIE; status_SPIE; status_SUM; status_MXR; status_TVM; status_TW;
                         status_TSR] s in
      if any arch ISA_U then mask_all [status_SPP] s else s
    else s in
  let s :=
    if any arch ISA_U then
      let s := mask_all [status_MPRV] s in
      if c_priv_version (r_configInfo s) >=? RVPV_1_11 then mask_all [status_TW] s else s
    else s in
  let s := if any arch ISA_N then mask_all [status_UIE; status_UPIE] s else s in
  if any arch ISA_DF then mask_all [status_FS] s else s.

(** riscvCSRInit, exception and interrupt masks: those of medeleg, sedeleg,
    mideleg and sideleg. *)
Definition deleg_masks (s : riscvS) : Z * Z * Z * Z :=
  let sExceptions := Z.ldiff (r_exceptionMask s)
                       (getExceptionMask riscv_E_EnvironmentCallFromMMode) in
  let sInterrupts := Z.ldiff (r_interruptMask s)
    (Z.lor (Z.lor (Z.lor (getInterruptMask riscv_E_MSWInterrupt)
                         (getInterruptMask riscv_E_MTimerInterrupt))
                  (getInterruptMask riscv_E_MExternalInterrupt)) (riscvGetLocalIntMask s)) in
  let hExceptions := Z.ldiff sExceptions (getExceptionMask riscv_E_EnvironmentCallFromSMode) in
  let hInterrupts := Z.ldiff sInterrupts
    (Z.lor (Z.lor (getInterruptMask riscv_E_SSWInterrupt)
                  (getInterruptMask riscv_E_STimerInterrupt))
           (getInterruptMask riscv_E_SExternalInterrupt)) in
  let uExceptions := Z.ldiff hExceptions (getExceptionMask riscv_E_EnvironmentCallFromHMode) in
  let uInterrupts := Z.ldiff hInterrupts
    (Z.lor (Z.lor (getInterruptMask riscv_E_HSWInterrupt)
                  (getInterruptMask riscv_E_HTimerInterrupt))
           (getInterruptMask riscv_E_HExternalInterrupt)) in
  (sExceptions, uExceptions, sInterrupts, uInterrupts).

Definition or_all (x : Z) : Z := if x =? 0 then w64 (-1) else x.

(** riscvCSRInit, from the identification registers to the delegation
    masks. *)
Definition init_masks (index : Z) (s : riscvS) : riscvS :=
  let cfg := r_configInfo s in
  let s := WR_CSR mvendorid (c_csr_mvendorid cfg) s in
  let s := WR_CSR marchid (c_csr_marchid cfg) s in
  let s := WR_CSR mimpid (c_csr_mimpid cfg) s in
  let s := WR_CSR mhartid (c_csr_mhartid cfg + index) s in
  let s := SET_CSR_FIELD_MASK_V misa isa_Extensions (c_archMask cfg) s in
  let s := SET_CSR_FIELD_MASK_V misa isa_MXL (Z.shiftr (c_archMask cfg) XLEN_SHIFT) s in
  let s := init_mstatus_mask s in
  let maskEPC := if any (c_arch cfg) ISA_C then w64 (-2) else w64 (-4) in
  let s := SET_CSR_MASK_V uepc maskEPC s in
  let s := SET_CSR_MASK_V sepc maskEPC s in
  let s := SET_CSR_MASK_V mepc maskEPC s in
  let '(sExceptions, uExceptions, sInterrupts, uInterrupts) := deleg_masks s in
  let s := SET_CSR_MASK_V mie (r_interruptMask s) s in
  let s := SET_CSR_MASK_V medeleg sExceptions s in
  let s := SET_CSR_MASK_V sedeleg uExceptions s in
  let s := SET_CSR_MASK_V mideleg sInterrupts s in
  SET_CSR_MASK_V sideleg uInterrupts s.

(** riscvCSRInit, sedeleg and sideleg with the N extension and no supervisor
    mode. *)
Definition init_sdeleg (s : riscvS) : riscvS :=
  if Z.land (c_arch (r_configInfo s)) ISA_SorN =? ISA_N
  then WR_CSR sideleg (-1) (WR_CSR sedeleg (-1) s) else s.

(** riscvCSRInit, from the trap vectors on. *)
Definition init_values (s : riscvS) : riscvS :=
  let cfg := r_configInfo s in
  let arch := c_arch cfg in
  let tvecMask m := Z.land (or_all m) (w64 (-3)) in
  let mtvecMask := if c_mtvec_is_ro cfg then 0 else tvecMask (c_mask_mtvec cfg) in
  let s := SET_CSR_MASK_V mtvec mtvecMask s in
  let s := SET_CSR_MASK_V stvec (tvecMask (c_mask_stvec cfg)) s in
  let s := SET_CSR_MASK_V utvec (tvecMask (c_mask_utvec cfg)) s in
  let s := WR_CSR mtvec (c_csr_mtvec cfg) s in
  let s := SET_CSR_MASK_V_32 mcause (or_all (c_mask_cause32 cfg)) s in
  let s := SET_CSR_MASK_V_32 scause (or_all (c_mask_cause32 cfg)) s in
  let s := SET_CSR_MASK_V_32 ucause (or_all (c_mask_cause32 cfg)) s in
  let s := SET_CSR_MASK_V_64 mcause (or_all (c_mask_cause64 cfg)) s in
  let s := SET_CSR_MASK_V_64 scause (or_all (c_mask_cause64 cfg)) s in
  let s := SET_CSR_MASK_V_64 ucause (or_all (c_mask_cause64 cfg)) s in
  let counterenMask := 0xfffffff8 in
  let counterenMask := if c_cycle_undefined cfg then counterenMask else Z.lor counterenMask 1 in
  let counterenMask := if c_time_undefined cfg then counterenMask else Z.lor counterenMask 2 in
  let counterenMask := if c_instret_undefined cfg then counterenMask else Z.lor counterenMask 4 in
  let s := SET_CSR_MASK_V mcounteren counterenMask s in
  let s := SET_CSR_MASK_V scounteren counterenMask s in
  let s := SET_CSR_MASK_V mcountinhibit counterenMask s in
  let s := if any arch ISA_U && negb (any arch ISA_S) then WR_CSR scounteren (-1) s else s in
  let fcsrMask := if any arch ISA_DF then 0xff else 0 in
  let fcsrMask := if any arch ISA_V then Z.lor fcsrMask 0x700 else fcsrMask in
  let s := SET_CSR_MASK_V fcsr fcsrMask s in
  let vstartMask := if any arch ISA_V then w32 (c_VLEN cfg - 1) else 0 in
  let s := SET_CSR_MASK_V vstart vstartMask s in
  riscvRefreshPMKey s.

(** riscvCSRInit; the lookup table is [standard_csrs]. *)
Definition riscvCSRInit (index : Z) (s : riscvS) : option riscvS :=
  s ← riscvCSRInitialReset s;
  Some (init_values (init_sdeleg (init_masks index s))).

(** ** Reset and non-maskable interrupt *)

Definition riscvReset (s : riscvS) : option riscvS :=
  let s := restartProcessor RVD_RESTART_RESET s in
  let s := riscvSetMode RISCV_MODE_MACHINE s in
  s ← riscvCSRReset s;
  let s := upd_exception 0 s in
  Some (upd_vmi (vmirtSetPCException (c_reset_address (r_configInfo s)) (r_vmi s)) s).

Definition doNMI (s : riscvS) : riscvS :=
  let s := restartProcessor RVD_RESTART_NMI s in
  let s := riscvSetMode RISCV_MODE_MACHINE s in
  let s := WR_CSR mcause 0 s in
  let s := WR_CSR mepc (getEPC s) s in
  let s := upd_exception 0 s in
  upd_vmi (vmirtSetPCException (c_nmi_address (r_configInfo s)) (r_vmi s)) s.

(** ** Ports *)

Definition posedge (old new : bool) : bool := negb old && new.
Definition negedge (old new : bool) : bool := old && negb new.

Definition resetPortCB (newValue : bool) (s : riscvS) : option riscvS :=
  let oldValue := n_reset (r_netValue s) in
  s ← (if posedge oldValue newValue then Some (haltProcessor RVD_RESET s)
       else if negedge oldValue newValue then riscvReset s else Some s);
  let v := r_netValue s in
  Some (upd_netValue {| n_ip := n_ip v; n_reset := newValue; n_nmi := n_nmi v |} s).

Definition nmiPortCB (newValue : bool) (s : riscvS) : riscvS :=
  let oldValue := n_nmi (r_netValue s) in
  let s := if posedge oldValue newValue then haltProcessor RVD_NMI s
           else if negedge oldValue newValue then doNMI s else s in
  let v := r_netValue s in
  upd_netValue {| n_ip := n_ip v; n_reset := n_reset v; n_nmi := newValue |} s.

(** [None] is the failed assertion on the index. *)
Definition interruptPortCB (index : Z) (newValue : bool) (s : riscvS) : option riscvS :=
  if index <? 64 then
    let mask := Z.shiftl 1 index in
    let v := r_netValue s in
    let ip := if newValue then Z.lor (n_ip v) mask else Z.ldiff (n_ip v) mask in
    Some (riscvUpdatePending
            (upd_netValue {| n_ip := ip; n_reset := n_reset v; n_nmi := n_nmi v |} s))
  else None.

(** A port: its name and the callback it is connected to. *)
Inductive riscvNetPort := ResetPort | NmiPort | InterruptPort (name : string) (index : Z).

Definition riscvNewNetPorts (s : riscvS) : list riscvNetPort :=
  ResetPort :: NmiPort ::
  omap (fun d => if (e_code d >=? riscv_E_Interrupt) && hasException s (e_code d)
                 then Some (InterruptPort (e_name d) (e_code d - riscv_E_Interrupt)) else None)
    exceptions.

(** A level change at a port. *)
Definition net_change (p : riscvNetPort) (newValue : bool) (s : riscvS) : option riscvS :=
  match p with
  | ResetPort => resetPortCB newValue s
  | NmiPort => Some (nmiPortCB newValue s)
  | InterruptPort _ index => interruptPortCB index newValue s
  end.

(** The part of riscvConstructor that sets up a hart, from the processor
    structure as the parameters leave it. *)
Definition riscvConstructor (index : Z) (s : riscvS) : option riscvS :=
  let s := riscvSetMode RISCV_MODE_MACHINE s in
  let s := upd_exclusiveTag RISCV_NO_TAG s in
  let s := riscvSetExceptionMask s in
  s ← riscvCSRInit index s;
  riscvReset s.

End Ports.
