(* ===== verification/RvSystem.v ===== *)
(** * System and CSR instructions

    What the code does that riscvMorph.c emits for the privileged
    instructions (ecall, ebreak, mret, sret, uret, wfi) and for the CSR
    instructions, together with the interrupt check of riscvIFetchExcept and
    the events from outside a hart: faults, debugger accesses and ports.  An
    exception ends the instruction, since the calls that raise one are emitted
    with VMCA_EXCEPTION.  The block state of the code generator and the
    messages of verbose mode are left out, and so is the BEEHIVE hook that
    stops the simulation on wfi. *)

From stdpp Require Import functions.
From S2P Require Import Prelude RvTypes RvTables RvDecode RvHart RvTrap RvPmp RvCsr RvCsrTable.
From S2P Require Import RvPorts.

Section System.

Context `{V : VmiRt} `{X : VmiCxt}.
Implicit Types s : riscvS.

(** ** Checks *)

(** riscvRequireArchPresentMT: whether all of the features are enabled. *)
Definition riscvRequireArchPresentMT (s : riscvS) (feature : Z) : bool :=
  let actual := Z.land (r_currentArch s) feature in
  Z.ldiff feature actual =? 0.

Definition requireModeMT (s : riscvS) (required : Z) : bool :=
  negb (getCurrentMode s <? required).

Definition checkHaveSModeMT (s : riscvS) : bool :=
  if getCurrentMode s =? RISCV_MODE_SUPERVISOR then true else riscvRequireArchPresentMT s ISA_S.

Definition checkHaveUModeMT (s : riscvS) : bool :=
  if getCurrentMode s =? RISCV_MODE_USER then true else riscvRequireArchPresentMT s ISA_U.

(** EMIT_TRAP_MASK_FIELD with the value 1: whether the instruction is
    trapped. *)
Definition emitTrapInstructionMask (s : riscvS) (f : csrField) : bool :=
  negb (getCurrentMode s =? RISCV_MODE_MACHINE) && negb (RD_CSR_FIELD s mstatus f =? 0).

(** ** Privileged instructions *)

Definition emitECALL (s : riscvS) : option riscvS := riscvECALL s.

Definition emitEBREAK (s : riscvS) : option riscvS := riscvEBREAK s.

Definition emitMRET (s : riscvS) : option riscvS :=
  if negb (requireModeMT s RISCV_MODE_MACHINE) then riscvIllegalInstruction s
  else Some (riscvMRET s).

Definition emitSRET (s : riscvS) : option riscvS :=
  if negb (checkHaveSModeMT s) then riscvIllegalInstruction s
  else if negb (requireModeMT s RISCV_MODE_SUPERVISOR) then riscvIllegalInstruction s
  else if emitTrapInstructionMask s status_TSR then riscvIllegalInstruction s
  else Some (riscvSRET s).

Definition emitURET (s : riscvS) : option riscvS :=
  if negb (checkHaveUModeMT s) then riscvIllegalInstruction s
  else Some (riscvURET s).

Definition emitWFI (s : riscvS) : option riscvS :=
  if negb (any (r_currentArch s) ISA_N) && negb (requireModeMT s RISCV_MODE_SUPERVISOR)
  then riscvIllegalInstruction s
  else if emitTrapInstructionMask s status_TW then riscvIllegalInstruction s
  else Some (if c_wfi_is_nop (r_configInfo s) then s else riscvWFI s).

(** ** CSR instructions *)

Definition getRIndex (r : Z) : Z := Z.land r RV_RD_INDEX_MASK.

(** riscvGetVMIReg for a general register: whether it is legal, and its index
    unless it is VMI_NOREG; [None] is VMI_ABORT, and the other register
    files do not occur in the instructions below. *)
Definition riscvGetVMIReg (s : riscvS) (r : Z) : option (bool * option Z) :=
  let index := getRIndex r in
  if isXReg r then
    let ok64 := negb (getRBits r =? 64) || riscvRequireArchPresentMT s ISA_XLEN_64 in
    if (index <? 16) || riscvRequireArchPresentMT s ISA_I
    then Some (ok64, if index =? 0 then None else Some index) else Some (false, None)
  else None.

Definition doCSRRead (i : riscvInstrInfo) (rd : option Z) : bool :=
  bool_decide (rd <> None) || negb (i_csrUpdate i =? RV_CSR_RW).

Definition doCSRWriteRS1 (i : riscvInstrInfo) (rs1 : option Z) : bool :=
  bool_decide (rs1 <> None) || (i_csrUpdate i =? RV_CSR_RW).

Definition doCSRWriteImm (i : riscvInstrInfo) : bool :=
  negb (i_c i =? 0) || (i_csrUpdate i =? RV_CSR_RW).

(** The value to write, from the one read and the operand; [None] is
    VMI_ABORT. *)
Definition csr_operand (bits update rdTmp x : Z) : option Z :=
  if update =? RV_CSR_RW then Some (wrap bits x)
  else if update =? RV_CSR_RS then Some (wrap bits (Z.lor rdTmp x))
  else if update =? RV_CSR_RC then Some (wrap bits (Z.ldiff rdTmp x))
  else None.

(** A hart and, if the instruction writes one, the register it writes and the
    value. *)
Definition result : Type := riscvS * option (Z * Z).

Definition no_write (o : option riscvS) : option result := s ← o; Some (s, None).

(** emitCSRRCommon, for the value of rs1 unless that is VMI_NOREG.  An access
    that is not valid, or is trapped, takes an illegal instruction exception;
    the rest of the code is emitted as calls that return. *)
Definition emitCSRRCommon (i : riscvInstrInfo) (rs1 : option Z) (write : bool) (s : riscvS)
  : option result :=
  let bits := getRBits (i_r0 i) in
  vmireg ← riscvGetVMIReg s (i_r0 i);
  let '(legal, rd) := vmireg in
  let read := doCSRRead i rd in
  if negb legal then no_write (riscvIllegalInstruction s) else
  match riscvValidateCSRAccess s (i_csr i) read write with
  | None => no_write (riscvIllegalInstruction s)
  | Some a =>
      if a_TVMT a && emitTrapInstructionMask s status_TVM
      then no_write (riscvIllegalInstruction s)
      else
        r ← (if read then riscvEmitCSRRead a write s else Some (s, 0));
        let '(s, rdTmp) := r in
        s ← (if write then
               v ← csr_operand bits (i_csrUpdate i) rdTmp (default (i_c i) rs1);
               riscvEmitCSRWrite a v s
             else Some s);
        Some (s, n ← rd; Some (n, wrap bits rdTmp))
  end.

Definition emitCSRR (i : riscvInstrInfo) (x : Z -> Z) (s : riscvS) : option result :=
  vmireg ← riscvGetVMIReg s (i_r1 i);
  let '(legal, rs1) := vmireg in
  if negb legal then no_write (riscvIllegalInstruction s)
  else emitCSRRCommon i (x <$> rs1) (doCSRWriteRS1 i rs1) s.

Definition emitCSRRI (i : riscvInstrInfo) (s : riscvS) : option result :=
  emitCSRRCommon i None (doCSRWriteImm i) s.

(** ** Dispatch *)

(** The entries of dispatchTable for the instructions above, with the general
    registers before the instruction. *)
Definition dispatchTable (t : riscvIType)
  : option (riscvInstrInfo -> (Z -> Z) -> riscvS -> option result) :=
  match t with
  | RV_IT_CSRR_I => Some emitCSRR
  | RV_IT_CSRRI_I => Some (fun i _ => emitCSRRI i)
  | RV_IT_EBREAK_I => Some (fun _ _ s => no_write (emitEBREAK s))
  | RV_IT_ECALL_I => Some (fun _ _ s => no_write (emitECALL s))
  | RV_IT_MRET_I => Some (fun _ _ s => no_write (emitMRET s))
  | RV_IT_SRET_I => Some (fun _ _ s => no_write (emitSRET s))
  | RV_IT_URET_I => Some (fun _ _ s => no_write (emitURET s))
  | RV_IT_WFI_I => Some (fun _ _ s => no_write (emitWFI s))
  | _ => None
  end.

Definition riscvInstructionEnabled (s : riscvS) (requiredVariant : Z) : option bool :=
  XLEN ← riscvGetXlenMode (decoder_view s);
  let XLENarch := if XLEN =? 32 then ISA_XLEN_32 else ISA_XLEN_64 in
  if negb (any requiredVariant XLENarch) then Some false
  else Some (riscvRequireArchPresentMT s (Z.ldiff requiredVariant ISA_XLEN_ANY)).

(** riscvMorph and the code it emits, for an instruction that is undecoded,
    not enabled, or has an entry above. *)
Definition riscvMorph (i : riscvInstrInfo) (x : Z -> Z) (s : riscvS) : option result :=
  match i_type i with
  | RV_IT_LAST => no_write (riscvIllegalInstruction s)
  | type =>
      enabled ← riscvInstructionEnabled s (i_arch i);
      if negb enabled then no_write (riscvIllegalInstruction s)
      else morph ← dispatchTable type; morph i x s
  end.

(** ** Interrupts at an instruction fetch *)

(** The part of riscvIFetchExcept that handles pending interrupts, for a
    fetch that completes: whether the fetch goes on, and the hart. *)
Definition riscvIFetchExcept (s : riscvS) : option (bool * riscvS) :=
  let intMask := getPendingAndEnabledInterrupts s in
  if negb (intMask =? 0) then s ← doInterrupt intMask s; Some (false, s) else Some (true, s).

(** ** Events *)

(** What can happen to a hart: an instruction, an exception that the
    simulator or the rest of the model raises, a fetch, an access by a
    debugger, a level change at a port. *)
Inductive hart_op :=
  | Instr (i : riscvInstrInfo) (x : Z -> Z)
  | Exception (exception tval : Z)
  | IllegalInstruction
  | Fetch
  | DebugRead (num : Z)
  | DebugWrite (num value : Z)
  | Port (k : nat) (level : bool).

Definition hart_do (op : hart_op) (s : riscvS) : option riscvS :=
  match op with
  | Instr i x => fst <$> riscvMorph i x s
  | Exception e tval => riscvTakeException e tval s
  | IllegalInstruction => riscvIllegalInstruction s
  | Fetch => snd <$> riscvIFetchExcept s
  | DebugRead num => a ← getCSRAttrs s num; fst ∘ fst <$> riscvReadCSR a s
  | DebugWrite num v => a ← getCSRAttrs s num; fst <$> riscvWriteCSR a v s
  | Port k level => p ← riscvNewNetPorts s !! k; net_change p level s
  end.

(** The states of a hart from its construction on. *)
Inductive hart_reachable (index : Z) (s0 : riscvS) : riscvS -> Prop :=
  | reach_new s : riscvConstructor index s0 = Some s -> hart_reachable index s0 s
  | reach_op op s s' :
      hart_reachable index s0 s -> hart_do op s = Some s' -> hart_reachable index s0 s'.

End System.
