(* ===== verification/RvHartInv.v ===== *)
(** * The invariant of a hart

    What holds of the processor structure between any two operations: the
    current XLEN is the configured one, the current mode and the mode stacked
    in mstatus.MPP are implemented, only implemented modes can be delegated
    to, mip shows the port levels and the software-pending bits, and a hart
    that sleeps in WFI has no interrupt that would wake it.  This file has the
    invariant, the equivalence of states it respects, and that the building
    blocks of the operations keep it. *)

From stdpp Require Import functions.
From S2P Require Import Prelude RvTypes RvTables RvDecode RvHart RvHartFacts RvTrap RvTrapFacts.

(** ** Register values in one view *)

Definition trunc (b : bool) (x : Z) : Z := if b then w32 x else w64 x.

Abbreviation fields b f := (if b : bool then fields32 f else fields64 f).

(** A field that the 32-bit view has room for. *)
Definition fits32 (f : csrField) : bool := (fields32 f).1 + (fields32 f).2 <=? 32.

Lemma trunc_range b x : 0 <= trunc b x < 2 ^ 64.
Proof. destruct b; cbn [trunc]; [pose proof (w32_range x)|pose proof (wrap_range 64 x)]; lia. Qed.

Lemma w32_bits x i : 0 <= i < 32 -> Z.testbit (w32 x) i = Z.testbit x i.
Proof. intros. unfold wrap. apply Z.mod_pow2_bits_low. lia. Qed.

Lemma trunc_bits b x i : 0 <= i < 32 -> Z.testbit (trunc b x) i = Z.testbit x i.
Proof.
  intros. destruct b; cbn [trunc]; [by apply w32_bits|]. unfold wrap. apply Z.mod_pow2_bits_low. lia.
Qed.

Lemma field_get_w32 p x : 0 <= p.1 -> 0 <= p.2 -> p.1 + p.2 <= 32 -> field_get p (w32 x) = field_get p x.
Proof.
  intros H1 H2 H3. apply Z.bits_inj'. intros i Hi. rewrite !field_get_bits by done.
  destruct (Z.ltb_spec i p.2); [|by rewrite !andb_false_r]. by rewrite w32_bits by lia.
Qed.

Lemma rd_field_value b c n f :
  fits32 f = true -> rd_field b c n f = field_get (fields b f) (rd_csr b c n).
Proof.
  intros Hf%Z.leb_le. unfold rd_field, rd_csr. destruct b; [|done].
  unfold u32_word, u32_bits. destruct (distinct_views n); [done|].
  destruct (fields32_ok f). by rewrite field_get_w32.
Qed.

Lemma field_set_w32 p v x :
  0 <= p.1 -> 0 <= p.2 -> p.1 + p.2 <= 32 -> w32 (field_set p v x) = field_set p v (w32 x).
Proof.
  intros H1 H2 H3. apply Z.bits_inj'. intros i Hi. destruct (Z.lt_ge_cases i 32).
  - rewrite w32_bits, !field_set_bits, w32_bits by lia. done.
  - unfold wrap. rewrite Z.mod_pow2_bits_high, field_set_bits, Z.mod_pow2_bits_high by lia.
    destruct (Z.leb_spec p.1 i), (Z.ltb_spec i (p.1 + p.2)); simpl; (done || lia).
Qed.

Lemma value_wr_field b c n f v :
  fits32 f = true -> rd_csr b (wr_field b n f v c) n = field_set (fields b f) v (rd_csr b c n).
Proof.
  intros Hf%Z.leb_le. unfold rd_csr, wr_field. rewrite fn_lookup_insert. destruct b; [|done].
  unfold u32_bits, set_u32_word, u32_word. destruct (distinct_views n); [done|].
  destruct (fields32_ok f). simpl. by apply field_set_w32.
Qed.

(** ** The register bank *)

Definition xlen32 (c : riscvConfig) : bool := any (c_arch c) ISA_XLEN_32.

Definition has_mode (c : riscvConfig) (mode : Z) : bool :=
  if mode =? RISCV_MODE_USER then any (c_arch c) ISA_U
  else if mode =? RISCV_MODE_SUPERVISOR then any (c_arch c) ISA_S
  else mode =? RISCV_MODE_MACHINE.

(** The bits of N, S and U in misa and in riscvArchitecture. *)
Abbreviation N_bit := 13.
Abbreviation S_bit := 18.
Abbreviation U_bit := 20.
Definition mode_feature (i : Z) : Prop := i = N_bit \/ i = S_bit \/ i = U_bit.

(** Delegation cannot reach a mode that is not there: user mode needs N,
    and supervisor mode S. *)
Definition deleg_ok (c : riscvConfig) (m_ s_ : Z) : Prop :=
  (Z.testbit (c_arch c) N_bit = false -> forall i, 0 <= i < 32 -> Z.testbit s_ i = false) /\
  (Z.testbit (c_arch c) S_bit = false -> Z.testbit (c_arch c) N_bit = true ->
     forall i, 0 <= i < 32 -> Z.testbit s_ i = true) /\
  (Z.testbit (c_arch c) S_bit = false -> Z.testbit (c_arch c) N_bit = false ->
     forall i, 0 <= i < 32 -> Z.testbit m_ i = false).

(** misa.MXL is the configured XLEN. *)
Definition mxl_ok (c : riscvConfig) (r : csrBank) : Prop :=
  field_get (fields (xlen32 c) isa_MXL) (rd_csr (xlen32 c) r misa) = if xlen32 c then 1 else 2.

Record bank_ok (c : riscvConfig) (r : csrBank) : Prop := {
  bk_range n : csr_in_range (r n);
  bk_mxl : mxl_ok c r;
  bk_ext i : mode_feature i -> Z.testbit (rd_csr (xlen32 c) r misa) i = true ->
             Z.testbit (c_arch c) i = true;
  bk_mpp : has_mode c (field_get (11, 2) (rd_csr (xlen32 c) r mstatus)) = true;
  bk_edeleg : deleg_ok c (rd_csr (xlen32 c) r medeleg) (rd_csr (xlen32 c) r sedeleg);
  bk_ideleg : deleg_ok c (rd_csr (xlen32 c) r mideleg) (rd_csr (xlen32 c) r sideleg);
}.

(** The registers the invariant does not speak of. *)
Definition inert (n : csrName) : bool :=
  match n with
  | misa | mstatus | medeleg | sedeleg | mideleg | sideleg | mie | mip => false
  | _ => true
  end.

(** The bank with one register changed. *)
Definition only_changes (n : csrName) (r r' : csrBank) : Prop :=
  csr_in_range (r' n) /\ forall m, m <> n -> r' m = r m.

Lemma value_other b n r r' m : only_changes n r r' -> m <> n -> rd_csr b r' m = rd_csr b r m.
Proof. intros [_ H] Hm. unfold rd_csr. by rewrite H. Qed.

Lemma wr_csr_changes b n v r : (forall m, csr_in_range (r m)) -> only_changes n r (wr_csr b n v r).
Proof.
  intros H. split; [by apply wr_csr_in_range|]. intros m Hm. by apply wr_csr_other.
Qed.

Lemma wr_field_changes b n f v r :
  fits_storage n f = true -> (forall m, csr_in_range (r m)) -> only_changes n r (wr_field b n f v r).
Proof.
  intros Hf H. split; [by apply wr_field_in_range|]. intros m Hm. by apply wr_field_other.
Qed.

(** A change of one register keeps the bank if the clauses on that register
    still hold. *)
Lemma bank_change c n r r' :
  bank_ok c r -> only_changes n r r' ->
  (n = misa ->
     mxl_ok c r' /\
     forall i, mode_feature i -> Z.testbit (rd_csr (xlen32 c) r' misa) i = true ->
       Z.testbit (c_arch c) i = true) ->
  (n = mstatus -> has_mode c (field_get (11, 2) (rd_csr (xlen32 c) r' mstatus)) = true) ->
  (n = medeleg \/ n = sedeleg ->
     deleg_ok c (rd_csr (xlen32 c) r' medeleg) (rd_csr (xlen32 c) r' sedeleg)) ->
  (n = mideleg \/ n = sideleg ->
     deleg_ok c (rd_csr (xlen32 c) r' mideleg) (rd_csr (xlen32 c) r' sideleg)) ->
  bank_ok c r'.
Proof.
  intros [Hr H1 H2 H3 H4 H5] Hc C1 C2 C3 C4. unfold mxl_ok in H1, C1.
  assert (Hv : forall m, m <> n -> rd_csr (xlen32 c) r' m = rd_csr (xlen32 c) r m)
    by (intros; by eapply value_other).
  split; try unfold mxl_ok.
  - intros m. destruct Hc as [Hn Ho]. destruct (decide (m = n)) as [->|]; [done|by rewrite Ho].
  - destruct (decide (n = misa)) as [e|]; [by apply C1|by rewrite Hv by done].
  - destruct (decide (n = misa)) as [e|]; [by apply C1|by rewrite Hv by done].
  - destruct (decide (n = mstatus)) as [e|]; [by apply C2|by rewrite Hv by done].
  - destruct (decide (n = medeleg)) as [e|]; [by apply C3; left|].
    destruct (decide (n = sedeleg)) as [e|]; [by apply C3; right|by rewrite !Hv by done].
  - destruct (decide (n = mideleg)) as [e|]; [by apply C4; left|].
    destruct (decide (n = sideleg)) as [e|]; [by apply C4; right|by rewrite !Hv by done].
Qed.

Lemma bank_inert c n r r' :
  n <> misa -> n <> mstatus -> n <> medeleg -> n <> sedeleg -> n <> mideleg -> n <> sideleg ->
  bank_ok c r -> only_changes n r r' -> bank_ok c r'.
Proof. intros. eapply bank_change; try done; intuition congruence. Qed.

(** The stacked mode, in whichever view. *)
Lemma mpp_value b r : field_get (11, 2) (rd_csr b r mstatus) = field_get (11, 2) (u64 (r mstatus)).
Proof.
  unfold rd_csr, u32_bits. destruct b; [|done]. by apply (field_get_w32 (11, 2)).
Qed.

(** A field of mstatus other than MPP, written in either view. *)
Lemma bank_status c b f v r :
  bank_ok c r -> fits_storage mstatus f = true -> fields_apart status_MPP f = true ->
  bank_ok c (wr_field b mstatus f v r).
Proof.
  intros H Hs [Ha1 Ha2]%andb_true_iff. pose proof (bk_mpp c r H) as Hm.
  eapply bank_change; [done|apply wr_field_changes; [done|apply H]|done| |by intros []..].
  intros _. rewrite mpp_value in *. unfold wr_field. rewrite fn_lookup_insert.
  destruct (fields32_ok f), (fields64_ok f).
  destruct b; simpl; by rewrite (field_get_set_apart (11, 2)).
Qed.

Lemma bank_mpp c v r :
  bank_ok c r -> has_mode c (Z.land v (Z.ones 2)) = true ->
  bank_ok c (wr_field (xlen32 c) mstatus status_MPP v r).
Proof.
  intros H Hv.
  eapply bank_change; [done|apply wr_field_changes; [done|apply H]|done| |by intros []..].
  intros _. replace (11, 2) with (fields (xlen32 c) status_MPP) by (by destruct (xlen32 c)).
  rewrite <- rd_field_value by done. rewrite rd_wr_field_same. by destruct (xlen32 c).
Qed.

(** ** The hart *)

Record config_ok (c : riscvConfig) : Prop := {
  co_xlen64 : any (c_arch c) ISA_XLEN_64 = negb (xlen32 c);
  co_arch : 0 <= c_arch c < 2 ^ 28;
  co_user : Z.testbit (c_arch c) N_bit = true -> Z.testbit (c_arch c) U_bit = true;
  co_mpp : has_mode c (field_get (11, 2) (c_csr_mstatus c)) = true;
}.

Section Hart.

Context `{V : VmiRt}.
Implicit Types s : riscvS.

Abbreviation cfg s := (r_configInfo s).
Abbreviation x32 s := (xlen32 (r_configInfo s)).

(** All but the clause on WFI. *)
Record hart_pre (s : riscvS) : Prop := {
  hp_config : config_ok (cfg s);
  hp_bank : bank_ok (cfg s) (r_csr s);
  hp_xlen32 : RISCV_XLEN_IS_32 s = x32 s;
  hp_xlen64 : any (r_currentArch s) ISA_XLEN_64 = negb (x32 s);
  hp_arch i : mode_feature i -> Z.testbit (r_currentArch s) i = true ->
              Z.testbit (c_arch (cfg s)) i = true;
  hp_mask_range n : csr_in_range (r_csrMask s n);
  hp_mask_mxl : field_get (fields (x32 s) isa_MXL) (rd_csr (x32 s) (r_csrMask s) misa) = 0;
  hp_mask_ext i : mode_feature i -> Z.testbit (rd_csr (x32 s) (r_csrMask s) misa) i = true ->
                  Z.testbit (c_arch (cfg s)) i = true;
  hp_mode : has_mode (cfg s) (getCurrentMode s) = true;
  hp_swip : 0 <= r_swip s < 2 ^ 32;
  hp_ip : 0 <= n_ip (r_netValue s) < 2 ^ 64;
  hp_mip : rd_csr (x32 s) (r_csr s) mip = trunc (x32 s) (Z.lor (n_ip (r_netValue s)) (r_swip s));
}.

Definition in_wfi (s : riscvS) : bool := any (r_disable s) RVD_WFI.

(** No interrupt that would wake the hart is pending. *)
Definition wfi_ok (s : riscvS) : Prop := in_wfi s = true -> getPendingInterrupts s = 0.

Definition hart_ok (s : riscvS) : Prop := hart_pre s /\ wfi_ok s.

(** ** States with the same registers *)

(** The two states differ in parts the invariant does not speak of. *)
Record same_hart (s s' : riscvS) : Prop := {
  sh_csr : r_csr s' = r_csr s;
  sh_mask : r_csrMask s' = r_csrMask s;
  sh_arch : r_currentArch s' = r_currentArch s;
  sh_mode : r_mode s' = r_mode s;
  sh_disable : r_disable s' = r_disable s;
  sh_config : r_configInfo s' = r_configInfo s;
  sh_swip : r_swip s' = r_swip s;
  sh_ip : n_ip (r_netValue s') = n_ip (r_netValue s);
}.

#[export] Instance same_hart_equiv : Equivalence same_hart.
Proof.
  split.
  - intros s. by split.
  - intros s s' []. by split.
  - intros s1 s2 s3 [] []. split; congruence.
Qed.

Lemma same_hart_pre s s' : same_hart s s' -> hart_pre s -> hart_pre s'.
Proof.
  intros [Hc Hm Ha Hmo Hd Hcf Hs Hi] [].
  split; unfold RISCV_XLEN_IS_32, getCurrentMode in *;
    rewrite ?Hc, ?Hm, ?Ha, ?Hmo, ?Hcf, ?Hs, ?Hi; done.
Qed.

Lemma same_hart_pending s s' : same_hart s s' -> getPendingInterrupts s' = getPendingInterrupts s.
Proof.
  intros [Hc Hm Ha Hmo Hd Hcf Hs Hi]. unfold getPendingInterrupts, RD_CSR, RISCV_XLEN_IS_32.
  by rewrite Hc, Ha.
Qed.

Lemma same_hart_ok s s' : same_hart s s' -> hart_ok s -> hart_ok s'.
Proof.
  intros Hs [Hp Hw]. split; [by eapply same_hart_pre|]. intros Hi.
  rewrite (same_hart_pending s s' Hs). apply Hw. unfold in_wfi in *. by rewrite (sh_disable _ _ Hs) in Hi.
Qed.

#[export] Instance hart_ok_proper : Proper (same_hart ==> iff) hart_ok.
Proof. intros s s' H. split; apply same_hart_ok; [done|by symmetry]. Qed.

(** ** Building blocks *)

Lemma value_csr s n : hart_pre s -> RD_CSR s n = rd_csr (x32 s) (r_csr s) n.
Proof. intros H. unfold RD_CSR. by rewrite (hp_xlen32 s H). Qed.

Lemma has_mode_eq s m : riscvHasMode s m = has_mode (cfg s) m.
Proof. reflexivity. Qed.

(** A new bank that keeps mie and mip. *)
Lemma pre_bank s r :
  hart_pre s -> bank_ok (cfg s) r -> r mip = r_csr s mip -> hart_pre (upd_csr r s).
Proof.
  intros H Hb Hmip. destruct H. split; try done. simpl. unfold rd_csr in *. by rewrite Hmip.
Qed.

Lemma ok_bank s r :
  hart_ok s -> bank_ok (cfg s) r -> r mip = r_csr s mip -> r mie = r_csr s mie ->
  hart_ok (upd_csr r s).
Proof.
  intros [H Hw] Hb Hmip Hmie. split; [by apply pre_bank|]. unfold wfi_ok, getPendingInterrupts in *.
  unfold RD_CSR, rd_csr in *. simpl. by rewrite Hmip, Hmie.
Qed.

(** A write of a register the invariant does not speak of. *)
Lemma ok_inert_csr s n v : hart_ok s -> inert n = true -> hart_ok (WR_CSR n v s).
Proof.
  intros H Hn. destruct (hp_bank s (proj1 H)) as [Hr]. unfold WR_CSR.
  apply ok_bank; [done| |by rewrite wr_csr_other by (by destruct n)..].
  eapply (bank_inert _ n); [by destruct n..|apply H|by apply wr_csr_changes].
Qed.

Lemma ok_inert_field s n f v :
  hart_ok s -> inert n = true -> fits_storage n f = true -> hart_ok (WR_CSR_FIELD n f v s).
Proof.
  intros H Hn Hf. destruct (hp_bank s (proj1 H)) as [Hr]. unfold WR_CSR_FIELD.
  apply ok_bank; [done| |by rewrite wr_field_other by (by destruct n)..].
  eapply (bank_inert _ n); [by destruct n..|apply H|by apply wr_field_changes].
Qed.

(** A field of mstatus other than MPP. *)
Lemma ok_status s f v :
  hart_ok s -> fits_storage mstatus f = true ->
  fields_apart status_MPP f = true -> hart_ok (WR_CSR_FIELD mstatus f v s).
Proof.
  intros H ??. unfold WR_CSR_FIELD.
  apply ok_bank; [done| |by rewrite wr_field_other..]. apply bank_status; try done. apply H.
Qed.

Lemma ok_mpp s v :
  hart_ok s -> has_mode (cfg s) v = true -> 0 <= v < 4 ->
  hart_ok (WR_CSR_FIELD mstatus status_MPP v s).
Proof.
  intros H Hv Hr. unfold WR_CSR_FIELD. rewrite (hp_xlen32 s (proj1 H)).
  apply ok_bank; [done| |by rewrite wr_field_other..]. apply bank_mpp; [apply H|].
  by rewrite land_ones_small.
Qed.

(** Changes of the mode. *)
Lemma set_mode_ok mode s :
  0 <= mode <= 3 -> has_mode (cfg s) mode = true -> hart_ok s -> hart_ok (riscvSetMode mode s).
Proof.
  intros Hm Hh [[] Hw]. rewrite set_mode_shape. split; [|exact Hw]. split; try done.
  change (has_mode (cfg s) (Z.land (dmode s mode) RISCV_MODE_MACHINE) = true).
  by rewrite dmode_mode.
Qed.

(** Restarting takes reasons away. *)
Lemma restart_ok reason s : hart_ok s -> hart_ok (restartProcessor reason s).
Proof.
  intros [H Hw]. rewrite restart_shape. split; [destruct H; by split|].
  intros Hi. apply Hw. unfold in_wfi, any in *. simpl in Hi.
  apply negb_true_iff, Z.eqb_neq in Hi. apply negb_true_iff, Z.eqb_neq. intros H0. apply Hi.
  apply Z.bits_inj'. intros i Hi'. rewrite Z.land_spec, Z.ldiff_spec, Z.bits_0.
  apply (f_equal (fun z => Z.testbit z i)) in H0. rewrite Z.land_spec, Z.bits_0 in H0.
  destruct (Z.testbit (r_disable s) i), (Z.testbit RVD_WFI i); by rewrite ?andb_false_r.
Qed.

(** The test for interrupts wakes the hart, whatever held before. *)
Lemma test_interrupt_ok s : hart_pre s -> hart_ok (riscvTestInterrupt s).
Proof.
  intros H. rewrite test_interrupt_shape. split; [destruct H; by split|].
  unfold wfi_ok, in_wfi. change (getPendingInterrupts (upd_vmi ?v (upd_disable ?d s)))
    with (getPendingInterrupts s). simpl r_disable.
  destruct (Z.eqb_spec (getPendingInterrupts s) 0) as [E|]; [by rewrite E|]. intros Hd.
  apply (f_equal negb) in Hd. unfold any in Hd. rewrite negb_involutive in Hd.
  apply Z.eqb_neq in Hd. exfalso. apply Hd. apply Z.bits_inj'. intros i Hi.
  rewrite Z.land_spec, Z.ldiff_spec, Z.bits_0. by destruct (Z.testbit (r_disable s) i), (Z.testbit 1 i).
Qed.

(** The same where the test is made only if something changed. *)
Lemma test_interrupt_if b s :
  hart_pre s -> (b = false -> wfi_ok s) -> hart_ok (if b then riscvTestInterrupt s else s).
Proof. intros H Hw. destruct b; [by apply test_interrupt_ok|]. split; auto. Qed.

End Hart.
