(* ===== verification/RvHartOps.v ===== *)
(** * Traps, returns, halting and ports keep the invariant

    Every operation of RvTrap.v and RvPorts.v that changes the hart keeps the
    invariant of RvHartInv.v; the next file does the same for the control and
    status registers. *)

From stdpp Require Import functions.
From S2P Require Import Prelude RvTypes RvTables RvDecode RvHart RvHartFacts RvTrap RvTrapFacts.
From S2P Require Import RvIntFacts RvPmp RvCsr RvCsrTable RvPorts RvHartInv.

Abbreviation cfg s := (r_configInfo s).
Abbreviation x32 s := (xlen32 (r_configInfo s)).

Section HartOps.

Context `{V : VmiRt}.
Implicit Types s : riscvS.

(** ** Traps *)

Lemma any_S c : any (c_arch c) ISA_S = Z.testbit (c_arch c) S_bit.
Proof. apply (any_bit (c_arch c) 18). lia. Qed.
Lemma any_U c : any (c_arch c) ISA_U = Z.testbit (c_arch c) U_bit.
Proof. apply (any_bit (c_arch c) 20). lia. Qed.
Lemma any_N c : any (c_arch c) ISA_N = Z.testbit (c_arch c) N_bit.
Proof. apply (any_bit (c_arch c) 13). lia. Qed.

(** A trap goes to a mode that is implemented. *)
Lemma trap_mode_ok s int code :
  0 <= code < 32 -> hart_pre s -> has_mode (cfg s) (trap_mode s int code) = true.
Proof.
  intros Hc H. unfold trap_mode. destruct (Z.max_spec (delegated s int code) (getCurrentMode s))
    as [[_ ->]|[_ ->]]; [apply H|].
  assert (Hd : forall md sd : Z, deleg_ok (cfg s) md sd ->
    has_mode (cfg s) (if negb (Z.testbit (w32 md) code) then RISCV_MODE_MACHINE
      else if negb (Z.testbit (w32 sd) code) then RISCV_MODE_SUPERVISOR
      else RISCV_MODE_USER) = true).
  { intros md sd (D1 & D2 & D3). rewrite !w32_bits by done.
    pose proof (co_user _ (hp_config s H)) as Hu.
    destruct (Z.testbit md code) eqn:Em; [|done].
    destruct (Z.testbit sd code) eqn:Es; cbn [negb]; unfold has_mode; simpl;
      rewrite ?any_U, ?any_S.
    - apply Hu. destruct (Z.testbit (c_arch (cfg s)) N_bit) eqn:En; [done|].
      by rewrite D1 in Es.
    - destruct (Z.testbit (c_arch (cfg s)) S_bit) eqn:ES; [done|].
      destruct (Z.testbit (c_arch (cfg s)) N_bit) eqn:En; [by rewrite D2 in Es|by rewrite D3 in Em]. }
  destruct int; unfold delegated; rewrite !value_csr by done; apply Hd;
    [apply (bk_ideleg _ _ (hp_bank s H))|apply (bk_edeleg _ _ (hp_bank s H))].
Qed.

Lemma bank_entry s x int code epc tval :
  bank_ok (cfg s) (r_csr s) ->
  bank_ok (cfg s) (entry_csrs (x32 s) x int code epc tval (r_csr s)).
Proof.
  intros H. unfold entry_csrs.
  assert (inert_step : forall n f v r, inert n = true -> fits_storage n f = true ->
            bank_ok (cfg s) r -> bank_ok (cfg s) (wr_field (x32 s) n f v r)).
  { intros n f v r Hn Hf Hb. eapply (bank_inert _ n); [by destruct n..|done|].
    apply wr_field_changes; [done|apply Hb]. }
  do 4 (apply inert_step; [by destruct x..|]).
  do 2 (apply bank_status; [|by destruct x..]). done.
Qed.

Lemma entry_other_mip x int code epc tval b r n :
  n = mie \/ n = mip -> entry_csrs b x int code epc tval r n = r n.
Proof. intros [-> | ->]; unfold entry_csrs; by rewrite !wr_field_other by (by destruct x). Qed.

Lemma pp_other_mip x v b r n : n = mie \/ n = mip -> pp_csrs b x v r n = r n.
Proof. intros [-> | ->]; unfold pp_csrs; destruct x; simpl; by rewrite ?wr_field_other. Qed.

Lemma bank_pp s x v r :
  bank_ok (cfg s) r -> has_mode (cfg s) v = true -> 0 <= v < 4 ->
  bank_ok (cfg s) (pp_csrs (x32 s) x v r).
Proof.
  intros H Hv Hr. unfold pp_csrs. destruct x; simpl; [done|by apply bank_status|].
  apply bank_mpp; [done|]. by rewrite land_ones_small.
Qed.

Lemma entered_ok e tval s :
  0 <= GET_ECODE e < 32 -> hart_ok s -> hart_ok (entered e tval s).
Proof.
  intros Hc H. unfold entered. cbv zeta. set (m := trap_mode s _ _).
  pose proof (hp_xlen32 s (proj1 H)) as Hx. pose proof (hp_bank s (proj1 H)) as Hb.
  pose proof (current_mode_range s). rewrite Hx.
  apply set_mode_ok; [apply trap_mode_range|exact (trap_mode_ok s _ _ Hc (proj1 H))|].
  set (r := pp_csrs _ _ _ _). eapply (same_hart_ok (upd_csr r s)); [by split|]. subst r.
  apply ok_bank; [done| |by rewrite pp_other_mip, entry_other_mip by auto..].
  apply bank_pp; [by apply bank_entry|apply H|lia].
Qed.

(** An exception with an undefined shift has no result. *)
Lemma take_exception_defined e tval s s' :
  riscvTakeException e tval s = Some s' -> 0 <= GET_ECODE e < 32.
Proof.
  intros He. destruct (decide (0 <= GET_ECODE e < 32)) as [|Hc]; [done|]. exfalso.
  unfold riscvTakeException, getInterruptModeX, getExceptionModeX, getModeX in He.
  assert (Hs : shl1 (GET_ECODE e) = None).
  { unfold shl1. destruct (Z.leb_spec 0 (GET_ECODE e)), (Z.ltb_spec (GET_ECODE e) 32); (done || lia). }
  rewrite Hs in He. by destruct (IS_INTERRUPT e).
Qed.

Lemma take_exception_ok e tval s s' :
  hart_ok s -> riscvTakeException e tval s = Some s' -> hart_ok s'.
Proof.
  intros H He. pose proof (take_exception_defined e tval s s' He) as Hc.
  rewrite take_exception_eq in He by done. cbv zeta in He. apply Some_inj in He. rewrite <- He.
  pose proof (entered_ok e tval s Hc H) as Hok.
  generalize dependent (entered e tval s). intros t _ Ht.
  eapply same_hart_ok; [|exact Ht]. by split.
Qed.

Lemma set_mode_config mode s : cfg (riscvSetMode mode s) = cfg s.
Proof. by rewrite set_mode_shape. Qed.

Lemma entered_config e tval s : cfg (entered e tval s) = cfg s.
Proof.
  unfold entered. rewrite set_mode_config.
  match goal with |- cfg (upd_csr ?r _) = _ => generalize r end. done.
Qed.

Lemma exception_config v w s s1 :
  cfg s1 = cfg s -> cfg (upd_vmi v (upd_exception w s1)) = cfg s.
Proof. done. Qed.

Lemma take_exception_config e tval s s' : riscvTakeException e tval s = Some s' -> cfg s' = cfg s.
Proof.
  intros He. pose proof (take_exception_defined e tval s s' He) as Hc.
  pose proof (take_exception_eq e tval s Hc) as Hs. rewrite He in Hs. apply Some_inj in Hs.
  rewrite Hs. apply exception_config, entered_config.
Qed.

(** ** Returns *)

Lemma min_mode_ok s : hart_pre s -> has_mode (cfg s) (riscvGetMinMode s) = true.
Proof.
  intros H. unfold riscvGetMinMode, has_mode. destruct (any (c_arch (cfg s)) ISA_U) eqn:Eu; [done|].
  by destruct (any (c_arch (cfg s)) ISA_S).
Qed.

Lemma ret_mode_ok s x :
  hart_pre s -> (x = LU -> any (c_arch (cfg s)) ISA_U = true) -> has_mode (cfg s) (ret_mode s x) = true.
Proof.
  intros H Hu. unfold ret_mode. destruct (x_PP x) as [f|] eqn:Ef.
  - unfold getERETMode. rewrite has_mode_eq.
    destruct (has_mode (cfg s) (RD_CSR_FIELD s mstatus f)) eqn:E; [done|by apply min_mode_ok].
  - destruct x; try done. by apply Hu.
Qed.

Lemma min_mode_range s : 0 <= riscvGetMinMode s < 4.
Proof. unfold riscvGetMinMode. repeat case_match; lia. Qed.

Lemma bank_return s x v :
  bank_ok (cfg s) (r_csr s) -> has_mode (cfg s) v = true -> 0 <= v < 4 ->
  bank_ok (cfg s) (return_csrs (x32 s) x v (r_csr s)).
Proof.
  intros H Hv Hr. unfold return_csrs. apply bank_pp; [|done..].
  by do 2 (apply bank_status; [|by destruct x..]).
Qed.

Lemma xret_ok x s :
  hart_ok s -> (x = LU -> any (c_arch (cfg s)) ISA_U = true) -> hart_ok (xRET x s).
Proof.
  intros H Hu. rewrite xret_eq. apply test_interrupt_ok. unfold setPCxRET.
  eapply (same_hart_pre (returned x s)); [by split|]. unfold returned.
  rewrite (hp_xlen32 s (proj1 H)). apply set_mode_ok.
  - apply ret_mode_range.
  - exact (ret_mode_ok s x (proj1 H) Hu).
  - eapply (same_hart_ok (upd_csr (return_csrs (x32 s) x (riscvGetMinMode s) (r_csr s)) s)); [by split|].
    apply ok_bank; [done| |by rewrite return_other..].
    apply bank_return; [apply H|apply min_mode_ok, H|apply min_mode_range].
Qed.

(** ** Halting and ports *)

Lemma halt_shape reason s :
  exists v, haltProcessor reason s = upd_disable (Z.lor (r_disable s) reason) (upd_vmi v s).
Proof.
  exists (if r_disable s =? 0 then vmirtHalt (r_vmi s) else r_vmi s).
  unfold haltProcessor. case_match; by destruct s.
Qed.

Lemma halt_pre reason s : hart_pre s -> hart_pre (haltProcessor reason s).
Proof. intros []. destruct (halt_shape reason s) as [v ->]. by split. Qed.

Lemma halt_disable reason s : r_disable (haltProcessor reason s) = Z.lor (r_disable s) reason.
Proof. by destruct (halt_shape reason s) as [v ->]. Qed.

Lemma halt_pending reason s : getPendingInterrupts (haltProcessor reason s) = getPendingInterrupts s.
Proof. by destruct (halt_shape reason s) as [v ->]. Qed.

Lemma wfi_op_ok s : hart_ok s -> hart_ok (riscvWFI s).
Proof.
  intros H. unfold riscvWFI. destruct (Z.eqb_spec (getPendingInterrupts s) 0) as [Hp|]; [|done].
  split; [by apply halt_pre, H|]. intros _. by rewrite halt_pending.
Qed.

(** Halting for a reason other than WFI. *)
Lemma halt_ok reason s :
  Z.land reason RVD_WFI = 0 -> hart_ok s -> hart_ok (haltProcessor reason s).
Proof.
  intros Hr [H Hw]. split; [by apply halt_pre|]. intros Hi. rewrite halt_pending. apply Hw.
  unfold in_wfi, any in *. by rewrite halt_disable, Z.land_lor_distr_l, Hr, Z.lor_0_r in Hi.
Qed.

Lemma lor_small x y :
  0 <= x < 2 ^ 64 -> 0 <= y < 2 ^ 32 -> 0 <= Z.lor x y < 2 ^ 64.
Proof.
  intros Hx Hy. apply range_bits; [lia|]. intros i Hi.
  by rewrite Z.lor_spec, (testbit_above x 64), (testbit_above y 32) by lia.
Qed.

(** A change of the port levels or of the software-pending bits. *)
Lemma update_pending_ok s s0 :
  hart_ok s0 -> same_hart s0 (upd_swip (r_swip s0) (upd_netValue (r_netValue s0) s)) ->
  0 <= r_swip s < 2 ^ 32 -> 0 <= n_ip (r_netValue s) < 2 ^ 64 ->
  hart_ok (riscvUpdatePending s).
Proof.
  intros [H0 Hw0] [Hc Hm Ha Hmo Hd Hcf _ _] Hsw Hip. simpl in *.
  assert (Hx : RISCV_XLEN_IS_32 s = x32 s)
    by (unfold RISCV_XLEN_IS_32; rewrite Ha, Hcf; apply H0).
  assert (Hpre : forall r d, bank_ok (cfg s) r -> 
    rd_csr (x32 s) r mip = trunc (x32 s) (Z.lor (n_ip (r_netValue s)) (r_swip s)) ->
    hart_pre (upd_disable d (upd_csr r s))).
  { intros r d Hb Hmip. destruct H0. split; try done; cbn -[trunc] in *;
      unfold RISCV_XLEN_IS_32, getCurrentMode in *; simpl in *;
      rewrite ?Ha, ?Hm, ?Hmo, ?Hcf in *; done. }
  pose proof (hp_bank _ H0) as Hb. rewrite <- Hc, <- Hcf in Hb.
  unfold riscvUpdatePending, RD_CSR. rewrite Hx.
  destruct (Z.eqb_spec (rd_csr (x32 s) (r_csr s) mip) (Z.lor (n_ip (r_netValue s)) (r_swip s)))
    as [He|Hne].
  - assert (Hs : s = upd_disable (r_disable s) (upd_csr (r_csr s) s)) by (by destruct s).
    split.
    + rewrite Hs. apply Hpre; [done|]. rewrite He. destruct (x32 s) eqn:Ex; cbn [trunc].
      * symmetry. apply wrap_small. rewrite <- He. apply rd_csr_range32, Hb.
      * symmetry. apply wrap_small. rewrite <- He. apply rd_csr_range, Hb.
    + unfold wfi_ok, in_wfi, getPendingInterrupts, RD_CSR, RISCV_XLEN_IS_32 in *.
      by rewrite Hd, Hc, Ha.
  - apply test_interrupt_ok. unfold WR_CSR. rewrite Hx.
    set (r := wr_csr _ _ _ _).
    assert (Hs : upd_csr r s = upd_disable (r_disable s) (upd_csr r s)) by (by destruct s).
    rewrite Hs. apply Hpre.
    + eapply (bank_inert _ mip); [done..|]. apply wr_csr_changes, Hb.
    + apply rd_wr_csr_same.
Qed.

End HartOps.
