(* ===== verification/RvHartCsr.v ===== *)
(** * Register accesses keep the invariant

    Every read and write callback of RvCsr.v, every access through the table
    of RvCsrTable.v, reset and the port callbacks keep the invariant of
    RvHartInv.v. *)

From stdpp Require Import functions gmap.
From S2P Require Import Prelude RvTypes RvTables RvDecode RvHart RvHartFacts RvTrap RvTrapFacts.
From S2P Require Import RvIntFacts RvPmp RvCsr RvCsrTable RvPorts RvHartInv RvHartOps.

Section HartCsr.

Context `{V : VmiRt} `{X : VmiCxt}.
Implicit Types s : riscvS.

(** ** The current architecture *)

Definition new_arch (s : riscvS) : Z :=
  let arch := Z.lor (RD_CSR_FIELD s misa isa_Extensions)
                    (w32 (Z.shiftl (RD_CSR_FIELD s misa isa_MXL) XLEN_SHIFT)) in
  if RD_CSR_FIELD s mstatus status_FS =? 0 then Z.ldiff arch ISA_DF else arch.

Lemma set_arch_shape s :
  exists v, riscvSetCurrentArch s = upd_currentArch (new_arch s) (upd_vmi v s).
Proof.
  exists (if r_currentArch s =? new_arch s then r_vmi s else vmirtSetBlockMask (new_arch s) (r_vmi s)).
  unfold riscvSetCurrentArch. fold (new_arch s).
  destruct (Z.eqb_spec (r_currentArch s) (new_arch s)) as [<-|]; by destruct s.
Qed.

Lemma new_arch_bits s i :
  RISCV_XLEN_IS_32 s = x32 s -> mxl_ok (cfg s) (r_csr s) -> i < 26 -> i <> 3 -> i <> 5 -> 0 <= i ->
  Z.testbit (new_arch s) i = Z.testbit (rd_csr (x32 s) (r_csr s) misa) i.
Proof.
  intros Hx Hm Hi H3 H5 H0. unfold new_arch, RD_CSR_FIELD. rewrite Hx. unfold mxl_ok in Hm.
  rewrite !(rd_field_value _ _ misa) by done. rewrite Hm.
  set (x := rd_csr (x32 s) (r_csr s) misa).
  assert (Ha : Z.testbit (Z.lor (field_get (fields (x32 s) isa_Extensions) x)
                 (w32 (Z.shiftl (if x32 s then 1 else 2) XLEN_SHIFT))) i = Z.testbit x i).
  { rewrite Z.lor_spec, field_get_bits by (by destruct (x32 s)).
    replace (fields (x32 s) isa_Extensions) with (0, 26) by (by destruct (x32 s)). simpl fst. simpl snd.
    rewrite Z.add_0_r, (proj2 (Z.ltb_lt i 26)), andb_true_r by done.
    replace (Z.testbit (w32 _) i) with false; [by rewrite orb_false_r|].
    rewrite w32_bits by lia. rewrite Z.shiftl_spec, Z.testbit_neg_r by lia. done. }
  destruct (rd_field _ _ mstatus status_FS =? 0); [|exact Ha]. rewrite Z.ldiff_spec, Ha.
  replace (Z.testbit ISA_DF i) with false; [by rewrite andb_true_r|]. symmetry.
  change ISA_DF with (Z.lor (2 ^ 3) (2 ^ 5)). rewrite Z.lor_spec.
  by rewrite !Z.pow2_bits_false by lia.
Qed.

Lemma new_arch_xlen s i :
  RISCV_XLEN_IS_32 s = x32 s -> mxl_ok (cfg s) (r_csr s) -> i = 26 \/ i = 27 ->
  Z.testbit (new_arch s) i = Z.testbit (if x32 s then 1 else 2) (i - 26).
Proof.
  intros Hx Hm Hi. unfold new_arch, RD_CSR_FIELD. rewrite Hx. unfold mxl_ok in Hm.
  rewrite !(rd_field_value _ _ misa) by done. rewrite Hm.
  set (e := field_get _ _).
  assert (He : Z.testbit e i = false).
  { apply (testbit_above e 26); [|lia]. unfold e.
    replace (fields (x32 s) isa_Extensions) with (0, 26) by (by destruct (x32 s)).
    by apply (field_get_range (0, 26)). }
  assert (Ha : Z.testbit (Z.lor e (w32 (Z.shiftl (if x32 s then 1 else 2) XLEN_SHIFT))) i =
               Z.testbit (if x32 s then 1 else 2) (i - 26)).
  { rewrite Z.lor_spec, He, w32_bits, Z.shiftl_spec by lia. done. }
  destruct (rd_field _ _ mstatus status_FS =? 0); [|exact Ha]. rewrite Z.ldiff_spec, Ha. destruct Hi as [-> | ->]; by rewrite andb_true_r.
Qed.

(** The architecture register after a refresh. *)
Lemma new_arch_ok s :
  RISCV_XLEN_IS_32 s = x32 s -> mxl_ok (cfg s) (r_csr s) ->
  any (new_arch s) ISA_XLEN_32 = x32 s /\ any (new_arch s) ISA_XLEN_64 = negb (x32 s) /\
  forall i, mode_feature i -> Z.testbit (new_arch s) i = Z.testbit (rd_csr (x32 s) (r_csr s) misa) i.
Proof.
  intros Hx Hm. split_and!.
  - rewrite (any_bit _ 26), new_arch_xlen by (done || lia || by left). by destruct (x32 s).
  - rewrite (any_bit _ 27), new_arch_xlen by (done || lia || by right). by destruct (x32 s).
  - intros i Hi. apply new_arch_bits; try done; destruct Hi as [->|[->| ->]]; lia.
Qed.

Lemma set_arch_pre s : hart_pre s -> hart_pre (riscvSetCurrentArch s).
Proof.
  intros H. destruct (set_arch_shape s) as [v ->].
  destruct (new_arch_ok s (hp_xlen32 s H) (bk_mxl _ _ (hp_bank s H))) as (A1 & A2 & A3).
  split; try (destruct H; done). intros i Hi. simpl. rewrite A3 by done.
  by apply (bk_ext _ _ (hp_bank s H)).
Qed.

Lemma set_arch_ok s : hart_ok s -> hart_ok (riscvSetCurrentArch s).
Proof.
  intros [H Hw]. pose proof (set_arch_pre s H) as H'. split; [done|].
  unfold wfi_ok, getPendingInterrupts in *. rewrite !value_csr in * by done.
  destruct (set_arch_shape s) as [v E]. rewrite E. exact Hw.
Qed.

(** ** Status registers *)

Lemma only_changes_trans n r1 r2 r3 :
  only_changes n r1 r2 -> only_changes n r2 r3 -> only_changes n r1 r3.
Proof. intros [_ H1] [Hr H2]. split; [done|]. intros m Hm. by rewrite H2, H1. Qed.

(** The bank after the write of mstatus and the check of MPP. *)
Definition status_bank (s : riscvS) (v : Z) : csrBank :=
  let r := wr_csr (x32 s) mstatus v (r_csr s) in
  if has_mode (cfg s) (rd_field (x32 s) r mstatus status_MPP) then r
  else wr_field (x32 s) mstatus status_MPP (rd_field (x32 s) (r_csr s) mstatus status_MPP) r.

Lemma status_bank_changes s v : hart_pre s -> only_changes mstatus (r_csr s) (status_bank s v).
Proof.
  intros H. unfold status_bank. pose proof (bk_range _ _ (hp_bank s H)) as Hr.
  assert (H1 := wr_csr_changes (x32 s) mstatus v (r_csr s) Hr). case_match; [done|].
  eapply only_changes_trans; [done|]. apply wr_field_changes; [done|].
  intros m. by apply wr_csr_in_range.
Qed.

Lemma mpp_field b r : rd_field b r mstatus status_MPP = field_get (11, 2) (rd_csr b r mstatus).
Proof. rewrite rd_field_value by done. by destruct b. Qed.

Lemma status_bank_ok s v : hart_pre s -> bank_ok (cfg s) (status_bank s v).
Proof.
  intros H. pose proof (hp_bank s H) as Hb.
  eapply bank_change; [done|by apply status_bank_changes|done| |by intros []..].
  intros _. unfold status_bank. cbv zeta. rewrite <- mpp_field.
  set (r := wr_csr _ _ _ _).
  destruct (has_mode (cfg s) (rd_field (x32 s) r mstatus status_MPP)) eqn:E; [done|].
  rewrite rd_wr_field_same, land_ones_small.
  - rewrite mpp_field. apply (bk_mpp _ _ Hb).
  - apply rd_field_range.
  - by destruct (x32 s).
Qed.

Lemma status_bank_eq x s :
  hart_pre s ->
  (let s1 := WR_CSR mstatus x s in
   if negb (riscvHasMode s1 (RD_CSR_FIELD s1 mstatus status_MPP))
   then WR_CSR_FIELD mstatus status_MPP (RD_CSR_FIELD s mstatus status_MPP) s1 else s1) =
  upd_csr (status_bank s x) s.
Proof.
  intros H. unfold status_bank, WR_CSR, WR_CSR_FIELD, RD_CSR_FIELD, RISCV_XLEN_IS_32.
  simpl r_currentArch. fold (RISCV_XLEN_IS_32 s). rewrite (hp_xlen32 s H).
  cbv zeta. rewrite has_mode_eq. simpl. destruct (has_mode _ _); reflexivity.
Qed.

Lemma status_write_ok v mask s : hart_ok s -> hart_ok (statusW v mask s).
Proof.
  intros H. unfold statusW. cbv zeta. set (x := masked _ _ _).
  set (s1 := if negb (riscvHasMode _ _) then _ else _).
  assert (Hs1 : s1 = upd_csr (status_bank s x) s) by (by apply status_bank_eq, H).
  assert (Hok : hart_ok s1).
  { rewrite Hs1. pose proof (status_bank_changes s x (proj1 H)) as [_ Ho].
    apply ok_bank; [done|apply status_bank_ok, H|by rewrite Ho..]. }
  clearbody s1. apply set_arch_ok in Hok. generalize dependent (riscvSetCurrentArch s1).
  intros s2 Hok. rewrite refresh_shape. set (s3 := upd_vmi _ _).
  assert (hart_ok s3) as [Hp Hw] by (eapply same_hart_ok; [|exact Hok]; by split).
  by apply test_interrupt_if.
Qed.

Lemma status_read_ok s : hart_ok s -> hart_ok (fst (statusR s)) /\ cfg (fst (statusR s)) = cfg s.
Proof.
  intros H. split; [|unfold statusR; cbn; by case_match]. unfold statusR. cbv zeta. cbn [fst].
  set (s1 := if _ && _ then _ else s).
  assert (H1 : hart_ok s1) by (subst s1; case_match; [by apply ok_status|done]).
  apply ok_status; try done. clearbody s1.
  assert (Hsd : forall b s2, hart_ok s2 -> hart_ok (upd_csr (wr_field b mstatus status_SD 0 (r_csr s2)) s2)).
  { intros b s2 H2. apply ok_bank; [done| |by rewrite wr_field_other..].
    apply bank_status; [apply H2|done..]. }
  by apply Hsd, Hsd.
Qed.

(** ** Callbacks *)

Definition read_ok (f : riscvCSRReadFn) : Prop :=
  forall num s s' v, hart_ok s -> f num s = Some (s', v) -> hart_ok s' /\ cfg s' = cfg s.

(** A write that keeps the invariant of harts with the features [P]. *)
Definition write_ok (P : riscvConfig -> Prop) (f : riscvCSRWriteFn) : Prop :=
  forall num x s s' v, hart_ok s -> P (cfg s) -> f num x s = Some (s', v) -> hart_ok s'.

Definition any_config (c : riscvConfig) : Prop := True.

Lemma ok_same s s' : hart_ok s -> same_hart s s' -> hart_ok s'.
Proof. intros H Hs. by apply (same_hart_ok s). Qed.

Lemma status_writes_ok :
  write_ok any_config mstatusW /\ write_ok any_config sstatusW /\ write_ok any_config ustatusW.
Proof.
  split_and!; intros num x s s' v H _ He; apply Some_inj in He; injection He as <- _;
    by apply status_write_ok.
Qed.

Lemma status_reads_ok : read_ok mstatusR /\ read_ok sstatusR /\ read_ok ustatusR.
Proof.
  pose proof status_read_ok as Hs.
  split_and!; intros num s s' v H; unfold mstatusR, sstatusR, ustatusR; specialize (Hs s H);
    destruct (statusR s) as [s1 v1]; intros He; by simplify_eq.
Qed.

Lemma rm_valid_same s : same_hart s (updateCurrentRMValid s).
Proof. unfold updateCurrentRMValid. case_match; by split. Qed.

Lemma refresh_fpcr_ok oldRM s : hart_ok s -> hart_ok (refreshFPCR oldRM s).
Proof.
  intros H. unfold refreshFPCR. cbv zeta. apply ok_inert_field; [|done..].
  case_match; [|done]. pose proof (same_hart_ok _ _ (rm_valid_same s) H) as H'.
  case_match; [|done]. eapply ok_same; [exact H'|]. by split.
Qed.

Lemma fp_writes_ok : write_ok any_config fflagsW /\ write_ok any_config frmW /\ write_ok any_config fcsrW.
Proof.
  split_and!; intros num x s s' v H _ He; apply Some_inj in He; injection He as <- _.
  - eapply ok_same; [done|]. by split.
  - apply refresh_fpcr_ok. by apply ok_inert_field.
  - apply refresh_fpcr_ok. apply ok_inert_csr; [|done].
    eapply ok_same; [by apply (ok_inert_csr s fcsr)|]. by split.
Qed.

Lemma fp_reads_ok : read_ok fflagsR /\ read_ok frmR /\ read_ok fcsrR.
Proof.
  split_and!; intros num s s' v H He; apply Some_inj in He; injection He as <- _; [done..|].
  split; [|done]. do 6 (apply ok_inert_field; [|done..]). done.
Qed.

Lemma vxrm_write_ok : write_ok any_config vxrmW.
Proof.
  intros num x s s' v H _ He. apply Some_inj in He; injection He as <- _.
  do 2 (apply ok_inert_field; [|done..]). done.
Qed.

Lemma tvec_write_ok n : inert n = true -> write_ok any_config (xtvecW n).
Proof.
  intros Hn num x s s' v H _ He. apply Some_inj in He; injection He as <- _.
  by apply ok_inert_csr.
Qed.

Lemma ie_write_ok x mask s : hart_ok s -> hart_ok (fst (ieW x mask s)).
Proof.
  intros [H Hw]. unfold ieW. cbv zeta. cbn [fst].
  set (old := w32 (RD_CSR s mie)). set (new := masked _ _ _).
  assert (Hb : bank_ok (cfg s) (wr_csr (x32 s) mie new (r_csr s))).
  { eapply (bank_inert _ mie); [done..|apply H|apply wr_csr_changes, (hp_bank s H)]. }
  apply test_interrupt_if.
  - unfold WR_CSR. rewrite (hp_xlen32 s H). by apply pre_bank.
  - intros Heq%negb_false_iff%Z.eqb_eq Hi. specialize (Hw Hi). revert Hw.
    unfold getPendingInterrupts, RD_CSR, WR_CSR, RISCV_XLEN_IS_32. simpl r_currentArch. simpl r_csr.
    fold (RISCV_XLEN_IS_32 s). rewrite (hp_xlen32 s H), rd_wr_csr_same, rd_csr_wr_csr by done.
    rewrite <- Heq. unfold old, RD_CSR. rewrite (hp_xlen32 s H).
    set (m := rd_csr _ _ mie). set (p := rd_csr _ _ mip). intros Hmp.
    apply Z.bits_inj'. intros i Hi0. rewrite Z.land_spec, Z.bits_0.
    apply (f_equal (fun z => Z.testbit z i)) in Hmp. rewrite Z.land_spec, Z.bits_0 in Hmp.
    assert (Hle : forall b, Z.testbit (trunc b (w32 m)) i = true -> Z.testbit m i = true).
    { intros b. destruct (Z.lt_ge_cases i 32).
      - by rewrite trunc_bits, w32_bits by lia.
      - rewrite (testbit_above (trunc b (w32 m)) 32); [done| |lia].
        pose proof (w32_range m). destruct b; cbn [trunc].
        + apply w32_range.
        + rewrite wrap_small by lia. lia. }
    change (if x32 s then w32 (w32 m) else w64 (w32 m)) with (trunc (x32 s) (w32 m)).
    destruct (Z.testbit (trunc _ _) i) eqn:E; [|done]. by rewrite (Hle _ E) in Hmp.
Qed.

Lemma ie_writes_ok : write_ok any_config mieW /\ write_ok any_config sieW /\ write_ok any_config uieW.
Proof.
  pose proof ie_write_ok as Hie.
  split_and!; intros num x s s' v H _; unfold mieW, sieW, uieW; intros He; apply Some_inj in He;
    [specialize (Hie x (w32 (-1)) s H)|specialize (Hie x (getSIRMask s) s H)
    |specialize (Hie x (getUIRMask s) s H)]; by rewrite He in Hie.
Qed.

Lemma ip_write_ok x mask s : hart_ok s -> hart_ok (fst (ipW x mask s)).
Proof.
  intros H. unfold ipW. cbv zeta. cbn [fst]. set (new := if negb _ then _ else x).
  pose proof (w32_range new). pose proof (hp_swip s (proj1 H)). pose proof (hp_ip s (proj1 H)).
  destruct (Z.eqb_spec (r_swip s) new) as [<-|]; simpl negb; cbv iota.
  - rewrite wrap_small by lia. eapply ok_same; [done|]. by split.
  - apply (update_pending_ok _ s); [done|by split|done..].
Qed.

Lemma ip_writes_ok : write_ok any_config mipW /\ write_ok any_config sipW /\ write_ok any_config uipW.
Proof.
  pose proof ip_write_ok as Hip.
  split_and!; intros num x s s' v H _; unfold mipW, sipW, uipW; intros He; apply Some_inj in He;
    [specialize (Hip x WM32_mip s H)|specialize (Hip x (Z.land (getSIRMask s) WM32_sip) s H)
    |specialize (Hip x (Z.land (getUIRMask s) WM32_uip) s H)]; by rewrite He in Hip.
Qed.

(** ** Delegation *)

Definition S_or_N (c : riscvConfig) : Prop :=
  Z.testbit (c_arch c) S_bit = true \/ Z.testbit (c_arch c) N_bit = true.
Definition S_and_N (c : riscvConfig) : Prop :=
  Z.testbit (c_arch c) S_bit = true /\ Z.testbit (c_arch c) N_bit = true.

(** The registers whose contents delegation depends on, and what it takes to
    have them. *)
Definition deleg_reg (n : csrName) : option (riscvConfig -> Prop) :=
  match n with
  | medeleg | mideleg => Some S_or_N
  | sedeleg | sideleg => Some S_and_N
  | _ => None
  end.

Lemma deleg_change c n r r' P :
  deleg_reg n = Some P -> P c -> bank_ok c r -> only_changes n r r' -> bank_ok c r'.
Proof.
  intros Hn HP Hb Hc. pose proof (bk_edeleg _ _ Hb) as (E1 & E2 & E3).
  pose proof (bk_ideleg _ _ Hb) as (I1 & I2 & I3).
  assert (Hv : forall m, m <> n -> rd_csr (xlen32 c) r' m = rd_csr (xlen32 c) r m)
    by (intros; by eapply value_other).
  eapply bank_change; [done|done|by intros ->|by intros ->|..]; intros Hor.
  - destruct Hor as [-> | ->]; simplify_eq/=.
    + rewrite (Hv sedeleg) by done. destruct HP as [HP|HP]; split_and!; try done; congruence.
    + destruct HP as [HS HN]. split_and!; intros; congruence.
  - destruct Hor as [-> | ->]; simplify_eq/=.
    + rewrite (Hv sideleg) by done. destruct HP as [HP|HP]; split_and!; try done; congruence.
    + destruct HP as [HS HN]. split_and!; intros; congruence.
Qed.

Lemma ok_deleg s n v P b :
  deleg_reg n = Some P -> P (cfg s) -> hart_ok s -> hart_ok (upd_csr (wr_csr b n v (r_csr s)) s).
Proof.
  intros Hn HP H. pose proof (hp_bank s (proj1 H)) as Hb.
  apply ok_bank; [done| |by rewrite wr_csr_other by (by destruct n)..].
  eapply deleg_change; [done..|]. apply wr_csr_changes, Hb.
Qed.

Lemma ideleg_write_ok n P : deleg_reg n = Some P -> write_ok P (xidelegW n).
Proof.
  intros Hn num x s s' v H HP He. unfold xidelegW in He. apply Some_inj in He.
  injection He as <- _. set (s1 := WR_CSR _ _ _).
  assert (hart_ok s1) as [H1 Hw1] by (by eapply ok_deleg). by apply test_interrupt_if.
Qed.

End HartCsr.
