(* ===== verification/RvHartTable.v ===== *)
(** * The whole register table keeps the invariant

    The remaining callbacks (misa, satp, the counters, the protection
    registers), and from them that any access through the table of CSRs, by an
    instruction or by the debug interface, and reset keep the invariant of
    RvHartInv.v. *)

From stdpp Require Import functions gmap.
From S2P Require Import Prelude RvTypes RvTables RvDecode RvHart RvHartFacts RvTrap RvTrapFacts.
From S2P Require Import RvIntFacts RvPmp RvPmpWrite RvCsr RvCsrTable RvPorts RvHartInv RvHartOps.
From S2P Require Import RvHartCsr.

Section HartTable.

Context `{V : VmiRt} `{X : VmiCxt}.
Implicit Types s : riscvS.

(** ** misa *)

(** The bits of D, E and F, which misaW adjusts. *)
Definition adjusted (i : Z) : bool := (i =? 3) || (i =? 4) || (i =? 5).

Lemma adjust_bits x i k :
  (k = 3 \/ k = 4 \/ k = 5) -> adjusted i = false ->
  Z.testbit (Z.ldiff x (2 ^ k)) i = Z.testbit x i /\ Z.testbit (Z.lor x (2 ^ k)) i = Z.testbit x i.
Proof.
  intros Hk Hi. unfold adjusted in Hi. rewrite !orb_false_iff, !Z.eqb_neq in Hi.
  rewrite Z.ldiff_spec, Z.lor_spec, Z.pow2_bits_false by lia.
  by rewrite andb_true_r, orb_false_r.
Qed.

Lemma masked_bits x y m i :
  Z.testbit (masked x y m) i = if Z.testbit m i then Z.testbit x i else Z.testbit y i.
Proof.
  unfold masked. rewrite Z.lor_spec, Z.land_spec, Z.ldiff_spec.
  destruct (Z.testbit m i); by rewrite ?andb_true_r, ?andb_false_r, ?orb_false_r.
Qed.

(** The value misaW writes: outside D, E and F it is the masked value or the
    old one. *)
Lemma misa_value x s :
  exists y, misaW 0 x s = Some (riscvSetCurrentArch (WR_CSR misa y s),
                                RD_CSR (riscvSetCurrentArch (WR_CSR misa y s)) misa) /\
    forall i, adjusted i = false ->
      Z.testbit y i = Z.testbit (masked x (RD_CSR s misa) (RD_CSR_MASK s misa)) i \/
      Z.testbit y i = Z.testbit (RD_CSR s misa) i.
Proof.
  unfold misaW. eexists. split; [reflexivity|]. intros i Hi. set (y := masked _ _ _).
  set (y1 := if any (RD_CSR s misa) ISA_C && _ && _ then _ else y).
  assert (H1 : Z.testbit y1 i = Z.testbit y i \/ Z.testbit y1 i = Z.testbit (RD_CSR s misa) i)
    by (subst y1; case_match; auto).
  set (y2 := if any y1 ISA_I then _ else _).
  assert (H2 : Z.testbit y2 i = Z.testbit y1 i).
  { subst y2. destruct (adjust_bits y1 i 4) as [Hd Ho]; [auto|done|]. by case_match. }
  rewrite <- H2 in H1. clearbody y2.
  destruct (adjust_bits y2 i 3) as [D1 D2]; [auto|done|].
  destruct (adjust_bits y2 i 5) as [F1 F2]; [auto|done|].
  repeat case_match; try done;
    change ISA_D with (2 ^ 3); change ISA_F with (2 ^ 5); by rewrite ?D1, ?D2, ?F1, ?F2.
Qed.

Lemma misa_write_ok : write_ok any_config misaW.
Proof.
  intros num x s s' v H _. change (misaW num x s) with (misaW 0 x s).
  destruct (misa_value x s) as (y & -> & Hy). intros He. apply Some_inj in He. injection He as <- _.
  apply set_arch_ok. unfold WR_CSR. rewrite (hp_xlen32 s (proj1 H)).
  pose proof (hp_bank s (proj1 H)) as Hb. unfold RD_CSR, RD_CSR_MASK in Hy.
  rewrite (hp_xlen32 s (proj1 H)) in Hy.
  apply ok_bank; [done| |by rewrite wr_csr_other..].
  eapply bank_change; [done|apply wr_csr_changes, Hb| |done|by intros []..].
  intros _. unfold mxl_ok. rewrite rd_wr_csr_same. fold (trunc (x32 s) y).
  assert (Hsame : forall i, 0 <= i -> adjusted i = false ->
    Z.testbit (rd_csr (x32 s) (r_csrMask s) misa) i = false ->
    Z.testbit y i = Z.testbit (rd_csr (x32 s) (r_csr s) misa) i).
  { intros i _ Ha Hm. destruct (Hy i Ha) as [->|]; [|done]. by rewrite masked_bits, Hm. }
  split.
  - rewrite <- (bk_mxl _ _ Hb). pose proof (hp_mask_mxl s (proj1 H)) as Hm.
    destruct (x32 s); apply Z.bits_inj'; intros i Hi;
      rewrite !field_get_bits by done; cbn [fields32 fields64 fst snd];
      (destruct (Z.ltb_spec i 2) as [Hl|]; [|by rewrite !andb_false_r]);
      rewrite !andb_true_r; apply (f_equal (fun z => Z.testbit z i)) in Hm;
      rewrite field_get_bits, Z.bits_0 in Hm by done; cbn [fields32 fields64 fst snd] in Hm;
      rewrite (proj2 (Z.ltb_lt i 2)), andb_true_r in Hm by done;
      cbn [trunc]; [rewrite w32_bits by lia|unfold wrap; rewrite Z.mod_pow2_bits_low by lia];
      apply Hsame; [lia| |done|lia| |done]; unfold adjusted; lia.
  - intros i Hi. assert (Ha : adjusted i = false) by (destruct Hi as [->|[->| ->]]; done).
    assert (0 <= i < 32) by (destruct Hi as [->|[->| ->]]; lia).
    rewrite trunc_bits by done. intros Ht. destruct (Hy i Ha) as [E|E]; rewrite E in Ht.
    + rewrite masked_bits in Ht. destruct (Z.testbit (rd_csr _ _ misa) i) eqn:Em in Ht.
      * by apply (hp_mask_ext s (proj1 H)).
      * by apply (bk_ext _ _ Hb).
    + by apply (bk_ext _ _ Hb).
Qed.

(** ** satp, counters and protection registers *)

Lemma satp_write_ok : write_ok any_config satpW.
Proof.
  intros num x s s' v H _. unfold satpW. destruct (r_extBits s <? 64); [|done].
  set (s3 := WR_CSR_FIELD satp atp_PPN _ _).
  assert (H3 : hart_ok s3) by (do 2 (apply ok_inert_field; [|done..]); by apply ok_inert_csr).
  clearbody s3. intros He. apply Some_inj in He. injection He as <- _.
  case_match; [by apply ok_inert_csr|].
  eapply (ok_same (riscvSetMode (getCurrentMode s3) s3)); [|by split].
  apply set_mode_ok; [apply current_mode_range|apply H3|done].
Qed.

Lemma illegal_ok s s' :
  hart_ok s -> riscvIllegalInstruction s = Some s' -> hart_ok s' /\ cfg s' = cfg s.
Proof.
  intros H. unfold riscvIllegalInstruction.
  destruct (if c_tval_ii_code (cfg s) then _ else _) as [tval|]; [|done].
  cbn [mbind option_bind]. intros He.
  split; [by eapply take_exception_ok|by eapply take_exception_config].
Qed.

Lemma hpm_valid_ok num s s' ok :
  hart_ok s -> hpmAccessValid num s = Some (s', ok) -> hart_ok s' /\ cfg s' = cfg s.
Proof.
  intros H. unfold hpmAccessValid. case_match; [intros; by simplify_eq|].
  case_match; [intros; by simplify_eq|].
  destruct (riscvIllegalInstruction s) as [s1|] eqn:E; simpl; [|done].
  intros He. simplify_eq. by apply illegal_ok.
Qed.

Lemma cycle_write_same x s : same_hart s (cycleW x s).
Proof. by split. Qed.
Lemma instret_write_same x s : same_hart s (instretW x s).
Proof. by split. Qed.

Lemma counter_read_ok f : read_ok (counterR f) /\ read_ok (counterhR f) /\ read_ok mhpmR.
Proof.
  split_and!; intros num s s' v H; unfold counterR, counterhR, mhpmR;
    destruct (hpmAccessValid num s) as [[s1 ok]|] eqn:E; simpl; try done;
    intros He; simplify_eq; by eapply hpm_valid_ok.
Qed.

Lemma counter_write_ok f w :
  (forall x s, same_hart s (w x s)) ->
  write_ok any_config (counterW f w) /\ write_ok any_config (counterhW f w) /\
  write_ok any_config mhpmW.
Proof.
  intros Hw. split_and!; intros num x s s' v H _; unfold counterW, counterhW, mhpmW;
    destruct (hpmAccessValid num s) as [[s1 ok]|] eqn:E; simpl; try done;
    intros He; simplify_eq; apply (hpm_valid_ok _ _ _ _ H) in E as [E _]; try done;
    repeat case_match; try done; by eapply ok_same.
Qed.

Lemma countinhibit_write_ok : write_ok any_config mcountinhibitW.
Proof.
  intros num x s s' v H _ He. apply Some_inj in He. injection He as <- _.
  set (s1 := WR_CSR mcountinhibit x s). assert (H1 : hart_ok s1) by (by apply ok_inert_csr).
  set (s2 := if negb (_ =? RD_CSR_FIELD s1 mcountinhibit counteren_CY) then _ else s1).
  assert (H2 : hart_ok s2) by (subst s2; case_match; [eapply ok_same; [done|]; by split|done]).
  clearbody s2. case_match; [eapply ok_same; [done|]; by split|done].
Qed.

Lemma invalidate_same i s : same_hart s (invalidatePMPEntry i s).
Proof. destruct (invalidate_shape i s) as [v ->]. by split. Qed.

Lemma write_cfg_entry_same old G i s : same_hart s (write_cfg_entry old G i s).
Proof.
  assert (Hset : forall e t, same_hart t (set_cfg i e t)) by (by split).
  unfold write_cfg_entry. cbv zeta. set (fix_ := _ && _).
  set (s1 := if fix_ then set_cfg i _ s else s).
  assert (same_hart s s1) by (subst s1; destruct fix_; [by apply Hset|reflexivity]).
  clearbody s1. set (new := if fix_ then _ else _). clearbody new.
  destruct (negb (old i =? new)); [|done].
  destruct (negb (pmpLocked _ i)); [|etrans; [done|apply Hset]].
  etrans; [|apply invalidate_same]. etrans; [|apply Hset]. etrans; [|apply invalidate_same].
  etrans; [done|apply Hset].
Qed.

Lemma write_cfg_entries_same n old G s : same_hart s (write_cfg_entries n old G s).
Proof.
  revert s. induction n as [|n IH]; intros s; simpl; [reflexivity|].
  etrans; [apply write_cfg_entry_same|apply IH].
Qed.

Lemma pmp_writes_same index x s :
  same_hart s (fst (riscvVMWritePMPCFG index x s)) /\
  same_hart s (fst (riscvVMWritePMPAddr index x s)).
Proof.
  split.
  - unfold riscvVMWritePMPCFG. cbn [fst]. case_match; [|reflexivity].
    etrans; [|apply write_cfg_entries_same]. by split.
  - unfold riscvVMWritePMPAddr. cbn [fst]. case_match; [|reflexivity].
    destruct (pmpLocked s index); [reflexivity|].
    destruct (pmpLockedTOR s (index + 1)); [reflexivity|].
    etrans; [|apply invalidate_same]. etrans; [apply (invalidate_same index)|by split].
Qed.

Lemma pmp_writes_ok : write_ok any_config pmpcfgW /\ write_ok any_config pmpaddrW.
Proof.
  split; intros num x s s' v H _ He; unfold pmpcfgW, pmpaddrW in He; apply Some_inj in He.
  - destruct (pmp_writes_same (num - 0x3A0) x s) as [Hs _]. rewrite He in Hs. by eapply ok_same.
  - destruct (pmp_writes_same (num - 0x3B0) x s) as [_ Hs]. rewrite He in Hs. by eapply ok_same.
Qed.

Lemma pmp_reset_same s : same_hart s (riscvVMResetPMP s).
Proof.
  unfold riscvVMResetPMP. generalize (indices 0 (Z.to_nat (c_PMP_registers (cfg s)))) as l.
  intros l. revert s. induction l as [|i l IH]; intros s; simpl; [reflexivity|].
  etrans; [|apply IH]. unfold reset_entry. case_match; [|reflexivity].
  etrans; [apply (invalidate_same i)|by split].
Qed.

(** ** The table *)

(** What it takes to have a register. *)
Definition attr_needs (a : riscvCSRAttrs) : riscvConfig -> Prop :=
  match a_reg a ≫= deleg_reg with Some P => P | None => any_config end.

Definition opt_ok {A : Type} (P : A -> Prop) (o : option A) : Prop :=
  match o with Some x => P x | None => True end.

Record attr_ok (a : riscvCSRAttrs) : Prop := {
  ao_read : opt_ok read_ok (a_readCB a);
  ao_readwrite : opt_ok read_ok (a_readWriteCB a);
  ao_write :
    match a_writeCB a, a_reg a with
    | Some f, _ => write_ok (attr_needs a) f
    | None, Some n => inert n = true \/ exists P, deleg_reg n = Some P
    | None, None => True
    end;
  ao_arch :
    match a_reg a with
    | Some (medeleg | mideleg) => a_arch a = ISA_SorN
    | Some (sedeleg | sideleg) => a_arch a = ISA_SandN
    | _ => True
    end;
}.

Lemma family_ok i k nm num ar v e t m rcb rwcb wcb :
  (forall name n', attr_ok (CSR_ATTR_P__ name n' ar v e t m rcb rwcb wcb)) ->
  Forall attr_ok (CSR_ATTR_P__NUM i k nm num ar v e t m rcb rwcb wcb).
Proof. intros H. apply Forall_forall. intros a (j & -> & _)%list_elem_of_fmap. apply H. Qed.

(** Callbacks of the table, by name. *)
Ltac callback :=
  match goal with
  | |- True => exact I
  | |- read_ok (counterR _) => apply counter_read_ok
  | |- read_ok (counterhR _) => apply counter_read_ok
  | |- read_ok mhpmR => apply (counter_read_ok cycleR)
  | |- read_ok mstatusR => exact (proj1 status_reads_ok)
  | |- read_ok sstatusR => exact (proj1 (proj2 status_reads_ok))
  | |- read_ok ustatusR => exact (proj2 (proj2 status_reads_ok))
  | |- read_ok fflagsR => exact (proj1 fp_reads_ok)
  | |- read_ok frmR => exact (proj1 (proj2 fp_reads_ok))
  | |- read_ok fcsrR => exact (proj2 (proj2 fp_reads_ok))
  | |- read_ok _ => intros num s s' v H He; apply Some_inj in He; injection He as <- _; exact (conj H eq_refl)
  | |- write_ok _ (xidelegW _) => by apply ideleg_write_ok
  | |- write_ok _ (xtvecW _) => by apply tvec_write_ok
  | |- write_ok _ (counterW _ cycleW) => apply (counter_write_ok _ _ cycle_write_same)
  | |- write_ok _ (counterhW _ cycleW) => apply (counter_write_ok _ _ cycle_write_same)
  | |- write_ok _ (counterW _ instretW) => apply (counter_write_ok _ _ instret_write_same)
  | |- write_ok _ (counterhW _ instretW) => apply (counter_write_ok _ _ instret_write_same)
  | |- write_ok _ mhpmW => apply (counter_write_ok cycleR _ cycle_write_same)
  | |- write_ok _ misaW => apply misa_write_ok
  | |- write_ok _ satpW => apply satp_write_ok
  | |- write_ok _ vxrmW => apply vxrm_write_ok
  | |- write_ok _ mcountinhibitW => apply countinhibit_write_ok
  | |- write_ok _ mstatusW => exact (proj1 status_writes_ok)
  | |- write_ok _ sstatusW => exact (proj1 (proj2 status_writes_ok))
  | |- write_ok _ ustatusW => exact (proj2 (proj2 status_writes_ok))
  | |- write_ok _ fflagsW => exact (proj1 fp_writes_ok)
  | |- write_ok _ frmW => exact (proj1 (proj2 fp_writes_ok))
  | |- write_ok _ fcsrW => exact (proj2 (proj2 fp_writes_ok))
  | |- write_ok _ mieW => exact (proj1 ie_writes_ok)
  | |- write_ok _ sieW => exact (proj1 (proj2 ie_writes_ok))
  | |- write_ok _ uieW => exact (proj2 (proj2 ie_writes_ok))
  | |- write_ok _ mipW => exact (proj1 ip_writes_ok)
  | |- write_ok _ sipW => exact (proj1 (proj2 ip_writes_ok))
  | |- write_ok _ uipW => exact (proj2 (proj2 ip_writes_ok))
  | |- write_ok _ pmpcfgW => exact (proj1 pmp_writes_ok)
  | |- write_ok _ pmpaddrW => exact (proj2 pmp_writes_ok)
  | |- _ \/ _ => first [left; reflexivity | right; eexists; reflexivity]
  end.

Ltac attrs :=
  split; unfold attr_needs;
  cbn [CSR_ATTR_P__ CSR_ATTR_T__ CSR_ATTR_TV_ CSR_ATTR_TC_ CSR_ATTR_NIP a_readCB a_readWriteCB
       a_writeCB a_reg a_arch opt_ok mbind option_bind deleg_reg];
  first [callback | reflexivity].

Ltac table :=
  repeat match goal with
  | |- Forall _ (_ ++ _) => apply Forall_app; split
  | |- Forall _ (CSR_ATTR_P__NUM _ _ _ _ _ _ _ _ _ _ _ _) => apply family_ok; intros; attrs
  | |- Forall _ (_ :: _) => apply Forall_cons; split; [attrs|]
  | |- Forall _ [] => apply Forall_nil; exact I
  end.

Lemma table_user_ok : Forall attr_ok csrs_user.
Proof. unfold csrs_user. table. Qed.

Lemma table_supervisor_ok : Forall attr_ok csrs_supervisor.
Proof. unfold csrs_supervisor. table. Qed.

Lemma table_machine_ok : Forall attr_ok csrs_machine.
Proof. unfold csrs_machine. table. Qed.

Lemma table_counters_ok : Forall attr_ok csrs_counters.
Proof. unfold csrs_counters. table. Qed.

Lemma table_ok : Forall attr_ok csrs.
Proof.
  unfold csrs. rewrite !Forall_app.
  auto using table_user_ok, table_supervisor_ok, table_machine_ok, table_counters_ok.
Qed.

Lemma standard_csrs_elem v num a : standard_csrs v !! num = Some a -> a ∈ csrs /\ a_csrNum a = num.
Proof.
  unfold standard_csrs. assert (Hg : forall (l : list riscvCSRAttrs) (t : gmap Z riscvCSRAttrs),
    fold_left (fun t a => if v >=? a_version a then riscvNewCSR a t else t) l t !! num = Some a ->
    (a ∈ l /\ a_csrNum a = num) \/ t !! num = Some a).
  { intros l. induction l as [|b l IH]; intros t; simpl; [by right|]. intros H.
    destruct (IH _ H) as [[Hl Hn]|Ht]; [left; split; [by right|done]|].
    case_match; [|by right]. unfold riscvNewCSR in Ht.
    apply lookup_insert_Some in Ht as [[Hn ->]|[_ Ht]]; [left; split; [left|done]|by right]. }
  intros H. apply Hg in H as [|H]; [done|]. by rewrite lookup_empty in H.
Qed.

Lemma attrs_elem s num a : getCSRAttrs s num = Some a -> a ∈ csrs /\ a_csrNum a = num.
Proof. apply standard_csrs_elem. Qed.

(** What a valid access means. *)
Lemma validate_inv s num r w a :
  riscvValidateCSRAccess s num r w = Some a ->
  getCSRAttrs s num = Some a /\ getMissingCSRFeatures a (r_currentArch s) true = 0 /\
  (w = true -> getAccess a = true) /\ csr_mode num <= getCurrentMode s.
Proof.
  unfold riscvValidateCSRAccess. destruct (getCSRAttrs s num) as [b|]; [|done].
  destruct (Z.eqb_spec (getMissingCSRFeatures b (r_currentArch s) true) 0) as [Hm|]; [|done]. cbn [negb].
  destruct (w && negb (getAccess b)) eqn:Ew; [done|].
  destruct (Z.ltb_spec (getCurrentMode s) (csr_mode num)); [done|].
  intros He. apply Some_inj in He. subst b. split_and!; try done.
  intros ->. by destruct (getAccess a).
Qed.

Lemma attrs_ok s num a : getCSRAttrs s num = Some a -> attr_ok a.
Proof.
  unfold getCSRAttrs. intros H. apply standard_csrs_elem in H as [Ha _].
  exact (proj1 (Forall_forall attr_ok csrs) table_ok a Ha).
Qed.

(** ** Accesses *)

Lemma any_lor x a b : any x (Z.lor a b) = any x a || any x b.
Proof.
  unfold any. rewrite Z.land_lor_distr_r.
  destruct (Z.eqb_spec (Z.land x a) 0) as [->|Ha]; simpl; [done|].
  apply negb_true_iff, Z.eqb_neq. by intros [? ?]%Z.lor_eq_0_iff.
Qed.

(** The features of a register are those its contents need. *)
Lemma needs_present a x c :
  attr_ok a -> getMissingCSRFeatures a x true = 0 ->
  (forall i, mode_feature i -> Z.testbit x i = true -> Z.testbit (c_arch c) i = true) ->
  attr_needs a c.
Proof.
  intros H Hm Hx. pose proof (ao_arch a H) as Ha. unfold getMissingCSRFeatures in Hm. simpl in Hm.
  unfold attr_needs. destruct (a_reg a) as [n|]; simpl; [|done].
  assert (Hor : a_arch a = ISA_SorN -> S_or_N c).
  { intros E. rewrite E in Hm. change (Z.ldiff ISA_SorN ISA_and) with ISA_SorN in Hm.
    change (any ISA_SorN ISA_and) with false in Hm. cbv iota in Hm.
    destruct (any x ISA_SorN) eqn:Ex; [|done].
    rewrite any_lor in Ex. change ISA_S with (Z.shiftl 1 18) in Ex.
    change ISA_N with (Z.shiftl 1 13) in Ex. rewrite !any_bit in Ex by lia.
    apply orb_true_iff in Ex as [Ex|Ex]; [left|right]; apply Hx; try done.
    - by right; left.
    - by left. }
  assert (Hand : a_arch a = ISA_SandN -> S_and_N c).
  { intros E. rewrite E in Hm. change (any ISA_SandN ISA_and) with true in Hm. cbv iota in Hm.
    assert (Hb : forall i, i = 13 \/ i = 18 -> Z.testbit x i = true).
    { intros i Hi. apply (f_equal (fun z => Z.testbit z i)) in Hm. rewrite Z.ldiff_spec in Hm.
      destruct Hi as [-> | ->]; by apply negb_false_iff in Hm. }
    split; apply Hx; auto; unfold mode_feature; auto. }
  destruct n; simpl; try done; auto.
Qed.

Lemma raw_write_ok a n b s x :
  attr_ok a -> a_reg a = Some n -> a_writeCB a = None -> attr_needs a (cfg s) -> hart_ok s ->
  hart_ok (raw_set b n x s).
Proof.
  intros Ha Hr Hw Hn H. pose proof (ao_write a Ha) as Hwr. rewrite Hr, Hw in Hwr.
  unfold raw_set. destruct Hwr as [Hi|[P HP]].
  - pose proof (hp_bank s (proj1 H)) as Hb.
    apply ok_bank; [done| |by rewrite wr_csr_other by (by destruct n)..].
    eapply (bank_inert _ n); [by destruct n..|done|apply wr_csr_changes, Hb].
  - unfold attr_needs in Hn. rewrite Hr in Hn. simpl in Hn. rewrite HP in Hn.
    by eapply ok_deleg.
Qed.

Lemma emit_write_ok a x s s' :
  attr_ok a -> attr_needs a (cfg s) -> hart_ok s -> riscvEmitCSRWrite a x s = Some s' -> hart_ok s'.
Proof.
  intros Ha Hn H. unfold riscvEmitCSRWrite. destruct (a_writeCB a) as [f|] eqn:Ew.
  - pose proof (ao_write a Ha) as Hwr. rewrite Ew in Hwr.
    destruct (f (a_csrNum a) x s) as [[s1 v]|] eqn:Ef; simpl; [|done].
    intros He. simplify_eq. by eapply Hwr.
  - destruct (a_reg a) as [n|] eqn:Er; intros He; apply Some_inj in He; subst s'; [|done].
    repeat case_match; try done; by eapply raw_write_ok.
Qed.

Lemma emit_read_ok a w s s' v :
  attr_ok a -> hart_ok s -> riscvEmitCSRRead a w s = Some (s', v) -> hart_ok s' /\ cfg s' = cfg s.
Proof.
  intros Ha H. unfold riscvEmitCSRRead, getCSRReadCB.
  pose proof (ao_read a Ha) as Hr. pose proof (ao_readwrite a Ha) as Hrw.
  set (cb := match w with true => _ | false => _ end).
  assert (Hcb : opt_ok read_ok cb) by (subst cb; destruct w, (a_readWriteCB a); done).
  clearbody cb. destruct cb as [f|].
  - destruct (f (a_csrNum a) s) as [[s1 v1]|] eqn:Ef; simpl; [|done].
    intros He. simplify_eq. by eapply Hcb.
  - destruct (a_reg a); intros He; by simplify_eq.
Qed.

Lemma artifact_ok b s : hart_ok s -> hart_ok (upd_artifactAccess b s).
Proof. intros H. eapply ok_same; [done|]. by split. Qed.

Lemma debug_write_ok a x s s' ok :
  attr_ok a -> hart_ok s -> riscvWriteCSR a x s = Some (s', ok) -> hart_ok s'.
Proof.
  intros Ha H. unfold riscvWriteCSR. destruct (riscvGetXlenArch s) as [bits|]; simpl; [|done].
  destruct (Z.eqb_spec (getMissingCSRFeatures a (c_arch (cfg s)) true) 0) as [Hm|];
    [|intros; by simplify_eq].
  assert (Hn : attr_needs a (cfg s)) by (by eapply needs_present).
  destruct (toConfiguredArch s); simpl; [|done]. destruct (a_writeCB a) as [f|] eqn:Ew.
  - pose proof (ao_write a Ha) as Hwr. rewrite Ew in Hwr.
    destruct (f (a_csrNum a) _ _) as [[s1 v]|] eqn:Ef; simpl; [|done].
    intros He. simplify_eq. apply artifact_ok.
    eapply (Hwr _ _ (upd_artifactAccess true s)); [by apply artifact_ok|exact Hn|exact Ef].
  - destruct (a_reg a) as [n|] eqn:Er; simpl; intros He; simplify_eq; [|done].
    by eapply raw_write_ok.
Qed.

Lemma debug_read_ok a s s' v ok :
  attr_ok a -> hart_ok s -> riscvReadCSR a s = Some (s', v, ok) -> hart_ok s'.
Proof.
  intros Ha H. unfold riscvReadCSR. destruct (riscvGetXlenArch s) as [bits|]; simpl; [|done].
  case_match; [|intros; by simplify_eq]. destruct (toConfiguredArch s); simpl; [|done].
  pose proof (ao_read a Ha) as Hr. unfold getCSRReadCB. destruct (a_readCB a) as [f|]; simpl; [|done].
  destruct (f (a_csrNum a) _) as [[s1 v1]|] eqn:Ef; simpl; [|done].
  intros He. simplify_eq. apply artifact_ok. eapply Hr; [|exact Ef]. by apply artifact_ok.
Qed.

End HartTable.
