(* ===== verification/RvHartReset.v ===== *)
(** * Reset and construction establish the invariant

    The register reset of riscvCSRReset from a weaker condition than the
    invariant, reset and non-maskable interrupt, the port callbacks, and the
    construction of a hart from a cleared processor structure. *)

From stdpp Require Import functions.
From S2P Require Import Prelude RvTypes RvTables RvDecode RvHart RvHartFacts RvTrap RvTrapFacts.
From S2P Require Import RvIntFacts RvPmp RvPmpWrite RvCsr RvCsrTable RvPorts RvHartInv RvHartOps.
From S2P Require Import RvHartCsr RvHartTable.

Section HartReset.

Context `{V : VmiRt} `{X : VmiCxt}.
Implicit Types s : riscvS.

(** ** Register reset *)

(** The invariant without what reset establishes and without the clauses on
    delegation. *)
Record weak (s : riscvS) : Prop := {
  wk_config : config_ok (cfg s);
  wk_range n : csr_in_range (r_csr s n);
  wk_xlen32 : RISCV_XLEN_IS_32 s = x32 s;
  wk_xlen64 : any (r_currentArch s) ISA_XLEN_64 = negb (x32 s);
  wk_arch i : mode_feature i -> Z.testbit (r_currentArch s) i = true ->
              Z.testbit (c_arch (cfg s)) i = true;
  wk_mask_range n : csr_in_range (r_csrMask s n);
  wk_mask_mxl : field_get (fields (x32 s) isa_MXL) (rd_csr (x32 s) (r_csrMask s) misa) = 0;
  wk_mask_ext i : mode_feature i -> Z.testbit (rd_csr (x32 s) (r_csrMask s) misa) i = true ->
                  Z.testbit (c_arch (cfg s)) i = true;
  wk_mode : has_mode (cfg s) (getCurrentMode s) = true;
  wk_swip : 0 <= r_swip s < 2 ^ 32;
  wk_ip : 0 <= n_ip (r_netValue s) < 2 ^ 64;
  wk_mip : rd_csr (x32 s) (r_csr s) mip = trunc (x32 s) (Z.lor (n_ip (r_netValue s)) (r_swip s));
}.

Lemma pre_weak s : hart_pre s -> weak s.
Proof. intros []. split; try done. apply hp_bank. Qed.

(** What reset establishes. *)
Record reset_bank (c : riscvConfig) (r : csrBank) : Prop := {
  rb_mxl : mxl_ok c r;
  rb_ext i : mode_feature i -> Z.testbit (rd_csr (xlen32 c) r misa) i = true ->
             Z.testbit (c_arch c) i = true;
  rb_mpp : has_mode c (field_get (11, 2) (rd_csr (xlen32 c) r mstatus)) = true;
}.

Lemma weak_pre s :
  weak s -> reset_bank (cfg s) (r_csr s) ->
  deleg_ok (cfg s) (rd_csr (x32 s) (r_csr s) medeleg) (rd_csr (x32 s) (r_csr s) sedeleg) ->
  deleg_ok (cfg s) (rd_csr (x32 s) (r_csr s) mideleg) (rd_csr (x32 s) (r_csr s) sideleg) ->
  hart_pre s.
Proof. intros [] [] ? ?. by split. Qed.

Definition reset_csrs (s : riscvS) : csrBank :=
  let arch := c_arch (cfg s) in
  wr_csr (x32 s) mcause 0
    (wr_csr (x32 s) mstatus (c_csr_mstatus (cfg s))
      (wr_field (x32 s) misa isa_MXL (Z.shiftr arch XLEN_SHIFT)
        (wr_field (x32 s) misa isa_Extensions arch (r_csr s)))).

Lemma arch_mxl c : config_ok c ->
  Z.land (Z.shiftr (c_arch c) XLEN_SHIFT) (Z.ones 2) = if xlen32 c then 1 else 2.
Proof.
  intros H. pose proof (co_xlen64 c H) as H64. pose proof (co_arch c H) as Ha.
  assert (H32 : xlen32 c = Z.testbit (c_arch c) 26) by (apply (any_bit (c_arch c) 26); lia).
  assert (H64' : any (c_arch c) ISA_XLEN_64 = Z.testbit (c_arch c) 27) by (apply (any_bit (c_arch c) 27); lia).
  rewrite H64', H32 in H64. rewrite H32. apply Z.bits_inj'. intros i Hi. rewrite Z.land_spec, Z.shiftr_spec by lia.
  destruct (decide (i = 0)) as [->|]; [change (0 + XLEN_SHIFT) with 26; by destruct (Z.testbit (c_arch c) 26)|].
  destruct (decide (i = 1)) as [->|]; [change (1 + XLEN_SHIFT) with 27; rewrite H64; by destruct (Z.testbit (c_arch c) 26)|].
  rewrite Z.ones_spec_high, andb_false_r by lia. symmetry.
  destruct (Z.testbit (c_arch c) 26); [apply (testbit_above 1 2)|apply (testbit_above 2 2)]; lia.
Qed.

Lemma reset_csrs_bank s : config_ok (cfg s) -> reset_bank (cfg s) (reset_csrs s).
Proof.
  intros H. unfold reset_csrs.
  set (r := wr_field (x32 s) misa isa_MXL _ _).
  assert (Hm : rd_csr (x32 s) (wr_csr (x32 s) mcause 0 (wr_csr (x32 s) mstatus (c_csr_mstatus (cfg s)) r)) misa =
    field_set (fields (x32 s) isa_MXL) (Z.shiftr (c_arch (cfg s)) XLEN_SHIFT)
      (field_set (fields (x32 s) isa_Extensions) (c_arch (cfg s)) (rd_csr (x32 s) (r_csr s) misa))).
  { rewrite !rd_csr_wr_csr by done. unfold r. by rewrite !value_wr_field. }
  split.
  - unfold mxl_ok. rewrite Hm, field_get_set by (by destruct (x32 s)).
    rewrite <- (arch_mxl (cfg s) H). by destruct (x32 s).
  - intros i Hi. rewrite Hm, !field_set_bits by (destruct (x32 s); destruct Hi as [->|[->| ->]]; done).
    destruct (x32 s), Hi as [->|[->| ->]]; done.
  - rewrite rd_csr_wr_csr, rd_wr_csr_same by done.
    rewrite <- (co_mpp _ H). f_equal. destruct (x32 s); [by apply (field_get_w32 (11, 2))|].
    apply Z.bits_inj'. intros i Hi. rewrite !field_get_bits by done. simpl fst. simpl snd.
    destruct (Z.ltb_spec i 2); [|by rewrite !andb_false_r].
    unfold wrap. by rewrite Z.mod_pow2_bits_low by lia.
Qed.

Lemma reset_csrs_other s n :
  n <> misa -> n <> mstatus -> n <> mcause -> reset_csrs s n = r_csr s n.
Proof. intros. unfold reset_csrs. by rewrite !wr_csr_other, !wr_field_other. Qed.

Lemma reset_csrs_range s n : (forall m, csr_in_range (r_csr s m)) -> csr_in_range (reset_csrs s n).
Proof.
  intros H. unfold reset_csrs. do 2 (apply wr_csr_in_range; intros). 
  do 2 (apply wr_field_in_range; [done|]; intros). done.
Qed.

Lemma configured s : weak s -> toConfiguredArch s = Some tt.
Proof.
  intros H. pose proof (co_xlen64 _ (wk_config s H)) as Hc. pose proof (wk_xlen64 s H) as H64.
  pose proof (wk_xlen32 s H) as H32. unfold RISCV_XLEN_IS_32 in H32.
  unfold toConfiguredArch, riscvGetXlenMode, riscvGetXlenArch, decoder_view.
  cbn [currentArch]. fold (any (r_currentArch s) ISA_XLEN_64).
  fold (any (r_currentArch s) ISA_XLEN_32). unfold xlen32 in *.
  rewrite H64, H32, Hc. by destruct (any (c_arch (cfg s)) ISA_XLEN_32).
Qed.

(** Reset always completes; the registers are the reset ones. *)
Lemma csr_reset_spec s :
  weak s -> exists s', riscvCSRReset s = Some s' /\
    weak s' /\ r_csr s' = reset_csrs s /\ cfg s' = cfg s /\ r_disable s' = r_disable s /\
    r_csrMask s' = r_csrMask s /\ r_mode s' = r_mode s.
Proof.
  intros H. unfold riscvCSRReset. rewrite configured by done. cbn [mbind option_bind].
  set (s4 := WR_CSR mcause 0 _).
  assert (Hs4 : s4 = upd_csr (reset_csrs s) s).
  { unfold s4, reset_csrs, WR_CSR, WR_CSR_FIELD, RISCV_XLEN_IS_32. cbn [r_currentArch r_csr upd_csr r_configInfo].
    fold (RISCV_XLEN_IS_32 s). by rewrite (wk_xlen32 s H). }
  rewrite Hs4. clear Hs4 s4. destruct (set_arch_shape (upd_csr (reset_csrs s) s)) as [v ->].
  destruct (reset_csrs_bank s (wk_config s H)) as [Hmxl Hext Hmpp].
  destruct (new_arch_ok (upd_csr (reset_csrs s) s) (wk_xlen32 s H) Hmxl) as (A1 & A2 & A3).
  set (a := new_arch _) in *.
  set (s5 := upd_currentArch a _). pose proof (pmp_reset_same s5) as [P1 P2 P3 P4 P5 P6 P7 P8].
  eexists. split; [reflexivity|]. cbn -[trunc] in *.
  split_and!; try done. split; cbn -[trunc];
    unfold RISCV_XLEN_IS_32, getCurrentMode; cbn -[trunc];
    rewrite ?P1, ?P2, ?P3, ?P4, ?P6, ?P7, ?P8; try (destruct H; done).
  - intros n. apply reset_csrs_range, H.
  - intros i Hi. rewrite A3 by done. by apply Hext.
Qed.

Lemma csr_reset_ok s s' : hart_ok s -> riscvCSRReset s = Some s' -> hart_ok s'.
Proof.
  intros [H Hw] He. destruct (csr_reset_spec s (pre_weak s H)) as (s1 & E & W & Hr & Hc & Hd & Hm & _).
  rewrite He in E. simplify_eq. pose proof (hp_bank s H) as Hb.
  assert (Hv : forall b n, n <> misa -> n <> mstatus -> n <> mcause ->
            rd_csr b (r_csr s1) n = rd_csr b (r_csr s) n)
    by (intros; unfold rd_csr; by rewrite Hr, reset_csrs_other).
  assert (Hp : hart_pre s1).
  { apply weak_pre; [done| |rewrite Hc, !Hv by done; apply Hb..].
    rewrite Hc, Hr. by apply reset_csrs_bank, H. }
  split; [done|]. unfold wfi_ok, in_wfi, getPendingInterrupts in *.
  rewrite !value_csr in * by done. by rewrite Hd, Hc, !Hv.
Qed.

(** ** Reset, non-maskable interrupt and ports *)

Lemma machine_mode c : has_mode c RISCV_MODE_MACHINE = true.
Proof. reflexivity. Qed.

Lemma to_machine_ok reason s :
  hart_ok s ->
  let s' := riscvSetMode RISCV_MODE_MACHINE (restartProcessor reason s) in
  hart_ok s' /\ getCurrentMode s' = RISCV_MODE_MACHINE.
Proof.
  intros H. split; [|by apply set_mode_mode].
  apply set_mode_ok; [done|apply machine_mode|by apply restart_ok].
Qed.

Lemma reset_ok s : hart_ok s -> exists s', riscvReset s = Some s' /\ hart_ok s' /\
  getCurrentMode s' = RISCV_MODE_MACHINE.
Proof.
  intros H. unfold riscvReset. destruct (to_machine_ok RVD_RESTART_RESET s H) as [H1 Hm].
  generalize dependent (riscvSetMode RISCV_MODE_MACHINE (restartProcessor RVD_RESTART_RESET s)).
  intros s1 H1 Hm. destruct (csr_reset_spec s1 (pre_weak s1 (proj1 H1))) as (s2 & E & _ & _ & _ & _ & _ & Hmo).
  pose proof (csr_reset_ok s1 s2 H1 E) as H2. rewrite E. cbn [mbind option_bind].
  eexists. split; [reflexivity|]. split; [eapply ok_same; [exact H2|]; by split|].
  rewrite <- Hm. unfold getCurrentMode. rewrite <- Hmo. reflexivity.
Qed.

(** The part of doNMI after the change of mode. *)
Lemma nmi_registers_ok s :
  let s1 := WR_CSR mcause 0 s in
  let s2 := upd_exception 0 (WR_CSR mepc (getEPC s1) s1) in
  let s3 := upd_vmi (vmirtSetPCException (c_nmi_address (r_configInfo s2)) (r_vmi s2)) s2 in
  hart_ok s -> hart_ok s3 /\ getCurrentMode s3 = getCurrentMode s.
Proof.
  intros s1 s2 s3 H. split; [|reflexivity].
  eapply (ok_same (WR_CSR mepc (getEPC s1) s1)); [|by split].
  apply ok_inert_csr; [|done]. by apply ok_inert_csr.
Qed.

Lemma nmi_ok s : hart_ok s -> hart_ok (doNMI s) /\ getCurrentMode (doNMI s) = RISCV_MODE_MACHINE.
Proof.
  intros H. destruct (to_machine_ok RVD_RESTART_NMI s H) as [H1 Hm].
  destruct (nmi_registers_ok _ H1) as [H3 H4]. rewrite Hm in H4. exact (conj H3 H4).
Qed.

Lemma net_change_ok p level s s' :
  hart_ok s -> (forall name i, p = InterruptPort name i -> 0 <= i) ->
  net_change p level s = Some s' -> hart_ok s'.
Proof.
  intros H Hi. destruct p as [| |name i]; simpl.
  - unfold resetPortCB. destruct (posedge _ _); [|destruct (negedge _ _)]; cbn [mbind option_bind].
    + intros He. apply Some_inj in He. rewrite <- He.
      eapply ok_same; [by apply (halt_ok RVD_RESET s)|by split].
    + destruct (reset_ok s H) as (s1 & -> & H1 & _). cbn [mbind option_bind]. intros He.
      apply Some_inj in He. rewrite <- He.
      eapply ok_same; [exact H1|by split].
    + intros He. simplify_eq. eapply ok_same; [done|by split].
  - intros He. simplify_eq. unfold nmiPortCB. set (s1 := if posedge _ _ then _ else _).
    assert (H1 : hart_ok s1) by (subst s1; case_match; [by apply halt_ok|case_match; [by apply nmi_ok|done]]).
    clearbody s1. eapply ok_same; [done|by split].
  - unfold interruptPortCB. destruct (Z.ltb_spec i 64); [|done]. intros He. apply Some_inj in He.
    rewrite <- He. apply (update_pending_ok _ s); [done|by split|apply H|]. simpl.
    pose proof (hp_ip s (proj1 H)) as Hip. specialize (Hi name i eq_refl).
    apply range_bits; [lia|]. intros j Hj. case_match.
    + rewrite Z.lor_spec, (testbit_above (n_ip _) 64), Z.shiftl_spec, (testbit_above 1 1) by lia. done.
    + rewrite Z.ldiff_spec, (testbit_above (n_ip _) 64) by lia. done.
Qed.

(** ** Construction *)

(** A processor structure as applyParamsSMP leaves it: cleared, with the
    configuration and the XLEN set.  The mode bits of misa (MXL) are not
    writable, so the mask of the architecture has the letters only. *)
Record fresh (s : riscvS) : Prop := {
  fr_csr n : r_csr s n = CsrReg 0 0;
  fr_mask n : r_csrMask s n = CsrReg 0 0;
  fr_disable : r_disable s = 0;
  fr_swip : r_swip s = 0;
  fr_ip : n_ip (r_netValue s) = 0;
  fr_arch : r_currentArch s = Z.land (c_arch (cfg s)) ISA_XLEN_ANY;
  fr_xlen64 : any (c_arch (cfg s)) ISA_XLEN_64 = negb (x32 s);
  fr_range : 0 <= c_arch (cfg s) < 2 ^ 28;
  fr_archMask : 0 <= c_archMask (cfg s) < 2 ^ 26;
  fr_archMask_bits i : mode_feature i -> Z.testbit (c_archMask (cfg s)) i = true ->
                       Z.testbit (c_arch (cfg s)) i = true;
  fr_user : Z.testbit (c_arch (cfg s)) N_bit = true -> Z.testbit (c_arch (cfg s)) U_bit = true;
  fr_mpp : field_get (11, 2) (c_csr_mstatus (cfg s)) = 0;
}.

(** The reset value of mstatus that riscvCSRInitialReset computes. *)
Definition initial_mstatus (s : riscvS) : Z :=
  let arch := c_arch (cfg s) in
  let MXL := Z.shiftr arch XLEN_SHIFT in
  let minMode := riscvGetMinMode s in
  let get f x := field_get (fields64 f) x in
  let set f v x := field_set (fields64 f) v x in
  let m := c_csr_mstatus (cfg s) in
  let m := if get status_MPP m <? minMode then set status_MPP minMode m else m in
  let m := if negb (any arch ISA_S) then set status_SPP 0 m
           else if get status_SPP m <? minMode then set status_SPP minMode m else m in
  let m := if any arch ISA_U then set status_UXL MXL m else m in
  if any arch ISA_S then set status_SXL MXL m else m.

Lemma initial_mpp s :
  field_get (11, 2) (c_csr_mstatus (cfg s)) = 0 ->
  field_get (11, 2) (initial_mstatus s) = riscvGetMinMode s.
Proof.
  intros H0. unfold initial_mstatus. cbv zeta.
  assert (Hset : forall p v m, (p = (8, 1) \/ p = (32, 2) \/ p = (34, 2)) ->
            field_get (11, 2) (field_set p v m) = field_get (11, 2) m)
    by (intros p v m [->|[->| ->]]; by apply field_get_set_apart).
  set (m1 := if field_get (fields64 status_MPP) _ <? _ then _ else _).
  assert (H1 : field_get (11, 2) m1 = riscvGetMinMode s).
  { subst m1. change (fields64 status_MPP) with (11, 2). rewrite H0.
    pose proof (min_mode_range s). destruct (Z.ltb_spec 0 (riscvGetMinMode s)).
    - rewrite field_get_set by done. by apply land_ones_small.
    - lia. }
  clearbody m1. rewrite <- H1.
  set (m2 := if negb _ then _ else _).
  assert (H2 : field_get (11, 2) m2 = field_get (11, 2) m1)
    by (subst m2; repeat case_match; by rewrite ?(Hset (8, 1)) by auto).
  clearbody m2. rewrite <- H2. cbn [fields64].
  repeat case_match; rewrite ?(Hset (34, 2)), ?(Hset (32, 2)) by auto; done.
Qed.

(** ** Steps of the initialization *)

(** What the steps of riscvCSRInit after the reset keep. *)
Record keeps (s s' : riscvS) : Prop := {
  kp_weak : weak s -> weak s';
  kp_config : cfg s' = cfg s;
  kp_arch : r_currentArch s' = r_currentArch s;
  kp_disable : r_disable s' = r_disable s;
  kp_deleg n : (exists P, deleg_reg n = Some P) -> r_csr s' n = r_csr s n;
}.

#[local] Instance keeps_preorder : PreOrder keeps.
Proof.
  split.
  - intros s. by split.
  - intros s1 s2 s3 [] []. split; [auto|congruence..|]. intros n Hn. by rewrite kp_deleg1, kp_deleg0.
Qed.

Lemma weak_csr s r :
  weak s -> (forall n, csr_in_range (r n)) -> r mip = r_csr s mip -> weak (upd_csr r s).
Proof. intros [] Hr Hm. split; try done. simpl. unfold rd_csr in *. by rewrite Hm. Qed.

Lemma weak_mask s m :
  weak s -> (forall n, csr_in_range (m n)) -> m misa = r_csrMask s misa -> weak (upd_csrMask m s).
Proof.
  intros [] Hr Hm. split; try done; simpl; unfold rd_csr in *; by rewrite Hm.
Qed.

Lemma keeps_csr n v s s' : keeps s s' -> inert n = true -> keeps s (WR_CSR n v s').
Proof.
  intros H Hn. etrans; [exact H|]. unfold WR_CSR. split; try done.
  - intros W. apply weak_csr; [done|apply wr_csr_changes, W || (intros; apply wr_csr_in_range, W)|].
    by rewrite wr_csr_other by (by destruct n).
  - intros m [P HP]. simpl. apply wr_csr_other. intros ->. by destruct m.
Qed.

Lemma keeps_view b n v s s' :
  keeps s s' -> n <> misa -> keeps s (upd_csrMask (wr_csr b n v (r_csrMask s')) s').
Proof.
  intros H Hn. etrans; [exact H|]. split; try done.
  intros W. apply weak_mask; [done| |by rewrite wr_csr_other].
  intros m. apply wr_csr_in_range, W.
Qed.

Lemma keeps_mask n v s s' : keeps s s' -> n <> misa -> keeps s (SET_CSR_MASK_V n v s').
Proof. intros. unfold SET_CSR_MASK_V. by repeat apply keeps_view. Qed.

Lemma keeps_field n f s s' :
  keeps s s' -> n <> misa -> fits_storage n f = true -> keeps s (SET_CSR_FIELD_MASK_1 n f s').
Proof.
  intros H Hn Hf. etrans; [exact H|]. split; try done. intros W.
  apply weak_mask; [done| |by rewrite !wr_field_other].
  intros m. do 2 (apply wr_field_in_range; [done|intros]). apply W.
Qed.

Lemma keeps_fields fs s s' :
  keeps s s' -> Forall (fun f => fits_storage mstatus f = true) fs -> keeps s (mask_all fs s').
Proof.
  unfold mask_all. intros H Hf. revert s' H. induction Hf as [|f fs Hf Hfs IH]; intros s' H; simpl; [done|].
  apply IH. by apply keeps_field.
Qed.

(** The mask of misa. *)
Lemma mask_misa_value b f v m :
  fits32 f = true ->
  rd_csr b (wr_field false misa f v (wr_field true misa f v m)) misa =
  field_set (fields b f) v (rd_csr b m misa).
Proof.
  intros Hf. destruct b; [|rewrite (value_wr_field false) by done; done].
  rewrite <- (value_wr_field true) by done. unfold rd_csr, wr_field.
  by rewrite !fn_lookup_insert.
Qed.

Lemma keeps_misa s s' :
  keeps s s' -> 0 <= c_archMask (cfg s) < 2 ^ 26 ->
  (forall i, mode_feature i -> Z.testbit (c_archMask (cfg s)) i = true ->
             Z.testbit (c_arch (cfg s)) i = true) ->
  keeps s (SET_CSR_FIELD_MASK_V misa isa_MXL (Z.shiftr (c_archMask (cfg s)) XLEN_SHIFT)
             (SET_CSR_FIELD_MASK_V misa isa_Extensions (c_archMask (cfg s)) s')).
Proof.
  intros H Hr Hb. rewrite <- (kp_config _ _ H) in *. etrans; [exact H|]. clear H s.
  assert (H0 : Z.shiftr (c_archMask (cfg s')) XLEN_SHIFT = 0)
    by (rewrite shiftr_div by done; by apply Z.div_small).
  rewrite H0. split; try done. intros [].
  assert (Hv : rd_csr (x32 s') (r_csrMask (SET_CSR_FIELD_MASK_V misa isa_MXL 0
             (SET_CSR_FIELD_MASK_V misa isa_Extensions (c_archMask (cfg s')) s'))) misa =
    field_set (fields (x32 s') isa_MXL) 0
      (field_set (fields (x32 s') isa_Extensions) (c_archMask (cfg s')) (rd_csr (x32 s') (r_csrMask s') misa)))
    by (unfold SET_CSR_FIELD_MASK_V; cbn [r_csrMask upd_csrMask]; by rewrite !mask_misa_value).
  split; try done.
  - intros n. do 4 (apply wr_field_in_range; [done|intros]). done.
  - change (cfg (SET_CSR_FIELD_MASK_V _ _ _ _)) with (cfg s'). rewrite Hv.
    by rewrite field_get_set by (by destruct (x32 s')).
  - intros i Hi. change (cfg (SET_CSR_FIELD_MASK_V _ _ _ _)) with (cfg s').
    rewrite Hv, !field_set_bits by (destruct (x32 s'); destruct Hi as [->|[->| ->]]; done).
    destruct (x32 s'), Hi as [->|[->| ->]]; apply Hb; unfold mode_feature; auto.
Qed.

Lemma init_mstatus_keeps s s' : keeps s s' -> keeps s (init_mstatus_mask s').
Proof.
  intros H. unfold init_mstatus_mask.
  repeat match goal with
  | |- keeps _ (if ?b then _ else _) => destruct b
  | |- keeps _ (mask_all _ _) => apply keeps_fields; [|by repeat constructor]
  end; done.
Qed.

Lemma init_masks_keeps index s :
  0 <= c_archMask (cfg s) < 2 ^ 26 ->
  (forall i, mode_feature i -> Z.testbit (c_archMask (cfg s)) i = true ->
             Z.testbit (c_arch (cfg s)) i = true) ->
  keeps s (init_masks index s).
Proof.
  intros Hr Hb. unfold init_masks. destruct (deleg_masks _) as [[[sE uE] sI] uI].
  repeat (apply keeps_mask; [|done]).
  apply init_mstatus_keeps, keeps_misa; [|done..].
  repeat (apply keeps_csr; [|done]). reflexivity.
Qed.

Lemma pmkey_shape s : exists k v, riscvRefreshPMKey s = upd_pmKey k (upd_vlMax v s).
Proof.
  unfold riscvRefreshPMKey, updateCurrentRMValid. cbv zeta.
  match goal with |- context [upd_pmKey ?a (upd_vlMax ?b s)] => generalize a, b end. intros k v.
  case_match; eexists _, v; reflexivity.
Qed.

Lemma pmkey_keeps s s' : keeps s s' -> keeps s (riscvRefreshPMKey s').
Proof.
  intros H. etrans; [exact H|]. destruct (pmkey_shape s') as (k & v & ->).
  split; try done. intros []. by split.
Qed.

Lemma init_values_keeps s : keeps s (init_values s).
Proof.
  unfold init_values. apply pmkey_keeps. do 2 (apply keeps_mask; [|done]).
  match goal with |- keeps s (if ?b then WR_CSR _ _ ?t else _) =>
    assert (Ht : keeps s t); [|destruct b; [apply keeps_csr|]; done] end.
  do 3 (apply keeps_mask; [|done]). do 6 (apply keeps_view; [|done]).
  apply keeps_csr; [|done]. do 3 (apply keeps_mask; [|done]). reflexivity.
Qed.

(** ** The constructor *)

Lemma fresh_weak s s' :
  fresh s -> s' = upd_cfg_mstatus (initial_mstatus s) s -> getCurrentMode s = RISCV_MODE_MACHINE ->
  weak s'.
Proof.
  intros [] -> Hm.
  assert (Hc : forall b m n, m n = CsrReg 0 0 -> rd_csr b m n = 0)
    by (intros b m n Hn; unfold rd_csr, u32_bits; rewrite Hn; by destruct b, (distinct_views n)).
  assert (Hx : forall x, any (Z.land (c_arch (cfg s)) ISA_XLEN_ANY) x = any (c_arch (cfg s)) (Z.land ISA_XLEN_ANY x))
    by (intros x; unfold any; by rewrite Z.land_assoc).
  split; cbn -[trunc field_get fields32 fields64 Z.testbit]; rewrite ?fr_csr0, ?fr_mask0, ?fr_arch0 in *; try done.
  - split; try done. cbn -[field_get initial_mstatus]. rewrite initial_mpp by done.
    unfold riscvGetMinMode, has_mode. cbn.
    destruct (any (c_arch (cfg s)) ISA_U) eqn:Eu; [done|]. by destruct (any (c_arch (cfg s)) ISA_S) eqn:Es.
  - intros n. by rewrite fr_csr0.
  - unfold RISCV_XLEN_IS_32. cbn. rewrite fr_arch0, Hx. done.
  - by rewrite Hx.
  - intros i Hi. rewrite Z.land_spec. intros [??]%andb_prop. done.
  - intros n. by rewrite fr_mask0.
  - rewrite Hc by done. by destruct (xlen32 _).
  - intros i _. rewrite Hc, Z.bits_0 by done. done.
  - change (has_mode (cfg s) (getCurrentMode s) = true). by rewrite Hm.
  - by rewrite fr_swip0.
  - by rewrite fr_ip0.
  - rewrite Hc, fr_ip0, fr_swip0 by done. by destruct (xlen32 _).
Qed.

(** The state that riscvCSRInit leaves. *)
Record built (s : riscvS) : Prop := {
  bt_weak : weak s;
  bt_disable : r_disable s = 0;
  bt_edeleg : deleg_ok (cfg s) (rd_csr (x32 s) (r_csr s) medeleg) (rd_csr (x32 s) (r_csr s) sedeleg);
  bt_ideleg : deleg_ok (cfg s) (rd_csr (x32 s) (r_csr s) mideleg) (rd_csr (x32 s) (r_csr s) sideleg);
}.

Lemma keeps_built s s' : keeps s s' -> built s -> built s'.
Proof.
  intros [K1 K2 K3 K4 K5] [].
  assert (Hv : forall b n, (exists P, deleg_reg n = Some P) -> rd_csr b (r_csr s') n = rd_csr b (r_csr s) n)
    by (intros b n Hn; unfold rd_csr; by rewrite K5).
  split; [auto|congruence|rewrite K2, !Hv by (by eexists); done..].
Qed.

Lemma only_N c :
  (Z.land (c_arch c) ISA_SorN =? ISA_N) =
  negb (Z.testbit (c_arch c) S_bit) && Z.testbit (c_arch c) N_bit.
Proof.
  destruct (Z.eqb_spec (Z.land (c_arch c) ISA_SorN) ISA_N) as [He|He].
  - pose proof (f_equal (fun z => Z.testbit z S_bit) He) as H1.
    pose proof (f_equal (fun z => Z.testbit z N_bit) He) as H2. cbn beta in H1, H2.
    rewrite Z.land_spec, andb_true_r in H1, H2. by rewrite H1, H2.
  - symmetry. apply not_true_is_false. intros [Hs%negb_true_iff Hn]%andb_prop. apply He, Z.bits_inj'.
    intros i Hi. rewrite Z.land_spec. destruct (decide (i = S_bit)) as [->|]; [by rewrite Hs|].
    destruct (decide (i = N_bit)) as [->|]; [by rewrite Hn|].
    change ISA_SorN with (Z.lor (Z.shiftl 1 S_bit) (Z.shiftl 1 N_bit)). change ISA_N with (Z.shiftl 1 N_bit).
    assert (Hb : forall k, i <> k -> 0 <= k -> Z.testbit (Z.shiftl 1 k) i = false)
      by (intros k Hk ?; rewrite Z.shiftl_1_l; apply Z.pow2_bits_false; lia).
    by rewrite Z.lor_spec, !Hb, andb_false_r by lia.
Qed.

Lemma init_sdeleg_built s :
  weak s -> r_disable s = 0 -> (forall n, (exists P, deleg_reg n = Some P) -> r_csr s n = CsrReg 0 0) ->
  built (init_sdeleg s).
Proof.
  intros W Hd Hz.
  assert (H0 : forall n, (exists P, deleg_reg n = Some P) -> rd_csr (x32 s) (r_csr s) n = 0)
    by (intros n Hn; unfold rd_csr, u32_bits; rewrite Hz by done; by destruct (x32 s), (distinct_views n)).
  unfold init_sdeleg. rewrite only_N.
  destruct (Z.testbit (c_arch (cfg s)) S_bit) eqn:Es, (Z.testbit (c_arch (cfg s)) N_bit) eqn:En; cbn [negb andb];
    try (split; [done..| |]; rewrite !H0 by (by eexists); split_and!; intros; rewrite ?Z.bits_0; congruence).
  unfold WR_CSR. cbn [r_csr upd_csr]. change (RISCV_XLEN_IS_32 (upd_csr _ s)) with (RISCV_XLEN_IS_32 s).
  rewrite (wk_xlen32 s W).
  assert (H1 : forall i, 0 <= i < 32 -> Z.testbit (if x32 s then w32 (-1) else w64 (-1)) i = true)
    by (intros i Hi; change (Z.testbit (trunc (x32 s) (-1)) i = true); rewrite trunc_bits by done;
        apply Z.bits_m1; lia).
  split; cbn [r_csr upd_csr r_disable r_configInfo].
  - apply weak_csr; [apply weak_csr; [done| |by rewrite wr_csr_other]| |by rewrite wr_csr_other].
    + intros. apply wr_csr_in_range, W.
    + intros. do 2 (apply wr_csr_in_range; intros). apply W.
  - done.
  - rewrite !rd_csr_wr_csr, rd_wr_csr_same by done. split_and!; intros; [congruence|by apply H1|congruence].
  - rewrite !rd_csr_wr_csr, rd_wr_csr_same by done. split_and!; intros; [congruence|by apply H1|congruence].
Qed.

Lemma csr_init_built index s :
  fresh s -> getCurrentMode s = RISCV_MODE_MACHINE ->
  exists s', riscvCSRInit index s = Some s' /\ built s'.
Proof.
  intros F Hm. unfold riscvCSRInit.
  change (riscvCSRInitialReset s) with (riscvCSRReset (upd_cfg_mstatus (initial_mstatus s) s)).
  destruct (csr_reset_spec _ (fresh_weak s _ F eq_refl Hm)) as (s1 & -> & W & Hr & Hc & Hd & _).
  cbn [mbind option_bind]. eexists. split; [reflexivity|].
  assert (K : keeps s1 (init_masks index s1))
    by (apply init_masks_keeps; rewrite Hc; apply F).
  eapply keeps_built; [apply init_values_keeps|].
  apply init_sdeleg_built; [by apply K|rewrite (kp_disable _ _ K), Hd; apply F|].
  intros n Hn. rewrite (kp_deleg _ _ K n Hn), Hr.
  rewrite reset_csrs_other by (destruct Hn as [P Hn]; by destruct n). apply F.
Qed.

Lemma built_reset s : built s -> exists s', riscvReset s = Some s' /\ hart_ok s'.
Proof.
  intros [W Hd He Hi]. unfold riscvReset. rewrite set_mode_shape, restart_shape.
  set (s1 := upd_vmi _ (upd_mode _ _)).
  assert (W1 : weak s1).
  { destruct W. by split. }
  assert (Hd1 : r_disable s1 = 0)
    by (change (Z.ldiff (r_disable s) RVD_RESTART_RESET = 0); by rewrite Hd).
  assert (Hr1 : r_csr s1 = r_csr s) by done. assert (Hc1 : cfg s1 = cfg s) by done.
  clearbody s1. destruct (csr_reset_spec s1 W1) as (s2 & -> & W2 & Hr & Hc & Hd2 & _).
  cbn [mbind option_bind]. eexists. split; [reflexivity|].
  assert (Hv : forall b n, (exists P, deleg_reg n = Some P) -> rd_csr b (r_csr s2) n = rd_csr b (r_csr s) n).
  { intros b n Hn. unfold rd_csr. rewrite Hr, reset_csrs_other by (destruct Hn as [P Hn]; by destruct n).
    by rewrite Hr1. }
  eapply (ok_same s2); [|by split]. split.
  - apply weak_pre; [done|rewrite Hr, Hc; by apply reset_csrs_bank, W1|..];
      rewrite Hc, Hc1, !Hv by (by eexists); done.
  - unfold wfi_ok, in_wfi. rewrite Hd2, Hd1. done.
Qed.

(** A cleared processor structure is made a hart with the invariant. *)
Lemma constructor_ok index s :
  fresh s -> exists s', riscvConstructor index s = Some s' /\ hart_ok s'.
Proof.
  intros F. unfold riscvConstructor. rewrite set_mode_shape. set (s1 := riscvSetExceptionMask _).
  assert (Hs1 : exists v d e i, s1 = upd_interruptMask i (upd_exceptionMask e (upd_exclusiveTag RISCV_NO_TAG
                  (upd_vmi v (upd_mode (dmode s RISCV_MODE_MACHINE) d)))) /\ d = s).
  { subst s1. unfold riscvSetExceptionMask. destruct (exception_masks _) as [e i]. by eexists _, s, _, _. }
  clearbody s1. destruct Hs1 as (v & d & e & i & -> & ->).
  destruct (csr_init_built index (upd_interruptMask i (upd_exceptionMask e (upd_exclusiveTag RISCV_NO_TAG
              (upd_vmi v (upd_mode (dmode s RISCV_MODE_MACHINE) s)))))) as (s2 & -> & B).
  - destruct F. by split.
  - change (Z.land (dmode s RISCV_MODE_MACHINE) RISCV_MODE_MACHINE = RISCV_MODE_MACHINE). by apply dmode_mode.
  - by apply built_reset.
Qed.

End HartReset.
