(* ===== verification/RvConfined.v ===== *)
(** * User mode is confined

    On a hart without user-level interrupts, an instruction of the system and
    CSR groups executed in user mode either takes an exception or changes
    nothing but the user-level floating-point and vector control registers:
    the privilege mode, the machine and supervisor registers, the PMP entries,
    the counters and the memory domains stay as they are. *)

From stdpp Require Import functions relations.
From S2P Require Import Prelude RvTypes RvTables RvDecode RvHart RvHartFacts RvTrap RvTrapFacts.
From S2P Require Import RvPmp RvCsr RvCsrTable RvPorts RvSystem RvHartInv RvHartOps RvHartCsr.
From S2P Require Import RvHartTable.

Section Confined.

Context `{V : VmiRt} `{X : VmiCxt}.
Implicit Types s : riscvS.

(** The registers user mode may change without user-level interrupts. *)
Definition user_csr (n : csrName) : bool :=
  match n with fcsr | vstart | vxsat | vxrm => true | _ => false end.

(** Settings of the simulator's rounding mode. *)
Definition fp_control : relation vmiState := rtc (fun v v' => exists rc, v' = vmirtSetFPControlWord rc v).

(** [s'] is [s] up to the user-level registers, the floating-point flags and
    the state derived from them. *)
Definition confined (s s' : riscvS) : Prop :=
  exists c f k v,
    s' = upd_csr c (upd_fpFlags f (upd_pmKey k (upd_vmi v s))) /\
    (forall n, user_csr n = false -> c n = r_csr s n) /\ fp_control (r_vmi s) v.

#[local] Instance confined_preorder : PreOrder confined.
Proof.
  split.
  - intros s. exists (r_csr s), (r_fpFlags s), (r_pmKey s), (r_vmi s).
    split; [by destruct s|]. split; [done|reflexivity].
  - intros s1 s2 s3 (c1 & f1 & k1 & v1 & -> & Hc1 & Hv1) (c2 & f2 & k2 & v2 & -> & Hc2 & Hv2).
    exists c2, f2, k2, v2. split; [reflexivity|]. split; [|by etrans].
    intros n Hn. rewrite Hc2 by done. by apply Hc1.
Qed.

Lemma confined_csr s c :
  (forall n, user_csr n = false -> c n = r_csr s n) -> confined s (upd_csr c s).
Proof.
  intros H. exists c, (r_fpFlags s), (r_pmKey s), (r_vmi s).
  split; [by destruct s|]. split; [done|reflexivity].
Qed.

Lemma confined_wr n x s s' : confined s s' -> user_csr n = true -> confined s (WR_CSR n x s').
Proof.
  intros H Hn. etrans; [exact H|]. apply confined_csr. intros m Hm. apply wr_csr_other. congruence.
Qed.

Lemma confined_field n f x s s' :
  confined s s' -> user_csr n = true -> confined s (WR_CSR_FIELD n f x s').
Proof.
  intros H Hn. etrans; [exact H|]. apply confined_csr. intros m Hm. apply wr_field_other. congruence.
Qed.

Lemma confined_flags f s s' : confined s s' -> confined s (upd_fpFlags f s').
Proof.
  intros H. etrans; [exact H|]. exists (r_csr s'), f, (r_pmKey s'), (r_vmi s').
  split; [by destruct s'|]. split; [done|reflexivity].
Qed.

Lemma confined_pmkey k s s' : confined s s' -> confined s (upd_pmKey k s').
Proof.
  intros H. etrans; [exact H|]. exists (r_csr s'), (r_fpFlags s'), k, (r_vmi s').
  split; [by destruct s'|]. split; [done|reflexivity].
Qed.

Lemma confined_rm s s' : confined s s' -> confined s (updateCurrentRMValid s').
Proof. intros H. unfold updateCurrentRMValid. case_match; by apply confined_pmkey. Qed.

Lemma confined_fpcr oldRM s s' : confined s s' -> confined s (refreshFPCR oldRM s').
Proof.
  intros H. unfold refreshFPCR. cbv zeta. apply confined_field; [|done].
  case_match; [|done]. pose proof (confined_rm s s' H) as H1.
  generalize dependent (updateCurrentRMValid s'). intros s1 H1.
  destruct (mapFRMToRC _) as [rc|]; [|done]. etrans; [exact H1|].
  exists (r_csr s1), (r_fpFlags s1), (r_pmKey s1), (vmirtSetFPControlWord rc (r_vmi s1)).
  split; [by destruct s1|]. split; [done|]. apply rtc_once. by eexists.
Qed.

(** ** Callbacks *)

Definition read_confined (f : riscvCSRReadFn) : Prop :=
  forall num s s' v, f num s = Some (s', v) -> confined s s'.

Definition write_confined (f : riscvCSRWriteFn) : Prop :=
  forall num x s s' v, f num x s = Some (s', v) -> confined s s'.

(** A read of a counter may be refused. *)
Definition traps (s s' : riscvS) : Prop := riscvIllegalInstruction s = Some s'.

Definition read_traps (f : riscvCSRReadFn) : Prop :=
  forall num s s' v, f num s = Some (s', v) -> confined s s' \/ traps s s'.

Lemma fp_reads_confined : read_confined fflagsR /\ read_confined frmR /\ read_confined fcsrR.
Proof.
  split_and!; intros num s s' v He; apply Some_inj in He; injection He as <- _; [reflexivity..|].
  do 6 (apply confined_field; [|done]). reflexivity.
Qed.

Lemma fp_writes_confined : write_confined fflagsW /\ write_confined frmW /\ write_confined fcsrW.
Proof.
  split_and!; intros num x s s' v He; apply Some_inj in He; injection He as <- _.
  - by apply confined_flags.
  - apply confined_fpcr. by apply confined_field.
  - apply confined_fpcr. apply confined_wr; [|done]. apply confined_flags. by apply confined_wr.
Qed.

Lemma vxrm_confined : write_confined vxrmW.
Proof.
  intros num x s s' v He. apply Some_inj in He; injection He as <- _.
  do 2 (apply confined_field; [|done]). reflexivity.
Qed.

Lemma hpm_confined num s s' ok : hpmAccessValid num s = Some (s', ok) -> confined s s' \/ traps s s'.
Proof.
  unfold hpmAccessValid. case_match; [intros He; left; by simplify_eq|].
  case_match; [intros He; left; by simplify_eq|].
  destruct (riscvIllegalInstruction s) as [s1|] eqn:E; simpl; [|done].
  intros He. right. by simplify_eq.
Qed.

Lemma counter_reads f : read_traps (counterR f) /\ read_traps (counterhR f) /\ read_traps mhpmR.
Proof.
  split_and!; intros num s s' v; unfold counterR, counterhR, mhpmR;
    destruct (hpmAccessValid num s) as [[s1 ok]|] eqn:E; simpl; try done;
    intros He; simplify_eq; by eapply hpm_confined.
Qed.

(** ** The table *)

(** A register that user mode may access: it is read-only, and then a read may
    trap, or both accesses are confined. *)
Definition user_attr (a : riscvCSRAttrs) : Prop :=
  a_readWriteCB a = None /\
  if getAccess a then
    opt_ok read_confined (a_readCB a) /\
    match a_writeCB a, a_reg a with
    | Some f, _ => write_confined f
    | None, Some n => user_csr n = true
    | None, None => True
    end
  else opt_ok read_traps (a_readCB a).

Definition user_entry (a : riscvCSRAttrs) : Prop :=
  a_arch a = ISA_N \/ RISCV_MODE_USER < csr_mode (a_csrNum a) \/ user_attr a.

Lemma user_family i k nm num ar v e t m rcb rwcb wcb :
  Forall (fun j => user_entry (CSR_ATTR_P__ (String.append nm (num_string j)) (num + Z.of_nat j)
                                 ar v e t m rcb rwcb wcb)) (seq i k) ->
  Forall user_entry (CSR_ATTR_P__NUM i k nm num ar v e t m rcb rwcb wcb).
Proof. intros H. unfold CSR_ATTR_P__NUM. by apply Forall_map. Qed.

Ltac user_callback :=
  match goal with
  | |- True => exact I
  | |- read_confined fflagsR => exact (proj1 fp_reads_confined)
  | |- read_confined frmR => exact (proj1 (proj2 fp_reads_confined))
  | |- read_confined fcsrR => exact (proj2 (proj2 fp_reads_confined))
  | |- write_confined fflagsW => exact (proj1 fp_writes_confined)
  | |- write_confined frmW => exact (proj1 (proj2 fp_writes_confined))
  | |- write_confined fcsrW => exact (proj2 (proj2 fp_writes_confined))
  | |- write_confined vxrmW => exact vxrm_confined
  | |- read_traps (counterR ?f) => exact (proj1 (counter_reads f))
  | |- read_traps (counterhR ?f) => exact (proj1 (proj2 (counter_reads f)))
  | |- read_traps mhpmR => exact (proj2 (proj2 (counter_reads cycleR)))
  | |- _ = true => reflexivity
  end.

Ltac user_entry :=
  first [left; reflexivity | right; left; reflexivity
        | right; right; split; [reflexivity|];
          match goal with |- if ?b then _ else _ =>
            let v := eval vm_compute in b in change b with v end; cbn; split_and?; user_callback].

Lemma user_table : Forall user_entry csrs.
Proof.
  unfold csrs, csrs_user, csrs_supervisor, csrs_machine, csrs_counters.
  repeat first [apply Forall_nil_2 | apply Forall_app_2 | apply Forall_cons_2
               | apply user_family; cbn [seq]]; user_entry.
Qed.

(** ** Instructions *)

(** The hart after an instruction: confined, or in an exception taken from
    [s]. *)
Definition harmless (s s' : riscvS) : Prop :=
  confined s s' \/ exists e tval, riscvTakeException e tval s = Some s'.

Definition all_harmless (s : riscvS) (o : option result) : Prop :=
  forall s' w, o = Some (s', w) -> harmless s s'.

Lemma traps_harmless s s' : traps s s' -> harmless s s'.
Proof.
  unfold traps, riscvIllegalInstruction. destruct (if c_tval_ii_code _ then _ else _) as [tval|]; [|done].
  cbn [mbind option_bind]. intros He. right. by eexists _, tval.
Qed.

Lemma no_write_harmless s o : (forall s', o = Some s' -> harmless s s') -> all_harmless s (no_write o).
Proof.
  intros H s' w. unfold no_write. destruct o as [t|]; [|done]. cbn [mbind option_bind].
  intros He. apply Some_inj, pair_equal_spec in He as [<- _]. by apply H.
Qed.

Lemma illegal_harmless s : all_harmless s (no_write (riscvIllegalInstruction s)).
Proof. apply no_write_harmless. intros s'. apply traps_harmless. Qed.

Lemma missing_N a x :
  any x ISA_N = false -> a_arch a = ISA_N -> getMissingCSRFeatures a x true <> 0.
Proof.
  intros Hx Ha. unfold getMissingCSRFeatures. rewrite Ha.
  change (Z.ldiff ISA_N ISA_and) with ISA_N. change (any ISA_N ISA_and) with false.
  cbn [negb]. by rewrite Hx.
Qed.

Lemma user_elem a : a ∈ csrs -> user_entry a.
Proof. apply Forall_forall, user_table. Qed.

Section User.

Variable s : riscvS.
Hypothesis in_user : getCurrentMode s = RISCV_MODE_USER.
Hypothesis no_N : any (r_currentArch s) ISA_N = false.

Lemma below mode : RISCV_MODE_USER < mode -> requireModeMT s mode = false.
Proof. intros H. unfold requireModeMT. rewrite in_user. by destruct (Z.ltb_spec RISCV_MODE_USER mode); [|lia]. Qed.

Lemma validated_user num r w a :
  riscvValidateCSRAccess s num r w = Some a ->
  user_attr a /\ (w = true -> getAccess a = true).
Proof.
  intros (Ha & Hm & Hw & Hmode)%validate_inv. split; [|done]. rewrite in_user in Hmode.
  apply attrs_elem in Ha as [Hin <-].
  destruct (user_elem a Hin) as [Hn|[Hgt|Hu]]; [|lia|done].
  by destruct (missing_N a (r_currentArch s) no_N Hn).
Qed.

Lemma write_harmless a v s1 s2 :
  user_attr a -> getAccess a = true -> riscvEmitCSRWrite a v s1 = Some s2 -> confined s1 s2.
Proof.
  intros [_ Ha] Hacc. rewrite Hacc in Ha. destruct Ha as [_ Hw]. unfold riscvEmitCSRWrite.
  destruct (a_writeCB a) as [f|].
  - destruct (f _ _ _) as [[s3 y]|] eqn:Ef; [|done]. cbn [mbind option_bind fst].
    intros He. apply Some_inj in He. subst s3. by eapply Hw.
  - destruct (a_reg a) as [n|]; intros He; apply Some_inj in He; subst s2; [|reflexivity].
    assert (Hr : forall b x, confined s1 (upd_csr (wr_csr b n x (r_csr s1)) s1))
      by (intros b x; apply confined_csr; intros m Hm; apply wr_csr_other; congruence).
    unfold raw_set. repeat case_match; (apply Hr || reflexivity).
Qed.

(** A read is confined, or the register is read-only and the read is
    refused. *)
Lemma read_harmless a w s1 v :
  user_attr a -> riscvEmitCSRRead a w s = Some (s1, v) ->
  confined s s1 \/ (getAccess a = false /\ traps s s1).
Proof.
  intros [Hrw Ha]. unfold riscvEmitCSRRead, getCSRReadCB. rewrite Hrw.
  destruct w; (destruct (a_readCB a) as [f|];
    [|destruct (a_reg a); intros He; apply Some_inj, pair_equal_spec in He as [<- _]; by left]);
    (destruct (f _ _) as [[s2 y]|] eqn:Ef; [|done]); cbn [mbind option_bind fst snd]; intros He;
    apply Some_inj, pair_equal_spec in He as [<- _];
    destruct (getAccess a); [left; by eapply Ha|destruct (Ha _ _ _ _ Ef); auto
                            |left; by eapply Ha|destruct (Ha _ _ _ _ Ef); auto].
Qed.

Lemma csr_harmless i rs1 write : all_harmless s (emitCSRRCommon i rs1 write s).
Proof.
  unfold emitCSRRCommon. cbv zeta.
  destruct (riscvGetVMIReg _ _) as [[legal rd]|]; [|done]. cbn [mbind option_bind].
  destruct legal; [|apply illegal_harmless]. cbn [negb].
  destruct (riscvValidateCSRAccess _ _ _ _) as [a|] eqn:Ev; [|apply illegal_harmless].
  destruct (a_TVMT a && _); [apply illegal_harmless|].
  destruct (validated_user _ _ _ a Ev) as [Hu Hacc].
  destruct (if doCSRRead i rd then riscvEmitCSRRead a write s else _) as [[s1 x]|] eqn:Er; [|done].
  assert (H1 : confined s s1 \/ (getAccess a = false /\ traps s s1)).
  { destruct (doCSRRead i rd); [by eapply read_harmless|].
    apply Some_inj, pair_equal_spec in Er as [<- _]. by left. }
  intros s' w. cbn [mbind option_bind]. destruct write.
  - specialize (Hacc eq_refl). destruct H1 as [H1|[Hn _]]; [|congruence].
    destruct (csr_operand _ _ _ _) as [y|]; [|done]. cbn [mbind option_bind].
    destruct (riscvEmitCSRWrite a y s1) as [s2|] eqn:Ew; [|done]. cbn [mbind option_bind].
    intros He. apply Some_inj, pair_equal_spec in He as [<- _]. left. etrans; [exact H1|].
    by eapply write_harmless.
  - intros He. apply Some_inj, pair_equal_spec in He as [<- _].
    destruct H1 as [H1|[_ H1]]; [by left|by apply traps_harmless].
Qed.

Lemma uret_disabled i :
  any (i_arch i) ISA_N = true -> riscvInstructionEnabled s (i_arch i) <> Some true.
Proof.
  intros Hi. unfold riscvInstructionEnabled. destruct (riscvGetXlenMode _); [|done].
  cbn [mbind option_bind]. case_match; [done|].
  unfold riscvRequireArchPresentMT. intros He. apply Some_inj, Z.eqb_eq in He.
  apply (f_equal (fun z => Z.testbit z N_bit)) in He.
  rewrite Z.ldiff_spec, Z.land_spec, Z.ldiff_spec, Z.bits_0 in He.
  assert (Hb : forall y, any y ISA_N = Z.testbit y N_bit) by (intros y; apply (any_bit y N_bit); lia).
  rewrite Hb in Hi, no_N. change (Z.testbit ISA_XLEN_ANY N_bit) with false in He. by rewrite Hi, no_N in He.
Qed.

Lemma dispatch_harmless t i x :
  (t = RV_IT_URET_I -> any (i_arch i) ISA_N = true) ->
  all_harmless s (enabled ← riscvInstructionEnabled s (i_arch i);
                  if negb enabled then no_write (riscvIllegalInstruction s)
                  else morph ← dispatchTable t; morph i x s).
Proof.
  intros Hu. pose proof (uret_disabled i) as Hd. pose proof (illegal_harmless s) as Hill.
  destruct (riscvInstructionEnabled _ _) as [[]|]; [|exact Hill|done]. cbn [mbind option_bind negb].
  destruct t; try done; cbn [dispatchTable mbind option_bind].
  - unfold emitCSRR. destruct (riscvGetVMIReg _ _) as [[[] rs1]|]; [|exact Hill|done].
    apply csr_harmless.
  - apply csr_harmless.
  - apply no_write_harmless. intros s' He. right. by eexists _, _.
  - apply no_write_harmless. intros s' He. right. by eexists _, _.
  - unfold emitMRET. rewrite below by done. exact Hill.
  - unfold emitSRET. destruct (checkHaveSModeMT s); [|exact Hill]. rewrite below by done. exact Hill.
  - by destruct Hd; [apply Hu|].
  - unfold emitWFI. rewrite no_N, below by done. exact Hill.
Qed.

Lemma morph_harmless i x :
  (i_type i = RV_IT_URET_I -> any (i_arch i) ISA_N = true) -> all_harmless s (riscvMorph i x s).
Proof.
  intros Hu. unfold riscvMorph. pose proof (dispatch_harmless (i_type i) i x Hu) as Hd.
  destruct (i_type i); first [exact (illegal_harmless s)|exact Hd].
Qed.

End User.

End Confined.
