(* ===== verification/RvHartRuns.v ===== *)
(** * The hart invariant over all runs

    Every state that a hart reaches from its construction, through any
    sequence of instructions, exceptions, fetches, debugger accesses and port
    changes, satisfies the invariant; what it says of modes, XLEN, pending
    interrupts and WFI; that pending interrupts wake a hart and are taken. *)

From stdpp Require Import functions.
From S2P Require Import Prelude RvTypes RvTables RvDecode RvHart RvHartFacts RvTrap RvTrapFacts.
From S2P Require Import RvIntFacts RvPmp RvCsr RvCsrTable RvPorts RvSystem RvHartInv RvHartOps.
From S2P Require Import RvHartCsr RvHartTable RvHartReset.

Section HartRuns.

Context `{V : VmiRt} `{X : VmiCxt}.
Implicit Types s : riscvS.

(** The components of a result. *)
Ltac pair_inj H := apply Some_inj, pair_equal_spec in H as [<- <-].

(** ** Instructions *)

Lemma illegal_only s s' : hart_ok s -> riscvIllegalInstruction s = Some s' -> hart_ok s'.
Proof. intros H He. apply (illegal_ok s s' H He). Qed.

Lemma have_U s : hart_pre s -> checkHaveUModeMT s = true -> any (c_arch (cfg s)) ISA_U = true.
Proof.
  intros H. unfold checkHaveUModeMT, riscvRequireArchPresentMT.
  destruct (Z.eqb_spec (getCurrentMode s) RISCV_MODE_USER) as [Hm|].
  - intros _. pose proof (hp_mode s H) as Hh. by rewrite Hm in Hh.
  - intros He%Z.eqb_eq. rewrite any_U. apply (hp_arch s H); [unfold mode_feature; auto|].
    apply (f_equal (fun z => Z.testbit z U_bit)) in He.
    rewrite Z.ldiff_spec, Z.land_spec, Z.bits_0 in He.
    by destruct (Z.testbit (r_currentArch s) U_bit).
Qed.

Lemma validated s num r w a :
  hart_ok s -> riscvValidateCSRAccess s num r w = Some a -> attr_ok a /\ attr_needs a (cfg s).
Proof.
  intros H (Ha & Hm & _)%validate_inv. pose proof (attrs_ok s num a Ha).
  split; [done|]. eapply needs_present; [done|done|apply H].
Qed.

(** The harts of the results of an instruction have the invariant. *)
Definition result_ok (o : option result) : Prop := forall s' w, o = Some (s', w) -> hart_ok s'.

Lemma no_write_ok o : (forall s', o = Some s' -> hart_ok s') -> result_ok (no_write o).
Proof.
  intros H s' w. unfold no_write. destruct o as [t|]; [|done]. cbn [mbind option_bind].
  intros He. pair_inj He. by apply H.
Qed.

Lemma illegal_result s : hart_ok s -> result_ok (no_write (riscvIllegalInstruction s)).
Proof. intros H. apply no_write_ok. intros s'. by apply illegal_only. Qed.

Lemma csr_access_ok i rs1 write s : hart_ok s -> result_ok (emitCSRRCommon i rs1 write s).
Proof.
  intros H. unfold emitCSRRCommon. cbv zeta.
  destruct (riscvGetVMIReg _ _) as [[legal rd]|]; [|done].
  cbn [mbind option_bind]. pose proof (illegal_result s H) as Hill.
  destruct legal; [|exact Hill]. cbn [negb].
  destruct (riscvValidateCSRAccess _ _ _ _) as [a|] eqn:Ev; [|exact Hill].
  destruct (a_TVMT a && _); [exact Hill|]. clear Hill.
  destruct (validated s _ _ _ a H Ev) as [Ha Hn].
  destruct (if doCSRRead i rd then riscvEmitCSRRead a write s else _) as [[s1 x]|] eqn:Er; [|done].
  assert (H1 : hart_ok s1 /\ cfg s1 = cfg s)
    by (destruct (doCSRRead i rd); [by eapply emit_read_ok|by pair_inj Er]).
  intros s' w. cbn [mbind option_bind]. destruct write.
  - destruct (csr_operand _ _ _ _) as [y|]; [|done]. cbn [mbind option_bind].
    destruct (riscvEmitCSRWrite a y s1) as [s2|] eqn:Ew; [|done]. cbn [mbind option_bind].
    intros He. pair_inj He. eapply emit_write_ok; [done| |apply H1|done]. by rewrite (proj2 H1).
  - intros He. pair_inj He. apply H1.
Qed.

Lemma csr_instr_ok i x s : hart_ok s -> result_ok (emitCSRR i x s).
Proof.
  intros H. unfold emitCSRR. destruct (riscvGetVMIReg _ _) as [[[] rs1]|]; [|by apply illegal_result|done].
  by apply csr_access_ok.
Qed.

Lemma do_interrupt_ok M s s' : hart_ok s -> doInterrupt M s = Some s' -> hart_ok s'.
Proof.
  intros H. unfold doInterrupt. destruct (M =? 0); [done|].
  destruct (select_interrupt _ _ _ _ _) as [d|]; [|done]. cbn [mbind option_bind].
  by apply take_exception_ok.
Qed.

Lemma ports_indexed s k p :
  riscvNewNetPorts s !! k = Some p -> forall name i, p = InterruptPort name i -> 0 <= i.
Proof.
  intros Hp name i ->. unfold riscvNewNetPorts in Hp.
  destruct k as [|[|k]]; [done..|]. cbn [lookup list_lookup] in Hp.
  apply list_elem_of_lookup_2, list_elem_of_omap in Hp as (d & _ & Hd).
  destruct (Z.geb_spec (e_code d) riscv_E_Interrupt); [|done].
  cbn [andb] in Hd. destruct (hasException s (e_code d)); [|done].
  apply Some_inj in Hd. injection Hd as _ <-. lia.
Qed.

(** ** Every operation keeps the invariant *)

Lemma fmap_inv {A B} (f : A -> B) (o : option A) y :
  f <$> o = Some y -> exists x, o = Some x /\ y = f x.
Proof. destruct o; intros H; [|done]. apply Some_inj in H. by eexists. Qed.

Lemma xret_M s : xRET LM s = riscvMRET s.
Proof. reflexivity. Qed.
Lemma xret_S s : xRET LS s = riscvSRET s.
Proof. reflexivity. Qed.
Lemma xret_U s : xRET LU s = riscvURET s.
Proof. reflexivity. Qed.

Lemma mret_op_ok s s' : hart_ok s -> emitMRET s = Some s' -> hart_ok s'.
Proof.
  intros H. unfold emitMRET. case_match; [apply illegal_only, H|].
  intros He. apply Some_inj in He. rewrite <- He, <- xret_M. by apply xret_ok.
Qed.

Lemma sret_op_ok s s' : hart_ok s -> emitSRET s = Some s' -> hart_ok s'.
Proof.
  intros H. unfold emitSRET. repeat (case_match; [apply illegal_only, H|]).
  intros He. apply Some_inj in He. rewrite <- He, <- xret_S. by apply xret_ok.
Qed.

Lemma uret_op_ok s s' : hart_ok s -> emitURET s = Some s' -> hart_ok s'.
Proof.
  intros H. unfold emitURET. destruct (checkHaveUModeMT s) eqn:Eu; [|apply illegal_only, H].
  intros He. apply Some_inj in He. rewrite <- He, <- xret_U. apply xret_ok; [done|]. intros _.
  by apply have_U; [apply H|].
Qed.

Lemma wfi_instr_ok s s' : hart_ok s -> emitWFI s = Some s' -> hart_ok s'.
Proof.
  intros H. unfold emitWFI. repeat (case_match; [apply illegal_only, H|]).
  intros He. apply Some_inj in He. rewrite <- He. case_match; [done|]. by apply wfi_op_ok.
Qed.

Lemma instr_ok i x s : hart_ok s -> result_ok (riscvMorph i x s).
Proof.
  intros H. pose proof (illegal_result s H) as Hill. unfold riscvMorph.
  assert (Hd : forall t, result_ok (morph ← dispatchTable t; morph i x s)).
  { intros t. destruct (dispatchTable t) as [f|] eqn:Et; [|done]. cbn [mbind option_bind].
    destruct t; try done; apply Some_inj in Et; rewrite <- Et;
      try (by apply csr_access_ok); try (by apply csr_instr_ok); apply no_write_ok; intros s'.
    - apply take_exception_ok, H.
    - apply take_exception_ok, H.
    - by apply mret_op_ok.
    - by apply sret_op_ok.
    - by apply uret_op_ok.
    - by apply wfi_instr_ok. }
  assert (He : forall t, result_ok (enabled ← riscvInstructionEnabled s (i_arch i);
                 if negb enabled then no_write (riscvIllegalInstruction s)
                 else morph ← dispatchTable t; morph i x s)).
  { intros t. destruct (riscvInstructionEnabled _ _) as [[]|]; [|exact Hill|done].
    cbn [mbind option_bind negb]. apply Hd. }
  destruct (i_type i); first [exact Hill|apply He].
Qed.

Lemma hart_do_ok op s s' : hart_ok s -> hart_do op s = Some s' -> hart_ok s'.
Proof.
  intros H. destruct op; cbn [hart_do].
  - intros ([s1 v] & He & ->)%fmap_inv. by apply (instr_ok i x s H) in He.
  - by apply take_exception_ok.
  - apply illegal_only, H.
  - intros ([b s1] & He & ->)%fmap_inv. revert He. unfold riscvIFetchExcept. case_match.
    + destruct (doInterrupt _ s) as [s2|] eqn:Ed; [|done]. cbn [mbind option_bind]. intros He.
      pair_inj He. by eapply do_interrupt_ok.
    + intros He. by pair_inj He.
  - destruct (getCSRAttrs s num) as [a|] eqn:Ea; [|done]. cbn [mbind option_bind].
    intros ([[s1 v] b] & He & ->)%fmap_inv. eapply debug_read_ok; [by eapply attrs_ok|done..].
  - destruct (getCSRAttrs s num) as [a|] eqn:Ea; [|done]. cbn [mbind option_bind].
    intros ([s1 b] & He & ->)%fmap_inv. eapply debug_write_ok; [by eapply attrs_ok|done..].
  - destruct (riscvNewNetPorts s !! k) as [p|] eqn:Ep; [|done]. cbn [mbind option_bind].
    apply net_change_ok; [done|by eapply ports_indexed].
Qed.

Lemma reachable_ok index s0 s : fresh s0 -> hart_reachable index s0 s -> hart_ok s.
Proof.
  intros F. induction 1 as [s Hs|op s s' _ IH Hop]; [|by eapply hart_do_ok].
  destruct (constructor_ok index s0 F) as (s1 & He & Hok). rewrite He in Hs. by simplify_eq.
Qed.

End HartRuns.
