(* ===== verification/RvExample.v ===== *)
(** * An example hart

    A simulator that keeps the program counter, the data domain and a list of
    privilege settings, with the laws assumed of the real one; an RV32IMAC
    hart with supervisor and user modes and sixteen PMP entries as the
    parameters leave it, and that hart constructed.  The theorems on harts
    are applied to it. *)

From stdpp Require Import functions.
From S2P Require Import Prelude RvTypes RvTables RvDecode RvHart RvHartFacts RvTrap RvPmp.
From S2P Require Import RvPmpFacts RvPmpCache RvPmpRuns RvCsr RvCsrTable RvPorts RvSystem.
From S2P Require Import RvHartInv RvHartReset.

(** ** A simulator *)

Record toyState := Toy {
  t_pc : Z;
  t_domain : Z;
  t_icount : Z;
  t_privs : list (Z * Z * Z * Z);  (* domain, first and last address, privileges *)
}.

Definition toy_pc (a : Z) (v : toyState) : toyState :=
  Toy a (t_domain v) (t_icount v) (t_privs v).

Definition toy_priv (d a : Z) (l : list (Z * Z * Z * Z)) : Z :=
  match find (fun '(d', low, high, _) => (d =? d') && (low <=? a) && (a <=? high)) l with
  | Some (_, _, _, p) => p
  | None => 0
  end.

Definition toy : VmiRt := {|
  vmiState := toyState;
  vmirtGetPC := t_pc;
  vmirtGetPCDS v := (t_pc v, 0);
  vmirtSetPC := toy_pc;
  vmirtSetPCException := toy_pc;
  vmirtSetMode _ v := v;
  vmirtSetBlockMask _ v := v;
  vmirtHalt v := v;
  vmirtRestartNext v := v;
  vmirtDoSynchronousInterrupt v := v;
  vmirtSetProcessorASID _ v := v;
  vmirtGetProcessorDataDomain := t_domain;
  vmirtSetProcessorDataDomain d v := Toy (t_pc v) d (t_icount v) (t_privs v);
  vmirtGetICount := t_icount;
  vmirtGetExecutedICount := t_icount;
  monotonic_us := t_icount;
  vmirtSetFPControlWord _ v := v;
  mem_priv_set := 0;
  vmirtProtectMemory d low high p _ v :=
    Toy (t_pc v) (t_domain v) (t_icount v) ((d, low, high, p) :: t_privs v);
  vmirtGetDomainPrivileges d a v := toy_priv d a (t_privs v);
|}.

#[export] Existing Instance toy.

Definition toy_laws : VmiRtLaws toy.
Proof.
  split; try done. intros d low high p v d' a. simpl. unfold toy_priv. simpl.
  by destruct ((d' =? d) && (low <=? a) && (a <=? high)).
Qed.

#[export] Existing Instance toy_laws.

(** Code memory full of zero bytes. *)
Definition no_code : VmiCxt := {| vmicxtFetch2Byte _ := 0; vmicxtFetch4Byte _ := 0 |}.

#[export] Existing Instance no_code.

(** ** A hart *)

Definition example_arch : Z :=
  Z.lor (Z.lor (Z.lor RV32IMC ISA_A) ISA_S) ISA_U.

Definition example_config : riscvConfig := {|
  c_arch := example_arch; c_archMask := 0; c_priv_version := RVPV_1_11; c_reset_address := 0x80;
  c_nmi_address := 0x40; c_local_int_num := 0; c_ASID_bits := 9; c_PMP_grain := 0;
  c_PMP_registers := 16; c_Sv_modes := 3; c_tvec_align := 4; c_VLEN := 0; c_mtvec_is_ro := false;
  c_cycle_undefined := false; c_time_undefined := false; c_instret_undefined := false;
  c_d_requires_f := false; c_fs_always_dirty := false; c_xret_preserves_lr := false;
  c_wfi_is_nop := false; c_updatePTEA := true; c_updatePTED := true; c_tval_ii_code := false; c_csr_mvendorid := 0; c_csr_marchid := 0;
  c_csr_mimpid := 0; c_csr_mhartid := 0; c_csr_mtvec := 0x100; c_csr_mstatus := 0;
  c_mask_mtvec := 0; c_mask_stvec := 0; c_mask_utvec := 0; c_mask_cause32 := 0;
  c_mask_cause64 := 0 |}.

Definition cleared : riscvS := {|
  r_csr := fun _ => CsrReg 0 0; r_csrMask := fun _ => CsrReg 0 0;
  r_currentArch := Z.land example_arch ISA_XLEN_ANY; r_mode := 0; r_disable := 0;
  r_artifactAccess := false; r_inSaveRestore := false; r_pmKey := 0;
  r_configInfo := example_config; r_jumpBase := 0; r_swip := 0; r_exceptionMask := 0;
  r_interruptMask := 0; r_exception := 0; r_MIMode := 0; r_SIMode := 0; r_UIMode := 0;
  r_AFErrorIn := 0; r_AFErrorOut := 0; r_exclusiveTag := 0;
  r_fpFlags := FPFlags false false false false false; r_baseCycles := 0; r_baseInstructions := 0;
  r_netValue := {| n_ip := 0; n_reset := false; n_nmi := false |};
  r_vmDomains := fun _ _ => 0; r_pmpDomains := fun mode _ => mode + 1;
  r_physDomains := fun _ _ => 9; r_pmpcfg := fun _ => 0; r_pmpaddr := fun _ => 0;
  r_extBits := 34; r_tlb := Some ∅; r_dendian := false; r_PTWActive := false; r_PTWBadAddr := false; r_vFirstFault := false;
  r_vlMax := 0; r_vmi := Toy 0 0 0 [] |}.

Lemma cleared_fresh : fresh cleared.
Proof. split; try done. intros i [->|[->| ->]]; done. Qed.

(** The example hart after construction; it starts in machine mode. *)
Definition booted : riscvS := default cleared (riscvConstructor 0 cleared).

Lemma booted_eq : riscvConstructor 0 cleared = Some booted.
Proof.
  unfold booted. destruct (constructor_ok 0 cleared cleared_fresh) as (s & -> & _). done.
Qed.

Lemma booted_reachable : hart_reachable 0 cleared booted.
Proof. apply reach_new, booted_eq. Qed.

Lemma booted_ok : hart_ok booted.
Proof.
  destruct (constructor_ok 0 cleared cleared_fresh) as (s & He & Hs). unfold booted. by rewrite He.
Qed.

Lemma booted_domains : domains_ok booted.
Proof. split; [intros mode [-> | ->]; vm_compute; reflexivity|vm_compute; discriminate]. Qed.

(** ** Runs of the example hart *)

(** A decoded instruction, with registers of the 32-bit hart. *)
Definition instr (type : riscvIType) (arch r0 r1 c csr update : Z) : riscvInstrInfo :=
  Mk_riscvInstrInfo None None 0 0 4 type arch false false false false 0 c r0 r1 0 0 0 0 0 0
    RV_RM_NA update RV_VIT_NA csr 0 0 0 false.

Definition x_reg (n : Z) : Z := Z.lor (Z.lor RV_RD_X n) RV_RD_32.

Definition csrw (csr : Z) : riscvInstrInfo :=
  instr RV_IT_CSRR_I RVANY (x_reg 0) (x_reg 1) 0 csr RV_CSR_RW.
Definition csrsi (csr c : Z) : riscvInstrInfo :=
  instr RV_IT_CSRRI_I RVANY (x_reg 0) 0 c csr RV_CSR_RS.
Definition mret_i : riscvInstrInfo := instr RV_IT_MRET_I RVANY 0 0 0 0 0.
Definition wfi_i : riscvInstrInfo := instr RV_IT_WFI_I RVANY 0 0 0 0 0.

(** csrw with the value in x1. *)
Definition CSRW (csr v : Z) : hart_op := Instr (csrw csr) (fun _ => v).
Definition CSRSI (csr c : Z) : hart_op := Instr (csrsi csr c) (fun _ => 0).

(** The ports of the machine software and timer interrupts. *)
Definition SW_port (level : bool) : hart_op := Port 3 level.
Definition timer_port (level : bool) : hart_op := Port 5 level.

Definition after (op : hart_op) (s : riscvS) : riscvS := default s (hart_do op s).

Lemma after_reachable op s :
  hart_reachable 0 cleared s -> match hart_do op s with Some _ => true | None => false end = true ->
  hart_reachable 0 cleared (after op s).
Proof.
  intros H Ho. apply (reach_op 0 cleared op s _ H). unfold after. revert Ho. by destruct (hart_do op s).
Qed.

(** The hart waits for the timer interrupt. *)
Definition waiting : riscvS := after (Instr wfi_i (fun _ => 0)) (after (CSRW 0x304 0x80) booted).

Lemma waiting_reachable : hart_reachable 0 cleared waiting.
Proof. do 2 (apply after_reachable; [|vm_compute; reflexivity]). apply booted_reachable. Qed.

(** The software and the timer interrupt are pending and enabled. *)
Definition interrupted : riscvS :=
  after (CSRSI 0x300 8) (after (timer_port true) (after (SW_port true) (after (CSRW 0x304 0x88) booted))).

Lemma interrupted_reachable : hart_reachable 0 cleared interrupted.
Proof. do 4 (apply after_reachable; [|vm_compute; reflexivity]). apply booted_reachable. Qed.

(** The hart in user mode. *)
Definition in_user_mode : riscvS := after (Instr mret_i (fun _ => 0)) booted.

Lemma in_user_reachable : hart_reachable 0 cleared in_user_mode.
Proof. apply after_reachable; [apply booted_reachable|vm_compute; reflexivity]. Qed.
