(* ===== verification/RvHartProps.v ===== *)
(** * What holds of every hart

    The properties of a hart in any state it can reach: implemented modes and
    consistent registers, waking from WFI, the interrupt that is taken, the
    round trip of a trap, and the confinement of user mode. *)

From stdpp Require Import functions relations.
From S2P Require Import Prelude RvTypes RvTables RvDecode RvHart RvHartFacts RvTrap RvTrapFacts.
From S2P Require Import RvIntFacts RvPmp RvCsr RvCsrTable RvPorts RvSystem RvHartInv RvHartOps.
From S2P Require Import RvHartCsr RvHartTable RvHartReset RvConfined RvHartRuns RvExample.

Section Props.

Context {V : VmiRt} {X : VmiCxt}.
Implicit Types s : riscvS.

(** ** Registers and modes *)

(** C3: in every state that a hart reaches from its construction, through any
    sequence of system and CSR instructions, exceptions, fetches, debugger
    accesses and port changes: the current mode is implemented, and so are
    mstatus.MPP and the mode any exception or interrupt would be taken to;
    the enabled XLEN is the configured one; every register is within its
    width; mip is the port levels together with the software-pending bits;
    and a hart that waits in WFI has no interrupt that would wake it. *)
Theorem hart_typed index s0 s :
  fresh s0 -> hart_reachable index s0 s ->
  has_mode (cfg s) (getCurrentMode s) = true /\
  has_mode (cfg s) (RD_CSR_FIELD s mstatus status_MPP) = true /\
  (forall int code, 0 <= code < 32 -> has_mode (cfg s) (trap_mode s int code) = true) /\
  RISCV_XLEN_IS_32 s = x32 s /\
  (forall n, csr_in_range (r_csr s n)) /\
  RD_CSR s mip = trunc (x32 s) (Z.lor (n_ip (r_netValue s)) (r_swip s)) /\
  (in_wfi s = true -> Z.land (RD_CSR s mie) (RD_CSR s mip) = 0).
Proof.
  intros F Hr. destruct (reachable_ok index s0 s F Hr) as [H Hw]. split_and!.
  - apply H.
  - unfold RD_CSR_FIELD. rewrite (hp_xlen32 s H), mpp_field. apply (bk_mpp _ _ (hp_bank s H)).
  - intros int code Hc. by apply trap_mode_ok.
  - apply H.
  - apply (hp_bank s H).
  - rewrite value_csr by done. apply H.
  - exact Hw.
Qed.

(** ** WFI *)

Lemma wakes s : getPendingInterrupts s <> 0 -> in_wfi (riscvTestInterrupt s) = false.
Proof.
  intros Hp. rewrite test_interrupt_shape. unfold in_wfi, any. cbn [r_disable upd_vmi upd_disable].
  destruct (Z.eqb_spec (getPendingInterrupts s) 0); [done|]. apply negb_false_iff, Z.eqb_eq.
  apply Z.bits_inj'. intros i _. rewrite Z.land_spec, Z.ldiff_spec, Z.bits_0.
  by destruct (Z.testbit (r_disable s) i), (Z.testbit RVD_WFI i).
Qed.

(** A new pending bit that mie enables wakes the hart. *)
Lemma pending_wakes i s :
  0 <= i < 32 -> Z.testbit (RD_CSR s mie) i = true -> Z.testbit (RD_CSR s mip) i = false ->
  Z.testbit (Z.lor (n_ip (r_netValue s)) (r_swip s)) i = true ->
  in_wfi (riscvUpdatePending s) = false /\ Z.testbit (RD_CSR (riscvUpdatePending s) mip) i = true.
Proof.
  intros Hi He Hm Hn. unfold riscvUpdatePending. set (x := Z.lor _ _) in *.
  destruct (Z.eqb_spec (RD_CSR s mip) x) as [Heq|_]; [congruence|].
  set (s1 := WR_CSR mip x s).
  assert (H1 : RD_CSR s1 mie = RD_CSR s mie)
    by (unfold s1, RD_CSR, WR_CSR; cbn [r_csr upd_csr]; by rewrite rd_csr_wr_csr).
  assert (H2 : Z.testbit (RD_CSR s1 mip) i = true).
  { unfold s1, RD_CSR, WR_CSR. cbn [r_csr upd_csr].
    change (RISCV_XLEN_IS_32 (upd_csr _ s)) with (RISCV_XLEN_IS_32 s). rewrite rd_wr_csr_same.
    change (Z.testbit (trunc (RISCV_XLEN_IS_32 s) x) i = true). by rewrite trunc_bits. }
  split; [|by rewrite test_interrupt_shape].
  apply wakes. intros H0. apply (f_equal (fun z => Z.testbit z i)) in H0.
  unfold getPendingInterrupts in H0. by rewrite Z.land_spec, H1, He, H2, Z.bits_0 in H0.
Qed.

(** C22: a hart that waits in WFI leaves the wait when a port raises an
    interrupt that mie enables, whatever mode it is in and whether or not the
    interrupt will be taken; mip shows the interrupt afterwards. *)
Theorem wfi_wakes index s0 s k name i :
  fresh s0 -> hart_reachable index s0 s ->
  riscvNewNetPorts s !! k = Some (InterruptPort name i) -> i < 32 ->
  Z.testbit (RD_CSR s mie) i = true -> in_wfi s = true ->
  exists s', hart_do (Port k true) s = Some s' /\ in_wfi s' = false /\
    Z.testbit (RD_CSR s' mip) i = true.
Proof.
  intros F Hr Hp Hi He Hw. destruct (reachable_ok index s0 s F Hr) as [H Hok].
  pose proof (ports_indexed s k _ Hp name i eq_refl) as H0.
  cbn [hart_do]. rewrite Hp. cbn [mbind option_bind net_change]. unfold interruptPortCB.
  destruct (Z.ltb_spec i 64); [|lia]. eexists. split; [reflexivity|].
  apply pending_wakes; [done|done| |].
  - specialize (Hok Hw). apply (f_equal (fun z => Z.testbit z i)) in Hok.
    unfold getPendingInterrupts in Hok. rewrite Z.land_spec, He, Z.bits_0 in Hok. exact Hok.
  - cbn [r_netValue upd_netValue n_ip]. rewrite !Z.lor_spec, Z.shiftl_spec, Z.sub_diag by lia.
    by rewrite orb_true_r.
Qed.

(** ** Interrupts *)

Context {L : VmiRtLaws V}.

Lemma pending_enabled_sub s i :
  Z.testbit (getPendingInterrupts s) i = false -> Z.testbit (getPendingAndEnabledInterrupts s) i = false.
Proof.
  intros Hp. unfold getPendingAndEnabledInterrupts. destruct (negb _); [|done]. cbv zeta.
  repeat case_match; by rewrite ?Z.ldiff_spec, ?Hp.
Qed.

Lemma pending_range s :
  hart_pre s -> x32 s = true -> 0 <= getPendingAndEnabledInterrupts s < 2 ^ 32.
Proof.
  intros H H32. apply range_bits; [lia|]. intros i Hi. apply pending_enabled_sub.
  unfold getPendingInterrupts. rewrite Z.land_spec, !value_csr, H32 by done.
  by rewrite (testbit_above (rd_csr true (r_csr s) mie) 32)
    by (done || lia || (apply rd_csr_range32, (hp_bank s H))).
Qed.

Lemma code_of_interrupt i :
  0 <= i < 32 -> IS_INTERRUPT (riscv_E_Interrupt + i) = true /\ GET_ECODE (riscv_E_Interrupt + i) = i.
Proof.
  intros Hi. assert (Hall : forallb (fun n => IS_INTERRUPT (riscv_E_Interrupt + Z.of_nat n) &&
                      (GET_ECODE (riscv_E_Interrupt + Z.of_nat n) =? Z.of_nat n)) (seq 0 32) = true)
    by (vm_compute; reflexivity).
  rewrite forallb_forall in Hall. specialize (Hall (Z.to_nat i) ltac:(apply in_seq; lia)).
  apply andb_prop in Hall as [? ?%Z.eqb_eq]. rewrite Z2Nat.id in * by lia. done.
Qed.

(** C17: on a 32-bit hart that has pending and enabled interrupts, the next
    instruction fetch takes one: it is pending in mip and mie and enabled in
    the current mode, every other one that is goes to a lower mode or to the
    same one with a lower number, and the hart enters the handler of the mode
    the interrupt is delegated to, with the interrupt bit and number in its
    cause register, the old program counter in its epc register, interrupts
    of that mode disabled and the previous state stacked in mstatus. *)
Theorem fetch_takes_interrupt index s0 s :
  fresh s0 -> hart_reachable index s0 s -> x32 s = true ->
  getPendingAndEnabledInterrupts s <> 0 ->
  exists i s', riscvIFetchExcept s = Some (false, s') /\
    Z.testbit (getPendingInterrupts s) i = true /\ int_enabled s i = true /\
    (forall j, 0 <= j < 32 -> Z.testbit (getPendingInterrupts s) j = true -> int_enabled s j = true ->
       int_mode s j < int_mode s i \/ (int_mode s j = int_mode s i /\ j <= i)) /\
    getCurrentMode s' = int_mode s i /\
    trap_entry s (level (int_mode s i)) true i 0 s'.
Proof.
  intros F Hr H32 Hne. destruct (reachable_ok index s0 s F Hr) as [H _].
  pose proof (pending_range s H H32) as HM. unfold riscvIFetchExcept.
  destruct (Z.eqb_spec (getPendingAndEnabledInterrupts s) 0) as [|_]; [done|]. cbn [negb].
  destruct (do_interrupt_eq s (getPendingAndEnabledInterrupts s)) as (d & (Hd & Hr' & Hm & Hbest) & ->); [lia|].
  destruct (code_of_interrupt (d_ecode d) Hr') as [Hint Hcode].
  pose proof (take_exception_entry (riscv_E_Interrupt + d_ecode d) 0 s) as He. cbv zeta in He.
  rewrite Hint, Hcode in He.
  destruct He as (s' & Hs' & Hentry & Hmode); [done|lia|apply H|]. rewrite Hs'.
  rewrite pending_enabled_bits in Hd by lia. apply andb_prop in Hd as [Hp Hen].
  rewrite (enabled_mode s _ Hr' Hen) in Hentry, Hmode, Hm.
  exists (d_ecode d), s'. split_and!; try done. intros j Hj Hpj Hej.
  specialize (Hbest j). rewrite pending_enabled_bits, Hpj, Hej in Hbest by lia.
  rewrite (enabled_mode s j Hj Hej), Hm in Hbest. by apply Hbest.
Qed.

(** ** Traps *)

(** C18: from any state a hart reaches, taking an exception or interrupt and
    returning from it with the return instruction of the mode it was taken
    to restores the mode, the interrupt enable of that mode and every other
    field of mstatus outside the stacked ones, and continues at the
    interrupted instruction, word-aligned unless compressed instructions are
    enabled. *)
Theorem trap_roundtrip index s0 s exception tval :
  let int := IS_INTERRUPT exception in
  let code := GET_ECODE exception in
  let x := level (trap_mode s int code) in
  fresh s0 -> hart_reachable index s0 s -> 0 <= code < 32 -> 0 <= tval < 2 ^ 64 ->
  exists s1, riscvTakeException exception tval s = Some s1 /\
    trap_entry s x int code tval s1 /\
    let s2 := xRET x s1 in
    getCurrentMode s2 = getCurrentMode s /\
    RD_CSR_FIELD s2 mstatus (x_IE x) = RD_CSR_FIELD s mstatus (x_IE x) /\
    vmirtGetPC (r_vmi s2) =
      (let epc := Z.land (getEPC s) (RD_CSR_MASK s (x_epc x)) in
       if any (r_currentArch s) ISA_C then epc else Z.land epc (w64 (-4))) /\
    (forall f, fields_apart f (x_IE x) = true -> fields_apart f (x_PIE x) = true ->
       (forall g, x_PP x = Some g -> fields_apart f g = true) ->
       RD_CSR_FIELD s2 mstatus f = RD_CSR_FIELD s mstatus f).
Proof.
  intros int code x F Hr Hc Ht. destruct (reachable_ok index s0 s F Hr) as [H _].
  destruct (take_exception_entry exception tval s Hc Ht) as (s1 & Hs1 & He & _); [apply H|].
  destruct (entry_return exception tval s Hc Ht) as (s1' & Hs1' & Hret); [apply H..|].
  rewrite Hs1 in Hs1'. apply Some_inj in Hs1'. subst s1'. exists s1. by split_and!.
Qed.

(** ** User mode *)

(** C15: on a hart where user-level interrupts are not enabled, a system or CSR
    instruction executed in user mode has one of two outcomes.  Either an
    exception is taken, or the hart is as before except for fcsr, vstart,
    vxsat, vxrm, the floating-point flags, the state derived from them and
    the rounding mode: in particular the mode, mstatus, every machine and
    supervisor register, the PMP entries, the counters, the pending
    interrupts and the data domain do not change.  The architecture of uret
    includes N, as in the instruction table. *)
Theorem user_confined i x s s' w :
  getCurrentMode s = RISCV_MODE_USER -> any (r_currentArch s) ISA_N = false ->
  (i_type i = RV_IT_URET_I -> any (i_arch i) ISA_N = true) ->
  riscvMorph i x s = Some (s', w) ->
  (exists c f k v,
     s' = upd_csr c (upd_fpFlags f (upd_pmKey k (upd_vmi v s))) /\
     (forall n, user_csr n = false -> c n = r_csr s n) /\ fp_control (r_vmi s) v) \/
  (exists e tval, riscvTakeException e tval s = Some s').
Proof. intros Hm Hn Hu. by apply morph_harmless. Qed.

End Props.

(** The constructed example hart. *)
Lemma hart_typed_witness :
  getCurrentMode booted = RISCV_MODE_MACHINE /\ RD_CSR booted mip = 0 /\
  has_mode (cfg booted) (getCurrentMode booted) = true.
Proof.
  split; [vm_compute; reflexivity|]. split; [vm_compute; reflexivity|].
  exact (proj1 (hart_typed 0 cleared booted cleared_fresh booted_reachable)).
Defined.

(** The timer wakes the waiting hart. *)
Lemma wfi_wakes_witness :
  exists s', hart_do (timer_port true) waiting = Some s' /\ in_wfi s' = false /\
    Z.testbit (RD_CSR s' mip) 7 = true.
Proof.
  apply (wfi_wakes 0 cleared waiting 5 "MTimerInterrupt" 7 cleared_fresh waiting_reachable);
    [vm_compute; reflexivity|lia|vm_compute; reflexivity|vm_compute; reflexivity].
Defined.

Lemma fetch_takes_interrupt_witness :
  exists i s', riscvIFetchExcept interrupted = Some (false, s') /\
    Z.testbit (getPendingInterrupts interrupted) i = true /\
    trap_entry interrupted (level (int_mode interrupted i)) true i 0 s'.
Proof.
  destruct (fetch_takes_interrupt 0 cleared interrupted cleared_fresh interrupted_reachable)
    as (i & s' & Hf & Hp & _ & _ & _ & He); [vm_compute; reflexivity|vm_compute; discriminate|].
  exists i, s'. exact (conj Hf (conj Hp He)).
Defined.

(** An ecall from machine mode. *)
Lemma trap_roundtrip_witness :
  exists s1, riscvTakeException 11 0 booted = Some s1 /\
    getCurrentMode (xRET LM s1) = getCurrentMode booted.
Proof.
  destruct (trap_roundtrip 0 cleared booted 11 0 cleared_fresh booted_reachable)
    as (s1 & H1 & _ & Hm & _); [vm_compute; split; [discriminate|reflexivity]|lia|].
  exists s1. split; [exact H1|].
  assert (Hx : level (trap_mode booted (IS_INTERRUPT 11) (GET_ECODE 11)) = LM) by (vm_compute; reflexivity).
  rewrite Hx in Hm. exact Hm.
Defined.

(** csrw mstatus in user mode. *)
Lemma user_confined_witness :
  exists s' w, riscvMorph (csrw 0x300) (fun _ => 0) in_user_mode = Some (s', w) /\
    (confined in_user_mode s' \/ exists e tval, riscvTakeException e tval in_user_mode = Some s').
Proof.
  destruct (riscvMorph (csrw 0x300) (fun _ => 0) in_user_mode) as [[s' w]|] eqn:E.
  - exists s', w. split; [reflexivity|].
    apply (user_confined (csrw 0x300) (fun _ => 0) in_user_mode s' w);
      [vm_compute; reflexivity|vm_compute; reflexivity|discriminate|exact E].
  - assert (H : match riscvMorph (csrw 0x300) (fun _ => 0) in_user_mode with
                | Some _ => true | None => false end = true) by (vm_compute; reflexivity).
    rewrite E in H. discriminate.
Defined.

(** ** A priority that is not the documented one *)

