(* ===== verification/RvPmpProps.v ===== *)
(** * What physical memory protection guarantees

    Over any sequence of register writes, accesses and resets: an access is
    given exactly the privileges of the reference, and a locked entry keeps
    its region and its permissions; and the one kind of write after which
    stale privileges remain. *)

From stdpp Require Import functions.
From S2P Require Import Prelude RvTypes RvHart RvHartFacts RvPmp RvPmpFacts RvPmpCache.
From S2P Require Import RvPmpWrite RvPmpRuns RvHartInv RvExample.

Section PmpProps.

Context {V : VmiRt} {L : VmiRtLaws V}.
Implicit Types s : riscvS.

Lemma run_ok s s' :
  pmp_ok s -> domains_ok s -> pmp_run keeps_bounds s s' ->
  pmp_ok s' /\ domains_ok s' /\ (coherent s -> coherent s').
Proof.
  intros H Hd Hr. induction Hr as [s|s op s1 s2 Hv Hk Hdo _ IH]; [done|].
  destruct (pmp_do_ok op s Hv H Hd) as (s1' & E & H1 & Hd1 & Hc1).
  rewrite Hdo in E. apply Some_inj in E. subst s1'.
  destruct (IH H1 Hd1) as (? & ? & ?). split_and!; auto.
Qed.


(** ** Locked entries *)

Definition no_reset (s : riscvS) (op : pmp_op) : Prop :=
  match op with ResetPMP => False | _ => True end.

(** Entry [i] has the same region and gives the same permissions. *)
Record entry_same (s s' : riscvS) (i : Z) : Prop := {
  es_cfg : r_pmpcfg s' i = r_pmpcfg s i;
  es_covers a : covers s' i a = covers s i a;
  es_priv mode : entry_priv s' mode i = entry_priv s mode i;
  es_access : r_artifactAccess s' = r_artifactAccess s;
}.

Lemma entry_same_of s s' i :
  r_pmpcfg s' i = r_pmpcfg s i -> r_pmpaddr s' i = r_pmpaddr s i ->
  (e_mode (r_pmpcfg s i) = PMPM_TOR -> r_pmpaddr s' (i - 1) = r_pmpaddr s (i - 1)) ->
  r_configInfo s' = r_configInfo s -> r_artifactAccess s' = r_artifactAccess s -> entry_same s s' i.
Proof.
  intros Hc Ha Ht Hf Haa. split; try done.
  - intros a. unfold covers, napot_addr, grain_floor. rewrite Hc, Ha, Hf.
    destruct (Z.eqb_spec (e_mode (r_pmpcfg s i)) PMPM_TOR) as [Hm|]; [by rewrite Ht|done].
  - intros mode. unfold entry_priv. by rewrite Hc.
Qed.

Lemma locked_step op s s1 i :
  pmp_ok s -> domains_ok s -> 0 <= i < NUM_PMPS -> pmpLocked s i = true ->
  op_valid op -> no_reset s op -> pmp_do op s = Some s1 -> entry_same s s1 i.
Proof.
  intros H Hd Hi Hl Hv Hn Hdo. destruct op as [index x|index x|mode req low high|]; [| | |done].
  - apply Some_inj in Hdo. subst s1. pose proof (write_cfg_locked index x s i H Hd Hi Hl) as Hc.
    destruct (write_cfg_spec index x s H Hd) as (c & v & E & _). rewrite E in *.
    by apply entry_same_of.
  - apply Some_inj in Hdo. subst s1.
    destruct (write_addr_locked index x s i H Hd Hi Hl) as (Hc & Ha & Hf & Hr & Ht).
    apply entry_same_of; try done. by rewrite Hc.
  - destruct Hv as (Hm & Hlow & Hh). simpl in Hdo.
    destruct (map_total mode req low high s H Hd Hm Hlow Hh) as (s' & He & (v & e & Hs) & _).
    rewrite He in Hdo. apply Some_inj in Hdo. subst s1 s'. by apply entry_same_of.
Qed.

(** C21: a locked PMP entry cannot be undone by software.  Through any sequence
    of writes to the configuration and address registers and of accesses,
    its configuration byte, the addresses it covers and the permissions it
    gives to each mode stay the same, until the hart is reset; this includes
    the address register below a locked top-of-range entry. *)
Theorem pmp_locked s s' i :
  pmp_ok s -> domains_ok s -> 0 <= i < NUM_PMPS -> r_artifactAccess s = false ->
  e_L (r_pmpcfg s i) = true -> pmp_run no_reset s s' ->
  r_pmpcfg s' i = r_pmpcfg s i /\ (forall a, covers s' i a = covers s i a) /\
  (forall mode, entry_priv s' mode i = entry_priv s mode i).
Proof.
  intros H Hd Hi Ha Hl Hr. induction Hr as [s|s op s1 s2 Hv Hn Hdo _ IH]; [done|].
  assert (Hp : pmpLocked s i = true) by (unfold pmpLocked, getPMPCFGElem; by rewrite Ha).
  destruct (locked_step op s s1 i H Hd Hi Hp Hv Hn Hdo) as [Hc Hcov Hpr Hacc].
  destruct (pmp_do_ok op s Hv H Hd) as (s1' & E & H1 & Hd1 & _).
  rewrite Hdo in E. apply Some_inj in E. subst s1'.
  destruct IH as (I1 & I2 & I3); [done..|congruence|by rewrite Hc|].
  split; [congruence|]. split; intros; [by rewrite I2|by rewrite I3].
Qed.

End PmpProps.

(** ** The example hart *)

Definition pmp_after (op : pmp_op) (s : riscvS) : riscvS := default s (pmp_do op s).

Lemma pmp_after_run (ok : riscvS -> pmp_op -> Prop) s op s' :
  op_valid op -> ok s op -> match pmp_do op s with Some _ => true | None => false end = true ->
  pmp_run ok (pmp_after op s) s' -> pmp_run ok s s'.
Proof.
  intros Hv Ho Hs Hr. apply (run_op ok s op (pmp_after op s) s'); [done|done| |done].
  unfold pmp_after. revert Hs. by destruct (pmp_do op s).
Qed.

(** One operation of a run of the example. *)
Ltac run_step op :=
  apply (pmp_after_run _ _ op); [cbn [op_valid]; split_and?; (lia || by left || done)|done|vm_compute; reflexivity|].

Lemma cleared_pmp : pmp_ok cleared.
Proof. by split. Qed.

Lemma cleared_domains : domains_ok cleared.
Proof. split; [|done]. by intros mode [-> | ->]. Qed.

Lemma cleared_coherent : coherent cleared.
Proof. intros mode a _ _. by left. Qed.

(** Entry 0 is a locked NAPOT region of 4 KiB at 0x8000, read and execute. *)
Definition one_region : riscvS := pmp_after (WriteCfg 0 0x9d) (pmp_after (WriteAddr 0 0x21ff) cleared).

Lemma one_region_run : pmp_run keeps_bounds cleared one_region.
Proof. unfold one_region. run_step (WriteAddr 0 0x21ff). run_step (WriteCfg 0 0x9d). apply run_done. Qed.

Lemma one_region_pmp : pmp_ok one_region.
Proof. apply (run_ok cleared one_region cleared_pmp cleared_domains one_region_run). Qed.

Lemma one_region_domains : domains_ok one_region.
Proof. apply (run_ok cleared one_region cleared_pmp cleared_domains one_region_run). Qed.


(** An attempt to open the locked region of the example for writing. *)
Lemma pmp_locked_witness :
  let s' := pmp_after (WriteAddr 0 0x2fff) (pmp_after (WriteCfg 0 0x1f) one_region) in
  r_pmpcfg s' 0 = 0x9d.
Proof.
  assert (Hr : pmp_run no_reset one_region
                 (pmp_after (WriteAddr 0 0x2fff) (pmp_after (WriteCfg 0 0x1f) one_region)))
    by (run_step (WriteCfg 0 0x1f); run_step (WriteAddr 0 0x2fff); apply run_done).
  destruct (pmp_locked one_region _ 0 one_region_pmp one_region_domains ltac:(lia)
              ltac:(vm_compute; reflexivity) ltac:(vm_compute; reflexivity) Hr) as [Hc _].
  cbv zeta. rewrite Hc. vm_compute. reflexivity.
Defined.

(** ** Stale privileges *)

(** Entry 1 covers 0x1000 to 0x1fff, and supervisor mode has read from
    there; then the lower bound moves to 0x1800. *)
Definition moved_bound : riscvS :=
  pmp_after (WriteAddr 0 0x600)
    (pmp_after (Map RISCV_MODE_SUPERVISOR 1 0x1000 0x1003)
      (pmp_after (WriteCfg 0 0x0f00) (pmp_after (WriteAddr 1 0x800) (pmp_after (WriteAddr 0 0x400) cleared)))).

