(* ===== verification/RvCsrProps.v ===== *)
(** * What CSR accesses do

    A CSR instruction from its encoding in memory to its effect; writes
    through the restricted views of mstatus; and the counters. *)

From stdpp Require Import functions.
From S2P Require Import Prelude RvTypes RvTables RvDecode RvTableFacts RvDecodeFacts RvIsa.
From S2P Require Import RvHart RvHartFacts RvTrap RvTrapFacts RvPmp RvCsr RvCsrTable RvPorts.
From S2P Require Import RvSystem RvHartInv RvHartOps RvHartCsr RvHartTable RvHartReset.
From S2P Require Import RvHartRuns RvExample.

Section CsrProps.

Context {V : VmiRt} {X : VmiCxt} {D : Vmid} {DL : VmidLaws D}.
Implicit Types s : riscvS.

(** ** Decoding and executing *)

Lemma xreg_parts n :
  0 <= n < 32 -> isXReg (xreg n) = true /\ getRIndex (xreg n) = n /\ getRBits (xreg n) = 32.
Proof.
  intros Hn. assert (Hall : forallb (fun k => let n := Z.of_nat k in
      isXReg (xreg n) && (getRIndex (xreg n) =? n) && (getRBits (xreg n) =? 32)) (seq 0 32) = true)
    by (vm_compute; reflexivity).
  rewrite forallb_forall in Hall. specialize (Hall (Z.to_nat n) ltac:(apply in_seq; lia)).
  cbv zeta in Hall. rewrite Z2Nat.id in Hall by lia.
  apply andb_prop in Hall as [[? ?%Z.eqb_eq]%andb_prop ?%Z.eqb_eq]. done.
Qed.

Lemma present s n : 0 <= n ->
  riscvRequireArchPresentMT s (Z.shiftl 1 n) = any (r_currentArch s) (Z.shiftl 1 n).
Proof.
  intros Hn. unfold riscvRequireArchPresentMT. rewrite any_bit by done.
  destruct (Z.testbit (r_currentArch s) n) eqn:E.
  - apply Z.eqb_eq, Z.bits_inj'. intros i Hi. rewrite Z.ldiff_spec, Z.land_spec, Z.bits_0.
    destruct (decide (i = n)) as [->|Hne]; [by rewrite E, andb_negb_r|].
    rewrite Z.shiftl_1_l, Z.pow2_bits_false by lia. done.
  - apply Z.eqb_neq. intros H0. apply (f_equal (fun z => Z.testbit z n)) in H0.
    by rewrite Z.ldiff_spec, Z.land_spec, E, Z.shiftl_1_l, Z.pow2_bits_true, Z.bits_0 in H0.
Qed.

Lemma vmi_xreg s n :
  0 <= n < 32 -> any (r_currentArch s) ISA_I = true ->
  riscvGetVMIReg s (xreg n) = Some (true, if n =? 0 then None else Some n).
Proof.
  intros Hn HI. destruct (xreg_parts n Hn) as (H1 & H2 & H3). unfold riscvGetVMIReg.
  rewrite H1, H2, H3. cbn [Z.eqb negb orb].
  change ISA_I with (Z.shiftl 1 8). rewrite present by lia.
  change (any (r_currentArch s) (Z.shiftl 1 8)) with (any (r_currentArch s) ISA_I).
  by rewrite HI, orb_true_r.
Qed.

(** The entry of mscratch. *)
Definition mscratch_attrs : riscvCSRAttrs :=
  CSR_ATTR_T__ "mscratch" 0x340 0 RVPV_1_10 false false false mscratch None None None.

Lemma mscratch_found s :
  c_priv_version (cfg s) = RVPV_1_10 \/ c_priv_version (cfg s) = RVPV_1_11 ->
  getCSRAttrs s 0x340 = Some mscratch_attrs.
Proof. unfold getCSRAttrs. intros [-> | ->]; vm_compute; reflexivity. Qed.

Lemma mscratch_valid s r w :
  c_priv_version (cfg s) = RVPV_1_10 \/ c_priv_version (cfg s) = RVPV_1_11 ->
  getCurrentMode s = RISCV_MODE_MACHINE -> riscvValidateCSRAccess s 0x340 r w = Some mscratch_attrs.
Proof.
  intros Hv Hm. unfold riscvValidateCSRAccess. rewrite mscratch_found, Hm by done.
  assert (Hmiss : getMissingCSRFeatures mscratch_attrs (r_currentArch s) true = 0)
    by (unfold getMissingCSRFeatures; change (Z.ldiff (a_arch mscratch_attrs) ISA_and) with 0;
        change (any (a_arch mscratch_attrs) ISA_and) with false; by destruct (any _ 0)).
  rewrite Hmiss. by destruct w.
Qed.

(** What a read-modify-write stores. *)
Definition csr_new (op : cop) (old v : Z) : Z :=
  match op with CSRRW => w32 v | CSRRS => w32 (Z.lor old v) | CSRRC => w32 (Z.ldiff old v) end.

(** The common part on a 32-bit hart, for a register without callbacks. *)
Lemma plain_access i op rd rs1 write s :
  hart_pre s -> x32 s = true -> i_csr i = 0x340 -> i_csrUpdate i = cop_update op ->
  i_r0 i = xreg rd -> 0 <= rd < 32 -> any (r_currentArch s) ISA_I = true ->
  c_priv_version (cfg s) = RVPV_1_10 \/ c_priv_version (cfg s) = RVPV_1_11 ->
  getCurrentMode s = RISCV_MODE_MACHINE ->
  let old := RD_CSR s mscratch in
  let v := csr_new op old (default (i_c i) rs1) in
  exists c, emitCSRRCommon i rs1 write s =
      Some (upd_csr c s, if rd =? 0 then None else Some (rd, old)) /\
    rd_csr true c mscratch = (if write then v else old) /\
    forall n, n <> mscratch -> c n = r_csr s n.
Proof.
  intros H H32 Hcsr Hup Hr0 Hrd HI Hv Hm old v. destruct (xreg_parts rd Hrd) as (_ & _ & Hb).
  pose proof (hp_xlen64 s H) as H64. rewrite H32 in H64. cbn [negb] in H64.
  assert (Hold : old = rd_csr true (r_csr s) mscratch) by (unfold old; by rewrite value_csr, H32).
  assert (Hor : 0 <= old < 2 ^ 32) by (rewrite Hold; apply rd_csr_range32, (hp_bank s H)).
  unfold emitCSRRCommon. cbv zeta. rewrite Hr0, vmi_xreg, Hcsr, Hb by done. cbn [mbind option_bind negb].
  rewrite mscratch_valid by done. cbn [a_TVMT mscratch_attrs CSR_ATTR_T__ andb].
  set (rd' := if rd =? 0 then None else Some rd). set (t := if doCSRRead i rd' then old else 0).
  assert (Hread : (if doCSRRead i rd' then riscvEmitCSRRead mscratch_attrs write s else Some (s, 0)) =
                  Some (s, t)).
  { unfold t. destruct (doCSRRead i rd'); [|done]. rewrite Hold. unfold riscvEmitCSRRead, getCSRReadCB.
    cbn [a_readWriteCB a_readCB a_reg mscratch_attrs CSR_ATTR_T__]. rewrite H64. by destruct write. }
  rewrite Hread. cbn [mbind option_bind].
  assert (Hop : csr_operand 32 (i_csrUpdate i) t (default (i_c i) rs1) = Some v).
  { unfold csr_operand, v, csr_new, t, doCSRRead. rewrite Hup. destruct op; [done|..];
      by rewrite orb_true_r. }
  assert (Hres : (n ← rd'; Some (n, wrap 32 t)) = if rd =? 0 then None else Some (rd, old)).
  { unfold rd', t. destruct (Z.eqb_spec rd 0); [done|]. cbn [mbind option_bind]. unfold doCSRRead.
    cbn. by rewrite wrap_small. }
  cbn [mbind option_bind] in Hres. rewrite Hres, Hop. destruct write.
  - cbn [mbind option_bind]. unfold riscvEmitCSRWrite.
    cbn [a_writeCB a_reg mscratch_attrs CSR_ATTR_T__]. rewrite H64.
    unfold getCSRWriteMask. rewrite (hp_xlen32 s H), H32.
    change (getCSRWriteMask32 mscratch_attrs s) with (w64 (-1)). rewrite Z.eqb_refl.
    cbn [mbind option_bind]. eexists. split; [reflexivity|]. split.
    + cbn [negb]. rewrite rd_wr_csr_same. unfold v, csr_new. by destruct op; apply wrap_wrap.
    + intros n Hn. by apply wr_csr_other.
  - cbn [mbind option_bind]. exists (r_csr s). split; [by destruct s|]. done.
Qed.

Lemma decoder_xlen s : hart_pre s -> x32 s = true -> getXLenBits (decoder_view s) = Some 32.
Proof.
  intros H H32. pose proof (hp_xlen64 s H) as H64. pose proof (hp_xlen32 s H) as H32'.
  unfold RISCV_XLEN_IS_32 in H32'. rewrite H32 in H64, H32'. unfold getXLenBits, riscvGetXlenMode.
  cbn [currentArch decoder_view]. fold (any (r_currentArch s) ISA_XLEN_64).
  fold (any (r_currentArch s) ISA_XLEN_32). by rewrite H64, H32'.
Qed.

Lemma any_xlen_enabled s : hart_pre s -> x32 s = true -> riscvInstructionEnabled s RVANY = Some true.
Proof.
  intros H H32. pose proof (decoder_xlen s H H32) as Hx. unfold getXLenBits in Hx.
  unfold riscvInstructionEnabled. rewrite Hx. cbn [mbind option_bind].
  change (negb (any RVANY (if 32 =? 32 then ISA_XLEN_32 else ISA_XLEN_64))) with false. cbv iota.
  change (Z.ldiff RVANY ISA_XLEN_ANY) with 0. unfold riscvRequireArchPresentMT.
  by rewrite Z.land_0_r.
Qed.

(** C16: a CSR instruction from memory to effect.  On a 32-bit hart in machine
    mode, when the word at an address encodes csrrw, csrrs or csrrc on
    mscratch, the decoder and the code emitted for what it decodes put the
    old value of mscratch into rd (unless that is x0), and write rs1, the old
    value with the bits of rs1 set, or with them cleared; csrrs and csrrc
    with x0 do not write; nothing else in the hart changes. *)
Theorem csr_instruction index s0 s op rd rs1 pc i x :
  fresh s0 -> hart_reachable index s0 s -> x32 s = true ->
  getCurrentMode s = RISCV_MODE_MACHINE -> any (r_currentArch s) ISA_I = true ->
  c_priv_version (cfg s) = RVPV_1_10 \/ c_priv_version (cfg s) = RVPV_1_11 ->
  0 <= rd < 32 -> 0 <= rs1 < 32 ->
  riscvGetInstruction (decoder_view s) pc = Some (word (encode (Csr op rd rs1 0x340))) ->
  let old := RD_CSR s mscratch in
  let src := if rs1 =? 0 then 0 else x rs1 in
  exists i' c, riscvDecode (decoder_view s) pc i = Some (tt, i') /\
    riscvMorph i' x s = Some (upd_csr c s, if rd =? 0 then None else Some (rd, old)) /\
    rd_csr true c mscratch =
      match op with
      | CSRRW => w32 src
      | CSRRS => if rs1 =? 0 then old else w32 (Z.lor old src)
      | CSRRC => if rs1 =? 0 then old else w32 (Z.ldiff old src)
      end /\
    (forall n, n <> mscratch -> c n = r_csr s n).
Proof.
  intros F Hr H32 Hm HI Hv Hrd Hrs Hw old src. destruct (reachable_ok index s0 s F Hr) as [H _].
  destruct (decodes_all (decoder_view s) (decoder_xlen s H H32) (Csr op rd rs1 0x340) pc i)
    as (i' & Hd & [Hop|(? & ? & ? & _)] & Har & _); [|done| |done].
  { unfold insn_ok, is_reg. lia. }
  exists i'. unfold op_of, meaning in Hop. injection Hop as Ht Hr0 Hr1 _ Hc _ _ Hcsr Hup.
  set (r1 := if rs1 =? 0 then None else Some rs1).
  destruct (plain_access i' op rd (x <$> r1) (doCSRWriteRS1 i' r1) s)
    as (c & He & Hval & Hoth); try done.
  exists c. split; [done|]. split; [|split; [|done]].
  - unfold riscvMorph. rewrite Ht, Har. change (insn_arch (Csr op rd rs1 0x340)) with RVANY.
    rewrite any_xlen_enabled by done. cbn [mbind option_bind negb dispatchTable]. unfold emitCSRR.
    by rewrite Hr1, vmi_xreg by done.
  - rewrite Hval. unfold doCSRWriteRS1. rewrite Hup, Hc. unfold r1, csr_new, src, old.
    destruct op, (rs1 =? 0); reflexivity.
Qed.

(** ** Views of mstatus *)

Lemma bits_masked v old m i :
  Z.testbit (masked v old m) i = if Z.testbit m i then Z.testbit v i else Z.testbit old i.
Proof.
  unfold masked. rewrite Z.lor_spec, Z.land_spec, Z.ldiff_spec.
  by destruct (Z.testbit m i), (Z.testbit v i), (Z.testbit old i).
Qed.

Lemma status_write_csr v mask s :
  hart_pre s ->
  r_csr (statusW v mask s) = status_bank s (masked v (RD_CSR s mstatus) mask) /\
  cfg (statusW v mask s) = cfg s.
Proof.
  intros H. unfold statusW. cbv zeta. set (x := masked _ _ _).
  set (s1 := if negb (riscvHasMode _ _) then _ else _).
  assert (Hs1 : s1 = upd_csr (status_bank s x) s) by by apply status_bank_eq.
  clearbody s1. destruct (set_arch_shape s1) as [v1 ->]. rewrite refresh_shape.
  rewrite Hs1. match goal with |- context [upd_vmi ?w ?t] => generalize w end. intros w.
  case_match; [|done]. by rewrite test_interrupt_shape.
Qed.

(** The write mask of a view has no MPP. *)
Lemma view_write v m s :
  hart_ok s -> 0 <= m < 2 ^ 64 -> (x32 s = true -> m < 2 ^ 32) ->
  Z.testbit m 11 = false -> Z.testbit m 12 = false ->
  RD_CSR (statusW v m s) mstatus = masked v (RD_CSR s mstatus) m /\
  forall n, n <> mstatus -> r_csr (statusW v m s) n = r_csr s n.
Proof.
  intros Hok Hm Hm32 H11 H12. pose proof (proj1 Hok) as H.
  pose proof (proj1 (status_write_ok v m s Hok)) as H'.
  destruct (status_write_csr v m s H) as [Hb Hc]. rewrite (value_csr (statusW v m s)), Hb, Hc by done.
  split; [|intros n Hn; by apply (status_bank_changes s _ H)].
  rewrite value_csr by done. set (old := rd_csr (x32 s) (r_csr s) mstatus). set (x := masked v old m).
  assert (Hbits : forall i, Z.testbit m i = false -> Z.testbit x i = Z.testbit old i)
    by (intros i Hi; unfold x; by rewrite bits_masked, Hi).
  assert (Hx : trunc (x32 s) x = x).
  { assert (Hr : forall w, 0 <= w -> 0 <= m < 2 ^ w -> 0 <= old < 2 ^ w -> wrap w x = x).
    { intros w Hw Hmw Ho. apply wrap_small, range_bits; [done|]. intros i Hi.
      rewrite Hbits by (apply (testbit_above m w); lia). by apply (testbit_above old w). }
    pose proof (bk_range _ _ (hp_bank s H) mstatus) as Hrg. unfold old in *.
    destruct (x32 s); apply Hr; try done; [split; [lia|by apply Hm32]|by apply rd_csr_range32|].
    by apply rd_csr_range. }
  assert (Hmpp : field_get (11, 2) x = field_get (11, 2) old).
  { apply Z.bits_inj'. intros i Hi. rewrite !field_get_bits by done. cbn [fst snd].
    destruct (Z.ltb_spec i 2); [|by rewrite !andb_false_r].
    rewrite Hbits; [done|]. by assert (i = 0 \/ i = 1) as [-> | ->] by lia. }
  assert (Hv : rd_csr (x32 s) (wr_csr (x32 s) mstatus x (r_csr s)) mstatus = x)
    by (rewrite rd_wr_csr_same; exact Hx).
  unfold status_bank. rewrite mpp_field, Hv, Hmpp. unfold old.
  by rewrite (bk_mpp _ _ (hp_bank s H)).
Qed.

(** The supervisor and user views of mstatus.  From any reachable state,
    a write of sstatus or ustatus completes, changes no other register, and
    sets exactly those bits of mstatus that are both writable and in the
    view to the bits written; all the other bits, MPP and the machine-level
    interrupt enable among them, keep their values. *)
Theorem status_views index s0 s num v :
  fresh s0 -> hart_reachable index s0 s ->
  Forall (fun '(write, view) =>
    exists s' r, (write : riscvCSRWriteFn) num v s = Some (s', r) /\
      (forall i, 0 <= i ->
         Z.testbit (RD_CSR s' mstatus) i =
         if Z.testbit (RD_CSR_MASK s mstatus) i && Z.testbit view i
         then Z.testbit v i else Z.testbit (RD_CSR s mstatus) i) /\
      (forall n, n <> mstatus -> r_csr s' n = r_csr s n))
    [(sstatusW, sstatus_AMASK); (ustatusW, ustatus_AMASK)].
Proof.
  intros F Hr. pose proof (reachable_ok index s0 s F Hr) as H.
  assert (Hview : forall view, 0 <= view -> Z.testbit view 11 = false -> Z.testbit view 12 = false ->
    (forall i, 0 <= i ->
         Z.testbit (RD_CSR (statusW v (Z.land (RD_CSR_MASK s mstatus) view) s) mstatus) i =
         if Z.testbit (RD_CSR_MASK s mstatus) i && Z.testbit view i
         then Z.testbit v i else Z.testbit (RD_CSR s mstatus) i) /\
      (forall n, n <> mstatus ->
         r_csr (statusW v (Z.land (RD_CSR_MASK s mstatus) view) s) n = r_csr s n)).
  { intros view H0 H11 H12. pose proof (hp_mask_range s (proj1 H) mstatus) as Hrg.
    assert (Hm : forall w, 0 <= w -> 0 <= RD_CSR_MASK s mstatus < 2 ^ w ->
                   0 <= Z.land (RD_CSR_MASK s mstatus) view < 2 ^ w)
      by (intros w Hw Hmw; rewrite Z.land_comm; by apply land_range).
    destruct (view_write v (Z.land (RD_CSR_MASK s mstatus) view) s H) as [Hval Hoth].
    - apply Hm; [lia|]. by apply rd_csr_range.
    - intros H32. apply Hm; [lia|]. unfold RD_CSR_MASK. rewrite (hp_xlen32 s (proj1 H)), H32.
      by apply rd_csr_range32.
    - by rewrite Z.land_spec, H11, andb_false_r.
    - by rewrite Z.land_spec, H12, andb_false_r.
    - split; [|done]. intros i Hi. by rewrite Hval, bits_masked, Z.land_spec. }
  repeat constructor; (eexists _, _; split; [reflexivity|]; by apply Hview).
Qed.

(** ** Counters *)

(** The 64-bit value of a counter after a write of one half, or of all of
    it. *)
Definition counter_target (s : riscvS) (old v : Z) (upper : bool) : Z :=
  if upper then setHalf v old 1 else if RISCV_XLEN_IS_32 s then setHalf v old 0 else v.

Lemma wrap_count a b k : w64 (a + 1 + k - w64 (w64 (a - b) + 1)) = w64 (b + k).
Proof.
  unfold wrap. rewrite Zminus_mod, Z.mod_mod, <- Zminus_mod by lia.
  rewrite Zminus_mod, Zplus_mod_idemp_l, <- Zminus_mod. f_equal. lia.
Qed.

Lemma cycle_write_value x st s k :
  r_artifactAccess s = false -> vmirtGetICount st = vmirtGetICount (r_vmi s) + 1 + k ->
  cycleR (upd_vmi st (cycleW x s)) =
  if RD_CSR_FIELD s mcountinhibit counteren_CY =? 0 then w64 (x + k) else x.
Proof.
  intros Ha Hk. unfold cycleR, cycleW. cbv zeta. rewrite Ha.
  change (RD_CSR_FIELD (upd_vmi st (upd_baseCycles ?y s))) with (RD_CSR_FIELD s).
  cbn [r_baseCycles r_vmi upd_vmi upd_baseCycles negb].
  destruct (RD_CSR_FIELD s mcountinhibit counteren_CY =? 0); [|done]. rewrite Hk. apply wrap_count.
Qed.

Lemma instret_write_value x st s k :
  vmirtGetExecutedICount st = vmirtGetExecutedICount (r_vmi s) + 1 + k ->
  instretR (upd_vmi st (instretW x s)) =
  if RD_CSR_FIELD s mcountinhibit counteren_IR =? 0 then w64 (x + k) else x.
Proof.
  intros Hk. unfold instretR, instretW. cbv zeta.
  change (RD_CSR_FIELD (upd_vmi st (upd_baseInstructions ?y s))) with (RD_CSR_FIELD s).
  cbn [r_baseInstructions r_vmi upd_vmi upd_baseInstructions].
  destruct (RD_CSR_FIELD s mcountinhibit counteren_IR =? 0); [|done]. rewrite Hk.
  rewrite <- (wrap_count (vmirtGetExecutedICount (r_vmi s)) x k). f_equal. f_equal. unfold wrap. by rewrite Zplus_mod_idemp_l.
Qed.

Lemma counter_write_eq (read : riscvS -> Z) write num v (upper : bool) s :
  any (Z.shiftl 1 (Z.land num 31)) (getHPMMask s) = true ->
  (if upper then counterhW read write else counterW read write) num v s =
  Some (write (counter_target s (read s) v upper) s, v).
Proof.
  intros Hv.
  assert (Hok : hpmAccessValid num s = Some (s, true))
    by (unfold hpmAccessValid; cbv zeta; rewrite Hv; by destruct (r_artifactAccess s)).
  destruct upper; unfold counterhW, counterW, counter_target; rewrite Hok; cbn [mbind option_bind negb];
    [done|by destruct (RISCV_XLEN_IS_32 s)].
Qed.

(** A write of mcycle or minstret, or on a 32-bit hart of one half of
    them, is what a later read finds.  The instruction that writes is itself
    counted before the write takes effect, so that [k] instructions after it
    the counter has the written value plus [k], modulo 2^64; if the counter
    is inhibited it keeps the value.  The half that is not written keeps what
    the counter held. *)
Theorem counter_roundtrip num v upper s st k :
  any (Z.shiftl 1 (Z.land num 31)) (getHPMMask s) = true -> r_artifactAccess s = false ->
  vmirtGetICount st = vmirtGetICount (r_vmi s) + 1 + k ->
  vmirtGetExecutedICount st = vmirtGetExecutedICount (r_vmi s) + 1 + k ->
  let written read write :=
    (if upper : bool then counterhW read write else counterW read write) num v s in
  exists s1 s2, written cycleR cycleW = Some (s1, v) /\ written instretR instretW = Some (s2, v) /\
    (let x := counter_target s (cycleR s) v upper in
     cycleR (upd_vmi st s1) =
       if RD_CSR_FIELD s mcountinhibit counteren_CY =? 0 then w64 (x + k) else x) /\
    (let x := counter_target s (instretR s) v upper in
     instretR (upd_vmi st s2) =
       if RD_CSR_FIELD s mcountinhibit counteren_IR =? 0 then w64 (x + k) else x).
Proof.
  intros Hv Ha Hc Hi written. unfold written. rewrite !counter_write_eq by done.
  eexists _, _. split; [reflexivity|]. split; [reflexivity|].
  split; [by apply cycle_write_value|by apply instret_write_value].
Qed.

End CsrProps.

(** Clearing all of sstatus leaves MPP alone. *)
Lemma status_views_witness :
  exists s' r, sstatusW 0x100 0 in_user_mode = Some (s', r) /\
    Z.testbit (RD_CSR s' mstatus) 7 = Z.testbit (RD_CSR in_user_mode mstatus) 7.
Proof.
  pose proof (status_views 0 cleared in_user_mode 0x100 0 cleared_fresh in_user_reachable) as H.
  apply Forall_inv in H as (s' & r & He & Hb & _). exists s', r. split; [exact He|].
  rewrite Hb by lia. vm_compute. reflexivity.
Defined.

(** mcycleh of the example hart. *)
Lemma counter_roundtrip_witness :
  exists s1, counterhW cycleR cycleW 0xb80 5 booted = Some (s1, 5) /\
    cycleR (upd_vmi (Toy 0 0 4 []) s1) = 5 * 2 ^ 32 + 3.
Proof.
  destruct (counter_roundtrip 0xb80 5 true booted (Toy 0 0 4 []) 3) as (s1 & s2 & H1 & _ & Hc & _);
    [vm_compute; reflexivity..|].
  exists s1. split; [exact H1|]. rewrite Hc. vm_compute. reflexivity.
Defined.

(** csrrw x5, mscratch, x6 on the example hart. *)
Definition csr_code : VmiCxt :=
  {| vmicxtFetch2Byte a :=
       (if a =? 0 then word (encode (Csr CSRRW 5 6 0x340)) else word (encode (Csr CSRRW 5 6 0x340)) / 2 ^ 16)
         mod 2 ^ 16;
     vmicxtFetch4Byte _ := word (encode (Csr CSRRW 5 6 0x340)) |}.

Lemma csr_instruction_witness :
  exists i' c, riscvDecode (V := list_vmid false) (X := csr_code) (decoder_view booted) 0 slliw_info = Some (tt, i') /\
    riscvMorph (X := csr_code) i' (fun _ => 77) booted = Some (upd_csr c booted, Some (5, 0)) /\
    rd_csr true c mscratch = 77.
Proof.
  destruct (csr_instruction (X := csr_code) (DL := list_vmid_laws false) 0 cleared booted CSRRW 5 6 0
              slliw_info (fun _ => 77) cleared_fresh (reach_new (X := csr_code) 0 cleared booted booted_eq))
    as (i' & c & Hd & He & Hc & _);
    [vm_compute; reflexivity|vm_compute; reflexivity|vm_compute; reflexivity
    |right; vm_compute; reflexivity|lia|lia|vm_compute; reflexivity|].
  assert (Hold : RD_CSR booted mscratch = 0) by (vm_compute; reflexivity). rewrite Hold in He.
  exists i', c. split; [exact Hd|]. split; [exact He|exact Hc].
Defined.
