(* ===== verification/RvVm.v ===== *)
(** * Virtual memory in the OVP processor model

    The address translation of riscvVM.c (src/models/ovp/source/yggdrasill.ga/
    processor/riscv/1.0/model): the page table walks of Sv32, Sv39 and Sv48,
    the TLB with its simulated ASIDs, the mapping of TLB entries into the
    virtual memory domains, the miss handler that the access callbacks of
    riscvExceptions.c call, SFENCE.VMA of riscvMorph.c, and saving and
    restoring the TLB.

    A TLB is a finite map from the address of an entry to the entry; the free
    list, from which only storage is reused, has no counterpart.  The memory
    and range-table functions of the simulator are the class [VmiMem]: a
    walk's read or write includes the callbacks of the model it leads to, and
    a traversal of the range table is the list of the entries it visits.
    [memAccessAttrs] is whether the access is an artifact.  Each C function
    that looks up an entry in Sv32, Sv39 or Sv48 is the same text with other
    constants; the text is [tlbLookupSv] and the constants are its
    arguments. *)

From stdpp Require Import functions gmap.
From S2P Require Import Prelude RvTypes RvTables RvDecode RvHart RvTrap RvPmp RvCsr RvCsrTable.
From S2P Require Import RvPorts RvSystem.

(** ** The simulator's memory functions *)

Class VmiMem `{V : VmiRt} := {
  (** vmirtRead4ByteDomain and vmirtRead8ByteDomain: bytes, domain, address,
      endianness, attributes *)
  vmirtReadDomain : Z -> Z -> Z -> bool -> bool -> riscvS -> riscvS * Z;
  (** vmirtWrite4ByteDomain and vmirtWrite8ByteDomain: bytes, domain, address,
      endianness, value, attributes *)
  vmirtWriteDomain : Z -> Z -> Z -> bool -> Z -> bool -> riscvS -> riscvS;
  (** physical domain, virtual domain, first and last physical address, first
      virtual address, privileges, ASID mask, ASID *)
  vmirtAliasMemoryVM : Z -> Z -> Z -> Z -> Z -> Z -> Z -> Z -> vmiState -> vmiState;
  (** domain, first and last virtual address, ASID mask, ASID *)
  vmirtUnaliasMemoryVM : Z -> Z -> Z -> Z -> Z -> vmiState -> vmiState;
  vmirtIsExecutable : Z -> vmiState -> bool;
  (** vmirtGetFirstRangeEntry and vmirtGetNextRangeEntry: the entries that
      overlap a range, in the order they are returned *)
  range_entries : Z -> Z -> gmap Z tlbEntry -> list Z;
  (** what a walk reads: bytes, domain, address; [None] if it aborts *)
  page_word : Z -> Z -> Z -> vmiState -> option Z;
  (** whether a walk can write there *)
  page_writable : Z -> Z -> Z -> vmiState -> bool;
  (** virtual domain, ASID, address: the physical domain, address and
      privileges an access is given *)
  vm_alias : Z -> Z -> Z -> vmiState -> option (Z * Z * Z)
}.

(** Two states of the simulator in which walks read the same and accesses are
    given the same. *)
Definition same_memory `{VM : VmiMem} (v v' : vmiState) : Prop :=
  (forall n d a, page_word n d a v' = page_word n d a v) /\
  (forall n d a, page_writable n d a v' = page_writable n d a v) /\
  (forall d asid va, vm_alias d asid va v' = vm_alias d asid va v).

(** What the translation code relies on.  A walk's read gives the word there;
    if there is none the abort callback sets PTWBadAddr.  Otherwise it only
    changes the kind of the last access fault and state of the simulator that
    walks and accesses do not depend on: in particular the privileges of the
    PMP domains, which the callbacks fill in as needed.  A write changes the
    word there and no word beside it.  The latest mapping of an address
    decides what an access is given.  A traversal of the range table visits
    every overlapping entry once. *)
Class VmiMemLaws `{V : VmiRt} (VM : VmiMem) := {
  read_effect n d a e at_ s :
    r_PTWActive s = true ->
    exists v af,
      fst (vmirtReadDomain n d a e at_ s) =
        upd_vmi v (upd_AFErrorIn af
          (upd_PTWBadAddr (r_PTWBadAddr s || bool_decide (page_word n d a (r_vmi s) = None)) s)) /\
      same_memory (r_vmi s) v;
  read_value n d a e at_ s w :
    page_word n d a (r_vmi s) = Some w -> snd (vmirtReadDomain n d a e at_ s) = w;
  write_effect n d a e x at_ s :
    r_PTWActive s = true ->
    exists v af,
      vmirtWriteDomain n d a e x at_ s =
        upd_vmi v (upd_AFErrorIn af
          (upd_PTWBadAddr (r_PTWBadAddr s || negb (page_writable n d a (r_vmi s))) s)) /\
      (forall n' d' a', page_writable n' d' a' v = page_writable n' d' a' (r_vmi s)) /\
      (forall d' asid va, vm_alias d' asid va v = vm_alias d' asid va (r_vmi s)) /\
      (if page_writable n d a (r_vmi s)
       then page_word n d a v = Some (wrap (8 * n) x) /\
            forall a', a' + n <= a \/ a + n <= a' -> page_word n d a' v = page_word n d a' (r_vmi s)
       else forall n' d' a', page_word n' d' a' v = page_word n' d' a' (r_vmi s));
  word_range n d a v w : page_word n d a v = Some w -> 0 <= w < 2 ^ (8 * n);
  alias_at dP dV lowPA highPA lowVA priv mask ASID v d asid va :
    vm_alias d asid va (vmirtAliasMemoryVM dP dV lowPA highPA lowVA priv mask ASID v) =
    if (d =? dV) && (lowVA <=? va) && (va <=? lowVA + (highPA - lowPA)) &&
       (Z.land mask asid =? Z.land mask ASID)
    then Some (dP, lowPA + (va - lowVA), priv) else vm_alias d asid va v;
  alias_word dP dV lowPA highPA lowVA priv mask ASID v n d a :
    page_word n d a (vmirtAliasMemoryVM dP dV lowPA highPA lowVA priv mask ASID v) = page_word n d a v;
  alias_writable dP dV lowPA highPA lowVA priv mask ASID v n d a :
    page_writable n d a (vmirtAliasMemoryVM dP dV lowPA highPA lowVA priv mask ASID v) =
    page_writable n d a v;
  unalias_word dV low high mask ASID v n d a :
    page_word n d a (vmirtUnaliasMemoryVM dV low high mask ASID v) = page_word n d a v;
  unalias_writable dV low high mask ASID v n d a :
    page_writable n d a (vmirtUnaliasMemoryVM dV low high mask ASID v) = page_writable n d a v;
  protect_memory d low high p x v : same_memory v (vmirtProtectMemory d low high p x v);
  range_nodup low high t : NoDup (range_entries low high t);
  range_elem low high t id :
    id ∈ range_entries low high t <->
    exists e, t !! id = Some e /\ t_lowVA e <= high /\ low <= t_highVA e;
}.

(** ** Page table walk errors *)

Inductive pteError :=
  | PTEE_VAEXTEND | PTEE_READ | PTEE_WRITE | PTEE_V0 | PTEE_R0W1 | PTEE_LEAF
  | PTEE_ALIGN | PTEE_PRIV | PTEE_A0 | PTEE_D0.

Inductive pteException := PTX_LOAD_ACCESS | PTX_STORE_ACCESS | PTX_PAGE.

(** The exception column of the error table. *)
Definition pte_exception (e : pteError) : pteException :=
  match e with
  | PTEE_READ => PTX_LOAD_ACCESS
  | PTEE_WRITE => PTX_STORE_ACCESS
  | _ => PTX_PAGE
  end.

(** The exception for an error; the message is left out. *)
Definition handlePTWException (requiredPriv : Z) (error : pteError) : Z :=
  match pte_exception error with
  | PTX_LOAD_ACCESS => riscv_E_LoadAccessFault
  | PTX_STORE_ACCESS => riscv_E_StoreAMOAccessFault
  | PTX_PAGE =>
      if requiredPriv =? MEM_PRIV_R then riscv_E_LoadPageFault
      else if requiredPriv =? MEM_PRIV_W then riscv_E_StoreAMOPageFault
      else riscv_E_InstructionPageFault
  end.

(** ** Fields of entries and addresses *)

Definition pte_V (pte : Z) : bool := Z.testbit pte 0.
Definition pte_priv (pte : Z) : Z := field_get (1, 3) pte.
Definition pte_U (pte : Z) : bool := Z.testbit pte 4.
Definition pte_G (pte : Z) : bool := Z.testbit pte 5.
Definition pte_A (pte : Z) : bool := Z.testbit pte 6.
Definition pte_D (pte : Z) : bool := Z.testbit pte 7.
Definition set_A (pte : Z) : Z := Z.setbit pte 6.
Definition set_D (pte : Z) : Z := Z.setbit pte 7.

(** The constants of one translation mode: levels of the table, bits of a VPN
    and of the PPN field, bytes of an entry, bits of an address, and the width
    of VPN, the rest above it being VPNextend. *)
Record svMode := {
  sv_levels : nat;
  sv_vpn_shift : Z;
  sv_ppn_bits : Z;
  sv_bytes : Z;
  sv_va_bits : Z;
  sv_vpn_bits : Z;
}.

(** Sv32VA and Sv32Entry; there is no VPNextend. *)
Definition Sv32 : svMode :=
  {| sv_levels := 2; sv_vpn_shift := 10; sv_ppn_bits := 22; sv_bytes := 4; sv_va_bits := 32;
     sv_vpn_bits := 20 |}.

Definition Sv39 : svMode :=
  {| sv_levels := 3; sv_vpn_shift := 9; sv_ppn_bits := 44; sv_bytes := 8; sv_va_bits := 64;
     sv_vpn_bits := 27 |}.

Definition Sv48 : svMode :=
  {| sv_levels := 4; sv_vpn_shift := 9; sv_ppn_bits := 44; sv_bytes := 8; sv_va_bits := 64;
     sv_vpn_bits := 36 |}.

(** A signed bit field. *)
Definition signed_field (p : Z * Z) (x : Z) : Z :=
  let v := field_get p x in if Z.testbit v (p.2 - 1) then v - 2 ^ p.2 else v.

Definition va_VPN (m : svMode) (VA : Z) : Z := signed_field (12, sv_vpn_bits m) VA.
Definition va_VPNextend (m : svMode) (VA : Z) : Z :=
  signed_field (12 + sv_vpn_bits m, sv_va_bits m - 12 - sv_vpn_bits m) VA.

Definition validVA (VPN VPNextend : Z) : bool :=
  if VPN >=? 0 then VPNextend =? 0 else VPNextend =? -1.

(** getSv32VPNi, getSv39VPNi and getSv48VPNi. *)
Definition getVPNi (m : svMode) (VA : Z) (level : Z) : Z :=
  Z.land (Z.shiftr (va_VPN m VA) (level * sv_vpn_shift m)) (Z.shiftl 1 (sv_vpn_shift m) - 1).

Definition pte_PPN (m : svMode) (pte : Z) : Z := field_get (10, sv_ppn_bits m) pte.

Definition getPTETableAddress (PPN : Z) : Z := w64 (Z.shiftl PPN RISCV_PAGE_SHIFT).

Abbreviation VAM_Sv32 := 1.
Abbreviation VAM_Sv39 := 8.
Abbreviation VAM_Sv48 := 9.

(** ** TLB entries *)

Definition getEntryASID (e : tlbEntry) : Z := w16 (t_simASID e).
Definition getEntryHighPA (e : tlbEntry) : Z := w64 (t_PA e + t_highVA e - t_lowVA e).

(** The word of a riscvSimASID with MXR set, the ASID unless the entry is
    global, and SUM if it is a user entry seen from supervisor mode. *)
Definition getEntryASIDMask (e : tlbEntry) (mode : Z) : Z :=
  Z.lor (Z.shiftl 1 16)
    (Z.lor (if negb (t_G e) then 0xffff else 0)
       (if t_U e && (mode =? RISCV_MODE_SUPERVISOR) then Z.shiftl 1 17 else 0)).

Definition matchASID (ASID : Z) (e : tlbEntry) : bool := t_G e || (ASID =? getEntryASID e).

Definition isFetch (priv : Z) : bool := any priv MEM_PRIV_X.

Definition getModeMask (mode : Z) : Z := Z.shiftl 1 mode.

Definition set_isMapped (v : Z) (e : tlbEntry) : tlbEntry :=
  {| t_lowVA := t_lowVA e; t_highVA := t_highVA e; t_PA := t_PA e; t_simASID := t_simASID e;
     t_isMapped := v; t_priv := t_priv e; t_U := t_U e; t_G := t_G e; t_A := t_A e; t_D := t_D e;
     t_artifact := t_artifact e |}.

Definition set_simASID (v : Z) (e : tlbEntry) : tlbEntry :=
  {| t_lowVA := t_lowVA e; t_highVA := t_highVA e; t_PA := t_PA e; t_simASID := v;
     t_isMapped := t_isMapped e; t_priv := t_priv e; t_U := t_U e; t_G := t_G e; t_A := t_A e;
     t_D := t_D e; t_artifact := t_artifact e |}.

Definition set_artifact (v : bool) (e : tlbEntry) : tlbEntry :=
  {| t_lowVA := t_lowVA e; t_highVA := t_highVA e; t_PA := t_PA e; t_simASID := t_simASID e;
     t_isMapped := t_isMapped e; t_priv := t_priv e; t_U := t_U e; t_G := t_G e; t_A := t_A e;
     t_D := t_D e; t_artifact := v |}.

(** tlbMapInfo. *)
Record tlbMapInfo := { m_lowVA : Z; m_highVA : Z; m_priv : Z }.

Inductive matchMode := MM_ANY | MM_ASID.

Inductive domainType := DT_NONE | DT_PHYS | DT_VIRT | DT_PMP.

Section Vm.

Context `{V : VmiRt} `{VM : !VmiMem} `{CB : !riscvModelCB} `{X : VmiCxt}.
Implicit Types s : riscvS.

(** ** Utilities *)

Definition getG (s : riscvS) (G : bool) : bool := G || (getASIDMask s =? 0).

Definition updatePTEA (s : riscvS) : bool := c_updatePTEA (r_configInfo s).
Definition updatePTED (s : riscvS) : bool := c_updatePTED (r_configInfo s).

Definition getRootTableAddress (s : riscvS) : Z :=
  getPTETableAddress (RD_CSR_FIELD s satp atp_PPN).

Definition checkEntryPermission (s : riscvS) (mode : Z) (e : tlbEntry) (requiredPriv : Z) : Z :=
  let priv := t_priv e in
  let priv := if any priv MEM_PRIV_X && getMXR s then Z.lor priv MEM_PRIV_R else priv in
  let priv :=
    if mode =? RISCV_MODE_USER then if negb (t_U e) then MEM_PRIV_NONE else priv
    else if t_U e then
      if negb (getSUM s) then MEM_PRIV_NONE
      else if RVPV_1_11 <=? c_priv_version (r_configInfo s) then Z.ldiff priv MEM_PRIV_X
      else priv
    else priv in
  if Z.land priv requiredPriv =? requiredPriv then priv else MEM_PRIV_NONE.

Definition getPMPDomainPriv (s : riscvS) (mode priv : Z) : Z :=
  r_pmpDomains s mode (isFetch priv).

Definition getPTWDomain (s : riscvS) : Z :=
  getPMPDomainPriv s RISCV_MODE_SUPERVISOR MEM_PRIV_RW.

Definition readPageTableEntry (domain PTEAddr entryBytes : Z) (attrs : bool) (s : riscvS)
  : riscvS * Z :=
  let s := upd_PTWBadAddr false (upd_PTWActive true s) in
  let '(s, result) := vmirtReadDomain entryBytes domain PTEAddr (r_dendian s) attrs s in
  (upd_PTWActive false s, result).

Definition writePageTableEntry (domain PTEAddr entryBytes : Z) (attrs : bool) (value : Z)
    (s : riscvS) : riscvS :=
  let s := upd_PTWBadAddr false (upd_PTWActive true s) in
  let s := if r_artifactAccess s then s
           else vmirtWriteDomain entryBytes domain PTEAddr (r_dendian s) value attrs s in
  upd_PTWActive false s.

(** ** Page table walk *)

(** The loop over the levels [n-1] down to 0 from the table at [a]: an error,
    or the level, the entry and its address where the loop is left by
    break. *)
Fixpoint walk (m : svMode) (domain VA : Z) (attrs : bool) (n : nat) (a : Z) (s : riscvS)
  : riscvS * (pteError + Z * Z * Z) :=
  match n with
  | O => (s, inl PTEE_LEAF)
  | S n =>
      let i := Z.of_nat n in
      let PTEAddr := w64 (a + getVPNi m VA i * sv_bytes m) in
      let '(s, PTE) := readPageTableEntry domain PTEAddr (sv_bytes m) attrs s in
      if r_PTWBadAddr s then (s, inl PTEE_READ)
      else if negb (pte_V PTE) then (s, inl PTEE_V0)
      else if Z.land (pte_priv PTE) MEM_PRIV_RW =? MEM_PRIV_W then (s, inl PTEE_R0W1)
      else if negb (pte_priv PTE =? 0) then (s, inr (i, PTE, PTEAddr))
      else walk m domain VA attrs n (getPTETableAddress (pte_PPN m PTE)) s
  end.

(** The entry filled from the leaf at level [i]. *)
Definition fill_entry (m : svMode) (s : riscvS) (VA i PTE : Z) (entry : tlbEntry) : tlbEntry :=
  let size := Z.shiftl 1 (i * sv_vpn_shift m + RISCV_PAGE_SHIFT) in
  let lowVA := Z.land VA (wrap (sv_va_bits m) (- size)) in
  {| t_lowVA := lowVA; t_highVA := w64 (lowVA + size - 1);
     t_PA := getPTETableAddress (pte_PPN m PTE); t_simASID := t_simASID entry;
     t_isMapped := t_isMapped entry; t_priv := pte_priv PTE; t_U := pte_U PTE;
     t_G := getG s (pte_G PTE); t_A := pte_A PTE; t_D := pte_D PTE;
     t_artifact := t_artifact entry |}.

(** The update of the A and D bits: an error, or the new bits and whether
    the entry has changed. *)
Definition update_bits (s : riscvS) (requiredPriv PTE : Z) : pteError + Z * bool :=
  let a :=
    if pte_A PTE then inr (PTE, false)
    else if negb (updatePTEA s) then inl PTEE_A0
    else inr (set_A PTE, true) in
  match a with
  | inl error => inl error
  | inr (PTE, doWrite) =>
      if pte_D PTE || negb (any requiredPriv MEM_PRIV_W) then inr (PTE, doWrite)
      else if negb (updatePTED s) then inl PTEE_D0
      else inr (set_D PTE, true)
  end.

Definition set_AD (PTE : Z) (e : tlbEntry) : tlbEntry :=
  {| t_lowVA := t_lowVA e; t_highVA := t_highVA e; t_PA := t_PA e; t_simASID := t_simASID e;
     t_isMapped := t_isMapped e; t_priv := t_priv e; t_U := t_U e; t_G := t_G e;
     t_A := pte_A PTE; t_D := pte_D PTE; t_artifact := t_artifact e |}.

(** tlbLookupSv32, tlbLookupSv39 and tlbLookupSv48: the exception, or the
    entry filled in. *)
Definition tlbLookupSv (m : svMode) (mode : Z) (entry : tlbEntry) (requiredPriv : Z)
    (attrs : bool) (s : riscvS) : riscvS * (Z + tlbEntry) :=
  let PTE_ERROR s code := (s, inl (handlePTWException requiredPriv code)) in
  let domain := getPTWDomain s in
  let VA := wrap (sv_va_bits m) (t_lowVA entry) in
  if negb (validVA (va_VPN m VA) (va_VPNextend m VA)) && (sv_va_bits m =? 64)
  then PTE_ERROR s PTEE_VAEXTEND
  else
    let VA := Z.ldiff VA (Z.ones 12) in
    let '(s, r) := walk m domain VA attrs (sv_levels m) (getRootTableAddress s) s in
    match r with
    | inl error => PTE_ERROR s error
    | inr (i, PTE, PTEAddr) =>
        let PA := getPTETableAddress (pte_PPN m PTE) in
        let size := Z.shiftl 1 (i * sv_vpn_shift m + RISCV_PAGE_SHIFT) in
        if any PA (size - 1) then PTE_ERROR s PTEE_ALIGN
        else
          let entry := fill_entry m s VA i PTE entry in
          if checkEntryPermission s mode entry requiredPriv =? MEM_PRIV_NONE
          then PTE_ERROR s PTEE_PRIV
          else
            match update_bits s requiredPriv PTE with
            | inl error => PTE_ERROR s error
            | inr (PTE, doWrite) =>
                let entry := set_AD PTE entry in
                if doWrite then
                  let s := writePageTableEntry domain PTEAddr (sv_bytes m) attrs PTE s in
                  if r_PTWBadAddr s then PTE_ERROR s PTEE_WRITE else (s, inr entry)
                else (s, inr entry)
            end
    end.

Definition tlbLookupSv32 := tlbLookupSv Sv32.
Definition tlbLookupSv39 := tlbLookupSv Sv39.
Definition tlbLookupSv48 := tlbLookupSv Sv48.

(** [None] is VMI_ABORT. *)
Definition tlbLookup (mode : Z) (entry : tlbEntry) (requiredPriv : Z) (attrs : bool) (s : riscvS)
  : option (riscvS * (Z + tlbEntry)) :=
  let vaMode := RD_CSR_FIELD s satp atp_MODE in
  if vaMode =? VAM_Sv32 then Some (tlbLookupSv32 mode entry requiredPriv attrs s)
  else if vaMode =? VAM_Sv39 then Some (tlbLookupSv39 mode entry requiredPriv attrs s)
  else if vaMode =? VAM_Sv48 then Some (tlbLookupSv48 mode entry requiredPriv attrs s)
  else None.

(** ** TLB management *)

(** An operation on the table of entries, if there is one. *)
Definition with_tlb (f : gmap Z tlbEntry -> gmap Z tlbEntry) (s : riscvS) : riscvS :=
  upd_tlb (f <$> r_tlb s) s.

Definition tlb_entry (s : riscvS) (id : Z) : option tlbEntry := t ← r_tlb s; t !! id.

Definition deleteTLBEntryMappingsMode (e : tlbEntry) (mode : Z) (s : riscvS) : riscvS * tlbEntry :=
  let modeMask := getModeMask mode in
  if any (t_isMapped e) modeMask then
    let dataDomain := r_vmDomains s mode false in
    let codeDomain := r_vmDomains s mode true in
    let unalias d s :=
      upd_vmi (vmirtUnaliasMemoryVM d (t_lowVA e) (t_highVA e) (getEntryASIDMask e mode)
                 (t_simASID e) (r_vmi s)) s in
    let s := if negb (dataDomain =? 0) then unalias dataDomain s else s in
    let s := if negb (codeDomain =? 0) && negb (codeDomain =? dataDomain)
             then unalias codeDomain s else s in
    (s, set_isMapped (Z.ldiff (t_isMapped e) modeMask) e)
  else (s, e).

(** [for(mode=0; mode<RISCV_MODE_LAST; mode++)]. *)
Definition each_mode (f : Z -> riscvS * tlbEntry -> riscvS * tlbEntry) (p : riscvS * tlbEntry)
  : riscvS * tlbEntry := fold_left (fun p mode => f mode p) (indices 0 4) p.

Definition unmapTLBEntry (e : tlbEntry) (s : riscvS) : riscvS * tlbEntry :=
  each_mode (fun mode '(s, e) => deleteTLBEntryMappingsMode e mode s) (s, e).

Definition unmapTLBEntryNewASID (e : tlbEntry) (newASID : Z) (s : riscvS) : riscvS * tlbEntry :=
  each_mode (fun mode '(s, e) =>
    let ASIDMask := getEntryASIDMask e mode in
    let oldASIDU32 := Z.land ASIDMask (t_simASID e) in
    let newASIDU32 := Z.land ASIDMask newASID in
    if negb (oldASIDU32 =? newASIDU32) then deleteTLBEntryMappingsMode e mode s else (s, e)) (s, e).

Definition deleteTLBEntry (id : Z) (e : tlbEntry) (s : riscvS) : riscvS :=
  let s := if negb (t_isMapped e =? 0) then fst (unmapTLBEntry e s) else s in
  with_tlb (delete id) s.

Definition deleteTLBEntryMode (id : Z) (e : tlbEntry) (mode : matchMode) (ASID : Z) (s : riscvS)
  : riscvS :=
  let delete :=
    match mode with
    | MM_ANY => true
    | MM_ASID => if getASIDMask s =? 0 then true else negb (t_G e) && matchASID ASID e
    end in
  if delete then deleteTLBEntry id e s else s.

(** newTLBEntry: an address that no entry of the table has. *)
Definition newTLBEntry (t : gmap Z tlbEntry) : Z := 1 + map_fold (fun id _ m => Z.max id m) 0 t.

(** The address of the new entry, and the entry. *)
Definition allocateTLBEntry (base : tlbEntry) (s : riscvS) : riscvS * (Z * tlbEntry) :=
  let id := newTLBEntry (default ∅ (r_tlb s)) in
  let entry := set_artifact (r_artifactAccess s) base in
  (with_tlb <[id := entry]> s, (id, entry)).

(** ITER_TLB_ENTRY_RANGE over the given entries, with getTLBEntryForRange:
    artifact entries are deleted; a body that gives a result ends the loop. *)
Fixpoint iter_entries {A} (body : Z -> tlbEntry -> riscvS -> riscvS * option A) (ids : list Z)
    (s : riscvS) : riscvS * option A :=
  match ids with
  | [] => (s, None)
  | id :: ids =>
      match tlb_entry s id with
      | None => iter_entries body ids s
      | Some e =>
          if t_artifact e then iter_entries body ids (deleteTLBEntry id e s)
          else
            match body id e s with
            | (s, None) => iter_entries body ids s
            | (s, Some r) => (s, Some r)
            end
      end
  end.

Definition invalidateTLBEntriesRange (lowVA highVA : Z) (mode : matchMode) (ASID : Z) (s : riscvS)
  : riscvS :=
  match r_tlb s with
  | None => s
  | Some t =>
      fst (iter_entries (fun id e s => (deleteTLBEntryMode id e mode ASID s, @None unit))
             (range_entries lowVA highVA t) s)
  end.

(** [None] is a null pointer dereference. *)
Definition findTLBEntry (VA : Z) (s : riscvS) : option (riscvS * option (Z * tlbEntry)) :=
  let ASID := getActiveASID s in
  t ← r_tlb s;
  Some (iter_entries (fun id e s => (s, if matchASID ASID e then Some (id, e) else None))
          (range_entries VA VA t) s).

Definition initialEntry (VA : Z) : tlbEntry :=
  {| t_lowVA := VA; t_highVA := 0; t_PA := 0; t_simASID := 0; t_isMapped := 0; t_priv := 0;
     t_U := false; t_G := false; t_A := false; t_D := false; t_artifact := false |}.

Definition handleInvalidAccess (VA : Z) (attrs : bool) (exception : Z) (s : riscvS)
  : option riscvS :=
  if negb attrs then riscvTakeMemoryException exception VA s else Some s.

(** The entry, unless it must not be used, and [miP->priv]. *)
Definition validateTLBEntryPriv (mode : Z) (entry : option (Z * tlbEntry)) (requiredPriv miPriv : Z)
    (s : riscvS) : riscvS * option (Z * tlbEntry) * Z :=
  match entry with
  | None => (s, None, miPriv)
  | Some (id, e) =>
      let priv := checkEntryPermission s mode e requiredPriv in
      if priv =? MEM_PRIV_NONE then (s, None, miPriv)
      else if any requiredPriv MEM_PRIV_W && negb (t_D e) then
        (deleteTLBEntry id e s, None, miPriv)
      else (s, Some (id, e), if negb (t_D e) then Z.ldiff priv MEM_PRIV_W else priv)
  end.

Definition findOrCreateTLBEntry (mode : Z) (attrs : bool) (mi : tlbMapInfo) (s : riscvS)
  : option (riscvS * option (Z * tlbEntry) * Z) :=
  let VA := m_lowVA mi in
  let requiredPriv := m_priv mi in
  found ← findTLBEntry VA s;
  let '(s, entry) := found in
  let '(s, entry, miPriv) := validateTLBEntryPriv mode entry requiredPriv (m_priv mi) s in
  match entry with
  | Some p => Some (s, Some p, miPriv)
  | None =>
      looked ← tlbLookup mode (initialEntry VA) requiredPriv attrs s;
      match looked with
      | (s, inl exception) => s ← handleInvalidAccess VA attrs exception s; Some (s, None, miPriv)
      | (s, inr tmp) =>
          let '(s, entry) := allocateTLBEntry tmp s in
          Some (validateTLBEntryPriv mode (Some entry) requiredPriv miPriv s)
      end
  end.

(** ** Mapping *)

(** The size of a mapping is limited to 4 Gb.  One iteration of mapPMP for
    each byte of the range is enough. *)
Definition mapTLBEntry (e : tlbEntry) (domainV mode requiredPriv : Z) (mi : tlbMapInfo) (s : riscvS)
  : option (riscvS * tlbEntry * tlbMapInfo) :=
  let domainP := getPMPDomainPriv s mode requiredPriv in
  let lowPA := t_PA e in
  let highPA := getEntryHighPA e in
  let lowVA := t_lowVA e in
  let ASIDMask := getEntryASIDMask e mode in
  let size := w64 (highPA - lowPA + 1) in
  let vmiPageMax := 0x100000000 in
  let '(size, lowVA, lowPA, highPA) :=
    if size >? vmiPageMax then
      let VAtoPA := w64 (lowPA - lowVA) in
      let lowVA := Z.land (m_lowVA mi) (w64 (- vmiPageMax)) in
      let lowPA := w64 (lowVA + VAtoPA) in
      (vmiPageMax, lowVA, lowPA, w64 (lowPA + vmiPageMax - 1))
    else (size, lowVA, lowPA, highPA) in
  let s := upd_vmi (vmirtAliasMemoryVM domainP domainV lowPA highPA lowVA (m_priv mi) ASIDMask
                      (t_simASID e) (r_vmi s)) s in
  s ← mapPMP (Z.to_nat (highPA - lowPA + 1)) mode requiredPriv lowPA highPA s;
  Some (s, set_isMapped (Z.lor (t_isMapped e) (getModeMask mode)) e,
        {| m_lowVA := lowVA; m_highVA := w64 (lowVA + size - 1); m_priv := m_priv mi |}).

(** Whether the mapping failed; [mi] gives the address and the privilege. *)
Definition tlbMiss (domain mode : Z) (mi : tlbMapInfo) (attrs : bool) (s : riscvS)
  : option (riscvS * bool * tlbMapInfo) :=
  let requiredPriv := m_priv mi in
  found ← findOrCreateTLBEntry mode attrs mi s;
  let '(s, entry, miPriv) := found in
  let mi := {| m_lowVA := m_lowVA mi; m_highVA := m_highVA mi; m_priv := miPriv |} in
  match entry with
  | None => Some (s, true, mi)
  | Some (id, e) =>
      let simASID := getSimASID s in
      let '(s, e) := unmapTLBEntryNewASID e simASID s in
      let e := set_simASID simASID e in
      mapped ← mapTLBEntry e domain mode requiredPriv mi s;
      let '(s, e, mi) := mapped in
      Some (with_tlb <[id := e]> s, false, mi)
  end.

(** ** Public functions *)

Definition getDomainType (s : riscvS) (domain mode : Z) (isCode : bool) : domainType :=
  if domain =? r_physDomains s mode isCode then DT_PHYS
  else if domain =? r_vmDomains s mode isCode then DT_VIRT
  else if domain =? r_pmpDomains s mode isCode then DT_PMP
  else DT_NONE.

(** The first match of the nested loops over [isCode] and, from
    [RISCV_MODE_LAST-1] down, [mode]. *)
Definition accessed_domain (s : riscvS) (domain : Z) : option (domainType * Z) :=
  let try_ p :=
    match getDomainType s domain p.2 p.1 with DT_NONE => None | dt => Some (dt, p.2) end in
  head (omap try_
    [(false, 3); (false, 2); (false, 1); (false, 0); (true, 3); (true, 2); (true, 1); (true, 0)]).

(** The do loop over the pages of an access; each iteration handles at least
    the byte at [mi.highVA+1]. *)
Fixpoint map_pages (fuel : nat) (domain mode requiredPriv lastVA highVA : Z) (attrs : bool)
    (s : riscvS) : option (riscvS * bool) :=
  match fuel with
  | O => None
  | S fuel =>
      let mi := {| m_lowVA := w64 (highVA + 1); m_highVA := lastVA; m_priv := requiredPriv |} in
      r ← tlbMiss domain mode mi attrs s;
      let '(s, miss, mi) := r in
      if negb miss && ((lastVA <? m_lowVA mi) || (lastVA >? m_highVA mi))
      then map_pages fuel domain mode requiredPriv lastVA (m_highVA mi) attrs s
      else Some (s, miss)
  end.

Definition riscvVMMiss (domain requiredPriv address bytes : Z) (attrs : bool) (s : riscvS)
  : option (riscvS * bool) :=
  let s := upd_AFErrorIn riscv_AFault_Bus s in
  match accessed_domain s domain with
  | None => Some (s, false)
  | Some (DT_VIRT, mode) =>
      map_pages (Z.to_nat bytes) domain mode requiredPriv (w64 (address + bytes - 1))
        (w64 (address - 1)) attrs s
  | Some (_, mode) =>
      s ← mapPMP (Z.to_nat bytes) mode requiredPriv address (w64 (address + bytes - 1)) s;
      Some (s, false)
  end.

(** The ASID is cut to the field of satp and then to the implemented bits. *)
Definition maskASID (s : riscvS) (ASID : Z) : Z :=
  let width := if bool_decide (riscvGetXlenArch s = Some 32) then (fields32 atp_ASID).2
               else (fields64 atp_ASID).2 in
  Z.land (Z.land ASID (Z.ones width)) (getASIDMask s).

Abbreviation RISCV_MAX_ADDR := (w64 (-1)).

Definition riscvVMInvalidateAll (s : riscvS) : riscvS :=
  invalidateTLBEntriesRange 0 RISCV_MAX_ADDR MM_ANY 0 s.

Definition riscvVMInvalidateAllASID (ASID : Z) (s : riscvS) : riscvS :=
  invalidateTLBEntriesRange 0 RISCV_MAX_ADDR MM_ASID (maskASID s ASID) s.

Definition riscvVMInvalidateVA (VA : Z) (s : riscvS) : riscvS :=
  invalidateTLBEntriesRange VA VA MM_ANY 0 s.

Definition riscvVMInvalidateVAASID (VA ASID : Z) (s : riscvS) : riscvS :=
  invalidateTLBEntriesRange VA VA MM_ASID (maskASID s ASID) s.

(** ** Access callbacks *)

(** The result is whether the access continues (VMI_LOAD_STORE_CONTINUE). *)
Definition riscvRdPrivExcept (domain address bytes : Z) (attrs : bool) (s : riscvS)
  : option (riscvS * bool) :=
  r ← riscvVMMiss domain MEM_PRIV_R address bytes attrs s; Some (fst r, negb (snd r)).

Definition riscvWrPrivExcept (domain address bytes : Z) (attrs : bool) (s : riscvS)
  : option (riscvS * bool) :=
  r ← riscvVMMiss domain MEM_PRIV_W address bytes attrs s; Some (fst r, negb (snd r)).

(** [complete] is whether the fetch is carried out or only tried. *)
Definition validateFetchAddressInt (domain thisPC : Z) (complete : bool) (s : riscvS)
  : option (riscvS * bool) :=
  let attrs := negb complete in
  if vmirtIsExecutable thisPC (r_vmi s) then Some (s, true)
  else
    r ← riscvVMMiss domain MEM_PRIV_X thisPC 2 attrs s;
    let '(s, miss) := r in
    if (miss : bool) then Some (s, false)
    else if negb (vmirtIsExecutable thisPC (r_vmi s)) then
      s ← (if complete then riscvTakeException riscv_E_InstructionAccessFault thisPC s else Some s);
      Some (s, false)
    else Some (s, true).

Definition validateFetchAddress (domain thisPC : Z) (complete : bool) (s : riscvS)
  : option (riscvS * bool) :=
  r ← validateFetchAddressInt domain thisPC complete s;
  let '(s, ok) := r in
  if negb ok then Some (s, false)
  else
    if riscvGetInstructionSize (decoder_view s) thisPC <=? 2 then Some (s, true)
    else
      r ← validateFetchAddressInt domain (w64 (thisPC + 2)) complete s;
      let '(s, ok) := r in
      if negb ok then Some (s, false) else Some (s, true).

(** ** SFENCE.VMA *)

Definition emitSFENCE_VMA (i : riscvInstrInfo) (x : Z -> Z) (s : riscvS) : option riscvS :=
  vaddr ← riscvGetVMIReg s (i_r0 i);
  asid ← riscvGetVMIReg s (i_r1 i);
  let bits := getRBits (i_r0 i) in
  if negb (fst vaddr) || negb (fst asid) then riscvIllegalInstruction s
  else if negb (checkHaveSModeMT s) then riscvIllegalInstruction s
  else if negb (requireModeMT s RISCV_MODE_SUPERVISOR) then riscvIllegalInstruction s
  else if emitTrapInstructionMask s status_TVM then riscvIllegalInstruction s
  else
    Some (match snd vaddr, snd asid with
          | None, None => riscvVMInvalidateAll s
          | None, Some a => riscvVMInvalidateAllASID (w32 (x a)) s
          | Some v, None => riscvVMInvalidateVA (wrap bits (x v)) s
          | Some v, Some a => riscvVMInvalidateVAASID (wrap bits (x v)) (w32 (x a)) s
          end).

(** ** Save and restore *)

(** The elements written: vmirtSaveElement appends one. *)
Definition saveTLBEntry (e : tlbEntry) : tlbEntry := set_isMapped 0 e.

Definition saveTLB (s : riscvS) : riscvS * list tlbEntry :=
  match r_tlb s with
  | None => (s, [])
  | Some t =>
      fold_left (fun '(s, out) id =>
        match tlb_entry s id with
        | None => (s, out)
        | Some e => if t_artifact e then (deleteTLBEntry id e s, out) else (s, out ++ [saveTLBEntry e])
        end) (range_entries 0 RISCV_MAX_ADDR t) (s, [])
  end.

Definition restoreTLBEntry (new : tlbEntry) (s : riscvS) : riscvS :=
  with_tlb <[newTLBEntry (default ∅ (r_tlb s)) := new]> s.

Definition restoreVM (elements : list tlbEntry) (s : riscvS) : riscvS :=
  match r_tlb s with
  | None => s
  | Some _ =>
      fold_left (fun s new => restoreTLBEntry new s) elements
        (invalidateTLBEntriesRange 0 RISCV_MAX_ADDR MM_ANY 0 s)
  end.

End Vm.
