(* ===== verification/RvVmRef.v ===== *)
(** * The address translation of the privileged architecture

    The virtual address translation process of the RISC-V privileged
    architecture, for any number of levels, over a memory that gives the
    entry at an address or nothing; and the arithmetic that connects its
    steps with the bit fields, masks and tests of the model's page table
    walk. *)

From S2P Require Import Prelude RvTypes RvHart RvHartFacts RvTrapFacts RvTrap RvPmp RvVm.

(** ** The reference *)

Inductive fault := PageFault | ReadFault | WriteFault.

(** The exception raised for a fault of an access. *)
Definition fault_code (req : Z) (f : fault) : Z :=
  match f with
  | ReadFault => riscv_E_LoadAccessFault
  | WriteFault => riscv_E_StoreAMOAccessFault
  | PageFault =>
      if req =? MEM_PRIV_R then riscv_E_LoadPageFault
      else if req =? MEM_PRIV_W then riscv_E_StoreAMOPageFault
      else riscv_E_InstructionPageFault
  end.

(** The kinds of access. *)
Definition is_access (req : Z) : Prop := req = MEM_PRIV_R \/ req = MEM_PRIV_W \/ req = MEM_PRIV_X.

Definition bit_R (pte : Z) : bool := Z.testbit pte 1.
Definition bit_W (pte : Z) : bool := Z.testbit pte 2.
Definition bit_X (pte : Z) : bool := Z.testbit pte 3.

Section Reference.

Context (m : svMode).

(** Bits of the offset in a page at level [i]. *)
Definition page_bits (i : Z) : Z := 12 + i * sv_vpn_shift m.

(** va.vpn[i] and pte.ppn. *)
Definition vpn (va i : Z) : Z := va / 2 ^ page_bits i mod 2 ^ sv_vpn_shift m.
Definition ppn (pte : Z) : Z := pte / 2 ^ 10 mod 2 ^ sv_ppn_bits m.

(** Steps 2 to 4: from the table at [a] with [n] levels left, the level, the
    leaf entry and its address. *)
Fixpoint ref_walk (mem : Z -> option Z) (va : Z) (n : nat) (a : Z) : fault + Z * Z * Z :=
  match n with
  | O => inl PageFault
  | S n =>
      let addr := a + vpn va (Z.of_nat n) * sv_bytes m in
      match mem addr with
      | None => inl ReadFault
      | Some pte =>
          if negb (pte_V pte) || (negb (bit_R pte) && bit_W pte) then inl PageFault
          else if bit_R pte || bit_X pte then inr (Z.of_nat n, pte, addr)
          else ref_walk mem va n (ppn pte * 2 ^ 12)
      end
  end.

(** A 64-bit virtual address is the sign extension of its low part. *)
Definition canonical (va : Z) : bool :=
  (sv_va_bits m <? 64) ||
  (let top := va / 2 ^ (11 + sv_vpn_bits m) in
   (top =? 0) || (top =? 2 ^ (53 - sv_vpn_bits m) - 1)).

(** Step 6: a superpage is aligned to its size. *)
Definition aligned (i pte : Z) : bool := ppn pte mod 2 ^ (i * sv_vpn_shift m) =? 0.

(** Step 8: the page number of the leaf above the offset of the address. *)
Definition physical (va i pte : Z) : Z :=
  ppn pte / 2 ^ (i * sv_vpn_shift m) * 2 ^ page_bits i + va mod 2 ^ page_bits i.

(** Canonical addresses with an aligned leaf. *)
Definition ref_leaf (mem : Z -> option Z) (root va : Z) : fault + Z * Z * Z :=
  if negb (canonical va) then inl PageFault
  else
    match ref_walk mem va (sv_levels m) root with
    | inl f => inl f
    | inr (i, pte, addr) => if aligned i pte then inr (i, pte, addr) else inl PageFault
    end.

End Reference.

(** Step 5: what mstatus and the mode allow. *)
Definition ref_allowed (mxr sum v11 : bool) (mode req pte : Z) : bool :=
  (if req =? MEM_PRIV_R then bit_R pte || (mxr && bit_X pte)
   else if req =? MEM_PRIV_W then bit_W pte else bit_X pte) &&
  (if mode =? RISCV_MODE_USER then pte_U pte
   else negb (pte_U pte) || (sum && negb (v11 && (req =? MEM_PRIV_X)))).

(** Step 7: the entry with the accessed and dirty bits that the access
    needs, if they are set or the hardware sets them. *)
Definition ref_update (hwA hwD : bool) (req pte : Z) : option Z :=
  let needA := negb (pte_A pte) in
  let needD := (req =? MEM_PRIV_W) && negb (pte_D pte) in
  if (needA && negb hwA) || (needD && negb hwD) then None
  else
    let pte := if needA then set_A pte else pte in
    Some (if needD then set_D pte else pte).

(** ** Arithmetic of the fields *)

Record sv_ok (m : svMode) : Prop := {
  sk_levels : 0 < Z.of_nat (sv_levels m);
  sk_shift : 0 < sv_vpn_shift m <= 10;
  sk_vpn : sv_vpn_bits m = Z.of_nat (sv_levels m) * sv_vpn_shift m;
  sk_va : 12 + sv_vpn_bits m <= sv_va_bits m <= 64;
  sk_ext : sv_va_bits m = 64 -> sv_vpn_bits m < 52;
  sk_ppn : 0 < sv_ppn_bits m <= 44;
  sk_bytes : 0 < sv_bytes m <= 8;
  sk_pages : 2 ^ sv_vpn_shift m * sv_bytes m = 2 ^ 12;
}.

Lemma Sv32_ok : sv_ok Sv32. Proof. by split. Qed.
Lemma Sv39_ok : sv_ok Sv39. Proof. by split. Qed.
Lemma Sv48_ok : sv_ok Sv48. Proof. by split. Qed.

Lemma field_get_div p x : 0 <= p.1 -> 0 <= p.2 -> field_get p x = x / 2 ^ p.1 mod 2 ^ p.2.
Proof. intros. unfold field_get. by rewrite Z.land_ones, Z.shiftr_div_pow2. Qed.

(** Low bits of a number do not change when a multiple is taken away. *)
Lemma signed_mod p x k :
  0 <= p.1 -> 0 < p.2 -> 0 <= k <= p.2 -> signed_field p x mod 2 ^ k = x / 2 ^ p.1 mod 2 ^ k.
Proof.
  intros H1 H2 Hk. unfold signed_field. rewrite field_get_div by lia.
  set (y := x / 2 ^ p.1).
  assert (Hp : 2 ^ p.2 = 2 ^ (p.2 - k) * 2 ^ k) by (rewrite <- Z.pow_add_r by lia; f_equal; lia).
  assert (Hy : (y mod 2 ^ p.2) mod 2 ^ k = y mod 2 ^ k).
  { rewrite Hp. rewrite Z.mul_comm, Z.rem_mul_r by (pose proof (pow2_pos k); pose proof (pow2_pos (p.2 - k)); lia).
    rewrite (Z.mul_comm (2 ^ k)), Z.mod_add, Z.mod_mod; pose proof (pow2_pos k); lia. }
  case_match; [|done]. rewrite Hp at 2. rewrite Zminus_mod, Z.mod_mul, Z.sub_0_r, Z.mod_mod
    by (pose proof (pow2_pos k); lia). done.
Qed.

Lemma ldiff_page va i : 0 <= i -> Z.testbit (Z.ldiff va (Z.ones 12)) i = (12 <=? i) && Z.testbit va i.
Proof.
  intros Hi. rewrite Z.ldiff_spec.
  destruct (Z.leb_spec 12 i).
  - rewrite Z.ones_spec_high by lia. by rewrite andb_true_r.
  - rewrite Z.ones_spec_low by lia. by rewrite andb_false_r.
Qed.

Section Arith.

Context (m : svMode) (H : sv_ok m).

Lemma page_bits_range i : 0 <= i < Z.of_nat (sv_levels m) -> 12 <= page_bits m i < 64.
Proof. intros Hi. destruct H. unfold page_bits. nia. Qed.

(** The page offset of the address plays no part in its page numbers. *)
Lemma vpn_eq va i :
  0 <= va -> 0 <= i < Z.of_nat (sv_levels m) -> getVPNi m (Z.ldiff va (Z.ones 12)) i = vpn m va i.
Proof.
  intros Hva Hi. unfold getVPNi, vpn. pose proof (page_bits_range i Hi) as Hp. pose proof H as [].
  rewrite Z.shiftl_1_l. change (2 ^ sv_vpn_shift m - 1) with (Z.pred (2 ^ sv_vpn_shift m)).
  rewrite <- Z.ones_equiv, Z.land_ones, Z.shiftr_div_pow2 by nia.
  rewrite (div_mod_pow (va_VPN m _)) by nia. unfold va_VPN.
  rewrite signed_mod by (simpl; nia). cbn [fst snd].
  set (k := i * sv_vpn_shift m + sv_vpn_shift m).
  assert (Hd : Z.ldiff va (Z.ones 12) / 2 ^ 12 = va / 2 ^ 12).
  { apply Z.bits_inj'. intros j Hj. rewrite !Z.div_pow2_bits, ldiff_page by lia.
    by replace (12 <=? j + 12) with true by lia. }
  rewrite Hd. unfold k. rewrite <- div_mod_pow by nia.
  rewrite Z.div_div by (pose proof (pow2_pos (i * sv_vpn_shift m)); lia || nia).
  rewrite <- Z.pow_add_r by nia. done.
Qed.

Lemma ppn_eq pte : pte_PPN m pte = ppn m pte.
Proof. unfold pte_PPN, ppn. destruct H. by rewrite field_get_div by (simpl; lia). Qed.

Lemma ppn_range pte : 0 <= ppn m pte < 2 ^ 44.
Proof.
  destruct H. unfold ppn. pose proof (pow2_pos (sv_ppn_bits m)).
  pose proof (Z.mod_pos_bound (pte / 2 ^ 10) (2 ^ sv_ppn_bits m)).
  pose proof (Z.pow_le_mono_r 2 (sv_ppn_bits m) 44). lia.
Qed.

Lemma table_eq p : 0 <= p < 2 ^ 44 -> getPTETableAddress p = p * 2 ^ 12.
Proof.
  intros Hp. unfold getPTETableAddress. rewrite shiftl_mul by lia. apply wrap_small. lia.
Qed.

Lemma vpn_range va i : 0 <= vpn m va i < 2 ^ sv_vpn_shift m.
Proof. destruct H. apply Z.mod_pos_bound, pow2_pos. lia. Qed.

(** The address of an entry. *)
Lemma pte_addr a va i :
  0 <= a < 2 ^ 56 -> w64 (a + vpn m va i * sv_bytes m) = a + vpn m va i * sv_bytes m.
Proof.
  intros Ha. pose proof (vpn_range va i). destruct H. apply wrap_small. nia.
Qed.

Lemma valid_eq va :
  0 <= va < 2 ^ sv_va_bits m ->
  negb (validVA (va_VPN m va) (va_VPNextend m va)) && (sv_va_bits m =? 64) = negb (canonical m va).
Proof.
  intros Hva. unfold canonical. pose proof H as [].
  destruct (Z.eqb_spec (sv_va_bits m) 64) as [E|].
  2: { replace (sv_va_bits m <? 64) with true by lia. by rewrite andb_false_r. }
  replace (sv_va_bits m <? 64) with false by lia. cbn [orb]. rewrite andb_true_r, E in *. f_equal.
  specialize (sk_ext0 eq_refl). set (b := sv_vpn_bits m) in *.
  assert (Hb : 0 < b) by nia. set (n := 52 - b). assert (Hn : 0 < n) by lia.
  set (top := va / 2 ^ (11 + b)). set (e := va / 2 ^ (12 + b)).
  assert (Htop : top = 2 * e + Z.b2z (Z.testbit va (11 + b))).
  { unfold e, top. replace (12 + b) with ((11 + b) + 1) by lia.
    rewrite (Z.pow_add_r 2 (11 + b) 1), <- Z.div_div by (pose proof (pow2_pos (11 + b)); lia).
    rewrite Z.testbit_spec' by lia. change (2 ^ 1) with 2. pose proof (Z.div_mod (va / 2 ^ (11 + b)) 2 ltac:(lia)). lia. }
  assert (He : 0 <= e < 2 ^ n).
  { pose proof (pow2_pos (12 + b)). split; [apply Z.div_pos; lia|].
    apply Z.div_lt_upper_bound; [lia|]. rewrite <- Z.pow_add_r by lia.
    replace (12 + b + n) with 64 by lia. lia. }
  assert (Hvpn : (va_VPN m va >=? 0) = negb (Z.testbit va (11 + b))).
  { unfold va_VPN, signed_field. fold b. cbn [fst snd]. rewrite field_get_bits by (simpl; lia).
    cbn [fst snd]. replace (b - 1 + 12) with (11 + b) by lia. replace (b - 1 <? b) with true by lia.
    pose proof (field_get_range (12, b) va ltac:(simpl; lia)) as Hr. cbn [fst snd] in Hr.
    rewrite andb_true_r. destruct (Z.testbit va (11 + b)); simpl; lia. }
  assert (Hext : va_VPNextend m va = if Z.testbit e (n - 1) then e - 2 ^ n else e).
  { unfold va_VPNextend, signed_field. fold b. rewrite E, field_get_div by (simpl; lia). cbn [fst snd].
    replace (64 - 12 - b) with n by lia. fold e. by rewrite Z.mod_small. }
  assert (Hp : 2 ^ (53 - b) = 2 * 2 ^ n)
    by (replace (53 - b) with (Z.succ n) by lia; apply Z.pow_succ_r; lia).
  assert (Hhigh : 2 ^ (n - 1) <= e -> Z.testbit e (n - 1) = true).
  { intros Hge. assert (Hn1 : 2 ^ n = 2 * 2 ^ (n - 1))
      by (rewrite <- Z.pow_succ_r by lia; f_equal; lia).
    rewrite Z.testbit_true by lia. pose proof (pow2_pos (n - 1)).
    replace (e / 2 ^ (n - 1)) with 1; [done|]. apply Z.div_unique with (e - 2 ^ (n - 1)); lia. }
  assert (Hn1 : 2 ^ n = 2 * 2 ^ (n - 1)) by (rewrite <- Z.pow_succ_r by lia; f_equal; lia).
  pose proof (pow2_pos (n - 1)).
  unfold validVA. rewrite Hvpn, Hext, Hp, Htop. destruct (Z.testbit va (11 + b)); cbn [negb Z.b2z].
  - destruct (Z.testbit e (n - 1)) eqn:Et; [lia|].
    assert (e < 2 ^ (n - 1)) by (destruct (Z.lt_ge_cases e (2 ^ (n - 1))) as [|G]; [done|discriminate (Hhigh G)]).
    lia.
  - destruct (Z.testbit e (n - 1)) eqn:Et; [|lia].
    assert (e <> 0) by (intros E0; rewrite E0, Z.bits_0 in Et; discriminate Et). lia.
Qed.

(** *** Superpages *)

Lemma align_eq i pte :
  0 <= i < Z.of_nat (sv_levels m) ->
  any (ppn m pte * 2 ^ 12) (Z.shiftl 1 (i * sv_vpn_shift m + 12) - 1) = negb (aligned m i pte).
Proof.
  intros Hi. pose proof H as []. unfold any, aligned. f_equal.
  rewrite Z.shiftl_1_l. change (2 ^ ?n - 1) with (Z.pred (2 ^ n)).
  rewrite <- Z.ones_equiv, Z.land_ones, (Z.add_comm _ 12), Z.pow_add_r, (Z.mul_comm (2 ^ 12)) by nia.
  pose proof (pow2_pos (i * sv_vpn_shift m)).
  rewrite Z.mul_mod_distr_r by lia. pose proof (Z.mod_pos_bound (ppn m pte) (2 ^ (i * sv_vpn_shift m))). lia.
Qed.

Lemma low_eq va i :
  0 <= va < 2 ^ sv_va_bits m -> 0 <= i < Z.of_nat (sv_levels m) ->
  Z.land (Z.ldiff va (Z.ones 12)) (wrap (sv_va_bits m) (- Z.shiftl 1 (i * sv_vpn_shift m + 12))) =
  va / 2 ^ page_bits m i * 2 ^ page_bits m i.
Proof.
  intros Hva Hi. pose proof (page_bits_range i Hi). pose proof H as [].
  rewrite Z.shiftl_1_l, (Z.add_comm _ 12). fold (page_bits m i). set (k := page_bits m i) in *.
  replace (- 2 ^ k) with (Z.shiftl (-1) k) by (rewrite shiftl_mul by lia; lia).
  rewrite <- Z.shiftl_mul_pow2, <- Z.shiftr_div_pow2 by lia.
  apply Z.bits_inj'. intros j Hj. rewrite Z.land_spec, ldiff_page by done.
  rewrite Z.shiftl_spec by done. destruct (Z.lt_ge_cases j k).
  - rewrite (Z.testbit_neg_r _ (j - k)) by lia. unfold wrap.
    destruct (Z.lt_ge_cases j (sv_va_bits m)); [|rewrite Z.mod_pow2_bits_high by lia; by rewrite andb_false_r].
    rewrite Z.mod_pow2_bits_low by lia.
    rewrite Z.shiftl_spec_low, andb_false_r by lia. done.
  - rewrite Z.shiftr_spec by lia. replace (j - k + k) with j by lia.
    replace (12 <=? j) with true by lia. cbn [andb].
    destruct (Z.lt_ge_cases j (sv_va_bits m)).
    + unfold wrap. rewrite Z.mod_pow2_bits_low by lia.
      rewrite Z.shiftl_spec_high by lia.
      rewrite Z.bits_m1 by lia. by rewrite andb_true_r.
    + by rewrite (testbit_above va (sv_va_bits m)) by lia.
Qed.

(** Addresses of one page at level [i]. *)
Definition same_page (i va va' : Z) : Prop := va' / 2 ^ page_bits m i = va / 2 ^ page_bits m i.

Lemma same_above i va va' k :
  0 <= page_bits m i <= k -> same_page i va va' -> va' / 2 ^ k = va / 2 ^ k.
Proof.
  intros Hk Hs. replace k with (page_bits m i + (k - page_bits m i)) by lia.
  pose proof (pow2_pos (page_bits m i)). pose proof (pow2_pos (k - page_bits m i)).
  rewrite Z.pow_add_r, <- !Z.div_div, Hs by lia. done.
Qed.

Lemma walk_same_page mem va va' n a i pte addr :
  ref_walk m mem va n a = inr (i, pte, addr) -> same_page i va va' ->
  ref_walk m mem va' n a = inr (i, pte, addr) /\ 0 <= i < Z.of_nat n.
Proof.
  revert a. induction n as [|n IH]; intros a Hw Hs; [done|]. cbn [ref_walk] in *.
  assert (Hi : 0 <= i <= Z.of_nat n).
  { destruct (mem _); [|done]. case_match; [done|]. case_match; [simplify_eq; lia|].
    apply IH in Hw; [lia|done]. }
  assert (Hv : vpn m va' (Z.of_nat n) = vpn m va (Z.of_nat n)).
  { unfold vpn. rewrite (same_above i va va' _); [done| |done]. destruct H. unfold page_bits. nia. }
  rewrite Hv. destruct (mem _); [|done]. case_match; [done|]. case_match; [split; [done|lia]|].
  destruct (IH _ Hw Hs). split; [done|lia].
Qed.

Lemma leaf_same_page mem root va va' i pte addr :
  ref_leaf m mem root va = inr (i, pte, addr) -> same_page i va va' ->
  ref_leaf m mem root va' = inr (i, pte, addr).
Proof.
  unfold ref_leaf. intros Hl Hs. destruct (canonical m va) eqn:Hc; [|done]. cbn [negb] in Hl.
  destruct (ref_walk m mem va (sv_levels m) root) as [|[[i' pte'] addr']] eqn:Hw; [done|].
  destruct (aligned m i' pte') eqn:Ha; [|done]. simplify_eq.
  destruct (walk_same_page _ _ _ _ _ _ _ _ Hw Hs) as [Hw' Hi].
  assert (Hc' : canonical m va' = true).
  { unfold canonical in *. pose proof H as []. rewrite (same_above i va va'); [done| |done].
    pose proof (page_bits_range i Hi). unfold page_bits in *. nia. }
  by rewrite Hc', Hw', Ha.
Qed.

Lemma leaf_level mem root va i pte addr :
  ref_leaf m mem root va = inr (i, pte, addr) -> 0 <= i < Z.of_nat (sv_levels m).
Proof.
  unfold ref_leaf. case_match; [done|].
  destruct (ref_walk m mem va (sv_levels m) root) as [|[[i' pte'] addr']] eqn:Hw; [done|].
  case_match; [|done]. intros. simplify_eq. by apply (walk_same_page _ va va) in Hw as [_ ?].
Qed.

Lemma leaf_aligned mem root va i pte addr :
  ref_leaf m mem root va = inr (i, pte, addr) -> aligned m i pte = true.
Proof.
  unfold ref_leaf. case_match; [done|].
  destruct (ref_walk m mem va (sv_levels m) root) as [|[[i' pte'] addr']]; [done|].
  case_match eqn:E; [|done]. intros. by simplify_eq.
Qed.

(** An aligned page and the offset in it. *)
Lemma physical_eq va i pte :
  0 <= i < Z.of_nat (sv_levels m) -> aligned m i pte = true ->
  physical m va i pte = ppn m pte * 2 ^ 12 + (va - va / 2 ^ page_bits m i * 2 ^ page_bits m i).
Proof.
  intros Hi Ha%Z.eqb_eq. pose proof H as []. unfold physical, page_bits.
  rewrite Z.pow_add_r by nia. pose proof (pow2_pos (i * sv_vpn_shift m)).
  pose proof (Z.div_mod (ppn m pte) (2 ^ (i * sv_vpn_shift m))).
  pose proof (Z.div_mod va (2 ^ 12 * 2 ^ (i * sv_vpn_shift m))). nia.
Qed.

End Arith.

(** ** Privileges *)

Lemma low_three x :
  x mod 8 = Z.b2z (Z.testbit x 0) + 2 * Z.b2z (Z.testbit x 1) + 4 * Z.b2z (Z.testbit x 2).
Proof. rewrite !Z.testbit_spec' by lia. change (2 ^ 0) with 1. change (2 ^ 1) with 2. change (2 ^ 2) with 4. zlia. Qed.

Lemma priv_bits pte :
  pte_priv pte = Z.b2z (bit_R pte) + 2 * Z.b2z (bit_W pte) + 4 * Z.b2z (bit_X pte).
Proof.
  unfold pte_priv, bit_R, bit_W, bit_X. rewrite field_get_div by (simpl; lia). cbn [fst snd].
  change (2 ^ 3) with 8. rewrite low_three, !Z.div_pow2_bits by lia. done.
Qed.

Lemma reserved_eq pte :
  (Z.land (pte_priv pte) MEM_PRIV_RW =? MEM_PRIV_W) = negb (bit_R pte) && bit_W pte.
Proof. rewrite priv_bits. by destruct (bit_R pte), (bit_W pte), (bit_X pte). Qed.

Lemma leaf_priv_eq pte :
  negb (bit_R pte) && bit_W pte = false -> negb (pte_priv pte =? 0) = bit_R pte || bit_X pte.
Proof. rewrite priv_bits. by destruct (bit_R pte), (bit_W pte), (bit_X pte). Qed.

Section Perm.

Context `{V : VmiRt}.
Implicit Types s : riscvS.

Definition version_1_11 (s : riscvS) : bool := RVPV_1_11 <=? c_priv_version (r_configInfo s).

(** The privileges of an entry that [mode] may use, before those the access
    needs are looked at. *)
Definition usable (s : riscvS) (mode pte : Z) : Z :=
  Z.b2z (ref_allowed (getMXR s) (getSUM s) (version_1_11 s) mode MEM_PRIV_R pte) +
  2 * Z.b2z (ref_allowed (getMXR s) (getSUM s) (version_1_11 s) mode MEM_PRIV_W pte) +
  4 * Z.b2z (ref_allowed (getMXR s) (getSUM s) (version_1_11 s) mode MEM_PRIV_X pte).

Lemma check_usable s mode e req pte :
  t_priv e = pte_priv pte -> t_U e = pte_U pte -> is_access req ->
  checkEntryPermission s mode e req =
  if ref_allowed (getMXR s) (getSUM s) (version_1_11 s) mode req pte then usable s mode pte
  else MEM_PRIV_NONE.
Proof.
  intros Hp Hu Hr. unfold checkEntryPermission, usable, ref_allowed. fold (version_1_11 s).
  rewrite Hp, Hu, priv_bits.
  destruct (mode =? RISCV_MODE_USER), (bit_R pte), (bit_W pte), (bit_X pte), (pte_U pte), (getMXR s),
    (getSUM s), (version_1_11 s), Hr as [-> | [-> | ->]]; reflexivity.
Qed.

Lemma check_allowed s mode e req pte :
  t_priv e = pte_priv pte -> t_U e = pte_U pte -> is_access req ->
  (checkEntryPermission s mode e req =? MEM_PRIV_NONE) =
  negb (ref_allowed (getMXR s) (getSUM s) (version_1_11 s) mode req pte).
Proof.
  intros Hp Hu Hr. rewrite (check_usable s mode e req pte) by done.
  destruct (ref_allowed _ _ _ mode req pte) eqn:E; [|done]. unfold usable.
  destruct Hr as [-> | [-> | ->]]; rewrite E; repeat case_match; simpl;
    destruct (ref_allowed _ _ _ mode MEM_PRIV_R pte), (ref_allowed _ _ _ mode MEM_PRIV_W pte),
      (ref_allowed _ _ _ mode MEM_PRIV_X pte); done.
Qed.

(** *** Accessed and dirty bits *)

Lemma access_writes req : is_access req -> any req MEM_PRIV_W = (req =? MEM_PRIV_W).
Proof. by intros [-> | [-> | ->]]. Qed.

Lemma set_A_D pte : pte_D (set_A pte) = pte_D pte.
Proof. unfold pte_D, set_A. by rewrite Z.setbit_neq by lia. Qed.

Lemma update_eq s req pte :
  is_access req ->
  match update_bits s req pte with
  | inl error => ref_update (updatePTEA s) (updatePTED s) req pte = None /\ pte_exception error = PTX_PAGE
  | inr (pte', doWrite) =>
      ref_update (updatePTEA s) (updatePTED s) req pte = Some pte' /\
      doWrite = negb (pte_A pte) || ((req =? MEM_PRIV_W) && negb (pte_D pte))
  end.
Proof.
  intros Hr. unfold update_bits, ref_update. rewrite access_writes by done.
  destruct (pte_A pte) eqn:EA; cbn [negb andb orb].
  - destruct (pte_D pte), (req =? MEM_PRIV_W), (updatePTED s); done.
  - destruct (updatePTEA s); [|done]. cbn [negb andb orb]. rewrite set_A_D.
    destruct (pte_D pte), (req =? MEM_PRIV_W), (updatePTED s); done.
Qed.

End Perm.
