(* ===== verification/RvVmWalk.v ===== *)
(** * The page table walk implements the reference

    What one walk of the model does to the hart, and that its result - the
    exception, or the TLB entry - is the one the reference translation gives:
    for the address of the access, and for every other address the entry
    covers. *)

From stdpp Require Import functions gmap.
From S2P Require Import Prelude RvTypes RvTables RvDecode RvHart RvHartFacts RvTrap RvTrapFacts.
From S2P Require Import RvPmp RvCsr RvCsrTable RvPorts RvSystem RvVm RvVmRef.

(** The fault of the reference behind an error of the walk. *)
Definition fault_of (error : pteError) : fault :=
  match pte_exception error with
  | PTX_LOAD_ACCESS => ReadFault
  | PTX_STORE_ACCESS => WriteFault
  | PTX_PAGE => PageFault
  end.

Lemma exception_eq req error : handlePTWException req error = fault_code req (fault_of error).
Proof. by destruct error. Qed.

Section Walk.

Context `{V : VmiRt} {VM : VmiMem} {ML : VmiMemLaws VM}.
Implicit Types s : riscvS.

Lemma same_memory_refl v : same_memory v v.
Proof. done. Qed.

Lemma same_memory_trans v1 v2 v3 : same_memory v1 v2 -> same_memory v2 v3 -> same_memory v1 v3.
Proof. intros (A & B & C) (A' & B' & C'). split_and!; intros; congruence. Qed.

(** ** Reads *)

(** [s'] is [s] after reads of a walk. *)
Definition walked (s s' : riscvS) : Prop :=
  exists v af b act, s' = upd_vmi v (upd_AFErrorIn af (upd_PTWBadAddr b (upd_PTWActive act s))) /\
    same_memory (r_vmi s) v.

Lemma walked_refl s : walked s s.
Proof. exists (r_vmi s), (r_AFErrorIn s), (r_PTWBadAddr s), (r_PTWActive s). by destruct s. Qed.

Lemma walked_trans s1 s2 s3 : walked s1 s2 -> walked s2 s3 -> walked s1 s3.
Proof.
  intros (v & af & b & act & -> & Hm) (v' & af' & b' & act' & -> & Hm').
  exists v', af', b', act'. split; [done|]. eapply same_memory_trans; [exact Hm|exact Hm'].
Qed.

Lemma read_eq d a n at_ s :
  exists s' w, readPageTableEntry d a n at_ s = (s', w) /\ walked s s' /\
    match page_word n d a (r_vmi s) with
    | None => r_PTWBadAddr s' = true
    | Some x => r_PTWBadAddr s' = false /\ w = x
    end.
Proof.
  unfold readPageTableEntry. set (s0 := upd_PTWBadAddr false (upd_PTWActive true s)).
  destruct (read_effect n d a (r_dendian s0) at_ s0 eq_refl) as (v & af & Hf & Hm).
  pose proof (read_value n d a (r_dendian s0) at_ s0) as Hv.
  destruct (vmirtReadDomain n d a (r_dendian s0) at_ s0) as [s1 w]. cbn [fst snd] in *. subst s1.
  eexists _, w. split; [reflexivity|]. change (r_vmi s0) with (r_vmi s) in *. split.
  - by eexists _, _, _, false.
  - destruct (page_word n d a (r_vmi s)) as [x|]; [split; [reflexivity|by apply Hv]|reflexivity].
Qed.

(** ** The loop *)

Context (m : svMode) (H : sv_ok m).

(** The entry a walk finds at an address. *)
Definition page_mem (s : riscvS) (a : Z) : option Z :=
  page_word (sv_bytes m) (getPTWDomain s) a (r_vmi s).

Lemma walked_mem s s' a : walked s s' -> page_mem s' a = page_mem s a.
Proof. intros (v & af & b & act & -> & Hm). unfold page_mem. apply Hm. Qed.

Lemma ref_walk_ext mem mem' va n a :
  (forall x, mem x = mem' x) -> ref_walk m mem va n a = ref_walk m mem' va n a.
Proof.
  intros Hm. revert a. induction n as [|n IH]; intros a; [done|]. cbn [ref_walk]. rewrite Hm.
  destruct (mem' _); [|done]. by rewrite IH.
Qed.

Lemma walk_eq va at_ n a s :
  0 <= va -> (n <= sv_levels m)%nat -> 0 <= a < 2 ^ 56 ->
  exists s' r, walk m (getPTWDomain s) (Z.ldiff va (Z.ones 12)) at_ n a s = (s', r) /\ walked s s' /\
    ref_walk m (page_mem s) va n a =
      match r with inl error => inl (fault_of error) | inr l => inr l end.
Proof.
  intros Hva. revert a s. induction n as [|n IH]; intros a s Hn Ha.
  { exists s, (inl PTEE_LEAF). split_and!; [done|apply walked_refl|done]. }
  cbn [walk ref_walk]. rewrite vpn_eq, pte_addr by (done || lia).
  set (addr := a + vpn m va (Z.of_nat n) * sv_bytes m).
  destruct (read_eq (getPTWDomain s) addr (sv_bytes m) at_ s) as (s1 & w & -> & Hs1 & Hw).
  fold (page_mem s addr) in Hw. destruct (page_mem s addr) as [x|].
  2: { rewrite Hw. by exists s1, (inl PTEE_READ). }
  destruct Hw as [-> ->]. rewrite reserved_eq.
  destruct (pte_V x); cbn [negb orb]; [|by exists s1, (inl PTEE_V0)].
  destruct (negb (bit_R x) && bit_W x) eqn:Er; [by exists s1, (inl PTEE_R0W1)|].
  rewrite leaf_priv_eq by done. destruct (bit_R x || bit_X x); [by exists s1, (inr (Z.of_nat n, x, addr))|].
  pose proof (ppn_range m H x) as Hp. rewrite ppn_eq, table_eq by done.
  destruct (IH (ppn m x * 2 ^ 12) s1) as (s2 & r & Hr & Hs2 & Href); [lia..|].
  replace (getPTWDomain s1) with (getPTWDomain s) in Hr by (destruct Hs1 as (? & ? & ? & ? & -> & _); done).
  exists s2, r. split_and!; [done|by eapply walked_trans|].
  rewrite <- Href. apply ref_walk_ext. intros y. symmetry. by apply walked_mem.
Qed.

(** The leaf is a word of the memory at a multiple of the entry size. *)
Lemma walk_word mem va n a i pte addr :
  ref_walk m mem va n a = inr (i, pte, addr) -> a mod 2 ^ 12 = 0 ->
  mem addr = Some pte /\ addr mod sv_bytes m = 0.
Proof.
  pose proof H as []. revert a. induction n as [|n IH]; intros a Hw Ha; [done|]. cbn [ref_walk] in Hw.
  destruct (mem (a + vpn m va (Z.of_nat n) * sv_bytes m)) as [x|] eqn:E; [|done]. case_match; [done|]. case_match.
  - simplify_eq. split; [done|]. rewrite Z.add_mod, Z.mod_mul, Z.add_0_r, Z.mod_mod by lia.
    rewrite (Z.div_mod a (2 ^ 12)), Ha, Z.add_0_r, <- sk_pages by lia.
    replace (2 ^ sv_vpn_shift m * sv_bytes m * (a / (2 ^ sv_vpn_shift m * sv_bytes m)))
      with (2 ^ sv_vpn_shift m * (a / (2 ^ sv_vpn_shift m * sv_bytes m)) * sv_bytes m) by lia.
    apply Z.mod_mul. lia.
  - apply (IH _ Hw). apply Z.mod_mul. lia.
Qed.

(** ** The whole translation *)

Definition ref_root (s : riscvS) : Z := RD_CSR_FIELD s satp atp_PPN * 2 ^ 12.

(** The translation of [va] for an access in [mode]: a fault, or the level,
    the entry with its updated bits, and the address of the entry. *)
Definition ref_translate (s : riscvS) (mode req va : Z) : fault + Z * Z * Z :=
  match ref_leaf m (page_mem s) (ref_root s) va with
  | inl f => inl f
  | inr (i, pte, addr) =>
      if negb (ref_allowed (getMXR s) (getSUM s) (version_1_11 s) mode req pte) then inl PageFault
      else
        match ref_update (updatePTEA s) (updatePTED s) req pte with
        | None => inl PageFault
        | Some pte' =>
            if negb (pte' =? pte) && negb (page_writable (sv_bytes m) (getPTWDomain s) addr (r_vmi s))
            then inl WriteFault else inr (i, pte', addr)
        end
  end.

Lemma root_range s : 0 <= RD_CSR_FIELD s satp atp_PPN < 2 ^ 44.
Proof.
  unfold RD_CSR_FIELD, rd_field. destruct (RISCV_XLEN_IS_32 s).
  - pose proof (field_get_range (fields32 atp_PPN) (u32_word satp (r_csr s satp)) ltac:(simpl; lia)).
    simpl in *. lia.
  - pose proof (field_get_range (fields64 atp_PPN) (u64 (r_csr s satp)) ltac:(simpl; lia)).
    simpl in *. lia.
Qed.

(** [s'] is [s] after a walk that left the word [pte] at [addr]. *)
Definition stored (addr pte : Z) (s s' : riscvS) : Prop :=
  exists v af b act, s' = upd_vmi v (upd_AFErrorIn af (upd_PTWBadAddr b (upd_PTWActive act s))) /\
    (forall d asid va, vm_alias d asid va v = vm_alias d asid va (r_vmi s)) /\
    (forall n d a, page_writable n d a v = page_writable n d a (r_vmi s)) /\
    forall a, a mod sv_bytes m = 0 ->
      page_word (sv_bytes m) (getPTWDomain s) a v = if a =? addr then Some pte else page_mem s a.

Lemma stored_same s s' addr pte : walked s s' -> page_mem s addr = Some pte -> stored addr pte s s'.
Proof.
  intros (v & af & b & act & -> & Hw & Hwr & Ha) Hp. exists v, af, b, act. split_and!; try done.
  intros a _. rewrite Hw. destruct (Z.eqb_spec a addr) as [->|]; done.
Qed.

Lemma apart a addr :
  a mod sv_bytes m = 0 -> addr mod sv_bytes m = 0 -> a <> addr ->
  a + sv_bytes m <= addr \/ addr + sv_bytes m <= a.
Proof.
  intros Ha Hb Hne. pose proof H as []. pose proof (Z.div_mod a (sv_bytes m) ltac:(lia)).
  pose proof (Z.div_mod addr (sv_bytes m) ltac:(lia)).
  destruct (Z.lt_total (a / sv_bytes m) (addr / sv_bytes m)) as [|[|]]; [left; nia|congruence|right; nia].
Qed.

Lemma write_eq addr at_ x s s1 :
  walked s s1 -> addr mod sv_bytes m = 0 -> r_artifactAccess s = false ->
  0 <= x < 2 ^ (8 * sv_bytes m) ->
  exists s', writePageTableEntry (getPTWDomain s) addr (sv_bytes m) at_ x s1 = s' /\
    if page_writable (sv_bytes m) (getPTWDomain s) addr (r_vmi s)
    then r_PTWBadAddr s' = false /\ stored addr x s s'
    else r_PTWBadAddr s' = true /\ walked s s'.
Proof.
  intros Hs1 Haddr Hart Hx. eexists. split; [reflexivity|].
  destruct Hs1 as (v & af & b & act & -> & Hw & Hwr & Hal).
  unfold writePageTableEntry. cbn [r_artifactAccess upd_PTWBadAddr upd_PTWActive upd_vmi upd_AFErrorIn].
  rewrite Hart. set (s0 := upd_PTWBadAddr false _).
  destruct (write_effect (sv_bytes m) (getPTWDomain s) addr (r_dendian s0) x at_ s0 eq_refl)
    as (v' & af' & -> & Hwr' & Hal' & Hword).
  change (r_vmi s0) with v in *. rewrite Hwr in *.
  destruct (page_writable _ _ addr (r_vmi s)) eqn:E.
  - split; [reflexivity|]. exists v', af', false, false. split_and!; [reflexivity|congruence|congruence|].
    destruct Hword as [Hx' Hother]. intros a Ha. destruct (Z.eqb_spec a addr) as [->|Hne].
    + rewrite Hx'. f_equal. by apply wrap_small.
    + rewrite Hother by (by apply apart). apply Hw.
  - split; [reflexivity|]. exists v', af', true, false. split; [reflexivity|].
    split_and!; intros; congruence.
Qed.

Lemma setbit_range pte k : 0 <= pte < 2 ^ (8 * sv_bytes m) -> 0 <= k < 8 -> 0 <= Z.setbit pte k < 2 ^ (8 * sv_bytes m).
Proof.
  intros Hp Hk. pose proof H as []. apply range_bits; [lia|]. intros j Hj.
  rewrite Z.setbit_neq by lia. apply (testbit_above pte (8 * sv_bytes m)); lia.
Qed.

Lemma update_range hwA hwD req pte pte' :
  ref_update hwA hwD req pte = Some pte' -> 0 <= pte < 2 ^ (8 * sv_bytes m) ->
  0 <= pte' < 2 ^ (8 * sv_bytes m).
Proof.
  unfold ref_update. case_match; [done|]. intros ? Hp. simplify_eq.
  repeat case_match; unfold set_A, set_D; repeat apply setbit_range; (done || lia).
Qed.

Lemma setbit_changes pte k : 0 <= k -> Z.testbit pte k = false -> Z.setbit pte k <> pte.
Proof.
  intros Hk Hp He. apply (f_equal (fun z => Z.testbit z k)) in He.
  by rewrite Z.setbit_eq, Hp in He.
Qed.

(** The entry is written exactly if it changes. *)
Lemma update_changes hwA hwD req pte pte' :
  ref_update hwA hwD req pte = Some pte' ->
  negb (pte' =? pte) = negb (pte_A pte) || ((req =? MEM_PRIV_W) && negb (pte_D pte)).
Proof.
  unfold ref_update. case_match; [done|]. intros ?. simplify_eq.
  destruct (pte_A pte) eqn:EA, (pte_D pte) eqn:ED, (req =? MEM_PRIV_W); cbn [negb andb orb];
    rewrite ?Z.eqb_refl; try done; apply negb_true_iff, Z.eqb_neq; unfold set_A, set_D;
    try (apply setbit_changes; (done || lia)).
  intros He. apply (f_equal pte_D) in He. unfold pte_D in He, ED. by rewrite Z.setbit_eq, ED in He.
Qed.

(** The entry a walk fills in. *)
Record entry_of (s : riscvS) (va i pte : Z) (e : tlbEntry) : Prop := {
  eo_low : t_lowVA e = va / 2 ^ page_bits m i * 2 ^ page_bits m i;
  eo_high : t_highVA e = t_lowVA e + 2 ^ page_bits m i - 1;
  eo_PA : t_PA e = ppn m pte * 2 ^ 12;
  eo_priv : t_priv e = pte_priv pte;
  eo_U : t_U e = pte_U pte;
  eo_G : t_G e = getG s (pte_G pte);
  eo_A : t_A e = pte_A pte;
  eo_D : t_D e = pte_D pte;
  eo_mapped : t_isMapped e = 0;
}.

Lemma page_low va i :
  0 <= va < 2 ^ sv_va_bits m -> 0 <= i < Z.of_nat (sv_levels m) ->
  0 <= va / 2 ^ page_bits m i * 2 ^ page_bits m i <= va /\
  va < va / 2 ^ page_bits m i * 2 ^ page_bits m i + 2 ^ page_bits m i <= 2 ^ sv_va_bits m.
Proof.
  intros Hva Hi. pose proof (page_bits_range m H i Hi) as Hp. pose proof H as [].
  pose proof (pow2_pos (page_bits m i)). pose proof (Z.div_mod va (2 ^ page_bits m i)).
  pose proof (Z.mod_pos_bound va (2 ^ page_bits m i)).
  pose proof (Z.div_pos va (2 ^ page_bits m i)).
  assert (Hle : page_bits m i <= sv_va_bits m) by (unfold page_bits in *; nia).
  assert (Hpow : 2 ^ sv_va_bits m = 2 ^ (sv_va_bits m - page_bits m i) * 2 ^ page_bits m i)
    by (rewrite <- Z.pow_add_r by lia; f_equal; lia).
  assert (va / 2 ^ page_bits m i < 2 ^ (sv_va_bits m - page_bits m i))
    by (apply Z.div_lt_upper_bound; lia).
  nia.
Qed.

Lemma fill_eq s s1 va i pte :
  walked s s1 -> 0 <= va < 2 ^ sv_va_bits m -> 0 <= i < Z.of_nat (sv_levels m) ->
  entry_of s va i pte (fill_entry m s1 (Z.ldiff va (Z.ones 12)) i pte (initialEntry va)).
Proof.
  intros (v & af & b & act & -> & _) Hva Hi. pose proof (page_low va i Hva Hi) as [Hlo Hhi].
  pose proof H as []. pose proof (Z.pow_le_mono_r 2 (sv_va_bits m) 64).
  unfold fill_entry. split; cbn [t_lowVA t_highVA t_PA t_priv t_U t_G t_A t_D t_isMapped initialEntry]; try done.
  - by rewrite low_eq.
  - rewrite low_eq, Z.shiftl_1_l, (Z.add_comm _ 12) by done. fold (page_bits m i).
    apply wrap_small. lia.
  - by rewrite ppn_eq, table_eq by (try apply ppn_range; done).
Qed.

(** Two entries that differ in their accessed and dirty bits only. *)
Record same_pte (p p' : Z) : Prop := {
  sp_V : pte_V p' = pte_V p;
  sp_R : bit_R p' = bit_R p;
  sp_W : bit_W p' = bit_W p;
  sp_X : bit_X p' = bit_X p;
  sp_U : pte_U p' = pte_U p;
  sp_G : pte_G p' = pte_G p;
  sp_ppn : ppn m p' = ppn m p;
  sp_A : pte_A p = true -> pte_A p' = true;
  sp_D : pte_D p = true -> pte_D p' = true;
}.

Lemma same_pte_setbit p k : k = 6 \/ k = 7 -> same_pte p (Z.setbit p k).
Proof.
  intros Hk.
  assert (Ho : forall j, j <> 6 -> j <> 7 -> Z.testbit (Z.setbit p k) j = Z.testbit p j)
    by (intros; apply Z.setbit_neq; lia).
  assert (Hs : forall j, Z.testbit p j = true -> Z.testbit (Z.setbit p k) j = true)
    by (intros j Hj; rewrite Z.setbit_eqb, Hj by lia; apply orb_true_r).
  split; try (apply Ho; lia); try apply Hs. unfold ppn. f_equal.
  apply Z.bits_inj'. intros j Hj. rewrite !Z.div_pow2_bits by lia. apply Ho; lia.
Qed.

Lemma same_pte_refl p : same_pte p p.
Proof. by split. Qed.

Lemma same_pte_trans p1 p2 p3 : same_pte p1 p2 -> same_pte p2 p3 -> same_pte p1 p3.
Proof. intros [] []. split; try congruence; eauto. Qed.

Lemma same_pte_priv p p' : same_pte p p' -> pte_priv p' = pte_priv p.
Proof. intros [? HR HW HX]. by rewrite !priv_bits, HR, HW, HX. Qed.

Lemma same_pte_allowed p p' mxr sum v11 mode req :
  same_pte p p' -> ref_allowed mxr sum v11 mode req p' = ref_allowed mxr sum v11 mode req p.
Proof. intros [? HR HW HX HU]. unfold ref_allowed. by rewrite HR, HW, HX, HU. Qed.

Lemma update_same hwA hwD req pte pte' :
  ref_update hwA hwD req pte = Some pte' ->
  same_pte pte pte' /\ pte_A pte' = true /\ (req = MEM_PRIV_W -> pte_D pte' = true).
Proof.
  unfold ref_update. case_match; [done|]. intros ?. simplify_eq.
  destruct (pte_A pte) eqn:EA, (pte_D pte) eqn:ED, (Z.eqb_spec req MEM_PRIV_W); cbn [negb andb];
    split_and!; try done;
    try (apply same_pte_refl || apply same_pte_setbit; lia);
    try (unfold pte_A, pte_D, set_A, set_D; rewrite ?Z.setbit_eqb by lia; simpl; by rewrite ?orb_true_r).
  eapply same_pte_trans; [apply (same_pte_setbit pte 6); lia|apply same_pte_setbit; lia].
Qed.

Lemma walked_regs s s' :
  walked s s' ->
  getMXR s' = getMXR s /\ getSUM s' = getSUM s /\ version_1_11 s' = version_1_11 s /\
  updatePTEA s' = updatePTEA s /\ updatePTED s' = updatePTED s.
Proof. by intros (v & af & b & act & -> & _). Qed.

Lemma updated_entry s va i pte pte' hwA hwD req e :
  ref_update hwA hwD req pte = Some pte' -> entry_of s va i pte e ->
  entry_of s va i pte' (set_AD pte' e).
Proof.
  intros Hu []. destruct (update_same _ _ _ _ _ Hu) as [Hs _].
  split; cbn [set_AD t_lowVA t_highVA t_PA t_priv t_U t_G t_A t_D t_isMapped]; try done.
  - by rewrite (sp_ppn _ _ Hs).
  - by rewrite (same_pte_priv _ _ Hs).
  - by rewrite (sp_U _ _ Hs).
  - by rewrite (sp_G _ _ Hs).
Qed.

(** The walk gives the exception or the entry of the reference. *)
Lemma lookup_eq va mode req at_ s :
  is_access req -> r_artifactAccess s = false -> 0 <= va < 2 ^ sv_va_bits m ->
  exists s' r, tlbLookupSv m mode (initialEntry va) req at_ s = (s', r) /\
    match ref_translate s mode req va with
    | inl f => r = inl (fault_code req f) /\ walked s s'
    | inr (i, pte, addr) => stored addr pte s s' /\ exists e, r = inr e /\ entry_of s va i pte e
    end.
Proof.
  intros Hreq Hart Hva. unfold tlbLookupSv, ref_translate, ref_leaf. cbn [t_lowVA initialEntry].
  rewrite (wrap_small _ va), valid_eq by done.
  destruct (canonical m va); cbn [negb]; [|by eexists _, _; split; [done|split; [done|apply walked_refl]]].
  pose proof (root_range s) as Hroot. unfold getRootTableAddress. rewrite table_eq by done. fold (ref_root s).
  destruct (walk_eq va at_ (sv_levels m) (ref_root s) s) as (s1 & r & -> & Hs1 & Hr);
    [lia|done|unfold ref_root; lia|]. rewrite Hr.
  destruct r as [error|[[i pte] addr]]; [by eexists _, _; rewrite exception_eq|].
  destruct (walk_same_page m H _ va va _ _ _ _ _ Hr) as [_ Hi]; [done|].
  destruct (walk_word _ _ _ _ _ _ _ Hr) as [Hword Haddr]; [apply Z.mod_mul; lia|].
  rewrite ppn_eq, table_eq, align_eq by (try apply ppn_range; done).
  destruct (aligned m i pte); cbn [negb]; [|by eexists _, _; rewrite exception_eq].
  pose proof (fill_eq s s1 va i pte Hs1 Hva Hi) as He.
  set (e := fill_entry _ _ _ _ _ _) in *. destruct (walked_regs s s1 Hs1) as (Hmxr & Hsum & Hv & HA & HD).
  rewrite (check_allowed s1 mode e req pte (eo_priv _ _ _ _ _ He) (eo_U _ _ _ _ _ He) Hreq), Hmxr, Hsum, Hv.
  destruct (ref_allowed _ _ _ mode req pte); cbn [negb]; [|by eexists _, _; rewrite exception_eq].
  pose proof (update_eq s1 req pte Hreq) as Hu. rewrite HA, HD in Hu.
  destruct (update_bits s1 req pte) as [error|[pte' w]].
  { destruct Hu as [-> Herr]. eexists _, _. split; [reflexivity|]. rewrite exception_eq. unfold fault_of.
    by rewrite Herr. }
  destruct Hu as [Hup ->]. rewrite Hup, (update_changes _ _ _ _ _ Hup).
  pose proof (updated_entry s va i pte pte' _ _ req e Hup He) as He'.
  destruct (negb (pte_A pte) || _) eqn:Ew; cbn [andb].
  - pose proof (update_range _ _ _ _ _ Hup (word_range _ _ _ _ _ Hword)) as Hrange.
    destruct (write_eq addr at_ pte' s s1 Hs1 Haddr Hart Hrange) as (s2 & -> & Hwr).
    destruct (page_writable _ _ _ _); destruct Hwr as [-> Hs2]; cbn [negb].
    + eexists _, _. split; [reflexivity|]. split; [done|]. by exists (set_AD pte' e).
    + by eexists _, _; rewrite exception_eq.
  - eexists _, _. split; [reflexivity|]. split; [|by exists (set_AD pte' e)].
    apply stored_same; [done|]. rewrite <- (update_changes _ _ _ _ _ Hup) in Ew.
    apply negb_false_iff, Z.eqb_eq in Ew. by rewrite Ew.
Qed.

End Walk.
