(* ===== verification/RvVmTlb.v ===== *)
(** * The TLB and the page tables

    An entry of the TLB reflects the page tables if, for every address it
    covers, it agrees with the leaf the reference finds.  Proved here: what
    the operations of the TLB leave unchanged, and that an entry keeps
    reflecting the tables when a walk updates accessed and dirty bits. *)

From stdpp Require Import functions gmap.
From S2P Require Import Prelude RvTypes RvTables RvDecode RvHart RvHartFacts RvTrap RvTrapFacts.
From S2P Require Import RvPmp RvPmpFacts RvPmpCache RvCsr RvCsrTable RvPorts RvSystem.
From S2P Require Import RvVm RvVmRef RvVmWalk.

(** ** Entries and page tables *)

Section Reflect.

Context `{V : VmiRt} {VM : VmiMem} {ML : VmiMemLaws VM}.
Context (m : svMode) (H : sv_ok m).
Implicit Types s : riscvS.

(** The entry translates [va] as the leaf of the tables does. *)
Record reflects_at (s : riscvS) (e : tlbEntry) (va : Z) (l : Z * Z * Z) : Prop := {
  ra_leaf : ref_leaf m (page_mem m s) (ref_root s) va = inr l;
  ra_PA : t_PA e + (va - t_lowVA e) = physical m va l.1.1 l.1.2;
  ra_priv : t_priv e = pte_priv l.1.2;
  ra_U : t_U e = pte_U l.1.2;
  ra_A : pte_A l.1.2 = true;
  ra_D : t_D e = true -> pte_D l.1.2 = true;
}.

(** A whole page, all of whose addresses the entry translates. *)
Record reflects (s : riscvS) (e : tlbEntry) : Prop := {
  rf_page : exists i, 0 <= i < Z.of_nat (sv_levels m) /\ t_lowVA e mod 2 ^ page_bits m i = 0 /\
    t_highVA e = t_lowVA e + 2 ^ page_bits m i - 1;
  rf_range : 0 <= t_lowVA e /\ t_highVA e < 2 ^ sv_va_bits m;
  rf_PA : 0 <= t_PA e < 2 ^ 56;
  rf_at va : t_lowVA e <= va <= t_highVA e -> exists l, reflects_at s e va l;
}.

Lemma ref_leaf_ext mem mem' root va :
  (forall a, mem a = mem' a) -> ref_leaf m mem root va = ref_leaf m mem' root va.
Proof. intros He. unfold ref_leaf. by rewrite (ref_walk_ext m mem mem'). Qed.

(** States in which walks find the same. *)
Definition same_tables (s s' : riscvS) : Prop :=
  (forall a, page_mem m s' a = page_mem m s a) /\ ref_root s' = ref_root s.

Lemma reflects_same s s' e : same_tables s s' -> reflects s e -> reflects s' e.
Proof.
  intros [Hm Hr] [Hp Hra HPA Hat]. split; try done. intros va Hva. destruct (Hat va Hva) as [l []].
  exists l. split; try done. rewrite Hr. rewrite <- ra_leaf0. by apply ref_leaf_ext.
Qed.

(** Only fields that mappings do not change. *)
Definition same_translation (e e' : tlbEntry) : Prop :=
  t_lowVA e' = t_lowVA e /\ t_highVA e' = t_highVA e /\ t_PA e' = t_PA e /\ t_priv e' = t_priv e /\
  t_U e' = t_U e /\ t_G e' = t_G e /\ t_A e' = t_A e /\ t_D e' = t_D e.

Lemma reflects_entry s e e' : same_translation e e' -> reflects s e -> reflects s e'.
Proof.
  intros (Hl & Hh & HPA & Hp & HU & _ & _ & HD) [Hpg Hr HP Hat]. split; rewrite ?Hl, ?Hh, ?HPA; try done.
  intros va Hva. destruct (Hat va Hva) as [l []]. exists l. split; try congruence.
  intros Ht. apply ra_D0. congruence.
Qed.

(** The entry of a walk reflects the tables that the walk leaves. *)
Lemma entry_reflects s s' e va i pte addr :
  entry_of m s va i pte e -> ref_leaf m (page_mem m s') (ref_root s') va = inr (i, pte, addr) ->
  pte_A pte = true -> 0 <= va < 2 ^ sv_va_bits m -> reflects s' e.
Proof.
  intros [Elow Ehigh EPA Epriv EU EG EA ED Emap] Hleaf HA Hva. pose proof (leaf_level m H _ _ _ _ _ _ Hleaf) as Hi.
  pose proof (leaf_aligned m _ _ _ _ _ _ Hleaf) as Hal.
  pose proof (page_low m H va i Hva Hi) as [Hlo Hhi]. pose proof (page_bits_range m H i Hi) as Hp.
  pose proof (pow2_pos (page_bits m i) ltac:(lia)) as Hpos.
  split.
  - exists i. rewrite Elow at 1. rewrite Z.mod_mul by lia. done.
  - lia.
  - rewrite EPA. pose proof (ppn_range m H pte). lia.
  - intros va' Hva'. exists (i, pte, addr). split; cbn [fst snd]; try congruence.
    + apply (leaf_same_page m H _ _ va); [done|]. unfold same_page. symmetry.
      apply Z.div_unique with (va' - t_lowVA e); lia.
    + rewrite physical_eq by done. rewrite EPA.
      replace (va' / 2 ^ page_bits m i) with (va / 2 ^ page_bits m i); [lia|].
      apply Z.div_unique with (va' - t_lowVA e); lia.
Qed.

(** *** Updates of accessed and dirty bits *)

Lemma walk_stored mem mem' va n a addr p p' :
  (forall x, x mod sv_bytes m = 0 -> mem' x = if x =? addr then Some p' else mem x) ->
  mem addr = Some p -> same_pte m p p' -> a mod 2 ^ 12 = 0 ->
  ref_walk m mem' va n a =
    match ref_walk m mem va n a with
    | inl f => inl f
    | inr (i, q, x) => inr (i, if x =? addr then p' else q, x)
    end.
Proof.
  intros Hm Hp Hs. pose proof H as []. revert a. induction n as [|n IH]; intros a Ha; [done|].
  cbn [ref_walk]. set (x := a + vpn m va (Z.of_nat n) * sv_bytes m).
  assert (Hx : x mod sv_bytes m = 0).
  { unfold x. rewrite Z.add_mod, Z.mod_mul, Z.add_0_r, Z.mod_mod by lia.
    rewrite (Z.div_mod a (2 ^ 12)), Ha, Z.add_0_r, <- sk_pages by lia.
    apply Z.mod_divide; [lia|]. exists (2 ^ sv_vpn_shift m * (a / (2 ^ sv_vpn_shift m * sv_bytes m))). lia. }
  rewrite (Hm x Hx). destruct (Z.eqb_spec x addr) as [->|Hne].
  - rewrite Hp. destruct Hs as [HV HR HW HX _ _ HP _ _]. rewrite HV, HR, HW, HX.
    case_match; [done|]. case_match; [by rewrite Z.eqb_refl|]. rewrite HP. apply IH, Z.mod_mul. lia.
  - destruct (mem x) as [q|]; [|done]. case_match; [done|].
    case_match; [by replace (x =? addr) with false by lia|]. apply IH, Z.mod_mul. lia.
Qed.

Lemma leaf_stored mem mem' root va addr p p' :
  (forall x, x mod sv_bytes m = 0 -> mem' x = if x =? addr then Some p' else mem x) ->
  mem addr = Some p -> same_pte m p p' -> root mod 2 ^ 12 = 0 ->
  ref_leaf m mem' root va =
    match ref_leaf m mem root va with
    | inl f => inl f
    | inr (i, q, x) => inr (i, if x =? addr then p' else q, x)
    end.
Proof.
  intros Hm Hp Hs Hr. unfold ref_leaf. rewrite (walk_stored mem mem' va _ root addr p p') by done.
  destruct (canonical m va); [|done]. cbn [negb].
  destruct (ref_walk m mem va (sv_levels m) root) as [f|[[i q] x]] eqn:E; [done|].
  destruct (walk_word m H _ _ _ _ _ _ _ E Hr) as [Hx _].
  assert (Ha : aligned m i (if x =? addr then p' else q) = aligned m i q).
  { destruct (Z.eqb_spec x addr) as [->|]; [|done]. unfold aligned.
    rewrite Hx in Hp. simplify_eq. by rewrite (sp_ppn _ _ _ Hs). }
  rewrite Ha. by destruct (aligned m i q).
Qed.

Lemma root_aligned s : ref_root s mod 2 ^ 12 = 0.
Proof. apply Z.mod_mul. lia. Qed.

(** Entries go on reflecting the tables when a walk updates a leaf. *)
Lemma reflects_stored s s' e addr p p' :
  stored m addr p' s s' -> page_mem m s addr = Some p -> same_pte m p p' -> reflects s e -> reflects s' e.
Proof.
  intros (v & af & b & act & -> & _ & _ & Hm) Hp Hs [Hpg Hr HP Hat]. split; try done.
  intros va Hva. destruct (Hat va Hva) as [[[i q] x] [Hl HPA Hpr HU HA HD]]. cbn [fst snd] in *.
  exists (i, if x =? addr then p' else q, x).
  assert (Hq : x = addr -> q = p).
  { intros ->. unfold ref_leaf in Hl. case_match; [done|].
    destruct (ref_walk _ _ _ _ _) as [|[[i0 q0] x0]] eqn:E; [done|]. case_match; [|done]. simplify_eq.
    destruct (walk_word m H _ _ _ _ _ _ _ E (root_aligned s)) as [Hx _]. congruence. }
  split; cbn [fst snd].
  - change (ref_root (upd_vmi _ _)) with (ref_root s).
    rewrite (leaf_stored (page_mem m s) _ _ _ addr p p') by (try apply root_aligned; done). by rewrite Hl.
  - destruct (Z.eqb_spec x addr) as [E|]; [|done]. rewrite (Hq E) in HPA. unfold physical in *.
    by rewrite (sp_ppn _ _ _ Hs).
  - destruct (Z.eqb_spec x addr) as [E|]; [|done]. rewrite (Hq E) in Hpr.
    by rewrite (same_pte_priv m _ _ Hs).
  - destruct (Z.eqb_spec x addr) as [E|]; [|done]. rewrite (Hq E) in HU. by rewrite (sp_U _ _ _ Hs).
  - destruct (Z.eqb_spec x addr) as [E|]; [|done]. rewrite (Hq E) in HA. by apply (sp_A _ _ _ Hs).
  - destruct (Z.eqb_spec x addr) as [E|]; [|done]. rewrite (Hq E) in HD. intros Ht.
    apply (sp_D _ _ _ Hs). by apply HD.
Qed.

End Reflect.
