(* ===== verification/RvVmOps.v ===== *)
(** * Operations of the TLB

    What each operation on the TLB changes: deletion and invalidation remove
    entries and their mappings, a lookup finds an entry for the address and
    the ASID.  The mapping of an entry is in RvVmMap. *)

From stdpp Require Import functions gmap.
From S2P Require Import Prelude RvTypes RvTables RvDecode RvHart RvHartFacts RvTrap RvTrapFacts.
From S2P Require Import RvPmp RvPmpFacts RvPmpCache RvCsr RvCsrTable RvPorts RvSystem.
From S2P Require Import RvVm RvVmRef RvVmWalk RvVmTlb.

Section Ops.

Context `{V : VmiRt} {VM : VmiMem} {ML : VmiMemLaws VM}.
Implicit Types s : riscvS.

(** Simulator states in which walks read and write the same. *)
Definition same_words (v v' : vmiState) : Prop :=
  (forall n d a, page_word n d a v' = page_word n d a v) /\
  (forall n d a, page_writable n d a v' = page_writable n d a v).

Lemma same_words_refl v : same_words v v.
Proof. done. Qed.

Lemma same_words_trans v1 v2 v3 : same_words v1 v2 -> same_words v2 v3 -> same_words v1 v3.
Proof. intros [A B] [A' B']. split; intros; congruence. Qed.

Lemma memory_words v v' : same_memory v v' -> same_words v v'.
Proof. intros (A & B & _). by split. Qed.

(** ** Unmapping *)

(** Removal of mappings of an entry. *)
Definition unmapped (p p' : riscvS * tlbEntry) : Prop :=
  (exists v, p'.1 = upd_vmi v p.1 /\ same_words (r_vmi p.1) v) /\ same_translation p.2 p'.2 /\
  t_simASID p'.2 = t_simASID p.2 /\ t_artifact p'.2 = t_artifact p.2.

Lemma unmapped_refl p : unmapped p p.
Proof. split; [|done]. exists (r_vmi p.1). split; [by destruct p.1|apply same_words_refl]. Qed.

Lemma unmapped_trans p1 p2 p3 : unmapped p1 p2 -> unmapped p2 p3 -> unmapped p1 p3.
Proof.
  intros ((v & E & W) & T & A & R) ((v' & E' & W') & T' & A' & R'). split_and!; try congruence.
  - exists v'. rewrite E', E. split; [done|]. rewrite E in W'. by eapply same_words_trans.
  - unfold same_translation in *. intuition congruence.
Qed.

Lemma unmap_mode e mode s : unmapped (s, e) (deleteTLBEntryMappingsMode e mode s).
Proof.
  unfold deleteTLBEntryMappingsMode. case_match; [|apply unmapped_refl].
  assert (Hu : forall d low high mask asid s0,
    (exists v, s0 = upd_vmi v s /\ same_words (r_vmi s) v) ->
    exists v, upd_vmi (vmirtUnaliasMemoryVM d low high mask asid (r_vmi s0)) s0 = upd_vmi v s /\
      same_words (r_vmi s) v).
  { intros d low high mask asid s0 (v & -> & [W1 W2]). eexists. split; [reflexivity|]. cbn [r_vmi upd_vmi].
    split; intros; by rewrite ?unalias_word, ?unalias_writable. }
  assert (H0 : exists v, s = upd_vmi v s /\ same_words (r_vmi s) v)
    by (exists (r_vmi s); split; [by destruct s|apply same_words_refl]).
  split; [|done]. cbn [fst]. repeat case_match; repeat apply Hu; exact H0.
Qed.

Lemma each_mode_unmapped f p :
  (forall mode q, unmapped q (f mode q)) -> unmapped p (each_mode f p).
Proof.
  intros Hf. unfold each_mode. generalize (indices 0 4). intros l. revert p.
  induction l as [|mode l IH]; intros p; [apply unmapped_refl|]. simpl.
  eapply unmapped_trans; [apply Hf|apply IH].
Qed.

Lemma unmap_entry e s : unmapped (s, e) (unmapTLBEntry e s).
Proof. apply each_mode_unmapped. intros mode [s' e']. apply unmap_mode. Qed.

Lemma unmap_new_asid e asid s : unmapped (s, e) (unmapTLBEntryNewASID e asid s).
Proof.
  apply each_mode_unmapped. intros mode [s' e']. cbv beta iota zeta. case_match; [apply unmap_mode|apply unmapped_refl].
Qed.

(** ** Deletion *)

(** The TLB [t'] in place of [t], and mappings removed. *)
Definition tlb_now (t' : gmap Z tlbEntry) (s s' : riscvS) : Prop :=
  exists v, s' = upd_vmi v (upd_tlb (Some t') s) /\ same_words (r_vmi s) v.

Lemma tlb_now_refl t s : r_tlb s = Some t -> tlb_now t s s.
Proof. intros Ht. exists (r_vmi s). destruct s. simpl in *. subst. split; [done|apply same_words_refl]. Qed.

Lemma tlb_now_trans t1 t2 s1 s2 s3 : tlb_now t1 s1 s2 -> tlb_now t2 s2 s3 -> tlb_now t2 s1 s3.
Proof.
  intros (v & -> & W) (v' & -> & W'). exists v'. split; [done|]. by eapply same_words_trans.
Qed.

Lemma tlb_now_tlb t s s' : tlb_now t s s' -> r_tlb s' = Some t.
Proof. by intros (v & -> & _). Qed.

Lemma delete_now id e s t :
  r_tlb s = Some t -> tlb_now (delete id t) s (deleteTLBEntry id e s).
Proof.
  intros Ht. unfold deleteTLBEntry, with_tlb. destruct (negb (t_isMapped e =? 0)).
  - destruct (unmap_entry e s) as [(v & Hv & W) _]. cbn [fst] in *. rewrite Hv. exists v.
    cbn [r_tlb upd_vmi]. rewrite Ht. done.
  - exists (r_vmi s). rewrite Ht. split; [by destruct s|apply same_words_refl].
Qed.

Lemma entry_lookup s t id : r_tlb s = Some t -> tlb_entry s id = t !! id.
Proof. intros Ht. unfold tlb_entry. by rewrite Ht. Qed.

(** ** Traversals *)

(** Whether a fence removes an entry it meets. *)
Definition fenced (s : riscvS) (mode : matchMode) (ASID : Z) (e : tlbEntry) : bool :=
  t_artifact e ||
  match mode with
  | MM_ANY => true
  | MM_ASID => (getASIDMask s =? 0) || (negb (t_G e) && matchASID ASID e)
  end.

Lemma elem_tail (id id0 : Z) ids :
  id <> id0 -> bool_decide (id ∈ id0 :: ids) = bool_decide (id ∈ ids).
Proof. intros Hne. apply bool_decide_ext. rewrite elem_of_cons. tauto. Qed.

Lemma invalidate_iter mode ASID ids s t :
  r_tlb s = Some t ->
  exists t', tlb_now t' s
    (fst (iter_entries (fun id e s => (deleteTLBEntryMode id e mode ASID s, @None unit)) ids s)) /\
    forall id, t' !! id =
      (e ← t !! id; if bool_decide (id ∈ ids) && fenced s mode ASID e then None else Some e).
Proof.
  revert s t. induction ids as [|id0 ids IH]; intros s t Ht; cbn [iter_entries].
  { exists t. split; [by apply tlb_now_refl|]. intros id. by destruct (t !! id). }
  rewrite (entry_lookup s t) by done. destruct (t !! id0) as [e0|] eqn:E0.
  2: { destruct (IH s t Ht) as (t' & Hn & Hl). exists t'. split; [done|]. intros id. rewrite Hl.
       destruct (decide (id = id0)) as [->|Hne]; [by rewrite E0|]. destruct (t !! id); [|done]. simpl.
       by rewrite elem_tail. }
  (** either way the loop goes on with [s1], where [id0] is deleted if it is
      fenced *)
  assert (Hstep : forall s1 t1, tlb_now t1 s s1 ->
    t1 = (if fenced s mode ASID e0 then delete id0 t else t) ->
    exists t', tlb_now t' s
      (fst (iter_entries (fun id e s => (deleteTLBEntryMode id e mode ASID s, @None unit)) ids s1)) /\
      forall id, t' !! id =
        (e ← t !! id; if bool_decide (id ∈ id0 :: ids) && fenced s mode ASID e then None else Some e)).
  { intros s1 t1 Hn Ht1. destruct (IH s1 t1 (tlb_now_tlb _ _ _ Hn)) as (t' & Hn' & Hl). exists t'.
    split; [by eapply tlb_now_trans|]. intros id. rewrite Hl.
    assert (Hf : forall e, fenced s1 mode ASID e = fenced s mode ASID e)
      by (destruct Hn as (v & -> & _); done).
    destruct (decide (id = id0)) as [->|Hne].
    - rewrite E0, (bool_decide_eq_true_2 (id0 ∈ id0 :: ids)) by (apply elem_of_cons; by left). subst t1. simpl.
      destruct (fenced s mode ASID e0) eqn:Ef; [by rewrite lookup_delete_eq|].
      rewrite E0. simpl. by rewrite Hf, Ef, andb_false_r.
    - assert (Hs : t1 !! id = t !! id) by (subst t1; case_match; [by rewrite lookup_delete_ne|done]).
      rewrite Hs. destruct (t !! id); [|done]. simpl. rewrite Hf.
      by rewrite elem_tail. }
  unfold deleteTLBEntryMode. destruct (t_artifact e0) eqn:Ea.
  - apply (Hstep _ (delete id0 t)); [by apply delete_now|]. unfold fenced. by rewrite Ea.
  - destruct (match mode with MM_ANY => true | _ => _ end) eqn:Em.
    + apply (Hstep _ (delete id0 t)); [by apply delete_now|]. unfold fenced. rewrite Ea.
      destruct mode; [done|]. by destruct (getASIDMask s =? 0); rewrite ?Em.
    + apply (Hstep _ t); [by apply tlb_now_refl|]. unfold fenced. rewrite Ea.
      destruct mode; [done|]. by destruct (getASIDMask s =? 0); rewrite ?Em.
Qed.

Lemma invalidate_eq low high mode ASID s t :
  r_tlb s = Some t ->
  exists t', tlb_now t' s (invalidateTLBEntriesRange low high mode ASID s) /\
    forall id, t' !! id =
      (e ← t !! id;
       if (t_lowVA e <=? high) && (low <=? t_highVA e) && fenced s mode ASID e then None else Some e).
Proof.
  intros Ht. unfold invalidateTLBEntriesRange. rewrite Ht.
  destruct (invalidate_iter mode ASID (range_entries low high t) s t Ht) as (t' & Hn & Hl).
  exists t'. split; [done|]. intros id. rewrite Hl. destruct (t !! id) as [e|] eqn:E; [|done]. simpl.
  replace (bool_decide (id ∈ range_entries low high t)) with ((t_lowVA e <=? high) && (low <=? t_highVA e));
    [done|].
  case_bool_decide as Hin; rewrite range_elem in Hin.
  - destruct Hin as (e' & He & ? & ?). simplify_eq. lia.
  - destruct ((t_lowVA e <=? high) && (low <=? t_highVA e)) eqn:B; [|done]. exfalso. apply Hin.
    exists e. split; [done|lia].
Qed.

(** A search ends with an entry of the list, for the ASID and no artifact;
    artifact entries it meets are deleted. *)
Lemma find_iter ASID ids s t :
  r_tlb s = Some t ->
  exists s' t' r, iter_entries (fun id e s => (s, if matchASID ASID e then Some (id, e) else None)) ids s
      = (s', r) /\ tlb_now t' s s' /\ t' ⊆ t /\
    match r with
    | Some (id, e) => id ∈ ids /\ t' !! id = Some e /\ matchASID ASID e = true
    | None => True
    end.
Proof.
  revert s t. induction ids as [|id0 ids IH]; intros s t Ht; cbn [iter_entries].
  { exists s, t, None. split_and!; [done|by apply tlb_now_refl|done|done]. }
  rewrite (entry_lookup s t) by done.
  assert (Hrec : forall s1 t1, tlb_now t1 s s1 -> t1 ⊆ t ->
    exists s' t' r, iter_entries (fun id e s => (s, if matchASID ASID e then Some (id, e) else None)) ids s1
      = (s', r) /\ tlb_now t' s s' /\ t' ⊆ t /\
      match r with
      | Some (id, e) => id ∈ id0 :: ids /\ t' !! id = Some e /\ matchASID ASID e = true
      | None => True
      end).
  { intros s1 t1 Hn Hsub. destruct (IH s1 t1 (tlb_now_tlb _ _ _ Hn)) as (s' & t' & r & Hi & Hn' & Hs & Hr).
    exists s', t', r. split_and!; [done|by eapply tlb_now_trans|by etransitivity|].
    destruct r as [[id e]|]; [|done]. destruct Hr as (? & ? & ?). split_and!; [by right|done|done]. }
  destruct (t !! id0) as [e0|] eqn:E0; [|by apply (Hrec s t (tlb_now_refl t s Ht))].
  destruct (t_artifact e0).
  { apply (Hrec _ (delete id0 t)); [by apply delete_now|apply delete_subseteq]. }
  destruct (matchASID ASID e0) eqn:Em; [|by apply (Hrec s t (tlb_now_refl t s Ht))].
  exists s, t, (Some (id0, e0)). split; [done|]. split; [by apply tlb_now_refl|].
  split; [done|]. split; [left|done].
Qed.

Lemma find_eq va s t :
  r_tlb s = Some t ->
  exists s' t' r, findTLBEntry va s = Some (s', r) /\ tlb_now t' s s' /\ t' ⊆ t /\
    match r with
    | Some (id, e) =>
        t' !! id = Some e /\ matchASID (getActiveASID s) e = true /\ t_lowVA e <= va <= t_highVA e
    | None => True
    end.
Proof.
  intros Ht. unfold findTLBEntry. rewrite Ht. cbn [mbind option_bind].
  destruct (find_iter (getActiveASID s) (range_entries va va t) s t Ht) as (s' & t' & r & -> & Hn & Hs & Hr).
  exists s', t', r. split_and!; try done. destruct r as [[id e]|]; [|done].
  destruct Hr as (Hin & Hl & Hm). split_and!; try done; apply range_elem in Hin as (e' & He & ? & ?);
    pose proof (lookup_weaken _ _ _ _ Hl Hs); simplify_eq; lia.
Qed.

End Ops.
