(* ===== verification/RvVmMap.v ===== *)
(** * An access is translated as the reference says

    From a miss to the mapping: the TLB is searched or the tables walked, the
    entry is mapped into the virtual domain, and the PMP domain behind it is
    refreshed.  If the TLB reflects the page tables, the result is the one of
    the reference, whether an entry was found or made, and the TLB reflects
    the tables afterwards. *)

From stdpp Require Import functions gmap.
From S2P Require Import Prelude RvTypes RvTables RvDecode RvHart RvHartFacts RvTrap RvTrapFacts.
From S2P Require Import RvPmp RvPmpFacts RvPmpCache RvCsr RvCsrTable RvPorts RvSystem.
From S2P Require Import RvVm RvVmRef RvVmWalk RvVmTlb RvVmOps.

Section Pmp.

Context `{V : VmiRt} {VM : VmiMem} {ML : VmiMemLaws VM}.
Implicit Types s : riscvS.

(** ** The PMP domain *)

(** Only privileges and the kind of the last access fault change. *)
Definition refreshed (s s' : riscvS) : Prop :=
  exists v af, s' = upd_vmi v (upd_AFErrorIn af s) /\ same_memory (r_vmi s) v.

Lemma refreshed_refl s : refreshed s s.
Proof. exists (r_vmi s), (r_AFErrorIn s). by destruct s. Qed.

Lemma refreshed_trans s1 s2 s3 : refreshed s1 s2 -> refreshed s2 s3 -> refreshed s1 s3.
Proof.
  intros (v & af & -> & Hm) (v' & af' & -> & Hm'). exists v', af'. split; [done|].
  eapply same_memory_trans; [exact Hm|exact Hm'].
Qed.

Lemma set_priv_refreshed mode low high p s : refreshed s (setPMPPriv mode low high p s).
Proof.
  assert (Hp : forall d x s0, refreshed s0 (upd_vmi (vmirtProtectMemory d low high p x (r_vmi s0)) s0)).
  { intros d x s0. eexists _, (r_AFErrorIn s0). split; [by destruct s0|apply protect_memory]. }
  unfold setPMPPriv. case_match; [apply Hp|].
  repeat case_match; eauto using refreshed_refl, refreshed_trans.
Qed.

Lemma refreshed_ok s s' : refreshed s s' -> pmp_ok s -> pmp_ok s'.
Proof. intros (v & af & -> & _) []. by split. Qed.

Lemma map_int_refreshed mode req PA high s :
  pmp_ok s -> 0 <= PA <= high -> high < 2 ^ 64 -> high mod 4 = 3 ->
  exists s' lo hi, mapPMPInt mode req PA high s = (s', lo, hi) /\ lo <= PA <= hi /\ hi < 2 ^ 64 /\
    refreshed s s'.
Proof.
  intros H HPA Hh Ha. unfold mapPMPInt. fold (default_priv mode).
  pose proof (refine_all_uniform (Z.to_nat (num_pmp s)) s mode PA high H HPA Hh Ha) as Hu.
  destruct (refine_all _ _ _ _ _) as [[lo hi] priv]. destruct Hu as (Hlo & Hhi & _).
  eexists _, lo, hi. split; [reflexivity|]. split_and!; try lia.
  eapply refreshed_trans; [|apply set_priv_refreshed]. case_match; [|apply refreshed_refl].
  exists (r_vmi s), riscv_AFault_PMP. by destruct s.
Qed.

Lemma map_regions_refreshed fuel mode req mask last high s :
  pmp_ok s -> 0 <= mask < 2 ^ 64 -> mask mod 4 = 3 -> 0 <= last < 2 ^ 64 ->
  w64 (high + 1) <= last < w64 (high + 1) + Z.of_nat fuel ->
  exists s', map_regions fuel mode req mask last high s = Some s' /\ refreshed s s'.
Proof.
  intros H Hmask Hma Hlast. revert high s H. induction fuel as [|fuel IH]; intros high s H Hf; [lia|].
  assert (Hfirst : 0 <= w64 (high + 1)) by (apply (wrap_range 64); lia).
  cbn [map_regions]. destruct (Z.leb_spec (w64 (high + 1)) mask) as [Hle|Hgt].
  2: { rewrite Z.ltb_irrefl. exists s. split; [done|apply refreshed_refl]. }
  destruct (map_int_refreshed mode req (w64 (high + 1)) mask s H) as (s1 & lo & hi & -> & Hlo & Hhi & Hs1);
    try lia.
  destruct (Z.ltb_spec hi last); [|by exists s1].
  assert (Hw : w64 (hi + 1) = hi + 1) by (apply wrap_small; lia).
  destruct (IH hi s1) as (s' & He & Hs'); [by eapply refreshed_ok|rewrite Hw; lia|].
  exists s'. split; [done|]. by eapply refreshed_trans.
Qed.

Lemma map_pmp_refreshed mode req low high s :
  pmp_ok s -> 0 <= low <= high -> high < 2 ^ 64 ->
  exists s', mapPMP (Z.to_nat (high - low + 1)) mode req low high s = Some s' /\ refreshed s s'.
Proof.
  intros H Hl Hh. unfold mapPMP. destruct (negb _); [|exists s; split; [done|apply refreshed_refl]].
  destruct (address_mask (r_extBits s) (ok_ext s H)) as (_ & Hr & Hm4).
  assert (Hfirst : w64 (w64 (low - 1) + 1) = low).
  { unfold wrap. rewrite Zplus_mod_idemp_l. replace (low - 1 + 1) with low by lia.
    apply Z.mod_small. lia. }
  apply map_regions_refreshed; try done; [lia|]. rewrite Hfirst. lia.
Qed.

End Pmp.

(** ** Mapping an entry *)

Lemma land_low va k :
  0 <= va < 2 ^ 64 -> 0 <= k <= 64 -> Z.land va (w64 (- 2 ^ k)) = va / 2 ^ k * 2 ^ k.
Proof.
  intros Hva Hk. replace (- 2 ^ k) with (Z.shiftl (-1) k) by (rewrite shiftl_mul by lia; lia).
  rewrite <- Z.shiftl_mul_pow2, <- Z.shiftr_div_pow2 by lia.
  apply Z.bits_inj'. intros j Hj. rewrite Z.land_spec, Z.shiftl_spec by done.
  destruct (Z.lt_ge_cases j 64).
  2: { rewrite (testbit_above va 64) by lia. rewrite Z.shiftr_spec by lia.
       by rewrite (testbit_above va 64) by lia. }
  unfold wrap. rewrite Z.mod_pow2_bits_low by lia. destruct (Z.lt_ge_cases j k).
  - by rewrite Z.shiftl_spec_low, (Z.testbit_neg_r _ (j - k)), andb_false_r by lia.
  - rewrite Z.shiftl_spec_high, Z.shiftr_spec, Z.bits_m1, andb_true_r by lia. f_equal. lia.
Qed.

(** A multiple of a power of two below an address is below every multiple of
    a smaller one that is. *)
Lemma floor_in_page low va k j :
  0 <= j <= k -> low mod 2 ^ k = 0 -> low <= va < low + 2 ^ k ->
  low <= va / 2 ^ j * 2 ^ j /\ va / 2 ^ j * 2 ^ j + 2 ^ j <= low + 2 ^ k.
Proof.
  intros Hj Hm Hva. pose proof (pow2_pos j ltac:(lia)). pose proof (pow2_pos (k - j) ltac:(lia)).
  assert (Hk : 2 ^ k = 2 ^ (k - j) * 2 ^ j) by (rewrite <- Z.pow_add_r by lia; f_equal; lia).
  pose proof (Z.div_mod low (2 ^ k) ltac:(lia)) as Hlow. rewrite Hm, Z.add_0_r in Hlow.
  pose proof (Z.div_mod va (2 ^ j) ltac:(lia)). pose proof (Z.mod_pos_bound va (2 ^ j) ltac:(lia)).
  set (q := low / 2 ^ k) in *. set (r := va / 2 ^ j) in *.
  assert (Hq : low = (2 ^ (k - j) * q) * 2 ^ j) by lia.
  assert (2 ^ (k - j) * q <= r) by nia. assert (r < 2 ^ (k - j) * q + 2 ^ (k - j)) by nia. nia.
Qed.

Section Map.

Context `{V : VmiRt} {VM : VmiMem} {ML : VmiMemLaws VM}.
Implicit Types s : riscvS.

(** The ranges that [mapTLBEntry] works out. *)
Definition map_range (e : tlbEntry) (va : Z) : Z * Z * Z * Z :=
  let size := w64 (getEntryHighPA e - t_PA e + 1) in
  let vmiPageMax := 0x100000000 in
  if size >? vmiPageMax then
    let lowVA := Z.land va (w64 (- vmiPageMax)) in
    let lowPA := w64 (lowVA + w64 (t_PA e - t_lowVA e)) in
    (vmiPageMax, lowVA, lowPA, w64 (lowPA + vmiPageMax - 1))
  else (size, t_lowVA e, t_PA e, getEntryHighPA e).

Lemma map_range_eq m s e va :
  sv_ok m -> reflects m s e -> t_lowVA e <= va <= t_highVA e ->
  exists size lowVA lowPA, map_range e va = (size, lowVA, lowPA, lowPA + size - 1) /\
    0 < size <= 2 ^ 32 /\ t_lowVA e <= lowVA /\ lowVA + size - 1 <= t_highVA e /\
    lowVA <= va / 2 ^ 12 * 2 ^ 12 /\ va / 2 ^ 12 * 2 ^ 12 + 2 ^ 12 <= lowVA + size /\
    lowPA = t_PA e + (lowVA - t_lowVA e) /\ 0 <= lowPA /\ lowPA + size <= 2 ^ 64.
Proof.
  intros H [(i & Hi & Hal & Hh) [Hlo Hhi] HPA _] Hva. unfold map_range, getEntryHighPA. cbv zeta.
  pose proof (page_bits_range m H i Hi) as Hp. set (k := page_bits m i) in *.
  pose proof (pow2_pos k ltac:(lia)). pose proof (Z.pow_le_mono_r 2 k 63 ltac:(lia) ltac:(lia)).
  pose proof (Z.pow_le_mono_r 2 12 k ltac:(lia) ltac:(lia)).
  pose proof (sk_va m H). pose proof (Z.pow_le_mono_r 2 (sv_va_bits m) 64 ltac:(lia) ltac:(lia)).
  rewrite (wrap_small 64 (t_PA e + t_highVA e - t_lowVA e)) by lia.
  rewrite (wrap_small 64 (_ - t_PA e + 1)) by lia.
  replace (t_PA e + t_highVA e - t_lowVA e - t_PA e + 1) with (2 ^ k) by lia.
  destruct (floor_in_page (t_lowVA e) va k 12) as [F1 F2]; [lia|done|lia|].
  destruct (Z.gtb_spec (2 ^ k) 0x100000000) as [Hbig|Hsmall].
  - assert (Hk : 32 <= k).
    { destruct (Z.le_gt_cases 32 k) as [|Hk]; [done|].
      pose proof (Z.pow_le_mono_r 2 k 32 ltac:(lia) ltac:(lia)). lia. }
    change (Z.opp 0x100000000) with (- 2 ^ 32). rewrite land_low by lia.
    destruct (floor_in_page (t_lowVA e) va k 32) as [G1 G2]; [lia|done|lia|].
    set (lowVA := va / 2 ^ 32 * 2 ^ 32) in *.
    assert (Hw : w64 (lowVA + w64 (t_PA e - t_lowVA e)) = t_PA e + (lowVA - t_lowVA e)).
    { unfold wrap. rewrite Zplus_mod_idemp_r.
      replace (lowVA + (t_PA e - t_lowVA e)) with (t_PA e + (lowVA - t_lowVA e)) by lia.
      apply Z.mod_small. lia. }
    rewrite Hw, wrap_small by lia.
    destruct (floor_in_page lowVA va 32 12) as [K1 K2];
      [lia|apply Z.mod_mul; lia|pose proof (Z.div_mod va (2 ^ 32)); pose proof (Z.mod_pos_bound va (2 ^ 32)); lia|].
    eexists _, _, _. split; [reflexivity|]. lia.
  - exists (2 ^ k), (t_lowVA e), (t_PA e). split; [f_equal; lia|]. lia.
Qed.

(** The simulator then gives an access under the ASID what the entry says. *)
Lemma map_entry_eq m e domainV mode req va highVA p s :
  sv_ok m -> pmp_ok s -> reflects m s e -> t_lowVA e <= va <= t_highVA e ->
  exists s' mi,
    mapTLBEntry e domainV mode req {| m_lowVA := va; m_highVA := highVA; m_priv := p |} s =
      Some (s', set_isMapped (Z.lor (t_isMapped e) (getModeMask mode)) e, mi) /\
    (exists v af, s' = upd_vmi v (upd_AFErrorIn af s) /\ same_words (r_vmi s) v /\
       vm_alias domainV (t_simASID e) va v =
         Some (getPMPDomainPriv s mode req, t_PA e + (va - t_lowVA e), p)) /\
    m_lowVA mi <= va / 2 ^ 12 * 2 ^ 12 /\ va / 2 ^ 12 * 2 ^ 12 + 2 ^ 12 - 1 <= m_highVA mi.
Proof.
  intros H Hpmp Hrf Hva. destruct (map_range_eq m s e va H Hrf Hva)
    as (size & lowVA & lowPA & Hr & Hsz & Hl1 & Hl2 & Hp1 & Hp2 & HPA & HP0 & HP1).
  pose proof (rf_range _ _ _ Hrf) as [? ?]. pose proof (sk_va m H).
  pose proof (Z.pow_le_mono_r 2 (sv_va_bits m) 64 ltac:(lia) ltac:(lia)).
  pose proof (Z.div_mod va (2 ^ 12) ltac:(lia)). pose proof (Z.mod_pos_bound va (2 ^ 12) ltac:(lia)).
  unfold mapTLBEntry. cbn [m_lowVA m_priv]. unfold map_range in Hr. cbv zeta in Hr |- *. rewrite Hr.
  set (s1 := upd_vmi _ s). destruct (map_pmp_refreshed mode req lowPA (lowPA + size - 1) s1)
    as (s2 & -> & (v & af & -> & Hm)); [destruct Hpmp; by split|lia|lia|].
  cbn [mbind option_bind]. eexists _, _. split; [reflexivity|]. split.
  - exists v, af. split; [reflexivity|]. split.
    + eapply same_words_trans; [|apply memory_words, Hm]. split; intros;
        [apply alias_word|apply alias_writable].
    + destruct Hm as (_ & _ & ->). unfold s1. cbn [r_vmi upd_vmi]. rewrite alias_at, !Z.eqb_refl.
      replace (lowVA <=? va) with true by lia.
      replace (va <=? lowVA + (lowPA + size - 1 - lowPA)) with true by lia. cbn [andb].
      do 2 f_equal. f_equal. lia.
  - cbn [m_lowVA m_highVA]. rewrite wrap_small by lia. lia.
Qed.

End Map.
