(* ===== verification/RvVmMiss.v ===== *)
(** * A miss is handled as the reference says

    [findOrCreateTLBEntry] searches the TLB and then walks the tables.  If
    the entries for the active ASID reflect the page tables, its result is
    that of the reference whether an entry was found or made, and the entries
    reflect the tables afterwards.  [tlbMiss] maps the entry, after which the
    simulator translates the access as the reference does. *)

From stdpp Require Import functions gmap.
From S2P Require Import Prelude RvTypes RvTables RvDecode RvHart RvHartFacts RvTrap RvTrapFacts.
From S2P Require Import RvPmp RvPmpFacts RvPmpCache RvCsr RvCsrTable RvPorts RvSystem.
From S2P Require Import RvVm RvVmRef RvVmWalk RvVmTlb RvVmOps RvVmMap.

Section Miss.

Context `{V : VmiRt} {VM : VmiMem} {ML : VmiMemLaws VM}.
Implicit Types s : riscvS.

(** The paging scheme that satp selects. *)
Definition sv_of (s : riscvS) : option svMode :=
  let vaMode := RD_CSR_FIELD s satp atp_MODE in
  if vaMode =? VAM_Sv32 then Some Sv32
  else if vaMode =? VAM_Sv39 then Some Sv39
  else if vaMode =? VAM_Sv48 then Some Sv48 else None.

Lemma sv_of_ok s m : sv_of s = Some m -> sv_ok m.
Proof.
  unfold sv_of. cbv zeta. repeat case_match; intros; simplify_eq;
    [apply Sv32_ok|apply Sv39_ok|apply Sv48_ok].
Qed.

Lemma lookup_mode s m mode e req at_ :
  sv_of s = Some m -> tlbLookup mode e req at_ s = Some (tlbLookupSv m mode e req at_ s).
Proof. unfold sv_of, tlbLookup. cbv zeta. repeat case_match; intros; by simplify_eq. Qed.

Context (m : svMode) (H : sv_ok m).

(** ** States between the steps of a miss *)

(** Only the simulator, the TLB and the flags of a walk change. *)
Definition framed (s s' : riscvS) : Prop :=
  exists v af b act t,
    s' = upd_vmi v (upd_AFErrorIn af (upd_PTWBadAddr b (upd_PTWActive act (upd_tlb (Some t) s)))).

Lemma framed_trans s1 s2 s3 : framed s1 s2 -> framed s2 s3 -> framed s1 s3.
Proof. intros (?&?&?&?&?&->) (v&af&b&act&t&->). by exists v, af, b, act, t. Qed.

Lemma tlb_now_framed t s s' : tlb_now t s s' -> framed s s'.
Proof.
  intros (v & -> & _). exists v, (r_AFErrorIn s), (r_PTWBadAddr s), (r_PTWActive s), t. by destruct s.
Qed.

Lemma stored_framed addr pte s s' t : stored m addr pte s s' -> r_tlb s = Some t -> framed s s'.
Proof.
  intros (v & af & b & act & -> & _) Ht. exists v, af, b, act, t. destruct s. simpl in *. by subst.
Qed.

Lemma walked_framed s s' t : walked s s' -> r_tlb s = Some t -> framed s s'.
Proof.
  intros (v & af & b & act & -> & _) Ht. exists v, af, b, act, t. destruct s. simpl in *. by subst.
Qed.

(** The entries for the active ASID reflect the tables. *)
Definition tlb_current (s : riscvS) : Prop :=
  exists t, r_tlb s = Some t /\
    forall id e, t !! id = Some e -> matchASID (getActiveASID s) e = true -> reflects m s e.

(** The page tables are those of [s] but for the word at [addr]. *)
Definition written (addr pte : Z) (s s' : riscvS) : Prop :=
  forall a, a mod sv_bytes m = 0 ->
    page_mem m s' a = if a =? addr then Some pte else page_mem m s a.

(** Walks find and may write the same. *)
Definition same_walks (s s' : riscvS) : Prop :=
  framed s s' /\ same_words (r_vmi s) (r_vmi s').

Lemma tlb_now_walks t s s' : tlb_now t s s' -> same_walks s s'.
Proof. intros Hn. split; [by eapply tlb_now_framed|]. by destruct Hn as (v & -> & Hw). Qed.

Lemma same_walks_tables s s' : same_walks s s' -> same_tables m s s'.
Proof. intros [(v & af & b & act & t & ->) [Hw _]]. split; [|done]. intros a. apply Hw. Qed.

Lemma same_walks_translate s s' mode req va :
  same_walks s s' -> ref_translate m s' mode req va = ref_translate m s mode req va.
Proof.
  intros Hs. pose proof (same_walks_tables _ _ Hs) as [Hm Hr].
  destruct Hs as [(v & af & b & act & t & ->) [_ Hw]]. unfold ref_translate. rewrite Hr.
  rewrite (ref_leaf_ext m _ (page_mem m s)) by done.
  destruct (ref_leaf m (page_mem m s) (ref_root s) va) as [|[[i pte] addr]]; [done|].
  cbn [r_vmi upd_vmi] in Hw. cbn [r_vmi upd_vmi]. rewrite Hw. done.
Qed.

Lemma current_sub t t' s s' :
  same_walks s s' -> r_tlb s = Some t -> r_tlb s' = Some t' -> t' ⊆ t ->
  tlb_current s -> tlb_current s'.
Proof.
  intros Hs Ht Ht' Hsub (t0 & Ht0 & Hc). simplify_eq. exists t'. split; [done|]. intros id e Hl Hm.
  apply (reflects_same m s); [by apply same_walks_tables|]. apply (Hc id); [by eapply lookup_weaken|].
  destruct Hs as [(v & af & b & act & u & ->) _]. done.
Qed.

(** ** What an entry grants *)

(** Every kind of access the privileges include is one the reference allows
    as the tables are. *)
Definition grants (s : riscvS) (mode va p : Z) : Prop :=
  forall r, is_access r -> any p r = true -> exists l, ref_translate m s mode r va = inr l.

(** The bits an access needs are set. *)
Lemma update_none hwA hwD req pte :
  pte_A pte = true -> (req = MEM_PRIV_W -> pte_D pte = true) -> ref_update hwA hwD req pte = Some pte.
Proof.
  intros HA HD. unfold ref_update. rewrite HA. cbn [negb andb orb].
  destruct (Z.eqb_spec req MEM_PRIV_W) as [->|]; [by rewrite HD|done].
Qed.

Lemma hit_translate s e mode req va l :
  reflects_at m s e va l ->
  ref_allowed (getMXR s) (getSUM s) (version_1_11 s) mode req l.1.2 = true ->
  (req = MEM_PRIV_W -> t_D e = true) -> ref_translate m s mode req va = inr l.
Proof.
  destruct l as [[i pte] addr]. intros [Hl _ _ _ HA HD] Hal HW. cbn [fst snd] in *.
  unfold ref_translate. rewrite Hl, Hal. cbn [negb]. rewrite update_none, Z.eqb_refl by auto. done.
Qed.

Lemma usable_any s mode pte r :
  is_access r ->
  any (usable s mode pte) r = ref_allowed (getMXR s) (getSUM s) (version_1_11 s) mode r pte.
Proof.
  unfold usable. intros [-> | [-> | ->]];
    destruct (ref_allowed _ _ _ mode MEM_PRIV_R pte), (ref_allowed _ _ _ mode MEM_PRIV_W pte),
      (ref_allowed _ _ _ mode MEM_PRIV_X pte); done.
Qed.

Lemma usable_clean s mode pte r :
  is_access r ->
  any (Z.ldiff (usable s mode pte) MEM_PRIV_W) r = negb (r =? MEM_PRIV_W) && any (usable s mode pte) r.
Proof.
  unfold usable. intros [-> | [-> | ->]];
    destruct (ref_allowed _ _ _ mode MEM_PRIV_R pte), (ref_allowed _ _ _ mode MEM_PRIV_W pte),
      (ref_allowed _ _ _ mode MEM_PRIV_X pte); done.
Qed.

(** An entry passes the validation exactly if the access needs no walk. *)
Lemma validate_eq s t mode id e req mp va l :
  is_access req -> r_tlb s = Some t -> reflects_at m s e va l ->
  if ref_allowed (getMXR s) (getSUM s) (version_1_11 s) mode req l.1.2 &&
     (negb (req =? MEM_PRIV_W) || t_D e)
  then exists p, validateTLBEntryPriv mode (Some (id, e)) req mp s = (s, Some (id, e), p) /\
         ref_translate m s mode req va = inr l /\ any p req = true /\ grants s mode va p
  else exists s' t', validateTLBEntryPriv mode (Some (id, e)) req mp s = (s', None, mp) /\
         tlb_now t' s s' /\ t' ⊆ t.
Proof.
  intros Hreq Ht Hat. pose proof Hat as [_ _ Hp HU _ HD]. unfold validateTLBEntryPriv.
  rewrite (check_allowed s mode e req l.1.2), access_writes by done.
  destruct (ref_allowed _ _ _ mode req l.1.2) eqn:Ea; cbn [negb andb];
    [|exists s, t; split; [done|]; split; [by apply tlb_now_refl|done]].
  rewrite (check_usable s mode e req l.1.2), Ea by done.
  destruct ((req =? MEM_PRIV_W) && negb (t_D e)) eqn:Ed.
  - replace (negb (req =? MEM_PRIV_W) || t_D e) with false by (by destruct (req =? MEM_PRIV_W), (t_D e)).
    exists (deleteTLBEntry id e s), (delete id t). split; [done|].
    split; [by apply delete_now|apply delete_subseteq].
  - replace (negb (req =? MEM_PRIV_W) || t_D e) with true by (by destruct (req =? MEM_PRIV_W), (t_D e)).
    eexists. split; [reflexivity|]. assert (HW : req = MEM_PRIV_W -> t_D e = true).
    { intros ->. by destruct (t_D e). }
    split; [by eapply hit_translate|]. destruct (t_D e) eqn:ED; cbn [negb].
    + split; [by rewrite usable_any|]. intros r Hr Hg. exists l. rewrite usable_any in Hg by done.
      eapply hit_translate; eauto.
    + split.
      * rewrite usable_clean, usable_any, Ea by done. destruct (Z.eqb_spec req MEM_PRIV_W) as [->|]; [|done].
        by rewrite HW in ED.
      * intros r Hr Hg. rewrite usable_clean, usable_any in Hg by done. exists l.
        apply andb_true_iff in Hg as [Hne Hg]. eapply hit_translate; eauto. intros ->. done.
Qed.

(** ** Walks *)

Lemma leaf_word s va i pte addr :
  ref_leaf m (page_mem m s) (ref_root s) va = inr (i, pte, addr) ->
  page_mem m s addr = Some pte /\ addr mod sv_bytes m = 0.
Proof.
  unfold ref_leaf. case_match; [done|].
  destruct (ref_walk m _ va _ _) as [|[[i' pte'] addr']] eqn:E; [done|]. case_match; [|done]. intros ?.
  simplify_eq. eapply walk_word; [done|exact E|apply root_aligned].
Qed.

(** A translation is a leaf with its bits updated. *)
Lemma translate_leaf s mode req va i pte addr :
  ref_translate m s mode req va = inr (i, pte, addr) ->
  exists pte0, ref_leaf m (page_mem m s) (ref_root s) va = inr (i, pte0, addr) /\
    ref_allowed (getMXR s) (getSUM s) (version_1_11 s) mode req pte0 = true /\
    same_pte m pte0 pte /\ pte_A pte = true /\ (req = MEM_PRIV_W -> pte_D pte = true).
Proof.
  unfold ref_translate. destruct (ref_leaf m _ _ va) as [|[[i' pte0] addr']] eqn:E; [done|].
  destruct (ref_allowed _ _ _ mode req pte0) eqn:Ea; [|done]. cbn [negb].
  destruct (ref_update _ _ req pte0) as [pte'|] eqn:Eu; [|done]. case_match; [done|]. intros ?.
  simplify_eq. exists pte0. destruct (update_same m _ _ _ _ _ Eu) as (Hs & HA & HD). done.
Qed.

Lemma stored_current s s' addr pte pte0 :
  stored m addr pte s s' -> page_mem m s addr = Some pte0 -> same_pte m pte0 pte ->
  tlb_current s -> tlb_current s'.
Proof.
  intros Hst Hw Hs (t & Ht & Hc). exists t. split; [by destruct Hst as (v & af & b & act & -> & _)|].
  intros id e Hl Hm. apply (reflects_stored m H s s' e addr pte0 pte Hst Hw Hs). apply (Hc id e Hl).
  by destruct Hst as (v & af & b & act & -> & _).
Qed.

(** What a search or a walk gives for an access the reference translates. *)
Record supplied (s : riscvS) (mode req va : Z) (l : Z * Z * Z) (s' : riscvS) (e : tlbEntry) (p : Z)
  : Prop := {
  su_framed : framed s s';
  su_written : written l.2 l.1.2 s s';
  su_current : tlb_current s';
  su_reflects : reflects m s' e;
  su_covers : t_lowVA e <= va <= t_highVA e;
  su_PA : t_PA e + (va - t_lowVA e) = physical m va l.1.1 l.1.2;
  su_priv : any p req = true;
  su_grants : grants s' mode va p;
}.

Lemma leaf_unique s e va l l' :
  reflects_at m s e va l -> ref_leaf m (page_mem m s) (ref_root s) va = inr l' -> l = l'.
Proof. intros [] Hl. congruence. Qed.

Lemma stored_leaf s s2 t va i pte0 pte addr :
  r_tlb s = Some t -> ref_leaf m (page_mem m s) (ref_root s) va = inr (i, pte0, addr) ->
  same_pte m pte0 pte -> stored m addr pte s s2 ->
  written addr pte s s2 /\ ref_leaf m (page_mem m s2) (ref_root s2) va = inr (i, pte, addr).
Proof.
  intros Ht Hleaf Hsame Hst. destruct (leaf_word _ _ _ _ _ Hleaf) as [Hword Haddr].
  assert (Hwr : written addr pte s s2).
  { intros a Ha. destruct Hst as (v & af & b & act & -> & _ & _ & Hm). by apply Hm. }
  split; [done|].
  rewrite (leaf_stored m H (page_mem m s) _ _ va addr pte0 pte Hwr Hword Hsame (root_aligned s2)).
  replace (ref_root s2) with (ref_root s)
    by (destruct (stored_framed _ _ _ _ _ Hst Ht) as (?&?&?&?&?&->); done).
  by rewrite Hleaf, Z.eqb_refl.
Qed.

(** An entry that reflects the tables is added. *)
Lemma insert_current t id e s s' :
  r_tlb s = Some t -> tlb_current s -> reflects m s e -> same_walks s s' -> r_tlb s' = Some (<[id:=e]> t) ->
  tlb_current s' /\ reflects m s' e.
Proof.
  intros Ht (t0 & Ht0 & Hc) He Hs Ht'. simplify_eq. pose proof (same_walks_tables _ _ Hs) as Hst.
  assert (He' : reflects m s' e) by (by apply (reflects_same m s)). split; [|done].
  exists (<[id:=e]> t). split; [done|]. intros id' e1 Hl Hma. destruct (decide (id' = id)) as [->|Hne].
  - rewrite lookup_insert_eq in Hl. by simplify_eq.
  - rewrite lookup_insert_ne in Hl by done. apply (reflects_same m s); [done|].
    apply (Hc id'); [done|]. destruct Hs as [(?&?&?&?&?&->) _]. done.
Qed.

(** The entry that a walk makes. *)
Lemma create_eq s s2 t mode req va i pte addr e :
  is_access req -> 0 <= va < 2 ^ sv_va_bits m -> r_tlb s = Some t ->
  tlb_current s -> ref_translate m s mode req va = inr (i, pte, addr) ->
  stored m addr pte s s2 -> entry_of m s va i pte e ->
  exists s' id e' p,
    (let '(s3, entry) := allocateTLBEntry e s2 in validateTLBEntryPriv mode (Some entry) req req s3) =
      (s', Some (id, e'), p) /\ supplied s mode req va (i, pte, addr) s' e' p.
Proof.
  intros Hreq Hva Ht Hcur Href Hst He.
  destruct (translate_leaf _ _ _ _ _ _ _ Href) as (pte0 & Hleaf & Hal & Hsame & HA & HD).
  pose proof (stored_current _ _ _ _ _ Hst (proj1 (leaf_word _ _ _ _ _ Hleaf)) Hsame Hcur) as Hcur2.
  pose proof (stored_framed _ _ _ _ _ Hst Ht) as Hfr.
  destruct (stored_leaf _ _ _ _ _ _ _ _ Ht Hleaf Hsame Hst) as [Hwr Hleaf2].
  pose proof (entry_reflects m H s s2 e va i pte addr He Hleaf2 HA Hva) as Hrf.
  pose proof Hcur2 as (t2 & Ht2 & _).
  unfold allocateTLBEntry. set (e' := set_artifact _ e). set (id := newTLBEntry _).
  set (s3 := with_tlb _ s2).
  assert (Hn : tlb_now (<[id:=e']> t2) s2 s3).
  { exists (r_vmi s2). unfold s3, with_tlb. rewrite Ht2. split; [by destruct s2|apply same_words_refl]. }
  pose proof (tlb_now_walks _ _ _ Hn) as Hw3.
  destruct (insert_current t2 id e' s2 s3) as [Hcur3 Hrf3];
    [done|done|by apply (reflects_entry m s2 e)|done|by eapply tlb_now_tlb|].
  pose proof (page_low m H va i Hva (leaf_level m H _ _ _ _ _ _ Hleaf2)) as [Hlo Hhi].
  assert (Hcov : t_lowVA e' <= va <= t_highVA e').
  { destruct He. cbn [e' set_artifact t_lowVA t_highVA]. lia. }
  destruct (rf_at _ _ _ Hrf3 va Hcov) as [l Hat].
  assert (l = (i, pte, addr)) as -> by (by apply (leaf_unique s3 e' va)).
  pose proof (validate_eq s3 _ mode id e' req req va _ Hreq (tlb_now_tlb _ _ _ Hn) Hat) as Hv.
  cbn [fst snd] in Hv. pose proof (framed_trans _ _ _ Hfr (proj1 Hw3)) as Hfr3.
  replace (ref_allowed (getMXR s3) (getSUM s3) (version_1_11 s3) mode req pte) with true in Hv.
  2: { rewrite (same_pte_allowed m pte0) by done. destruct Hfr3 as (?&?&?&?&?&->). by rewrite <- Hal. }
  replace (negb (req =? MEM_PRIV_W) || t_D e') with true in Hv.
  2: { destruct (Z.eqb_spec req MEM_PRIV_W) as [Hw|]; [|done]. symmetry. rewrite orb_true_iff. right.
       unfold e'. cbn [set_artifact t_D]. rewrite (eo_D _ _ _ _ _ _ He). by apply HD. }
  destruct Hv as (p & Hp & _ & Hany & Hg). exists s3, id, e', p. split; [exact Hp|].
  split; try done. by apply (ra_PA _ _ _ _ _ Hat).
Qed.

(** ** Search or walk *)

(** The result for an access in [s]. *)
Definition outcome (s : riscvS) (mode req va : Z) (at_ : bool)
    (o : option (riscvS * option (Z * tlbEntry) * Z)) : Prop :=
  match ref_translate m s mode req va with
  | inl f =>
      exists s1, same_walks s s1 /\ tlb_current s1 /\
        o = (s' ← handleInvalidAccess va at_ (fault_code req f) s1; Some (s', None, req))
  | inr l => exists s1 id e p, o = Some (s1, Some (id, e), p) /\ supplied s mode req va l s1 e p
  end.

Lemma same_walks_trans s1 s2 s3 : same_walks s1 s2 -> same_walks s2 s3 -> same_walks s1 s3.
Proof. intros [F W] [F' W']. split; [by eapply framed_trans|by eapply same_words_trans]. Qed.

Lemma outcome_later s s1 mode req va at_ o :
  same_walks s s1 -> outcome s1 mode req va at_ o -> outcome s mode req va at_ o.
Proof.
  intros Hs. unfold outcome. rewrite (same_walks_translate s s1) by done.
  destruct (ref_translate m s mode req va) as [f|l].
  - intros (s2 & Hs2 & Hc & ->). exists s2. split; [by eapply same_walks_trans|done].
  - intros (s2 & id & e & p & -> & []). exists s2, id, e, p. split; [done|]. split; try done.
    + eapply framed_trans; [apply Hs|done].
    + intros a Ha. rewrite su_written0 by done. case_match; [done|].
      apply (same_walks_tables _ _ Hs).
Qed.

Lemma walk_outcome s mode req va at_ :
  sv_of s = Some m -> is_access req -> 0 <= va < 2 ^ sv_va_bits m -> r_artifactAccess s = false ->
  tlb_current s ->
  outcome s mode req va at_
    (looked ← tlbLookup mode (initialEntry va) req at_ s;
     match looked with
     | (s, inl exception) => s ← handleInvalidAccess va at_ exception s; Some (s, None, req)
     | (s, inr tmp) =>
         let '(s, entry) := allocateTLBEntry tmp s in
         Some (validateTLBEntryPriv mode (Some entry) req req s)
     end).
Proof.
  intros Hm Hreq Hva Hart Hcur. rewrite (lookup_mode s m) by done. cbn [mbind option_bind].
  destruct (lookup_eq m H va mode req at_ s Hreq Hart Hva) as (s' & r & -> & Hr). unfold outcome.
  pose proof Hcur as (t & Ht & _).
  destruct (ref_translate m s mode req va) as [f|[[i pte] addr]] eqn:Href.
  - destruct Hr as [-> Hw]. exists s'. assert (Hs : same_walks s s').
    { split; [by eapply walked_framed|]. destruct Hw as (v & af & b & act & -> & Hsm). by apply memory_words. }
    split; [done|]. split; [|done]. apply (current_sub t t s s' Hs Ht); try done.
    by destruct Hw as (v & af & b & act & -> & _).
  - destruct Hr as [Hst (e & -> & He)].
    destruct (create_eq s s' t mode req va i pte addr e) as (s3 & id & e' & p & Hv & Hsu); try done.
    exists s3, id, e', p. split; [|done]. destruct (allocateTLBEntry e s') as [s4 entry]. by f_equal.
Qed.

Lemma find_or_create_outcome s mode req va highVA at_ :
  sv_of s = Some m -> is_access req -> 0 <= va < 2 ^ sv_va_bits m -> r_artifactAccess s = false ->
  tlb_current s ->
  outcome s mode req va at_
    (findOrCreateTLBEntry mode at_ {| m_lowVA := va; m_highVA := highVA; m_priv := req |} s).
Proof.
  intros Hm Hreq Hva Hart Hcur. pose proof Hcur as (t & Ht & _). unfold findOrCreateTLBEntry.
  cbn [m_lowVA m_priv]. destruct (find_eq va s t Ht) as (s1 & t1 & r & -> & Hn & Hsub & Hr).
  cbn [mbind option_bind]. pose proof (tlb_now_walks _ _ _ Hn) as Hw1.
  assert (Hlater : forall s2 t2, tlb_now t2 s s2 -> t2 ⊆ t ->
    same_walks s s2 /\ tlb_current s2 /\ sv_of s2 = Some m /\ r_artifactAccess s2 = false).
  { intros s2 t2 Hn2 Hs2. pose proof (tlb_now_walks _ _ _ Hn2) as Hw2.
    split_and!; [done|by eapply current_sub; eauto using tlb_now_tlb| |];
      destruct Hw2 as [(?&?&?&?&?&->) _]; done. }
  assert (Hmiss : forall s2 t2, tlb_now t2 s s2 -> t2 ⊆ t -> outcome s mode req va at_
    (looked ← tlbLookup mode (initialEntry va) req at_ s2;
     match looked with
     | (s, inl exception) => s ← handleInvalidAccess va at_ exception s; Some (s, None, req)
     | (s, inr tmp) =>
         let '(s, entry) := allocateTLBEntry tmp s in
         Some (validateTLBEntryPriv mode (Some entry) req req s)
     end)).
  { intros s2 t2 Hn2 Hs2. destruct (Hlater s2 t2 Hn2 Hs2) as (? & ? & ? & ?).
    apply (outcome_later s s2); [done|]. by apply walk_outcome. }
  destruct r as [[id e]|]; [|by apply (Hmiss s1 t1)].
  destruct Hr as (Hl & Hma & Hcov). destruct (Hlater s1 t1 Hn Hsub) as (_ & Hcur1 & _).
  assert (Hrf : reflects m s1 e).
  { destruct Hcur1 as (t' & Ht' & Hc). rewrite (tlb_now_tlb _ _ _ Hn) in Ht'. simplify_eq.
    apply (Hc id); [done|]. destruct Hw1 as [(?&?&?&?&?&->) _]. done. }
  destruct (rf_at _ _ _ Hrf va Hcov) as [l Hat].
  pose proof (validate_eq s1 t1 mode id e req req va l Hreq (tlb_now_tlb _ _ _ Hn) Hat) as Hv.
  destruct (ref_allowed _ _ _ mode req l.1.2 && _).
  - destruct Hv as (p & -> & Href & Hany & Hg). apply (outcome_later s s1); [done|]. unfold outcome.
    rewrite Href. exists s1, id, e, p. split; [done|]. split; try done.
    + apply (tlb_now_framed t1). apply tlb_now_refl. by eapply tlb_now_tlb.
    + intros a Ha. destruct (Z.eqb_spec a l.2) as [->|]; [|done]. destruct l as [[i pte] addr].
      apply (leaf_word _ _ _ _ _ (ra_leaf _ _ _ _ _ Hat)).
    + by apply (ra_PA _ _ _ _ _ Hat).
  - destruct Hv as (s2 & t2 & -> & Hn2 & Hs2). apply (Hmiss s2 t2); [by eapply tlb_now_trans|by etransitivity].
Qed.

End Miss.
