(* ===== verification/RvVmAccess.v ===== *)
(** * Accesses through a virtual domain

    The callbacks of the simulator end in [riscvVMMiss].  In a virtual domain
    it maps the pages of the access one after the other, until one of them
    faults. *)

From stdpp Require Import functions gmap.
From S2P Require Import Prelude RvTypes RvTables RvDecode RvHart RvHartFacts RvTrap RvTrapFacts.
From S2P Require Import RvPmp RvPmpFacts RvPmpCache RvCsr RvCsrTable RvPorts RvSystem.
From S2P Require Import RvVm RvVmRef RvVmWalk RvVmTlb RvVmOps RvVmMap RvVmMiss.

Section Access.

Context `{V : VmiRt} {VM : VmiMem} {ML : VmiMemLaws VM}.
Implicit Types s : riscvS.

(** ** Exceptions *)

Lemma fault_code_range req f : is_access req -> 0 <= fault_code req f < 16.
Proof. intros [-> | [-> | ->]]; destruct f; simpl; lia. Qed.

(** The exception is always taken, or suppressed for a fault-only-first
    access. *)
Lemma memory_exception_total code va s :
  0 <= code < 16 -> exists s', riscvTakeMemoryException code va s = Some s'.
Proof.
  intros Hc. unfold riscvTakeMemoryException. destruct (handleFF s) as [[|] s1]; [by eexists|].
  rewrite take_exception_eq; [by eexists|]. unfold GET_ECODE. rewrite <- (Z.mod_small code 16) by done.
  assert (Hk : code = 0 \/ code = 1 \/ code = 2 \/ code = 3 \/ code = 4 \/ code = 5 \/ code = 6 \/ code = 7 \/
    code = 8 \/ code = 9 \/ code = 10 \/ code = 11 \/ code = 12 \/ code = 13 \/ code = 14 \/ code = 15) by lia.
  repeat destruct Hk as [-> | Hk]; try (vm_compute; split; congruence). subst. vm_compute. split; congruence.
Qed.

Lemma invalid_access_total va at_ req f s :
  is_access req -> exists s', handleInvalidAccess va at_ (fault_code req f) s = Some s'.
Proof.
  intros Hr. unfold handleInvalidAccess. destruct (negb at_); [|by eexists].
  by apply memory_exception_total, fault_code_range.
Qed.

Context (m : svMode) (H : sv_ok m).

(** ** One page *)

(** The access is mapped as the reference translates it. *)
Record mapped_as (s : riscvS) (domain mode req va : Z) (l : Z * Z * Z) (s' : riscvS) (p : Z)
  : Prop := {
  ma_framed : framed s s';
  ma_written : written m l.2 l.1.2 s s';
  ma_current : tlb_current m s';
  ma_alias : vm_alias domain (getSimASID s) va (r_vmi s') =
    Some (getPMPDomainPriv s mode req, physical m va l.1.1 l.1.2, p);
  ma_priv : any p req = true;
  ma_grants : grants m s' mode va p;
}.

Lemma framed_pmp s s' : framed s s' -> pmp_ok s -> pmp_ok s'.
Proof. intros (?&?&?&?&?&->) []. by split. Qed.

Lemma same_walks_grants s s' mode va p : same_walks s s' -> grants m s mode va p -> grants m s' mode va p.
Proof.
  intros Hs Hg r Hr Hp. destruct (Hg r Hr Hp) as [l Hl]. exists l. rewrite <- Hl. by apply same_walks_translate.
Qed.

(** The entry found or made is mapped. *)
Lemma map_supplied s s1 id e p domain mode req va highVA l :
  pmp_ok s -> supplied m s mode req va l s1 e p ->
  exists s' mi,
    (let '(s2, e2) := unmapTLBEntryNewASID e (getSimASID s1) s1 in
     mapped ← mapTLBEntry (set_simASID (getSimASID s1) e2) domain mode req
                {| m_lowVA := va; m_highVA := highVA; m_priv := p |} s2;
     let '(s3, e3, mi) := mapped in Some (with_tlb <[id := e3]> s3, false, mi)) = Some (s', false, mi) /\
    mapped_as s domain mode req va l s' p /\
    m_lowVA mi <= va / 2 ^ 12 * 2 ^ 12 /\ va / 2 ^ 12 * 2 ^ 12 + 2 ^ 12 - 1 <= m_highVA mi.
Proof.
  intros Hpmp [Hfr Hwr Hcur Hrf Hcov HPA Hp Hg].
  destruct (unmap_new_asid e (getSimASID s1) s1) as ((v & Hv & Hvw) & Htr & _).
  destruct (unmapTLBEntryNewASID e (getSimASID s1) s1) as [s2 e2]. cbn [fst snd] in *.
  pose proof Hcur as (t1 & Ht1 & _). set (e3 := set_simASID _ e2).
  assert (Hw2 : same_walks s1 s2).
  { subst s2. split; [|done]. exists v, (r_AFErrorIn s1), (r_PTWBadAddr s1), (r_PTWActive s1), t1.
    destruct s1. simpl in *. by subst. }
  assert (Hrf3 : reflects m s2 e3).
  { apply (reflects_same m s1); [by apply same_walks_tables|]. by apply (reflects_entry m s1 e). }
  assert (Hlow : t_lowVA e3 = t_lowVA e /\ t_highVA e3 = t_highVA e /\ t_PA e3 = t_PA e)
    by (destruct Htr as (? & ? & ? & _); done). destruct Hlow as (Hl3 & Hh3 & HP3).
  pose proof (framed_trans _ _ _ Hfr (proj1 Hw2)) as Hfr2.
  destruct (map_entry_eq m e3 domain mode req va highVA p s2) as (s3 & mi & -> & (v3 & af & Es3 & Hw3 & Hal) & Hmi);
    [done|by eapply framed_pmp|done|by rewrite Hl3, Hh3|].
  cbn [mbind option_bind]. set (e4 := set_isMapped _ e3). set (s4 := with_tlb _ s3).
  assert (Ht3 : r_tlb s3 = Some t1) by (rewrite Es3; simpl; by rewrite Hv).
  assert (Hw4 : same_walks s1 s4).
  { apply (same_walks_trans s1 s2); [done|]. subst s3. unfold s4, with_tlb. split; [|done].
    exists v3, af, (r_PTWBadAddr s2), (r_PTWActive s2), (<[id:=e4]> t1). rewrite Ht3. by destruct s2. }
  assert (Hr4 : reflects m s1 e4) by (apply (reflects_entry m s1 e); done).
  destruct (insert_current m t1 id e4 s1 s4) as [Hcur4 _]; try done.
  { unfold s4, with_tlb. by rewrite Ht3. }
  exists s4, mi. split; [done|]. split; [|done]. split.
  - exact (framed_trans _ _ _ Hfr (proj1 Hw4)).
  - intros a Ha. rewrite <- (Hwr a Ha). by apply (same_walks_tables m _ _ Hw4).
  - done.
  - rewrite <- HPA, <- Hl3, <- HP3. unfold s4, with_tlb. cbn [r_vmi upd_tlb]. rewrite Es3. cbn [r_vmi upd_vmi].
    replace (getSimASID s) with (t_simASID e3); [rewrite Hal|].
    + destruct Hfr2 as (?&?&?&?&?&->). done.
    + destruct Hfr as (?&?&?&?&?&->). done.
  - done.
  - by apply (same_walks_grants s1).
Qed.

(** The result of a miss at [va]. *)
Lemma tlb_miss_eq s domain mode req va highVA at_ :
  sv_of s = Some m -> is_access req -> 0 <= va < 2 ^ sv_va_bits m -> r_artifactAccess s = false ->
  pmp_ok s -> tlb_current m s ->
  match ref_translate m s mode req va with
  | inl f =>
      exists s1 s' mi, same_walks s s1 /\ tlb_current m s1 /\
        handleInvalidAccess va at_ (fault_code req f) s1 = Some s' /\
        tlbMiss domain mode {| m_lowVA := va; m_highVA := highVA; m_priv := req |} at_ s =
          Some (s', true, mi)
  | inr l =>
      exists s' p mi,
        tlbMiss domain mode {| m_lowVA := va; m_highVA := highVA; m_priv := req |} at_ s =
          Some (s', false, mi) /\
        mapped_as s domain mode req va l s' p /\
        m_lowVA mi <= va / 2 ^ 12 * 2 ^ 12 /\ va / 2 ^ 12 * 2 ^ 12 + 2 ^ 12 - 1 <= m_highVA mi
  end.
Proof.
  intros Hm Hreq Hva Hart Hpmp Hcur. unfold tlbMiss. cbn [m_priv m_lowVA m_highVA].
  pose proof (find_or_create_outcome m H s mode req va highVA at_ Hm Hreq Hva Hart Hcur) as Ho.
  unfold outcome in Ho. destruct (ref_translate m s mode req va) as [f|l].
  - destruct Ho as (s1 & Hw & Hc & ->). destruct (invalid_access_total va at_ req f s1 Hreq) as [s' Hs'].
    eexists s1, s', _. split_and!; [done|done|done|]. rewrite Hs'. done.
  - destruct Ho as (s1 & id & e & p & -> & Hsu).
    destruct (map_supplied s s1 id e p domain mode req va highVA l Hpmp Hsu) as (s' & mi & Hs' & Hr).
    exists s', p, mi. split; [|done]. cbn [mbind option_bind]. exact Hs'.
Qed.

(** ** An access in one page *)

(** The state in which the miss handler starts. *)
Lemma bus_walks s : tlb_current m s -> same_walks s (upd_AFErrorIn riscv_AFault_Bus s).
Proof.
  intros (t & Ht & _). split; [|apply same_words_refl].
  exists (r_vmi s), riscv_AFault_Bus, (r_PTWBadAddr s), (r_PTWActive s), t.
  destruct s. simpl in *. by subst.
Qed.

Lemma first_address va : 0 <= va < 2 ^ 64 -> w64 (w64 (va - 1) + 1) = va.
Proof.
  intros Hva. unfold wrap. rewrite Zplus_mod_idemp_l. replace (va - 1 + 1) with va by lia.
  apply Z.mod_small. lia.
Qed.

Lemma vm_miss_eq s domain mode req va bytes at_ :
  sv_of s = Some m -> is_access req -> r_artifactAccess s = false -> pmp_ok s -> tlb_current m s ->
  accessed_domain s domain = Some (DT_VIRT, mode) ->
  0 <= va -> va + bytes <= 2 ^ sv_va_bits m -> 0 < bytes -> va mod 2 ^ 12 + bytes <= 2 ^ 12 ->
  match ref_translate m s mode req va with
  | inl f =>
      exists s1 s', same_walks s s1 /\ tlb_current m s1 /\
        handleInvalidAccess va at_ (fault_code req f) s1 = Some s' /\
        riscvVMMiss domain req va bytes at_ s = Some (s', true)
  | inr l =>
      exists s' p, riscvVMMiss domain req va bytes at_ s = Some (s', false) /\
        mapped_as s domain mode req va l s' p
  end.
Proof.
  intros Hm Hreq Hart Hpmp Hcur Hd Hva Hlast Hb Hpage. unfold riscvVMMiss.
  set (s0 := upd_AFErrorIn riscv_AFault_Bus s).
  change (accessed_domain s0 domain) with (accessed_domain s domain). rewrite Hd.
  pose proof (bus_walks s Hcur) as Hw0. fold s0 in Hw0. pose proof Hcur as (t & Ht & _).
  pose proof (sk_va m H). pose proof (Z.pow_le_mono_r 2 (sv_va_bits m) 64 ltac:(lia) ltac:(lia)).
  destruct (Z.to_nat bytes) as [|n] eqn:En; [lia|]. cbn [map_pages].
  rewrite first_address, (wrap_small 64 (va + bytes - 1)) by lia.
  pose proof (tlb_miss_eq s0 domain mode req va (va + bytes - 1) at_ Hm Hreq ltac:(lia) Hart
    (framed_pmp _ _ (proj1 Hw0) Hpmp) (current_sub m t t s s0 Hw0 Ht Ht ltac:(done) Hcur)) as Hmiss.
  rewrite (same_walks_translate m s s0) in Hmiss by done.
  destruct (ref_translate m s mode req va) as [f|l].
  - destruct Hmiss as (s1 & s' & mi & Hw & Hc1 & Hx & ->). exists s1, s'.
    split; [exact (same_walks_trans _ _ _ Hw0 Hw)|]. done.
  - destruct Hmiss as (s' & p & mi & -> & [Mf Mw Mc Ma Mp Mg] & Hlo & Hhi). exists s', p.
    cbn [mbind option_bind negb andb].
    pose proof (Z.div_mod va (2 ^ 12) ltac:(lia)). pose proof (Z.mod_pos_bound va (2 ^ 12) ltac:(lia)).
    replace ((va + bytes - 1 <? m_lowVA mi) || (va + bytes - 1 >? m_highVA mi)) with false by lia.
    split; [done|]. by split.
Qed.

(** ** An access over several pages *)

(** What a miss handler reports for an access to [first .. last]: all pages
    are mapped, or one of them faults and the exception names it. *)
Definition reported (s : riscvS) (mode req first last : Z) (at_ : bool) (r : riscvS * bool) : Prop :=
  if r.2
  then exists s1 a f, framed s s1 /\ tlb_current m s1 /\ first <= a <= last /\
         ref_translate m s1 mode req a = inl f /\
         handleInvalidAccess a at_ (fault_code req f) s1 = Some r.1
  else framed s r.1 /\ tlb_current m r.1.

Lemma map_pages_eq fuel domain mode req lastVA highVA at_ s :
  sv_of s = Some m -> is_access req -> r_artifactAccess s = false -> pmp_ok s -> tlb_current m s ->
  w64 (highVA + 1) <= lastVA < w64 (highVA + 1) + Z.of_nat fuel -> lastVA < 2 ^ sv_va_bits m ->
  exists r, map_pages fuel domain mode req lastVA highVA at_ s = Some r /\
    reported s mode req (w64 (highVA + 1)) lastVA at_ r.
Proof.
  intros Hm Hreq. revert highVA s Hm. induction fuel as [|fuel IH]; intros highVA s Hm Hart Hpmp Hcur Hl Hlast; [lia|].
  cbn [map_pages]. set (va := w64 (highVA + 1)) in *.
  assert (Hva : 0 <= va < 2 ^ sv_va_bits m) by (pose proof (wrap_range 64 (highVA + 1) ltac:(lia)); lia).
  pose proof (sk_va m H). pose proof (Z.pow_le_mono_r 2 (sv_va_bits m) 64 ltac:(lia) ltac:(lia)).
  pose proof (tlb_miss_eq s domain mode req va lastVA at_ Hm Hreq Hva Hart Hpmp Hcur) as Hmiss.
  destruct (ref_translate m s mode req va) as [f|l] eqn:Et.
  - destruct Hmiss as (s1 & s' & mi & Hw & Hc & Hx & ->). exists (s', true). split; [done|].
    exists s1, va, f. split; [apply Hw|]. split_and!; try done; [lia|].
    by rewrite (same_walks_translate m s s1).
  - destruct Hmiss as (s' & p & mi & -> & [Mf _ Mc _ _ _] & Hlo & Hhi). cbn [mbind option_bind negb andb].
    pose proof (Z.div_mod va (2 ^ 12) ltac:(lia)). pose proof (Z.mod_pos_bound va (2 ^ 12) ltac:(lia)).
    replace (lastVA <? m_lowVA mi) with false by lia. cbn [orb].
    destruct (Z.gtb_spec lastVA (m_highVA mi)) as [Hmore|Hdone]; [|by exists (s', false)].
    assert (Hnext : w64 (m_highVA mi + 1) = m_highVA mi + 1) by (apply wrap_small; lia).
    destruct (IH (m_highVA mi) s') as (r & Hr & Hrep); try done.
    + by destruct Mf as (?&?&?&?&?&->).
    + by destruct Mf as (?&?&?&?&?&->).
    + by eapply framed_pmp.
    + rewrite Hnext. lia.
    + exists r. split; [done|]. revert Hrep. unfold reported. rewrite Hnext. destruct r.2.
      * intros (s1 & a & f & Hf & Hc & Ha & Hrest). exists s1, a, f.
        split; [by eapply framed_trans|]. split; [done|]. split; [lia|done].
      * intros [Hf Hc]. split; [by eapply framed_trans|done].
Qed.

Lemma vm_miss_reported s domain mode req va bytes at_ :
  sv_of s = Some m -> is_access req -> r_artifactAccess s = false -> pmp_ok s -> tlb_current m s ->
  accessed_domain s domain = Some (DT_VIRT, mode) ->
  0 <= va -> va + bytes <= 2 ^ sv_va_bits m -> 0 < bytes ->
  exists r, riscvVMMiss domain req va bytes at_ s = Some r /\
    reported s mode req va (va + bytes - 1) at_ r.
Proof.
  intros Hm Hreq Hart Hpmp Hcur Hd Hva Hlast Hb. unfold riscvVMMiss.
  set (s0 := upd_AFErrorIn riscv_AFault_Bus s).
  change (accessed_domain s0 domain) with (accessed_domain s domain). rewrite Hd.
  pose proof (sk_va m H). pose proof (Z.pow_le_mono_r 2 (sv_va_bits m) 64 ltac:(lia) ltac:(lia)).
  pose proof (first_address va ltac:(lia)) as Hfirst. rewrite (wrap_small 64 (va + bytes - 1)) by lia.
  pose proof (bus_walks s Hcur) as Hw0. fold s0 in Hw0. pose proof Hcur as (t & Ht & _).
  destruct (map_pages_eq (Z.to_nat bytes) domain mode req (va + bytes - 1) (w64 (va - 1)) at_ s0)
    as (r & Hr & Hrep); try done;
    [by destruct Hpmp; split|by apply (current_sub m t t s)|rewrite Hfirst; lia|lia|].
  exists r. split; [done|]. by rewrite Hfirst in Hrep.
Qed.

End Access.
