(* ===== verification/RvVmFence.v ===== *)
(** * Fences, ASIDs and snapshots of the TLB

    What SFENCE.VMA removes from the TLB, why a mapping that is kept over a
    change of satp or mstatus is not used where it must not be, and what is
    left of a TLB that is saved and restored. *)

From stdpp Require Import functions gmap.
From S2P Require Import Prelude RvTypes RvTables RvDecode RvHart RvHartFacts RvTrap RvTrapFacts.
From S2P Require Import RvPmp RvPmpFacts RvPmpCache RvCsr RvCsrTable RvPorts RvSystem.
From S2P Require Import RvVm RvVmRef RvVmWalk RvVmTlb RvVmOps RvVmMap RvVmMiss.

Section Fence.

Context `{V : VmiRt} {VM : VmiMem} {ML : VmiMemLaws VM}.
Implicit Types s : riscvS.

(** ** Fences *)

(** Whether a fence for a virtual address and an ASID, or for all of them,
    concerns an entry. *)
Definition fence_selects (s : riscvS) (va asid : option Z) (e : tlbEntry) : bool :=
  match va with Some a => (t_lowVA e <=? a) && (a <=? t_highVA e) | None => true end &&
  (t_artifact e ||
   match asid with
   | None => true
   | Some n => (getASIDMask s =? 0) || (negb (t_G e) && (maskASID s n =? getEntryASID e))
   end).

(** Entries cover addresses of 64 bits. *)
Definition tlb_range (t : gmap Z tlbEntry) : Prop :=
  forall id e, t !! id = Some e -> 0 <= t_highVA e /\ t_lowVA e < 2 ^ 64.

(** The invalidation that the operands of SFENCE.VMA select. *)
Definition invalidate (va asid : option Z) (s : riscvS) : riscvS :=
  match va, asid with
  | None, None => riscvVMInvalidateAll s
  | None, Some a => riscvVMInvalidateAllASID a s
  | Some v, None => riscvVMInvalidateVA v s
  | Some v, Some a => riscvVMInvalidateVAASID v a s
  end.

Lemma invalidate_selects va asid s t :
  r_tlb s = Some t -> tlb_range t ->
  exists t', tlb_now t' s (invalidate va asid s) /\
    forall id, t' !! id = (e ← t !! id; if fence_selects s va asid e then None else Some e).
Proof.
  intros Ht Hr. unfold invalidate, riscvVMInvalidateAll, riscvVMInvalidateAllASID, riscvVMInvalidateVA,
    riscvVMInvalidateVAASID.
  assert (Hf : forall low high mode ASID,
    (forall id e, t !! id = Some e ->
       (t_lowVA e <=? high) && (low <=? t_highVA e) && fenced s mode ASID e = fence_selects s va asid e) ->
    exists t', tlb_now t' s (invalidateTLBEntriesRange low high mode ASID s) /\
      forall id, t' !! id = (e ← t !! id; if fence_selects s va asid e then None else Some e)).
  { intros low high mode ASID He. destruct (invalidate_eq low high mode ASID s t Ht) as (t' & Hn & Hl).
    exists t'. split; [done|]. intros id. rewrite Hl. destruct (t !! id) as [e|] eqn:E; [|done]. simpl.
    by rewrite (He id e). }
  assert (Hall : forall id e, t !! id = Some e -> (t_lowVA e <=? w64 (-1)) && (0 <=? t_highVA e) = true).
  { intros id e He. destruct (Hr id e He). change (w64 (-1)) with (2 ^ 64 - 1). lia. }
  destruct va as [a|], asid as [n|]; apply Hf; intros id e He; unfold fence_selects, fenced, matchASID.
  - destruct (t_G e); cbn [negb andb orb]; done.
  - done.
  - rewrite (Hall id e He). destruct (t_G e); cbn [negb andb orb]; done.
  - by rewrite (Hall id e He).
Qed.

(** If every entry that no longer reflects the tables is selected, the TLB is
    current after the fence. *)
Lemma fenced_current m va asid s t :
  r_tlb s = Some t -> tlb_range t ->
  (forall id e, t !! id = Some e -> matchASID (getActiveASID s) e = true ->
     fence_selects s va asid e = true \/ reflects m s e) ->
  tlb_current m (invalidate va asid s).
Proof.
  intros Ht Hr Hc. destruct (invalidate_selects va asid s t Ht Hr) as (t' & Hn & Hl).
  exists t'. split; [by eapply tlb_now_tlb|]. intros id e He Hm.
  pose proof (tlb_now_walks _ _ _ Hn) as Hw. rewrite Hl in He.
  destruct (t !! id) as [e0|] eqn:E; [|done]. simpl in He.
  destruct (fence_selects s va asid e0) eqn:Ef; [done|]. simplify_eq.
  apply (reflects_same m s); [by apply same_walks_tables|].
  destruct (Hc id e E) as [Hs|Hs]; [|congruence|done].
  destruct Hw as [(?&?&?&?&?&Hs') _]. rewrite Hs' in Hm. done.
Qed.

(** ** Simulated ASIDs *)

Lemma simASID_bits s j :
  0 <= j -> Z.testbit (getSimASID s) j =
    if j <? 16 then Z.testbit (getActiveASID s) j
    else if j =? 16 then getMXR s else if j =? 17 then getSUM s else false.
Proof.
  intros Hj. unfold getSimASID, wrap. rewrite !Z.lor_spec, !Z.shiftl_spec by lia.
  assert (Hb : forall b k, k <> 0 -> Z.testbit (Z.b2z b) k = false).
  { intros b k Hk. destruct (Z.lt_ge_cases k 0); [by apply Z.testbit_neg_r|].
    apply (testbit_above _ 1); destruct b; simpl; lia. }
  destruct (Z.ltb_spec j 16).
  - by rewrite Z.mod_pow2_bits_low, !Hb, !orb_false_r by lia.
  - rewrite Z.mod_pow2_bits_high by lia. cbn [orb]. destruct (Z.eqb_spec j 16) as [->|].
    { rewrite (Hb (getSUM s)), orb_false_r by lia. apply Z.b2z_bit0. }
    rewrite (Hb (getMXR s)) by lia. cbn [orb]. destruct (Z.eqb_spec j 17) as [->|]; [apply Z.b2z_bit0|].
    apply Hb. lia.
Qed.

Lemma mask_bits e mode j :
  0 <= j -> Z.testbit (getEntryASIDMask e mode) j =
    if j <? 16 then negb (t_G e)
    else if j =? 16 then true else (j =? 17) && t_U e && (mode =? RISCV_MODE_SUPERVISOR).
Proof.
  intros Hj. unfold getEntryASIDMask. rewrite !Z.lor_spec, Z.shiftl_1_l, Z.pow2_bits_eqb by lia.
  assert (H16 : Z.testbit (if negb (t_G e) then 0xffff else 0) j = (j <? 16) && negb (t_G e)).
  { destruct (t_G e); cbn [negb]; rewrite ?Z.bits_0, ?andb_false_r; [done|].
    change 0xffff with (Z.ones 16). rewrite Z.testbit_ones_nonneg by lia. by rewrite andb_true_r. }
  assert (H17 : Z.testbit (if t_U e && (mode =? RISCV_MODE_SUPERVISOR) then Z.shiftl 1 17 else 0) j =
    (j =? 17) && (t_U e && (mode =? RISCV_MODE_SUPERVISOR))).
  { destruct (t_U e && _); rewrite ?Z.bits_0, ?andb_false_r; [|done].
    rewrite Z.shiftl_1_l, Z.pow2_bits_eqb by lia. rewrite andb_true_r. apply Z.eqb_sym. }
  rewrite H16, H17, (Z.eqb_sym 16). destruct (Z.ltb_spec j 16).
  - replace (j =? 16) with false by lia. replace (j =? 17) with false by lia. cbn [andb orb].
    by rewrite orb_false_r.
  - cbn [andb orb]. destruct (j =? 16); cbn [andb orb]; [done|]. by rewrite andb_assoc.
Qed.

(** Where the simulator takes a mapping of the entry, the entry gives the same
    privileges, and it is global or for the same ASID. *)
Lemma same_asid_permission s s' mode e req :
  mode = RISCV_MODE_USER \/ mode = RISCV_MODE_SUPERVISOR ->
  c_priv_version (r_configInfo s') = c_priv_version (r_configInfo s) ->
  Z.land (getEntryASIDMask e mode) (getSimASID s') = Z.land (getEntryASIDMask e mode) (getSimASID s) ->
  checkEntryPermission s' mode e req = checkEntryPermission s mode e req /\
  (t_G e = true \/ w16 (getActiveASID s') = w16 (getActiveASID s)).
Proof.
  intros Hmode Hver Hasid.
  assert (Hbit : forall j, 0 <= j -> Z.testbit (getEntryASIDMask e mode) j = true ->
    Z.testbit (getSimASID s') j = Z.testbit (getSimASID s) j).
  { intros j Hj Ht. apply (f_equal (fun z => Z.testbit z j)) in Hasid.
    by rewrite !Z.land_spec, Ht in Hasid. }
  split.
  - assert (Hmxr : getMXR s' = getMXR s).
    { pose proof (Hbit 16 ltac:(lia)) as Hb. rewrite mask_bits, !simASID_bits in Hb by lia. by apply Hb. }
    assert (Hsum : t_U e = true -> mode = RISCV_MODE_SUPERVISOR -> getSUM s' = getSUM s).
    { intros HU ->. pose proof (Hbit 17 ltac:(lia)) as Hb. rewrite mask_bits, !simASID_bits in Hb by lia.
      apply Hb. by rewrite HU. }
    unfold checkEntryPermission. rewrite Hmxr, Hver. destruct Hmode as [-> | ->]; [done|]. simpl.
    destruct (t_U e); [by rewrite Hsum|done].
  - destruct (t_G e) eqn:EG; [by left|right]. apply Z.bits_inj'. intros j Hj. unfold wrap.
    destruct (Z.lt_ge_cases j 16); [|by rewrite !Z.mod_pow2_bits_high by lia].
    rewrite !Z.mod_pow2_bits_low by lia. pose proof (Hbit j Hj) as Hb.
    rewrite mask_bits, !simASID_bits, EG in Hb by lia. replace (j <? 16) with true in Hb by lia. by apply Hb.
Qed.

(** ** Snapshots *)

(** The address of a new entry is not in use. *)
Lemma new_entry_fresh (t : gmap Z tlbEntry) : t !! newTLBEntry t = None.
Proof.
  assert (Hle : forall id e, t !! id = Some e -> id <= map_fold (fun id _ n => Z.max id n) 0 t).
  { apply (map_fold_weak_ind (fun r t => forall id (e : tlbEntry), t !! id = Some e -> id <= r)); [done|].
    intros id e t' r _ IH id' e' Hl. destruct (decide (id' = id)) as [->|Hne]; [lia|].
    rewrite lookup_insert_ne in Hl by done. pose proof (IH id' e' Hl). lia. }
  unfold newTLBEntry. destruct (t !! _) as [e|] eqn:E; [|done]. pose proof (Hle _ _ E). lia.
Qed.

(** What is written of an entry. *)
Definition saved (e : tlbEntry) : option tlbEntry :=
  if t_artifact e then None else Some (saveTLBEntry e).

Lemma save_fold ids s t out :
  NoDup ids -> r_tlb s = Some t ->
  (fold_left (fun '(s, out) id =>
     match tlb_entry s id with
     | None => (s, out)
     | Some e => if t_artifact e then (deleteTLBEntry id e s, out) else (s, out ++ [saveTLBEntry e])
     end) ids (s, out)).2 = out ++ omap (fun id => t !! id ≫= saved) ids.
Proof.
  revert s t out. induction ids as [|id ids IH]; intros s t out Hnd Ht; [by rewrite app_nil_r|].
  apply NoDup_cons in Hnd as [Hni Hnd]. cbn [fold_left omap list_omap]. rewrite (entry_lookup s t) by done.
  assert (Hdel : omap (fun i => delete id t !! i ≫= saved) ids = omap (fun i => t !! i ≫= saved) ids).
  { apply list_omap_ext, Forall_Forall2_diag, Forall_forall. intros i Hi.
    rewrite lookup_delete_ne; [done|]. by intros ->. }
  destruct (t !! id) as [e|] eqn:E; [|by apply IH]. cbn [mbind option_bind]. unfold saved at 1.
  destruct (t_artifact e).
  - rewrite (IH _ (delete id t)) by (try done; by eapply tlb_now_tlb, delete_now). by rewrite Hdel.
  - rewrite (IH s t) by done. by rewrite <- app_assoc.
Qed.

Lemma save_eq s t :
  r_tlb s = Some t -> tlb_range t ->
  (saveTLB s).2 ≡ₚ omap saved ((map_to_list t).*2).
Proof.
  intros Ht Hr. unfold saveTLB. rewrite Ht, (save_fold _ s t) by (done || apply range_nodup).
  transitivity (omap (fun id => t !! id ≫= saved) ((map_to_list t).*1)).
  - simpl. apply omap_Permutation. apply NoDup_Permutation; [apply range_nodup|apply NoDup_fst_map_to_list|].
    intros id. rewrite range_elem, list_elem_of_fmap. split.
    + intros (e & He & _). exists (id, e). split; [done|]. by apply elem_of_map_to_list.
    + intros ([id' e] & -> & He%elem_of_map_to_list). exists e. destruct (Hr _ _ He).
      change (w64 (-1)) with (2 ^ 64 - 1). split; [done|lia].
  - assert (Hin : Forall (fun p => t !! p.1 = Some p.2) (map_to_list t)).
    { apply Forall_forall. intros [id e] He. by apply elem_of_map_to_list. }
    induction Hin as [|[id e] l Hx _ IH]; [done|]. simpl in *. rewrite Hx. simpl.
    destruct (saved e); [by constructor|done].
Qed.

Lemma restore_fold els s t :
  r_tlb s = Some t ->
  exists t', r_tlb (fold_left (fun s new => restoreTLBEntry new s) els s) = Some t' /\
    (map_to_list t').*2 ≡ₚ els ++ (map_to_list t).*2.
Proof.
  revert s t. induction els as [|e els IH]; intros s t Ht; [by exists t|]. cbn [fold_left].
  destruct (IH (restoreTLBEntry e s) (<[newTLBEntry t := e]> t)) as (t' & Ht' & Hp).
  { unfold restoreTLBEntry, with_tlb. by rewrite Ht. }
  exists t'. split; [done|]. rewrite Hp, map_to_list_insert by apply new_entry_fresh. simpl.
  symmetry. apply Permutation_middle.
Qed.

(** Restoring replaces the TLB by what was saved. *)
Lemma restore_eq els s t :
  r_tlb s = Some t -> tlb_range t ->
  exists t', r_tlb (restoreVM els s) = Some t' /\ (map_to_list t').*2 ≡ₚ els.
Proof.
  intros Ht Hr. unfold restoreVM. rewrite Ht.
  destruct (invalidate_selects None None s t Ht Hr) as (t0 & Hn & Hl).
  assert (t0 = ∅) as ->.
  { apply map_empty. intros id. rewrite Hl. destruct (t !! id) as [e|]; [|done]. simpl.
    unfold fence_selects. by rewrite orb_true_r. }
  destruct (restore_fold els _ ∅ (tlb_now_tlb _ _ _ Hn)) as (t' & Ht' & Hp).
  exists t'. split; [done|]. by rewrite map_to_list_empty, app_nil_r in Hp.
Qed.

End Fence.
