(* ===== verification/RvVmProps.v ===== *)
(** * Properties of virtual memory

    A concrete hart with page tables, and the theorems about translation, the
    TLB and fences. *)

From stdpp Require Import functions gmap.
From S2P Require Import Prelude RvTypes RvTables RvDecode RvHart RvHartFacts RvTrap RvPmp RvPmpFacts.
From S2P Require Import RvPmpCache RvCsr RvCsrTable RvPorts RvSystem RvExample RvVm RvVmRef RvVmWalk.
From S2P Require Import RvVmTlb RvVmOps RvVmMap RvVmMiss RvVmFence RvTrapFacts RvVmAccess.

(** * An example with page tables

    A simulator with a memory of page table words and a list of mappings,
    with the laws assumed of the real one, and an RV32 hart in supervisor mode
    with one page of Sv32: the virtual page 0x400 is mapped to the physical
    page 0x80123, readable and writable, neither accessed nor dirty. *)

(** ** A simulator *)

(** Virtual domain, first and last virtual address, ASID mask and ASID;
    physical domain, first physical address and privileges. *)
Record mapping := Mapping {
  g_dV : Z; g_low : Z; g_high : Z; g_mask : Z; g_ASID : Z; g_dP : Z; g_PA : Z; g_priv : Z;
}.

Definition mapping_at (d asid va : Z) (g : mapping) : bool :=
  (d =? g_dV g) && (g_low g <=? va) && (va <=? g_high g) &&
  (Z.land (g_mask g) asid =? Z.land (g_mask g) (g_ASID g)).

(** The size and address of each word, with its value. *)
Record pagedState := Paged {
  p_toy : toyState;
  p_words : list (Z * Z * Z);
  p_maps : list mapping;
}.

Definition on_toy (f : toyState -> toyState) (v : pagedState) : pagedState :=
  Paged (f (p_toy v)) (p_words v) (p_maps v).

Definition paged : VmiRt := {|
  vmiState := pagedState;
  vmirtGetPC v := t_pc (p_toy v);
  vmirtGetPCDS v := (t_pc (p_toy v), 0);
  vmirtSetPC a := on_toy (toy_pc a);
  vmirtSetPCException a := on_toy (toy_pc a);
  vmirtSetMode _ v := v;
  vmirtSetBlockMask _ v := v;
  vmirtHalt v := v;
  vmirtRestartNext v := v;
  vmirtDoSynchronousInterrupt v := v;
  vmirtSetProcessorASID _ v := v;
  vmirtGetProcessorDataDomain v := t_domain (p_toy v);
  vmirtSetProcessorDataDomain d := on_toy (vmirtSetProcessorDataDomain (VmiRt := toy) d);
  vmirtGetICount v := t_icount (p_toy v);
  vmirtGetExecutedICount v := t_icount (p_toy v);
  monotonic_us v := t_icount (p_toy v);
  vmirtSetFPControlWord _ v := v;
  mem_priv_set := 0;
  vmirtProtectMemory d low high p x := on_toy (vmirtProtectMemory (VmiRt := toy) d low high p x);
  vmirtGetDomainPrivileges d a v := toy_priv d a (t_privs (p_toy v));
|}.

#[export] Existing Instance paged.

Definition paged_word (n a : Z) (l : list (Z * Z * Z)) : option Z :=
  if 0 <? n then
    (fun w => wrap (8 * n) w.2) <$> find (fun w => (n =? w.1.1) && (a =? w.1.2)) l
  else None.

Definition has_word (n a : Z) (l : list (Z * Z * Z)) : bool :=
  match paged_word n a l with Some _ => true | None => false end.

Definition overlaps (low high : Z) (p : Z * tlbEntry) : Prop :=
  t_lowVA p.2 <= high /\ low <= t_highVA p.2.

Definition paged_mem : @VmiMem paged := {|
  vmirtReadDomain n d a _ _ s :=
    let w := paged_word n a (p_words (r_vmi s)) in
    (upd_PTWBadAddr (r_PTWBadAddr s || bool_decide (w = None)) s, default 0 w);
  vmirtWriteDomain n d a _ x _ s :=
    let v := r_vmi s in
    if has_word n a (p_words v)
    then upd_vmi (Paged (p_toy v) ((n, a, x) :: p_words v) (p_maps v)) s
    else upd_PTWBadAddr true s;
  vmirtAliasMemoryVM dP dV lowPA highPA lowVA priv mask ASID v :=
    Paged (p_toy v) (p_words v)
      (Mapping dV lowVA (lowVA + (highPA - lowPA)) mask ASID dP lowPA priv :: p_maps v);
  vmirtUnaliasMemoryVM dV low high mask ASID v :=
    Paged (p_toy v) (p_words v)
      (filter (fun g => ~ (g_dV g = dV /\ g_mask g = mask /\ g_ASID g = ASID /\
                           low <= g_low g /\ g_high g <= high)) (p_maps v));
  vmirtIsExecutable _ _ := false;
  range_entries low high t := (filter (overlaps low high) (map_to_list t)).*1;
  page_word n _ a v := paged_word n a (p_words v);
  page_writable n _ a v := has_word n a (p_words v);
  vm_alias d asid va v :=
    (fun g => (g_dP g, g_PA g + (va - g_low g), g_priv g)) <$> find (mapping_at d asid va) (p_maps v);
|}.

#[export] Existing Instance paged_mem.

Lemma paged_word_write n a x l n' a' :
  0 < n -> paged_word n' a' ((n, a, x) :: l) =
    if (n' =? n) && (a' =? a) then Some (wrap (8 * n) x) else paged_word n' a' l.
Proof.
  intros Hn. unfold paged_word. cbn [find fst snd]. destruct (Z.eqb_spec n' n) as [->|]; cbn [andb].
  - replace (0 <? n) with true by lia. by destruct (a' =? a).
  - done.
Qed.

Lemma has_word_size n a l : has_word n a l = true -> 0 < n.
Proof. unfold has_word, paged_word. destruct (Z.ltb_spec 0 n); done. Qed.

Lemma upd_flags s : upd_AFErrorIn (r_AFErrorIn s) (upd_PTWBadAddr (r_PTWBadAddr s) s) = s.
Proof. by destruct s. Qed.

Definition paged_laws : VmiMemLaws paged_mem.
Proof.
  split.
  - intros n d a e at_ s _. exists (r_vmi s), (r_AFErrorIn s). split; [by destruct s|done].
  - intros n d a e at_ s w Hw. simpl in *. by rewrite Hw.
  - intros n d a e x at_ s _. simpl. destruct (has_word n a (p_words (r_vmi s))) eqn:E.
    + pose proof (has_word_size _ _ _ E).
      exists (Paged (p_toy (r_vmi s)) ((n, a, x) :: p_words (r_vmi s)) (p_maps (r_vmi s))), (r_AFErrorIn s).
      split; [|split; [|split; [done|]]].
      * by rewrite orb_false_r, upd_flags.
      * intros n' _ a'. unfold has_word. cbn [p_words]. rewrite paged_word_write by done.
        destruct (Z.eqb_spec n' n) as [->|], (Z.eqb_spec a' a) as [->|]; cbn [andb]; done.
      * cbn [page_word paged_mem p_words]. split; [by rewrite paged_word_write, !Z.eqb_refl|].
        intros a' Ha. rewrite paged_word_write by done.
        by replace (a' =? a) with false by lia; rewrite andb_false_r.
    + exists (r_vmi s), (r_AFErrorIn s). split; [destruct s; simpl; by rewrite orb_true_r|done].
  - intros n d a v w. simpl. unfold paged_word. destruct (Z.ltb_spec 0 n); [|done].
    destruct (find _ _); simpl; [|done]. intros ?. simplify_eq. apply wrap_range. lia.
  - intros dP dV lowPA highPA lowVA priv mask ASID v d asid va. simpl. unfold mapping_at at 1. simpl.
    by destruct ((d =? dV) && _ && _ && _).
  - done.
  - done.
  - done.
  - done.
  - done.
  - intros low high t. apply NoDup_fmap_fst; [|apply NoDup_filter, NoDup_map_to_list].
    intros id e e' [_ He]%list_elem_of_filter [_ He']%list_elem_of_filter.
    apply elem_of_map_to_list in He, He'. congruence.
  - intros low high t id. simpl. rewrite list_elem_of_fmap. split.
    + intros ([id' e] & -> & [Ho He]%list_elem_of_filter). exists e. by apply elem_of_map_to_list in He.
    + intros (e & He & Ho). exists (id, e). split; [done|]. apply list_elem_of_filter.
      split; [done|]. by apply elem_of_map_to_list.
Qed.

#[export] Existing Instance paged_laws.

(** ** A hart with page tables *)

(** satp selects Sv32, ASID 5 and the root table at 0x80000000. *)
Definition paging_csr (c : csrName) : csrReg :=
  if decide (c = satp) then CsrReg (0x80000000 + 5 * 2 ^ 22 + 0x80000) 0 else CsrReg 0 0.

Definition paging : riscvS := {|
  r_csr := paging_csr; r_csrMask := fun _ => CsrReg 0xffffffff 0xffffffff;
  r_currentArch := Z.land example_arch ISA_XLEN_ANY; r_mode := RISCV_MODE_SUPERVISOR; r_disable := 0;
  r_artifactAccess := false; r_inSaveRestore := false; r_pmKey := 0;
  r_configInfo := example_config; r_jumpBase := 0; r_swip := 0; r_exceptionMask := 0;
  r_interruptMask := 0; r_exception := 0; r_MIMode := 0; r_SIMode := 0; r_UIMode := 0;
  r_AFErrorIn := 0; r_AFErrorOut := 0; r_exclusiveTag := 0;
  r_fpFlags := FPFlags false false false false false; r_baseCycles := 0; r_baseInstructions := 0;
  r_netValue := {| n_ip := 0; n_reset := false; n_nmi := false |};
  r_vmDomains := fun mode _ => mode + 20; r_pmpDomains := fun mode _ => mode + 1;
  r_physDomains := fun _ _ => 9; r_pmpcfg := fun _ => 0; r_pmpaddr := fun _ => 0;
  r_extBits := 34; r_tlb := Some ∅; r_dendian := false; r_PTWActive := false;
  r_PTWBadAddr := false; r_vFirstFault := false; r_vlMax := 0;
  r_vmi := Paged (Toy 0x400000 0 0 [])
    [(4, 0x80000004, 0x80001 * 2 ^ 10 + 1); (4, 0x80001000, 0x80123 * 2 ^ 10 + 7)] [] |}.

Lemma paging_pmp : pmp_ok paging.
Proof. by split. Qed.

Lemma paging_current : tlb_current Sv32 paging.
Proof. exists ∅. split; [done|]. intros id e He. by rewrite lookup_empty in He. Qed.

(** A store to the page has been mapped: the TLB has an entry. *)
Definition mapped_page : riscvS :=
  default paging (fst <$> riscvVMMiss 21 MEM_PRIV_W 0x400123 1 false paging).

(** Supervisor mode may access user pages. *)
Definition permissive : riscvS := WR_CSR_FIELD mstatus status_SUM 1 paging.

(** SFENCE.VMA with the address in x1 and any ASID. *)
Definition sfence_i : riscvInstrInfo := instr RV_IT_FENCE_VMA_R RVANY (x_reg 1) (x_reg 0) 0 0 0.

(** The entry of the page. *)
Definition page_entry : tlbEntry := {|
  t_lowVA := 0x400000; t_highVA := 0x400fff; t_PA := 0x80123000; t_simASID := 5; t_isMapped := 2;
  t_priv := MEM_PRIV_RW; t_U := false; t_G := false; t_A := true; t_D := true; t_artifact := false |}.

Lemma mapped_page_tlb : r_tlb mapped_page = Some {[1 := page_entry]}.
Proof. vm_compute. reflexivity. Qed.

Lemma page_range : tlb_range {[1 := page_entry]}.
Proof. intros id e [<- <-]%lookup_singleton_Some. simpl. lia. Qed.

(** * Properties of the virtual memory

    The theorems on address translation, each applied to the hart with page
    tables of the example. *)

Section Props.

Context `{V : VmiRt} {VM : VmiMem} {ML : VmiMemLaws VM}.
Implicit Types s : riscvS.

(** C6: Address translation implements the walk of the privileged
    specification.  Let satp select Sv32, Sv39 or Sv48, and let the TLB be
    current: its entries for the active ASID say what the page tables say.
    For an access inside a page, in a virtual domain, the reference
    translation [ref_translate] gives either a fault or a leaf.  On a fault,
    the miss handler raises the exception of the fault for the address (or
    nothing, for an artifact access) and reports a miss.  On a leaf, it
    reports success: the simulator then sends the access to the physical
    address of the leaf, in the PMP domain of the mode, the accessed and dirty
    bits are updated in memory and no other table word changes, the
    privileges given include those required, and each of them is one that the
    reference also gives.  In both cases the TLB stays current. *)
Theorem vm_refines m s domain mode req va bytes at_ :
  sv_of s = Some m -> is_access req -> r_artifactAccess s = false -> pmp_ok s -> tlb_current m s ->
  accessed_domain s domain = Some (DT_VIRT, mode) ->
  0 <= va -> va + bytes <= 2 ^ sv_va_bits m -> 0 < bytes -> va mod 2 ^ 12 + bytes <= 2 ^ 12 ->
  match ref_translate m s mode req va with
  | inl f =>
      exists s1 s', same_walks s s1 /\ tlb_current m s1 /\
        riscvVMMiss domain req va bytes at_ s = Some (s', true) /\
        (if at_ then s' = s1 else riscvTakeMemoryException (fault_code req f) va s1 = Some s')
  | inr (i, pte, addr) =>
      exists s' p,
        riscvVMMiss domain req va bytes at_ s = Some (s', false) /\
        vm_alias domain (getSimASID s) va (r_vmi s') =
          Some (getPMPDomainPriv s mode req, physical m va i pte, p) /\
        written m addr pte s s' /\ any p req = true /\ grants m s' mode va p /\
        tlb_current m s' /\ framed s s'
  end.
Proof.
  intros Hm Hreq Hart Hpmp Hcur Hd Hva Hlast Hb Hpage.
  pose proof (vm_miss_eq m (sv_of_ok s m Hm) s domain mode req va bytes at_
    Hm Hreq Hart Hpmp Hcur Hd Hva Hlast Hb Hpage) as Hv.
  destruct (ref_translate m s mode req va) as [f|[[i pte] addr]].
  - destruct Hv as (s1 & s' & Hw & Hc & Hx & Hr). exists s1, s'. split_and!; try done.
    unfold handleInvalidAccess in Hx. destruct at_; cbn [negb] in Hx; congruence.
  - destruct Hv as (s' & p & Hr & []). exists s', p. split_and!; done.
Qed.


(** C20: SFENCE.VMA removes from the TLB exactly the entries its operands
    select: those that cover the address in rs1, unless rs1 is x0, and that
    are not global and for the ASID in rs2, unless rs2 is x0 or there are no
    ASIDs (entries of artifact accesses always count as selected by rs2).  So
    if the entries made stale by writes to the page tables are among them,
    the TLB is current after the fence. *)
Theorem sfence_correct {X : VmiCxt} m i x s t rv ra :
  r_tlb s = Some t -> tlb_range t ->
  riscvGetVMIReg s (i_r0 i) = Some (true, rv) -> riscvGetVMIReg s (i_r1 i) = Some (true, ra) ->
  checkHaveSModeMT s = true -> requireModeMT s RISCV_MODE_SUPERVISOR = true ->
  emitTrapInstructionMask s status_TVM = false ->
  let va := (fun r => wrap (getRBits (i_r0 i)) (x r)) <$> rv in
  let asid := (fun r => w32 (x r)) <$> ra in
  exists s' t', emitSFENCE_VMA i x s = Some s' /\ r_tlb s' = Some t' /\
    (forall id e, t' !! id = Some e <-> t !! id = Some e /\ fence_selects s va asid e = false) /\
    ((forall id e, t !! id = Some e -> matchASID (getActiveASID s) e = true ->
        fence_selects s va asid e = true \/ reflects m s e) -> tlb_current m s').
Proof.
  intros Ht Hr Hv Ha HS Hmode Htvm va asid.
  assert (He : emitSFENCE_VMA i x s = Some (invalidate va asid s)).
  { unfold emitSFENCE_VMA. rewrite Hv, Ha. cbn [mbind option_bind fst snd negb orb].
    rewrite HS, Hmode, Htvm. cbn [negb]. by destruct rv, ra. }
  destruct (invalidate_selects va asid s t Ht Hr) as (t' & Hn & Hl).
  exists (invalidate va asid s), t'. split; [done|]. split; [by eapply tlb_now_tlb|]. split.
  - intros id e. rewrite Hl. destruct (t !! id) as [e0|]; simpl; [|by split; [|intros []]].
    destruct (fence_selects s va asid e0) eqn:Ef.
    + split; [done|]. intros [He0 Hs]. simplify_eq. congruence.
    + split; [|by intros [He0 _]]. intros He0. by simplify_eq.
  - intros Hc. by apply (fenced_current m va asid s t).
Qed.


(** Saving the TLB and restoring it, in the same or in another hart,
    gives a TLB with exactly the saved entries, none lost and none doubled:
    those of the TLB except for the entries of artifact accesses, and all of
    them unmapped. *)
Theorem tlb_save_restore s s' t u :
  r_tlb s = Some t -> tlb_range t -> r_tlb s' = Some u -> tlb_range u ->
  exists t', r_tlb (restoreVM (saveTLB s).2 s') = Some t' /\
    (map_to_list t').*2 ≡ₚ
      set_isMapped 0 <$> filter (fun e => t_artifact e = false) (map_to_list t).*2.
Proof.
  intros Ht Hr Hu Hru. destruct (restore_eq (saveTLB s).2 s' u Hu Hru) as (t' & Ht' & Hp).
  exists t'. split; [done|]. rewrite Hp, (save_eq s t Ht Hr). clear Hp Ht'.
  generalize (map_to_list t).*2. intros l. induction l as [|e l IH]; [done|]. simpl.
  unfold saved at 1. rewrite filter_cons. destruct (t_artifact e) eqn:E; simpl; [|by constructor].
  done.
Qed.

End Props.

(** ** The example *)

(** A store to the page is sent to the physical page 0x80123. *)
Lemma vm_refines_witness :
  exists s' p,
    riscvVMMiss 21 MEM_PRIV_W 0x400123 1 false paging = Some (s', false) /\
    vm_alias 21 5 0x400123 (r_vmi s') = Some (2, 0x80123123, p).
Proof.
  pose proof (vm_refines Sv32 paging 21 RISCV_MODE_SUPERVISOR MEM_PRIV_W 0x400123 1 false eq_refl
    ltac:(right; left; reflexivity) eq_refl paging_pmp paging_current eq_refl ltac:(lia) ltac:(vm_compute; discriminate)
    ltac:(lia) ltac:(vm_compute; discriminate)) as Hv.
  assert (Ht : ref_translate Sv32 paging RISCV_MODE_SUPERVISOR MEM_PRIV_W 0x400123 =
    inr (0, 0x80123 * 2 ^ 10 + 0xc7, 0x80001000)) by (vm_compute; reflexivity).
  rewrite Ht in Hv. destruct Hv as (s' & p & Hr & Ha & _). exists s', p. split; [exact Hr|]. exact Ha.
Defined.


(** The entry for the page is removed by a fence for an address in it. *)
Lemma sfence_correct_witness :
  exists s' t', emitSFENCE_VMA sfence_i (fun _ => 0x400800) mapped_page = Some s' /\
    r_tlb s' = Some t' /\ t' !! 1 = None.
Proof.
  destruct (sfence_correct Sv32 sfence_i (fun _ => 0x400800) mapped_page _ (Some 1) None mapped_page_tlb
    page_range) as (s' & t' & Hs & Ht & Hl & _); [vm_compute; reflexivity..|].
  exists s', t'. split; [exact Hs|]. split; [exact Ht|]. destruct (t' !! 1) as [e|] eqn:E; [|reflexivity].
  apply Hl in E as [[_ <-]%lookup_singleton_Some Hf]. vm_compute in Hf. discriminate.
Defined.


(** The TLB with the page restored into the hart before its first access. *)
Lemma tlb_save_restore_witness :
  exists t', r_tlb (restoreVM (saveTLB mapped_page).2 paging) = Some t' /\
    (map_to_list t').*2 ≡ₚ [set_isMapped 0 page_entry].
Proof.
  destruct (tlb_save_restore mapped_page paging {[1 := page_entry]} ∅ mapped_page_tlb page_range eq_refl)
    as (t' & Ht & Hp); [intros id e He; by rewrite lookup_empty in He|].
  exists t'. split; [exact Ht|]. rewrite Hp, map_to_list_singleton. reflexivity.
Defined.
