(* ===== verification/RtlAlu.v ===== *)
(** * The arithmetic unit of the CPU core

    The registers and the clocked process of src/rtl/cpu/alu.v, in the
    configuration the file is built in: hardware division, and shifts,
    multiplications and divisions that take many cycles.  A register of the
    Verilog is a field of [alu]; [alu_clock] is the effect of one rising edge
    of the clock, in which every non-blocking assignment reads the values
    before the edge. *)

From S2P Require Import Prelude.

(** ** Bit vectors *)

(** [x[hi:lo]]. *)
Definition slice (hi lo x : Z) : Z := wrap (hi - lo + 1) (Z.shiftr x lo).

(** Concatenation of vectors, each with its width, the most significant
    first. *)
Definition cat (l : list (Z * Z)) : Z :=
  fold_left (fun acc '(w, v) => acc * 2 ^ w + wrap w v) l 0.

Module Alu.

(** ** Operations *)

Abbreviation ALUOP_ADD := 0.
Abbreviation ALUOP_SUB := 1.
Abbreviation ALUOP_AND := 2.
Abbreviation ALUOP_OR := 3.
Abbreviation ALUOP_XOR := 4.
Abbreviation ALUOP_SLT := 5.
Abbreviation ALUOP_SLTU := 6.
Abbreviation ALUOP_SLL := 7.
Abbreviation ALUOP_SRL := 8.
Abbreviation ALUOP_SRA := 9.
Abbreviation ALUOP_MUL := 10.
Abbreviation ALUOP_MULH := 11.
Abbreviation ALUOP_MULHSU := 12.
Abbreviation ALUOP_MULHU := 13.
Abbreviation ALUOP_DIV := 14.
Abbreviation ALUOP_DIVU := 15.
Abbreviation ALUOP_REM := 16.
Abbreviation ALUOP_REMU := 17.

(** ** Registers *)

Record alu := Alu {
  result : Z; busy : bool; shiftcnt : Z;
  product : Z; mulcand : Z; bit_mul : Z;
  dividend_copy : Z; divider_copy : Z; bit_div : Z;
  O_lt : bool; O_ltu : bool; O_eq : bool;
}.

Definition set_result (v : Z) (r : alu) : alu :=
  Alu v (busy r) (shiftcnt r) (product r) (mulcand r) (bit_mul r) (dividend_copy r) (divider_copy r)
    (bit_div r) (O_lt r) (O_ltu r) (O_eq r).
Definition set_busy (v : bool) (r : alu) : alu :=
  Alu (result r) v (shiftcnt r) (product r) (mulcand r) (bit_mul r) (dividend_copy r) (divider_copy r)
    (bit_div r) (O_lt r) (O_ltu r) (O_eq r).
Definition set_shiftcnt (v : Z) (r : alu) : alu :=
  Alu (result r) (busy r) v (product r) (mulcand r) (bit_mul r) (dividend_copy r) (divider_copy r)
    (bit_div r) (O_lt r) (O_ltu r) (O_eq r).
Definition set_mul (p c n : Z) (r : alu) : alu :=
  Alu (result r) (busy r) (shiftcnt r) p c n (dividend_copy r) (divider_copy r)
    (bit_div r) (O_lt r) (O_ltu r) (O_eq r).
Definition set_div (d v n : Z) (r : alu) : alu :=
  Alu (result r) (busy r) (shiftcnt r) (product r) (mulcand r) (bit_mul r) d v n
    (O_lt r) (O_ltu r) (O_eq r).
Definition set_flags (lt ltu eq : bool) (r : alu) : alu :=
  Alu (result r) (busy r) (shiftcnt r) (product r) (mulcand r) (bit_mul r) (dividend_copy r)
    (divider_copy r) (bit_div r) lt ltu eq.

(** ** One clock edge *)

Section Clock.

Context (I_dataS1 I_dataS2 I_aluop : Z).

(** The combinational part. *)
Definition sub : Z := wrap 33 (I_dataS1 - I_dataS2).
Definition myxor : Z := Z.lxor I_dataS1 I_dataS2.
Definition lt_ : bool := xorb (Z.testbit sub 32) (Z.testbit myxor 31).
Definition ltu_ : bool := Z.testbit sub 32.
Definition eq_ : bool := sub =? 0.
Definition pos_src1 : Z := if Z.testbit I_dataS1 31 then w32 (- I_dataS1) else I_dataS1.
Definition pos_src2 : Z := if Z.testbit I_dataS2 31 then w32 (- I_dataS2) else I_dataS2.
Definition sign : bool := xorb (Z.testbit I_dataS1 31) (Z.testbit I_dataS2 31).

(** ALUOP_SLL, ALUOP_SRL and ALUOP_SRA. *)
Definition shift_clock (r : alu) : alu :=
  if negb (busy r) then set_shiftcnt (slice 4 0 I_dataS2) (set_result I_dataS1 (set_busy true r))
  else if negb (shiftcnt r =? 0) then
    let x := result r in
    let shifted :=
      if I_aluop =? ALUOP_SLL then cat [(31, slice 30 0 x); (1, 0)]
      else if I_aluop =? ALUOP_SRL then cat [(1, 0); (31, slice 31 1 x)]
      else cat [(1, slice 31 31 x); (31, slice 31 1 x)] in
    set_shiftcnt (wrap 5 (shiftcnt r - 1)) (set_result shifted r)
  else set_busy false r.

(** ALUOP_MUL, ALUOP_MULH, ALUOP_MULHSU and ALUOP_MULHU. *)
Definition mul_clock (r : alu) : alu :=
  if negb (busy r) then
    let '(p, c) :=
      if (I_aluop =? ALUOP_MUL) || (I_aluop =? ALUOP_MULH) then (pos_src1, pos_src2)
      else if I_aluop =? ALUOP_MULHSU then (pos_src1, I_dataS2)
      else (I_dataS1, I_dataS2) in
    set_mul (cat [(32, 0); (32, p)]) c 32 (set_busy true r)
  else if negb (bit_mul r =? 0) then
    let top_prod := wrap 33 (slice 63 32 (product r) + mulcand r) in
    let p := if Z.testbit (product r) 0 then cat [(33, top_prod); (31, slice 31 1 (product r))]
             else Z.shiftr (product r) 1 in
    set_mul p (mulcand r) (wrap 6 (bit_mul r - 1)) r
  else
    let p := product r in
    let neg_product := w64 (- p) in
    let v :=
      if I_aluop =? ALUOP_MUL then (if sign then slice 31 0 neg_product else slice 31 0 p)
      else if I_aluop =? ALUOP_MULH then (if sign then slice 63 32 neg_product else slice 63 32 p)
      else if I_aluop =? ALUOP_MULHSU then
        (if Z.testbit I_dataS1 31 then slice 63 32 neg_product else slice 63 32 p)
      else slice 63 32 p in
    set_busy false (set_result v r).

(** ALUOP_DIV, ALUOP_REM, ALUOP_DIVU and ALUOP_REMU. *)
Definition div_clock (r : alu) : alu :=
  if negb (busy r) then
    if I_dataS2 =? 0 then
      set_result (if (I_aluop =? ALUOP_DIV) || (I_aluop =? ALUOP_DIVU) then 0xffffffff else I_dataS1) r
    else if ((I_dataS1 =? 0xffffffff) && ((I_dataS2 =? 0x80000000) || (I_dataS2 =? 0x7fffffff)) ||
             (I_dataS1 =? 0x80000000) && (I_dataS2 =? 0x7fffffff)) && (I_aluop =? ALUOP_REM)
    then set_result 0xffffffff r
    else
      let '(d, v) :=
        if (I_aluop =? ALUOP_DIVU) || (I_aluop =? ALUOP_REMU) then (I_dataS1, I_dataS2)
        else (pos_src1, pos_src2) in
      set_div (cat [(32, 0); (32, d)]) (cat [(1, 0); (32, v); (31, 0)]) 32
        (set_result 0 (set_busy true r))
  else if negb (bit_div r =? 0) then
    let diff := w64 (dividend_copy r - divider_copy r) in
    let '(d, q) :=
      if negb (Z.testbit diff 63) then (diff, cat [(31, slice 30 0 (result r)); (1, 1)])
      else (dividend_copy r, cat [(31, slice 30 0 (result r)); (1, 0)]) in
    set_div d (cat [(1, 0); (63, slice 63 1 (divider_copy r))]) (wrap 6 (bit_div r - 1)) (set_result q r)
  else
    let v :=
      if I_aluop =? ALUOP_DIV then (if sign then w32 (- result r) else result r)
      else if I_aluop =? ALUOP_DIVU then result r
      else slice 31 0 (dividend_copy r) in
    set_busy false (set_result v r).

Definition alu_clock (I_en I_reset : bool) (r : alu) : alu :=
  if I_reset then set_busy false r
  else if I_en || busy r then
    let op := I_aluop in
    let r' :=
      if op =? ALUOP_SUB then set_result (slice 31 0 sub) r
      else if op =? ALUOP_AND then set_result (Z.land I_dataS1 I_dataS2) r
      else if op =? ALUOP_OR then set_result (Z.lor I_dataS1 I_dataS2) r
      else if op =? ALUOP_XOR then set_result myxor r
      else if op =? ALUOP_SLT then set_result (Z.b2z lt_) r
      else if op =? ALUOP_SLTU then set_result (Z.b2z ltu_) r
      else if (op =? ALUOP_SLL) || (op =? ALUOP_SRL) || (op =? ALUOP_SRA) then shift_clock r
      else if (op =? ALUOP_MUL) || (op =? ALUOP_MULH) || (op =? ALUOP_MULHSU) || (op =? ALUOP_MULHU)
      then mul_clock r
      else if (op =? ALUOP_DIV) || (op =? ALUOP_REM) || (op =? ALUOP_DIVU) || (op =? ALUOP_REMU)
      then div_clock r
      else set_result (w32 (I_dataS1 + I_dataS2)) r in
    set_flags lt_ ltu_ eq_ r'
  else r.

End Clock.

End Alu.
