(* ===== verification/RtlAluFacts.v ===== *)
(** * The arithmetic unit computes what the instruction set says

    Invariants of the shift, multiplication and division loops, and the
    number of cycles and the result of every operation. *)

From S2P Require Import Prelude RtlAlu.
Import Alu.

(** ** Reference *)

(** What the manual of the instruction set gives for an operation. *)
Definition alu_ref (op a b : Z) : Z :=
  let sh := b mod 32 in
  if op =? ALUOP_SUB then w32 (a - b)
  else if op =? ALUOP_AND then Z.land a b
  else if op =? ALUOP_OR then Z.lor a b
  else if op =? ALUOP_XOR then Z.lxor a b
  else if op =? ALUOP_SLT then Z.b2z (s32 a <? s32 b)
  else if op =? ALUOP_SLTU then Z.b2z (a <? b)
  else if op =? ALUOP_SLL then w32 (a * 2 ^ sh)
  else if op =? ALUOP_SRL then a / 2 ^ sh
  else if op =? ALUOP_SRA then w32 (s32 a / 2 ^ sh)
  else if op =? ALUOP_MUL then w32 (a * b)
  else if op =? ALUOP_MULH then w32 (s32 a * s32 b / 2 ^ 32)
  else if op =? ALUOP_MULHSU then w32 (s32 a * b / 2 ^ 32)
  else if op =? ALUOP_MULHU then a * b / 2 ^ 32
  else if op =? ALUOP_DIV then if b =? 0 then 0xffffffff else w32 (Z.quot (s32 a) (s32 b))
  else if op =? ALUOP_DIVU then if b =? 0 then 0xffffffff else a / b
  else if op =? ALUOP_REM then if b =? 0 then a else w32 (Z.rem (s32 a) (s32 b))
  else if op =? ALUOP_REMU then if b =? 0 then a else a mod b
  else w32 (a + b).

(** The three pairs of operands of a remainder that the unit singles out. *)
Definition rem_special (a b : Z) : bool :=
  (a =? 0xffffffff) && ((b =? 0x80000000) || (b =? 0x7fffffff)) || (a =? 0x80000000) && (b =? 0x7fffffff).

(** What it gives for a signed remainder. *)
Definition rem_hw (a b : Z) : Z :=
  if b =? 0 then a else if rem_special a b then 0xffffffff else Z.abs (s32 a) mod Z.abs (s32 b).

Definition alu_value (op a b : Z) : Z := if op =? ALUOP_REM then rem_hw a b else alu_ref op a b.

(** The cycles after the first one. *)
Definition latency (op a b : Z) : nat :=
  if (ALUOP_SLL <=? op) && (op <=? ALUOP_SRA) then S (Z.to_nat (b mod 32))
  else if (ALUOP_MUL <=? op) && (op <=? ALUOP_MULHU) then 33
  else if (ALUOP_DIV <=? op) && (op <=? ALUOP_REMU) then
    if (b =? 0) || (op =? ALUOP_REM) && rem_special a b then 0 else 33
  else 0.

(** ** Arithmetic *)

Lemma slice_eq hi lo x : 0 <= lo -> slice hi lo x = x / 2 ^ lo mod 2 ^ (hi - lo + 1).
Proof. intros. unfold slice, wrap. by rewrite shiftr_div. Qed.

Lemma top_bit n x : 0 <= n -> 0 <= x < 2 ^ (n + 1) -> Z.testbit x n = (2 ^ n <=? x).
Proof.
  intros Hn Hx. rewrite Z.pow_add_r in Hx by lia. pose proof (Z.pow_pos_nonneg 2 n ltac:(lia) Hn).
  rewrite Z.testbit_eqb by lia. destruct (Z.leb_spec (2 ^ n) x).
  - replace (x / 2 ^ n) with 1; [done|]. apply Z.div_unique with (x - 2 ^ n); lia.
  - by rewrite Z.div_small by lia.
Qed.

Lemma s32_eq x : u32_range x -> s32 x = if 2 ^ 31 <=? x then x - 2 ^ 32 else x.
Proof.
  intros Hx. unfold sgn. rewrite wrap_small by done. change (2 ^ (32 - 1)) with (2 ^ 31).
  destruct (Z.ltb_spec x (2 ^ 31)), (Z.leb_spec (2 ^ 31) x); lia.
Qed.

Section Facts.

Context (a b op : Z) (Ha : u32_range a) (Hb : u32_range b).

Lemma ltu_eq : ltu_ a b = (a <? b).
Proof.
  unfold ltu_, sub, u32_range in *. rewrite top_bit by (try apply wrap_range; lia). unfold wrap.
  destruct (Z.ltb_spec a b).
  - rewrite <- (Z.mod_unique (a - b) (2 ^ 33) (-1) (a - b + 2 ^ 33)) by lia. lia.
  - rewrite Z.mod_small by lia. lia.
Qed.

Lemma sign_bit x : u32_range x -> Z.testbit x 31 = (s32 x <? 0).
Proof.
  intros Hx. rewrite top_bit, s32_eq by (done || lia). unfold u32_range in *.
  destruct (Z.leb_spec (2 ^ 31) x); lia.
Qed.

Lemma lt_eq : lt_ a b = (s32 a <? s32 b).
Proof.
  unfold lt_. fold (ltu_ a b). rewrite ltu_eq. unfold myxor. rewrite Z.lxor_spec, !sign_bit by done.
  rewrite !s32_eq by done. unfold u32_range in *.
  destruct (Z.leb_spec (2 ^ 31) a), (Z.leb_spec (2 ^ 31) b);
    repeat match goal with |- context [?x <? ?y] => destruct (Z.ltb_spec x y) end; (done || lia).
Qed.

Lemma eq_eq : eq_ a b = (a =? b).
Proof.
  unfold eq_, sub, wrap, u32_range in *. destruct (Z.eqb_spec a b) as [->|Hne].
  - by rewrite Z.sub_diag.
  - apply Z.eqb_neq. intros Hz. apply Z.mod_divide in Hz as [k Hk]; lia.
Qed.

Lemma pos_eq x : u32_range x -> (if Z.testbit x 31 then w32 (- x) else x) = Z.abs (s32 x).
Proof.
  intros Hx. rewrite sign_bit, s32_eq by done. unfold u32_range in *.
  destruct (Z.leb_spec (2 ^ 31) x).
  - replace (x - 2 ^ 32 <? 0) with true by lia. unfold wrap.
    rewrite <- (Z.mod_unique (- x) (2 ^ 32) (-1) (2 ^ 32 - x)) by lia. lia.
  - replace (x <? 0) with false by lia. lia.
Qed.

Lemma abs_range x : u32_range x -> 0 <= Z.abs (s32 x) <= 2 ^ 31.
Proof. intros Hx. rewrite s32_eq by done. unfold u32_range in *. destruct (Z.leb_spec (2 ^ 31) x); lia. Qed.

(** ** Runs *)

(** The state [n] edges later, with the operation held and not enabled
    again. *)
Definition after (n : nat) (r : alu) : alu := Nat.iter n (alu_clock a b op false false) r.

(** The operation ends after [n] more edges with result [v], and not before;
    the comparison flags are those of the operands. *)
Definition finishes (n : nat) (v : Z) (r : alu) : Prop :=
  (forall k, (k < n)%nat -> busy (after k r) = true) /\
  busy (after n r) = false /\ result (after n r) = v.

Lemma finishes_now v r : busy r = false -> result r = v -> finishes 0 v r.
Proof. intros Hn Hv. split; [lia|done]. Qed.

Lemma finishes_later n v r :
  busy r = true -> finishes n v (alu_clock a b op false false r) -> finishes (S n) v r.
Proof.
  intros Hbusy (Hk & Hd & Hv). unfold finishes, after in *.
  split; [|by rewrite Nat.iter_succ_r]. intros [|k] Hlt; [done|]. rewrite Nat.iter_succ_r. apply Hk. lia.
Qed.

Lemma count_left n : (Z.of_nat (S n) =? 0) = false.
Proof. done. Qed.

(** *** Shifts *)

Lemma clock_shift en r :
  ALUOP_SLL <= op <= ALUOP_SRA -> en || busy r = true ->
  alu_clock a b op en false r = set_flags (lt_ a b) (ltu_ a b) (eq_ a b) (shift_clock a b op r).
Proof.
  intros Ho He. unfold alu_clock. rewrite He. f_equal.
  assert (op = 7 \/ op = 8 \/ op = 9) as [-> | [-> | ->]] by lia; done.
Qed.

(** One bit more. *)
Definition shift_one (x : Z) : Z :=
  if op =? ALUOP_SLL then w32 (x * 2) else if op =? ALUOP_SRL then x / 2 else w32 (s32 x / 2).

Definition shift_ref (n x : Z) : Z :=
  if op =? ALUOP_SLL then w32 (x * 2 ^ n) else if op =? ALUOP_SRL then x / 2 ^ n else w32 (s32 x / 2 ^ n).

Lemma shift_one_range x : u32_range x -> u32_range (shift_one x).
Proof.
  intros Hx. unfold shift_one, u32_range in *. case_match; [apply (wrap_range 32); lia|].
  case_match; [zlia|apply (wrap_range 32); lia].
Qed.

Lemma shift_ref_succ n x : 0 <= n -> u32_range x -> shift_ref n (shift_one x) = shift_ref (n + 1) x.
Proof.
  intros Hn Hx. unfold shift_ref, shift_one. rewrite Z.pow_add_r by lia.
  pose proof (Z.pow_pos_nonneg 2 n ltac:(lia) Hn). case_match; [|case_match].
  - unfold wrap. rewrite Z.mul_mod_idemp_l by lia. f_equal. lia.
  - rewrite Z.div_div by lia. f_equal. lia.
  - replace (s32 (w32 (s32 x / 2))) with (s32 x / 2).
    + rewrite Z.div_div by lia. do 2 f_equal. lia.
    + rewrite !s32_eq by (try apply (wrap_range 32); (done || lia)). unfold wrap, u32_range in *.
      destruct (Z.leb_spec (2 ^ 31) x).
      * rewrite <- (Z.mod_unique ((x - 2 ^ 32) / 2) (2 ^ 32) (-1) ((x - 2 ^ 32) / 2 + 2 ^ 32)) by zlia.
        destruct (Z.leb_spec (2 ^ 31) ((x - 2 ^ 32) / 2 + 2 ^ 32)); zlia.
      * rewrite Z.mod_small by zlia. destruct (Z.leb_spec (2 ^ 31) (x / 2)); zlia.
Qed.

Lemma cat_two w1 v1 w2 v2 : cat [(w1, v1); (w2, v2)] = wrap w1 v1 * 2 ^ w2 + wrap w2 v2.
Proof. unfold cat. simpl. lia. Qed.

(** The wiring of a shift by one. *)
Lemma shift_wires x :
  u32_range x ->
  (if op =? ALUOP_SLL then cat [(31, slice 30 0 x); (1, 0)]
   else if op =? ALUOP_SRL then cat [(1, 0); (31, slice 31 1 x)]
   else cat [(1, slice 31 31 x); (31, slice 31 1 x)]) = shift_one x.
Proof.
  intros Hx. unfold shift_one. rewrite !cat_two, !slice_eq by lia. unfold wrap, u32_range in *.
  simpl Z.sub. simpl Z.add. case_match; [zlia|]. case_match; [zlia|].
  rewrite s32_eq by done. destruct (Z.leb_spec (2 ^ 31) x); zlia.
Qed.

Lemma shift_loop n r :
  ALUOP_SLL <= op <= ALUOP_SRA -> busy r = true -> shiftcnt r = Z.of_nat n -> (n < 32)%nat ->
  u32_range (result r) -> finishes (S n) (shift_ref (Z.of_nat n) (result r)) r.
Proof.
  intros Ho. revert r. induction n as [|n IH]; intros r Hbusy Hcnt Hn Hr; apply finishes_later; try done;
    rewrite clock_shift by (done || by rewrite Hbusy); unfold shift_clock; rewrite Hbusy, Hcnt; cbn [negb].
  - apply finishes_now; [done|]. unfold shift_ref. simpl. rewrite Z.mul_1_r, !Z.div_1_r.
    unfold u32_range in *. case_match; [by rewrite wrap_small|]. case_match; [done|].
    rewrite s32_eq by done. destruct (Z.leb_spec (2 ^ 31) (result r)); [|by rewrite wrap_small].
    unfold wrap. apply Z.mod_unique with (-1); lia.
  - rewrite count_left. cbn [negb]. rewrite shift_wires by done.
    replace (shift_ref (Z.of_nat (S n)) (result r)) with (shift_ref (Z.of_nat n) (shift_one (result r))).
    + apply IH; try done; [|lia|by apply shift_one_range]. cbn [shiftcnt set_flags set_shiftcnt].
      rewrite wrap_small by lia. lia.
    + rewrite shift_ref_succ by (done || lia). f_equal. lia.
Qed.

(** *** Multiplication *)

Lemma clock_mul en r :
  ALUOP_MUL <= op <= ALUOP_MULHU -> en || busy r = true ->
  alu_clock a b op en false r = set_flags (lt_ a b) (ltu_ a b) (eq_ a b) (mul_clock a b op r).
Proof.
  intros Ho He. unfold alu_clock. rewrite He. f_equal.
  assert (op = 10 \/ op = 11 \/ op = 12 \/ op = 13) as [-> | [-> | [-> | ->]]] by lia; done.
Qed.

(** What is read off the product. *)
Definition mul_final (p : Z) : Z :=
  if op =? ALUOP_MUL then (if sign a b then slice 31 0 (w64 (- p)) else slice 31 0 p)
  else if op =? ALUOP_MULH then (if sign a b then slice 63 32 (w64 (- p)) else slice 63 32 p)
  else if op =? ALUOP_MULHSU then
    (if Z.testbit a 31 then slice 63 32 (w64 (- p)) else slice 63 32 p)
  else slice 63 32 p.

(** The wiring of one step: add the multiplicand above and shift. *)
Lemma mul_wires p c :
  0 <= p < 2 ^ 64 -> u32_range c ->
  (if Z.testbit p 0 then cat [(33, wrap 33 (slice 63 32 p + c)); (31, slice 31 1 p)] else Z.shiftr p 1) =
  p / 2 + (p mod 2) * c * 2 ^ 31.
Proof.
  intros Hp Hc. unfold u32_range in *. rewrite Z.bit0_odd, shiftr_div, Zmod_odd by lia.
  change (2 ^ 1) with 2. destruct (Z.odd p); [|lia]. rewrite cat_two, !slice_eq by lia. simpl Z.sub. simpl Z.add.
  unfold wrap. rewrite (Z.mod_small (p / 2 ^ 32)) by zlia. rewrite Z.mod_mod by lia.
  rewrite (Z.mod_small (p / 2 ^ 32 + c)) by zlia. rewrite Z.mod_mod by lia.
  change (2 ^ 1) with 2.
  pose proof (Z.div_mod (p / 2) (2 ^ 31) ltac:(lia)) as Hd. rewrite Z.div_div in Hd by lia.
  change (2 * 2 ^ 31) with (2 ^ 32) in Hd. lia.
Qed.

(** The product after [32 - n] of the 32 steps. *)
Definition partial (A c : Z) (n : Z) : Z := (A mod 2 ^ (32 - n)) * c * 2 ^ n + A / 2 ^ (32 - n).

Lemma partial_range A c n :
  u32_range A -> u32_range c -> 0 <= n <= 32 -> 0 <= partial A c n < 2 ^ 64.
Proof.
  intros HA Hc Hn. unfold partial, u32_range in *.
  set (P := 2 ^ (32 - n)). assert (HP : P * 2 ^ n = 2 ^ 32) by (unfold P; rewrite <- Z.pow_add_r by lia; f_equal; lia).
  assert (0 < P) by (apply Z.pow_pos_nonneg; lia). assert (0 < 2 ^ n) by (apply Z.pow_pos_nonneg; lia).
  pose proof (Z.mod_pos_bound A P ltac:(lia)). pose proof (Z.div_pos A P ltac:(lia) ltac:(lia)).
  assert (A / P < 2 ^ n) by (apply Z.div_lt_upper_bound; lia).
  set (T := A mod P) in *. set (Q := 2 ^ n) in *.
  assert (T * c * Q <= (P - 1) * c * Q) by nia. assert ((P - 1) * c * Q <= (2 ^ 32 - Q) * (2 ^ 32 - 1)) by nia.
  nia.
Qed.

Lemma partial_step A c n :
  0 <= n < 32 -> partial A c (n + 1) / 2 + (partial A c (n + 1) mod 2) * c * 2 ^ 31 = partial A c n.
Proof.
  intros Hn. unfold partial. replace (32 - (n + 1)) with (31 - n) by lia.
  rewrite (Z.pow_add_r 2 n 1) by lia. change (2 ^ 1) with 2.
  assert (HP : 2 ^ (32 - n) = 2 ^ (31 - n) * 2) by (replace (32 - n) with (31 - n + 1) by lia; by rewrite Z.pow_add_r by lia).
  assert (H31 : 2 ^ (31 - n) * 2 ^ n = 2 ^ 31) by (rewrite <- Z.pow_add_r by lia; f_equal; lia).
  assert (0 < 2 ^ (31 - n)) by (apply Z.pow_pos_nonneg; lia).
  set (P := 2 ^ (31 - n)) in *. set (Q := 2 ^ n) in *. set (T := A mod P). set (U := A / P).
  assert (HU : A / (P * 2) = U / 2) by (unfold U; by rewrite Z.div_div by lia).
  assert (HT : A mod (P * 2) = T + P * (U mod 2)).
  { pose proof (Z.div_mod A P ltac:(lia)) as H1. pose proof (Z.div_mod A (P * 2) ltac:(lia)) as H2.
    pose proof (Z.div_mod U 2 ltac:(lia)). fold U T in H1. rewrite HU in H2. nia. }
  rewrite HP, HU, HT. replace (T * c * (Q * 2) + U) with (U + T * c * Q * 2) by lia.
  rewrite Z.div_add, Z.mod_add by lia. rewrite <- H31. ring.
Qed.

Lemma mul_loop A c n r :
  ALUOP_MUL <= op <= ALUOP_MULHU -> u32_range A -> u32_range c -> (n <= 32)%nat ->
  busy r = true -> bit_mul r = Z.of_nat n -> mulcand r = c -> product r = partial A c (Z.of_nat n) ->
  finishes (S n) (mul_final (A * c)) r.
Proof.
  intros Ho HA Hc. revert r. induction n as [|n IH]; intros r Hn Hbusy Hcnt Hcand Hp; apply finishes_later;
    try done; rewrite clock_mul by (done || by rewrite Hbusy); unfold mul_clock; rewrite Hbusy, Hcnt; cbn [negb].
  - apply finishes_now; [done|]. cbn [result set_flags set_busy set_result].
    replace (product r) with (A * c); [done|]. rewrite Hp. unfold partial, u32_range in *.
    change (32 - Z.of_nat 0) with 32. rewrite Z.mod_small, Z.div_small by lia. simpl. lia.
  - rewrite count_left. cbn [negb].
    rewrite mul_wires, Hp by (rewrite ?Hp, ?Hcand; try apply partial_range; (done || lia)).
    apply IH; try done; [lia| |]; cbn [bit_mul product mulcand set_flags set_mul]; [by rewrite wrap_small by lia; lia|].
    rewrite Hcand. replace (Z.of_nat (S n)) with (Z.of_nat n + 1) by lia. apply partial_step. lia.
Qed.

(** *** Division *)

Lemma clock_div en r :
  ALUOP_DIV <= op <= ALUOP_REMU -> en || busy r = true ->
  alu_clock a b op en false r = set_flags (lt_ a b) (ltu_ a b) (eq_ a b) (div_clock a b op r).
Proof.
  intros Ho He. unfold alu_clock. rewrite He. f_equal.
  assert (op = 14 \/ op = 15 \/ op = 16 \/ op = 17) as [-> | [-> | [-> | ->]]] by lia; done.
Qed.

(** What is read off the quotient and the rest. *)
Definition div_final (q d : Z) : Z :=
  if op =? ALUOP_DIV then (if sign a b then w32 (- q) else q)
  else if op =? ALUOP_DIVU then q
  else slice 31 0 d.

Lemma diff_sign d v :
  0 <= d < 2 ^ 32 -> 0 <= v < 2 ^ 63 ->
  Z.testbit (w64 (d - v)) 63 = (d <? v) /\ (v <= d -> w64 (d - v) = d - v).
Proof.
  intros Hd Hv. rewrite top_bit by (try apply (wrap_range 64); lia). unfold wrap. split.
  - destruct (Z.ltb_spec d v); [|rewrite Z.mod_small by lia; lia].
    rewrite <- (Z.mod_unique (d - v) (2 ^ 64) (-1) (d - v + 2 ^ 64)) by lia. lia.
  - intros. apply Z.mod_small. lia.
Qed.

Lemma quotient_wires q bit : 0 <= q < 2 ^ 31 -> 0 <= bit < 2 -> cat [(31, slice 30 0 q); (1, bit)] = 2 * q + bit.
Proof.
  intros Hq Hbit. rewrite cat_two, slice_eq by lia. unfold wrap. simpl Z.sub. simpl Z.add.
  rewrite Z.div_1_r, !(Z.mod_small q), (Z.mod_small bit) by lia. lia.
Qed.

Lemma divider_wires v : 0 <= v < 2 ^ 64 -> cat [(1, 0); (63, slice 63 1 v)] = v / 2.
Proof.
  intros Hv. rewrite cat_two, slice_eq by lia. unfold wrap. simpl Z.sub. simpl Z.add. change (2 ^ 1) with 2.
  rewrite !(Z.mod_small (v / 2)), Z.mod_0_l by zlia. lia.
Qed.

Lemma div_loop D v n r :
  ALUOP_DIV <= op <= ALUOP_REMU -> u32_range D -> u32_range v -> 0 < v -> (n <= 32)%nat ->
  busy r = true -> bit_div r = Z.of_nat n ->
  D = result r * v * 2 ^ Z.of_nat n + dividend_copy r -> 0 <= dividend_copy r < v * 2 ^ Z.of_nat n ->
  0 <= result r < 2 ^ (32 - Z.of_nat n) -> (n <> 0%nat -> divider_copy r = v * 2 ^ (Z.of_nat n - 1)) ->
  finishes (S n) (div_final (D / v) (D mod v)) r.
Proof.
  intros Ho HD Hv Hv0. revert r. induction n as [|n IH]; intros r Hn Hbusy Hcnt Hsum Hrest Hq Hdiv;
    apply finishes_later; try done; rewrite clock_div by (done || by rewrite Hbusy); unfold div_clock;
    rewrite Hbusy, Hcnt; cbn [negb].
  - apply finishes_now; [done|]. cbn [result set_flags set_busy set_result]. simpl in Hsum, Hrest.
    rewrite <- (Z.div_unique D v (result r) (dividend_copy r)) by lia.
    rewrite <- (Z.mod_unique D v (result r) (dividend_copy r)) by lia. done.
  - rewrite count_left. cbn [negb]. replace (Z.of_nat (S n)) with (Z.of_nat n + 1) in * by lia.
    rewrite Z.pow_add_r in Hsum, Hrest by lia. change (2 ^ 1) with 2 in Hsum, Hrest.
    rewrite Hdiv in * by lia. replace (Z.of_nat n + 1 - 1) with (Z.of_nat n) by lia.
    replace (32 - (Z.of_nat n + 1)) with (31 - Z.of_nat n) in Hq by lia.
    assert (Hpow : 2 ^ (32 - Z.of_nat n) = 2 ^ (31 - Z.of_nat n) * 2)
      by (replace (32 - Z.of_nat n) with (31 - Z.of_nat n + 1) by lia; by rewrite Z.pow_add_r by lia).
    pose proof (Z.pow_le_mono_r 2 (31 - Z.of_nat n) 31 ltac:(lia) ltac:(lia)).
    pose proof (Z.pow_le_mono_r 2 (Z.of_nat n) 31 ltac:(lia) ltac:(lia)).
    assert (0 < 2 ^ Z.of_nat n) by (apply Z.pow_pos_nonneg; lia). unfold u32_range in *.
    set (Q := 2 ^ Z.of_nat n) in *. assert (0 < v * Q < 2 ^ 63) by nia.
    assert (Hd32 : dividend_copy r < 2 ^ 32) by nia.
    destruct (diff_sign (dividend_copy r) (v * Q)) as [Hs Hw]; [lia|lia|]. rewrite Hs.
    rewrite !quotient_wires, divider_wires by lia.
    assert (Hnext : (n <> 0)%nat -> v * Q / 2 = v * 2 ^ (Z.of_nat n - 1)).
    { intros Hn0. unfold Q. replace (Z.of_nat n) with (Z.of_nat n - 1 + 1) at 1 by lia.
      rewrite Z.pow_add_r by lia. change (2 ^ 1) with 2.
      rewrite Z.mul_assoc, Z.div_mul by lia. done. }
    destruct (Z.ltb_spec (dividend_copy r) (v * Q)) as [Hlt|Hge]; cbn [negb].
    + apply IH; cbn [busy result dividend_copy divider_copy bit_div set_flags set_div set_result];
        fold Q; try done; [lia|rewrite wrap_small by lia; lia|nia|lia|lia].
    + rewrite Hw by done.
      apply IH; cbn [busy result dividend_copy divider_copy bit_div set_flags set_div set_result];
        fold Q; try done; [lia|rewrite wrap_small by lia; lia|nia|lia|lia].
Qed.

End Facts.

(** ** Results *)

Lemma product_low x : slice 31 0 (w64 x) = w32 x.
Proof.
  rewrite slice_eq by lia. unfold wrap. rewrite Z.div_1_r. 
  apply Z.mod_mod_divide. by exists (2 ^ 32).
Qed.

Lemma product_high x : slice 63 32 (w64 x) = w32 (x / 2 ^ 32).
Proof.
  rewrite slice_eq by lia. unfold wrap. change (63 - 32 + 1) with 32.
  rewrite (div_mod_pow x 32 32) by lia. rewrite Z.mod_small; [done|].
  pose proof (Z.mod_pos_bound x (2 ^ (32 + 32)) ltac:(lia)). zlia.
Qed.

Lemma signed_product a b :
  u32_range a -> u32_range b ->
  s32 a * s32 b =
  if sign a b then - (Z.abs (s32 a) * Z.abs (s32 b)) else Z.abs (s32 a) * Z.abs (s32 b).
Proof.
  intros Ha Hb. unfold sign. rewrite !sign_bit by done.
  destruct (Z.ltb_spec (s32 a) 0), (Z.ltb_spec (s32 b) 0); simpl; nia.
Qed.

Lemma s32_mod x : u32_range x -> w32 (s32 x) = x.
Proof.
  intros Hx. rewrite s32_eq by done. unfold u32_range in *. destruct (Z.leb_spec (2 ^ 31) x).
  - unfold wrap. symmetry. apply Z.mod_unique with (-1); lia.
  - by apply wrap_small.
Qed.

Lemma mul_mod x y : u32_range x -> u32_range y -> w32 (s32 x * s32 y) = w32 (x * y).
Proof.
  intros Hx Hy. rewrite <- (s32_mod x) at 2 by done. rewrite <- (s32_mod y) at 2 by done. unfold wrap.
  by rewrite <- Z.mul_mod by lia.
Qed.

(** The operands a multiplication starts with. *)
Definition mul_operands (a b op : Z) : Z * Z :=
  if (op =? ALUOP_MUL) || (op =? ALUOP_MULH) then (Z.abs (s32 a), Z.abs (s32 b))
  else if op =? ALUOP_MULHSU then (Z.abs (s32 a), b)
  else (a, b).

Lemma mul_result a b op :
  u32_range a -> u32_range b -> ALUOP_MUL <= op <= ALUOP_MULHU ->
  mul_final a b op ((mul_operands a b op).1 * (mul_operands a b op).2) = alu_value op a b.
Proof.
  intros Ha Hb Ho. pose proof (abs_range a Ha). pose proof (abs_range b Hb). unfold u32_range in *.
  assert (Hwide : forall x, 0 <= x < 2 ^ 64 -> x = w64 x) by (intros; by rewrite wrap_small).
  assert (op = 10 \/ op = 11 \/ op = 12 \/ op = 13) as [-> | [-> | [-> | ->]]] by lia;
    unfold mul_final, mul_operands, alu_value, alu_ref; cbn [Z.eqb Pos.eqb orb fst snd].
  - rewrite <- mul_mod, signed_product by done. destruct (sign a b); [apply product_low|].
    rewrite (Hwide (_ * _)) at 1 by nia. apply product_low.
  - rewrite signed_product by done. destruct (sign a b); [apply product_high|].
    rewrite (Hwide (_ * _)) at 1 by nia. apply product_high.
  - rewrite sign_bit by done. destruct (Z.ltb_spec (s32 a) 0).
    + rewrite product_high. do 2 f_equal. nia.
    + rewrite (Hwide (_ * _)) by nia. rewrite product_high. do 2 f_equal. nia.
  - rewrite (Hwide (_ * _)) at 1 by nia. rewrite product_high. apply wrap_small.
    split; [apply Z.div_pos; nia|apply Z.div_lt_upper_bound; nia].
Qed.

Definition div_operands (a b op : Z) : Z * Z :=
  if (op =? ALUOP_DIVU) || (op =? ALUOP_REMU) then (a, b) else (Z.abs (s32 a), Z.abs (s32 b)).

Lemma div_result a b op :
  u32_range a -> u32_range b -> ALUOP_DIV <= op <= ALUOP_REMU -> b <> 0 -> (op =? ALUOP_REM) && rem_special a b = false ->
  let '(D, v) := div_operands a b op in
  u32_range D /\ u32_range v /\ 0 < v /\ div_final a b op (D / v) (D mod v) = alu_value op a b.
Proof.
  intros Ha Hb Ho Hb0 Hsp. pose proof (abs_range a Ha). pose proof (abs_range b Hb).
  assert (s32 b <> 0) by (intros Hz; apply Hb0; rewrite <- (s32_mod b Hb), Hz; done).
  assert (Hlow : forall x, 0 <= x < 2 ^ 32 -> slice 31 0 x = x).
  { intros x Hx. rewrite slice_eq, Z.div_1_r by lia. by apply Z.mod_small. }
  unfold u32_range in *.
  assert (op = 14 \/ op = 15 \/ op = 16 \/ op = 17) as [-> | [-> | [-> | ->]]] by lia;
    unfold div_operands, alu_value, alu_ref, rem_hw, div_final; cbn [Z.eqb Pos.eqb orb fst snd];
    replace (b =? 0) with false by lia;
    (split; [lia|]); (split; [lia|]); (split; [lia|]).
  - rewrite Z.quot_div by done. pose proof (Z.div_pos (Z.abs (s32 a)) (Z.abs (s32 b)) ltac:(lia) ltac:(lia)).
    assert (Z.abs (s32 a) / Z.abs (s32 b) <= Z.abs (s32 a)) by (apply Z.div_le_upper_bound; nia).
    unfold sign. rewrite !sign_bit by done.
    destruct (Z.ltb_spec (s32 a) 0), (Z.ltb_spec (s32 b) 0); simpl.
    + rewrite !Z.sgn_neg by lia. rewrite wrap_small by lia. lia.
    + rewrite (Z.sgn_neg (s32 a)), (Z.sgn_pos (s32 b)) by lia. f_equal; lia.
    + destruct (Z.eq_dec (s32 a) 0) as [Hz|]; [rewrite Hz; by rewrite Z.div_0_l by lia|].
      rewrite (Z.sgn_pos (s32 a)), (Z.sgn_neg (s32 b)) by lia. f_equal; lia.
    + destruct (Z.eq_dec (s32 a) 0) as [Hz|]; [rewrite Hz; by rewrite Z.div_0_l by lia|].
      rewrite (Z.sgn_pos (s32 a)), (Z.sgn_pos (s32 b)) by lia. rewrite wrap_small by lia. lia.
  - done.
  - simpl in Hsp. rewrite Hsp. apply Hlow.
    pose proof (Z.mod_pos_bound (Z.abs (s32 a)) (Z.abs (s32 b)) ltac:(lia)). lia.
  - apply Hlow. pose proof (Z.mod_pos_bound a b ltac:(lia)). lia.
Qed.

(** ** The whole unit *)

Lemma clock_simple a b op r :
  op < ALUOP_SLL \/ ALUOP_REMU < op -> u32_range a -> u32_range b ->
  exists v, alu_clock a b op true false r = set_flags (lt_ a b) (ltu_ a b) (eq_ a b) (set_result v r) /\
    v = alu_ref op a b.
Proof.
  intros Ho Ha Hb. unfold alu_clock, alu_ref. cbn [orb].
  rewrite <- (lt_eq a b) by done. rewrite <- (ltu_eq a b) by done.
  repeat match goal with |- context [op =? ?k] => destruct (Z.eqb_spec op k); [try lia|] end;
    cbn [orb]; try (eexists; split; [reflexivity|]; done).
  eexists. split; [reflexivity|]. rewrite slice_eq by lia. unfold sub, wrap. rewrite Z.div_1_r.
  apply Z.mod_mod_divide. by exists 2.
Qed.

(** Each kind of operation from its first cycle. *)
Lemma shift_start a b op r :
  ALUOP_SLL <= op <= ALUOP_SRA -> u32_range a -> u32_range b -> busy r = false ->
  finishes a b op (S (Z.to_nat (b mod 32))) (alu_value op a b) (alu_clock a b op true false r).
Proof.
  intros Ho Ha Hb Hr. rewrite clock_shift by (done || lia). unfold shift_clock. rewrite Hr. cbn [negb].
  assert (Hcnt : slice 4 0 b = b mod 32) by (rewrite slice_eq, Z.div_1_r by lia; done).
  pose proof (Z.mod_pos_bound b 32 ltac:(lia)).
  replace (alu_value op a b) with (shift_ref op (Z.of_nat (Z.to_nat (b mod 32))) a).
  - apply shift_loop; try done; [|lia]. simpl. lia.
  - rewrite Z2Nat.id by lia. unfold shift_ref, alu_value, alu_ref.
    assert (op = 7 \/ op = 8 \/ op = 9) as [-> | [-> | ->]] by lia; done.
Qed.

Lemma mul_start a b op r :
  ALUOP_MUL <= op <= ALUOP_MULHU -> u32_range a -> u32_range b -> busy r = false ->
  finishes a b op 33 (alu_value op a b) (alu_clock a b op true false r).
Proof.
  intros Ho Ha Hb Hr. rewrite clock_mul by (done || lia). unfold mul_clock. rewrite Hr. cbn [negb].
  unfold pos_src1, pos_src2. rewrite !pos_eq by done. fold (mul_operands a b op).
  rewrite <- (mul_result a b op) by (done || lia).
  assert (Hr12 : u32_range (mul_operands a b op).1 /\ u32_range (mul_operands a b op).2).
  { pose proof (abs_range a Ha). pose proof (abs_range b Hb). unfold mul_operands, u32_range in *.
    repeat case_match; simpl; lia. }
  destruct (mul_operands a b op) as [A c]. cbn [fst snd] in *. destruct Hr12 as [HA Hc].
  apply mul_loop with (A := A) (c := c) (n := 32%nat); try (done || lia). cbn [product set_flags set_mul].
  rewrite cat_two. unfold partial, u32_range, wrap in *. rewrite (Z.mod_small A) by lia.
  simpl. rewrite Z.mod_1_r, Z.div_1_r, Z.mod_0_l by lia. lia.
Qed.

Lemma div_start a b op r :
  ALUOP_DIV <= op <= ALUOP_REMU -> u32_range a -> u32_range b -> busy r = false ->
  finishes a b op (if (b =? 0) || (op =? ALUOP_REM) && rem_special a b then 0 else 33)
    (alu_value op a b) (alu_clock a b op true false r).
Proof.
  intros Ho Ha Hb Hr. rewrite clock_div by (done || lia). unfold div_clock. rewrite Hr. cbn [negb].
  fold (rem_special a b). destruct (Z.eqb_spec b 0) as [->|Hb0]; cbn [orb].
  { apply finishes_now; [done|]. unfold alu_value, alu_ref, rem_hw.
    assert (op = 14 \/ op = 15 \/ op = 16 \/ op = 17) as [-> | [-> | [-> | ->]]] by lia; done. }
  rewrite (andb_comm (rem_special a b)). destruct ((op =? ALUOP_REM) && rem_special a b) eqn:Es.
  { apply finishes_now; [done|]. apply andb_true_iff in Es as [->%Z.eqb_eq Es].
    unfold alu_value, rem_hw. replace (b =? 0) with false by lia. by rewrite Es. }
  unfold pos_src1, pos_src2. rewrite !pos_eq by done. fold (div_operands a b op).
  pose proof (div_result a b op Ha Hb ltac:(lia) Hb0 Es) as Hd.
  destruct (div_operands a b op) as [D v]. destruct Hd as (HD & Hv & Hv0 & <-).
  apply div_loop with (D := D) (v := v) (n := 32%nat); try done;
    cbn [result dividend_copy divider_copy set_flags set_div set_result set_busy]; unfold u32_range in *.
  - rewrite cat_two. unfold wrap. rewrite (Z.mod_small D), Z.mod_0_l by lia. lia.
  - rewrite cat_two. unfold wrap. rewrite (Z.mod_small D), Z.mod_0_l by lia. lia.
  - intros _. unfold cat, wrap. cbn [fold_left]. rewrite (Z.mod_small v), !Z.mod_0_l by lia. lia.
Qed.

(** Started with an operation, the unit ends it after exactly [latency] more
    edges, with the value of the operation. *)
Lemma alu_finishes a b op r :
  u32_range a -> u32_range b -> busy r = false ->
  finishes a b op (latency op a b) (alu_value op a b) (alu_clock a b op true false r).
Proof.
  intros Ha Hb Hr. unfold latency.
  destruct ((ALUOP_SLL <=? op) && (op <=? ALUOP_SRA)) eqn:E1; [apply shift_start; (done || lia)|].
  destruct ((ALUOP_MUL <=? op) && (op <=? ALUOP_MULHU)) eqn:E2; [apply mul_start; (done || lia)|].
  destruct ((ALUOP_DIV <=? op) && (op <=? ALUOP_REMU)) eqn:E3; [apply div_start; (done || lia)|].
  destruct (clock_simple a b op r) as (w & -> & Hw); [lia|done|done|].
  apply finishes_now; [done|]. unfold alu_value. by replace (op =? ALUOP_REM) with false by lia.
Qed.

(** The comparison flags, from the first cycle on. *)
Lemma flags_clock a b op en r :
  u32_range a -> u32_range b -> en || busy r = true ->
  let r' := alu_clock a b op en false r in
  O_lt r' = (s32 a <? s32 b) /\ O_ltu r' = (a <? b) /\ O_eq r' = (a =? b).
Proof.
  intros Ha Hb He. unfold alu_clock. rewrite He. cbn [O_lt O_ltu O_eq set_flags].
  by rewrite lt_eq, ltu_eq, eq_eq.
Qed.

Lemma alu_idle a b op r : busy r = false -> alu_clock a b op false false r = r.
Proof. intros Hr. unfold alu_clock. by rewrite Hr. Qed.

(** A remainder is right unless the dividend is negative, the rest is not
    zero and the operands are not singled out; then its sign is wrong. *)
Lemma rem_hw_eq a b :
  u32_range a -> u32_range b ->
  if (s32 a <? 0) && negb (b =? 0) && negb (rem_special a b) && negb (Z.rem (s32 a) (s32 b) =? 0)
  then rem_hw a b = - Z.rem (s32 a) (s32 b) /\ rem_hw a b <> alu_ref ALUOP_REM a b
  else rem_hw a b = alu_ref ALUOP_REM a b.
Proof.
  intros Ha Hb. unfold rem_hw, alu_ref. cbn [Z.eqb Pos.eqb]. destruct (Z.eqb_spec b 0) as [->|Hb0].
  { by rewrite andb_false_r. }
  assert (Hsb : s32 b <> 0) by (intros Hz; apply Hb0; rewrite <- (s32_mod b Hb), Hz; done).
  pose proof (abs_range a Ha). pose proof (abs_range b Hb).
  pose proof (Z.mod_pos_bound (Z.abs (s32 a)) (Z.abs (s32 b)) ltac:(lia)).
  destruct (rem_special a b) eqn:Es; cbn [negb andb]; rewrite ?andb_false_r, ?andb_true_r; cbn [andb].
  { unfold rem_special in Es. apply orb_true_iff in Es as [[->%Z.eqb_eq Es]%andb_true_iff|
      [->%Z.eqb_eq ->%Z.eqb_eq]%andb_true_iff]; [|done].
    apply orb_true_iff in Es as [->%Z.eqb_eq | ->%Z.eqb_eq]; done. }
  rewrite Z.rem_mod by done. set (q := Z.abs (s32 a) mod Z.abs (s32 b)) in *.
  destruct (Z.ltb_spec (s32 a) 0) as [Hneg|Hpos]; cbn [andb].
  - rewrite Z.sgn_neg by done. destruct (Z.eqb_spec (-1 * q) 0) as [Hz|Hz]; cbn [negb].
    + rewrite Hz. replace q with 0 by lia. done.
    + split; [lia|]. unfold wrap. rewrite <- (Z.mod_unique (-1 * q) (2 ^ 32) (-1) (2 ^ 32 - q)) by lia. lia.
  - destruct (Z.eq_dec (s32 a) 0) as [Hz|].
    + unfold q. rewrite Hz. done.
    + rewrite Z.sgn_pos, wrap_small by lia. lia.
Qed.
