(* ===== verification/RtlDecoder.v ===== *)
(** * The instruction decoder of the CPU core

    The combinational outputs of src/rtl/cpu/decoder.v for an instruction
    word, 32 bits wide or compressed.  [imm_of] and [branchmask_of] are its
    first combinational process; the second one, which gives every control
    signal a default and then overrides some of them, is [control].  Illegal
    instructions are sent to the trap stage (TRAP_ON_ILLEGAL). *)

From S2P Require Import Prelude RtlAlu.
Import Alu.

Module Decoder.

(** ** Constants (riscvdefs.vh and cpudefs.vh) *)

Abbreviation OP_LOAD := 0.
Abbreviation OP_MISCMEM := 3.
Abbreviation OP_OPIMM := 4.
Abbreviation OP_AUIPC := 5.
Abbreviation OP_STORE := 8.
Abbreviation OP_OP := 12.
Abbreviation OP_LUI := 13.
Abbreviation OP_BRANCH := 24.
Abbreviation OP_JALR := 25.
Abbreviation OP_JAL := 27.
Abbreviation OP_SYSTEM := 28.

Abbreviation FUNC_LW := 2.
Abbreviation FUNC7_MUL_DIV := 1.

(** Inputs of the multiplexers, and the stage that follows EXEC. *)
Inductive mux_aludat1 := MUX_ALUDAT1_REGVAL1 | MUX_ALUDAT1_PC.
Inductive mux_aludat2 :=
  | MUX_ALUDAT2_REGVAL2 | MUX_ALUDAT2_IMM | MUX_ALUDAT2_INSTLEN32 | MUX_ALUDAT2_INSTLEN16.
Inductive mux_reginput := MUX_REGINPUT_ALU | MUX_REGINPUT_BUS | MUX_REGINPUT_IMM | MUX_REGINPUT_MSR.
Inductive exec_to :=
  | EXEC_TO_FETCH | EXEC_TO_LOAD | EXEC_TO_STORE | EXEC_TO_BRANCH | EXEC_TO_SYSTEM | EXEC_TO_TRAP
  | EXEC_TO_DEAD.

(** ** Fields *)

Section Fields.

Context (I_instr : Z).

Definition c_op : Z := slice 1 0 I_instr.
Definition opcode : Z := slice 6 2 I_instr.
Definition funct7 : Z := slice 31 25 I_instr.
Definition funct3 : Z := if c_op =? 3 then slice 14 12 I_instr else FUNC_LW.
Definition c_funct3 : Z := slice 15 13 I_instr.

(** [n] copies of a bit. *)
Definition copies (n i : Z) : Z := if Z.testbit I_instr i then Z.ones n else 0.

Definition imm_of : Z :=
  let f hi lo := (hi - lo + 1, slice hi lo I_instr) in
  let b i := (1, slice i i I_instr) in
  let sext n i := (n, copies n i) in
  if c_op =? 3 then
    if opcode =? OP_STORE then cat [sext 20 31; f 31 25; f 11 8; b 7]
    else if opcode =? OP_BRANCH then cat [sext 19 31; b 31; b 7; f 30 25; f 11 8; (1, 0)]
    else if (opcode =? OP_LUI) || (opcode =? OP_AUIPC) then cat [f 31 12; (12, 0)]
    else if opcode =? OP_JAL then cat [sext 11 31; b 31; f 19 12; b 20; f 30 25; f 24 21; (1, 0)]
    else cat [sext 20 31; f 31 20]
  else if c_op =? 2 then
    if c_funct3 =? 2 then cat [(24, 0); f 3 2; b 12; f 6 4; (2, 0)]       (* C2_F3_LWSP *)
    else if c_funct3 =? 6 then cat [(24, 0); f 8 7; f 12 9; (2, 0)]       (* C2_F3_SWSP *)
    else if c_funct3 =? 0 then cat [(27, 0); f 6 2]                       (* C2_F3_SLLI *)
    else 0
  else if c_op =? 1 then
    if negb (c_funct3 =? 4) then
      if c_funct3 =? 0 then cat [sext 26 12; b 12; f 6 2]                 (* C1_F3_NOP_ADDI *)
      else if (c_funct3 =? 5) || (c_funct3 =? 1) then                     (* C1_F3_J, C1_F3_JAL *)
        cat [sext 20 12; b 12; b 8; f 10 9; b 6; b 7; b 2; b 11; f 5 3; (1, 0)]
      else if c_funct3 =? 2 then cat [sext 26 12; b 12; f 6 2]            (* C1_F3_LI *)
      else if c_funct3 =? 3 then                                          (* C1_F3_LUI_ADDI16SP *)
        if slice 11 7 I_instr =? 2 then cat [sext 22 12; b 12; f 4 3; b 5; b 2; b 6; (4, 0)]
        else cat [sext 14 12; b 12; f 6 2; (12, 0)]
      else cat [sext 23 12; b 12; f 6 5; b 2; f 11 10; f 4 3; (1, 0)]     (* C1_F3_BEQ, C1_F3_BNE *)
    else if Z.testbit I_instr 11 then cat [sext 26 12; b 12; f 6 2]
    else cat [(26, 0); b 12; f 6 2]
  else
    if c_funct3 =? 0 then cat [(22, 0); f 10 7; f 12 11; b 5; b 6; (2, 0)] (* C0_F3_ADDI4SPN *)
    else cat [(25, 0); b 5; f 12 10; b 6; (2, 0)].

Definition branchmask_of : Z :=
  let isbranch := opcode =? OP_BRANCH in
  if c_op =? 3 then
    if funct3 =? 0 then Z.b2z isbranch                                    (* FUNC_BEQ *)
    else if funct3 =? 1 then 2 * Z.b2z isbranch                           (* FUNC_BNE *)
    else if funct3 =? 4 then 4 * Z.b2z isbranch                           (* FUNC_BLT *)
    else if funct3 =? 5 then 8 * Z.b2z isbranch                           (* FUNC_BGE *)
    else if funct3 =? 6 then 16 * Z.b2z isbranch                          (* FUNC_BLTU *)
    else if funct3 =? 7 then 32 * Z.b2z isbranch                          (* FUNC_BGEU *)
    else 0
  else Z.b2z (c_funct3 =? 6) + 2 * Z.b2z (c_funct3 =? 7).

End Fields.

(** ** Control signals *)

Record ctrl := Ctrl {
  o_rs1 : Z; o_rs2 : Z; o_rd : Z;
  exec_writeback_from_imm : bool;
  exec_writeback_from_alu : bool;
  exec_next_pc_from_alu : bool;
  exec_mux_reg_input_sel : mux_reginput;
  exec_next_stage : exec_to;
  exec_mux_alu_s2_sel : mux_aludat2;
  exec_mux_alu_s1_sel : mux_aludat1;
  alu_oper : Z;
  write_reg : bool;
}.

Definition set_regs (a b d : Z) (c : ctrl) : ctrl :=
  Ctrl a b d (exec_writeback_from_imm c) (exec_writeback_from_alu c) (exec_next_pc_from_alu c)
    (exec_mux_reg_input_sel c) (exec_next_stage c) (exec_mux_alu_s2_sel c) (exec_mux_alu_s1_sel c)
    (alu_oper c) (write_reg c).
Definition set_rs1 (a : Z) (c : ctrl) : ctrl := set_regs a (o_rs2 c) (o_rd c) c.
Definition set_rs2 (b : Z) (c : ctrl) : ctrl := set_regs (o_rs1 c) b (o_rd c) c.
Definition set_rd (d : Z) (c : ctrl) : ctrl := set_regs (o_rs1 c) (o_rs2 c) d c.
Definition set_alu (op : Z) (s1 : mux_aludat1) (s2 : mux_aludat2) (c : ctrl) : ctrl :=
  Ctrl (o_rs1 c) (o_rs2 c) (o_rd c) (exec_writeback_from_imm c) (exec_writeback_from_alu c)
    (exec_next_pc_from_alu c) (exec_mux_reg_input_sel c) (exec_next_stage c) s2 s1 op (write_reg c).
Definition set_stage (s : exec_to) (c : ctrl) : ctrl :=
  Ctrl (o_rs1 c) (o_rs2 c) (o_rd c) (exec_writeback_from_imm c) (exec_writeback_from_alu c)
    (exec_next_pc_from_alu c) (exec_mux_reg_input_sel c) s (exec_mux_alu_s2_sel c)
    (exec_mux_alu_s1_sel c) (alu_oper c) (write_reg c).
(** Write back the result of the ALU. *)
Definition wb_alu (c : ctrl) : ctrl :=
  Ctrl (o_rs1 c) (o_rs2 c) (o_rd c) (exec_writeback_from_imm c) true
    (exec_next_pc_from_alu c) (exec_mux_reg_input_sel c) (exec_next_stage c) (exec_mux_alu_s2_sel c)
    (exec_mux_alu_s1_sel c) (alu_oper c) (write_reg c).
(** Write back the immediate. *)
Definition wb_imm (c : ctrl) : ctrl :=
  Ctrl (o_rs1 c) (o_rs2 c) (o_rd c) true (exec_writeback_from_alu c)
    (exec_next_pc_from_alu c) MUX_REGINPUT_IMM (exec_next_stage c) (exec_mux_alu_s2_sel c)
    (exec_mux_alu_s1_sel c) (alu_oper c) (write_reg c).
(** Jump to the result of the ALU, writing the link register if [link]. *)
Definition jump (link : bool) (c : ctrl) : ctrl :=
  Ctrl (o_rs1 c) (o_rs2 c) (o_rd c) (exec_writeback_from_imm c) (exec_writeback_from_alu c)
    true MUX_REGINPUT_ALU (exec_next_stage c) (exec_mux_alu_s2_sel c)
    (exec_mux_alu_s1_sel c) (alu_oper c) link.

Definition ctrl_default : ctrl :=
  Ctrl 0 0 0 false false false MUX_REGINPUT_ALU EXEC_TO_FETCH MUX_ALUDAT2_REGVAL2 MUX_ALUDAT1_REGVAL1
    ALUOP_ADD false.

Section Control.

Context (I_instr : Z).

(** OP_OP: the operation of funct3 and funct7. *)
Definition op_oper : Z :=
  let f3 := funct3 I_instr in
  let f7 := funct7 I_instr in
  let m mul other := if f7 =? FUNC7_MUL_DIV then mul else other in
  if f3 =? 0 then if f7 =? 32 then ALUOP_SUB else m ALUOP_MUL ALUOP_ADD
  else if f3 =? 1 then m ALUOP_MULH ALUOP_SLL
  else if f3 =? 2 then m ALUOP_MULHSU ALUOP_SLT
  else if f3 =? 3 then m ALUOP_MULHU ALUOP_SLTU
  else if f3 =? 4 then m ALUOP_DIV ALUOP_XOR
  else if f3 =? 5 then if f7 =? 32 then ALUOP_SRA else m ALUOP_DIVU ALUOP_SRL
  else if f3 =? 6 then m ALUOP_REM ALUOP_OR
  else m ALUOP_REMU ALUOP_AND.

(** OP_OPIMM. *)
Definition opimm_oper : Z :=
  let f3 := funct3 I_instr in
  if f3 =? 0 then ALUOP_ADD
  else if f3 =? 1 then ALUOP_SLL
  else if f3 =? 2 then ALUOP_SLT
  else if f3 =? 3 then ALUOP_SLTU
  else if f3 =? 4 then ALUOP_XOR
  else if f3 =? 5 then if Z.testbit (funct7 I_instr) 5 then ALUOP_SRA else ALUOP_SRL
  else if f3 =? 6 then ALUOP_OR
  else ALUOP_AND.

Definition control32 : ctrl :=
  let c := set_regs (slice 19 15 I_instr) (slice 24 20 I_instr) (slice 11 7 I_instr) ctrl_default in
  let op := opcode I_instr in
  if op =? OP_OP then wb_alu (set_alu op_oper MUX_ALUDAT1_REGVAL1 MUX_ALUDAT2_REGVAL2 c)
  else if op =? OP_OPIMM then wb_alu (set_alu opimm_oper MUX_ALUDAT1_REGVAL1 MUX_ALUDAT2_IMM c)
  else if op =? OP_LOAD then
    set_stage EXEC_TO_LOAD (set_alu ALUOP_ADD MUX_ALUDAT1_REGVAL1 MUX_ALUDAT2_IMM c)
  else if op =? OP_STORE then
    set_stage EXEC_TO_STORE (set_alu ALUOP_ADD MUX_ALUDAT1_REGVAL1 MUX_ALUDAT2_IMM c)
  else if (op =? OP_JAL) || (op =? OP_JALR) then
    jump true (set_alu ALUOP_ADD (if Z.testbit op 1 then MUX_ALUDAT1_PC else MUX_ALUDAT1_REGVAL1)
                 MUX_ALUDAT2_IMM c)
  else if op =? OP_BRANCH then
    set_stage EXEC_TO_BRANCH (set_alu ALUOP_ADD MUX_ALUDAT1_REGVAL1 MUX_ALUDAT2_REGVAL2 c)
  else if op =? OP_AUIPC then wb_alu (set_alu ALUOP_ADD MUX_ALUDAT1_PC MUX_ALUDAT2_IMM c)
  else if op =? OP_LUI then wb_imm c
  else if op =? OP_MISCMEM then c
  else if op =? OP_SYSTEM then set_stage EXEC_TO_SYSTEM c
  else set_stage EXEC_TO_TRAP c.

(** [{ 2'b01, I_instr[lo+2:lo] }]. *)
Definition c_reg (lo : Z) : Z := cat [(2, 1); (3, slice (lo + 2) lo I_instr)].

(** The quadrant C0. *)
Definition control_c0 (c : ctrl) : ctrl :=
  let f3 := c_funct3 I_instr in
  let c := set_regs (c_reg 7) (c_reg 2) (c_reg 2) c in
  let c := set_alu ALUOP_ADD MUX_ALUDAT1_REGVAL1 MUX_ALUDAT2_IMM c in
  if f3 =? 0 then
    let c := wb_alu (set_rs1 2 c) in
    if slice 12 5 I_instr =? 0 then set_stage EXEC_TO_TRAP c else c
  else if f3 =? 2 then set_stage EXEC_TO_LOAD c
  else if f3 =? 6 then set_stage EXEC_TO_STORE c
  else set_stage EXEC_TO_TRAP c.

(** The quadrant C1. *)
Definition control_c1 (c : ctrl) : ctrl :=
  let f3 := c_funct3 I_instr in
  if negb (f3 =? 4) then
    let c := set_alu ALUOP_ADD MUX_ALUDAT1_REGVAL1 MUX_ALUDAT2_IMM c in
    if f3 =? 0 then wb_alu c
    else if (f3 =? 1) || (f3 =? 5) then
      jump (negb (f3 =? 5)) (set_alu ALUOP_ADD MUX_ALUDAT1_PC MUX_ALUDAT2_IMM (set_rd 1 c))
    else if f3 =? 2 then wb_imm c
    else if f3 =? 3 then
      let c := if slice 11 7 I_instr =? 2 then wb_alu c else wb_imm c in
      if cat [(1, slice 12 12 I_instr); (5, slice 6 2 I_instr)] =? 0 then set_stage EXEC_TO_TRAP c else c
    else
      set_stage EXEC_TO_BRANCH
        (set_alu ALUOP_ADD MUX_ALUDAT1_REGVAL1 MUX_ALUDAT2_REGVAL2 (set_rs2 0 (set_rs1 (c_reg 7) c)))
  else
    let c := wb_alu (set_regs (c_reg 7) (c_reg 2) (c_reg 7) c) in
    let f2 := slice 11 10 I_instr in
    let illegal c := if Z.testbit I_instr 12 then set_stage EXEC_TO_TRAP c else c in
    if f2 =? 0 then illegal (set_alu ALUOP_SRL MUX_ALUDAT1_REGVAL1 MUX_ALUDAT2_IMM c)
    else if f2 =? 1 then illegal (set_alu ALUOP_SRA MUX_ALUDAT1_REGVAL1 MUX_ALUDAT2_IMM c)
    else if f2 =? 2 then set_alu ALUOP_AND MUX_ALUDAT1_REGVAL1 MUX_ALUDAT2_IMM c
    else
      let f := slice 6 5 I_instr in
      set_alu (if f =? 0 then ALUOP_SUB else if f =? 1 then ALUOP_XOR else if f =? 2 then ALUOP_OR
               else ALUOP_AND) MUX_ALUDAT1_REGVAL1 MUX_ALUDAT2_REGVAL2 c.

(** The quadrant C2. *)
Definition control_c2 (c : ctrl) : ctrl :=
  let f3 := c_funct3 I_instr in
  if f3 =? 0 then
    let c := wb_alu (set_alu ALUOP_SLL MUX_ALUDAT1_REGVAL1 MUX_ALUDAT2_IMM c) in
    if Z.testbit I_instr 12 then set_stage EXEC_TO_TRAP c else c
  else if f3 =? 2 then
    let c := set_stage EXEC_TO_LOAD
      (set_alu ALUOP_ADD MUX_ALUDAT1_REGVAL1 MUX_ALUDAT2_IMM (set_rs1 2 c)) in
    if o_rd c =? 0 then set_stage EXEC_TO_TRAP c else c
  else if f3 =? 4 then
    let c := set_alu ALUOP_ADD MUX_ALUDAT1_REGVAL1 MUX_ALUDAT2_REGVAL2 c in
    let rd0 := slice 11 7 I_instr =? 0 in
    let rs0 := slice 6 2 I_instr =? 0 in
    if Z.testbit I_instr 12 then
      let c := if negb rd0 && negb rs0 then wb_alu c else c in
      let c := if negb rd0 && rs0 then set_rd 1 (jump true c) else c in
      if rd0 && rs0 then set_stage EXEC_TO_TRAP c else c
    else if o_rs2 c =? 0 then
      if o_rs1 c =? 0 then set_stage EXEC_TO_TRAP c else jump false c
    else wb_alu (set_rs1 0 c)
  else if f3 =? 6 then
    set_stage EXEC_TO_STORE (set_alu ALUOP_ADD MUX_ALUDAT1_REGVAL1 MUX_ALUDAT2_IMM (set_rs1 2 c))
  else set_stage EXEC_TO_TRAP c.

Definition control : ctrl :=
  if c_op I_instr =? 3 then control32
  else
    let c := set_regs (slice 11 7 I_instr) (slice 6 2 I_instr) (slice 11 7 I_instr) ctrl_default in
    if c_op I_instr =? 0 then control_c0 c
    else if c_op I_instr =? 1 then control_c1 c
    else control_c2 c.

End Control.

End Decoder.
