(* ===== verification/RtlDecoderFacts.v ===== *)
(** * The decoder of the core against the instruction set

    The meaning of the control signals, for 32-bit instructions and for
    compressed ones. *)

From S2P Require Import Prelude RvIsa RtlAlu RtlAluFacts RtlDecoder.
Import Alu Decoder.

(** * The decoder of the core against the instruction set

    What the control signals make the core do is an [action].  For every
    instruction of RV32IM and Zicsr the action of its encoding is the one the
    manual describes; for every 16-bit word, it is the action of the 32-bit
    instruction it stands for. *)

(** ** Actions *)

Inductive operand := Reg (n : Z) | Pc | Imm (v : Z).

Inductive action :=
  | Compute (rd op : Z) (x y : operand)      (* rd := x op y *)
  | Move (rd v : Z)                          (* rd := v *)
  | Jump (rd : Z) (x y : operand)            (* rd := next pc; pc := x + y *)
  | LoadFrom (f3 rd rs1 imm : Z)
  | StoreTo (f3 rs1 rs2 imm : Z)
  | BranchIf (mask rs1 rs2 imm : Z)
  | Special (f3 rd rs1 code : Z)             (* SYSTEM *)
  | Nothing
  | Illegal.

(** What the stages of the core do with the signals. *)
Definition meaning (w : Z) : action :=
  let c := control w in
  let x := match exec_mux_alu_s1_sel c with MUX_ALUDAT1_REGVAL1 => Reg (o_rs1 c) | MUX_ALUDAT1_PC => Pc end in
  let y := match exec_mux_alu_s2_sel c with
           | MUX_ALUDAT2_REGVAL2 => Reg (o_rs2 c)
           | MUX_ALUDAT2_IMM => Imm (imm_of w)
           | MUX_ALUDAT2_INSTLEN32 => Imm 4
           | MUX_ALUDAT2_INSTLEN16 => Imm 2
           end in
  match exec_next_stage c with
  | EXEC_TO_FETCH =>
      if exec_next_pc_from_alu c then Jump (if write_reg c then o_rd c else 0) x y
      else if exec_writeback_from_alu c then Compute (o_rd c) (alu_oper c) x y
      else if exec_writeback_from_imm c then Move (o_rd c) (imm_of w)
      else Nothing
  | EXEC_TO_LOAD => LoadFrom (funct3 w) (o_rd c) (o_rs1 c) (imm_of w)
  | EXEC_TO_STORE => StoreTo (funct3 w) (o_rs1 c) (o_rs2 c) (imm_of w)
  | EXEC_TO_BRANCH => BranchIf (branchmask_of w) (o_rs1 c) (o_rs2 c) (imm_of w)
  | EXEC_TO_SYSTEM => Special (funct3 w) (o_rd c) (o_rs1 c) (slice 11 0 (imm_of w))
  | EXEC_TO_TRAP | EXEC_TO_DEAD => Illegal
  end.

(** ** The manual *)

Definition rop_alu (op : rop) : Z :=
  match op with
  | ADD => ALUOP_ADD | SUB => ALUOP_SUB | SLL => ALUOP_SLL | SLT => ALUOP_SLT | SLTU => ALUOP_SLTU
  | XOR => ALUOP_XOR | SRL => ALUOP_SRL | SRA => ALUOP_SRA | OR => ALUOP_OR | AND => ALUOP_AND
  | MUL => ALUOP_MUL | MULH => ALUOP_MULH | MULHSU => ALUOP_MULHSU | MULHU => ALUOP_MULHU
  | DIV => ALUOP_DIV | DIVU => ALUOP_DIVU | REM => ALUOP_REM | REMU => ALUOP_REMU
  end.
Definition iop_alu (op : iop) : Z :=
  match op with
  | ADDI => ALUOP_ADD | SLTI => ALUOP_SLT | SLTIU => ALUOP_SLTU | XORI => ALUOP_XOR | ORI => ALUOP_OR
  | ANDI => ALUOP_AND
  end.
Definition shop_alu (op : shop) : Z :=
  match op with SLLI => ALUOP_SLL | SRLI => ALUOP_SRL | SRAI => ALUOP_SRA end.
Definition bop_mask (op : bop) : Z :=
  match op with BEQ => 1 | BNE => 2 | BLT => 4 | BGE => 8 | BLTU => 16 | BGEU => 32 end.

(** Only the low five bits of the amount of a shift count; in the encoding of
    an arithmetic shift bit 10 is set above them. *)
Definition action_of (i : insn) : action :=
  match i with
  | OpR op rd rs1 rs2 => Compute rd (rop_alu op) (Reg rs1) (Reg rs2)
  | OpI op rd rs1 imm => Compute rd (iop_alu op) (Reg rs1) (Imm (w32 imm))
  | Shift op rd rs1 shamt => Compute rd (shop_alu op) (Reg rs1) (Imm (shamt + 32 * shop_f7 op))
  | Load op rd rs1 imm => LoadFrom (lop_f3 op) rd rs1 (w32 imm)
  | Store op rs1 rs2 imm => StoreTo (sop_f3 op) rs1 rs2 (w32 imm)
  | Branch op rs1 rs2 off => BranchIf (bop_mask op) rs1 rs2 (w32 off)
  | Lui rd imm => Move rd (imm * 2 ^ 12)
  | Auipc rd imm => Compute rd ALUOP_ADD Pc (Imm (imm * 2 ^ 12))
  | Jal rd off => Jump rd Pc (Imm (w32 off))
  | Jalr rd rs1 imm => Jump rd (Reg rs1) (Imm (w32 imm))
  | Csr op rd rs1 csr => Special (cop_f3 op) rd rs1 csr
  | Csri op rd uimm csr => Special (cop_f3 op + 4) rd uimm csr
  | System op => Special 0 0 0 (sys_imm op)
  end.

(** ** Fields of a word *)

Section Fields.

Context (f : fields) (Hf : fields_ok f).

Ltac field :=
  destruct f as [op rd f3 rs1 rs2 f7]; destruct Hf as (? & ? & ? & ? & ? & ?);
  unfold word; cbn [f_op f_rd f_f3 f_rs1 f_rs2 f_f7] in *;
  rewrite slice_eq by lia; simpl Z.sub; simpl Z.add; zlia.

Lemma slice_1_0 : slice 1 0 (word f) = f_op f mod 4. Proof. field. Qed.
Lemma slice_6_2 : slice 6 2 (word f) = f_op f / 4. Proof. field. Qed.
Lemma slice_11_7 : slice 11 7 (word f) = f_rd f. Proof. field. Qed.
Lemma slice_14_12 : slice 14 12 (word f) = f_f3 f. Proof. field. Qed.
Lemma slice_19_15 : slice 19 15 (word f) = f_rs1 f. Proof. field. Qed.
Lemma slice_24_20 : slice 24 20 (word f) = f_rs2 f. Proof. field. Qed.
Lemma slice_31_25 : slice 31 25 (word f) = f_f7 f. Proof. field. Qed.
Lemma slice_31_20 : slice 31 20 (word f) = f_rs2 f + 32 * f_f7 f. Proof. field. Qed.
Lemma slice_31_12 :
  slice 31 12 (word f) = f_f3 f + 2 ^ 3 * f_rs1 f + 2 ^ 8 * f_rs2 f + 2 ^ 13 * f_f7 f.
Proof. field. Qed.
Lemma slice_11_8 : slice 11 8 (word f) = f_rd f / 2. Proof. field. Qed.
Lemma slice_7_7 : slice 7 7 (word f) = f_rd f mod 2. Proof. field. Qed.
Lemma slice_30_25 : slice 30 25 (word f) = f_f7 f mod 64. Proof. field. Qed.
Lemma slice_31_31 : slice 31 31 (word f) = f_f7 f / 64. Proof. field. Qed.
Lemma slice_19_12 : slice 19 12 (word f) = f_f3 f + 8 * f_rs1 f. Proof. field. Qed.
Lemma slice_20_20 : slice 20 20 (word f) = f_rs2 f mod 2. Proof. field. Qed.
Lemma slice_24_21 : slice 24 21 (word f) = f_rs2 f / 2. Proof. field. Qed.

Lemma copies_31 n : copies (word f) n 31 = if 64 <=? f_f7 f then Z.ones n else 0.
Proof.
  unfold copies. rewrite top_bit by (try apply word_range; (done || lia)).
  destruct f as [op rd f3 rs1 rs2 f7]; destruct Hf as (? & ? & ? & ? & ? & ?);
  unfold word; cbn [f_op f_rd f_f3 f_rs1 f_rs2 f_f7] in *.
  match goal with |- (if ?x <=? ?y then _ else _) = _ =>
    destruct (Z.leb_spec x y), (Z.leb_spec 64 f7) end; (done || lia).
Qed.

End Fields.

(** ** Immediates *)

Lemma ones_eq n : 0 <= n -> Z.ones n = 2 ^ n - 1.
Proof. intros. by rewrite Z.ones_equiv. Qed.

Lemma w32_signed x n :
  0 <= n <= 31 -> -2 ^ n <= x < 2 ^ n ->
  w32 x = if 2 ^ n <=? x mod 2 ^ (n + 1) then x mod 2 ^ (n + 1) + (2 ^ 32 - 2 ^ (n + 1)) else x mod 2 ^ (n + 1).
Proof.
  intros Hn Hx. assert (Hp : 2 ^ (n + 1) = 2 * 2 ^ n) by (rewrite Z.pow_add_r by lia; lia).
  pose proof (Z.pow_le_mono_r 2 n 31 ltac:(lia) ltac:(lia)). pose proof (pow2_pos n ltac:(lia)).
  rewrite Hp. unfold wrap. destruct (Z.lt_ge_cases x 0).
  - rewrite <- (Z.mod_unique x (2 ^ 32) (-1) (x + 2 ^ 32)) by lia.
    rewrite <- (Z.mod_unique x (2 * 2 ^ n) (-1) (x + 2 * 2 ^ n)) by lia.
    destruct (Z.leb_spec (2 ^ n) (x + 2 * 2 ^ n)); lia.
  - rewrite !(Z.mod_small x) by lia. destruct (Z.leb_spec (2 ^ n) x); lia.
Qed.

Ltac wires :=
  unfold cat, wrap; cbn [fold_left]; simpl Z.sub; simpl Z.add.

Section Immediates.

Context (f : fields) (Hf : fields_ok f) (H3 : f_op f mod 4 = 3).

Lemma op3 : c_op (word f) = 3.
Proof. unfold c_op. by rewrite slice_1_0. Qed.

Lemma imm_I_eq imm :
  -2048 <= imm < 2048 -> f_rs2 f = imm mod 2 ^ 12 mod 32 -> f_f7 f = imm mod 2 ^ 12 / 32 ->
  cat [(20, copies (word f) 20 31); (31 - 20 + 1, slice 31 20 (word f))] = w32 imm.
Proof.
  intros Hi H2 H7. rewrite copies_31, slice_31_20, (w32_signed imm 11) by (done || lia).
  change (11 + 1) with 12. rewrite ones_eq by lia. rewrite H2, H7. wires.
  pose proof (Z.mod_pos_bound imm (2 ^ 12) ltac:(lia)). set (u := imm mod 2 ^ 12) in *.
  destruct (Z.leb_spec 64 (u / 32)), (Z.leb_spec (2 ^ 11) u); zlia.
Qed.

Lemma imm_S_eq imm :
  -2048 <= imm < 2048 -> f_rd f = imm mod 2 ^ 12 mod 32 -> f_f7 f = imm mod 2 ^ 12 / 32 ->
  cat [(20, copies (word f) 20 31); (31 - 25 + 1, slice 31 25 (word f)); (11 - 8 + 1, slice 11 8 (word f));
       (1, slice 7 7 (word f))] = w32 imm.
Proof.
  intros Hi Hd H7. rewrite copies_31, slice_31_25, slice_11_8, slice_7_7, (w32_signed imm 11) by (done || lia).
  change (11 + 1) with 12. rewrite ones_eq by lia. rewrite Hd, H7. wires.
  pose proof (Z.mod_pos_bound imm (2 ^ 12) ltac:(lia)). set (u := imm mod 2 ^ 12) in *.
  destruct (Z.leb_spec 64 (u / 32)), (Z.leb_spec (2 ^ 11) u); zlia.
Qed.

Lemma imm_B_eq off :
  -4096 <= off < 4096 -> off mod 2 = 0 ->
  f_rd f = 2 * ((off mod 2 ^ 13 / 2) mod 16) + (off mod 2 ^ 13 / 2 ^ 11) mod 2 ->
  f_f7 f = 64 * (off mod 2 ^ 13 / 2 ^ 12) + (off mod 2 ^ 13 / 32) mod 64 ->
  cat [(19, copies (word f) 19 31); (1, slice 31 31 (word f)); (1, slice 7 7 (word f));
       (30 - 25 + 1, slice 30 25 (word f)); (11 - 8 + 1, slice 11 8 (word f)); (1, 0)] = w32 off.
Proof.
  intros Hi He Hd H7.
  rewrite copies_31, slice_31_31, slice_30_25, slice_11_8, slice_7_7, (w32_signed off 12) by (done || lia).
  change (12 + 1) with 13. rewrite ones_eq by lia. rewrite Hd, H7. wires.
  pose proof (Z.mod_pos_bound off (2 ^ 13) ltac:(lia)).
  assert (He' : off mod 2 ^ 13 mod 2 = 0) by (rewrite Z.mod_mod_divide; [done|by exists (2 ^ 12)]).
  set (u := off mod 2 ^ 13) in *.
  destruct (Z.leb_spec 64 (64 * (u / 2 ^ 12) + (u / 32) mod 64)), (Z.leb_spec (2 ^ 12) u); zlia.
Qed.

Lemma imm_U_eq imm :
  0 <= imm < 2 ^ 20 -> f_f3 f = imm mod 8 -> f_rs1 f = imm / 2 ^ 3 mod 32 -> f_rs2 f = imm / 2 ^ 8 mod 32 ->
  f_f7 f = imm / 2 ^ 13 ->
  cat [(31 - 12 + 1, slice 31 12 (word f)); (12, 0)] = imm * 2 ^ 12.
Proof. intros Hi H1 H2 H4 H7. rewrite slice_31_12, H1, H2, H4, H7 by done. wires. zlia. Qed.

Lemma imm_J_eq off :
  -2 ^ 20 <= off < 2 ^ 20 -> off mod 2 = 0 ->
  f_f3 f = (off mod 2 ^ 21 / 2 ^ 12) mod 8 -> f_rs1 f = (off mod 2 ^ 21 / 2 ^ 15) mod 32 ->
  f_rs2 f = 2 * ((off mod 2 ^ 21 / 2) mod 16) + (off mod 2 ^ 21 / 2 ^ 11) mod 2 ->
  f_f7 f = 64 * (off mod 2 ^ 21 / 2 ^ 20) + (off mod 2 ^ 21 / 32) mod 64 ->
  cat [(11, copies (word f) 11 31); (1, slice 31 31 (word f)); (19 - 12 + 1, slice 19 12 (word f));
       (1, slice 20 20 (word f)); (30 - 25 + 1, slice 30 25 (word f)); (24 - 21 + 1, slice 24 21 (word f));
       (1, 0)] = w32 off.
Proof.
  intros Hi He H1 H2 H4 H7.
  rewrite copies_31, slice_31_31, slice_19_12, slice_20_20, slice_30_25, slice_24_21, (w32_signed off 20)
    by (done || lia).
  change (20 + 1) with 21. rewrite ones_eq by lia. rewrite H1, H2, H4, H7. wires.
  pose proof (Z.mod_pos_bound off (2 ^ 21) ltac:(lia)).
  assert (He' : off mod 2 ^ 21 mod 2 = 0) by (rewrite Z.mod_mod_divide; [done|by exists (2 ^ 20)]).
  set (u := off mod 2 ^ 21) in *.
  destruct (Z.leb_spec 64 (64 * (u / 2 ^ 20) + (u / 32) mod 64)), (Z.leb_spec (2 ^ 20) u); zlia.
Qed.

End Immediates.

(** ** 32-bit instructions *)

(** The fields of an encoding in the signals. *)
Lemma control_word f :
  fields_ok f -> f_op f mod 4 = 3 ->
  control (word f) = control32 (word f) /\ c_op (word f) = 3 /\ opcode (word f) = f_op f / 4 /\
  funct3 (word f) = f_f3 f /\ funct7 (word f) = f_f7 f.
Proof.
  intros Hf H3. pose proof (op3 f Hf H3) as Hop. unfold control, opcode, funct3, funct7. rewrite Hop. simpl.
  rewrite slice_6_2, slice_14_12, slice_31_25 by done. done.
Qed.

Lemma imm_word f op7 :
  fields_ok f -> f_op f mod 4 = 3 -> f_op f / 4 = op7 ->
  imm_of (word f) =
    if op7 =? OP_STORE then
      cat [(20, copies (word f) 20 31); (31 - 25 + 1, slice 31 25 (word f));
           (11 - 8 + 1, slice 11 8 (word f)); (1, slice 7 7 (word f))]
    else if op7 =? OP_BRANCH then
      cat [(19, copies (word f) 19 31); (1, slice 31 31 (word f)); (1, slice 7 7 (word f));
           (30 - 25 + 1, slice 30 25 (word f)); (11 - 8 + 1, slice 11 8 (word f)); (1, 0)]
    else if (op7 =? OP_LUI) || (op7 =? OP_AUIPC) then
      cat [(31 - 12 + 1, slice 31 12 (word f)); (12, 0)]
    else if op7 =? OP_JAL then
      cat [(11, copies (word f) 11 31); (1, slice 31 31 (word f)); (19 - 12 + 1, slice 19 12 (word f));
           (1, slice 20 20 (word f)); (30 - 25 + 1, slice 30 25 (word f));
           (24 - 21 + 1, slice 24 21 (word f)); (1, 0)]
    else cat [(20, copies (word f) 20 31); (31 - 20 + 1, slice 31 20 (word f))].
Proof.
  intros Hf H3 H7. destruct (control_word f Hf H3) as (_ & Hc & Ho & _ & _).
  unfold imm_of. rewrite Hc, Ho, H7. done.
Qed.

Lemma csr_code csr :
  0 <= csr < 2 ^ 12 -> slice 11 0 (w32 (if csr <? 2048 then csr else csr - 4096)) = csr.
Proof.
  intros Hc. rewrite slice_eq by lia. unfold wrap. rewrite Z.div_1_r. change (11 - 0 + 1) with 12.
  rewrite Z.mod_mod_divide by (by exists (2 ^ 20)). destruct (Z.ltb_spec csr 2048).
  - apply Z.mod_small. lia.
  - symmetry. apply Z.mod_unique with (-1); lia.
Qed.

Lemma csr_mod csr :
  0 <= csr < 2 ^ 12 -> (if csr <? 2048 then csr else csr - 4096) mod 2 ^ 12 = csr.
Proof.
  intros Hc. destruct (Z.ltb_spec csr 2048); [apply Z.mod_small; lia|].
  symmetry. apply Z.mod_unique with (-1); lia.
Qed.

(** The immediate of each format. *)
Lemma imm_format_I f op7 imm :
  fields_ok f -> f_op f mod 4 = 3 -> f_op f / 4 = op7 ->
  ((op7 =? OP_STORE) || (op7 =? OP_BRANCH) || (op7 =? OP_LUI) || (op7 =? OP_AUIPC) || (op7 =? OP_JAL)) = false ->
  -2048 <= imm < 2048 -> f_rs2 f = imm mod 2 ^ 12 mod 32 -> f_f7 f = imm mod 2 ^ 12 / 32 ->
  imm_of (word f) = w32 imm.
Proof.
  intros Hf H3 Ho Hn Hi H2 H7. rewrite (imm_word f op7) by done. rewrite <- (imm_I_eq f Hf imm) by done.
  revert Hn. by destruct (op7 =? OP_STORE), (op7 =? OP_BRANCH), (op7 =? OP_LUI), (op7 =? OP_AUIPC), (op7 =? OP_JAL).
Qed.

(** Rewrites the signals of an encoding, whose immediate is given. *)
Ltac decode_word Himm :=
  match goal with Hf : fields_ok ?f |- context [word ?f] =>
    let Hc := fresh in let H0 := fresh in let H1 := fresh in let H2 := fresh in let H3 := fresh in
    destruct (control_word f Hf eq_refl) as (Hc & H0 & H1 & H2 & H3);
    unfold meaning, branchmask_of; rewrite Hc, H0, ?Himm; unfold control32, op_oper, opimm_oper;
    rewrite H1, H2, H3, slice_19_15, slice_24_20, slice_11_7 by done;
    clear Hc H0 H1 H2 H3
  end.

Definition decodes_to (i : insn) : Prop := insn_ok i -> meaning (word (encode i)) = action_of i.

Lemma dec_R op rd rs1 rs2 : decodes_to (OpR op rd rs1 rs2).
Proof. intros H. pose proof (encode_ok _ H) as Hf. cbn [encode] in *. decode_word Hf. by destruct op. Qed.

Lemma dec_I op rd rs1 imm : decodes_to (OpI op rd rs1 imm).
Proof.
  intros H. pose proof (encode_ok _ H) as Hf. destruct H as (_ & _ & Hi). cbn [encode] in *.
  epose proof (imm_format_I _ _ imm Hf eq_refl eq_refl eq_refl Hi eq_refl eq_refl) as Himm.
  decode_word Himm. by destruct op.
Qed.

Lemma dec_Shift op rd rs1 shamt : decodes_to (Shift op rd rs1 shamt).
Proof.
  intros H. pose proof (encode_ok _ H) as Hf. destruct H as (_ & _ & Hi). cbn [encode] in *.
  assert (Himm : imm_of (word (Fields 19 rd (shop_f3 op) rs1 shamt (shop_f7 op))) = shamt + 32 * shop_f7 op).
  { set (u := shamt + 32 * shop_f7 op). assert (0 <= u < 2048) by (unfold u; destruct op; simpl; lia).
    rewrite <- (wrap_small 32 u) by lia. apply (imm_format_I _ 4); try done; [lia| |];
      rewrite (Z.mod_small u) by lia; unfold u; destruct op; cbn [shop_f7 f_rs2 f_f7]; zlia. }
  decode_word Himm. by destruct op.
Qed.

Lemma dec_Load op rd rs1 imm : decodes_to (Load op rd rs1 imm).
Proof.
  intros H. pose proof (encode_ok _ H) as Hf. destruct H as (_ & _ & Hi). cbn [encode] in *.
  epose proof (imm_format_I _ _ imm Hf eq_refl eq_refl eq_refl Hi eq_refl eq_refl) as Himm.
  decode_word Himm. by destruct op.
Qed.

Lemma dec_Store op rs1 rs2 imm : decodes_to (Store op rs1 rs2 imm).
Proof.
  intros H. pose proof (encode_ok _ H) as Hf. destruct H as (_ & _ & Hi). cbn [encode] in *.
  pose proof (eq_trans (imm_word _ OP_STORE Hf eq_refl eq_refl) (imm_S_eq _ Hf imm Hi eq_refl eq_refl)) as Himm.
  decode_word Himm. by destruct op.
Qed.

Lemma dec_Branch op rs1 rs2 off : decodes_to (Branch op rs1 rs2 off).
Proof.
  intros H. pose proof (encode_ok _ H) as Hf. destruct H as (_ & _ & Hi & He). cbn [encode] in *.
  pose proof (eq_trans (imm_word _ OP_BRANCH Hf eq_refl eq_refl) (imm_B_eq _ Hf off Hi He eq_refl eq_refl)) as Himm.
  decode_word Himm. by destruct op.
Qed.

Lemma dec_Lui rd imm : decodes_to (Lui rd imm).
Proof.
  intros H. pose proof (encode_ok _ H) as Hf. destruct H as (_ & Hi). cbn [encode] in *.
  pose proof (eq_trans (imm_word _ OP_LUI Hf eq_refl eq_refl) (imm_U_eq _ Hf imm Hi eq_refl eq_refl eq_refl eq_refl)) as Himm.
  decode_word Himm. done.
Qed.

Lemma dec_Auipc rd imm : decodes_to (Auipc rd imm).
Proof.
  intros H. pose proof (encode_ok _ H) as Hf. destruct H as (_ & Hi). cbn [encode] in *.
  pose proof (eq_trans (imm_word _ OP_AUIPC Hf eq_refl eq_refl) (imm_U_eq _ Hf imm Hi eq_refl eq_refl eq_refl eq_refl)) as Himm.
  decode_word Himm. done.
Qed.

Lemma dec_Jal rd off : decodes_to (Jal rd off).
Proof.
  intros H. pose proof (encode_ok _ H) as Hf. destruct H as (_ & Hi & He). cbn [encode] in *.
  pose proof (eq_trans (imm_word _ OP_JAL Hf eq_refl eq_refl) (imm_J_eq _ Hf off Hi He eq_refl eq_refl eq_refl eq_refl)) as Himm.
  decode_word Himm. done.
Qed.

Lemma dec_Jalr rd rs1 imm : decodes_to (Jalr rd rs1 imm).
Proof.
  intros H. pose proof (encode_ok _ H) as Hf. destruct H as (_ & _ & Hi). cbn [encode] in *.
  epose proof (imm_format_I _ _ imm Hf eq_refl eq_refl eq_refl Hi eq_refl eq_refl) as Himm.
  decode_word Himm. done.
Qed.

(** The code of a SYSTEM instruction is the low part of its immediate. *)
Lemma imm_code f csr :
  fields_ok f -> f_op f = 0x73 -> 0 <= csr < 2 ^ 12 -> f_rs2 f = csr mod 32 -> f_f7 f = csr / 32 ->
  exists v, imm_of (word f) = v /\ slice 11 0 v = csr.
Proof.
  intros Hf Ho Hc H2 H7. exists (imm_of (word f)). split; [done|].
  rewrite (imm_format_I f 28 (if csr <? 2048 then csr else csr - 4096)); [by apply csr_code|done| | |done| | |];
    rewrite ?Ho, ?csr_mod by done; try done. destruct (Z.ltb_spec csr 2048); lia.
Qed.

Lemma dec_Csr op rd rs1 csr : decodes_to (Csr op rd rs1 csr).
Proof.
  intros H. pose proof (encode_ok _ H) as Hf. destruct H as (_ & _ & Hi). cbn [encode] in *.
  destruct (imm_code _ csr Hf eq_refl Hi eq_refl eq_refl) as (v & Himm & Hv).
  decode_word Himm. rewrite Hv. by destruct op.
Qed.

Lemma dec_Csri op rd uimm csr : decodes_to (Csri op rd uimm csr).
Proof.
  intros H. pose proof (encode_ok _ H) as Hf. destruct H as (_ & _ & Hi). cbn [encode] in *.
  destruct (imm_code _ csr Hf eq_refl Hi eq_refl eq_refl) as (v & Himm & Hv).
  decode_word Himm. rewrite Hv. by destruct op.
Qed.

Lemma dec_System op : decodes_to (System op).
Proof. intros _. destruct op; vm_compute; reflexivity. Qed.

Lemma decoded_insn i : insn_ok i -> meaning (word (encode i)) = action_of i.
Proof.
  destruct i; [apply dec_R|apply dec_I|apply dec_Shift|apply dec_Load|apply dec_Store|apply dec_Branch|
    apply dec_Lui|apply dec_Auipc|apply dec_Jal|apply dec_Jalr|apply dec_Csr|apply dec_Csri|apply dec_System].
Qed.

(** * Compressed instructions

    The manual gives for every 16-bit instruction the 32-bit instruction it
    stands for.  The decoder of the core gives both the same meaning, for all
    65536 words: checked by evaluation, once the upper half of the word, which
    may hold anything, is shown not to matter.  The exception is C.EBREAK,
    which the core treats as illegal. *)

(** ** The manual *)

(** The signed reading of [n] bits. *)
Definition sgn_bits (n v : Z) : Z := if v <? 2 ^ (n - 1) then v else v - 2 ^ n.

Definition expand (w : Z) : option insn :=
  let bit i := slice i i w in
  let f3 := slice 15 13 w in
  let rd := slice 11 7 w in
  let rs2 := slice 6 2 w in
  let rd' := 8 + slice 4 2 w in
  let rs1' := 8 + slice 9 7 w in
  let imm6 := sgn_bits 6 (32 * bit 12 + slice 6 2 w) in
  let shamt := slice 6 2 w in
  let jump := sgn_bits 12 (2 ^ 11 * bit 12 + 2 ^ 10 * bit 8 + 2 ^ 8 * slice 10 9 w + 2 ^ 7 * bit 6 +
                           2 ^ 6 * bit 7 + 2 ^ 5 * bit 2 + 2 ^ 4 * bit 11 + 2 * slice 5 3 w) in
  let branch := sgn_bits 9 (2 ^ 8 * bit 12 + 2 ^ 6 * slice 6 5 w + 2 ^ 5 * bit 2 +
                            2 ^ 3 * slice 11 10 w + 2 * slice 4 3 w) in
  let lw := 2 ^ 6 * bit 5 + 2 ^ 3 * slice 12 10 w + 2 ^ 2 * bit 6 in
  let op := slice 1 0 w in
  if op =? 0 then
    if f3 =? 0 then
      let imm := 2 ^ 6 * slice 10 7 w + 2 ^ 4 * slice 12 11 w + 2 ^ 3 * bit 5 + 2 ^ 2 * bit 6 in
      if imm =? 0 then None else Some (OpI ADDI rd' 2 imm)
    else if f3 =? 2 then Some (Load LW rd' rs1' lw)
    else if f3 =? 6 then Some (Store SW rs1' rd' lw)
    else None
  else if op =? 1 then
    if f3 =? 0 then Some (OpI ADDI rd rd imm6)
    else if f3 =? 1 then Some (Jal 1 jump)
    else if f3 =? 2 then Some (OpI ADDI rd 0 imm6)
    else if f3 =? 3 then
      if imm6 =? 0 then None
      else if rd =? 2 then
        Some (OpI ADDI 2 2 (sgn_bits 10 (2 ^ 9 * bit 12 + 2 ^ 7 * slice 4 3 w + 2 ^ 6 * bit 5 +
                                         2 ^ 5 * bit 2 + 2 ^ 4 * bit 6)))
      else Some (Lui rd (wrap 20 imm6))
    else if f3 =? 4 then
      let f2 := slice 11 10 w in
      if f2 =? 0 then if bit 12 =? 0 then Some (Shift SRLI rs1' rs1' shamt) else None
      else if f2 =? 1 then if bit 12 =? 0 then Some (Shift SRAI rs1' rs1' shamt) else None
      else if f2 =? 2 then Some (OpI ANDI rs1' rs1' imm6)
      else if bit 12 =? 0 then
        let f := slice 6 5 w in
        Some (OpR (if f =? 0 then SUB else if f =? 1 then XOR else if f =? 2 then OR else AND) rs1' rs1' rd')
      else None
    else if f3 =? 5 then Some (Jal 0 jump)
    else if f3 =? 6 then Some (Branch BEQ rs1' 0 branch)
    else Some (Branch BNE rs1' 0 branch)
  else if op =? 2 then
    if f3 =? 0 then if bit 12 =? 0 then Some (Shift SLLI rd rd shamt) else None
    else if f3 =? 2 then
      if rd =? 0 then None
      else Some (Load LW rd 2 (2 ^ 6 * slice 3 2 w + 2 ^ 5 * bit 12 + 2 ^ 2 * slice 6 4 w))
    else if f3 =? 4 then
      if bit 12 =? 0 then
        if rs2 =? 0 then if rd =? 0 then None else Some (Jalr 0 rd 0)
        else Some (OpR ADD rd 0 rs2)
      else if rs2 =? 0 then if rd =? 0 then Some (System EBREAK) else Some (Jalr 1 rd 0)
      else Some (OpR ADD rd rd rs2)
    else if f3 =? 6 then Some (Store SW 2 rs2 (2 ^ 6 * slice 8 7 w + 2 ^ 2 * slice 12 9 w))
    else None
  else None.

(** ** The same effect *)

(** x0 reads as zero and is not written; only five bits of a shift amount
    count. *)
Definition norm_operand (x : operand) : operand :=
  match x with Reg n => if n =? 0 then Imm 0 else Reg n | _ => x end.

Definition norm (a : action) : action :=
  match a with
  | Compute rd op x y =>
      if rd =? 0 then Nothing
      else
        match norm_operand x, norm_operand y with
        | Imm u, Imm v => if op =? ALUOP_ADD then Move rd (w32 (u + v)) else Compute rd op (Imm u) (Imm v)
        | x, Imm v =>
            Compute rd op x (Imm (if (ALUOP_SLL <=? op) && (op <=? ALUOP_SRA) then v mod 32 else v))
        | x, y => Compute rd op x y
        end
  | Move rd v => if rd =? 0 then Nothing else a
  | Jump rd x y => Jump rd (norm_operand x) (norm_operand y)
  | _ => a
  end.

#[global] Instance operand_eq_dec : EqDecision operand.
Proof. solve_decision. Defined.
#[global] Instance action_eq_dec : EqDecision action.
Proof. solve_decision. Defined.

(** Reserved for RV64 instructions; the core takes them for C.SUB and its
    kind. *)
Definition reserved_alu (w : Z) : bool :=
  (slice 1 0 w =? 1) && (slice 15 13 w =? 4) && (slice 12 10 w =? 7).

(** What has to hold of a 16-bit word. *)
Definition compressed_ok (w : Z) : bool :=
  match expand w with
  | Some (System _) => bool_decide (meaning w = Illegal)
  | Some i => bool_decide (norm (meaning w) = norm (action_of i))
  | None => bool_decide (meaning w = Illegal) || reserved_alu w
  end.

Fixpoint all_below (n : nat) (k : Z) (f : Z -> bool) : bool :=
  match n with O => true | S n => f k && all_below n (k + 1) f end.

Lemma all_below_spec n k f x :
  all_below n k f = true -> k <= x < k + Z.of_nat n -> f x = true.
Proof.
  revert k. induction n as [|n IH]; intros k Ha Hx; [lia|]. cbn [all_below] in Ha.
  apply andb_true_iff in Ha as [Hk Ha]. destruct (Z.eq_dec x k) as [->|]; [done|]. apply (IH (k + 1)); [done|lia].
Qed.

Lemma compressed_checked :
  all_below (Z.to_nat 65536) 0 (fun w => (w mod 4 =? 3) || compressed_ok w) = true.
Proof. vm_compute. reflexivity. Qed.

(** ** The upper half of the word *)

Lemma slice_low hi lo w : 0 <= lo <= hi -> hi < 16 -> slice hi lo w = slice hi lo (w mod 2 ^ 16).
Proof.
  intros Hl Hh. rewrite !slice_eq by lia. rewrite !div_mod_pow by lia. f_equal.
  replace (lo + (hi - lo + 1)) with (hi + 1) by lia. rewrite Z.mod_mod_divide; [done|].
  exists (2 ^ (15 - hi)). rewrite <- Z.pow_add_r by lia. f_equal. lia.
Qed.

Lemma bit_low i w : 0 <= i < 16 -> Z.testbit w i = Z.testbit (w mod 2 ^ 16) i.
Proof. intros Hi. by rewrite Z.mod_pow2_bits_low by lia. Qed.

Lemma control_low w : c_op w <> 3 -> control w = control (w mod 2 ^ 16).
Proof.
  intros Hop. set (v := w mod 2 ^ 16).
  assert (Hs : forall hi lo, 0 <= lo <= hi -> hi < 16 -> slice hi lo w = slice hi lo v)
    by (intros; by apply slice_low).
  assert (Hb : forall i, 0 <= i < 16 -> Z.testbit w i = Z.testbit v i) by (intros; by apply bit_low).
  assert (Hc : c_op w = c_op v) by (apply Hs; lia).
  assert (H3 : (c_op v =? 3) = false) by (rewrite <- Hc; lia).
  unfold control, control_c0, control_c1, control_c2, c_reg, c_funct3. rewrite Hc, H3.
  simpl Z.add. rewrite !Hs by lia. by rewrite !Hb by lia.
Qed.

Lemma meaning_low w : c_op w <> 3 -> meaning w = meaning (w mod 2 ^ 16).
Proof.
  intros Hop. pose proof (control_low w Hop) as Hctl. set (v := w mod 2 ^ 16) in *.
  assert (Hs : forall hi lo, 0 <= lo <= hi -> hi < 16 -> slice hi lo w = slice hi lo v)
    by (intros; by apply slice_low).
  assert (Hb : forall i, 0 <= i < 16 -> Z.testbit w i = Z.testbit v i) by (intros; by apply bit_low).
  assert (Hc : c_op w = c_op v) by (apply Hs; lia).
  assert (H3 : (c_op v =? 3) = false) by (rewrite <- Hc; lia).
  assert (Himm : imm_of w = imm_of v).
  { unfold imm_of, c_funct3, copies. rewrite Hc, H3. rewrite !Hs by lia. by rewrite !Hb by lia. }
  assert (Hm : branchmask_of w = branchmask_of v).
  { unfold branchmask_of, c_funct3. rewrite Hc, H3. by rewrite !Hs by lia. }
  assert (Hf : funct3 w = funct3 v) by (unfold funct3; by rewrite Hc, H3).
  unfold meaning. by rewrite Himm, Hctl, Hm, Hf.
Qed.

(** The meaning of a compressed word is that of its expansion. *)
Lemma decoded_compressed w :
  c_op w <> 3 ->
  match expand (w mod 2 ^ 16) with
  | Some (System _) => meaning w = Illegal
  | Some i => norm (meaning w) = norm (action_of i)
  | None => meaning w = Illegal \/ reserved_alu (w mod 2 ^ 16) = true
  end.
Proof.
  intros Hop. rewrite meaning_low by done. set (v := w mod 2 ^ 16).
  assert (Hr : 0 <= v < 0 + Z.of_nat (Z.to_nat 65536)).
  { rewrite Z2Nat.id by done. apply Z.mod_pos_bound. done. }
  pose proof (all_below_spec _ _ _ v compressed_checked Hr) as Hv. clear Hr. cbv beta in Hv.
  assert (Hm : (v mod 4 =? 3) = false).
  { unfold c_op in Hop. rewrite slice_low in Hop by lia. fold v in Hop. rewrite slice_eq in Hop by lia.
    change (1 - 0 + 1) with 2 in Hop. change (2 ^ 0) with 1 in Hop. rewrite Z.div_1_r in Hop.
    change (2 ^ 2) with 4 in Hop. apply Z.eqb_neq. exact Hop. }
  rewrite Hm in Hv. cbn [orb] in Hv. unfold compressed_ok in Hv. destruct (expand v) as [i|].
  - destruct i; exact (bool_decide_eq_true_1 _ Hv).
  - apply orb_true_iff in Hv as [Hv|Hv]; [left; exact (bool_decide_eq_true_1 _ Hv)|by right].
Qed.
