(* ===== verification/RtlCpu.v ===== *)
(** * The CPU core

    The parts of the core around the arithmetic unit and the decoder, and the
    state machine that drives them. *)

From S2P Require Import Prelude RtlAlu RtlDecoder.
Import Alu Decoder.

(** * The parts of the CPU core around its control

    The clocked memories of src/rtl/ram/generic_ram.v, the register file
    (registers.v), the bus master (wb_cpu_bus.v), the pseudo random numbers
    (lfsr_rnd.v) and the control and status registers (csr.v).  A record holds
    the registers of a module and [.._clock] is the effect of one rising edge;
    the value of a register before it is first written is arbitrary. *)

(** Write one place of a memory. *)
Definition put (k v : Z) (m : Z -> Z) : Z -> Z := fun x => if x =? k then v else m x.

(** ** generic_ram *)

Record generic_ram := GenericRam { mem : Z -> Z; data_o : Z }.

(** The word read is the one before the write; a write beyond the last word
    is lost. *)
Definition generic_ram_clock (words width : Z) (we_i : bool) (data_i w_addr_i r_addr_i : Z)
    (r : generic_ram) : generic_ram :=
  GenericRam (if we_i && (w_addr_i <? words) then put w_addr_i (wrap width data_i) (mem r) else mem r)
    (mem r r_addr_i).

(** ** registers *)

Record registers := Registers { regfile : Z -> Z; regval1 : Z; regval2 : Z }.

Definition registers_clock (I_data I_rs1 I_rs2 I_rd : Z) (I_re I_we : bool) (r : registers) : registers :=
  Registers (if I_we && negb (I_rd =? 0) then put I_rd I_data (regfile r) else regfile r)
    (if I_re then regfile r I_rs1 else regval1 r) (if I_re then regfile r I_rs2 else regval2 r).

(** [register_flags_o[i]]. *)
Definition register_flag (r : registers) (i : Z) : bool := regfile r i =? 0.

(** ** wb_cpu_bus *)

Abbreviation BUSOP_READB := 0.
Abbreviation BUSOP_READBU := 1.
Abbreviation BUSOP_READH := 2.
Abbreviation BUSOP_READHU := 3.
Abbreviation BUSOP_READW := 4.
Abbreviation BUSOP_WRITEB := 5.
Abbreviation BUSOP_WRITEH := 6.
Abbreviation BUSOP_WRITEW := 7.
Abbreviation BUSOP_READT := 12.
Abbreviation BUSOP_WRITET := 15.

Abbreviation SEL_BYTE := 1.
Abbreviation SEL_HALF := 3.
Abbreviation SEL_TAG := 5.
Abbreviation SEL_WORD := 15.

Record bus := Bus {
  bus_op_r : Z; buffer : Z; bus_busy : bool;
  ADR_O : Z; DAT_O : Z; SEL_O : Z; CYC_O : bool; STB_O : bool; WE_O : bool;
}.

Definition mem_sel (I_op : Z) : Z :=
  if (I_op =? BUSOP_READW) || (I_op =? BUSOP_WRITEW) then SEL_WORD
  else if (I_op =? BUSOP_READH) || (I_op =? BUSOP_READHU) || (I_op =? BUSOP_WRITEH) then SEL_HALF
  else if (I_op =? BUSOP_READT) || (I_op =? BUSOP_WRITET) then SEL_TAG
  else SEL_BYTE.

Definition signextend (op : Z) : bool := negb ((op =? BUSOP_READBU) || (op =? BUSOP_READHU)).

Definition bus_write (I_op : Z) : bool :=
  (I_op =? BUSOP_WRITEB) || (I_op =? BUSOP_WRITEH) || (I_op =? BUSOP_WRITEW) || (I_op =? BUSOP_WRITET).

Definition data_from_bus (op sel DAT_I : Z) : Z :=
  if sel =? SEL_WORD then DAT_I
  else if sel =? SEL_HALF then
    cat [(16, if Z.testbit DAT_I 15 && signextend op then Z.ones 16 else 0); (16, slice 15 0 DAT_I)]
  else if sel =? SEL_BYTE then
    cat [(24, if Z.testbit DAT_I 7 && signextend op then Z.ones 24 else 0); (8, slice 7 0 DAT_I)]
  else if sel =? SEL_TAG then cat [(28, 0); (4, slice 3 0 DAT_I)]
  else 0xDEADF001.

(** The assignments under [ACK_I] come last and win. *)
Definition wb_cpu_bus_clock (I_en : bool) (I_op I_addr I_data : Z) (ACK_I : bool) (DAT_I : Z)
    (b : bus) : bus := {|
  bus_op_r := if I_en then I_op else bus_op_r b;
  buffer := if ACK_I then data_from_bus (bus_op_r b) (SEL_O b) DAT_I else buffer b;
  bus_busy := if ACK_I then false else if I_en then true else bus_busy b;
  ADR_O := if I_en then I_addr else ADR_O b;
  DAT_O := if I_en then I_data else DAT_O b;
  SEL_O := if ACK_I then 0 else if I_en then mem_sel I_op else SEL_O b;
  CYC_O := if ACK_I then false else if I_en then true else CYC_O b;
  STB_O := if ACK_I then false else if I_en then true else STB_O b;
  WE_O := if ACK_I then false else if I_en then bus_write I_op else WE_O b;
|}.

(** ** lfsr_rnd *)

Definition lfsr_rnd_clock (I_reset : bool) (result : Z) : Z :=
  if I_reset then 0xbed4dead
  else
    let to_xor := if Z.testbit result 31 then 0x80200003 else 0 in
    cat [(31, Z.lxor (slice 30 0 result) (slice 31 1 to_xor)); (1, slice 31 31 result)].

(** ** csr *)

Abbreviation MSR_MVENDORID := 0xF11.
Abbreviation MSR_MHARTID := 0xF14.
Abbreviation MSR_MSTATUS := 0x300.
Abbreviation MSR_MISA := 0x301.
Abbreviation MSR_MIE := 0x304.
Abbreviation MSR_MTVEC := 0x305.
Abbreviation MSR_MCOUNTEREN := 0x306.
Abbreviation MSR_MSCRATCH := 0x340.
Abbreviation MSR_MEPC := 0x341.
Abbreviation MSR_MCAUSE := 0x342.
Abbreviation MSR_MTVAL := 0x343.
Abbreviation MSR_MIP := 0x344.
Abbreviation MSR_MTAGS := 0x345.
Abbreviation MSR_MRND := 0x346.

Abbreviation M_VENDOR_ID := 0.
Abbreviation M_HART_ID := 1.
Abbreviation M_STATUS := 2.
Abbreviation M_ISA := 3.
Abbreviation M_IE := 4.
Abbreviation M_TVEC := 5.
Abbreviation M_COUNTEREN := 6.
Abbreviation M_SCRATCH := 7.
Abbreviation M_EPC := 8.
Abbreviation M_CAUSE := 9.
Abbreviation M_TVAL := 10.
Abbreviation M_IP := 11.
Abbreviation M_TAGS := 12.
Abbreviation M_RND := 13.

Definition csr_index (addr : Z) : Z :=
  if addr =? MSR_MVENDORID then M_VENDOR_ID
  else if addr =? MSR_MHARTID then M_HART_ID
  else if addr =? MSR_MSTATUS then M_STATUS
  else if addr =? MSR_MISA then M_ISA
  else if addr =? MSR_MIE then M_IE
  else if addr =? MSR_MTVEC then M_TVEC
  else if addr =? MSR_MCOUNTEREN then M_COUNTEREN
  else if addr =? MSR_MSCRATCH then M_SCRATCH
  else if addr =? MSR_MEPC then M_EPC
  else if addr =? MSR_MCAUSE then M_CAUSE
  else if addr =? MSR_MTVAL then M_TVAL
  else if addr =? MSR_MIP then M_IP
  else if addr =? MSR_MTAGS then M_TAGS
  else if addr =? MSR_MRND then M_RND
  else M_VENDOR_ID.

Record csr := Csr {
  irq_en : bool; irq_timer_en : bool; tags_en : bool; tags_if_en : bool; tags_skip_sp_en : bool;
  tags_irq_clear : bool;
  we : bool; csr_busy : bool; stored_addr : Z; stored_data : Z;
  csr0 : generic_ram;
  rnd_data : Z;
}.

Definition csr_data_o (r : csr) : Z :=
  if csr_index (stored_addr r) =? M_RND then rnd_data r else data_o (csr0 r).

(** [tags_skip_sp_en] is not reset. *)
Definition csr_clock (rst_i csr_en_i csr_we_i : bool) (csr_addr_i csr_data_i : Z) (r : csr) : csr :=
  let flag a b old := if rst_i then false
    else if csr_we_i && (csr_addr_i =? a) then Z.testbit csr_data_i b else old in
  let index := csr_index (stored_addr r) in
  {| irq_en := flag MSR_MSTATUS 3 (irq_en r);
     irq_timer_en := flag MSR_MIE 7 (irq_timer_en r);
     tags_en := flag MSR_MTAGS 0 (tags_en r);
     tags_if_en := flag MSR_MTAGS 2 (tags_if_en r);
     tags_skip_sp_en := if rst_i then tags_skip_sp_en r else flag MSR_MTAGS 3 (tags_skip_sp_en r);
     tags_irq_clear :=
       if rst_i then false else if csr_addr_i =? MSR_MTAGS then Z.testbit csr_data_i 1 else false;
     we := if rst_i then false else if csr_busy r then false else if csr_en_i then csr_we_i else we r;
     csr_busy := if rst_i then false else if csr_busy r then false else if csr_en_i then true else false;
     stored_addr := if negb rst_i && csr_en_i then csr_addr_i else stored_addr r;
     stored_data := if negb rst_i && csr_en_i then csr_data_i else stored_data r;
     csr0 := generic_ram_clock 13 32 (we r) (stored_data r) index index (csr0 r);
     rnd_data := lfsr_rnd_clock rst_i (rnd_data r) |}.

(** * The control of the CPU core

    The state machine of src/rtl/cpu/cpu.v with the two small machines that
    carry out traps and the return from one.  A signal that the combinational
    process of the file assigns is a definition by cases on the state, its
    last case the default value the process starts with; [cpu_clock] is one
    rising edge of the clock for the whole core.  Left out are [prev_pc],
    [insn_counter] and [csr_op_type], which nothing in the core reads. *)

(** ** State *)

Inductive cpu_state :=
  | STATE_RESET | STATE_FETCH | STATE_DECODE | STATE_EXEC | STATE_STORE2 | STATE_LOAD2 | STATE_BRANCH2
  | STATE_TRAP | STATE_SYSTEM | STATE_UPDATE_PC | STATE_CSR1 | STATE_DEAD | STATE_PRE_FETCH
  | STATE_STORE1 | STATE_LOAD1 | STATE_MRET_UPDATE_MSTATUS | STATE_MRET_READ_EPC | STATE_POST_EXEC
  | STATE_MISALIGNED_ADDR | STATE_CSR2 | STATE_MRET | STATE_FETCH_MORE
  | STATE_PREPAIR_UNALIGNED_FETCH | STATE_CPU_IDLE.

Inductive mret_fsm :=
  | MRET_STATE_RESET | MRET_STATE_IDLE | MRET_STATE_STORE_STATUS | MRET_STATE_LOAD_EPC.

Inductive trap_fsm :=
  | TRAP_STATE_RESET | TRAP_STATE_IDLE | TRAP_STATE_LOAD_STATUS | TRAP_STATE_STORE_STATUS
  | TRAP_STATE_STORE_EPC | TRAP_STATE_STORE_TVAL | TRAP_STATE_LOAD_TVEC | TRAP_STATE_LOAD_MIP
  | TRAP_STATE_STORE_MIP | TRAP_STATE_DEAD.

#[global] Instance cpu_state_eq_dec : EqDecision cpu_state.
Proof. solve_decision. Defined.

Record cpu := Cpu {
  state : cpu_state; pc : Z; pcnext : Z;
  writeback_from_bus : bool; branch_pc_from_alu : bool; next_addr_from_csr : bool;
  check_tags : bool; exec_done : bool; test_finished : bool;
  parcel_low : Z; parcel_high : Z;
  mret_state : mret_fsm; trap_state : trap_fsm;
  alu_inst : alu; bus_inst : bus; reg_inst : registers; csr_inst : csr;
}.

(** The inputs of the core. *)
Record pins := Pins {
  RST_I : bool; ACK_I : bool; DAT_I : Z;
  TIMER_INTERRUPT_I : bool; TAGS_INTERRUPT_I : bool; clear_mip_timer_i : bool;
  external_halt_i : bool; external_singlestep_i : bool; external_do_step_i : bool;
}.

(** Parameters, as soc.v sets them. *)
Definition VECTOR_RESET : Z := 4096.
Definition CPU_USE_NEW_TEST_SEQUENCE : bool := true.

Abbreviation CAUSE_INSTRUCTION_MISALIGNED := 0.
Abbreviation CAUSE_INVALID_INSTRUCTION := 2.
Abbreviation CAUSE_BREAK := 3.
Abbreviation CAUSE_ECALL := 0xb.
Abbreviation CAUSE_TIMER_INTERRUPT := 0x80000007.
Abbreviation CAUSE_TAG_MISMATCH := 0x80000010.

Abbreviation FUNC_LB := 0.
Abbreviation FUNC_LH := 1.
Abbreviation FUNC_LT := 7.
Abbreviation FUNC_LBU := 4.
Abbreviation FUNC_SB := 0.
Abbreviation FUNC_SH := 1.
Abbreviation FUNC_ST := 7.
Abbreviation FUNC_ECALL_EBREAK := 0.
Abbreviation FUNC_CSRRW := 1.
Abbreviation FUNC_CSRRS := 2.
Abbreviation FUNC_CSRRC := 3.
Abbreviation FUNC_CSRRWI := 5.
Abbreviation FUNC_CSRRSI := 6.
Abbreviation FUNC_CSRRCI := 7.
Abbreviation SYSTEM_ECALL := 0.
Abbreviation SYSTEM_EBREAK := 1.
Abbreviation SYSTEM_WFI := 0x105.
Abbreviation SYSTEM_MRET := 0x302.

Inductive mux_busaddr := MUX_BUSADDR_ALU | MUX_BUSADDR_PC.

Section Signals.

Context (i : pins) (c : cpu).

(** ** Outputs of the parts *)

Definition alu_dataout : Z := result (alu_inst c).
Definition alu_busy : bool := busy (alu_inst c).
Definition bus_dataout : Z := buffer (bus_inst c).
Definition reg_val1 : Z := regval1 (reg_inst c).
Definition reg_val2 : Z := regval2 (reg_inst c).
Definition csr_data_out : Z := csr_data_o (csr_inst c).
Definition parcels : Z := cat [(16, parcel_high c); (16, parcel_low c)].
Definition dec : ctrl := control parcels.
Definition dec_imm : Z := imm_of parcels.
Definition dec_funct3 : Z := funct3 parcels.
Definition dec_branchmask : Z := branchmask_of parcels.

Definition csr_is_busy : bool := csr_busy (csr_inst c).
Definition handling_mret : bool :=
  match mret_state c with MRET_STATE_RESET | MRET_STATE_IDLE => false | _ => true end.
Definition handling_trap : bool :=
  match trap_state c with TRAP_STATE_RESET | TRAP_STATE_IDLE => false | _ => true end.

Definition cpu_busy : bool :=
  alu_busy || bus_busy (bus_inst c) || csr_is_busy || handling_trap || handling_mret || external_halt_i i.

Definition timer_interrupt : bool := TIMER_INTERRUPT_I i && irq_timer_en (csr_inst c).
Definition interrupt_occured : bool := timer_interrupt || TAGS_INTERRUPT_I i.
(** An interrupt is taken in DECODE. *)
Definition interrupt_taken : bool := interrupt_occured && irq_en (csr_inst c).

Definition branch : bool :=
  let b (v : bool) := (1, Z.b2z v) in
  let r := alu_inst c in
  negb (Z.land dec_branchmask
    (cat [b (negb (O_ltu r)); b (O_ltu r); b (negb (O_lt r)); b (O_lt r); b (negb (O_eq r)); b (O_eq r)]) =? 0).

(** ** The arithmetic unit *)

Definition alu_en : bool :=
  match state c with STATE_FETCH_MORE | STATE_FETCH | STATE_EXEC | STATE_BRANCH2 => true | _ => false end.

(** [alu_op] is ALUOP_ADD except in EXEC and POST_EXEC. *)
Definition alu_op_final : Z :=
  match state c with STATE_EXEC | STATE_POST_EXEC => alu_oper dec | _ => ALUOP_ADD end.

Definition mux_alu_s1_sel_f : mux_aludat1 :=
  match state c with
  | STATE_EXEC | STATE_POST_EXEC => exec_mux_alu_s1_sel dec
  | STATE_FETCH_MORE | STATE_FETCH | STATE_BRANCH2 => MUX_ALUDAT1_PC
  | _ => MUX_ALUDAT1_REGVAL1
  end.

Definition mux_alu_s2_sel_f : mux_aludat2 :=
  match state c with
  | STATE_EXEC | STATE_POST_EXEC => exec_mux_alu_s2_sel dec
  | STATE_FETCH_MORE => MUX_ALUDAT2_INSTLEN32
  | STATE_FETCH =>
      if Z.testbit (pc c) 1 then MUX_ALUDAT2_INSTLEN16
      else if slice 1 0 bus_dataout =? 3 then MUX_ALUDAT2_INSTLEN32 else MUX_ALUDAT2_INSTLEN16
  | STATE_BRANCH2 => MUX_ALUDAT2_IMM
  | _ => MUX_ALUDAT2_REGVAL2
  end.

Definition alu_dataS1 : Z :=
  match mux_alu_s1_sel_f with MUX_ALUDAT1_REGVAL1 => reg_val1 | MUX_ALUDAT1_PC => pc c end.

Definition alu_dataS2 : Z :=
  match mux_alu_s2_sel_f with
  | MUX_ALUDAT2_REGVAL2 => reg_val2
  | MUX_ALUDAT2_IMM => dec_imm
  | MUX_ALUDAT2_INSTLEN16 => 2
  | MUX_ALUDAT2_INSTLEN32 => 4
  end.

(** ** The bus master *)

Definition bus_en : bool :=
  match state c with
  | STATE_PREPAIR_UNALIGNED_FETCH | STATE_PRE_FETCH | STATE_LOAD1 | STATE_STORE1 => true
  | _ => false
  end.

Definition bus_op : Z :=
  match state c with
  | STATE_LOAD1 =>
      if dec_funct3 =? FUNC_LB then BUSOP_READB
      else if dec_funct3 =? FUNC_LH then BUSOP_READH
      else if dec_funct3 =? FUNC_LW then BUSOP_READW
      else if dec_funct3 =? FUNC_LBU then BUSOP_READBU
      else if dec_funct3 =? FUNC_LT then BUSOP_READT
      else BUSOP_READHU
  | STATE_STORE1 =>
      if dec_funct3 =? FUNC_SB then BUSOP_WRITEB
      else if dec_funct3 =? FUNC_SH then BUSOP_WRITEH
      else if dec_funct3 =? FUNC_ST then BUSOP_WRITET
      else BUSOP_WRITEW
  | _ => BUSOP_READW
  end.

Definition mux_bus_addr_sel : mux_busaddr :=
  match state c with STATE_PRE_FETCH => MUX_BUSADDR_PC | _ => MUX_BUSADDR_ALU end.
Definition bus_addr : Z :=
  match mux_bus_addr_sel with MUX_BUSADDR_ALU => alu_dataout | MUX_BUSADDR_PC => pc c end.

(** Whether the tags of the access are checked. *)
Definition next_check_tags : bool :=
  let r := csr_inst c in
  let access := if tags_skip_sp_en r then (if o_rs1 dec =? 2 then false else tags_en r) else tags_en r in
  match state c with
  | STATE_PREPAIR_UNALIGNED_FETCH | STATE_PRE_FETCH => tags_if_en r
  | STATE_LOAD1 => if dec_funct3 =? FUNC_LT then false else access
  | STATE_STORE1 => if dec_funct3 =? FUNC_ST then false else access
  | _ => false
  end.

(** ** Traps *)

Definition system_traps : bool :=
  if dec_funct3 =? FUNC_ECALL_EBREAK then
    negb ((slice 11 0 dec_imm =? SYSTEM_WFI) || (slice 11 0 dec_imm =? SYSTEM_MRET))
  else dec_funct3 =? 4.

(** ** The next program counter *)

Definition next_pc_from_csr : bool :=
  match state c with STATE_TRAP | STATE_MRET | STATE_MRET_READ_EPC => true | _ => false end.

Definition update_pc : bool := match state c with STATE_UPDATE_PC => true | _ => false end.

Definition next_pc : Z :=
  match state c with
  | STATE_UPDATE_PC =>
      let mask := w32 (Z.lnot 1) in
      if next_pc_from_csr || next_addr_from_csr c then Z.land csr_data_out mask
      else if exec_next_pc_from_alu dec || branch_pc_from_alu c then Z.land alu_dataout mask
      else Z.land (pcnext c) mask
  | _ => 0
  end.
Definition addr_misaligned : bool := Z.testbit next_pc 0.

Definition next_pcnext : Z := match state c with STATE_DECODE => alu_dataout | _ => 0 end.
Definition next_branch_pc_from_alu : bool := match state c with STATE_BRANCH2 => branch | _ => false end.
Definition next_exec_done : bool := match state c with STATE_EXEC => true | _ => false end.
Definition next_writeback_from_bus : bool := match state c with STATE_LOAD2 => true | _ => false end.

Definition trap_occured : bool :=
  match state c with
  | STATE_UPDATE_PC => addr_misaligned
  | STATE_DECODE => interrupt_taken
  | STATE_SYSTEM => system_traps
  | _ => false
  end.

Definition is_mret : bool :=
  (dec_funct3 =? FUNC_ECALL_EBREAK) && (slice 11 0 dec_imm =? SYSTEM_MRET).
Definition mret_occured : bool := match state c with STATE_SYSTEM => is_mret | _ => false end.

Definition next_test_finished : bool :=
  match state c with
  | STATE_SYSTEM =>
      (dec_funct3 =? FUNC_ECALL_EBREAK) && (slice 11 0 dec_imm =? SYSTEM_ECALL) &&
      (CPU_USE_NEW_TEST_SEQUENCE && register_flag (reg_inst c) 2)
  | _ => false
  end.

(** ** The register file *)

Definition reg_re : bool := match state c with STATE_DECODE => true | _ => false end.

Definition reg_we : bool :=
  match state c with
  | STATE_UPDATE_PC =>
      (writeback_from_bus c || exec_writeback_from_imm dec || exec_writeback_from_alu dec) && exec_done c
  | STATE_EXEC => if exec_next_pc_from_alu dec then write_reg dec else false
  | STATE_POST_EXEC => if negb (exec_next_pc_from_alu dec) then write_reg dec else false
  | STATE_CSR1 => true
  | _ => false
  end.

Definition mux_reg_input_sel : mux_reginput :=
  match state c with
  | STATE_UPDATE_PC =>
      if exec_writeback_from_alu dec then MUX_REGINPUT_ALU
      else if exec_writeback_from_imm dec then exec_mux_reg_input_sel dec
      else MUX_REGINPUT_BUS
  | STATE_CSR1 => MUX_REGINPUT_MSR
  | _ => MUX_REGINPUT_ALU
  end.

Definition reg_datain : Z :=
  match mux_reg_input_sel with
  | MUX_REGINPUT_ALU => alu_dataout
  | MUX_REGINPUT_BUS => bus_dataout
  | MUX_REGINPUT_IMM => dec_imm
  | MUX_REGINPUT_MSR => csr_data_out
  end.

(** ** Access to the control and status registers *)

(** A request: enable, write, address and data. *)
Definition csr_request : Type := bool * bool * Z * Z.
Definition no_request : csr_request := (false, false, 0, 0).
Definition read_csr (a : Z) : csr_request := (true, false, a, 0).
Definition write_csr (a v : Z) : csr_request := (true, true, a, v).

Definition system_request : csr_request :=
  let f12 := slice 11 0 dec_imm in
  if dec_funct3 =? FUNC_ECALL_EBREAK then
    if f12 =? SYSTEM_ECALL then write_csr MSR_MCAUSE CAUSE_ECALL
    else if f12 =? SYSTEM_EBREAK then write_csr MSR_MCAUSE CAUSE_BREAK
    else if f12 =? SYSTEM_WFI then no_request
    else if f12 =? SYSTEM_MRET then read_csr MSR_MSTATUS
    else write_csr MSR_MCAUSE CAUSE_INVALID_INSTRUCTION
  else if dec_funct3 =? 4 then write_csr MSR_MCAUSE CAUSE_INVALID_INSTRUCTION
  else read_csr f12.

(** The data of CSR2. *)
Definition csr2_data : Z :=
  let uimm := cat [(27, 0); (5, o_rs1 dec)] in
  if dec_funct3 =? FUNC_CSRRW then reg_val1
  else if dec_funct3 =? FUNC_CSRRWI then uimm
  else if dec_funct3 =? FUNC_CSRRSI then Z.lor uimm csr_data_out
  else if dec_funct3 =? FUNC_CSRRS then Z.lor reg_val1 csr_data_out
  else if dec_funct3 =? FUNC_CSRRCI then Z.land (w32 (Z.lnot uimm)) csr_data_out
  else if dec_funct3 =? FUNC_CSRRC then Z.land (w32 (Z.lnot reg_val1)) csr_data_out
  else 0xB0010BAD.

Definition cpu_request : csr_request :=
  let d := csr_data_out in
  match state c with
  | STATE_UPDATE_PC =>
      if addr_misaligned then write_csr MSR_MCAUSE CAUSE_INSTRUCTION_MISALIGNED else no_request
  | STATE_DECODE =>
      if interrupt_taken then
        write_csr MSR_MCAUSE
          (if TAGS_INTERRUPT_I i && tags_en (csr_inst c) then CAUSE_TAG_MISMATCH
           else if TIMER_INTERRUPT_I i then CAUSE_TIMER_INTERRUPT else 0)
      else no_request
  | STATE_STORE1 => read_csr MSR_MIP
  | STATE_STORE2 =>
      if clear_mip_timer_i i then write_csr MSR_MIP (cat [(24, slice 31 8 d); (1, 0); (7, slice 6 0 d)])
      else no_request
  | STATE_SYSTEM => system_request
  | STATE_CSR2 => write_csr (slice 11 0 dec_imm) csr2_data
  | STATE_MRET_UPDATE_MSTATUS =>
      (true, false, MSR_MSTATUS, cat [(28, slice 31 4 d); (1, slice 7 7 d); (3, slice 2 0 d)])
  | STATE_MRET_READ_EPC => read_csr MSR_MEPC
  | _ => no_request
  end.

Definition mret_request : csr_request :=
  let d := csr_data_out in
  match mret_state c with
  | MRET_STATE_STORE_STATUS =>
      write_csr MSR_MSTATUS (cat [(28, slice 31 4 d); (1, slice 7 7 d); (3, slice 2 0 d)])
  | MRET_STATE_LOAD_EPC => read_csr MSR_MEPC
  | _ => no_request
  end.

Definition trap_request : csr_request :=
  let d := csr_data_out in
  match trap_state c with
  | TRAP_STATE_LOAD_STATUS => read_csr MSR_MSTATUS
  | TRAP_STATE_STORE_STATUS =>
      write_csr MSR_MSTATUS
        (cat [(24, slice 31 8 d); (1, slice 3 3 d); (3, slice 6 4 d); (1, 0); (3, slice 2 0 d)])
  | TRAP_STATE_STORE_EPC => write_csr MSR_MEPC (pc c)
  | TRAP_STATE_STORE_TVAL => write_csr MSR_MTVAL (pc c)
  | TRAP_STATE_LOAD_MIP => read_csr MSR_MIP
  | TRAP_STATE_STORE_MIP => write_csr MSR_MIP (cat [(24, slice 31 8 d); (1, 1); (7, slice 6 0 d)])
  | TRAP_STATE_LOAD_TVEC => read_csr MSR_MTVEC
  | _ => no_request
  end.

Definition csr_request_f : csr_request :=
  if handling_trap then trap_request else if handling_mret then mret_request else cpu_request.

(** ** Next states *)

Definition next_mret_state : mret_fsm :=
  match mret_state c with
  | MRET_STATE_RESET => MRET_STATE_IDLE
  | MRET_STATE_IDLE => if mret_occured then MRET_STATE_STORE_STATUS else MRET_STATE_IDLE
  | MRET_STATE_STORE_STATUS => MRET_STATE_LOAD_EPC
  | MRET_STATE_LOAD_EPC => MRET_STATE_IDLE
  end.

Definition next_trap_state : trap_fsm :=
  match trap_state c with
  | TRAP_STATE_RESET => TRAP_STATE_IDLE
  | TRAP_STATE_IDLE => if trap_occured then TRAP_STATE_LOAD_STATUS else TRAP_STATE_IDLE
  | TRAP_STATE_LOAD_STATUS => TRAP_STATE_STORE_STATUS
  | TRAP_STATE_STORE_STATUS => TRAP_STATE_STORE_EPC
  | TRAP_STATE_STORE_EPC => TRAP_STATE_STORE_TVAL
  | TRAP_STATE_STORE_TVAL => if timer_interrupt then TRAP_STATE_LOAD_MIP else TRAP_STATE_LOAD_TVEC
  | TRAP_STATE_LOAD_MIP => TRAP_STATE_STORE_MIP
  | TRAP_STATE_STORE_MIP => TRAP_STATE_LOAD_TVEC
  | TRAP_STATE_LOAD_TVEC => TRAP_STATE_IDLE
  | TRAP_STATE_DEAD => TRAP_STATE_DEAD
  end.

Definition next_state : cpu_state :=
  match state c with
  | STATE_RESET => STATE_PRE_FETCH
  | STATE_UPDATE_PC =>
      if external_singlestep_i i || test_finished c then STATE_CPU_IDLE
      else if addr_misaligned then STATE_TRAP else STATE_PRE_FETCH
  | STATE_PREPAIR_UNALIGNED_FETCH => STATE_FETCH_MORE
  | STATE_PRE_FETCH => STATE_FETCH
  | STATE_FETCH_MORE => STATE_DECODE
  | STATE_FETCH =>
      if Z.testbit (pc c) 1 && (slice 17 16 bus_dataout =? 3) then STATE_PREPAIR_UNALIGNED_FETCH
      else STATE_DECODE
  | STATE_DECODE => if interrupt_taken then STATE_TRAP else STATE_EXEC
  | STATE_EXEC =>
      match exec_next_stage dec with
      | EXEC_TO_FETCH => STATE_POST_EXEC
      | EXEC_TO_LOAD => STATE_LOAD1
      | EXEC_TO_STORE => STATE_STORE1
      | EXEC_TO_BRANCH => STATE_BRANCH2
      | EXEC_TO_SYSTEM => STATE_SYSTEM
      | EXEC_TO_TRAP => STATE_TRAP
      | EXEC_TO_DEAD => STATE_DEAD
      end
  | STATE_POST_EXEC => STATE_UPDATE_PC
  | STATE_LOAD1 => STATE_LOAD2
  | STATE_LOAD2 => STATE_UPDATE_PC
  | STATE_STORE1 => STATE_STORE2
  | STATE_STORE2 => STATE_UPDATE_PC
  | STATE_BRANCH2 => STATE_UPDATE_PC
  | STATE_SYSTEM =>
      if system_traps then STATE_TRAP
      else if negb (dec_funct3 =? FUNC_ECALL_EBREAK) then STATE_CSR1
      else if slice 11 0 dec_imm =? SYSTEM_WFI then STATE_UPDATE_PC else STATE_MRET
  | STATE_CSR1 => STATE_CSR2
  | STATE_CSR2 => STATE_UPDATE_PC
  | STATE_TRAP => STATE_UPDATE_PC
  | STATE_MRET => STATE_UPDATE_PC
  | STATE_MRET_UPDATE_MSTATUS => STATE_MRET_READ_EPC
  | STATE_MRET_READ_EPC => STATE_UPDATE_PC
  | STATE_CPU_IDLE => if external_do_step_i i then STATE_PRE_FETCH else STATE_CPU_IDLE
  | STATE_DEAD | STATE_MISALIGNED_ADDR => STATE_DEAD
  end.

(** ** One clock edge *)

Definition next_parcel_low : Z :=
  match state c with
  | STATE_FETCH => if Z.testbit (pc c) 1 then slice 31 16 bus_dataout else slice 15 0 bus_dataout
  | _ => parcel_low c
  end.
Definition next_parcel_high : Z :=
  match state c with
  | STATE_FETCH => if Z.testbit (pc c) 1 then 0 else slice 31 16 bus_dataout
  | STATE_FETCH_MORE => slice 15 0 bus_dataout
  | _ => parcel_high c
  end.

Definition cpu_clock : cpu :=
  let '(en, wr, addr, data) := csr_request_f in
  let rst := RST_I i in
  let stay {A} (old new : A) := if cpu_busy then old else new in
  {| state := if rst then STATE_RESET else stay (state c) next_state;
     pc := if rst then VECTOR_RESET else if update_pc && negb cpu_busy then next_pc else pc c;
     pcnext := if rst then 0
       else if bool_decide (state c = STATE_DECODE) && negb cpu_busy then next_pcnext else pcnext c;
     writeback_from_bus := if rst then false else stay (writeback_from_bus c) next_writeback_from_bus;
     branch_pc_from_alu := if rst then false else next_branch_pc_from_alu;
     next_addr_from_csr := if rst then false else stay (next_addr_from_csr c) next_pc_from_csr;
     check_tags := if rst then false
       else match state c with
            | STATE_PRE_FETCH | STATE_LOAD1 | STATE_STORE1 => next_check_tags
            | _ => check_tags c
            end;
     exec_done := if rst then false
       else match state c with STATE_PRE_FETCH | STATE_EXEC => next_exec_done | _ => exec_done c end;
     test_finished := if rst then false else if test_finished c then true else next_test_finished;
     parcel_low := if rst then parcel_low c else next_parcel_low;
     parcel_high := if rst then parcel_high c else next_parcel_high;
     mret_state := if rst then MRET_STATE_RESET else if csr_is_busy then mret_state c else next_mret_state;
     trap_state := if rst then TRAP_STATE_RESET else if csr_is_busy then trap_state c else next_trap_state;
     alu_inst := alu_clock alu_dataS1 alu_dataS2 alu_op_final alu_en rst (alu_inst c);
     bus_inst := wb_cpu_bus_clock bus_en bus_op bus_addr reg_val2 (ACK_I i) (DAT_I i) (bus_inst c);
     reg_inst := registers_clock reg_datain (o_rs1 dec) (o_rs2 dec) (o_rd dec) reg_re reg_we (reg_inst c);
     csr_inst := csr_clock rst en wr addr data (csr_inst c) |}.

End Signals.
