(* ===== verification/RtlSystem.v ===== *)
(** * The core and what it is connected to

    The Wishbone interface between the core and its memory and devices as a
    class: [Slave] has the signals, [SlaveLaws] what the core relies on.  The
    connected system advances by one clock for both.  [arch] is the state the
    programmer sees and [models] when the core, between two instructions,
    holds it. *)

From S2P Require Import Prelude RtlAlu RtlDecoder RtlCpu.
Import Alu Decoder.

(** ** The interface *)

(** The signals of the master: of the bus, and the two for the tags. *)
Record request := Request {
  r_adr : Z; r_dat : Z; r_sel : Z; r_we : bool; r_cyc : bool; r_stb : bool;
  r_check : bool; r_clear : bool;
}.

Class Slave (S : Type) := {
  s_clock : request -> S -> S;
  s_ack : request -> S -> bool;
  s_data : request -> S -> Z;
  s_timer_irq : S -> bool;
  s_tags_irq : S -> bool;
  s_mtimecmp : request -> bool;
}.

Definition idle (r : request) : Prop :=
  r_cyc r = false /\ r_stb r = false /\ r_we r = false /\ r_sel r = 0.
Definition active (r : request) : Prop := r_cyc r = true /\ r_stb r = true /\ r_clear r = false.
Definition valid_sel (sel : Z) : bool :=
  (sel =? SEL_BYTE) || (sel =? SEL_HALF) || (sel =? SEL_WORD) || (sel =? SEL_TAG).

(** The bus after the acknowledgement. *)
Definition release (r : request) : request :=
  Request (r_adr r) (r_dat r) 0 false false false (r_check r) (r_clear r).

Section Serves.
Context {S : Type} `{Slave S}.

(** Presented with [r] from now on, the slave acknowledges, with [d] on the
    bus, and is then in the state [s']. *)
Inductive serves (r : request) : S -> Z -> S -> Prop :=
  | serves_now s : s_ack r s = true -> serves r s (s_data r s) (s_clock r s)
  | serves_wait s d s' : s_ack r s = false -> serves r (s_clock r s) d s' -> serves r s d s'.
End Serves.

(** [settled k s m q]: no request is being served, the next one may come
    after [k] clocks; memory and devices hold [m], and [q] says whether an
    access with a wrong tag has been seen.  After a write the slave may need
    one more clock, in which the bus keeps the address. *)
Class SlaveLaws (S M : Type) `{Slave S} := {
  in_mem : Z -> bool;
  answers : M -> Z -> bool -> bool;           (* address, and whether it is a write *)
  mem_read : M -> Z -> Z -> Z;
  mem_write : M -> Z -> Z -> Z -> M;
  mem_mismatch : M -> Z -> bool;
  settled : nat -> S -> M -> bool -> Prop;
  settled_irq s m q : settled 0 s m q -> s_tags_irq s = q;
  settled_idle k s m q r :
    settled k s m q -> idle r -> (r_clear r = true -> k = 0%nat) ->
    s_ack r s = false /\ settled (pred k) (s_clock r s) m (q && negb (r_clear r));
  settled_serves s m q r :
    settled 0 s m q -> active r -> valid_sel (r_sel r) = true -> answers m (r_adr r) (r_we r) = true ->
    (r_we r = true -> u32_range (r_dat r)) ->
    s_ack r s = false /\
    exists d s', serves r (s_clock r s) d s' /\ u32_range d /\
      (in_mem (r_adr r) = true -> d = mem_read m (r_adr r) (r_sel r)) /\
      let m' := if r_we r then mem_write m (r_adr r) (r_dat r) (r_sel r) else m in
      let q' := q || in_mem (r_adr r) && r_check r && mem_mismatch m (r_adr r) in
      if r_we r then s_ack (release r) s' = false /\ settled 1 (s_clock (release r) s') m' q'
      else settled 1 s' m' q';
  answers_mem m p w : in_mem p = true -> answers m p w = true;
  mtimecmp_release r : s_mtimecmp (release r) = true -> s_mtimecmp r = true;
}.

(** ** The system *)

Definition system (S : Type) : Type := cpu * S.

Section System.
Context {S : Type} `{Slave S}.

Definition request_of (c : cpu) : request :=
  let b := bus_inst c in
  Request (ADR_O b) (DAT_O b) (SEL_O b) (WE_O b) (CYC_O b) (STB_O b) (check_tags c)
    (tags_irq_clear (csr_inst c)).

(** The core runs: no reset, not halted and not stepped from outside. *)
Definition pins_of (x : system S) : pins :=
  let '(c, s) := x in
  let r := request_of c in
  Pins false (s_ack r s) (s_data r s) (s_timer_irq s) (s_tags_irq s) (s_mtimecmp r) false false false.

Definition system_clock (x : system S) : system S :=
  (cpu_clock (pins_of x) x.1, s_clock (request_of x.1) x.2).

(** [P] holds after some clocks, before which the core does not start
    another instruction. *)
Inductive leads (P : system S -> Prop) : system S -> Prop :=
  | leads_here x : P x -> leads P x
  | leads_next x : state x.1 <> STATE_PRE_FETCH -> leads P (system_clock x) -> leads P x.

Lemma leads_mono (P Q : system S -> Prop) x : (forall y, P y -> Q y) -> leads P x -> leads Q x.
Proof. intros HPQ. induction 1; [apply leads_here; auto|by apply leads_next]. Qed.

Lemma leads_trans (P Q : system S -> Prop) x : leads P x -> (forall y, P y -> leads Q y) -> leads Q x.
Proof. intros HP HQ. induction HP; [auto|by apply leads_next]. Qed.

(** [P] is reached in a number of clocks. *)
Lemma leads_reaches P x : leads P x -> exists n, P (Nat.iter n system_clock x).
Proof.
  induction 1 as [x Hx|x Hx _ [n Hn]]; [by exists 0%nat|].
  exists (Datatypes.S n). by rewrite Nat.iter_succ_r.
Qed.
End System.

(** ** What the programmer sees *)

(** The control and status registers: the file, and the bits of them the core
    keeps in flip-flops of their own. *)
Record cregs := Cregs {
  file : Z -> Z;
  mie : bool; mtie : bool; tags_on : bool; fetch_tags_on : bool; skip_sp : bool;
}.

Record arch {M : Type} := Arch {
  x_ : Z -> Z; apc : Z; acsr : cregs; amem : M; tag_line : bool;
}.
Arguments arch : clear implicits.
Arguments Arch {M}.

Definition cregs_of (k : csr) : cregs :=
  Cregs (mem (csr0 k)) (irq_en k) (irq_timer_en k) (tags_en k) (tags_if_en k) (tags_skip_sp_en k).

(** Equality of the thirteen registers and the flags. *)
Definition same_cregs (v w : cregs) : Prop :=
  (forall i, 0 <= i < 13 -> file v i = file w i) /\
  mie v = mie w /\ mtie v = mtie w /\ tags_on v = tags_on w /\ fetch_tags_on v = fetch_tags_on w /\
  skip_sp v = skip_sp w.

#[global] Instance same_cregs_equiv : Equivalence same_cregs.
Proof.
  split.
  - intros v. by repeat split.
  - intros v w (H1 & H2 & H3 & H4 & H5 & H6). split; [intros i Hi; symmetry; by apply H1|done].
  - intros u v w (H1 & H2 & H3 & H4 & H5 & H6) (K1 & K2 & K3 & K4 & K5 & K6).
    split; [intros i Hi; rewrite H1 by done; by apply K1|]. repeat split; congruence.
Qed.

(** Between two instructions. *)
Record at_rest (c : cpu) : Prop := {
  rest_alu : busy (alu_inst c) = false;
  rest_bus : bus_busy (bus_inst c) = false;
  rest_cyc : CYC_O (bus_inst c) = false;
  rest_stb : STB_O (bus_inst c) = false;
  rest_we : WE_O (bus_inst c) = false;
  rest_sel : SEL_O (bus_inst c) = 0;
  rest_csr : csr_busy (csr_inst c) = false;
  rest_csr_we : we (csr_inst c) = false;
  rest_clear : tags_irq_clear (csr_inst c) = false;
  rest_mret : mret_state c = MRET_STATE_IDLE;
  rest_trap : trap_state c = TRAP_STATE_IDLE;
}.

Section Models.
Context {S M : Type} `{SlaveLaws S M}.

Record models (x : system S) (a : arch M) : Prop := {
  m_state : state x.1 = STATE_PRE_FETCH;
  m_rest : at_rest x.1;
  m_running : test_finished x.1 = false;
  m_pc : pc x.1 = apc a;
  m_pc_range : u32_range (apc a) /\ apc a mod 2 = 0;
  m_regs n : 0 <= n < 32 -> regfile (reg_inst x.1) n = x_ a n;
  m_x0 : x_ a 0 = 0;
  m_regs_range n : 0 <= n < 32 -> u32_range (x_ a n);
  m_csr : same_cregs (cregs_of (csr_inst x.1)) (acsr a);
  m_csr_range i : 0 <= i < 13 -> u32_range (file (acsr a) i);
  m_rnd : u32_range (rnd_data (csr_inst x.1));
  m_mem : settled 0 x.2 (amem a) (tag_line a);
}.
End Models.
