(* ===== verification/RtlSpec.v ===== *)
(** * What the core does, instruction by instruction

    The effect of an [action] on the state the programmer sees.  The value of
    an operation of the arithmetic unit is [alu_value], the one the manual
    gives for every operation but a signed remainder.  What a device returns,
    the random number register and the moment of the timer are left open, so
    the effect is a relation. *)

From S2P Require Import Prelude RvIsa RtlAlu RtlAluFacts RtlDecoder RtlDecoderFacts RtlCpu RtlSystem.
Import Alu Decoder.

(** ** Register updates *)

Section Arch.
Context {M : Type}.
Implicit Types a : arch M.

Definition set_x (rd v : Z) a : arch M :=
  if rd =? 0 then a else Arch (put rd v (x_ a)) (apc a) (acsr a) (amem a) (tag_line a).
(** The lowest bit of an instruction address is always zero. *)
Definition goto (p : Z) a : arch M := Arch (x_ a) (p - p mod 2) (acsr a) (amem a) (tag_line a).
Definition set_acsr (k : cregs) a : arch M := Arch (x_ a) (apc a) k (amem a) (tag_line a).
Definition set_amem (m : M) a : arch M := Arch (x_ a) (apc a) (acsr a) m (tag_line a).
Definition set_line (q : bool) a : arch M := Arch (x_ a) (apc a) (acsr a) (amem a) q.

Definition val a (o : operand) : Z := match o with Reg n => x_ a n | Pc => apc a | Imm v => v end.

(** ** Control and status registers *)

Definition put_csr (n v : Z) (k : cregs) : cregs := {|
  file := if csr_index n <? 13 then put (csr_index n) v (file k) else file k;
  mie := if n =? MSR_MSTATUS then Z.testbit v 3 else mie k;
  mtie := if n =? MSR_MIE then Z.testbit v 7 else mtie k;
  tags_on := if n =? MSR_MTAGS then Z.testbit v 0 else tags_on k;
  fetch_tags_on := if n =? MSR_MTAGS then Z.testbit v 2 else fetch_tags_on k;
  skip_sp := if n =? MSR_MTAGS then Z.testbit v 3 else skip_sp k;
|}.

(** Bit [n] of [x] set to [b]. *)
Definition with_bit (n : Z) (b : bool) (x : Z) : Z :=
  x - 2 ^ n * Z.b2z (Z.testbit x n) + 2 ^ n * Z.b2z b.

(** Entry: MPIE takes MIE, and MIE is cleared.  Return: MIE takes MPIE. *)
Definition entry_status (s : Z) : Z := with_bit 3 false (with_bit 7 (Z.testbit s 3) s).
Definition return_status (s : Z) : Z := with_bit 3 (Z.testbit s 7) s.

(** Enter the handler; [t] when the timer is found pending on the way. *)
Definition enter_trap (cause : Z) (t : bool) a : arch M :=
  let k := put_csr MSR_MCAUSE cause (acsr a) in
  let k := put_csr MSR_MSTATUS (entry_status (file k M_STATUS)) k in
  let k := put_csr MSR_MEPC (apc a) k in
  let k := put_csr MSR_MTVAL (apc a) k in
  let k := if t then put_csr MSR_MIP (with_bit 7 true (file k M_IP)) k else k in
  goto (file k M_TVEC) (set_acsr k a).

Definition return_trap a : arch M :=
  let k := put_csr MSR_MSTATUS (return_status (file (acsr a) M_STATUS)) (acsr a) in
  goto (file k M_EPC) (set_acsr k a).

(** The value written by a CSR instruction; bit 2 of funct3 selects the
    immediate. *)
Definition csr_operation (f3 src old : Z) : Z :=
  if f3 mod 4 =? 1 then src else if f3 mod 4 =? 2 then Z.lor src old else Z.ldiff old src.

(** Bit 1 of the tags register acknowledges the tag interrupt. *)
Definition write_csr_insn (n v : Z) a : arch M :=
  set_line (tag_line a && negb ((n =? MSR_MTAGS) && Z.testbit v 1)) (set_acsr (put_csr n v (acsr a)) a).

End Arch.

(** ** Branches, loads and stores *)

Definition taken (mask u v : Z) : bool :=
  Z.testbit mask 0 && (u =? v) || Z.testbit mask 1 && negb (u =? v) ||
  Z.testbit mask 2 && (s32 u <? s32 v) || Z.testbit mask 3 && negb (s32 u <? s32 v) ||
  Z.testbit mask 4 && (u <? v) || Z.testbit mask 5 && negb (u <? v).

Definition load_sel (f3 : Z) : Z :=
  if (f3 =? 0) || (f3 =? 4) then SEL_BYTE else if f3 =? 2 then SEL_WORD else if f3 =? 7 then SEL_TAG
  else SEL_HALF.
Definition load_value (f3 d : Z) : Z :=
  if f3 =? 0 then w32 (sgn 8 d) else if f3 =? 1 then w32 (sgn 16 d) else if f3 =? 2 then d
  else if f3 =? 7 then d mod 16 else if f3 =? 4 then w8 d else w16 d.
Definition store_sel (f3 : Z) : Z :=
  if f3 =? 0 then SEL_BYTE else if f3 =? 1 then SEL_HALF else if f3 =? 7 then SEL_TAG else SEL_WORD.

Lemma load_sel_valid f3 : valid_sel (load_sel f3) = true.
Proof. unfold load_sel. by repeat case_match. Qed.
Lemma store_sel_valid f3 : valid_sel (store_sel f3) = true.
Proof. unfold store_sel. by repeat case_match. Qed.

Section Spec.
Context {S M : Type} `{SlaveLaws S M}.
Implicit Types a : arch M.

(** Whether the tags of a data access with base register [rs1] are checked;
    [f3 = 7] are the accesses to the tags themselves. *)
Definition checks a (f3 rs1 : Z) : bool :=
  negb (f3 =? 7) && tags_on (acsr a) && negb (skip_sp (acsr a) && (rs1 =? 2)).

(** The line of the tag interrupt after an access at [p]. *)
Definition line_after a (check : bool) (p : Z) : bool :=
  tag_line a || in_mem p && check && mem_mismatch (amem a) p.

(** ** Fetching *)

Definition fetch_word (m : M) (p : Z) : Z :=
  let w := mem_read m p SEL_WORD in
  if Z.testbit p 1 then
    let lo := slice 31 16 w in
    if slice 1 0 lo =? 3 then
      cat [(16, slice 15 0 (mem_read m (w32 (p + 2)) SEL_WORD)); (16, lo)]
    else lo
  else w.

(** Whether the instruction needs a second word. *)
Definition straddles (m : M) (p : Z) : bool :=
  Z.testbit p 1 && (slice 1 0 (slice 31 16 (mem_read m p SEL_WORD)) =? 3).

Definition fetched a : arch M :=
  let f := fetch_tags_on (acsr a) in
  let a := set_line (line_after a f (apc a)) a in
  if straddles (amem a) (apc a) then set_line (line_after a f (w32 (apc a + 2))) a else a.

Definition next_pc_of (w p : Z) : Z := w32 (p + (if c_op w =? 3 then 4 else 2)).

(** The instruction lies in memory. *)
Definition fetchable a : Prop :=
  in_mem (apc a) = true /\ (straddles (amem a) (apc a) = true -> in_mem (w32 (apc a + 2)) = true).

(** ** Executing *)

Inductive executes (nx : Z) a : action -> arch M -> Prop :=
  | ex_compute rd op x y :
      executes nx a (Compute rd op x y) (goto nx (set_x rd (alu_value op (val a x) (val a y)) a))
  | ex_move rd v : executes nx a (Move rd v) (goto nx (set_x rd v a))
  | ex_nothing : executes nx a Nothing (goto nx a)
  | ex_jump rd x y :
      executes nx a (Jump rd x y) (goto (w32 (val a x + val a y)) (set_x rd nx a))
  | ex_branch mask rs1 rs2 imm :
      executes nx a (BranchIf mask rs1 rs2 imm)
        (goto (if taken mask (x_ a rs1) (x_ a rs2) then w32 (apc a + imm) else nx) a)
  | ex_load f3 rd rs1 imm d :
      let p := w32 (x_ a rs1 + imm) in
      u32_range d -> (in_mem p = true -> d = mem_read (amem a) p (load_sel f3)) ->
      executes nx a (LoadFrom f3 rd rs1 imm)
        (goto nx (set_x rd (load_value f3 d) (set_line (line_after a (checks a f3 rs1) p) a)))
  | ex_store f3 rs1 rs2 imm :
      let p := w32 (x_ a rs1 + imm) in
      let sel := store_sel f3 in
      let m := mem_write (amem a) p (x_ a rs2) sel in
      let r := Request p (x_ a rs2) sel true true true (checks a f3 rs1) false in
      let k := acsr a in
      let k := if s_mtimecmp r then put_csr MSR_MIP (with_bit 7 false (file k M_IP)) k else k in
      executes nx a (StoreTo f3 rs1 rs2 imm)
        (goto nx (set_acsr k (set_amem m (set_line (line_after a (checks a f3 rs1) p) a))))
  | ex_csr f3 rd rs1 n old old' :
      f3 mod 4 <> 0 -> u32_range old ->
      (csr_index n <> M_RND -> old = file (acsr a) (csr_index n) /\ old' = old) ->
      executes nx a (Special f3 rd rs1 n)
        (goto nx (write_csr_insn n (csr_operation f3 (if f3 <? 4 then x_ a rs1 else rs1) old')
          (set_x rd old a)))
  | ex_wfi rd rs1 : executes nx a (Special 0 rd rs1 SYSTEM_WFI) (goto nx a)
  | ex_mret rd rs1 : executes nx a (Special 0 rd rs1 SYSTEM_MRET) (return_trap a)
  | ex_trap f3 rd rs1 n t :
      f3 mod 4 = 0 -> ~ (f3 = 0 /\ (n = SYSTEM_WFI \/ n = SYSTEM_MRET)) ->
      (t = true -> mtie (acsr a) = true) ->
      executes nx a (Special f3 rd rs1 n)
        (enter_trap (if f3 =? 0 then if n =? SYSTEM_ECALL then CAUSE_ECALL
                       else if n =? SYSTEM_EBREAK then CAUSE_BREAK else CAUSE_INVALID_INSTRUCTION
                     else CAUSE_INVALID_INSTRUCTION) t a).

(** What is asked of the state: the addressed device answers, and an ECALL
    is not the one that ends a test (sp is zero). *)
Definition runs_on a (act : action) : Prop :=
  match act with
  | LoadFrom f3 _ rs1 imm => answers (amem a) (w32 (x_ a rs1 + imm)) false = true
  | StoreTo f3 rs1 _ imm => answers (amem a) (w32 (x_ a rs1 + imm)) true = true
  | Special f3 _ _ n => f3 = 0 -> n = SYSTEM_ECALL -> x_ a 2 <> 0
  | Illegal => False
  | _ => True
  end.

(** An interrupt is taken instead of the instruction: of the tags, which is
    certain, or of the timer. *)
Inductive interrupts a : arch M -> Prop :=
  | int_taken timer t :
      mie (acsr a) = true -> tag_line a || timer && mtie (acsr a) = true ->
      (t = true -> mtie (acsr a) = true) ->
      interrupts a (enter_trap (if tag_line a && tags_on (acsr a) then CAUSE_TAG_MISMATCH
                                else if timer then CAUSE_TIMER_INTERRUPT else 0) t a).

(** From one instruction to the next. *)
Definition steps a a' : Prop :=
  let w := fetch_word (amem a) (apc a) in
  let b := fetched a in
  interrupts b a' \/
  mie (acsr b) && tag_line b = false /\ executes (next_pc_of w (apc a)) b (meaning w) a'.

End Spec.
