(* ===== verification/RtlCoreFacts.v ===== *)
(** * Facts of the core

    What one clock does to its registers, and its wires as arithmetic. *)

From S2P Require Import Prelude RtlAlu RtlAluFacts RtlDecoder RtlDecoderFacts RtlCpu RtlSystem RtlSpec.
Import Alu Decoder.

(** * Steps of the core

    What one clock does to each register of the core, and to the groups of
    registers an instruction relies on: the register file and the program
    counter, the bus master, the control and status registers. *)

(** ** The registers after a clock *)

Section Fields.
Context (i : pins) (c : cpu) (Hi : RST_I i = false).

Ltac field :=
  unfold cpu_clock; destruct (csr_request_f i c) as [[[en wr] ad] da]; rewrite ?Hi; reflexivity.

Lemma clock_state : state (cpu_clock i c) = if cpu_busy i c then state c else next_state i c.
Proof. field. Qed.
Lemma clock_pc : pc (cpu_clock i c) = if update_pc c && negb (cpu_busy i c) then next_pc c else pc c.
Proof. field. Qed.
Lemma clock_pcnext :
  pcnext (cpu_clock i c) =
  if bool_decide (state c = STATE_DECODE) && negb (cpu_busy i c) then next_pcnext c else pcnext c.
Proof. field. Qed.
Lemma clock_writeback :
  writeback_from_bus (cpu_clock i c) =
  if cpu_busy i c then writeback_from_bus c else next_writeback_from_bus c.
Proof. field. Qed.
Lemma clock_branch : branch_pc_from_alu (cpu_clock i c) = next_branch_pc_from_alu c.
Proof. field. Qed.
Lemma clock_from_csr :
  next_addr_from_csr (cpu_clock i c) = if cpu_busy i c then next_addr_from_csr c else next_pc_from_csr c.
Proof. field. Qed.
Lemma clock_check :
  check_tags (cpu_clock i c) =
  match state c with STATE_PRE_FETCH | STATE_LOAD1 | STATE_STORE1 => next_check_tags c | _ => check_tags c end.
Proof. field. Qed.
Lemma clock_done :
  exec_done (cpu_clock i c) =
  match state c with STATE_PRE_FETCH | STATE_EXEC => next_exec_done c | _ => exec_done c end.
Proof. field. Qed.
Lemma clock_finished :
  test_finished (cpu_clock i c) = if test_finished c then true else next_test_finished c.
Proof. field. Qed.
Lemma clock_low : parcel_low (cpu_clock i c) = next_parcel_low c.
Proof. field. Qed.
Lemma clock_high : parcel_high (cpu_clock i c) = next_parcel_high c.
Proof. field. Qed.
Lemma clock_mret :
  mret_state (cpu_clock i c) = if csr_is_busy c then mret_state c else next_mret_state c.
Proof. field. Qed.
Lemma clock_trap :
  trap_state (cpu_clock i c) = if csr_is_busy c then trap_state c else next_trap_state i c.
Proof. field. Qed.
Lemma clock_alu :
  alu_inst (cpu_clock i c) =
  alu_clock (alu_dataS1 c) (alu_dataS2 c) (alu_op_final c) (alu_en c) false (alu_inst c).
Proof. field. Qed.
Lemma clock_bus :
  bus_inst (cpu_clock i c) =
  wb_cpu_bus_clock (bus_en c) (bus_op c) (bus_addr c) (reg_val2 c) (ACK_I i) (DAT_I i) (bus_inst c).
Proof. field. Qed.
Lemma clock_regs :
  reg_inst (cpu_clock i c) =
  registers_clock (reg_datain c) (o_rs1 (dec c)) (o_rs2 (dec c)) (o_rd (dec c)) (reg_re c) (reg_we c)
    (reg_inst c).
Proof. field. Qed.
Lemma clock_csr en wr ad da :
  csr_request_f i c = (en, wr, ad, da) -> csr_inst (cpu_clock i c) = csr_clock false en wr ad da (csr_inst c).
Proof. intros E. unfold cpu_clock. rewrite E, ?Hi. reflexivity. Qed.

End Fields.

(** ** Groups of registers *)

Definition bus_calm (b : bus) : Prop :=
  bus_busy b = false /\ CYC_O b = false /\ STB_O b = false /\ WE_O b = false /\ SEL_O b = 0.

(** The machines for traps and returns have nothing to do. *)
Definition no_trap (c : cpu) : Prop := mret_state c = MRET_STATE_IDLE /\ trap_state c = TRAP_STATE_IDLE.

Definition cregs_typed (v : cregs) : Prop := forall i, 0 <= i < 13 -> u32_range (file v i).

(** Nothing is under way in the control and status registers. *)
Record csr_calm (k : csr) (v : cregs) : Prop := {
  cc_busy : csr_busy k = false;
  cc_we : we k = false;
  cc_view : same_cregs (cregs_of k) v;
  cc_typed : cregs_typed v;
  cc_rnd : u32_range (rnd_data k);
}.

(** The register file once a write under way is done. *)
Definition due (k : csr) : cregs :=
  let n := csr_index (stored_addr k) in
  Cregs (if we k && (n <? 13) then put n (w32 (stored_data k)) (mem (csr0 k)) else mem (csr0 k))
    (irq_en k) (irq_timer_en k) (tags_en k) (tags_if_en k) (tags_skip_sp_en k).

(** An access to register [n] is under way. *)
Record csr_pending (k : csr) (n : Z) (v : cregs) : Prop := {
  cp_busy : csr_busy k = true;
  cp_addr : stored_addr k = n;
  cp_view : same_cregs (due k) v;
  cp_typed : cregs_typed v;
  cp_rnd : u32_range (rnd_data k);
}.

(** Register [n] is at the output. *)
Definition selected (k : csr) (n : Z) : Prop :=
  stored_addr k = n /\ data_o (csr0 k) = mem (csr0 k) (csr_index n).

Lemma lfsr_range x : u32_range (lfsr_rnd_clock false x).
Proof.
  unfold lfsr_rnd_clock. rewrite cat_two. unfold u32_range.
  pose proof (wrap_range 31 (Z.lxor (slice 30 0 x) (slice 31 1 (if Z.testbit x 31 then 0x80200003 else 0))) ltac:(lia)).
  pose proof (wrap_range 1 (slice 31 31 x) ltac:(lia)). lia.
Qed.

Lemma csr_index_range n : 0 <= csr_index n <= 13.
Proof. unfold csr_index. repeat case_match; lia. Qed.

(** *** Clocks of the control and status registers *)

(** No request. *)
Lemma calm_idle k v : csr_calm k v -> csr_calm (csr_clock false false false 0 0 k) v.
Proof.
  intros [Hb Hw Hv Ht Hr]. split; [cbn; by rewrite Hb|cbn; by rewrite Hb, Hw| |done|apply lfsr_range].
  unfold cregs_of, csr_clock. cbn. by rewrite Hw.
Qed.

Lemma idle_clear k : tags_irq_clear (csr_clock false false false 0 0 k) = false.
Proof. done. Qed.

Lemma selected_idle k v n : csr_calm k v -> selected k n -> selected (csr_clock false false false 0 0 k) n.
Proof. intros [Hb Hw _ _ _] [Ha Hd]. split; cbn; [done|]. by rewrite Hw, Ha. Qed.

Lemma same_put v w n d : same_cregs v w -> same_cregs (put_csr n d v) (put_csr n d w).
Proof.
  intros (H1 & H2 & H3 & H4 & H5 & H6). split; [|cbn; repeat split; by repeat case_match].
  intros i Hi. cbn. case_match; [|by apply H1]. unfold put. case_match; [done|by apply H1].
Qed.

Lemma typed_put v n d : cregs_typed v -> u32_range d -> cregs_typed (put_csr n d v).
Proof.
  intros Hv Hd i Hi. cbn. case_match; [|by apply Hv]. unfold put. case_match; [done|by apply Hv].
Qed.

(** A request. *)
Lemma calm_request k v wr n d :
  csr_calm k v -> u32_range d ->
  csr_pending (csr_clock false true wr n d k) n (if wr then put_csr n d v else v).
Proof.
  intros [Hb Hw Hv Ht Hr] Hd. split; [cbn; by rewrite Hb|done| | |apply lfsr_range].
  - transitivity (if wr then put_csr n d (cregs_of k) else cregs_of k).
    + unfold due, csr_clock. cbn. rewrite Hb, Hw. cbn. rewrite wrap_small by done. by destruct wr.
    + destruct wr; [by apply same_put|done].
  - destruct wr; [by apply typed_put|done].
Qed.

Lemma request_clear k wr n d :
  tags_irq_clear (csr_clock false true wr n d k) = (n =? MSR_MTAGS) && Z.testbit d 1.
Proof. cbn. by destruct (n =? MSR_MTAGS). Qed.

(** The end of an access, without and with the next request waiting. *)
Lemma due_mem k : mem (generic_ram_clock 13 32 (we k) (stored_data k) (csr_index (stored_addr k))
    (csr_index (stored_addr k)) (csr0 k)) = file (due k).
Proof. done. Qed.

Lemma pending_idle k n v :
  csr_pending k n v ->
  let k' := csr_clock false false false 0 0 k in
  csr_calm k' v /\ (we k = false -> selected k' n).
Proof.
  intros [Hb Ha Hv Ht Hr]. split.
  - split; [cbn; by rewrite Hb|cbn; by rewrite Hb|exact Hv|done|apply lfsr_range].
  - intros Hw. split; [exact Ha|]. cbn. by rewrite Hw, Ha.
Qed.

(** Requests of the machines for traps and returns. *)
Definition trap_register (m : Z) : Prop :=
  m = MSR_MSTATUS \/ m = MSR_MEPC \/ m = MSR_MTVAL \/ m = MSR_MIP \/ m = MSR_MTVEC.

(** The next request is seen while the access ends, and taken one clock
    later, possibly with other data. *)
Lemma pending_turn k n v wr m d1 d2 :
  csr_pending k n v -> trap_register m -> u32_range d2 ->
  let k1 := csr_clock false true wr m d1 k in
  csr_busy k1 = false /\ tags_irq_clear k1 = false /\
  (we k = false -> csr_index n <> M_RND -> csr_data_o k1 = file v (csr_index n)) /\
  csr_pending (csr_clock false true wr m d2 k1) m (if wr then put_csr m d2 v else v).
Proof.
  intros [Hb Ha Hv Ht Hr] Hm Hd k1.
  assert (Hr1 : csr_index m <> M_RND) by (destruct Hm as [->|[->|[->|[->| ->]]]]; done).
  assert (Hn : (m =? MSR_MTAGS) = false /\ (m =? MSR_MIE) = false)
    by (destruct Hm as [->|[->|[->|[->| ->]]]]; done).
  assert (Hb1 : csr_busy k1 = false) by (unfold k1; cbn; by rewrite Hb).
  assert (Hw1 : we k1 = false) by (unfold k1; cbn; by rewrite Hb).
  split_and!; [done|unfold k1; cbn; by rewrite (proj1 Hn)| |].
  - intros Hw Hn13. unfold csr_data_o. change (stored_addr k1) with m.
    replace (csr_index m =? M_RND) with false by lia. cbn. rewrite Ha.
    destruct Hv as (<- & _); [|pose proof (csr_index_range n); lia]. cbn. by rewrite Hw.
  - split; [cbn [csr_busy csr_clock]; by rewrite Hb1|done| |by destruct wr; [apply typed_put|]|apply lfsr_range].
    transitivity (if wr then put_csr m d2 (due k) else due k); [|destruct wr; [by apply same_put|done]].
    unfold due at 1. unfold csr_clock at 1 2 3 4 5 6 7 8. rewrite Hb1, Hw1.
    cbn [we stored_addr stored_data csr0 irq_en irq_timer_en tags_en tags_if_en tags_skip_sp_en negb andb
      generic_ram_clock mem]. change (mem (csr0 k1)) with (file (due k)).
    rewrite wrap_small by done. unfold k1. cbn. destruct Hn as [Hn1 Hn2]. rewrite Hn1, Hn2.
    destruct wr; cbn [andb]; [|done]. unfold put_csr. rewrite Hn1, Hn2. 
    split; [|cbn; by destruct (m =? MSR_MSTATUS)]. done.
Qed.

(** ** The register file and the program counter *)

Lemma slice_range hi lo x : lo <= hi + 1 -> 0 <= slice hi lo x < 2 ^ (hi - lo + 1).
Proof. intros. apply wrap_range. lia. Qed.

Lemma control_regs w :
  0 <= o_rs1 (control w) < 32 /\ 0 <= o_rs2 (control w) < 32 /\ 0 <= o_rd (control w) < 32.
Proof.
  pose proof (slice_range 19 15 w ltac:(lia)). pose proof (slice_range 24 20 w ltac:(lia)).
  pose proof (slice_range 11 7 w ltac:(lia)). pose proof (slice_range 6 2 w ltac:(lia)).
  assert (Hc : forall lo, 0 <= c_reg w lo < 32).
  { intros lo. unfold c_reg. rewrite cat_two. pose proof (wrap_range 3 (slice (lo + 2) lo w) ltac:(lia)).
    change (wrap 2 1) with 1. lia. }
  pose proof (Hc 7). pose proof (Hc 2). clear Hc. simpl Z.sub in *. simpl Z.add in *.
  unfold control, control32, control_c0, control_c1, control_c2.
  repeat case_match;
    cbn [o_rs1 o_rs2 o_rd set_regs set_rs1 set_rs2 set_rd set_alu set_stage wb_alu wb_imm jump ctrl_default]; lia.
Qed.

Definition set_pc {M} (p : Z) (a : arch M) : arch M := Arch (x_ a) p (acsr a) (amem a) (tag_line a).

Record regs_hold {M} (c : cpu) (a : arch M) : Prop := {
  h_running : test_finished c = false;
  h_pc : pc c = apc a;
  h_pc_range : u32_range (apc a) /\ apc a mod 2 = 0;
  h_regs n : 0 <= n < 32 -> regfile (reg_inst c) n = x_ a n;
  h_x0 : x_ a 0 = 0;
  h_range n : 0 <= n < 32 -> u32_range (x_ a n);
}.

(** The effect of a clock on them. *)
Definition moved {M} (i : pins) (c : cpu) (a : arch M) : arch M :=
  let a := if reg_we c then set_x (o_rd (dec c)) (reg_datain c) a else a in
  if update_pc c && negb (cpu_busy i c) then set_pc (next_pc c) a else a.

Lemma regs_set {M} (c : cpu) (a : arch M) rd v :
  regs_hold c a -> 0 <= rd < 32 -> u32_range v ->
  forall n, 0 <= n < 32 ->
  (if negb (rd =? 0) then put rd v (regfile (reg_inst c)) else regfile (reg_inst c)) n = x_ (set_x rd v a) n /\
  u32_range (x_ (set_x rd v a) n).
Proof.
  intros [_ _ _ Hr _ Hg] Hrd Hv n Hn. unfold set_x, put. destruct (Z.eqb_spec rd 0); cbn [negb x_].
  - split; [by apply Hr|by apply Hg].
  - case_match; [done|]. split; [by apply Hr|by apply Hg].
Qed.

Lemma even_mask p : u32_range p -> Z.land p (w32 (Z.lnot 1)) = p - p mod 2.
Proof.
  intros Hp. apply Z.bits_inj'. intros n Hn.
  replace (p - p mod 2) with (Z.shiftl (Z.shiftr p 1) 1)
    by (rewrite Z.shiftl_mul_pow2, shiftr_div by lia; change (2 ^ 1) with 2; zlia).
  rewrite Z.land_spec, Z.shiftl_spec by done. destruct (Z.eq_dec n 0) as [->|].
  - change (Z.testbit (w32 (Z.lnot 1)) 0) with false. by rewrite andb_false_r.
  - rewrite Z.shiftr_spec by lia. replace (n - 1 + 1) with n by lia.
    destruct (Z.lt_ge_cases n 32).
    + unfold wrap. rewrite Z.mod_pow2_bits_low, Z.lnot_spec by lia.
      replace (Z.testbit 1 n) with false by (symmetry; apply Z.bits_above_log2; simpl; lia). by rewrite andb_true_r.
    + rewrite testbit_above with (n := 32) by (try done; lia). done.
Qed.

(** The address the core goes on at. *)
Definition target (c : cpu) : Z :=
  if next_addr_from_csr c then csr_data_out c
  else if exec_next_pc_from_alu (dec c) || branch_pc_from_alu c then alu_dataout c
  else pcnext c.

Lemma next_pc_even c :
  state c = STATE_UPDATE_PC -> u32_range (target c) -> next_pc c = target c - target c mod 2.
Proof.
  intros Hs Ht. unfold next_pc, next_pc_from_csr, target in *. rewrite Hs. cbn [orb].
  repeat case_match; by rewrite even_mask.
Qed.

Lemma aligned c : state c = STATE_UPDATE_PC -> u32_range (target c) -> addr_misaligned c = false.
Proof.
  intros Hs Ht. unfold addr_misaligned. rewrite next_pc_even by done. rewrite Z.bit0_odd, Zodd_mod.
  replace ((target c - target c mod 2) mod 2) with 0 by zlia. done.
Qed.

(** * Wires of the core as arithmetic

    The concatenations of bits that the core makes of the bus and of the
    control and status registers. *)

Lemma bit_div x n : 0 <= n -> Z.b2z (Z.testbit x n) = x / 2 ^ n mod 2.
Proof. intros Hn. by rewrite Z.testbit_spec' by done. Qed.

Lemma slice_bit n x : 0 <= n -> slice n n x = Z.b2z (Z.testbit x n).
Proof. intros Hn. rewrite bit_div, slice_eq by lia. by replace (n - n + 1) with 1 by lia. Qed.

Lemma bits_range x : 0 <= x -> (forall n, 32 <= n -> Z.testbit x n = false) -> u32_range x.
Proof.
  intros Hx Hb. split; [done|]. destruct (Z.eq_dec x 0) as [->|]; [done|].
  apply Z.log2_lt_pow2; [lia|]. destruct (Z.lt_ge_cases (Z.log2 x) 32) as [|Hl]; [done|].
  pose proof (Hb _ Hl) as Hf. rewrite Z.bit_log2 in Hf by lia. done.
Qed.

Lemma u32_above x n : u32_range x -> 32 <= n -> Z.testbit x n = false.
Proof. intros Hx Hn. apply testbit_above with 32; [exact Hx|lia]. Qed.

Lemma bitwise_range a b :
  u32_range a -> u32_range b ->
  u32_range (Z.land a b) /\ u32_range (Z.lor a b) /\ u32_range (Z.lxor a b) /\ u32_range (Z.ldiff a b).
Proof.
  intros Ha Hb. pose proof Ha as [Ha0 _]. pose proof Hb as [Hb0 _].
  split_and!; (apply bits_range; [rewrite ?Z.land_nonneg, ?Z.lor_nonneg, ?Z.lxor_nonneg, ?Z.ldiff_nonneg; lia|]);
    intros n Hn; rewrite ?Z.land_spec, ?Z.lor_spec, ?Z.lxor_spec, ?Z.ldiff_spec, !u32_above; done.
Qed.

Lemma with_bit_eq n b x : 0 <= n -> with_bit n b x = if b then Z.setbit x n else Z.clearbit x n.
Proof.
  intros Hn. unfold with_bit. destruct b; cbn [Z.b2z].
  - rewrite Z.setbit_spec'. destruct (Z.testbit x n) eqn:E; cbn [Z.b2z].
    + replace (Z.lor x (2 ^ n)) with x; [lia|]. apply Z.bits_inj'. intros k Hk.
      rewrite Z.lor_spec, Z.pow2_bits_eqb by lia. destruct (Z.eqb_spec n k) as [<-|]; [by rewrite E|by rewrite orb_false_r].
    + assert (Hd : Z.land x (2 ^ n) = 0).
      { apply Z.bits_inj'. intros k Hk. rewrite Z.land_spec, Z.pow2_bits_eqb, Z.bits_0 by lia.
        destruct (Z.eqb_spec n k) as [<-|]; [by rewrite E|by rewrite andb_false_r]. }
      rewrite <- Z.lxor_lor, <- Z.add_nocarry_lxor by done. lia.
  - rewrite Z.clearbit_spec'. destruct (Z.testbit x n) eqn:E; cbn [Z.b2z].
    + rewrite <- Z.sub_nocarry_ldiff; [lia|]. apply Z.bits_inj'. intros k Hk.
      rewrite Z.ldiff_spec, Z.pow2_bits_eqb, Z.bits_0 by lia.
      destruct (Z.eqb_spec n k) as [<-|]; [by rewrite E|done].
    + replace (Z.ldiff x (2 ^ n)) with x; [lia|]. apply Z.bits_inj'. intros k Hk.
      rewrite Z.ldiff_spec, Z.pow2_bits_eqb by lia. destruct (Z.eqb_spec n k) as [<-|]; [by rewrite E|by rewrite andb_true_r].
Qed.

Lemma with_bit_bits n b x m : 0 <= n -> 0 <= m -> Z.testbit (with_bit n b x) m = if m =? n then b else Z.testbit x m.
Proof.
  intros Hn Hm. rewrite with_bit_eq by done. destruct b.
  - rewrite Z.setbit_eqb by done. rewrite (Z.eqb_sym m n). by destruct (n =? m).
  - rewrite Z.clearbit_eqb by done. rewrite (Z.eqb_sym m n).
    destruct (n =? m); [by rewrite andb_false_r|by rewrite andb_true_r].
Qed.

Lemma with_bit_range n b x : u32_range x -> 0 <= n < 32 -> u32_range (with_bit n b x).
Proof.
  intros Hx Hn. apply bits_range.
  - rewrite with_bit_eq by lia. pose proof Hx as [Hx0 _]. destruct b.
    + rewrite Z.setbit_spec', Z.lor_nonneg. split; [done|]. apply Z.pow_nonneg. lia.
    + rewrite Z.clearbit_spec', Z.ldiff_nonneg. by left.
  - intros m Hm. rewrite with_bit_bits by lia. replace (m =? n) with false by lia. by apply u32_above.
Qed.

Lemma with_bit_idem n b x : 0 <= n -> with_bit n b (with_bit n b x) = with_bit n b x.
Proof.
  intros Hn. apply Z.bits_inj'. intros m Hm. rewrite !with_bit_bits by done. by case_match.
Qed.

(** ** Status and pending registers *)

Lemma mip_wires b d :
  u32_range d -> cat [(24, slice 31 8 d); (1, Z.b2z b); (7, slice 6 0 d)] = with_bit 7 b d.
Proof.
  intros Hd. unfold cat, with_bit, u32_range in *. cbn [fold_left]. rewrite bit_div, !slice_eq by lia.
  unfold wrap. simpl Z.sub. simpl Z.add. change (2 ^ 0) with 1. destruct b; cbn [Z.b2z]; zlia.
Qed.

Lemma entry_wires d :
  u32_range d ->
  cat [(24, slice 31 8 d); (1, slice 3 3 d); (3, slice 6 4 d); (1, 0); (3, slice 2 0 d)] = entry_status d.
Proof.
  intros Hd. unfold entry_status.
  assert (E : forall x, with_bit 3 false x = x - 2 ^ 3 * (x / 2 ^ 3 mod 2)).
  { intros x. unfold with_bit. rewrite bit_div by lia. cbn [Z.b2z]. lia. }
  rewrite E. unfold cat, with_bit, u32_range in *. cbn [fold_left]. rewrite !bit_div, !slice_eq by lia.
  unfold wrap. simpl Z.sub. simpl Z.add. change (2 ^ 0) with 1. zlia.
Qed.

Lemma return_wires d :
  u32_range d -> cat [(28, slice 31 4 d); (1, slice 7 7 d); (3, slice 2 0 d)] = return_status d.
Proof.
  intros Hd. unfold return_status, cat, with_bit, u32_range in *. cbn [fold_left].
  rewrite !bit_div, !slice_eq by lia. unfold wrap. simpl Z.sub. simpl Z.add. change (2 ^ 0) with 1. zlia.
Qed.

Lemma status_range d : u32_range d -> u32_range (entry_status d) /\ u32_range (return_status d).
Proof. intros Hd. unfold entry_status, return_status. split; repeat (apply with_bit_range; [|lia]); done. Qed.

(** ** Loads *)

Definition load_op (f3 : Z) : Z :=
  if f3 =? FUNC_LB then BUSOP_READB
  else if f3 =? FUNC_LH then BUSOP_READH
  else if f3 =? 2 then BUSOP_READW
  else if f3 =? FUNC_LBU then BUSOP_READBU
  else if f3 =? FUNC_LT then BUSOP_READT
  else BUSOP_READHU.

Lemma sign_wires n d :
  0 < n < 32 -> cat [(32 - n, if Z.testbit d (n - 1) then Z.ones (32 - n) else 0); (n, slice (n - 1) 0 d)] = w32 (sgn n d).
Proof.
  intros Hn. rewrite cat_two, slice_eq by lia. change (2 ^ 0) with 1. rewrite Z.div_1_r.
  replace (n - 1 - 0 + 1) with n by lia. unfold wrap at 2. rewrite Z.mod_mod by lia.
  pose proof (Z.pow_pos_nonneg 2 (n - 1) ltac:(lia) ltac:(lia)) as Hp.
  assert (E : 2 ^ n = 2 * 2 ^ (n - 1)) by (rewrite <- Z.pow_succ_r by lia; f_equal; lia).
  assert (E32 : 2 ^ 32 = 2 ^ n * 2 ^ (32 - n)) by (rewrite <- Z.pow_add_r by lia; f_equal; lia).
  pose proof (Z.pow_pos_nonneg 2 (32 - n) ltac:(lia) ltac:(lia)) as Hp'.
  pose proof (Z.mod_pos_bound d (2 ^ n) ltac:(lia)) as Hr.
  assert (Hbit : Z.testbit d (n - 1) = (2 ^ (n - 1) <=? d mod 2 ^ n)).
  { rewrite <- (Z.mod_pow2_bits_low d n) by lia. apply top_bit; [lia|]. by replace (n - 1 + 1) with n by lia. }
  rewrite Hbit. unfold sgn, wrap. 
  destruct (Z.leb_spec (2 ^ (n - 1)) (d mod 2 ^ n)), (Z.ltb_spec (d mod 2 ^ n) (2 ^ (n - 1))); try lia.
  - rewrite Z.ones_equiv, Z.mod_small by lia. apply Z.mod_unique with (-1); nia.
  - rewrite Z.mod_0_l, (Z.mod_small (d mod 2 ^ n)) by nia. lia.
Qed.

Lemma load_wires f3 d :
  u32_range d -> data_from_bus (load_op f3) (mem_sel (load_op f3)) d = load_value f3 d.
Proof.
  intros Hd. unfold load_op, load_value, data_from_bus.
  destruct (Z.eqb_spec f3 0) as [->|H0].
  { cbn [Z.eqb Pos.eqb mem_sel orb signextend negb]. rewrite andb_true_r. exact (sign_wires 8 d ltac:(lia)). }
  destruct (Z.eqb_spec f3 1) as [->|H1].
  { cbn [Z.eqb Pos.eqb mem_sel orb signextend negb]. rewrite andb_true_r. exact (sign_wires 16 d ltac:(lia)). }
  destruct (Z.eqb_spec f3 2) as [->|H2]; [done|].
  assert (Hz : forall n h, 0 <= n -> 0 <= h -> cat [(h, 0); (n, slice (n - 1) 0 d)] = d mod 2 ^ n).
  { intros n h Hn Hh. rewrite cat_two, slice_eq by lia. change (2 ^ 0) with 1. rewrite Z.div_1_r.
    replace (n - 1 - 0 + 1) with n by lia. pose proof (Z.pow_pos_nonneg 2 n ltac:(lia) Hn).
    unfold wrap. rewrite Z.mod_mod, Z.mod_0_l by (try apply Z.pow_nonzero; lia). lia. }
  destruct (Z.eqb_spec f3 4) as [->|H4]; [|destruct (Z.eqb_spec f3 7) as [->|H7]].
  - cbn [Z.eqb Pos.eqb mem_sel orb signextend negb]. rewrite andb_false_r.
    exact (Hz 8 24 ltac:(lia) ltac:(lia)).
  - exact (Hz 4 28 ltac:(lia) ltac:(lia)).
  - cbn [Z.eqb Pos.eqb mem_sel orb signextend negb]. rewrite andb_false_r.
    exact (Hz 16 16 ltac:(lia) ltac:(lia)).
Qed.

Lemma load_sel_eq f3 : mem_sel (load_op f3) = load_sel f3.
Proof. unfold load_op, load_sel. repeat case_match; try done; lia. Qed.

Lemma load_value_range f3 d : u32_range d -> u32_range (load_value f3 d).
Proof.
  intros Hd. unfold load_value. repeat case_match; try done; try (apply (wrap_range 32); lia);
    unfold u32_range; [zlia|..]; unfold wrap; zlia.
Qed.
