(* ===== verification/RtlFetch.v ===== *)
(** * Clocks of the connected system, and fetching an instruction

    Quiet and waiting clocks, and the stages up to DECODE. *)

From S2P Require Import Prelude RtlAlu RtlAluFacts RtlDecoder RtlDecoderFacts RtlCpu RtlSystem RtlSpec.
From S2P Require Import RtlCoreFacts.
Import Alu Decoder.

(** * Steps of the connected system

    A clock in which the core asks for nothing, waiting for the bus and
    waiting for the arithmetic unit, for any slave that keeps the laws. *)

(** Signals that depend on the state alone. *)
Ltac by_state Hs :=
  unfold bus_en, reg_we, update_pc, alu_en, next_test_finished, mret_occured, trap_occured, next_exec_done,
    next_pc_from_csr, next_branch_pc_from_alu, next_writeback_from_bus, cpu_request; rewrite Hs; done.

Section Steps.
Context {S M : Type} `{SlaveLaws S M}.
Implicit Types (y : system S) (a : arch M).

(** The core holds [a], and nothing is under way in the control and status
    registers. *)
Record core_calm (c : cpu) a : Prop := {
  co_regs : regs_hold c a;
  co_trap : no_trap c;
  co_csr : csr_calm (csr_inst c) (acsr a);
  co_clear : tags_irq_clear (csr_inst c) = false;
}.

(** Nor on the bus. *)
Record carries y a (n : nat) : Prop := {
  cy_core : core_calm y.1 a;
  cy_bus : bus_calm (bus_inst y.1);
  cy_mem : settled n y.2 (amem a) (tag_line a);
}.

Lemma calm_request_idle c : bus_calm (bus_inst c) -> idle (request_of c).
Proof. by intros (? & ? & ? & ? & ?). Qed.

Lemma calm_ack y a n : carries y a n -> ACK_I (pins_of y) = false.
Proof.
  destruct y as [c s]. intros [[_ _ _ Hc] Hb Hm]. apply calm_request_idle in Hb.
  apply (settled_idle n s _ _ _ Hm Hb). cbn in *. by rewrite Hc.
Qed.

Lemma carries_idle y a n : carries y a n -> settled (pred n) (system_clock y).2 (amem a) (tag_line a).
Proof.
  intros [[_ _ _ Hc] Hb Hm]. apply calm_request_idle in Hb.
  destruct (settled_idle n y.2 _ _ (request_of y.1) Hm Hb) as [_ Hs]; [cbn; by rewrite Hc|].
  cbn in Hs. rewrite Hc in Hs. by rewrite andb_true_r in Hs.
Qed.

Lemma pins_reset y : RST_I (pins_of y) = false.
Proof. by destruct y. Qed.
Lemma pins_halt y : external_halt_i (pins_of y) = false.
Proof. by destruct y. Qed.
Lemma pins_step y : external_singlestep_i (pins_of y) = false.
Proof. by destruct y. Qed.

(** Only the arithmetic unit keeps the core waiting. *)
Lemma calm_busy y a n : carries y a n -> cpu_busy (pins_of y) y.1 = busy (alu_inst y.1).
Proof.
  intros [[_ [Hm Ht] Hk _] (Hb & _) _]. unfold cpu_busy, alu_busy, csr_is_busy, handling_trap, handling_mret.
  rewrite Hb, (cc_busy _ _ Hk), Hm, Ht, pins_halt. by rewrite !orb_false_r.
Qed.

(** ** A clock without requests *)

(** Nothing is asked of the control and status registers. *)
Definition plain (i : pins) (c : cpu) : Prop :=
  cpu_request i c = no_request /\ trap_occured i c = false /\ mret_occured c = false /\
  next_test_finished c = false.

Lemma bus_hold op p d dat b : wb_cpu_bus_clock false op p d false dat b = b.
Proof. by destruct b. Qed.

Lemma calm_request_f i c : no_trap c -> csr_request_f i c = cpu_request i c.
Proof. intros [Hm Ht]. unfold csr_request_f, handling_trap, handling_mret. by rewrite Hm, Ht. Qed.

Lemma regs_step i c a :
  RST_I i = false -> regs_hold c a -> next_test_finished c = false ->
  (reg_we c = true -> u32_range (reg_datain c)) ->
  (update_pc c = true -> cpu_busy i c = false -> u32_range (next_pc c) /\ next_pc c mod 2 = 0) ->
  regs_hold (cpu_clock i c) (moved i c a).
Proof.
  intros Hi Hr Hn Hd Hp. pose proof (control_regs (parcels c)) as (_ & _ & Hrd).
  assert (Hx : forall n, 0 <= n < 32 ->
    regfile (reg_inst (cpu_clock i c)) n = x_ (moved i c a) n /\ u32_range (x_ (moved i c a) n)).
  { intros n Hn'. rewrite clock_regs by done. cbn [regfile registers_clock]. unfold moved.
    assert (Hx : forall (b : arch M) t p, x_ (if t : bool then set_pc p b else b) = x_ b) by (by intros ? [] ?).
    rewrite Hx. destruct (reg_we c); cbn [andb].
    - apply regs_set; auto.
    - split; [by apply Hr|by apply Hr]. }
  assert (Hpc : apc (if reg_we c then set_x (o_rd (dec c)) (reg_datain c) a else a) = apc a).
  { case_match; [|done]. unfold set_x. by case_match. }
  split.
  - rewrite clock_finished by done. by rewrite (h_running _ _ Hr), Hn.
  - rewrite clock_pc by done. unfold moved. destruct (update_pc c && _); [done|]. rewrite Hpc. apply Hr.
  - unfold moved. destruct (update_pc c && _) eqn:Eu; [|rewrite Hpc; apply Hr].
    apply andb_true_iff in Eu as [Eu Eb]. apply negb_true_iff in Eb. by apply Hp.
  - intros n Hn'. by apply Hx.
  - destruct (Hx 0 ltac:(lia)) as [<- _]. rewrite clock_regs by done. cbn [regfile registers_clock].
    destruct (Z.eqb_spec (o_rd (dec c)) 0) as [E|E]; cbn [negb].
    + rewrite andb_false_r. rewrite (h_regs _ _ Hr) by lia. apply Hr.
    + rewrite andb_true_r. case_match; [unfold put; replace (0 =? o_rd (dec c)) with false by lia|];
        (rewrite (h_regs _ _ Hr) by lia; apply Hr).
  - intros n Hn'. by apply Hx.
Qed.

Lemma moved_rest i c a :
  acsr (moved i c a) = acsr a /\ amem (moved i c a) = amem a /\ tag_line (moved i c a) = tag_line a.
Proof. unfold moved, set_x. by repeat case_match. Qed.

Lemma moved_same i c a : reg_we c = false -> update_pc c = false -> moved i c a = a.
Proof. intros Hw Hu. unfold moved. by rewrite Hw, Hu. Qed.

Lemma core_calm_line c a q : core_calm c a -> core_calm c (set_line q a).
Proof. intros [[] ? ? ?]. done. Qed.
Lemma core_calm_mem c a m : core_calm c a -> core_calm c (set_amem m a).
Proof. intros [[] ? ? ?]. done. Qed.

Lemma no_trap_step i c :
  RST_I i = false -> no_trap c -> trap_occured i c = false -> mret_occured c = false ->
  no_trap (cpu_clock i c).
Proof.
  intros Hi [Hm1 Ht1] Ht Hm. split.
  - rewrite clock_mret by done. unfold next_mret_state. rewrite Hm1, Hm. by case_match.
  - rewrite clock_trap by done. unfold next_trap_state. rewrite Ht1, Ht. by case_match.
Qed.

Lemma core_calm_step i c a :
  RST_I i = false -> core_calm c a -> plain i c ->
  (reg_we c = true -> u32_range (reg_datain c)) ->
  (update_pc c = true -> u32_range (next_pc c) /\ next_pc c mod 2 = 0) ->
  core_calm (cpu_clock i c) (moved i c a).
Proof.
  intros Hi [Hr Hnt Hk Hcl] (Hrq & Ht & Hm & Hn) Hd Hp.
  destruct (moved_rest i c a) as (E1 & _ & _).
  assert (Hcsr : csr_inst (cpu_clock i c) = csr_clock false false false 0 0 (csr_inst c))
    by (apply clock_csr; [done|by rewrite calm_request_f]).
  split; [by apply regs_step; auto|by apply no_trap_step| |by rewrite Hcsr].
  rewrite Hcsr, E1. by apply calm_idle.
Qed.

Lemma carries_step y a n :
  carries y a n -> plain (pins_of y) y.1 -> bus_en y.1 = false ->
  (reg_we y.1 = true -> u32_range (reg_datain y.1)) ->
  (update_pc y.1 = true -> u32_range (next_pc y.1) /\ next_pc y.1 mod 2 = 0) ->
  carries (system_clock y) (moved (pins_of y) y.1 a) (pred n).
Proof.
  intros Hc Hpl Hbe Hd Hp. pose proof (calm_ack _ _ _ Hc) as Hack. pose proof (carries_idle _ _ _ Hc) as Hs.
  pose proof (pins_reset y) as Hi. destruct (moved_rest (pins_of y) y.1 a) as (E1 & E2 & E3).
  destruct Hc as [Hc Hb _]. split.
  - by apply core_calm_step.
  - cbn [system_clock fst]. rewrite clock_bus by done. by rewrite Hbe, Hack, bus_hold.
  - by rewrite E2, E3.
Qed.

(** In a state that writes no register. *)
Lemma carries_stay y a n :
  carries y a n -> plain (pins_of y) y.1 -> bus_en y.1 = false ->
  reg_we y.1 = false -> update_pc y.1 = false -> carries (system_clock y) a (pred n).
Proof.
  intros Hc Hpl Hbe Hw Hu. rewrite <- (moved_same (pins_of y) y.1 a) by done.
  apply carries_step; try done; by rewrite ?Hw, ?Hu.
Qed.

(** ** Waiting for the bus *)

Definition waits (st : cpu_state) : Prop :=
  st = STATE_FETCH \/ st = STATE_FETCH_MORE \/ st = STATE_LOAD2 \/ st = STATE_STORE2.

(** A request is on the bus. *)
Definition requesting (c : cpu) (op : Z) (r : request) : Prop :=
  bus_busy (bus_inst c) = true /\ bus_op_r (bus_inst c) = op /\ request_of c = r.

Lemma bus_busy_busy i c : bus_busy (bus_inst c) = true -> cpu_busy i c = true.
Proof. intros E. unfold cpu_busy. rewrite E. by rewrite orb_true_r. Qed.

(** A clock without an acknowledgement. *)
Lemma request_stays (st : cpu_state) op r c s :
  waits st -> state c = st -> requesting c op r -> s_ack r s = false ->
  let c' := cpu_clock (pins_of (c, s)) c in
  tags_irq_clear (csr_inst c') = r_clear r -> requesting c' op r /\ state c' = st.
Proof.
  intros Hst Hc (Hb & Ho & Hq) Hack c' Hcl.
  assert (Hen : bus_en c = false) by (unfold bus_en; rewrite Hc; by destruct Hst as [->|[->|[->| ->]]]).
  assert (Ea : ACK_I (pins_of (c, s)) = false) by (cbn; by rewrite Hq).
  assert (Hbus : bus_inst c' = bus_inst c) by (unfold c'; rewrite clock_bus by done; by rewrite Hen, Ea, bus_hold).
  split.
  - unfold requesting. rewrite Hbus. split_and!; [done|done|]. unfold request_of. rewrite Hbus, Hcl.
    unfold c'. rewrite clock_check by done. rewrite Hc, <- Hq. by destruct Hst as [->|[->|[->| ->]]].
  - unfold c'. rewrite clock_state by done. by rewrite bus_busy_busy.
Qed.

(** [J] holds before and [K] after each clock. *)
Lemma wait_bus (st : cpu_state) (J K : cpu -> Prop) op r d c s s' :
  waits st -> (forall c, K c -> J c) ->
  (forall c, K c -> tags_irq_clear (csr_inst c) = r_clear r) ->
  (forall c s, state c = st -> requesting c op r -> J c -> K (cpu_clock (pins_of (c, s)) c)) ->
  serves r s d s' -> state c = st -> requesting c op r -> J c ->
  leads (fun y => state y.1 = st /\ bus_calm (bus_inst y.1) /\
    buffer (bus_inst y.1) = data_from_bus op (r_sel r) d /\ request_of y.1 = release r /\ y.2 = s' /\ K y.1) (c, s).
Proof.
  intros Hst HKJ Hclear HJ Hs. revert c.
  assert (Hen : forall c, state c = st -> bus_en c = false).
  { intros c E. unfold bus_en. rewrite E. by destruct Hst as [->|[->|[->| ->]]]. }
  assert (Hck : forall c s, state c = st -> check_tags (cpu_clock (pins_of (c, s)) c) = check_tags c).
  { intros c s0 E. rewrite clock_check by done. rewrite E. by destruct Hst as [->|[->|[->| ->]]]. }
  induction Hs as [s Hack|s d s' Hack Hs IH]; intros c Hc Hr Hj;
    (apply leads_next; [cbn; rewrite Hc; by destruct Hst as [->|[->|[->| ->]]]|]);
    pose proof Hr as (Hb & Ho & Hq);
    assert (Hst' : state (cpu_clock (pins_of (c, s)) c) = st)
      by (rewrite clock_state by done; by rewrite bus_busy_busy);
    assert (Ea : ACK_I (pins_of (c, s)) = s_ack r s) by (by rewrite <- Hq);
    assert (Ed : DAT_I (pins_of (c, s)) = s_data r s) by (by rewrite <- Hq);
    pose proof (HJ c s Hc Hr Hj) as Hk;
    assert (Hbus := clock_bus (pins_of (c, s)) c eq_refl); rewrite (Hen c Hc), Ea, Ed, Hack in Hbus.
  - apply leads_here. unfold system_clock. cbn [fst snd].
    split_and!; [done|by rewrite Hbus|rewrite Hbus; cbn; by rewrite Ho, <- Hq| |by rewrite Hq|done].
    unfold request_of. rewrite Hbus, Hck, (Hclear _ Hk), <- Hq by done. done.
  - unfold system_clock. cbn [fst snd]. rewrite Hq. apply IH; [done| |by apply HKJ]. rewrite bus_hold in Hbus.
    unfold requesting. rewrite Hbus. split_and!; [done|done|]. rewrite <- Hq. unfold request_of.
    rewrite Hbus, Hck, (Hclear _ Hk), <- Hq by done. done.
Qed.

(** Starting a request. *)
Lemma start_request i c :
  RST_I i = false -> ACK_I i = false -> bus_en c = true ->
  requesting (cpu_clock i c) (bus_op c)
    (Request (bus_addr c) (reg_val2 c) (mem_sel (bus_op c)) (bus_write (bus_op c)) true true
      (check_tags (cpu_clock i c)) (tags_irq_clear (csr_inst (cpu_clock i c)))).
Proof.
  intros Hi Ha He. unfold requesting, request_of. rewrite clock_bus by done. rewrite Ha, He. done.
Qed.

Lemma carries_request y a n :
  carries y a n -> plain (pins_of y) y.1 -> bus_en y.1 = true -> reg_we y.1 = false -> update_pc y.1 = false ->
  let y' := system_clock y in
  core_calm y'.1 a /\ settled (pred n) y'.2 (amem a) (tag_line a) /\
  requesting y'.1 (bus_op y.1)
    (Request (bus_addr y.1) (reg_val2 y.1) (mem_sel (bus_op y.1)) (bus_write (bus_op y.1)) true true
      (check_tags y'.1) false).
Proof.
  intros Hc Hpl He Hw Hu y'. pose proof (calm_ack _ _ _ Hc) as Hack. pose proof (pins_reset y) as Hi.
  assert (Hcore : core_calm y'.1 a).
  { rewrite <- (moved_same (pins_of y) y.1 a) by done.
    apply core_calm_step; [done|apply Hc|done|by rewrite Hw|by rewrite Hu]. }
  split_and!; [done|by apply carries_idle|].
  pose proof (start_request (pins_of y) y.1 Hi Hack He) as Hr.
  change (cpu_clock (pins_of y) y.1) with y'.1 in Hr. by rewrite (co_clear _ _ Hcore) in Hr.
Qed.

Lemma serve s m q r :
  settled 0 s m q -> active r -> valid_sel (r_sel r) = true -> answers m (r_adr r) false = true -> r_we r = false ->
  exists d s', serves r s d s' /\ u32_range d /\
    (in_mem (r_adr r) = true -> d = mem_read m (r_adr r) (r_sel r)) /\
    settled 1 s' m (q || in_mem (r_adr r) && r_check r && mem_mismatch m (r_adr r)).
Proof.
  intros Hs Ha Hv0 Hn Hw. destruct (settled_serves s m q r Hs Ha Hv0) as (Hack & d & s' & Hv & Hd & Hm & Hs'); [by rewrite Hw|by rewrite Hw|].
  exists d, s'. split_and!; try done; [by apply serves_wait|].
  rewrite Hw in Hs'. exact Hs'.
Qed.

(** ** Waiting for the arithmetic unit *)

Lemma add_result u v r : result (alu_clock u v ALUOP_ADD true false r) = w32 (u + v).
Proof. done. Qed.
Lemma add_busy u v r : busy (alu_clock u v ALUOP_ADD true false r) = busy r.
Proof. done. Qed.


Lemma wait_alu (J : system S -> Prop) u v op n w y :
  (forall y, J y -> state y.1 = STATE_POST_EXEC /\
    alu_inst (system_clock y).1 = alu_clock u v op false false (alu_inst y.1)) ->
  (forall y, J y -> busy (alu_inst y.1) = true -> J (system_clock y)) ->
  finishes u v op n w (alu_inst y.1) -> J y ->
  leads (fun y => J y /\ busy (alu_inst y.1) = false /\ result (alu_inst y.1) = w) y.
Proof.
  intros Ha HJ. revert y. induction n as [|n IH]; intros y (Hk & Hd & Hv) Hj.
  - by apply leads_here.
  - destruct (Ha y Hj) as [Hs Ea]. apply leads_next; [by rewrite Hs|].
    pose proof (Hk 0%nat ltac:(lia)) as Hb. apply IH; [|by apply HJ].
    unfold finishes, after in *. rewrite Ea.
    split_and!; [intros k Hkn; rewrite <- Nat.iter_succ_r; apply Hk; lia| |];
      by rewrite <- Nat.iter_succ_r.
Qed.
End Steps.

(** * Fetching an instruction

    From the start of an instruction to the state DECODE, with the
    instruction, in one word of memory or across two, in the parcels. *)

Lemma word_halves w : u32_range w -> cat [(16, slice 31 16 w); (16, slice 15 0 w)] = w.
Proof.
  unfold u32_range. intros Hw. rewrite cat_two, !slice_eq by lia. unfold wrap. simpl Z.sub. simpl Z.add.
  change (2 ^ 0) with 1. zlia.
Qed.

Lemma low_parcel x : cat [(16, 0); (16, slice 31 16 x)] = slice 31 16 x.
Proof.
  rewrite cat_two. pose proof (slice_range 31 16 x ltac:(lia)). simpl Z.sub in *. simpl Z.add in *.
  unfold wrap. rewrite Z.mod_0_l, Z.mod_small by lia. lia.
Qed.

Lemma slice_slice x : slice 1 0 (slice 31 16 x) = slice 17 16 x.
Proof.
  rewrite !slice_eq by lia. simpl Z.sub. simpl Z.add. change (2 ^ 0) with 1. zlia.
Qed.

Lemma c_op_low hi lo : 0 <= lo -> c_op (cat [(16, hi); (16, lo)]) = slice 1 0 lo.
Proof.
  intros Hlo. unfold c_op. rewrite cat_two, !slice_eq by lia. unfold wrap. simpl Z.sub. simpl Z.add.
  change (2 ^ 0) with 1. zlia.
Qed.

Section Fetch.
Context {S M : Type} `{SlaveLaws S M}.
Implicit Types (y : system S) (a : arch M).

(** Ready to execute [w], [nx] the address of the instruction after it. *)
Record decoding y a (w nx : Z) : Prop := {
  de_state : state y.1 = STATE_DECODE;
  de_carries : carries y a 0;
  de_alu : busy (alu_inst y.1) = false;
  de_word : parcels y.1 = w;
  de_next : alu_dataout y.1 = nx;
  de_done : exec_done y.1 = false;
}.

(** What is kept while an instruction is fetched. *)
Definition fetching a (low : option Z) (c : cpu) : Prop :=
  core_calm c a /\ busy (alu_inst c) = false /\ exec_done c = false /\ (forall l, low = Some l -> parcel_low c = l).

Lemma fetching_step st a low c s op r :
  st = STATE_FETCH /\ low = None \/ st = STATE_FETCH_MORE ->
  state c = st -> requesting c op r -> fetching a low c -> fetching a low (cpu_clock (pins_of (c, s)) c).
Proof.
  intros Hst Hc Hr (Hcore & Ha & He & Hl).
  assert (Hs : state c = STATE_FETCH \/ state c = STATE_FETCH_MORE)
    by (rewrite Hc; destruct Hst as [[-> _]| ->]; auto).
  split_and!.
  - rewrite <- (moved_same (pins_of (c, s)) c a)
      by (unfold reg_we, update_pc; by destruct Hs as [-> | ->]).
    apply core_calm_step; [done|done| | |];
      unfold plain, cpu_request, trap_occured, mret_occured, next_test_finished, reg_we, update_pc;
      by destruct Hs as [-> | ->].
  - rewrite clock_alu by done. unfold alu_en, alu_op_final. by destruct Hs as [-> | ->].
  - rewrite clock_done by done. by destruct Hs as [-> | ->].
  - intros l El. rewrite clock_low by done. unfold next_parcel_low. destruct Hst as [[_ ->]| ->]; [done|].
    rewrite Hc. by apply Hl.
Qed.

(** A word of the instruction, from the request to the moment it is taken. *)
Lemma fetch_one st a low y p r :
  st = STATE_FETCH /\ low = None \/ st = STATE_FETCH_MORE ->
  state y.1 = st -> settled 0 y.2 (amem a) (tag_line a) -> fetching a low y.1 ->
  r = Request p (r_dat r) SEL_WORD false true true (fetch_tags_on (acsr a)) false ->
  requesting y.1 BUSOP_READW r -> in_mem p = true ->
  let a' := set_line (line_after a (fetch_tags_on (acsr a)) p) a in
  leads (fun y => state y.1 = st /\ carries y a' 1 /\ fetching a' low y.1 /\
    check_tags y.1 = fetch_tags_on (acsr a) /\
    bus_dataout y.1 = mem_read (amem a) p SEL_WORD /\ u32_range (bus_dataout y.1)) y.
Proof.
  intros Hst Hs Hm Hf Er Hr Hp a'. destruct y as [c s].
  destruct (serve s (amem a) (tag_line a) r) as (d & s' & Hv & Hd & Hdm & Hs').
  { exact Hm. } { rewrite Er. done. } { by rewrite Er. } { apply answers_mem. by rewrite Er. } { by rewrite Er. }
  set (J := fun c => fetching a low c /\ check_tags c = fetch_tags_on (acsr a)).
  eapply leads_mono; [|apply (wait_bus st J J BUSOP_READW r d c s s')]; try done.
  - intros [c' s''] (E1 & Hb & E2 & _ & E3 & Hf' & Ec). cbn [fst snd] in *. subst s''.
    rewrite Er in *. cbn [r_adr r_we r_check r_sel] in *. rewrite Hp in Hs'. cbn [andb] in Hs'.
    assert (Hf'' : fetching a' low c') by (destruct Hf' as (? & ? & ? & ?); split_and!; try done; by apply core_calm_line).
    assert (Ed : bus_dataout c' = mem_read (amem a) p SEL_WORD) by (unfold bus_dataout; rewrite E2; by apply Hdm).
    split_and!; try done; [|rewrite Ed, <- Hdm; done]. split; [apply Hf''|done|]. cbn [snd].
    unfold a', line_after. cbn [amem tag_line set_line]. by rewrite Hp.
  - destruct Hst as [[-> _]| ->]; unfold waits; auto.
  - intros c' [(Hc' & _) _]. rewrite (co_clear _ _ Hc'), Er. done.
  - intros c' s'' E1 Hr' [Hf' Ec]. split; [by eapply fetching_step|]. rewrite clock_check by done. rewrite E1.
    by destruct Hst as [[-> _]| ->].
  - split; [done|]. destruct Hr as (_ & _ & Hq). rewrite Er in Hq. by injection Hq.
Qed.

(** The word is in the buffer: go on to DECODE, or fetch the second one. *)
Lemma fetch_last y a w :
  state y.1 = STATE_FETCH -> carries y a 1 -> fetching a None y.1 -> bus_dataout y.1 = w -> u32_range w ->
  (Z.testbit (apc a) 1 && (slice 17 16 w =? 3)) = false ->
  let v := if Z.testbit (apc a) 1 then slice 31 16 w else w in
  decoding (system_clock y) a v (next_pc_of v (apc a)).
Proof.
  intros Hs Hc (Hcore & Ha & He & _) Ew Hw Hx v. pose proof (pins_reset y) as Hi.
  pose proof (h_pc _ _ (co_regs _ _ Hcore)) as Epc.
  assert (Hb : cpu_busy (pins_of y) y.1 = false) by (rewrite (calm_busy _ _ _ Hc); done).
  split; cbn [system_clock fst].
  - rewrite clock_state by done. rewrite Hb. unfold next_state. rewrite Hs, Epc, Ew. by rewrite Hx.
  - change 0%nat with (pred 1).
    apply carries_stay; [done| |by unfold bus_en; rewrite Hs|by unfold reg_we; rewrite Hs|by unfold update_pc; rewrite Hs].
    unfold plain, cpu_request, trap_occured, mret_occured, next_test_finished. by rewrite Hs.
  - rewrite clock_alu by done. unfold alu_en, alu_op_final. by rewrite Hs.
  - unfold parcels. rewrite clock_high, clock_low by done. unfold next_parcel_high, next_parcel_low.
    rewrite Hs, Epc, Ew. unfold v. destruct (Z.testbit (apc a) 1); [apply low_parcel|by apply word_halves].
  - unfold alu_dataout. rewrite clock_alu by done. unfold alu_en, alu_op_final, alu_dataS1, alu_dataS2,
      mux_alu_s1_sel_f, mux_alu_s2_sel_f. rewrite Hs, Epc, Ew, add_result. unfold next_pc_of, v, c_op.
    destruct (Z.testbit (apc a) 1); cbn [andb] in Hx.
    + by rewrite slice_slice, Hx.
    + by destruct (slice 1 0 w =? 3).
  - rewrite clock_done by done. by rewrite Hs.
Qed.

(** The state between the two requests. *)
Lemma fetch_prepare y a w :
  state y.1 = STATE_FETCH -> carries y a 1 -> fetching a None y.1 -> bus_dataout y.1 = w ->
  (Z.testbit (apc a) 1 && (slice 17 16 w =? 3)) = true ->
  let y' := system_clock y in
  state y'.1 = STATE_PREPAIR_UNALIGNED_FETCH /\ carries y' a 0 /\
  fetching a (Some (slice 31 16 w)) y'.1 /\ alu_dataout y'.1 = w32 (apc a + 2) /\
  check_tags y'.1 = check_tags y.1.
Proof.
  intros Hs Hc (Hcore & Ha & He & _) Ew Hx y'. pose proof (pins_reset y) as Hi.
  pose proof (h_pc _ _ (co_regs _ _ Hcore)) as Epc.
  assert (Hb : cpu_busy (pins_of y) y.1 = false) by (rewrite (calm_busy _ _ _ Hc); done).
  assert (Hc' : carries y' a 0).
  { change 0%nat with (pred 1).
    apply carries_stay; [done| |by unfold bus_en; rewrite Hs|by unfold reg_we; rewrite Hs|by unfold update_pc; rewrite Hs].
    unfold plain, cpu_request, trap_occured, mret_occured, next_test_finished. by rewrite Hs. }
  apply andb_true_iff in Hx as [Hx1 Hx2].
  split_and!; cbn [y' system_clock fst]; [|done| | |].
  - rewrite clock_state by done. rewrite Hb. unfold next_state. by rewrite Hs, Epc, Ew, Hx1, Hx2.
  - split_and!; [apply Hc'| | |].
    + rewrite clock_alu by done. unfold alu_en, alu_op_final. by rewrite Hs.
    + rewrite clock_done by done. by rewrite Hs.
    + intros l [= <-]. rewrite clock_low by done. unfold next_parcel_low. by rewrite Hs, Epc, Ew, Hx1.
  - unfold alu_dataout. rewrite clock_alu by done. unfold alu_en, alu_op_final, alu_dataS1, alu_dataS2,
      mux_alu_s1_sel_f, mux_alu_s2_sel_f. by rewrite Hs, Epc, Hx1, add_result.
  - rewrite clock_check by done. by rewrite Hs.
Qed.

(** The second word is in the buffer. *)
Lemma fetch_both y a lo d :
  state y.1 = STATE_FETCH_MORE -> carries y a 1 -> fetching a (Some lo) y.1 -> bus_dataout y.1 = d ->
  0 <= lo -> slice 1 0 lo = 3 ->
  let v := cat [(16, slice 15 0 d); (16, lo)] in
  decoding (system_clock y) a v (next_pc_of v (apc a)).
Proof.
  intros Hs Hc (Hcore & Ha & He & Hl) Ed Hlo H3 v. pose proof (pins_reset y) as Hi.
  pose proof (h_pc _ _ (co_regs _ _ Hcore)) as Epc.
  assert (Hb : cpu_busy (pins_of y) y.1 = false) by (rewrite (calm_busy _ _ _ Hc); done).
  split; cbn [system_clock fst].
  - rewrite clock_state by done. rewrite Hb. unfold next_state. by rewrite Hs.
  - change 0%nat with (pred 1).
    apply carries_stay; [done| |by unfold bus_en; rewrite Hs|by unfold reg_we; rewrite Hs|by unfold update_pc; rewrite Hs].
    unfold plain, cpu_request, trap_occured, mret_occured, next_test_finished. by rewrite Hs.
  - rewrite clock_alu by done. unfold alu_en, alu_op_final. by rewrite Hs.
  - unfold parcels. rewrite clock_high, clock_low by done. unfold next_parcel_high, next_parcel_low.
    rewrite Hs, Ed. by rewrite (Hl lo eq_refl).
  - unfold alu_dataout. rewrite clock_alu by done. unfold alu_en, alu_op_final, alu_dataS1, alu_dataS2,
      mux_alu_s1_sel_f, mux_alu_s2_sel_f. rewrite Hs, Epc, add_result. unfold next_pc_of, v.
    by rewrite c_op_low, H3.
  - rewrite clock_done by done. by rewrite Hs.
Qed.

Lemma fetch_second y a w :
  state y.1 = STATE_FETCH -> carries y a 1 -> fetching a None y.1 -> bus_dataout y.1 = w ->
  check_tags y.1 = fetch_tags_on (acsr a) ->
  (Z.testbit (apc a) 1 && (slice 17 16 w =? 3)) = true -> in_mem (w32 (apc a + 2)) = true ->
  let a' := set_line (line_after a (fetch_tags_on (acsr a)) (w32 (apc a + 2))) a in
  let v := cat [(16, slice 15 0 (mem_read (amem a) (w32 (apc a + 2)) SEL_WORD)); (16, slice 31 16 w)] in
  leads (fun y => decoding y a' v (next_pc_of v (apc a))) y.
Proof.
  intros Hs Hc Hf Ew Eck Hx Hp a' v. apply leads_next; [by rewrite Hs|].
  destruct (fetch_prepare y a w Hs Hc Hf Ew Hx) as (Hs1 & Hc1 & Hf1 & Ea1 & Ek1).
  set (y1 := system_clock y) in *. rewrite Eck in Ek1. apply leads_next; [by rewrite Hs1|].
  destruct (carries_request y1 a 0 Hc1) as (Hcore2 & Hm2 & Hr2);
    [unfold plain, cpu_request, trap_occured, mret_occured, next_test_finished; by rewrite Hs1
    |by unfold bus_en; rewrite Hs1|by unfold reg_we; rewrite Hs1|by unfold update_pc; rewrite Hs1|].
  pose proof (pins_reset y1) as Hi.
  assert (Hck : check_tags (system_clock y1).1 = fetch_tags_on (acsr a))
    by (cbn [system_clock fst]; rewrite clock_check by done; by rewrite Hs1).
  unfold bus_addr, mux_bus_addr_sel, bus_op in Hr2. rewrite Hs1, Ea1, Hck in Hr2.
  eapply leads_trans; [eapply (fetch_one STATE_FETCH_MORE a (Some (slice 31 16 w)) _ (w32 (apc a + 2))
    (Request _ (reg_val2 y1.1) SEL_WORD false true true _ false))|].
  - by right.
  - cbn [system_clock fst]. rewrite clock_state by done. rewrite (calm_busy _ _ _ Hc1).
    destruct Hf1 as (_ & -> & _ & _). unfold next_state. by rewrite Hs1.
  - exact Hm2.
  - destruct Hf1 as (_ & Ha1 & He1 & Hl1). split_and!; [done| | |].
    + cbn [system_clock fst]. rewrite clock_alu by done. unfold alu_en, alu_op_final. rewrite Hs1.
      by rewrite alu_idle.
    + cbn [system_clock fst]. rewrite clock_done by done. by rewrite Hs1.
    + intros l El. cbn [system_clock fst]. rewrite clock_low by done. unfold next_parcel_low. rewrite Hs1. by apply Hl1.
  - done.
  - exact Hr2.
  - done.
  - intros y3 (Hs3 & Hc3 & Hf3 & _ & Ed3 & _). apply leads_next; [by rewrite Hs3|]. apply leads_here.
    apply andb_true_iff in Hx as [_ Hx]. refine (fetch_both y3 a' _ _ Hs3 Hc3 Hf3 Ed3 _ _).
    + apply slice_range. lia.
    + rewrite slice_slice. lia.
Qed.

Lemma models_carries y a :
  models y a <-> state y.1 = STATE_PRE_FETCH /\ carries y a 0 /\ busy (alu_inst y.1) = false.
Proof.
  split.
  - intros [Hs [] Hrun Hpc Hpr Hx H0' Hxr Hk Hkr Hrnd Hm]. split_and!; try done.
  - intros (Hs & [[[] [] [] ?] (? & ? & ? & ? & ?) ?] & Ha). done.
Qed.

(** From the start of an instruction to its decoding. *)
Lemma fetch_leads y a :
  models y a -> fetchable a ->
  let w := fetch_word (amem a) (apc a) in
  leads (fun y => decoding y (fetched a) w (next_pc_of w (apc a))) (system_clock y).
Proof.
  intros Hmod [Hp Hp2] w. apply models_carries in Hmod as (Hs & Hc & Ha). pose proof (pins_reset y) as Hi.
  destruct (carries_request y a 0 Hc) as (Hcore1 & Hm1 & Hr1);
    [unfold plain, cpu_request, trap_occured, mret_occured, next_test_finished; by rewrite Hs
    |by unfold bus_en; rewrite Hs|by unfold reg_we; rewrite Hs|by unfold update_pc; rewrite Hs|].
  assert (Hck : check_tags (system_clock y).1 = fetch_tags_on (acsr a)).
  { cbn [system_clock fst]. rewrite clock_check by done. unfold next_check_tags. rewrite Hs.
    destruct (cc_view _ _ (co_csr _ _ (cy_core _ _ _ Hc))) as (_ & _ & _ & _ & E & _). exact E. }
  unfold bus_addr, mux_bus_addr_sel, bus_op in Hr1.
  rewrite Hs, Hck, (h_pc _ _ (co_regs _ _ (cy_core _ _ _ Hc))) in Hr1.
  eapply leads_trans; [eapply (fetch_one STATE_FETCH a None _ (apc a)
    (Request _ (reg_val2 y.1) SEL_WORD false true true _ false))|]; [by left| |exact Hm1| |done|exact Hr1|done|].
  - cbn [system_clock fst]. rewrite clock_state by done. rewrite (calm_busy _ _ _ Hc), Ha. unfold next_state.
    by rewrite Hs.
  - split_and!; [done| | |done]; cbn [system_clock fst].
    + rewrite clock_alu by done. unfold alu_en, alu_op_final. rewrite Hs. by rewrite alu_idle.
    + rewrite clock_done by done. unfold next_exec_done. by rewrite Hs.
  - intros y2 (Hs2 & Hc2 & Hf2 & Ek2 & Ed2 & Hd2).
    set (d := mem_read (amem a) (apc a) SEL_WORD) in *. unfold w, fetch_word, fetched. fold d.
    unfold straddles in Hp2 |- *. cbn [amem apc acsr set_line] in *. fold d in Hp2 |- *.
    rewrite slice_slice in *. destruct (Z.testbit (apc a) 1 && (slice 17 16 d =? 3)) eqn:Ex.
    + apply andb_true_iff in Ex as [Ex1 Ex2]. rewrite Ex1, Ex2.
      apply (fetch_second y2 _ d Hs2 Hc2 Hf2 Ed2); [done| |by apply Hp2]. cbn [apc set_line]. by rewrite Ex1, Ex2.
    + apply leads_next; [by rewrite Hs2|]. apply leads_here.
      pose proof (fetch_last y2 _ d Hs2 Hc2 Hf2 Ed2 ltac:(by rewrite <- Ed2) Ex) as Hl. cbn [apc set_line] in Hl.
      destruct (Z.testbit (apc a) 1); [|done]. cbn [andb] in Ex. by rewrite Ex.
Qed.
End Fetch.
