(* ===== verification/RtlExec.v ===== *)
(** * Computing, jumping and branching

    From DECODE to the next instruction, for the instructions that use
    neither the bus nor the control and status registers. *)

From S2P Require Import Prelude RtlAlu RtlAluFacts RtlDecoder RtlDecoderFacts RtlCpu RtlSystem RtlSpec.
From S2P Require Import RtlCoreFacts RtlFetch.
Import Alu Decoder.

(** ** The control signals fit together *)

Definition no_writeback (c : ctrl) : Prop :=
  exec_writeback_from_alu c = false /\ exec_writeback_from_imm c = false /\ exec_next_pc_from_alu c = false /\
  alu_oper c = ALUOP_ADD.

Definition ctrl_sane (c : ctrl) : Prop :=
  (write_reg c = true -> exec_next_pc_from_alu c = true) /\
  match exec_next_stage c with
  | EXEC_TO_FETCH =>
      if exec_next_pc_from_alu c then
        exec_writeback_from_alu c = false /\ exec_writeback_from_imm c = false /\ alu_oper c = ALUOP_ADD
      else if exec_writeback_from_alu c then True
      else alu_oper c = ALUOP_ADD /\
        (exec_writeback_from_imm c = true -> exec_mux_reg_input_sel c = MUX_REGINPUT_IMM)
  | EXEC_TO_LOAD | EXEC_TO_STORE =>
      no_writeback c /\ exec_mux_alu_s1_sel c = MUX_ALUDAT1_REGVAL1 /\ exec_mux_alu_s2_sel c = MUX_ALUDAT2_IMM
  | EXEC_TO_BRANCH =>
      no_writeback c /\ exec_mux_alu_s1_sel c = MUX_ALUDAT1_REGVAL1 /\ exec_mux_alu_s2_sel c = MUX_ALUDAT2_REGVAL2
  | EXEC_TO_SYSTEM => no_writeback c
  | EXEC_TO_TRAP | EXEC_TO_DEAD => True
  end.

Lemma control_sane w : ctrl_sane (control w).
Proof.
  unfold control, control32, control_c0, control_c1, control_c2.
  destruct (slice 11 7 w =? 0), (slice 6 2 w =? 0); cbn [negb andb]; repeat case_match; done.
Qed.

(** ** Ranges and flags *)

Lemma alu_value_range op a b : u32_range a -> u32_range b -> u32_range (alu_value op a b).
Proof.
  intros Ha Hb. destruct (bitwise_range a b Ha Hb) as (H1 & H2 & H3 & _).
  assert (Hw : forall x, u32_range (w32 x)) by (intros x; apply (wrap_range 32); lia).
  assert (Hbit : forall c : bool, u32_range (Z.b2z c)) by (by intros []).
  pose proof (abs_range a Ha). pose proof (abs_range b Hb).
  assert (Hp : 0 < 2 ^ (b mod 32)) by (apply Z.pow_pos_nonneg; zlia).
  assert (Hsr : u32_range (a / 2 ^ (b mod 32))).
  { unfold u32_range in *. split; [apply Z.div_pos; lia|]. apply Z.le_lt_trans with a; [|lia].
    apply Z.div_le_upper_bound; nia. }
  assert (Hmul : u32_range (a * b / 2 ^ 32)).
  { unfold u32_range in *. split; [apply Z.div_pos; nia|]. apply Z.div_lt_upper_bound; nia. }
  assert (Hdiv : b <> 0 -> u32_range (a / b) /\ u32_range (a mod b)).
  { unfold u32_range in *. intros Hb0. pose proof (Z.mod_pos_bound a b ltac:(lia)).
    split; [|lia]. split; [apply Z.div_pos; lia|]. apply Z.le_lt_trans with a; [|lia].
    apply Z.div_le_upper_bound; nia. }
  assert (Hrem : b <> 0 -> u32_range (Z.abs (s32 a) mod Z.abs (s32 b))).
  { intros Hb0. assert (s32 b <> 0) by (intros Hz; apply Hb0; rewrite <- (s32_mod b Hb), Hz; done).
    pose proof (Z.mod_pos_bound (Z.abs (s32 a)) (Z.abs (s32 b)) ltac:(lia)). unfold u32_range. lia. }
  unfold alu_value, alu_ref, rem_hw. destruct (Z.eqb_spec b 0) as [->|Hb0].
  - repeat case_match; try done; apply Hw.
  - specialize (Hdiv Hb0) as [Hq Hm]. specialize (Hrem Hb0). repeat case_match; done.
Qed.

(** The wires of the branch decision. *)
Lemma branch_wires mask (e l u : bool) :
  0 <= mask < 64 ->
  negb (Z.land mask (cat [(1, Z.b2z (negb u)); (1, Z.b2z u); (1, Z.b2z (negb l)); (1, Z.b2z l);
    (1, Z.b2z (negb e)); (1, Z.b2z e)]) =? 0) =
  Z.testbit mask 0 && e || Z.testbit mask 1 && negb e || Z.testbit mask 2 && l ||
  Z.testbit mask 3 && negb l || Z.testbit mask 4 && u || Z.testbit mask 5 && negb u.
Proof.
  intros Hm. set (wires := cat _). set (f := fun mask => negb (Z.land mask wires =? 0)).
  set (g := fun mask => Z.testbit mask 0 && e || Z.testbit mask 1 && negb e || Z.testbit mask 2 && l ||
    Z.testbit mask 3 && negb l || Z.testbit mask 4 && u || Z.testbit mask 5 && negb u).
  assert (Hall : Forall (fun m => f m = g m) (seqZ 0 64)).
  { unfold f, g, wires. destruct e, l, u; vm_compute; repeat (constructor; [reflexivity|]); constructor. }
  rewrite Forall_forall in Hall. apply (Hall mask). apply elem_of_seqZ. lia.
Qed.

Lemma branchmask_range w : 0 <= branchmask_of w < 64.
Proof.
  unfold branchmask_of. destruct (opcode w =? OP_BRANCH), (c_funct3 w =? 6), (c_funct3 w =? 7);
    repeat case_match; done.
Qed.

Section Exec.
Context {S M : Type} `{SlaveLaws S M}.
Implicit Types (y : system S) (a : arch M).

(** ** In flight *)

(** The instruction [w] with the values of its registers, between DECODE and
    the next instruction. *)
Record flying (w nx u v : Z) (c : cpu) : Prop := {
  fl_word : parcels c = w;
  fl_next : pcnext c = nx;
  fl_u : reg_val1 c = u;
  fl_v : reg_val2 c = v;
}.

Lemma flying_step i c w nx u v :
  RST_I i = false -> state c <> STATE_FETCH -> state c <> STATE_FETCH_MORE -> state c <> STATE_DECODE ->
  flying w nx u v c -> flying w nx u v (cpu_clock i c).
Proof.
  intros Hi H1 H2 H3 [<- <- <- <-]. split.
  - unfold parcels. rewrite clock_high, clock_low by done. unfold next_parcel_high, next_parcel_low.
    by destruct (state c).
  - rewrite clock_pcnext by done. by rewrite bool_decide_false by done.
  - unfold reg_val1. rewrite clock_regs by done. cbn. unfold reg_re. by destruct (state c).
  - unfold reg_val2. rewrite clock_regs by done. cbn. unfold reg_re. by destruct (state c).
Qed.

Lemma dec_flying w nx u v c : flying w nx u v c -> dec c = control w.
Proof. intros [E _ _ _]. unfold dec. by rewrite E. Qed.

Lemma imm_flying w nx u v c : flying w nx u v c -> dec_imm c = imm_of w.
Proof. intros [E _ _ _]. unfold dec_imm. by rewrite E. Qed.

Lemma f3_flying w nx u v c : flying w nx u v c -> dec_funct3 c = funct3 w.
Proof. intros [E _ _ _]. unfold dec_funct3. by rewrite E. Qed.

(** The operands, in EXEC and POST_EXEC. *)
Definition operand1 (w : Z) : operand :=
  match exec_mux_alu_s1_sel (control w) with
  | MUX_ALUDAT1_REGVAL1 => Reg (o_rs1 (control w)) | MUX_ALUDAT1_PC => Pc end.
Definition operand2 (w : Z) : operand :=
  match exec_mux_alu_s2_sel (control w) with
  | MUX_ALUDAT2_REGVAL2 => Reg (o_rs2 (control w))
  | MUX_ALUDAT2_IMM => Imm (imm_of w)
  | MUX_ALUDAT2_INSTLEN32 => Imm 4
  | MUX_ALUDAT2_INSTLEN16 => Imm 2
  end.

Lemma operands c a w nx :
  state c = STATE_EXEC \/ state c = STATE_POST_EXEC -> pc c = apc a ->
  flying w nx (x_ a (o_rs1 (control w))) (x_ a (o_rs2 (control w))) c ->
  alu_dataS1 c = val a (operand1 w) /\ alu_dataS2 c = val a (operand2 w) /\ alu_op_final c = alu_oper (control w).
Proof.
  intros Hs Hpc Hf. pose proof (dec_flying _ _ _ _ _ Hf) as Ed. pose proof (imm_flying _ _ _ _ _ Hf) as Ei.
  destruct Hf as [_ _ Eu Ev].
  unfold alu_dataS1, alu_dataS2, alu_op_final, mux_alu_s1_sel_f, mux_alu_s2_sel_f, operand1, operand2.
  destruct Hs as [-> | ->]; rewrite Ed; repeat case_match; by rewrite ?Ei.
Qed.

Lemma imm_range w : u32_range (imm_of w).
Proof.
  assert (Hcat : forall l n, 0 <= n -> Forall (fun p => 0 <= p.1) l -> forall k, 0 <= k < 2 ^ n ->
    0 <= fold_left (fun acc '(w, v) => acc * 2 ^ w + wrap w v) l k < 2 ^ (n + fold_right (fun p s => p.1 + s) 0 l)).
  { induction l as [|[wd x] l IH]; intros n Hn Hl k Hk; cbn [fold_left fold_right].
    - by rewrite Z.add_0_r.
    - apply Forall_cons in Hl as [Hw Hl]. cbn [fst] in *. rewrite Z.add_assoc. apply IH; [lia|done|].
      pose proof (wrap_range wd x Hw). rewrite Z.pow_add_r by lia. nia. }
  assert (Hc : forall l, Forall (fun p => 0 <= p.1) l -> fold_right (fun p s => p.1 + s) 0 l = 32 -> u32_range (cat l)).
  { intros l Hl Hs. unfold u32_range, cat. specialize (Hcat l 0 ltac:(lia) Hl 0 ltac:(simpl; lia)).
    by rewrite Hs in Hcat. }
  unfold imm_of. repeat case_match; try (apply Hc; [repeat constructor; cbn; lia|reflexivity]); done.
Qed.

Lemma val_range c a o :
  regs_hold c a -> match o with Reg n => 0 <= n < 32 | Pc => True | Imm v => u32_range v end ->
  u32_range (val a o).
Proof. intros Hr Ho. destruct o; cbn; [by apply Hr|apply Hr|done]. Qed.

Lemma operand_range c a w : regs_hold c a -> u32_range (val a (operand1 w)) /\ u32_range (val a (operand2 w)).
Proof.
  intros Hr. pose proof (control_regs w) as (H1 & H2 & _). pose proof (imm_range w).
  split; apply (val_range c a _ Hr); unfold operand1, operand2;
    [by destruct (exec_mux_alu_s1_sel _)|by destruct (exec_mux_alu_s2_sel _)].
Qed.

(** ** The first stages *)

(** An instruction whose registers are read. *)
Record started y a (w nx : Z) : Prop := {
  st_state : state y.1 = STATE_EXEC;
  st_carries : carries y a 0;
  st_alu : busy (alu_inst y.1) = false;
  st_result : alu_dataout y.1 = nx;
  st_flying : flying w nx (x_ a (o_rs1 (control w))) (x_ a (o_rs2 (control w))) y.1;
}.

Lemma decode_step y a w nx :
  decoding y a w nx -> interrupt_taken (pins_of y) y.1 = false -> started (system_clock y) a w nx.
Proof.
  intros [Hs Hc Ha Ew En _] Hint. pose proof (pins_reset y) as Hi.
  pose proof (co_regs _ _ (cy_core _ _ _ Hc)) as Hr. pose proof (control_regs w) as (Hr1 & Hr2 & _).
  assert (Hb : cpu_busy (pins_of y) y.1 = false) by (by rewrite (calm_busy _ _ _ Hc)).
  assert (Ealu : alu_inst (cpu_clock (pins_of y) y.1) = alu_inst y.1).
  { rewrite clock_alu by done. unfold alu_en. rewrite Hs. by apply alu_idle. }
  split; cbn [system_clock fst].
  - rewrite clock_state by done. rewrite Hb. unfold next_state. by rewrite Hs, Hint.
  - change 0%nat with (pred 0).
    apply carries_stay; [done| |by unfold bus_en; rewrite Hs|by unfold reg_we; rewrite Hs|by unfold update_pc; rewrite Hs].
    unfold plain, cpu_request, trap_occured, mret_occured, next_test_finished. by rewrite Hs, Hint.
  - by rewrite Ealu.
  - unfold alu_dataout. by rewrite Ealu.
  - split.
    + rewrite <- Ew. unfold parcels. rewrite clock_high, clock_low by done.
      unfold next_parcel_high, next_parcel_low. by rewrite Hs.
    + rewrite clock_pcnext by done. rewrite Hb, Hs, bool_decide_true by done. cbn [andb negb].
      unfold next_pcnext. by rewrite Hs.
    + unfold reg_val1. rewrite clock_regs by done. cbn [regval1 registers_clock]. unfold reg_re, dec.
      rewrite Hs, Ew. by apply Hr.
    + unfold reg_val2. rewrite clock_regs by done. cbn [regval2 registers_clock]. unfold reg_re, dec.
      rewrite Hs, Ew. by apply Hr.
Qed.

(** The state after EXEC. *)
Definition stage_state (e : exec_to) : cpu_state :=
  match e with
  | EXEC_TO_FETCH => STATE_POST_EXEC
  | EXEC_TO_LOAD => STATE_LOAD1
  | EXEC_TO_STORE => STATE_STORE1
  | EXEC_TO_BRANCH => STATE_BRANCH2
  | EXEC_TO_SYSTEM => STATE_SYSTEM
  | EXEC_TO_TRAP => STATE_TRAP
  | EXEC_TO_DEAD => STATE_DEAD
  end.

Record executing y a a' (w nx : Z) : Prop := {
  xe_state : state y.1 = stage_state (exec_next_stage (control w));
  xe_carries : carries y a' 0;
  xe_alu : exists r, busy r = false /\
    alu_inst y.1 = alu_clock (val a (operand1 w)) (val a (operand2 w)) (alu_oper (control w)) true false r;
  xe_flying : flying w nx (x_ a (o_rs1 (control w))) (x_ a (o_rs2 (control w))) y.1;
  xe_done : exec_done y.1 = true;
  xe_writeback : writeback_from_bus y.1 = false;
  xe_csr : next_addr_from_csr y.1 = false;
  xe_branch : branch_pc_from_alu y.1 = false;
}.

(** A jump writes its link register in EXEC. *)
Definition linked (w nx : Z) a : arch M :=
  if exec_next_pc_from_alu (control w) && write_reg (control w) then set_x (o_rd (control w)) nx a else a.

Lemma exec_step y a w nx :
  started y a w nx -> u32_range nx -> executing (system_clock y) a (linked w nx a) w nx.
Proof.
  intros [Hs Hc Ha En Hf] Hnx. pose proof (pins_reset y) as Hi.
  pose proof (dec_flying _ _ _ _ _ Hf) as Ed.
  assert (Hb : cpu_busy (pins_of y) y.1 = false) by (by rewrite (calm_busy _ _ _ Hc)).
  assert (Hd : reg_datain y.1 = nx) by (unfold reg_datain, mux_reg_input_sel; by rewrite Hs).
  assert (Hlink : linked w nx a = moved (pins_of y) y.1 a).
  { unfold moved, linked, reg_we, update_pc. rewrite Hs, Ed, Hd. cbn [andb].
    by destruct (exec_next_pc_from_alu (control w)), (write_reg (control w)). }
  split; cbn [system_clock fst].
  - rewrite clock_state by done. rewrite Hb. unfold next_state. rewrite Hs, Ed. by case_match.
  - rewrite Hlink. change 0%nat with (pred 0).
    apply carries_step; [done| |by unfold bus_en; rewrite Hs|by rewrite Hd|by unfold update_pc; rewrite Hs].
    unfold plain, cpu_request, trap_occured, mret_occured, next_test_finished. by rewrite Hs.
  - destruct (operands y.1 a w nx) as (E1 & E2 & E3); [by left|apply Hc|done|].
    exists (alu_inst y.1). split; [done|]. rewrite clock_alu by done. rewrite E1, E2, E3. unfold alu_en. by rewrite Hs.
  - apply flying_step; [done|by rewrite Hs..|done].
  - rewrite clock_done by done. unfold next_exec_done. by rewrite Hs.
  - rewrite clock_writeback by done. rewrite Hb. unfold next_writeback_from_bus. by rewrite Hs.
  - rewrite clock_from_csr by done. rewrite Hb. unfold next_pc_from_csr. by rewrite Hs.
  - rewrite clock_branch by done. unfold next_branch_pc_from_alu. by rewrite Hs.
Qed.

(** ** The last stage *)

Lemma update_step y a n :
  state y.1 = STATE_UPDATE_PC -> carries y a n -> (n <= 1)%nat -> busy (alu_inst y.1) = false ->
  u32_range (target y.1) -> (reg_we y.1 = true -> u32_range (reg_datain y.1)) ->
  models (system_clock y)
    (goto (target y.1) (if reg_we y.1 then set_x (o_rd (dec y.1)) (reg_datain y.1) a else a)).
Proof.
  intros Hs Hc Hn Ha Ht Hd. pose proof (pins_reset y) as Hi.
  assert (Hb : cpu_busy (pins_of y) y.1 = false) by (by rewrite (calm_busy _ _ _ Hc)).
  assert (En : next_pc y.1 = target y.1 - target y.1 mod 2) by (by apply next_pc_even).
  assert (Hev : u32_range (next_pc y.1) /\ next_pc y.1 mod 2 = 0).
  { unfold u32_range in *. rewrite En. zlia. }
  assert (Hmis : addr_misaligned y.1 = false) by (by apply aligned).
  apply models_carries. split_and!; cbn [system_clock fst].
  - rewrite clock_state by done. rewrite Hb. unfold next_state. rewrite Hs, pins_step, Hmis.
    by rewrite (h_running _ _ (co_regs _ _ (cy_core _ _ _ Hc))).
  - replace 0%nat with (pred n) by lia.
    replace (goto _ _) with (moved (pins_of y) y.1 a).
    + apply carries_step; [done| |by unfold bus_en; rewrite Hs|done|done].
      unfold plain, cpu_request, trap_occured, mret_occured, next_test_finished. by rewrite Hs, Hmis.
    + unfold moved, goto, update_pc. rewrite Hs, Hb, En. cbn [andb negb]. done.
  - rewrite clock_alu by done. unfold alu_en. rewrite Hs. by rewrite alu_idle.
Qed.

(** ** Instructions of the arithmetic unit *)

(** In POST_EXEC. *)
Record posted y a a' (w nx : Z) : Prop := {
  po_state : state y.1 = STATE_POST_EXEC;
  po_carries : carries y a' 0;
  po_flying : flying w nx (x_ a (o_rs1 (control w))) (x_ a (o_rs2 (control w))) y.1;
  po_done : exec_done y.1 = true;
  po_writeback : writeback_from_bus y.1 = false;
  po_csr : next_addr_from_csr y.1 = false;
}.

Lemma post_quiet y a a' w nx : posted y a a' w nx -> reg_we y.1 = false.
Proof.
  intros [Hs _ Hf _ _ _]. unfold reg_we. rewrite Hs, (dec_flying _ _ _ _ _ Hf).
  destruct (control_sane w) as [Hw _]. destruct (exec_next_pc_from_alu (control w)); [done|]. cbn.
  destruct (write_reg (control w)); [by specialize (Hw eq_refl)|done].
Qed.

Lemma post_carries y a a' w nx : posted y a a' w nx -> carries (system_clock y) a' 0.
Proof.
  intros Hp. pose proof (post_quiet _ _ _ _ _ Hp) as Hw. destruct Hp as [Hs Hc Hf _ _ _].
  change 0%nat with (pred 0).
  apply carries_stay; [done| |by unfold bus_en; rewrite Hs|done|by unfold update_pc; rewrite Hs].
  unfold plain, cpu_request, trap_occured, mret_occured, next_test_finished. by rewrite Hs.
Qed.

Lemma post_wait y a a' w nx :
  posted y a a' w nx -> busy (alu_inst y.1) = true -> posted (system_clock y) a a' w nx.
Proof.
  intros Hp Hb. pose proof (post_carries _ _ _ _ _ Hp) as Hc'. destruct Hp as [Hs Hc Hf Hd Hw Hk].
  pose proof (pins_reset y) as Hi. pose proof (calm_busy _ _ _ Hc) as Hcb. rewrite Hb in Hcb.
  split; [| done | | | |]; cbn [system_clock fst].
  - rewrite clock_state by done. by rewrite Hcb.
  - apply flying_step; [done|by rewrite Hs..|done].
  - rewrite clock_done by done. by rewrite Hs.
  - rewrite clock_writeback by done. by rewrite Hcb.
  - rewrite clock_from_csr by done. by rewrite Hcb.
Qed.

(** Before the next instruction, the arithmetic unit is done. *)
Record finished y a a' (w nx res : Z) : Prop := {
  fi_state : state y.1 = STATE_UPDATE_PC;
  fi_carries : carries y a' 0;
  fi_busy : busy (alu_inst y.1) = false;
  fi_result : alu_dataout y.1 = res;
  fi_flying : flying w nx (x_ a (o_rs1 (control w))) (x_ a (o_rs2 (control w))) y.1;
  fi_done : exec_done y.1 = true;
  fi_writeback : writeback_from_bus y.1 = false;
  fi_csr : next_addr_from_csr y.1 = false;
  fi_branch : branch_pc_from_alu y.1 = false;
}.

Lemma post_step y a a' w nx res :
  posted y a a' w nx -> busy (alu_inst y.1) = false -> result (alu_inst y.1) = res ->
  finished (system_clock y) a a' w nx res.
Proof.
  intros Hp Hb Hr. pose proof (post_carries _ _ _ _ _ Hp) as Hc'. destruct Hp as [Hs Hc Hf Hd Hw Hk].
  pose proof (pins_reset y) as Hi. pose proof (calm_busy _ _ _ Hc) as Hcb. rewrite Hb in Hcb.
  assert (Ealu : alu_inst (cpu_clock (pins_of y) y.1) = alu_inst y.1).
  { rewrite clock_alu by done. unfold alu_en. rewrite Hs. by apply alu_idle. }
  split; [| done | | | | | | |]; cbn [system_clock fst].
  - rewrite clock_state by done. rewrite Hcb. unfold next_state. by rewrite Hs.
  - by rewrite Ealu.
  - unfold alu_dataout. by rewrite Ealu.
  - apply flying_step; [done|by rewrite Hs..|done].
  - rewrite clock_done by done. by rewrite Hs.
  - rewrite clock_writeback by done. rewrite Hcb. unfold next_writeback_from_bus. by rewrite Hs.
  - rewrite clock_from_csr by done. rewrite Hcb. unfold next_pc_from_csr. by rewrite Hs.
  - rewrite clock_branch by done. unfold next_branch_pc_from_alu. by rewrite Hs.
Qed.

Lemma linked_rest w nx a : apc (linked w nx a) = apc a /\ acsr (linked w nx a) = acsr a.
Proof. unfold linked, set_x. by repeat case_match. Qed.

(** EXEC and POST_EXEC, with the result of the operation. *)
Lemma exec_leads y a w nx :
  started y a w nx -> u32_range nx -> exec_next_stage (control w) = EXEC_TO_FETCH ->
  leads (fun y => finished y a (linked w nx a) w nx
    (alu_value (alu_oper (control w)) (val a (operand1 w)) (val a (operand2 w)))) y.
Proof.
  intros Hst Hnx Hstage. pose proof (operand_range y.1 a w ltac:(apply Hst)) as (Hu & Hv).
  apply leads_next; [by rewrite (st_state _ _ _ _ Hst)|].
  destruct (exec_step y a w nx Hst Hnx) as [Hs Hc (r & Hr & Ealu) Hf Hd Hw Hk _]. rewrite Hstage in Hs.
  set (y1 := system_clock y) in *. set (u := val a (operand1 w)) in *. set (v := val a (operand2 w)) in *.
  eapply leads_trans; [apply (wait_alu (fun y => posted y a (linked w nx a) w nx) u v (alu_oper (control w))
    (latency (alu_oper (control w)) u v) (alu_value (alu_oper (control w)) u v))|].
  - intros z Hz. split; [apply Hz|]. cbn [system_clock fst]. rewrite clock_alu by apply pins_reset.
    destruct (operands z.1 a w nx) as (E1 & E2 & E3); [right; apply Hz| |apply Hz|].
    + rewrite (h_pc _ _ (co_regs _ _ (cy_core _ _ _ (po_carries _ _ _ _ _ Hz)))). apply linked_rest.
    + rewrite E1, E2, E3. unfold alu_en. by rewrite (po_state _ _ _ _ _ Hz).
  - intros z Hz Hb. by apply post_wait.
  - rewrite Ealu. by apply alu_finishes.
  - done.
  - intros z (Hz & Hb & Hres). apply leads_next; [by rewrite (po_state _ _ _ _ _ Hz)|]. apply leads_here.
    by apply post_step.
Qed.

(** ** Effects *)

(** The instruction is carried out. *)
Definition carried_out y a (nx : Z) (act : action) : Prop :=
  leads (fun y' => exists a', models y' a' /\ executes nx a act a') y.

Lemma meaning_operands w :
  meaning w =
  match exec_next_stage (control w) with
  | EXEC_TO_FETCH =>
      if exec_next_pc_from_alu (control w)
      then Jump (if write_reg (control w) then o_rd (control w) else 0) (operand1 w) (operand2 w)
      else if exec_writeback_from_alu (control w)
      then Compute (o_rd (control w)) (alu_oper (control w)) (operand1 w) (operand2 w)
      else if exec_writeback_from_imm (control w) then Move (o_rd (control w)) (imm_of w)
      else Nothing
  | EXEC_TO_LOAD => LoadFrom (funct3 w) (o_rd (control w)) (o_rs1 (control w)) (imm_of w)
  | EXEC_TO_STORE => StoreTo (funct3 w) (o_rs1 (control w)) (o_rs2 (control w)) (imm_of w)
  | EXEC_TO_BRANCH => BranchIf (branchmask_of w) (o_rs1 (control w)) (o_rs2 (control w)) (imm_of w)
  | EXEC_TO_SYSTEM => Special (funct3 w) (o_rd (control w)) (o_rs1 (control w)) (slice 11 0 (imm_of w))
  | EXEC_TO_TRAP | EXEC_TO_DEAD => Illegal
  end.
Proof. reflexivity. Qed.

Lemma computed y a w nx :
  started y a w nx -> u32_range nx -> exec_next_stage (control w) = EXEC_TO_FETCH ->
  carried_out y a nx (meaning w).
Proof.
  intros Hst Hnx Hstage. pose proof (operand_range y.1 a w ltac:(apply Hst)) as (Hu & Hv).
  eapply leads_trans; [by apply exec_leads|]. intros z Hz.
  set (res := alu_value _ _ _) in *.
  assert (Hres : u32_range res) by (by apply alu_value_range).
  destruct (control_sane w) as [_ Hsane]. rewrite Hstage in Hsane.
  destruct Hz as [Hs Hc Hb Er Hf Hd Hw Hk Hbr]. pose proof (dec_flying _ _ _ _ _ Hf) as Ed.
  pose proof (imm_range w) as Himm.
  assert (Et : target z.1 = if exec_next_pc_from_alu (control w) then res else nx).
  { unfold target. rewrite Hk, Hbr, Ed, Er, orb_false_r. by rewrite (fl_next _ _ _ _ _ Hf). }
  assert (Ewe : reg_we z.1 = exec_writeback_from_imm (control w) || exec_writeback_from_alu (control w)).
  { unfold reg_we. rewrite Hs, Hw, Hd, Ed. by rewrite andb_true_r. }
  assert (Edat : reg_datain z.1 = if exec_writeback_from_alu (control w) then res
    else if exec_writeback_from_imm (control w) then
      match exec_mux_reg_input_sel (control w) with
      | MUX_REGINPUT_IMM => imm_of w | _ => reg_datain z.1 end else reg_datain z.1).
  { unfold reg_datain, mux_reg_input_sel. rewrite Hs, Ed.
    destruct (exec_writeback_from_alu (control w)); [done|].
    destruct (exec_writeback_from_imm (control w)); [|done].
    destruct (exec_mux_reg_input_sel (control w)); try done. by apply (imm_flying _ _ _ _ _ Hf). }
  apply leads_next; [by rewrite Hs|]. apply leads_here.
  assert (Hdr : reg_we z.1 = true -> u32_range (reg_datain z.1)).
  { rewrite Ewe. intros Hor. rewrite Edat.
    destruct (exec_next_pc_from_alu (control w)); [destruct Hsane as (E1 & E2 & _); by rewrite E1, E2 in Hor|].
    destruct (exec_writeback_from_alu (control w)); [done|]. destruct Hsane as (_ & E).
    destruct (exec_writeback_from_imm (control w)); [by rewrite E|done]. }
  eexists. split.
  - apply (update_step z _ 0 Hs Hc ltac:(lia) Hb); [|exact Hdr]. rewrite Et. by destruct (exec_next_pc_from_alu (control w)).
  - rewrite Et, Ewe, Edat, Ed, meaning_operands, Hstage. unfold linked.
    destruct (exec_next_pc_from_alu (control w)) eqn:Ep; cbn [andb].
    + destruct Hsane as (-> & -> & Eadd). cbn [orb]. unfold res. rewrite Eadd.
      replace (if write_reg (control w) then set_x (o_rd (control w)) nx a else a)
        with (set_x (if write_reg (control w) then o_rd (control w) else 0) nx a) by (by destruct (write_reg (control w))).
      apply ex_jump.
    + destruct (exec_writeback_from_alu (control w)); [rewrite orb_true_r; apply ex_compute|].
      destruct Hsane as (_ & E). destruct (exec_writeback_from_imm (control w)); cbn [orb].
      * rewrite E by done. apply ex_move.
      * apply ex_nothing.
Qed.

Lemma branched y a w nx :
  started y a w nx -> u32_range nx -> exec_next_stage (control w) = EXEC_TO_BRANCH ->
  carried_out y a nx (meaning w).
Proof.
  intros Hst Hnx Hstage. pose proof (operand_range y.1 a w ltac:(apply Hst)) as (Hu & Hv).
  apply leads_next; [by rewrite (st_state _ _ _ _ Hst)|].
  destruct (exec_step y a w nx Hst Hnx) as [Hs Hc (r & Hr & Ealu) Hf Hd Hw Hk _]. rewrite Hstage in Hs.
  set (y1 := system_clock y) in *. destruct (control_sane w) as [_ Hsane]. rewrite Hstage in Hsane.
  destruct Hsane as ((Nw1 & Nw2 & Nw3 & Nw4) & Em1 & Em2). unfold operand1, operand2 in *. rewrite Em1, Em2 in *.
  cbn [val] in *. rewrite Nw4 in Ealu. unfold linked in Hc. rewrite Nw3 in Hc. cbn [andb] in Hc.
  pose proof (pins_reset y1) as Hi. pose proof (dec_flying _ _ _ _ _ Hf) as Ed.
  pose proof (imm_flying _ _ _ _ _ Hf) as Ei.
  assert (Hb1 : busy (alu_inst y1.1) = false) by (rewrite Ealu; exact Hr).
  assert (Hcb : cpu_busy (pins_of y1) y1.1 = false) by (rewrite (calm_busy _ _ _ Hc); done).
  apply leads_next; [by rewrite Hs|]. set (y2 := system_clock y1) in *.
  assert (Hc2 : carries y2 a 0).
  { change 0%nat with (pred 0).
    apply carries_stay; [done| |by unfold bus_en; rewrite Hs|by unfold reg_we; rewrite Hs|by unfold update_pc; rewrite Hs].
    unfold plain, cpu_request, trap_occured, mret_occured, next_test_finished. by rewrite Hs. }
  assert (Hs2 : state y2.1 = STATE_UPDATE_PC).
  { cbn [y2 system_clock fst]. rewrite clock_state by done. rewrite Hcb. unfold next_state. by rewrite Hs. }
  assert (Hf2 : flying w nx (x_ a (o_rs1 (control w))) (x_ a (o_rs2 (control w))) y2.1).
  { apply flying_step; [done|by rewrite Hs..|done]. }
  pose proof (dec_flying _ _ _ _ _ Hf2) as Ed2.
  assert (Ealu2 : alu_inst y2.1 = alu_clock (apc a) (imm_of w) ALUOP_ADD true false (alu_inst y1.1)).
  { cbn [y2 system_clock fst]. rewrite clock_alu by done. unfold alu_en, alu_op_final, alu_dataS1, alu_dataS2,
      mux_alu_s1_sel_f, mux_alu_s2_sel_f. rewrite Hs, Ei.
    by rewrite (h_pc _ _ (co_regs _ _ (cy_core _ _ _ Hc))). }
  assert (Etk : branch_pc_from_alu y2.1 =
    taken (branchmask_of w) (x_ a (o_rs1 (control w))) (x_ a (o_rs2 (control w)))).
  { cbn [y2 system_clock fst]. rewrite clock_branch by done. unfold next_branch_pc_from_alu, branch, dec_branchmask.
    rewrite Hs, (fl_word _ _ _ _ _ Hf), Ealu.
    destruct (flags_clock _ _ ALUOP_ADD true r Hu Hv eq_refl) as (E1 & E2 & E3). cbv zeta in E1, E2, E3.
    rewrite E1, E2, E3, branch_wires by apply branchmask_range. done. }
  assert (Ek2 : next_addr_from_csr y2.1 = false).
  { cbn [y2 system_clock fst]. rewrite clock_from_csr by done. rewrite Hcb. unfold next_pc_from_csr. by rewrite Hs. }
  assert (Ew2 : writeback_from_bus y2.1 = false).
  { cbn [y2 system_clock fst]. rewrite clock_writeback by done. rewrite Hcb. unfold next_writeback_from_bus. by rewrite Hs. }
  assert (Et : target y2.1 = if branch_pc_from_alu y2.1 then w32 (apc a + imm_of w) else nx).
  { unfold target. rewrite Ek2, Ed2, Nw3. cbn [orb]. rewrite (fl_next _ _ _ _ _ Hf2). unfold alu_dataout.
    by rewrite Ealu2, add_result. }
  assert (Ewe : reg_we y2.1 = false) by (unfold reg_we; by rewrite Hs2, Ew2, Ed2, Nw1, Nw2).
  apply leads_next; [by rewrite Hs2|]. apply leads_here. eexists. split.
  - apply (update_step y2 a 0 Hs2 Hc2 ltac:(lia)); [by rewrite Ealu2| |by rewrite Ewe].
    rewrite Et. case_match; [apply (wrap_range 32); lia|done].
  - rewrite Ewe, Et, Etk, meaning_operands, Hstage. apply ex_branch.
Qed.
End Exec.
