(* ===== verification/RtlMem.v ===== *)
(** * Loads and stores

    The stages LOAD1, LOAD2, STORE1 and STORE2.  During a store the core also
    reads MIP, to clear the timer bit when the compare register of the timer
    is written. *)

From S2P Require Import Prelude RtlAlu RtlAluFacts RtlDecoder RtlDecoderFacts RtlCpu RtlSystem RtlSpec.
From S2P Require Import RtlCoreFacts RtlFetch RtlExec.
Import Alu Decoder.

(** ** The access to MIP during a store *)

(** MIP with the timer bit cleared. *)
Definition mip_cleared (v : cregs) : Z := with_bit 7 false (file v M_IP).

Record mip_access (k : csr) (v : cregs) : Prop := {
  ma_addr : stored_addr k = MSR_MIP;
  ma_clear : tags_irq_clear k = false;
  ma_rnd : u32_range (rnd_data k);
  ma_typed : cregs_typed v;
  ma_others i : 0 <= i < 13 -> i <> M_IP -> mem (csr0 k) i = file v i;
  ma_flags : irq_en k = mie v /\ irq_timer_en k = mtie v /\ tags_en k = tags_on v /\
    tags_if_en k = fetch_tags_on v /\ tags_skip_sp_en k = skip_sp v;
  ma_mip : mem (csr0 k) M_IP = file v M_IP \/ mem (csr0 k) M_IP = mip_cleared v;
  ma_out : csr_busy k = false -> data_o (csr0 k) = file v M_IP \/ data_o (csr0 k) = mip_cleared v;
  ma_we : we k = true -> csr_busy k = true /\ stored_data k = mip_cleared v;
}.

(** The timer bit is cleared, or about to be. *)
Definition mip_done (k : csr) (v : cregs) : Prop := mem (csr0 k) M_IP = mip_cleared v \/ we k = true.

(** One clock of STORE2, with [t] when the timer asks for it. *)
Definition mip_clock (t : bool) (k : csr) : csr :=
  if t then
    csr_clock false true true MSR_MIP
      (let d := csr_data_o k in cat [(24, slice 31 8 d); (1, 0); (7, slice 6 0 d)]) k
  else csr_clock false false false 0 0 k.

Lemma mip_cleared_range v : cregs_typed v -> u32_range (mip_cleared v).
Proof. intros Hv. apply with_bit_range; [by apply Hv|lia]. Qed.

Lemma mip_request k v :
  mip_access k v -> csr_busy k = false ->
  cat [(24, slice 31 8 (csr_data_o k)); (1, 0); (7, slice 6 0 (csr_data_o k))] = mip_cleared v.
Proof.
  intros [Ha _ _ Ht _ _ _ Ho _] Hb. unfold csr_data_o. rewrite Ha. cbn [csr_index Z.eqb Pos.eqb].
  pose proof (mip_cleared_range v Ht). destruct (Ho Hb) as [-> | ->];
    rewrite (mip_wires false) by (done || by apply Ht); [done|]. unfold mip_cleared. by rewrite with_bit_idem.
Qed.

Lemma mip_step t k v :
  mip_access k v ->
  let k' := mip_clock t k in
  mip_access k' v /\ (mip_done k v -> mip_done k' v) /\ (csr_busy k = true -> csr_busy k' = false) /\
  (csr_busy k = false -> t = true -> mip_done k' v) /\ (t = false -> csr_busy k' = false).
Proof.
  intros Hk k'. pose proof (mip_request k v Hk) as Hrq. pose proof Hk as [Ha Hc Hr Ht Hot Hf Hm Ho Hw].
  assert (Emem : mem (csr0 k') = if we k then put M_IP (mip_cleared v) (mem (csr0 k)) else mem (csr0 k)).
  { unfold k', mip_clock. destruct t; cbn [csr0 csr_clock generic_ram_clock mem]; rewrite Ha; cbn [csr_index Z.eqb Pos.eqb];
      (destruct (we k); [|done]); destruct (Hw eq_refl) as [_ ->];
      (rewrite wrap_small by (apply mip_cleared_range; done)); done. }
  assert (Edo : data_o (csr0 k') = mem (csr0 k) M_IP).
  { unfold k', mip_clock. destruct t; cbn [csr0 csr_clock generic_ram_clock data_o]; by rewrite Ha. }
  assert (Eb : csr_busy k' = if csr_busy k then false else t).
  { unfold k', mip_clock. destruct t; cbn [csr_busy csr_clock]; by destruct (csr_busy k). }
  assert (Ew : we k' = if csr_busy k then false else t).
  { unfold k', mip_clock. destruct t; cbn [we csr_clock]; destruct (csr_busy k); try done.
    destruct (we k); [by destruct (Hw eq_refl)|done]. }
  assert (Hdone : mip_done k v -> mip_done k' v).
  { unfold mip_done. rewrite Emem. intros [E|E]; left.
    - destruct (we k); [done|done].
    - by rewrite E. }
  assert (Hreq : csr_busy k = false -> t = true -> mip_done k' v) by (intros E ->; right; by rewrite Ew, E).
  split_and!; [|done|by intros E; rewrite Eb, E|done|by intros ->; rewrite Eb; destruct (csr_busy k)].
  split; [|by destruct t|by destruct t; apply lfsr_range|done| | | | |].
  - unfold k', mip_clock. destruct t; done.
  - intros i Hi Hn. rewrite Emem. destruct (we k); [|by apply Hot]. unfold put.
    replace (i =? M_IP) with false by lia. by apply Hot.
  - unfold k', mip_clock. by destruct t.
  - rewrite Emem. destruct (we k); [by right|done].
  - rewrite Edo. done.
  - rewrite Ew, Eb. destruct (csr_busy k) eqn:E; [done|]. intros ->. split; [done|].
    unfold k', mip_clock. cbn [stored_data csr_clock negb andb]. by apply Hrq.
Qed.

(** What is to become of MIP: cleared if [g], else nothing. *)
Definition mip_goal (g : bool) (k : csr) (v : cregs) : Prop :=
  if g then mip_done k v else mem (csr0 k) M_IP = file v M_IP /\ we k = false.

Lemma mip_keep g t k v :
  mip_access k v -> mip_goal g k v -> (t = true -> g = true) -> mip_goal g (mip_clock t k) v.
Proof.
  intros Hk Hg Ht. destruct g; [by apply (proj1 (proj2 (mip_step t k v Hk)))|]. destruct t; [by specialize (Ht eq_refl)|].
  destruct Hg as [Hm Hw]. unfold mip_goal, mip_clock. cbn. rewrite Hw. cbn. split; [done|]. by destruct (csr_busy k).
Qed.

(** The store is over. *)
Lemma mip_over k v :
  mip_access k v -> mip_done k v -> csr_busy k = false -> csr_calm k (put_csr MSR_MIP (mip_cleared v) v).
Proof.
  intros [Ha Hc Hr Ht Hot Hf Hm Ho Hw] Hd Hb.
  assert (Hwe : we k = false) by (destruct (we k); [destruct (Hw eq_refl); congruence|done]).
  split; [done|done| |apply typed_put; [done|by apply mip_cleared_range]|done].
  split; [|exact Hf]. intros i Hi. cbn. unfold put. destruct (Z.eqb_spec i 11) as [->|].
  - destruct Hd as [E|E]; [exact E|congruence].
  - by apply Hot.
Qed.

Lemma mip_calm g k v :
  mip_access k v -> mip_goal g k v -> csr_busy k = false ->
  csr_calm k (if g then put_csr MSR_MIP (mip_cleared v) v else v).
Proof.
  intros Hk Hg Hb. destruct g; [by apply mip_over|]. destruct Hk as [Ha Hc Hr Ht Hot Hf Hm Ho Hw].
  destruct Hg as [Hm' Hw']. split; try done. split; [|exact Hf].
  intros i Hi. destruct (Z.eq_dec i 11) as [->|]; [done|by apply Hot].
Qed.

(** It begins with a read of MIP. *)
Lemma mip_begin k v :
  csr_calm k v -> tags_irq_clear k = false ->
  let k' := csr_clock false true false MSR_MIP 0 k in mip_access k' v /\ csr_busy k' = true.
Proof.
  intros [Hb Hw Hv Ht Hr] Hc k'. split; [|unfold k'; cbn; by rewrite Hb].
  destruct Hv as (H1 & H2 & H3 & H4 & H5 & H6). cbn in *.
  assert (Em : mem (csr0 k') = mem (csr0 k)) by (unfold k'; cbn; by rewrite Hw).
  split; try done.
  - apply lfsr_range.
  - intros i Hi _. rewrite Em. by apply H1.
  - left. rewrite Em. by apply H1.
  - unfold k'. cbn. by rewrite Hb.
  - unfold k'. cbn. by rewrite Hb.
Qed.

Section Mem.
Context {S M : Type} `{SlaveLaws S M}.
Implicit Types (y : system S) (a : arch M).

(** What is kept while an access takes place. *)
Record awaiting (w nx u v : Z) (c : cpu) : Prop := {
  aw_flying : flying w nx u v c;
  aw_done : exec_done c = true;
  aw_writeback : writeback_from_bus c = false;
  aw_csr : next_addr_from_csr c = false;
  aw_alu : busy (alu_inst c) = false;
}.

(** States that leave the instruction in flight alone. *)
Definition passive (st : cpu_state) : bool :=
  match st with
  | STATE_LOAD1 | STATE_LOAD2 | STATE_STORE1 | STATE_STORE2 | STATE_SYSTEM | STATE_CSR1 | STATE_CSR2
  | STATE_UPDATE_PC => true
  | _ => false
  end.

Lemma awaiting_step i c w nx u v :
  RST_I i = false -> passive (state c) = true -> (state c = STATE_LOAD2 -> cpu_busy i c = true) ->
  awaiting w nx u v c -> awaiting w nx u v (cpu_clock i c).
Proof.
  intros Hi Hs Hb [Hf Hd Hw Hk Ha]. split.
  - apply flying_step; [done|by intros E; rewrite E in Hs..|done].
  - rewrite clock_done by done. by destruct (state c).
  - rewrite clock_writeback by done. unfold next_writeback_from_bus. case_match; [done|].
    destruct (state c); try done. by specialize (Hb eq_refl).
  - rewrite clock_from_csr by done. unfold next_pc_from_csr. case_match; [done|]. by destruct (state c).
  - rewrite clock_alu by done. unfold alu_en. by destruct (state c); rewrite ?alu_idle.
Qed.

(** The state after the address is computed. *)
Lemma address y a w nx :
  started y a w nx -> u32_range nx ->
  exec_next_stage (control w) = EXEC_TO_LOAD \/ exec_next_stage (control w) = EXEC_TO_STORE ->
  let y' := system_clock y in
  state y'.1 = stage_state (exec_next_stage (control w)) /\ carries y' a 0 /\
  alu_dataout y'.1 = w32 (x_ a (o_rs1 (control w)) + imm_of w) /\
  awaiting w nx (x_ a (o_rs1 (control w))) (x_ a (o_rs2 (control w))) y'.1 /\
  no_writeback (control w).
Proof.
  intros Hst Hnx Hstage y'. destruct (exec_step y a w nx Hst Hnx) as [Hs Hc (r & Hr & Ealu) Hf Hd Hw Hk _].
  fold y' in Hs, Hc, Ealu, Hf, Hd, Hw, Hk. destruct (control_sane w) as [_ Hsane].
  assert (Hsane' : no_writeback (control w) /\ exec_mux_alu_s1_sel (control w) = MUX_ALUDAT1_REGVAL1 /\
    exec_mux_alu_s2_sel (control w) = MUX_ALUDAT2_IMM) by (by destruct Hstage as [E|E]; rewrite E in Hsane).
  destruct Hsane' as (Hn & Em1 & Em2). pose proof Hn as (Nw1 & Nw2 & Nw3 & Nw4).
  unfold linked in Hc. rewrite Nw3 in Hc. unfold operand1, operand2 in Ealu. rewrite Em1, Em2, Nw4 in Ealu.
  split_and!; try done.
  - unfold alu_dataout. rewrite Ealu. apply add_result.
  - split; try done. by rewrite Ealu, add_busy.
Qed.

Lemma checks_eq c a w :
  same_cregs (cregs_of (csr_inst c)) (acsr a) -> dec c = control w -> dec_funct3 c = funct3 w ->
  state c = STATE_LOAD1 \/ state c = STATE_STORE1 ->
  next_check_tags c = checks a (funct3 w) (o_rs1 (control w)).
Proof.
  intros (_ & _ & _ & E1 & _ & E2) Ed Ef Hs. cbn in E1, E2. unfold next_check_tags, checks.
  rewrite Ed, Ef, E1, E2. destruct Hs as [-> | ->];
    destruct (funct3 w =? 7); cbn [negb andb]; try done;
    destruct (skip_sp (acsr a)), (tags_on (acsr a)), (o_rs1 (control w) =? 2); done.
Qed.

(** ** Loads *)

Definition load_request a (w : Z) : request :=
  Request (w32 (x_ a (o_rs1 (control w)) + imm_of w)) (x_ a (o_rs2 (control w))) (load_sel (funct3 w)) false
    true true (checks a (funct3 w) (o_rs1 (control w))) false.

Lemma load_started y a w nx :
  started y a w nx -> u32_range nx -> exec_next_stage (control w) = EXEC_TO_LOAD ->
  leads (fun y => state y.1 = STATE_LOAD2 /\ core_calm y.1 a /\ settled 0 y.2 (amem a) (tag_line a) /\
    requesting y.1 (load_op (funct3 w)) (load_request a w) /\
    awaiting w nx (x_ a (o_rs1 (control w))) (x_ a (o_rs2 (control w))) y.1) y.
Proof.
  intros Hst Hnx Hstage. apply leads_next; [by rewrite (st_state _ _ _ _ Hst)|].
  destruct (address y a w nx Hst Hnx ltac:(by left)) as (Hs & Hc & Ep & Haw & _). rewrite Hstage in Hs.
  set (y1 := system_clock y) in *. pose proof (pins_reset y1) as Hi.
  pose proof Haw as [Hf Hd Hw Hk Ha].
  assert (Hcb : cpu_busy (pins_of y1) y1.1 = false) by (by rewrite (calm_busy _ _ _ Hc)).
  apply leads_next; [by rewrite Hs|]. apply leads_here.
  destruct (carries_request y1 a 0 Hc) as (Hcore & Hm & Hr);
    [unfold plain, cpu_request, trap_occured, mret_occured, next_test_finished; by rewrite Hs
    |by unfold bus_en; rewrite Hs|by unfold reg_we; rewrite Hs|by unfold update_pc; rewrite Hs|].
  split_and!; try done; cbn [system_clock fst].
  - rewrite clock_state by done. rewrite Hcb. unfold next_state. by rewrite Hs.
  - assert (Eop : bus_op y1.1 = load_op (funct3 w)).
    { unfold bus_op. rewrite Hs, (f3_flying _ _ _ _ _ Hf). done. }
    rewrite Eop, load_sel_eq in Hr. unfold load_request.
    assert (Ew : bus_write (load_op (funct3 w)) = false) by (unfold load_op; by repeat case_match).
    rewrite Ew in Hr. unfold bus_addr, mux_bus_addr_sel in Hr. rewrite Hs, Ep, (fl_v _ _ _ _ _ Hf) in Hr.
    cbn [system_clock fst] in Hr. rewrite clock_check, Hs in Hr by done.
    rewrite (checks_eq y1.1 a w) in Hr; [done|apply Hc|by apply (dec_flying _ _ _ _ _ Hf)
      |by apply (f3_flying _ _ _ _ _ Hf)|by left].
  - apply awaiting_step; by rewrite ?Hs.
Qed.

(** The last stage of a load. *)
Lemma load_ended y a w nx d :
  state y.1 = STATE_LOAD2 -> carries y a 1 -> awaiting w nx (reg_val1 y.1) (reg_val2 y.1) y.1 ->
  bus_dataout y.1 = d -> u32_range d -> u32_range nx -> no_writeback (control w) ->
  leads (fun y => models y (goto nx (set_x (o_rd (control w)) d a))) y.
Proof.
  intros Hs Hc [Hf Hd Hw Hk Ha] Ed Hdr Hnx (Nw1 & Nw2 & Nw3 & Nw4). pose proof (pins_reset y) as Hi.
  assert (Hcb : cpu_busy (pins_of y) y.1 = false) by (by rewrite (calm_busy _ _ _ Hc)).
  pose proof (calm_ack _ _ _ Hc) as Hack.
  apply leads_next; [by rewrite Hs|]. set (y1 := system_clock y) in *.
  assert (Hc1 : carries y1 a 0).
  { change 0%nat with (pred 1).
    apply carries_stay; [done| |by unfold bus_en; rewrite Hs|by unfold reg_we; rewrite Hs|by unfold update_pc; rewrite Hs].
    unfold plain, cpu_request, trap_occured, mret_occured, next_test_finished. by rewrite Hs. }
  assert (Hs1 : state y1.1 = STATE_UPDATE_PC).
  { cbn [y1 system_clock fst]. rewrite clock_state by done. rewrite Hcb. unfold next_state. by rewrite Hs. }
  assert (Hf1 : flying w nx (reg_val1 y.1) (reg_val2 y.1) y1.1) by (apply flying_step; [done|by rewrite Hs..|done]).
  pose proof (dec_flying _ _ _ _ _ Hf1) as Edec.
  assert (Ewb : writeback_from_bus y1.1 = true).
  { cbn [y1 system_clock fst]. rewrite clock_writeback by done. rewrite Hcb. unfold next_writeback_from_bus. by rewrite Hs. }
  assert (Edone : exec_done y1.1 = true) by (cbn [y1 system_clock fst]; rewrite clock_done by done; by rewrite Hs).
  assert (Ek : next_addr_from_csr y1.1 = false).
  { cbn [y1 system_clock fst]. rewrite clock_from_csr by done. rewrite Hcb. unfold next_pc_from_csr. by rewrite Hs. }
  assert (Ebr : branch_pc_from_alu y1.1 = false).
  { cbn [y1 system_clock fst]. rewrite clock_branch by done. unfold next_branch_pc_from_alu. by rewrite Hs. }
  assert (Ewe : reg_we y1.1 = true) by (unfold reg_we; by rewrite Hs1, Ewb, Edone).
  assert (Edat : reg_datain y1.1 = d).
  { unfold reg_datain, mux_reg_input_sel. rewrite Hs1, Edec, Nw1, Nw2. rewrite <- Ed. unfold bus_dataout.
    cbn [y1 system_clock fst]. rewrite clock_bus by done. unfold bus_en. by rewrite Hs, Hack, bus_hold. }
  assert (Et : target y1.1 = nx) by (unfold target; rewrite Ek, Ebr, Edec, Nw3; apply Hf1).
  apply leads_next; [by rewrite Hs1|]. apply leads_here.
  pose proof (update_step y1 a 0 Hs1 Hc1 ltac:(lia)) as Hup. rewrite Et, Ewe, Edat, Edec in Hup.
  apply Hup; [|done|done]. cbn [y1 system_clock fst]. rewrite clock_alu by done. unfold alu_en. rewrite Hs.
  by rewrite alu_idle.
Qed.

Lemma loaded y a w nx :
  started y a w nx -> u32_range nx -> exec_next_stage (control w) = EXEC_TO_LOAD -> runs_on a (meaning w) ->
  carried_out y a nx (meaning w).
Proof.
  intros Hst Hnx Hstage Hrun. rewrite meaning_operands, Hstage in *. cbn [runs_on] in Hrun.
  destruct (address y a w nx Hst Hnx ltac:(by left)) as (_ & _ & _ & _ & Hn).
  eapply leads_trans; [by apply load_started|]. intros [c s] (Hs & Hcore & Hm & Hr & Haw). cbn [fst snd] in *.
  destruct (serve s _ _ (load_request a w) Hm) as (d & s' & Hv & Hd & Hdm & Hs'); [done|apply load_sel_valid|done|done|].
  set (u := x_ a (o_rs1 (control w))) in *. set (v := x_ a (o_rs2 (control w))) in *.
  set (J := fun c => core_calm c a /\ awaiting w nx u v c).
  eapply leads_trans; [apply (wait_bus STATE_LOAD2 J J (load_op (funct3 w)) (load_request a w) d c s s')|].
  - unfold waits; auto.
  - done.
  - by intros c' [Hc' _]; apply (co_clear _ _ Hc').
  - intros c' s'' Hs2 Hr2 [Hc' Ha']. split.
    + rewrite <- (moved_same (pins_of (c', s'')) c' a) by (unfold reg_we, update_pc; by rewrite Hs2).
      apply core_calm_step; [done|done| | |];
        unfold plain, cpu_request, trap_occured, mret_occured, next_test_finished, reg_we, update_pc; by rewrite Hs2.
    + apply awaiting_step; [done|by rewrite Hs2|intros _; by apply bus_busy_busy, Hr2|done].
  - done.
  - done.
  - done.
  - done.
  - intros z (Hs2 & Hb2 & Ebuf & _ & Es' & Hc2 & Ha2). cbn [load_request r_adr r_we r_sel r_check r_dat] in *.
    set (p := w32 (u + imm_of w)) in *.
    set (a1 := set_line (line_after a (checks a (funct3 w) (o_rs1 (control w))) p) a).
    assert (Hcar : carries z a1 1) by (split; [by apply core_calm_line|done|by rewrite Es']).
    assert (Eu : reg_val1 z.1 = u /\ reg_val2 z.1 = v) by (destruct Ha2 as [[] _ _ _ _]; done).
    destruct Eu as [Eu Ev].
    eapply leads_mono; [|apply (load_ended z a1 w nx (load_value (funct3 w) d) Hs2 Hcar)];
      [|by rewrite Eu, Ev| |by apply load_value_range|done|done].
    + intros y' Hy'. eexists. split; [exact Hy'|]. by apply ex_load.
    + unfold bus_dataout. rewrite Ebuf, <- load_sel_eq. by apply load_wires.
Qed.

(** ** Stores *)

Definition store_op (f3 : Z) : Z :=
  if f3 =? FUNC_SB then BUSOP_WRITEB
  else if f3 =? FUNC_SH then BUSOP_WRITEH
  else if f3 =? FUNC_ST then BUSOP_WRITET
  else BUSOP_WRITEW.

Definition store_request a (w : Z) : request :=
  Request (w32 (x_ a (o_rs1 (control w)) + imm_of w)) (x_ a (o_rs2 (control w))) (store_sel (funct3 w)) true
    true true (checks a (funct3 w) (o_rs1 (control w))) false.

Lemma store_sel_eq f3 : mem_sel (store_op f3) = store_sel f3 /\ bus_write (store_op f3) = true.
Proof. unfold store_op, store_sel. by repeat case_match. Qed.

(** The core during a store. *)
Record storing (c : cpu) a (w nx : Z) : Prop := {
  so_regs : regs_hold c a;
  so_trap : no_trap c;
  so_wait : awaiting w nx (x_ a (o_rs1 (control w))) (x_ a (o_rs2 (control w))) c;
  so_mip : mip_access (csr_inst c) (acsr a);
}.

(** A clock of STORE2 for everything but the state. *)
Lemma storing_csr y a w nx :
  state y.1 = STATE_STORE2 -> storing y.1 a w nx ->
  let y' := system_clock y in
  regs_hold y'.1 a /\ no_trap y'.1 /\ csr_inst y'.1 = mip_clock (s_mtimecmp (request_of y.1)) (csr_inst y.1).
Proof.
  intros Hs [Hr Ht Hw Hm] y'. pose proof (pins_reset y) as Hi. cbn [y' system_clock fst]. split_and!.
  - rewrite <- (moved_same (pins_of y) y.1 a) by (unfold reg_we, update_pc; by rewrite Hs).
    apply regs_step; unfold next_test_finished, reg_we, update_pc; try done; by rewrite Hs.
  - apply no_trap_step; unfold trap_occured, mret_occured; try done; by rewrite Hs.
  - assert (E : clear_mip_timer_i (pins_of y) = s_mtimecmp (request_of y.1)) by (by destruct y).
    unfold mip_clock. rewrite <- E. destruct (clear_mip_timer_i (pins_of y)) eqn:Ec;
      (apply clock_csr; [done|]; rewrite calm_request_f by done; unfold cpu_request; by rewrite Hs, Ec).
Qed.

Lemma storing_step y a w nx :
  state y.1 = STATE_STORE2 -> cpu_busy (pins_of y) y.1 = true -> storing y.1 a w nx ->
  storing (system_clock y).1 a w nx /\ state (system_clock y).1 = STATE_STORE2.
Proof.
  intros Hs Hb Hst. destruct (storing_csr y a w nx Hs Hst) as (Hr & Ht & Ek). pose proof (pins_reset y) as Hi.
  split; [split|]; try done.
  - apply awaiting_step; [done|by rewrite Hs|done|apply Hst].
  - rewrite Ek. apply mip_step, Hst.
  - cbn [system_clock fst]. rewrite clock_state by done. by rewrite Hb.
Qed.

Lemma store_started y a w nx :
  started y a w nx -> u32_range nx -> exec_next_stage (control w) = EXEC_TO_STORE ->
  leads (fun y => state y.1 = STATE_STORE2 /\ storing y.1 a w nx /\ settled 0 y.2 (amem a) (tag_line a) /\
    csr_busy (csr_inst y.1) = true /\ mip_goal false (csr_inst y.1) (acsr a) /\
    requesting y.1 (store_op (funct3 w)) (store_request a w)) y.
Proof.
  intros Hst Hnx Hstage. apply leads_next; [by rewrite (st_state _ _ _ _ Hst)|].
  destruct (address y a w nx Hst Hnx ltac:(by right)) as (Hs & Hc & Ep & Haw & _). rewrite Hstage in Hs.
  set (y1 := system_clock y) in *. pose proof (pins_reset y1) as Hi.
  pose proof Haw as [Hf Hd Hw Hk Ha]. pose proof (cy_core _ _ _ Hc) as [Hr Hnt Hcsr Hcl].
  assert (Hcb : cpu_busy (pins_of y1) y1.1 = false) by (by rewrite (calm_busy _ _ _ Hc)).
  assert (Ek : csr_inst (system_clock y1).1 = csr_clock false true false MSR_MIP 0 (csr_inst y1.1)).
  { apply clock_csr; [done|]. rewrite calm_request_f by done. unfold cpu_request. by rewrite Hs. }
  destruct (mip_begin _ _ Hcsr Hcl) as [Hma Hbusy].
  apply leads_next; [by rewrite Hs|]. apply leads_here.
  split_and!; [| |exact (carries_idle y1 a 0 Hc)|by rewrite Ek| |].
  - cbn [system_clock fst]. rewrite clock_state by done. rewrite Hcb. unfold next_state. by rewrite Hs.
  - split; [| | |by rewrite Ek]; cbn [system_clock fst].
    + rewrite <- (moved_same (pins_of y1) y1.1 a) by (unfold reg_we, update_pc; by rewrite Hs).
      apply regs_step; unfold next_test_finished, reg_we, update_pc; try done; by rewrite Hs.
    + apply no_trap_step; unfold trap_occured, mret_occured; try done; by rewrite Hs.
    + apply awaiting_step; by rewrite ?Hs.
  - rewrite Ek. destruct Hcsr as [Hb0 Hw0 (Hv & _) _ _]. unfold mip_goal. cbn [csr0 csr_clock generic_ram_clock mem we]. rewrite Hb0, Hw0. cbn [andb].
    split; [by apply Hv|done].
  - pose proof (start_request (pins_of y1) y1.1 Hi (calm_ack _ _ _ Hc) ltac:(unfold bus_en; by rewrite Hs)) as Hq.
    change (cpu_clock (pins_of y1) y1.1) with (system_clock y1).1 in Hq. rewrite Ek in Hq.
    assert (Eop : bus_op y1.1 = store_op (funct3 w)).
    { unfold bus_op. rewrite Hs, (f3_flying _ _ _ _ _ Hf). done. }
    destruct (store_sel_eq (funct3 w)) as [Es Ew].
    rewrite Eop, Es, Ew in Hq. unfold bus_addr, mux_bus_addr_sel in Hq. rewrite Hs, Ep, (fl_v _ _ _ _ _ Hf) in Hq.
    cbn [system_clock fst] in Hq. rewrite clock_check, Hs in Hq by done.
    rewrite (checks_eq y1.1 a w) in Hq; [done|apply Hcsr|by apply (dec_flying _ _ _ _ _ Hf)
      |by apply (f3_flying _ _ _ _ _ Hf)|by right].
Qed.

(** The memory after the acknowledgement: it takes the next request after [n]
    clocks, of which the first keeps the address. *)
Definition easing y (n : nat) (m : M) (q : bool) : Prop :=
  match n with
  | 2%nat => s_ack (request_of y.1) y.2 = false /\ settled 1 (s_clock (request_of y.1) y.2) m q
  | _ => settled n y.2 m q
  end.

(** After the acknowledgement. *)
Record stored_ y a (w nx : Z) (g : bool) (m : M) (q : bool) (n : nat) : Prop := {
  sd_core : storing y.1 a w nx;
  sd_goal : mip_goal g (csr_inst y.1) (acsr a);
  sd_bus : bus_calm (bus_inst y.1);
  sd_request : s_mtimecmp (request_of y.1) = true -> g = true;
  sd_mem : easing y n m q;
  sd_last : (n <= 2)%nat;
}.

Definition store_effect a (g : bool) (m : M) (q : bool) : arch M :=
  let k := acsr a in
  set_acsr (if g then put_csr MSR_MIP (with_bit 7 false (file k M_IP)) k else k) (set_amem m (set_line q a)).

(** An idle clock for bus and memory. *)
Lemma easing_clock y m q n :
  bus_calm (bus_inst y.1) -> tags_irq_clear (csr_inst y.1) = false -> easing y n m q -> bus_en y.1 = false ->
  bus_inst (system_clock y).1 = bus_inst y.1 /\ settled (pred n) (system_clock y).2 m q.
Proof.
  intros Hb Hc Hm He. pose proof (calm_request_idle y.1 Hb) as Hi.
  assert (Hm' : s_ack (request_of y.1) y.2 = false /\ settled (pred n) (s_clock (request_of y.1) y.2) m q).
  { assert (Hid : settled n y.2 m q -> s_ack (request_of y.1) y.2 = false /\
      settled (pred n) (s_clock (request_of y.1) y.2) m q).
    { intros Hs. destruct (settled_idle n y.2 m q (request_of y.1) Hs Hi) as [Hack Hm']; [cbn; by rewrite Hc|].
      cbn [request_of r_clear] in Hm'. by rewrite Hc, andb_true_r in Hm'. }
    destruct n as [|[|[|n]]]; auto. }
  destruct Hm' as [Hack Hm']. split; [|exact Hm'].
  destruct y as [c s]. cbn [system_clock fst snd] in *. rewrite clock_bus by done. rewrite He.
  cbn [pins_of ACK_I DAT_I]. by rewrite Hack, bus_hold.
Qed.

Lemma quiet_clock y m q :
  bus_calm (bus_inst y.1) -> tags_irq_clear (csr_inst y.1) = false -> settled 0 y.2 m q -> bus_en y.1 = false ->
  bus_inst (system_clock y).1 = bus_inst y.1 /\ settled 0 (system_clock y).2 m q.
Proof. intros Hb Hc Hm He. exact (easing_clock y m q 0 Hb Hc Hm He). Qed.

(** The core waits for MIP. *)
Lemma store_wait y a w nx g m q n :
  state y.1 = STATE_STORE2 -> stored_ y a w nx g m q n -> csr_busy (csr_inst y.1) = true ->
  let y' := system_clock y in
  state y'.1 = STATE_STORE2 /\ stored_ y' a w nx g m q (pred n) /\ csr_busy (csr_inst y'.1) = false.
Proof.
  intros Hs [Hst Hg Hb Hrq Hm Hn] Hbusy y'. pose proof (so_mip _ _ _ _ Hst) as Hma.
  assert (Hcb : cpu_busy (pins_of y) y.1 = true) by (unfold cpu_busy, csr_is_busy; rewrite Hbusy; by rewrite orb_true_r).
  destruct (storing_step y a w nx Hs Hcb Hst) as [Hst' Hs']. destruct (storing_csr y a w nx Hs Hst) as (_ & _ & Ek).
  destruct (easing_clock y m q n Hb (ma_clear _ _ Hma) Hm ltac:(by_state Hs)) as [Eb Hm'].
  fold y' in Hst', Hs', Ek, Eb, Hm'.
  assert (Erq : request_of y'.1 = request_of y.1).
  { unfold request_of. rewrite Eb, (ma_clear _ _ (so_mip _ _ _ _ Hst')), (ma_clear _ _ Hma).
    cbn [y' system_clock fst]. rewrite clock_check by apply pins_reset. by rewrite Hs. }
  split_and!; [done| |].
  - split; [done| |by rewrite Eb|by rewrite Erq| |lia].
    + rewrite Ek. by apply mip_keep.
    + destruct n as [|[|[|n]]]; [done|done|done|lia].
  - rewrite Ek. destruct (mip_step (s_mtimecmp (request_of y.1)) _ _ Hma) as (_ & _ & Hx & _). by apply Hx.
Qed.

(** In UPDATE_PC. *)
Record closing y a (w nx : Z) (g : bool) (m : M) (q : bool) (n : nat) : Prop := {
  cl_state : state y.1 = STATE_UPDATE_PC;
  cl_core : storing y.1 a w nx;
  cl_goal : mip_goal g (csr_inst y.1) (acsr a);
  cl_bus : bus_calm (bus_inst y.1);
  cl_branch : branch_pc_from_alu y.1 = false;
  cl_mem : settled n y.2 m q;
  cl_last : (n <= 1)%nat;
}.

Lemma store_close y a w nx g m q n :
  state y.1 = STATE_STORE2 -> stored_ y a w nx g m q n -> csr_busy (csr_inst y.1) = false ->
  closing (system_clock y) a w nx g m q (pred n).
Proof.
  intros Hs [Hst Hg Hb Hrq Hm Hn] Hbusy. pose proof (pins_reset y) as Hi.
  pose proof Hst as [Hr [Hmr Htr] [Hf Hd Hw Hk Ha] Hma].
  assert (Hcb : cpu_busy (pins_of y) y.1 = false).
  { unfold cpu_busy, alu_busy, csr_is_busy, handling_trap, handling_mret. destruct Hb as (Hb & _).
    by rewrite Hb, Hbusy, Ha, Hmr, Htr, pins_halt. }
  destruct (storing_csr y a w nx Hs Hst) as (Hr' & Ht' & Ek).
  destruct (easing_clock y m q n Hb (ma_clear _ _ Hma) Hm ltac:(by_state Hs)) as [Eb Hm'].
  split; [|split; [done|done| |]| |by rewrite Eb| |done|lia].
  - cbn [system_clock fst]. rewrite clock_state by done. rewrite Hcb. unfold next_state. by rewrite Hs.
  - cbn [system_clock fst]. apply awaiting_step; by rewrite ?Hs.
  - rewrite Ek. by apply mip_step.
  - rewrite Ek. by apply mip_keep.
  - cbn [system_clock fst]. rewrite clock_branch by done. unfold next_branch_pc_from_alu. by rewrite Hs.
Qed.

Lemma closing_facts y a w nx g m q n :
  closing y a w nx g m q n -> u32_range nx -> no_writeback (control w) ->
  target y.1 = nx /\ reg_we y.1 = false /\ addr_misaligned y.1 = false.
Proof.
  intros [Hs Hst _ _ Hbr _ _] Hnx (Nw1 & Nw2 & Nw3 & _). destruct Hst as [_ _ [Hf _ Hw Hk _] _].
  pose proof (dec_flying _ _ _ _ _ Hf) as Ed.
  assert (Et : target y.1 = nx) by (unfold target; rewrite Hk, Hbr, Ed, Nw3; apply Hf).
  split_and!; [done|unfold reg_we; by rewrite Hs, Hw, Ed, Nw1, Nw2|apply aligned; [done|by rewrite Et]].
Qed.

Lemma closing_wait y a w nx g m q n :
  closing y a w nx g m q n -> u32_range nx -> no_writeback (control w) -> csr_busy (csr_inst y.1) = true ->
  closing (system_clock y) a w nx g m q (pred n) /\ csr_busy (csr_inst (system_clock y).1) = false.
Proof.
  intros Hc Hnx Hn Hbusy. destruct (closing_facts _ _ _ _ _ _ _ _ Hc Hnx Hn) as (_ & Hwe & Hmis).
  destruct Hc as [Hs [Hr Ht Hw Hma] Hg Hb Hbr Hm Hle]. pose proof (pins_reset y) as Hi.
  assert (Hcb : cpu_busy (pins_of y) y.1 = true) by (unfold cpu_busy, csr_is_busy; rewrite Hbusy; by rewrite orb_true_r).
  assert (He : easing y n m q) by (destruct n as [|[|n]]; [done|done|lia]).
  destruct (easing_clock y m q n Hb (ma_clear _ _ Hma) He ltac:(by_state Hs)) as [Eb Hm'].
  assert (Ek : csr_inst (system_clock y).1 = mip_clock false (csr_inst y.1)).
  { apply clock_csr; [done|]. rewrite calm_request_f by done. unfold cpu_request. by rewrite Hs, Hmis. }
  split; [|rewrite Ek; cbn; by rewrite Hbusy]. split; [|split| |by rewrite Eb| |done|lia].
  - cbn [system_clock fst]. rewrite clock_state by done. by rewrite Hcb.
  - replace a with (moved (pins_of y) y.1 a) by (unfold moved; by rewrite Hwe, Hcb, andb_false_r).
    apply regs_step; [done|done|unfold next_test_finished; by rewrite Hs|by rewrite Hwe|].
    by rewrite Hcb.
  - apply no_trap_step; unfold trap_occured, mret_occured; try done; by rewrite Hs.
  - apply awaiting_step; by rewrite ?Hs.
  - rewrite Ek. by apply mip_step.
  - rewrite Ek. by apply mip_keep.
  - cbn [system_clock fst]. rewrite clock_branch by done. unfold next_branch_pc_from_alu. by rewrite Hs.
Qed.

Lemma closing_end y a w nx g m q n :
  closing y a w nx g m q n -> u32_range nx -> no_writeback (control w) -> csr_busy (csr_inst y.1) = false ->
  models (system_clock y) (goto nx (store_effect a g m q)).
Proof.
  intros Hc Hnx Hn Hbusy. destruct (closing_facts _ _ _ _ _ _ _ _ Hc Hnx Hn) as (Et & Hwe & _).
  destruct Hc as [Hs [[] Ht Hw Hma] Hg Hb Hbr Hm Hle].
  assert (Hcar : carries y (store_effect a g m q) n).
  { split; [split|done|done]; [done|done| |apply Hma]. by apply mip_calm. }
  pose proof (update_step y _ n Hs Hcar Hle (aw_alu _ _ _ _ _ Hw)) as Hup. rewrite Et, Hwe in Hup. by apply Hup.
Qed.

Lemma store_ended y a w nx g m q n :
  state y.1 = STATE_STORE2 -> stored_ y a w nx g m q n -> u32_range nx -> no_writeback (control w) ->
  leads (fun y => models y (goto nx (store_effect a g m q))) y.
Proof.
  intros Hs Hst Hnx Hn.
  assert (Hgo : forall y n, state y.1 = STATE_STORE2 -> stored_ y a w nx g m q n ->
    csr_busy (csr_inst y.1) = false -> leads (fun y => models y (goto nx (store_effect a g m q))) y).
  { clear dependent y n. intros y n Hs Hst Hb. apply leads_next; [by rewrite Hs|].
    pose proof (store_close y a w nx g m q n Hs Hst Hb) as Hc. set (y1 := system_clock y) in *.
    apply leads_next; [by rewrite (cl_state _ _ _ _ _ _ _ _ Hc)|].
    destruct (csr_busy (csr_inst y1.1)) eqn:E.
    - destruct (closing_wait _ _ _ _ _ _ _ _ Hc Hnx Hn E) as [Hc' E'].
      apply leads_next; [by rewrite (cl_state _ _ _ _ _ _ _ _ Hc')|]. apply leads_here. by eapply closing_end.
    - apply leads_here. by eapply closing_end. }
  destruct (csr_busy (csr_inst y.1)) eqn:E; [|by eapply Hgo].
  apply leads_next; [by rewrite Hs|].
  destruct (store_wait y a w nx g m q n Hs Hst E) as (Hs' & Hst' & E'). by eapply Hgo.
Qed.

Lemma stored y a w nx :
  started y a w nx -> u32_range nx -> exec_next_stage (control w) = EXEC_TO_STORE -> runs_on a (meaning w) ->
  carried_out y a nx (meaning w).
Proof.
  intros Hst Hnx Hstage Hrun. rewrite meaning_operands, Hstage in *. cbn [runs_on] in Hrun.
  destruct (address y a w nx Hst Hnx ltac:(by right)) as (_ & _ & _ & _ & Hn).
  eapply leads_trans; [by apply store_started|]. intros [c s] (Hs & Hcore & Hm & Hbusy & Hg0 & Hr). cbn [fst snd] in *.
  set (r := store_request a w) in *.
  destruct (settled_serves s _ _ r Hm) as (Hack & d & s' & Hv & _ & _ & Hs'); [done|apply store_sel_valid|done| |].
  { intros _. apply (h_range _ _ (so_regs _ _ _ _ Hcore)), control_regs. }
  set (g := s_mtimecmp r).
  assert (Hcb : cpu_busy (pins_of (c, s)) c = true) by (by apply bus_busy_busy, Hr).
  assert (Erq : request_of c = r) by apply Hr.
  apply leads_next; [cbn; by rewrite Hs|].
  destruct (storing_step (c, s) a w nx Hs Hcb Hcore) as [Hcore1 Hs1].
  destruct (storing_csr (c, s) a w nx Hs Hcore) as (_ & _ & Ek). cbn [fst] in Ek. rewrite Erq in Ek. fold g in Ek.
  destruct (mip_step g _ _ (so_mip _ _ _ _ Hcore)) as (_ & _ & Hb1 & _ & _). specialize (Hb1 Hbusy).
  assert (Hg1 : g = false -> mip_goal g (csr_inst (system_clock (c, s)).1) (acsr a)).
  { intros Eg. rewrite Ek, Eg. apply mip_keep; [apply Hcore|done|done]. }
  assert (Hr1 : requesting (system_clock (c, s)).1 (store_op (funct3 w)) r).
  { apply (request_stays STATE_STORE2); [unfold waits; auto|done|done|done|apply Hcore1]. }
  set (J := fun c => storing c a w nx /\ (mip_goal g (csr_inst c) (acsr a) \/ g = true /\ csr_busy (csr_inst c) = false)).
  set (K := fun c => storing c a w nx /\ mip_goal g (csr_inst c) (acsr a)).
  eapply leads_trans; [refine (wait_bus STATE_STORE2 J K (store_op (funct3 w)) r d _ _ s' _ _ _ _ _ Hs1 Hr1 _)|].
  - unfold waits; auto.
  - intros c' [H1 H2]. split; [done|by left].
  - intros c' [H1 _]. apply H1.
  - intros c' s2 Hs2 Hr2 [H1 H2]. pose proof (bus_busy_busy (pins_of (c', s2)) c' (proj1 Hr2)) as Hcb2.
    destruct (storing_step (c', s2) a w nx Hs2 Hcb2 H1) as [H1' _]. split; [exact H1'|].
    destruct (storing_csr (c', s2) a w nx Hs2 H1) as (_ & _ & Ek2). cbn [fst system_clock] in Ek2. rewrite Ek2.
    destruct Hr2 as (_ & _ & ->). fold g. destruct H2 as [H2|[Eg H2]]; [apply mip_keep; [apply H1|done|done]|].
    rewrite Eg. destruct (mip_step true _ _ (so_mip _ _ _ _ H1)) as (_ & _ & _ & Hx & _). by apply Hx.
  - cbn [system_clock snd fst]. rewrite Erq. exact Hv.
  - split; [done|]. destruct g eqn:Eg; [right|left; by apply Hg1]. split; [done|]. rewrite Ek. exact Hb1.
  - intros z (Hs2 & Hb2 & _ & Erq2 & Es' & Hc2 & Hg2). cbv zeta in Hs'.
    change (r_we r) with true in Hs'. cbv iota in Hs'. rewrite <- Erq2, <- Es' in Hs'.
    eapply leads_mono; [|eapply (store_ended z a w nx g)]; [|done| |done|done].
    + intros y' Hy'. eexists. split; [exact Hy'|]. apply ex_store.
    + refine (Build_stored_ _ _ _ _ _ _ _ 2 Hc2 Hg2 Hb2 _ Hs' (le_n 2)).
      rewrite Erq2. intros Et. by apply mtimecmp_release in Et.
Qed.
End Mem.
