(* ===== verification/RtlTrap.v ===== *)
(** * Traps and the return from them

    The two machines that carry out the entry to a handler and the return
    from it, one access to the control and status registers after the
    other. *)

From S2P Require Import Prelude RtlAlu RtlAluFacts RtlDecoder RtlDecoderFacts RtlCpu RtlSystem RtlSpec.
From S2P Require Import RtlCoreFacts RtlFetch RtlExec RtlMem.
Import Alu Decoder.

Section Trap.
Context {S M : Type} `{SlaveLaws S M}.
Implicit Types (y : system S) (a : arch M).

(** ** Waiting for the control and status registers *)

(** No register is written in UPDATE_PC. *)
Definition no_result (c : cpu) : Prop := exec_done c = false \/ no_writeback (dec c).

(** The core waits in the state [st] with an access to register [n] under
    way, a write if [w]. *)
Record handling y a (st : cpu_state) (n : Z) (v : cregs) (w : bool) : Prop := {
  ha_state : state y.1 = st;
  ha_regs : regs_hold y.1 a;
  ha_csr : csr_pending (csr_inst y.1) n v;
  ha_we : we (csr_inst y.1) = w;
  ha_clear : tags_irq_clear (csr_inst y.1) = false;
  ha_bus : bus_calm (bus_inst y.1);
  ha_mem : settled 0 y.2 (amem a) (tag_line a);
  ha_alu : busy (alu_inst y.1) = false;
  ha_result : no_result y.1;
  ha_writeback : writeback_from_bus y.1 = false;
}.

Definition traps (st : cpu_state) : Prop := st = STATE_TRAP \/ st = STATE_MRET.

Lemma traps_quiet c st :
  state c = st -> traps st ->
  bus_en c = false /\ reg_we c = false /\ update_pc c = false /\ alu_en c = false /\
  next_test_finished c = false /\ next_pc_from_csr c = true /\ next_branch_pc_from_alu c = false /\
  next_writeback_from_bus c = false /\ mret_occured c = false /\
  forall i, cpu_request i c = no_request /\ trap_occured i c = false /\ next_state i c = STATE_UPDATE_PC.
Proof.
  intros Hs [-> | ->]; unfold bus_en, reg_we, update_pc, alu_en, next_test_finished, next_pc_from_csr,
    next_branch_pc_from_alu, next_writeback_from_bus, mret_occured, cpu_request, trap_occured, next_state; by rewrite Hs.
Qed.

(** What a clock in such a state leaves alone. *)
Lemma traps_clock y a st :
  state y.1 = st -> traps st -> regs_hold y.1 a -> bus_calm (bus_inst y.1) ->
  tags_irq_clear (csr_inst y.1) = false -> settled 0 y.2 (amem a) (tag_line a) ->
  busy (alu_inst y.1) = false -> no_result y.1 -> writeback_from_bus y.1 = false ->
  let y' := system_clock y in
  regs_hold y'.1 a /\ bus_calm (bus_inst y'.1) /\ settled 0 y'.2 (amem a) (tag_line a) /\
  busy (alu_inst y'.1) = false /\ no_result y'.1 /\ writeback_from_bus y'.1 = false.
Proof.
  intros Hs Hst Hr Hb Hcl Hm Ha Hn Hw y'. pose proof (pins_reset y) as Hi.
  destruct (traps_quiet y.1 st Hs Hst) as (He & Hwe & Hu & Hae & Htf & _ & _ & Hnw & _).
  destruct (quiet_clock y _ _ Hb Hcl Hm He) as [Eb Hm'].
  refine (conj _ (conj _ (conj _ (conj _ (conj _ _))))).
  - rewrite <- (moved_same (pins_of y) y.1 a) by done. apply regs_step; [done|done|done|by rewrite Hwe|by rewrite Hu].
  - unfold y'. by rewrite Eb.
  - done.
  - cbn [y' system_clock fst]. rewrite clock_alu by done. by rewrite Hae, alu_idle.
  - unfold no_result, dec, parcels. cbn [y' system_clock fst].
    rewrite clock_done, clock_high, clock_low by done. unfold next_parcel_high, next_parcel_low.
    rewrite Hs. destruct Hst as [-> | ->]; exact Hn.
  - cbn [y' system_clock fst]. rewrite clock_writeback by done. rewrite Hw, Hnw. by case_match.
Qed.

(** ** A turn of a machine *)

Lemma turn y a st n v w wr m (g : Z -> Z -> Z) x :
  handling y a st n v w -> traps st -> trap_register m -> csr_index n <> M_RND ->
  handling_trap y.1 || handling_mret y.1 = true ->
  (forall i c, trap_state c = trap_state y.1 -> mret_state c = mret_state y.1 ->
    csr_request_f i c = (true, wr, m, g (pc c) (csr_data_out c))) ->
  (forall d, (w = false -> d = file v (csr_index n)) -> g (apc a) d = x) -> u32_range x ->
  leads (fun z => handling z a st m (if wr then put_csr m x v else v) wr /\
    exists z', trap_state z.1 = next_trap_state (pins_of z') z'.1 /\ mret_state z.1 = next_mret_state z'.1 /\
      trap_state z'.1 = trap_state y.1 /\ mret_state z'.1 = mret_state y.1 /\
      state z'.1 = st /\ irq_timer_en (csr_inst z'.1) = mtie v) y.
Proof.
  intros [Hs Hr Hk Hw Hcl Hb Hm Ha Hn Hwb] Hst Hreg Hrnd Hhand Hreq Hg Hx. pose proof (pins_reset y) as Hi.
  assert (Hne : forall z : system S, state z.1 = st -> state z.1 <> STATE_PRE_FETCH)
    by (intros z ->; by destruct Hst as [-> | ->]).
  assert (Hhb : forall i c, trap_state c = trap_state y.1 -> mret_state c = mret_state y.1 -> cpu_busy i c = true).
  { intros i c E1 E2. unfold cpu_busy, handling_trap, handling_mret in *. rewrite E1, E2.
    apply orb_true_iff in Hhand as [-> | ->]; by rewrite !orb_true_r. }
  apply leads_next; [by apply Hne|]. set (y1 := system_clock y).
  destruct (traps_clock y a st Hs Hst Hr Hb Hcl Hm Ha Hn Hwb) as (Hr1 & Hb1 & Hm1 & Ha1 & Hn1 & Hwb1). fold y1 in Hr1, Hb1, Hm1, Ha1, Hn1, Hwb1.
  assert (Ek1 : csr_inst y1.1 = csr_clock false true wr m (g (pc y.1) (csr_data_out y.1)) (csr_inst y.1)).
  { apply clock_csr; [done|]. by apply Hreq. }
  assert (Et1 : trap_state y1.1 = trap_state y.1 /\ mret_state y1.1 = mret_state y.1).
  { cbn [y1 system_clock fst]. rewrite clock_trap, clock_mret by done. unfold csr_is_busy.
    by rewrite (cp_busy _ _ _ Hk). }
  destruct Et1 as [Et1 Em1].
  assert (Hs1 : state y1.1 = st).
  { cbn [y1 system_clock fst]. rewrite clock_state by done. by rewrite Hhb. }
  destruct (pending_turn _ n v wr m (g (pc y.1) (csr_data_out y.1)) x Hk Hreg Hx) as (Hb' & Hcl' & Hd' & Hp').
  rewrite <- Ek1 in Hb', Hcl', Hd', Hp'.
  assert (Hgx : g (pc y1.1) (csr_data_out y1.1) = x).
  { rewrite (h_pc _ _ Hr1). apply Hg. intros Ew. apply Hd'; [by rewrite Hw|done]. }
  pose proof (pins_reset y1) as Hi1. apply leads_next; [by apply Hne|]. apply leads_here. set (y2 := system_clock y1).
  destruct (traps_clock y1 a st Hs1 Hst Hr1 Hb1 Hcl' Hm1 Ha1 Hn1 Hwb1) as (Hr2 & Hb2 & Hm2 & Ha2 & Hn2 & Hwb2).
  fold y2 in Hr2, Hb2, Hm2, Ha2, Hn2, Hwb2.
  assert (Ek2 : csr_inst y2.1 = csr_clock false true wr m x (csr_inst y1.1)).
  { apply clock_csr; [done|]. rewrite Hreq by done. by rewrite Hgx. }
  split.
  - split; try done.
    + cbn [y2 system_clock fst]. rewrite clock_state by done. by rewrite Hhb.
    + by rewrite Ek2.
    + rewrite Ek2. cbn [we csr_clock]. by rewrite Hb'.
    + rewrite Ek2, request_clear. destruct Hreg as [->|[->|[->|[->| ->]]]]; done.
  - exists y1. cbn [y2 system_clock fst]. rewrite clock_trap, clock_mret by done. unfold csr_is_busy. rewrite Hb'.
    split_and!; try done. rewrite Ek1. cbn [irq_timer_en csr_clock].
    destruct (cp_view _ _ _ Hk) as (_ & _ & E & _). cbn in E. rewrite E.
    destruct Hreg as [->|[->|[->|[->| ->]]]]; by rewrite andb_false_r.
Qed.

(** ** The end of a trap or a return *)

Lemma handled y a st n v :
  handling y a st n v false -> traps st -> no_trap y.1 -> csr_index n <> M_RND ->
  leads (fun z => models z (goto (file v (csr_index n)) (set_acsr v a))) y.
Proof.
  intros [Hs Hr Hk Hw Hcl Hb Hm Ha Hn Hwb] Hst Hnt Hrnd. pose proof (pins_reset y) as Hi.
  assert (Hne : forall z : system S, state z.1 = st -> state z.1 <> STATE_PRE_FETCH)
    by (intros z ->; by destruct Hst as [-> | ->]).
  destruct (traps_quiet y.1 st Hs Hst) as (_ & _ & _ & _ & _ & _ & _ & _ & Hmo & Hq). destruct (Hq (pins_of y)) as (Hrq & Hto & _).
  apply leads_next; [by apply Hne|].
  destruct (traps_clock y a st Hs Hst Hr Hb Hcl Hm Ha Hn Hwb) as (Hr1 & Hb1 & Hm1 & Ha1 & Hn1 & Hwb1).
  assert (Ek : csr_inst (system_clock y).1 = csr_clock false false false 0 0 (csr_inst y.1)).
  { apply clock_csr; [done|]. by rewrite calm_request_f. }
  pose proof (no_trap_step (pins_of y) y.1 Hi Hnt Hto Hmo) as Hnt1. change (cpu_clock _ _) with (system_clock y).1 in Hnt1.
  destruct (pending_idle _ _ _ Hk) as [Hcalm Hsel]. specialize (Hsel Hw). cbv zeta in Hcalm, Hsel. rewrite <- Ek in Hcalm, Hsel.
  assert (Hcl1 : tags_irq_clear (csr_inst (system_clock y).1) = false) by (by rewrite Ek).
  assert (Hs1 : state (system_clock y).1 = st).
  { cbn [system_clock fst]. rewrite clock_state by done. unfold cpu_busy, csr_is_busy.
    rewrite (cp_busy _ _ _ Hk). by rewrite orb_true_r. }
  clear Hs Hr Hk Hw Hcl Hb Hm Ha Hn Hwb Hnt Hmo Hq Hrq Hto Ek Hi. set (y1 := system_clock y) in *. clearbody y1. clear y.
  pose proof (pins_reset y1) as Hi.
  destruct (traps_quiet y1.1 st Hs1 Hst) as (Hbe & Hwe & Hup & _ & Htf & Hpc & Hbr & _ & Hmo & Hq).
  destruct (Hq (pins_of y1)) as (Hrq & Hto & Hnx).
  assert (Hcar1 : carries y1 (set_acsr v a) 0) by (split; [split|done|done]; [by destruct Hr1|done|done|done]).
  assert (Hcb : cpu_busy (pins_of y1) y1.1 = false) by (by rewrite (calm_busy _ _ _ Hcar1)).
  apply leads_next; [by apply Hne|].
  destruct (traps_clock y1 a st Hs1 Hst Hr1 Hb1 Hcl1 Hm1 Ha1 Hn1 Hwb1) as (_ & _ & _ & Ha2 & Hn2 & Hwb2).
  pose proof (carries_stay y1 _ 0 Hcar1 ltac:(done) Hbe Hwe Hup) as Hcar2.
  assert (Ek : csr_inst (system_clock y1).1 = csr_clock false false false 0 0 (csr_inst y1.1)).
  { apply clock_csr; [done|]. by rewrite calm_request_f. }
  pose proof (selected_idle _ _ _ Hcalm Hsel) as [Hsa Hsd]. rewrite <- Ek in Hsa, Hsd.
  assert (Hs2 : state (system_clock y1).1 = STATE_UPDATE_PC).
  { cbn [system_clock fst]. rewrite clock_state by done. by rewrite Hcb, Hnx. }
  assert (Enac : next_addr_from_csr (system_clock y1).1 = true).
  { cbn [system_clock fst]. rewrite clock_from_csr by done. by rewrite Hcb, Hpc. }
  set (y2 := system_clock y1) in *. apply leads_next; [by rewrite Hs2|]. apply leads_here.
  pose proof (csr_index_range n) as Hir.
  assert (Et : target y2.1 = file v (csr_index n)).
  { unfold target. rewrite Enac. unfold csr_data_out, csr_data_o. rewrite Hsa.
    replace (csr_index n =? M_RND) with false by lia. rewrite Hsd.
    destruct (cc_view _ _ (co_csr _ _ (cy_core _ _ _ Hcar2))) as (Hv & _). cbn in Hv. apply Hv. lia. }
  assert (Ewe : reg_we y2.1 = false).
  { unfold reg_we. rewrite Hs2, Hwb2. destruct Hn2 as [-> |(-> & -> & _)]; [by rewrite andb_false_r|done]. }
  pose proof (update_step y2 (set_acsr v a) 0 Hs2 Hcar2 ltac:(lia) Ha2) as Hres.
  rewrite Et, Ewe in Hres. apply Hres; [|done]. apply (cc_typed _ _ Hcalm). lia.
Qed.

(** ** Entering a handler *)

(** The order of the accesses; [t] when the timer is pending. *)
Definition trap_next (ts : trap_fsm) (t : bool) : trap_fsm :=
  match ts with
  | TRAP_STATE_LOAD_STATUS => TRAP_STATE_STORE_STATUS
  | TRAP_STATE_STORE_STATUS => TRAP_STATE_STORE_EPC
  | TRAP_STATE_STORE_EPC => TRAP_STATE_STORE_TVAL
  | TRAP_STATE_STORE_TVAL => if t then TRAP_STATE_LOAD_MIP else TRAP_STATE_LOAD_TVEC
  | TRAP_STATE_LOAD_MIP => TRAP_STATE_STORE_MIP
  | TRAP_STATE_STORE_MIP => TRAP_STATE_LOAD_TVEC
  | _ => TRAP_STATE_IDLE
  end.

(** The access of each of them: write, register and data. *)
Definition trap_access (ts : trap_fsm) (p d : Z) : bool * Z * Z :=
  match ts with
  | TRAP_STATE_LOAD_STATUS => (false, MSR_MSTATUS, 0)
  | TRAP_STATE_STORE_STATUS =>
      (true, MSR_MSTATUS, cat [(24, slice 31 8 d); (1, slice 3 3 d); (3, slice 6 4 d); (1, 0); (3, slice 2 0 d)])
  | TRAP_STATE_STORE_EPC => (true, MSR_MEPC, p)
  | TRAP_STATE_STORE_TVAL => (true, MSR_MTVAL, p)
  | TRAP_STATE_LOAD_MIP => (false, MSR_MIP, 0)
  | TRAP_STATE_STORE_MIP => (true, MSR_MIP, cat [(24, slice 31 8 d); (1, 1); (7, slice 6 0 d)])
  | _ => (false, MSR_MTVEC, 0)
  end.

Definition in_trap (ts : trap_fsm) : Prop :=
  match ts with TRAP_STATE_RESET | TRAP_STATE_IDLE | TRAP_STATE_DEAD => False | _ => True end.

Record entering y a (ts : trap_fsm) (n : Z) (v : cregs) (w : bool) : Prop := {
  en_handling : handling y a STATE_TRAP n v w;
  en_trap : trap_state y.1 = ts;
  en_mret : mret_state y.1 = MRET_STATE_IDLE;
}.

Lemma trap_turn y a ts n v w x wr m :
  entering y a ts n v w -> in_trap ts -> csr_index n <> M_RND ->
  (forall d, (w = false -> d = file v (csr_index n)) -> trap_access ts (apc a) d = (wr, m, x)) -> u32_range x ->
  leads (fun z => exists t, (t = true -> mtie v = true) /\
    entering z a (trap_next ts t) m (if wr then put_csr m x v else v) wr) y.
Proof.
  intros [Hh Et Em] Hin Hrnd Hacc Hx.
  assert (Hm : trap_register m /\ forall p d, trap_access ts p d = (wr, m, (trap_access ts p d).2)).
  { pose proof (Hacc _ (fun _ => eq_refl)) as E. unfold trap_register. destruct ts; injection E as <- <- _; auto 10. }
  destruct Hm as [Hm Hshape].
  eapply leads_mono; [|apply (turn y a STATE_TRAP n v w wr m (fun p d => (trap_access ts p d).2) x Hh)];
    [|by left|done|done| | | |done].
  - intros z (Hz & z' & E1 & E2 & E3 & E4 & E5 & E6). exists (timer_interrupt (pins_of z') z'.1).
    split; [unfold timer_interrupt; rewrite E6; by intros [_ ?]%andb_true_iff|].
    destruct (traps_quiet z'.1 STATE_TRAP E5 ltac:(by left)) as (_ & _ & _ & _ & _ & _ & _ & _ & Hmo & _).
    split; [done| |].
    + rewrite E1. unfold next_trap_state. rewrite E3, Et. by destruct ts.
    + rewrite E2. unfold next_mret_state. by rewrite E4, Em, Hmo.
  - unfold handling_trap. rewrite Et. by destruct ts.
  - intros i c E1 E2. rewrite Et in E1. unfold csr_request_f, handling_trap, trap_request. rewrite E1.
    pose proof (Hshape (pc c) (csr_data_out c)) as E. destruct ts; cbn in *; simplify_eq; reflexivity.
  - intros d Hd. by rewrite (Hacc d Hd).
Qed.

Lemma trap_entered y a cause :
  let v := put_csr MSR_MCAUSE cause (acsr a) in
  entering y a TRAP_STATE_LOAD_STATUS MSR_MCAUSE v true ->
  leads (fun z => exists t, (t = true -> mtie (acsr a) = true) /\ models z (enter_trap cause t a)) y.
Proof.
  intros v Hh.
  assert (Ht : cregs_typed v) by (exact (cp_typed _ _ _ (ha_csr _ _ _ _ _ _ (en_handling _ _ _ _ _ _ Hh)))).
  pose proof (h_pc_range _ _ (ha_regs _ _ _ _ _ _ (en_handling _ _ _ _ _ _ Hh))) as [Hpc _].
  set (v1 := put_csr MSR_MSTATUS (entry_status (file v M_STATUS)) v).
  set (v3 := put_csr MSR_MTVAL (apc a) (put_csr MSR_MEPC (apc a) v1)).
  assert (Hst : u32_range (file v M_STATUS)) by (by apply Ht).
  destruct (status_range _ Hst) as [Hes _].
  assert (Hend : forall z n v' w, entering z a TRAP_STATE_LOAD_TVEC n v' w -> csr_index n <> M_RND ->
    leads (fun z => models z (goto (file v' M_TVEC) (set_acsr v' a))) z).
  { intros z n v' w Hz Hn. eapply leads_trans; [eapply (trap_turn _ _ _ _ _ _ 0 false MSR_MTVEC Hz)|]; try done.
    intros z' (t & _ & Hz'). destruct Hz' as [Hz' Et' Em'].
    apply (handled z' a STATE_TRAP MSR_MTVEC v'); [done|by left|done|done]. }
  eapply leads_trans; [eapply (trap_turn _ _ _ _ _ _ 0 false MSR_MSTATUS Hh)|]; try done.
  intros z1 (t1 & _ & H1). cbn [trap_next] in H1.
  eapply leads_trans; [eapply (trap_turn _ _ _ _ _ _ (entry_status (file v M_STATUS)) true MSR_MSTATUS H1)|]; try done.
  { intros d Hd. rewrite (Hd eq_refl). cbn [trap_access]. by rewrite entry_wires. }
  intros z2 (t2 & _ & H2). cbn [trap_next] in H2. fold v1 in H2.
  eapply leads_trans; [eapply (trap_turn _ _ _ _ _ _ (apc a) true MSR_MEPC H2)|]; try done.
  intros z3 (t3 & _ & H3). cbn [trap_next] in H3.
  eapply leads_trans; [eapply (trap_turn _ _ _ _ _ _ (apc a) true MSR_MTVAL H3)|]; try done.
  intros z4 (t & Htm & H4). fold v3 in H4. destruct t; cbn [trap_next] in H4.
  - assert (Hip : u32_range (file v3 M_IP)) by (by apply (Ht M_IP)).
    eapply leads_trans; [eapply (trap_turn _ _ _ _ _ _ 0 false MSR_MIP H4)|]; try done.
    intros z5 (t5 & _ & H5). cbn [trap_next] in H5.
    eapply leads_trans; [eapply (trap_turn _ _ _ _ _ _ (with_bit 7 true (file v3 M_IP)) true MSR_MIP H5)|]; try done.
    { intros d Hd. rewrite (Hd eq_refl). cbn [trap_access]. by rewrite (mip_wires true). }
    { by apply with_bit_range. }
    intros z6 (t6 & _ & H6). cbn [trap_next] in H6. eapply leads_mono; [|by eapply Hend].
    intros z Hz. exists true. split; [done|exact Hz].
  - eapply leads_mono; [|by eapply Hend]. intros z Hz. exists false. split; [done|exact Hz].
Qed.

(** ** Returning from one *)

Lemma mret_returned y a :
  handling y a STATE_MRET MSR_MSTATUS (acsr a) false -> mret_state y.1 = MRET_STATE_STORE_STATUS ->
  trap_state y.1 = TRAP_STATE_IDLE -> leads (fun z => models z (return_trap a)) y.
Proof.
  intros Hh Em Et.
  assert (Ht : cregs_typed (acsr a)) by (exact (cp_typed _ _ _ (ha_csr _ _ _ _ _ _ Hh))).
  assert (Hst : u32_range (file (acsr a) M_STATUS)) by (by apply Ht).
  destruct (status_range _ Hst) as [_ Hrs].
  eapply leads_trans; [apply (turn y a STATE_MRET MSR_MSTATUS (acsr a) false true MSR_MSTATUS
    (fun _ d => cat [(28, slice 31 4 d); (1, slice 7 7 d); (3, slice 2 0 d)])
    (return_status (file (acsr a) M_STATUS)) Hh)|].
  - by right.
  - by left.
  - done.
  - unfold handling_mret. rewrite Em. by rewrite orb_true_r.
  - intros i c E1 E2. rewrite Et in E1. rewrite Em in E2.
    unfold csr_request_f, handling_trap, handling_mret, mret_request. by rewrite E1, E2.
  - intros d Hd. rewrite (Hd eq_refl). by apply return_wires.
  - done.
  - intros z (Hz & z' & E1 & E2 & E3 & E4 & E5 & _).
    destruct (traps_quiet z'.1 STATE_MRET E5 ltac:(by right)) as (_ & _ & _ & _ & _ & _ & _ & _ & _ & Hq).
    destruct (Hq (pins_of z')) as (_ & Hto & _).
    assert (Et1 : trap_state z.1 = TRAP_STATE_IDLE) by (rewrite E1; unfold next_trap_state; by rewrite E3, Et, Hto).
    assert (Em1 : mret_state z.1 = MRET_STATE_LOAD_EPC) by (rewrite E2; unfold next_mret_state; by rewrite E4, Em).
    set (v := put_csr MSR_MSTATUS (return_status (file (acsr a) M_STATUS)) (acsr a)) in *.
    eapply leads_trans; [apply (turn z a STATE_MRET MSR_MSTATUS v true false MSR_MEPC (fun _ _ => 0) 0 Hz)|].
    + by right.
    + right; by left.
    + done.
    + unfold handling_mret. rewrite Em1. by rewrite orb_true_r.
    + intros i c F1 F2. rewrite Et1 in F1. rewrite Em1 in F2.
      unfold csr_request_f, handling_trap, handling_mret, mret_request. by rewrite F1, F2.
    + done.
    + done.
    + intros q (Hq' & q' & F1 & F2 & F3 & F4 & F5 & _).
      destruct (traps_quiet q'.1 STATE_MRET F5 ltac:(by right)) as (_ & _ & _ & _ & _ & _ & _ & _ & Hmo2 & Hq2).
      destruct (Hq2 (pins_of q')) as (_ & Hto2 & _).
      apply (handled q a STATE_MRET MSR_MEPC v); [done|by right| |done]. split.
      * rewrite F2. unfold next_mret_state. by rewrite F4, Em1.
      * rewrite F1. unfold next_trap_state. by rewrite F3, Et1, Hto2.
Qed.
End Trap.
