(* ===== verification/RtlPriv.v ===== *)
(** * System instructions and interrupts

    CSR accesses, ECALL, EBREAK, MRET and WFI from DECODE to the next
    instruction, and interrupts, which are taken in DECODE. *)

From S2P Require Import Prelude RtlAlu RtlAluFacts RtlDecoder RtlDecoderFacts RtlCpu RtlSystem RtlSpec.
From S2P Require Import RtlCoreFacts RtlFetch RtlExec RtlMem RtlTrap.
Import Alu Decoder.

Section Priv.
Context {S M : Type} `{SlaveLaws S M}.
Implicit Types (y : system S) (a : arch M).

(** ** A request to the control and status registers *)

Record asked y a (n : Z) (v : cregs) (w clear : bool) : Prop := {
  as_regs : regs_hold y.1 a;
  as_csr : csr_pending (csr_inst y.1) n v;
  as_we : we (csr_inst y.1) = w;
  as_clear : tags_irq_clear (csr_inst y.1) = clear;
  as_bus : bus_calm (bus_inst y.1);
  as_mem : settled 0 y.2 (amem a) (tag_line a);
  as_alu : busy (alu_inst y.1) = false;
}.

Lemma ask y a w n d :
  carries y a 0 -> busy (alu_inst y.1) = false -> alu_en y.1 = false -> bus_en y.1 = false ->
  cpu_request (pins_of y) y.1 = (true, w, n, d) -> u32_range d ->
  next_test_finished y.1 = false -> reg_we y.1 = false -> update_pc y.1 = false ->
  asked (system_clock y) a n (if w then put_csr n d (acsr a) else acsr a) w ((n =? MSR_MTAGS) && Z.testbit d 1).
Proof.
  intros Hc Ha Hae Hbe Hrq Hd Htf Hwe Hup. pose proof (pins_reset y) as Hi.
  pose proof Hc as [[Hr Hnt Hk Hcl] Hb Hm].
  destruct (quiet_clock y _ _ Hb Hcl Hm Hbe) as [Eb Hm'].
  assert (Ek : csr_inst (system_clock y).1 = csr_clock false true w n d (csr_inst y.1)).
  { apply clock_csr; [done|]. by rewrite calm_request_f. }
  split.
  - rewrite <- (moved_same (pins_of y) y.1 a) by done. apply regs_step; [done|done|done|by rewrite Hwe|by rewrite Hup].
  - rewrite Ek. by apply calm_request.
  - rewrite Ek. cbn [we csr_clock]. by rewrite (cc_busy _ _ Hk).
  - rewrite Ek. apply request_clear.
  - by rewrite Eb.
  - done.
  - cbn [system_clock fst]. rewrite clock_alu by done. by rewrite Hae, alu_idle.
Qed.

(** It starts the handling of a trap or a return. *)
Lemma asked_handling y a n v w st :
  asked y a n v w false -> state y.1 = st -> no_result y.1 -> writeback_from_bus y.1 = false ->
  handling y a st n v w.
Proof. intros [] ? ? ?. done. Qed.

(** ** Interrupts *)

Lemma interrupted y a w nx :
  decoding y a w nx -> interrupt_taken (pins_of y) y.1 = true ->
  leads (fun y' => exists a', models y' a' /\ interrupts a a') y.
Proof.
  intros [Hs Hc Ha Ew En He] Hint. pose proof (pins_reset y) as Hi.
  assert (Hcb : cpu_busy (pins_of y) y.1 = false) by (by rewrite (calm_busy _ _ _ Hc)).
  pose proof (cy_core _ _ _ Hc) as [_ [Em Et] Hk _]. destruct (cc_view _ _ Hk) as (_ & E1 & E2 & E3 & _).
  cbn in E1, E2, E3. pose proof (settled_irq _ _ _ (cy_mem _ _ _ Hc)) as Eq.
  set (timer := TIMER_INTERRUPT_I (pins_of y)).
  set (cause := if tag_line a && tags_on (acsr a) then CAUSE_TAG_MISMATCH
    else if timer then CAUSE_TIMER_INTERRUPT else 0).
  assert (Etag : TAGS_INTERRUPT_I (pins_of y) = tag_line a) by (rewrite <- Eq; by destruct y).
  unfold interrupt_taken, interrupt_occured, timer_interrupt in Hint. fold timer in Hint.
  assert (Hcond : mie (acsr a) = true /\ tag_line a || timer && mtie (acsr a) = true).
  { rewrite E1, E2, Etag in Hint. apply andb_true_iff in Hint as [H1 H2]. by rewrite orb_comm in H1. }
  assert (Hrq : cpu_request (pins_of y) y.1 = (true, true, MSR_MCAUSE, cause)).
  { unfold cpu_request, interrupt_taken, interrupt_occured, timer_interrupt. rewrite Hs. fold timer.
    rewrite Hint, Etag, E3. done. }
  apply leads_next; [by rewrite Hs|].
  pose proof (ask y a true MSR_MCAUSE cause Hc Ha) as Hask.
  assert (Hh : entering (system_clock y) a TRAP_STATE_LOAD_STATUS MSR_MCAUSE (put_csr MSR_MCAUSE cause (acsr a)) true).
  { split.
    - apply asked_handling.
      + apply Hask; [by_state Hs|by_state Hs|done| |by_state Hs|by_state Hs|by_state Hs].
        unfold cause, u32_range. repeat case_match; lia.
      + cbn [system_clock fst]. rewrite clock_state by done. rewrite Hcb. unfold next_state, interrupt_taken,
          interrupt_occured, timer_interrupt. rewrite Hs. fold timer. by rewrite Hint.
      + left. cbn [system_clock fst]. rewrite clock_done by done. by rewrite Hs.
      + cbn [system_clock fst]. rewrite clock_writeback by done. rewrite Hcb. by_state Hs.
    - cbn [system_clock fst]. rewrite clock_trap by done. unfold csr_is_busy, next_trap_state.
      rewrite (cc_busy _ _ Hk), Et. unfold trap_occured, interrupt_taken, interrupt_occured, timer_interrupt.
      rewrite Hs. fold timer. by rewrite Hint.
    - cbn [system_clock fst]. rewrite clock_mret by done. unfold csr_is_busy, next_mret_state.
      rewrite (cc_busy _ _ Hk), Em. unfold mret_occured. by rewrite Hs. }
  eapply leads_mono; [|by apply trap_entered]. intros z (t & Ht & Hz). eexists. split; [exact Hz|].
  apply (int_taken a timer t); [apply Hcond|apply Hcond|done].
Qed.

(** ** System instructions *)

Record in_system y a (w nx : Z) : Prop := {
  sy_state : state y.1 = STATE_SYSTEM;
  sy_carries : carries y a 0;
  sy_wait : awaiting w nx (x_ a (o_rs1 (control w))) (x_ a (o_rs2 (control w))) y.1;
  sy_result : no_writeback (control w);
}.

Lemma system_started y a w nx :
  started y a w nx -> u32_range nx -> exec_next_stage (control w) = EXEC_TO_SYSTEM ->
  in_system (system_clock y) a w nx.
Proof.
  intros Hst Hnx Hstage. destruct (exec_step y a w nx Hst Hnx) as [Hs Hc (r & Hr & Ealu) Hf Hd Hw Hk _].
  destruct (control_sane w) as [_ Hsane]. rewrite Hstage in Hsane, Hs. pose proof Hsane as (_ & _ & Nw3 & Nw4).
  unfold linked in Hc. rewrite Nw3 in Hc. rewrite Nw4 in Ealu.
  split; try done. split; try done. by rewrite Ealu, add_busy.
Qed.

Lemma funct3_range w : 0 <= funct3 w < 8.
Proof. unfold funct3. case_match; [|lia]. apply (slice_range 14 12 w). lia. Qed.

(** WFI does nothing. *)
Lemma wfi_done y a w nx :
  in_system y a w nx -> u32_range nx -> funct3 w = 0 -> slice 11 0 (imm_of w) = SYSTEM_WFI ->
  leads (fun z => models z (goto nx a)) y.
Proof.
  intros [Hs Hc Haw Hn] Hnx E3 E12. pose proof Haw as [Hf Hd Hw Hk Ha]. pose proof (pins_reset y) as Hi.
  assert (Hcb : cpu_busy (pins_of y) y.1 = false) by (by rewrite (calm_busy _ _ _ Hc)).
  assert (Ef3 : dec_funct3 y.1 = 0) by (rewrite (f3_flying _ _ _ _ _ Hf); done).
  assert (Ef12 : slice 11 0 (dec_imm y.1) = SYSTEM_WFI) by (rewrite (imm_flying _ _ _ _ _ Hf); done).
  assert (Htr : system_traps y.1 = false) by (unfold system_traps; by rewrite Ef3, Ef12).
  apply leads_next; [by rewrite Hs|]. pose proof Hn as (Nw1 & Nw2 & Nw3 & _). set (y1 := system_clock y).
  assert (Hs1 : state y1.1 = STATE_UPDATE_PC).
  { cbn [y1 system_clock fst]. rewrite clock_state by done. rewrite Hcb. unfold next_state.
    by rewrite Hs, Htr, Ef3, Ef12. }
  assert (Hc1 : carries y1 a 0).
  { change 0%nat with (pred 0). apply carries_stay; [done| |by_state Hs|by_state Hs|by_state Hs].
    unfold plain, cpu_request, trap_occured, mret_occured, next_test_finished, system_request, is_mret.
    by rewrite Hs, Htr, Ef3, Ef12. }
  assert (Hf1 : flying w nx (x_ a (o_rs1 (control w))) (x_ a (o_rs2 (control w))) y1.1)
    by (apply flying_step; [done|by rewrite Hs..|done]).
  assert (Ewe : reg_we y1.1 = false).
  { unfold reg_we. rewrite Hs1, (dec_flying _ _ _ _ _ Hf1), Nw1, Nw2. cbn [y1 system_clock fst].
    rewrite clock_writeback by done. rewrite Hcb. unfold next_writeback_from_bus. by rewrite Hs. }
  assert (Et : target y1.1 = nx).
  { unfold target. rewrite (dec_flying _ _ _ _ _ Hf1), Nw3, (fl_next _ _ _ _ _ Hf1). cbn [y1 system_clock fst].
    rewrite clock_from_csr, clock_branch by done. rewrite Hcb. unfold next_pc_from_csr, next_branch_pc_from_alu. by rewrite Hs. }
  apply leads_next; [by rewrite Hs1|]. apply leads_here.
  pose proof (update_step y1 a 0 Hs1 Hc1 ltac:(lia)) as Hup. rewrite Et, Ewe in Hup. apply Hup; [|done|done].
  cbn [y1 system_clock fst]. rewrite clock_alu by done. unfold alu_en. rewrite Hs. by rewrite alu_idle.
Qed.

(** Facts about the state SYSTEM. *)
Lemma system_facts y a w nx :
  in_system y a w nx ->
  cpu_busy (pins_of y) y.1 = false /\ dec_funct3 y.1 = funct3 w /\ slice 11 0 (dec_imm y.1) = slice 11 0 (imm_of w) /\
  no_result (system_clock y).1 /\ writeback_from_bus (system_clock y).1 = false.
Proof.
  intros [Hs Hc [Hf Hd Hw Hk Ha] Hn]. pose proof (pins_reset y) as Hi.
  assert (Hcb : cpu_busy (pins_of y) y.1 = false) by (by rewrite (calm_busy _ _ _ Hc)).
  split_and!; [done|by apply (f3_flying _ _ _ _ _ Hf)|by rewrite (imm_flying _ _ _ _ _ Hf)| |].
  - right. assert (Hf1 : flying w nx (x_ a (o_rs1 (control w))) (x_ a (o_rs2 (control w))) (system_clock y).1)
      by (apply flying_step; [done|by rewrite Hs..|done]). by rewrite (dec_flying _ _ _ _ _ Hf1).
  - cbn [system_clock fst]. rewrite clock_writeback by done. rewrite Hcb. by_state Hs.
Qed.

Lemma mret_done y a w nx :
  in_system y a w nx -> funct3 w = 0 -> slice 11 0 (imm_of w) = SYSTEM_MRET ->
  leads (fun z => models z (return_trap a)) y.
Proof.
  intros Hsys E3 E12. destruct (system_facts _ _ _ _ Hsys) as (Hcb & Ef3 & Ef12 & Hnr & Hwb).
  destruct Hsys as [Hs Hc Haw _]. rewrite E3 in Ef3. rewrite E12 in Ef12. pose proof (pins_reset y) as Hi.
  pose proof (cy_core _ _ _ Hc) as [_ [Em Et] Hk _].
  assert (Htr : system_traps y.1 = false) by (unfold system_traps; by rewrite Ef3, Ef12).
  assert (Hmr : is_mret y.1 = true) by (unfold is_mret; by rewrite Ef3, Ef12).
  apply leads_next; [by rewrite Hs|]. apply mret_returned.
  - apply asked_handling; [|cbn [system_clock fst]|done|done].
    + change false with ((MSR_MSTATUS =? MSR_MTAGS) && Z.testbit 0 1).
      apply (ask y a false MSR_MSTATUS 0 Hc (aw_alu _ _ _ _ _ Haw)); [by_state Hs|by_state Hs| |done| |by_state Hs|by_state Hs].
      * unfold cpu_request, system_request. by rewrite Hs, Ef3, Ef12.
      * unfold next_test_finished. by rewrite Hs, Ef3, Ef12.
    + rewrite clock_state by done. rewrite Hcb. unfold next_state. by rewrite Hs, Htr, Ef3, Ef12.
  - cbn [system_clock fst]. rewrite clock_mret by done. unfold csr_is_busy, next_mret_state, mret_occured.
    by rewrite (cc_busy _ _ Hk), Em, Hs, Hmr.
  - cbn [system_clock fst]. rewrite clock_trap by done. unfold csr_is_busy, next_trap_state, trap_occured.
    by rewrite (cc_busy _ _ Hk), Et, Hs, Htr.
Qed.

(** The cause of the trap of a system instruction. *)
Definition system_cause (f3 n : Z) : Z :=
  if f3 =? 0 then if n =? SYSTEM_ECALL then CAUSE_ECALL
    else if n =? SYSTEM_EBREAK then CAUSE_BREAK else CAUSE_INVALID_INSTRUCTION
  else CAUSE_INVALID_INSTRUCTION.

Lemma trap_done y a w nx :
  in_system y a w nx ->
  let f3 := funct3 w in
  let n := slice 11 0 (imm_of w) in
  f3 mod 4 = 0 -> ~ (f3 = 0 /\ (n = SYSTEM_WFI \/ n = SYSTEM_MRET)) ->
  (f3 = 0 -> n = SYSTEM_ECALL -> x_ a 2 <> 0) ->
  leads (fun z => exists t, (t = true -> mtie (acsr a) = true) /\ models z (enter_trap (system_cause f3 n) t a)) y.
Proof.
  intros Hsys f3 n Hf3 Hno Hsp. destruct (system_facts _ _ _ _ Hsys) as (Hcb & Ef3 & Ef12 & Hnr & Hwb).
  destruct Hsys as [Hs Hc Haw _]. fold f3 in Ef3. fold n in Ef12. pose proof (pins_reset y) as Hi.
  pose proof (cy_core _ _ _ Hc) as [Hr [Em Et] Hk _]. pose proof (funct3_range w) as Hr3. fold f3 in Hr3.
  assert (H04 : f3 = 0 \/ f3 = 4) by zlia.
  assert (Htr : system_traps y.1 = true).
  { unfold system_traps. rewrite Ef3, Ef12. destruct H04 as [E|E]; rewrite E in *; cbn [Z.eqb]; [|done].
    destruct (Z.eqb_spec n SYSTEM_WFI), (Z.eqb_spec n SYSTEM_MRET); try done; exfalso; auto. }
  assert (Hmr : is_mret y.1 = false).
  { unfold is_mret. rewrite Ef3, Ef12. destruct H04 as [E|E]; rewrite E in *; cbn [Z.eqb andb]; [|done].
    destruct (Z.eqb_spec n SYSTEM_MRET); [exfalso; auto|done]. }
  assert (Hrq : cpu_request (pins_of y) y.1 = (true, true, MSR_MCAUSE, system_cause f3 n)).
  { unfold cpu_request, system_request, system_cause. rewrite Hs, Ef3, Ef12.
    destruct H04 as [E|E]; rewrite E in *; cbn [Z.eqb]; [|done].
    destruct (Z.eqb_spec n SYSTEM_ECALL); [done|]. destruct (Z.eqb_spec n SYSTEM_EBREAK); [done|].
    destruct (Z.eqb_spec n SYSTEM_WFI); [exfalso; auto|]. destruct (Z.eqb_spec n SYSTEM_MRET); [exfalso; auto|done]. }
  assert (Htf : next_test_finished y.1 = false).
  { unfold next_test_finished, register_flag. rewrite Hs, Ef3, Ef12, (h_regs _ _ Hr) by lia.
    destruct (Z.eqb_spec f3 0); [|done]. destruct (Z.eqb_spec n SYSTEM_ECALL); [|done].
    cbn [andb CPU_USE_NEW_TEST_SEQUENCE]. apply Z.eqb_neq. auto. }
  apply leads_next; [by rewrite Hs|]. apply trap_entered. split.
  - apply asked_handling; [|cbn [system_clock fst]|done|done].
    + change false with ((MSR_MCAUSE =? MSR_MTAGS) && Z.testbit (system_cause f3 n) 1).
      apply (ask y a true MSR_MCAUSE _ Hc (aw_alu _ _ _ _ _ Haw)); [by_state Hs|by_state Hs|done| |done|by_state Hs|by_state Hs].
      unfold system_cause, u32_range. repeat case_match; lia.
    + rewrite clock_state by done. rewrite Hcb. unfold next_state. by rewrite Hs, Htr.
  - cbn [system_clock fst]. rewrite clock_trap by done. unfold csr_is_busy, next_trap_state, trap_occured.
    by rewrite (cc_busy _ _ Hk), Et, Hs, Htr.
  - cbn [system_clock fst]. rewrite clock_mret by done. unfold csr_is_busy, next_mret_state, mret_occured.
    by rewrite (cc_busy _ _ Hk), Em, Hs, Hmr.
Qed.

(** *** CSR instructions *)

(** The register file, except for the one that is being written. *)
Record regs_but (rd : Z) (c : cpu) a : Prop := {
  rb_running : test_finished c = false;
  rb_pc : pc c = apc a;
  rb_pc_range : u32_range (apc a) /\ apc a mod 2 = 0;
  rb_regs n : 0 <= n < 32 -> n <> rd \/ rd = 0 -> regfile (reg_inst c) n = x_ a n;
  rb_x0 : x_ a 0 = 0;
  rb_range n : 0 <= n < 32 -> u32_range (x_ a n);
}.

Lemma csr1_regs i c a :
  RST_I i = false -> state c = STATE_CSR1 -> regs_but (o_rd (dec c)) c a ->
  let c' := cpu_clock i c in
  regs_but (o_rd (dec c)) c' a /\
  (u32_range (csr_data_out c) -> regs_hold c' (set_x (o_rd (dec c)) (csr_data_out c) a)).
Proof.
  intros Hi Hs [Hrun Hpc Hpr Hx H0' Hr] c'. set (rd := o_rd (dec c)) in *.
  assert (Hrun' : test_finished c' = false) by (unfold c'; rewrite clock_finished by done; rewrite Hrun; by_state Hs).
  assert (Hpc' : pc c' = apc a) by (unfold c'; rewrite clock_pc by done; unfold update_pc; by rewrite Hs).
  assert (Ereg : forall n, regfile (reg_inst c') n =
    if negb (rd =? 0) && (n =? rd) then csr_data_out c else regfile (reg_inst c) n).
  { intros n. unfold c'. rewrite clock_regs by done. cbn [regfile registers_clock]. unfold reg_we, reg_datain, mux_reg_input_sel.
    rewrite Hs. cbn [andb]. fold rd. destruct (Z.eqb_spec rd 0); cbn [negb andb]; [done|]. unfold put. done. }
  split.
  - split; try done. intros n Hn Hor. rewrite Ereg.
    destruct (Z.eqb_spec rd 0), (Z.eqb_spec n rd); cbn [negb andb]; apply Hx || (exfalso; tauto); done.
  - intros Hd. assert (Eset : apc (set_x rd (csr_data_out c) a) = apc a) by (unfold set_x; by case_match).
    split; [done|by rewrite Eset|by rewrite Eset| | |].
    + intros n Hn. rewrite Ereg. unfold set_x, put. destruct (Z.eqb_spec rd 0); cbn [negb andb x_]; [apply Hx; auto|].
      destruct (Z.eqb_spec n rd); [done|]. apply Hx; auto.
    + unfold set_x, put. destruct (Z.eqb_spec rd 0); [done|]. cbn [x_]. by replace (0 =? rd) with false by lia.
    + intros n Hn. unfold set_x, put. case_match; [by apply Hr|]. cbn [x_]. case_match; [done|by apply Hr].
Qed.

(** The CSR file answers in the second clock of CSR1. *)
Record answered y a w nx (n : Z) : Prop := {
  an_state : state y.1 = STATE_CSR1;
  an_regs : regs_but (o_rd (control w)) y.1 a;
  an_csr : csr_calm (csr_inst y.1) (acsr a);
  an_number : selected (csr_inst y.1) n;
  an_clear : tags_irq_clear (csr_inst y.1) = false;
  an_trap : no_trap y.1;
  an_bus : bus_calm (bus_inst y.1);
  an_mem : settled 0 y.2 (amem a) (tag_line a);
  an_wait : awaiting w nx (x_ a (o_rs1 (control w))) (x_ a (o_rs2 (control w))) y.1;
}.

Lemma csr1_answered y a w nx n :
  state y.1 = STATE_CSR1 -> asked y a n (acsr a) false false -> no_trap y.1 ->
  awaiting w nx (x_ a (o_rs1 (control w))) (x_ a (o_rs2 (control w))) y.1 ->
  answered (system_clock y) a w nx n.
Proof.
  intros Hs [Hr Hk Hw Hcl Hb Hm Ha] Hnt Haw. pose proof (pins_reset y) as Hi.
  pose proof (dec_flying _ _ _ _ _ (aw_flying _ _ _ _ _ Haw)) as Ed.
  assert (Hcb : cpu_busy (pins_of y) y.1 = true)
    by (unfold cpu_busy, csr_is_busy; rewrite (cp_busy _ _ _ Hk); by rewrite orb_true_r).
  destruct (csr1_regs (pins_of y) y.1 a Hi Hs) as [Hr1 _]; [destruct Hr; split; auto|]. rewrite Ed in Hr1.
  destruct (quiet_clock y _ _ Hb Hcl Hm ltac:(by_state Hs)) as [Eb Hm1].
  assert (Ek : csr_inst (system_clock y).1 = csr_clock false false false 0 0 (csr_inst y.1)).
  { apply clock_csr; [done|]. rewrite calm_request_f by done. by_state Hs. }
  destruct (pending_idle _ _ _ Hk) as [Hcalm Hsel]. specialize (Hsel Hw). cbv zeta in Hcalm, Hsel. rewrite <- Ek in Hcalm, Hsel.
  split; [|exact Hr1|done|done|by rewrite Ek| |by rewrite Eb|done|].
  - cbn [system_clock fst]. rewrite clock_state by done. by rewrite Hcb.
  - apply no_trap_step; [done|done|by_state Hs|by_state Hs].
  - apply awaiting_step; by rewrite ?Hs.
Qed.

(** What the CSR file puts out once a register is selected. *)
Lemma selected_out k v n :
  csr_calm k v -> selected k n ->
  u32_range (csr_data_o k) /\ (csr_index n <> M_RND -> csr_data_o k = file v (csr_index n)).
Proof.
  intros [_ _ (Hv & _) Ht Hrnd] [Ea Ed]. unfold csr_data_o. rewrite Ea, Ed. pose proof (csr_index_range n).
  destruct (Z.eqb_spec (csr_index n) M_RND); [split; done|]. cbn in Hv. rewrite Hv by lia. split; [apply Ht; lia|done].
Qed.

(** The two clocks of CSR1. *)
Lemma csr1_done y a w nx n :
  state y.1 = STATE_CSR1 -> asked y a n (acsr a) false false -> no_trap y.1 ->
  awaiting w nx (x_ a (o_rs1 (control w))) (x_ a (o_rs2 (control w))) y.1 ->
  leads (fun z => exists old, state z.1 = STATE_CSR2 /\ carries z (set_x (o_rd (control w)) old a) 0 /\
    awaiting w nx (x_ a (o_rs1 (control w))) (x_ a (o_rs2 (control w))) z.1 /\ u32_range old /\
    u32_range (csr_data_out z.1) /\
    (csr_index n <> M_RND -> old = file (acsr a) (csr_index n) /\ csr_data_out z.1 = old)) y.
Proof.
  intros Hs Hask Hnt Haw. apply leads_next; [by rewrite Hs|].
  destruct (csr1_answered y a w nx n Hs Hask Hnt Haw) as [Hs1 Hr1 Hcalm Hsel Hcl1 Hnt1 Hb1 Hm1 Haw1].
  clear Hs Hask Hnt Haw. set (y1 := system_clock y) in *. clearbody y1. clear y. pose proof (pins_reset y1) as Hi.
  pose proof (dec_flying _ _ _ _ _ (aw_flying _ _ _ _ _ Haw1)) as Ed.
  destruct (selected_out _ _ _ Hcalm Hsel) as [Ho1 Ho2].
  destruct (csr1_regs (pins_of y1) y1.1 a Hi Hs1) as [_ Hr2]; [by rewrite Ed|]. specialize (Hr2 Ho1).
  rewrite Ed in Hr2. change (cpu_clock (pins_of y1) y1.1) with (system_clock y1).1 in Hr2.
  assert (Hcb : cpu_busy (pins_of y1) y1.1 = false).
  { unfold cpu_busy, alu_busy, csr_is_busy, handling_trap, handling_mret. destruct Hb1 as (Hb1 & _). destruct Hnt1 as [E1 E2].
    by rewrite Hb1, (cc_busy _ _ Hcalm), (aw_alu _ _ _ _ _ Haw1), E1, E2, pins_halt. }
  destruct (quiet_clock y1 _ _ Hb1 Hcl1 Hm1 ltac:(by_state Hs1)) as [Eb Hm2].
  assert (Ek : csr_inst (system_clock y1).1 = csr_clock false false false 0 0 (csr_inst y1.1)).
  { apply clock_csr; [done|]. rewrite calm_request_f by done. by_state Hs1. }
  pose proof (calm_idle _ _ Hcalm) as Hcalm2. pose proof (selected_idle _ _ _ Hcalm Hsel) as Hsel2.
  rewrite <- Ek in Hcalm2, Hsel2. destruct (selected_out _ _ _ Hcalm2 Hsel2) as [Ho3 Ho4].
  apply leads_next; [by rewrite Hs1|]. apply leads_here. exists (csr_data_out y1.1).
  assert (Erest : acsr (set_x (o_rd (control w)) (csr_data_out y1.1) a) = acsr a /\
    amem (set_x (o_rd (control w)) (csr_data_out y1.1) a) = amem a /\
    tag_line (set_x (o_rd (control w)) (csr_data_out y1.1) a) = tag_line a) by (unfold set_x; by case_match).
  destruct Erest as (Er1 & Er2 & Er3).
  refine (conj _ (conj _ (conj _ (conj Ho1 (conj Ho3 _))))).
  - cbn [system_clock fst]. rewrite clock_state by done. rewrite Hcb. unfold next_state. by rewrite Hs1.
  - split; [split|by rewrite Eb|by rewrite Er2, Er3]; [done| |by rewrite Er1|by rewrite Ek].
    apply no_trap_step; [done|done|by_state Hs1|by_state Hs1].
  - apply awaiting_step; by rewrite ?Hs1.
  - intros Hn. unfold csr_data_out. by rewrite (Ho2 Hn), (Ho4 Hn).
Qed.

(** The value written. *)
Lemma csr2_value c w nx u v f3 :
  flying w nx u v c -> funct3 w = f3 -> f3 mod 4 <> 0 -> u32_range u -> u32_range (csr_data_out c) ->
  csr2_data c = csr_operation f3 (if f3 <? 4 then u else o_rs1 (control w)) (csr_data_out c) /\
  u32_range (csr2_data c).
Proof.
  intros Hf E3 Hf3 Hu Hd. pose proof (funct3_range w) as Hr3. rewrite E3 in Hr3.
  pose proof (control_regs w) as (Hr1 & _). set (d := csr_data_out c) in *.
  assert (Hrs : u32_range (o_rs1 (control w))) by (unfold u32_range; lia).
  assert (Ecat : cat [(27, 0); (5, o_rs1 (control w))] = o_rs1 (control w)).
  { rewrite cat_two. unfold wrap. rewrite Z.mod_0_l, Z.mod_small by lia. lia. }
  assert (Hand : forall x, u32_range x -> Z.land (w32 (Z.lnot x)) d = Z.ldiff d x).
  { intros x Hx. apply Z.bits_inj'. intros k Hk. rewrite Z.land_spec, Z.ldiff_spec. unfold wrap.
    destruct (Z.lt_ge_cases k 32).
    - rewrite Z.mod_pow2_bits_low, Z.lnot_spec by lia. apply andb_comm.
    - rewrite Z.mod_pow2_bits_high by lia. by rewrite (u32_above d k). }
  destruct (bitwise_range u d Hu Hd) as (_ & Hl1 & _). destruct (bitwise_range _ d Hrs Hd) as (_ & Hl2 & _).
  destruct (bitwise_range d u Hd Hu) as (_ & _ & _ & Hl3). destruct (bitwise_range d _ Hd Hrs) as (_ & _ & _ & Hl4).
  unfold csr2_data. fold d. rewrite (f3_flying _ _ _ _ _ Hf), (dec_flying _ _ _ _ _ Hf), (fl_u _ _ _ _ _ Hf), E3, Ecat.
  rewrite !Hand by done.
  assert (f3 = 1 \/ f3 = 2 \/ f3 = 3 \/ f3 = 5 \/ f3 = 6 \/ f3 = 7) as [->|[->|[->|[->|[->| ->]]]]] by zlia; done.
Qed.

(** What the last stage sees of an instruction that writes no register. *)
Lemma last_stage (z : system S) w nx u v :
  no_writeback (control w) -> u32_range nx -> state z.1 = STATE_UPDATE_PC -> awaiting w nx u v z.1 ->
  branch_pc_from_alu z.1 = false ->
  target z.1 = nx /\ reg_we z.1 = false /\ addr_misaligned z.1 = false.
Proof.
  intros (Nw1 & Nw2 & Nw3 & _) Hnx Hz [Hf _ Hwb Hnc _] Hbr. pose proof (dec_flying _ _ _ _ _ Hf) as Ed.
  assert (Et : target z.1 = nx) by (unfold target; rewrite Hnc, Hbr, Ed, Nw3; apply Hf).
  split_and!; [done|unfold reg_we; by rewrite Hz, Hwb, Ed, Nw1, Nw2|apply aligned; [done|by rewrite Et]].
Qed.

(** The last stage while the CSR file takes the value: one clock of waiting, then the new program counter. *)
Lemma csr_taken (y : system S) a w nx u v n x :
  state y.1 = STATE_UPDATE_PC -> no_trap y.1 -> awaiting w nx u v y.1 -> branch_pc_from_alu y.1 = false ->
  asked y a n (put_csr n x (acsr a)) true ((n =? MSR_MTAGS) && Z.testbit x 1) ->
  no_writeback (control w) -> u32_range nx ->
  leads (fun z => models z (goto nx (write_csr_insn n x a))) y.
Proof.
  intros Hs1 Hnt1 Haw1 Hbr1 Hask Hnw Hnx. pose proof (pins_reset y) as Hi.
  set (clr := (n =? MSR_MTAGS) && Z.testbit x 1) in *. destruct Hask as [Hr Hk Hw Hcl Hb Hm Ha].
  destruct (last_stage y w nx u v Hnw Hnx Hs1 Haw1 Hbr1) as (_ & Hwe1 & Hmis1).
  assert (Hcb1 : cpu_busy (pins_of y) y.1 = true)
    by (unfold cpu_busy, csr_is_busy; rewrite (cp_busy _ _ _ Hk); by rewrite orb_true_r).
  assert (Hrq1 : cpu_request (pins_of y) y.1 = no_request) by (unfold cpu_request; by rewrite Hs1, Hmis1).
  assert (Ek : csr_inst (system_clock y).1 = csr_clock false false false 0 0 (csr_inst y.1)).
  { apply clock_csr; [done|]. by rewrite calm_request_f. }
  destruct (settled_idle 0 y.2 _ _ (request_of y.1) Hm (calm_request_idle _ Hb) ltac:(done)) as [Hack Hm'].
  cbn [request_of r_clear] in Hm'. rewrite Hcl in Hm'.
  set (a' := write_csr_insn n x a).
  assert (Hcar : carries (system_clock y) a' 0).
  { split; [split| |].
    - assert (Hr' : regs_hold (system_clock y).1 a); [|by destruct Hr'].
      replace a with (moved (pins_of y) y.1 a) by (unfold moved; by rewrite Hwe1, Hcb1, andb_false_r).
      apply regs_step; [done|done|by_state Hs1|by rewrite Hwe1|by rewrite Hcb1].
    - apply no_trap_step; [done|done|by unfold trap_occured; rewrite Hs1|by_state Hs1].
    - rewrite Ek. by apply (pending_idle _ _ _ Hk).
    - by rewrite Ek.
    - destruct y as [c s]. cbn [system_clock fst snd] in *. rewrite clock_bus by done. unfold bus_en. rewrite Hs1.
      cbn [pins_of ACK_I DAT_I]. by rewrite Hack, bus_hold.
    - exact Hm'. }
  assert (Hs2 : state (system_clock y).1 = STATE_UPDATE_PC) by (cbn [system_clock fst]; rewrite clock_state by done; by rewrite Hcb1).
  assert (Haw2 : awaiting w nx u v (system_clock y).1) by (apply awaiting_step; by rewrite ?Hs1).
  assert (Hbr2 : branch_pc_from_alu (system_clock y).1 = false).
  { cbn [system_clock fst]. rewrite clock_branch by done. by_state Hs1. }
  destruct (last_stage _ w nx u v Hnw Hnx Hs2 Haw2 Hbr2) as (Et2 & Hwe2 & _).
  apply leads_next; [by rewrite Hs1|]. apply leads_next; [by rewrite Hs2|]. apply leads_here.
  pose proof (update_step _ a' 0 Hs2 Hcar ltac:(lia) (aw_alu _ _ _ _ _ Haw2)) as Hup.
  rewrite Et2, Hwe2 in Hup. by apply Hup.
Qed.

(** CSR2 and the last stage. *)
Lemma csr2_done y a w nx n x :
  state y.1 = STATE_CSR2 -> carries y a 0 -> awaiting w nx (reg_val1 y.1) (reg_val2 y.1) y.1 ->
  slice 11 0 (imm_of w) = n -> csr2_data y.1 = x -> u32_range x -> no_writeback (control w) -> u32_range nx ->
  leads (fun z => models z (goto nx (write_csr_insn n x a))) y.
Proof.
  intros Hs Hc Haw En Ex Hx Hnw Hnx. pose proof (pins_reset y) as Hi.
  pose proof (imm_flying _ _ _ _ _ (aw_flying _ _ _ _ _ Haw)) as Ei.
  assert (Hcb : cpu_busy (pins_of y) y.1 = false) by (rewrite (calm_busy _ _ _ Hc); apply Haw).
  assert (Hask := ask y a true n x Hc (aw_alu _ _ _ _ _ Haw) ltac:(by_state Hs) ltac:(by_state Hs)
    ltac:(unfold cpu_request; by rewrite Hs, Ei, En, Ex) Hx ltac:(by_state Hs) ltac:(by_state Hs) ltac:(by_state Hs)).
  apply leads_next; [by rewrite Hs|].
  apply (csr_taken _ a w nx (reg_val1 y.1) (reg_val2 y.1) n x); [| | | |exact Hask|done|done].
  - cbn [system_clock fst]. rewrite clock_state by done. rewrite Hcb. unfold next_state. by rewrite Hs.
  - apply no_trap_step; [done|apply Hc|by_state Hs|by_state Hs].
  - apply awaiting_step; by rewrite ?Hs.
  - cbn [system_clock fst]. rewrite clock_branch by done. by_state Hs.
Qed.

Lemma csr_done y a w nx :
  in_system y a w nx -> funct3 w mod 4 <> 0 -> u32_range nx ->
  carried_out y a nx (Special (funct3 w) (o_rd (control w)) (o_rs1 (control w)) (slice 11 0 (imm_of w))).
Proof.
  intros Hsys Hf3 Hnx. destruct (system_facts _ _ _ _ Hsys) as (Hcb & Ef3 & Ef12 & _ & _).
  destruct Hsys as [Hs Hc Haw Hn]. pose proof (pins_reset y) as Hi. set (f3 := funct3 w) in *.
  set (n := slice 11 0 (imm_of w)) in *. pose proof (cy_core _ _ _ Hc) as [Hr Hnt Hk _].
  assert (E0 : (f3 =? 0) = false) by (destruct (Z.eqb_spec f3 0) as [E|]; [by rewrite E in Hf3|done]).
  assert (E4 : (f3 =? 4) = false) by (destruct (Z.eqb_spec f3 4) as [E|]; [by rewrite E in Hf3|done]).
  assert (Htr : system_traps y.1 = false) by (unfold system_traps; by rewrite Ef3, E0, E4).
  assert (Hmr : is_mret y.1 = false) by (unfold is_mret; by rewrite Ef3, E0).
  assert (Hask := ask y a false n 0 Hc (aw_alu _ _ _ _ _ Haw) ltac:(by_state Hs) ltac:(by_state Hs)
    ltac:(unfold cpu_request, system_request; by rewrite Hs, Ef3, Ef12, E0, E4) ltac:(done)
    ltac:(unfold next_test_finished; by rewrite Hs, Ef3, E0) ltac:(by_state Hs) ltac:(by_state Hs)).
  change (Z.testbit 0 1) with false in Hask. rewrite andb_false_r in Hask.
  apply leads_next; [by rewrite Hs|]. eapply leads_trans; [apply (csr1_done _ a w nx n)|].
  - cbn [system_clock fst]. rewrite clock_state by done. rewrite Hcb. unfold next_state. by rewrite Hs, Htr, Ef3, E0.
  - exact Hask.
  - apply no_trap_step; [done|done|unfold trap_occured; by rewrite Hs|unfold mret_occured; by rewrite Hs].
  - apply awaiting_step; by rewrite ?Hs.
  - intros z (old & Hsz & Hcz & Hawz & Hold & Hdz & Hsame). pose proof (aw_flying _ _ _ _ _ Hawz) as Hf.
    assert (Hu : u32_range (x_ a (o_rs1 (control w)))) by (apply Hr; by apply control_regs).
    destruct (csr2_value z.1 w nx _ _ f3 Hf eq_refl Hf3 Hu Hdz) as [Ev Hv].
    eapply leads_mono; [|eapply (csr2_done z _ w nx n _ Hsz Hcz); [|done|exact Ev| |done|done]].
    + intros z' Hz'. eexists. split; [exact Hz'|]. apply ex_csr; [done|done|]. exact Hsame.
    + destruct Hf as [_ _ -> ->] in Hawz |- *. exact Hawz.
    + by rewrite <- Ev.
Qed.

Lemma system_done y a w nx :
  started y a w nx -> u32_range nx -> exec_next_stage (control w) = EXEC_TO_SYSTEM -> runs_on a (meaning w) ->
  carried_out y a nx (meaning w).
Proof.
  intros Hst Hnx Hstage Hrun. rewrite meaning_operands, Hstage in *. cbn [runs_on] in Hrun.
  pose proof (system_started y a w nx Hst Hnx Hstage) as Hsys.
  apply leads_next; [by rewrite (st_state _ _ _ _ Hst)|].
  destruct (Z.eq_dec (funct3 w mod 4) 0) as [E|E]; [|by apply csr_done].
  destruct (Z.eq_dec (funct3 w) 0) as [E0|E0].
  - destruct (Z.eq_dec (slice 11 0 (imm_of w)) SYSTEM_WFI) as [Ew|Ew].
    { eapply leads_mono; [|by apply (wfi_done _ a w nx)]. intros z Hz. eexists. split; [exact Hz|].
      rewrite E0, Ew. apply ex_wfi. }
    destruct (Z.eq_dec (slice 11 0 (imm_of w)) SYSTEM_MRET) as [Em|Em].
    { eapply leads_mono; [|by apply (mret_done _ a w nx)]. intros z Hz. eexists. split; [exact Hz|].
      rewrite E0, Em. apply ex_mret. }
    eapply leads_mono; [|apply (trap_done _ a w nx Hsys E); [tauto|done]].
    intros z (t & Ht & Hz). eexists. split; [exact Hz|]. apply ex_trap; [done|tauto|done].
  - eapply leads_mono; [|apply (trap_done _ a w nx Hsys E); [tauto|done]].
    intros z (t & Ht & Hz). eexists. split; [exact Hz|]. apply ex_trap; [done|tauto|done].
Qed.
End Priv.
