(* ===== verification/RtlRuns.v ===== *)
(** * Programs on the core

    One instruction, runs of many, accesses with a wrong tag, and words that
    stop the core. *)

From S2P Require Import Prelude RvIsa RtlAlu RtlAluFacts RtlDecoder RtlDecoderFacts RtlCpu RtlSystem.
From S2P Require Import RtlSpec RtlCoreFacts RtlFetch RtlExec RtlMem RtlTrap RtlPriv.
Import Alu Decoder.

(** * The core carries out instructions

    Connected to any slave that keeps the laws, the core goes from one
    instruction to the next in finitely many clocks, and does on the way what
    [steps] says: the instruction in memory, or an interrupt. *)

Section Core.
Context {S M : Type} `{SlaveLaws S M}.
Implicit Types (y : system S) (a : arch M).

(** What is asked of the state between two instructions. *)
Definition ready_for a : Prop :=
  fetchable a /\
  let b := fetched a in
  (mie (acsr b) && tag_line b = false -> runs_on b (meaning (fetch_word (amem a) (apc a)))).

Lemma decoded y a w nx :
  decoding y a w nx -> u32_range nx -> (mie (acsr a) && tag_line a = false -> runs_on a (meaning w)) ->
  leads (fun z => exists a', models z a' /\
    (interrupts a a' \/ mie (acsr a) && tag_line a = false /\ executes nx a (meaning w) a')) y.
Proof.
  intros Hd Hnx Hrun. destruct (interrupt_taken (pins_of y) y.1) eqn:Ei.
  - eapply leads_mono; [|by apply (interrupted y a w nx)]. intros z (a' & Hz & Ha'). eauto.
  - assert (Hno : mie (acsr a) && tag_line a = false).
    { pose proof (de_carries _ _ _ _ Hd) as [[_ _ Hk _] _ Hm]. destruct (cc_view _ _ Hk) as (_ & E1 & _). cbn in E1.
      pose proof (settled_irq _ _ _ Hm) as Eq. assert (Etag : TAGS_INTERRUPT_I (pins_of y) = tag_line a) by (rewrite <- Eq; by destruct y).
      unfold interrupt_taken, interrupt_occured in Ei. rewrite Etag, E1 in Ei.
      destruct (mie (acsr a)), (tag_line a); try done. by rewrite orb_true_r in Ei. }
    specialize (Hrun Hno). pose proof (decode_step y a w nx Hd Ei) as Hst.
    apply leads_next; [by rewrite (de_state _ _ _ _ Hd)|].
    assert (Hout : carried_out (system_clock y) a nx (meaning w)).
    { destruct (exec_next_stage (control w)) eqn:Estage.
      - by apply computed.
      - by apply loaded.
      - by apply stored.
      - by apply branched.
      - by apply system_done.
      - by rewrite meaning_operands, Estage in Hrun.
      - by rewrite meaning_operands, Estage in Hrun. }
    eapply leads_mono; [|exact Hout]. intros z (a' & Hz & Ha'). eauto.
Qed.

Lemma core_step y a :
  models y a -> ready_for a -> leads (fun z => exists a', models z a' /\ steps a a') (system_clock y).
Proof.
  intros Hm [Hf Hrun]. eapply leads_trans; [by apply fetch_leads|].
  intros z Hz. apply (decoded z _ _ _ Hz); [apply (wrap_range 32); lia|exact Hrun].
Qed.
End Core.

(** * Programs on the core

    The instruction sets of the manual on the core: a word of memory is the
    encoding of an instruction or the compressed form of one, and the core
    does what the instruction says.  Runs of many instructions, and an access
    with a wrong tag, which is caught before the next instruction. *)

Section Runs.
Context {S M : Type} `{SlaveLaws S M}.
Implicit Types (y : system S) (a : arch M).

(** ** Actions with the same effect *)

Lemma shift_amount op x v :
  (ALUOP_SLL <=? op) && (op <=? ALUOP_SRA) = true -> alu_value op x v = alu_value op x (v mod 32).
Proof.
  intros Hop. unfold alu_value. replace (op =? ALUOP_REM) with false by lia. unfold alu_ref.
  assert (E : op = 7 \/ op = 8 \/ op = 9) by lia. destruct E as [->|[->| ->]]; cbn [Z.eqb Pos.eqb];
    by rewrite Z.mod_mod by done.
Qed.

Lemma val_norm a x : x_ a 0 = 0 -> val a (norm_operand x) = val a x.
Proof. intros Hx0. destruct x as [n| |v]; [|done..]. cbn. destruct (Z.eqb_spec n 0) as [->|]; [by rewrite Hx0|done]. Qed.

Lemma set_x_0 v a : set_x 0 v a = a.
Proof. done. Qed.

(** What an action does, as a function where it is one. *)
Definition effect_of (nx : Z) a (act : action) : option (arch M) :=
  match act with
  | Compute rd op x y => Some (goto nx (set_x rd (alu_value op (val a x) (val a y)) a))
  | Move rd v => Some (goto nx (set_x rd v a))
  | Nothing => Some (goto nx a)
  | Jump rd x y => Some (goto (w32 (val a x + val a y)) (set_x rd nx a))
  | _ => None
  end.

Lemma effect_norm nx a act : x_ a 0 = 0 -> effect_of nx a (norm act) = effect_of nx a act.
Proof.
  intros Hx0. destruct act as [rd op x z|rd v|rd x z| | | | | |]; try done; cbn [norm effect_of].
  - destruct (Z.eqb_spec rd 0) as [->|Hrd]; [reflexivity|]. rewrite <- (val_norm a x Hx0), <- (val_norm a z Hx0).
    assert (Hsh : forall u v, alu_value op u (if (ALUOP_SLL <=? op) && (op <=? ALUOP_SRA) then v mod 32 else v) = alu_value op u v).
    { intros u v. destruct ((ALUOP_SLL <=? op) && (op <=? ALUOP_SRA)) eqn:Es; [|reflexivity]. symmetry. by apply shift_amount. }
    destruct (norm_operand x) as [m| |u], (norm_operand z) as [n| |v]; cbn [effect_of val]; rewrite ?Hsh;
      match goal with |- context [op =? ALUOP_ADD] => destruct (Z.eqb_spec op ALUOP_ADD) as [->|] | _ => idtac end;
      reflexivity.
  - by destruct (Z.eqb_spec rd 0) as [->|].
  - by rewrite !val_norm.
Qed.

Lemma executes_effect nx a act a' :
  executes nx a act a' -> effect_of nx a act = Some a' \/ effect_of nx a act = None /\ norm act = act.
Proof. destruct 1; auto. Qed.

Lemma effect_executes nx a act a' : effect_of nx a act = Some a' -> executes nx a act a'.
Proof. destruct act; cbn; intros [= <-]; constructor. Qed.

Lemma executes_norm nx a act act' a' :
  x_ a 0 = 0 -> norm act = norm act' -> executes nx a act a' -> executes nx a act' a'.
Proof.
  intros Hx0 En Hex. destruct (executes_effect nx a act a' Hex) as [E|[E Eid]].
  - apply effect_executes. by rewrite <- effect_norm, <- En, effect_norm.
  - rewrite <- (effect_norm nx a act Hx0), En, (effect_norm nx a act' Hx0) in E.
    assert (Eid' : norm act' = act') by (destruct act'; done). congruence.
Qed.

Lemma runs_on_norm a act act' : norm act = norm act' -> runs_on a act -> runs_on a act'.
Proof.
  intros En Hr. assert (Hn : forall b, runs_on a (norm b) <-> runs_on a b).
  { intros [rd op x z|rd v|rd x z| | | | | |]; try done; cbn [norm]; repeat case_match; done. }
  apply Hn. rewrite <- En. by apply Hn.
Qed.

(** ** Instructions in memory *)

(** At [p] lies instruction [i], in its 32-bit or its compressed form. *)
Definition holds (m : M) (p : Z) (i : insn) : Prop :=
  let w := fetch_word m p in
  insn_ok i /\ w = word (encode i) \/
  c_op w <> 3 /\ expand (w mod 2 ^ 16) = Some i /\ forall op, i <> System op.

Lemma holds_meaning m p i : holds m p i -> norm (meaning (fetch_word m p)) = norm (action_of i).
Proof.
  intros [[Hok ->]|(Hc & He & Hi)]; [by rewrite decoded_insn|].
  pose proof (decoded_compressed _ Hc) as Hd. rewrite He in Hd. destruct i; try done. by destruct (Hi op).
Qed.

Lemma fetched_regs a : x_ (fetched a) = x_ a /\ apc (fetched a) = apc a /\ acsr (fetched a) = acsr a /\ amem (fetched a) = amem a.
Proof. unfold fetched. by destruct (straddles _ _). Qed.

Lemma insn_executes y a i :
  models y a -> fetchable a -> holds (amem a) (apc a) i ->
  (mie (acsr a) && tag_line (fetched a) = false -> runs_on (fetched a) (action_of i)) ->
  leads (fun z => exists a', models z a' /\
    (interrupts (fetched a) a' \/
     mie (acsr a) && tag_line (fetched a) = false /\
     executes (next_pc_of (fetch_word (amem a) (apc a)) (apc a)) (fetched a) (action_of i) a')) (system_clock y).
Proof.
  intros Hy Hf Hi Hrun. destruct (fetched_regs a) as (Ex & _ & Ek & _). pose proof (holds_meaning _ _ _ Hi) as En.
  eapply leads_mono; [|apply (core_step y a Hy)].
  - intros z (a' & Hz & [Hint|[Hno Hex]]); exists a'; (split; [done|]); [by left|right]. rewrite Ek in Hno. split; [done|].
    refine (executes_norm _ _ _ _ _ _ En Hex). rewrite Ex. apply Hy.
  - split; [done|]. cbv zeta. rewrite Ek. intros Hno. exact (runs_on_norm _ _ _ (eq_sym En) (Hrun Hno)).
Qed.

(** ** Many instructions *)

(** Every state that a run reaches is one in which the core can go on. *)
Definition goes_on a : Prop := forall a', rtc steps a a' -> ready_for a'.

Lemma core_runs n y a :
  models y a -> goes_on a ->
  exists k a', models (Nat.iter k system_clock y) a' /\ nsteps steps n a a'.
Proof.
  revert y a. induction n as [|n IH]; intros y a Hy Hgo; [exists 0%nat, a; split; [done|constructor]|].
  destruct (leads_reaches _ _ (core_step y a Hy (Hgo a (rtc_refl _ _)))) as (k & a1 & Hz & Hstep).
  destruct (IH _ a1 Hz) as (j & a2 & Hj & Hn).
  - intros a' Ha'. apply Hgo. by eapply rtc_l.
  - exists (j + Datatypes.S k)%nat, a2. split; [|by eapply nsteps_l]. rewrite Nat.iter_add, Nat.iter_succ_r. exact Hj.
Qed.

(** ** Wrong tags *)

(** A load or store in memory whose tag is checked and does not match. *)
Definition misuses a (act : action) : Prop :=
  match act with
  | LoadFrom f3 _ rs1 imm | StoreTo f3 rs1 _ imm =>
      let p := w32 (x_ a rs1 + imm) in
      in_mem p = true /\ checks a f3 rs1 = true /\ mem_mismatch (amem a) p = true
  | _ => False
  end.

(** In the handler of the tag interrupt: nothing happened since [a] but the
    entry, which kept the address to go on at. *)
Record caught a a' : Prop := {
  ca_pc : apc a' = let v := file (acsr a) M_TVEC in v - v mod 2;
  ca_cause : file (acsr a') M_CAUSE = CAUSE_TAG_MISMATCH;
  ca_epc : file (acsr a') M_EPC = apc a;
  ca_mie : mie (acsr a') = false;
  ca_regs : x_ a' = x_ a;
  ca_mem : amem a' = amem a;
}.

Lemma misuse_line nx a act a' :
  misuses a act -> executes nx a act a' ->
  tag_line a' = true /\ mie (acsr a') = mie (acsr a) /\ tags_on (acsr a') = true /\ runs_on a act.
Proof.
  intros Hm Hex. destruct Hex as [| | | | |f3 rd rs1 imm d p|f3 rs1 rs2 imm p sel m r k k'| | | |]; try done;
    destruct Hm as (Hin & Hc & Hmm); fold p in Hin, Hmm;
    assert (Hl : line_after a (checks a f3 rs1) p = true) by (unfold line_after; rewrite Hin, Hc, Hmm; apply orb_true_r);
    assert (Ht : tags_on (acsr a) = true) by (unfold checks in Hc; by destruct (f3 =? 7), (tags_on (acsr a))).
  - cbn [goto set_x set_line]. unfold set_x. cbn [runs_on]. fold p. rewrite answers_mem by done. destruct (rd =? 0); done.
  - cbn [runs_on]. fold p. rewrite answers_mem by done. unfold k', k. by destruct (s_mtimecmp r).
Qed.

Lemma entry_disables s : Z.testbit (entry_status s) 3 = false.
Proof. unfold entry_status. by rewrite with_bit_bits by lia. Qed.

Lemma entered_caught a t : caught a (enter_trap CAUSE_TAG_MISMATCH t a).
Proof. split; destruct t; try done; exact (entry_disables _). Qed.

Lemma misuse_trapped y a i :
  models y a -> fetchable a -> mie (acsr a) = true -> holds (amem a) (apc a) i ->
  let nx := next_pc_of (fetch_word (amem a) (apc a)) (apc a) in
  misuses (fetched a) (action_of i) ->
  (forall a1, executes nx (fetched a) (action_of i) a1 -> fetchable a1) ->
  leads (fun z => exists a1, models z a1 /\
    (interrupts (fetched a) a1 \/
     executes nx (fetched a) (action_of i) a1 /\
     leads (fun z2 => exists a2, models z2 a2 /\ caught a1 a2) (system_clock z))) (system_clock y).
Proof.
  intros Hy Hf Hmie Hi nx Hmis Hnext. destruct (fetched_regs a) as (_ & _ & Ek & _).
  eapply leads_mono; [|apply (insn_executes y a i Hy Hf Hi)].
  - intros z (a1 & Hz & [Hint|[_ Hex]]); exists a1; (split; [done|]); [by left|right]. split; [done|].
    destruct (misuse_line _ _ _ _ Hmis Hex) as (Hl & Em & Ht & _). rewrite Ek, Hmie in Em.
    destruct (fetched_regs a1) as (Ex1 & Ep1 & Ek1 & Ew1).
    assert (Hl1 : tag_line (fetched a1) = true).
    { unfold fetched, line_after. cbn [tag_line set_line]. rewrite Hl. by destruct (straddles _ _). }
    eapply leads_mono; [|apply (core_step z a1 Hz)].
    + intros z2 (a2 & Hz2 & Hstep). exists a2. split; [done|].
      destruct Hstep as [Hint|[Hno _]]; [|by rewrite Ek1, Em, Hl1 in Hno].
      destruct Hint as [timer t _ _ _]. rewrite Hl1, Ek1, Ht. cbn [andb].
      destruct (entered_caught (fetched a1) t) as [C1 C2 C3 C4 C5 C6]. rewrite ?Ek1, ?Ep1, ?Ex1, ?Ew1 in *. by split.
    + split; [by apply Hnext|]. cbv zeta. by rewrite Ek1, Em, Hl1.
  - intros _. destruct (action_of i); try done; destruct Hmis as (Hin & _); cbn [runs_on]; by apply answers_mem.
Qed.
End Runs.

(** * Illegal instructions that stop the core

    The decoder gives the compressed shifts with bit 12 of the word set,
    which are not instructions of RV32, the operation of the shift and sends
    the core to STATE_TRAP.  The arithmetic unit has then begun to shift, but
    outside EXEC it is told to add and never ends: the core waits for it for
    good. *)

(** C.SLLI, C.SRLI and C.SRAI with a shift amount of 32 or more. *)
Definition long_shift (w : Z) : bool :=
  Z.testbit w 12 &&
  ((slice 1 0 w =? 2) && (slice 15 13 w =? 0) ||
   (slice 1 0 w =? 1) && (slice 15 13 w =? 4) && (slice 11 11 w =? 0)).

Lemma long_shift_checked :
  all_below (Z.to_nat 65536) 0 (fun w => negb (long_shift w) ||
    match exec_next_stage (control w) with
    | EXEC_TO_TRAP => (ALUOP_SLL <=? alu_oper (control w)) && (alu_oper (control w) <=? ALUOP_SRA)
    | _ => false
    end) = true.
Proof. vm_compute. reflexivity. Qed.

Lemma long_shift_control w :
  c_op w <> 3 -> long_shift (w mod 2 ^ 16) = true ->
  exec_next_stage (control w) = EXEC_TO_TRAP /\ (ALUOP_SLL <=? alu_oper (control w)) && (alu_oper (control w) <=? ALUOP_SRA) = true.
Proof.
  intros Hop Hl. rewrite control_low by done. set (v := w mod 2 ^ 16) in *.
  assert (Hr : 0 <= v < 0 + Z.of_nat (Z.to_nat 65536)).
  { rewrite Z2Nat.id by done. apply Z.mod_pos_bound. done. }
  pose proof (all_below_spec _ _ _ v long_shift_checked Hr) as Hv. clear Hr. cbv beta in Hv. rewrite Hl in Hv.
  cbn [negb orb] in Hv. by destruct (exec_next_stage (control v)).
Qed.

(** The arithmetic unit is busy in STATE_TRAP. *)
Definition stuck_core (c : cpu) : Prop := state c = STATE_TRAP /\ busy (alu_inst c) = true.

Lemma stuck_core_clock i c : RST_I i = false -> stuck_core c -> stuck_core (cpu_clock i c).
Proof.
  intros Hi [Hs Hb]. split.
  - rewrite clock_state by done. unfold cpu_busy, alu_busy. by rewrite Hb.
  - rewrite clock_alu by done. unfold alu_en, alu_op_final. rewrite Hs. unfold alu_clock. by rewrite Hb.
Qed.

Section Stuck.
Context {S M : Type} `{SlaveLaws S M}.
Implicit Types (y : system S) (a : arch M).

Lemma stuck_for_good y n : stuck_core y.1 -> stuck_core (Nat.iter n system_clock y).1.
Proof. intros Hy. induction n as [|n IH]; [done|]. cbn. apply stuck_core_clock; [apply pins_reset|exact IH]. Qed.

Lemma long_shift_stuck y a :
  models y a -> fetchable a -> mie (acsr a) = false ->
  let w := fetch_word (amem a) (apc a) in
  c_op w <> 3 -> long_shift (w mod 2 ^ 16) = true ->
  exists k, forall n, state (Nat.iter (n + k) system_clock y).1 = STATE_TRAP.
Proof.
  intros Hy Hf Hmie w Hop Hl. destruct (long_shift_control w Hop Hl) as [Hstage Halu].
  destruct (leads_reaches _ _ (fetch_leads y a Hy Hf)) as (k & Hd). fold w in Hd. rewrite <- Nat.iter_succ_r in Hd.
  exists (2 + Datatypes.S k)%nat. intros n. rewrite Nat.iter_add. apply stuck_for_good. 
  set (z := Nat.iter (Datatypes.S k) system_clock y) in *.
  change (stuck_core (system_clock (system_clock z)).1). clearbody z.
  assert (Hint : interrupt_taken (pins_of z) z.1 = false).
  { pose proof (de_carries _ _ _ _ Hd) as [[_ _ Hk _] _ _]. destruct (cc_view _ _ Hk) as (_ & E1 & _). cbn in E1.
    assert (E2 : acsr (fetched a) = acsr a) by (unfold fetched; by destruct (straddles _ _)).
    rewrite E2, Hmie in E1. unfold interrupt_taken. by rewrite E1, andb_false_r. }
  assert (Hnx : u32_range (next_pc_of w (apc a))) by (apply (wrap_range 32); lia).
  pose proof (decode_step z _ w _ Hd Hint) as Hst. pose proof (operand_range _ _ w ltac:(apply Hst)) as (Hu & Hv).
  destruct (exec_step _ _ _ _ Hst Hnx) as [Hs _ (r & Hr & Er) _ _ _ _ _]. rewrite Hstage in Hs. split; [exact Hs|].
  rewrite Er. destruct (alu_finishes (val (fetched a) (operand1 w)) (val (fetched a) (operand2 w)) (alu_oper (control w)) r Hu Hv Hr) as (Hb & _).
  apply (Hb 0%nat). unfold latency. rewrite Halu. lia.
Qed.
End Stuck.
