(* ===== verification/RtlSoc.v ===== *)
(** * The devices of the SoC

    The tagged memory (src/rtl/ram/wb_ram.v), the timer (timer/wb_timer.v),
    the UART (uart/wb_uart.v, as built for hardware) and the bus multiplexer
    (bus/wb_mux.v) with the core as the master, connected as in soc.v.
    Together they are the slave of the core.  [stored_addr] and [stored_data]
    of the memory, which nothing reads, are left out. *)

From S2P Require Import Prelude RtlAlu RtlCpu RtlSystem.

(** ** helpers.vh *)

Fixpoint log2_bits (n : nat) (j : Z) : Z :=
  match n with O => 0 | S k => if Z.testbit j (Z.of_nat k) then Z.of_nat (S k) else log2_bits k j end.
(** The loop of [log2]: one more than the number of the highest bit of
    [value - 1] among the lowest 31. *)
Definition log2 (value : Z) : Z := log2_bits 31 (value - 1).

(** ** wb_ram *)

Inductive ram_fsm := STATE_IDLE | STATE_WRITE_WORD | STATE_STOP | STATE_WRITE_TAG.

Record wb_ram := WbRam {
  ram_state : ram_fsm; ram_ack : bool; irq : bool;
  ram_we_r : bool; tag_we_r : bool; tag_mismatch : bool;
  ram0 : generic_ram; tag0 : generic_ram;
}.

Abbreviation GRANULE_SIZE_BYTES := 16.
Abbreviation GRANULE_TAG_WIDTH := 4.

Section Ram.
Context (WB_RAM_WORDS : Z).

Definition GRANULES_NUM : Z := WB_RAM_WORDS * 4 / GRANULE_SIZE_BYTES.
Definition ram_index (p : Z) : Z := slice (log2 WB_RAM_WORDS - 1 + 2) 2 p.
Definition current_granule_addr (p : Z) : Z :=
  slice (log2 GRANULE_SIZE_BYTES + log2 GRANULES_NUM - 1) (log2 GRANULE_SIZE_BYTES) p.
Definition current_tag (p : Z) : Z := slice 31 (32 - GRANULE_TAG_WIDTH) p.

Definition access_load_store (sel : Z) : bool := (sel =? SEL_BYTE) || (sel =? SEL_HALF) || (sel =? SEL_WORD).
Definition ram_accessed (r : request) : bool := r_cyc r && r_stb r && access_load_store (r_sel r).
Definition tag_accessed (r : request) : bool := r_cyc r && r_stb r && (r_sel r =? SEL_TAG).
Definition done_in_one_tick (r : request) : bool :=
  negb (r_we r && (r_sel r =? SEL_BYTE) || r_we r && (r_sel r =? SEL_HALF)).

(** The part of a word that an access at [p] reads. *)
Definition final_byte (p d : Z) : Z :=
  let k := slice 1 0 p in
  if k =? 0 then slice 7 0 d else if k =? 1 then slice 15 8 d else if k =? 2 then slice 23 16 d else slice 31 24 d.
Definition final_half (p d : Z) : Z := if slice 1 0 p =? 0 then slice 15 0 d else slice 31 16 d.

Definition wb_data_out (r : request) (m : wb_ram) : Z :=
  let d := data_o (ram0 m) in
  let gate v := if ram_accessed r || tag_accessed r then v else 0 in
  if r_sel r =? SEL_BYTE then gate (cat [(24, 0); (8, final_byte (r_adr r) d)])
  else if r_sel r =? SEL_HALF then gate (cat [(16, 0); (16, final_half (r_adr r) d)])
  else if r_sel r =? SEL_WORD then gate d
  else if r_sel r =? SEL_TAG then gate (cat [(28, 0); (4, data_o (tag0 m))])
  else 0.

(** The word after a write at [p]; [d] is the word before. *)
Definition data_to_write (p v sel d : Z) : Z :=
  let k := slice 1 0 p in
  let b := (8, slice 7 0 v) in
  let h := (16, slice 15 0 v) in
  if sel =? SEL_BYTE then
    if k =? 0 then cat [(24, slice 31 8 d); b]
    else if k =? 1 then cat [(16, slice 31 16 d); b; (8, slice 7 0 d)]
    else if k =? 2 then cat [(8, slice 31 24 d); b; (16, slice 15 0 d)]
    else cat [b; (24, slice 23 0 d)]
  else if sel =? SEL_HALF then
    if k =? 0 then cat [(16, slice 31 16 d); h]
    else if k =? 2 then cat [h; (16, slice 15 0 d)]
    else 0
  else if sel =? SEL_WORD then v
  else 0.

Definition wb_ram_clock (r : request) (m : wb_ram) : wb_ram :=
  let idle_access := match ram_state m with STATE_IDLE => true | _ => false end in
  {| ram_state :=
       match ram_state m with
       | STATE_IDLE =>
           if tag_accessed r then STATE_STOP
           else if ram_accessed r then (if done_in_one_tick r then STATE_STOP else STATE_WRITE_WORD)
           else STATE_IDLE
       | STATE_WRITE_WORD => STATE_STOP
       | STATE_STOP => STATE_IDLE
       | STATE_WRITE_TAG => STATE_WRITE_TAG
       end;
     ram_ack := idle_access && (ram_accessed r || tag_accessed r);
     irq := if r_clear r then false else tag_mismatch m || irq m;
     ram_we_r := idle_access && ram_accessed r && r_we r;
     tag_we_r := idle_access && tag_accessed r && r_we r;
     tag_mismatch :=
       match ram_state m with
       | STATE_STOP => r_check r && negb (current_tag (r_adr r) =? data_o (tag0 m))
       | _ => false
       end;
     ram0 := generic_ram_clock WB_RAM_WORDS 32 (ram_we_r m)
       (data_to_write (r_adr r) (r_dat r) (r_sel r) (data_o (ram0 m)))
       (ram_index (r_adr r)) (ram_index (r_adr r)) (ram0 m);
     tag0 := generic_ram_clock GRANULES_NUM GRANULE_TAG_WIDTH (tag_we_r m) (slice 3 0 (r_dat r))
       (current_granule_addr (r_adr r)) (current_granule_addr (r_adr r)) (tag0 m) |}.

(** An edge with reset; the memories have none. *)
Definition wb_ram_reset (r : request) (m : wb_ram) : wb_ram :=
  WbRam STATE_IDLE false false false false false (ram0 (wb_ram_clock r m)) (tag0 (wb_ram_clock r m)).
End Ram.

(** ** wb_timer *)

Record wb_timer := WbTimer {
  mtime : Z; mtimecmp : Z; tgt_clk : Z; clk_cnt : Z; mtime_alw_en : Z; timer_irq : bool; timer_ack : bool;
}.

Definition timer_reg (p : Z) : Z := slice 4 2 p.
Definition lo64 (x : Z) : Z := slice 31 0 x.
Definition hi64 (x : Z) : Z := slice 63 32 x.
Definition set_lo (v x : Z) : Z := cat [(32, hi64 x); (32, v)].
Definition set_hi (v x : Z) : Z := cat [(32, v); (32, lo64 x)].

Definition timer_mtimecmp_accessed (r : request) : bool :=
  r_cyc r && r_we r && (timer_reg (r_adr r) =? 2) || (timer_reg (r_adr r) =? 3).

Definition timer_data (p : Z) (t : wb_timer) : Z :=
  let a := timer_reg p in
  if a =? 0 then lo64 (mtime t) else if a =? 1 then hi64 (mtime t)
  else if a =? 2 then lo64 (mtimecmp t) else if a =? 3 then hi64 (mtimecmp t)
  else if a =? 4 then lo64 (tgt_clk t) else if a =? 5 then hi64 (tgt_clk t)
  else if a =? 6 then lo64 (mtime_alw_en t) else hi64 (mtime_alw_en t).

Definition wb_timer_clock (r : request) (t : wb_timer) : wb_timer :=
  let a := timer_reg (r_adr r) in
  let v := r_dat r in
  let write := r_cyc r && r_we r in
  let timer_enabled := negb (tgt_clk t =? 0) in
  let set_time := write && ((a =? 0) || (a =? 1)) in
  let expired := tgt_clk t <=? clk_cnt t in
  {| mtime :=
       if set_time then (if a =? 0 then set_lo v (mtime t) else set_hi v (mtime t))
       else if timer_enabled && expired then w64 (mtime t + 1) else mtime t;
     mtimecmp := if write && (a =? 2) then set_lo v (mtimecmp t)
       else if write && (a =? 3) then set_hi v (mtimecmp t) else mtimecmp t;
     tgt_clk := if write && (a =? 4) then set_lo v (tgt_clk t)
       else if write && (a =? 5) then set_hi v (tgt_clk t) else tgt_clk t;
     clk_cnt :=
       if timer_enabled then
         if negb set_time && expired then 1 else w64 (clk_cnt t + 1)
       else clk_cnt t;
     mtime_alw_en := w64 (mtime_alw_en t + 1);
     timer_irq := mtimecmp t <=? mtime t;
     timer_ack := r_cyc r && negb (timer_ack t) |}.

Definition wb_timer_reset : wb_timer := WbTimer 0 0 0 1 0 false false.

(** ** wb_uart *)

Record wb_uart := WbUart {
  uart_ack : bool; data_out : Z; cfg_divider : Z; tx_started : bool;
  send_pattern : Z; send_bitcnt : Z; send_divcnt : Z; in_prog : bool; finished : bool;
}.

Abbreviation UART_ADDR_DIVIDER := 0.
Abbreviation UART_ADDR_DATA_TO_TRANSMIT := 1.
Abbreviation UART_ADDR_SANITY := 2.
Abbreviation UART_SANITY_VALUE := 0xA17EB0B0.

Definition wb_uart_clock (r : request) (u : wb_uart) : wb_uart :=
  let a := slice 3 2 (r_adr r) in
  let wr := r_we r in
  let accessed := r_cyc r && r_stb r in
  let sending := negb (send_bitcnt u =? 0) in
  let load := tx_started u && negb sending in
  let shift := negb load && (cfg_divider u <? send_divcnt u) && sending in
  let last := in_prog u && (send_bitcnt u =? 1) in
  {| uart_ack :=
       if accessed then
         if a =? UART_ADDR_DIVIDER then true
         else if a =? UART_ADDR_SANITY then uart_ack u
         else if a =? UART_ADDR_DATA_TO_TRANSMIT then (if wr && finished u then true else uart_ack u)
         else true
       else false;
     data_out :=
       if accessed then
         if (a =? UART_ADDR_DIVIDER) && negb wr then cfg_divider u
         else if (a =? UART_ADDR_SANITY) && negb wr then UART_SANITY_VALUE
         else data_out u
       else 0;
     cfg_divider := if accessed && (a =? UART_ADDR_DIVIDER) && wr then r_dat r else cfg_divider u;
     tx_started :=
       if accessed then
         if (a =? UART_ADDR_DATA_TO_TRANSMIT) && wr then negb (finished u) else tx_started u
       else false;
     send_pattern :=
       if load then cat [(1, 1); (8, slice 7 0 (r_dat r)); (1, 0)]
       else if shift then cat [(1, 1); (9, slice 9 1 (send_pattern u))] else send_pattern u;
     send_bitcnt := if load then 10 else if shift then wrap 4 (send_bitcnt u - 1) else send_bitcnt u;
     send_divcnt := if load || shift then 0 else w32 (send_divcnt u + 1);
     in_prog := if last then false else if load then true else in_prog u;
     finished := last |}.

Definition wb_uart_reset : wb_uart := WbUart false 0 1 false 0x3ff 0 0 false false.

Definition uart_tx_o (u : wb_uart) : bool := Z.testbit (send_pattern u) 0.

(** ** wb_mux and soc *)

Record soc := Soc { ram : wb_ram; timer : wb_timer; uart : wb_uart; mux_ack : bool }.

Abbreviation WB_ACCESS_RAM := 0.
Abbreviation WB_ACCESS_TIMER := 1.
Abbreviation WB_ACCESS_UART := 2.
Abbreviation WB_WRONG_DATA := 0xDEADBEAF.

Definition wb_periph_select (p : Z) : Z := slice 27 26 p.

(** The request as device [n] sees it. *)
Definition routed (n : Z) (r : request) : request :=
  let here := wb_periph_select (r_adr r) =? n in
  Request (r_adr r) (r_dat r) (r_sel r) (r_we r) (r_cyc r && here) (r_stb r && here) (r_check r) (r_clear r).

Definition wb_cpu_ack (r : request) (s : soc) : bool :=
  let n := wb_periph_select (r_adr r) in
  if n =? WB_ACCESS_TIMER then timer_ack (timer s)
  else if n =? WB_ACCESS_RAM then ram_ack (ram s)
  else if n =? WB_ACCESS_UART then uart_ack (uart s) && r_cyc (routed WB_ACCESS_UART r)
  else mux_ack s.

Definition wb_cpu_data (r : request) (s : soc) : Z :=
  let n := wb_periph_select (r_adr r) in
  if n =? WB_ACCESS_TIMER then timer_data (r_adr r) (timer s)
  else if n =? WB_ACCESS_RAM then wb_data_out (routed WB_ACCESS_RAM r) (ram s)
  else if n =? WB_ACCESS_UART then data_out (uart s)
  else WB_WRONG_DATA.

Definition soc_clock (words : Z) (r : request) (s : soc) : soc :=
  Soc (wb_ram_clock words (routed WB_ACCESS_RAM r) (ram s)) (wb_timer_clock (routed WB_ACCESS_TIMER r) (timer s))
    (wb_uart_clock (routed WB_ACCESS_UART r) (uart s)) (r_stb r && negb (mux_ack s)).

Definition soc_reset (words : Z) (r : request) (s : soc) : soc :=
  Soc (wb_ram_reset words (routed WB_ACCESS_RAM r) (ram s)) wb_timer_reset wb_uart_reset false.

(** The slave of the core, with a memory of [words] words. *)
Definition soc_slave (words : Z) : Slave soc := {|
  s_clock := soc_clock words;
  s_ack := wb_cpu_ack;
  s_data := wb_cpu_data;
  s_timer_irq := fun s => timer_irq (timer s);
  s_tags_irq := fun s => irq (ram s);
  s_mtimecmp := fun r => timer_mtimecmp_accessed (routed WB_ACCESS_TIMER r);
|}.
