(* ===== verification/RtlUart.v ===== *)
(** * The transmitter of the UART

    A write of the data register is acknowledged after finitely many clocks,
    and the line carries the byte: a start bit, eight data bits with the
    lowest first, a stop bit, each for [cfg_divider + 2] clocks. *)

From S2P Require Import Prelude RtlAlu RtlAluFacts RtlCpu RtlSystem RtlCoreFacts RtlSoc.

Record uart_wf (u : wb_uart) : Prop := {
  wf_bits : 0 <= send_bitcnt u <= 10;
  wf_busy : in_prog u = true -> 1 <= send_bitcnt u;
  wf_idle : in_prog u = false -> send_bitcnt u <= 1;
  wf_div : 0 <= send_divcnt u < 2 ^ 32;
}.

Definition data_write (r : request) : Prop :=
  r_cyc r = true /\ r_stb r = true /\ r_we r = true /\ slice 3 2 (r_adr r) = UART_ADDR_DATA_TO_TRANSMIT.

(** The bit counter never wraps. *)
Lemma count_down n : 1 <= n <= 10 -> wrap 4 (n - 1) = n - 1.
Proof. intros. apply wrap_small. lia. Qed.

Lemma w32_below x : 0 <= w32 x < 2 ^ 32.
Proof. apply wrap_range. lia. Qed.

Lemma uart_wf_clock r u : uart_wf u -> uart_wf (wb_uart_clock r u).
Proof.
  intros [Hb Hp Hi Hd]. pose proof (w32_below (send_divcnt u + 1)).
  split; cbn [send_bitcnt in_prog send_divcnt wb_uart_clock];
    destruct (send_bitcnt u =? 0) eqn:E0, (send_bitcnt u =? 1) eqn:E1, (in_prog u), (tx_started u),
      (cfg_divider u <? send_divcnt u); cbn [andb negb orb]; intros; try done;
    rewrite ?count_down by lia; try specialize (Hp eq_refl); try specialize (Hi eq_refl); lia.
Qed.

(** ** A bound on the clocks until the acknowledgement *)

Definition next_shift (u : wb_uart) : Z :=
  if cfg_divider u <? send_divcnt u then 1 else cfg_divider u + 2 - send_divcnt u.

Definition uart_rank (u : wb_uart) : Z :=
  let d := cfg_divider u + 2 in
  if uart_ack u then 0 else if finished u then 1
  else if in_prog u then
    if send_bitcnt u =? 1 then 2 else 2 + (send_bitcnt u - 2) * d + next_shift u
  else 9 * d + 4 + (if send_bitcnt u =? 0 then if tx_started u then -1 else 0 else next_shift u).

Lemma next_shift_pos u : 0 <= send_divcnt u < 2 ^ 32 -> 1 <= next_shift u.
Proof. unfold next_shift. intros. case_match; zlia. Qed.

Lemma uart_rank_pos u : uart_wf u -> 0 <= cfg_divider u -> 0 <= uart_rank u.
Proof.
  intros [Hb Hp Hi Hd] Hc. pose proof (next_shift_pos u Hd). unfold uart_rank.
  destruct (uart_ack u), (finished u), (in_prog u); try lia.
  - destruct (send_bitcnt u =? 1) eqn:E; [lia|]. specialize (Hp eq_refl). nia.
  - repeat case_match; lia.
Qed.

Lemma uart_rank_down r u :
  uart_wf u -> data_write r -> 0 <= cfg_divider u < 2 ^ 32 - 1 -> uart_ack u = false ->
  uart_rank (wb_uart_clock r u) < uart_rank u /\ cfg_divider (wb_uart_clock r u) = cfg_divider u /\
  data_out (wb_uart_clock r u) = data_out u.
Proof.
  intros [Hb Hp Hi Hd] (Hc & Hs & Hw & Ha) Hdiv Hack.
  assert (Ec : cfg_divider (wb_uart_clock r u) = cfg_divider u) by (cbn; by rewrite Ha, andb_false_r).
  split_and!; [|done|cbn; by rewrite Hc, Hs, Ha].
  assert (Edn : w32 (send_divcnt u + 1) = if send_divcnt u =? 2 ^ 32 - 1 then 0 else send_divcnt u + 1).
  { destruct (Z.eqb_spec (send_divcnt u) (2 ^ 32 - 1)) as [->|]; [done|apply w32_small; lia]. }
  unfold uart_rank, next_shift. rewrite Ec, Hack.
  cbn [uart_ack finished in_prog send_bitcnt send_divcnt tx_started wb_uart_clock]. rewrite Hc, Hs, Hw, Ha, Hack, Edn.
  cbn [andb Z.eqb Pos.eqb]. set (D := cfg_divider u) in *. set (n := send_divcnt u) in *.
  destruct (finished u) eqn:Ef; cbn [negb]; [done|].
  destruct (in_prog u) eqn:Ei.
  - specialize (Hp eq_refl). destruct (send_bitcnt u =? 1) eqn:E1; [cbn; lia|].
    assert (E0 : (send_bitcnt u =? 0) = false) by lia. rewrite E0. cbn [negb andb orb]. rewrite andb_false_r, andb_true_r. cbn [negb andb orb].
    destruct (D <? n) eqn:En.
    + rewrite count_down by lia. destruct (send_bitcnt u - 1 =? 1) eqn:E2; destruct (D <? 0) eqn:E3; nia.
    + rewrite E1. destruct (n =? 2 ^ 32 - 1) eqn:E4; [lia|]. destruct (D <? n + 1) eqn:E5; lia.
  - specialize (Hi eq_refl). cbn [andb]. destruct (send_bitcnt u =? 0) eqn:E0; cbn [negb andb].
    + destruct (tx_started u); cbn [negb andb orb]; [|rewrite andb_false_r, E0; cbn [andb]; lia].
      destruct (D <? 0) eqn:E3; cbn [Z.eqb Pos.eqb]; lia.
    + rewrite andb_false_r, andb_true_r. cbn [negb andb orb]. assert (E1 : send_bitcnt u = 1) by lia. rewrite E1.
      destruct (D <? n) eqn:En; [change (wrap 4 (1 - 1)) with 0; cbn [Z.eqb]; destruct (tx_started u); lia|]. cbn [Z.eqb Pos.eqb].
      destruct (n =? 2 ^ 32 - 1) eqn:E4; [lia|]. destruct (D <? n + 1) eqn:E5; lia.
Qed.

(** ** What the line carries *)

(** Bit [j] of the frame of the byte [v]; the line stays high after it. *)
Definition frame (v j : Z) : bool := if j =? 0 then false else if 9 <=? j then true else Z.testbit v (j - 1).

(** The master keeps the request up until it is acknowledged. *)
Definition sender (r : request) (x : bool * wb_uart) : bool * wb_uart :=
  (x.1 && negb (uart_ack x.2), wb_uart_clock (if x.1 then r else release r) x.2).

Definition shift_pattern (p : Z) : Z := cat [(1, 1); (9, slice 9 1 p)].
Definition pattern (v : Z) (j : nat) : Z := Nat.iter j shift_pattern (cat [(1, 1); (8, slice 7 0 v); (1, 0)]).

Lemma pattern_succ v j : pattern v (S j) = shift_pattern (pattern v j).
Proof. done. Qed.

Lemma pattern_checked :
  forallb (fun v => forallb (fun j => Bool.eqb (Z.testbit (pattern (Z.of_nat v) j) 0) (frame (Z.of_nat v) (Z.of_nat j)))
    (seq 0 11)) (seq 0 256) = true.
Proof. vm_compute. reflexivity. Qed.

Lemma slice_7_0 v : slice 7 0 v = slice 7 0 (w8 v).
Proof. unfold slice. rewrite !Z.shiftr_0_r. symmetry. by apply (Z.mod_mod v (2 ^ 8)). Qed.

Lemma pattern_frame v j : 0 <= j <= 10 -> Z.testbit (pattern v (Z.to_nat j)) 0 = frame v j.
Proof.
  intros Hj. pose proof pattern_checked as H. rewrite forallb_forall in H.
  assert (Hv : 0 <= w8 v < 256) by (apply (wrap_range 8); lia).
  specialize (H (Z.to_nat (w8 v)) ltac:(apply in_seq; lia)). rewrite forallb_forall in H.
  specialize (H (Z.to_nat j) ltac:(apply in_seq; lia)). apply Bool.eqb_prop in H. rewrite !Z2Nat.id in H by lia.
  unfold pattern in *. rewrite slice_7_0, H. unfold frame. destruct (j =? 0) eqn:E0, (9 <=? j) eqn:E9; try done.
  unfold w8, wrap. rewrite Z.mod_pow2_bits_low by lia. done.
Qed.

Definition uart_idle (u : wb_uart) : Prop :=
  send_bitcnt u = 0 /\ in_prog u = false /\ finished u = false /\ uart_ack u = false /\ tx_started u = false.

(** While bit [j] is on the line, for [i] clocks so far. *)
Record sending (v D j i : Z) (x : bool * wb_uart) : Prop := {
  se_pattern : send_pattern x.2 = pattern v (Z.to_nat j);
  se_bits : send_bitcnt x.2 = 10 - j;
  se_div : send_divcnt x.2 = i;
  se_cfg : cfg_divider x.2 = D;
  se_prog : in_prog x.2 = (j <? 9) || (i =? 0);
  se_finished : finished x.2 = (j =? 9) && (i =? 1);
  se_ack : uart_ack x.2 = (j =? 9) && ((i =? 2) || (i =? 3));
  se_request : x.1 = negb ((j =? 9) && (3 <=? i));
  se_started : tx_started x.2 = (j <? 9) || (i <=? 1) || (i =? 3);
}.

(** A clock of the sender, with the request reduced to whether it is up. *)
Lemma sender_clock r x :
  data_write r ->
  let u := x.2 in
  let sent := (sender r x).2 in
  let load := tx_started u && (send_bitcnt u =? 0) in
  let shift := negb load && (cfg_divider u <? send_divcnt u) && negb (send_bitcnt u =? 0) in
  uart_ack sent = x.1 && (finished u || uart_ack u) /\ tx_started sent = x.1 && negb (finished u) /\
  cfg_divider sent = cfg_divider u /\
  send_pattern sent = (if load then pattern (r_dat r) 0 else if shift then shift_pattern (send_pattern u) else send_pattern u) /\
  send_bitcnt sent = (if load then 10 else if shift then wrap 4 (send_bitcnt u - 1) else send_bitcnt u) /\
  send_divcnt sent = (if load || shift then 0 else w32 (send_divcnt u + 1)) /\
  in_prog sent = (negb (in_prog u && (send_bitcnt u =? 1)) && (load || in_prog u)) /\
  finished sent = in_prog u && (send_bitcnt u =? 1).
Proof.
  intros (Hc & Hs & Hw & Ha) u sent load shift. destruct x as [p w]. cbn [fst snd] in *. subst u.
  unfold sent, sender, load, shift. cbn [fst snd].
  assert (Ea : slice 3 2 (r_adr (if p then r else release r)) = UART_ADDR_DATA_TO_TRANSMIT) by (by destruct p).
  assert (Ed : r_dat (if p then r else release r) = r_dat r) by (by destruct p).
  assert (Ep : r_cyc (if p then r else release r) && r_stb (if p then r else release r) = p) by (destruct p; [by rewrite Hc, Hs|done]).
  assert (Ew : p && r_we (if p then r else release r) = p) by (destruct p; [done|done]).
  cbn [uart_ack tx_started cfg_divider send_pattern send_bitcnt send_divcnt in_prog finished wb_uart_clock].
  rewrite Ep, Ea, Ed, !negb_involutive. cbn [Z.eqb Pos.eqb andb]. rewrite andb_false_r.
  split_and!; try done.
  - destruct p; [|done]. cbn [andb] in *. rewrite Ew. cbn. by destruct (finished w).
  - destruct p; [|done]. cbn [andb] in *. by rewrite Ew.
  - destruct (in_prog w && (send_bitcnt w =? 1)); [done|]. cbn. by destruct (tx_started w && (send_bitcnt w =? 0)).
Qed.

Section Frame.
Context (r : request) (D : Z).
Hypothesis Hr : data_write r.
Hypothesis HD : 2 <= D < 2 ^ 32 - 1.
Abbreviation v := (r_dat r).

Ltac sender_facts x := destruct (sender_clock r x Hr) as (Ea & Et & Ec & Ep & Eb & Ed & Ei & Ef).

Lemma sending_hold j i x :
  0 <= j <= 9 -> 0 <= i <= D -> sending v D j i x -> sending v D j (i + 1) (sender r x).
Proof.
  intros Hj Hi [Sp Sb Sd Sc Sg Sf Sa Sr St]. sender_facts x.
  assert (E0 : (10 - j =? 0) = false) by lia. assert (Ev : (D <? i) = false) by lia.
  assert (E1 : (10 - j =? 1) = (j =? 9)) by lia.
  rewrite Sb, Sd, Sc, Sa, Sr, Sg, Sf, ?St, ?E0, ?E1, ?Ev, ?andb_false_r in *. cbn [negb andb orb] in *.
  split; rewrite ?Ep, ?Eb, ?Ed, ?Ec, ?Ei, ?Ef, ?Ea, ?Et; try done; try lia.
  - apply w32_small. lia.
  - cbn [sender fst]. rewrite Sr, Sa. lia.
Qed.

Lemma sending_next j x :
  0 <= j < 9 -> sending v D j (D + 1) x -> sending v D (j + 1) 0 (sender r x).
Proof.
  intros Hj [Sp Sb Sd Sc Sg Sf Sa Sr St]. sender_facts x.
  assert (E0 : (10 - j =? 0) = false) by lia. assert (Ev : (D <? D + 1) = true) by lia.
  assert (E1 : (10 - j =? 1) = (j =? 9)) by lia.
  rewrite Sb, Sd, Sc, Sa, Sr, Sg, Sf, ?St, ?E0, ?E1, ?Ev, ?andb_false_r in *. cbn [negb andb orb] in *.
  split; rewrite ?Ep, ?Eb, ?Ed, ?Ec, ?Ei, ?Ef, ?Ea, ?Et; try done; try lia.
  - rewrite Sp. rewrite <- pattern_succ. f_equal. lia.
  - rewrite count_down by lia. lia.
  - cbn [sender fst]. rewrite Sr, Sa. lia.
Qed.

Lemma sending_last x :
  sending v D 9 (D + 1) x ->
  let z := sender r x in z.1 = false /\ uart_idle z.2 /\ uart_tx_o z.2 = true /\ cfg_divider z.2 = D.
Proof.
  intros [Sp Sb Sd Sc Sg Sf Sa Sr St] z. sender_facts x. fold z in Ea, Et, Ec, Ep, Eb, Ed, Ei, Ef.
  assert (Ev : (D <? D + 1) = true) by lia.
  rewrite Sb, Sd, Sc, Sa, Sr, Sg, Sf, ?St, ?Ev, ?andb_false_r in *. cbn [negb andb orb] in *.
  repeat split; rewrite ?Eb, ?Ei, ?Ef, ?Ea, ?Et; try done; try lia.
  - unfold z. cbn [sender fst]. rewrite Sr, Sa. lia.
  - unfold uart_tx_o. rewrite Ep, Sp. rewrite <- pattern_succ.
    pose proof (pattern_frame v 10 ltac:(lia)) as E. exact E.
Qed.

Context (u : wb_uart).
Hypothesis Hu : uart_idle u.
Hypothesis Hdiv : cfg_divider u = D.

Definition sent (n : nat) : bool * wb_uart := Nat.iter n (sender r) (true, u).

Lemma sent_started : sending v D 0 0 (sent 2) /\ uart_ack (sent 0).2 = false /\ uart_ack (sent 1).2 = false.
Proof.
  destruct Hu as (Hb & Hp & Hf & Ha & Ht).
  destruct (sender_clock r (true, u) Hr) as (Ea & Et & Ec & Ep & Eb & Ed & Ei & Ef).
  cbn [fst snd] in *. change (sender r (true, u)) with (sent 1) in *.
  rewrite Hf, Ha in Ea. rewrite Hf in Et. rewrite Ht, Hb in Eb. rewrite Hp, Ht, Hb in Ei. rewrite Hp in Ef.
  cbn [andb orb negb Z.eqb] in Ea, Et, Ei, Ef, Eb. rewrite andb_false_r in Eb.
  destruct (sender_clock r (sent 1) Hr) as (Fa & Ft & Fc & Fp & Fb & Fd & Fi & Ff).
  change (sender r (sent 1)) with (sent 2) in *.
  assert (E1 : (sent 1).1 = true) by (cbn; by rewrite Ha).
  rewrite E1, Ea, Ef in Fa. rewrite E1, Ef in Ft. rewrite Et, Eb in Fp, Fb, Fd. rewrite Ei, Eb, Et in Fi.
  rewrite Ei in Ff. cbn [andb orb negb Z.eqb] in Fa, Ft, Fp, Fb, Fd, Fi, Ff. rewrite Ec, Hdiv in Fc.
  split; [|exact (conj Ha Ea)]. split; rewrite ?Fp, ?Fb, ?Fd, ?Fc, ?Fi, ?Ff, ?Fa, ?Ft; try done; try lia.
  change (sent 2).1 with ((sent 1).1 && negb (uart_ack (sent 1).2)). by rewrite E1, Ea.
Qed.

Lemma sent_bits n :
  0 <= n < 10 * (D + 2) -> sending v D (n / (D + 2)) (n mod (D + 2)) (sent (2 + Z.to_nat n)).
Proof.
  intros Hn. rewrite <- (Z2Nat.id n) in Hn |- * by lia. rewrite Nat2Z.id. induction (Z.to_nat n) as [|k IH].
  { rewrite Z.div_0_l, Z.mod_0_l by lia. apply sent_started. }
  specialize (IH ltac:(lia)). change (sent (2 + S k)) with (sender r (sent (2 + k))).
  set (m := Z.of_nat k) in *. replace (Z.of_nat (S k)) with (m + 1) in * by lia.
  pose proof (Z.div_mod m (D + 2)) as Edm. pose proof (Z.mod_pos_bound m (D + 2)) as Hmod.
  assert (Hq : 0 <= m / (D + 2) <= 9) by (split; [apply Z.div_pos; lia|apply Z.lt_succ_r, Z.div_lt_upper_bound; lia]).
  destruct (Z.eq_dec (m mod (D + 2)) (D + 1)) as [E|E].
  - assert (Hq' : (m + 1) / (D + 2) = m / (D + 2) + 1) by (symmetry; apply Z.div_unique with 0; lia).
    assert (Hm' : (m + 1) mod (D + 2) = 0) by (symmetry; apply Z.mod_unique with (m / (D + 2) + 1); lia).
    rewrite Hq', Hm'. apply sending_next; [|by rewrite <- E]. split; [lia|].
    enough (m / (D + 2) + 1 <= 9) by lia. rewrite <- Hq'. apply Z.lt_succ_r, Z.div_lt_upper_bound; lia.
  - assert (Hq' : (m + 1) / (D + 2) = m / (D + 2)) by (symmetry; apply Z.div_unique with (m mod (D + 2) + 1); lia).
    assert (Hm' : (m + 1) mod (D + 2) = m mod (D + 2) + 1) by (symmetry; apply Z.mod_unique with (m / (D + 2)); lia).
    rewrite Hq', Hm'. apply sending_hold; [lia|lia|done].
Qed.

Lemma sent_at j i :
  0 <= j < 10 -> 0 <= i < D + 2 -> sending v D j i (sent (2 + Z.to_nat (j * (D + 2) + i))).
Proof.
  intros Hj Hi. pose proof (sent_bits (j * (D + 2) + i) ltac:(nia)) as H.
  rewrite Z.add_comm, Z.div_add, Z.div_small, Z.mod_add, Z.mod_small in H by lia.
  by rewrite Z.add_comm.
Qed.

Lemma sent_line j i :
  0 <= j < 10 -> 0 <= i < D + 2 -> uart_tx_o (sent (2 + Z.to_nat (j * (D + 2) + i))).2 = frame v j.
Proof.
  intros Hj Hi. unfold uart_tx_o. rewrite (se_pattern _ _ _ _ _ (sent_at j i Hj Hi)). apply pattern_frame. lia.
Qed.

(** The acknowledgement comes with the stop bit. *)
Lemma sent_ack (n : nat) : (n <= 2 + Z.to_nat (9 * (D + 2) + 2))%nat ->
  uart_ack (sent n).2 = Nat.eqb n (2 + Z.to_nat (9 * (D + 2) + 2)).
Proof.
  intros Hn. destruct sent_started as (_ & H0 & H1). destruct n as [|[|n]]; [by rewrite H0|by rewrite H1|].
  pose proof (sent_bits (Z.of_nat n) ltac:(lia)) as H. rewrite Nat2Z.id in H. change (S (S n)) with (2 + n)%nat.
  rewrite (se_ack _ _ _ _ _ H). pose proof (Z.div_mod (Z.of_nat n) (D + 2) ltac:(lia)).
  pose proof (Z.mod_pos_bound (Z.of_nat n) (D + 2) ltac:(lia)).
  destruct (Nat.eqb_spec (2 + n) (2 + Z.to_nat (9 * (D + 2) + 2))) as [E|E].
  - assert (En : Z.of_nat n = 9 * (D + 2) + 2) by lia.
    rewrite <- (Z.div_unique (Z.of_nat n) (D + 2) 9 2), <- (Z.mod_unique (Z.of_nat n) (D + 2) 9 2) by lia. done.
  - destruct (Z.eqb_spec (Z.of_nat n / (D + 2)) 9) as [E9|]; [|done]. rewrite E9 in *. cbn [andb]. lia.
Qed.

Lemma sent_done :
  let z := sent (2 + Z.to_nat (10 * (D + 2))) in
  z.1 = false /\ uart_idle z.2 /\ uart_tx_o z.2 = true /\ cfg_divider z.2 = D.
Proof.
  intros z. pose proof (sent_at 9 (D + 1) ltac:(lia) ltac:(lia)) as H. apply sending_last in H.
  replace z with (sender r (sent (2 + Z.to_nat (9 * (D + 2) + (D + 1))))); [done|].
  unfold z, sent. rewrite <- Nat.iter_succ. f_equal. lia.
Qed.
End Frame.

(** ** The divider of the reset *)

(** With the divider 1, which the reset leaves, the clock of the
    acknowledgement still sees the request and an idle transmitter: the byte
    is sent a second time, from clock 33 on, although it is written once. *)
Definition frame_at (r : request) (n : nat) : bool :=
  forallb (fun j => Bool.eqb (uart_tx_o (sent r wb_uart_reset (n + 3 * j)).2) (frame (r_dat r) (Z.of_nat j))) (seq 0 10).

Lemma reset_divider_repeats :
  forallb (fun v => let r := Request 0x8000004 (Z.of_nat v) SEL_WORD true true true false false in
    frame_at r 2 && uart_ack (sent r wb_uart_reset 31).2 && negb (sent r wb_uart_reset 32).1 && frame_at r 33)
    (seq 0 256) = true.
Proof. by vm_compute. Qed.
