(* ===== verification/RtlMemory.v ===== *)
(** * The memory and devices keep the laws the core relies on

    [image] is what memory and devices hold between two accesses, and
    [SocLaws] the proof that the SoC serves the core as [SlaveLaws] says:
    reads and writes of bytes, half-words, words and tags in RAM with the
    check of the tags, accesses to the timer, to the UART and to addresses
    behind which there is nothing. *)

From S2P Require Import Prelude RtlAlu RtlAluFacts RtlCpu RtlSystem RtlCoreFacts RtlSoc RtlUart.

(** ** What the memory holds *)

Record image := Image { words : Z -> Z; tags : Z -> Z; divider : Z }.

(** Byte [k] of a word, and the word with byte [k] replaced; likewise for the
    halves. *)
Definition byte_of (k d : Z) : Z := d / 2 ^ (8 * k) mod 2 ^ 8.
Definition half_of (k d : Z) : Z := d / 2 ^ (16 * k) mod 2 ^ 16.
Definition with_byte (k v d : Z) : Z := d + 2 ^ (8 * k) * (w8 v - byte_of k d).
Definition with_half (k v d : Z) : Z := d + 2 ^ (16 * k) * (w16 v - half_of k d).

(** A half-word is read from the lower half at offset 0 and from the upper
    half at every other; written to an odd address it clears the word. *)
Definition read_part (sel p d : Z) : Z :=
  if sel =? SEL_BYTE then byte_of (p mod 4) d
  else if sel =? SEL_HALF then half_of (if p mod 4 =? 0 then 0 else 1) d
  else d.
Definition write_part (sel p v d : Z) : Z :=
  if sel =? SEL_BYTE then with_byte (p mod 4) v d
  else if sel =? SEL_HALF then if p mod 2 =? 0 then with_half (p mod 4 / 2) v d else 0
  else v.

Lemma slice_1_0_mod p : slice 1 0 p = p mod 4.
Proof. unfold slice. by rewrite Z.shiftr_0_r. Qed.

Lemma four p : p mod 4 = 0 \/ p mod 4 = 1 \/ p mod 4 = 2 \/ p mod 4 = 3.
Proof. pose proof (Z.mod_pos_bound p 4). lia. Qed.

Lemma read_byte_wires p d : cat [(24, 0); (8, final_byte p d)] = byte_of (p mod 4) d.
Proof.
  unfold final_byte. rewrite slice_1_0_mod, cat_two. unfold wrap, byte_of.
  destruct (four p) as [E|[E|[E|E]]]; rewrite E; cbn [Z.eqb Pos.eqb]; rewrite slice_eq by lia; zlia.
Qed.

Lemma read_half_wires p d :
  u32_range d -> cat [(16, 0); (16, final_half p d)] = half_of (if p mod 4 =? 0 then 0 else 1) d.
Proof.
  intros Hd. unfold final_half. rewrite slice_1_0_mod, cat_two. unfold wrap, half_of, u32_range in *.
  destruct (p mod 4 =? 0); rewrite slice_eq by lia; zlia.
Qed.

Lemma write_wires sel p v d :
  u32_range d -> u32_range v -> valid_sel sel = true -> sel <> SEL_TAG ->
  wrap 32 (data_to_write p v sel d) = write_part sel p v d.
Proof.
  intros Hd Hv Hsel Ht. unfold data_to_write, write_part, u32_range in *. rewrite slice_1_0_mod.
  destruct (sel =? SEL_BYTE) eqn:Eb; [|destruct (sel =? SEL_HALF) eqn:Eh].
  - destruct (four p) as [E|[E|[E|E]]]; rewrite E; cbn [Z.eqb Pos.eqb]; unfold with_byte, byte_of, cat, w8, wrap;
      cbn [fold_left]; rewrite !slice_eq by lia; zlia.
  - assert (E2 : p mod 2 = p mod 4 mod 2) by zlia. rewrite E2.
    destruct (four p) as [E|[E|[E|E]]]; rewrite E; try done; change (2 mod 2) with 0; change (0 mod 2) with 0;
      change (2 / 2) with 1; change (0 / 2) with 0;
      cbn [Z.eqb Pos.eqb]; unfold with_half, half_of, cat, w16, wrap; cbn [fold_left]; rewrite !slice_eq by lia; zlia.
  - unfold valid_sel in Hsel. rewrite Eb, Eh in Hsel. destruct (sel =? SEL_WORD); [|by apply Z.eqb_neq in Ht; rewrite Ht in Hsel].
    apply w32_small. lia.
Qed.

Section Memory.
Context (RAM_WORDS : Z).

Abbreviation index := (ram_index RAM_WORDS).
Abbreviation granule := (current_granule_addr RAM_WORDS).

Definition read_image (m : image) (p sel : Z) : Z :=
  if sel =? SEL_TAG then tags m (granule p) mod 16 else read_part sel p (words m (index p)).

Definition write_ram (m : image) (p v sel : Z) : image :=
  if sel =? SEL_TAG then
    if granule p <? GRANULES_NUM RAM_WORDS then Image (words m) (put (granule p) (v mod 16) (tags m)) (divider m) else m
  else
    if index p <? RAM_WORDS then
      Image (put (index p) (write_part sel p v (words m (index p))) (words m)) (tags m) (divider m)
    else m.

(** Of the devices only the divider of the UART is kept. *)
Definition write_image (m : image) (p v sel : Z) : image :=
  if wb_periph_select p =? WB_ACCESS_RAM then write_ram m p v sel
  else if (wb_periph_select p =? WB_ACCESS_UART) && (slice 3 2 p =? UART_ADDR_DIVIDER)
  then Image (words m) (tags m) v
  else m.

Definition in_ram (p : Z) : bool := wb_periph_select p =? WB_ACCESS_RAM.
Definition wrong_tag (m : image) (p : Z) : bool := negb (current_tag p =? tags m (granule p)).

(** The sanity register of the UART and a read of its data register are never
    acknowledged; a byte can be sent if the divider leaves room to count. *)
Definition acknowledged (m : image) (p : Z) (write : bool) : bool :=
  if wb_periph_select p =? WB_ACCESS_UART then
    if slice 3 2 p =? UART_ADDR_DATA_TO_TRANSMIT then write && (divider m <? 2 ^ 32 - 1)
    else negb (slice 3 2 p =? UART_ADDR_SANITY)
  else true.

(** ** Between two accesses *)

Record image_ok (m : image) : Prop := {
  ok_words i : u32_range (words m i);
  ok_divider : u32_range (divider m);
}.

Record ram_rests (m : image) (b : wb_ram) : Prop := {
  rr_state : ram_state b = STATE_IDLE;
  rr_ack : ram_ack b = false;
  rr_we : ram_we_r b = false;
  rr_tag_we : tag_we_r b = false;
  rr_words : mem (ram0 b) = words m;
  rr_tags : mem (tag0 b) = tags m;
}.

Record soc_settled (k : nat) (s : soc) (m : image) (q : bool) : Prop := {
  ss_image : image_ok m;
  ss_ram : ram_rests m (ram s);
  ss_line : irq (ram s) || tag_mismatch (ram s) = q;
  ss_timer : timer_ack (timer s) = false;
  ss_mux : mux_ack s = false;
  ss_divider : cfg_divider (uart s) = divider m;
  ss_uart : uart_wf (uart s);
  ss_quiet : k = 0%nat -> tag_mismatch (ram s) = false /\ uart_ack (uart s) = false /\ data_out (uart s) = 0;
}.

(** ** Clocks without an access *)

Lemma ram_pause m r b :
  ram_rests m b -> r_cyc r = false ->
  let b' := wb_ram_clock RAM_WORDS r b in
  ram_rests m b' /\ tag_mismatch b' = false /\ irq b' = (irq b || tag_mismatch b) && negb (r_clear r).
Proof.
  intros [Hs Ha Hw Ht Em Et] Hc b'. unfold b', wb_ram_clock, ram_accessed, tag_accessed. rewrite Hs, Hw, Ht, Hc.
  split_and!; [|done|cbn; by destruct (r_clear r), (irq b), (tag_mismatch b)]. by split.
Qed.

Lemma timer_pause r t :
  timer_ack t = false -> r_cyc r = false -> timer_ack (wb_timer_clock r t) = false.
Proof. intros Ht Hc. cbn. by rewrite Hc. Qed.

Lemma uart_pause r u :
  uart_wf u -> r_cyc r = false ->
  let u' := wb_uart_clock r u in
  uart_wf u' /\ cfg_divider u' = cfg_divider u /\ uart_ack u' = false /\ data_out u' = 0.
Proof. intros Hu Hc u'. split; [by apply uart_wf_clock|]. unfold u'. cbn. by rewrite Hc. Qed.

(** A device that is not selected sees no cycle. *)
Lemma routed_off n r : wb_periph_select (r_adr r) <> n -> r_cyc (routed n r) = false.
Proof. intros Hn. cbn. apply Z.eqb_neq in Hn. by rewrite Hn, andb_false_r. Qed.

Lemma routed_idle n r : r_cyc r = false -> r_cyc (routed n r) = false.
Proof. intros H. cbn. by rewrite H. Qed.

Lemma soc_idle k s m q r :
  soc_settled k s m q -> r_cyc r = false -> r_stb r = false ->
  wb_cpu_ack r s = false /\ soc_settled (pred k) (soc_clock RAM_WORDS r s) m (q && negb (r_clear r)).
Proof.
  intros [Hi Hr Hl Ht Hm Hd Hu Hq] Hc Hs. split.
  { unfold wb_cpu_ack. rewrite Ht, Hm, (rr_ack _ _ Hr). cbn [routed r_cyc]. rewrite Hc. by repeat case_match; rewrite ?andb_false_r. }
  destruct (ram_pause m (routed WB_ACCESS_RAM r) _ Hr) as (Hr' & Htm & Hirq); [by apply routed_idle|].
  destruct (uart_pause (routed WB_ACCESS_UART r) _ Hu) as (Hu' & Hd' & Ha' & Ho'); [by apply routed_idle|].
  split; try done; cbn [soc_clock ram timer uart mux_ack].
  - rewrite Htm, Hirq, Hl, orb_false_r. done.
  - by apply timer_pause, routed_idle.
  - by rewrite Hs.
  - by rewrite Hd'.
Qed.

(** ** An access to the RAM *)

(** A write of part of a word reads the word first. *)
Definition two_steps (r : request) : bool := r_we r && ((r_sel r =? SEL_BYTE) || (r_sel r =? SEL_HALF)).

Lemma two_steps_eq r : done_in_one_tick r = negb (two_steps r).
Proof. unfold done_in_one_tick, two_steps. by destruct (r_we r), (r_sel r =? SEL_BYTE), (r_sel r =? SEL_HALF). Qed.

Lemma accessed_kind r :
  r_cyc r = true -> r_stb r = true -> valid_sel (r_sel r) = true ->
  tag_accessed r = (r_sel r =? SEL_TAG) /\ ram_accessed r = negb (r_sel r =? SEL_TAG) /\
  (r_sel r = SEL_TAG -> two_steps r = false).
Proof.
  intros Hc Hs Hv. unfold tag_accessed, ram_accessed, two_steps, access_load_store, valid_sel in *. rewrite Hc, Hs.
  destruct (Z.eqb_spec (r_sel r) SEL_TAG) as [->|E].
  { split_and!; [done|done|]. intros _. by destruct (r_we r). }
  split_and!; [done| |done]. rewrite orb_false_r in Hv. exact Hv.
Qed.

(** After the first clock. *)
Record ram_reads (m : image) (r : request) (q : bool) (b : wb_ram) : Prop := {
  ra_state : ram_state b = if two_steps r then STATE_WRITE_WORD else STATE_STOP;
  ra_ack : ram_ack b = true;
  ra_we : ram_we_r b = r_we r && negb (r_sel r =? SEL_TAG);
  ra_tag_we : tag_we_r b = r_we r && (r_sel r =? SEL_TAG);
  ra_words : ram0 b = GenericRam (words m) (words m (index (r_adr r)));
  ra_tags : tag0 b = GenericRam (tags m) (tags m (granule (r_adr r)));
  ra_line : irq b = q;
  ra_mismatch : tag_mismatch b = false;
}.

Section Access.
Context (r : request) (m : image).
Hypothesis Hcyc : r_cyc r = true.
Hypothesis Hstb : r_stb r = true.
Hypothesis Hclear : r_clear r = false.
Hypothesis Hsel : valid_sel (r_sel r) = true.
Hypothesis Hm : image_ok m.

Lemma ram_first b :
  ram_rests m b -> ram_reads m r (irq b || tag_mismatch b) (wb_ram_clock RAM_WORDS r b).
Proof.
  intros [Hs Ha Hw Ht Em Et]. destruct (accessed_kind r Hcyc Hstb Hsel) as (Ek & El & Etwo).
  unfold wb_ram_clock, generic_ram_clock. rewrite Hs, Hw, Ht, Ek, El, Em, Et, two_steps_eq, Hclear.
  split; cbn [ram_state ram_ack ram_we_r tag_we_r ram0 tag0 irq tag_mismatch andb]; try done.
  - destruct (Z.eqb_spec (r_sel r) SEL_TAG) as [E|E]; [by rewrite (Etwo E)|]. by destruct (two_steps r).
  - by destruct (r_sel r =? SEL_TAG).
  - by rewrite andb_comm.
  - by rewrite andb_comm.
  - by rewrite orb_comm.
Qed.

Lemma ram_data q b :
  ram_reads m r q b -> wb_data_out r b = read_image m (r_adr r) (r_sel r).
Proof.
  intros [_ _ _ _ Ew Et _ _]. destruct (accessed_kind r Hcyc Hstb Hsel) as (Ek & El & _).
  unfold wb_data_out, read_image, read_part. rewrite Ek, El, Ew, Et. cbn [data_o]. unfold valid_sel in Hsel.
  replace (negb (r_sel r =? SEL_TAG) || (r_sel r =? SEL_TAG)) with true by (by destruct (r_sel r =? SEL_TAG)).
  destruct (Z.eqb_spec (r_sel r) SEL_BYTE) as [E|Eb]; [rewrite E; exact (read_byte_wires _ _)|].
  destruct (Z.eqb_spec (r_sel r) SEL_HALF) as [E|Eh]; [rewrite E; apply (read_half_wires _ _), Hm|].
  destruct (Z.eqb_spec (r_sel r) SEL_WORD) as [E|Ed]; [by rewrite E|].
  destruct (Z.eqb_spec (r_sel r) SEL_TAG) as [_|E]; [|done]. rewrite cat_two. unfold wrap. zlia.
Qed.

(** After the second clock. *)
Lemma ram_second q b (m' := if r_we r then write_ram m (r_adr r) (r_dat r) (r_sel r) else m) :
  ram_reads m r q b -> (r_we r = true -> u32_range (r_dat r)) ->
  let b' := wb_ram_clock RAM_WORDS r b in
  ram_ack b' = false /\ ram_we_r b' = false /\ tag_we_r b' = false /\
  mem (ram0 b') = words m' /\ mem (tag0 b') = tags m' /\ data_o (tag0 b') = tags m (granule (r_adr r)) /\
  irq b' = q /\
  if two_steps r then ram_state b' = STATE_STOP /\ tag_mismatch b' = false
  else ram_state b' = STATE_IDLE /\ tag_mismatch b' = r_check r && wrong_tag m (r_adr r).
Proof.
  intros [Hs Ha Hw Ht Ew Et Hl Hmm] Hd b'.
  unfold b', wb_ram_clock, generic_ram_clock. rewrite Hs, Hw, Ht, Ew, Et, Hl, Hmm, Hclear.
  cbn [ram_state ram_ack ram_we_r tag_we_r ram0 tag0 irq tag_mismatch mem data_o].
  assert (E1 : (match (if two_steps r then STATE_WRITE_WORD else STATE_STOP) with STATE_IDLE => true | _ => false end) = false)
    by (by destruct (two_steps r)).
  rewrite E1. split_and!; try done.
  - unfold m', write_ram. destruct (r_we r); [|done]. cbn [andb]. destruct (Z.eqb_spec (r_sel r) SEL_TAG) as [E|E]; cbn [negb andb].
    { by destruct (granule (r_adr r) <? GRANULES_NUM RAM_WORDS). }
    rewrite write_wires by (done || apply Hm || by apply Hd). by destruct (index (r_adr r) <? RAM_WORDS).
  - unfold m', write_ram. destruct (r_we r); [|done]. cbn [andb]. destruct (Z.eqb_spec (r_sel r) SEL_TAG) as [E|E]; cbn [negb andb].
    + replace (wrap GRANULE_TAG_WIDTH (slice 3 0 (r_dat r))) with (r_dat r mod 16)
        by (unfold slice, wrap; rewrite Z.shiftr_0_r; symmetry; apply (Z.mod_mod _ 16); lia).
      by destruct (granule (r_adr r) <? GRANULES_NUM RAM_WORDS).
    + by destruct (index (r_adr r) <? RAM_WORDS).
  - by destruct (two_steps r).
Qed.
End Access.

(** ** The system behind the bus *)

Lemma image_written m p v sel :
  image_ok m -> u32_range v -> valid_sel sel = true -> image_ok (write_image m p v sel).
Proof.
  intros [Hw Hd] Hv Hsel. unfold write_image, write_ram.
  destruct (wb_periph_select p =? WB_ACCESS_RAM); [|by destruct (_ && _)].
  destruct (Z.eqb_spec sel SEL_TAG) as [E|E]; [by destruct (_ <? _)|].
  destruct (_ <? _); [|done]. split; [|done]. intros i. cbn [words]. unfold put. destruct (i =? _); [|apply Hw].
  rewrite <- write_wires by (done || apply Hw). apply (wrap_range 32). lia.
Qed.

Lemma read_range m p sel : image_ok m -> u32_range (read_image m p sel).
Proof.
  intros Hm. unfold read_image, read_part, byte_of, half_of. pose proof (ok_words m Hm (index p)).
  repeat case_match; unfold u32_range in *; zlia.
Qed.

Lemma routed_on n r : wb_periph_select (r_adr r) = n -> routed n r = r.
Proof. intros <-. destruct r. unfold routed. cbn. by rewrite Z.eqb_refl, !andb_true_r. Qed.

Lemma settled_later k s m q : soc_settled k s m q -> soc_settled 1 s m q.
Proof. by intros []. Qed.

#[local] Existing Instance soc_slave.
Abbreviation serves_soc := (@serves soc (soc_slave RAM_WORDS)).

(** What an access leaves. *)
Definition leaves (r : request) (m : image) (q : bool) (s' : soc) : Prop :=
  if r_we r then wb_cpu_ack (release r) s' = false /\ soc_settled 1 (soc_clock RAM_WORDS (release r) s') m q
  else soc_settled 1 s' m q.

Lemma leaves_settled r m q s' : r_clear r = false -> soc_settled 1 s' m q -> leaves r m q s'.
Proof.
  intros Hc Hs. unfold leaves. destruct (r_we r); [|done].
  destruct (soc_idle 1 s' m q (release r) Hs) as [Ha Hs']; [done|done|].
  split; [done|]. cbn [release r_clear] in Hs'. rewrite Hc, andb_true_r in Hs'. by apply (settled_later 0).
Qed.

Definition served (r : request) (s : soc) (m : image) (q : bool) : Prop :=
  exists d s', serves_soc r (soc_clock RAM_WORDS r s) d s' /\ u32_range d /\
    (in_ram (r_adr r) = true -> d = read_image m (r_adr r) (r_sel r)) /\
    leaves r (if r_we r then write_image m (r_adr r) (r_dat r) (r_sel r) else m)
      (q || in_ram (r_adr r) && r_check r && wrong_tag m (r_adr r)) s'.

Section Served.
Context (r : request) (m : image) (q : bool) (s : soc).
Hypothesis Hs : soc_settled 0 s m q.
Hypothesis Ha : active r.
Hypothesis Hsel : valid_sel (r_sel r) = true.
Hypothesis Hdat : r_we r = true -> u32_range (r_dat r).

Abbreviation image' := (if r_we r then write_image m (r_adr r) (r_dat r) (r_sel r) else m).

Lemma image'_ok : image_ok image'.
Proof. destruct (r_we r) eqn:E; [|apply Hs]. apply image_written; [apply Hs|by apply Hdat|done]. Qed.

(** The parts that are not addressed. *)
Lemma ram_waits b (b' := wb_ram_clock RAM_WORDS (routed WB_ACCESS_RAM r) b) :
  wb_periph_select (r_adr r) <> WB_ACCESS_RAM -> ram_rests m b -> irq b || tag_mismatch b = q ->
  ram_rests m b' /\ irq b' || tag_mismatch b' = q.
Proof.
  intros Hn Hb Hq. destruct (ram_pause m (routed WB_ACCESS_RAM r) b Hb) as (Hb' & Ht & Hi); [by apply routed_off|].
  split; [done|]. unfold b'. rewrite Ht, Hi, orb_false_r. destruct Ha as (_ & _ & Hc). cbn [routed r_clear].
  by rewrite Hq, Hc, andb_true_r.
Qed.

Definition devices_rest (x : soc) : Prop :=
  timer_ack (timer x) = false /\ uart_wf (uart x) /\ cfg_divider (uart x) = divider m.

Lemma devices_wait p x :
  r_cyc (routed WB_ACCESS_TIMER p) = false -> r_cyc (routed WB_ACCESS_UART p) = false ->
  devices_rest x -> devices_rest (soc_clock RAM_WORDS p x).
Proof.
  intros Ht Hu (Et & Hw & Ed). destruct (uart_pause _ _ Hw Hu) as (Hw' & Ed' & _).
  split_and!; [by apply timer_pause|done|by rewrite <- Ed].
Qed.

(** In a write of part of a word the check of the tag comes after the
    acknowledgement. *)
Lemma ram_leaves (x : soc) :
  wb_periph_select (r_adr r) = WB_ACCESS_RAM -> ram_reads m r q (ram x) -> devices_rest x -> mux_ack x = true ->
  let q' := q || r_check r && wrong_tag m (r_adr r) in
  leaves r image' q' (soc_clock RAM_WORDS r x) /\ (two_steps r = false -> soc_settled 1 (soc_clock RAM_WORDS r x) image' q').
Proof.
  intros En Hr Hdev Hx q'. destruct Ha as (_ & Hst & Hcl). set (y := soc_clock RAM_WORDS r x).
  assert (Ey : ram y = wb_ram_clock RAM_WORDS r (ram x)) by (cbn; by rewrite routed_on).
  pose proof (ram_second r m Hcl Hsel (ss_image _ _ _ _ Hs) q (ram x) Hr Hdat) as Hb. cbv zeta in Hb. rewrite <- Ey in Hb.
  assert (Em : image' = if r_we r then write_ram m (r_adr r) (r_dat r) (r_sel r) else m) by (unfold write_image; by rewrite En).
  rewrite <- Em in Hb. destruct Hb as (Hack & Hwe & Htwe & Ew & Et & Edo & Hi & Hb).
  assert (Ediv : divider image' = divider m).
  { rewrite Em. unfold write_ram. by repeat case_match. }
  assert (Hy : devices_rest y) by (apply devices_wait; [by apply routed_off; rewrite En..|done]).
  assert (Hmx : mux_ack y = false) by (unfold y; cbn [soc_clock mux_ack]; by rewrite Hst, Hx).
  pose proof image'_ok as Hok. set (m' := image') in *. clearbody m'.
  destruct (two_steps r) eqn:E2.
  - split; [|done]. unfold two_steps in E2. apply andb_true_iff in E2 as [Ewr _]. unfold leaves. rewrite Ewr. destruct Hb as [Hstate Hmm].
    split; [unfold wb_cpu_ack; cbn [release r_adr]; by rewrite En|].
    set (z := soc_clock RAM_WORDS (release r) y). assert (Hz : devices_rest z) by (by apply devices_wait).
    assert (Ez : ram z = wb_ram_clock RAM_WORDS (release r) (ram y)).
    { unfold z. cbn [soc_clock ram]. unfold routed. by cbn [release r_adr r_dat r_sel r_we r_cyc r_stb r_check r_clear]. }
    destruct Hz as (? & ? & Hdz). rewrite <- Ediv in Hdz.
    split; [done| | |done|done|done|done|done]; rewrite Ez; unfold wb_ram_clock, generic_ram_clock;
      rewrite Hstate, Hwe, Htwe, ?Hi, ?Hmm, ?Edo; cbn [release r_clear r_check r_adr irq tag_mismatch].
    + by split.
    + by rewrite Hcl.
  - assert (Hset : soc_settled 1 y m' q'); [|split; [by apply leaves_settled|done]].
    destruct Hb as [Hstate Hmm]. destruct Hy as (? & ? & Hdy). rewrite <- Ediv in Hdy.
    split; [done|by split|by rewrite Hi, Hmm|done..].
Qed.

Lemma devices_resting : devices_rest s.
Proof. by destruct Hs. Qed.

(** The first clock of an access to the RAM. *)
Lemma ram_begun (x := soc_clock RAM_WORDS r s) :
  wb_periph_select (r_adr r) = WB_ACCESS_RAM ->
  ram_reads m r q (ram x) /\ devices_rest x /\ mux_ack x = true /\ wb_cpu_ack r x = true /\
  wb_cpu_data r x = read_image m (r_adr r) (r_sel r).
Proof.
  intros En. pose proof Hs as [Hi Hr Hl Ht Hx Hd Hu _]. destruct Ha as (Hc & Hst & Hcl).
  pose proof (ram_first r m Hc Hst Hcl Hsel (ram s) Hr) as H1. rewrite Hl in H1.
  assert (E1 : ram x = wb_ram_clock RAM_WORDS r (ram s)) by (cbn; by rewrite routed_on). rewrite <- E1 in H1.
  split_and!; [done| |cbn; by rewrite Hst, Hx|unfold wb_cpu_ack; rewrite En; apply (ra_ack _ _ _ _ H1)|].
  - apply devices_wait; [by apply routed_off; rewrite En..|exact devices_resting].
  - unfold wb_cpu_data. rewrite En. cbn [Z.eqb]. rewrite routed_on by done. by apply (ram_data r m Hc Hst Hsel Hi q).
Qed.

Lemma ram_served : wb_periph_select (r_adr r) = WB_ACCESS_RAM -> served r s m q.
Proof.
  intros En. destruct (ram_begun En) as (H1 & H2 & H3 & Hack & Ed). set (x := soc_clock RAM_WORDS r s) in *.
  assert (Hmem : in_ram (r_adr r) = true) by (unfold in_ram; by rewrite En).
  exists (wb_cpu_data r x), (soc_clock RAM_WORDS r x). rewrite Hmem.
  split_and!; [by apply (@serves_now soc (soc_slave RAM_WORDS))| |done|by apply ram_leaves].
  rewrite Ed. apply read_range, Hs.
Qed.

(** A read or a write of a whole word takes two clocks. *)
Lemma ram_word_access (x := soc_clock RAM_WORDS r s) :
  wb_periph_select (r_adr r) = WB_ACCESS_RAM -> two_steps r = false ->
  wb_cpu_ack r s = false /\ wb_cpu_ack r x = true /\ wb_cpu_data r x = read_image m (r_adr r) (r_sel r) /\
  soc_settled 1 (soc_clock RAM_WORDS r x) image' (q || r_check r && wrong_tag m (r_adr r)).
Proof.
  intros En E2. destruct (ram_begun En) as (H1 & H2 & H3 & Hack & Ed).
  split_and!; [|done|done|by apply ram_leaves]. unfold wb_cpu_ack. rewrite En. apply Hs.
Qed.

(** An access to a device that acknowledges in the next clock. *)
Lemma device_served (x := soc_clock RAM_WORDS r s) (y := soc_clock RAM_WORDS r x) :
  wb_periph_select (r_adr r) <> WB_ACCESS_RAM -> wb_cpu_ack r x = true -> u32_range (wb_cpu_data r x) ->
  timer_ack (timer y) = false -> cfg_divider (uart y) = divider image' -> served r s m q.
Proof.
  intros En Hk Hdata Ht Hd. pose proof Hs as [Hi Hr Hl _ Hx _ Hu _]. destruct Ha as (Hc & Hst & Hcl).
  assert (Hmem : in_ram (r_adr r) = false) by (unfold in_ram; by apply Z.eqb_neq).
  assert (Em : words image' = words m /\ tags image' = tags m).
  { unfold write_image. apply Z.eqb_neq in En. rewrite En. destruct (r_we r); [|done]. by destruct (_ && _). }
  destruct (ram_waits (ram s) En Hr Hl) as [Hr1 Hl1]. destruct (ram_waits _ En Hr1 Hl1) as [Hr2 Hl2].
  exists (wb_cpu_data r x), y. rewrite Hmem, orb_false_r. split_and!; [|done|done|].
  { by apply (@serves_now soc (soc_slave RAM_WORDS)). }
  apply leaves_settled; [done|]. pose proof image'_ok as Hok. destruct Em as [Ew Eg]. set (m' := image') in *. clearbody m'.
  split; [done| |done|done| |done|by apply uart_wf_clock, uart_wf_clock|done].
  - destruct Hr2. split; try done; [by rewrite Ew|by rewrite Eg].
  - unfold y, x. cbn [soc_clock mux_ack]. by rewrite Hst, Hx.
Qed.

Lemma image'_kept :
  wb_periph_select (r_adr r) <> WB_ACCESS_RAM -> wb_periph_select (r_adr r) <> WB_ACCESS_UART -> image' = m.
Proof. intros E0 E2. unfold write_image. apply Z.eqb_neq in E0, E2. rewrite E0, E2. by destruct (r_we r). Qed.

Lemma divider_kept u :
  wb_periph_select (r_adr r) <> WB_ACCESS_UART ->
  cfg_divider (wb_uart_clock (routed WB_ACCESS_UART r) u) = cfg_divider u.
Proof. intros En. pose proof (routed_off _ r En) as Hc. cbn in *. by rewrite Hc. Qed.

Lemma timer_served : wb_periph_select (r_adr r) = WB_ACCESS_TIMER -> served r s m q.
Proof.
  intros En. pose proof devices_resting as Hdev. destruct Ha as (Hc & Hst & Hcl). destruct Hdev as (Ht & Hu & Hd).
  assert (Hon : routed WB_ACCESS_TIMER r = r) by (by apply routed_on).
  apply device_served; [by rewrite En|..].
  - unfold wb_cpu_ack. rewrite En. cbn. by rewrite Hc, En, Ht.
  - unfold wb_cpu_data. rewrite En. cbn [Z.eqb Pos.eqb]. unfold timer_data, lo64, hi64.
    repeat case_match; apply slice_range; lia.
  - cbn [soc_clock timer wb_timer_clock timer_ack]. rewrite Hon, Hc, Ht. done.
  - rewrite image'_kept by (by rewrite En). cbn [soc_clock uart]. by rewrite !divider_kept by (by rewrite En).
Qed.

Lemma unmapped_served : wb_periph_select (r_adr r) = 3 -> served r s m q.
Proof.
  intros En. pose proof devices_resting as (Ht & Hu & Hd). pose proof (ss_mux _ _ _ _ Hs) as Hx. destruct Ha as (Hc & Hst & Hcl).
  apply device_served; [by rewrite En|..].
  - unfold wb_cpu_ack. rewrite En. cbn. by rewrite Hst, Hx.
  - unfold wb_cpu_data. by rewrite En.
  - by apply timer_pause; [apply timer_pause; [done|]|]; apply routed_off; rewrite En.
  - rewrite image'_kept by (by rewrite En). cbn [soc_clock uart]. by rewrite !divider_kept by (by rewrite En).
Qed.


Section Uart.
Hypothesis En : wb_periph_select (r_adr r) = WB_ACCESS_UART.
Abbreviation reg := (slice 3 2 (r_adr r)).

Lemma uart_routed u : routed WB_ACCESS_UART r = r /\ wb_cpu_ack r u = uart_ack (uart u) /\ wb_cpu_data r u = data_out (uart u).
Proof.
  assert (E : routed WB_ACCESS_UART r = r) by (by apply routed_on). destruct Ha as (Hc & _).
  unfold wb_cpu_ack, wb_cpu_data. by rewrite E, En, Hc, andb_true_r.
Qed.

Lemma uart_register_served : reg = UART_ADDR_DIVIDER \/ reg = 3 -> served r s m q.
Proof.
  intros Er. pose proof devices_resting as (Ht & Hu & Hd). destruct (ss_quiet _ _ _ _ Hs eq_refl) as (_ & _ & Ho).
  pose proof (ok_divider _ (ss_image _ _ _ _ Hs)) as Hdr. destruct Ha as (Hc & Hst & Hcl).
  destruct (uart_routed (soc_clock RAM_WORDS r s)) as (E & Ek & Ed).
  apply device_served; rewrite ?Ek, ?Ed; [by rewrite En|..].
  - cbn [soc_clock uart wb_uart_clock uart_ack]. rewrite E, Hc, Hst. by destruct Er as [->| ->].
  - cbn [soc_clock uart wb_uart_clock data_out]. rewrite E, Hc, Hst, Hd, Ho. by destruct Er as [->| ->], (r_we r).
  - by apply timer_pause; [apply timer_pause; [done|]|]; apply routed_off; rewrite En.
  - cbn [soc_clock uart wb_uart_clock cfg_divider]. rewrite E, Hc, Hst. unfold write_image. rewrite En.
    cbn [Z.eqb Pos.eqb andb]. destruct Er as [->| ->], (r_we r); cbn; by rewrite ?Hd.
Qed.

(** While a byte is sent. *)
Record uart_sends (x : soc) : Prop := {
  us_ram : ram_rests m (ram x);
  us_line : irq (ram x) || tag_mismatch (ram x) = q;
  us_devices : devices_rest x;
  us_out : data_out (uart x) = 0;
}.

Lemma uart_sends_clock x :
  data_write r -> divider m < 2 ^ 32 - 1 -> uart_ack (uart x) = false -> uart_sends x ->
  uart_sends (soc_clock RAM_WORDS r x) /\ uart_rank (uart (soc_clock RAM_WORDS r x)) < uart_rank (uart x).
Proof.
  intros Hw Hdiv Hk [Hr Hl (Ht & Hu & Hd) Ho]. pose proof (ok_divider _ (ss_image _ _ _ _ Hs)) as Hdr.
  assert (E : routed WB_ACCESS_UART r = r) by (by apply routed_on).
  destruct (uart_rank_down r (uart x) Hu Hw) as (Hlt & Ec & Eo); [rewrite Hd; unfold u32_range in Hdr; lia|done|].
  destruct (ram_waits (ram x) ltac:(by rewrite En) Hr Hl) as [Hr' Hl'].
  cbn [soc_clock uart]. rewrite E. split; [|done]. split; [done|done| |]; cbn [soc_clock uart]; rewrite ?E; [|by rewrite Eo].
  split_and!; cbn [soc_clock uart timer]; rewrite ?E; [|by apply uart_wf_clock|by rewrite Ec].
  apply timer_pause; [done|apply routed_off; by rewrite En].
Qed.

Lemma uart_sends_served n x :
  data_write r -> divider m < 2 ^ 32 - 1 -> uart_sends x -> uart_rank (uart x) <= Z.of_nat n ->
  exists y, serves_soc r x 0 (soc_clock RAM_WORDS r y) /\ uart_sends y /\ uart_ack (uart y) = true.
Proof.
  intros Hw Hdiv. revert x. induction n as [|n IH]; intros x Hx Hn; destruct (uart_routed x) as (_ & Ek & Ed);
    rewrite (us_out _ Hx) in Ed.
  - exists x. assert (Hk : uart_ack (uart x) = true).
    { destruct (uart_ack (uart x)) eqn:Hk; [done|]. destruct (uart_sends_clock x Hw Hdiv Hk Hx) as [Hx' Hlt].
      pose proof (us_devices _ Hx') as (_ & Hwf & Ec). pose proof (ok_divider _ (ss_image _ _ _ _ Hs)) as Hdr.
      pose proof (uart_rank_pos _ Hwf ltac:(rewrite Ec; apply Hdr)). lia. }
    split_and!; [|done|done]. rewrite <- Ed. apply (@serves_now soc (soc_slave RAM_WORDS)). cbn. by rewrite Ek.
  - destruct (uart_ack (uart x)) eqn:Hk.
    + exists x. split_and!; [|done|done]. rewrite <- Ed. apply (@serves_now soc (soc_slave RAM_WORDS)). cbn. by rewrite Ek.
    + destruct (uart_sends_clock x Hw Hdiv Hk Hx) as [Hx' Hlt]. destruct (IH _ Hx' ltac:(lia)) as (y & Hy & ?).
      exists y. split; [|done]. by apply (@serves_wait soc (soc_slave RAM_WORDS)).
Qed.

Lemma uart_data_served : reg = UART_ADDR_DATA_TO_TRANSMIT -> r_we r = true -> divider m < 2 ^ 32 - 1 -> served r s m q.
Proof.
  intros Er Hwe Hdiv. pose proof Hs as [Hi Hr Hl _ Hx _ _ Hq]. destruct (Hq eq_refl) as (_ & Hk & Ho). destruct Ha as (Hc & Hst & Hcl).
  assert (Hw : data_write r) by done.
  assert (H0 : uart_sends s) by (split; [done|done|exact devices_resting|done]).
  destruct (uart_sends_clock s Hw Hdiv Hk H0) as [H1 _].
  destruct (uart_sends_served (Z.to_nat (uart_rank (uart (soc_clock RAM_WORDS r s)))) _ Hw Hdiv H1) as (y & Hserve & Hy & Hky); [lia|].
  assert (Em : image' = m) by (rewrite Hwe; unfold write_image; by rewrite En, Er).
  assert (Hmem : in_ram (r_adr r) = false) by (unfold in_ram; by rewrite En).
  exists 0, (soc_clock RAM_WORDS r y). rewrite Hmem, Em, orb_false_r. split_and!; [done|done|done|].
  unfold leaves. rewrite Hwe. split; [unfold wb_cpu_ack; cbn [release r_adr]; rewrite En; cbn; by rewrite andb_false_r|].
  destruct Hy as [Hyr Hyl (Hyt & Hyu & Hyd) _]. destruct (ram_waits (ram y) ltac:(by rewrite En) Hyr Hyl) as [Hzr Hzl].
  destruct (ram_pause m (routed WB_ACCESS_RAM (release r)) _ Hzr eq_refl) as (Hvr & Hvm & Hvi).
  split; [done|done| | |done| |by apply uart_wf_clock, uart_wf_clock|done].
  - cbn [soc_clock ram]. rewrite Hvm, Hvi, Hzl. cbn [routed release r_clear]. by rewrite Hcl, orb_false_r, andb_true_r.
  - apply timer_pause; [|done]. apply timer_pause; [done|apply routed_off; by rewrite En].
  - cbn [soc_clock uart wb_uart_clock cfg_divider routed release r_cyc r_stb r_we r_adr andb].
    rewrite Er, En. by rewrite !andb_false_r.
Qed.
End Uart.

Lemma soc_served : acknowledged m (r_adr r) (r_we r) = true -> wb_cpu_ack r s = false /\ served r s m q.
Proof.
  intros Hans. pose proof Hs as [Hi Hr Hl Ht Hx _ _ Hq]. destruct (Hq eq_refl) as (_ & Hk & _). split.
  { unfold wb_cpu_ack. rewrite Ht, Hx, Hk, (rr_ack _ _ Hr). by repeat case_match. }
  assert (Hsl : wb_periph_select (r_adr r) = 0 \/ wb_periph_select (r_adr r) = 1 \/ wb_periph_select (r_adr r) = 2 \/
    wb_periph_select (r_adr r) = 3).
  { pose proof (slice_range 27 26 (r_adr r)). unfold wb_periph_select. lia. }
  destruct Hsl as [E|[E|[E|E]]]; [by apply ram_served|by apply timer_served| |by apply unmapped_served].
  unfold acknowledged in Hans. rewrite E in Hans. cbn [Z.eqb Pos.eqb] in Hans.
  pose proof (slice_range 3 2 (r_adr r)) as Hreg.
  destruct (slice 3 2 (r_adr r) =? UART_ADDR_DATA_TO_TRANSMIT) eqn:E1.
  - apply andb_true_iff in Hans as [Hw Hlt]. apply uart_data_served; [done|lia|done|lia].
  - apply uart_register_served; [done|lia].
Qed.
End Served.

(** ** The interface *)

#[global] Instance SocLaws : @SlaveLaws soc image (soc_slave RAM_WORDS).
Proof.
  refine {| in_mem := in_ram; answers := acknowledged; mem_read := read_image; mem_write := write_image;
            mem_mismatch := wrong_tag; settled := soc_settled |}.
  - intros s m q [_ _ Hl _ _ _ _ Hq]. destruct (Hq eq_refl) as (E & _). cbn. by rewrite <- Hl, E, orb_false_r.
  - intros k s m q r Hs (Hc & Hst & _) _. by apply soc_idle.
  - intros s m q r Hs Ha Hsel Hans Hdat. by apply soc_served.
  - intros m p w Hp. unfold in_ram in Hp. unfold acknowledged. apply Z.eqb_eq in Hp. by rewrite Hp.
  - intros r. cbn. unfold timer_mtimecmp_accessed. cbn. intros ->. apply orb_true_r.
Defined.
End Memory.
