(* ===== verification/RtlStart.v ===== *)
(** * The SoC out of reset, and concrete systems

    The reset of the SoC, and systems at rest for examples. *)

From S2P Require Import Prelude RtlAlu RtlAluFacts RtlDecoder RtlCpu RtlSystem RtlSpec RtlCoreFacts.
From S2P Require Import RtlFetch RtlExec RtlMem RtlTrap RtlPriv RtlRuns RtlSoc RtlUart RtlMemory.
Import Alu Decoder.

(** * Out of reset

    A reset edge for core and devices, and the clock after it: the core is
    about to fetch from the reset address with interrupts and the checks of
    the tags off, and memory is as it was. *)

Section Start.
Context (RAM_WORDS : Z).
#[local] Instance start_slave : Slave soc := soc_slave RAM_WORDS.

(** The reset edge, with any signals at the other pins. *)
Definition system_reset (i : pins) (x : system soc) : system soc :=
  (cpu_clock i x.1, soc_reset RAM_WORDS (request_of x.1) x.2).

(** Registers hold words, and no transfer is under way: the bus master has no
    reset. *)
Record powered (x : system soc) : Prop := {
  po_state : state x.1 = STATE_RESET;
  po_bus : bus_calm (bus_inst x.1);
  po_x0 : regfile (reg_inst x.1) 0 = 0;
  po_regs n : 0 <= n < 32 -> u32_range (regfile (reg_inst x.1) n);
  po_csrs i : 0 <= i < 13 -> u32_range (mem (csr0 (csr_inst x.1)) i);
  po_words i : u32_range (mem (ram0 (ram x.2)) i);
  po_we : ram_we_r (ram x.2) = false /\ tag_we_r (ram x.2) = false;
}.

(** After the reset edge. *)
Record resetting (c : cpu) (v : cregs) : Prop := {
  re_state : state c = STATE_RESET;
  re_pc : pc c = VECTOR_RESET;
  re_running : test_finished c = false;
  re_traps : mret_state c = MRET_STATE_RESET /\ trap_state c = TRAP_STATE_RESET;
  re_alu : busy (alu_inst c) = false;
  re_bus : bus_calm (bus_inst c);
  re_csr : csr_calm (csr_inst c) v;
}.

Lemma bus_ack_calm b ack d op ad da : bus_calm b -> bus_calm (wb_cpu_bus_clock false op ad da ack d b).
Proof. intros (H1 & H2 & H3 & H4 & H5). unfold bus_calm. cbn. rewrite H1, H2, H3, H4, H5. by destruct ack. Qed.

Lemma reset_edge i c :
  RST_I i = true -> state c = STATE_RESET -> bus_calm (bus_inst c) ->
  (forall n, 0 <= n < 13 -> u32_range (mem (csr0 (csr_inst c)) n)) ->
  let c' := cpu_clock i c in
  resetting c' (Cregs (mem (csr0 (csr_inst c'))) false false false false (tags_skip_sp_en (csr_inst c))) /\
  regfile (reg_inst c') = regfile (reg_inst c).
Proof.
  intros Hi Hs Hb Hk c'. unfold c', cpu_clock. destruct (csr_request_f i c) as [[[en wr] ad] da]. rewrite Hi.
  split; [|cbn [reg_inst registers_clock regfile]; unfold reg_we; by rewrite Hs].
  split; cbn [state pc test_finished mret_state trap_state alu_inst bus_inst csr_inst]; try done.
  - unfold bus_en. rewrite Hs. by apply bus_ack_calm.
  - split; try done. intros n Hn. cbn [file csr_clock csr0 generic_ram_clock mem].
    destruct (_ && _); [|by apply Hk]. unfold put. destruct (n =? _); [|by apply Hk]. apply (wrap_range 32). lia.
Qed.

(** What the machine holds then: memory and registers as they were, pc at the
    reset address, interrupts and the checks of the tags off.  Whether stack
    accesses are exempt from the checks is not reset. *)
Definition start_image (x : system soc) : image :=
  Image (mem (ram0 (ram x.2))) (mem (tag0 (ram x.2))) 1.
Definition start_arch (i : pins) (x : system soc) : arch image :=
  Arch (regfile (reg_inst x.1)) VECTOR_RESET
    (Cregs (mem (csr0 (csr_inst (cpu_clock i x.1)))) false false false false (tags_skip_sp_en (csr_inst x.1)))
    (start_image x) false.

Lemma soc_reset_settled x r :
  powered x -> soc_settled 0 (soc_reset RAM_WORDS r x.2) (start_image x) false.
Proof.
  intros [_ _ _ _ _ Hw [Hwe Htwe]]. split; [split; [exact Hw|done]| |done|done|done|done|by split|done].
  cbn [soc_reset ram]. split; try done; cbn [ram0 tag0 wb_ram_reset wb_ram_clock generic_ram_clock mem].
  - by rewrite Hwe.
  - by rewrite Htwe.
Qed.

Lemma start_clock c s v :
  resetting c v -> s_ack (request_of c) s = false ->
  let z := system_clock (c, s) in
  state z.1 = STATE_PRE_FETCH /\ at_rest z.1 /\ test_finished z.1 = false /\ pc z.1 = VECTOR_RESET /\
  regfile (reg_inst z.1) = regfile (reg_inst c) /\ csr_calm (csr_inst z.1) v.
Proof.
  intros [Hs Hp Hf [Hm Ht] Ha Hb Hk] Hack z. set (i := pins_of (c, s)).
  assert (Hi : RST_I i = false) by done. assert (Hai : ACK_I i = false) by exact Hack.
  assert (Hh : handling_trap c = false /\ handling_mret c = false) by (unfold handling_trap, handling_mret; by rewrite Hm, Ht).
  assert (Hbusy : cpu_busy i c = false).
  { unfold cpu_busy, alu_busy, csr_is_busy. destruct Hb as (Hb & _). by rewrite Ha, Hb, (cc_busy _ _ Hk), (proj1 Hh), (proj2 Hh). }
  assert (Hrq : csr_request_f i c = no_request).
  { unfold csr_request_f, cpu_request. by rewrite (proj1 Hh), (proj2 Hh), Hs. }
  pose proof (clock_csr i c Hi _ _ _ _ Hrq) as Ek. pose proof (calm_idle _ _ Hk) as Hk'. rewrite <- Ek in Hk'.
  assert (Eb : bus_calm (bus_inst (cpu_clock i c))).
  { rewrite clock_bus by done. unfold bus_en. rewrite Hs. by apply bus_ack_calm. }
  change z.1 with (cpu_clock i c). split_and!.
  - rewrite clock_state, Hbusy by done. unfold next_state. by rewrite Hs.
  - destruct Eb as (E1 & E2 & E3 & E4 & E5). destruct Hk' as [K1 K2 _ _ _]. split; try done.
    + rewrite clock_alu by done. unfold alu_en, alu_clock. by rewrite Hs, Ha.
    + rewrite Ek. done.
    + rewrite clock_mret by done. unfold csr_is_busy, next_mret_state. by rewrite (cc_busy _ _ Hk), Hm.
    + rewrite clock_trap by done. unfold csr_is_busy, next_trap_state. by rewrite (cc_busy _ _ Hk), Ht.
  - rewrite clock_finished, Hf by done. unfold next_test_finished. by rewrite Hs.
  - rewrite clock_pc by done. unfold update_pc. by rewrite Hs.
  - rewrite clock_regs by done. cbn [registers_clock regfile]. unfold reg_we. by rewrite Hs.
  - exact Hk'.
Qed.

Lemma started_up i x :
  powered x -> RST_I i = true -> models (system_clock (system_reset i x)) (start_arch i x).
Proof.
  intros Hx Hi. pose proof Hx as [Hs Hb H0 Hr Hc Hw _].
  destruct (reset_edge i x.1 Hi Hs Hb Hc) as [Hre Er].
  pose proof (soc_reset_settled x (request_of x.1) Hx) as Hset. set (y := system_reset i x) in *.
  assert (Hid : idle (request_of y.1)) by (destruct (re_bus _ _ Hre) as (_ & E2 & E3 & E4 & E5); done).
  destruct (soc_idle RAM_WORDS 0 y.2 (start_image x) false (request_of y.1) Hset) as [Hack Hset']; [apply Hid|apply Hid|].
  destruct (start_clock y.1 y.2 _ Hre Hack) as (Ez & Hrest & Hf & Hpc & Eg & Hk). rewrite <- surjective_pairing in *.
  destruct Hk as [_ _ Hv Ht Hrnd]. split; try done.
  intros n _. cbn [start_arch x_]. by rewrite Eg, <- Er.
Qed.
End Start.

(** * Concrete systems

    A core at rest in a SoC of a given memory, for examples: nothing is under
    way in any part. *)

Definition idle_alu : alu := Alu 0 false 0 0 0 0 0 0 0 false false false.
Definition idle_bus : bus := Bus 0 0 false 0 0 0 false false false.
Definition idle_csr (k : cregs) : csr :=
  Csr (mie k) (mtie k) (tags_on k) (fetch_tags_on k) (skip_sp k) false false false 0 0 (GenericRam (file k) 0) 1.

Definition idle_cpu (st : cpu_state) (x : Z -> Z) (p : Z) (k : cregs) : cpu :=
  Cpu st p 0 false false false false false false 0 0 MRET_STATE_IDLE TRAP_STATE_IDLE idle_alu idle_bus
    (Registers x 0 0) (idle_csr k).

Definition idle_soc (m : image) (q : bool) : soc :=
  Soc (WbRam STATE_IDLE false q false false false (GenericRam (words m) 0) (GenericRam (tags m) 0))
    (WbTimer 0 0 0 1 0 false false) (WbUart false 0 (divider m) false 0x3ff 0 0 false false) false.

Definition idle_system (a : arch image) : system soc :=
  (idle_cpu STATE_PRE_FETCH (x_ a) (apc a) (acsr a), idle_soc (amem a) (tag_line a)).

(** Registers and memory hold words. *)
Record arch_ok (a : arch image) : Prop := {
  ao_pc : u32_range (apc a) /\ apc a mod 2 = 0;
  ao_x0 : x_ a 0 = 0;
  ao_regs n : u32_range (x_ a n);
  ao_csrs n : u32_range (file (acsr a) n);
  ao_image : image_ok (amem a);
}.

Section Example.
Context (RAM_WORDS : Z).
#[local] Instance example_slave : Slave soc := soc_slave RAM_WORDS.

Lemma idle_settled m q : image_ok m -> soc_settled 0 (idle_soc m q) m q.
Proof. intros Hm. split; try done. cbn. by rewrite orb_false_r. Qed.

Lemma idle_models a : arch_ok a -> models (idle_system a) a.
Proof.
  intros [Hp H0 Hr Hk Hm]. split; try done. by apply idle_settled.
Qed.

(** The same before reset. *)
Lemma idle_powered a : arch_ok a ->
  powered (idle_cpu STATE_RESET (x_ a) (apc a) (acsr a), idle_soc (amem a) false).
Proof. intros [Hp H0 Hr Hk [Hw _]]. split; try done; intros n _; [apply Hr|apply Hk]. Qed.
End Example.

(** ** Programs *)

(** A program of words at the reset address in otherwise empty memory. *)
Definition program (l : list Z) : image := Image (fun i => w32 (default 0 (l !! Z.to_nat (i - 1024)))) (fun _ => 0) 16.

Lemma program_ok l : image_ok (program l).
Proof. split; [intros i; apply (wrap_range 32); lia|done]. Qed.

Definition quiet_csrs : cregs := Cregs (fun _ => 0) false false false false false.
(** Interrupts and the checks of data accesses on. *)
Definition guarded_csrs : cregs := Cregs (fun i => if i =? M_TVEC then 0x2000 else 0) true false true false false.

Definition example_arch (k : cregs) (x : Z -> Z) (l : list Z) : arch image :=
  Arch (fun n => if n =? 0 then 0 else w32 (x n)) VECTOR_RESET k (program l) false.

Lemma example_ok k x l : k = quiet_csrs \/ k = guarded_csrs -> arch_ok (example_arch k x l).
Proof.
  intros Hk. split; [done|done| | |apply program_ok].
  - intros n. cbn. destruct (n =? 0); [done|apply (wrap_range 32); lia].
  - intros n. destruct Hk as [->| ->]; cbn; [done|]. by destruct (n =? M_TVEC).
Qed.
