(* ===== verification/RtlHart.v ===== *)
(** * The memory the software is verified against is the one in hardware

    Machine models memory as a map of bytes and one of tags, and the routines
    of the C library are verified on it.  Here the loads, stores and tag
    accesses of Machine are shown to be what the instructions of the core do
    on the tagged RAM of the SoC, at its full size of 64 megabytes. *)

From S2P Require Import Prelude Machine RtlAlu RtlAluFacts RtlDecoder RtlDecoderFacts RtlCpu RtlSystem RtlSpec.
From S2P Require Import RtlCoreFacts RtlUart RtlMemory.
From S2P Require RtlSoc.
Import Alu Decoder.

Abbreviation WORDS := (2 ^ 24).
#[global] Instance full_slave : Slave RtlSoc.soc := RtlSoc.soc_slave WORDS.
#[global] Instance full_laws : SlaveLaws RtlSoc.soc image := SocLaws WORDS.

(** ** The same memory *)

Record same_memory (h : hart) (m : image) : Prop := {
  sm_byte o : 0 <= o < 2 ^ 26 -> byte_at h o = byte_of (o mod 4) (words m (o / 4));
  sm_tag g : 0 <= g < 2 ^ 22 -> tag_at h g = tags m g;
  sm_tag_range g : 0 <= tags m g < 16;
  sm_ok : image_ok m;
}.

(** ** Addresses *)

Section Address.
Context (p : Z) (Hp : u32_range p) (Hr : in_ram p = true).

Lemma ram_pointer : exists t o, ok_ptr t o /\ p = mkptr t o.
Proof.
  exists (p / 2 ^ 28), (p mod 2 ^ 26). unfold in_ram, RtlSoc.wb_periph_select in Hr. rewrite slice_eq in Hr by lia.
  unfold u32_range, ok_ptr, mkptr in *. apply Z.eqb_eq in Hr. zlia.
Qed.
End Address.

Lemma index_ptr t o : ok_ptr t o -> RtlSoc.ram_index WORDS (mkptr t o) = o / 4.
Proof.
  intros [Ht Ho]. unfold RtlSoc.ram_index. change (RtlSoc.log2 WORDS) with 24. rewrite slice_eq by lia. unfold mkptr. zlia.
Qed.
Lemma granule_ptr t o : ok_ptr t o -> RtlSoc.current_granule_addr WORDS (mkptr t o) = o / 16.
Proof.
  intros [Ht Ho]. unfold RtlSoc.current_granule_addr. change (RtlSoc.log2 (RtlSoc.GRANULES_NUM WORDS)) with 22.
  change (RtlSoc.log2 RtlSoc.GRANULE_SIZE_BYTES) with 4. rewrite slice_eq by lia. unfold mkptr. zlia.
Qed.
Lemma tag_ptr t o : ok_ptr t o -> RtlSoc.current_tag (mkptr t o) = t.
Proof. intros [Ht Ho]. unfold RtlSoc.current_tag. rewrite slice_eq by lia. unfold mkptr. zlia. Qed.
Lemma select_ptr t o : ok_ptr t o -> RtlSoc.wb_periph_select (mkptr t o) = RtlSoc.WB_ACCESS_RAM.
Proof. intros [Ht Ho]. unfold RtlSoc.wb_periph_select. rewrite slice_eq by lia. unfold mkptr. zlia. Qed.
Lemma low_ptr t o : mkptr t o mod 4 = o mod 4.
Proof. unfold mkptr. zlia. Qed.

(** ** Reading *)

Lemma word_bytes d : u32_range d ->
  byte_of 0 d + byte_of 1 d * 2 ^ 8 + byte_of 2 d * 2 ^ 16 + byte_of 3 d * 2 ^ 24 = d.
Proof. intros Hd. unfold byte_of, u32_range in *. zlia. Qed.

Section Accesses.
Context (h : hart) (m : image) (t o : Z).
Hypothesis Hm : same_memory h m.
Hypothesis Hp : ok_ptr t o.

Lemma read_byte_same : read_image WORDS m (mkptr t o) SEL_BYTE = byte_at h o.
Proof.
  unfold read_image, read_part. cbn [Z.eqb Pos.eqb]. rewrite index_ptr, low_ptr by done. symmetry. apply Hm, Hp.
Qed.

Lemma word_offset_ptr : word_offset (mkptr t o) = 4 * (o / 4).
Proof.
  unfold word_offset. rewrite mkptr_offset by done. rewrite shiftl_mul, shiftr_div by lia. change (2 ^ 2) with 4. lia.
Qed.

Lemma read_word_same : read_image WORDS m (mkptr t o) SEL_WORD = word_at h (word_offset (mkptr t o)).
Proof.
  unfold read_image, read_part. cbn [Z.eqb Pos.eqb]. rewrite index_ptr, word_offset_ptr by done. unfold word_at.
  destruct Hp as [_ Ho]. rewrite !(sm_byte _ _ Hm) by zlia.
  replace (4 * (o / 4) / 4) with (o / 4) by zlia. replace ((4 * (o / 4) + 1) / 4) with (o / 4) by zlia.
  replace ((4 * (o / 4) + 2) / 4) with (o / 4) by zlia. replace ((4 * (o / 4) + 3) / 4) with (o / 4) by zlia.
  replace (4 * (o / 4) mod 4) with 0 by zlia. replace ((4 * (o / 4) + 1) mod 4) with 1 by zlia.
  replace ((4 * (o / 4) + 2) mod 4) with 2 by zlia. replace ((4 * (o / 4) + 3) mod 4) with 3 by zlia.
  symmetry. apply word_bytes, (ok_words _ (sm_ok _ _ Hm)).
Qed.

Lemma read_tag_same : read_image WORDS m (mkptr t o) SEL_TAG = tag_at h (o / 16).
Proof.
  unfold read_image. cbn [Z.eqb Pos.eqb]. rewrite granule_ptr by done. destruct Hp as [_ Ho].
  rewrite (sm_tag _ _ Hm) by zlia. apply Z.mod_small, Hm.
Qed.

Lemma mismatch_same : wrong_tag WORDS m (mkptr t o) = negb (t =? tag_at h (o / 16)).
Proof.
  unfold wrong_tag. rewrite granule_ptr, tag_ptr by done. destruct Hp as [_ Ho]. by rewrite (sm_tag _ _ Hm) by zlia.
Qed.

(** ** Writing *)

Lemma byte_written k k' v d :
  0 <= k < 4 -> 0 <= k' < 4 -> u32_range d ->
  byte_of k' (with_byte k v d) = if k' =? k then w8 v else byte_of k' d.
Proof.
  intros Hk Hk' Hd. unfold u32_range in Hd. pose proof (wrap_range 8 v ltac:(lia)) as Hv. fold (w8 v) in Hv.
  unfold with_byte, byte_of. generalize dependent (w8 v). intros b Hb.
  assert (E : k = 0 \/ k = 1 \/ k = 2 \/ k = 3) by lia. assert (E' : k' = 0 \/ k' = 1 \/ k' = 2 \/ k' = 3) by lia.
  destruct E as [->|[->|[->| ->]]], E' as [->|[->|[->| ->]]]; cbn [Z.eqb Pos.eqb]; zlia.
Qed.

Lemma write_byte_same v :
  u32_range v -> same_memory (set_ram (put_byte (ram h) o v) h) (write_image WORDS m (mkptr t o) v SEL_BYTE).
Proof.
  intros Hv. pose proof (image_written WORDS m (mkptr t o) v SEL_BYTE (sm_ok _ _ Hm) Hv eq_refl) as Hok. revert Hok.
  unfold write_image, write_ram, write_part. rewrite select_ptr, index_ptr, low_ptr by done. cbn [Z.eqb Pos.eqb].
  destruct Hp as [_ Ho]. replace (o / 4 <? WORDS) with true by zlia. intros Hok. split; [|apply Hm|apply Hm|done].
  intros o' Ho'. rewrite byte_at_put. cbn [words]. unfold put.
  replace (byte_at (set_ram (ram h) h) o') with (byte_at h o') by (by destruct h). rewrite (sm_byte _ _ Hm) by done.
  destruct (Z.eqb_spec (o' / 4) (o / 4)) as [E|E].
  - rewrite byte_written by (apply (ok_words _ (sm_ok _ _ Hm)) || zlia). rewrite E.
    case_decide; destruct (Z.eqb_spec (o' mod 4) (o mod 4)); try done; zlia.
  - rewrite decide_False by congruence. done.
Qed.

Lemma write_word_same v :
  u32_range v ->
  same_memory (set_ram (put_word (ram h) (word_offset (mkptr t o)) v) h) (write_image WORDS m (mkptr t o) v SEL_WORD).
Proof.
  intros Hv. pose proof (image_written WORDS m (mkptr t o) v SEL_WORD (sm_ok _ _ Hm) Hv eq_refl) as Hok. revert Hok.
  unfold write_image, write_ram, write_part. rewrite select_ptr, index_ptr, word_offset_ptr by done. cbn [Z.eqb Pos.eqb].
  destruct Hp as [_ Ho]. replace (o / 4 <? WORDS) with true by zlia. intros Hok. split; [|apply Hm|apply Hm|done].
  intros o' Ho'. rewrite byte_at_put_word. cbn [words]. unfold put.
  replace (byte_at (set_ram (ram h) h) o') with (byte_at h o') by (by destruct h). rewrite (sm_byte _ _ Hm) by done.
  destruct (Z.eqb_spec (o' / 4) (o / 4)) as [E|E].
  - rewrite decide_True by zlia. unfold byte_of, w8, wrap. rewrite shiftr_div by zlia.
    by replace (o' - 4 * (o / 4)) with (o' mod 4) by zlia.
  - rewrite decide_False by zlia. done.
Qed.

Lemma write_tag_same v :
  same_memory (set_tagram (<[o / 16 := Z.land v 0xf]> (tagram h)) h) (write_image WORDS m (mkptr t o) v SEL_TAG).
Proof.
  unfold write_image, write_ram. rewrite select_ptr, granule_ptr by done. cbn [Z.eqb Pos.eqb]. destruct Hp as [_ Ho].
  replace (o / 16 <? RtlSoc.GRANULES_NUM WORDS) with true by (unfold RtlSoc.GRANULES_NUM; zlia).
  split; [apply Hm| | |split; apply (sm_ok _ _ Hm)].
  - intros g Hg. unfold tag_at. cbn [tagram set_tagram tags]. unfold put. rewrite lookup_insert, land_15.
    case_decide; destruct (Z.eqb_spec g (o / 16)); try congruence; [done|]. by apply Hm.
  - intros g. cbn [tags]. unfold put. destruct (g =? o / 16); [|apply Hm]. zlia.
Qed.
End Accesses.

(** ** Instructions *)

Definition machine_load (f3 : Z) : Z -> Machine.M Z :=
  if f3 =? FUNC_LBU then load8 else if f3 =? FUNC_LT then load_tag else load32.
Definition machine_store (f3 : Z) : Z -> Z -> Machine.M unit :=
  if f3 =? FUNC_SB then store8 else if f3 =? FUNC_ST then store_tag else store32.

(** The memory, the line of the tag interrupt and the enable bit. *)
Record sees (h : hart) (a : arch image) : Prop := {
  see_memory : same_memory h (amem a);
  see_line : tag_irq h = tag_line a;
  see_enable : Machine.tags_en h = tags_on (acsr a);
}.

Lemma sees_goto h a nx : sees h a -> sees h (goto nx a).
Proof. by intros []. Qed.
Lemma sees_set_x h a rd v : sees h a -> sees h (set_x rd v a).
Proof. intros []. unfold set_x. by destruct (rd =? 0). Qed.

Section Instructions.
Context (h : hart) (a : arch image) (p : Z).
Hypothesis Hs : sees h a.
Hypothesis Hp : u32_range p.
Hypothesis Hr : in_ram p = true.

Lemma line_same f3 rs1 :
  f3 <> FUNC_LT -> skip_sp (acsr a) && (rs1 =? 2) = false ->
  line_after a (checks a f3 rs1) p = tag_irq h || Machine.tag_mismatch h p.
Proof.
  intros Hf Hsp. destruct (ram_pointer p Hp Hr) as (t & o & Ho & ->). destruct Hs as [Hm Hl He].
  unfold line_after, checks. change (in_mem (mkptr t o)) with (in_ram (mkptr t o)). rewrite Hr, Hsp, <- Hl, <- He.
  change (mem_mismatch (amem a) (mkptr t o)) with (wrong_tag WORDS (amem a) (mkptr t o)).
  rewrite (mismatch_same h _ t o Hm Ho), tag_mismatch_ptr by done. apply Z.eqb_neq in Hf. by rewrite Hf, andb_true_r.
Qed.

Lemma line_unchecked rs1 : line_after a (checks a FUNC_LT rs1) p = tag_irq h.
Proof. unfold line_after, checks. cbn [Z.eqb Pos.eqb negb andb]. rewrite andb_false_r, orb_false_r. symmetry. apply Hs. Qed.

Lemma sees_line q : sees (set_irq q h) (set_line q a).
Proof. destruct Hs as [[] ? ?]. by split. Qed.

Lemma machine_ptr : exists t o, ok_ptr t o /\ p = mkptr t o /\
  load8 p h = Ret (byte_at h o) (check_tag p h) /\ load_tag p h = Ret (tag_at h (o / 16)) h /\
  load32 p h = Ret (word_at h (word_offset p)) (check_tag p h) /\
  forall v, store8 p v h = Ret tt (set_ram (put_byte (ram h) o v) (check_tag p h)) /\
    store_tag p v h = Ret tt (set_tagram (<[o / 16 := Z.land v 0xf]> (tagram h)) h) /\
    store32 p v h = Ret tt (set_ram (put_word (ram h) (word_offset p) v) (check_tag p h)).
Proof.
  destruct (ram_pointer p Hp Hr) as (t & o & Ho & ->). exists t, o. split; [done|]. split; [done|].
  rewrite load8_ptr, load_tag_ptr by done. unfold load32, store32. rewrite mkptr_periph by done.
  split_and!; try done. intros v. by rewrite store8_ptr, store_tag_ptr by done.
Qed.

Lemma load_same nx f3 rd rs1 imm a' :
  w32 (x_ a rs1 + imm) = p -> f3 = FUNC_LW \/ f3 = FUNC_LT \/ f3 = FUNC_LBU ->
  f3 = FUNC_LT \/ skip_sp (acsr a) && (rs1 =? 2) = false ->
  executes nx a (LoadFrom f3 rd rs1 imm) a' ->
  exists v h', machine_load f3 p h = Ret v h' /\ sees h' a' /\
    a' = goto nx (set_x rd v (set_line (tag_irq h') a)).
Proof.
  intros Ep Hf Hsp Hex. destruct machine_ptr as (t & o & Ho & Et & E8 & Etag & E32 & _).
  inversion Hex as [| | | | |f rd' rs im d p' Hd Hdm| | | | |]. subst f rd' rs im a'. clear Hex. subst p'. rewrite Ep in *.
  specialize (Hdm Hr). pose proof (see_memory _ _ Hs) as Hm. unfold machine_load.
  assert (Hcheck : f3 <> FUNC_LT -> line_after a (checks a f3 rs1) p = tag_irq (check_tag p h)).
  { intros Hf3. apply line_same; [done|]. by destruct Hsp. }
  assert (Hsee : sees h (set_line (tag_irq h) a)) by (destruct Hs; by split).
  destruct Hf as [->|[->| ->]]; cbn [Z.eqb Pos.eqb] in *;
    [rewrite E32, Hcheck by done|rewrite Etag, line_unchecked|rewrite E8, Hcheck by done]; do 2 eexists;
    (split; [done|]); (split; [apply sees_goto, sees_set_x; apply sees_line || done|f_equal; f_equal]); rewrite Hdm.
  - rewrite Et. apply (read_word_same h _ t o Hm Ho).
  - rewrite Et. change (load_value FUNC_LT ?d) with (d mod 16).
    change (mem_read (amem a) (mkptr t o) (load_sel FUNC_LT)) with (read_image WORDS (amem a) (mkptr t o) SEL_TAG).
    rewrite (read_tag_same h _ t o Hm Ho), (sm_tag _ _ Hm) by (destruct Ho; zlia). apply Z.mod_small, Hm.
  - rewrite Et. change (load_value 4 ?d) with (w8 d).
    change (mem_read (amem a) (mkptr t o) (load_sel 4)) with (read_image WORDS (amem a) (mkptr t o) SEL_BYTE).
    rewrite (read_byte_same h _ t o Hm Ho), (sm_byte _ _ Hm) by apply Ho. apply Z.mod_mod. done.
Qed.

Lemma store_same nx f3 rs1 rs2 imm a' :
  w32 (x_ a rs1 + imm) = p -> f3 = FUNC_SB \/ f3 = FUNC_LW \/ f3 = FUNC_ST -> u32_range (x_ a rs2) ->
  f3 = FUNC_ST \/ skip_sp (acsr a) && (rs1 =? 2) = false ->
  executes nx a (StoreTo f3 rs1 rs2 imm) a' ->
  exists h', machine_store f3 p (x_ a rs2) h = Ret tt h' /\ sees h' a'.
Proof.
  intros Ep Hf Hv Hsp Hex. destruct machine_ptr as (t & o & Ho & Et & _ & _ & _ & Hst). specialize (Hst (x_ a rs2)) as (E8 & Etag & E32).
  inversion Hex as [| | | | | |f r1 r2 im p' sel m' r k k'| | | |]. subst f r1 r2 im a'. clear Hex. subst p'. rewrite Ep in *.
  pose proof (see_memory _ _ Hs) as Hm.
  assert (Hk : tags_on k' = tags_on (acsr a)) by (unfold k', k; by destruct (s_mtimecmp r)).
  assert (Hcheck : f3 <> FUNC_LT -> line_after a (checks a f3 rs1) p = tag_irq (check_tag p h)).
  { intros Hf3. apply line_same; [done|]. by destruct Hsp. }
  clearbody k'. unfold machine_store. subst m' sel. rewrite Ep.
  destruct Hf as [->|[->| ->]]; cbn [Z.eqb Pos.eqb] in *;
    [rewrite E8, Hcheck by done|rewrite E32, Hcheck by done|rewrite Etag, line_unchecked]; eexists;
    (split; [done|]); apply sees_goto; rewrite Et in *.
  - pose proof (write_byte_same h _ t o Hm Ho _ Hv) as []. split; [split; assumption|done|]. cbn. by rewrite Hk, <- (see_enable _ _ Hs).
  - pose proof (write_word_same h _ t o Hm Ho _ Hv) as []. split; [split; assumption|done|]. cbn. by rewrite Hk, <- (see_enable _ _ Hs).
  - pose proof (write_tag_same h _ t o Hm Ho (x_ a rs2)) as []. split; [split; assumption|done|]. cbn. by rewrite Hk, <- (see_enable _ _ Hs).
Qed.
End Instructions.
