(* ===== verification/RtlTop.v ===== *)
(** * The whole SoC and the harness that drives it

    soc.v with both bus masters: the core and the port for transactions from
    outside (src/rtl/bus/wb_ext.v), between which bus_master_selector_i
    chooses.  The module as clocked by its input pins is the Verilated model
    that the C++ harness of SocSim works on.  The harness loads programs
    through the port while the core is held in reset: such a write arrives in
    memory, and a read returns what memory holds.  The UART is the one of the
    hardware build; the simulation build has no divider register and logs the
    bytes instead. *)

From S2P Require Import Prelude RtlAlu RtlAluFacts RtlDecoder RtlCpu RtlSystem RtlCoreFacts RtlSoc RtlUart RtlMemory.
From S2P Require SocSim.
Import Alu Decoder.

Module H := SocSim.SocSim.

(** ** wb_ext *)

Record wb_ext := WbExt { tran_started : bool; tran_finished : bool; ext_data : Z; data_sel : Z; wb_we : bool }.

Definition wb_ext_reset : wb_ext := WbExt false false 0xC0017A1E 0 false.

Definition transaction_sel (size : Z) : Z :=
  if size =? 0 then SEL_BYTE else if size =? 1 then SEL_HALF else SEL_WORD.

Definition wb_ext_clock (size : Z) (we start clear ack : bool) (wb_data : Z) (e : wb_ext) : wb_ext :=
  let begins := start && negb (tran_started e) in
  let ends := tran_started e && ack in
  {| tran_started := if ends then false else if begins then true else tran_started e;
     tran_finished := if clear then false else if ends then true else tran_finished e;
     ext_data := if ends && negb (wb_we e) then wb_data else ext_data e;
     data_sel := if begins then transaction_sel size else data_sel e;
     wb_we := if ends then false else if begins then we else wb_we e |}.

(** ** soc *)

Record top := Top { cpu0 : cpu; devs : soc; ext0 : wb_ext; insn_counter : Z }.

(** A pin of one bit. *)
Definition high (v : Z) : bool := Z.testbit v 0.

(** The signals of the selected master; those for the tags are always the
    core's. *)
Definition master_request (p : H.inputs) (t : top) : request :=
  if high (H.bus_master_selector_i p) then
    let e := ext0 t in
    Request (H.ext_tran_addr_i p) (H.ext_tran_data_i p) (data_sel e) (wb_we e) (tran_started e) (tran_started e)
      (check_tags (cpu0 t)) (tags_irq_clear (csr_inst (cpu0 t)))
  else request_of (cpu0 t).

(** The acknowledgement to the port: never for an address without a
    device. *)
Definition wb_ext_ack (r : request) (s : soc) : bool :=
  let n := wb_periph_select (r_adr r) in
  if n =? WB_ACCESS_TIMER then timer_ack (timer s)
  else if n =? WB_ACCESS_RAM then ram_ack (ram s)
  else if n =? WB_ACCESS_UART then uart_ack (uart s) && r_cyc (routed WB_ACCESS_UART r)
  else false.

Section Top.
Context (RAM_WORDS : Z).

Definition core_pins (p : H.inputs) (t : top) : pins :=
  let r := master_request p t in
  let s := devs t in
  Pins (high (H.cpu_rst_i p)) (wb_cpu_ack r s) (wb_cpu_data r s) (timer_irq (timer s)) (irq (ram s))
    (timer_mtimecmp_accessed (routed WB_ACCESS_TIMER r)) false false false.

Definition top_clock (p : H.inputs) (t : top) : top :=
  let r := master_request p t in
  let s := devs t in
  let rst := high (H.rst_i p) in
  {| cpu0 := cpu_clock (core_pins p t) (cpu0 t);
     devs := if rst then soc_reset RAM_WORDS r s else soc_clock RAM_WORDS r s;
     ext0 := if rst then wb_ext_reset
       else wb_ext_clock (H.ext_tran_size_i p) (high (H.ext_tran_write_i p)) (high (H.ext_tran_start_i p))
         (high (H.ext_tran_clear_i p)) (wb_ext_ack r s) (wb_cpu_data r s) (ext0 t);
     insn_counter := if high (H.cpu_rst_i p) then 0
       else if bool_decide (state (cpu0 t) = STATE_DECODE) then w32 (insn_counter t + 1) else insn_counter t |}.

(** With the core as master and no reset this is the clock of [system]. *)
Lemma top_system p t :
  high (H.bus_master_selector_i p) = false -> high (H.rst_i p) = false -> high (H.cpu_rst_i p) = false ->
  (cpu0 (top_clock p t), devs (top_clock p t)) =
  @system_clock soc (soc_slave RAM_WORDS) (cpu0 t, devs t).
Proof. intros Hm Hr Hc. unfold top_clock, core_pins, master_request. by rewrite Hm, Hr, Hc. Qed.

(** ** The Verilated model *)

(** The pins at the last evaluation and the registers. *)
Record verilated := Verilated { last : H.inputs; model : top }.

Definition state_code (st : cpu_state) : Z :=
  match st with
  | STATE_RESET => 0 | STATE_FETCH => 1 | STATE_DECODE => 2 | STATE_EXEC => 3 | STATE_STORE2 => 5
  | STATE_LOAD2 => 6 | STATE_BRANCH2 => 7 | STATE_TRAP => 8 | STATE_SYSTEM => 9 | STATE_UPDATE_PC => 10
  | STATE_CSR1 => 11 | STATE_DEAD => 12 | STATE_PRE_FETCH => 13 | STATE_STORE1 => 14 | STATE_LOAD1 => 15
  | STATE_MRET_UPDATE_MSTATUS => 16 | STATE_MRET_READ_EPC => 17 | STATE_POST_EXEC => 18
  | STATE_MISALIGNED_ADDR => 19 | STATE_CSR2 => 20 | STATE_MRET => 21 | STATE_FETCH_MORE => 22
  | STATE_PREPAIR_UNALIGNED_FETCH => 23 | STATE_CPU_IDLE => 24
  end.

Definition on_core (f : cpu -> cpu) (v : verilated) : verilated :=
  let t := model v in Verilated (last v) (Top (f (cpu0 t)) (devs t) (ext0 t) (insn_counter t)).

Definition with_core_pc (p : Z) (c : cpu) : cpu :=
  Cpu (state c) p (pcnext c) (writeback_from_bus c) (branch_pc_from_alu c) (next_addr_from_csr c) (check_tags c)
    (exec_done c) (test_finished c) (parcel_low c) (parcel_high c) (mret_state c) (trap_state c) (alu_inst c)
    (bus_inst c) (reg_inst c) (csr_inst c).
Definition with_regfile (f : Z -> Z) (c : cpu) : cpu :=
  Cpu (state c) (pc c) (pcnext c) (writeback_from_bus c) (branch_pc_from_alu c) (next_addr_from_csr c) (check_tags c)
    (exec_done c) (test_finished c) (parcel_low c) (parcel_high c) (mret_state c) (trap_state c) (alu_inst c)
    (bus_inst c) (Registers f (regval1 (reg_inst c)) (regval2 (reg_inst c))) (csr_inst c).

(** The task write_word of the memories: beyond the last word it is lost. *)
Definition write_word (size i v : Z) (m : Z -> Z) : Z -> Z :=
  if (0 <=? i) && (i <? size) then put i (w32 v) m else m.

Definition write_ram_word (i v : Z) (x : verilated) : verilated :=
  let t := model x in
  let s := devs t in
  let b := ram s in
  Verilated (last x)
    (Top (cpu0 t)
      (Soc (WbRam (ram_state b) (ram_ack b) (irq b) (ram_we_r b) (tag_we_r b) (tag_mismatch b)
              (GenericRam (write_word RAM_WORDS i v (mem (ram0 b))) (data_o (ram0 b))) (tag0 b))
         (timer s) (uart s) (mux_ack s)) (ext0 t) (insn_counter t)).

(** Registers change at a rising edge of clk_i. *)
#[global] Instance rtl_model : H.Vsoc verilated := {|
  H.eval p v := Verilated p (if high (H.clk_i p) && negb (high (H.clk_i (last v))) then top_clock p (model v) else model v);
  H.cpu_get_state v := state_code (state (cpu0 (model v)));
  H.FETCH := state_code STATE_FETCH;
  H.ext_tran_ready_o v := tran_finished (ext0 (model v));
  H.ext_tran_data_o v := ext_data (ext0 (model v));
  H.ram_get_size v := 4 * RAM_WORDS;
  H.ram_write_word := write_ram_word;
  H.ram_read_word i v := mem (ram0 (ram (devs (model v)))) i;
  H.regfile_get_size v := 32;
  H.regfile_write_word i d := on_core (fun c => with_regfile (write_word 32 i d (regfile (reg_inst c))) c);
  H.regfile_read_word i v := regfile (reg_inst (cpu0 (model v))) i;
  H.vpc v := pc (cpu0 (model v));
  H.set_vpc p := on_core (with_core_pc p);
  H.cpu_valid_pc v :=
    let r := master_request (last v) (model v) in
    Z.b2z (bool_decide (state (cpu0 (model v)) = STATE_FETCH) && CYC_O (bus_inst (cpu0 (model v))) &&
           wb_cpu_ack r (devs (model v)));
  H.get_test_finished v := Z.b2z (test_finished (cpu0 (model v)));
  H.cpu_get_instruction_exec_count v := insn_counter (model v);
|}.

(** The memories keep the laws the harness relies on. *)
Lemma put_word size i j v m :
  0 <= j < size -> u32_range v -> write_word size j v m i = if i =? j then v else m i.
Proof.
  intros Hj Hv. unfold write_word. rewrite (proj2 (Z.leb_le 0 j)), (proj2 (Z.ltb_lt j size)) by lia.
  cbn [andb]. unfold put. by rewrite w32_small.
Qed.

#[global] Instance rtl_laws : H.VsocLaws verilated.
Proof.
  split; [|done|]; intros i j v x Hj Hv; [apply (put_word RAM_WORDS)|apply (put_word 32)]; try done.
  cbn [H.ram_get_size rtl_model] in Hj. lia.
Qed.

(** ** A transaction *)

(** The pins while the harness loads: the core in reset, the port master. *)
Record port_pins (p : H.inputs) (start clear : bool) : Prop := {
  pp_master : high (H.bus_master_selector_i p) = true;
  pp_rst : high (H.rst_i p) = false;
  pp_cpu_rst : high (H.cpu_rst_i p) = true;
  pp_start : high (H.ext_tran_start_i p) = start;
  pp_clear : high (H.ext_tran_clear_i p) = clear;
}.

(** In reset the core asks for no checks. *)
Definition held (c : cpu) : Prop := check_tags c = false /\ tags_irq_clear (csr_inst c) = false.

Lemma held_clock i c : RST_I i = true -> held (cpu_clock i c).
Proof. intros Hi. unfold cpu_clock. destruct (csr_request_f i c) as [[[en wr] ad] da]. rewrite Hi. by split. Qed.

(** Nothing under way at the port. *)
Definition port_idle (fin : bool) (e : wb_ext) : Prop :=
  tran_started e = false /\ tran_finished e = fin /\ wb_we e = false.

(** A word transaction under way. *)
Definition port_busy (we : bool) (e : wb_ext) : Prop :=
  tran_started e = true /\ tran_finished e = false /\ wb_we e = we /\ data_sel e = SEL_WORD.

Section Transaction.
Context (p : H.inputs) (m : image) (q : bool).

Lemma port_begins t :
  port_pins p true false -> held (cpu0 t) -> port_idle false (ext0 t) -> soc_settled 0 (devs t) m q ->
  H.ext_tran_size_i p = 2 ->
  let t' := top_clock p t in
  held (cpu0 t') /\ port_busy (high (H.ext_tran_write_i p)) (ext0 t') /\ soc_settled 0 (devs t') m q.
Proof.
  intros [Hm Hr Hc Hst Hcl] Hh (E1 & E2 & E3) Hs Hsz t'. split_and!.
  - by apply held_clock.
  - unfold t', top_clock, wb_ext_clock, port_busy. cbn [ext0]. rewrite Hr, Hst, Hcl, E1, Hsz. by cbn.
  - unfold t', top_clock. cbn [devs]. rewrite Hr. unfold master_request. rewrite Hm, E1. destruct Hh as [_ Hh]. rewrite Hh.
    destruct (soc_idle RAM_WORDS 0 (devs t) m q (Request (H.ext_tran_addr_i p) (H.ext_tran_data_i p) (data_sel (ext0 t)) (wb_we (ext0 t))
      false false (check_tags (cpu0 t)) false) Hs eq_refl eq_refl) as [_ Hs']. by rewrite andb_true_r in Hs'.
Qed.

Section Word.
Context (we : bool).
Hypothesis Hpins : port_pins p false false.
Hypothesis Ha : 0 <= H.ext_tran_addr_i p < 2 ^ 26.
Hypothesis Hd : u32_range (H.ext_tran_data_i p).

Definition port_request : request :=
  Request (H.ext_tran_addr_i p) (H.ext_tran_data_i p) SEL_WORD we true true false false.

Lemma port_request_eq t : held (cpu0 t) -> port_busy we (ext0 t) -> master_request p t = port_request.
Proof.
  intros [H1 H2] (E1 & _ & E3 & E4). unfold master_request. rewrite (pp_master _ _ _ Hpins). cbn.
  by rewrite H1, H2, E1, E3, E4.
Qed.

Lemma port_in_ram : wb_periph_select (H.ext_tran_addr_i p) = WB_ACCESS_RAM.
Proof. unfold wb_periph_select. rewrite slice_eq by lia. zlia. Qed.

Lemma port_ack s : wb_ext_ack port_request s = wb_cpu_ack port_request s.
Proof. unfold wb_ext_ack, wb_cpu_ack. cbn [r_adr port_request]. by rewrite port_in_ram. Qed.

(** Two clocks end it. *)
Lemma port_ends t :
  held (cpu0 t) -> port_busy we (ext0 t) -> soc_settled 0 (devs t) m q ->
  let t1 := top_clock p t in
  let t2 := top_clock p t1 in
  tran_finished (ext0 t1) = false /\ held (cpu0 t2) /\ port_idle true (ext0 t2) /\
  ext_data (ext0 t2) = (if we then ext_data (ext0 t) else read_image RAM_WORDS m (H.ext_tran_addr_i p) SEL_WORD) /\
  soc_settled 1 (devs t2)
    (if we then write_image RAM_WORDS m (H.ext_tran_addr_i p) (H.ext_tran_data_i p) SEL_WORD else m) q.
Proof.
  intros Hh Hb Hs t1 t2. pose proof Hpins as [Hm Hr Hc Hst Hcl]. pose proof port_in_ram as En.
  destruct (ram_word_access RAM_WORDS port_request m q (devs t) Hs) as (A1 & A2 & Ed & Hs2); [done|done|done|done|exact (andb_false_r we)|].
  cbn [port_request r_check andb r_we r_adr r_dat r_sel] in Ed, Hs2. rewrite orb_false_r in Hs2.
  pose proof (port_request_eq t Hh Hb) as Er. pose proof Hb as (E1 & E2 & E3 & E4).
  assert (Edev : devs t1 = soc_clock RAM_WORDS port_request (devs t)) by (unfold t1, top_clock; cbn [devs]; by rewrite Hr, Er).
  assert (Hext : tran_started (ext0 t1) = true /\ tran_finished (ext0 t1) = false /\ wb_we (ext0 t1) = we /\
    data_sel (ext0 t1) = SEL_WORD /\ ext_data (ext0 t1) = ext_data (ext0 t)).
  { unfold t1, top_clock, wb_ext_clock. cbn [ext0]. rewrite Hr, Er, Hst, Hcl, port_ack, A1, E1, E2, E3, E4. by cbn. }
  assert (Hh1 : held (cpu0 t1)) by (by apply held_clock).
  destruct Hext as (F1 & F2 & F3 & F4 & F5). assert (Er1 : master_request p t1 = port_request) by (by apply port_request_eq).
  rewrite <- Edev in A2, Ed, Hs2.
  split_and!; [done|by apply held_clock| | |].
  - unfold t2, top_clock, wb_ext_clock, port_idle. cbn [ext0]. rewrite Hr, Er1, Hst, Hcl, port_ack, A2, F1. done.
  - unfold t2, top_clock, wb_ext_clock. cbn [ext0]. rewrite Hr, Er1, Hst, Hcl, port_ack, A2, F1, F3, F5, Ed. by destruct we.
  - unfold t2, top_clock. cbn [devs]. rewrite Hr, Er1. exact Hs2.
Qed.
End Word.

Lemma port_clears t :
  port_pins p false true -> held (cpu0 t) -> port_idle true (ext0 t) -> soc_settled 1 (devs t) m q ->
  let t' := top_clock p t in
  held (cpu0 t') /\ port_idle false (ext0 t') /\ soc_settled 0 (devs t') m q.
Proof.
  intros [Hm Hr Hc Hst Hcl] [Hh1 Hh2] (E1 & E2 & E3) Hs t'. split_and!.
  - by apply held_clock.
  - unfold t', top_clock, wb_ext_clock, port_idle. cbn [ext0]. by rewrite Hr, Hst, Hcl, E1, E3.
  - unfold t', top_clock. cbn [devs]. rewrite Hr. unfold master_request. rewrite Hm, E1, Hh2.
    destruct (soc_idle RAM_WORDS 1 (devs t) m q (Request (H.ext_tran_addr_i p) (H.ext_tran_data_i p) (data_sel (ext0 t)) (wb_we (ext0 t))
      false false (check_tags (cpu0 t)) false) Hs eq_refl eq_refl) as [_ Hs']. by rewrite andb_true_r in Hs'.
Qed.
End Transaction.

(** ** The harness *)

(** The clock is low and the first half-cycle is past: the number of edges
    is odd. *)
Definition running (s : H.RV_SOC verilated) : Prop :=
  Z.odd (H.m_tickCnt s) = true /\ high (H.clk_i (last (H.m_soc s))) = false /\ H.m_ramSize s = 4 * RAM_WORDS.

Lemma odd_wrap x : Z.odd (w64 x) = Z.odd x.
Proof. rewrite <- !Z.bit0_odd. unfold w64, wrap. by rewrite Z.mod_pow2_bits_low by lia. Qed.

Lemma tick_top s :
  running s ->
  let s' := H.tick 1 s in
  running s' /\ model (H.m_soc s') = top_clock (H.pins s) (model (H.m_soc s)) /\ H.pins s' = H.with_clk 0 (H.pins s).
Proof.
  intros (Ho & Hl & Hr) s'.
  assert (Hz : (H.m_tickCnt s =? 0) = false) by (destruct (Z.eqb_spec (H.m_tickCnt s) 0) as [E|]; [by rewrite E in Ho|done]).
  assert (Es : s' = H.full_cycle s) by (unfold s'; cbn [H.tick]; by rewrite Hz).
  assert (Ht : Z.odd (w64 (w64 (H.m_tickCnt s + 1) + 1)) = true).
  { rewrite odd_wrap, Z.odd_add, odd_wrap, Z.odd_add, Ho. done. }
  rewrite Es. unfold H.full_cycle. destruct (negb _ && _); cbn [H.m_soc H.pins H.m_tickCnt H.m_ramSize H.edge];
    unfold running; cbn [H.eval rtl_model H.m_soc H.pins H.m_tickCnt H.m_ramSize model last H.with_clk H.clk_i];
    rewrite Hl; done.
Qed.

(** The harness loads: core in reset, port master and idle, memory [m]. *)
Record loading (s : H.RV_SOC verilated) (m : image) (q : bool) : Prop := {
  lo_running : running s;
  lo_pins : port_pins (H.pins s) false false;
  lo_core : held (cpu0 (model (H.m_soc s)));
  lo_port : port_idle false (ext0 (model (H.m_soc s)));
  lo_memory : soc_settled 0 (devs (model (H.m_soc s))) m q;
}.

(** The clock pin does not matter to a clock. *)
Lemma top_clock_clk c p t : top_clock (H.with_clk c p) t = top_clock p t.
Proof. done. Qed.

Lemma running_pins p s : running s -> running (H.set_pins p s).
Proof. done. Qed.

Lemma high_b2z b : high (Z.b2z b) = b.
Proof. by destruct b. Qed.

(** The start of a transaction. *)
Lemma transaction_starts s m q a d (we : bool) :
  loading s m q ->
  let s0 := H.start_ext a d (Z.b2z we) s in
  let t := model (H.m_soc s0) in
  running s0 /\ port_pins (H.pins s0) false false /\ H.ext_tran_addr_i (H.pins s0) = a /\ H.ext_tran_data_i (H.pins s0) = d /\
  held (cpu0 t) /\ port_busy we (ext0 t) /\ soc_settled 0 (devs t) m q.
Proof.
  intros [Hrun [Hp1 Hp2 Hp3 Hp4 Hp5] Hc Hp Hm] s0 t.
  set (p := H.with_tran a d H.EXT_ACCESS_WORD (Z.b2z we) 1 (H.pins s)).
  destruct (tick_top (H.set_pins p s)) as (Hr1 & Em & Ep); [done|]. cbn [H.pins H.set_pins H.m_soc] in Em, Ep.
  destruct (port_begins p m q (model (H.m_soc s))) as (B1 & B2 & B3); [by split|done|done|done|done|].
  cbn [p H.with_tran H.ext_tran_write_i] in B2. rewrite high_b2z in B2. rewrite <- Em in B1, B2, B3.
  unfold t, s0, H.start_ext. fold p. cbn [H.set_pins H.m_soc H.pins]. rewrite Ep. by split_and!.
Qed.

(** Its end, in both directions. *)
Lemma transaction s m q a d (we : bool) :
  loading s m q -> 0 <= a < 2 ^ 26 -> u32_range d ->
  let m' := if we then write_image RAM_WORDS m a d SEL_WORD else m in
  let s0 := H.start_ext a d (Z.b2z we) s in
  let s2 := H.tick 1 (H.tick 1 s0) in
  H.ext_tran_ready_o (H.m_soc s0) = false /\ H.ext_tran_ready_o (H.m_soc (H.tick 1 s0)) = false /\
  H.ext_tran_ready_o (H.m_soc s2) = true /\
  (we = false -> H.ext_tran_data_o (H.m_soc s2) = read_image RAM_WORDS m a SEL_WORD) /\
  loading (H.finish_ext s2) m' q.
Proof.
  intros Hl Ha Hd m' s0 s2. destruct (transaction_starts s m q a d we Hl) as (Hr0 & Hp0 & Ea & Ed & Hc0 & Hb0 & Hm0).
  fold s0 in Hr0, Hp0, Ea, Ed, Hc0, Hb0, Hm0. set (p := H.pins s0) in *.
  destruct (tick_top s0 Hr0) as (Hr1 & Em1 & Ep1). destruct (tick_top (H.tick 1 s0) Hr1) as (Hr2 & Em2 & Ep2).
  fold s2 in Hr2, Em2, Ep2. fold p in Em1, Ep1. rewrite Ep1, top_clock_clk, Em1 in Em2.
  destruct (port_ends p m q we Hp0 ltac:(by rewrite Ea) ltac:(by rewrite Ed) (model (H.m_soc s0)) Hc0 Hb0 Hm0)
    as (N1 & Hc2 & Hi2 & Edata & Hm2). rewrite Ea, Ed in Hm2. rewrite Ea in Edata. fold m' in Hm2.
  rewrite <- Em2 in Hc2, Hi2, Edata, Hm2. rewrite <- Em1 in N1.
  split_and!; [apply Hb0|exact N1|apply Hi2|intros ->; exact Edata|].
  set (pc := H.with_clear 1 (H.pins s2)). destruct (tick_top (H.set_pins pc s2)) as (Hr3 & Em3 & Ep3); [done|].
  assert (Hpc : port_pins pc false true).
  { unfold pc. rewrite Ep2, Ep1. destruct Hp0. by split. }
  cbn [H.pins H.set_pins H.m_soc] in Em3, Ep3.
  destruct (port_clears pc m' q (model (H.m_soc s2)) Hpc Hc2 Hi2 Hm2) as (C1 & C2 & C3). rewrite <- Em3 in C1, C2, C3.
  unfold H.finish_ext. fold pc. split; [done| |done|done|done]. cbn [H.set_pins H.pins]. rewrite Ep3.
  destruct Hpc. by split.
Qed.

Lemma in_range s m q a : loading s m q -> 0 <= a < 4 * RAM_WORDS -> a mod 4 = 0 ->
  forall A (k : H.result A), H.guarded a s k = k.
Proof.
  intros [(_ & _ & Er) _ _ _ _] Ha Hal A k. unfold H.guarded. rewrite Er, land_3, Hal.
  by rewrite (proj2 (Z.leb_gt _ _)) by lia.
Qed.

Lemma waited s0 fuel :
  (3 <= fuel)%nat -> let s2 := H.tick 1 (H.tick 1 s0) in
  H.ext_tran_ready_o (H.m_soc s0) = false -> H.ext_tran_ready_o (H.m_soc (H.tick 1 s0)) = false ->
  H.ext_tran_ready_o (H.m_soc s2) = true -> H.wait_ready fuel 20 s0 = Some s2.
Proof.
  intros Hf s2 N0 N1 Y2. apply (H.wait_ready_some 2); [lia|lia|done|].
  intros j Hj. destruct j as [|[|j]]; [done|done|lia].
Qed.

Lemma harness_writes s m q a d fuel :
  loading s m q -> (3 <= fuel)%nat -> RAM_WORDS <= 2 ^ 24 -> 0 <= a < 4 * RAM_WORDS -> a mod 4 = 0 -> u32_range d ->
  exists s', H.writeWordExt fuel a d s = H.Val tt s' /\ loading s' (write_image RAM_WORDS m a d SEL_WORD) q.
Proof.
  intros Hl Hf HW Ha Hal Hd. destruct (transaction s m q a d true Hl ltac:(lia) Hd) as (N0 & N1 & Y2 & _ & Hl').
  eexists. split; [|exact Hl']. unfold H.writeWordExt. rewrite (in_range _ _ _ _ Hl Ha Hal).
  change 1 with (Z.b2z true) at 1. rewrite (waited _ _ Hf N0 N1 Y2). by rewrite Y2.
Qed.

Lemma harness_reads s m q a fuel :
  loading s m q -> (3 <= fuel)%nat -> RAM_WORDS <= 2 ^ 24 -> 0 <= a < 4 * RAM_WORDS -> a mod 4 = 0 ->
  exists s', H.readWordExt fuel a s = H.Val (read_image RAM_WORDS m a SEL_WORD) s' /\ loading s' m q.
Proof.
  intros Hl Hf HW Ha Hal. destruct (transaction s m q a 0 false Hl ltac:(lia) ltac:(done)) as (N0 & N1 & Y2 & Ed & Hl').
  eexists. split; [|exact Hl']. unfold H.readWordExt. rewrite (in_range _ _ _ _ Hl Ha Hal).
  change 0 with (Z.b2z false) at 2. rewrite (waited _ _ Hf N0 N1 Y2), Y2. by rewrite Ed.
Qed.
End Top.

(** ** Sizes that are powers of two *)

Lemma log2_checked : forallb (fun k => log2 (2 ^ Z.of_nat k) =? Z.of_nat k) (seq 0 31) = true.
Proof. vm_compute. reflexivity. Qed.

Lemma log2_pow k : 0 <= k <= 30 -> log2 (2 ^ k) = k.
Proof.
  intros Hk. pose proof log2_checked as H. rewrite forallb_forall in H.
  specialize (H (Z.to_nat k) ltac:(apply in_seq; lia)). rewrite Z2Nat.id in H by lia. lia.
Qed.

Lemma index_pow k a : 0 <= k <= 24 -> 0 <= a < 4 * 2 ^ k -> ram_index (2 ^ k) a = a / 4.
Proof.
  intros Hk Ha. unfold ram_index. rewrite log2_pow, slice_eq by lia. change (2 ^ 2) with 4.
  replace (k - 1 + 2 - 2 + 1) with k by lia. apply Z.mod_small. split; [apply Z.div_pos; lia|apply Z.div_lt_upper_bound; lia].
Qed.

Lemma read_word_pow k m a :
  0 <= k <= 24 -> 0 <= a < 4 * 2 ^ k -> read_image (2 ^ k) m a SEL_WORD = words m (a / 4).
Proof. intros Hk Ha. unfold read_image, read_part. cbn [Z.eqb Pos.eqb]. by rewrite index_pow. Qed.

Lemma write_word_pow k m a d :
  0 <= k <= 24 -> 0 <= a < 4 * 2 ^ k ->
  write_image (2 ^ k) m a d SEL_WORD = Image (put (a / 4) d (words m)) (tags m) (divider m).
Proof.
  intros Hk Ha. assert (Hb : 2 ^ k <= 2 ^ 24) by (apply Z.pow_le_mono_r; lia).
  assert (Hs : wb_periph_select a = 0) by (unfold wb_periph_select; rewrite slice_eq by lia; zlia).
  unfold write_image, write_ram, write_part. rewrite Hs, index_pow by done. cbn [Z.eqb Pos.eqb].
  rewrite (proj2 (Z.ltb_lt (a / 4) (2 ^ k))); [done|apply Z.div_lt_upper_bound; lia].
Qed.

Lemma loading_words W s m q i : loading W s m q -> mem (ram0 (ram (devs (model (H.m_soc s))))) i = words m i.
Proof. intros Hl. destruct (lo_memory _ _ _ _ Hl) as [_ Hr _ _ _ _ _ _]. by rewrite (rr_words _ _ Hr). Qed.
