(* ===== verification/RtlProps.v ===== *)
(** * Properties of the hardware

    The core with its tagged memory, timer and UART: it starts, executes the
    instructions of the manual, traps on a wrong tag; its arithmetic unit,
    decoder and transmitter; the memory the software is verified on; and a
    word that stops it. *)

From S2P Require Import Prelude Machine RvIsa RtlAlu RtlAluFacts RtlDecoder RtlDecoderFacts RtlCpu.
From S2P Require Import RtlSystem RtlSpec RtlCoreFacts RtlFetch RtlExec RtlMem RtlTrap RtlPriv.
From S2P Require Import RtlRuns RtlUart RtlMemory RtlStart.
From S2P Require SocSim RtlSoc RtlHart RtlTop.
Import Alu Decoder.

Section Soc.
Context (RAM_WORDS : Z).
#[local] Instance props_slave : Slave RtlSoc.soc := RtlSoc.soc_slave RAM_WORDS.
#[local] Instance props_laws : SlaveLaws RtlSoc.soc image := SocLaws RAM_WORDS.


(** C2: Runs of the SoC refine runs of instructions.  If every state that
    instruction steps reach from [a] is one the core can go on from (its
    instruction lies in memory, is legal, and the device it addresses
    answers), then for every [n] the clocked system reaches a boundary at
    which it holds a state that [n] steps lead to. *)
Theorem soc_runs (n : nat) (y : system RtlSoc.soc) (a : arch image) :
  models y a -> goes_on a ->
  exists k a', models (Nat.iter k system_clock y) a' /\ nsteps steps n a a'.
Proof. apply core_runs. Qed.

(** C5: A load or store with a wrong tag is caught before the next
    instruction.  Interrupts and the checks are on, the instruction at pc
    accesses memory, it is not exempt, and the tag in its address differs from
    the tag of the granule.  Then, unless an interrupt comes first, the access
    is carried out and the next boundary after it is in the handler: pc is
    the trap vector, mcause says tag mismatch, mepc is the address of the
    next instruction, interrupts are off, and no register and no memory has
    changed since the access. *)
Theorem tag_violation_caught (y : system RtlSoc.soc) (a : arch image) (i : insn) :
  models y a -> fetchable a -> mie (acsr a) = true -> holds (amem a) (apc a) i ->
  let nx := next_pc_of (fetch_word (amem a) (apc a)) (apc a) in
  misuses (fetched a) (action_of i) ->
  (forall a1, executes nx (fetched a) (action_of i) a1 -> fetchable a1) ->
  leads (fun z => exists a1, models z a1 /\
    (interrupts (fetched a) a1 \/
     executes nx (fetched a) (action_of i) a1 /\
     leads (fun z2 => exists a2, models z2 a2 /\ caught a1 a2) (system_clock z))) (system_clock y).
Proof. apply misuse_trapped. Qed.



(** C25: A compressed shift by 32 or more, which is no instruction of RV32,
    stops the core.  Fetched with interrupts off it does not trap: from some
    clock on the core is in STATE_TRAP for good. *)
Theorem long_shift_stops (y : system RtlSoc.soc) (a : arch image) :
  models y a -> fetchable a -> mie (acsr a) = false ->
  let w := fetch_word (amem a) (apc a) in
  c_op w <> 3 -> long_shift (w mod 2 ^ 16) = true ->
  exists k, forall n, state (Nat.iter (n + k) system_clock y).1 = STATE_TRAP.
Proof. apply long_shift_stuck. Qed.
End Soc.

(** C12: The arithmetic unit.  Started with two words and an operation while
    idle, it stays busy for exactly [latency] clocks and then holds the value:
    for every operation but the signed remainder the one the manual gives.
    The signed remainder loses the sign of a negative dividend whenever it is
    not zero, but for three pairs of operands that are singled out. *)
Theorem alu_correct (x y op : Z) (r : alu) :
  u32_range x -> u32_range y -> busy r = false ->
  finishes x y op (latency op x y) (alu_value op x y) (alu_clock x y op true false r) /\
  (op <> ALUOP_REM -> alu_value op x y = alu_ref op x y) /\
  (if (s32 x <? 0) && negb (y =? 0) && negb (rem_special x y) && negb (Z.rem (s32 x) (s32 y) =? 0)
   then alu_value ALUOP_REM x y = - Z.rem (s32 x) (s32 y) /\ alu_value ALUOP_REM x y <> alu_ref ALUOP_REM x y
   else alu_value ALUOP_REM x y = alu_ref ALUOP_REM x y).
Proof.
  intros Hx Hy Hr. split; [by apply alu_finishes|]. split; [|exact (rem_hw_eq x y Hx Hy)].
  intros Hop. unfold alu_value. apply Z.eqb_neq in Hop. by rewrite Hop.
Qed.


(** C24: The UART sends the byte that is written.  With the transmitter idle
    and a divider [D] of at least 2, a write of the data register puts on the
    line, from the third clock on, a start bit, the eight bits of the byte,
    the lowest first, and a stop bit, each for exactly [D + 2] clocks.  The
    write is first acknowledged in the third clock of the stop bit, and after
    the frame the transmitter is idle with the line high. *)
Theorem uart_transmits (r : request) (D : Z) (u : RtlSoc.wb_uart) :
  data_write r -> 2 <= D < 2 ^ 32 - 1 -> uart_idle u -> RtlSoc.cfg_divider u = D ->
  (forall j i, 0 <= j < 10 -> 0 <= i < D + 2 ->
     RtlSoc.uart_tx_o (sent r u (2 + Z.to_nat (j * (D + 2) + i))).2 = frame (r_dat r) j) /\
  (forall n : nat, (n <= 2 + Z.to_nat (9 * (D + 2) + 2))%nat ->
     RtlSoc.uart_ack (sent r u n).2 = Nat.eqb n (2 + Z.to_nat (9 * (D + 2) + 2))) /\
  let z := sent r u (2 + Z.to_nat (10 * (D + 2))) in
  z.1 = false /\ uart_idle z.2 /\ RtlSoc.uart_tx_o z.2 = true.
Proof.
  intros Hr HD Hu Hdiv. split_and!.
  - intros j i. by apply sent_line.
  - intros n. by apply sent_ack.
  - destruct (sent_done r D Hr HD u Hu Hdiv) as (H1 & H2 & H3 & _). done.
Qed.

(** C9: The memory model of the software is the memory of the hardware.  A
    hart of Machine and a state of the core hold the same bytes, tags, line
    of the tag interrupt and enable bit.  When the core executes LW, LBU or
    the tag load at a RAM address, not exempt from the checks, it loads the
    value Machine's load32, load8 or load_tag returns; SW, SB and the tag
    store do what store32, store8 and store_tag do; and the two states agree
    again, the mismatch included. *)
Theorem software_memory (h : hart) (a a' : arch image) (p nx f3 rs1 imm : Z) :
  RtlHart.sees h a -> in_ram p = true -> w32 (x_ a rs1 + imm) = p ->
  f3 = 7 \/ skip_sp (acsr a) && (rs1 =? 2) = false ->
  (forall rd, f3 = 2 \/ f3 = 7 \/ f3 = 4 -> executes nx a (LoadFrom f3 rd rs1 imm) a' ->
     exists v h', RtlHart.machine_load f3 p h = Ret v h' /\ RtlHart.sees h' a' /\
       a' = goto nx (set_x rd v (set_line (tag_irq h') a))) /\
  (forall rs2, f3 = 0 \/ f3 = 2 \/ f3 = 7 -> u32_range (x_ a rs2) -> executes nx a (StoreTo f3 rs1 rs2 imm) a' ->
     exists h', RtlHart.machine_store f3 p (x_ a rs2) h = Ret tt h' /\ RtlHart.sees h' a').
Proof.
  intros Hs Hr Ep Hsp. assert (Hp : u32_range p) by (rewrite <- Ep; apply (wrap_range 32); lia). split.
  - intros rd Hf Hex. by apply (RtlHart.load_same h a p Hs Hp Hr nx f3 rd rs1 imm).
  - intros rs2 Hf Hv Hex. by apply (RtlHart.store_same h a p Hs Hp Hr nx f3 rs1 rs2 imm).
Qed.

(** C11: The harness loads memory through the port of the SoC.  While the core
    is held in reset and the port is the bus master, the external write of
    the C++ wrapper on the Verilated SoC returns, at the third look at the
    ready pin, and changes that word of the RAM and no other; an external
    read returns the word; and what the back door of the simulation reads is
    the same memory. *)
Theorem harness_memory (k : Z) (s : RtlTop.H.RV_SOC RtlTop.verilated) (m : image) (q : bool) (a b d : Z) (fuel : nat) :
  let W := 2 ^ k in
  0 <= k <= 24 -> RtlTop.loading W s m q -> (3 <= fuel)%nat ->
  0 <= a < 4 * W -> a mod 4 = 0 -> 0 <= b < 4 * W -> b mod 4 = 0 -> u32_range d ->
  let m' := Image (put (a / 4) d (words m)) (tags m) (divider m) in
  exists s1 s2, RtlTop.H.writeWordExt (H := RtlTop.rtl_model W) fuel a d s = RtlTop.H.Val tt s1 /\
    RtlTop.H.readWordExt (H := RtlTop.rtl_model W) fuel b s1 = RtlTop.H.Val (if b =? a then d else words m (b / 4)) s2 /\
    RtlTop.loading W s1 m' q /\ RtlTop.loading W s2 m' q /\
    forall i, RtlTop.H.ram_read_word (Vsoc := RtlTop.rtl_model W) i (RtlTop.H.m_soc s1) =
      if i =? a / 4 then d else RtlTop.H.ram_read_word (Vsoc := RtlTop.rtl_model W) i (RtlTop.H.m_soc s).
Proof.
  intros W Hk Hl Hf Ha Hal Hb Hbl Hd m'. assert (HW : W <= 2 ^ 24) by (apply Z.pow_le_mono_r; lia).
  destruct (RtlTop.harness_writes W s m q a d fuel Hl Hf HW Ha Hal Hd) as (s1 & E1 & Hl1).
  unfold W in Hl1. rewrite RtlTop.write_word_pow in Hl1 by done. fold W m' in Hl1.
  destruct (RtlTop.harness_reads W s1 m' q b fuel Hl1 Hf HW Hb Hbl) as (s2 & E2 & Hl2).
  unfold W in E2. rewrite RtlTop.read_word_pow in E2 by done. fold W in E2.
  exists s1, s2. split_and!; [done| |done|done|].
  - rewrite E2. cbn [words m']. unfold put. destruct (Z.eqb_spec (b / 4) (a / 4)), (Z.eqb_spec b a); (done || zlia).
  - intros i. cbn. by rewrite (RtlTop.loading_words _ _ _ _ i Hl1), (RtlTop.loading_words _ _ _ _ i Hl).
Qed.

(** ** Instances *)

(** A SoC of 64 kilobytes, as soc.v has it, with a program at the reset
    address. *)
#[local] Instance small_slave : Slave RtlSoc.soc := RtlSoc.soc_slave 16384.
#[local] Instance small_laws : SlaveLaws RtlSoc.soc image := SocLaws 16384.
Definition quiet (l : list Z) : arch image := example_arch quiet_csrs (fun _ => 0) l.
Definition guarded (l : list Z) : arch image := example_arch guarded_csrs (fun _ => 0x20000100) l.

Lemma quiet_models l : models (idle_system (quiet l)) (quiet l).
Proof. apply idle_models, example_ok. by left. Qed.
Lemma guarded_models l : models (idle_system (guarded l)) (guarded l).
Proof. apply idle_models, example_ok. by right. Qed.

Definition addi_5 : insn := OpI ADDI 1 0 5.
Definition spin : insn := Jal 0 0.
Definition load_x6 : insn := Load LW 5 6 0.


Definition spinning : arch image := quiet [word (encode spin)].

Lemma spinning_fetched : fetched spinning = spinning.
Proof.
  unfold fetched. cbv zeta.
  replace (straddles (amem (set_line (line_after spinning (fetch_tags_on (acsr spinning)) (apc spinning)) spinning))
    (apc (set_line (line_after spinning (fetch_tags_on (acsr spinning)) (apc spinning)) spinning))) with false by (by vm_compute).
  by replace (line_after spinning (fetch_tags_on (acsr spinning)) (apc spinning)) with false by (by vm_compute).
Qed.

Lemma spinning_stays a : steps spinning a -> a = spinning.
Proof.
  unfold steps. cbv zeta. rewrite spinning_fetched. intros [Hint|[_ Hex]]; [by inversion Hint|].
  assert (E : meaning (fetch_word (amem spinning) (apc spinning)) = Jump 0 Pc (Imm 0)) by (by vm_compute).
  rewrite E in Hex. by inversion Hex.
Qed.

Lemma spinning_goes_on : goes_on spinning.
Proof.
  intros a Ha. assert (E : a = spinning).
  { remember spinning as b eqn:Eb. induction Ha as [|x y z Hxy _ IH]; [done|]. subst x.
    apply spinning_stays in Hxy. subst y. by apply IH. }
  subst a. split; [split; [by vm_compute|intros Hs; by vm_compute in Hs]|]. by vm_compute.
Qed.

Lemma soc_runs_witness :
  exists k a', models (Nat.iter k system_clock (idle_system spinning)) a' /\ nsteps steps 3 spinning a'.
Proof. exact (soc_runs 16384 3 (idle_system spinning) spinning (quiet_models _) spinning_goes_on). Defined.

Lemma tag_violation_caught_witness :
  exists k a', models (Nat.iter k system_clock (idle_system (guarded [word (encode load_x6)]))) a' /\
    apc a' = 0x2000 /\ file (acsr a') M_CAUSE = CAUSE_TAG_MISMATCH /\ file (acsr a') M_EPC = 4100.
Proof.
  set (a := guarded [word (encode load_x6)]).
  assert (Hi : holds (amem a) (apc a) load_x6) by (left; split; [done|by vm_compute]).
  assert (Hf : fetchable a) by (split; [by vm_compute|intros Hs; by vm_compute in Hs]).
  assert (Hm : misuses (fetched a) (action_of load_x6)) by (by vm_compute).
  assert (Hn : forall a1, executes (next_pc_of (fetch_word (amem a) (apc a)) (apc a)) (fetched a) (action_of load_x6) a1 ->
    fetchable a1 /\ apc a1 = 4100 /\ file (acsr a1) M_TVEC = 0x2000).
  { intros a1 Hex. inversion Hex. split_and!; [split|..]; by vm_compute. }
  destruct (leads_reaches _ _ (tag_violation_caught 16384 (idle_system a) a load_x6 (guarded_models _) Hf eq_refl Hi Hm
    (fun a1 H => proj1 (Hn a1 H)))) as (k & a1 & _ & [Hint|[Hex Hl]]).
  - exfalso. inversion Hint as [timer t _ Hp _]. destruct timer; by vm_compute in Hp.
  - apply leads_reaches in Hl as (j & a2 & Hz & [C1 C2 C3 _ _ _]). destruct (Hn a1 Hex) as (_ & Ep & Ev).
    exists (j + S (S k))%nat, a2. rewrite Nat.iter_add, Nat.iter_succ, Nat.iter_succ_r.
    cbv zeta in C1. rewrite Ev in C1. rewrite Ep in C3. split; [exact Hz|done].
Defined.



(** C.SLLI x1, 32 *)
Lemma long_shift_stops_witness :
  exists k, forall n, state (Nat.iter (n + k) system_clock (idle_system (quiet [0x1082]))).1 = STATE_TRAP.
Proof.
  apply (long_shift_stops 16384 (idle_system (quiet [0x1082])) (quiet [0x1082]) (quiet_models _)).
  - split; [by vm_compute|intros Hs; by vm_compute in Hs].
  - done.
  - by vm_compute.
  - by vm_compute.
Defined.

(** -7 rem 2 gives 1 instead of -1. *)
Lemma alu_correct_witness :
  finishes 0xfffffff9 2 ALUOP_REM 33 1 (alu_clock 0xfffffff9 2 ALUOP_REM true false idle_alu) /\
  alu_ref ALUOP_REM 0xfffffff9 2 = 0xffffffff.
Proof. split; [|by vm_compute]. apply (proj1 (alu_correct 0xfffffff9 2 ALUOP_REM idle_alu ltac:(done) ltac:(done) eq_refl)). Defined.


Lemma uart_transmits_witness :
  let r := Request 0x8000004 0x55 SEL_WORD true true true false false in
  let u := RtlSoc.WbUart false 0 4 false 0x3ff 0 0 false false in
  RtlSoc.uart_tx_o (sent r u 9).2 = true /\ uart_idle (sent r u 62).2.
Proof.
  intros r u. destruct (uart_transmits r 4 u) as (H1 & _ & _ & H2 & _); [done|done|done|done|].
  split; [exact (H1 1 1 ltac:(lia) ltac:(lia))|exact H2].
Defined.

Definition empty_hart : hart := set_tags_csr 1 false reset_hart.

Lemma empty_sees : RtlHart.sees empty_hart (guarded []).
Proof.
  split; [|done|done]. split; [|done|done|apply program_ok]. intros o _.
  assert (E : words (amem (guarded [])) (o / 4) = 0) by (unfold guarded; cbn [amem example_arch program words]; by rewrite lookup_nil).
  rewrite E. unfold byte_of. rewrite Zdiv_0_l. unfold byte_at. change (ram empty_hart) with (∅ : gmap Z Z). by rewrite lookup_empty.
Qed.

Lemma software_memory_witness :
  let a := guarded [] in
  let a' := goto 4100 (set_x 5 0 (set_line true a)) in
  exists v h', RtlHart.machine_load 2 0x20000100 empty_hart = Ret v h' /\ RtlHart.sees h' a'.
Proof.
  intros a a'.
  destruct (proj1 (software_memory empty_hart a a' 0x20000100 4100 2 6 0 empty_sees eq_refl eq_refl (or_intror eq_refl)) 5)
    as (v & h' & Hv & Hs & _); [by left| |by exists v, h'].
  exact (@ex_load RtlSoc.soc image RtlHart.full_slave RtlHart.full_laws 4100 a 2 5 6 0 0 ltac:(done) (fun _ => eq_refl)).
Defined.

(** Pins: core in reset, port master. *)
Definition loading_pins : RtlTop.H.inputs := RtlTop.H.Inputs 0 0 1 1 0 0 0 0 0 0.
Definition loading_soc : RtlTop.H.RV_SOC RtlTop.verilated :=
  RtlTop.H.Soc (RtlTop.Verilated loading_pins
    (RtlTop.Top (idle_cpu STATE_RESET (fun _ => 0) 0 quiet_csrs) (idle_soc (program []) false)
      (RtlTop.WbExt false false 0 0 false) 0)) loading_pins 1 0 65536 32.

Lemma harness_memory_witness :
  exists s1 s2, RtlTop.H.writeWordExt (H := RtlTop.rtl_model (2 ^ 14)) 3 4096 0x13 loading_soc = RtlTop.H.Val tt s1 /\
    RtlTop.H.readWordExt (H := RtlTop.rtl_model (2 ^ 14)) 3 4096 s1 = RtlTop.H.Val 0x13 s2.
Proof.
  destruct (harness_memory 14 loading_soc (program []) false 4096 4096 0x13 3) as (s1 & s2 & E1 & E2 & _);
    [done| |lia|done|done|done|done|done|by exists s1, s2].
  split; [done|done|done|done|apply idle_settled, program_ok].
Defined.
